(* ===== verification/_CoqProject ===== *)
-Q . S2P
Prelude.v
Bytes.v
State.v
Riscv.v
Ring.v
Sums.v
Spinlock.v
Sched.v
Sleeplock.v
Mem.v
Kalloc.v
Bio.v
Log.v
Trans.v
Vm.v
Uvm.v
Ucopy.v
Pipe.v
Uart.v
Printf.v
Console.v
Virtio.v
Fs.v
Fsdisk.v
Balloc.v
Content.v
Filerw.v
Itable.v
Names.v
File.v
Fileread.v
Proc.v
Procmem.v
Reap.v
Exec.v
Args.v
Fcntl.v
Syscall.v
Fdesc.v
Fork.v
Trap.v
Usys.v
Umalloc.v
Uprogs.v
Grep.v
Sh.v
Shrun.v
Utests.v
