(* ===== verification/Prelude.v ===== *)
(** * xv6-riscv: a verification library for the kernel and its user programs

    This library models xv6-riscv, a small Unix for RISC-V in C: the whole of
    kernel/ and all of user/ but the test suite usertests.  Every function is a
    Rocq definition, with the source's name where it is free; the theorems
    say what the components promise each other, the processes and the user.

    ** How the code is modelled

    The globals of the kernel and the registers of the running hart are one record,
    [kstate] (file State); a C function is a function of type [K A], a state monad
    whose outcomes are [Ret], [Panic] (a call of panic()), [Swtch] (the thread left
    the CPU through swtch(), in sleep(), yield() or exit()), [Spin] (an endless wait
    for another hart) and [NoFuel].  A pointer into a table is an index, [None] the
    null pointer; physical memory is a map from addresses to bytes; disk blocks and
    buffers are lists of bytes, in which C structs are read and written at their
    offsets.  Integers are [Z] with the conversions of their C types written out
    ([u8] .. [u64], [i16], [i32]).  A function that waits in a loop around sleep()
    has a second definition, [f_from], that starts at the test of the loop: the
    thread goes on there when it is woken.

    One hart at a time is modelled, except in module Spinlock.Harts, where any
    number of harts run acquire() and release() in every interleaving.  Between two
    atomic pieces the other threads appear as what the caller may assume (a free
    lock, a thread_ok state) and as the steps a theorem names (a wakeup(), the
    device's transfer, an interrupt).

    A user program is a tree of system calls ([prog], file Usys): a call at each node,
    a branch for every answer.  A theorem about a program interprets the calls: it runs
    the program against a kernel, any that satisfies an interface ([Terminal]) or a
    concrete one with files and terminals ([serve]), or unfolds every fork into the tree
    of processes ([grow], file Shrun).

    ** The files

    - Prelude, Bytes, State, Ring, Sums: the monad with its loops and their rules,
      machine integers, structures in byte arrays, the state, ring buffers, totals.
    - Riscv (riscv.h), Spinlock (spinlock.c), Sched (the scheduling half of
      proc.c), Sleeplock (sleeplock.c), Mem (string.c), Kalloc (kalloc.c).
    - Vm, Uvm, Ucopy (vm.c): page tables, address spaces, copying to and from them.
    - Bio (bio.c), Log (log.c), Trans (both as fs.c uses them), Virtio
      (virtio_disk.c).  The disk is the class [Disk]: bio.c is proved against it,
      and [virtio_driver] shows that the driver with its device is an instance.
    - Fs (fs.c, all definitions), and its theorems: Fsdisk (inodes on disk), Balloc
      (the free map), Content, Filerw and Fileread (the contents of files), Itable
      (the inode table), Names (paths and directory entries).
    - Pipe (pipe.c), Uart (uart.c), Printf (printf.c), Console (console.c).
    - File (file.c), Proc (the rest of proc.c) with its theorems in Procmem (the memory
      of a process), Reap (exit() and wait()) and Fork (fork()), Exec (exec.c), Args (the
      stack exec() builds), Fcntl (fcntl.h), Syscall (syscall.c, sysfile.c, sysproc.c), Fdesc
      (descriptors), Trap (trap.c, plic.c, start.c, main.c).
    - Usys (user/user.h, ulib.c, printf.c), Umalloc (umalloc.c), Uprogs (cat.c, wc.c,
      echo.c, kill.c, ln.c, mkdir.c, rm.c, zombie.c, init.c, ls.c), Grep (grep.c), Sh (the
      parser of sh.c), Shrun (the rest of sh.c), Utests (forktest.c, stressfs.c, grind.c).

    ** What the theorems show

    - Crash safety: commit() and recovery are atomic and repeatable for a crash
      after any disk write; begin_op(), log_write() and end_op() keep the
      transaction well formed, and when they do not (log_reservation_gap).
    - Storage: bread() returns current contents and never recycles a buffer in use;
      the virtio driver moves exactly the block asked for; the free map and the
      inodes on disk are what balloc(), bfree(), iupdate() and ilock() say; inode
      and file reference counts agree with the references.
    - File contents: writei() replaces and appends the bytes asked for, as far as
      the disk has room, and changes nothing else; readi() reads them back.
    - Memory: kalloc()/kfree() implement a stack of free pages; mappages(),
      uvmalloc(), uvmcopy() and uvmfree() change exactly the mappings they should
      and leak no page; copyout(), copyin() and copyinstr() respect permissions and
      page boundaries; exec() leaves the
      argument strings and the array of pointers to them on the new stack.
    - Processes: fork() makes an equal process in memory of its own, or fails without
      loss; exit() leaves a zombie, hands its children to init and wakes its parent; wait()
      delivers the status and frees every page of the child once.
    - Concurrency: mutual exclusion of spinlocks, no lost wakeup, a fair scheduler,
      sleeplocks, pipes as queues for sleeping readers and writers.
    - Traps and devices: a system call from ecall back to user space, timer
      interrupts, the console line editor, the serial port's queue, printf().
    - User programs: printf() renders its format and atoi() reads numbers back; malloc()
      and free() keep disjoint blocks and lose none; cat, wc and grep compute the copy, the
      counts and the matching lines however read() cuts their input; grep's matcher
      accepts the language of its pattern; the shell's parser terminates, and a session
      of the shell makes the processes, with the files and pipes, that its lines denote;
      the random numbers of grind are those of the generator it cites.

    ** Fuel

    A C loop is [loop n body], which runs the body at most [n] times.  The bound is
    the number of buffers, pages, bytes or table entries that the loop walks, plus
    one; each theorem that says a function returns also shows that the bound is
    enough.  The mutually recursive functions of the shell's parser take the fuel
    [parse_fuel], enough for every line (parse_terminates).  In a user program a loop
    is [ploop n body]; a loop that reads until the end of its input, or that never ends,
    takes [n] as an argument, and the theorems ask only that it exceeds the number of
    reads or lines.  The walks of malloc() and free() round their list take a number
    of steps bounded by the number of headers ([turns]); umalloc_spec shows they end in time.

    ** Not modelled

    The assembly (swtch.S, trampoline.S, kernelvec.S, entry.S, initcode.S and the
    stubs usys.pl generates); its effect on the C code is the outcome [Swtch] and
    the entry states of usertrap() and kerneltrap().  Addresses that the linker
    chooses (end, etext, trampoline, uservec, userret, kernelvec) are parameters.
    The test suite user/usertests.c.  In the shell the nodes of a command are values,
    so malloc() does not fail there, and the commands it runs do not read from its own
    standard input.  Memory ordering: the fences of the code have no
    counterpart, since the harts of Spinlock.Harts are sequentially consistent. *)

From Stdlib Require Import ZArith Lia.
From stdpp Require Import base gmap list strings.

Declare Scope xv6_scope.
Delimit Scope xv6_scope with xv6.
#[global] Open Scope Z_scope.
#[global] Open Scope xv6_scope.

(** ** Machine integers

    A C integer is kept as a [Z]; [u8] .. [u64] are the reductions that an
    assignment to an unsigned type of that width performs, [i16] and [i32] the
    conversions to a signed type. *)

Definition u8 (z : Z) : Z := z mod 2 ^ 8.
Definition u16 (z : Z) : Z := z mod 2 ^ 16.
Definition u32 (z : Z) : Z := z mod 2 ^ 32.
Definition u64 (z : Z) : Z := z mod 2 ^ 64.
Definition i8 (z : Z) : Z := (z + 2 ^ 7) mod 2 ^ 8 - 2 ^ 7.
Definition i16 (z : Z) : Z := (z + 2 ^ 15) mod 2 ^ 16 - 2 ^ 15.
Definition i32 (z : Z) : Z := (z + 2 ^ 31) mod 2 ^ 32 - 2 ^ 31.

(** C truth values of an integer. *)
Definition truth (z : Z) : bool := negb (z =? 0).
Definition of_bool (b : bool) : Z := if b then 1 else 0.

Lemma truth_true z : z <> 0 -> truth z = true.
Proof. intros. unfold truth. by destruct (Z.eqb_spec z 0). Qed.

Lemma truth_of_bool b : truth (of_bool b) = b.
Proof. by destruct b. Qed.

(** [lia] with the defining equations of [/] and [mod] available. *)
Ltac zlia := Z.div_mod_to_equations; lia.

#[global] Arguments Z.testbit : simpl never.
#[global] Arguments Z.land : simpl never.
#[global] Arguments Z.lor : simpl never.
#[global] Arguments Z.shiftl : simpl never.
#[global] Arguments Z.shiftr : simpl never.
#[global] Arguments Z.add : simpl never.
#[global] Arguments Z.sub : simpl never.
#[global] Arguments Z.mul : simpl never.
#[global] Arguments Z.div : simpl never.
#[global] Arguments Z.modulo : simpl never.
#[global] Arguments Z.pow : simpl never.
#[global] Arguments u8 : simpl never.
#[global] Arguments u16 : simpl never.
#[global] Arguments u32 : simpl never.
#[global] Arguments u64 : simpl never.
#[global] Arguments i8 : simpl never.
#[global] Arguments i16 : simpl never.
#[global] Arguments i32 : simpl never.

Ltac unfold_ints := unfold u8, u16, u32, u64, i8, i16, i32 in *.

(** [ilia]: linear arithmetic with the machine-integer reductions unfolded. *)
Ltac ilia := unfold_ints; zlia.

Lemma u32_small z : 0 <= z < 2 ^ 32 -> u32 z = z.
Proof. intros; apply Z.mod_small; lia. Qed.

Lemma u64_small z : 0 <= z < 2 ^ 64 -> u64 z = z.
Proof. intros; apply Z.mod_small; lia. Qed.

Lemma u8_small z : 0 <= z < 2 ^ 8 -> u8 z = z.
Proof. intros; apply Z.mod_small; lia. Qed.

Lemma i32_small z : - 2 ^ 31 <= z < 2 ^ 31 -> i32 z = z.
Proof. intros. unfold i32. rewrite Z.mod_small; lia. Qed.

Lemma u8_range z : 0 <= u8 z < 2 ^ 8.
Proof. apply Z.mod_pos_bound. lia. Qed.

Lemma u32_range z : 0 <= u32 z < 2 ^ 32.
Proof. apply Z.mod_pos_bound. lia. Qed.

Lemma u64_range z : 0 <= u64 z < 2 ^ 64.
Proof. apply Z.mod_pos_bound. lia. Qed.

(** ** Bits *)

Lemma land_range n a b : 0 <= n -> 0 <= a < 2 ^ n -> 0 <= Z.land a b < 2 ^ n.
Proof.
  intros Hn Ha. split; [apply Z.land_nonneg; lia|].
  replace (Z.land a b) with (Z.land a b mod 2 ^ n); [apply Z.mod_pos_bound; lia|].
  rewrite <- Z.land_ones, <- Z.land_assoc, (Z.land_comm b), Z.land_assoc, Z.land_ones by lia.
  by rewrite Z.mod_small.
Qed.

Lemma lor_range n a b : 0 <= n -> 0 <= a < 2 ^ n -> 0 <= b < 2 ^ n -> 0 <= Z.lor a b < 2 ^ n.
Proof.
  intros Hn Ha Hb. split; [apply Z.lor_nonneg; lia|].
  replace (Z.lor a b) with (Z.lor a b mod 2 ^ n); [apply Z.mod_pos_bound; lia|].
  rewrite <- Z.land_ones, Z.land_lor_distr_l, !Z.land_ones, !Z.mod_small by lia. done.
Qed.

Lemma bits_above s w n : 0 <= s < 2 ^ w -> 0 <= w <= n -> Z.testbit s n = false.
Proof.
  intros Hs Hn. rewrite <- (Z.mod_small s (2 ^ w)) by lia.
  apply Z.mod_pow2_bits_high. lia.
Qed.

(** The one bit of [Z.shiftl 1 i]. *)
Lemma bit_shiftl1 i n : 0 <= i -> Z.testbit (Z.shiftl 1 i) n = (n =? i).
Proof.
  intros. rewrite Z.shiftl_1_l. destruct (Z.eqb_spec n i) as [->|].
  - by apply Z.pow2_bits_true.
  - apply Z.pow2_bits_false. lia.
Qed.

(** Testing a one-bit mask, as [x & (1 << i)] does. *)
Lemma truth_land_bit s i : 0 <= i -> truth (Z.land s (Z.shiftl 1 i)) = Z.testbit s i.
Proof.
  intros. replace (Z.land s (Z.shiftl 1 i)) with (if Z.testbit s i then Z.shiftl 1 i else 0).
  - destruct (Z.testbit s i); [|done]. unfold truth. rewrite Z.shiftl_1_l.
    assert (0 < 2 ^ i) by lia. by destruct (Z.eqb_spec (2 ^ i) 0); [lia|].
  - apply Z.bits_inj'. intros n Hn. rewrite Z.land_spec, bit_shiftl1 by lia.
    destruct (Z.testbit s i) eqn:E; rewrite ?Z.bits_0, ?bit_shiftl1 by lia;
      destruct (Z.eqb_spec n i) as [->|]; rewrite ?E, ?andb_false_r; done.
Qed.

(** ** Outcomes and the state monad

    A kernel function is a function of the state [S] with one of these
    outcomes:
    - [Ret a s]   it returned [a] in state [s];
    - [Panic m]   it called panic(m);
    - [Swtch s]   it gave up the CPU: control left through swtch() in state [s];
    - [Spin]      it spins on a spinlock that another CPU holds;
    - [NoFuel]    the bound given to a loop of the model was reached. *)

Inductive outcome (S A : Type) : Type :=
| Ret (a : A) (s : S)
| Panic (msg : string)
| Swtch (s : S)
| Spin
| NoFuel.

Arguments Ret {S A} a s.
Arguments Panic {S A} msg.
Arguments Swtch {S A} s.
Arguments Spin {S A}.
Arguments NoFuel {S A}.

Definition M (S A : Type) : Type := S -> outcome S A.

Definition ret {S A} (a : A) : M S A := fun s => Ret a s.

Definition bind {S A B} (m : M S A) (f : A -> M S B) : M S B := fun s =>
  match m s with
  | Ret a s' => f a s'
  | Panic msg => Panic msg
  | Swtch s' => Swtch s'
  | Spin => Spin
  | NoFuel => NoFuel
  end.

Definition panic {S A} (msg : string) : M S A := fun _ => Panic msg.
Definition gets {S A} (f : S -> A) : M S A := fun s => Ret (f s) s.
Definition modify {S} (f : S -> S) : M S unit := fun s => Ret tt (f s).

Notation "'let!' x := m 'in' k" := (bind m (fun x => k))
  (at level 10, x pattern, m at level 200, k at level 200,
   format "'[v' 'let!'  x  :=  m  'in' '/' k ']'") : xv6_scope.
Notation "'do!' m ; k" := (bind m (fun _ => k))
  (at level 10, m at level 200, k at level 200,
   format "'[v' 'do!'  m ; '/' k ']'") : xv6_scope.

(** [for x in l: body], in list order. *)
Fixpoint for_each {S A} (l : list A) (body : A -> M S unit) : M S unit :=
  match l with
  | [] => ret tt
  | x :: l' => do! body x; for_each l' body
  end.

(** A [for] loop that returns from the function: [Some r] leaves the loop. *)
Fixpoint for_find {S A B} (l : list A) (body : A -> M S (option B)) : M S (option B) :=
  match l with
  | [] => ret None
  | x :: l' =>
      let! r := body x in
      match r with
      | Some b => ret (Some b)
      | None => for_find l' body
      end
  end.

(** A [while] loop with loop variables [x]: [inl x'] is the next iteration,
    [inr b] leaves the loop. [n] bounds the number of iterations. *)
Fixpoint loop {S A B} (n : nat) (body : A -> M S (A + B)) (x : A) : M S B :=
  match n with
  | O => fun _ => NoFuel
  | Datatypes.S n' =>
      let! r := body x in
      match r with
      | inl x' => loop n' body x'
      | inr b => ret b
      end
  end.

Section monad_laws.
Context {S A B C : Type}.

Lemma bind_ret_run (m : M S A) (f : A -> M S B) s a s' :
  m s = Ret a s' -> bind m f s = f a s'.
Proof. intros H. unfold bind. by rewrite H. Qed.

Lemma bind_panic_run (m : M S A) (f : A -> M S B) s msg :
  m s = Panic msg -> bind m f s = Panic msg.
Proof. intros H. unfold bind. by rewrite H. Qed.

Lemma bind_swtch_run (m : M S A) (f : A -> M S B) s s' :
  m s = Swtch s' -> bind m f s = Swtch s'.
Proof. intros H. unfold bind. by rewrite H. Qed.

Lemma bind_spin_run (m : M S A) (f : A -> M S B) s :
  m s = Spin -> bind m f s = Spin.
Proof. intros H. unfold bind. by rewrite H. Qed.

Lemma bind_assoc (m : M S A) (f : A -> M S B) (g : B -> M S C) s :
  bind (bind m f) g s = bind m (fun a => bind (f a) g) s.
Proof. unfold bind. by destruct (m s). Qed.

(** A returned value comes from both halves of a [bind]. *)
Lemma bind_Ret_inv (m : M S A) (f : A -> M S B) s b s' :
  bind m f s = Ret b s' -> exists a s1, m s = Ret a s1 /\ f a s1 = Ret b s'.
Proof. unfold bind. destruct (m s); naive_solver. Qed.
End monad_laws.

(** Two statements in sequence whose joint effect is known. *)
Lemma bind_seq2 {S A} (m1 m2 : M S unit) (f : M S A) s s' :
  (do! m1; m2) s = Ret tt s' -> (do! m1; do! m2; f) s = f s'.
Proof. unfold bind. destruct (m1 s) as [? s1| | | |]; try done. by intros ->. Qed.

Lemma bind_pair {S A B C} (m1 : M S A) (m2 : M S B) (f : A -> B -> M S C) s a b s' :
  (let! x := m1 in let! y := m2 in ret (x, y)) s = Ret (a, b) s' ->
  (let! x := m1 in let! y := m2 in f x y) s = f a b s'.
Proof.
  unfold bind. destruct (m1 s) as [x s1| | | |]; try done.
  destruct (m2 s1) as [y s2| | | |]; try done. by intros [= -> -> ->].
Qed.

(** Four statements in sequence whose joint effect is known. *)
Lemma bind_seq4 {S A} (m1 m2 m3 m4 : M S unit) (f : M S A) s s' :
  (do! m1; do! m2; do! m3; m4) s = Ret tt s' ->
  (do! m1; do! m2; do! m3; do! m4; f) s = f s'.
Proof.
  unfold bind. destruct (m1 s) as [? s1| | | |]; try done. destruct (m2 s1) as [? s2| | | |]; try done.
  destruct (m3 s2) as [? s3| | | |]; try done. by intros ->.
Qed.

Lemma for_each_app {S A} (l1 l2 : list A) (body : A -> M S unit) s :
  for_each (l1 ++ l2) body s = (do! for_each l1 body; for_each l2 body) s.
Proof.
  revert s. induction l1 as [|x l1 IH]; intros s; [done|].
  simpl. rewrite bind_assoc. unfold bind at 1 2. destruct (body x s); auto.
Qed.

Section loop_laws.
Context {S A B : Type}.

Lemma loop_next n (body : A -> M S (A + B)) x x' s s' :
  body x s = Ret (inl x') s' -> loop (Datatypes.S n) body x s = loop n body x' s'.
Proof. intros H. cbn [loop]. unfold bind. by rewrite H. Qed.

Lemma loop_exit n (body : A -> M S (A + B)) x b s s' :
  body x s = Ret (inr b) s' -> loop (Datatypes.S n) body x s = Ret b s'.
Proof. intros H. cbn [loop]. unfold bind. by rewrite H. Qed.
End loop_laws.

(** Run the first statement of a sequence with a lemma that says what it
    returns, leaving its side conditions. *)
Ltac step_with lem := erewrite bind_ret_run; [| eapply lem]; cbv beta.

(** Split a hypothesis that a sequence of statements returned. *)
Ltac binv H :=
  let a := fresh "r" in let s := fresh "k" in let E := fresh "E" in
  apply bind_Ret_inv in H; destruct H as (a & s & E & H).

