(* ===== verification/Bytes.v ===== *)
(** * Bytes: little-endian integers and byte arrays

    The kernel overlays C structs on byte buffers: the log header, the super
    block, disk inodes, directory entries and indirect blocks are all read and
    written through pointers into [b->data].  A buffer is a [list Z] of byte
    values; [rd] and [wr] are the loads and stores of an [n]-byte integer at an
    offset, in RISC-V's little-endian order. *)

From Stdlib Require Import ZArith Lia.
From stdpp Require Import base list.
From S2P Require Import Prelude.

Fixpoint le_bytes (n : nat) (z : Z) : list Z :=
  match n with
  | O => []
  | S n' => u8 z :: le_bytes n' (z / 256)
  end.

Fixpoint le_val (l : list Z) : Z :=
  match l with
  | [] => 0
  | b :: l' => b + 256 * le_val l'
  end.

(** The stored bytes at [off .. off + length bs) replaced by [bs]. *)
Definition splice (data : list Z) (off : nat) (bs : list Z) : list Z :=
  take off data ++ bs ++ drop (off + length bs) data.

Definition slice (data : list Z) (off n : nat) : list Z := take n (drop off data).

Definition rd (n : nat) (data : list Z) (off : nat) : Z := le_val (slice data off n).
Definition wr (n : nat) (data : list Z) (off : nat) (z : Z) : list Z :=
  splice data off (le_bytes n z).

Definition is_byte (b : Z) : Prop := 0 <= b < 256.

#[global] Instance is_byte_dec b : Decision (is_byte b).
Proof. unfold is_byte. apply _. Defined.

Lemma length_le_bytes n z : length (le_bytes n z) = n.
Proof. revert z. induction n; intros; simpl; auto. Qed.

Lemma le_bytes_bytes n z : Forall is_byte (le_bytes n z).
Proof.
  revert z. induction n as [|n IH]; intros z; constructor; [|apply IH].
  apply u8_range.
Qed.

Lemma le_val_bytes n z : le_val (le_bytes n z) = z mod 256 ^ Z.of_nat n.
Proof.
  revert z. induction n as [|n IH]; intros z.
  - simpl. by rewrite Z.mod_1_r.
  - simpl le_bytes. simpl le_val. rewrite IH.
    replace (Z.of_nat (S n)) with (Z.of_nat n + 1) by lia.
    rewrite Z.pow_add_r, Z.pow_1_r by lia.
    rewrite (Z.mul_comm (256 ^ _)), Z.rem_mul_r by lia. reflexivity.
Qed.

Lemma le_val_bytes_small n z : 0 <= z < 256 ^ Z.of_nat n -> le_val (le_bytes n z) = z.
Proof. intros. rewrite le_val_bytes. by apply Z.mod_small. Qed.

Lemma le_val_range l : Forall is_byte l -> 0 <= le_val l < 256 ^ Z.of_nat (length l).
Proof.
  induction 1 as [|b l Hb Hl IH]; simpl le_val; simpl length; [lia|].
  rewrite Nat2Z.inj_succ, Z.pow_succ_r by lia. unfold is_byte in Hb. nia.
Qed.

Lemma le_bytes_val l : Forall is_byte l -> le_bytes (length l) (le_val l) = l.
Proof.
  induction 1 as [|b l Hb Hl IH]; simpl; [done|]. unfold is_byte in Hb.
  f_equal.
  - unfold u8. change (2 ^ 8) with 256. rewrite Z.mul_comm, Z.mod_add, Z.mod_small; lia.
  - rewrite Z.mul_comm, Z.div_add, Z.div_small, Z.add_0_l by lia. apply IH.
Qed.

Lemma length_splice data off bs :
  (off + length bs <= length data)%nat -> length (splice data off bs) = length data.
Proof.
  intros. unfold splice. rewrite !length_app, length_take, length_drop. lia.
Qed.

Lemma splice_lookup data off bs i :
  (off + length bs <= length data)%nat ->
  splice data off bs !! i =
    if decide (off <= i < off + length bs)%nat then bs !! (i - off)%nat else data !! i.
Proof.
  intros. unfold splice. case_decide as Hd.
  - rewrite lookup_app_r; rewrite length_take; [|lia].
    rewrite lookup_app_l by lia. f_equal. lia.
  - destruct (decide (i < off)%nat).
    + rewrite lookup_app_l by (rewrite length_take; lia).
      by rewrite lookup_take_lt by lia.
    + rewrite lookup_app_r by (rewrite length_take; lia).
      rewrite length_take, lookup_app_r by lia.
      rewrite lookup_drop. f_equal. lia.
Qed.

Lemma slice_lookup data off n i :
  slice data off n !! i = if decide (i < n)%nat then data !! (off + i)%nat else None.
Proof.
  unfold slice. case_decide.
  - rewrite lookup_take_lt by lia. by rewrite lookup_drop.
  - by rewrite lookup_take_ge by lia.
Qed.

Lemma slice_splice_same data off bs :
  (off + length bs <= length data)%nat -> slice (splice data off bs) off (length bs) = bs.
Proof.
  intros. apply list_eq. intros i. rewrite slice_lookup. case_decide.
  - rewrite splice_lookup by lia. rewrite decide_True by lia. f_equal. lia.
  - symmetry. apply lookup_ge_None. lia.
Qed.

Lemma slice_splice_other data off bs off' n :
  (off + length bs <= length data)%nat ->
  (off' + n <= off \/ off + length bs <= off')%nat ->
  slice (splice data off bs) off' n = slice data off' n.
Proof.
  intros. apply list_eq. intros i. rewrite !slice_lookup. case_decide; [|done].
  rewrite splice_lookup by lia. by rewrite decide_False by lia.
Qed.

Lemma splice_all data bs : length bs = length data -> splice data 0 bs = bs.
Proof.
  intros. unfold splice. simpl. rewrite drop_ge by lia. by rewrite app_nil_r.
Qed.

Lemma splice_Forall (P : Z -> Prop) data off bs :
  Forall P data -> Forall P bs -> Forall P (splice data off bs).
Proof.
  intros. unfold splice. rewrite !Forall_app. eauto using Forall_take, Forall_drop.
Qed.

Lemma length_wr n data off z :
  (off + n <= length data)%nat -> length (wr n data off z) = length data.
Proof. intros. apply length_splice. rewrite length_le_bytes. lia. Qed.

Lemma rd_wr_same n data off z :
  (off + n <= length data)%nat -> 0 <= z < 256 ^ Z.of_nat n ->
  rd n (wr n data off z) off = z.
Proof.
  intros. unfold rd, wr. pose proof (length_le_bytes n z) as Hl.
  replace (slice _ off n) with (slice (splice data off (le_bytes n z)) off (length (le_bytes n z)))
    by (by rewrite Hl).
  rewrite slice_splice_same by lia. by apply le_val_bytes_small.
Qed.

Lemma rd_wr_other n data off z m off' :
  (off + n <= length data)%nat -> (off' + m <= off \/ off + n <= off')%nat ->
  rd m (wr n data off z) off' = rd m data off'.
Proof.
  intros. unfold rd, wr. rewrite slice_splice_other; rewrite ?length_le_bytes; auto.
Qed.

Lemma rd_range n data off :
  Forall is_byte data -> (off + n <= length data)%nat ->
  0 <= rd n data off < 256 ^ Z.of_nat n.
Proof.
  intros Hb Hl. unfold rd.
  replace n with (length (slice data off n)) at 3.
  - apply le_val_range. unfold slice. by apply Forall_take, Forall_drop.
  - unfold slice. rewrite length_take, length_drop. lia.
Qed.

Lemma wr_bytes n data off z : Forall is_byte data -> Forall is_byte (wr n data off z).
Proof. intros. apply splice_Forall; auto using le_bytes_bytes. Qed.

Create HintDb bytes.
#[export] Hint Resolve le_bytes_bytes splice_Forall wr_bytes : bytes.
Create Rewrite HintDb bytes_rw.
#[export] Hint Rewrite length_le_bytes : bytes_rw.
