(* ===== verification/State.v ===== *)
(** * State: the constants, structures and globals of the kernel

    The constants of param.h, memlayout.h, riscv.h and fs.h, the structures of
    proc.h, spinlock.h, sleeplock.h, buf.h, file.h and fs.h, and one record
    [kstate] that gathers the kernel's globals and the registers of the hart
    that is running.  [K A] is the monad of a kernel function that returns an
    [A].  For each field [f] of a record, [set_f v x] is [x] with that field
    replaced. *)

From Stdlib Require Import ZArith Lia.
From stdpp Require Import base gmap list strings.
From S2P Require Import Prelude Bytes.

(** ** param.h *)

Definition NPROC : Z := 64.
Definition NCPU : Z := 8.
Definition NOFILE : Z := 16.
Definition NFILE : Z := 100.
Definition NINODE : Z := 50.
Definition NDEV : Z := 10.
Definition ROOTDEV : Z := 1.
Definition MAXARG : Z := 32.
Definition MAXOPBLOCKS : Z := 10.
Definition LOGSIZE : Z := MAXOPBLOCKS * 3.
Definition NBUF : Z := MAXOPBLOCKS * 3.
Definition FSSIZE : Z := 2000.
Definition MAXPATH : Z := 128.
Definition USERSTACK : Z := 1.

(** ** riscv.h *)

Definition PGSIZE : Z := 4096.
Definition PGSHIFT : Z := 12.

(** [~(PGSIZE-1)] in 64 bits. *)
Definition PGMASK : Z := u64 (Z.lnot (PGSIZE - 1)).
Definition PGROUNDUP (sz : Z) : Z := Z.land (u64 (sz + PGSIZE - 1)) PGMASK.
Definition PGROUNDDOWN (a : Z) : Z := Z.land a PGMASK.

Definition PTE_V : Z := Z.shiftl 1 0.
Definition PTE_R : Z := Z.shiftl 1 1.
Definition PTE_W : Z := Z.shiftl 1 2.
Definition PTE_X : Z := Z.shiftl 1 3.
Definition PTE_U : Z := Z.shiftl 1 4.

Definition PA2PTE (pa : Z) : Z := u64 (Z.shiftl (Z.shiftr pa 12) 10).
Definition PTE2PA (pte : Z) : Z := u64 (Z.shiftl (Z.shiftr pte 10) 12).
Definition PTE_FLAGS (pte : Z) : Z := Z.land pte 0x3FF.

Definition PXMASK : Z := 0x1FF.
Definition PXSHIFT (level : Z) : Z := PGSHIFT + 9 * level.
Definition PX (level va : Z) : Z := Z.land (Z.shiftr va (PXSHIFT level)) PXMASK.

Definition MAXVA : Z := Z.shiftl 1 (9 + 9 + 9 + 12 - 1).

Definition SSTATUS_SPP : Z := Z.shiftl 1 8.
Definition SSTATUS_SPIE : Z := Z.shiftl 1 5.
Definition SSTATUS_SIE : Z := Z.shiftl 1 1.

Definition SATP_SV39 : Z := Z.shiftl 8 60.
Definition MAKE_SATP (pagetable : Z) : Z := Z.lor SATP_SV39 (Z.shiftr pagetable 12).

(** ** memlayout.h *)

Definition UART0 : Z := 0x10000000.
Definition UART0_IRQ : Z := 10.
Definition VIRTIO0 : Z := 0x10001000.
Definition VIRTIO0_IRQ : Z := 1.
Definition PLIC : Z := 0x0c000000.
Definition KERNBASE : Z := 0x80000000.
Definition PHYSTOP : Z := KERNBASE + 128 * 1024 * 1024.
Definition TRAMPOLINE : Z := MAXVA - PGSIZE.
Definition KSTACK (p : Z) : Z := TRAMPOLINE - (p + 1) * 2 * PGSIZE.
Definition TRAPFRAME : Z := TRAMPOLINE - PGSIZE.

(** ** fs.h *)

Definition ROOTINO : Z := 1.
Definition BSIZE : Z := 1024.
Definition FSMAGIC : Z := 0x10203040.
Definition NDIRECT : Z := 12.
Definition NINDIRECT : Z := BSIZE / 4.
Definition MAXFILE : Z := NDIRECT + NINDIRECT.
Definition DIRSIZ : Z := 14.

(** ** Identities of locks and of wait channels

    A C lock is a struct that lives inside the object it protects; here the
    lock objects are kept in maps indexed by which lock it is.  A wait channel
    is an address that sleep() and wakeup() compare; distinct objects have
    distinct addresses. *)

Inductive sleepid : Type :=
| SBuf (i : nat)      (**r bcache.buf[i].lock *)
| SInode (i : nat).   (**r itable.inode[i].lock *)

Inductive lockid : Type :=
| LKmem | LCons | LUart | LPr | LPid | LWait | LTicks | LBcache | LLog | LItable
| LFtable | LVdisk
| LProc (i : nat)     (**r proc[i].lock *)
| LSleep (s : sleepid) (**r the spinlock inside a sleeplock *)
| LPipe (pi : Z).     (**r pi->lock *)

Inductive chan : Type :=
| ChLog | ChTicks | ChConsR | ChUartR | ChDiskFree
| ChPipeR (pi : Z) | ChPipeW (pi : Z)   (**r &pi->nread and &pi->nwrite *)
| ChProc (i : nat)                      (**r a struct proc, in wait() *)
| ChSleep (s : sleepid)                 (**r a sleeplock *)
| ChBuf (i : nat).                      (**r a struct buf, in virtio_disk_rw() *)

#[global] Instance sleepid_eq_dec : EqDecision sleepid.
Proof. solve_decision. Defined.
#[global] Instance lockid_eq_dec : EqDecision lockid.
Proof. solve_decision. Defined.
#[global] Instance chan_eq_dec : EqDecision chan.
Proof. solve_decision. Defined.

#[global] Program Instance sleepid_countable : Countable sleepid :=
  inj_countable'
    (fun s => match s with SBuf i => (false, i) | SInode i => (true, i) end)
    (fun p => match p with (false, i) => SBuf i | (true, i) => SInode i end) _.
Next Obligation. by intros []. Qed.

Definition lockid_encode (l : lockid) : nat + (nat + (sleepid + Z)) :=
  match l with
  | LKmem => inl 0%nat | LCons => inl 1%nat | LUart => inl 2%nat | LPr => inl 3%nat
  | LPid => inl 4%nat | LWait => inl 5%nat | LTicks => inl 6%nat | LBcache => inl 7%nat
  | LLog => inl 8%nat | LItable => inl 9%nat | LFtable => inl 10%nat
  | LVdisk => inl 11%nat
  | LProc i => inr (inl i) | LSleep s => inr (inr (inl s)) | LPipe p => inr (inr (inr p))
  end.

Definition lockid_decode (n : nat + (nat + (sleepid + Z))) : lockid :=
  match n with
  | inl 0%nat => LKmem | inl 1%nat => LCons | inl 2%nat => LUart | inl 3%nat => LPr
  | inl 4%nat => LPid | inl 5%nat => LWait | inl 6%nat => LTicks | inl 7%nat => LBcache
  | inl 8%nat => LLog | inl 9%nat => LItable | inl 10%nat => LFtable
  | inl _ => LVdisk
  | inr (inl i) => LProc i | inr (inr (inl s)) => LSleep s | inr (inr (inr p)) => LPipe p
  end.

#[global] Program Instance lockid_countable : Countable lockid :=
  inj_countable' lockid_encode lockid_decode _.
Next Obligation. by intros []. Qed.


(** ** spinlock.h and sleeplock.h *)

Record spinlock : Type := mkSpinlock {
  sl_locked : Z;
  sl_name : string;
  sl_cpu : option Z  (**r the cpu holding the lock, by hart id *)
}.

Definition set_sl_locked (v : Z) (x : spinlock) : spinlock := mkSpinlock v (sl_name x) (sl_cpu x).
Definition set_sl_name (v : string) (x : spinlock) : spinlock := mkSpinlock (sl_locked x) v (sl_cpu x).
Definition set_sl_cpu (v : option Z) (x : spinlock) : spinlock := mkSpinlock (sl_locked x) (sl_name x) v.

(** The spinlock [lk] inside a sleeplock is the lock [LSleep s]. *)
Record sleeplock : Type := mkSleeplock {
  sk_locked : Z;
  sk_name : string;
  sk_pid : Z
}.

Definition set_sk_locked (v : Z) (x : sleeplock) : sleeplock := mkSleeplock v (sk_name x) (sk_pid x).
Definition set_sk_name (v : string) (x : sleeplock) : sleeplock := mkSleeplock (sk_locked x) v (sk_pid x).
Definition set_sk_pid (v : Z) (x : sleeplock) : sleeplock := mkSleeplock (sk_locked x) (sk_name x) v.

(** ** proc.h *)

Record context : Type := mkContext {
  ctx_ra : Z;
  ctx_sp : Z;
  ctx_s : list Z  (**r s0 .. s11 *)
}.

Definition set_ctx_ra (v : Z) (x : context) : context := mkContext v (ctx_sp x) (ctx_s x).
Definition set_ctx_sp (v : Z) (x : context) : context := mkContext (ctx_ra x) v (ctx_s x).
Definition set_ctx_s (v : list Z) (x : context) : context := mkContext (ctx_ra x) (ctx_sp x) v.

Record cpu : Type := mkCpu {
  c_proc : option nat;  (**r index of the running process in proc[] *)
  c_context : context;
  c_noff : Z;
  c_intena : Z
}.

Definition set_c_proc (v : option nat) (x : cpu) : cpu := mkCpu v (c_context x) (c_noff x) (c_intena x).
Definition set_c_context (v : context) (x : cpu) : cpu := mkCpu (c_proc x) v (c_noff x) (c_intena x).
Definition set_c_noff (v : Z) (x : cpu) : cpu := mkCpu (c_proc x) (c_context x) v (c_intena x).
Definition set_c_intena (v : Z) (x : cpu) : cpu := mkCpu (c_proc x) (c_context x) (c_noff x) v.

(** The supervisor registers of a hart that the C code reads and writes. *)
Record hart : Type := mkHart {
  h_tp : Z;
  h_sstatus : Z;
  h_sepc : Z;
  h_scause : Z;
  h_stval : Z;
  h_stvec : Z;
  h_satp : Z
}.

Definition set_h_tp (v : Z) (x : hart) : hart := mkHart v (h_sstatus x) (h_sepc x) (h_scause x) (h_stval x) (h_stvec x) (h_satp x).
Definition set_h_sstatus (v : Z) (x : hart) : hart := mkHart (h_tp x) v (h_sepc x) (h_scause x) (h_stval x) (h_stvec x) (h_satp x).
Definition set_h_sepc (v : Z) (x : hart) : hart := mkHart (h_tp x) (h_sstatus x) v (h_scause x) (h_stval x) (h_stvec x) (h_satp x).
Definition set_h_scause (v : Z) (x : hart) : hart := mkHart (h_tp x) (h_sstatus x) (h_sepc x) v (h_stval x) (h_stvec x) (h_satp x).
Definition set_h_stval (v : Z) (x : hart) : hart := mkHart (h_tp x) (h_sstatus x) (h_sepc x) (h_scause x) v (h_stvec x) (h_satp x).
Definition set_h_stvec (v : Z) (x : hart) : hart := mkHart (h_tp x) (h_sstatus x) (h_sepc x) (h_scause x) (h_stval x) v (h_satp x).
Definition set_h_satp (v : Z) (x : hart) : hart := mkHart (h_tp x) (h_sstatus x) (h_sepc x) (h_scause x) (h_stval x) (h_stvec x) v.

Inductive procstate : Type := UNUSED | USED | SLEEPING | RUNNABLE | RUNNING | ZOMBIE.

#[global] Instance procstate_eq_dec : EqDecision procstate.
Proof. solve_decision. Defined.

(** [lock] is the lock [LProc i] of the process at index [i]. *)
Record proc : Type := mkProc {
  p_state : procstate;
  p_chan : option chan;  (**r None is the null pointer *)
  p_killed : Z;
  p_xstate : Z;
  p_pid : Z;
  p_parent : option nat;
  p_kstack : Z;
  p_sz : Z;
  p_pagetable : Z;
  p_trapframe : Z;
  p_context : context;
  p_ofile : list (option nat);  (**r indices into ftable.file *)
  p_cwd : option nat;  (**r index into itable.inode *)
  p_name : list Z
}.

Definition set_p_state (v : procstate) (x : proc) : proc := mkProc v (p_chan x) (p_killed x) (p_xstate x) (p_pid x) (p_parent x) (p_kstack x) (p_sz x) (p_pagetable x) (p_trapframe x) (p_context x) (p_ofile x) (p_cwd x) (p_name x).
Definition set_p_chan (v : option chan) (x : proc) : proc := mkProc (p_state x) v (p_killed x) (p_xstate x) (p_pid x) (p_parent x) (p_kstack x) (p_sz x) (p_pagetable x) (p_trapframe x) (p_context x) (p_ofile x) (p_cwd x) (p_name x).
Definition set_p_killed (v : Z) (x : proc) : proc := mkProc (p_state x) (p_chan x) v (p_xstate x) (p_pid x) (p_parent x) (p_kstack x) (p_sz x) (p_pagetable x) (p_trapframe x) (p_context x) (p_ofile x) (p_cwd x) (p_name x).
Definition set_p_xstate (v : Z) (x : proc) : proc := mkProc (p_state x) (p_chan x) (p_killed x) v (p_pid x) (p_parent x) (p_kstack x) (p_sz x) (p_pagetable x) (p_trapframe x) (p_context x) (p_ofile x) (p_cwd x) (p_name x).
Definition set_p_pid (v : Z) (x : proc) : proc := mkProc (p_state x) (p_chan x) (p_killed x) (p_xstate x) v (p_parent x) (p_kstack x) (p_sz x) (p_pagetable x) (p_trapframe x) (p_context x) (p_ofile x) (p_cwd x) (p_name x).
Definition set_p_parent (v : option nat) (x : proc) : proc := mkProc (p_state x) (p_chan x) (p_killed x) (p_xstate x) (p_pid x) v (p_kstack x) (p_sz x) (p_pagetable x) (p_trapframe x) (p_context x) (p_ofile x) (p_cwd x) (p_name x).
Definition set_p_kstack (v : Z) (x : proc) : proc := mkProc (p_state x) (p_chan x) (p_killed x) (p_xstate x) (p_pid x) (p_parent x) v (p_sz x) (p_pagetable x) (p_trapframe x) (p_context x) (p_ofile x) (p_cwd x) (p_name x).
Definition set_p_sz (v : Z) (x : proc) : proc := mkProc (p_state x) (p_chan x) (p_killed x) (p_xstate x) (p_pid x) (p_parent x) (p_kstack x) v (p_pagetable x) (p_trapframe x) (p_context x) (p_ofile x) (p_cwd x) (p_name x).
Definition set_p_pagetable (v : Z) (x : proc) : proc := mkProc (p_state x) (p_chan x) (p_killed x) (p_xstate x) (p_pid x) (p_parent x) (p_kstack x) (p_sz x) v (p_trapframe x) (p_context x) (p_ofile x) (p_cwd x) (p_name x).
Definition set_p_trapframe (v : Z) (x : proc) : proc := mkProc (p_state x) (p_chan x) (p_killed x) (p_xstate x) (p_pid x) (p_parent x) (p_kstack x) (p_sz x) (p_pagetable x) v (p_context x) (p_ofile x) (p_cwd x) (p_name x).
Definition set_p_context (v : context) (x : proc) : proc := mkProc (p_state x) (p_chan x) (p_killed x) (p_xstate x) (p_pid x) (p_parent x) (p_kstack x) (p_sz x) (p_pagetable x) (p_trapframe x) v (p_ofile x) (p_cwd x) (p_name x).
Definition set_p_ofile (v : list (option nat)) (x : proc) : proc := mkProc (p_state x) (p_chan x) (p_killed x) (p_xstate x) (p_pid x) (p_parent x) (p_kstack x) (p_sz x) (p_pagetable x) (p_trapframe x) (p_context x) v (p_cwd x) (p_name x).
Definition set_p_cwd (v : option nat) (x : proc) : proc := mkProc (p_state x) (p_chan x) (p_killed x) (p_xstate x) (p_pid x) (p_parent x) (p_kstack x) (p_sz x) (p_pagetable x) (p_trapframe x) (p_context x) (p_ofile x) v (p_name x).
Definition set_p_name (v : list Z) (x : proc) : proc := mkProc (p_state x) (p_chan x) (p_killed x) (p_xstate x) (p_pid x) (p_parent x) (p_kstack x) (p_sz x) (p_pagetable x) (p_trapframe x) (p_context x) (p_ofile x) (p_cwd x) v.

(** ** buf.h

    [lock] is the sleeplock [SBuf i] of the buffer at index [i]; a pointer to a
    buffer is its index in bcache, [NBUF] standing for [&bcache.head], the
    element that follows buf[NBUF] in the structure. *)

Record buf : Type := mkBuf {
  b_valid : Z;
  b_disk : Z;
  b_dev : Z;
  b_blockno : Z;
  b_refcnt : Z;
  b_prev : nat;
  b_next : nat;
  b_data : list Z  (**r BSIZE bytes *)
}.

Definition set_b_valid (v : Z) (x : buf) : buf := mkBuf v (b_disk x) (b_dev x) (b_blockno x) (b_refcnt x) (b_prev x) (b_next x) (b_data x).
Definition set_b_disk (v : Z) (x : buf) : buf := mkBuf (b_valid x) v (b_dev x) (b_blockno x) (b_refcnt x) (b_prev x) (b_next x) (b_data x).
Definition set_b_dev (v : Z) (x : buf) : buf := mkBuf (b_valid x) (b_disk x) v (b_blockno x) (b_refcnt x) (b_prev x) (b_next x) (b_data x).
Definition set_b_blockno (v : Z) (x : buf) : buf := mkBuf (b_valid x) (b_disk x) (b_dev x) v (b_refcnt x) (b_prev x) (b_next x) (b_data x).
Definition set_b_refcnt (v : Z) (x : buf) : buf := mkBuf (b_valid x) (b_disk x) (b_dev x) (b_blockno x) v (b_prev x) (b_next x) (b_data x).
Definition set_b_prev (v : nat) (x : buf) : buf := mkBuf (b_valid x) (b_disk x) (b_dev x) (b_blockno x) (b_refcnt x) v (b_next x) (b_data x).
Definition set_b_next (v : nat) (x : buf) : buf := mkBuf (b_valid x) (b_disk x) (b_dev x) (b_blockno x) (b_refcnt x) (b_prev x) v (b_data x).
Definition set_b_data (v : list Z) (x : buf) : buf := mkBuf (b_valid x) (b_disk x) (b_dev x) (b_blockno x) (b_refcnt x) (b_prev x) (b_next x) v.

(** ** fs.h, log.c, file.h *)

Record superblock : Type := mkSuperblock {
  sb_magic : Z;
  sb_size : Z;
  sb_nblocks : Z;
  sb_ninodes : Z;
  sb_nlog : Z;
  sb_logstart : Z;
  sb_inodestart : Z;
  sb_bmapstart : Z
}.

Definition set_sb_magic (v : Z) (x : superblock) : superblock := mkSuperblock v (sb_size x) (sb_nblocks x) (sb_ninodes x) (sb_nlog x) (sb_logstart x) (sb_inodestart x) (sb_bmapstart x).
Definition set_sb_size (v : Z) (x : superblock) : superblock := mkSuperblock (sb_magic x) v (sb_nblocks x) (sb_ninodes x) (sb_nlog x) (sb_logstart x) (sb_inodestart x) (sb_bmapstart x).
Definition set_sb_nblocks (v : Z) (x : superblock) : superblock := mkSuperblock (sb_magic x) (sb_size x) v (sb_ninodes x) (sb_nlog x) (sb_logstart x) (sb_inodestart x) (sb_bmapstart x).
Definition set_sb_ninodes (v : Z) (x : superblock) : superblock := mkSuperblock (sb_magic x) (sb_size x) (sb_nblocks x) v (sb_nlog x) (sb_logstart x) (sb_inodestart x) (sb_bmapstart x).
Definition set_sb_nlog (v : Z) (x : superblock) : superblock := mkSuperblock (sb_magic x) (sb_size x) (sb_nblocks x) (sb_ninodes x) v (sb_logstart x) (sb_inodestart x) (sb_bmapstart x).
Definition set_sb_logstart (v : Z) (x : superblock) : superblock := mkSuperblock (sb_magic x) (sb_size x) (sb_nblocks x) (sb_ninodes x) (sb_nlog x) v (sb_inodestart x) (sb_bmapstart x).
Definition set_sb_inodestart (v : Z) (x : superblock) : superblock := mkSuperblock (sb_magic x) (sb_size x) (sb_nblocks x) (sb_ninodes x) (sb_nlog x) (sb_logstart x) v (sb_bmapstart x).
Definition set_sb_bmapstart (v : Z) (x : superblock) : superblock := mkSuperblock (sb_magic x) (sb_size x) (sb_nblocks x) (sb_ninodes x) (sb_nlog x) (sb_logstart x) (sb_inodestart x) v.

(** struct log, its lock being [LLog]. *)
Record logstate : Type := mkLog {
  lg_start : Z;
  lg_size : Z;
  lg_outstanding : Z;
  lg_committing : Z;
  lg_dev : Z;
  lg_n : Z;  (**r lh.n *)
  lg_block : list Z  (**r lh.block *)
}.

Definition set_lg_start (v : Z) (x : logstate) : logstate := mkLog v (lg_size x) (lg_outstanding x) (lg_committing x) (lg_dev x) (lg_n x) (lg_block x).
Definition set_lg_size (v : Z) (x : logstate) : logstate := mkLog (lg_start x) v (lg_outstanding x) (lg_committing x) (lg_dev x) (lg_n x) (lg_block x).
Definition set_lg_outstanding (v : Z) (x : logstate) : logstate := mkLog (lg_start x) (lg_size x) v (lg_committing x) (lg_dev x) (lg_n x) (lg_block x).
Definition set_lg_committing (v : Z) (x : logstate) : logstate := mkLog (lg_start x) (lg_size x) (lg_outstanding x) v (lg_dev x) (lg_n x) (lg_block x).
Definition set_lg_dev (v : Z) (x : logstate) : logstate := mkLog (lg_start x) (lg_size x) (lg_outstanding x) (lg_committing x) v (lg_n x) (lg_block x).
Definition set_lg_n (v : Z) (x : logstate) : logstate := mkLog (lg_start x) (lg_size x) (lg_outstanding x) (lg_committing x) (lg_dev x) v (lg_block x).
Definition set_lg_block (v : list Z) (x : logstate) : logstate := mkLog (lg_start x) (lg_size x) (lg_outstanding x) (lg_committing x) (lg_dev x) (lg_n x) v.

(** struct inode; its lock is the sleeplock [SInode i]. *)
Record inode : Type := mkInode {
  i_dev : Z;
  i_inum : Z;
  i_ref : Z;
  i_valid : Z;
  i_type : Z;
  i_major : Z;
  i_minor : Z;
  i_nlink : Z;
  i_size : Z;
  i_addrs : list Z  (**r NDIRECT+1 block numbers *)
}.

Definition set_i_dev (v : Z) (x : inode) : inode := mkInode v (i_inum x) (i_ref x) (i_valid x) (i_type x) (i_major x) (i_minor x) (i_nlink x) (i_size x) (i_addrs x).
Definition set_i_inum (v : Z) (x : inode) : inode := mkInode (i_dev x) v (i_ref x) (i_valid x) (i_type x) (i_major x) (i_minor x) (i_nlink x) (i_size x) (i_addrs x).
Definition set_i_ref (v : Z) (x : inode) : inode := mkInode (i_dev x) (i_inum x) v (i_valid x) (i_type x) (i_major x) (i_minor x) (i_nlink x) (i_size x) (i_addrs x).
Definition set_i_valid (v : Z) (x : inode) : inode := mkInode (i_dev x) (i_inum x) (i_ref x) v (i_type x) (i_major x) (i_minor x) (i_nlink x) (i_size x) (i_addrs x).
Definition set_i_type (v : Z) (x : inode) : inode := mkInode (i_dev x) (i_inum x) (i_ref x) (i_valid x) v (i_major x) (i_minor x) (i_nlink x) (i_size x) (i_addrs x).
Definition set_i_major (v : Z) (x : inode) : inode := mkInode (i_dev x) (i_inum x) (i_ref x) (i_valid x) (i_type x) v (i_minor x) (i_nlink x) (i_size x) (i_addrs x).
Definition set_i_minor (v : Z) (x : inode) : inode := mkInode (i_dev x) (i_inum x) (i_ref x) (i_valid x) (i_type x) (i_major x) v (i_nlink x) (i_size x) (i_addrs x).
Definition set_i_nlink (v : Z) (x : inode) : inode := mkInode (i_dev x) (i_inum x) (i_ref x) (i_valid x) (i_type x) (i_major x) (i_minor x) v (i_size x) (i_addrs x).
Definition set_i_size (v : Z) (x : inode) : inode := mkInode (i_dev x) (i_inum x) (i_ref x) (i_valid x) (i_type x) (i_major x) (i_minor x) (i_nlink x) v (i_addrs x).
Definition set_i_addrs (v : list Z) (x : inode) : inode := mkInode (i_dev x) (i_inum x) (i_ref x) (i_valid x) (i_type x) (i_major x) (i_minor x) (i_nlink x) (i_size x) v.

Inductive fdtype : Type := FD_NONE | FD_PIPE | FD_INODE | FD_DEVICE.

#[global] Instance fdtype_eq_dec : EqDecision fdtype.
Proof. solve_decision. Defined.

Record file : Type := mkFile {
  f_type : fdtype;
  f_ref : Z;
  f_readable : Z;
  f_writable : Z;
  f_pipe : Z;  (**r address of the pipe *)
  f_ip : option nat;
  f_off : Z;
  f_major : Z
}.

Definition set_f_type (v : fdtype) (x : file) : file := mkFile v (f_ref x) (f_readable x) (f_writable x) (f_pipe x) (f_ip x) (f_off x) (f_major x).
Definition set_f_ref (v : Z) (x : file) : file := mkFile (f_type x) v (f_readable x) (f_writable x) (f_pipe x) (f_ip x) (f_off x) (f_major x).
Definition set_f_readable (v : Z) (x : file) : file := mkFile (f_type x) (f_ref x) v (f_writable x) (f_pipe x) (f_ip x) (f_off x) (f_major x).
Definition set_f_writable (v : Z) (x : file) : file := mkFile (f_type x) (f_ref x) (f_readable x) v (f_pipe x) (f_ip x) (f_off x) (f_major x).
Definition set_f_pipe (v : Z) (x : file) : file := mkFile (f_type x) (f_ref x) (f_readable x) (f_writable x) v (f_ip x) (f_off x) (f_major x).
Definition set_f_ip (v : option nat) (x : file) : file := mkFile (f_type x) (f_ref x) (f_readable x) (f_writable x) (f_pipe x) v (f_off x) (f_major x).
Definition set_f_off (v : Z) (x : file) : file := mkFile (f_type x) (f_ref x) (f_readable x) (f_writable x) (f_pipe x) (f_ip x) v (f_major x).
Definition set_f_major (v : Z) (x : file) : file := mkFile (f_type x) (f_ref x) (f_readable x) (f_writable x) (f_pipe x) (f_ip x) (f_off x) v.

(** The functions a slot of devsw[] points to. *)
Inductive devsw : Type := DevNull | DevConsole.

(** ** pipe.c, console.c, uart.c *)

(** struct pipe; its lock is [LPipe pi]. *)
Record pipe : Type := mkPipe {
  pi_data : list Z;
  pi_nread : Z;
  pi_nwrite : Z;
  pi_readopen : Z;
  pi_writeopen : Z
}.

Definition set_pi_data (v : list Z) (x : pipe) : pipe := mkPipe v (pi_nread x) (pi_nwrite x) (pi_readopen x) (pi_writeopen x).
Definition set_pi_nread (v : Z) (x : pipe) : pipe := mkPipe (pi_data x) v (pi_nwrite x) (pi_readopen x) (pi_writeopen x).
Definition set_pi_nwrite (v : Z) (x : pipe) : pipe := mkPipe (pi_data x) (pi_nread x) v (pi_readopen x) (pi_writeopen x).
Definition set_pi_readopen (v : Z) (x : pipe) : pipe := mkPipe (pi_data x) (pi_nread x) (pi_nwrite x) v (pi_writeopen x).
Definition set_pi_writeopen (v : Z) (x : pipe) : pipe := mkPipe (pi_data x) (pi_nread x) (pi_nwrite x) (pi_readopen x) v.

Record console : Type := mkConsole {
  cons_buf : list Z;
  cons_r : Z;
  cons_w : Z;
  cons_e : Z
}.

Definition set_cons_buf (v : list Z) (x : console) : console := mkConsole v (cons_r x) (cons_w x) (cons_e x).
Definition set_cons_r (v : Z) (x : console) : console := mkConsole (cons_buf x) v (cons_w x) (cons_e x).
Definition set_cons_w (v : Z) (x : console) : console := mkConsole (cons_buf x) (cons_r x) v (cons_e x).
Definition set_cons_e (v : Z) (x : console) : console := mkConsole (cons_buf x) (cons_r x) (cons_w x) v.

(** The driver's transmit buffer and the device's registers. *)
Record uart : Type := mkUart {
  ut_buf : list Z;  (**r uart_tx_buf *)
  ut_w : Z;  (**r uart_tx_w *)
  ut_r : Z;  (**r uart_tx_r *)
  ud_busy : list bool;  (**r the next LSR reads that find the transmitter busy *)
  ud_out : list Z;  (**r the bytes written to THR, oldest first *)
  ud_in : list Z;  (**r the bytes waiting in RHR *)
  ud_regs : gmap Z Z  (**r the other registers as last written *)
}.

Definition set_ut_buf (v : list Z) (x : uart) : uart := mkUart v (ut_w x) (ut_r x) (ud_busy x) (ud_out x) (ud_in x) (ud_regs x).
Definition set_ut_w (v : Z) (x : uart) : uart := mkUart (ut_buf x) v (ut_r x) (ud_busy x) (ud_out x) (ud_in x) (ud_regs x).
Definition set_ut_r (v : Z) (x : uart) : uart := mkUart (ut_buf x) (ut_w x) v (ud_busy x) (ud_out x) (ud_in x) (ud_regs x).
Definition set_ud_busy (v : list bool) (x : uart) : uart := mkUart (ut_buf x) (ut_w x) (ut_r x) v (ud_out x) (ud_in x) (ud_regs x).
Definition set_ud_out (v : list Z) (x : uart) : uart := mkUart (ut_buf x) (ut_w x) (ut_r x) (ud_busy x) v (ud_in x) (ud_regs x).
Definition set_ud_in (v : list Z) (x : uart) : uart := mkUart (ut_buf x) (ut_w x) (ut_r x) (ud_busy x) (ud_out x) v (ud_regs x).
Definition set_ud_regs (v : gmap Z Z) (x : uart) : uart := mkUart (ut_buf x) (ut_w x) (ut_r x) (ud_busy x) (ud_out x) (ud_in x) v.

(** ** virtio.h and virtio_disk.c

    An address the driver puts into a descriptor: the request header ops[i], the
    data of a buffer, or the status byte info[i].status. *)
Inductive vaddr : Type := ANull | AReq (i : nat) | AData (b : nat) | AStatus (i : nat).

Record vdesc : Type := mkVdesc {
  vd_addr : vaddr;
  vd_len : Z;
  vd_flags : Z;
  vd_next : Z
}.

Definition set_vd_addr (v : vaddr) (x : vdesc) : vdesc := mkVdesc v (vd_len x) (vd_flags x) (vd_next x).
Definition set_vd_len (v : Z) (x : vdesc) : vdesc := mkVdesc (vd_addr x) v (vd_flags x) (vd_next x).
Definition set_vd_flags (v : Z) (x : vdesc) : vdesc := mkVdesc (vd_addr x) (vd_len x) v (vd_next x).
Definition set_vd_next (v : Z) (x : vdesc) : vdesc := mkVdesc (vd_addr x) (vd_len x) (vd_flags x) v.

Record blkreq : Type := mkBlkreq {
  rq_type : Z;
  rq_reserved : Z;
  rq_sector : Z
}.

Definition set_rq_type (v : Z) (x : blkreq) : blkreq := mkBlkreq v (rq_reserved x) (rq_sector x).
Definition set_rq_reserved (v : Z) (x : blkreq) : blkreq := mkBlkreq (rq_type x) v (rq_sector x).
Definition set_rq_sector (v : Z) (x : blkreq) : blkreq := mkBlkreq (rq_type x) (rq_reserved x) v.

Record vinfo : Type := mkVinfo {
  in_b : option nat;
  in_status : Z
}.

Definition set_in_b (v : option nat) (x : vinfo) : vinfo := mkVinfo v (in_status x).
Definition set_in_status (v : Z) (x : vinfo) : vinfo := mkVinfo (in_b x) v.

(** struct disk, the three shared rings with it, and the device's own position. *)
Record vdisk : Type := mkVdisk {
  vk_desc : list vdesc;
  vk_avail_idx : Z;
  vk_avail_ring : list Z;
  vk_used_ring_idx : Z;  (**r used->idx, advanced by the device *)
  vk_used_ring : list Z;  (**r used->ring[].id *)
  vk_free : list Z;
  vk_used_idx : Z;
  vk_info : list vinfo;
  vk_ops : list blkreq;
  vk_last_avail : Z;  (**r how far the device has read the avail ring *)
  vk_regs : gmap Z Z  (**r the memory-mapped registers, by offset *)
}.

Definition set_vk_desc (v : list vdesc) (x : vdisk) : vdisk := mkVdisk v (vk_avail_idx x) (vk_avail_ring x) (vk_used_ring_idx x) (vk_used_ring x) (vk_free x) (vk_used_idx x) (vk_info x) (vk_ops x) (vk_last_avail x) (vk_regs x).
Definition set_vk_avail_idx (v : Z) (x : vdisk) : vdisk := mkVdisk (vk_desc x) v (vk_avail_ring x) (vk_used_ring_idx x) (vk_used_ring x) (vk_free x) (vk_used_idx x) (vk_info x) (vk_ops x) (vk_last_avail x) (vk_regs x).
Definition set_vk_avail_ring (v : list Z) (x : vdisk) : vdisk := mkVdisk (vk_desc x) (vk_avail_idx x) v (vk_used_ring_idx x) (vk_used_ring x) (vk_free x) (vk_used_idx x) (vk_info x) (vk_ops x) (vk_last_avail x) (vk_regs x).
Definition set_vk_used_ring_idx (v : Z) (x : vdisk) : vdisk := mkVdisk (vk_desc x) (vk_avail_idx x) (vk_avail_ring x) v (vk_used_ring x) (vk_free x) (vk_used_idx x) (vk_info x) (vk_ops x) (vk_last_avail x) (vk_regs x).
Definition set_vk_used_ring (v : list Z) (x : vdisk) : vdisk := mkVdisk (vk_desc x) (vk_avail_idx x) (vk_avail_ring x) (vk_used_ring_idx x) v (vk_free x) (vk_used_idx x) (vk_info x) (vk_ops x) (vk_last_avail x) (vk_regs x).
Definition set_vk_free (v : list Z) (x : vdisk) : vdisk := mkVdisk (vk_desc x) (vk_avail_idx x) (vk_avail_ring x) (vk_used_ring_idx x) (vk_used_ring x) v (vk_used_idx x) (vk_info x) (vk_ops x) (vk_last_avail x) (vk_regs x).
Definition set_vk_used_idx (v : Z) (x : vdisk) : vdisk := mkVdisk (vk_desc x) (vk_avail_idx x) (vk_avail_ring x) (vk_used_ring_idx x) (vk_used_ring x) (vk_free x) v (vk_info x) (vk_ops x) (vk_last_avail x) (vk_regs x).
Definition set_vk_info (v : list vinfo) (x : vdisk) : vdisk := mkVdisk (vk_desc x) (vk_avail_idx x) (vk_avail_ring x) (vk_used_ring_idx x) (vk_used_ring x) (vk_free x) (vk_used_idx x) v (vk_ops x) (vk_last_avail x) (vk_regs x).
Definition set_vk_ops (v : list blkreq) (x : vdisk) : vdisk := mkVdisk (vk_desc x) (vk_avail_idx x) (vk_avail_ring x) (vk_used_ring_idx x) (vk_used_ring x) (vk_free x) (vk_used_idx x) (vk_info x) v (vk_last_avail x) (vk_regs x).
Definition set_vk_last_avail (v : Z) (x : vdisk) : vdisk := mkVdisk (vk_desc x) (vk_avail_idx x) (vk_avail_ring x) (vk_used_ring_idx x) (vk_used_ring x) (vk_free x) (vk_used_idx x) (vk_info x) (vk_ops x) v (vk_regs x).
Definition set_vk_regs (v : gmap Z Z) (x : vdisk) : vdisk := mkVdisk (vk_desc x) (vk_avail_idx x) (vk_avail_ring x) (vk_used_ring_idx x) (vk_used_ring x) (vk_free x) (vk_used_idx x) (vk_info x) (vk_ops x) (vk_last_avail x) v.

(** ** The hart's timer and machine-mode registers, and the interrupt controller *)

Record csrs : Type := mkCsrs {
  csr_sie : Z;
  csr_sip : Z;
  csr_time : Z;
  csr_stimecmp : Z;
  csr_mhartid : Z;
  csr_mstatus : Z;
  csr_mepc : Z;
  csr_medeleg : Z;
  csr_mideleg : Z;
  csr_mie : Z;
  csr_menvcfg : Z;
  csr_mcounteren : Z;
  csr_pmpaddr0 : Z;
  csr_pmpcfg0 : Z
}.

Definition set_csr_sie (v : Z) (x : csrs) : csrs := mkCsrs v (csr_sip x) (csr_time x) (csr_stimecmp x) (csr_mhartid x) (csr_mstatus x) (csr_mepc x) (csr_medeleg x) (csr_mideleg x) (csr_mie x) (csr_menvcfg x) (csr_mcounteren x) (csr_pmpaddr0 x) (csr_pmpcfg0 x).
Definition set_csr_sip (v : Z) (x : csrs) : csrs := mkCsrs (csr_sie x) v (csr_time x) (csr_stimecmp x) (csr_mhartid x) (csr_mstatus x) (csr_mepc x) (csr_medeleg x) (csr_mideleg x) (csr_mie x) (csr_menvcfg x) (csr_mcounteren x) (csr_pmpaddr0 x) (csr_pmpcfg0 x).
Definition set_csr_time (v : Z) (x : csrs) : csrs := mkCsrs (csr_sie x) (csr_sip x) v (csr_stimecmp x) (csr_mhartid x) (csr_mstatus x) (csr_mepc x) (csr_medeleg x) (csr_mideleg x) (csr_mie x) (csr_menvcfg x) (csr_mcounteren x) (csr_pmpaddr0 x) (csr_pmpcfg0 x).
Definition set_csr_stimecmp (v : Z) (x : csrs) : csrs := mkCsrs (csr_sie x) (csr_sip x) (csr_time x) v (csr_mhartid x) (csr_mstatus x) (csr_mepc x) (csr_medeleg x) (csr_mideleg x) (csr_mie x) (csr_menvcfg x) (csr_mcounteren x) (csr_pmpaddr0 x) (csr_pmpcfg0 x).
Definition set_csr_mhartid (v : Z) (x : csrs) : csrs := mkCsrs (csr_sie x) (csr_sip x) (csr_time x) (csr_stimecmp x) v (csr_mstatus x) (csr_mepc x) (csr_medeleg x) (csr_mideleg x) (csr_mie x) (csr_menvcfg x) (csr_mcounteren x) (csr_pmpaddr0 x) (csr_pmpcfg0 x).
Definition set_csr_mstatus (v : Z) (x : csrs) : csrs := mkCsrs (csr_sie x) (csr_sip x) (csr_time x) (csr_stimecmp x) (csr_mhartid x) v (csr_mepc x) (csr_medeleg x) (csr_mideleg x) (csr_mie x) (csr_menvcfg x) (csr_mcounteren x) (csr_pmpaddr0 x) (csr_pmpcfg0 x).
Definition set_csr_mepc (v : Z) (x : csrs) : csrs := mkCsrs (csr_sie x) (csr_sip x) (csr_time x) (csr_stimecmp x) (csr_mhartid x) (csr_mstatus x) v (csr_medeleg x) (csr_mideleg x) (csr_mie x) (csr_menvcfg x) (csr_mcounteren x) (csr_pmpaddr0 x) (csr_pmpcfg0 x).
Definition set_csr_medeleg (v : Z) (x : csrs) : csrs := mkCsrs (csr_sie x) (csr_sip x) (csr_time x) (csr_stimecmp x) (csr_mhartid x) (csr_mstatus x) (csr_mepc x) v (csr_mideleg x) (csr_mie x) (csr_menvcfg x) (csr_mcounteren x) (csr_pmpaddr0 x) (csr_pmpcfg0 x).
Definition set_csr_mideleg (v : Z) (x : csrs) : csrs := mkCsrs (csr_sie x) (csr_sip x) (csr_time x) (csr_stimecmp x) (csr_mhartid x) (csr_mstatus x) (csr_mepc x) (csr_medeleg x) v (csr_mie x) (csr_menvcfg x) (csr_mcounteren x) (csr_pmpaddr0 x) (csr_pmpcfg0 x).
Definition set_csr_mie (v : Z) (x : csrs) : csrs := mkCsrs (csr_sie x) (csr_sip x) (csr_time x) (csr_stimecmp x) (csr_mhartid x) (csr_mstatus x) (csr_mepc x) (csr_medeleg x) (csr_mideleg x) v (csr_menvcfg x) (csr_mcounteren x) (csr_pmpaddr0 x) (csr_pmpcfg0 x).
Definition set_csr_menvcfg (v : Z) (x : csrs) : csrs := mkCsrs (csr_sie x) (csr_sip x) (csr_time x) (csr_stimecmp x) (csr_mhartid x) (csr_mstatus x) (csr_mepc x) (csr_medeleg x) (csr_mideleg x) (csr_mie x) v (csr_mcounteren x) (csr_pmpaddr0 x) (csr_pmpcfg0 x).
Definition set_csr_mcounteren (v : Z) (x : csrs) : csrs := mkCsrs (csr_sie x) (csr_sip x) (csr_time x) (csr_stimecmp x) (csr_mhartid x) (csr_mstatus x) (csr_mepc x) (csr_medeleg x) (csr_mideleg x) (csr_mie x) (csr_menvcfg x) v (csr_pmpaddr0 x) (csr_pmpcfg0 x).
Definition set_csr_pmpaddr0 (v : Z) (x : csrs) : csrs := mkCsrs (csr_sie x) (csr_sip x) (csr_time x) (csr_stimecmp x) (csr_mhartid x) (csr_mstatus x) (csr_mepc x) (csr_medeleg x) (csr_mideleg x) (csr_mie x) (csr_menvcfg x) (csr_mcounteren x) v (csr_pmpcfg0 x).
Definition set_csr_pmpcfg0 (v : Z) (x : csrs) : csrs := mkCsrs (csr_sie x) (csr_sip x) (csr_time x) (csr_stimecmp x) (csr_mhartid x) (csr_mstatus x) (csr_mepc x) (csr_medeleg x) (csr_mideleg x) (csr_mie x) (csr_menvcfg x) (csr_mcounteren x) (csr_pmpaddr0 x) v.

Record plic : Type := mkPlic {
  pl_regs : gmap Z Z;  (**r registers as last written, by address *)
  pl_pending : list Z  (**r the interrupts the next claims return *)
}.

Definition set_pl_regs (v : gmap Z Z) (x : plic) : plic := mkPlic v (pl_pending x).
Definition set_pl_pending (v : list Z) (x : plic) : plic := mkPlic (pl_regs x) v.

(** ** The kernel *)

Record kstate : Type := mkState {
  k_cpu : cpu;  (**r mycpu() *)
  k_hart : hart;
  k_locks : gmap lockid spinlock;
  k_slocks : gmap sleepid sleeplock;
  k_mem : gmap Z Z;  (**r physical memory: address to byte *)
  k_freelist : Z;  (**r kmem.freelist *)
  k_procs : list proc;
  k_nextpid : Z;
  k_initproc : option nat;
  k_ticks : Z;
  k_bufs : list buf;  (**r bcache.buf followed by bcache.head *)
  k_disk : gmap Z (list Z);  (**r the disk: block number to contents *)
  k_dwrites : list (Z * list Z);  (**r every disk write so far, in order *)
  k_log : logstate;
  k_sb : superblock;
  k_inodes : list inode;  (**r itable.inode *)
  k_files : list file;  (**r ftable.file *)
  k_devsw : list devsw;
  k_pipes : gmap Z pipe;  (**r struct pipe by address *)
  k_cons : console;
  k_uart : uart;
  k_panicked : Z;
  k_pr_locking : Z;
  k_vdisk : vdisk;
  k_kernel_pagetable : Z;
  k_csrs : csrs;
  k_plic : plic;
  k_started : Z;
  k_first : Z  (**r the static variable of forkret() *)
}.

Definition set_k_cpu (v : cpu) (x : kstate) : kstate := mkState v (k_hart x) (k_locks x) (k_slocks x) (k_mem x) (k_freelist x) (k_procs x) (k_nextpid x) (k_initproc x) (k_ticks x) (k_bufs x) (k_disk x) (k_dwrites x) (k_log x) (k_sb x) (k_inodes x) (k_files x) (k_devsw x) (k_pipes x) (k_cons x) (k_uart x) (k_panicked x) (k_pr_locking x) (k_vdisk x) (k_kernel_pagetable x) (k_csrs x) (k_plic x) (k_started x) (k_first x).
Definition set_k_hart (v : hart) (x : kstate) : kstate := mkState (k_cpu x) v (k_locks x) (k_slocks x) (k_mem x) (k_freelist x) (k_procs x) (k_nextpid x) (k_initproc x) (k_ticks x) (k_bufs x) (k_disk x) (k_dwrites x) (k_log x) (k_sb x) (k_inodes x) (k_files x) (k_devsw x) (k_pipes x) (k_cons x) (k_uart x) (k_panicked x) (k_pr_locking x) (k_vdisk x) (k_kernel_pagetable x) (k_csrs x) (k_plic x) (k_started x) (k_first x).
Definition set_k_locks (v : gmap lockid spinlock) (x : kstate) : kstate := mkState (k_cpu x) (k_hart x) v (k_slocks x) (k_mem x) (k_freelist x) (k_procs x) (k_nextpid x) (k_initproc x) (k_ticks x) (k_bufs x) (k_disk x) (k_dwrites x) (k_log x) (k_sb x) (k_inodes x) (k_files x) (k_devsw x) (k_pipes x) (k_cons x) (k_uart x) (k_panicked x) (k_pr_locking x) (k_vdisk x) (k_kernel_pagetable x) (k_csrs x) (k_plic x) (k_started x) (k_first x).
Definition set_k_slocks (v : gmap sleepid sleeplock) (x : kstate) : kstate := mkState (k_cpu x) (k_hart x) (k_locks x) v (k_mem x) (k_freelist x) (k_procs x) (k_nextpid x) (k_initproc x) (k_ticks x) (k_bufs x) (k_disk x) (k_dwrites x) (k_log x) (k_sb x) (k_inodes x) (k_files x) (k_devsw x) (k_pipes x) (k_cons x) (k_uart x) (k_panicked x) (k_pr_locking x) (k_vdisk x) (k_kernel_pagetable x) (k_csrs x) (k_plic x) (k_started x) (k_first x).
Definition set_k_mem (v : gmap Z Z) (x : kstate) : kstate := mkState (k_cpu x) (k_hart x) (k_locks x) (k_slocks x) v (k_freelist x) (k_procs x) (k_nextpid x) (k_initproc x) (k_ticks x) (k_bufs x) (k_disk x) (k_dwrites x) (k_log x) (k_sb x) (k_inodes x) (k_files x) (k_devsw x) (k_pipes x) (k_cons x) (k_uart x) (k_panicked x) (k_pr_locking x) (k_vdisk x) (k_kernel_pagetable x) (k_csrs x) (k_plic x) (k_started x) (k_first x).
Definition set_k_freelist (v : Z) (x : kstate) : kstate := mkState (k_cpu x) (k_hart x) (k_locks x) (k_slocks x) (k_mem x) v (k_procs x) (k_nextpid x) (k_initproc x) (k_ticks x) (k_bufs x) (k_disk x) (k_dwrites x) (k_log x) (k_sb x) (k_inodes x) (k_files x) (k_devsw x) (k_pipes x) (k_cons x) (k_uart x) (k_panicked x) (k_pr_locking x) (k_vdisk x) (k_kernel_pagetable x) (k_csrs x) (k_plic x) (k_started x) (k_first x).
Definition set_k_procs (v : list proc) (x : kstate) : kstate := mkState (k_cpu x) (k_hart x) (k_locks x) (k_slocks x) (k_mem x) (k_freelist x) v (k_nextpid x) (k_initproc x) (k_ticks x) (k_bufs x) (k_disk x) (k_dwrites x) (k_log x) (k_sb x) (k_inodes x) (k_files x) (k_devsw x) (k_pipes x) (k_cons x) (k_uart x) (k_panicked x) (k_pr_locking x) (k_vdisk x) (k_kernel_pagetable x) (k_csrs x) (k_plic x) (k_started x) (k_first x).
Definition set_k_nextpid (v : Z) (x : kstate) : kstate := mkState (k_cpu x) (k_hart x) (k_locks x) (k_slocks x) (k_mem x) (k_freelist x) (k_procs x) v (k_initproc x) (k_ticks x) (k_bufs x) (k_disk x) (k_dwrites x) (k_log x) (k_sb x) (k_inodes x) (k_files x) (k_devsw x) (k_pipes x) (k_cons x) (k_uart x) (k_panicked x) (k_pr_locking x) (k_vdisk x) (k_kernel_pagetable x) (k_csrs x) (k_plic x) (k_started x) (k_first x).
Definition set_k_initproc (v : option nat) (x : kstate) : kstate := mkState (k_cpu x) (k_hart x) (k_locks x) (k_slocks x) (k_mem x) (k_freelist x) (k_procs x) (k_nextpid x) v (k_ticks x) (k_bufs x) (k_disk x) (k_dwrites x) (k_log x) (k_sb x) (k_inodes x) (k_files x) (k_devsw x) (k_pipes x) (k_cons x) (k_uart x) (k_panicked x) (k_pr_locking x) (k_vdisk x) (k_kernel_pagetable x) (k_csrs x) (k_plic x) (k_started x) (k_first x).
Definition set_k_ticks (v : Z) (x : kstate) : kstate := mkState (k_cpu x) (k_hart x) (k_locks x) (k_slocks x) (k_mem x) (k_freelist x) (k_procs x) (k_nextpid x) (k_initproc x) v (k_bufs x) (k_disk x) (k_dwrites x) (k_log x) (k_sb x) (k_inodes x) (k_files x) (k_devsw x) (k_pipes x) (k_cons x) (k_uart x) (k_panicked x) (k_pr_locking x) (k_vdisk x) (k_kernel_pagetable x) (k_csrs x) (k_plic x) (k_started x) (k_first x).
Definition set_k_bufs (v : list buf) (x : kstate) : kstate := mkState (k_cpu x) (k_hart x) (k_locks x) (k_slocks x) (k_mem x) (k_freelist x) (k_procs x) (k_nextpid x) (k_initproc x) (k_ticks x) v (k_disk x) (k_dwrites x) (k_log x) (k_sb x) (k_inodes x) (k_files x) (k_devsw x) (k_pipes x) (k_cons x) (k_uart x) (k_panicked x) (k_pr_locking x) (k_vdisk x) (k_kernel_pagetable x) (k_csrs x) (k_plic x) (k_started x) (k_first x).
Definition set_k_disk (v : gmap Z (list Z)) (x : kstate) : kstate := mkState (k_cpu x) (k_hart x) (k_locks x) (k_slocks x) (k_mem x) (k_freelist x) (k_procs x) (k_nextpid x) (k_initproc x) (k_ticks x) (k_bufs x) v (k_dwrites x) (k_log x) (k_sb x) (k_inodes x) (k_files x) (k_devsw x) (k_pipes x) (k_cons x) (k_uart x) (k_panicked x) (k_pr_locking x) (k_vdisk x) (k_kernel_pagetable x) (k_csrs x) (k_plic x) (k_started x) (k_first x).
Definition set_k_dwrites (v : list (Z * list Z)) (x : kstate) : kstate := mkState (k_cpu x) (k_hart x) (k_locks x) (k_slocks x) (k_mem x) (k_freelist x) (k_procs x) (k_nextpid x) (k_initproc x) (k_ticks x) (k_bufs x) (k_disk x) v (k_log x) (k_sb x) (k_inodes x) (k_files x) (k_devsw x) (k_pipes x) (k_cons x) (k_uart x) (k_panicked x) (k_pr_locking x) (k_vdisk x) (k_kernel_pagetable x) (k_csrs x) (k_plic x) (k_started x) (k_first x).
Definition set_k_log (v : logstate) (x : kstate) : kstate := mkState (k_cpu x) (k_hart x) (k_locks x) (k_slocks x) (k_mem x) (k_freelist x) (k_procs x) (k_nextpid x) (k_initproc x) (k_ticks x) (k_bufs x) (k_disk x) (k_dwrites x) v (k_sb x) (k_inodes x) (k_files x) (k_devsw x) (k_pipes x) (k_cons x) (k_uart x) (k_panicked x) (k_pr_locking x) (k_vdisk x) (k_kernel_pagetable x) (k_csrs x) (k_plic x) (k_started x) (k_first x).
Definition set_k_sb (v : superblock) (x : kstate) : kstate := mkState (k_cpu x) (k_hart x) (k_locks x) (k_slocks x) (k_mem x) (k_freelist x) (k_procs x) (k_nextpid x) (k_initproc x) (k_ticks x) (k_bufs x) (k_disk x) (k_dwrites x) (k_log x) v (k_inodes x) (k_files x) (k_devsw x) (k_pipes x) (k_cons x) (k_uart x) (k_panicked x) (k_pr_locking x) (k_vdisk x) (k_kernel_pagetable x) (k_csrs x) (k_plic x) (k_started x) (k_first x).
Definition set_k_inodes (v : list inode) (x : kstate) : kstate := mkState (k_cpu x) (k_hart x) (k_locks x) (k_slocks x) (k_mem x) (k_freelist x) (k_procs x) (k_nextpid x) (k_initproc x) (k_ticks x) (k_bufs x) (k_disk x) (k_dwrites x) (k_log x) (k_sb x) v (k_files x) (k_devsw x) (k_pipes x) (k_cons x) (k_uart x) (k_panicked x) (k_pr_locking x) (k_vdisk x) (k_kernel_pagetable x) (k_csrs x) (k_plic x) (k_started x) (k_first x).
Definition set_k_files (v : list file) (x : kstate) : kstate := mkState (k_cpu x) (k_hart x) (k_locks x) (k_slocks x) (k_mem x) (k_freelist x) (k_procs x) (k_nextpid x) (k_initproc x) (k_ticks x) (k_bufs x) (k_disk x) (k_dwrites x) (k_log x) (k_sb x) (k_inodes x) v (k_devsw x) (k_pipes x) (k_cons x) (k_uart x) (k_panicked x) (k_pr_locking x) (k_vdisk x) (k_kernel_pagetable x) (k_csrs x) (k_plic x) (k_started x) (k_first x).
Definition set_k_devsw (v : list devsw) (x : kstate) : kstate := mkState (k_cpu x) (k_hart x) (k_locks x) (k_slocks x) (k_mem x) (k_freelist x) (k_procs x) (k_nextpid x) (k_initproc x) (k_ticks x) (k_bufs x) (k_disk x) (k_dwrites x) (k_log x) (k_sb x) (k_inodes x) (k_files x) v (k_pipes x) (k_cons x) (k_uart x) (k_panicked x) (k_pr_locking x) (k_vdisk x) (k_kernel_pagetable x) (k_csrs x) (k_plic x) (k_started x) (k_first x).
Definition set_k_pipes (v : gmap Z pipe) (x : kstate) : kstate := mkState (k_cpu x) (k_hart x) (k_locks x) (k_slocks x) (k_mem x) (k_freelist x) (k_procs x) (k_nextpid x) (k_initproc x) (k_ticks x) (k_bufs x) (k_disk x) (k_dwrites x) (k_log x) (k_sb x) (k_inodes x) (k_files x) (k_devsw x) v (k_cons x) (k_uart x) (k_panicked x) (k_pr_locking x) (k_vdisk x) (k_kernel_pagetable x) (k_csrs x) (k_plic x) (k_started x) (k_first x).
Definition set_k_cons (v : console) (x : kstate) : kstate := mkState (k_cpu x) (k_hart x) (k_locks x) (k_slocks x) (k_mem x) (k_freelist x) (k_procs x) (k_nextpid x) (k_initproc x) (k_ticks x) (k_bufs x) (k_disk x) (k_dwrites x) (k_log x) (k_sb x) (k_inodes x) (k_files x) (k_devsw x) (k_pipes x) v (k_uart x) (k_panicked x) (k_pr_locking x) (k_vdisk x) (k_kernel_pagetable x) (k_csrs x) (k_plic x) (k_started x) (k_first x).
Definition set_k_uart (v : uart) (x : kstate) : kstate := mkState (k_cpu x) (k_hart x) (k_locks x) (k_slocks x) (k_mem x) (k_freelist x) (k_procs x) (k_nextpid x) (k_initproc x) (k_ticks x) (k_bufs x) (k_disk x) (k_dwrites x) (k_log x) (k_sb x) (k_inodes x) (k_files x) (k_devsw x) (k_pipes x) (k_cons x) v (k_panicked x) (k_pr_locking x) (k_vdisk x) (k_kernel_pagetable x) (k_csrs x) (k_plic x) (k_started x) (k_first x).
Definition set_k_panicked (v : Z) (x : kstate) : kstate := mkState (k_cpu x) (k_hart x) (k_locks x) (k_slocks x) (k_mem x) (k_freelist x) (k_procs x) (k_nextpid x) (k_initproc x) (k_ticks x) (k_bufs x) (k_disk x) (k_dwrites x) (k_log x) (k_sb x) (k_inodes x) (k_files x) (k_devsw x) (k_pipes x) (k_cons x) (k_uart x) v (k_pr_locking x) (k_vdisk x) (k_kernel_pagetable x) (k_csrs x) (k_plic x) (k_started x) (k_first x).
Definition set_k_pr_locking (v : Z) (x : kstate) : kstate := mkState (k_cpu x) (k_hart x) (k_locks x) (k_slocks x) (k_mem x) (k_freelist x) (k_procs x) (k_nextpid x) (k_initproc x) (k_ticks x) (k_bufs x) (k_disk x) (k_dwrites x) (k_log x) (k_sb x) (k_inodes x) (k_files x) (k_devsw x) (k_pipes x) (k_cons x) (k_uart x) (k_panicked x) v (k_vdisk x) (k_kernel_pagetable x) (k_csrs x) (k_plic x) (k_started x) (k_first x).
Definition set_k_vdisk (v : vdisk) (x : kstate) : kstate := mkState (k_cpu x) (k_hart x) (k_locks x) (k_slocks x) (k_mem x) (k_freelist x) (k_procs x) (k_nextpid x) (k_initproc x) (k_ticks x) (k_bufs x) (k_disk x) (k_dwrites x) (k_log x) (k_sb x) (k_inodes x) (k_files x) (k_devsw x) (k_pipes x) (k_cons x) (k_uart x) (k_panicked x) (k_pr_locking x) v (k_kernel_pagetable x) (k_csrs x) (k_plic x) (k_started x) (k_first x).
Definition set_k_kernel_pagetable (v : Z) (x : kstate) : kstate := mkState (k_cpu x) (k_hart x) (k_locks x) (k_slocks x) (k_mem x) (k_freelist x) (k_procs x) (k_nextpid x) (k_initproc x) (k_ticks x) (k_bufs x) (k_disk x) (k_dwrites x) (k_log x) (k_sb x) (k_inodes x) (k_files x) (k_devsw x) (k_pipes x) (k_cons x) (k_uart x) (k_panicked x) (k_pr_locking x) (k_vdisk x) v (k_csrs x) (k_plic x) (k_started x) (k_first x).
Definition set_k_csrs (v : csrs) (x : kstate) : kstate := mkState (k_cpu x) (k_hart x) (k_locks x) (k_slocks x) (k_mem x) (k_freelist x) (k_procs x) (k_nextpid x) (k_initproc x) (k_ticks x) (k_bufs x) (k_disk x) (k_dwrites x) (k_log x) (k_sb x) (k_inodes x) (k_files x) (k_devsw x) (k_pipes x) (k_cons x) (k_uart x) (k_panicked x) (k_pr_locking x) (k_vdisk x) (k_kernel_pagetable x) v (k_plic x) (k_started x) (k_first x).
Definition set_k_plic (v : plic) (x : kstate) : kstate := mkState (k_cpu x) (k_hart x) (k_locks x) (k_slocks x) (k_mem x) (k_freelist x) (k_procs x) (k_nextpid x) (k_initproc x) (k_ticks x) (k_bufs x) (k_disk x) (k_dwrites x) (k_log x) (k_sb x) (k_inodes x) (k_files x) (k_devsw x) (k_pipes x) (k_cons x) (k_uart x) (k_panicked x) (k_pr_locking x) (k_vdisk x) (k_kernel_pagetable x) (k_csrs x) v (k_started x) (k_first x).
Definition set_k_started (v : Z) (x : kstate) : kstate := mkState (k_cpu x) (k_hart x) (k_locks x) (k_slocks x) (k_mem x) (k_freelist x) (k_procs x) (k_nextpid x) (k_initproc x) (k_ticks x) (k_bufs x) (k_disk x) (k_dwrites x) (k_log x) (k_sb x) (k_inodes x) (k_files x) (k_devsw x) (k_pipes x) (k_cons x) (k_uart x) (k_panicked x) (k_pr_locking x) (k_vdisk x) (k_kernel_pagetable x) (k_csrs x) (k_plic x) v (k_first x).
Definition set_k_first (v : Z) (x : kstate) : kstate := mkState (k_cpu x) (k_hart x) (k_locks x) (k_slocks x) (k_mem x) (k_freelist x) (k_procs x) (k_nextpid x) (k_initproc x) (k_ticks x) (k_bufs x) (k_disk x) (k_dwrites x) (k_log x) (k_sb x) (k_inodes x) (k_files x) (k_devsw x) (k_pipes x) (k_cons x) (k_uart x) (k_panicked x) (k_pr_locking x) (k_vdisk x) (k_kernel_pagetable x) (k_csrs x) (k_plic x) (k_started x) v.

(** The state of the kernel's globals before any code runs: zero-filled, but for
    [int nextpid = 1]. *)
Definition zero_context : context := mkContext 0 0 (replicate 12 0).
Definition zero_cpu : cpu := mkCpu None zero_context 0 0.
Definition zero_proc : proc :=
  mkProc UNUSED None 0 0 0 None 0 0 0 0 zero_context (replicate (Z.to_nat NOFILE) None) None
    (replicate 16 0).

Definition zero_block : list Z := replicate (Z.to_nat BSIZE) 0.
Definition zero_buf : buf := mkBuf 0 0 0 0 0 0 0 zero_block.
Definition zero_inode : inode := mkInode 0 0 0 0 0 0 0 0 0 (replicate (Z.to_nat (NDIRECT + 1)) 0).
Definition zero_file : file := mkFile FD_NONE 0 0 0 0 None 0 0.

Definition zero_state : kstate :=
  mkState zero_cpu (mkHart 0 0 0 0 0 0 0) ∅ ∅ ∅ 0 (replicate (Z.to_nat NPROC) zero_proc) 1 None 0 (replicate (S (Z.to_nat NBUF)) zero_buf) ∅ [] (mkLog 0 0 0 0 0 0 (replicate (Z.to_nat LOGSIZE) 0)) (mkSuperblock 0 0 0 0 0 0 0 0) (replicate (Z.to_nat NINODE) zero_inode) (replicate (Z.to_nat NFILE) zero_file) (replicate (Z.to_nat NDEV) DevNull) ∅ (mkConsole (replicate 128 0) 0 0 0) (mkUart (replicate 32 0) 0 0 [] [] [] ∅) 0 0 (mkVdisk (replicate 8 (mkVdesc ANull 0 0 0)) 0 (replicate 8 0) 0 (replicate 8 0) (replicate 8 0) 0 (replicate 8 (mkVinfo None 0)) (replicate 8 (mkBlkreq 0 0 0)) 0 ∅) 0 (mkCsrs 0 0 0 0 0 0 0 0 0 0 0 0 0 0) (mkPlic ∅ []) 0 1.

(** A kernel function that returns an [A]. *)
Abbreviation K := (M kstate).

(** The constants stay folded under [simpl] and [cbn]. *)
#[global] Arguments NPROC : simpl never.
#[global] Arguments NCPU : simpl never.
#[global] Arguments NOFILE : simpl never.
#[global] Arguments NFILE : simpl never.
#[global] Arguments NINODE : simpl never.
#[global] Arguments NDEV : simpl never.
#[global] Arguments ROOTDEV : simpl never.
#[global] Arguments MAXARG : simpl never.
#[global] Arguments MAXOPBLOCKS : simpl never.
#[global] Arguments LOGSIZE : simpl never.
#[global] Arguments NBUF : simpl never.
#[global] Arguments FSSIZE : simpl never.
#[global] Arguments MAXPATH : simpl never.
#[global] Arguments USERSTACK : simpl never.
#[global] Arguments PGSIZE : simpl never.
#[global] Arguments PGSHIFT : simpl never.
#[global] Arguments PGMASK : simpl never.
#[global] Arguments PGROUNDUP : simpl never.
#[global] Arguments PGROUNDDOWN : simpl never.
#[global] Arguments PTE_V : simpl never.
#[global] Arguments PTE_R : simpl never.
#[global] Arguments PTE_W : simpl never.
#[global] Arguments PTE_X : simpl never.
#[global] Arguments PTE_U : simpl never.
#[global] Arguments PA2PTE : simpl never.
#[global] Arguments PTE2PA : simpl never.
#[global] Arguments PTE_FLAGS : simpl never.
#[global] Arguments PXMASK : simpl never.
#[global] Arguments PXSHIFT : simpl never.
#[global] Arguments PX : simpl never.
#[global] Arguments MAXVA : simpl never.
#[global] Arguments SSTATUS_SPP : simpl never.
#[global] Arguments SSTATUS_SPIE : simpl never.
#[global] Arguments SSTATUS_SIE : simpl never.
#[global] Arguments SATP_SV39 : simpl never.
#[global] Arguments MAKE_SATP : simpl never.
#[global] Arguments UART0 : simpl never.
#[global] Arguments UART0_IRQ : simpl never.
#[global] Arguments VIRTIO0 : simpl never.
#[global] Arguments VIRTIO0_IRQ : simpl never.
#[global] Arguments PLIC : simpl never.
#[global] Arguments KERNBASE : simpl never.
#[global] Arguments PHYSTOP : simpl never.
#[global] Arguments TRAMPOLINE : simpl never.
#[global] Arguments KSTACK : simpl never.
#[global] Arguments TRAPFRAME : simpl never.
#[global] Arguments ROOTINO : simpl never.
#[global] Arguments BSIZE : simpl never.
#[global] Arguments FSMAGIC : simpl never.
#[global] Arguments NDIRECT : simpl never.
#[global] Arguments NINDIRECT : simpl never.
#[global] Arguments MAXFILE : simpl never.
#[global] Arguments DIRSIZ : simpl never.
