(* ===== verification/Riscv.v ===== *)
(** * Riscv: the control and status registers (kernel/riscv.h)

    The accessors of the registers the kernel reads and writes.  The registers of
    the hart that is running are in [k_hart] (those a trap uses) and [k_csrs] (the
    timer's and machine mode's).  A write keeps 64 bits. *)

From Stdlib Require Import ZArith.
From stdpp Require Import base.
From S2P Require Import Prelude State.

Definition MSTATUS_MPP_MASK : Z := Z.shiftl 3 11.
Definition MSTATUS_MPP_M : Z := Z.shiftl 3 11.
Definition MSTATUS_MPP_S : Z := Z.shiftl 1 11.
Definition MSTATUS_MPP_U : Z := Z.shiftl 0 11.
Definition MSTATUS_MIE : Z := Z.shiftl 1 3.
Definition SIE_SEIE : Z := Z.shiftl 1 9.
Definition SIE_STIE : Z := Z.shiftl 1 5.
Definition SIE_SSIE : Z := Z.shiftl 1 1.
Definition MIE_STIE : Z := Z.shiftl 1 5.

Definition get_csr (f : csrs -> Z) : K Z := gets (fun k => f (k_csrs k)).
Definition set_csr (f : csrs -> csrs) : K unit := modify (fun k => set_k_csrs (f (k_csrs k)) k).
Definition get_hart (f : hart -> Z) : K Z := gets (fun k => f (k_hart k)).
Definition set_hart (f : hart -> hart) : K unit := modify (fun k => set_k_hart (f (k_hart k)) k).

Definition r_mhartid : K Z := get_csr csr_mhartid.
Definition r_mstatus : K Z := get_csr csr_mstatus.
Definition w_mstatus (x : Z) : K unit := set_csr (set_csr_mstatus (u64 x)).
Definition w_mepc (x : Z) : K unit := set_csr (set_csr_mepc (u64 x)).
Definition r_sstatus : K Z := get_hart h_sstatus.
Definition w_sstatus (x : Z) : K unit := set_hart (set_h_sstatus (u64 x)).
Definition r_sip : K Z := get_csr csr_sip.
Definition w_sip (x : Z) : K unit := set_csr (set_csr_sip (u64 x)).
Definition r_sie : K Z := get_csr csr_sie.
Definition w_sie (x : Z) : K unit := set_csr (set_csr_sie (u64 x)).
Definition r_mie : K Z := get_csr csr_mie.
Definition w_mie (x : Z) : K unit := set_csr (set_csr_mie (u64 x)).
Definition r_sepc : K Z := get_hart h_sepc.
Definition w_sepc (x : Z) : K unit := set_hart (set_h_sepc (u64 x)).
Definition r_medeleg : K Z := get_csr csr_medeleg.
Definition w_medeleg (x : Z) : K unit := set_csr (set_csr_medeleg (u64 x)).
Definition r_mideleg : K Z := get_csr csr_mideleg.
Definition w_mideleg (x : Z) : K unit := set_csr (set_csr_mideleg (u64 x)).
Definition r_stvec : K Z := get_hart h_stvec.
Definition w_stvec (x : Z) : K unit := set_hart (set_h_stvec (u64 x)).
Definition r_stimecmp : K Z := get_csr csr_stimecmp.
Definition w_stimecmp (x : Z) : K unit := set_csr (set_csr_stimecmp (u64 x)).
Definition r_menvcfg : K Z := get_csr csr_menvcfg.
Definition w_menvcfg (x : Z) : K unit := set_csr (set_csr_menvcfg (u64 x)).
Definition w_pmpcfg0 (x : Z) : K unit := set_csr (set_csr_pmpcfg0 (u64 x)).
Definition w_pmpaddr0 (x : Z) : K unit := set_csr (set_csr_pmpaddr0 (u64 x)).
Definition r_satp : K Z := get_hart h_satp.
Definition w_satp (x : Z) : K unit := set_hart (set_h_satp (u64 x)).
Definition r_scause : K Z := get_hart h_scause.
Definition r_stval : K Z := get_hart h_stval.
Definition r_mcounteren : K Z := get_csr csr_mcounteren.
Definition w_mcounteren (x : Z) : K unit := set_csr (set_csr_mcounteren (u64 x)).
Definition r_time : K Z := get_csr csr_time.
Definition r_tp : K Z := get_hart h_tp.
Definition w_tp (x : Z) : K unit := set_hart (set_h_tp (u64 x)).

(** The translation cache is not modelled: a translation reads the tables. *)
Definition sfence_vma : K unit := ret tt.
