(* ===== verification/Ring.v ===== *)
(** * Ring: ring buffers with wrapping counters

    pipe.c, uart.c and console.c all keep a queue of characters in an array of
    [N] elements with unsigned counters that are never reduced modulo [N], only
    modulo the width [W] of their type: element [i] of the queue that starts at
    counter [r] is buf[(r + i) % N].  [N] divides [W], so the position survives
    the wrap of the counters. *)

From Stdlib Require Import ZArith Lia.
From stdpp Require Import base list.
From S2P Require Import Prelude Bytes.

Section ring.
Variables W N : Z.

Definition span (r w : Z) : nat := Z.to_nat ((w - r) mod W).

(** The characters between the counters [r] and [w], oldest first. *)
Definition chars (buf : list Z) (r w : Z) : list Z :=
  (fun i => nth (Z.to_nat ((r + Z.of_nat i) mod N)) buf 0) <$> seq 0 (span r w).

Record ring_wf (buf : list Z) (r w : Z) : Prop := {
  rg_bytes : Forall is_byte buf;
  rg_len : length buf = Z.to_nat N;
  rg_r : 0 <= r < W;
  rg_w : 0 <= w < W;
  rg_span : (span r w <= Z.to_nat N)%nat }.

Hypothesis N_pos : 0 < N.
Hypothesis N_W : N < W.
Hypothesis N_div : (N | W).

Lemma length_chars buf r w : length (chars buf r w) = span r w.
Proof using. unfold chars. by rewrite length_fmap, length_seq. Qed.

Lemma chars_lookup buf r w i : (i < span r w)%nat ->
  chars buf r w !! i = Some (nth (Z.to_nat ((r + Z.of_nat i) mod N)) buf 0).
Proof using. intros Hi. unfold chars. by rewrite list_lookup_fmap, lookup_seq_lt. Qed.

Lemma mod_W_N z : (z mod W) mod N = z mod N.
Proof using N_pos N_W N_div.
  destruct N_div as [q Hq]. rewrite (Z.div_mod z W) at 2 by lia.
  rewrite (Z.add_comm (W * _)), Hq, (Z.mul_comm (q * N)), Z.mul_assoc, Z_mod_plus_full. by rewrite <- Hq.
Qed.

Lemma span_add r n : 0 <= r < W -> (Z.of_nat n < W) -> span r ((r + Z.of_nat n) mod W) = n.
Proof using N_pos N_W.
  intros Hr Hn. unfold span. rewrite Zminus_mod_idemp_l.
  replace (r + Z.of_nat n - r) with (Z.of_nat n) by lia. rewrite Z.mod_small; lia.
Qed.

Lemma span_eq r w : 0 <= r < W -> 0 <= w < W -> w = (r + Z.of_nat (span r w)) mod W.
Proof using N_pos N_W.
  intros Hr Hw. unfold span. rewrite Z2Nat.id by (apply Z.mod_pos_bound; lia).
  rewrite Zplus_mod_idemp_r. replace (r + (w - r)) with w by lia. by rewrite Z.mod_small.
Qed.

Lemma span_lt r w : Z.of_nat (span r w) < W.
Proof using N_pos N_W. unfold span. pose proof (Z.mod_pos_bound (w - r) W). lia. Qed.

Lemma chars_ext buf buf' r w :
  (forall i, (i < span r w)%nat -> let j := Z.to_nat ((r + Z.of_nat i) mod N) in nth j buf' 0 = nth j buf 0) ->
  chars buf' r w = chars buf r w.
Proof using.
  intros H. unfold chars. apply list_fmap_ext. intros i x Hx. apply lookup_seq in Hx as [-> Hi]. apply H. lia.
Qed.

(** Empty and full, as the code tests them. *)
Lemma ring_empty buf r w : ring_wf buf r w -> (r =? w) = bool_decide (chars buf r w = []).
Proof using N_pos N_W.
  intros [_ _ Hr Hw _]. rewrite (bool_decide_ext _ (span r w = 0)%nat).
  - destruct (Z.eqb_spec r w) as [->|Hne].
    + unfold span. rewrite Z.sub_diag, Z.mod_0_l by lia. by rewrite bool_decide_eq_true_2.
    + rewrite bool_decide_eq_false_2; [done|]. intros H0. apply Hne.
      rewrite (span_eq r w), H0, Z.add_0_r, Z.mod_small; lia.
  - rewrite <- (length_chars buf). split; [by intros ->|apply nil_length_inv].
Qed.

Lemma ring_full buf r w : ring_wf buf r w -> (w =? (r + N) mod W) = bool_decide (span r w = Z.to_nat N).
Proof using N_pos N_W.
  intros [_ _ Hr Hw _]. case_bool_decide as Hb.
  - apply Z.eqb_eq. rewrite (span_eq r w Hr Hw) at 1. rewrite Hb. f_equal. lia.
  - apply Z.eqb_neq. intros ->. apply Hb. replace N with (Z.of_nat (Z.to_nat N)) at 1 by lia. apply span_add; lia.
Qed.

(** buf[w++ % N] = c on a ring that is not full. *)
Lemma ring_push buf r w c : ring_wf buf r w -> is_byte c -> (span r w < Z.to_nat N)%nat ->
  let buf' := <[Z.to_nat (w mod N) := c]> buf in let w' := (w + 1) mod W in
  ring_wf buf' r w' /\ span r w' = S (span r w) /\ chars buf' r w' = chars buf r w ++ [c].
Proof using N_pos N_W N_div.
  intros [Hb Hl Hr Hw Hs] Hc Hlt buf' w'.
  assert (span r w' = S (span r w)) as Hspan.
  { subst w'. rewrite (span_eq r w Hr Hw) at 1. rewrite Zplus_mod_idemp_l.
    replace (r + Z.of_nat (span r w) + 1) with (r + Z.of_nat (S (span r w))) by lia. apply span_add; lia. }
  split; [|split; [done|]].
  - split; [by apply Forall_insert|by unfold buf'; rewrite length_insert|done|apply Z.mod_pos_bound; lia|lia].
  - assert (forall i, (i <= span r w)%nat -> Z.to_nat ((r + Z.of_nat i) mod N) = Z.to_nat (w mod N) -> i = span r w) as Hpos.
    { intros i Hi Heq. rewrite (span_eq r w Hr Hw), mod_W_N in Heq.
      pose proof (Z.mod_pos_bound (r + Z.of_nat i) N). pose proof (Z.mod_pos_bound (r + Z.of_nat (span r w)) N).
      assert ((r + Z.of_nat i) mod N = (r + Z.of_nat (span r w)) mod N) as He by lia.
      pose proof (Zminus_mod (r + Z.of_nat (span r w)) (r + Z.of_nat i) N) as Hm. rewrite He, Z.sub_diag, Z.mod_0_l, Z.mod_small in Hm by lia. lia. }
    apply list_eq_same_length with (S (span r w)); [rewrite length_app, length_chars; cbn; lia|by rewrite length_chars|].
    intros i x y Hi Hx Hy. rewrite chars_lookup in Hx by lia. injection Hx as <-.
    destruct (decide (i = span r w)) as [->|Hne].
    + rewrite lookup_app_r, length_chars, Nat.sub_diag in Hy by (rewrite length_chars; lia). injection Hy as <-.
      replace ((r + Z.of_nat (span r w)) mod N) with (w mod N) by (rewrite (span_eq r w Hr Hw) at 1; apply mod_W_N).
      apply nth_lookup_Some, list_lookup_insert_eq. rewrite Hl. pose proof (Z.mod_pos_bound w N). lia.
    + rewrite lookup_app_l, chars_lookup in Hy by (rewrite ?length_chars; lia). injection Hy as <-.
      rewrite !nth_lookup. f_equal. apply list_lookup_insert_ne. intros He. apply Hne, Hpos; [lia|done].
Qed.

Lemma span_split r w e : 0 <= r < W -> 0 <= w < W -> 0 <= e < W -> Z.of_nat (span r w + span w e) < W ->
  span r e = (span r w + span w e)%nat.
Proof using N_pos N_W.
  intros Hr Hw He Hlt. rewrite <- (span_add r (span r w + span w e)) by lia. f_equal.
  rewrite (span_eq w e Hw He), (span_eq r w Hr Hw) at 1. rewrite Zplus_mod_idemp_l. f_equal. lia.
Qed.

(** The characters up to [e] are those up to [w] and those from [w] on. *)
Lemma chars_app buf r w e : 0 <= r < W -> 0 <= w < W -> 0 <= e < W -> Z.of_nat (span r w + span w e) < W ->
  chars buf r e = chars buf r w ++ chars buf w e.
Proof using N_pos N_W N_div.
  intros Hr Hw He Hlt. pose proof (span_split r w e Hr Hw He Hlt) as Hs.
  apply list_eq_same_length with (span r e); [rewrite length_app, !length_chars; lia|by rewrite length_chars|].
  intros i x y Hi Hx Hy. rewrite chars_lookup in Hx by lia. injection Hx as <-.
  destruct (decide (i < span r w)%nat).
  - rewrite lookup_app_l, chars_lookup in Hy by (rewrite ?length_chars; lia). by injection Hy as <-.
  - rewrite lookup_app_r, length_chars, chars_lookup in Hy by (rewrite ?length_chars; lia). injection Hy as <-.
    f_equal. apply (f_equal Z.to_nat).
    transitivity ((((r + Z.of_nat (span r w)) mod W) mod N + Z.of_nat (i - span r w)) mod N).
    + rewrite mod_W_N, Z.add_mod_idemp_l by lia. f_equal. lia.
    + by rewrite <- (span_eq r w Hr Hw), Z.add_mod_idemp_l by lia.
Qed.

Lemma chars_one buf r : 0 <= r < W -> chars buf r ((r + 1) mod W) = [nth (Z.to_nat (r mod N)) buf 0].
Proof using N_pos N_W.
  intros Hr. unfold chars. change 1 with (Z.of_nat 1). rewrite span_add by lia. cbn. by rewrite Z.add_0_r.
Qed.

(** c = buf[r++ % N] on a ring that is not empty. *)
Lemma ring_pop buf r w c q : ring_wf buf r w -> chars buf r w = c :: q ->
  nth (Z.to_nat (r mod N)) buf 0 = c /\ is_byte c /\ ring_wf buf ((r + 1) mod W) w /\ chars buf ((r + 1) mod W) w = q.
Proof using N_pos N_W N_div.
  intros [Hb Hl Hr Hw Hs] Hq. pose proof (length_chars buf r w) as Hlen. rewrite Hq in Hlen. cbn in Hlen.
  set (r' := (r + 1) mod W). assert (0 <= r' < W) as Hr' by (apply Z.mod_pos_bound; lia).
  assert (span r' w = length q) as Hs'.
  { rewrite (span_eq r w Hr Hw), <- Hlen. replace (r + Z.of_nat (S (length q))) with (r + 1 + Z.of_nat (length q)) by lia.
    rewrite <- Zplus_mod_idemp_l. apply span_add; [done|]. pose proof (span_lt r w). lia. }
  assert (span r r' = 1)%nat as H1 by (apply (span_add r 1); lia).
  rewrite (chars_app buf r r' w) in Hq; try done; [|rewrite H1, Hs'; pose proof (span_lt r w); lia].
  unfold r' in Hq at 1. rewrite chars_one in Hq by done. injection Hq as Hc Hq. split_and!; [done| | |done].
  - rewrite <- Hc, nth_lookup. destruct (buf !! _) eqn:E; [|done]. exact (Forall_lookup_1 _ _ _ _ Hb E).
  - split; try done. lia.
Qed.

(** Taking back the newest element: e--. *)
Lemma ring_unpush buf w e q c : ring_wf buf w e -> chars buf w e = q ++ [c] ->
  let e' := (e - 1) mod W in
  nth (Z.to_nat (e' mod N)) buf 0 = c /\ ring_wf buf w e' /\ chars buf w e' = q.
Proof using N_pos N_W N_div.
  intros [Hb Hl Hw He Hs] Hq e'. pose proof (length_chars buf w e) as Hlen. rewrite Hq, length_app in Hlen. cbn in Hlen.
  assert (0 <= e' < W) as He' by (apply Z.mod_pos_bound; lia).
  assert ((e' + 1) mod W = e) as Hsucc.
  { unfold e'. rewrite Zplus_mod_idemp_l. replace (e - 1 + 1) with e by lia. by apply Z.mod_small. }
  assert (span w e' = length q) as Hs'.
  { unfold e'. rewrite (span_eq w e Hw He), <- Hlen. rewrite Zminus_mod_idemp_l.
    replace (w + Z.of_nat (length q + 1) - 1) with (w + Z.of_nat (length q)) by lia. apply span_add; lia. }
  assert (span e' e = 1)%nat as H1 by (rewrite <- Hsucc; apply (span_add e' 1); lia).
  rewrite (chars_app buf w e' e) in Hq; try done; [|rewrite H1, Hs'; pose proof (span_lt w e); lia].
  rewrite <- Hsucc in Hq. rewrite chars_one in Hq by done. apply app_inj_tail in Hq as [Hq Hc].
  split_and!; [done| |done]. split; [done..|lia].
Qed.
End ring.
