(* ===== verification/Sums.v ===== *)
(** * Sums: totals over a table

    The sum of a quantity over the entries of a list, and how it changes when one
    entry does: the arguments about reference counts share these lemmas. *)

From Stdlib Require Import ZArith Lia.
From stdpp Require Import base list.
From S2P Require Import Prelude.

Section sums.
Context {A : Type}.
Implicit Types (g : A -> Z) (l : list A).

Definition sum_by g l : Z := foldr (fun x a => g x + a) 0 l.

Lemma sum_by_cons g x l : sum_by g (x :: l) = g x + sum_by g l.
Proof. reflexivity. Qed.

Lemma sum_by_insert g l i x y : l !! i = Some x -> sum_by g (<[i := y]> l) = sum_by g l - g x + g y.
Proof.
  revert i. induction l as [|z l IH]; intros [|i] Hi; try discriminate Hi.
  - injection Hi as ->. change (<[0%nat := y]> (x :: l)) with (y :: l). rewrite !sum_by_cons. lia.
  - change (<[S i := y]> (z :: l)) with (z :: <[i := y]> l). rewrite !sum_by_cons, (IH i Hi). lia.
Qed.

Lemma sum_by_zero g l : (forall x, x ∈ l -> g x = 0) -> sum_by g l = 0.
Proof.
  induction l as [|z l IH]; intros Hl; [done|]. rewrite sum_by_cons, Hl by left. rewrite IH; [done|].
  intros x Hx. apply Hl. by right.
Qed.

Lemma sum_by_nonneg g l : (forall x, 0 <= g x) -> 0 <= sum_by g l.
Proof. intros Hg. induction l as [|z l IH]; [done|]. rewrite sum_by_cons. specialize (Hg z). lia. Qed.

Lemma sum_by_at_least g l i x : (forall x, 0 <= g x) -> l !! i = Some x -> g x <= sum_by g l.
Proof.
  intros Hg. revert i. induction l as [|z l IH]; intros [|i] Hi; try discriminate Hi; rewrite sum_by_cons.
  - injection Hi as ->. pose proof (sum_by_nonneg g l Hg). lia.
  - specialize (IH i Hi). specialize (Hg z). lia.
Qed.

End sums.

#[global] Arguments sum_by : simpl never.
