(* ===== verification/Spinlock.v ===== *)
(** * Spinlock: kernel/spinlock.c

    push_off()/pop_off(), acquire(), release() and holding() as kernel
    functions of one hart, what they do to the lock and to the hart's interrupt
    state, and a multi-hart transition system built from their atomic pieces in
    which mutual exclusion is an invariant.  [critical_section] is the form in
    which every other component uses a spinlock. *)

From Stdlib Require Import ZArith Lia.
From stdpp Require Import base gmap list strings.
From S2P Require Import Prelude State.

(** ** riscv.h: the interrupt-enable bit of sstatus *)

Definition intr_on : K unit :=
  modify (fun k => set_k_hart
    (set_h_sstatus (Z.lor (h_sstatus (k_hart k)) SSTATUS_SIE) (k_hart k)) k).

Definition intr_off : K unit :=
  modify (fun k => set_k_hart
    (set_h_sstatus (Z.land (h_sstatus (k_hart k)) (u64 (Z.lnot SSTATUS_SIE))) (k_hart k)) k).

Definition intr_get : K Z :=
  gets (fun k => of_bool (truth (Z.land (h_sstatus (k_hart k)) SSTATUS_SIE))).

(** ** proc.c: cpuid() *)

Definition cpuid : K Z := gets (fun k => h_tp (k_hart k)).

(** ** spinlock.c *)

Definition push_off : K unit :=
  let! old := intr_get in
  do! intr_off;
  let! c := gets k_cpu in
  do! (if c_noff c =? 0 then modify (fun k => set_k_cpu (set_c_intena old (k_cpu k)) k)
       else ret tt);
  modify (fun k => set_k_cpu (set_c_noff (c_noff (k_cpu k) + 1) (k_cpu k)) k).

Definition pop_off : K unit :=
  let! i := intr_get in
  if truth i then panic "pop_off - interruptible" else
  let! c := gets k_cpu in
  if c_noff c <? 1 then panic "pop_off" else
  do! modify (fun k => set_k_cpu (set_c_noff (c_noff (k_cpu k) - 1) (k_cpu k)) k);
  let! c := gets k_cpu in
  if (c_noff c =? 0) && truth (c_intena c) then intr_on else ret tt.

(** A lock that was never initialised is zero-filled, as C statics are. *)
Definition zero_lock : spinlock := mkSpinlock 0 "" None.

Definition lk_of (l : lockid) (k : kstate) : spinlock := default zero_lock (k_locks k !! l).
Definition put_lk (l : lockid) (lk : spinlock) : K unit :=
  modify (fun k => set_k_locks (<[l := lk]> (k_locks k)) k).

Definition initlock (l : lockid) (name : string) : K unit :=
  put_lk l (mkSpinlock 0 name None).

Definition holding (l : lockid) : K Z :=
  let! id := cpuid in
  gets (fun k => of_bool (truth (sl_locked (lk_of l k)) &&
                          bool_decide (sl_cpu (lk_of l k) = Some id))).

(** __sync_lock_test_and_set: an atomic swap with 1. *)
Definition test_and_set (l : lockid) : K Z :=
  let! lk := gets (lk_of l) in
  do! put_lk l (set_sl_locked 1 lk);
  ret (sl_locked lk).

Definition set_owner (l : lockid) (o : option Z) : K unit :=
  let! lk := gets (lk_of l) in put_lk l (set_sl_cpu o lk).

(** __sync_lock_release. *)
Definition sync_release (l : lockid) : K unit :=
  let! lk := gets (lk_of l) in put_lk l (set_sl_locked 0 lk).

(** The busy-wait of acquire(): if the swap finds the lock taken, it stays
    taken for as long as only this hart runs. *)
Definition acquire (l : lockid) : K unit :=
  do! push_off;
  let! h := holding l in
  if truth h then panic "acquire" else
  let! old := test_and_set l in
  if truth old then (fun _ => Spin) else
  let! id := cpuid in
  set_owner l (Some id).

Definition release (l : lockid) : K unit :=
  let! h := holding l in
  if negb (truth h) then panic "release" else
  do! set_owner l None;
  do! sync_release l;
  pop_off.

#[global] Arguments push_off : simpl never.
#[global] Arguments pop_off : simpl never.
#[global] Arguments acquire : simpl never.
#[global] Arguments release : simpl never.

(** ** Well-formed harts and free locks *)

Definition intr_enabled (k : kstate) : bool :=
  truth (Z.land (h_sstatus (k_hart k)) SSTATUS_SIE).

(** Interrupts are off inside push_off(); outside, [intena] records whether
    they are on (it is rewritten by the outermost push_off()). *)
Record cpu_wf (c : cpu) (h : hart) : Prop := {
  cpu_sstatus : 0 <= h_sstatus h < 2 ^ 64;
  cpu_noff : 0 <= c_noff c;
  cpu_intr_off : 0 < c_noff c -> truth (Z.land (h_sstatus h) SSTATUS_SIE) = false;
  cpu_intena : c_noff c = 0 -> c_intena c = of_bool (truth (Z.land (h_sstatus h) SSTATUS_SIE)) }.

Definition cpu_ok (k : kstate) : Prop := cpu_wf (k_cpu k) (k_hart k).

Definition lock_free (k : kstate) (l : lockid) : Prop :=
  exists name, k_locks k !! l = Some (mkSpinlock 0 name None).

Definition sie_off (s : Z) : Z := Z.land s (u64 (Z.lnot SSTATUS_SIE)).

#[global] Arguments sie_off : simpl never.

(** The state after push_off() in [k]. *)
Definition pushed (k : kstate) : kstate :=
  set_k_cpu
    (mkCpu (c_proc (k_cpu k)) (c_context (k_cpu k)) (c_noff (k_cpu k) + 1)
       (if c_noff (k_cpu k) =? 0 then of_bool (intr_enabled k) else c_intena (k_cpu k)))
    (set_k_hart (set_h_sstatus (sie_off (h_sstatus (k_hart k))) (k_hart k)) k).

(** The state after a successful acquire(l) in [k]. *)
Definition enter (l : lockid) (k : kstate) : kstate :=
  set_k_locks
    (<[l := mkSpinlock 1 (sl_name (lk_of l k)) (Some (h_tp (k_hart k)))]> (k_locks k))
    (pushed k).

(** [k2] with the locks and the hart as they are in [k]. *)
Definition restore (k k2 : kstate) : kstate :=
  set_k_locks (k_locks k) (set_k_cpu (k_cpu k) (set_k_hart (k_hart k) k2)).

(** [k1] and [k2] agree on the locks and the hart. *)
Definition same_cpu (k1 k2 : kstate) : Prop :=
  k_locks k1 = k_locks k2 /\ k_cpu k1 = k_cpu k2 /\ k_hart k1 = k_hart k2.

Lemma SIE_truth s : truth (Z.land s SSTATUS_SIE) = Z.testbit s 1.
Proof. by apply truth_land_bit. Qed.

Lemma sie_off_bit s n : 0 <= s < 2 ^ 64 -> 0 <= n ->
  Z.testbit (sie_off s) n = Z.testbit s n && negb (n =? 1).
Proof.
  intros Hs Hn. unfold sie_off. rewrite Z.land_spec. destruct (decide (n < 64)).
  - unfold u64. rewrite Z.mod_pow2_bits_low, Z.lnot_spec by lia.
    unfold SSTATUS_SIE. by rewrite bit_shiftl1 by lia.
  - by rewrite (bits_above s 64) by lia.
Qed.

Lemma sie_off_test s : 0 <= s < 2 ^ 64 -> truth (Z.land (sie_off s) SSTATUS_SIE) = false.
Proof. intros. by rewrite SIE_truth, sie_off_bit, andb_false_r by lia. Qed.

Lemma sie_off_on s : 0 <= s < 2 ^ 64 -> Z.testbit s 1 = true ->
  Z.lor (sie_off s) SSTATUS_SIE = s.
Proof.
  intros Hs H1. apply Z.bits_inj'. intros n Hn. unfold SSTATUS_SIE.
  rewrite Z.lor_spec, sie_off_bit, bit_shiftl1 by lia.
  destruct (Z.eqb_spec n 1) as [->|]; by rewrite ?H1, ?andb_true_r, ?orb_false_r.
Qed.

Lemma sie_off_id s : 0 <= s < 2 ^ 64 -> Z.testbit s 1 = false -> sie_off s = s.
Proof.
  intros Hs H1. apply Z.bits_inj'. intros n Hn. rewrite sie_off_bit by lia.
  destruct (Z.eqb_spec n 1) as [->|]; by rewrite ?H1, ?andb_true_r.
Qed.

(** ** What acquire() and release() do *)

Lemma enter_cpu_ok l k : cpu_ok k -> cpu_ok (enter l k).
Proof.
  intros [Hs Hn Hoff Hen]. split; cbn.
  - by apply land_range.
  - lia.
  - intros _. by apply sie_off_test.
  - lia.
Qed.

Lemma enter_lock_free l l' k : l <> l' -> lock_free k l' -> lock_free (enter l k) l'.
Proof. intros Hne [n Hn]. exists n. cbn. by rewrite lookup_insert_ne. Qed.

Lemma push_off_run k : push_off k = Ret tt (pushed k).
Proof.
  unfold push_off, pushed, bind, gets, modify, ret. cbn.
  destruct k as [c h]; destruct c, h; cbn in *.
  destruct (Z.eqb_spec c_noff 0); reflexivity.
Qed.

(** pop_off() undoes push_off(), whatever else changed in between. *)
Lemma pop_off_run k k2 : cpu_ok k ->
  k_cpu k2 = k_cpu (pushed k) -> k_hart k2 = k_hart (pushed k) ->
  pop_off k2 = Ret tt (set_k_cpu (k_cpu k) (set_k_hart (k_hart k) k2)).
Proof.
  intros [Hs Hn Hoff Hen] Hc Hh. unfold intr_enabled in *. rewrite SIE_truth in *.
  destruct k as [[cp cc n en] [tp ss ? ? ? ? ?]], k2 as [c2 h2]; cbn in *. subst c2 h2.
  unfold pop_off, intr_get, bind, gets, modify, ret, panic; cbn.
  rewrite sie_off_test by done. cbn.
  destruct (Z.ltb_spec (n + 1) 1); [lia|].
  cbn. replace (n + 1 - 1) with n by lia. unfold intr_enabled; cbn. rewrite SIE_truth.
  destruct (Z.eqb_spec n 0) as [->|]; cbn.
  - rewrite Hen by done. destruct (Z.testbit ss 1) eqn:E; cbn.
    + unfold intr_on, modify; cbn. by rewrite sie_off_on.
    + by rewrite sie_off_id.
  - by rewrite sie_off_id by (done || apply Hoff; lia).
Qed.

Lemma holding_free l k : lock_free k l -> holding l k = Ret 0 k.
Proof.
  intros [n Hn]. unfold holding, bind, gets, cpuid, lk_of; cbn. by rewrite Hn.
Qed.

(** acquire() of a free lock. *)
Lemma acquire_run l k : lock_free k l -> acquire l k = Ret tt (enter l k).
Proof.
  intros [n Hn]. unfold acquire. erewrite bind_ret_run by apply push_off_run.
  erewrite bind_ret_run by (apply holding_free; by exists n). cbn.
  unfold test_and_set, set_owner, put_lk, cpuid, bind, gets, modify, ret, enter, lk_of; cbn.
  rewrite Hn. cbn. rewrite lookup_insert_eq. cbn. by rewrite insert_insert_eq.
Qed.

(** release() of the lock that [enter] took, after a critical section that
    left the locks and the hart alone. *)
Lemma release_run l k k2 : lock_free k l -> cpu_ok k -> same_cpu k2 (enter l k) ->
  release l k2 = Ret tt (restore k k2).
Proof.
  intros [n Hn] Hok (Hl & Hc & Hh).
  unfold release, holding, cpuid, set_owner, sync_release, put_lk, bind, gets, modify, ret, lk_of.
  rewrite Hl, Hh. cbn. rewrite lookup_insert_eq. cbn.
  rewrite bool_decide_true by done. cbn. unfold lk_of.
  rewrite Hl. cbn. repeat (rewrite lookup_insert_eq; cbn). unfold lk_of. rewrite Hn. cbn.
  rewrite !insert_insert_eq. rewrite (pop_off_run k) by done. unfold restore. cbn.
  rewrite (insert_id (k_locks k) l) by done. by destruct k2.
Qed.

(** acquire() by the hart that already holds the lock, and release() by one
    that does not, panic; acquire() of a lock held elsewhere spins. *)
Lemma acquire_held l k :
  sl_locked (lk_of l k) <> 0 -> sl_cpu (lk_of l k) = Some (h_tp (k_hart k)) ->
  acquire l k = Panic "acquire".
Proof.
  intros Hl Hc. unfold acquire. erewrite bind_ret_run by apply push_off_run.
  unfold holding, cpuid, bind, gets. cbn. unfold lk_of in *. cbn.
  rewrite truth_of_bool, Hc, truth_true by done. by rewrite bool_decide_true.
Qed.

Lemma acquire_spins l k :
  sl_locked (lk_of l k) <> 0 -> sl_cpu (lk_of l k) <> Some (h_tp (k_hart k)) ->
  acquire l k = Spin.
Proof.
  intros Hl Hc. unfold acquire. erewrite bind_ret_run by apply push_off_run.
  unfold holding, cpuid, test_and_set, put_lk, bind, gets, ret, modify. cbn. unfold lk_of in *. cbn.
  rewrite (bool_decide_false _ Hc), andb_false_r. cbn. by rewrite truth_true.
Qed.

Lemma release_not_held l k :
  sl_locked (lk_of l k) = 0 \/ sl_cpu (lk_of l k) <> Some (h_tp (k_hart k)) ->
  release l k = Panic "release".
Proof.
  intros H. unfold release, holding, cpuid, bind, gets. cbn.
  destruct H as [->|Hc]; [done|]. by rewrite (bool_decide_false _ Hc), andb_false_r.
Qed.

Lemma restore_enter l k : restore k (enter l k) = k.
Proof. by destruct k. Qed.

Lemma same_cpu_refl k : same_cpu k k.
Proof. done. Qed.

(** Any body that runs inside acquire()/release() and leaves the locks and the
    hart as it found them. *)
Lemma critical_section {A} l (body : K A) k a k2 :
  lock_free k l -> cpu_ok k ->
  body (enter l k) = Ret a k2 -> same_cpu k2 (enter l k) ->
  (do! acquire l; let! x := body in do! release l; ret x) k = Ret a (restore k k2).
Proof.
  intros Hf Hok Hb Hs. erewrite bind_ret_run by by apply acquire_run.
  erewrite bind_ret_run by eassumption.
  by erewrite bind_ret_run by by apply release_run.
Qed.

Lemma myproc_noop k : cpu_ok k -> (do! push_off; let! c := gets k_cpu in do! pop_off; ret (c_proc c)) k
  = Ret (c_proc (k_cpu k)) k.
Proof.
  intros Hok. erewrite bind_ret_run by apply push_off_run.
  unfold gets at 1. unfold bind at 1. erewrite bind_ret_run by (by eapply pop_off_run).
  destruct k. reflexivity.
Qed.

(** ** Nesting *)

Definition repeatM (n : nat) (m : K unit) : K unit := for_each (seq 0 n) (fun _ => m).

Lemma repeatM_S n m k : repeatM (S n) m k = (do! m; repeatM n m) k.
Proof.
  unfold repeatM. simpl. unfold bind. destruct (m k); try done.
  rewrite <- (seq_shift n 0). generalize (seq 0 n) as l, s. induction l as [|x l IH]; intros s0; [done|].
  simpl. unfold bind. destruct (m s0); auto.
Qed.

Fixpoint pushed_n (n : nat) (k : kstate) : kstate :=
  match n with O => k | S n' => pushed (pushed_n n' k) end.

Lemma pushed_cpu_ok k : cpu_ok k -> cpu_ok (pushed k).
Proof. apply (enter_cpu_ok LKmem). Qed.

Lemma pushed_n_cpu_ok n k : cpu_ok k -> cpu_ok (pushed_n n k).
Proof. induction n; simpl; auto using pushed_cpu_ok. Qed.

Lemma pushed_n_pushed n k : pushed_n n (pushed k) = pushed (pushed_n n k).
Proof. induction n; simpl; congruence. Qed.

Lemma push_n_run n k : repeatM n push_off k = Ret tt (pushed_n n k).
Proof.
  revert k. induction n as [|n IH]; intros k; [done|]. rewrite repeatM_S.
  erewrite bind_ret_run by apply push_off_run. rewrite IH. simpl. by rewrite pushed_n_pushed.
Qed.

Lemma pop_n_run m n k : cpu_ok k -> repeatM m pop_off (pushed_n (m + n) k) = Ret tt (pushed_n n k).
Proof.
  intros Hok. induction m as [|m IH]; [done|]. rewrite repeatM_S. simpl.
  erewrite bind_ret_run by (eapply pop_off_run; [by apply (pushed_n_cpu_ok (m + n))|done..]).
  rewrite <- IH. f_equal. by destruct (pushed_n (m + n) k).
Qed.

(** [push_pop_matched]: push_off() and pop_off() nest: of [n] push_off()s, [m] pop_off()s undo exactly [m];
    while one is outstanding interrupts are off, and the matching number restores the
    hart exactly as it was (interrupts on only if they were on). *)
Theorem push_pop_matched m n k : cpu_ok k -> (m <= n)%nat ->
  exists k', (do! repeatM n push_off; repeatM m pop_off) k = Ret tt k' /\
    c_noff (k_cpu k') = c_noff (k_cpu k) + Z.of_nat (n - m) /\
    ((m < n)%nat -> intr_enabled k' = false) /\ (m = n -> k' = k).
Proof.
  intros Hok Hle. exists (pushed_n (n - m) k).
  erewrite bind_ret_run by apply push_n_run.
  replace n with (m + (n - m))%nat at 1 by lia. split; [by apply pop_n_run|].
  assert (Hn : forall q, c_noff (k_cpu (pushed_n q k)) = c_noff (k_cpu k) + Z.of_nat q).
  { induction q; simpl; rewrite ?IHq; lia. }
  split; [apply Hn|]. split; intros H.
  - eapply cpu_intr_off; [by apply pushed_n_cpu_ok|]. rewrite Hn. destruct Hok. lia.
  - subst. by rewrite Nat.sub_diag.
Qed.

Lemma zero_cpu_ok : cpu_ok zero_state.
Proof. split; done. Qed.

Lemma push_pop_matched_witness : exists k',
  (do! repeatM 2 push_off; repeatM 1 pop_off) zero_state = Ret tt k' /\ intr_enabled k' = false.
Proof.
  destruct (push_pop_matched 1 2 zero_state zero_cpu_ok ltac:(lia)) as (k' & H & _ & Hi & _).
  exists k'. split; [exact H|apply Hi; lia].
Defined.

(** ** Many harts

    Each hart has its registers, its struct cpu, the locks it holds and where
    it is inside acquire() or release().  A step of hart [i] runs one atomic
    piece of the code on the shared state seen with [i]'s registers; harts
    interleave arbitrarily. *)
Module Harts.

Inductive phase : Type :=
| Idle
| Try (l : lockid)   (**r in acquire(l), before a test-and-set *)
| Got (l : lockid)   (**r the swap returned 0; lk->cpu not yet set *)
| Rel (l : lockid)   (**r in release(l): lk->cpu cleared, lock still taken *)
| Unl.               (**r in release(): lock given back, before pop_off() *)

Record hstate : Type := mkHstate {
  hs_hart : hart; hs_cpu : cpu; hs_held : list lockid; hs_phase : phase }.

Record sys : Type := mkSys { shared : kstate; harts : list hstate }.

Definition view (h : hstate) (s : sys) : kstate :=
  set_k_cpu (hs_cpu h) (set_k_hart (hs_hart h) (shared s)).

Definition commit (i : nat) (held : list lockid) (p : phase) (k : kstate) (s : sys) : sys :=
  mkSys k (<[i := mkHstate (k_hart k) (k_cpu k) held p]> (harts s)).

Inductive step : sys -> sys -> Prop :=
| step_begin i h l k s :
    harts s !! i = Some h -> hs_phase h = Idle ->
    (do! push_off; holding l) (view h s) = Ret 0 k ->
    step s (commit i (hs_held h) (Try l) k s)
| step_spin i h l k old s :
    harts s !! i = Some h -> hs_phase h = Try l ->
    test_and_set l (view h s) = Ret old k -> old <> 0 ->
    step s (commit i (hs_held h) (Try l) k s)
| step_swap i h l k s :
    harts s !! i = Some h -> hs_phase h = Try l ->
    test_and_set l (view h s) = Ret 0 k ->
    step s (commit i (hs_held h) (Got l) k s)
| step_own i h l k s :
    harts s !! i = Some h -> hs_phase h = Got l ->
    (let! id := cpuid in set_owner l (Some id)) (view h s) = Ret tt k ->
    step s (commit i (l :: hs_held h) Idle k s)
| step_disown i h l k s :
    harts s !! i = Some h -> hs_phase h = Idle ->
    holding l (view h s) = Ret 1 (view h s) ->
    set_owner l None (view h s) = Ret tt k ->
    step s (commit i (filter (.≠ l) (hs_held h)) (Rel l) k s)
| step_unlock i h l k s :
    harts s !! i = Some h -> hs_phase h = Rel l ->
    sync_release l (view h s) = Ret tt k ->
    step s (commit i (hs_held h) Unl k s)
| step_pop i h k s :
    harts s !! i = Some h -> hs_phase h = Unl ->
    pop_off (view h s) = Ret tt k ->
    step s (commit i (hs_held h) Idle k s).

(** All harts idle, all locks free, every hart with its own id in tp. *)
Definition initial (s : sys) : Prop :=
  (forall l, sl_locked (lk_of l (shared s)) = 0 /\ sl_cpu (lk_of l (shared s)) = None) /\
  (forall i h, harts s !! i = Some h ->
     hs_held h = [] /\ hs_phase h = Idle /\ h_tp (hs_hart h) = Z.of_nat i).

Inductive reachable : sys -> Prop :=
| reach_init s : initial s -> reachable s
| reach_step s s' : reachable s -> step s s' -> reachable s'.

(** The hart has taken [l] and not given it back. *)
Definition owns (h : hstate) (l : lockid) : Prop :=
  l ∈ hs_held h \/ hs_phase h = Got l \/ hs_phase h = Rel l.

Record inv (s : sys) : Prop := {
  inv_tp : forall i h, harts s !! i = Some h -> h_tp (hs_hart h) = Z.of_nat i;
  inv_uniq : forall i j hi hj l, harts s !! i = Some hi -> harts s !! j = Some hj ->
    owns hi l -> owns hj l -> i = j;
  inv_locked : forall i h l, harts s !! i = Some h -> owns h l ->
    sl_locked (lk_of l (shared s)) = 1;
  inv_owner : forall l, sl_locked (lk_of l (shared s)) <> 0 ->
    exists i h, harts s !! i = Some h /\ owns h l;
  inv_cpu : forall l t, sl_cpu (lk_of l (shared s)) = Some t <->
    exists i h, harts s !! i = Some h /\ l ∈ hs_held h /\ t = Z.of_nat i;
  inv_fresh : forall i h l, harts s !! i = Some h -> l ∈ hs_held h ->
    hs_phase h <> Try l /\ hs_phase h <> Got l /\ hs_phase h <> Rel l }.

Lemma lk_of_put l l' lk k0 k :
  lk_of l' (set_k_locks (<[l:=lk]> (k_locks k0)) k) = if decide (l = l') then lk else lk_of l' k0.
Proof. unfold lk_of; cbn. rewrite lookup_insert. by case_decide. Qed.

(** What each atomic piece does to the shared locks. *)
Lemma test_and_set_run l k : test_and_set l k =
  Ret (sl_locked (lk_of l k)) (set_k_locks (<[l:=set_sl_locked 1 (lk_of l k)]> (k_locks k)) k).
Proof. reflexivity. Qed.

Lemma set_owner_run l o k : set_owner l o k =
  Ret tt (set_k_locks (<[l:=set_sl_cpu o (lk_of l k)]> (k_locks k)) k).
Proof. reflexivity. Qed.

Lemma sync_release_run l k : sync_release l k =
  Ret tt (set_k_locks (<[l:=set_sl_locked 0 (lk_of l k)]> (k_locks k)) k).
Proof. reflexivity. Qed.

Lemma begin_run l h s k : (do! push_off; holding l) (view h s) = Ret 0 k ->
  h_tp (k_hart k) = h_tp (hs_hart h) /\ k_locks k = k_locks (shared s) /\
  ~ (sl_locked (lk_of l (shared s)) <> 0 /\
     sl_cpu (lk_of l (shared s)) = Some (h_tp (hs_hart h))).
Proof.
  intros H. erewrite bind_ret_run in H by apply push_off_run.
  unfold holding, cpuid, bind, gets in H. cbn in H. injection H as Hb <-. cbn.
  split_and!; [done..|]. intros [Hl Hc].
  unfold lk_of in *; cbn in *. rewrite truth_true, bool_decide_true in Hb by done. done.
Qed.

Lemma pop_off_locks k k' : pop_off k = Ret tt k' ->
  k_locks k' = k_locks k /\ h_tp (k_hart k') = h_tp (k_hart k).
Proof.
  unfold pop_off, intr_get, bind, gets, modify, ret, panic. cbn.
  repeat case_match; try done; unfold intr_on, modify; intros; simplify_eq; done.
Qed.

Lemma lookup_commit i held p k s j h : harts (commit i held p k s) !! j = Some h ->
  (j = i /\ h = mkHstate (k_hart k) (k_cpu k) held p) \/ (j <> i /\ harts s !! j = Some h).
Proof.
  cbn. destruct (decide (i = j)) as [<-|].
  - intros H. left. pose proof (lookup_lt_Some _ _ _ H) as Hlt. rewrite length_insert in Hlt.
    rewrite list_lookup_insert_eq in H by done. naive_solver.
  - rewrite list_lookup_insert_ne by done. auto.
Qed.

Lemma commit_self i held p k s h0 : harts s !! i = Some h0 ->
  harts (commit i held p k s) !! i = Some (mkHstate (k_hart k) (k_cpu k) held p).
Proof. intros H. cbn. apply list_lookup_insert_eq. by eapply lookup_lt_Some. Qed.

Lemma commit_other i held p k s j : j <> i -> harts (commit i held p k s) !! j = harts s !! j.
Proof. intros H. cbn. by apply list_lookup_insert_ne. Qed.

(** Re-establishing the invariant after hart [i] moved. *)
Lemma inv_commit i h held p k s :
  inv s -> harts s !! i = Some h -> h_tp (k_hart k) = h_tp (hs_hart h) ->
  let h' := mkHstate (k_hart k) (k_cpu k) held p in
  (forall l, owns h' l -> sl_locked (lk_of l k) = 1 /\
     forall j hj, j <> i -> harts s !! j = Some hj -> ~ owns hj l) ->
  (forall l j hj, j <> i -> harts s !! j = Some hj -> owns hj l -> sl_locked (lk_of l k) = 1) ->
  (forall l, sl_locked (lk_of l k) <> 0 -> owns h' l \/
     exists j hj, j <> i /\ harts s !! j = Some hj /\ owns hj l) ->
  (forall l t, sl_cpu (lk_of l k) = Some t <-> (l ∈ held /\ t = Z.of_nat i) \/
     exists j hj, j <> i /\ harts s !! j = Some hj /\ l ∈ hs_held hj /\ t = Z.of_nat j) ->
  (forall l, l ∈ held -> p <> Try l /\ p <> Got l /\ p <> Rel l) ->
  inv (commit i held p k s).
Proof.
  intros Hinv Hi Htp h' Hown Hother Hlk Hcpu Hfr. split.
  - intros j hj [[-> ->]|[Hne Hj]]%lookup_commit; [|by eapply inv_tp].
    cbn. rewrite Htp. by eapply inv_tp.
  - intros j1 j2 h1 h2 l [[-> ->]|[Hne1 H1]]%lookup_commit [[-> ->]|[Hne2 H2]]%lookup_commit O1 O2;
      [done| | |by eapply inv_uniq].
    + by destruct (proj2 (Hown l O1) _ _ Hne2 H2).
    + by destruct (proj2 (Hown l O2) _ _ Hne1 H1).
  - intros j hj l [[-> ->]|[Hne Hj]]%lookup_commit O; [by apply Hown|by eapply Hother].
  - intros l Hl. destruct (Hlk l Hl) as [O|(j & hj & Hne & Hj & O)].
    + exists i, h'. split; [by eapply commit_self|done].
    + exists j, hj. by rewrite commit_other.
  - intros l t. rewrite Hcpu. cbn [shared commit]. split.
    + intros [[Hl ->]|(j & hj & Hne & Hj & Hl & ->)].
      * exists i, h'. split_and!; [by eapply commit_self|done..].
      * exists j, hj. by rewrite commit_other.
    + intros (j & hj & [[-> ->]|[Hne Hj]]%lookup_commit & Hl & ->); [by left|].
      right. by exists j, hj.
  - intros j hj l [[-> ->]|[Hne Hj]]%lookup_commit Hl; [by apply Hfr|by eapply inv_fresh].
Qed.

(** A move that takes and gives back nothing and leaves the locks alone. *)
Lemma inv_commit_same i h p k s :
  inv s -> harts s !! i = Some h -> h_tp (k_hart k) = h_tp (hs_hart h) ->
  (forall l, lk_of l k = lk_of l (shared s)) ->
  (forall l, hs_phase h <> Got l /\ hs_phase h <> Rel l) ->
  (forall l, p <> Got l /\ p <> Rel l) ->
  (forall l, l ∈ hs_held h -> p <> Try l) ->
  inv (commit i (hs_held h) p k s).
Proof.
  intros Hinv Hi Htp Hlk Hph Hp Ht.
  assert (Ho : forall l, owns (mkHstate (k_hart k) (k_cpu k) (hs_held h) p) l -> owns h l).
  { intros l [?|[?|?]]; [by left|by destruct (Hp l)..]. }
  assert (Ho' : forall l, owns h l -> owns (mkHstate (k_hart k) (k_cpu k) (hs_held h) p) l).
  { intros l [?|[?|?]]; [by left|by destruct (Hph l)..]. }
  eapply inv_commit; try done.
  - intros l O. rewrite Hlk. split; [by eapply inv_locked; eauto|].
    intros j hj Hne Hj Oj. apply Hne. by eapply inv_uniq; eauto.
  - intros l j hj Hne Hj Oj. rewrite Hlk. by eapply inv_locked.
  - intros l Hl. rewrite Hlk in Hl. destruct (inv_owner _ Hinv _ Hl) as (j & hj & Hj & O).
    destruct (decide (j = i)) as [->|]; [left; naive_solver|right; eauto].
  - intros l t. rewrite Hlk, (inv_cpu _ Hinv). split.
    + intros (j & hj & Hj & Hl & ->). destruct (decide (j = i)); naive_solver.
    + naive_solver.
  - intros l Hl. split; [by apply Ht|apply Hp].
Qed.

Lemma inv_swap i h l k s :
  inv s -> harts s !! i = Some h -> hs_phase h = Try l ->
  test_and_set l (view h s) = Ret 0 k -> inv (commit i (hs_held h) (Got l) k s).
Proof.
  intros Hinv Hi Hph H. rewrite test_and_set_run in H.
  injection H as H0 <-. change (lk_of l (view h s)) with (lk_of l (shared s)) in H0.
  assert (Hno : forall j hj, harts s !! j = Some hj -> ~ owns hj l).
  { intros j hj Hj O. pose proof (inv_locked _ Hinv _ _ _ Hj O). lia. }
  eapply inv_commit; try done; cbn [sl_locked].
  - intros l' O. rewrite lk_of_put. case_decide; [subst; split; [done|naive_solver]|].
    destruct O as [O|[O|O]]; cbn in O; [|by simplify_eq..].
    assert (Oh : owns h l') by by left. split; [by eapply inv_locked|].
    intros j hj Hne Hj Oj. apply Hne. by eapply inv_uniq.
  - intros l' j hj Hne Hj O. rewrite lk_of_put. case_decide; [done|]. by eapply inv_locked.
  - intros l' Hl'. rewrite lk_of_put in Hl'. case_decide; [subst; left; right; by left|].
    destruct (inv_owner _ Hinv _ Hl') as (j & hj & Hj & O).
    destruct (decide (j = i)) as [->|]; [|naive_solver].
    left. simplify_eq. destruct O as [O|[O|O]]; [by left|congruence..].
  - intros l' t. rewrite lk_of_put. transitivity (sl_cpu (lk_of l' (shared s)) = Some t).
    { by case_decide; subst. }
    rewrite (inv_cpu _ Hinv). split.
    + intros (j & hj & Hj & Hl & ->). destruct (decide (j = i)); naive_solver.
    + naive_solver.
  - intros l' Hl'. split_and!; [done| |done]. intros [= ->].
    by destruct (inv_fresh _ Hinv _ _ _ Hi Hl') as [? _].
Qed.

Lemma inv_own i h l k s :
  inv s -> harts s !! i = Some h -> hs_phase h = Got l ->
  (let! id := cpuid in set_owner l (Some id)) (view h s) = Ret tt k ->
  inv (commit i (l :: hs_held h) Idle k s).
Proof.
  intros Hinv Hi Hph H. unfold cpuid, bind, gets in H. rewrite set_owner_run in H.
  injection H as <-. assert (Ol : owns h l) by (right; by left).
  assert (Ho : forall l', l' ∈ l :: hs_held h -> owns h l').
  { intros l' [->|Hin]%elem_of_cons; [done|by left]. }
  eapply inv_commit; try done.
  - intros l' [O|[O|O]]; cbn in O; [|done..]. rewrite lk_of_put.
    pose proof (inv_locked _ Hinv _ _ _ Hi (Ho _ O)).
    split; [by case_decide; subst|]. intros j hj Hne Hj Oj. apply Hne. by eapply inv_uniq; eauto.
  - intros l' j hj Hne Hj O. rewrite lk_of_put.
    pose proof (inv_locked _ Hinv _ _ _ Hj O). by case_decide; subst.
  - intros l' Hl'. assert (Hl : sl_locked (lk_of l' (shared s)) <> 0).
    { rewrite lk_of_put in Hl'. by case_decide; subst. }
    destruct (inv_owner _ Hinv _ Hl) as (j & hj & Hj & O).
    destruct (decide (j = i)) as [->|]; [|naive_solver].
    left. left. simplify_eq. cbn. destruct O as [O|[O|O]]; [by right| |congruence].
    assert (l' = l) as -> by congruence. by left.
  - intros l' t. rewrite lk_of_put. case_decide as Hd.
    + subst l'. cbn. rewrite (inv_tp _ Hinv _ _ Hi). split.
      * intros [= <-]. left. split; [by left|done].
      * intros [[_ ->]|(j & hj & Hne & Hj & Hl & _)]; [done|].
        exfalso. apply Hne. eapply inv_uniq; eauto. by left.
    + change (lk_of l' (view h s)) with (lk_of l' (shared s)). rewrite (inv_cpu _ Hinv). split.
      * intros (j & hj & Hj & Hl & ->). destruct (decide (j = i)) as [->|]; [|naive_solver].
        simplify_eq. left. split; [by right|done].
      * intros [[[->|Hl]%elem_of_cons ->]|?]; [done|by eauto|naive_solver].
Qed.

Lemma inv_disown i h l k s :
  inv s -> harts s !! i = Some h -> hs_phase h = Idle ->
  holding l (view h s) = Ret 1 (view h s) -> set_owner l None (view h s) = Ret tt k ->
  inv (commit i (filter (.≠ l) (hs_held h)) (Rel l) k s).
Proof.
  intros Hinv Hi Hph Hh H. rewrite set_owner_run in H. injection H as <-.
  assert (Hheld : l ∈ hs_held h).
  { unfold holding, cpuid, bind, gets in Hh. cbn in Hh. injection Hh as Hh.
    destruct (bool_decide_reflect (sl_cpu (lk_of l (view h s)) = Some (h_tp (hs_hart h)))) as [E|];
      [|by rewrite andb_false_r in Hh].
    change (lk_of l (view h s)) with (lk_of l (shared s)) in E.
    rewrite (inv_tp _ Hinv _ _ Hi), (inv_cpu _ Hinv) in E.
    destruct E as (j & hj & Hj & Hl & Ht). assert (j = i) as -> by lia. naive_solver. }
  assert (Ho : forall l', owns (mkHstate (k_hart (view h s)) (k_cpu (view h s))
            (filter (.≠ l) (hs_held h)) (Rel l)) l' -> owns h l').
  { intros l' [O|[O|O]]; cbn in O; [|done|].
    - apply list_elem_of_filter in O as [_ O]. by left.
    - simplify_eq. by left. }
  eapply inv_commit; try done.
  - intros l' O. apply Ho in O. rewrite lk_of_put. pose proof (inv_locked _ Hinv _ _ _ Hi O).
    split; [by case_decide; subst|]. intros j hj Hne Hj Oj. apply Hne. by eapply inv_uniq; eauto.
  - intros l' j hj Hne Hj O. rewrite lk_of_put.
    pose proof (inv_locked _ Hinv _ _ _ Hj O). by case_decide; subst.
  - intros l' Hl'. assert (Hl : sl_locked (lk_of l' (shared s)) <> 0).
    { rewrite lk_of_put in Hl'. by case_decide; subst. }
    destruct (inv_owner _ Hinv _ Hl) as (j & hj & Hj & O).
    destruct (decide (j = i)) as [->|]; [|naive_solver]. left. simplify_eq.
    destruct (decide (l' = l)) as [->|]; [right; by right|]. left. cbn.
    apply list_elem_of_filter. destruct O as [O|[O|O]]; [done|congruence..].
  - intros l' t. rewrite lk_of_put. case_decide as Hd.
    + subst l'. cbn. split; [done|]. intros [[Hf%list_elem_of_filter _]|(j & hj & Hne & Hj & Hl & _)];
        [by destruct Hf|]. exfalso. apply Hne. eapply inv_uniq; eauto; by left.
    + change (lk_of l' (view h s)) with (lk_of l' (shared s)). rewrite (inv_cpu _ Hinv). split.
      * intros (j & hj & Hj & Hl & ->). destruct (decide (j = i)) as [->|]; [|naive_solver].
        simplify_eq. left. split; [by apply list_elem_of_filter|done].
      * intros [[Hf%list_elem_of_filter ->]|?]; naive_solver.
  - intros l' Hf%list_elem_of_filter. split_and!; [done..|]. intros [= ->]. by destruct Hf.
Qed.

Lemma inv_unlock i h l k s :
  inv s -> harts s !! i = Some h -> hs_phase h = Rel l ->
  sync_release l (view h s) = Ret tt k -> inv (commit i (hs_held h) Unl k s).
Proof.
  intros Hinv Hi Hph H. rewrite sync_release_run in H. injection H as <-.
  assert (Ol : owns h l) by (right; by right).
  eapply inv_commit; try done.
  - intros l' [O|[O|O]]; cbn in O; [|done..]. rewrite lk_of_put. case_decide.
    { subst l'. by destruct (inv_fresh _ Hinv _ _ _ Hi O) as (_ & _ & ?). }
    assert (Oh : owns h l') by by left. split; [by eapply inv_locked|].
    intros j hj Hne Hj Oj. apply Hne. by eapply inv_uniq.
  - intros l' j hj Hne Hj O. rewrite lk_of_put. case_decide; [|by eapply inv_locked].
    subst l'. exfalso. apply Hne. by eapply inv_uniq.
  - intros l' Hl'. rewrite lk_of_put in Hl'. case_decide; [done|].
    destruct (inv_owner _ Hinv _ Hl') as (j & hj & Hj & O).
    destruct (decide (j = i)) as [->|]; [|naive_solver].
    left. left. simplify_eq. destruct O as [O|[O|O]]; [done|congruence..].
  - intros l' t. rewrite lk_of_put. transitivity (sl_cpu (lk_of l' (shared s)) = Some t).
    { by case_decide; subst. }
    rewrite (inv_cpu _ Hinv). split.
    + intros (j & hj & Hj & Hl & ->). destruct (decide (j = i)); naive_solver.
    + naive_solver.
Qed.

Lemma inv_step s s' : inv s -> step s s' -> inv s'.
Proof.
  intros Hinv Hs. destruct Hs as [i h l k s Hi Hph H|i h l k old s Hi Hph H Hold| | | | |i h k s Hi Hph H];
    eauto using inv_swap, inv_own, inv_disown, inv_unlock.
  - apply begin_run in H as (Htp & Hk & Hn). eapply inv_commit_same; try done.
    + intros l'. unfold lk_of. by rewrite Hk.
    + intros l'. by rewrite Hph.
    + intros l' Hl' [= ->]. apply Hn. rewrite (inv_tp _ Hinv _ _ Hi).
      split; [erewrite inv_locked by (eauto; by left); lia|]. apply (inv_cpu _ Hinv). eauto.
  - rewrite test_and_set_run in H. injection H as <- <-.
    change (lk_of l (view h s)) with (lk_of l (shared s)) in Hold.
    destruct (inv_owner _ Hinv _ Hold) as (j & hj & Hj & Hoj).
    pose proof (inv_locked _ Hinv _ _ _ Hj Hoj) as H1.
    eapply inv_commit_same; try done.
    + intros l'. rewrite lk_of_put. case_decide; [subst l'|done].
      change (lk_of l (view h s)) with (lk_of l (shared s)).
      destruct (lk_of l (shared s)); cbn in *. by subst.
    + intros l'. by rewrite Hph.
    + intros l' Hl' [= ->]. by destruct (inv_fresh _ Hinv _ _ _ Hi Hl') as [? _].
  - apply pop_off_locks in H as [Hk Htp]. eapply inv_commit_same; try done.
    + intros l'. unfold lk_of. by rewrite Hk.
    + intros l'. by rewrite Hph.
Qed.

Lemma inv_initial s : initial s -> inv s.
Proof.
  intros [Hl Hh]. assert (Hno : forall i h l, harts s !! i = Some h -> ~ owns h l).
  { intros i h l Hi O. destruct (Hh _ _ Hi) as (H1 & H2 & _).
    destruct O as [O|[O|O]]; [rewrite H1 in O; by apply not_elem_of_nil in O|congruence..]. }
  split.
  - intros i h Hi. by apply Hh.
  - intros i j hi hj l Hi _ O. by destruct (Hno _ _ _ Hi O).
  - intros i h l Hi O. by destruct (Hno _ _ _ Hi O).
  - intros l H. by destruct (Hl l).
  - intros l t. destruct (Hl l) as [_ ->]. split; [done|].
    intros (i & h & Hi & Hin & _). destruct (Hno i h l); [done|by left].
  - intros i h l Hi Hin. destruct (Hno i h l); [done|by left].
Qed.

Lemma reachable_inv s : reachable s -> inv s.
Proof. induction 1; eauto using inv_initial, inv_step. Qed.


(** [holding_exact]: in every reachable state holding(l), called by any hart, returns 1 exactly
    when that hart is between its acquire(l) and its release(l), and 0 otherwise; it reads
    lk->cpu without the lock, and still never mistakes another hart's lock for its own. *)
Theorem holding_exact s i h l :
  reachable s -> harts s !! i = Some h ->
  holding l (view h s) = Ret (of_bool (bool_decide (l ∈ hs_held h))) (view h s).
Proof.
  intros Hr%reachable_inv Hi. unfold holding, cpuid, bind, gets. f_equal. f_equal.
  change (lk_of l (view h s)) with (lk_of l (shared s)).
  change (h_tp (k_hart (view h s))) with (h_tp (hs_hart h)). rewrite (inv_tp _ Hr _ _ Hi).
  destruct (bool_decide_reflect (l ∈ hs_held h)) as [Hin|Hin].
  - erewrite (inv_locked _ Hr) by (eauto; by left). apply bool_decide_true.
    apply (inv_cpu _ Hr). eauto.
  - apply andb_false_intro2, bool_decide_false. rewrite (inv_cpu _ Hr).
    intros (j & hj & Hj & Hl & Ht). assert (j = i) as -> by lia. naive_solver.
Qed.

(** A concrete run: of two harts, hart 1 takes the console lock. *)
Definition two_harts : sys :=
  mkSys zero_state
    [mkHstate (mkHart 0 2 0 0 0 0 0) zero_cpu [] Idle; mkHstate (mkHart 1 2 0 0 0 0 0) zero_cpu [] Idle].

Definition run_step (i : nat) (held : list lockid) (p : phase) (m : K unit) (s : sys) : sys :=
  match harts s !! i with
  | Some h => match m (view h s) with Ret _ k => commit i held p k s | _ => s end
  | None => s
  end.

Definition one_trying : sys :=
  run_step 1 [] (Try LCons) (do! push_off; do! holding LCons; ret tt) two_harts.
Definition one_taking : sys :=
  run_step 1 [] (Got LCons) (do! test_and_set LCons; ret tt) one_trying.
Definition one_holder : sys :=
  run_step 1 [LCons] Idle (let! id := cpuid in set_owner LCons (Some id)) one_taking.

Lemma one_holder_reachable : reachable one_holder.
Proof.
  assert (reachable two_harts).
  { apply reach_init. split; [by intros l; split|].
    intros [|[|i]] h Hi; cbn in Hi; by simplify_eq. }
  assert (reachable one_trying).
  { pose proof (step_begin 1%nat _ LCons _ two_harts eq_refl eq_refl eq_refl) as Hs.
    by eapply reach_step, Hs. }
  assert (reachable one_taking).
  { pose proof (step_swap 1%nat _ LCons _ one_trying eq_refl eq_refl eq_refl) as Hs.
    by eapply reach_step, Hs. }
  pose proof (step_own 1%nat _ LCons _ one_taking eq_refl eq_refl eq_refl) as Hs.
  by eapply reach_step, Hs.
Qed.


Lemma holding_exact_witness : exists h, harts one_holder !! 1%nat = Some h /\
  holding LCons (view h one_holder) = Ret 1 (view h one_holder).
Proof.
  eexists. split; [reflexivity|].
  exact (holding_exact one_holder 1 _ LCons one_holder_reachable eq_refl).
Defined.

End Harts.
