(* ===== verification/Sched.v ===== *)
(** * Sched: the process table, sleep()/wakeup() and the scheduler (kernel/proc.c)

    The part of proc.c that needs only the process table: procinit(), myproc(),
    allocpid(), sched(), yield(), sleep(), wakeup(), kill(), setkilled(),
    killed() and one pass of scheduler().  A process that calls swtch() leaves
    through the outcome [Swtch]; what it does when it is resumed is [after_sched]
    and [after_sleep].  The code that a process runs between two visits of the
    scheduler is a parameter of [scheduler_slot]. *)

From Stdlib Require Import ZArith Lia Sorted.
From stdpp Require Import base gmap list strings.
From S2P Require Import Prelude State Spinlock.

(** A null or wild pointer dereferenced in the kernel traps, and kerneltrap()
    panics. *)
Definition fault {A} : K A := panic "kerneltrap".

Definition proc_at (i : nat) (k : kstate) : proc := default zero_proc (k_procs k !! i).
Definition put_proc (i : nat) (p : proc) : K unit :=
  modify (fun k => set_k_procs (<[i := p]> (k_procs k)) k).
Definition upd_proc (i : nat) (f : proc -> proc) : K unit :=
  modify (fun k => set_k_procs (<[i := f (proc_at i k)]> (k_procs k)) k).

Definition proc_indices : list nat := seq 0 (Z.to_nat NPROC).

Definition procinit_slot (i : nat) : K unit :=
  do! initlock (LProc i) "proc";
  do! upd_proc i (set_p_state UNUSED);
  upd_proc i (set_p_kstack (KSTACK (Z.of_nat i))).

Definition procinit : K unit :=
  do! initlock LPid "nextpid";
  do! initlock LWait "wait_lock";
  for_each proc_indices procinit_slot.

Definition mycpu : K cpu := gets k_cpu.

Definition myproc : K (option nat) :=
  do! push_off;
  let! c := mycpu in
  do! pop_off;
  ret (c_proc c).

Definition allocpid : K Z :=
  do! acquire LPid;
  let! pid := gets k_nextpid in
  do! modify (set_k_nextpid (i32 (pid + 1)));
  do! release LPid;
  ret pid.

(** swtch(&p->context, &mycpu()->context): the hart leaves this thread. *)
Definition swtch_out {A} : K A := fun k => Swtch k.

Definition sched {A} : K A :=
  let! mp := myproc in
  match mp with
  | None => fault
  | Some p =>
      let! h := holding (LProc p) in
      if negb (truth h) then panic "sched p->lock" else
      let! c := mycpu in
      if negb (c_noff c =? 1) then panic "sched locks" else
      let! pr := gets (proc_at p) in
      if decide (p_state pr = RUNNING) then panic "sched running" else
      let! i := intr_get in
      if truth i then panic "sched interruptible" else
      swtch_out
  end.

(** The rest of sched(), when the thread is switched to again. *)
Definition after_sched (intena : Z) : K unit :=
  modify (fun k => set_k_cpu (set_c_intena intena (k_cpu k)) k).

Definition yield {A} : K A :=
  let! mp := myproc in
  match mp with
  | None => fault
  | Some p =>
      do! acquire (LProc p);
      do! upd_proc p (set_p_state RUNNABLE);
      sched
  end.

(** The rest of yield() after sched() returned. *)
Definition after_yield (p : nat) (intena : Z) : K unit :=
  do! after_sched intena;
  release (LProc p).

Definition sleep {A} (ch : chan) (lk : lockid) : K A :=
  let! mp := myproc in
  match mp with
  | None => fault
  | Some p =>
      do! acquire (LProc p);
      do! release lk;
      do! upd_proc p (set_p_chan (Some ch));
      do! upd_proc p (set_p_state SLEEPING);
      sched
  end.

(** The rest of sleep() after sched() returned. *)
Definition after_sleep (p : nat) (lk : lockid) (intena : Z) : K unit :=
  do! after_sched intena;
  do! upd_proc p (set_p_chan None);
  do! release (LProc p);
  acquire lk.

(** The body of wakeup()'s loop over the table. *)
Definition wakeup_slot (ch : chan) (i : nat) : K unit :=
  let! me := myproc in
  if decide (me = Some i) then ret tt else
  do! acquire (LProc i);
  let! p := gets (proc_at i) in
  do! (if decide (p_state p = SLEEPING /\ p_chan p = Some ch)
       then upd_proc i (set_p_state RUNNABLE) else ret tt);
  release (LProc i).

Definition wakeup (ch : chan) : K unit := for_each proc_indices (wakeup_slot ch).

Definition kill (pid : Z) : K Z :=
  let! r := for_find proc_indices (fun i =>
    do! acquire (LProc i);
    let! p := gets (proc_at i) in
    if p_pid p =? pid then
      do! upd_proc i (set_p_killed 1);
      do! (if decide (p_state p = SLEEPING) then upd_proc i (set_p_state RUNNABLE) else ret tt);
      do! release (LProc i);
      ret (Some 0)
    else
      do! release (LProc i);
      ret None) in
  ret (default (-1) r).

Definition setkilled (i : nat) : K unit :=
  do! acquire (LProc i);
  do! upd_proc i (set_p_killed 1);
  release (LProc i).

Definition killed (i : nat) : K Z :=
  do! acquire (LProc i);
  let! p := gets (proc_at i) in
  do! release (LProc i);
  ret (p_killed p).

(** One process's turn in the loop of scheduler().  [run i] is the code of
    process [i] from the swtch() that starts it to the one that comes back. *)
Section scheduler.
Variable run : nat -> K unit.

Definition swtch_to (i : nat) : K unit := fun k =>
  match run i k with
  | Swtch k' => Ret tt k'
  | Ret _ _ => Panic "zombie exit"
  | Panic m => Panic m
  | Spin => Spin
  | NoFuel => NoFuel
  end.

Definition scheduler_slot (i : nat) : K bool :=
  do! acquire (LProc i);
  let! p := gets (proc_at i) in
  let! found := (if decide (p_state p = RUNNABLE) then
      do! upd_proc i (set_p_state RUNNING);
      do! modify (fun k => set_k_cpu (set_c_proc (Some i) (k_cpu k)) k);
      do! swtch_to i;
      do! modify (fun k => set_k_cpu (set_c_proc None (k_cpu k)) k);
      ret true
    else ret false) in
  do! release (LProc i);
  ret found.

Fixpoint scheduler_scan (l : list nat) : K bool :=
  match l with
  | [] => ret false
  | i :: l' =>
      let! f := scheduler_slot i in
      let! g := scheduler_scan l' in
      ret (f || g)
  end.

(** One iteration of the for(;;): a pass over the table; wfi if nothing ran. *)
Definition scheduler_round : K bool :=
  do! intr_on;
  let! found := scheduler_scan proc_indices in
  do! (if found then ret tt else intr_on);
  ret found.
End scheduler.

#[global] Arguments myproc : simpl never.
#[global] Arguments wakeup : simpl never.
#[global] Arguments sched : simpl never.
#[global] Arguments killed : simpl never.
#[global] Arguments proc_indices : simpl never.

(** ** Lemmas *)

(** Every process lock but the current process's own is free. *)
Definition plocks_free (k : kstate) : Prop :=
  forall i, (i < Z.to_nat NPROC)%nat -> c_proc (k_cpu k) <> Some i -> lock_free k (LProc i).

Lemma myproc_run k : cpu_ok k -> myproc k = Ret (c_proc (k_cpu k)) k.
Proof. apply myproc_noop. Qed.

Lemma enter_plocks_free l k : (forall i, l <> LProc i) -> plocks_free k -> plocks_free (enter l k).
Proof. intros Hl H i Hi Hc. apply enter_lock_free; [by auto|]. by apply H. Qed.

(** Updating the table inside a critical section on [LProc i]. *)
Lemma restore_procs l k ps :
  restore k (set_k_procs ps (enter l k)) = set_k_procs ps k.
Proof. by destruct k. Qed.

Definition wake (ch : chan) (p : proc) : proc :=
  if decide (p_state p = SLEEPING /\ p_chan p = Some ch) then set_p_state RUNNABLE p else p.

Definition wake_at (me : option nat) (ch : chan) (i : nat) (p : proc) : proc :=
  if decide (me = Some i) then p else wake ch p.

Lemma wake_slot_run ch i k :
  cpu_ok k -> (i < length (k_procs k))%nat -> c_proc (k_cpu k) <> Some i -> lock_free k (LProc i) ->
  (do! acquire (LProc i);
   let! p := gets (proc_at i) in
   do! (if decide (p_state p = SLEEPING /\ p_chan p = Some ch)
        then upd_proc i (set_p_state RUNNABLE) else ret tt);
   release (LProc i)) k
  = Ret tt (set_k_procs (alter (wake ch) i (k_procs k)) k).
Proof.
  intros Hok Hi Hme Hf. erewrite bind_ret_run by by apply acquire_run.
  unfold gets at 1. unfold bind at 1.
  change (proc_at i (enter (LProc i) k)) with (proc_at i k).
  destruct (lookup_lt_is_Some_2 _ _ Hi) as [p Hp].
  assert (Ha : alter (wake ch) i (k_procs k) = <[i := wake ch p]> (k_procs k)).
  { apply list_eq. intros j. destruct (decide (i = j)) as [<-|].
    - by rewrite list_lookup_alter_eq, list_lookup_insert_eq, Hp.
    - by rewrite list_lookup_alter_ne, list_lookup_insert_ne. }
  rewrite Ha. unfold proc_at. rewrite Hp. simpl. unfold wake.
  case_decide.
  - unfold upd_proc, proc_at, modify. unfold bind. cbn [k_procs enter set_k_locks pushed set_k_cpu set_k_hart].
    rewrite Hp. simpl. rewrite (release_run _ k) by done. by rewrite restore_procs.
  - unfold ret, bind. rewrite (release_run _ k) by done. rewrite restore_enter.
    rewrite list_insert_id by done. by destruct k.
Qed.

Definition procs_ok (k : kstate) : Prop := length (k_procs k) = Z.to_nat NPROC.

Lemma enter_procs_ok l k : procs_ok k -> procs_ok (enter l k).
Proof. done. Qed.

Definition wake_first (me : option nat) (ch : chan) (n : nat) (ps : list proc) : list proc :=
  imap (fun i p => if decide (i < n)%nat then wake_at me ch i p else p) ps.

Lemma wake_first_0 me ch ps : wake_first me ch 0 ps = ps.
Proof.
  apply list_eq. intros i. unfold wake_first. rewrite list_lookup_imap.
  destruct (ps !! i) as [p|]; [|done]. refine (f_equal Some _). by rewrite decide_False by lia.
Qed.

Lemma wake_first_S me ch n ps :
  wake_first me ch (S n) ps =
  (if decide (me = Some n) then wake_first me ch n ps
   else alter (wake ch) n (wake_first me ch n ps)).
Proof.
  apply list_eq. intros i. unfold wake_first. rewrite list_lookup_imap.
  destruct (decide (me = Some n)) as [Hme|Hme].
  - rewrite list_lookup_imap. destruct (ps !! i) as [p|]; [|done]. refine (f_equal Some _).
    unfold wake_at. repeat case_decide; try done; try lia.
    exfalso. assert (i = n) as -> by lia. done.
  - destruct (decide (n = i)) as [<-|Hi].
    + rewrite list_lookup_alter_eq, list_lookup_imap. destruct (ps !! n) as [p|]; [|done].
      refine (f_equal Some _). unfold wake_at. repeat case_decide; done || lia.
    + rewrite list_lookup_alter_ne, list_lookup_imap by done. destruct (ps !! i) as [p|]; [|done].
      refine (f_equal Some _). unfold wake_at. repeat case_decide; done || lia.
Qed.

Lemma length_wake_first me ch n ps : length (wake_first me ch n ps) = length ps.
Proof. apply length_imap. Qed.

Lemma wakeup_prefix ch n k : cpu_ok k -> (n <= length (k_procs k))%nat ->
  (forall i, (i < n)%nat -> c_proc (k_cpu k) <> Some i -> lock_free k (LProc i)) ->
  for_each (seq 0 n) (wakeup_slot ch) k
  = Ret tt (set_k_procs (wake_first (c_proc (k_cpu k)) ch n (k_procs k)) k).
Proof.
  intros Hok. induction n as [|n IH]; intros Hn Hf.
  - rewrite wake_first_0. by destruct k.
  - rewrite seq_S, for_each_app. erewrite bind_ret_run by (apply IH; auto with lia).
    simpl. unfold wakeup_slot at 1. rewrite bind_assoc.
    erewrite bind_ret_run by (by apply myproc_run). simpl.
    rewrite wake_first_S. case_decide as Hme; [done|].
    erewrite bind_ret_run; [done|].
    rewrite wake_slot_run; [by destruct k|done|cbn|done|by apply Hf; [lia|]].
    rewrite length_wake_first. lia.
Qed.

(** wakeup(chan): every SLEEPING process on [chan], except the caller, becomes
    RUNNABLE; nothing else changes. *)
Lemma wakeup_run ch k : cpu_ok k -> procs_ok k -> plocks_free k ->
  wakeup ch k = Ret tt (set_k_procs (imap (wake_at (c_proc (k_cpu k)) ch) (k_procs k)) k).
Proof.
  intros Hok Hps Hf. unfold wakeup, proc_indices.
  rewrite wakeup_prefix by (try rewrite Hps; auto).
  f_equal. f_equal. apply list_eq. intros i.
  unfold wake_first. rewrite !list_lookup_imap. destruct (k_procs k !! i) eqn:E; [|done].
  refine (f_equal Some _). apply lookup_lt_Some in E. rewrite Hps in E. by rewrite decide_True.
Qed.

(** wakeup() spins on the lock of a process that another hart holds. *)
Lemma wakeup_spins ch p k : cpu_ok k -> procs_ok k -> (p < Z.to_nat NPROC)%nat ->
  c_proc (k_cpu k) <> Some p ->
  (forall i, (i < p)%nat -> c_proc (k_cpu k) <> Some i -> lock_free k (LProc i)) ->
  sl_locked (lk_of (LProc p) k) <> 0 -> sl_cpu (lk_of (LProc p) k) <> Some (h_tp (k_hart k)) ->
  wakeup ch k = Spin.
Proof.
  intros Hok Hps Hp Hme Hf Hl Ho. unfold wakeup, proc_indices.
  replace (Z.to_nat NPROC) with (p + S (Z.to_nat NPROC - p - 1))%nat by lia.
  rewrite seq_app, for_each_app. simpl.
  erewrite bind_ret_run by (apply wakeup_prefix; [done|rewrite Hps; lia|done]).
  simpl. unfold wakeup_slot at 1. rewrite bind_assoc.
  erewrite bind_ret_run by (by apply myproc_run). simpl. rewrite decide_False by done.
  apply bind_spin_run, bind_spin_run, acquire_spins; done.
Qed.

(** sched() from a thread that holds exactly its own process lock. *)
Lemma sched_run {A} p k : cpu_ok k -> c_proc (k_cpu k) = Some p ->
  sl_locked (lk_of (LProc p) k) <> 0 -> sl_cpu (lk_of (LProc p) k) = Some (h_tp (k_hart k)) ->
  c_noff (k_cpu k) = 1 -> p_state (proc_at p k) <> RUNNING ->
  @sched A k = Swtch k.
Proof.
  intros Hok Hc Hl Ho Hn Hs. unfold sched. erewrite bind_ret_run by by apply myproc_run.
  rewrite Hc. cbn. unfold holding, cpuid, mycpu, intr_get, bind, gets. cbn.
  rewrite truth_of_bool, Ho, truth_true, bool_decide_true by done. cbn. rewrite Hn. cbn.
  rewrite decide_False by done. destruct Hok as [_ _ Hoff _].
  rewrite Hoff by lia. done.
Qed.

(** Taking two locks in either order gives the same state. *)
Lemma enter_comm l l' k : l <> l' -> enter l (enter l' k) = enter l' (enter l k).
Proof.
  intros Hne. unfold enter.
  assert (Hp : forall m x, pushed (set_k_locks m x) = set_k_locks m (pushed x)) by done.
  assert (Hs : forall m m' x, set_k_locks m (set_k_locks m' x) = set_k_locks m x) by done.
  rewrite !Hp, !Hs. f_equal. unfold lk_of. cbn [k_locks set_k_locks].
  by rewrite !lookup_insert_ne, insert_insert_ne by done.
Qed.

Lemma enter_same_cpu l k1 k2 : same_cpu k1 k2 -> same_cpu (enter l k1) (enter l k2).
Proof.
  intros (Hl & Hc & Hh). unfold same_cpu, enter, pushed, intr_enabled, lk_of. cbn.
  by rewrite Hl, Hc, Hh.
Qed.

Definition asleep (ch : chan) (p : proc) : proc := set_p_state SLEEPING (set_p_chan (Some ch) p).

(** sleep(chan, lk), called with [lk] held (acquired in [k0]) and no other
    lock: the process is SLEEPING on [chan], [lk] is free and the process's own
    lock is held when control leaves for the scheduler. *)
Lemma sleep_run {A} ch lk p k0 k : cpu_ok k0 -> c_noff (k_cpu k0) = 0 ->
  c_proc (k_cpu k0) = Some p -> lk <> LProc p -> lock_free k0 lk -> lock_free k0 (LProc p) ->
  same_cpu k (enter lk k0) -> (p < length (k_procs k))%nat ->
  @sleep A ch lk k =
    Swtch (set_k_procs (<[p := asleep ch (proc_at p k)]> (k_procs k))
             (restore (enter (LProc p) k0) k)).
Proof.
  intros Hok Hn Hp Hne Hf Hfp Hs Hlen. pose proof Hs as (Hsl & Hsc & Hsh).
  unfold sleep. erewrite bind_ret_run.
  2: { apply myproc_run. unfold cpu_ok. rewrite Hsc, Hsh. by apply enter_cpu_ok. }
  rewrite Hsc. cbn [c_proc k_cpu enter set_k_locks pushed set_k_cpu]. rewrite Hp.
  erewrite bind_ret_run.
  2: { apply acquire_run. destruct Hfp as [n Hfp]. exists n. rewrite Hsl. cbn.
       by rewrite lookup_insert_ne. }
  erewrite bind_ret_run.
  2: { apply (release_run lk (enter (LProc p) k0)).
       - apply enter_lock_free; auto.
       - by apply enter_cpu_ok.
       - rewrite enter_comm by done. by apply enter_same_cpu. }
  unfold upd_proc, modify, bind. cbn.
  rewrite (sched_run p).
  - f_equal. unfold set_k_procs. cbn. f_equal. rewrite list_insert_insert_eq. f_equal.
    unfold asleep, proc_at. cbn. rewrite list_lookup_insert_eq by done. done.
  - cbn. apply (enter_cpu_ok (LProc p) k0 Hok).
  - done.
  - unfold lk_of. cbn. rewrite lookup_insert_eq. done.
  - unfold lk_of. cbn. rewrite lookup_insert_eq. done.
  - cbn. lia.
  - unfold proc_at. cbn. rewrite list_insert_insert_eq, list_lookup_insert_eq by done. done.
Qed.

(** ** Killing *)

Definition kill_one (p : proc) : proc :=
  let p := set_p_killed 1 p in
  if decide (p_state p = SLEEPING) then set_p_state RUNNABLE p else p.

Definition all_plocks_free (k : kstate) : Prop :=
  forall i, (i < Z.to_nat NPROC)%nat -> lock_free k (LProc i).

Lemma proc_at_insert i p k : (i < length (k_procs k))%nat ->
  proc_at i (set_k_procs (<[i := p]> (k_procs k)) k) = p.
Proof. intros. unfold proc_at. cbn. by rewrite list_lookup_insert_eq. Qed.

Lemma kill_run pid k : cpu_ok k -> procs_ok k -> all_plocks_free k ->
  kill pid k =
    match List.find (fun i => p_pid (proc_at i k) =? pid) proc_indices with
    | Some i => Ret 0 (set_k_procs (<[i := kill_one (proc_at i k)]> (k_procs k)) k)
    | None => Ret (-1) k
    end.
Proof.
  intros Hok Hps Hf. unfold kill, proc_indices.
  assert (Hl : Forall (fun i => i < Z.to_nat NPROC)%nat (seq 0 (Z.to_nat NPROC))).
  { apply Forall_seq. lia. }
  induction Hl as [|i l Hi Hl IH]; [done|]. simpl. rewrite !bind_assoc.
  erewrite bind_ret_run by (by apply acquire_run, Hf).
  unfold gets at 1. unfold bind at 1 2 3.
  change (proc_at i (enter (LProc i) k)) with (proc_at i k).
  destruct (p_pid (proc_at i k) =? pid).
  - unfold upd_proc, modify. unfold bind at 2. unfold kill_one.
    change (p_state (set_p_killed 1 (proc_at i k))) with (p_state (proc_at i k)).
    case_decide.
    + unfold bind. rewrite (release_run _ k); [|by apply Hf|done..]. cbn.
      rewrite list_insert_insert_eq.
      unfold proc_at at 1. cbn. by rewrite list_lookup_insert_eq by (by rewrite Hps).
    + unfold bind, ret. rewrite (release_run _ k); [|by apply Hf|done..]. done.
  - erewrite bind_ret_run by (apply (release_run _ k); [by apply Hf|done..]).
    rewrite restore_enter. apply IH.
Qed.

(** ** The scheduler *)

Section scheduler_facts.
Variable run : nat -> K unit.

(** The state in which scheduler() switches to process [i]. *)
Definition dispatch (i : nat) (k : kstate) : kstate :=
  set_k_cpu (set_c_proc (Some i) (k_cpu (enter (LProc i) k)))
    (set_k_procs (<[i := set_p_state RUNNING (proc_at i k)]> (k_procs k)) (enter (LProc i) k)).

Lemma scheduler_slot_skips i k : cpu_ok k -> lock_free k (LProc i) ->
  p_state (proc_at i k) <> RUNNABLE -> scheduler_slot run i k = Ret false k.
Proof.
  intros Hok Hf Hs. unfold scheduler_slot. erewrite bind_ret_run by by apply acquire_run.
  unfold gets at 1. unfold bind at 1.
  change (proc_at i (enter (LProc i) k)) with (proc_at i k).
  rewrite decide_False by done. unfold ret, bind.
  by rewrite (release_run _ k), restore_enter.
Qed.

Lemma scheduler_slot_runs i k k' : cpu_ok k -> lock_free k (LProc i) ->
  c_proc (k_cpu k) = None -> p_state (proc_at i k) = RUNNABLE ->
  run i (dispatch i k) = Swtch k' -> same_cpu k' (dispatch i k) ->
  scheduler_slot run i k = Ret true (restore k k').
Proof.
  intros Hok Hf Hc Hs Hrun (Hl & Hcp & Hh). unfold scheduler_slot.
  erewrite bind_ret_run by by apply acquire_run.
  unfold gets at 1. unfold bind at 1.
  change (proc_at i (enter (LProc i) k)) with (proc_at i k).
  rewrite decide_True by done. unfold upd_proc, modify, swtch_to, ret, bind.
  match goal with |- context [run i ?s] => change s with (dispatch i k) end.
  rewrite Hrun.
  rewrite (release_run _ k); [|done..|].
  - done.
  - split_and!; cbn; [done| |done]. rewrite Hcp. cbn. by rewrite Hc.
Qed.
End scheduler_facts.

(** ** Properties *)


(** [kill_spec]: kill(pid) sets killed in the first process with that pid and, if it sleeps, makes it
    RUNNABLE, returning 0; with no such process it returns -1; no other process and nothing
    else in the kernel changes. *)
Theorem kill_spec pid k : cpu_ok k -> procs_ok k -> all_plocks_free k ->
  (exists i, (i < Z.to_nat NPROC)%nat /\ p_pid (proc_at i k) = pid /\
     (forall j, (j < i)%nat -> p_pid (proc_at j k) <> pid) /\
     kill pid k = Ret 0 (set_k_procs (<[i := kill_one (proc_at i k)]> (k_procs k)) k) /\
     p_killed (kill_one (proc_at i k)) = 1 /\ p_state (kill_one (proc_at i k)) <> SLEEPING) \/
  ((forall i, (i < Z.to_nat NPROC)%nat -> p_pid (proc_at i k) <> pid) /\ kill pid k = Ret (-1) k).
Proof.
  intros Hok Hps Hf. rewrite kill_run by done.
  assert (Hfind : forall n s, match List.find (fun i => p_pid (proc_at i k) =? pid) (seq s n) with
    | Some i => (s <= i < s + n)%nat /\ p_pid (proc_at i k) = pid /\
                (forall j, (s <= j < i)%nat -> p_pid (proc_at j k) <> pid)
    | None => forall i, (s <= i < s + n)%nat -> p_pid (proc_at i k) <> pid end).
  { induction n as [|n IH]; intros s; simpl; [intros; lia|].
    destruct (Z.eqb_spec (p_pid (proc_at s k)) pid) as [He|Hne].
    - split_and!; [lia..|done|intros; lia].
    - specialize (IH (S s)). destruct (List.find _ _).
      + destruct IH as (H1 & H2 & H3). split_and!; [lia..|done|].
        intros j Hj. destruct (decide (j = s)) as [->|]; [done|]. apply H3. lia.
      + intros i Hi. destruct (decide (i = s)) as [->|]; [done|]. apply IH. lia. }
  specialize (Hfind (Z.to_nat NPROC) 0%nat). unfold proc_indices.
  destruct (List.find _ _) as [i|]; [left|right].
  - destruct Hfind as (H1 & H2 & H3). exists i. split_and!; try done; [lia| | |].
    + intros j Hj. apply H3. lia.
    + unfold kill_one. by case_decide.
    + unfold kill_one. by case_decide.
  - split; [|done]. intros i Hi. apply Hfind. lia.
Qed.

(** ** procinit() establishes what the rest of the table's code relies on *)

Definition inited (i : nat) (p : proc) : proc :=
  set_p_kstack (KSTACK (Z.of_nat i)) (set_p_state UNUSED p).

Lemma procinit_scan n k : (n <= length (k_procs k))%nat ->
  exists k', for_each (seq 0 n) procinit_slot k = Ret tt k' /\
    k_cpu k' = k_cpu k /\ k_hart k' = k_hart k /\ length (k_procs k') = length (k_procs k) /\
    (forall l, k_locks k' !! l = match l with
       | LProc i => if decide (i < n)%nat then Some (mkSpinlock 0 "proc" None) else k_locks k !! l
       | _ => k_locks k !! l end) /\
    (forall i, k_procs k' !! i =
       (if decide (i < n)%nat then inited i <$> k_procs k !! i else k_procs k !! i)).
Proof.
  induction n as [|n IH]; intros Hn.
  - exists k. split_and!; try done. by intros [].
  - destruct IH as (k' & Hrun & Hc & Hh & Hlen & Hl & Hp); [lia|].
    rewrite seq_S, for_each_app. erewrite bind_ret_run by eassumption. simpl.
    unfold procinit_slot, initlock, put_lk, upd_proc, modify, bind, ret. cbn.
    eexists. split; [done|]. cbn. split_and!; try done.
    + by rewrite !length_insert.
    + intros l. destruct (decide (l = LProc n)) as [->|Hne].
      { rewrite lookup_insert_eq. by rewrite decide_True by lia. }
      rewrite lookup_insert_ne, Hl by done. destruct l; try done.
      repeat case_decide; try done; try lia. assert (i = n) as -> by lia. done.
    + intros i. unfold proc_at. cbn. rewrite list_insert_insert_eq.
      rewrite list_lookup_insert_eq by lia. destruct (decide (n = i)) as [<-|Hne].
      * rewrite list_lookup_insert_eq, Hp, decide_False by lia. rewrite decide_True by lia.
        destruct (lookup_lt_is_Some_2 (k_procs k) n) as [p Hpn]; [lia|]. by rewrite Hpn.
      * rewrite list_lookup_insert_ne, Hp by done. repeat case_decide; done || lia.
Qed.

(** [procinit_spec]: after procinit() every process is UNUSED with its own kernel stack, 64 slots,
    and all the process locks, pid_lock and wait_lock are free. *)
Theorem procinit_spec k : procs_ok k ->
  exists k', procinit k = Ret tt k' /\ k_cpu k' = k_cpu k /\ k_hart k' = k_hart k /\
    procs_ok k' /\ all_plocks_free k' /\ lock_free k' LPid /\ lock_free k' LWait /\
    forall i, (i < Z.to_nat NPROC)%nat ->
      p_state (proc_at i k') = UNUSED /\ p_kstack (proc_at i k') = KSTACK (Z.of_nat i).
Proof.
  intros Hps. unfold procinit, initlock, put_lk, modify. unfold bind at 1 2.
  set (k1 := set_k_locks _ _).
  destruct (procinit_scan (Z.to_nat NPROC) k1) as (k' & Hrun & Hc & Hh & Hlen & Hl & Hp).
  { cbn. by rewrite Hps. }
  exists k'. split_and!; try done.
  - unfold procs_ok. by rewrite Hlen.
  - intros i Hi. exists "proc". by rewrite Hl, decide_True.
  - exists "nextpid". rewrite Hl. cbn. by rewrite lookup_insert_ne, lookup_insert_eq.
  - exists "wait_lock". rewrite Hl. cbn. by rewrite lookup_insert_eq.
  - intros i Hi. unfold proc_at. rewrite Hp, decide_True by done.
    destruct (lookup_lt_is_Some_2 (k_procs k1) i) as [p Hpi]; [cbn; by rewrite Hps|]. by rewrite Hpi.
Qed.

Lemma zero_procs_ok : procs_ok zero_state.
Proof. done. Qed.

Lemma procinit_spec_witness : exists k', procinit zero_state = Ret tt k' /\ all_plocks_free k'.
Proof.
  destruct (procinit_spec zero_state zero_procs_ok) as (k' & H & _ & _ & _ & Hf & _). by exists k'.
Defined.

(** A booted table on which process 3, with pid 7, runs: the state used by the
    examples. *)
Definition start3 (k : kstate) : kstate :=
  set_k_procs (<[3%nat := set_p_pid 7 (set_p_state RUNNING (proc_at 3 k))]> (k_procs k))
    (set_k_cpu (set_c_proc (Some 3%nat) (k_cpu k))
       (set_k_locks (<[LCons := mkSpinlock 0 "cons" None]> (k_locks k)) k)).

Definition final_state {A} (o : outcome kstate A) : kstate :=
  match o with Ret _ k => k | _ => zero_state end.

Definition booted : kstate := start3 (final_state (procinit zero_state)).

Lemma booted_cpu : c_noff (k_cpu booted) = 0 /\ c_proc (k_cpu booted) = Some 3%nat.
Proof.
  destruct (procinit_spec zero_state zero_procs_ok) as (k' & H & Hc & _).
  unfold booted. rewrite H. cbn. by rewrite Hc.
Qed.

Lemma booted_ok : cpu_ok booted /\ procs_ok booted /\ all_plocks_free booted /\ lock_free booted LCons.
Proof.
  destruct (procinit_spec zero_state zero_procs_ok) as (k' & H & Hc & Hh & Hp & Hf & _).
  unfold booted. rewrite H. cbn [final_state]. split_and!.
  - unfold cpu_ok; cbn. rewrite Hc, Hh. by split.
  - unfold procs_ok, start3. cbn [k_procs set_k_procs]. by rewrite length_insert.
  - intros i Hi. destruct (Hf i Hi) as [n Hn]. exists n. cbn. by rewrite lookup_insert_ne.
  - exists "cons". cbn. by rewrite lookup_insert_eq.
Qed.

#[global] Opaque booted.


Lemma kill_spec_witness : exists k', kill 7 booted = Ret 0 k' /\ p_killed (proc_at 3 k') = 1.
Proof.
  destruct booted_ok as (H1 & H2 & H3 & H4).
  destruct (kill_spec 7 booted H1 H2 H3) as [(i & Hi & Hpid & _ & Hk & Hkd & _)|[Hno _]].
  - assert (i = 3%nat) as ->.
    { revert Hpid. clear -Hi. revert i Hi. change NPROC with 64.
      assert (Hall : forallb (fun i => negb (p_pid (proc_at i booted) =? 7) || (i =? 3)%nat) (seq 0 64) = true)
        by (vm_compute; reflexivity).
      intros i Hi Hpid. rewrite forallb_forall in Hall. specialize (Hall i).
      rewrite Hpid in Hall. assert (In i (seq 0 64)) as Hin by (apply in_seq; lia).
      specialize (Hall Hin). cbn in Hall. by apply Nat.eqb_eq in Hall. }
    eexists. split; [exact Hk|]. rewrite proc_at_insert; [exact Hkd|]. rewrite H2. unfold NPROC; lia.
  - exfalso. apply (Hno 3%nat); [unfold NPROC; lia|]. vm_compute. reflexivity.
Defined.

(** ** Fairness of a pass over the table *)

Section fairness.
(** The process code, and any record of which processes ran that the
    scheduler's own bookkeeping does not touch. *)
Variable run : nat -> K unit.
Variable trace : kstate -> list nat.

Definition trace_frame : Prop :=
  (forall i k, trace (dispatch i k) = trace k) /\ (forall k k', trace (restore k k') = trace k').

(** A process that is switched to comes back holding its own lock and no
    other, as sched() checks, and takes no other process off the run queue. *)
Definition process_returns : Prop :=
  forall i k, (i < Z.to_nat NPROC)%nat -> procs_ok k ->
    exists k', run i (dispatch i k) = Swtch k' /\ same_cpu k' (dispatch i k) /\ procs_ok k' /\
      trace k' = trace (dispatch i k) ++ [i] /\
      forall j, j <> i -> p_state (proc_at j k) = RUNNABLE -> p_state (proc_at j k') = RUNNABLE.

Lemma restore_self_cpu k k' : cpu_ok k -> cpu_ok (restore k k').
Proof. done. Qed.

Lemma scan_fair n s k : trace_frame -> process_returns ->
  cpu_ok k -> procs_ok k -> all_plocks_free k -> c_proc (k_cpu k) = None ->
  (s + n <= Z.to_nat NPROC)%nat ->
  exists b k' l, scheduler_scan run (seq s n) k = Ret b k' /\ trace k' = trace k ++ l /\
    StronglySorted lt l /\ Forall (fun i => s <= i < s + n)%nat l /\
    (forall i, (s <= i < s + n)%nat -> p_state (proc_at i k) = RUNNABLE -> i ∈ l) /\
    (b = true <-> l <> []).
Proof.
  intros [Hdis Hres] Hret. revert s k.
  induction n as [|n IH]; intros s k Hok Hps Hf Hc Hn.
  - exists false, k, []. split_and!; try done; [by rewrite app_nil_r|constructor|intros; lia].
  - simpl. destruct (decide (p_state (proc_at s k) = RUNNABLE)) as [Hr|Hr].
    + destruct (Hret s k) as (k1 & Hrun & Hs & Hps1 & Htr & Hother); [lia|done|].
      pose proof (scheduler_slot_runs run s k k1 Hok (Hf s ltac:(lia)) Hc Hr Hrun Hs) as Hslot.
      destruct (IH (S s) (restore k k1)) as (b & k' & l & Hscan & Ht & Hsort & Hall & Hin & _);
        [done..|lia|].
      exists true, k', (s :: l). erewrite bind_ret_run by exact Hslot.
      erewrite bind_ret_run by exact Hscan. split_and!; try done.
      * rewrite Ht, Hres, Htr, Hdis, <- app_assoc. done.
      * constructor; [done|]. eapply Forall_impl; [exact Hall|]. simpl; lia.
      * constructor; [lia|]. eapply Forall_impl; [exact Hall|]. simpl; lia.
      * intros i Hi Hri. destruct (decide (i = s)) as [->|]; [by left|]. right.
        apply Hin; [lia|]. by apply (Hother i).
    + pose proof (scheduler_slot_skips run s k Hok (Hf s ltac:(lia)) Hr) as Hslot.
      destruct (IH (S s) k) as (b & k' & l & Hscan & Ht & Hsort & Hall & Hin & Hb); [done..|lia|].
      exists b, k', l. erewrite bind_ret_run by exact Hslot.
      erewrite bind_ret_run by exact Hscan. split_and!; try done.
      * eapply Forall_impl; [exact Hall|]. simpl; lia.
      * intros i Hi Hri. apply Hin; [|done]. destruct (decide (i = s)) as [->|]; [done|lia].
Qed.
End fairness.


(** Processes that yield at once and sign the name of process 0. *)
Definition sign (i : nat) (p : proc) : proc := set_p_name (p_name p ++ [Z.of_nat i]) p.
Definition yielding_run (i : nat) : K unit := fun k =>
  Swtch (set_k_procs (alter (sign i) 0%nat (alter (set_p_state RUNNABLE) i (k_procs k))) k).
Definition signatures (k : kstate) : list nat := Z.to_nat <$> p_name (proc_at 0 k).

Lemma proc_at_alter f i j k : (i < length (k_procs k))%nat ->
  proc_at j (set_k_procs (alter f i (k_procs k)) k) =
    if decide (i = j) then f (proc_at j k) else proc_at j k.
Proof.
  intros Hi. unfold proc_at. cbn. case_decide; subst.
  - rewrite list_lookup_alter_eq. destruct (lookup_lt_is_Some_2 _ _ Hi) as [p ->]. done.
  - by rewrite list_lookup_alter_ne.
Qed.

Lemma proc_at_dispatch i j k : (i < length (k_procs k))%nat ->
  proc_at j (dispatch i k) =
    if decide (i = j) then set_p_state RUNNING (proc_at j k) else proc_at j k.
Proof.
  intros Hi. unfold proc_at. cbn. case_decide; subst.
  - by rewrite list_lookup_insert_eq.
  - by rewrite list_lookup_insert_ne.
Qed.

Lemma signatures_dispatch i k : signatures (dispatch i k) = signatures k.
Proof.
  unfold signatures. f_equal. unfold proc_at, dispatch. cbn [k_procs set_k_procs set_k_cpu].
  destruct (decide (i = 0%nat)) as [->|]; [|by rewrite list_lookup_insert_ne].
  unfold proc_at. by destruct (k_procs k).
Qed.

Lemma yielding_returns : process_returns yielding_run signatures.
Proof.
  intros i k Hi Hps. eexists. split; [reflexivity|].
  assert (Hd : procs_ok (dispatch i k)).
  { unfold procs_ok, dispatch. cbn [k_procs set_k_cpu set_k_procs]. by rewrite length_insert. }
  set (d := dispatch i k) in *. set (d1 := set_k_procs (alter (set_p_state RUNNABLE) i (k_procs d)) d).
  assert (Hd1 : procs_ok d1).
  { unfold procs_ok, d1. cbn [k_procs set_k_procs]. by rewrite length_alter. }
  assert (H0 : forall j, proc_at j (set_k_procs (alter (sign i) 0%nat (k_procs d1)) d1) =
    if decide (0%nat = j) then sign i (proc_at j d1) else proc_at j d1).
  { intros j. apply proc_at_alter. rewrite Hd1. unfold NPROC; lia. }
  assert (H1 : forall j, proc_at j d1 =
    if decide (i = j) then set_p_state RUNNABLE (proc_at j d) else proc_at j d).
  { intros j. apply proc_at_alter. by rewrite Hd. }
  change (set_k_procs (alter (sign i) 0%nat (alter (set_p_state RUNNABLE) i (k_procs d))) d)
    with (set_k_procs (alter (sign i) 0%nat (k_procs d1)) d1).
  split_and!; try done.
  - unfold procs_ok. cbn [k_procs set_k_procs]. rewrite length_alter. exact Hd1.
  - unfold signatures. rewrite H0, decide_True by done. unfold sign. cbn [p_name set_p_name].
    rewrite fmap_app. cbn. rewrite Nat2Z.id. f_equal. f_equal. rewrite H1. by case_decide.
  - intros j Hj Hr. assert (Hst : p_state (proc_at j d1) = RUNNABLE).
    { rewrite H1. case_decide; [done|]. unfold d. rewrite proc_at_dispatch by by rewrite Hps.
      by case_decide. }
    rewrite H0. by case_decide.
Qed.

Definition idle_table : kstate :=
  set_k_procs (<[5%nat := set_p_state RUNNABLE (proc_at 5 zero_state)]> (k_procs zero_state))
    (set_k_locks (list_to_map ((fun i => (LProc i, mkSpinlock 0 "proc" None)) <$> proc_indices)) zero_state).

Lemma idle_table_locks : all_plocks_free idle_table.
Proof.
  intros i Hi. exists "proc". unfold idle_table. cbn [k_locks set_k_procs set_k_locks].
  apply elem_of_list_to_map.
  - rewrite <- list_fmap_compose. apply NoDup_fmap_2_strong; [by intros ?? _ _ [=]|apply NoDup_seq].
  - apply list_elem_of_fmap. exists i. split; [done|]. apply elem_of_seq. lia.
Qed.

