(* ===== verification/Sleeplock.v ===== *)
(** * Sleeplock: kernel/sleeplock.c

    A sleeplock is a word and a pid protected by a spinlock; acquiresleep()
    sleeps on the lock itself while it is taken.  [thread_ok] is the situation
    of a kernel thread between critical sections, the usual caller. *)

From Stdlib Require Import ZArith Lia.
From stdpp Require Import base gmap list strings.
From S2P Require Import Prelude State Spinlock Sched.

Definition zero_sleeplock : sleeplock := mkSleeplock 0 "" 0.
Definition sk_of (s : sleepid) (k : kstate) : sleeplock := default zero_sleeplock (k_slocks k !! s).
Definition put_sk (s : sleepid) (sk : sleeplock) : K unit :=
  modify (fun k => set_k_slocks (<[s := sk]> (k_slocks k)) k).

Definition initsleeplock (s : sleepid) (name : string) : K unit :=
  do! initlock (LSleep s) "sleep lock";
  put_sk s (mkSleeplock 0 name 0).

(** myproc()->pid *)
Definition mypid : K Z :=
  let! mp := myproc in
  match mp with
  | None => fault
  | Some p => gets (fun k => p_pid (proc_at p k))
  end.

(** The loop of acquiresleep(), from its test on; a thread that slept runs it
    again after [after_sleep]. *)
Definition acquiresleep_loop (s : sleepid) : K unit :=
  let! sk := gets (sk_of s) in
  if truth (sk_locked sk) then sleep (ChSleep s) (LSleep s) else
  do! put_sk s (set_sk_locked 1 sk);
  let! pid := mypid in
  let! sk := gets (sk_of s) in
  do! put_sk s (set_sk_pid pid sk);
  release (LSleep s).

Definition acquiresleep (s : sleepid) : K unit :=
  do! acquire (LSleep s);
  acquiresleep_loop s.

Definition releasesleep (s : sleepid) : K unit :=
  do! acquire (LSleep s);
  let! sk := gets (sk_of s) in
  do! put_sk s (set_sk_locked 0 sk);
  let! sk := gets (sk_of s) in
  do! put_sk s (set_sk_pid 0 sk);
  do! wakeup (ChSleep s);
  release (LSleep s).

Definition holdingsleep (s : sleepid) : K Z :=
  do! acquire (LSleep s);
  let! sk := gets (sk_of s) in
  let! r := (if truth (sk_locked sk) then
               let! pid := mypid in ret (of_bool (sk_pid sk =? pid))
             else ret 0) in
  do! release (LSleep s);
  ret r.

#[global] Arguments acquiresleep : simpl never.
#[global] Arguments releasesleep : simpl never.
#[global] Arguments holdingsleep : simpl never.

(** ** Kernel threads *)

(** Process [p] runs on this hart, holds no spinlock, and every process lock
    and the spinlock inside every sleeplock is free. *)
Record thread_ok (p : nat) (k : kstate) : Prop := {
  th_cpu : cpu_ok k;
  th_noff : c_noff (k_cpu k) = 0;
  th_proc : c_proc (k_cpu k) = Some p;
  th_lt : (p < Z.to_nat NPROC)%nat;
  th_procs : procs_ok k;
  th_plocks : all_plocks_free k }.

Lemma thread_ok_ext p k k' : thread_ok p k -> k_cpu k' = k_cpu k -> k_hart k' = k_hart k ->
  k_locks k' = k_locks k -> k_procs k' = k_procs k -> thread_ok p k'.
Proof.
  intros [H1 H2 H3 H4 H5 H6] Hc Hh Hl Hp.
  split; unfold cpu_ok, procs_ok, all_plocks_free, lock_free in *; rewrite ?Hc, ?Hh, ?Hl, ?Hp; done.
Qed.

(** [ps'] is [ps] with some sleeping processes made RUNNABLE. *)
Definition woken (ps ps' : list proc) : Prop :=
  Forall2 (fun p p' => p' = p \/ (p_state p = SLEEPING /\ p' = set_p_state RUNNABLE p)) ps ps'.

Lemma woken_refl ps : woken ps ps.
Proof. apply Forall_Forall2_diag, Forall_true. auto. Qed.

Lemma woken_trans ps1 ps2 ps3 : woken ps1 ps2 -> woken ps2 ps3 -> woken ps1 ps3.
Proof.
  intros H1. revert ps3. induction H1 as [|p q l1 l2 Hpq H1 IH]; intros ps3 H2;
    inversion H2 as [|? r ? l3 Hqr H3]; subst; constructor; [|by apply IH].
  destruct Hpq as [->|[Hp ->]], Hqr as [->|[Hq ->]]; auto.
Qed.

Lemma woken_length ps ps' : woken ps ps' -> length ps' = length ps.
Proof. intros H. symmetry. by eapply Forall2_length. Qed.

Lemma woken_pid ps ps' i : woken ps ps' ->
  p_pid (default zero_proc (ps' !! i)) = p_pid (default zero_proc (ps !! i)).
Proof.
  intros H. destruct (ps !! i) as [p|] eqn:E.
  - destruct (Forall2_lookup_l _ _ _ _ _ H E) as (p' & -> & [->|[_ ->]]); done.
  - apply lookup_ge_None in E. rewrite <- (woken_length _ _ H) in E.
    apply lookup_ge_None in E. by rewrite E.
Qed.

Lemma wake_woken me ch ps : woken ps (imap (wake_at me ch) ps).
Proof.
  apply Forall2_same_length_lookup. split; [by rewrite length_imap|].
  intros i p p' Hp Hp'. rewrite list_lookup_imap, Hp in Hp'. injection Hp' as <-.
  unfold wake_at, wake. repeat case_decide; naive_solver.
Qed.

Definition cur_pid (p : nat) (k : kstate) : Z := p_pid (proc_at p k).

Lemma mypid_run p k : cpu_ok k -> c_proc (k_cpu k) = Some p -> mypid k = Ret (cur_pid p k) k.
Proof.
  intros Hok Hp. unfold mypid. erewrite bind_ret_run by by apply myproc_run. by rewrite Hp.
Qed.

Lemma thread_enter_plocks s p k : thread_ok p k -> plocks_free (enter (LSleep s) k).
Proof.
  intros [_ _ _ _ _ Hf]. apply enter_plocks_free; [done|]. intros i Hi _. by apply Hf.
Qed.

(** ** What the operations do for a thread *)

(** acquiresleep() of a sleeplock nobody holds. *)
Lemma acquiresleep_run s p k : thread_ok p k -> lock_free k (LSleep s) ->
  sk_locked (sk_of s k) = 0 ->
  acquiresleep s k = Ret tt (set_k_slocks
    (<[s := mkSleeplock 1 (sk_name (sk_of s k)) (cur_pid p k)]> (k_slocks k)) k).
Proof.
  intros [Hok Hn Hp Hlt Hps Hf] Hfr Hl. unfold acquiresleep, acquiresleep_loop.
  erewrite bind_ret_run by by apply acquire_run.
  unfold gets at 1. unfold bind at 1. change (sk_of s (enter (LSleep s) k)) with (sk_of s k).
  rewrite Hl. change (truth 0) with false. cbv iota. unfold put_sk, modify. unfold bind at 1.
  erewrite bind_ret_run by (apply (mypid_run p); [by apply (enter_cpu_ok (LSleep s))|done]).
  unfold gets, bind. rewrite (release_run _ k); [|done..].
  f_equal. unfold restore, set_k_slocks. cbn. unfold sk_of at 1 2. cbn.
  rewrite !lookup_insert_eq, insert_insert_eq. cbn. by destruct k.
Qed.

(** acquiresleep() of a sleeplock that is taken puts the caller to sleep on it,
    with the inner spinlock released. *)
Lemma acquiresleep_sleeps s p k : thread_ok p k -> lock_free k (LSleep s) ->
  sk_locked (sk_of s k) <> 0 ->
  acquiresleep s k = Swtch
    (set_k_procs (<[p := asleep (ChSleep s) (proc_at p k)]> (k_procs k)) (enter (LProc p) k)).
Proof.
  intros [Hok Hn Hp Hlt Hps Hf] Hfr Hl. unfold acquiresleep, acquiresleep_loop.
  erewrite bind_ret_run by by apply acquire_run.
  unfold gets at 1. unfold bind at 1. change (sk_of s (enter (LSleep s) k)) with (sk_of s k).
  rewrite truth_true by done.
  rewrite (sleep_run _ _ p k); auto; [by destruct k|]. cbn. by rewrite Hps.
Qed.

(** The kernel after releasesleep(). *)
Definition slept_released (s : sleepid) (k : kstate) : kstate :=
  set_k_procs (imap (wake_at (c_proc (k_cpu k)) (ChSleep s)) (k_procs k))
    (set_k_slocks (<[s := mkSleeplock 0 (sk_name (sk_of s k)) 0]> (k_slocks k)) k).

Lemma releasesleep_run s p k : thread_ok p k -> lock_free k (LSleep s) ->
  releasesleep s k = Ret tt (slept_released s k).
Proof.
  intros Hth Hfr. pose proof Hth as [Hok Hn Hp Hlt Hps Hf]. unfold releasesleep.
  erewrite bind_ret_run by by apply acquire_run.
  unfold put_sk, gets, modify. unfold bind at 1 2 3 4.
  erewrite bind_ret_run.
  2: { apply wakeup_run; [by apply (enter_cpu_ok (LSleep s))|done|].
       by apply (thread_enter_plocks s p k). }
  rewrite (release_run _ k); [|done..]. f_equal.
  unfold restore, slept_released, set_k_procs, set_k_slocks. cbn. unfold sk_of. cbn.
  rewrite !lookup_insert_eq, insert_insert_eq. cbn. by destruct k.
Qed.

Lemma holdingsleep_run s p k : thread_ok p k -> lock_free k (LSleep s) ->
  holdingsleep s k =
    Ret (of_bool (truth (sk_locked (sk_of s k)) && (sk_pid (sk_of s k) =? cur_pid p k))) k.
Proof.
  intros [Hok Hn Hp Hlt Hps Hf] Hfr. unfold holdingsleep.
  erewrite bind_ret_run by by apply acquire_run.
  unfold gets at 1. unfold bind at 1. change (sk_of s (enter (LSleep s) k)) with (sk_of s k).
  destruct (truth (sk_locked (sk_of s k))); cbv iota.
  - rewrite bind_assoc.
    erewrite bind_ret_run by (apply (mypid_run p); [by apply (enter_cpu_ok (LSleep s))|done]).
    unfold ret, bind. by rewrite (release_run _ k), restore_enter.
  - unfold ret, bind. by rewrite (release_run _ k), restore_enter.
Qed.

(** [sleeplock_handoff]: a sleeplock excludes and is handed on.  After acquiresleep() of a free lock the
    caller holds it (holdingsleep() says so); any thread that tries to take it then goes to
    sleep on it; releasesleep() frees it and makes every process asleep on it RUNNABLE. *)
Theorem sleeplock_handoff s p k : thread_ok p k -> lock_free k (LSleep s) ->
  sk_locked (sk_of s k) = 0 ->
  exists k1, acquiresleep s k = Ret tt k1 /\ holdingsleep s k1 = Ret 1 k1 /\
    (forall q kq, thread_ok q kq -> lock_free kq (LSleep s) -> k_slocks kq = k_slocks k1 ->
       exists k2, acquiresleep s kq = Swtch k2 /\ p_state (proc_at q k2) = SLEEPING /\
         p_chan (proc_at q k2) = Some (ChSleep s)) /\
    (forall k3, thread_ok p k3 -> lock_free k3 (LSleep s) -> k_slocks k3 = k_slocks k1 ->
       exists k4, releasesleep s k3 = Ret tt k4 /\ sk_locked (sk_of s k4) = 0 /\
         forall q, q <> p -> (q < Z.to_nat NPROC)%nat -> p_state (proc_at q k3) = SLEEPING ->
           p_chan (proc_at q k3) = Some (ChSleep s) -> p_state (proc_at q k4) = RUNNABLE).
Proof.
  intros Hth Hf Hl. eexists. split; [by apply (acquiresleep_run s p)|]. split_and!.
  - rewrite (holdingsleep_run s p) by (done || by destruct Hth).
    unfold sk_of. cbn. rewrite lookup_insert_eq. cbn. by rewrite Z.eqb_refl.
  - intros q kq Hq Hfq Hs. eexists. split.
    + apply (acquiresleep_sleeps s q); [done..|]. unfold sk_of. rewrite Hs. cbn.
      by rewrite lookup_insert_eq.
    + destruct Hq as [_ _ _ Hlt Hps _]. unfold proc_at. cbn.
      by rewrite list_lookup_insert_eq by by rewrite Hps.
  - intros k3 H3 Hf3 Hs. eexists. split; [by apply (releasesleep_run s p)|]. split.
    + unfold slept_released, sk_of. cbn. by rewrite lookup_insert_eq.
    + intros q Hqp Hq Hst Hch. pose proof (th_proc _ _ H3) as Hc. unfold slept_released, proc_at in *.
      cbn. rewrite list_lookup_imap, Hc.
      destruct (lookup_lt_is_Some_2 (k_procs k3) q) as [pr Hpr];
        [by rewrite (th_procs _ _ H3)|].
      rewrite Hpr in *. cbn in *. unfold wake_at, wake.
      by rewrite decide_False, decide_True by naive_solver.
Qed.

Lemma booted_thread : thread_ok 3 booted.
Proof.
  destruct booted_ok as (H1 & H2 & H3 & _), booted_cpu as [H5 H6]. split; try assumption.
  unfold NPROC; lia.
Qed.

(** Initialising one more lock, not a process's, keeps the thread fine. *)
Definition with_lock (l : lockid) (k : kstate) : kstate :=
  set_k_locks (<[l := mkSpinlock 0 "lock" None]> (k_locks k)) k.

Lemma with_lock_thread l p k : (forall i, l <> LProc i) -> thread_ok p k -> thread_ok p (with_lock l k).
Proof.
  intros Hl [H1 H2 H3 H4 H5 H6]. split; try done.
  intros i Hi. destruct (H6 i Hi) as [n Hn]. exists n. cbn. by rewrite lookup_insert_ne.
Qed.

Lemma with_lock_free l k : lock_free (with_lock l k) l.
Proof. eexists. apply lookup_insert_eq. Qed.

Definition booted_buf : kstate := with_lock (LSleep (SBuf 0)) booted.

Lemma booted_buf_unlocked : sk_locked (sk_of (SBuf 0) booted_buf) = 0.
Proof. vm_compute. reflexivity. Qed.

Lemma sleeplock_handoff_witness : exists k1, acquiresleep (SBuf 0) booted_buf = Ret tt k1 /\
  holdingsleep (SBuf 0) k1 = Ret 1 k1.
Proof.
  destruct (sleeplock_handoff (SBuf 0) 3 booted_buf
    (with_lock_thread (LSleep (SBuf 0)) 3 booted ltac:(done) booted_thread)
    (with_lock_free (LSleep (SBuf 0)) booted) booted_buf_unlocked) as (k1 & H1 & H2 & _).
  exists k1. exact (conj H1 H2).
Defined.
