(* ===== verification/Mem.v ===== *)
(** * Mem: byte-addressed memory and kernel/string.c

    Memory is a finite map from addresses to bytes, absent addresses reading as
    zero; two memories are equivalent ([≡ₘ]) when every load agrees.  On it, the
    routines of string.c, each loop as the code writes it (memmove() chooses its
    direction, strncpy()'s two loops share the counter), and what they leave in
    memory.  Addresses are mathematical integers: the callers' buffers do not
    wrap around the address space. *)

From Stdlib Require Import ZArith Lia.
From stdpp Require Import base gmap list.
From S2P Require Import Prelude Bytes.

Abbreviation mem := (gmap Z Z).

Definition ld (m : mem) (a : Z) : Z := u8 (default 0 (m !! a)).
Definition st (m : mem) (a v : Z) : mem := <[a := u8 v]> m.

Fixpoint load_bytes (m : mem) (a : Z) (n : nat) : list Z :=
  match n with
  | O => []
  | S n' => ld m a :: load_bytes m (a + 1) n'
  end.

Fixpoint store_bytes (m : mem) (a : Z) (bs : list Z) : mem :=
  match bs with
  | [] => m
  | b :: bs' => store_bytes (st m a b) (a + 1) bs'
  end.

Definition load64 (m : mem) (a : Z) : Z := le_val (load_bytes m a 8).
Definition store64 (m : mem) (a v : Z) : mem := store_bytes m a (le_bytes 8 v).
Definition load32 (m : mem) (a : Z) : Z := le_val (load_bytes m a 4).
Definition store32 (m : mem) (a v : Z) : mem := store_bytes m a (le_bytes 4 v).

Definition mem_equiv (m1 m2 : mem) : Prop := forall a, ld m1 a = ld m2 a.
Infix "≡ₘ" := mem_equiv (at level 70) : xv6_scope.

#[global] Instance mem_equiv_equivalence : Equivalence mem_equiv.
Proof.
  split; [by intros m a|by intros m1 m2 H a|].
  intros m1 m2 m3 H1 H2 a. by rewrite H1.
Qed.

(** ** string.c *)

(** for(i = 0; i < n; i++) cdst[i] = c; *)
Fixpoint memset_loop (n : nat) (m : mem) (dst c i : Z) : mem :=
  match n with
  | O => m
  | S n' => memset_loop n' (st m (dst + i) c) dst c (i + 1)
  end.

Definition memset (m : mem) (dst c n : Z) : mem := memset_loop (Z.to_nat n) m dst c 0.

Fixpoint memcmp_loop (n : nat) (m : mem) (s1 s2 : Z) : Z :=
  match n with
  | O => 0
  | S n' => if negb (ld m s1 =? ld m s2) then ld m s1 - ld m s2
            else memcmp_loop n' m (s1 + 1) (s2 + 1)
  end.

Definition memcmp (m : mem) (v1 v2 n : Z) : Z := memcmp_loop (Z.to_nat n) m v1 v2.

(** while(n-- > 0) *--d = *--s; *)
Fixpoint copy_down (n : nat) (m : mem) (d s : Z) : mem :=
  match n with
  | O => m
  | S n' => let d := d - 1 in let s := s - 1 in copy_down n' (st m d (ld m s)) d s
  end.

(** while(n-- > 0) *d++ = *s++; *)
Fixpoint copy_up (n : nat) (m : mem) (d s : Z) : mem :=
  match n with
  | O => m
  | S n' => copy_up n' (st m d (ld m s)) (d + 1) (s + 1)
  end.

Definition memmove (m : mem) (dst src n : Z) : mem :=
  if n =? 0 then m else
  if (src <? dst) && (src + n >? dst) then copy_down (Z.to_nat n) m (dst + n) (src + n)
  else copy_up (Z.to_nat n) m dst src.

Definition memcpy (m : mem) (dst src n : Z) : mem := memmove m dst src n.

(** while(n > 0 && *p && *p == *q) n--, p++, q++; *)
Fixpoint strncmp_loop (n : nat) (m : mem) (p q : Z) : Z :=
  match n with
  | O => 0
  | S n' => if truth (ld m p) && (ld m p =? ld m q) then strncmp_loop n' m (p + 1) (q + 1)
            else ld m p - ld m q
  end.

Definition strncmp (m : mem) (p q n : Z) : Z := strncmp_loop (Z.to_nat n) m p q.

(** while(n-- > 0) *s++ = 0; *)
Fixpoint zero_fill (n : nat) (m : mem) (s : Z) : mem :=
  match n with
  | O => m
  | S n' => zero_fill n' (st m s 0) (s + 1)
  end.

(** while(n-- > 0 && ( *s++ = *t++ ) != 0); then the filling loop, which goes on
    with what is left of n. *)
Fixpoint strncpy_loop (n : nat) (m : mem) (s t : Z) : mem :=
  match n with
  | O => m
  | S n' =>
      let c := ld m t in
      let m := st m s c in
      if negb (c =? 0) then strncpy_loop n' m (s + 1) (t + 1) else zero_fill n' m (s + 1)
  end.

Definition strncpy (m : mem) (s t n : Z) : mem := strncpy_loop (Z.to_nat n) m s t.

(** while(--n > 0 && ( *s++ = *t++ ) != 0); *s = 0; with the pre-decremented n. *)
Fixpoint safestrcpy_loop (n : nat) (m : mem) (s t : Z) : mem :=
  match n with
  | O => st m s 0
  | S n' =>
      let c := ld m t in
      let m := st m s c in
      if negb (c =? 0) then safestrcpy_loop n' m (s + 1) (t + 1) else st m (s + 1) 0
  end.

Definition safestrcpy (m : mem) (s t n : Z) : mem :=
  if n <=? 0 then m else safestrcpy_loop (Z.to_nat (n - 1)) m s t.

(** for(n = 0; s[n]; n++); with at most [fuel] bytes looked at. *)
Fixpoint strlen_loop (fuel : nat) (m : mem) (s n : Z) : option Z :=
  match fuel with
  | O => None
  | S f => if truth (ld m (s + n)) then strlen_loop f m s (n + 1) else Some n
  end.

Definition strlen (fuel : nat) (m : mem) (s : Z) : option Z := strlen_loop fuel m s 0.

(** ** Loads and stores *)

Lemma ld_byte m a : is_byte (ld m a).
Proof. apply u8_range. Qed.

Lemma u8_ld m a : u8 (ld m a) = ld m a.
Proof. apply u8_small, ld_byte. Qed.

Lemma ld_st m a v b : ld (st m a v) b = if decide (a = b) then u8 v else ld m b.
Proof.
  unfold ld, st. rewrite lookup_insert. case_decide; [|done]. cbn. apply u8_small, u8_range.
Qed.

#[global] Instance st_proper : Proper (mem_equiv ==> eq ==> eq ==> mem_equiv) st.
Proof. intros m1 m2 H a ? <- v ? <- b. rewrite !ld_st. by case_decide. Qed.

#[global] Instance ld_proper : Proper (mem_equiv ==> eq ==> eq) ld.
Proof. intros m1 m2 H a ? <-. apply H. Qed.

Lemma length_load_bytes m a n : length (load_bytes m a n) = n.
Proof. revert a. induction n; intros; simpl; auto. Qed.

Lemma load_bytes_lookup m a n i : (i < n)%nat -> load_bytes m a n !! i = Some (ld m (a + Z.of_nat i)).
Proof.
  revert a i. induction n as [|n IH]; intros a i Hi; [lia|]. destruct i as [|i]; simpl.
  - by rewrite Z.add_0_r.
  - rewrite IH by lia. do 2 f_equal. lia.
Qed.

Lemma load_bytes_bytes m a n : Forall is_byte (load_bytes m a n).
Proof. revert a. induction n; constructor; auto using ld_byte. Qed.

Lemma load_bytes_ext m m' a n : (forall i, 0 <= i < Z.of_nat n -> ld m (a + i) = ld m' (a + i)) ->
  load_bytes m a n = load_bytes m' a n.
Proof.
  revert a. induction n as [|n IH]; intros a H; [done|]. simpl. f_equal.
  - specialize (H 0). rewrite Z.add_0_r in H. apply H. lia.
  - apply IH. intros i Hi. replace (a + 1 + i) with (a + (1 + i)) by lia. apply H. lia.
Qed.

#[global] Instance load64_proper : Proper (mem_equiv ==> eq ==> eq) load64.
Proof. intros m1 m2 H a ? <-. unfold load64. f_equal. apply load_bytes_ext. auto. Qed.

Lemma ld_store_bytes m a bs b :
  ld (store_bytes m a bs) b =
    if decide (a <= b < a + Z.of_nat (length bs)) then u8 (bs !!! Z.to_nat (b - a)) else ld m b.
Proof.
  revert m a. induction bs as [|c bs IH]; intros m a; simpl.
  - by rewrite decide_False by lia.
  - rewrite IH, ld_st. destruct (decide (a = b)) as [<-|].
    + rewrite decide_False by lia. rewrite decide_True by lia. by rewrite Z.sub_diag.
    + case_decide as H1.
      * rewrite decide_True by lia.
        replace (Z.to_nat (b - a)) with (S (Z.to_nat (b - (a + 1)))) by lia. done.
      * by rewrite decide_False by lia.
Qed.

Lemma load_store_same m a bs n : length bs = n -> Forall is_byte bs ->
  load_bytes (store_bytes m a bs) a n = bs.
Proof.
  intros Hn Hb. apply list_eq_same_length with n; [done|apply length_load_bytes|].
  intros i x y Hi Hx Hy. rewrite load_bytes_lookup, ld_store_bytes in Hx by done.
  rewrite decide_True in Hx by lia. injection Hx as <-.
  replace (Z.to_nat (a + Z.of_nat i - a)) with i by lia.
  rewrite (list_lookup_total_correct _ _ _ Hy). apply u8_small. by eapply Forall_lookup_1 in Hb.
Qed.

Lemma load_store_other m a bs b n :
  b + Z.of_nat n <= a \/ a + Z.of_nat (length bs) <= b ->
  load_bytes (store_bytes m a bs) b n = load_bytes m b n.
Proof.
  intros H. apply load_bytes_ext. intros i Hi. rewrite ld_store_bytes. by rewrite decide_False by lia.
Qed.

Lemma load64_range m a : 0 <= load64 m a < 2 ^ 64.
Proof.
  unfold load64. pose proof (le_val_range _ (load_bytes_bytes m a 8)) as H.
  rewrite length_load_bytes in H. exact H.
Qed.

Lemma load64_store64 m a v : 0 <= v < 2 ^ 64 -> load64 (store64 m a v) a = v.
Proof.
  intros H. unfold load64, store64.
  rewrite load_store_same by (apply length_le_bytes || apply le_bytes_bytes).
  by apply le_val_bytes_small.
Qed.

Lemma load64_store64_other m a v b : b + 8 <= a \/ a + 8 <= b -> load64 (store64 m a v) b = load64 m b.
Proof.
  intros H. unfold load64, store64. rewrite load_store_other; [done|].
  rewrite length_le_bytes. lia.
Qed.

Lemma ld_store64_other m a v b : b < a \/ a + 8 <= b -> ld (store64 m a v) b = ld m b.
Proof.
  intros H. unfold store64. rewrite ld_store_bytes, length_le_bytes. by rewrite decide_False by lia.
Qed.

Lemma load64_ext m m' a : (forall b, a <= b < a + 8 -> ld m b = ld m' b) -> load64 m a = load64 m' a.
Proof. intros H. unfold load64. f_equal. apply load_bytes_ext. intros i Hi. apply H. lia. Qed.

Lemma load64_0 m a : (forall b, a <= b < a + 8 -> ld m b = 0) -> load64 m a = 0.
Proof.
  intros H. rewrite (load64_ext m ∅); [done|]. intros b Hb. by rewrite H.
Qed.

(** ** What the routines leave in memory *)

Lemma memset_loop_ld n m dst c i b :
  ld (memset_loop n m dst c i) b =
    if decide (dst + i <= b < dst + i + Z.of_nat n) then u8 c else ld m b.
Proof.
  revert m i. induction n as [|n IH]; intros m i; simpl.
  - by rewrite decide_False by lia.
  - rewrite IH, ld_st. repeat case_decide; done || lia.
Qed.

Lemma memset_ld m dst c n b : 0 <= n ->
  ld (memset m dst c n) b = if decide (dst <= b < dst + n) then u8 c else ld m b.
Proof.
  intros Hn. unfold memset. rewrite memset_loop_ld, Z2Nat.id, Z.add_0_r by lia. done.
Qed.

Lemma copy_up_ld n m d s b : d <= s \/ s + Z.of_nat n <= d ->
  ld (copy_up n m d s) b =
    if decide (d <= b < d + Z.of_nat n) then ld m (s + (b - d)) else ld m b.
Proof.
  revert m d s. induction n as [|n IH]; intros m d s Hov; simpl.
  - by rewrite decide_False by lia.
  - rewrite IH by lia. rewrite !ld_st, u8_ld.
    destruct (decide (d = b)) as [<-|].
    + rewrite decide_False by lia. rewrite decide_True by lia.
      f_equal. lia.
    + case_decide as H1; [|by rewrite decide_False by lia].
      rewrite (decide_True (P := d <= b < _)) by lia.
      replace (s + 1 + (b - (d + 1))) with (s + (b - d)) by lia.
      by rewrite decide_False by lia.
Qed.

Lemma copy_down_ld n m d s b : s <= d ->
  ld (copy_down n m d s) b =
    if decide (d - Z.of_nat n <= b < d) then ld m (s + (b - d)) else ld m b.
Proof.
  revert m d s. induction n as [|n IH]; intros m d s Hov; simpl.
  - by rewrite decide_False by lia.
  - rewrite IH by lia. rewrite !ld_st, u8_ld.
    destruct (decide (d - 1 = b)) as [<-|].
    + rewrite decide_False by lia. rewrite decide_True by lia. f_equal. lia.
    + case_decide as H1; [|by rewrite decide_False by lia].
      rewrite (decide_True (P := d - _ <= b < _)) by lia.
      replace (s - 1 + (b - (d - 1))) with (s + (b - d)) by lia.
      by rewrite decide_False by lia.
Qed.

(** memmove() copies as if through a temporary, however the areas overlap. *)
Lemma memmove_ld m dst src n b : 0 <= n ->
  ld (memmove m dst src n) b =
    if decide (dst <= b < dst + n) then ld m (src + (b - dst)) else ld m b.
Proof.
  intros Hn. unfold memmove. destruct (Z.eqb_spec n 0); [by rewrite decide_False by lia|].
  destruct (Z.ltb_spec src dst), (Z.gtb_spec (src + n) dst); simpl.
  2, 3, 4: rewrite copy_up_ld, Z2Nat.id by lia; done.
  rewrite copy_down_ld, Z2Nat.id by lia. replace (dst + n - n) with dst by lia.
  case_decide; [f_equal; lia|done].
Qed.

Lemma load_bytes_memmove m dst src n : 0 <= n ->
  load_bytes (memmove m dst src n) dst (Z.to_nat n) = load_bytes m src (Z.to_nat n).
Proof.
  intros Hn. apply list_eq_same_length with (Z.to_nat n); [apply length_load_bytes..|].
  intros i x y Hi Hx Hy. rewrite load_bytes_lookup, memmove_ld in Hx by done.
  rewrite load_bytes_lookup in Hy by done. rewrite decide_True in Hx by lia.
  simplify_eq. f_equal. lia.
Qed.

Lemma zero_fill_ld n m s b :
  ld (zero_fill n m s) b = if decide (s <= b < s + Z.of_nat n) then 0 else ld m b.
Proof.
  revert m s. induction n as [|n IH]; intros m s; simpl.
  - by rewrite decide_False by lia.
  - rewrite IH, ld_st. repeat case_decide; done || lia.
Qed.

(** ** Properties of string.c *)

(** [memmove_spec]: memmove(dst, src, n) leaves at dst the n bytes that were at src, whatever the
    overlap of the two areas, and changes no other byte. *)
Theorem memmove_spec m dst src n : 0 <= n ->
  load_bytes (memmove m dst src n) dst (Z.to_nat n) = load_bytes m src (Z.to_nat n) /\
  forall b, ~ dst <= b < dst + n -> ld (memmove m dst src n) b = ld m b.
Proof.
  intros Hn. split; [by apply load_bytes_memmove|].
  intros b Hb. rewrite memmove_ld by done. by rewrite decide_False.
Qed.

Lemma memmove_spec_witness :
  load_bytes (memmove (store_bytes ∅ 100 [1; 2; 3; 4]) 102 100 4) 102 4 = [1; 2; 3; 4].
Proof. exact (proj1 (memmove_spec (store_bytes ∅ 100 [1; 2; 3; 4]) 102 100 4 ltac:(lia))). Defined.

(** No NUL among the first [i] bytes at [t]. *)
Definition no_nul (m : mem) (t i : Z) : Prop := forall j, 0 <= j < i -> ld m (t + j) <> 0.

Definition disjoint_areas (s t n : Z) : Prop := s + n <= t \/ t + n <= s.

Lemma no_nul_shift m m' s t i v : m' = st m s v -> ld m t <> 0 -> (s < t \/ t + i <= s) ->
  no_nul m' (t + 1) (i - 1) <-> no_nul m t i.
Proof.
  intros -> Ht Hs. split; intros H j Hj.
  - destruct (decide (j = 0)) as [->|]; [by rewrite Z.add_0_r|].
    specialize (H (j - 1) ltac:(lia)). rewrite ld_st in H.
    replace (t + 1 + (j - 1)) with (t + j) in H by lia. by rewrite decide_False in H by lia.
  - rewrite ld_st, decide_False by lia. replace (t + 1 + j) with (t + (j + 1)) by lia.
    apply H. lia.
Qed.

(** What strncpy() leaves at [s + i]. *)
Lemma strncpy_loop_ld n m s t i : disjoint_areas s t (Z.of_nat n) -> 0 <= i < Z.of_nat n ->
  (no_nul m t i -> ld (strncpy_loop n m s t) (s + i) = ld m (t + i)) /\
  (~ no_nul m t i -> ld (strncpy_loop n m s t) (s + i) = 0).
Proof.
  revert m s t i. unfold disjoint_areas. induction n as [|n IH]; intros m s t i Hd Hi; [lia|].
  simpl. destruct (Z.eqb_spec (ld m t) 0) as [Hc|Hc]; simpl.
  - rewrite zero_fill_ld, ld_st, Hc. destruct (decide (i = 0)) as [->|].
    + rewrite !Z.add_0_r. rewrite decide_False by lia. rewrite decide_True by lia.
      split; intros H; [by rewrite Hc|done].
    + rewrite decide_True by lia. split; intros H; [|done].
      exfalso. apply (H 0); [lia|]. by rewrite Z.add_0_r.
  - destruct (decide (i = 0)) as [->|].
    + assert (Hout : forall k m' s' t', s < s' -> ld (strncpy_loop k m' s' t') s = ld m' s).
      { induction k as [|k IHk]; intros m' s' t' Hs; simpl; [done|].
        destruct (negb _); [rewrite IHk by lia|rewrite zero_fill_ld, decide_False by lia];
          rewrite ld_st; by rewrite decide_False by lia. }
      rewrite !Z.add_0_r, Hout, ld_st, u8_ld, decide_True by lia.
      split; intros H; [done|]. exfalso. apply H. intros j Hj. lia.
    + destruct (IH (st m s (ld m t)) (s + 1) (t + 1) (i - 1)) as [IH1 IH2]; [lia..|].
      replace (s + 1 + (i - 1)) with (s + i) in * by lia.
      pose proof (no_nul_shift m _ s t i (ld m t) eq_refl Hc ltac:(lia)) as Hiff.
      split; intros H.
      * rewrite IH1 by tauto. rewrite ld_st. replace (t + 1 + (i - 1)) with (t + i) by lia.
        by rewrite decide_False by lia.
      * apply IH2. tauto.
Qed.

Lemma strncpy_loop_frame n m s t b : ~ s <= b < s + Z.of_nat n ->
  ld (strncpy_loop n m s t) b = ld m b.
Proof.
  revert m s t. induction n as [|n IH]; intros m s t Hb; simpl; [done|].
  destruct (negb _); [rewrite IH by lia|rewrite zero_fill_ld, decide_False by lia];
    rewrite ld_st; by rewrite decide_False by lia.
Qed.

(** [strncpy_spec]: strncpy(s, t, n) copies t up to and including its first NUL, pads the rest of the n
    bytes with zeros (no terminator if t has none among its first n bytes), and writes
    nothing outside s .. s+n-1. *)
Theorem strncpy_spec m s t n : 0 <= n -> disjoint_areas s t n ->
  (forall i, 0 <= i < n ->
     (no_nul m t i -> ld (strncpy m s t n) (s + i) = ld m (t + i)) /\
     (~ no_nul m t i -> ld (strncpy m s t n) (s + i) = 0)) /\
  (forall b, ~ s <= b < s + n -> ld (strncpy m s t n) b = ld m b).
Proof.
  intros Hn Hd. unfold strncpy. split.
  - intros i Hi. apply strncpy_loop_ld; rewrite Z2Nat.id by lia; done.
  - intros b Hb. apply strncpy_loop_frame. by rewrite Z2Nat.id by lia.
Qed.

Lemma strncpy_spec_witness :
  ld (strncpy (store_bytes ∅ 100 [65; 66; 0; 67]) 0 100 14) 3 = 0 /\
  ld (strncpy (store_bytes ∅ 100 [65; 66; 0; 67]) 0 100 14) 1 = 66.
Proof.
  destruct (strncpy_spec (store_bytes ∅ 100 [65; 66; 0; 67]) 0 100 14 ltac:(lia)
    ltac:(left; lia)) as [H _]. split.
  - apply (proj2 (H 3 ltac:(lia))). intros Hn. apply (Hn 2); [lia|reflexivity].
  - etransitivity; [apply (proj1 (H 1 ltac:(lia)))|reflexivity].
    intros j Hj. assert (j = 0) as -> by lia. vm_compute. discriminate.
Defined.

Lemma safestrcpy_loop_frame n m s t b : ~ s <= b < s + Z.of_nat n + 1 ->
  ld (safestrcpy_loop n m s t) b = ld m b.
Proof.
  revert m s t. induction n as [|n IH]; intros m s t Hb; simpl.
  - rewrite ld_st. by rewrite decide_False by lia.
  - destruct (negb _); [rewrite IH by lia; rewrite ld_st|rewrite !ld_st, decide_False by lia];
      by rewrite decide_False by lia.
Qed.

Lemma safestrcpy_loop_spec n m s t : disjoint_areas s t (Z.of_nat n + 1) ->
  exists j, 0 <= j <= Z.of_nat n /\ ld (safestrcpy_loop n m s t) (s + j) = 0 /\
    (j < Z.of_nat n -> ld m (t + j) = 0) /\
    forall i, 0 <= i < j -> ld (safestrcpy_loop n m s t) (s + i) = ld m (t + i) /\ ld m (t + i) <> 0.
Proof.
  revert m s t. unfold disjoint_areas. induction n as [|n IH]; intros m s t Hd; simpl.
  - exists 0. rewrite Z.add_0_r, ld_st, decide_True by done. split_and!; (done || lia).
  - destruct (Z.eqb_spec (ld m t) 0) as [Hc|Hc]; simpl.
    + exists 0. rewrite !Z.add_0_r, !ld_st, Hc.
      rewrite decide_False by lia. rewrite decide_True by lia. split_and!; (done || lia).
    + destruct (IH (st m s (ld m t)) (s + 1) (t + 1)) as (j & Hj & Hz & Hn & Hi); [lia|].
      exists (j + 1). replace (s + (j + 1)) with (s + 1 + j) by lia. split_and!; [lia..|done| |].
      * intros Hlt. specialize (Hn ltac:(lia)). rewrite ld_st, decide_False in Hn by lia.
        by replace (t + (j + 1)) with (t + 1 + j) by lia.
      * intros i Hij. destruct (decide (i = 0)) as [->|].
        -- rewrite !Z.add_0_r, safestrcpy_loop_frame, ld_st, decide_True, u8_ld by lia. done.
        -- specialize (Hi (i - 1) ltac:(lia)).
           replace (s + 1 + (i - 1)) with (s + i) in Hi by lia.
           replace (t + 1 + (i - 1)) with (t + i) in Hi by lia.
           rewrite ld_st, decide_False in Hi by lia. done.
Qed.

(** [safestrcpy_spec]: safestrcpy(s, t, n) with n > 0 always leaves a NUL-terminated string within the
    n bytes of s: the longest prefix of the string t that fits in n-1 bytes; it writes
    nothing outside s .. s+n-1. *)
Theorem safestrcpy_spec m s t n : 0 < n -> disjoint_areas s t n ->
  (exists j, 0 <= j < n /\ ld (safestrcpy m s t n) (s + j) = 0 /\ (j < n - 1 -> ld m (t + j) = 0) /\
     forall i, 0 <= i < j -> ld (safestrcpy m s t n) (s + i) = ld m (t + i) /\ ld m (t + i) <> 0) /\
  (forall b, ~ s <= b < s + n -> ld (safestrcpy m s t n) b = ld m b).
Proof.
  intros Hn Hd. unfold safestrcpy. destruct (Z.leb_spec n 0); [lia|]. split.
  - destruct (safestrcpy_loop_spec (Z.to_nat (n - 1)) m s t) as (j & Hj & H1 & H2 & H3).
    { rewrite Z2Nat.id by lia. by replace (n - 1 + 1) with n by lia. }
    rewrite Z2Nat.id in * by lia. exists j. split_and!; (done || lia).
  - intros b Hb. apply safestrcpy_loop_frame. lia.
Qed.

Lemma safestrcpy_spec_witness : exists j, 0 <= j < 16 /\
  ld (safestrcpy (store_bytes ∅ 100 [105; 110; 105; 116; 0]) 0 100 16) j = 0.
Proof.
  destruct (safestrcpy_spec (store_bytes ∅ 100 [105; 110; 105; 116; 0]) 0 100 16 ltac:(lia)
    ltac:(left; lia)) as [(j & Hj & Hz & _) _]. exists j. split; [exact Hj|exact Hz].
Defined.

Lemma memcmp_loop_eq n m s1 s2 :
  memcmp_loop n m s1 s2 = 0 <-> load_bytes m s1 n = load_bytes m s2 n.
Proof.
  revert s1 s2. induction n as [|n IH]; intros s1 s2; simpl; [done|].
  destruct (Z.eqb_spec (ld m s1) (ld m s2)) as [->|Hne]; simpl.
  - rewrite IH. split; [by intros ->|by intros [=]].
  - split; [lia|intros [=]; done].
Qed.

Lemma strncmp_loop_eq n m p q :
  strncmp_loop n m p q = 0 <->
  forall i, 0 <= i < Z.of_nat n -> no_nul m p i -> ld m (p + i) = ld m (q + i).
Proof.
  revert p q. induction n as [|n IH]; intros p q; simpl; [split; [intros; lia|done]|].
  destruct (decide (ld m p = 0)) as [Hp|Hp].
  - rewrite Hp. simpl. split.
    + intros H i Hi Hn. destruct (decide (i = 0)) as [->|].
      * rewrite !Z.add_0_r. lia.
      * exfalso. apply (Hn 0); [lia|]. by rewrite Z.add_0_r.
    + intros H. specialize (H 0 ltac:(lia)). rewrite !Z.add_0_r in H. rewrite H in Hp; [lia|].
      intros j Hj. lia.
  - rewrite truth_true by done. simpl. destruct (Z.eqb_spec (ld m p) (ld m q)) as [Heq|Hne].
    + rewrite IH. split.
      * intros H i Hi Hn. destruct (decide (i = 0)) as [->|]; [by rewrite !Z.add_0_r|].
        specialize (H (i - 1) ltac:(lia)).
        replace (p + 1 + (i - 1)) with (p + i) in H by lia.
        replace (q + 1 + (i - 1)) with (q + i) in H by lia. apply H.
        intros j Hj. replace (p + 1 + j) with (p + (j + 1)) by lia. apply Hn. lia.
      * intros H i Hi Hn. replace (p + 1 + i) with (p + (i + 1)) by lia.
        replace (q + 1 + i) with (q + (i + 1)) by lia. apply H; [lia|].
        intros j Hj. destruct (decide (j = 0)) as [->|]; [by rewrite Z.add_0_r|].
        replace (p + j) with (p + 1 + (j - 1)) by lia. apply Hn. lia.
    + split; [lia|]. intros H. specialize (H 0 ltac:(lia)). rewrite !Z.add_0_r in H.
      exfalso. apply Hne, H. intros j Hj. lia.
Qed.

(** [string_compare_spec]: memcmp() is 0 exactly on equal areas; strncmp() is 0 exactly when the two strings
    agree up to the first NUL or for n bytes, which is how directory names are compared. *)
Theorem string_compare_spec m p q n : 0 <= n ->
  (memcmp m p q n = 0 <-> load_bytes m p (Z.to_nat n) = load_bytes m q (Z.to_nat n)) /\
  (strncmp m p q n = 0 <-> forall i, 0 <= i < n -> no_nul m p i -> ld m (p + i) = ld m (q + i)).
Proof.
  intros Hn. split; [apply memcmp_loop_eq|].
  unfold strncmp. rewrite strncmp_loop_eq. by rewrite Z2Nat.id by lia.
Qed.

Lemma string_compare_spec_witness :
  memcmp (store_bytes ∅ 0 [1; 2; 1; 2]) 0 2 2 = 0.
Proof.
  apply (proj1 (string_compare_spec (store_bytes ∅ 0 [1; 2; 1; 2]) 0 2 2 ltac:(lia))).
  vm_compute. reflexivity.
Defined.

(** strlen() of a string that has its NUL within the fuel. *)
Lemma strlen_loop_spec fuel m s n j : 0 <= j < Z.of_nat fuel ->
  (forall i, 0 <= i < j -> ld m (s + n + i) <> 0) -> ld m (s + n + j) = 0 ->
  strlen_loop fuel m s n = Some (n + j).
Proof.
  revert n j. induction fuel as [|f IH]; intros n j Hj Hi Hz; [lia|]. simpl.
  destruct (decide (j = 0)) as [->|].
  - rewrite Z.add_0_r in Hz. rewrite Hz. simpl. f_equal. lia.
  - specialize (Hi 0 ltac:(lia)) as H0. rewrite Z.add_0_r in H0. rewrite truth_true by done.
    rewrite (IH (n + 1) (j - 1)); [f_equal; lia|lia| |].
    + intros i Hij. replace (s + (n + 1) + i) with (s + n + (i + 1)) by lia. apply Hi. lia.
    + by replace (s + (n + 1) + (j - 1)) with (s + n + j) by lia.
Qed.
