(* ===== verification/Kalloc.v ===== *)
(** * Kalloc: the physical page allocator (kernel/kalloc.c)

    The free list is threaded through the free pages themselves: [r->next] is
    the 64-bit word at the start of a free page, kept in [k_mem]; [kmem.freelist]
    is [k_freelist].  [kend] is the linker symbol [end].  The abstract
    specification is a stack of page addresses; the operations are shown to
    implement it and to leave every page they do not hand over untouched. *)

From Stdlib Require Import ZArith Lia.
From stdpp Require Import base gmap list strings.
From S2P Require Import Prelude Bytes State Spinlock Sched Sleeplock Mem.

(** Memory routines stay folded when states are compared. *)
#[local] Opaque memset store64 load64.

Lemma land_PGMASK a : 0 <= a < 2 ^ 64 -> Z.land a PGMASK = a / PGSIZE * PGSIZE.
Proof.
  intros Ha. change PGSIZE with (2 ^ 12). rewrite <- Z.shiftl_mul_pow2, <- Z.shiftr_div_pow2 by lia.
  apply Z.bits_inj'. intros n Hn. rewrite Z.land_spec, Z.shiftl_spec by lia.
  assert (Z.testbit PGMASK n = (12 <=? n) && (n <? 64)) as ->.
  { unfold PGMASK, u64. change (PGSIZE - 1) with (Z.ones 12).
    destruct (Z.ltb_spec n 64).
    - rewrite Z.mod_pow2_bits_low, Z.lnot_spec, Z.testbit_ones_nonneg by lia.
      destruct (Z.ltb_spec n 12), (Z.leb_spec 12 n); (lia || done).
    - rewrite Z.mod_pow2_bits_high by lia. by rewrite andb_false_r. }
  destruct (Z.leb_spec 12 n).
  - rewrite Z.shiftr_spec by lia. replace (n - 12 + 12) with n by lia. simpl.
    destruct (Z.ltb_spec n 64); [by rewrite andb_true_r|].
    by rewrite (bits_above a 64) by lia.
  - rewrite (Z.testbit_neg_r (Z.shiftr a 12)) by lia. simpl. by rewrite andb_false_r.
Qed.

Lemma PGROUNDDOWN_eq a : 0 <= a < 2 ^ 64 -> PGROUNDDOWN a = a / PGSIZE * PGSIZE.
Proof. apply land_PGMASK. Qed.

Lemma PGROUNDUP_eq a : 0 <= a < 2 ^ 64 - PGSIZE -> PGROUNDUP a = (a + PGSIZE - 1) / PGSIZE * PGSIZE.
Proof.
  intros Ha. unfold PGROUNDUP. unfold PGSIZE in Ha. rewrite u64_small by (unfold PGSIZE; lia).
  apply land_PGMASK. unfold PGSIZE. lia.
Qed.

Section kalloc.
Variable kend : Z.

Definition kfree (pa : Z) : K unit :=
  if negb (pa mod PGSIZE =? 0) || (pa <? kend) || (PHYSTOP <=? pa) then panic "kfree" else
  do! modify (fun k => set_k_mem (memset (k_mem k) pa 1 PGSIZE) k);
  do! acquire LKmem;
  do! modify (fun k => set_k_mem (store64 (k_mem k) pa (k_freelist k)) k);
  do! modify (fun k => set_k_freelist pa k);
  release LKmem.

(** for(; p + PGSIZE <= pa_end; p += PGSIZE) kfree(p); *)
Definition freerange_body (pa_end p : Z) : K (Z + unit) :=
  if p + PGSIZE <=? pa_end then do! kfree p; ret (inl (p + PGSIZE)) else ret (inr tt).

Definition freerange (pa_start pa_end : Z) : K unit :=
  let p := PGROUNDUP pa_start in
  loop (S (Z.to_nat ((pa_end - p) / PGSIZE))) (freerange_body pa_end) p.

Definition kinit : K unit :=
  do! initlock LKmem "kmem";
  freerange kend PHYSTOP.

Definition kalloc : K Z :=
  do! acquire LKmem;
  let! r := gets k_freelist in
  do! (if truth r then modify (fun k => set_k_freelist (load64 (k_mem k) r) k) else ret tt);
  do! release LKmem;
  do! (if truth r then modify (fun k => set_k_mem (memset (k_mem k) r 5 PGSIZE) k) else ret tt);
  ret r.

(** ** The free list *)

(** A page kfree() accepts. *)
Definition page_ok (pa : Z) : Prop := pa mod PGSIZE = 0 /\ kend <= pa /\ pa < PHYSTOP.

(** [l] is the list of pages reached from [r] through [next]. *)
Fixpoint runs (m : mem) (r : Z) (l : list Z) : Prop :=
  match l with
  | [] => r = 0
  | p :: l' => r = p /\ runs m (load64 m p) l'
  end.

Record kmem_ok (k : kstate) (l : list Z) : Prop := {
  km_runs : runs (k_mem k) (k_freelist k) l;
  km_pages : Forall page_ok l;
  km_nodup : NoDup l }.

Definition in_page (pa a : Z) : Prop := pa <= a < pa + PGSIZE.

Hypothesis kend_pos : 0 < kend.

Lemma page_pos pa : page_ok pa -> 0 < pa.
Proof. intros (_ & H & _). lia. Qed.

Lemma page_u64 pa : page_ok pa -> 0 <= pa < 2 ^ 64.
Proof. intros (_ & H1 & H2). change PHYSTOP with 0x88000000 in H2. lia. Qed.

Lemma pages_disjoint pa pb a : page_ok pa -> page_ok pb -> pa <> pb ->
  in_page pa a -> ~ in_page pb a.
Proof.
  unfold page_ok, in_page. intros (H1 & _) (H2 & _) Hne Ha Hb. unfold PGSIZE in *. zlia.
Qed.

(** Two memories that agree on the pages of [l] have the same runs. *)
Lemma runs_ext m m' r l : runs m r l ->
  (forall p a, p ∈ l -> in_page p a -> ld m' a = ld m a) -> runs m' r l.
Proof.
  revert r. induction l as [|p l IH]; intros r; simpl; [done|]. intros [-> H] Hm.
  split; [done|]. rewrite (load64_ext m' m).
  - apply IH; [done|]. intros q a Hq. apply Hm. by right.
  - intros b Hb. apply (Hm p); [left|]. unfold in_page, PGSIZE. lia.
Qed.

Lemma kfree_guard pa : page_ok pa ->
  negb (pa mod PGSIZE =? 0) || (pa <? kend) || (PHYSTOP <=? pa) = false.
Proof.
  intros (H1 & H2 & H3). rewrite H1. simpl.
  apply orb_false_intro; [apply Z.ltb_ge|apply Z.leb_gt]; lia.
Qed.

Lemma kfree_panics pa k : ~ page_ok pa -> kfree pa k = Panic "kfree".
Proof.
  intros H. unfold kfree.
  destruct (negb (pa mod PGSIZE =? 0) || (pa <? kend) || (PHYSTOP <=? pa)) eqn:E; [done|].
  exfalso. apply H. apply orb_false_elim in E as [E E3]. apply orb_false_elim in E as [E1 E2].
  apply Z.leb_gt in E3. apply Z.ltb_ge in E2. apply negb_false_iff, Z.eqb_eq in E1. done.
Qed.

(** The memory after kfree(pa) with the free list at [r]. *)
Definition freed_mem (m : mem) (pa r : Z) : mem := store64 (memset m pa 1 PGSIZE) pa r.

Lemma freed_mem_frame m pa r a : ~ in_page pa a -> ld (freed_mem m pa r) a = ld m a.
Proof.
  intros H. unfold in_page in H. unfold freed_mem. unfold PGSIZE in *.
  rewrite ld_store64_other by lia. rewrite memset_ld by lia. by rewrite decide_False by lia.
Qed.

Lemma kfree_push_run pa k : cpu_ok k -> lock_free k LKmem ->
  (do! acquire LKmem;
   do! modify (fun k => set_k_mem (store64 (k_mem k) pa (k_freelist k)) k);
   do! modify (fun k => set_k_freelist pa k);
   release LKmem) k
  = Ret tt (set_k_freelist pa (set_k_mem (store64 (k_mem k) pa (k_freelist k)) k)).
Proof.
  intros Hok Hf. erewrite bind_ret_run by exact (acquire_run LKmem k Hf).
  unfold modify, bind. rewrite (release_run _ k) by done. by destruct k.
Qed.

Lemma kfree_run pa k : page_ok pa -> cpu_ok k -> lock_free k LKmem ->
  kfree pa k = Ret tt (set_k_freelist pa (set_k_mem (freed_mem (k_mem k) pa (k_freelist k)) k)).
Proof.
  intros Hp Hok Hf. unfold kfree. rewrite kfree_guard by done.
  unfold modify at 1. unfold bind at 1. by rewrite kfree_push_run.
Qed.

Lemma kalloc_run_empty k : cpu_ok k -> lock_free k LKmem -> k_freelist k = 0 -> kalloc k = Ret 0 k.
Proof.
  intros Hok Hf H0. unfold kalloc. erewrite bind_ret_run by by apply acquire_run.
  unfold gets at 1. unfold bind at 1. change (k_freelist (enter LKmem k)) with (k_freelist k).
  rewrite H0. change (truth 0) with false. cbv iota. unfold ret at 1. unfold bind at 1.
  erewrite bind_ret_run by by apply (release_run _ k). by rewrite restore_enter.
Qed.

Lemma kalloc_run k : cpu_ok k -> lock_free k LKmem -> k_freelist k <> 0 ->
  kalloc k = Ret (k_freelist k)
    (set_k_mem (memset (k_mem k) (k_freelist k) 5 PGSIZE)
       (set_k_freelist (load64 (k_mem k) (k_freelist k)) k)).
Proof.
  intros Hok Hf H0. unfold kalloc. erewrite bind_ret_run by by apply acquire_run.
  unfold gets at 1. unfold bind at 1. change (k_freelist (enter LKmem k)) with (k_freelist k).
  rewrite truth_true by done. cbv iota. unfold modify at 1. unfold bind at 1.
  erewrite bind_ret_run by by apply (release_run _ k). by destruct k.
Qed.

Lemma kfree_ok pa k l : page_ok pa -> pa ∉ l -> kmem_ok k l ->
  kmem_ok (set_k_freelist pa (set_k_mem (freed_mem (k_mem k) pa (k_freelist k)) k)) (pa :: l).
Proof.
  intros Hp Hn [Hr Hps Hnd]. split; [|by constructor|by constructor]. cbn. split; [done|].
  replace (load64 (freed_mem (k_mem k) pa (k_freelist k)) pa) with (k_freelist k).
  - eapply runs_ext; [done|]. intros p a Hpl Ha. apply freed_mem_frame.
    rewrite Forall_forall in Hps. apply (pages_disjoint p pa); auto. congruence.
  - unfold freed_mem. rewrite load64_store64; [done|].
    destruct l as [|q l]; cbn in Hr; [lia|]. destruct Hr as [-> _].
    apply page_u64. by inversion Hps.
Qed.

Lemma kalloc_ok k p l : kmem_ok k (p :: l) -> k_freelist k = p /\
  kmem_ok (set_k_mem (memset (k_mem k) p 5 PGSIZE) (set_k_freelist (load64 (k_mem k) p) k)) l.
Proof.
  intros [Hr Hps Hnd]. cbn in Hr. destruct Hr as [<- Hr]. split; [done|].
  inversion Hps as [|? ? Hp Hps']; subst. inversion Hnd as [|? ? Hnl Hnd']; subst.
  split; [|done..]. cbn. eapply runs_ext; [done|]. intros q a Hq Ha.
  rewrite memset_ld by (unfold PGSIZE; lia). rewrite decide_False; [done|].
  rewrite Forall_forall in Hps'. apply (pages_disjoint q (k_freelist k)); auto. congruence.
Qed.

(** What a caller of kalloc() relies on. *)
Lemma kalloc_spec k p l : cpu_ok k -> lock_free k LKmem -> kmem_ok k (p :: l) ->
  exists m f, kalloc k = Ret p (set_k_mem m (set_k_freelist f k)) /\
    kmem_ok (set_k_mem m (set_k_freelist f k)) l /\ forall a, ~ in_page p a -> ld m a = ld (k_mem k) a.
Proof.
  intros Hok Hf Hk. destruct (kalloc_ok k p l Hk) as [Hp Hk']. destruct Hk as [_ Hps _].
  inversion Hps as [|? ? Hpp _]; subst. eexists _, _. split; [apply kalloc_run; [done..|apply page_pos in Hpp; lia]|].
  split; [exact Hk'|]. intros a Ha. rewrite memset_ld by (unfold PGSIZE; lia). by rewrite decide_False.
Qed.

Lemma kalloc_none k : cpu_ok k -> lock_free k LKmem -> kmem_ok k [] -> kalloc k = Ret 0 k.
Proof. intros Hok Hf [Hr _ _]. by apply kalloc_run_empty. Qed.

(** What a caller of kfree() relies on. *)
Lemma kfree_spec pa k l : page_ok pa -> pa ∉ l -> cpu_ok k -> lock_free k LKmem -> kmem_ok k l ->
  exists m f, kfree pa k = Ret tt (set_k_mem m (set_k_freelist f k)) /\
    kmem_ok (set_k_mem m (set_k_freelist f k)) (pa :: l) /\ forall a, ~ in_page pa a -> ld m a = ld (k_mem k) a.
Proof.
  intros Hp Hn Hok Hf Hk. eexists _, _. split; [rewrite kfree_run by done; destruct k; reflexivity|].
  split; [|intros a Ha; by apply freed_mem_frame]. pose proof (kfree_ok pa k l Hp Hn Hk) as H.
  destruct k. exact H.
Qed.

(** The allocator's invariant does not look at the bytes of pages in use. *)
Lemma kmem_ok_mem k l m : kmem_ok k l -> (forall p a, p ∈ l -> in_page p a -> ld m a = ld (k_mem k) a) ->
  kmem_ok (set_k_mem m k) l.
Proof. intros [Hr Hps Hnd] Hm. split; [|done..]. cbn. by eapply runs_ext. Qed.

(** ** The abstract allocator: a stack of free pages and the set handed out *)

Inductive kop : Type := KAlloc | KFree (pa : Z).

Definition run_op (o : kop) : K Z :=
  match o with
  | KAlloc => kalloc
  | KFree pa => do! kfree pa; ret 0
  end.

Fixpoint run_ops (ops : list kop) : K (list Z) :=
  match ops with
  | [] => ret []
  | o :: ops' => let! r := run_op o in let! rs := run_ops ops' in ret (r :: rs)
  end.

(** Free pages, most recently freed first, and the pages in use; freeing a page
    that is not in use is not a legal use of the allocator. *)
Definition abs_op (o : kop) (s : list Z * gset Z) : option (Z * (list Z * gset Z)) :=
  match o, s with
  | KAlloc, ([], used) => Some (0, ([], used))
  | KAlloc, (p :: l, used) => Some (p, (l, {[p]} ∪ used))
  | KFree pa, (l, used) => if decide (pa ∈ used) then Some (0, (pa :: l, used ∖ {[pa]})) else None
  end.

Fixpoint abs_ops (ops : list kop) (s : list Z * gset Z) : option (list Z * (list Z * gset Z)) :=
  match ops with
  | [] => Some ([], s)
  | o :: ops' =>
      match abs_op o s with
      | None => None
      | Some (r, s1) =>
          match abs_ops ops' s1 with
          | None => None
          | Some (rs, s2) => Some (r :: rs, s2)
          end
      end
  end.

(** The concrete state [k] represents the abstract state: each page is either
    on the free list or in use, never both. *)
Record alloc_rep (k : kstate) (s : list Z * gset Z) : Prop := {
  ar_cpu : cpu_ok k;
  ar_lock : lock_free k LKmem;
  ar_free : kmem_ok k (fst s);
  ar_used : forall pa, pa ∈ snd s -> page_ok pa /\ pa ∉ fst s }.

Lemma run_op_refines o k s r s' : alloc_rep k s -> abs_op o s = Some (r, s') ->
  exists k', run_op o k = Ret r k' /\ alloc_rep k' s' /\
    forall pa a, pa ∈ snd s -> o <> KFree pa -> in_page pa a -> ld (k_mem k') a = ld (k_mem k) a.
Proof.
  destruct s as [l used]. intros [Hok Hf Hk Hu] Ho. destruct o as [|pa]; cbn in Ho.
  - destruct l as [|p l]; injection Ho as <- <-.
    + exists k. split; [apply kalloc_run_empty; [done..|apply Hk]|]. split; [by split|done].
    + destruct (kalloc_ok k p l Hk) as [Hp Hk']. destruct Hk as [_ Hps Hnd].
      inversion Hps as [|? ? Hpp Hps']; subst. inversion Hnd as [|? ? Hnl Hnd']; subst.
      eexists. split; [apply kalloc_run; [done..|apply page_pos in Hpp; lia]|].
      split; [split; [done..|exact Hk'|]|].
      * cbn. intros pa [->%elem_of_singleton|Hpa]%elem_of_union; [done|].
        destruct (Hu pa Hpa) as [? Hn]. split; [done|]. intros ?. apply Hn. by right.
      * cbn. intros pa a Hpa _ Ha. destruct (Hu pa Hpa) as [Hpg Hn].
        rewrite memset_ld by (unfold PGSIZE; lia). rewrite decide_False; [done|].
        apply (pages_disjoint pa (k_freelist k)); auto. intros ->. apply Hn. by left.
  - destruct (decide (pa ∈ used)) as [Hin|]; [|done]. injection Ho as <- <-.
    destruct (Hu pa Hin) as [Hpg Hn]. eexists. split.
    { cbn. erewrite bind_ret_run by by apply kfree_run. reflexivity. }
    split; [split; [done..|by apply kfree_ok|]|].
    + cbn. intros q [Hq Hne]%elem_of_difference. destruct (Hu q Hq) as [? Hnq]. split; [done|].
      intros [->|?]%elem_of_cons; [by apply Hne, elem_of_singleton|done].
    + cbn. intros q a Hq Hne Ha. apply freed_mem_frame.
      apply (pages_disjoint q pa); [by apply Hu|done| |done]. congruence.
Qed.

Lemma run_ops_refines ops k s rs s' : alloc_rep k s -> abs_ops ops s = Some (rs, s') ->
  exists k', run_ops ops k = Ret rs k' /\ alloc_rep k' s' /\
    forall pa a, pa ∈ snd s -> KFree pa ∉ ops -> in_page pa a -> ld (k_mem k') a = ld (k_mem k) a.
Proof.
  revert k s rs s'. induction ops as [|o ops IH]; intros k s rs s' Hr Ha; cbn in Ha.
  { injection Ha as <- <-. by exists k. }
  destruct (abs_op o s) as [[r s1]|] eqn:E; [|done].
  destruct (abs_ops ops s1) as [[rs1 s2]|] eqn:E2; [|done]. injection Ha as <- <-.
  destruct (run_op_refines o k s r s1 Hr E) as (k1 & H1 & Hr1 & Hm1).
  destruct (IH k1 s1 rs1 s2 Hr1 E2) as (k2 & H2 & Hr2 & Hm2).
  exists k2. split_and!; [|done|].
  - cbn. erewrite bind_ret_run by done. by erewrite bind_ret_run by done.
  - intros pa a Hpa Hnf Hin. rewrite (Hm2 pa a); [apply (Hm1 pa a); [done| |done]|..|done].
    + intros ->. apply Hnf. left.
    + destruct s as [l used]. destruct o as [|pb]; cbn in E.
      * destruct l; injection E as <- <-; cbn in *; set_solver.
      * destruct (decide (pb ∈ used)); [|done]. injection E as <- <-. cbn in *.
        assert (pa <> pb) by (intros ->; apply Hnf; left). set_solver.
    + intros ?. apply Hnf. by right.
Qed.

(** ** kinit() *)

Lemma freerange_loop_ok pa_end n p k l : cpu_ok k -> lock_free k LKmem -> kmem_ok k l ->
  p mod PGSIZE = 0 -> kend <= p -> pa_end <= PHYSTOP -> (forall q, q ∈ l -> q < p) ->
  (Z.to_nat ((pa_end - p) / PGSIZE) < n)%nat ->
  exists k' l', loop n (freerange_body pa_end) p k = Ret tt k' /\ kmem_ok k' l' /\
    forall q, q ∈ l' <-> q ∈ l \/ (q mod PGSIZE = 0 /\ p <= q /\ q + PGSIZE <= pa_end).
Proof.
  revert p k l. induction n as [|n IH]; intros p k l Hok Hf Hk Hp Hkp Hend Hl Hn; [lia|].
  cbn. unfold freerange_body at 1. destruct (Z.leb_spec (p + PGSIZE) pa_end) as [Hle|Hgt].
  - assert (page_ok p) as Hpg by (split; [done|split; [lia|unfold PGSIZE in Hle; lia]]).
    rewrite bind_assoc. erewrite bind_ret_run by by apply kfree_run.
    unfold ret at 1. unfold bind at 1.
    assert (p ∉ l) as Hnl by (intros ?%Hl; lia).
    destruct (IH (p + PGSIZE)
      (set_k_freelist p (set_k_mem (freed_mem (k_mem k) p (k_freelist k)) k)) (p :: l)
      Hok Hf (kfree_ok p k l Hpg Hnl Hk)) as (k' & l' & Hrun & Hk' & Hq).
    + rewrite <- Hp. unfold PGSIZE. zlia.
    + unfold PGSIZE in *. lia.
    + done.
    + intros q [->|H%Hl]%elem_of_cons; unfold PGSIZE; lia.
    + unfold PGSIZE in *. zlia.
    + exists k', l'. split_and!; [done..|]. intros q. rewrite Hq, elem_of_cons.
      unfold PGSIZE in *. split; [naive_solver lia|]. intros [H|(H1 & H2 & H3)]; [tauto|].
      destruct (decide (q = p)); [tauto|]. right. split_and!; zlia.
  - exists k, l. split_and!; [done..|]. intros q. unfold PGSIZE in *. naive_solver lia.
Qed.

Lemma abs_op_perm o l used r l' used' : (forall pa, pa ∈ used -> pa ∉ l) ->
  abs_op o (l, used) = Some (r, (l', used')) -> l' ++ elements used' ≡ₚ l ++ elements used.
Proof.
  intros Hd Ho. destruct o as [|pa]; cbn in Ho.
  - destruct l as [|p l]; injection Ho as <- <- <-; [done|].
    rewrite elements_union_singleton by (intros Hp; apply (Hd p Hp); left).
    by rewrite <- Permutation_middle.
  - destruct (decide (pa ∈ used)) as [Hin|]; [|done]. injection Ho as <- <- <-.
    rewrite (union_difference_singleton_L pa used) at 2 by done.
    rewrite elements_union_singleton by set_solver. by rewrite <- Permutation_middle.
Qed.

Lemma abs_ops_perm ops k s rs s' : alloc_rep k s -> abs_ops ops s = Some (rs, s') ->
  fst s' ++ elements (snd s') ≡ₚ fst s ++ elements (snd s).
Proof.
  revert k s rs s'. induction ops as [|o ops IH]; intros k s rs s' Hr Ha; cbn in Ha.
  { by injection Ha as <- <-. }
  destruct (abs_op o s) as [[r s1]|] eqn:E; [|done].
  destruct (abs_ops ops s1) as [[rs1 s2]|] eqn:E2; [|done]. injection Ha as <- <-.
  destruct (run_op_refines o k s r s1 Hr E) as (k1 & _ & Hr1 & _).
  rewrite (IH k1 s1 rs1 s2 Hr1 E2). destruct s as [l u], s1 as [l1 u1].
  eapply abs_op_perm; [|done]. intros pa Hpa. by apply (ar_used _ _ Hr).
Qed.

(** C3 (allocator_refinement): kalloc() and kfree() implement the abstract
    stack allocator.  For every sequence of calls in which only pages in use are
    freed, each call returns what the abstract allocator returns (0 exactly when
    no page is free), no page is ever both free and in use, no page is lost or
    duplicated, and the bytes of a page in use are untouched until it is freed. *)
Theorem allocator_refinement ops k s rs s' : alloc_rep k s -> abs_ops ops s = Some (rs, s') ->
  exists k', run_ops ops k = Ret rs k' /\ alloc_rep k' s' /\
    fst s' ++ elements (snd s') ≡ₚ fst s ++ elements (snd s) /\
    forall pa a, pa ∈ snd s -> KFree pa ∉ ops -> in_page pa a -> ld (k_mem k') a = ld (k_mem k) a.
Proof.
  intros Hr Ha. destruct (run_ops_refines ops k s rs s' Hr Ha) as (k' & H1 & H2 & H3).
  exists k'. split_and!; [done..|by eapply abs_ops_perm|done].
Qed.

(** [kinit_spec]: from a zeroed free list kinit() returns with every whole
    page between the end of the kernel and PHYSTOP on the free list, each exactly
    once; kfree() panics on any other address. *)
Theorem kinit_spec k : kend <= PHYSTOP -> cpu_ok k -> k_freelist k = 0 ->
  exists k' l, kinit k = Ret tt k' /\ kmem_ok k' l /\ (forall pa, pa ∈ l <-> page_ok pa) /\
    forall pa k2, pa ∉ l -> kfree pa k2 = Panic "kfree".
Proof.
  intros Hend Hok H0. unfold kinit, initlock, put_lk, modify. unfold bind at 1.
  unfold freerange. change PHYSTOP with 0x88000000 in *.
  assert (PGROUNDUP kend = (kend + PGSIZE - 1) / PGSIZE * PGSIZE) as Hru
    by (apply PGROUNDUP_eq; unfold PGSIZE; lia).
  edestruct (freerange_loop_ok 0x88000000 (S (Z.to_nat ((0x88000000 - PGROUNDUP kend) / PGSIZE)))
    (PGROUNDUP kend) (set_k_locks (<[LKmem:=mkSpinlock 0 "kmem" None]> (k_locks k)) k) [])
    as (k' & l & Hrun & Hk & Hq).
  - done.
  - eexists. apply lookup_insert_eq.
  - split; [done|constructor..].
  - rewrite Hru. apply Z.mod_mul. done.
  - rewrite Hru. unfold PGSIZE. zlia.
  - done.
  - intros q Hq. inversion Hq.
  - lia.
  - exists k', l. assert (forall pa, pa ∈ l <-> page_ok pa) as Hall.
    { intros pa. rewrite Hq, Hru. unfold page_ok. change PHYSTOP with 0x88000000.
      rewrite elem_of_nil. unfold PGSIZE. split; [intros [[]|]|intros ?; right]; zlia. }
    split_and!; [done..|]. intros pa k2 Hpa. apply kfree_panics. by rewrite <- Hall.
Qed.

End kalloc.

(** Witnesses: a kernel that ends two pages below PHYSTOP, with the lock
    initialised. *)
Definition small_kend : Z := PHYSTOP - 2 * PGSIZE.
Definition kmem_inited : kstate := with_lock LKmem zero_state.

Lemma kinit_spec_witness : exists k' l, kinit small_kend zero_state = Ret tt k' /\
  kmem_ok small_kend k' l /\ PHYSTOP - PGSIZE ∈ l.
Proof.
  destruct (kinit_spec small_kend ltac:(reflexivity) zero_state ltac:(done) zero_cpu_ok eq_refl)
    as (k' & l & H1 & H2 & H3 & _).
  exists k', l. split; [exact H1|split; [exact H2|]]. apply (H3 (PHYSTOP - PGSIZE)).
  split; [reflexivity|]. split; [|reflexivity]. unfold small_kend, PHYSTOP, KERNBASE, PGSIZE. lia.
Defined.

Lemma allocator_refinement_witness : exists k',
  run_ops small_kend [KFree (PHYSTOP - PGSIZE); KAlloc; KAlloc] kmem_inited
    = Ret [0; PHYSTOP - PGSIZE; 0] k'.
Proof.
  destruct (allocator_refinement small_kend ltac:(reflexivity)
    [KFree (PHYSTOP - PGSIZE); KAlloc; KAlloc] kmem_inited ([], {[PHYSTOP - PGSIZE]})
    [0; PHYSTOP - PGSIZE; 0] ([], {[PHYSTOP - PGSIZE]})) as (k' & H & _).
  - split.
    + exact zero_cpu_ok.
    + exact (with_lock_free LKmem zero_state).
    + split; [reflexivity|constructor..].
    + intros pa Hpa. cbn [snd] in Hpa. apply elem_of_singleton in Hpa as ->. split; [|intros H; inversion H].
      split; [reflexivity|]. split; [|reflexivity].
      unfold small_kend, PHYSTOP, KERNBASE, PGSIZE. lia.
  - vm_compute. reflexivity.
  - exists k'. exact H.
Defined.
