(* ===== verification/Bio.v ===== *)
(** * Bio: the buffer cache (kernel/bio.c)

    The cache is [k_bufs]: buf[0..NBUF) and then the list head.  The LRU list is
    the doubly linked list of the code, threaded through [b_prev] and [b_next].
    The disk driver is an interface, the class [Disk]: bread() and bwrite() are
    proved against what virtio_disk_rw() promises a thread that calls it, namely
    that on return the block was transferred.  Pinned and held buffers are
    counted explicitly, so that the specifications say which blocks may be
    recycled. *)

From Stdlib Require Import ZArith Lia.
From stdpp Require Import base gmap list strings.
From S2P Require Import Prelude Bytes State Spinlock Sched Sleeplock.

(** [&bcache.head]. *)
Definition HEAD : nat := Z.to_nat NBUF.

#[global] Arguments HEAD : simpl never.

Definition buf_at (i : nat) (k : kstate) : buf := default zero_buf (k_bufs k !! i).
Definition upd_buf (i : nat) (f : buf -> buf) : K unit :=
  modify (fun k => set_k_bufs (alter f i (k_bufs k)) k).

(** ** The disk driver's interface *)

Definition block_of (d : gmap Z (list Z)) (b : Z) : list Z := default zero_block (d !! b).

(** The state once the transfer of buffer [b] is done: a write stores its data
    at its block and is recorded in the trace, a read loads the block. *)
Definition disk_done (b : nat) (write : Z) (k : kstate) : kstate :=
  let x := buf_at b k in
  if truth write then
    set_k_dwrites (k_dwrites k ++ [(b_blockno x, b_data x)])
      (set_k_disk (<[b_blockno x := b_data x]> (k_disk k))
         (set_k_bufs (alter (set_b_disk 0) b (k_bufs k)) k))
  else
    set_k_bufs (alter (fun y => set_b_data (block_of (k_disk k) (b_blockno x)) (set_b_disk 0 y)) b
                  (k_bufs k)) k.

Definition running (p : nat) (k : kstate) : Prop :=
  p_state (proc_at p k) = RUNNING /\ p_chan (proc_at p k) = None.

(** What virtio_disk_rw() promises the thread that calls it.  [disk_ok] is the
    driver's invariant; it depends on the driver's structures and the locks. *)
Class Disk : Type := {
  virtio_disk_rw : nat -> Z -> K unit;
  disk_ok : kstate -> Prop;
  disk_ok_ext : forall k k', k_vdisk k' = k_vdisk k -> k_locks k' = k_locks k ->
    disk_ok k -> disk_ok k';
  disk_rw_spec : forall p b w k, thread_ok p k -> running p k -> disk_ok k -> (b < HEAD)%nat ->
    length (k_bufs k) = S HEAD -> 0 <= b_blockno (buf_at b k) < 2 ^ 31 ->
    exists v ps, virtio_disk_rw b w k = Ret tt (set_k_vdisk v (set_k_procs ps (disk_done b w k))) /\
      woken (k_procs k) ps /\ disk_ok (set_k_vdisk v k) }.

Section bio.
Context `{Disk}.

Definition binit_slot (b : nat) : K unit :=
  let! hd := gets (buf_at HEAD) in
  do! upd_buf b (set_b_next (b_next hd));
  do! upd_buf b (set_b_prev HEAD);
  do! initsleeplock (SBuf b) "buffer";
  let! hd := gets (buf_at HEAD) in
  do! upd_buf (b_next hd) (set_b_prev b);
  upd_buf HEAD (set_b_next b).

Definition binit : K unit :=
  do! initlock LBcache "bcache";
  do! upd_buf HEAD (set_b_prev HEAD);
  do! upd_buf HEAD (set_b_next HEAD);
  for_each (seq 0 HEAD) binit_slot.

(** for(b = bcache.head.next; b != &bcache.head; b = b->next) *)
Definition bget_cached (dev blockno : Z) (b : nat) : K (nat + option nat) :=
  if (b =? HEAD)%nat then ret (inr None) else
  let! x := gets (buf_at b) in
  if (b_dev x =? dev) && (b_blockno x =? blockno) then ret (inr (Some b))
  else ret (inl (b_next x)).

(** for(b = bcache.head.prev; b != &bcache.head; b = b->prev) *)
Definition bget_lru (b : nat) : K (nat + option nat) :=
  if (b =? HEAD)%nat then ret (inr None) else
  let! x := gets (buf_at b) in
  if b_refcnt x =? 0 then ret (inr (Some b)) else ret (inl (b_prev x)).

Definition bget (dev blockno : Z) : K nat :=
  do! acquire LBcache;
  let! hd := gets (buf_at HEAD) in
  let! r := loop (S HEAD) (bget_cached dev blockno) (b_next hd) in
  match r with
  | Some b =>
      do! upd_buf b (fun x => set_b_refcnt (u32 (b_refcnt x + 1)) x);
      do! release LBcache;
      do! acquiresleep (SBuf b);
      ret b
  | None =>
      let! hd := gets (buf_at HEAD) in
      let! r := loop (S HEAD) bget_lru (b_prev hd) in
      match r with
      | Some b =>
          do! upd_buf b (set_b_dev dev);
          do! upd_buf b (set_b_blockno blockno);
          do! upd_buf b (set_b_valid 0);
          do! upd_buf b (set_b_refcnt 1);
          do! release LBcache;
          do! acquiresleep (SBuf b);
          ret b
      | None => panic "bget: no buffers"
      end
  end.

Definition bread (dev blockno : Z) : K nat :=
  let! b := bget dev blockno in
  let! x := gets (buf_at b) in
  do! (if negb (truth (b_valid x)) then
         do! virtio_disk_rw b 0;
         upd_buf b (set_b_valid 1)
       else ret tt);
  ret b.

Definition bwrite (b : nat) : K unit :=
  let! h := holdingsleep (SBuf b) in
  if negb (truth h) then panic "bwrite" else virtio_disk_rw b 1.

Definition brelse (b : nat) : K unit :=
  let! h := holdingsleep (SBuf b) in
  if negb (truth h) then panic "brelse" else
  do! releasesleep (SBuf b);
  do! acquire LBcache;
  do! upd_buf b (fun x => set_b_refcnt (u32 (b_refcnt x - 1)) x);
  let! x := gets (buf_at b) in
  do! (if b_refcnt x =? 0 then
         do! upd_buf (b_next x) (set_b_prev (b_prev x));
         do! upd_buf (b_prev x) (set_b_next (b_next x));
         let! hd := gets (buf_at HEAD) in
         do! upd_buf b (set_b_next (b_next hd));
         do! upd_buf b (set_b_prev HEAD);
         let! hd := gets (buf_at HEAD) in
         do! upd_buf (b_next hd) (set_b_prev b);
         upd_buf HEAD (set_b_next b)
       else ret tt);
  release LBcache.

Definition bpin (b : nat) : K unit :=
  do! acquire LBcache;
  do! upd_buf b (fun x => set_b_refcnt (u32 (b_refcnt x + 1)) x);
  release LBcache.

Definition bunpin (b : nat) : K unit :=
  do! acquire LBcache;
  do! upd_buf b (fun x => set_b_refcnt (u32 (b_refcnt x - 1)) x);
  release LBcache.

End bio.

#[global] Arguments bget : simpl never.
#[global] Arguments bread : simpl never.
#[global] Arguments bwrite : simpl never.
#[global] Arguments brelse : simpl never.
#[global] Arguments bpin : simpl never.
#[global] Arguments bunpin : simpl never.

(** ** The LRU list *)

(** The nodes [l] lie between [a] and [b] in the doubly linked list with the
    links [nx] and [pv]. *)
Fixpoint dll (nx pv : nat -> nat) (a : nat) (l : list nat) (b : nat) : Prop :=
  match l with
  | [] => nx a = b /\ pv b = a
  | x :: l' => nx a = x /\ pv x = a /\ dll nx pv x l' b
  end.

Lemma dll_app nx pv a l1 x l2 b :
  dll nx pv a (l1 ++ x :: l2) b <-> dll nx pv a l1 x /\ dll nx pv x l2 b.
Proof. revert a. induction l1 as [|y l1 IH]; intros a; simpl; [tauto|]. rewrite IH. tauto. Qed.

Lemma dll_ext nx pv nx' pv' a l b :
  (forall i, i = a \/ i ∈ l -> nx' i = nx i) -> (forall i, i = b \/ i ∈ l -> pv' i = pv i) ->
  dll nx pv a l b -> dll nx' pv' a l b.
Proof.
  revert a. induction l as [|x l IH]; intros a Hn Hp; simpl.
  - rewrite Hn, Hp by auto. done.
  - intros (H1 & H2 & H3). rewrite Hn, Hp by (rewrite elem_of_cons; auto).
    split_and!; [done..|]. apply IH; [| |done]; intros i [->|Hi]; auto using list_elem_of_here, list_elem_of_further.
Qed.

Lemma dll_first nx pv a l b : dll nx pv a l b -> nx a = default b (head l).
Proof. destruct l; simpl; tauto. Qed.

Lemma dll_last nx pv a l b : dll nx pv a l b -> pv b = default a (last l).
Proof.
  revert a. induction l as [|x l IH]; intros a; cbn [dll]; [tauto|]. intros (_ & _ & Hl).
  rewrite (IH x Hl), last_cons. by destruct (last l).
Qed.

(** [f] with the value at [i] replaced. *)
Definition fupd (f : nat -> nat) (i v j : nat) : nat := if decide (j = i) then v else f j.

Lemma fupd_eq f i v : fupd f i v i = v.
Proof. unfold fupd. by rewrite decide_True. Qed.

Lemma fupd_ne f i v j : j <> i -> fupd f i v j = f j.
Proof. intros. unfold fupd. by rewrite decide_False. Qed.

(** Unlinking [x]: [x->next->prev = x->prev; x->prev->next = x->next]. *)
Lemma dll_remove nx pv a l1 x l2 b : NoDup (a :: l1 ++ x :: l2) -> b = a ->
  dll nx pv a (l1 ++ x :: l2) b ->
  dll (fupd nx (pv x) (nx x)) (fupd pv (nx x) (pv x)) a (l1 ++ l2) b.
Proof.
  intros Hnd -> Hd. apply dll_app in Hd as [H1 H2].
  rewrite (dll_first _ _ _ _ _ H2), (dll_last _ _ _ _ _ H1).
  apply NoDup_cons in Hnd as [Ha Hnd]. apply NoDup_app in Hnd as (Hnd1 & Hd12 & Hnd2).
  apply NoDup_cons in Hnd2 as [Hx Hnd2].
  destruct l1 as [|y l1 _] using rev_ind; [destruct l2 as [|z l2]|].
  - cbn. by rewrite !fupd_eq.
  - cbn. rewrite !fupd_eq. split_and!; [done..|]. cbn in H2. destruct H2 as (_ & _ & H2).
    eapply dll_ext; [| |exact H2].
    + intros i Hi. apply fupd_ne. intros ->. apply Ha. set_solver.
    + intros i Hi. apply fupd_ne. intros ->. apply NoDup_cons in Hnd2 as [Hz _].
      destruct Hi as [->|Hi]; [apply Ha; set_solver|done].
  - rewrite last_snoc. cbn [default from_option id]. rewrite <- app_assoc in *. cbn [app] in *.
    apply dll_app in H1 as [H1 Hy]. apply NoDup_app in Hnd1 as (Hnd1 & Hd1 & _).
    apply dll_app. split.
    + eapply dll_ext; [| |exact H1].
      * intros i Hi. apply fupd_ne. intros ->. destruct Hi as [->|Hi]; [apply Ha; set_solver|].
        apply (Hd1 y Hi). set_solver.
      * intros i Hi. apply fupd_ne. intros ->.
        destruct l2 as [|z l2]; cbn in *.
        -- destruct Hi as [->|Hi]; apply Ha; set_solver.
        -- assert (z ∈ l1 ++ [y]) as Hz by set_solver. apply (Hd12 z Hz). set_solver.
    + destruct l2 as [|z l2]; cbn; rewrite !fupd_eq; [done|]. split_and!; [done..|].
      cbn in H2. destruct H2 as (_ & _ & H2). apply NoDup_cons in Hnd2 as [Hz _].
      eapply dll_ext; [| |exact H2].
      * intros i Hi. apply fupd_ne. intros ->. assert (y ∈ l1 ++ [y]) as Hin by set_solver.
        apply (Hd12 y Hin). set_solver.
      * intros i Hi. apply fupd_ne. intros ->. destruct Hi as [->|Hi]; [apply Ha; set_solver|done].
Qed.

(** Linking [x] in after [a]: [x->next = a->next; x->prev = a;
    a->next->prev = x; a->next = x]. *)
Lemma dll_insert nx pv a x l : x <> a -> x ∉ l -> a ∉ l -> NoDup l -> dll nx pv a l a ->
  dll (fupd (fupd nx x (nx a)) a x) (fupd (fupd pv x a) (nx a) x) a (x :: l) a.
Proof.
  intros Hxa Hx Ha Hnd Hd. cbn. rewrite fupd_eq. split; [done|].
  rewrite (dll_first _ _ _ _ _ Hd). destruct l as [|y l]; cbn in *.
  - rewrite fupd_ne, !fupd_eq by done. rewrite fupd_ne by done. by rewrite fupd_eq.
  - apply not_elem_of_cons in Hx as [Hxy Hx]. apply not_elem_of_cons in Ha as [Hay Ha].
    apply NoDup_cons in Hnd as [Hy Hnd].
    rewrite fupd_ne, !fupd_eq by done. split; [done|]. rewrite fupd_ne, fupd_eq by done.
    split_and!; [done..|]. destruct Hd as (_ & _ & Hd). eapply dll_ext; [| |exact Hd].
    + intros i Hi. rewrite !fupd_ne; [done|..]; intros ->; destruct Hi; done.
    + intros i Hi. rewrite !fupd_ne; [done|..]; intros ->; destruct Hi; done.
Qed.

(** ** The invariant of the cache *)

Definition nx (k : kstate) (i : nat) : nat := b_next (buf_at i k).
Definition pv (k : kstate) (i : nat) : nat := b_prev (buf_at i k).

Definition block_ok (d : list Z) : Prop := length d = Z.to_nat BSIZE /\ Forall is_byte d.

(** The part of a buffer that carries file-system data. *)
Definition core (x : buf) : Z * Z * Z * list Z := (b_valid x, b_dev x, b_blockno x, b_data x).

Lemma buf_at_alter f i j k bs : (i < length bs)%nat -> k_bufs k = alter f i bs ->
  buf_at j k = if decide (j = i) then f (default zero_buf (bs !! i)) else default zero_buf (bs !! j).
Proof.
  intros Hi Hk. unfold buf_at. rewrite Hk. case_decide as E.
  - subst. rewrite list_lookup_alter_eq. destruct (lookup_lt_is_Some_2 _ _ Hi) as [x ->]. done.
  - by rewrite list_lookup_alter_ne.
Qed.

Lemma buf_at_upd f i j k : (i < length (k_bufs k))%nat ->
  buf_at j (set_k_bufs (alter f i (k_bufs k)) k) = if decide (j = i) then f (buf_at i k) else buf_at j k.
Proof. intros. by apply (buf_at_alter f i j _ (k_bufs k)). Qed.

Lemma disk_read_buf b j k : (b < length (k_bufs k))%nat ->
  buf_at j (disk_done b 0 k) = if decide (j = b) then
    set_b_data (block_of (k_disk k) (b_blockno (buf_at b k))) (set_b_disk 0 (buf_at b k))
  else buf_at j k.
Proof. intros. by apply (buf_at_alter
  (fun y => set_b_data (block_of (k_disk k) (b_blockno (buf_at b k))) (set_b_disk 0 y)) b j _ (k_bufs k)).
Qed.

Lemma disk_write_buf b j k : (b < length (k_bufs k))%nat ->
  buf_at j (disk_done b 1 k) = if decide (j = b) then set_b_disk 0 (buf_at b k) else buf_at j k.
Proof. intros. by apply (buf_at_alter (set_b_disk 0) b j _ (k_bufs k)). Qed.

(** Everything but the buffer cache and the disk is as before; sleeping
    processes may have become RUNNABLE. *)
Definition bio_step (k k' : kstate) : Prop :=
  exists bs sl d ws v ps, k' = set_k_bufs bs (set_k_slocks sl (set_k_disk d (set_k_dwrites ws
    (set_k_vdisk v (set_k_procs ps k))))) /\ woken (k_procs k) ps.

Lemma bio_step_refl k : bio_step k k.
Proof.
  exists (k_bufs k), (k_slocks k), (k_disk k), (k_dwrites k), (k_vdisk k), (k_procs k).
  split; [by destruct k|apply woken_refl].
Qed.

Lemma bio_step_trans k1 k2 k3 : bio_step k1 k2 -> bio_step k2 k3 -> bio_step k1 k3.
Proof.
  intros (?&?&?&?&?&?& -> & H1) (bs & sl & d & ws & v & ps & -> & H2).
  exists bs, sl, d, ws, v, ps. split; [reflexivity|]. cbn in H2. by eapply woken_trans.
Qed.

Lemma bio_step_bufs k bs : bio_step k (set_k_bufs bs k).
Proof.
  exists bs, (k_slocks k), (k_disk k), (k_dwrites k), (k_vdisk k), (k_procs k).
  split; [by destruct k|apply woken_refl].
Qed.

Lemma bio_step_slocks k sl bs : bio_step k (set_k_slocks sl (set_k_bufs bs k)).
Proof.
  exists bs, sl, (k_disk k), (k_dwrites k), (k_vdisk k), (k_procs k).
  split; [by destruct k|apply woken_refl].
Qed.

Lemma bio_step_disk b w k v ps : woken (k_procs k) ps ->
  bio_step k (set_k_vdisk v (set_k_procs ps (disk_done b w k))).
Proof.
  intros Hw. exists (k_bufs (disk_done b w k)), (k_slocks k), (k_disk (disk_done b w k)),
    (k_dwrites (disk_done b w k)), v, ps.
  split; [|done]. unfold disk_done. by destruct (truth w), k.
Qed.

Lemma woken_running ps ps' i : woken ps ps' -> p_state (default zero_proc (ps !! i)) = RUNNING ->
  default zero_proc (ps' !! i) = default zero_proc (ps !! i).
Proof.
  intros Hw. destruct (ps !! i) as [q|] eqn:E; [|done]. cbn. intros Hr.
  destruct (Forall2_lookup_l _ _ _ _ _ Hw E) as (p' & -> & [->|[Hs _]]); [done|congruence].
Qed.

Lemma proc_at_running p k ps : running p k -> woken (k_procs k) ps ->
  default zero_proc (ps !! p) = proc_at p k.
Proof. intros [Hr _] Hw. by apply (woken_running (k_procs k)). Qed.

(** The two scans of bget() follow the list. *)
Lemma cached_scan dev b k a l : dll (nx k) (pv k) a l HEAD -> HEAD ∉ l ->
  loop (S (length l)) (bget_cached dev b) (nx k a) k =
    Ret (find (fun i => (b_dev (buf_at i k) =? dev) && (b_blockno (buf_at i k) =? b)) l) k.
Proof.
  revert a. induction l as [|x l IH]; intros a Hd Hh.
  - destruct Hd as [-> _]. apply loop_exit. unfold bget_cached. by rewrite Nat.eqb_refl.
  - destruct Hd as (-> & _ & Hd). apply not_elem_of_cons in Hh as [Hx Hh]. cbn [length find].
    destruct (_ && _) eqn:E.
    + apply loop_exit. unfold bget_cached, gets, bind.
      destruct (Nat.eqb_spec x HEAD) as [->|_]; [done|]. by rewrite E.
    + erewrite loop_next; [exact (IH x Hd Hh)|]. unfold bget_cached, gets, bind.
      destruct (Nat.eqb_spec x HEAD) as [->|_]; [done|]. by rewrite E.
Qed.

Lemma lru_scan k l b : dll (nx k) (pv k) HEAD l b -> HEAD ∉ l ->
  loop (S (length l)) bget_lru (pv k b) k =
    Ret (find (fun i => b_refcnt (buf_at i k) =? 0) (reverse l)) k.
Proof.
  revert b. induction l as [|x l IH] using rev_ind; intros b Hd Hh.
  - destruct Hd as [_ ->]. apply loop_exit. unfold bget_lru. by rewrite Nat.eqb_refl.
  - apply dll_app in Hd as [Hd [_ ->]]. rewrite length_app, reverse_app, Nat.add_comm.
    change (reverse [x] ++ reverse l) with (x :: reverse l). cbn [length find Nat.add].
    assert (x <> HEAD) as Hx by set_solver. destruct (_ =? _) eqn:E.
    + apply loop_exit. unfold bget_lru, gets, bind.
      destruct (Nat.eqb_spec x HEAD) as [->|_]; [done|]. by rewrite E.
    + erewrite loop_next; [apply (IH x Hd); set_solver|]. unfold bget_lru, gets, bind.
      destruct (Nat.eqb_spec x HEAD) as [->|_]; [done|]. by rewrite E.
Qed.

(** *** Assignments to the links *)

Definition with_next (i v : nat) (k : kstate) : kstate :=
  set_k_bufs (alter (set_b_next v) i (k_bufs k)) k.
Definition with_prev (i v : nat) (k : kstate) : kstate :=
  set_k_bufs (alter (set_b_prev v) i (k_bufs k)) k.

(** [k'] differs from [k] in the links of the buffers only. *)
Definition relinked (k k' : kstate) : Prop :=
  length (k_bufs k') = length (k_bufs k) /\
  (forall j, core (buf_at j k') = core (buf_at j k) /\ b_refcnt (buf_at j k') = b_refcnt (buf_at j k)) /\
  exists bs, k' = set_k_bufs bs k.

Lemma relinked_trans k1 k2 k3 : relinked k1 k2 -> relinked k2 k3 -> relinked k1 k3.
Proof.
  intros (L1 & C1 & bs1 & ->) (L2 & C2 & bs2 & ->). split_and!.
  - by rewrite L2.
  - intros j. destruct (C1 j) as [<- <-]. apply C2.
  - by exists bs2.
Qed.

Lemma with_next_links i v k : (i < length (k_bufs k))%nat ->
  relinked k (with_next i v k) /\
  forall j, nx (with_next i v k) j = fupd (nx k) i v j /\ pv (with_next i v k) j = pv k j.
Proof.
  intros Hi. assert (forall j, buf_at j (with_next i v k) =
    if decide (j = i) then set_b_next v (buf_at i k) else buf_at j k) as Hb
    by (intros; by apply buf_at_upd).
  split; [split_and!|]; [apply length_alter| |by eexists|]; intros j; unfold nx, pv, fupd;
    rewrite Hb; by destruct (decide (j = i)) as [->|].
Qed.

Lemma with_prev_links i v k : (i < length (k_bufs k))%nat ->
  relinked k (with_prev i v k) /\
  forall j, nx (with_prev i v k) j = nx k j /\ pv (with_prev i v k) j = fupd (pv k) i v j.
Proof.
  intros Hi. assert (forall j, buf_at j (with_prev i v k) =
    if decide (j = i) then set_b_prev v (buf_at i k) else buf_at j k) as Hb
    by (intros; by apply buf_at_upd).
  split; [split_and!|]; [apply length_alter| |by eexists|]; intros j; unfold nx, pv, fupd;
    rewrite Hb; by destruct (decide (j = i)) as [->|].
Qed.

(** brelse()'s unlinking and binit()'s linking in at the front. *)
Definition unlink (i : nat) (k : kstate) : kstate :=
  with_next (pv k i) (nx k i) (with_prev (nx k i) (pv k i) k).
Definition link_front (i : nat) (k : kstate) : kstate :=
  let k1 := with_prev i HEAD (with_next i (nx k HEAD) k) in
  with_next HEAD i (with_prev (nx k1 HEAD) i k1).

#[global] Arguments link_front : simpl never.
#[global] Arguments unlink : simpl never.

Lemma link_front_ok i k l : length (k_bufs k) = S HEAD -> (i < HEAD)%nat -> i ∉ l ->
  NoDup l -> (forall j, j ∈ l -> (j < HEAD)%nat) -> dll (nx k) (pv k) HEAD l HEAD ->
  relinked k (link_front i k) /\
  dll (nx (link_front i k)) (pv (link_front i k)) HEAD (i :: l) HEAD.
Proof.
  intros Hlen Hi Hil Hnd Hl Hd. unfold link_front. cbv zeta.
  assert (nx k HEAD < S HEAD)%nat as Hnx.
  { rewrite (dll_first _ _ _ _ _ Hd). destruct l as [|y l]; cbn; [lia|].
    pose proof (Hl y ltac:(left)). lia. }
  destruct (with_next_links i (nx k HEAD) k) as [R1 L1]; [lia|].
  set (k1 := with_next i (nx k HEAD) k) in *.
  assert (length (k_bufs k1) = S HEAD) as Hl1 by (destruct R1 as [-> _]; done).
  destruct (with_prev_links i HEAD k1) as [R2 L2]; [lia|].
  set (k2 := with_prev i HEAD k1) in *.
  assert (length (k_bufs k2) = S HEAD) as Hl2 by (destruct R2 as [-> _]; done).
  assert (nx k2 HEAD = nx k HEAD) as E2.
  { rewrite (proj1 (L2 HEAD)), (proj1 (L1 HEAD)). apply fupd_ne. lia. }
  rewrite E2. destruct (with_prev_links (nx k HEAD) i k2) as [R3 L3]; [lia|].
  set (k3 := with_prev (nx k HEAD) i k2) in *.
  assert (length (k_bufs k3) = S HEAD) as Hl3 by (destruct R3 as [-> _]; done).
  destruct (with_next_links HEAD i k3) as [R4 L4]; [lia|].
  set (k4 := with_next HEAD i k3) in *. split.
  { eapply relinked_trans; [exact R1|]. eapply relinked_trans; [exact R2|].
    by eapply relinked_trans. }
  eapply dll_ext; [| |apply dll_insert; [|exact Hil| |exact Hnd|exact Hd]].
  - intros j _. rewrite (proj1 (L4 j)). unfold fupd.
    rewrite (proj1 (L3 j)), (proj1 (L2 j)), (proj1 (L1 j)). done.
  - intros j _. rewrite (proj2 (L4 j)), (proj2 (L3 j)). unfold fupd.
    rewrite (proj2 (L2 j)). unfold fupd. by rewrite (proj2 (L1 j)).
  - lia.
  - intros ?%Hl. lia.
Qed.

Lemma unlink_ok i k l1 l2 : length (k_bufs k) = S HEAD ->
  NoDup (l1 ++ i :: l2) -> (forall j, j ∈ l1 ++ i :: l2 -> (j < HEAD)%nat) ->
  dll (nx k) (pv k) HEAD (l1 ++ i :: l2) HEAD ->
  relinked k (unlink i k) /\ dll (nx (unlink i k)) (pv (unlink i k)) HEAD (l1 ++ l2) HEAD.
Proof.
  intros Hlen Hnd Hl Hd. pose proof Hd as Hd'. apply dll_app in Hd' as [D1 D2].
  assert (nx k i < S HEAD)%nat as Hn.
  { rewrite (dll_first _ _ _ _ _ D2). destruct l2 as [|y l2]; cbn; [lia|].
    pose proof (Hl y ltac:(set_solver)). lia. }
  assert (pv k i < S HEAD)%nat as Hp.
  { rewrite (dll_last _ _ _ _ _ D1). destruct (last l1) as [y|] eqn:E; cbn; [|lia].
    apply last_Some in E as [l' ->]. pose proof (Hl y ltac:(set_solver)). lia. }
  unfold unlink. destruct (with_prev_links (nx k i) (pv k i) k) as [R1 L1]; [lia|].
  set (k1 := with_prev (nx k i) (pv k i) k) in *.
  assert (length (k_bufs k1) = S HEAD) as Hl1 by (destruct R1 as [-> _]; done).
  destruct (with_next_links (pv k i) (nx k i) k1) as [R2 L2]; [lia|]. split.
  { by eapply relinked_trans. }
  eapply dll_ext; [| |apply dll_remove; [|reflexivity|exact Hd]].
  - intros j _. rewrite (proj1 (L2 j)). unfold fupd. case_decide; [done|]. by rewrite (proj1 (L1 j)).
  - intros j _. by rewrite (proj2 (L2 j)), (proj2 (L1 j)).
  - apply NoDup_cons. split; [intros ?%Hl; lia|done].
Qed.

Section env.
Context `{Disk}.

(** What the calling thread needs of the rest of the kernel. *)
Record env_ok (p : nat) (k : kstate) : Prop := {
  env_thread : thread_ok p k;
  env_running : running p k;
  env_disk : disk_ok k;
  env_lock : lock_free k LBcache;
  env_slocks : forall i, (i < HEAD)%nat -> lock_free k (LSleep (SBuf i)) }.

Lemma env_step p k k' : env_ok p k -> bio_step k k' -> disk_ok k' -> env_ok p k'.
Proof.
  intros [[H1 H2 H3 H4 H5 H6] Hr Hd Hl Hs] (bs & sl & d & ws & v & ps & -> & Hw) Hd'.
  split; [|..|done|done|exact Hs].
  - split; try done. unfold procs_ok in *. cbn. by rewrite (woken_length _ _ Hw).
  - unfold running, proc_at. cbn. rewrite (proc_at_running p k ps Hr Hw). exact Hr.
Qed.

Lemma env_bufs p k bs : env_ok p k -> env_ok p (set_k_bufs bs k).
Proof.
  intros Hk. eapply env_step; [exact Hk|apply bio_step_bufs|].
  eapply disk_ok_ext; [..|exact (env_disk _ _ Hk)]; done.
Qed.

Lemma cur_pid_step p k k' : bio_step k k' -> cur_pid p k' = cur_pid p k.
Proof. intros (bs & sl & d & ws & v & ps & -> & Hw). by apply woken_pid. Qed.

End env.

Section specs.
Context `{Disk}.
Variable D : Z.  (* the device *)

(** Process [p] holds the sleeplocks of the buffers [held]; [pins i] is the
    number of bpin()s of buffer [i] that are outstanding. *)
Record bio_inv (p : nat) (held : gset nat) (pins : nat -> Z) (k : kstate) : Prop := {
  bi_env : env_ok p k;
  bi_len : length (k_bufs k) = S HEAD;
  bi_lru : exists l, dll (nx k) (pv k) HEAD l HEAD /\ l ≡ₚ seq 0 HEAD;
  bi_uniq : forall i j, (i < HEAD)%nat -> (j < HEAD)%nat -> b_dev (buf_at i k) = D ->
    b_dev (buf_at j k) = D -> b_blockno (buf_at i k) = b_blockno (buf_at j k) -> i = j;
  bi_ref : forall i, (i < HEAD)%nat -> 0 <= pins i < 2 ^ 31 /\
    b_refcnt (buf_at i k) = (if decide (i ∈ held) then 1 else 0) + pins i;
  bi_held : forall i, i ∈ held -> (i < HEAD)%nat /\ sk_locked (sk_of (SBuf i) k) = 1 /\
    sk_pid (sk_of (SBuf i) k) = cur_pid p k;
  bi_unheld : forall i, (i < HEAD)%nat -> i ∉ held -> sk_locked (sk_of (SBuf i) k) = 0;
  bi_used : forall i, (i < HEAD)%nat -> i ∈ held \/ pins i <> 0 -> b_valid (buf_at i k) <> 0;
  bi_dev : forall i, (i < HEAD)%nat -> b_valid (buf_at i k) <> 0 -> b_dev (buf_at i k) = D;
  bi_data : forall i, (i < HEAD)%nat -> block_ok (b_data (buf_at i k));
  bi_bno : forall i, (i < HEAD)%nat -> 0 <= b_blockno (buf_at i k) < 2 ^ 31;
  bi_blocks : forall b, block_ok (block_of (k_disk k) b);
  bi_clean : forall i, (i < HEAD)%nat -> i ∉ held -> pins i = 0 -> b_valid (buf_at i k) <> 0 ->
    b_data (buf_at i k) = block_of (k_disk k) (b_blockno (buf_at i k)) }.

(** Buffer [i] caches block [b]. *)
Definition caches (k : kstate) (b : Z) (i : nat) : bool :=
  negb (b_valid (buf_at i k) =? 0) && (b_dev (buf_at i k) =? D) && (b_blockno (buf_at i k) =? b).

(** The contents of block [b] that bread() shows: the cached data, else the
    disk's. *)
Definition view (k : kstate) (b : Z) : list Z :=
  match find (caches k b) (seq 0 HEAD) with
  | Some i => b_data (buf_at i k)
  | None => block_of (k_disk k) b
  end.

Lemma caches_true k b i : caches k b i = true <->
  b_valid (buf_at i k) <> 0 /\ b_dev (buf_at i k) = D /\ b_blockno (buf_at i k) = b.
Proof.
  unfold caches. destruct (Z.eqb_spec (b_valid (buf_at i k)) 0),
    (Z.eqb_spec (b_dev (buf_at i k)) D), (Z.eqb_spec (b_blockno (buf_at i k)) b); simpl; naive_solver.
Qed.

Lemma find_Some_seq f n i : find f (seq 0 n) = Some i -> f i = true /\ (i < n)%nat.
Proof. intros Hf. apply find_some in Hf as [Hi Hf]. apply in_seq in Hi. split; [done|lia]. Qed.

Lemma find_None_seq f n i : find f (seq 0 n) = None -> (i < n)%nat -> f i = false.
Proof. intros Hf Hi. eapply find_none in Hf; [done|]. apply in_seq. lia. Qed.

Lemma view_cached p held pins k i : bio_inv p held pins k -> (i < HEAD)%nat ->
  b_valid (buf_at i k) <> 0 -> view k (b_blockno (buf_at i k)) = b_data (buf_at i k).
Proof.
  intros Hk Hi Hv. unfold view. destruct (find _ _) as [j|] eqn:E.
  - apply find_Some_seq in E as [E Hj]. apply caches_true in E as (Ev & Ed & Eb).
    by rewrite (bi_uniq _ _ _ _ Hk j i) by (done || by apply (bi_dev _ _ _ _ Hk)).
  - apply (find_None_seq _ _ i) in E; [|done]. exfalso.
    assert (caches k (b_blockno (buf_at i k)) i = true); [|congruence].
    apply caches_true. split_and!; [done| |done]. by apply (bi_dev _ _ _ _ Hk).
Qed.

Lemma view_uncached k b : (forall i, (i < HEAD)%nat -> b_dev (buf_at i k) = D ->
  b_valid (buf_at i k) <> 0 -> b_blockno (buf_at i k) <> b) -> view k b = block_of (k_disk k) b.
Proof.
  intros Hn. unfold view. destruct (find _ _) as [j|] eqn:E; [|done].
  apply find_Some_seq in E as [E Hj]. apply caches_true in E as (Ev & Ed & Eb). by destruct (Hn j Hj).
Qed.

Lemma view_ext k k' b : k_disk k' = k_disk k ->
  (forall i, (i < HEAD)%nat -> core (buf_at i k') = core (buf_at i k)) -> view k' b = view k b.
Proof.
  intros Hd Hc. unfold view, caches. rewrite Hd.
  assert (Forall (fun i => core (buf_at i k') = core (buf_at i k)) (seq 0 HEAD)) as Hall.
  { apply Forall_seq. intros i Hi. apply Hc. lia. }
  revert Hall. generalize (seq 0 HEAD). induction l as [|i l IH]; intros Hall; [done|].
  inversion Hall as [|? ? Hi Hl]; subst. unfold core in Hi. injection Hi as E1 E2 E3 E4.
  cbn. rewrite E1, E2, E3. destruct (_ && _ && _); [done|]. by apply IH.
Qed.

(** Either some buffer caches the block or the disk has it. *)
Lemma view_cases p held pins k b : bio_inv p held pins k ->
  (exists i, (i < HEAD)%nat /\ b_valid (buf_at i k) <> 0 /\ b_dev (buf_at i k) = D /\
     b_blockno (buf_at i k) = b /\ view k b = b_data (buf_at i k)) \/
  ((forall i, (i < HEAD)%nat -> b_dev (buf_at i k) = D -> b_valid (buf_at i k) <> 0 ->
     b_blockno (buf_at i k) <> b) /\ view k b = block_of (k_disk k) b).
Proof.
  intros Hk. destruct (find (caches k b) (seq 0 HEAD)) as [i|] eqn:E.
  - left. exists i. unfold view. rewrite E. apply find_Some_seq in E as [E Hj].
    apply caches_true in E as (Ev & Ed & Eb). done.
  - right. assert (forall i, (i < HEAD)%nat -> b_dev (buf_at i k) = D ->
      b_valid (buf_at i k) <> 0 -> b_blockno (buf_at i k) <> b) as Hn.
    { intros i Hi Hd Hv Hb. apply (find_None_seq _ _ i) in E; [|done].
      assert (caches k b i = true) by by apply caches_true. congruence. }
    split; [done|]. by apply view_uncached.
Qed.

Lemma view_ok p held pins k b : bio_inv p held pins k -> block_ok (view k b).
Proof.
  intros Hk. destruct (view_cases p held pins k b Hk) as [(i & Hi & _ & _ & _ & ->)|[_ ->]].
  - by apply (bi_data _ _ _ _ Hk).
  - apply (bi_blocks _ _ _ _ Hk).
Qed.

(** Taking buffer [i], which becomes [x']: the step bget() and bread() make. *)
Section take.
Context (p : nat) (held : gset nat) (pins : nat -> Z) (k k' : kstate) (i : nat) (x' : buf) (nm : string).
Hypothesis Hk : bio_inv p held pins k.
Hypothesis Hi : (i < HEAD)%nat.
Hypothesis Hih : i ∉ held.
Hypothesis Hstep : bio_step k k'.
Hypothesis Hdok : disk_ok k'.
Hypothesis Hdisk : k_disk k' = k_disk k.
Hypothesis Hbufs : forall j, buf_at j k' = if decide (j = i) then x' else buf_at j k.
Hypothesis Hlen : length (k_bufs k') = S HEAD.
Hypothesis Hsk : forall s, sk_of s k' =
  if decide (s = SBuf i) then mkSleeplock 1 nm (cur_pid p k) else sk_of s k.
Hypothesis Hnx : b_next x' = b_next (buf_at i k).
Hypothesis Hpv : b_prev x' = b_prev (buf_at i k).
Hypothesis Href : b_refcnt x' = 1 + pins i.
Hypothesis Hval : b_valid x' <> 0.
Hypothesis Hdev : b_dev x' = D.
Hypothesis Hbno : 0 <= b_blockno x' < 2 ^ 31.
Hypothesis Huniq : forall j, (j < HEAD)%nat -> j <> i -> b_dev (buf_at j k) = D ->
  b_blockno (buf_at j k) <> b_blockno x'.
Hypothesis Hdata : b_data x' = view k (b_blockno x').
Hypothesis Hcore : pins i = 0 \/ core x' = core (buf_at i k).

Lemma buf_self : buf_at i k' = x'.
Proof. rewrite Hbufs. by rewrite decide_True. Qed.

Lemma buf_other j : j <> i -> buf_at j k' = buf_at j k.
Proof. intros. rewrite Hbufs. by rewrite decide_False. Qed.

Lemma take_links j : nx k' j = nx k j /\ pv k' j = pv k j.
Proof.
  unfold nx, pv. rewrite Hbufs. destruct (decide (j = i)) as [->|]; [|done]. by rewrite Hnx, Hpv.
Qed.

Lemma take_inv : bio_inv p ({[i]} ∪ held) pins k'.
Proof.
  assert (forall j, sk_of (SBuf j) k' =
    if decide (j = i) then mkSleeplock 1 nm (cur_pid p k) else sk_of (SBuf j) k) as Hsk'.
  { intros j. rewrite Hsk. destruct (decide (j = i)) as [->|]; [by rewrite decide_True|].
    rewrite decide_False; [done|congruence]. }
  split; [exact (env_step p k k' (bi_env _ _ _ _ Hk) Hstep Hdok)|done| | | | | | | | | | |].
  - destruct (bi_lru _ _ _ _ Hk) as (l & Hl & Hp). exists l. split; [|done].
    eapply dll_ext; [..|exact Hl]; intros j _; apply take_links.
  - intros j1 j2 H1 H2. rewrite !Hbufs. repeat case_decide; subst; intros Hd1 Hd2 Hb; [done|..].
    + by destruct (Huniq j2).
    + by destruct (Huniq j1).
    + by apply (bi_uniq _ _ _ _ Hk).
  - intros j Hj. destruct (bi_ref _ _ _ _ Hk j Hj) as [Hpj Hrj]. split; [done|]. rewrite Hbufs.
    destruct (decide (j = i)) as [->|]; [rewrite decide_True by set_solver; lia|].
    rewrite Hrj. destruct (decide (j ∈ held)), (decide (j ∈ {[i]} ∪ held)); set_solver.
  - intros j Hj. rewrite Hsk', (cur_pid_step p k k' Hstep).
    destruct (decide (j = i)) as [->|]; [done|]. apply (bi_held _ _ _ _ Hk). set_solver.
  - intros j Hj Hjh. rewrite Hsk', decide_False by set_solver. apply (bi_unheld _ _ _ _ Hk); set_solver.
  - intros j Hj Hjh. rewrite Hbufs. case_decide; [done|]. apply (bi_used _ _ _ _ Hk); set_solver.
  - intros j Hj. rewrite Hbufs. case_decide; [done|]. by apply (bi_dev _ _ _ _ Hk).
  - intros j Hj. rewrite Hbufs. case_decide; [rewrite Hdata; by eapply view_ok|].
    by apply (bi_data _ _ _ _ Hk).
  - intros j Hj. rewrite Hbufs. case_decide; [done|]. by apply (bi_bno _ _ _ _ Hk).
  - rewrite Hdisk. apply (bi_blocks _ _ _ _ Hk).
  - intros j Hj Hjh. rewrite buf_other, Hdisk by set_solver. apply (bi_clean _ _ _ _ Hk); set_solver.
Qed.

Lemma take_view b : view k' b = view k b.
Proof.
  destruct (decide (b = b_blockno x')) as [->|Hb].
  { rewrite <- Hdata, <- buf_self. eapply view_cached; [exact take_inv|done|by rewrite buf_self]. }
  destruct (view_cases _ _ _ _ b Hk) as [(j & Hj & Hvj & Hdj & Hbj & ->)|[Hn ->]].
  - destruct (decide (j = i)) as [->|Hji].
    + rewrite (bi_clean _ _ _ _ Hk i Hi Hih); [|destruct Hcore as [|Hc]; [done|]|done].
      2: { injection Hc as _ _ Hc _. congruence. }
      rewrite Hbj, <- Hdisk. apply view_uncached. intros j Hj'. rewrite Hbufs.
      case_decide as Hne; [congruence|]. intros Hd' Hv' Hb'. apply Hne.
      apply (bi_uniq _ _ _ _ Hk); congruence.
    + rewrite <- (buf_other j Hji), <- Hbj, <- (buf_other j Hji).
      eapply view_cached; [exact take_inv|done|by rewrite buf_other].
  - rewrite <- Hdisk. apply view_uncached. intros j Hj. rewrite Hbufs.
    case_decide; [congruence|]. intros Hd' Hv'. by apply Hn.
Qed.
End take.

(** ** The operations *)

(** The state after buffer [i] was changed by [f] and its sleeplock taken. *)
Definition taken (p i : nat) (f : buf -> buf) (k : kstate) : kstate :=
  set_k_slocks (<[SBuf i := mkSleeplock 1 (sk_name (sk_of (SBuf i) k)) (cur_pid p k)]> (k_slocks k))
    (set_k_bufs (alter f i (k_bufs k)) k).

Definition inc_ref (x : buf) : buf := set_b_refcnt (u32 (b_refcnt x + 1)) x.
Definition recycle (b : Z) (x : buf) : buf :=
  set_b_refcnt 1 (set_b_valid 0 (set_b_blockno b (set_b_dev D x))).

Lemma lru_props p held pins k : bio_inv p held pins k -> exists l,
  dll (nx k) (pv k) HEAD l HEAD /\ l ≡ₚ seq 0 HEAD /\ HEAD ∉ l /\ NoDup l /\ length l = HEAD /\
  forall i, i ∈ l <-> (i < HEAD)%nat.
Proof.
  intros Hk. destruct (bi_lru _ _ _ _ Hk) as (l & Hl & Hp). exists l.
  assert (forall i, i ∈ l <-> (i < HEAD)%nat) as Hin.
  { intros i. rewrite Hp, elem_of_seq. lia. }
  split_and!; [done..| | | |done].
  - rewrite Hin. lia.
  - rewrite Hp. apply NoDup_seq.
  - rewrite Hp. apply length_seq.
Qed.

(** release() of bcache.lock after changes to the buffers only. *)
Lemma bcache_release p k bs : env_ok p k ->
  release LBcache (set_k_bufs bs (enter LBcache k)) = Ret tt (set_k_bufs bs k).
Proof.
  intros [[Hok _ _ _ _ _] _ _ Hl _]. rewrite (release_run _ k) by done. by destruct k.
Qed.

Lemma bget_hit p held pins k b i : bio_inv p held pins k -> (i < HEAD)%nat -> i ∉ held ->
  b_dev (buf_at i k) = D -> b_blockno (buf_at i k) = b ->
  bget D b k = Ret i (taken p i inc_ref k).
Proof.
  intros Hk Hi Hih Hd Hb. destruct (lru_props _ _ _ _ Hk) as (l & Hl & Hp & Hh & Hnd & Hlen & Hin).
  pose proof (bi_env _ _ _ _ Hk) as Henv. pose proof Henv as [Hth Hr Hdk Hlk Hs].
  unfold bget. erewrite bind_ret_run by by apply acquire_run.
  unfold gets at 1. unfold bind at 1.
  erewrite bind_ret_run.
  2: { rewrite <- Hlen at 1. exact (cached_scan D b (enter LBcache k) HEAD l Hl Hh). }
  destruct (find _ l) as [j|] eqn:E.
  - assert (j = i) as ->.
    { apply find_some in E as [E1 E2]. apply list_elem_of_In, Hin in E1.
      apply andb_true_iff in E2 as [E2 E3]. apply Z.eqb_eq in E2, E3.
      apply (bi_uniq _ _ _ _ Hk); [done..|]. by rewrite Hb. }
    unfold upd_buf at 1, modify, bind at 1.
    erewrite bind_ret_run by exact (bcache_release p k _ Henv).
    erewrite bind_ret_run.
    2: { apply (acquiresleep_run (SBuf i) p).
         - exact (env_thread _ _ (env_bufs p k _ Henv)).
         - by apply Hs.
         - by apply (bi_unheld _ _ _ _ Hk). }
    done.
  - exfalso. apply (find_none _ _) with (x := i) in E; [|by apply list_elem_of_In, Hin].
    change (buf_at i (enter LBcache k)) with (buf_at i k) in E.
    rewrite Hd, Hb, !Z.eqb_refl in E. done.
Qed.

Lemma recycle_bufs b i k :
  (do! upd_buf i (set_b_dev D); do! upd_buf i (set_b_blockno b);
   do! upd_buf i (set_b_valid 0); upd_buf i (set_b_refcnt 1)) k
  = Ret tt (set_k_bufs (alter (recycle b) i (k_bufs k)) k).
Proof.
  unfold upd_buf, modify, bind. cbn. by rewrite !list_alter_alter_eq.
Qed.

Lemma bget_miss p held pins k b : bio_inv p held pins k ->
  (forall i, (i < HEAD)%nat -> b_dev (buf_at i k) = D -> b_blockno (buf_at i k) <> b) ->
  (exists i, (i < HEAD)%nat /\ i ∉ held /\ pins i = 0) ->
  exists i, (i < HEAD)%nat /\ i ∉ held /\ pins i = 0 /\
    bget D b k = Ret i (taken p i (recycle b) k).
Proof.
  intros Hk Hmiss (f & Hf & Hfh & Hf0).
  destruct (lru_props _ _ _ _ Hk) as (l & Hl & Hp & Hh & Hnd & Hlen & Hin).
  pose proof (bi_env _ _ _ _ Hk) as Henv. pose proof Henv as [Hth Hr Hdk Hlk Hs].
  destruct (find (fun i => b_refcnt (buf_at i k) =? 0) (reverse l)) as [i|] eqn:E.
  2: { exfalso. apply (find_none _ _) with (x := f) in E.
       - apply Z.eqb_neq in E. apply E. rewrite (proj2 (bi_ref _ _ _ _ Hk f Hf)).
         rewrite decide_False by done. lia.
       - apply list_elem_of_In, elem_of_reverse, Hin. done. }
  pose proof E as Ef. apply find_some in E as [E1 E2].
  apply list_elem_of_In, elem_of_reverse, Hin in E1. apply Z.eqb_eq in E2.
  destruct (bi_ref _ _ _ _ Hk i E1) as [Hpi Hri]. rewrite E2 in Hri.
  assert (i ∉ held /\ pins i = 0) as [Hih Hi0] by (destruct (decide (i ∈ held)); split; (done || lia)).
  exists i. split_and!; [done..|]. unfold bget. erewrite bind_ret_run by by apply acquire_run.
  unfold gets at 1. unfold bind at 1.
  erewrite bind_ret_run.
  2: { rewrite <- Hlen at 1. exact (cached_scan D b (enter LBcache k) HEAD l Hl Hh). }
  destruct (find _ l) as [j|] eqn:Ec.
  { exfalso. apply find_some in Ec as [H1 H2]. apply list_elem_of_In, Hin in H1.
    apply andb_true_iff in H2 as [H2 H3]. apply Z.eqb_eq in H2, H3. by apply (Hmiss j). }
  unfold gets at 1. unfold bind at 1.
  erewrite bind_ret_run.
  2: { rewrite <- Hlen at 1. exact (lru_scan (enter LBcache k) l HEAD Hl Hh). }
  change (fun i0 : nat => b_refcnt (buf_at i0 (enter LBcache k)) =? 0)
    with (fun i0 : nat => b_refcnt (buf_at i0 k) =? 0). rewrite Ef.
  pose proof (recycle_bufs b i (enter LBcache k)) as Hrec.
  rewrite (bind_seq4 _ _ _ _ _ _ _ Hrec).
  erewrite bind_ret_run by exact (bcache_release p k (alter (recycle b) i (k_bufs k)) Henv).
  erewrite bind_ret_run.
  2: { apply (acquiresleep_run (SBuf i) p).
       - exact (env_thread _ _ (env_bufs p k _ Henv)).
       - by apply Hs.
       - by apply (bi_unheld _ _ _ _ Hk). }
  done.
Qed.

(** Some buffer can serve block [b]: one that caches it, or an unused one. *)
Definition servable (held : gset nat) (pins : nat -> Z) (k : kstate) (b : Z) : Prop :=
  (forall i, i ∈ held -> b_blockno (buf_at i k) <> b) /\
  ((exists i, (i < HEAD)%nat /\ i ∉ held /\ b_dev (buf_at i k) = D /\ b_blockno (buf_at i k) = b) \/
   (exists i, (i < HEAD)%nat /\ i ∉ held /\ pins i = 0)).

Lemma taken_buf p i f k j : (i < length (k_bufs k))%nat ->
  buf_at j (taken p i f k) = if decide (j = i) then f (buf_at i k) else buf_at j k.
Proof. intros. by apply (buf_at_alter f i j _ (k_bufs k)). Qed.

Lemma taken_sk p i f k s : sk_of s (taken p i f k) =
  if decide (s = SBuf i) then mkSleeplock 1 (sk_name (sk_of (SBuf i) k)) (cur_pid p k) else sk_of s k.
Proof.
  unfold sk_of, taken. cbn. destruct (decide (s = SBuf i)) as [->|Hne].
  - by rewrite lookup_insert_eq.
  - by rewrite lookup_insert_ne.
Qed.

Lemma taken_env p i f k : env_ok p k -> env_ok p (taken p i f k).
Proof.
  intros Hk. eapply env_step; [exact Hk|apply bio_step_slocks|].
  eapply disk_ok_ext; [..|exact (env_disk _ _ Hk)]; done.
Qed.

(** What bget() leaves is a buffer for the block, taken, and either valid or to
    be read. *)
Lemma bget_spec p held pins k b : bio_inv p held pins k -> servable held pins k b ->
  0 <= b < 2 ^ 31 ->
  exists i f, bget D b k = Ret i (taken p i f k) /\ (i < HEAD)%nat /\ i ∉ held /\
    b_dev (f (buf_at i k)) = D /\ b_blockno (f (buf_at i k)) = b /\
    b_next (f (buf_at i k)) = b_next (buf_at i k) /\ b_prev (f (buf_at i k)) = b_prev (buf_at i k) /\
    b_refcnt (f (buf_at i k)) = 1 + pins i /\
    (forall j, (j < HEAD)%nat -> j <> i -> b_dev (buf_at j k) = D -> b_blockno (buf_at j k) <> b) /\
    (core (f (buf_at i k)) = core (buf_at i k) /\ b_valid (buf_at i k) <> 0 \/
     pins i = 0 /\ b_valid (f (buf_at i k)) = 0).
Proof.
  intros Hk [Hnh Hs] Hb.
  destruct (find (fun i => (b_dev (buf_at i k) =? D) && (b_blockno (buf_at i k) =? b)) (seq 0 HEAD))
    as [i|] eqn:E.
  - apply find_Some_seq in E as [E Hi]. apply andb_true_iff in E as [Ed Eb].
    apply Z.eqb_eq in Ed, Eb.
    assert (i ∉ held) as Hih by (intros Hih; by apply (Hnh i Hih)).
    destruct (bi_ref _ _ _ _ Hk i Hi) as [Hpi Hri]. rewrite decide_False in Hri by done.
    exists i, inc_ref. split_and!; try done.
    + by apply bget_hit with held pins.
    + cbn. rewrite Hri. rewrite u32_small by lia. lia.
    + intros j Hj Hji Hd Hbj. apply Hji, (bi_uniq _ _ _ _ Hk); congruence.
    + destruct (decide (b_valid (buf_at i k) = 0)) as [Hv|]; [right|by left].
      split; [|done]. destruct (decide (pins i = 0)) as [|Hp]; [done|].
      exfalso. by apply (bi_used _ _ _ _ Hk i Hi (or_intror Hp)).
  - assert (forall i, (i < HEAD)%nat -> b_dev (buf_at i k) = D -> b_blockno (buf_at i k) <> b) as Hmiss.
    { intros i Hi Hd Hbi. apply (find_None_seq _ _ i) in E; [|done].
      cbn in E. rewrite Hd, Hbi, !Z.eqb_refl in E. done. }
    destruct (bget_miss p held pins k b Hk Hmiss) as (i & Hi & Hih & Hp0 & Hrun).
    { destruct Hs as [(i & Hi & _ & Hd & Hbi)|Hs]; [by destruct (Hmiss i)|done]. }
    exists i, (recycle b). split_and!; try done.
    + cbn. lia.
    + intros j Hj _. by apply Hmiss.
    + by right.
Qed.

(** bread(): the buffer is locked by the caller and holds the block's current
    contents; nothing else a thread can see has changed. *)
Lemma bread_spec p held pins k b : bio_inv p held pins k -> servable held pins k b ->
  0 <= b < 2 ^ 31 ->
  exists i k', bread D b k = Ret i k' /\ (i < HEAD)%nat /\ i ∉ held /\
    bio_inv p ({[i]} ∪ held) pins k' /\ bio_step k k' /\
    b_blockno (buf_at i k') = b /\ b_data (buf_at i k') = view k b /\
    (forall b', view k' b' = view k b') /\ k_disk k' = k_disk k /\ k_dwrites k' = k_dwrites k /\
    (forall j, j <> i -> buf_at j k' = buf_at j k) /\
    (pins i <> 0 -> core (buf_at i k') = core (buf_at i k)).
Proof.
  intros Hk Hs Hb. destruct (bget_spec p held pins k b Hk Hs Hb)
    as (i & f & Hrun & Hi & Hih & Hd & Hbi & Hn & Hpv & Hrf & Hu & Hc).
  pose proof (bi_env _ _ _ _ Hk) as Henv. pose proof (bi_len _ _ _ _ Hk) as Hlen.
  assert (i < length (k_bufs k))%nat as Hil by lia.
  unfold bread. erewrite bind_ret_run by exact Hrun. unfold gets at 1. unfold bind at 1.
  rewrite (taken_buf p i f k i) by done. rewrite decide_True by done.
  destruct Hc as [[Hc Hv]|[Hp0 Hv]].
  - injection Hc as E1 E2 E3 E4. rewrite E1, truth_true by done. cbn [negb]. unfold ret, bind.
    assert (b_data (f (buf_at i k)) = view k b) as Hdata.
    { rewrite E4, <- Hbi, E3. symmetry. by eapply view_cached. }
    exists i, (taken p i f k).
    assert (bio_inv p ({[i]} ∪ held) pins (taken p i f k) /\
      forall b', view (taken p i f k) b' = view k b') as [H1 H2].
    { split; [|intros b'];
      [eapply (take_inv p held pins k (taken p i f k) i (f (buf_at i k)))
      |eapply (take_view p held pins k (taken p i f k) i (f (buf_at i k)))]; try done.
      all: try (apply bio_step_slocks || exact (env_disk _ _ (taken_env p i f k Henv))
                || (intros; by apply taken_buf) || apply taken_sk || by rewrite Hbi
                || (cbn; by rewrite length_alter) || by rewrite E1).
      all: right; unfold core; congruence. }
    split_and!; try done.
    + apply bio_step_slocks.
    + by rewrite taken_buf, decide_True by done.
    + by rewrite taken_buf, decide_True by done.
    + intros j Hj. by rewrite taken_buf, decide_False by done.
    + intros _. rewrite taken_buf, decide_True by done. unfold core. congruence.
  - rewrite Hv. change (truth 0) with false. cbn [negb].
    destruct (disk_rw_spec p i 0 (taken p i f k)) as (v & ps & Hrw & Hw & Hdk).
    { exact (env_thread _ _ (taken_env p i f k Henv)). }
    { exact (env_running _ _ (taken_env p i f k Henv)). }
    { exact (env_disk _ _ (taken_env p i f k Henv)). }
    { done. }
    { cbn. by rewrite length_alter. }
    { rewrite taken_buf, decide_True, Hbi by done. done. }
    rewrite bind_assoc. erewrite bind_ret_run by exact Hrw.
    unfold upd_buf, modify, ret, bind.
    set (k2 := set_k_vdisk v (set_k_procs ps (disk_done i 0 (taken p i f k)))).
    set (x' := set_b_valid 1 (set_b_data (block_of (k_disk k) b) (set_b_disk 0 (f (buf_at i k))))).
    set (k' := set_k_bufs (alter (set_b_valid 1) i (k_bufs k2)) k2).
    assert (forall j, buf_at j k' = if decide (j = i) then x' else buf_at j k) as Hbufs.
    { intros j. unfold k'. rewrite (buf_at_alter (set_b_valid 1) i j _ (k_bufs k2)).
      2: { subst k2. cbn. rewrite !length_alter. done. }
      2: done.
      fold (buf_at i k2). fold (buf_at j k2).
      assert (forall j, buf_at j k2 = if decide (j = i) then
        set_b_data (block_of (k_disk k) b) (set_b_disk 0 (f (buf_at i k))) else buf_at j k) as Hk2.
      { intros j'. change (buf_at j' k2) with (buf_at j' (disk_done i 0 (taken p i f k))).
        rewrite disk_read_buf by (cbn; by rewrite length_alter).
        change (k_disk (taken p i f k)) with (k_disk k). rewrite !taken_buf by done. rewrite (decide_True (P := i = i)) by done.
        destruct (decide (j' = i)); [|done]. by rewrite Hbi. }
      rewrite !Hk2. rewrite (decide_True (P := i = i)) by done. by destruct (decide (j = i)). }
    assert (bio_step k k') as Hstep.
    { eapply bio_step_trans; [apply (bio_step_slocks k)|].
      eapply bio_step_trans; [exact (bio_step_disk i 0 (taken p i f k) v ps Hw)|apply bio_step_bufs]. }
    assert (view k b = block_of (k_disk k) b) as Hview.
    { destruct (view_cases _ _ _ _ b Hk) as [(j & Hj & Hvj & Hdj & Hbj & ->)|[_ ->]]; [|done].
      destruct (decide (j = i)) as [->|Hji]; [|by destruct (Hu j)].
      rewrite <- Hbj. by apply (bi_clean _ _ _ _ Hk). }
    exists i, k'.
    assert (bio_inv p ({[i]} ∪ held) pins k' /\ forall b', view k' b' = view k b') as [H1 H2].
    { split; [|intros b'];
      [eapply (take_inv p held pins k k' i x')
      |eapply (take_view p held pins k k' i x')]; try done.
      all: try (exact (disk_ok_ext (set_k_vdisk v (taken p i f k)) k' eq_refl eq_refl Hdk) || (intros; exact (taken_sk p i f k _))
                || (cbn; by rewrite Hbi) || (cbn; by rewrite !length_alter)
                || (cbn; by rewrite Hbi, Hview) || by left). }
    split_and!; try done.
    + by rewrite Hbufs, decide_True.
    + rewrite Hbufs, decide_True by done. cbn. by rewrite Hview.
    + intros j Hj. by rewrite Hbufs, decide_False.
Qed.

(** *** Changing the data of a held buffer *)

Lemma set_data_buf k i d j : (i < length (k_bufs k))%nat ->
  buf_at j (set_k_bufs (alter (set_b_data d) i (k_bufs k)) k) =
    if decide (j = i) then set_b_data d (buf_at i k) else buf_at j k.
Proof. apply buf_at_upd. Qed.

(** A change of buffers that keeps all but the data of held buffers and their
    reference counts. *)
Lemma bio_inv_upd p held pins pins' k k' : bio_inv p held pins k -> bio_step k k' -> disk_ok k' ->
  length (k_bufs k') = S HEAD -> k_slocks k' = k_slocks k ->
  (forall j, b_valid (buf_at j k') = b_valid (buf_at j k) /\ b_dev (buf_at j k') = b_dev (buf_at j k) /\
     b_blockno (buf_at j k') = b_blockno (buf_at j k) /\ nx k' j = nx k j /\ pv k' j = pv k j) ->
  (forall i, (i < HEAD)%nat -> 0 <= pins' i < 2 ^ 31 /\
     b_refcnt (buf_at i k') = (if decide (i ∈ held) then 1 else 0) + pins' i) ->
  (forall i, i ∉ held -> pins' i = pins i /\ b_data (buf_at i k') = b_data (buf_at i k)) ->
  (forall i, (i < HEAD)%nat -> block_ok (b_data (buf_at i k'))) ->
  (forall b, block_ok (block_of (k_disk k') b)) ->
  (forall i, (i < HEAD)%nat -> i ∉ held -> b_dev (buf_at i k) = D ->
     block_of (k_disk k') (b_blockno (buf_at i k)) = block_of (k_disk k) (b_blockno (buf_at i k))) ->
  bio_inv p held pins' k'.
Proof.
  intros Hk Hst Hd Hlen Hsl Hb Href Hun Hdata Hblk Hdisk.
  assert (forall s, sk_of s k' = sk_of s k) as Hsk by (intros s; unfold sk_of; by rewrite Hsl).
  split; [exact (env_step p k k' (bi_env _ _ _ _ Hk) Hst Hd)|done| | |done| | | | |done| |done|].
  - destruct (bi_lru _ _ _ _ Hk) as (l & Hl & Hp). exists l. split; [|done].
    eapply dll_ext; [..|exact Hl]; intros j _; apply Hb.
  - intros i j Hi Hj. destruct (Hb i) as (_ & -> & -> & _), (Hb j) as (_ & -> & -> & _).
    by apply (bi_uniq _ _ _ _ Hk).
  - intros i Hi. rewrite Hsk, (cur_pid_step p k k' Hst). by apply (bi_held _ _ _ _ Hk).
  - intros i Hi. rewrite Hsk. by apply (bi_unheld _ _ _ _ Hk).
  - intros i Hi Hor. destruct (Hb i) as (-> & _). apply (bi_used _ _ _ _ Hk); [done|].
    destruct (decide (i ∈ held)) as [|Hn]; [by left|]. destruct Hor as [|Hor]; [done|].
    right. by rewrite <- (proj1 (Hun i Hn)).
  - intros i Hi. destruct (Hb i) as (-> & -> & _). by apply (bi_dev _ _ _ _ Hk).
  - intros i Hi. destruct (Hb i) as (_ & _ & -> & _). by apply (bi_bno _ _ _ _ Hk).
  - intros i Hi Hn. destruct (Hun i Hn) as [-> ->], (Hb i) as (-> & _ & -> & _). intros Hp Hv.
    rewrite Hdisk by (done || by apply (bi_dev _ _ _ _ Hk)). by apply (bi_clean _ _ _ _ Hk).
Qed.

Lemma set_data_spec p held pins k i d : bio_inv p held pins k -> i ∈ held -> block_ok d ->
  let k' := set_k_bufs (alter (set_b_data d) i (k_bufs k)) k in
  bio_inv p held pins k' /\ bio_step k k' /\
  forall b, view k' b = if decide (b = b_blockno (buf_at i k)) then d else view k b.
Proof.
  intros Hk Hi Hd k'. destruct (bi_held _ _ _ _ Hk i Hi) as [Hlt _].
  pose proof (bi_len _ _ _ _ Hk) as Hlen.
  assert (forall j, buf_at j k' = if decide (j = i) then set_b_data d (buf_at i k) else buf_at j k)
    as Hbuf by (intros j; apply set_data_buf; lia).
  assert (bio_inv p held pins k') as Hk'.
  { eapply bio_inv_upd; [exact Hk|apply bio_step_bufs|..].
    - exact (disk_ok_ext k k' eq_refl eq_refl (env_disk _ _ (bi_env _ _ _ _ Hk))).
    - cbn. by rewrite length_alter.
    - done.
    - intros j. unfold nx, pv. rewrite Hbuf. by case_decide as E; [rewrite E|].
    - intros j Hj. rewrite Hbuf. destruct (bi_ref _ _ _ _ Hk j Hj) as [H1 H2]. split; [done|].
      by destruct (decide (j = i)) as [->|].
    - intros j Hj. split; [done|]. rewrite Hbuf. by rewrite decide_False by (intros ->; done).
    - intros j Hj. rewrite Hbuf. case_decide; [done|]. by apply (bi_data _ _ _ _ Hk).
    - apply (bi_blocks _ _ _ _ Hk).
    - done. }
  split_and!; [done|apply bio_step_bufs|]. intros b.
  assert (b_valid (buf_at i k) <> 0) as Hv by (apply (bi_used _ _ _ _ Hk); auto).
  assert (buf_at i k' = set_b_data d (buf_at i k)) as Hbi by (rewrite Hbuf; by rewrite decide_True).
  case_decide as E.
  - subst b. replace (b_blockno (buf_at i k)) with (b_blockno (buf_at i k')) by by rewrite Hbi.
    erewrite view_cached; [by rewrite Hbi|done..|by rewrite Hbi].
  - destruct (view_cases _ _ _ _ b Hk) as [(j & Hj & Hvj & Hdj & Hbj & ->)|[Hn ->]].
    + assert (buf_at j k' = buf_at j k) as Hj' by (rewrite Hbuf, decide_False; [done|congruence]).
      rewrite <- Hbj, <- Hj'. eapply view_cached; [done..|by rewrite Hj'].
    + change (k_disk k) with (k_disk k'). apply view_uncached.
      intros j Hj. rewrite Hbuf. case_decide as Eji; [subst j|by apply Hn].
      cbn. by apply Hn.
Qed.

(** *** bwrite() *)

Lemma holdingsleep_held p held pins k i : bio_inv p held pins k -> i ∈ held ->
  holdingsleep (SBuf i) k = Ret 1 k.
Proof.
  intros Hk Hi. destruct (bi_held _ _ _ _ Hk i Hi) as (Hlt & Hl & Hp).
  destruct (bi_env _ _ _ _ Hk) as [Hth _ _ _ Hs].
  rewrite (holdingsleep_run (SBuf i) p) by auto. by rewrite Hl, Hp, Z.eqb_refl.
Qed.

Lemma bwrite_spec p held pins k i : bio_inv p held pins k -> i ∈ held ->
  exists k', bwrite i k = Ret tt k' /\ bio_inv p held pins k' /\ bio_step k k' /\
    k_disk k' = <[b_blockno (buf_at i k) := b_data (buf_at i k)]> (k_disk k) /\
    k_dwrites k' = k_dwrites k ++ [(b_blockno (buf_at i k), b_data (buf_at i k))] /\
    (forall j, core (buf_at j k') = core (buf_at j k)) /\
    (forall b, view k' b = view k b).
Proof.
  intros Hk Hi. destruct (bi_held _ _ _ _ Hk i Hi) as [Hlt _].
  pose proof (bi_len _ _ _ _ Hk) as Hlen. pose proof (bi_env _ _ _ _ Hk) as [Hth Hr Hdk _ _].
  assert (b_valid (buf_at i k) <> 0) as Hv by (apply (bi_used _ _ _ _ Hk); auto).
  unfold bwrite. erewrite bind_ret_run by by eapply holdingsleep_held.
  change (negb (truth 1)) with false. cbv iota.
  destruct (disk_rw_spec p i 1 k) as (v & ps & Hrw & Hw & Hdk');
    [done..|by apply (bi_bno _ _ _ _ Hk)|].
  set (k' := set_k_vdisk v (set_k_procs ps (disk_done i 1 k))) in *. exists k'.
  assert (forall j, buf_at j k' = if decide (j = i) then set_b_disk 0 (buf_at i k) else buf_at j k)
    as Hbuf.
  { intros j. change (buf_at j k') with (buf_at j (disk_done i 1 k)). apply disk_write_buf. lia. }
  assert (bio_step k k') as Hst by by apply bio_step_disk.
  assert (bio_inv p held pins k') as Hk'.
  { eapply bio_inv_upd; [exact Hk|exact Hst|..].
    - exact (disk_ok_ext (set_k_vdisk v k) k' eq_refl eq_refl Hdk').
    - cbn. by rewrite length_alter.
    - done.
    - intros j. unfold nx, pv. rewrite Hbuf. by case_decide as E; [rewrite E|].
    - intros j Hj. rewrite Hbuf. destruct (bi_ref _ _ _ _ Hk j Hj) as [H1 H2]. split; [done|].
      by destruct (decide (j = i)) as [->|].
    - intros j Hj. split; [done|]. rewrite Hbuf. by rewrite decide_False by (intros ->; done).
    - intros j Hj. rewrite Hbuf. case_decide; by apply (bi_data _ _ _ _ Hk).
    - intros b. unfold block_of. cbn. destruct (decide (b = b_blockno (buf_at i k))) as [->|Hne].
      + rewrite lookup_insert_eq. by apply (bi_data _ _ _ _ Hk).
      + rewrite lookup_insert_ne by done. apply (bi_blocks _ _ _ _ Hk).
    - intros j Hj Hjh Hd. unfold block_of. cbn. rewrite lookup_insert_ne; [done|].
      intros Heq. assert (i = j) as ->; [|done].
      apply (bi_uniq _ _ _ _ Hk); try done. by apply (bi_dev _ _ _ _ Hk). }
  split_and!; try done.
  - intros j. rewrite Hbuf. by case_decide as E; [rewrite E|].
  - intros b. assert (b_valid (buf_at i k') <> 0) by (rewrite Hbuf; by rewrite decide_True).
    destruct (view_cases _ _ _ _ b Hk) as [(j & Hj & Hvj & Hdj & Hbj & ->)|[Hn ->]].
    + assert (core (buf_at j k') = core (buf_at j k)) as Hc
        by (rewrite Hbuf; case_decide as E; [by rewrite E|done]).
      injection Hc as E1 E2 E3 E4. rewrite <- Hbj, <- E3, <- E4.
      eapply view_cached; [done..|by rewrite E1].
    + rewrite view_uncached.
      * unfold block_of. cbn. rewrite lookup_insert_ne; [done|].
        apply Hn; [done| |done]. by apply (bi_dev _ _ _ _ Hk).
      * intros j Hj. rewrite Hbuf. case_decide as E; [subst j|by apply Hn]. cbn. by apply Hn.
Qed.

(** *** brelse() *)

Definition dec_ref (x : buf) : buf := set_b_refcnt (u32 (b_refcnt x - 1)) x.

Lemma slept_released_env p k i : env_ok p k -> env_ok p (slept_released (SBuf i) k) /\
  bio_step k (slept_released (SBuf i) k).
Proof.
  intros Hk. assert (bio_step k (slept_released (SBuf i) k)) as Hst.
  { eexists (k_bufs k), _, (k_disk k), (k_dwrites k), (k_vdisk k), _.
    split; [|apply (wake_woken (c_proc (k_cpu k)) (ChSleep (SBuf i)))]. by destruct k. }
  split; [|done]. eapply env_step; [done..|].
  eapply disk_ok_ext; [..|exact (env_disk _ _ Hk)]; done.
Qed.

(** What remains of [k] once buffer [i] is released and the list is [l']. *)
Lemma release_inv p held pins k k' i : bio_inv p held pins k -> i ∈ held ->
  pins i <> 0 \/ b_data (buf_at i k) = block_of (k_disk k) (b_blockno (buf_at i k)) ->
  bio_step k k' -> disk_ok k' -> length (k_bufs k') = S HEAD -> k_disk k' = k_disk k ->
  (exists l, dll (nx k') (pv k') HEAD l HEAD /\ l ≡ₚ seq 0 HEAD) ->
  (forall j, core (buf_at j k') = core (buf_at j k) /\
     b_refcnt (buf_at j k') = if decide (j = i) then pins i else b_refcnt (buf_at j k)) ->
  (forall j, sk_of (SBuf j) k' = if decide (j = i) then mkSleeplock 0 (sk_name (sk_of (SBuf i) k)) 0
     else sk_of (SBuf j) k) ->
  bio_inv p (held ∖ {[i]}) pins k'.
Proof.
  intros Hk Hi Hcl Hst Hdk Hlen Hdisk Hlru Hb Hsk.
  assert (forall j, b_valid (buf_at j k') = b_valid (buf_at j k) /\ b_dev (buf_at j k') = b_dev (buf_at j k)
    /\ b_blockno (buf_at j k') = b_blockno (buf_at j k) /\ b_data (buf_at j k') = b_data (buf_at j k))
    as Hc by (intros j; destruct (Hb j) as [Hc _]; injection Hc; auto).
  split; [exact (env_step p k k' (bi_env _ _ _ _ Hk) Hst Hdk)|done|done| | | | | | | | | |].
  - intros j1 j2 H1 H2. destruct (Hc j1) as (_ & -> & -> & _), (Hc j2) as (_ & -> & -> & _).
    by apply (bi_uniq _ _ _ _ Hk).
  - intros j Hj. destruct (Hb j) as [_ ->], (bi_ref _ _ _ _ Hk j Hj) as [Hp Hr]. split; [done|].
    destruct (decide (j = i)) as [->|Hji]; [rewrite decide_False by set_solver; lia|].
    rewrite Hr. destruct (decide (j ∈ held)), (decide (j ∈ held ∖ {[i]})); set_solver.
  - intros j Hj. rewrite Hsk, decide_False, (cur_pid_step p k k' Hst) by set_solver.
    apply (bi_held _ _ _ _ Hk). set_solver.
  - intros j Hj Hjh. rewrite Hsk. destruct (decide (j = i)); [done|].
    apply (bi_unheld _ _ _ _ Hk); set_solver.
  - intros j Hj Hor. destruct (Hc j) as (-> & _). apply (bi_used _ _ _ _ Hk); set_solver.
  - intros j Hj. destruct (Hc j) as (-> & -> & _). by apply (bi_dev _ _ _ _ Hk).
  - intros j Hj. destruct (Hc j) as (_ & _ & _ & ->). by apply (bi_data _ _ _ _ Hk).
  - intros j Hj. destruct (Hc j) as (_ & _ & -> & _). by apply (bi_bno _ _ _ _ Hk).
  - rewrite Hdisk. apply (bi_blocks _ _ _ _ Hk).
  - intros j Hj Hjh Hp. destruct (Hc j) as (-> & _ & -> & ->). rewrite Hdisk. intros Hv.
    destruct (decide (j = i)) as [->|]; [by destruct Hcl|].
    apply (bi_clean _ _ _ _ Hk); set_solver.
Qed.

(** The buffers after the part of brelse() that bcache.lock protects. *)
Lemma brelse_list p held pins k i : bio_inv p held pins k -> i ∈ held ->
  let kd := set_k_bufs (alter dec_ref i (k_bufs k)) k in
  exists kf, relinked kd kf /\ (exists l, dll (nx kf) (pv kf) HEAD l HEAD /\ l ≡ₚ seq 0 HEAD) /\
    (forall j, core (buf_at j kf) = core (buf_at j k) /\
       b_refcnt (buf_at j kf) = if decide (j = i) then pins i else b_refcnt (buf_at j k)) /\
    kf = if b_refcnt (buf_at i kd) =? 0 then link_front i (unlink i kd) else kd.
Proof.
  intros Hk Hi kd. destruct (bi_held _ _ _ _ Hk i Hi) as [Hlt _].
  pose proof (bi_len _ _ _ _ Hk) as Hlen.
  destruct (bi_ref _ _ _ _ Hk i Hlt) as [Hp Hr]. rewrite decide_True in Hr by done.
  assert (forall j, buf_at j kd = if decide (j = i) then dec_ref (buf_at i k) else buf_at j k) as Hbuf
    by (intros j; apply buf_at_upd; lia).
  assert (forall j, core (buf_at j kd) = core (buf_at j k) /\
    b_refcnt (buf_at j kd) = (if decide (j = i) then pins i else b_refcnt (buf_at j k)) /\
    nx kd j = nx k j /\ pv kd j = pv k j) as Hkd.
  { intros j. unfold nx, pv. rewrite Hbuf. destruct (decide (j = i)) as [->|]; [|done].
    split_and!; try done. cbn. rewrite Hr. rewrite u32_small by lia. lia. }
  destruct (lru_props _ _ _ _ Hk) as (l & Hl & Hpm & Hh & Hnd & Hll & Hin).
  assert (dll (nx kd) (pv kd) HEAD l HEAD) as Hld
    by (eapply dll_ext; [..|exact Hl]; intros j _; apply Hkd).
  destruct (b_refcnt (buf_at i kd) =? 0) eqn:E.
  - assert (i ∈ l) as Hil by by apply Hin.
    apply list_elem_of_split in Hil as (l1 & l2 & ->).
    destruct (unlink_ok i kd l1 l2) as [R1 D1].
    { cbn. by rewrite length_alter. } { done. } { intros j. apply Hin. } { done. }
    assert (NoDup (i :: l1 ++ l2)) as [Hn12 Hnd12]%NoDup_cons.
    { by rewrite Permutation_middle. }
    destruct (link_front_ok i (unlink i kd) (l1 ++ l2)) as [R2 D2]; [|done..| |done|].
    { destruct R1 as [-> _]. cbn. by rewrite length_alter. }
    { intros j Hj. apply Hin. set_solver. }
    exists (link_front i (unlink i kd)). pose proof (relinked_trans _ _ _ R1 R2) as R.
    split_and!; [done| | |done].
    + exists (i :: l1 ++ l2). split; [done|]. by rewrite Permutation_middle.
    + intros j. destruct R as (_ & HR & _). destruct (HR j) as [-> ->].
      destruct (Hkd j) as (-> & -> & _). done.
  - exists kd. split_and!; [|by exists l|intros j; destruct (Hkd j) as (? & ? & _); done|done].
    split_and!; [done..|]. exists (k_bufs kd). by destruct k.
Qed.

Lemma brelse_spec p held pins k i : bio_inv p held pins k -> i ∈ held ->
  pins i <> 0 \/ b_data (buf_at i k) = block_of (k_disk k) (b_blockno (buf_at i k)) ->
  exists k', brelse i k = Ret tt k' /\ bio_inv p (held ∖ {[i]}) pins k' /\ bio_step k k' /\
    k_disk k' = k_disk k /\ k_dwrites k' = k_dwrites k /\
    (forall j, core (buf_at j k') = core (buf_at j k)) /\ (forall b, view k' b = view k b).
Proof.
  intros Hk Hi Hcl. pose proof (bi_env _ _ _ _ Hk) as Henv.
  destruct (bi_held _ _ _ _ Hk i Hi) as [Hlt _].
  destruct (slept_released_env p k i Henv) as [Henv1 Hst1].
  destruct (brelse_list p held pins k i Hk Hi) as (kf & HR & Hlru & Hc & Hkf).
  set (k1 := slept_released (SBuf i) k) in *. set (k' := set_k_bufs (k_bufs kf) k1).
  assert (brelse i k = Ret tt k') as Hrun.
  { unfold brelse. erewrite bind_ret_run by by eapply holdingsleep_held.
    change (negb (truth 1)) with false. cbv iota.
    erewrite bind_ret_run by (apply (releasesleep_run (SBuf i) p);
      [exact (env_thread _ _ Henv)|by apply (env_slocks _ _ Henv)]). fold k1.
    erewrite bind_ret_run by exact (acquire_run LBcache k1 (env_lock _ _ Henv1)).
    unfold upd_buf at 1. unfold modify at 1. unfold bind at 1. unfold gets at 1. unfold bind at 1.
    fold dec_ref.
    change (b_refcnt (buf_at i _)) with (b_refcnt (buf_at i (set_k_bufs (alter dec_ref i (k_bufs k)) k))).
    destruct (b_refcnt (buf_at i (set_k_bufs (alter dec_ref i (k_bufs k)) k)) =? 0); subst kf.
    - unfold upd_buf, modify, gets, bind. exact (bcache_release p k1 (k_bufs (link_front i (unlink i
        (set_k_bufs (alter dec_ref i (k_bufs k)) k)))) Henv1).
    - unfold ret, bind. exact (bcache_release p k1 (alter dec_ref i (k_bufs k)) Henv1). }
  exists k'. assert (bio_step k k') as Hst by (eapply bio_step_trans; [exact Hst1|apply bio_step_bufs]).
  assert (forall j, buf_at j k' = buf_at j kf) as Hbuf by done.
  assert (bio_inv p (held ∖ {[i]}) pins k') as Hk'.
  { apply (release_inv p held pins k); try done.
    - exact (disk_ok_ext k1 k' eq_refl eq_refl (env_disk _ _ Henv1)).
    - cbn. destruct HR as [-> _]. cbn. rewrite length_alter. apply (bi_len _ _ _ _ Hk).
    - intros j. unfold sk_of, k', k1, slept_released. cbn.
      destruct (decide (j = i)) as [->|Hne]; [by rewrite lookup_insert_eq|].
      rewrite lookup_insert_ne; [done|congruence]. }
  split_and!; try done.
  - intros j. by destruct (Hc j).
  - intros b. apply view_ext; [done|]. intros j _. by destruct (Hc j).
Qed.

(** *** bpin() and bunpin() *)

Lemma repin_spec p held pins k i f n : bio_inv p held pins k -> i ∈ held ->
  (forall x, core (f x) = core x /\ b_next (f x) = b_next x /\ b_prev (f x) = b_prev x) ->
  b_refcnt (f (buf_at i k)) = b_refcnt (buf_at i k) + n -> 0 <= pins i + n < 2 ^ 31 ->
  let k' := set_k_bufs (alter f i (k_bufs k)) k in
  (do! acquire LBcache; do! upd_buf i f; release LBcache) k = Ret tt k' /\
  bio_inv p held (fun j => if decide (j = i) then pins i + n else pins j) k' /\ bio_step k k' /\
  (forall j, core (buf_at j k') = core (buf_at j k)) /\ (forall b, view k' b = view k b).
Proof.
  intros Hk Hi Hf Href Hn k'. pose proof (bi_env _ _ _ _ Hk) as Henv.
  destruct (bi_held _ _ _ _ Hk i Hi) as [Hlt _]. pose proof (bi_len _ _ _ _ Hk) as Hlen.
  assert (forall j, buf_at j k' = if decide (j = i) then f (buf_at i k) else buf_at j k) as Hbuf
    by (intros j; apply buf_at_upd; lia).
  assert (forall j, core (buf_at j k') = core (buf_at j k)) as Hc.
  { intros j. rewrite Hbuf. destruct (decide (j = i)) as [->|]; [apply Hf|done]. }
  split_and!; [| |apply bio_step_bufs|done|intros b; by apply view_ext].
  - erewrite bind_ret_run by exact (acquire_run LBcache k (env_lock _ _ Henv)).
    unfold upd_buf, modify, bind. exact (bcache_release p k _ Henv).
  - eapply bio_inv_upd; [exact Hk|apply bio_step_bufs|..].
    + exact (disk_ok_ext k k' eq_refl eq_refl (env_disk _ _ Henv)).
    + cbn. by rewrite length_alter.
    + done.
    + intros j. specialize (Hc j). injection Hc as ? ? ? _. split_and!; [done..| |];
        unfold nx, pv; rewrite Hbuf; destruct (decide (j = i)) as [->|]; try done; apply Hf.
    + intros j Hj. destruct (bi_ref _ _ _ _ Hk j Hj) as [Hp Hr]. rewrite Hbuf.
      destruct (decide (j = i)) as [->|]; [|done]. split; [done|].
      rewrite Href, Hr. by rewrite Z.add_assoc.
    + intros j Hj. rewrite Hbuf. by rewrite !decide_False by (intros ->; done).
    + intros j Hj. specialize (Hc j). injection Hc as _ _ _ ->. by apply (bi_data _ _ _ _ Hk).
    + apply (bi_blocks _ _ _ _ Hk).
    + done.
Qed.

Lemma bpin_spec p held pins k i : bio_inv p held pins k -> i ∈ held -> pins i + 1 < 2 ^ 31 ->
  exists k', bpin i k = Ret tt k' /\
    bio_inv p held (fun j => if decide (j = i) then pins i + 1 else pins j) k' /\ bio_step k k' /\
    k_disk k' = k_disk k /\ k_dwrites k' = k_dwrites k /\
    (forall j, core (buf_at j k') = core (buf_at j k)) /\ (forall b, view k' b = view k b).
Proof.
  intros Hk Hi Hn. destruct (bi_held _ _ _ _ Hk i Hi) as [Hlt _].
  destruct (bi_ref _ _ _ _ Hk i Hlt) as [Hp Hr]. rewrite decide_True in Hr by done.
  destruct (repin_spec p held pins k i inc_ref 1 Hk Hi) as (H1 & H2 & H3 & H4 & H5);
    [done|cbn; rewrite u32_small; lia|lia|].
  eexists. split; [exact H1|]. split_and!; done.
Qed.

Lemma bunpin_spec p held pins k i : bio_inv p held pins k -> i ∈ held -> 0 < pins i ->
  exists k', bunpin i k = Ret tt k' /\
    bio_inv p held (fun j => if decide (j = i) then pins i - 1 else pins j) k' /\ bio_step k k' /\
    k_disk k' = k_disk k /\ k_dwrites k' = k_dwrites k /\
    (forall j, core (buf_at j k') = core (buf_at j k)) /\ (forall b, view k' b = view k b).
Proof.
  intros Hk Hi Hn. destruct (bi_held _ _ _ _ Hk i Hi) as [Hlt _].
  destruct (bi_ref _ _ _ _ Hk i Hlt) as [Hp Hr]. rewrite decide_True in Hr by done.
  destruct (repin_spec p held pins k i dec_ref (-1) Hk Hi) as (H1 & H2 & H3 & H4 & H5);
    [done|cbn; rewrite u32_small; lia|lia|].
  eexists. split; [exact H1|]. split_and!; done.
Qed.

End specs.

(** ** binit() *)

Definition sleep_inited (i : nat) (k : kstate) : kstate :=
  set_k_slocks (<[SBuf i := mkSleeplock 0 "buffer" 0]> (k_slocks k))
    (set_k_locks (<[LSleep (SBuf i) := mkSpinlock 0 "sleep lock" None]> (k_locks k)) k).

Lemma binit_slot_run i k : binit_slot i k = Ret tt (sleep_inited i (link_front i k)).
Proof.
  unfold binit_slot, upd_buf, initsleeplock, initlock, put_lk, put_sk, gets, modify, bind.
  by destruct k.
Qed.

(** After the first [n] iterations; [k0] is the state before the loop. *)
Record binit_inv (n : nat) (k0 k : kstate) : Prop := {
  bn_len : length (k_bufs k) = S HEAD;
  bn_lru : dll (nx k) (pv k) HEAD (reverse (seq 0 n)) HEAD;
  bn_core : forall j, core (buf_at j k) = core (buf_at j k0) /\
    b_refcnt (buf_at j k) = b_refcnt (buf_at j k0);
  bn_locks : forall i, (i < n)%nat -> lock_free k (LSleep (SBuf i)) /\
    sk_locked (sk_of (SBuf i) k) = 0;
  bn_other : forall l, (forall i, l <> LSleep (SBuf i)) -> k_locks k !! l = k_locks k0 !! l;
  bn_frame : exists bs sl lk, k = set_k_slocks sl (set_k_locks lk (set_k_bufs bs k0)) }.

Lemma binit_step n k0 k : binit_inv n k0 k -> (n < HEAD)%nat ->
  binit_inv (S n) k0 (sleep_inited n (link_front n k)).
Proof.
  intros [Hlen Hl Hc Hs Ho Hf] Hn.
  destruct (link_front_ok n k (reverse (seq 0 n))) as [(R1 & R2 & bs & R3) R4]; try done.
  - intros Hin%elem_of_reverse%elem_of_seq. lia.
  - rewrite reverse_Permutation. apply NoDup_seq.
  - intros j Hin%elem_of_reverse%elem_of_seq. lia.
  - split.
    + exact (eq_trans R1 Hlen).
    + rewrite seq_S, reverse_snoc. exact R4.
    + intros j. destruct (Hc j) as [<- <-]. apply R2.
    + intros i Hi. unfold lock_free, sk_of, sleep_inited. cbn. rewrite R3. cbn.
      destruct (decide (i = n)) as [->|Hne].
      * rewrite !lookup_insert_eq. split; [by eexists|done].
      * rewrite !lookup_insert_ne by congruence. apply Hs. lia.
    + intros l Hl'. cbn. rewrite R3. cbn. rewrite lookup_insert_ne by (symmetry; apply Hl'). by apply Ho.
    + destruct Hf as (bs' & sl & lk & ->). unfold sleep_inited. rewrite R3. by do 3 eexists.
Qed.

Lemma binit_loop n k0 k : binit_inv 0 k0 k -> (n <= HEAD)%nat ->
  exists k', for_each (seq 0 n) binit_slot k = Ret tt k' /\ binit_inv n k0 k'.
Proof.
  intros Hk. induction n as [|n IH]; intros Hn; [by exists k|].
  destruct IH as (k' & Hrun & Hinv); [lia|]. rewrite seq_S, for_each_app.
  erewrite bind_ret_run by done. cbn [for_each Nat.add]. 
  exists (sleep_inited n (link_front n k')). split; [|by apply binit_step].
  by erewrite bind_ret_run by apply binit_slot_run.
Qed.

(** The zeroed buffer cache, and what every block of the disk looks like. *)
Definition bcache_zero (k : kstate) : Prop :=
  k_bufs k = replicate (S HEAD) zero_buf /\ forall b, block_ok (block_of (k_disk k) b).

Lemma zero_block_ok : block_ok zero_block.
Proof.
  unfold zero_block. split; [by rewrite length_replicate|]. apply Forall_replicate. split; [done|reflexivity].
Qed.

Lemma buf_at_zero k i : k_bufs k = replicate (S HEAD) zero_buf -> buf_at i k = zero_buf.
Proof.
  intros Hz. unfold buf_at. rewrite Hz.
  destruct (replicate (S HEAD) zero_buf !! i) as [x|] eqn:E; [|done].
  by apply lookup_replicate in E as [-> _].
Qed.

#[local] Opaque zero_block.

Section binit_facts.
Context `{Disk}.

(** A cache with nothing held, pinned or valid. *)
Lemma empty_cache_inv D p k : env_ok p k -> length (k_bufs k) = S HEAD ->
  (exists l, dll (nx k) (pv k) HEAD l HEAD /\ l ≡ₚ seq 0 HEAD) ->
  (forall i, core (buf_at i k) = (0, 0, 0, zero_block) /\ b_refcnt (buf_at i k) = 0) ->
  (forall i, (i < HEAD)%nat -> sk_locked (sk_of (SBuf i) k) = 0) ->
  (forall b, block_ok (block_of (k_disk k) b)) -> D <> 0 -> bio_inv D p ∅ (fun _ => 0) k.
Proof.
  intros He Hlen Hlru Hc Hs Hb HD.
  assert (forall i, b_valid (buf_at i k) = 0 /\ b_dev (buf_at i k) = 0 /\ b_blockno (buf_at i k) = 0
    /\ b_data (buf_at i k) = zero_block) as Hz by (intros i; destruct (Hc i) as [E _]; injection E; auto).
  split; [exact He|exact Hlen|exact Hlru| | | | | | | | |exact Hb|].
  - intros i j _ _ Hi. destruct (Hz i) as (_ & E & _). congruence.
  - intros i Hi. split; [lia|]. destruct (Hc i) as [_ ->]. by rewrite decide_False.
  - set_solver.
  - intros i Hi _. by apply Hs.
  - intros i Hi [?|Hn]; [set_solver|by destruct Hn].
  - intros i Hi Hv. destruct (Hz i) as (E & _). congruence.
  - intros i Hi. destruct (Hz i) as (_ & _ & _ & ->). apply zero_block_ok.
  - intros i Hi. destruct (Hz i) as (_ & _ & -> & _). lia.
  - intros i Hi _ _ Hv. destruct (Hz i) as (E & _). congruence.
Qed.

Lemma boot_env p k k' bs sl lk : k' = set_k_slocks sl (set_k_locks lk (set_k_bufs bs k)) ->
  thread_ok p k -> running p k -> disk_ok k' -> lock_free k' LBcache ->
  (forall i, lk !! LProc i = k_locks k !! LProc i) ->
  (forall i, (i < HEAD)%nat -> lock_free k' (LSleep (SBuf i))) -> env_ok p k'.
Proof.
  intros Hk' [H1 H2 H3 H4 H5 H6] Hr Hdk Hl Ho Hs. split; [|by rewrite Hk'|done..].
  rewrite Hk'. split; try done. intros i Hi. destruct (H6 i Hi) as [nm Hnm]. exists nm.
  rewrite <- Hnm. apply Ho.
Qed.

Lemma binit_run k : bcache_zero k -> exists k', binit k = Ret tt k' /\
  (forall D p, D <> 0 -> thread_ok p k -> running p k -> disk_ok k' -> bio_inv D p ∅ (fun _ => 0) k') /\
  (exists bs sl lk, k' = set_k_slocks sl (set_k_locks lk (set_k_bufs bs k))) /\
  (forall l, l <> LBcache -> (forall i, l <> LSleep (SBuf i)) -> k_locks k' !! l = k_locks k !! l) /\
  (forall i, core (buf_at i k') = (0, 0, 0, zero_block)).
Proof.
  intros [Hz Hblk]. unfold binit, initlock, put_lk, modify. unfold bind at 1.
  set (k1 := set_k_locks _ k). unfold upd_buf at 1. unfold modify at 1. unfold bind at 1.
  unfold upd_buf at 1. unfold modify at 1. unfold bind at 1.
  set (k2 := with_next HEAD HEAD (with_prev HEAD HEAD k1)).
  lazymatch goal with |- context [for_each _ _ ?st] => change st with k2 end.
  assert (length (k_bufs k1) = S HEAD) as Hlen by (cbn; by rewrite Hz, length_replicate).
  destruct (with_prev_links HEAD HEAD k1) as [R1 L1]; [lia|].
  destruct (with_next_links HEAD HEAD (with_prev HEAD HEAD k1)) as [R2 L2];
    [destruct R1 as [-> _]; lia|].
  pose proof (relinked_trans _ _ _ R1 R2) as (R3 & R4 & bs0 & R5).
  fold k2 in L2, R3, R4, R5.
  assert (nx k2 HEAD = HEAD /\ pv k2 HEAD = HEAD) as Hd0
    by (rewrite (proj1 (L2 HEAD)), fupd_eq, (proj2 (L2 HEAD)), (proj2 (L1 HEAD)), fupd_eq; done).
  assert (k2 = set_k_slocks (k_slocks k) (set_k_locks (<[LBcache := mkSpinlock 0 "bcache" None]> (k_locks k))
    (set_k_bufs bs0 k))) as Hk2 by (rewrite R5; subst k1; by destruct k).
  assert (forall j, core (buf_at j k2) = (0, 0, 0, zero_block) /\ b_refcnt (buf_at j k2) = 0) as Hc2.
  { intros j. destruct (R4 j) as [-> ->]. rewrite (buf_at_zero k1 j Hz). exact (conj eq_refl eq_refl). }
  pose proof (eq_trans R3 Hlen) as Hlen2.
  clear L1 L2 R1 R2 R3 R4 R5 Hlen. clearbody k2. clear k1.
  destruct (binit_loop HEAD k2 k2) as (k' & Hrun & [Hl Hd Hc Hs Ho Hf]).
  { split; [exact Hlen2|exact Hd0|done| |done|].
    - intros i Hi. lia.
    - exists (k_bufs k2), (k_slocks k2), (k_locks k2). by destruct k2. }
  { done. }
  destruct Hf as (bs & sl & lk & Hf).
  assert (k' = set_k_slocks sl (set_k_locks lk (set_k_bufs bs k))) as Hk' by (rewrite Hf, Hk2; by destruct k).
  assert (forall l, l <> LBcache -> (forall i, l <> LSleep (SBuf i)) -> k_locks k' !! l = k_locks k !! l) as Hoth.
  { intros l Hl1 Hl2. rewrite Ho, Hk2 by done. cbn. by rewrite lookup_insert_ne. }
  assert (lock_free k' LBcache) as HlB.
  { exists "bcache"%string. rewrite Ho, Hk2 by done. cbn. by rewrite lookup_insert_eq. }
  assert (forall j, core (buf_at j k') = (0, 0, 0, zero_block) /\ b_refcnt (buf_at j k') = 0) as Hcz.
  { intros j. destruct (Hc j) as [-> ->]. apply Hc2. }
  exists k'. split_and!; [exact Hrun| |by exists bs, sl, lk|exact Hoth|intros i; apply Hcz].
  intros D p HD Hth Hr Hdk. apply empty_cache_inv; [|exact Hl| |exact Hcz| | |exact HD].
  - apply (boot_env p k k' bs sl lk Hk' Hth Hr Hdk HlB).
    + intros i. rewrite <- (Hoth (LProc i)) by done. by rewrite Hk'.
    + intros i Hi. by apply Hs.
  - eexists. split; [exact Hd|]. by rewrite reverse_Permutation.
  - intros i Hi. by apply Hs.
  - rewrite Hk'. exact Hblk.
Qed.
End binit_facts.

(** ** Properties *)

Section properties.
Context `{Disk}.

(** [binit_spec]: from the zeroed cache, binit() returns with every buffer on
    the doubly linked LRU list exactly once, unlocked, with no reference and no valid
    contents: the invariant of the cache holds for every thread that may then use it. *)
Theorem binit_spec k : bcache_zero k -> exists k', binit k = Ret tt k' /\
  forall D p, D <> 0 -> thread_ok p k -> running p k -> disk_ok k' -> bio_inv D p ∅ (fun _ => 0) k'.
Proof. intros Hz. destruct (binit_run k Hz) as (k' & H1 & H2 & _). exists k'. exact (conj H1 H2). Qed.

(** C4 (bread_coherent): bread() returns, locked by the caller, a buffer for the
    block that holds the block's current contents: what the cache holds if it is cached
    (even if a different, older version is on disk), the disk's contents otherwise.
    What any block reads as is unchanged, held and pinned buffers are not recycled, and
    the cache stays well formed: no block is ever in two buffers. *)
Theorem bread_coherent D p held pins k b : bio_inv D p held pins k -> servable D held pins k b ->
  0 <= b < 2 ^ 31 ->
  exists i k', bread D b k = Ret i k' /\ i ∉ held /\ bio_inv D p ({[i]} ∪ held) pins k' /\
    b_blockno (buf_at i k') = b /\ b_data (buf_at i k') = view D k b /\
    (forall b', view D k' b' = view D k b') /\ k_disk k' = k_disk k /\ k_dwrites k' = k_dwrites k /\
    (forall j, j ∈ held \/ pins j <> 0 -> core (buf_at j k') = core (buf_at j k)).
Proof.
  intros Hk Hs Hb. destruct (bread_spec D p held pins k b Hk Hs Hb)
    as (i & k' & H1 & H2 & H3 & H4 & H5 & H6 & H7 & H8 & H9 & H10 & H11 & H12).
  exists i, k'. split_and!; try done. intros j Hj. destruct (decide (j = i)) as [->|].
  - apply H12. by destruct Hj.
  - by rewrite H11.
Qed.

(** [bget_exhausted]: when the block is not cached and every buffer is in use,
    bget() panics instead of recycling a buffer somebody still refers to. *)
Theorem bget_exhausted D p held pins k b : bio_inv D p held pins k ->
  (forall i, (i < HEAD)%nat -> b_dev (buf_at i k) = D -> b_blockno (buf_at i k) <> b) ->
  (forall i, (i < HEAD)%nat -> i ∈ held \/ pins i <> 0) ->
  bread D b k = Panic "bget: no buffers".
Proof.
  intros Hk Hmiss Hall. destruct (lru_props D p held pins k Hk) as (l & Hl & Hp & Hh & Hnd & Hlen & Hin).
  pose proof (bi_env _ _ _ _ _ Hk) as [Hth Hr Hdk Hlk Hs].
  unfold bread. apply bind_panic_run. unfold bget.
  erewrite bind_ret_run by exact (acquire_run LBcache k Hlk).
  unfold gets at 1. unfold bind at 1.
  erewrite bind_ret_run.
  2: { rewrite <- Hlen at 1. exact (cached_scan D b (enter LBcache k) HEAD l Hl Hh). }
  destruct (find _ l) as [j|] eqn:Ec.
  { exfalso. apply find_some in Ec as [H1 H2]. apply list_elem_of_In, Hin in H1.
    apply andb_true_iff in H2 as [H2 H3]. apply Z.eqb_eq in H2, H3. by apply (Hmiss j). }
  unfold gets at 1. unfold bind at 1.
  erewrite bind_ret_run.
  2: { rewrite <- Hlen at 1. exact (lru_scan (enter LBcache k) l HEAD Hl Hh). }
  destruct (find _ (reverse l)) as [j|] eqn:Er; [|done].
  exfalso. apply find_some in Er as [H1 H2]. apply list_elem_of_In, elem_of_reverse, Hin in H1.
  apply Z.eqb_eq in H2. change (buf_at j (enter LBcache k)) with (buf_at j k) in H2.
  destruct (bi_ref _ _ _ _ _ Hk j H1) as [Hpj Hrj], (Hall j H1) as [Hj|Hj].
  - rewrite decide_True in Hrj by done. lia.
  - destruct (decide (j ∈ held)); lia.
Qed.
End properties.

(** ** A disk that completes at once, and a booted kernel on it *)

#[global] Program Instance ram_disk : Disk := {|
  virtio_disk_rw b w := modify (disk_done b w);
  disk_ok _ := True |}.
Next Obligation. done. Qed.
Next Obligation.
  intros p b w k Hth _ _ _ _ _. exists (k_vdisk k), (k_procs k).
  split_and!; [|apply woken_refl|done]. unfold modify. f_equal. unfold disk_done.
  by destruct (truth w), k.
Qed.

Lemma booted_bcache : bcache_zero booted.
Proof.
  split; [vm_compute; reflexivity|]. intros b.
  replace (k_disk booted) with (∅ : gmap Z (list Z)) by (vm_compute; reflexivity).
  apply zero_block_ok.
Qed.

Lemma booted_running : running 3 booted.
Proof. split; vm_compute; reflexivity. Qed.

Definition with_bcache : kstate := final_state (binit booted).

Lemma with_bcache_run : binit booted = Ret tt with_bcache.
Proof.
  unfold with_bcache. destruct (binit_run booted booted_bcache) as (k' & -> & _). reflexivity.
Qed.

Lemma with_bcache_inv : bio_inv ROOTDEV 3 ∅ (fun _ => 0) with_bcache.
Proof.
  destruct (binit_run booted booted_bcache) as (k' & Hrun & Hinv & _).
  assert (with_bcache = k') as -> by exact (f_equal final_state Hrun).
  apply Hinv; [discriminate|exact booted_thread|exact booted_running|exact I].
Qed.

#[global] Opaque with_bcache.

Lemma binit_spec_witness : exists k', binit zero_state = Ret tt k'.
Proof.
  destruct (binit_spec zero_state) as (k' & H & _).
  - split; [reflexivity|]. intros b. exact zero_block_ok.
  - exists k'. exact H.
Defined.

Lemma bread_coherent_witness : exists i k', bread ROOTDEV 33 with_bcache = Ret i k' /\
  b_data (buf_at i k') = view ROOTDEV with_bcache 33.
Proof.
  destruct (bread_coherent ROOTDEV 3 ∅ (fun _ => 0) with_bcache 33 with_bcache_inv)
    as (i & k' & H1 & _ & _ & _ & H2 & _).
  - split; [intros i Hi; inversion Hi|]. right. exists 0%nat.
    split; [unfold HEAD, NBUF, MAXOPBLOCKS; lia|]. split; [intros Hi; inversion Hi|reflexivity].
  - lia.
  - exists i, k'. exact (conj H1 H2).
Defined.

(** Every buffer pinned by a different block. *)
Definition pin_all (k : kstate) : kstate :=
  set_k_bufs (imap (fun i x => if (i <? HEAD)%nat then
    set_b_valid 1 (set_b_dev ROOTDEV (set_b_blockno (Z.of_nat i) (set_b_refcnt 1 x))) else x)
    (k_bufs k)) k.

Lemma pin_all_inv k : bio_inv ROOTDEV 3 ∅ (fun _ => 0) k -> bio_inv ROOTDEV 3 ∅ (fun _ => 1) (pin_all k).
Proof.
  intros Hk. pose proof (bi_len _ _ _ _ _ Hk) as Hlen.
  assert (forall i, buf_at i (pin_all k) = if (i <? HEAD)%nat then
    set_b_valid 1 (set_b_dev ROOTDEV (set_b_blockno (Z.of_nat i) (set_b_refcnt 1 (buf_at i k))))
    else buf_at i k) as Hb.
  { intros i. unfold buf_at, pin_all. cbn [k_bufs set_k_bufs]. rewrite list_lookup_imap.
    destruct (k_bufs k !! i) as [x|] eqn:E; [cbn [fmap option_fmap option_map]; by destruct (i <? HEAD)%nat|].
    apply lookup_ge_None in E. destruct (Nat.ltb_spec i HEAD); [lia|reflexivity]. }
  assert (forall i, (i < HEAD)%nat -> (i <? HEAD)%nat = true) as Hlt by (intros; by apply Nat.ltb_lt).
  split.
  - exact (env_bufs 3 k _ (bi_env _ _ _ _ _ Hk)).
  - cbn. by rewrite length_imap.
  - destruct (bi_lru _ _ _ _ _ Hk) as (l & Hl & Hp). exists l. split; [|exact Hp].
    eapply dll_ext; [..|exact Hl]; intros i _; unfold nx, pv; rewrite Hb;
      by destruct (i <? HEAD)%nat.
  - intros i j Hi Hj _ _. rewrite !Hb, !Hlt by done. cbn. lia.
  - intros i Hi. rewrite Hb, Hlt by done. split; [lia|]. by rewrite decide_False.
  - set_solver.
  - intros i Hi _. by apply (bi_unheld _ _ _ _ _ Hk).
  - intros i Hi _. rewrite Hb, Hlt by done. done.
  - intros i Hi _. by rewrite Hb, Hlt by done.
  - intros i Hi. rewrite Hb, Hlt by done. by apply (bi_data _ _ _ _ _ Hk).
  - intros i Hi. rewrite Hb, Hlt by done. cbn. unfold HEAD, NBUF, MAXOPBLOCKS in Hi. lia.
  - exact (bi_blocks _ _ _ _ _ Hk).
  - intros i Hi _ H1. discriminate H1.
Qed.

Lemma bget_exhausted_witness : bread ROOTDEV 100 (pin_all with_bcache) = Panic "bget: no buffers".
Proof.
  apply (bget_exhausted ROOTDEV 3 ∅ (fun _ => 1) (pin_all with_bcache) 100
    (pin_all_inv with_bcache with_bcache_inv)).
  - intros i Hi _. unfold buf_at, pin_all. cbn [k_bufs set_k_bufs]. rewrite list_lookup_imap.
    apply Nat.ltb_lt in Hi as Hi'. rewrite Hi'. unfold HEAD, NBUF, MAXOPBLOCKS in Hi.
    destruct (k_bufs with_bcache !! i) as [x|]; cbn; lia.
  - intros i Hi. right. discriminate.
Defined.
