(* ===== verification/Log.v ===== *)
(** * Log: the redo log (kernel/log.c)

    begin_op() .. end_op() brackets a file-system call; log_write() records a
    modified block and pins it; the last end_op() commits: the modified blocks go
    to the log area, the header block makes the transaction durable, then the
    blocks are installed at their home locations and the header is cleared.
    recover_from_log() runs at boot.  The file shows what each step writes to the
    disk, in order, and from it that a crash between any two disk writes leaves
    a disk from which recovery restores all of the transaction or none of it. *)

From Stdlib Require Import ZArith Lia.
From stdpp Require Import base gmap list strings.
From S2P Require Import Prelude Bytes State Spinlock Sched Sleeplock Bio.

Definition upd_log (f : logstate -> logstate) : K unit :=
  modify (fun k => set_k_log (f (k_log k)) k).

(** log.lh.block[i] *)
Definition lg_at (lg : logstate) (i : nat) : Z := default 0 (lg_block lg !! i).

(** The on-disk header block: n, then block[]. *)
Definition hdr_n (d : list Z) : Z := i32 (rd 4 d 0).
Definition hdr_block (d : list Z) (i : nat) : Z := i32 (rd 4 d (4 + 4 * i)).

Definition sizeof_logheader : Z := 4 + 4 * LOGSIZE.

Section log.
Context `{Disk}.

Definition install_one (recovering : Z) (tail : nat) : K unit :=
  let! lg := gets k_log in
  let! lbuf := bread (u32 (lg_dev lg)) (u32 (lg_start lg + Z.of_nat tail + 1)) in
  let! dbuf := bread (u32 (lg_dev lg)) (u32 (lg_at lg tail)) in
  let! x := gets (buf_at lbuf) in
  do! upd_buf dbuf (set_b_data (b_data x));
  do! bwrite dbuf;
  do! (if recovering =? 0 then bunpin dbuf else ret tt);
  do! brelse lbuf;
  brelse dbuf.

Definition install_trans (recovering : Z) : K unit :=
  let! lg := gets k_log in
  for_each (seq 0 (Z.to_nat (lg_n lg))) (install_one recovering).

(** An access outside an array. *)
Definition out_of_bounds {A} : K A := panic "out of bounds".

Definition read_head_block (data : list Z) (i : nat) : K unit :=
  if LOGSIZE <=? Z.of_nat i then out_of_bounds else
  upd_log (fun lg => set_lg_block (<[i := hdr_block data i]> (lg_block lg)) lg).

Definition read_head : K unit :=
  let! lg := gets k_log in
  let! b := bread (u32 (lg_dev lg)) (u32 (lg_start lg)) in
  let! x := gets (buf_at b) in
  do! upd_log (set_lg_n (hdr_n (b_data x)));
  let! lg := gets k_log in
  do! for_each (seq 0 (Z.to_nat (lg_n lg))) (read_head_block (b_data x));
  brelse b.

Definition write_head_block (b i : nat) : K unit :=
  let! lg := gets k_log in
  upd_buf b (fun x => set_b_data (wr 4 (b_data x) (4 + 4 * i) (lg_at lg i)) x).

Definition write_head : K unit :=
  let! lg := gets k_log in
  let! b := bread (u32 (lg_dev lg)) (u32 (lg_start lg)) in
  do! upd_buf b (fun x => set_b_data (wr 4 (b_data x) 0 (lg_n lg)) x);
  do! for_each (seq 0 (Z.to_nat (lg_n lg))) (write_head_block b);
  do! bwrite b;
  brelse b.

Definition recover_from_log : K unit :=
  do! read_head;
  do! install_trans 1;
  do! upd_log (set_lg_n 0);
  write_head.

Definition initlog (dev : Z) (sb : superblock) : K unit :=
  if BSIZE <=? sizeof_logheader then panic "initlog: too big logheader" else
  do! initlock LLog "log";
  do! upd_log (set_lg_start (i32 (sb_logstart sb)));
  do! upd_log (set_lg_size (i32 (sb_nlog sb)));
  do! upd_log (set_lg_dev dev);
  recover_from_log.

(** The body of begin_op()'s loop, with log.lock held; a thread that sleeps here
    runs it again when it wakes. *)
Definition begin_op_loop : K unit :=
  let! lg := gets k_log in
  if truth (lg_committing lg) then sleep ChLog LLog
  else if LOGSIZE <? lg_n lg + (lg_outstanding lg + 1) * MAXOPBLOCKS then sleep ChLog LLog
  else
    do! upd_log (set_lg_outstanding (lg_outstanding lg + 1));
    release LLog.

Definition begin_op : K unit :=
  do! acquire LLog;
  begin_op_loop.

Definition write_log_one (tail : nat) : K unit :=
  let! lg := gets k_log in
  let! to := bread (u32 (lg_dev lg)) (u32 (lg_start lg + Z.of_nat tail + 1)) in
  let! from := bread (u32 (lg_dev lg)) (u32 (lg_at lg tail)) in
  let! x := gets (buf_at from) in
  do! upd_buf to (set_b_data (b_data x));
  do! bwrite to;
  do! brelse from;
  brelse to.

Definition write_log : K unit :=
  let! lg := gets k_log in
  for_each (seq 0 (Z.to_nat (lg_n lg))) write_log_one.

Definition commit : K unit :=
  let! lg := gets k_log in
  if 0 <? lg_n lg then
    do! write_log;
    do! write_head;
    do! install_trans 0;
    do! upd_log (set_lg_n 0);
    write_head
  else ret tt.

Definition end_op : K unit :=
  do! acquire LLog;
  do! upd_log (fun lg => set_lg_outstanding (lg_outstanding lg - 1) lg);
  let! lg := gets k_log in
  if truth (lg_committing lg) then panic "log.committing" else
  let! do_commit :=
    if lg_outstanding lg =? 0 then
      do! upd_log (set_lg_committing 1);
      ret 1
    else
      do! wakeup ChLog;
      ret 0 in
  do! release LLog;
  if truth do_commit then
    do! commit;
    do! acquire LLog;
    do! upd_log (set_lg_committing 0);
    do! wakeup ChLog;
    release LLog
  else ret tt.

(** for(i = 0; i < log.lh.n; i++) if(log.lh.block[i] == b->blockno) break; *)
Fixpoint absorb_index (lg : logstate) (blockno : Z) (i n : nat) : nat :=
  match n with
  | O => i
  | S n' => if u32 (lg_at lg i) =? blockno then i else absorb_index lg blockno (S i) n'
  end.

Definition log_write (b : nat) : K unit :=
  do! acquire LLog;
  let! lg := gets k_log in
  if (LOGSIZE <=? lg_n lg) || (lg_size lg - 1 <=? lg_n lg) then panic "too big a transaction" else
  if lg_outstanding lg <? 1 then panic "log_write outside of trans" else
  let! x := gets (buf_at b) in
  let i := absorb_index lg (b_blockno x) 0 (Z.to_nat (lg_n lg)) in
  do! upd_log (fun lg => set_lg_block (<[i := i32 (b_blockno x)]> (lg_block lg)) lg);
  do! (if (i =? Z.to_nat (lg_n lg))%nat then
         do! bpin b;
         upd_log (fun lg => set_lg_n (lg_n lg + 1) lg)
       else ret tt);
  release LLog.

End log.

(** ** The header block *)

Fixpoint put_blocks (i : nat) (bs : list Z) (d : list Z) : list Z :=
  match bs with
  | [] => d
  | b :: bs' => put_blocks (S i) bs' (wr 4 d (4 + 4 * i) b)
  end.

(** A header block with the given entries; the rest of the block is as in [d]. *)
Definition put_hdr (d : list Z) (bs : list Z) : list Z :=
  put_blocks 0 bs (wr 4 d 0 (Z.of_nat (length bs))).

Definition bno_ok (b : Z) : Prop := 0 <= b < 2 ^ 31.

Lemma hdr_fits n : (n <= Z.to_nat LOGSIZE)%nat -> (4 + 4 * n <= Z.to_nat BSIZE)%nat.
Proof. unfold LOGSIZE, MAXOPBLOCKS, BSIZE. lia. Qed.

Lemma length_put_blocks i bs d : (4 + 4 * (i + length bs) <= length d)%nat ->
  length (put_blocks i bs d) = length d.
Proof.
  revert i d. induction bs as [|b bs IH]; intros i d Hl; [done|]. cbn [put_blocks length] in *.
  rewrite IH; rewrite length_wr; (done || lia).
Qed.

Lemma put_blocks_bytes i bs d : Forall is_byte d -> Forall is_byte (put_blocks i bs d).
Proof. revert i d. induction bs as [|b bs IH]; intros i d Hd; [done|]. apply IH, wr_bytes, Hd. Qed.

Lemma put_blocks_other i bs d m off : (4 + 4 * (i + length bs) <= length d)%nat ->
  (off + m <= 4 + 4 * i)%nat -> rd m (put_blocks i bs d) off = rd m d off.
Proof.
  revert i d. induction bs as [|b bs IH]; intros i d Hl Ho; [done|]. cbn [put_blocks length] in *.
  rewrite IH; [|rewrite length_wr; lia|lia]. apply rd_wr_other; lia.
Qed.

Lemma put_blocks_at i bs d j b : (4 + 4 * (i + length bs) <= length d)%nat ->
  bs !! j = Some b -> bno_ok b -> hdr_block (put_blocks i bs d) (i + j) = b.
Proof.
  revert i d j. induction bs as [|c bs IH]; intros i d j Hl Hj Hb; [done|].
  cbn [put_blocks length] in *. destruct j as [|j].
  - injection Hj as ->. unfold hdr_block. rewrite Nat.add_0_r.
    rewrite put_blocks_other by (rewrite ?length_wr; lia).
    unfold bno_ok in Hb. rewrite rd_wr_same; [|lia..]. apply i32_small. lia.
  - cbn in Hj. replace (i + S j)%nat with (S i + j)%nat by lia. apply IH; [|done..].
    rewrite length_wr; lia.
Qed.

Section header.
Context (d : list Z) (bs : list Z).
Hypothesis Hd : block_ok d.
Hypothesis Hbs : (length bs <= Z.to_nat LOGSIZE)%nat.

Lemma put_hdr_ok : block_ok (put_hdr d bs).
Proof.
  destruct Hd as [Hl Hb]. pose proof (hdr_fits _ Hbs). split.
  - unfold put_hdr. rewrite length_put_blocks; rewrite length_wr; lia.
  - apply put_blocks_bytes, wr_bytes, Hb.
Qed.

Lemma put_hdr_n : hdr_n (put_hdr d bs) = Z.of_nat (length bs).
Proof.
  destruct Hd as [Hl Hb]. pose proof (hdr_fits _ Hbs). unfold hdr_n, put_hdr.
  assert (Z.of_nat (length bs) <= 30) by (unfold LOGSIZE, MAXOPBLOCKS in Hbs; lia).
  rewrite put_blocks_other; [|rewrite length_wr; lia|lia].
  rewrite rd_wr_same by lia. apply i32_small. lia.
Qed.

Lemma put_hdr_block j b : bs !! j = Some b -> bno_ok b -> hdr_block (put_hdr d bs) j = b.
Proof.
  destruct Hd as [Hl Hb]. pose proof (hdr_fits _ Hbs). intros Hj Hbj. unfold put_hdr.
  apply (put_blocks_at 0); [|done..]. rewrite length_wr; lia.
Qed.
End header.

(** ** What each step does *)

Section steps.
Context `{Disk}.
Variables (D start : Z) (p : nat).
Hypothesis D_ok : 0 < D < 2 ^ 31.

#[local] Abbreviation inv := (bio_inv D p).
#[local] Abbreviation vw := (view D).

(** The in-memory log is for this device and starts here. *)
Definition log_at (k : kstate) : Prop := lg_dev (k_log k) = D /\ lg_start (k_log k) = start.

Lemma bio_step_log k k' : bio_step k k' -> k_log k' = k_log k.
Proof. by intros (?&?&?&?&?&?& -> & _). Qed.

Lemma bio_step_lock k k' l : bio_step k k' -> lock_free k l -> lock_free k' l.
Proof. by intros (?&?&?&?&?&?& -> & _). Qed.

Lemma core_eq x y : core x = core y ->
  b_valid x = b_valid y /\ b_dev x = b_dev y /\ b_blockno x = b_blockno y /\ b_data x = b_data y.
Proof. intros E. injection E as E1 E2 E3 E4. done. Qed.

Lemma bio_inv_pins pins pins' held k : (forall i, pins i = pins' i) ->
  inv held pins k -> inv held pins' k.
Proof.
  intros He [H1 H2 H3 H4 H5 H6 H7 H8 H9 H10 H11 H12 H13]. split; try assumption.
  - intros i Hi. rewrite <- He. by apply H5.
  - intros i Hi. rewrite <- He. by apply H8.
  - intros i Hi. rewrite <- He. by apply H13.
Qed.

(** Two buffers read, the second copied over the first, or the first over the
    second, as write_log() and install_trans() do: [a] and [b] are the blocks. *)
Lemma two_breads pins k a b : inv ∅ pins k -> bno_ok a -> bno_ok b -> a <> b ->
  (exists f, (f < HEAD)%nat /\ pins f = 0) ->
  (exists i, (i < HEAD)%nat /\ pins i <> 0 /\ b_blockno (buf_at i k) = b) \/ (forall i, pins i = 0) ->
  exists i j k', (let! x := bread D a in let! y := bread D b in ret (x, y)) k = Ret (i, j) k' /\
    i <> j /\ inv {[i; j]} pins k' /\ bio_step k k' /\
    b_blockno (buf_at i k') = a /\ b_data (buf_at i k') = vw k a /\
    b_blockno (buf_at j k') = b /\ b_data (buf_at j k') = vw k b /\
    (forall b', vw k' b' = vw k b') /\ k_disk k' = k_disk k /\ k_dwrites k' = k_dwrites k /\
    (forall x, pins x <> 0 -> core (buf_at x k') = core (buf_at x k)) /\
    (forall x, (x < HEAD)%nat -> pins x <> 0 -> b_blockno (buf_at x k) = b -> x = j).
Proof.
  intros Hk Ha Hb Hab (f & Hf & Hf0) Hpin.
  destruct (bread_spec D p ∅ pins k a Hk) as (i & k1 & R1 & Hi & _ & I1 & S1 & B1 & D1 & V1 & K1 & W1 & O1 & P1).
  { split; [set_solver|]. right. exists f. split_and!; [done|set_solver|done]. }
  { done. }
  rewrite union_empty_r_L in I1.
  assert (forall x, pins x <> 0 -> core (buf_at x k1) = core (buf_at x k)) as C1.
  { intros x Hx. destruct (decide (x = i)) as [->|Hxi]; [by apply P1|by rewrite O1]. }
  destruct (bread_spec D p {[i]} pins k1 b I1) as (j & k2 & R2 & Hj & Hji & I2 & S2 & B2 & D2 & V2 & K2 & W2 & O2 & P2).
  { split; [intros x ->%elem_of_singleton; congruence|]. destruct Hpin as [(x & Hx & Hpx & Hbx)|Hall].
    - left. exists x. destruct (core_eq _ _ (C1 x Hpx)) as (Ev & Ed & Eb & _).
      assert (b_blockno (buf_at x k1) = b) by congruence. split_and!; try done.
      + intros ->%elem_of_singleton. congruence.
      + rewrite Ed. apply (bi_dev _ _ _ _ _ Hk); [done|]. apply (bi_used _ _ _ _ _ Hk); auto.
    - right. assert (exists x, (x < HEAD)%nat /\ x <> i) as (x & Hx & Hxi).
      { destruct (decide (i = 0%nat)) as [->|]; [exists 1%nat|exists 0%nat];
          unfold HEAD, NBUF, MAXOPBLOCKS; split; lia. }
      exists x. split_and!; [done|set_solver|done]. }
  { done. }
  assert (j <> i) as Hne by set_solver.
  assert (forall x, pins x <> 0 -> core (buf_at x k2) = core (buf_at x k)) as C2.
  { intros x Hx. rewrite <- (C1 x Hx). destruct (decide (x = j)) as [->|Hxj]; [by apply P2|by rewrite O2]. }
  exists i, j, k2. split_and!.
  - erewrite bind_ret_run by exact R1. by erewrite bind_ret_run by exact R2.
  - done.
  - replace ({[i; j]} : gset nat) with ({[j]} ∪ {[i]} : gset nat) by set_solver. done.
  - exact (bio_step_trans _ _ _ S1 S2).
  - by rewrite O2.
  - by rewrite O2.
  - done.
  - by rewrite D2, V1.
  - intros b'. by rewrite V2, V1.
  - by rewrite K2.
  - by rewrite W2.
  - done.
  - intros x Hx Hpx Hbx. destruct (core_eq _ _ (C2 x Hpx)) as (Ev & Ed & Eb & _).
    assert (j ∈ ({[j]} ∪ {[i]} : gset nat)) as Hjin by set_solver.
    assert (b_valid (buf_at j k2) <> 0) by (apply (bi_used _ _ _ _ _ I2); auto).
    assert (b_valid (buf_at x k2) <> 0) by (apply (bi_used _ _ _ _ _ I2); auto).
    apply (bi_uniq _ _ _ _ _ I2); [done..|by apply (bi_dev _ _ _ _ _ I2)|by apply (bi_dev _ _ _ _ _ I2)|].
    congruence.
Qed.

(** Storing into a held buffer and writing it out. *)
Lemma store_bwrite held pins k i d : inv held pins k -> i ∈ held -> block_ok d ->
  exists k', (do! upd_buf i (set_b_data d); bwrite i) k = Ret tt k' /\ inv held pins k' /\
    bio_step k k' /\ k_disk k' = <[b_blockno (buf_at i k) := d]> (k_disk k) /\
    k_dwrites k' = k_dwrites k ++ [(b_blockno (buf_at i k), d)] /\
    (forall b, vw k' b = if decide (b = b_blockno (buf_at i k)) then d else vw k b) /\
    b_data (buf_at i k') = d /\ b_blockno (buf_at i k') = b_blockno (buf_at i k) /\
    (forall j, j <> i -> core (buf_at j k') = core (buf_at j k)).
Proof.
  intros Hk Hi Hd. destruct (bi_held _ _ _ _ _ Hk i Hi) as [Hlt _].
  pose proof (bi_len _ _ _ _ _ Hk) as Hlen.
  destruct (set_data_spec D p held pins k i d Hk Hi Hd) as (I1 & S1 & V1).
  set (k1 := set_k_bufs (alter (set_b_data d) i (k_bufs k)) k) in *.
  assert (forall j, buf_at j k1 = if decide (j = i) then set_b_data d (buf_at i k) else buf_at j k)
    as Hbuf by (intros j; apply set_data_buf; lia).
  assert (b_blockno (buf_at i k1) = b_blockno (buf_at i k) /\ b_data (buf_at i k1) = d) as [Eb Ed]
    by (rewrite Hbuf, decide_True; done).
  destruct (bwrite_spec D p held pins k1 i I1 Hi) as (k2 & R2 & I2 & S2 & K2 & W2 & C2 & V2).
  exists k2. rewrite Eb, Ed in *. destruct (core_eq _ _ (C2 i)) as (_ & _ & Eb2 & Ed2). split_and!.
  - unfold upd_buf, modify, bind. exact R2.
  - done.
  - exact (bio_step_trans _ _ _ S1 S2).
  - done.
  - done.
  - intros b. by rewrite V2, V1.
  - congruence.
  - congruence.
  - intros j Hj. rewrite C2, Hbuf. by rewrite decide_False.
Qed.

(** One iteration of write_log(): the block's contents go to its log block. *)
Lemma write_log_step pins k t b : inv ∅ pins k -> log_at k -> lg_at (k_log k) t = b ->
  bno_ok (start + Z.of_nat t + 1) -> bno_ok b -> start + Z.of_nat t + 1 <> b ->
  (exists f, (f < HEAD)%nat /\ pins f = 0) ->
  (exists i, (i < HEAD)%nat /\ pins i <> 0 /\ b_blockno (buf_at i k) = b) ->
  let a := start + Z.of_nat t + 1 in
  exists k', write_log_one t k = Ret tt k' /\ inv ∅ pins k' /\ bio_step k k' /\
    k_disk k' = <[a := vw k b]> (k_disk k) /\ k_dwrites k' = k_dwrites k ++ [(a, vw k b)] /\
    (forall b', vw k' b' = if decide (b' = a) then vw k b else vw k b') /\
    (forall x, pins x <> 0 -> b_blockno (buf_at x k') = b_blockno (buf_at x k)).
Proof.
  intros Hk [HD HS] Hb Ha Hbok Hab Hfree Hpin a.
  destruct (two_breads pins k a b Hk Ha Hbok Hab Hfree (or_introl Hpin))
    as (i & j & k1 & R1 & Hij & I1 & S1 & Bi & Di & Bj & Dj & V1 & K1 & W1 & C1 & J1).
  assert (pins j <> 0) as Hpj.
  { destruct Hpin as (x & Hx & Hpx & Hbx). by rewrite <- (J1 x). }
  destruct (store_bwrite {[i; j]} pins k1 i (vw k b) I1) as (k2 & R2 & I2 & S2 & K2 & W2 & V2 & D2 & B2 & C2).
  { set_solver. } { by eapply view_ok. }
  rewrite Bi in *.
  destruct (brelse_spec D p {[i; j]} pins k2 j I2) as (k3 & R3 & I3 & S3 & K3 & W3 & C3 & V3).
  { set_solver. } { by left. }
  replace ({[i; j]} ∖ {[j]} : gset nat) with ({[i]} : gset nat) in I3 by set_solver.
  destruct (core_eq _ _ (C3 i)) as (_ & _ & B3 & D3).
  destruct (brelse_spec D p {[i]} pins k3 i I3) as (k4 & R4 & I4 & S4 & K4 & W4 & C4 & V4).
  { set_solver. }
  { right. rewrite D3, D2, K3, K2, B3, B2. unfold block_of. by rewrite lookup_insert_eq. }
  replace ({[i]} ∖ {[i]} : gset nat) with (∅ : gset nat) in I4 by set_solver.
  exists k4. split_and!.
  - unfold write_log_one. unfold gets at 1. unfold bind at 1. rewrite HD, HS, Hb.
    rewrite !u32_small by (unfold bno_ok in *; lia).
    erewrite bind_pair by exact R1. unfold gets at 1. unfold bind at 1. rewrite Dj.
    erewrite bind_seq2 by exact R2. erewrite bind_ret_run by exact R3. exact R4.
  - exact I4.
  - exact (bio_step_trans _ _ _ (bio_step_trans _ _ _ S1 S2) (bio_step_trans _ _ _ S3 S4)).
  - by rewrite K4, K3, K2, K1.
  - by rewrite W4, W3, W2, W1.
  - intros b'. by rewrite V4, V3, V2, V1.
  - intros x Hx. destruct (core_eq _ _ (C4 x)) as (_ & _ & -> & _), (core_eq _ _ (C3 x)) as (_ & _ & -> & _),
      (core_eq _ _ (C1 x Hx)) as (_ & _ & E1 & _).
    destruct (decide (x = i)) as [->|Hxi]; [by rewrite B2, <- E1|].
    destruct (core_eq _ _ (C2 x Hxi)) as (_ & _ & -> & _). done.
Qed.

(** [pins] after bunpin() of the buffer [j]. *)
Definition unpin (recovering : Z) (j : nat) (pins : nat -> Z) (i : nat) : Z :=
  if recovering =? 0 then (if decide (i = j) then pins j - 1 else pins i) else pins i.

(** One iteration of install_trans(): the log block's contents go home. *)
Lemma install_step rcv pins k t b : inv ∅ pins k -> log_at k -> lg_at (k_log k) t = b ->
  bno_ok (start + Z.of_nat t + 1) -> bno_ok b -> start + Z.of_nat t + 1 <> b ->
  (exists f, (f < HEAD)%nat /\ pins f = 0) ->
  (if rcv =? 0 then exists i, (i < HEAD)%nat /\ 0 < pins i /\ b_blockno (buf_at i k) = b
   else forall i, pins i = 0) ->
  let a := start + Z.of_nat t + 1 in
  exists j k', install_one rcv t k = Ret tt k' /\ inv ∅ (unpin rcv j pins) k' /\ bio_step k k' /\
    k_disk k' = <[b := vw k a]> (k_disk k) /\ k_dwrites k' = k_dwrites k ++ [(b, vw k a)] /\
    (forall b', vw k' b' = if decide (b' = b) then vw k a else vw k b') /\
    (forall x, pins x <> 0 -> b_blockno (buf_at x k') = b_blockno (buf_at x k)) /\
    (forall x, (x < HEAD)%nat -> pins x <> 0 -> b_blockno (buf_at x k) = b -> x = j).
Proof.
  intros Hk [HD HS] Hb Ha Hbok Hab Hfree Hpin a.
  destruct (two_breads pins k a b Hk Ha Hbok Hab Hfree)
    as (i & j & k1 & R1 & Hij & I1 & S1 & Bi & Di & Bj & Dj & V1 & K1 & W1 & C1 & J1).
  { destruct (rcv =? 0); [left|by right]. destruct Hpin as (x & Hx & Hpx & Hbx). exists x.
    split_and!; (done || lia). }
  assert (i ∈ ({[i; j]} : gset nat)) as Hi by set_solver.
  assert (j ∈ ({[i; j]} : gset nat)) as Hj by set_solver.
  destruct (store_bwrite {[i; j]} pins k1 j (vw k a) I1 Hj) as (k2 & R2 & I2 & S2 & K2 & W2 & V2 & D2 & B2 & C2).
  { by eapply view_ok. }
  rewrite Bj in *. destruct (core_eq _ _ (C2 i Hij)) as (_ & _ & B2i & D2i).
  assert (exists k3, (if rcv =? 0 then bunpin j else ret tt) k2 = Ret tt k3 /\
    inv {[i; j]} (unpin rcv j pins) k3 /\ bio_step k2 k3 /\ k_disk k3 = k_disk k2 /\
    k_dwrites k3 = k_dwrites k2 /\ (forall x, core (buf_at x k3) = core (buf_at x k2)) /\
    (forall b', vw k3 b' = vw k2 b')) as (k3 & R3 & I3 & S3 & K3 & W3 & C3 & V3).
  { destruct (rcv =? 0) eqn:E.
    - assert (0 < pins j) as Hpj.
      { destruct Hpin as (x & Hx & Hpx & Hbx). by rewrite <- (J1 x) by (done || lia). }
      destruct (bunpin_spec D p {[i; j]} pins k2 j I2 Hj Hpj) as (k3 & R3 & I3 & S3 & K3 & W3 & C3 & V3).
      exists k3. split_and!; try assumption. eapply bio_inv_pins; [|exact I3].
      intros x. unfold unpin. by rewrite E.
    - exists k2. split_and!; try done; [|apply bio_step_refl]. eapply bio_inv_pins; [|exact I2].
      intros x. unfold unpin. by rewrite E. }
  destruct (core_eq _ _ (C3 i)) as (_ & _ & B3i & D3i), (core_eq _ _ (C3 j)) as (_ & _ & B3j & D3j).
  destruct (brelse_spec D p {[i; j]} _ k3 i I3 Hi) as (k4 & R4 & I4 & S4 & K4 & W4 & C4 & V4).
  { destruct (decide (unpin rcv j pins i = 0)) as [Hp0|]; [right|by left].
    assert (pins i = 0) as Hpi0.
    { revert Hp0. unfold unpin. destruct (rcv =? 0); [|done]. by rewrite decide_False. }
    rewrite D3i, D2i, Di, B3i, B2i, Bi, K3, K2, K1.
    unfold block_of. rewrite lookup_insert_ne by done. fold (block_of (k_disk k) a).
    destruct (view_cases D p ∅ pins k a Hk) as [(x & Hx & Hvx & Hdx & Hbx & ->)|[_ ->]]; [|done].
    rewrite <- Hbx. apply (bi_clean _ _ _ _ _ Hk); [done|set_solver| |done].
    destruct (decide (pins x = 0)) as [|Hpx]; [done|].
    destruct (core_eq _ _ (C1 x Hpx)) as (Evx & Edx & Ebx & _).
    assert (x = i); [|congruence].
    apply (bi_uniq _ _ _ _ _ I1); [done|apply (bi_held _ _ _ _ _ I1); set_solver|congruence| |congruence].
    apply (bi_dev _ _ _ _ _ I1); [apply (bi_held _ _ _ _ _ I1); set_solver|].
    apply (bi_used _ _ _ _ _ I1); [apply (bi_held _ _ _ _ _ I1); set_solver|by left]. }
  replace ({[i; j]} ∖ {[i]} : gset nat) with ({[j]} : gset nat) in I4 by set_solver.
  destruct (core_eq _ _ (C4 j)) as (_ & _ & B4 & D4).
  destruct (brelse_spec D p {[j]} _ k4 j I4) as (k5 & R5 & I5 & S5 & K5 & W5 & C5 & V5).
  { set_solver. }
  { right. rewrite D4, D3j, D2, B4, B3j, B2, K4, K3, K2. unfold block_of. by rewrite lookup_insert_eq. }
  replace ({[j]} ∖ {[j]} : gset nat) with (∅ : gset nat) in I5 by set_solver.
  exists j, k5. split_and!.
  - unfold install_one. unfold gets at 1. unfold bind at 1. rewrite HD, HS, Hb.
    rewrite !u32_small by (unfold bno_ok in *; lia).
    erewrite bind_pair by exact R1. unfold gets at 1. unfold bind at 1. rewrite Di.
    erewrite bind_seq2 by exact R2. erewrite bind_ret_run by exact R3.
    erewrite bind_ret_run by exact R4. exact R5.
  - exact I5.
  - exact (bio_step_trans _ _ _ (bio_step_trans _ _ _ S1 S2)
      (bio_step_trans _ _ _ S3 (bio_step_trans _ _ _ S4 S5))).
  - by rewrite K5, K4, K3, K2, K1.
  - by rewrite W5, W4, W3, W2, W1.
  - intros b'. by rewrite V5, V4, V3, V2, V1.
  - intros x Hx. destruct (core_eq _ _ (C5 x)) as (_ & _ & -> & _), (core_eq _ _ (C4 x)) as (_ & _ & -> & _),
      (core_eq _ _ (C3 x)) as (_ & _ & -> & _), (core_eq _ _ (C1 x Hx)) as (_ & _ & E1 & _).
    destruct (decide (x = j)) as [->|Hxj]; [by rewrite B2, <- E1|].
    destruct (core_eq _ _ (C2 x Hxj)) as (_ & _ & -> & _). done.
  - exact J1.
Qed.

(** The block numbers in the in-memory header. *)
Definition logged (k : kstate) : list Z :=
  lg_at (k_log k) <$> seq 0 (Z.to_nat (lg_n (k_log k))).

Lemma upd_data_ext f b k : (forall x, f x = x) -> set_k_bufs (alter f b (k_bufs k)) k = k.
Proof. intros Hf. rewrite list_alter_id by done. by destruct k. Qed.

Lemma write_head_loop b i m k :
  for_each (seq i m) (write_head_block b) k = Ret tt (set_k_bufs
    (alter (fun x => set_b_data (put_blocks i (lg_at (k_log k) <$> seq i m) (b_data x)) x) b (k_bufs k)) k).
Proof.
  revert i k. induction m as [|m IH]; intros i k; cbn [seq for_each fmap list_fmap put_blocks].
  - rewrite upd_data_ext; [done|]. by intros [].
  - unfold write_head_block at 1, gets, upd_buf, modify, bind. rewrite IH. f_equal.
    unfold set_k_bufs at 1. cbn [k_bufs set_k_bufs k_log]. rewrite list_alter_alter_eq. done.
Qed.

Lemma write_head_spec pins k : inv ∅ pins k -> log_at k -> bno_ok start ->
  (exists f, (f < HEAD)%nat /\ pins f = 0) -> 0 <= lg_n (k_log k) <= LOGSIZE ->
  let h := put_hdr (vw k start) (logged k) in
  exists k', write_head k = Ret tt k' /\ inv ∅ pins k' /\ bio_step k k' /\
    k_disk k' = <[start := h]> (k_disk k) /\ k_dwrites k' = k_dwrites k ++ [(start, h)] /\
    (forall b', vw k' b' = if decide (b' = start) then h else vw k b') /\
    (forall x, pins x <> 0 -> b_blockno (buf_at x k') = b_blockno (buf_at x k)).
Proof.
  intros Hk [HD HS] Hst (f & Hf & Hf0) Hn h.
  assert (length (logged k) <= Z.to_nat LOGSIZE)%nat as Hlen
    by (unfold logged; rewrite length_fmap, length_seq; lia).
  destruct (bread_spec D p ∅ pins k start Hk) as (i & k1 & R1 & Hi & _ & I1 & S1 & B1 & D1 & V1 & K1 & W1 & O1 & P1).
  { split; [set_solver|]. right. exists f. split_and!; [done|set_solver|done]. }
  { done. }
  rewrite union_empty_r_L in I1.
  destruct (store_bwrite {[i]} pins k1 i h I1) as (k2 & R2 & I2 & S2 & K2 & W2 & V2 & D2 & B2 & C2).
  { set_solver. } { apply put_hdr_ok; [by eapply view_ok|done]. }
  rewrite B1 in *.
  destruct (brelse_spec D p {[i]} pins k2 i I2) as (k3 & R3 & I3 & S3 & K3 & W3 & C3 & V3).
  { set_solver. }
  { right. rewrite D2, B2, K2. unfold block_of. by rewrite lookup_insert_eq. }
  replace ({[i]} ∖ {[i]} : gset nat) with (∅ : gset nat) in I3 by set_solver.
  exists k3. split_and!.
  - unfold write_head. unfold gets at 1. unfold bind at 1. rewrite HD, HS.
    rewrite !u32_small by (unfold bno_ok in *; lia).
    erewrite bind_ret_run by exact R1. unfold upd_buf at 1. unfold modify at 1. unfold bind at 1.
    erewrite bind_ret_run by apply write_head_loop.
    cbn [k_log k_bufs set_k_bufs]. rewrite (bio_step_log k k1 S1).
    unfold upd_buf, modify in R2. unfold bind at 1 in R2.
    erewrite bind_ret_run; [exact R3|]. rewrite <- R2. f_equal. unfold set_k_bufs. cbn.
    f_equal. rewrite list_alter_alter_eq. apply list_alter_ext; [|done].
    intros x Hx. unfold set_b_data, compose. cbn. f_equal. unfold h, put_hdr, logged. rewrite length_fmap, length_seq, <- D1.
    unfold buf_at. rewrite Hx. cbn. by rewrite Z2Nat.id by lia.
  - exact I3.
  - exact (bio_step_trans _ _ _ S1 (bio_step_trans _ _ _ S2 S3)).
  - by rewrite K3, K2, K1.
  - by rewrite W3, W2, W1.
  - intros b'. by rewrite V3, V2, V1.
  - intros x Hx. destruct (core_eq _ _ (C3 x)) as (_ & _ & -> & _).
    assert (core (buf_at x k1) = core (buf_at x k)) as E1.
    { destruct (decide (x = i)) as [->|Hxi]; [by apply P1|by rewrite O1]. }
    destruct (core_eq _ _ E1) as (_ & _ & E1b & _).
    destruct (decide (x = i)) as [->|Hxi]; [by rewrite B2, <- E1b|].
    destruct (core_eq _ _ (C2 x Hxi)) as (_ & _ & -> & _). done.
Qed.

(** ** The loops *)

Variable size : Z.
Hypothesis start_ok : 0 <= start /\ 0 < size /\ start + size < 2 ^ 31.

(** A block outside the log area [start .. start + size). *)
Definition home (b : Z) : Prop := bno_ok b /\ (b < start \/ start + size <= b).

Definition pins_of (J : list nat) (i : nat) : Z := if decide (i ∈ J) then 1 else 0.

(** The transaction in memory: the [n] blocks in the header are home blocks,
    and block [t] is pinned, once, in buffer [J !! t]. *)
Record trans_ok (n : nat) (J : list nat) (k : kstate) : Prop := {
  tr_at : log_at k;
  tr_n : lg_n (k_log k) = Z.of_nat n;
  tr_max : (n <= Z.to_nat LOGSIZE)%nat /\ Z.of_nat n + 1 <= size;
  tr_home : forall t, (t < n)%nat -> home (lg_at (k_log k) t);
  tr_free : exists f, (f < HEAD)%nat /\ f ∉ J;
  tr_pinned : forall t j, J !! t = Some j -> (j < HEAD)%nat /\
    b_blockno (buf_at j k) = lg_at (k_log k) t }.

Definition apply_writes (d : gmap Z (list Z)) (ws : list (Z * list Z)) : gmap Z (list Z) :=
  foldl (fun d w => <[fst w := snd w]> d) d ws.

(** What write_log() and install_trans() write, from what the blocks read as. *)
Definition log_writes (v : Z -> list Z) (bs : nat -> Z) (t : nat) : list (Z * list Z) :=
  (fun j => (start + Z.of_nat j + 1, v (bs j))) <$> seq 0 t.
Definition home_writes (v : Z -> list Z) (bs : nat -> Z) (t : nat) : list (Z * list Z) :=
  (fun j => (bs j, v (start + Z.of_nat j + 1))) <$> seq 0 t.

Lemma apply_writes_snoc d ws b x : apply_writes d (ws ++ [(b, x)]) = <[b := x]> (apply_writes d ws).
Proof. unfold apply_writes. by rewrite foldl_app. Qed.

Lemma write_log_loop n J k t : trans_ok n J k -> length J = n -> inv ∅ (pins_of J) k -> (t <= n)%nat ->
  let bs := lg_at (k_log k) in
  exists k', for_each (seq 0 t) write_log_one k = Ret tt k' /\ inv ∅ (pins_of J) k' /\ bio_step k k' /\
    k_disk k' = apply_writes (k_disk k) (log_writes (vw k) bs t) /\
    k_dwrites k' = k_dwrites k ++ log_writes (vw k) bs t /\
    (forall b, b <= start \/ start + size <= b -> vw k' b = vw k b) /\
    (forall j, (j < t)%nat -> vw k' (start + Z.of_nat j + 1) = vw k (bs j)) /\
    (forall x, x ∈ J -> b_blockno (buf_at x k') = b_blockno (buf_at x k)).
Proof.
  intros [Hat Hn [Hmax Hsz] Hhome (f & Hf & HfJ) Hpin] HJ Hk Ht bs.
  induction t as [|t IH].
  { exists k. split_and!; try done; [apply bio_step_refl|by rewrite app_nil_r|lia]. }
  destruct IH as (k1 & R1 & I1 & S1 & K1 & W1 & V1 & L1 & B1); [lia|].
  destruct (lookup_lt_is_Some_2 J t) as [j Hj]; [lia|].
  destruct (Hpin t j Hj) as [Hjlt Hjb]. assert (j ∈ J) as HjJ by by eapply list_elem_of_lookup_2.
  destruct (Hhome t) as [Hbok Hbh]; [lia|].
  assert (bno_ok (start + Z.of_nat t + 1)) as Haok by (unfold bno_ok; lia).
  destruct (write_log_step (pins_of J) k1 t (bs t) I1) as (k2 & R2 & I2 & S2 & K2 & W2 & V2 & B2).
  { destruct Hat. split; by rewrite (bio_step_log _ _ S1). }
  { by rewrite (bio_step_log _ _ S1). }
  { exact Haok. } { exact Hbok. } { unfold bs. lia. }
  { exists f. split; [done|]. unfold pins_of. by rewrite decide_False. }
  { exists j. split_and!; [done| |by rewrite B1]. unfold pins_of. by rewrite decide_True. }
  assert (vw k1 (bs t) = vw k (bs t)) as Hv by (apply V1; unfold bs; lia).
  exists k2. rewrite seq_S, for_each_app. unfold log_writes in *. rewrite seq_S, fmap_app.
  cbn [fmap list_fmap Nat.add]. split_and!.
  - erewrite bind_ret_run by exact R1. cbn [for_each]. by erewrite bind_ret_run by exact R2.
  - exact I2.
  - exact (bio_step_trans _ _ _ S1 S2).
  - by rewrite K2, Hv, K1, apply_writes_snoc.
  - by rewrite W2, Hv, W1, app_assoc.
  - intros b Hb. rewrite V2, decide_False by lia. by apply V1.
  - intros j' Hj'. rewrite V2. destruct (decide (j' = t)) as [->|Hne].
    + by rewrite decide_True.
    + rewrite decide_False by lia. apply L1. lia.
  - intros x Hx. rewrite B2; [by apply B1|]. unfold pins_of. by rewrite decide_True.
Qed.

Lemma pins_of_drop J t j : NoDup J -> J !! t = Some j ->
  forall i, unpin 0 j (pins_of (drop t J)) i = pins_of (drop (S t) J) i.
Proof.
  intros Hnd Hj i. unfold unpin, pins_of. cbn. rewrite (drop_S J j t Hj).
  assert (NoDup (j :: drop (S t) J)) as [Hjn _]%NoDup_cons.
  { rewrite <- (drop_S J j t Hj). rewrite <- (take_drop t J) in Hnd.
    by apply NoDup_app in Hnd as (_ & _ & Hnd). }
  destruct (decide (i = j)) as [->|Hne].
  - rewrite decide_True by left. by rewrite decide_False.
  - destruct (decide (i ∈ drop (S t) J)) as [Hi|Hi].
    + by rewrite decide_True by by right.
    + rewrite decide_False; [done|]. intros [->|?]%elem_of_cons; done.
Qed.

Lemma install_loop rcv n J k t : trans_ok n J k -> NoDup J ->
  (if rcv =? 0 then length J = n else J = []) -> inv ∅ (pins_of J) k -> (t <= n)%nat ->
  let bs := lg_at (k_log k) in
  exists k', for_each (seq 0 t) (install_one rcv) k = Ret tt k' /\ inv ∅ (pins_of (drop t J)) k' /\
    bio_step k k' /\
    k_disk k' = apply_writes (k_disk k) (home_writes (vw k) bs t) /\
    k_dwrites k' = k_dwrites k ++ home_writes (vw k) bs t /\
    (forall b, ~ home b -> vw k' b = vw k b) /\
    ((forall j, (j < n)%nat -> vw k (start + Z.of_nat j + 1) = vw k (bs j)) ->
       forall b, vw k' b = vw k b) /\
    (forall x, x ∈ drop t J -> b_blockno (buf_at x k') = b_blockno (buf_at x k)).
Proof.
  intros [Hat Hn [Hmax Hsz] Hhome (f & Hf & HfJ) Hpin] Hnd HJ Hk Ht bs.
  induction t as [|t IH].
  { exists k. split_and!; try done; [apply bio_step_refl|by rewrite app_nil_r]. }
  destruct IH as (k1 & R1 & I1 & S1 & K1 & W1 & V1 & L1 & B1); [lia|].
  destruct (Hhome t) as [Hbok Hbh]; [lia|].
  assert (bno_ok (start + Z.of_nat t + 1)) as Haok by (unfold bno_ok; lia).
  assert (rcv =? 0 = true -> exists j, J !! t = Some j /\ (j < HEAD)%nat /\ j ∈ drop t J /\
    b_blockno (buf_at j k1) = bs t) as Hpinned.
  { intros E. rewrite E in HJ. destruct (lookup_lt_is_Some_2 J t) as [j Hj]; [lia|].
    destruct (Hpin t j Hj) as [Hjlt Hjb]. assert (j ∈ drop t J) by (rewrite (drop_S J j t Hj); left).
    exists j. split_and!; try done. by rewrite B1. }
  destruct (install_step rcv (pins_of (drop t J)) k1 t (bs t) I1)
    as (j & k2 & R2 & I2 & S2 & K2 & W2 & V2 & B2 & J2).
  { destruct Hat. split; by rewrite (bio_step_log _ _ S1). }
  { by rewrite (bio_step_log _ _ S1). }
  { exact Haok. } { exact Hbok. } { unfold bs. lia. }
  { exists f. split; [done|]. unfold pins_of. rewrite decide_False; [done|].
    intros Hin. apply HfJ. eapply list_elem_of_lookup_1 in Hin as [i Hi]. rewrite lookup_drop in Hi.
    by eapply list_elem_of_lookup_2. }
  { destruct (rcv =? 0) eqn:E.
    - destruct (Hpinned eq_refl) as (j & _ & H1 & H2 & H3). exists j. split_and!; [done| |done].
      unfold pins_of. rewrite decide_True by done. lia.
    - subst J. intros i. unfold pins_of. by rewrite drop_nil, decide_False by set_solver. }
  assert (vw k1 (start + Z.of_nat t + 1) = vw k (start + Z.of_nat t + 1)) as Hv
    by (apply V1; unfold home; lia).
  exists k2. rewrite seq_S, for_each_app. unfold home_writes in *. rewrite seq_S, fmap_app.
  cbn [fmap list_fmap Nat.add]. split_and!.
  - erewrite bind_ret_run by exact R1. cbn [for_each]. by erewrite bind_ret_run by exact R2.
  - eapply bio_inv_pins; [|exact I2]. intros i. destruct (rcv =? 0) eqn:E.
    + destruct (Hpinned eq_refl) as (j' & H0 & H1 & H2 & H3).
      rewrite <- (J2 j' H1); [|unfold pins_of; by rewrite decide_True|done].
      apply Z.eqb_eq in E as ->. by apply pins_of_drop.
    + subst J. unfold unpin. by rewrite E, !drop_nil.
  - exact (bio_step_trans _ _ _ S1 S2).
  - by rewrite K2, Hv, K1, apply_writes_snoc.
  - by rewrite W2, Hv, W1, app_assoc.
  - intros b Hb. rewrite V2, decide_False by (intros ->; apply Hb; by split). by apply V1.
  - intros Hsame b. rewrite V2. case_decide as Eb; [|by apply L1].
    rewrite Hv, Eb. apply Hsame. lia.
  - intros x Hx. assert (x ∈ drop t J) as Hx'.
    { eapply list_elem_of_lookup_1 in Hx as [i Hi]. rewrite lookup_drop in Hi.
      eapply list_elem_of_lookup_2. rewrite lookup_drop. by replace (t + S i)%nat with (S t + i)%nat by lia. }
    rewrite B2; [by apply B1|]. unfold pins_of. by rewrite decide_True.
Qed.

(** ** commit() and recover_from_log() *)

Lemma bio_inv_log held pins k lg : inv held pins k -> inv held pins (set_k_log lg k).
Proof.
  intros [[H1 H2 H3 H4 H5] ? ? ? ? ? ? ? ? ? ? ? ?].
  split; [split|..]; try assumption.
  - destruct H1. by split.
  - by eapply disk_ok_ext; [..|exact H3].
Qed.

(** Outside any transaction the cache agrees with the disk. *)
Lemma view_clean k b : inv ∅ (pins_of []) k -> vw k b = block_of (k_disk k) b.
Proof.
  intros Hk. destruct (view_cases _ _ _ _ _ b Hk) as [(i & Hi & Hv & Hd & Hb & ->)|[_ ->]]; [|done].
  rewrite <- Hb. by apply (bi_clean _ _ _ _ _ Hk).
Qed.

Definition commit_trace (v : Z -> list Z) (bs : nat -> Z) (n : nat) : list (Z * list Z) :=
  let h := put_hdr (v start) (bs <$> seq 0 n) in
  log_writes v bs n ++ [(start, h)] ++ ((fun j => (bs j, v (bs j))) <$> seq 0 n) ++
  [(start, put_hdr h [])].

Lemma free_nil : exists f, (f < HEAD)%nat /\ f ∉ ([] : list nat).
Proof using. clear D_ok start_ok. exists 0%nat. split; [unfold HEAD, NBUF, MAXOPBLOCKS; lia|set_solver]. Qed.

Lemma pins_free J : (exists f, (f < HEAD)%nat /\ f ∉ J) -> exists f, (f < HEAD)%nat /\ pins_of J f = 0.
Proof using. intros (f & Hf & HfJ). exists f. split; [done|]. unfold pins_of. by rewrite decide_False. Qed.

Lemma commit_run n J k : trans_ok n J k -> NoDup J -> length J = n -> inv ∅ (pins_of J) k -> (0 < n)%nat ->
  let ws := commit_trace (vw k) (lg_at (k_log k)) n in
  exists k', commit k = Ret tt k' /\ inv ∅ (pins_of []) k' /\
    lg_n (k_log k') = 0 /\ log_at k' /\ bio_step (set_k_log (k_log k') k) k' /\
    k_disk k' = apply_writes (k_disk k) ws /\ k_dwrites k' = k_dwrites k ++ ws /\
    (forall b, home b -> vw k' b = vw k b).
Proof.
  intros Htr Hnd HJ Hk Hn0 ws. pose proof Htr as [Hat Hn [Hmax Hsz] Hhome Hfree Hpin].
  assert (0 <= start < 2 ^ 31) as Hstart by lia.
  destruct (write_log_loop n J k n Htr HJ Hk (le_n n)) as (k1 & R1 & I1 & S1 & K1 & W1 & V1 & L1 & B1).
  pose proof (bio_step_log _ _ S1) as E1.
  assert (log_at k1) as Hat1 by (unfold log_at; by rewrite E1).
  destruct (write_head_spec (pins_of J) k1 I1 Hat1 Hstart (pins_free J Hfree))
    as (k2 & R2 & I2 & S2 & K2 & W2 & V2 & B2); [rewrite E1, Hn; lia|].
  assert (logged k1 = lg_at (k_log k) <$> seq 0 n) as Hlg by (unfold logged; by rewrite E1, Hn, Nat2Z.id).
  rewrite Hlg, (V1 start) in * by lia. set (h := put_hdr (vw k start) (lg_at (k_log k) <$> seq 0 n)) in *.
  pose proof (eq_trans (bio_step_log _ _ S2) E1) as E2.
  assert (trans_ok n J k2) as Htr2.
  { split; try (unfold log_at; rewrite E2); try done. intros t j Hj. destruct (Hpin t j Hj) as [H1 H2].
    assert (j ∈ J) as HjJ by by eapply list_elem_of_lookup_2.
    split; [done|]. rewrite B2; [by rewrite B1|]. unfold pins_of. by rewrite decide_True. }
  destruct (install_loop 0 n J k2 n Htr2 Hnd HJ I2 (le_n n)) as (k3 & R3 & I3 & S3 & K3 & W3 & V3 & L3 & B3).
  rewrite E2 in *. rewrite drop_ge in I3 by lia.
  assert (forall j, (j < n)%nat -> vw k2 (start + Z.of_nat j + 1) = vw k (lg_at (k_log k) j)) as Hlog.
  { intros j Hj. rewrite V2, decide_False by lia. by apply L1. }
  assert (forall b, home b -> vw k2 b = vw k b) as Hv2.
  { intros b [Hb1 Hb2]. rewrite V2, decide_False by lia. apply V1. lia. }
  assert (forall b, vw k3 b = vw k2 b) as Hv3.
  { apply L3. intros j Hj. rewrite Hlog, Hv2 by auto. done. }
  assert (home_writes (vw k2) (lg_at (k_log k)) n =
    (fun j => (lg_at (k_log k) j, vw k (lg_at (k_log k) j))) <$> seq 0 n) as Hhw.
  { apply list_fmap_ext. intros i j Hj. apply lookup_seq in Hj as [-> Hlt]. cbn. by rewrite Hlog. }
  set (k4 := set_k_log (set_lg_n 0 (k_log k3)) k3).
  pose proof (bio_inv_log _ _ _ (set_lg_n 0 (k_log k3)) I3) as I4. fold k4 in I4.
  pose proof (bio_step_log _ _ S3) as E3. rewrite E2 in E3.
  assert (log_at k4) as Hat4 by (unfold log_at, k4; cbn; by rewrite E3).
  destruct (write_head_spec (pins_of []) k4 I4 Hat4 Hstart (pins_free [] free_nil))
    as (k5 & R5 & I5 & S5 & K5 & W5 & V5 & B5); [cbn; done|].
  pose proof (bio_step_log _ _ S5) as E5.
  assert (vw k4 start = h) as Hv4.
  { change (vw k4 start) with (vw k3 start). by rewrite Hv3, V2, decide_True by done. }
  assert (logged k4 = []) as Hl4 by done. rewrite Hv4, Hl4 in *.
  exists k5. split_and!.
  - unfold commit. unfold gets at 1. unfold bind at 1. rewrite Hn.
    destruct (Z.ltb_spec 0 (Z.of_nat n)); [|lia].
    unfold write_log. erewrite bind_ret_run.
    2: { unfold gets, bind. rewrite Hn, Nat2Z.id. exact R1. }
    erewrite bind_ret_run by exact R2.
    unfold install_trans. erewrite bind_ret_run.
    2: { unfold gets, bind. rewrite E2, Hn, Nat2Z.id. exact R3. }
    unfold upd_log, modify. unfold bind at 1. exact R5.
  - exact I5.
  - by rewrite E5.
  - unfold log_at. rewrite E5. exact Hat4.
  - rewrite E5. destruct (bio_step_trans _ _ _ (bio_step_trans _ _ _ S1 S2) S3)
      as (bs & sl & d & dw & vd & ps & E & Hw).
    eapply bio_step_trans; [|exact S5].
    exists bs, sl, d, dw, vd, ps. split; [|exact Hw]. unfold k4. rewrite E. by destruct k.
  - rewrite K5. change (k_disk k4) with (k_disk k3). rewrite K3, K2, K1, Hhw. unfold ws, commit_trace.
    unfold apply_writes. rewrite !foldl_app. done.
  - rewrite W5. change (k_dwrites k4) with (k_dwrites k3). rewrite W3, W2, W1, Hhw. unfold ws, commit_trace.
    by rewrite <- !app_assoc.
  - intros b Hb. rewrite V5, decide_False by (destruct Hb; lia).
    change (vw k4 b) with (vw k3 b). rewrite Hv3. by apply Hv2.
Qed.

(** A header that recovery accepts: at most LOGSIZE entries, all home blocks. *)
Definition hdr_ok (h : list Z) : Prop :=
  0 <= hdr_n h <= LOGSIZE /\ hdr_n h + 1 <= size /\
  forall t, (t < Z.to_nat (hdr_n h))%nat -> home (hdr_block h t).

(** What recovery writes on the disk [d]. *)
Definition recovery_trace (d : gmap Z (list Z)) : list (Z * list Z) :=
  let h := block_of d start in
  home_writes (block_of d) (hdr_block h) (Z.to_nat (hdr_n h)) ++ [(start, put_hdr h [])].

(** The kernel at boot: nothing cached is newer than the disk [d]. *)
Record boot_ok (d : gmap Z (list Z)) (k : kstate) : Prop := {
  bt_bio : inv ∅ (pins_of []) k;
  bt_at : log_at k;
  bt_disk : k_disk k = d;
  bt_len : length (lg_block (k_log k)) = Z.to_nat LOGSIZE }.

(** The state after the copy loop of read_head(). *)
Lemma read_head_loop h m k : (m <= Z.to_nat LOGSIZE)%nat ->
  length (lg_block (k_log k)) = Z.to_nat LOGSIZE ->
  exists lg, for_each (seq 0 m) (read_head_block h) k = Ret tt (set_k_log lg k) /\
    (forall t, (t < m)%nat -> lg_at lg t = hdr_block h t) /\ length (lg_block lg) = Z.to_nat LOGSIZE /\
    lg_n lg = lg_n (k_log k) /\ lg_dev lg = lg_dev (k_log k) /\ lg_start lg = lg_start (k_log k).
Proof.
  intros Hm Hlen. induction m as [|m IH].
  { exists (k_log k). split_and!; try done; [by destruct k|lia]. }
  destruct IH as (lg & R & Ht & Hl & En & Ed & Es); [lia|].
  exists (set_lg_block (<[m := hdr_block h m]> (lg_block lg)) lg). rewrite seq_S, for_each_app. split_and!; try done.
  - erewrite bind_ret_run by exact R. cbn [for_each Nat.add]. unfold read_head_block.
    destruct (Z.leb_spec LOGSIZE (Z.of_nat m)); [lia|]. done.
  - intros t Htm. unfold lg_at. cbn. destruct (decide (t = m)) as [->|Hne].
    + by rewrite list_lookup_insert_eq by lia.
    + rewrite list_lookup_insert_ne by done. apply Ht. lia.
  - cbn. by rewrite length_insert.
Qed.

Lemma read_head_run d k : boot_ok d k -> hdr_ok (block_of d start) ->
  let h := block_of d start in
  exists k', read_head k = Ret tt k' /\ inv ∅ (pins_of []) k' /\ log_at k' /\ k_disk k' = d /\
    bio_step (set_k_log (k_log k') k) k' /\ k_dwrites k' = k_dwrites k /\
    lg_n (k_log k') = hdr_n h /\
    (forall t, (t < Z.to_nat (hdr_n h))%nat -> lg_at (k_log k') t = hdr_block h t) /\
    (forall b, vw k' b = block_of d b).
Proof.
  intros [Hk [HD HS] Hdk Hlen] (Hn & Hsz & Hhome) h. fold h in Hn, Hsz, Hhome.
  destruct (bread_spec D p ∅ (pins_of []) k start Hk) as (i & k1 & R1 & Hi & _ & I1 & S1 & B1 & D1 & V1 & K1 & W1 & O1 & P1).
  { split; [set_solver|]. right. destruct (pins_free [] free_nil) as (f & Hf & Hf0).
    exists f. split_and!; [done|set_solver|done]. }
  { lia. }
  rewrite union_empty_r_L in I1. rewrite (view_clean k start Hk), Hdk in D1. fold h in D1.
  set (k2 := set_k_log (set_lg_n (hdr_n h) (k_log k1)) k1).
  destruct (read_head_loop h (Z.to_nat (hdr_n h)) k2) as (lg & R2 & Ht & Hl & En & Ed & Es).
  { lia. } { cbn. by rewrite (bio_step_log _ _ S1). }
  assert (set_k_log lg k2 = set_k_log lg k1) as E12 by (unfold k2; by destruct k1).
  rewrite E12 in R2. pose proof (bio_inv_log _ _ _ lg I1) as I3.
  destruct (brelse_spec D p {[i]} (pins_of []) (set_k_log lg k1) i I3) as (k4 & R4 & I4 & S4 & K4 & W4 & C4 & V4).
  { set_solver. }
  { right. change (buf_at i (set_k_log lg k1)) with (buf_at i k1).
    change (k_disk (set_k_log lg k1)) with (k_disk k1). rewrite D1, B1, K1, Hdk. done. }
  replace ({[i]} ∖ {[i]} : gset nat) with (∅ : gset nat) in I4 by set_solver.
  pose proof (bio_step_log _ _ S4) as E4. cbn in E4, K4, W4. exists k4. split_and!.
  - unfold read_head. unfold gets at 1. unfold bind at 1. rewrite HD, HS.
    rewrite !u32_small by lia.
    erewrite bind_ret_run by exact R1. unfold gets at 1. unfold bind at 1. rewrite D1.
    unfold upd_log, modify. unfold bind at 1. unfold gets at 1. unfold bind at 1. fold k2.
    erewrite bind_ret_run by exact R2. exact R4.
  - exact I4.
  - unfold log_at. rewrite E4, Ed, Es. cbn. by rewrite (bio_step_log _ _ S1).
  - by rewrite K4, K1.
  - rewrite E4. destruct S1 as (bs & sl & d1 & dw & vd & ps & E & Hw).
    eapply bio_step_trans; [|exact S4]. exists bs, sl, d1, dw, vd, ps. split; [|exact Hw].
    rewrite E. by destruct k.
  - by rewrite W4, W1.
  - by rewrite E4, En.
  - intros t Hlt. rewrite E4. by apply Ht.
  - intros b. rewrite V4. change (vw (set_k_log lg k1) b) with (vw k1 b).
    rewrite V1, (view_clean k b Hk). by rewrite Hdk.
Qed.

Lemma recover_run d k : boot_ok d k -> hdr_ok (block_of d start) ->
  exists k', recover_from_log k = Ret tt k' /\ inv ∅ (pins_of []) k' /\ log_at k' /\
    lg_n (k_log k') = 0 /\ bio_step (set_k_log (k_log k') k) k' /\
    k_disk k' = apply_writes d (recovery_trace d) /\
    k_dwrites k' = k_dwrites k ++ recovery_trace d.
Proof.
  intros Hb Hh. pose proof Hh as (Hn & Hsz & Hhome). set (h := block_of d start) in *.
  destruct (read_head_run d k Hb Hh) as (k1 & R1 & I1 & A1 & K1 & S1 & W1 & N1 & L1 & V1). fold h in N1, L1.
  set (n := Z.to_nat (hdr_n h)) in *.
  assert (trans_ok n [] k1) as Htr.
  { split; try done.
    - by rewrite N1; unfold n; lia.
    - unfold n. lia.
    - intros t Ht. rewrite L1 by done. by apply Hhome.
    - exact free_nil. }
  destruct (install_loop 1 n [] k1 n Htr (NoDup_nil_2) eq_refl I1 (le_n n))
    as (k2 & R2 & I2 & S2 & K2 & W2 & V2 & _ & _).
  rewrite drop_nil in I2. pose proof (bio_step_log _ _ S2) as E2.
  assert (home_writes (vw k1) (lg_at (k_log k1)) n = home_writes (block_of d) (hdr_block h) n) as Hhw.
  { apply list_fmap_ext. intros i j Hj. apply lookup_seq in Hj as [-> Hlt]. cbn. by rewrite V1, L1. }
  set (k3 := set_k_log (set_lg_n 0 (k_log k2)) k2).
  pose proof (bio_inv_log _ _ _ (set_lg_n 0 (k_log k2)) I2) as I3. fold k3 in I3.
  assert (log_at k3) as A3 by (unfold log_at, k3; cbn; by rewrite E2).
  destruct (write_head_spec (pins_of []) k3 I3 A3 ltac:(unfold bno_ok; lia) (pins_free [] free_nil))
    as (k4 & R4 & I4 & S4 & K4 & W4 & V4 & _); [done|].
  pose proof (bio_step_log _ _ S4) as E4.
  assert (vw k3 start = h) as Hv3.
  { change (vw k3 start) with (vw k2 start). rewrite V2, V1; [done|]. unfold home. lia. }
  assert (logged k3 = []) as Hl3 by done. rewrite Hv3, Hl3 in *.
  exists k4. split_and!.
  - unfold recover_from_log. erewrite bind_ret_run by exact R1.
    unfold install_trans. erewrite bind_ret_run.
    2: { unfold gets, bind. rewrite N1. exact R2. }
    unfold upd_log, modify. unfold bind at 1. exact R4.
  - exact I4.
  - unfold log_at. rewrite E4. exact A3.
  - by rewrite E4.
  - rewrite E4. destruct S1 as (bs & sl & d1 & dw & vd & ps & E & Hw).
    destruct S2 as (bs2 & sl2 & d2 & dw2 & vd2 & ps2 & E2' & Hw2).
    eapply bio_step_trans; [|exact S4]. exists bs2, sl2, d2, dw2, vd2, ps2.
    split; [|rewrite E in Hw2; cbn in Hw2; exact (woken_trans _ _ _ Hw Hw2)].
    unfold k3. rewrite E2', E. by destruct k.
  - rewrite K4. change (k_disk k3) with (k_disk k2). rewrite K2, K1, Hhw. unfold recovery_trace. fold h n.
    by rewrite apply_writes_snoc.
  - rewrite W4. change (k_dwrites k3) with (k_dwrites k2). rewrite W2, W1, Hhw. unfold recovery_trace.
    fold h n. by rewrite app_assoc.
Qed.

(** ** Crashes *)

Lemma block_of_insert d b x c : block_of (<[b := x]> d) c = if decide (c = b) then x else block_of d c.
Proof.
  unfold block_of. case_decide as E; [subst; by rewrite lookup_insert_eq|by rewrite lookup_insert_ne].
Qed.

(** A block no write touches keeps its contents; one that is only ever written
    with [x] has [x]; and what is written last does not depend on the start. *)
Lemma apply_other d ws b : b ∉ ws.*1 -> block_of (apply_writes d ws) b = block_of d b.
Proof.
  induction ws as [|[c x] ws IH] using rev_ind; intros Hb; [done|].
  rewrite apply_writes_snoc, block_of_insert. rewrite fmap_app in Hb. cbn in Hb.
  rewrite decide_False by set_solver. apply IH. set_solver.
Qed.

Lemma apply_const d ws b x : b ∈ ws.*1 -> (forall w, w ∈ ws -> fst w = b -> snd w = x) ->
  block_of (apply_writes d ws) b = x.
Proof.
  induction ws as [|[c y] ws IH] using rev_ind; intros Hb Hw; [set_solver|].
  rewrite apply_writes_snoc, block_of_insert. case_decide as E.
  - apply (Hw (c, y)); [set_solver|done].
  - apply IH; [|intros w Hin; apply Hw; set_solver]. rewrite fmap_app in Hb. cbn in Hb. set_solver.
Qed.

Lemma apply_indep d d' ws b : b ∈ ws.*1 ->
  block_of (apply_writes d ws) b = block_of (apply_writes d' ws) b.
Proof.
  induction ws as [|[c y] ws IH] using rev_ind; intros Hb; [set_solver|].
  rewrite !apply_writes_snoc, !block_of_insert. case_decide; [done|]. apply IH.
  rewrite fmap_app in Hb. cbn in Hb. set_solver.
Qed.

Lemma apply_app d ws1 ws2 : apply_writes d (ws1 ++ ws2) = apply_writes (apply_writes d ws1) ws2.
Proof. apply foldl_app. Qed.

Lemma take_keys m (ws : list (Z * list Z)) b : b ∈ (take m ws).*1 -> b ∈ ws.*1.
Proof.
  rewrite !list_elem_of_fmap. intros (w & -> & Hw). exists w. split; [done|].
  apply list_elem_of_lookup_1 in Hw as [i Hi]. apply lookup_take_Some in Hi as [Hi _].
  by eapply list_elem_of_lookup_2.
Qed.

Lemma log_writes_keys v bs t b : b ∈ (log_writes v bs t).*1 -> start < b <= start + Z.of_nat t.
Proof.
  unfold log_writes. rewrite list_elem_of_fmap. intros (w & -> & Hw).
  apply list_elem_of_fmap in Hw as (j & -> & Hj). apply elem_of_seq in Hj. cbn. lia.
Qed.

Lemma home_writes_keys v bs t b : b ∈ (home_writes v bs t).*1 <-> exists j, (j < t)%nat /\ b = bs j.
Proof.
  unfold home_writes. rewrite list_elem_of_fmap. split.
  - intros (w & -> & Hw). apply list_elem_of_fmap in Hw as (j & -> & Hj).
    apply elem_of_seq in Hj. exists j. split; [lia|done].
  - intros (j & Hj & ->). eexists. split; [|apply list_elem_of_fmap; exists j; split; [done|apply elem_of_seq; lia]].
    done.
Qed.

(** Recovery of a disk whose header is empty changes no home block. *)
Lemma recover_empty d b : hdr_n (block_of d start) = 0 -> home b ->
  block_of (apply_writes d (recovery_trace d)) b = block_of d b.
Proof.
  intros Hn [Hb Hb']. unfold recovery_trace, home_writes. rewrite Hn.
  change (Z.to_nat 0) with 0%nat. cbn [seq fmap list_fmap app].
  unfold apply_writes. cbn [foldl fst snd]. rewrite block_of_insert. by rewrite decide_False by lia.
Qed.

(** Recovery of a disk whose log holds [v (bs j)] for each of the [n] blocks. *)
Lemma recover_full d v bs n b : hdr_n (block_of d start) = Z.of_nat n ->
  (forall j, (j < n)%nat -> hdr_block (block_of d start) j = bs j /\
     block_of d (start + Z.of_nat j + 1) = v (bs j)) -> home b ->
  block_of (apply_writes d (recovery_trace d)) b =
    if decide (b ∈ bs <$> seq 0 n) then v b else block_of d b.
Proof.
  intros Hn Hj [Hb Hb']. unfold recovery_trace. rewrite Hn, Nat2Z.id.
  rewrite apply_writes_snoc, block_of_insert, decide_False by lia.
  assert (b ∈ (home_writes (block_of d) (hdr_block (block_of d start)) n).*1 <-> b ∈ bs <$> seq 0 n) as Hkey.
  { rewrite home_writes_keys, list_elem_of_fmap. split.
    - intros (j & Hlt & ->). exists j. split; [by apply Hj|]. apply elem_of_seq. lia.
    - intros (j & -> & Hin). apply elem_of_seq in Hin. exists j. split; [lia|]. symmetry. apply Hj. lia. }
  destruct (decide (b ∈ bs <$> seq 0 n)) as [Hin|Hin].
  - apply apply_const; [by apply Hkey|]. intros w Hw Ew. unfold home_writes in Hw.
    apply list_elem_of_fmap in Hw as (j & -> & Hlt). apply elem_of_seq in Hlt.
    cbn in *. destruct (Hj j) as [E1 E2]; [lia|]. by rewrite E2, <- Ew, E1.
  - apply apply_other. by rewrite Hkey.
Qed.

(** The disk after the first [m] writes of a commit, and after recovery from it. *)
Lemma crash_commit d0 v bs n m b :
  hdr_n (block_of d0 start) = 0 -> block_ok (v start) -> (n <= Z.to_nat LOGSIZE)%nat ->
  Z.of_nat n + 1 <= size -> (forall t, (t < n)%nat -> home (bs t)) -> home b ->
  let d := apply_writes d0 (take m (commit_trace v bs n)) in
  block_of (apply_writes d (recovery_trace d)) b =
    if decide (m <= n)%nat then block_of d0 b
    else if decide (b ∈ bs <$> seq 0 n) then v b else block_of d0 b.
Proof.
  intros H0 Hv Hmax Hsz Hhome Hb d.
  assert (length (log_writes v bs n) = n) as Hlen by (unfold log_writes; by rewrite length_fmap, length_seq).
  assert (length (bs <$> seq 0 n) <= Z.to_nat LOGSIZE)%nat as Hlb by (by rewrite length_fmap, length_seq).
  unfold d, commit_trace. set (h := put_hdr (v start) (bs <$> seq 0 n)).
  case_decide as Hm.
  - rewrite take_app_le by lia.
    assert (forall c, c <= start \/ start + size <= c ->
      block_of (apply_writes d0 (take m (log_writes v bs n))) c = block_of d0 c) as Hsame.
    { intros c Hc. apply apply_other. intros Hin%take_keys%log_writes_keys. lia. }
    rewrite recover_empty; [apply Hsame; destruct Hb; lia| |done]. by rewrite Hsame by lia.
  - rewrite take_app_ge by lia. rewrite Hlen. destruct (m - n)%nat as [|m'] eqn:Em; [lia|].
    cbn [app take]. rewrite apply_app.
    change (apply_writes ?x ((start, h) :: ?l)) with (apply_writes (<[start := h]> x) l).
    set (d1 := <[start := h]> (apply_writes d0 (log_writes v bs n))).
    assert (forall c, block_of d1 c = if decide (c = start) then h else
      block_of (apply_writes d0 (log_writes v bs n)) c) as Hd1 by (intros; apply block_of_insert).
    assert (block_of d1 b = block_of d0 b) as Hd1b.
    { rewrite Hd1, decide_False by (destruct Hb; lia). apply apply_other.
      intros Hin%log_writes_keys. destruct Hb. lia. }
    assert (forall j, (j < n)%nat -> block_of d1 (start + Z.of_nat j + 1) = v (bs j)) as Hlog.
    { intros j Hj. rewrite Hd1, decide_False by lia. apply apply_const.
      - unfold log_writes. rewrite list_elem_of_fmap. eexists. split; [|apply list_elem_of_fmap; exists j;
          split; [done|apply elem_of_seq; lia]]. done.
      - intros w Hw Ew. apply list_elem_of_fmap in Hw as (j' & -> & _). cbn in *. by replace j' with j by lia. }
    set (inst := (fun j => (bs j, v (bs j))) <$> seq 0 n).
    assert (length inst = n) as Hli by (unfold inst; by rewrite length_fmap, length_seq).
    assert (inst.*1 = bs <$> seq 0 n) as Hk1 by (unfold inst; by rewrite <- list_fmap_compose).
    assert (forall w, w ∈ inst -> snd w = v (fst w)) as Hw1.
    { intros w Hw. by apply list_elem_of_fmap in Hw as (j & -> & _). }
    destruct (decide (m' <= n)%nat) as [Hm'|Hm'].
    + rewrite take_app_le by lia. set (d2 := apply_writes d1 (take m' inst)).
      assert (forall c, ~ home c -> block_of d2 c = block_of d1 c) as Hd2.
      { intros c Hc. apply apply_other. intros Hin%take_keys. rewrite Hk1 in Hin.
        apply list_elem_of_fmap in Hin as (j & -> & Hin). apply elem_of_seq in Hin. apply Hc, Hhome. lia. }
      assert (block_of d2 start = h) as Hh2.
      { rewrite Hd2 by (unfold home; lia). by rewrite Hd1, decide_True. }
      rewrite (recover_full d2 v bs n b).
      * case_decide as Hin; [done|]. unfold d2. rewrite apply_other; [done|].
        intros Hin'%take_keys. by rewrite Hk1 in Hin'.
      * rewrite Hh2. unfold h. rewrite put_hdr_n by done. by rewrite length_fmap, length_seq.
      * intros j Hj. split.
        -- rewrite Hh2. apply put_hdr_block; [done..| |by apply Hhome].
           rewrite list_lookup_fmap, lookup_seq_lt by lia. done.
        -- rewrite Hd2 by (unfold home; lia). by apply Hlog.
      * done.
    + rewrite take_ge by (rewrite length_app, Hli; cbn; lia).
      rewrite apply_writes_snoc. set (d2 := apply_writes d1 inst).
      rewrite recover_empty; [| |done].
      * rewrite block_of_insert, decide_False by (destruct Hb; lia). unfold d2.
        case_decide as Hin.
        -- apply apply_const; [by rewrite Hk1|]. intros w Hw <-. by apply Hw1.
        -- rewrite apply_other by by rewrite Hk1. done.
      * rewrite block_of_insert, decide_True by done.
        rewrite put_hdr_n; [done|by apply put_hdr_ok|cbn; lia].
Qed.

Lemma hdr_ok_empty h : hdr_n h = 0 -> hdr_ok h.
Proof.
  intros E. unfold hdr_ok. rewrite E. split_and!; try (unfold LOGSIZE, MAXOPBLOCKS; lia).
Qed.

(** The header found on disk after the first [m] writes of a commit. *)
Lemma crash_hdr d0 v bs n m :
  hdr_n (block_of d0 start) = 0 -> block_ok (v start) -> (n <= Z.to_nat LOGSIZE)%nat ->
  Z.of_nat n + 1 <= size -> (forall t, (t < n)%nat -> home (bs t)) ->
  hdr_ok (block_of (apply_writes d0 (take m (commit_trace v bs n))) start).
Proof.
  intros H0 Hv Hmax Hsz Hhome.
  assert (length (log_writes v bs n) = n) as Hlen by (unfold log_writes; by rewrite length_fmap, length_seq).
  assert (length (bs <$> seq 0 n) <= Z.to_nat LOGSIZE)%nat as Hlb by (by rewrite length_fmap, length_seq).
  unfold commit_trace. set (h := put_hdr (v start) (bs <$> seq 0 n)).
  assert (block_ok h) as Hhok by by apply put_hdr_ok.
  destruct (decide (m <= n)%nat) as [Hm|Hm].
  { rewrite take_app_le by lia. apply hdr_ok_empty. rewrite apply_other; [done|].
    intros Hin%take_keys%log_writes_keys. lia. }
  rewrite take_app_ge by lia. rewrite Hlen. destruct (m - n)%nat as [|m'] eqn:Em; [lia|].
  cbn [app take]. rewrite apply_app.
  change (apply_writes ?x ((start, h) :: ?l)) with (apply_writes (<[start := h]> x) l).
  set (inst := (fun j => (bs j, v (bs j))) <$> seq 0 n).
  assert (length inst = n) as Hli by (unfold inst; by rewrite length_fmap, length_seq).
  assert (start ∉ inst.*1) as Hns.
  { unfold inst. rewrite <- list_fmap_compose. intros Hin. apply list_elem_of_fmap in Hin as (j & E & Hin).
    apply elem_of_seq in Hin. destruct (Hhome j) as [? ?]; [lia|]. cbn in E. lia. }
  destruct (decide (m' <= n)%nat) as [Hm'|Hm'].
  - rewrite take_app_le by lia. rewrite apply_other by (intros Hin%take_keys; done).
    rewrite block_of_insert, decide_True by done.
    assert (hdr_n h = Z.of_nat n) as Hnh.
    { unfold h. rewrite put_hdr_n by done. by rewrite length_fmap, length_seq. }
    unfold hdr_ok. rewrite Hnh, Nat2Z.id. change LOGSIZE with 30 in *. split_and!; [lia..|]. intros t Ht.
    unfold h. rewrite (put_hdr_block _ _ Hv Hlb t (bs t)); [by apply Hhome| |by apply Hhome].
    rewrite list_lookup_fmap, lookup_seq_lt by lia. done.
  - rewrite take_ge by (rewrite length_app, Hli; cbn; lia).
    rewrite apply_writes_snoc, block_of_insert, decide_True by done. apply hdr_ok_empty.
    rewrite put_hdr_n; [done..|cbn; lia].
Qed.

(** After the first [m] writes of a recovery, recovering again ends in the same
    home blocks. *)
Lemma recovery_prefix d m : hdr_ok (block_of d start) -> block_ok (block_of d start) ->
  let d2 := apply_writes d (take m (recovery_trace d)) in
  hdr_ok (block_of d2 start) /\
  forall b, home b -> block_of (apply_writes d2 (recovery_trace d2)) b =
    block_of (apply_writes d (recovery_trace d)) b.
Proof.
  intros Hh Hbk d2. pose proof Hh as (Hn & Hsz & Hhome).
  set (h := block_of d start) in *. set (n := Z.to_nat (hdr_n h)) in *.
  set (hw := home_writes (block_of d) (hdr_block h) n).
  assert (recovery_trace d = hw ++ [(start, put_hdr h [])]) as Htr by done.
  assert (length hw = n) as Hlen by (unfold hw, home_writes; by rewrite length_fmap, length_seq).
  assert (forall c, ~ home c -> c ∉ hw.*1) as Hns.
  { intros c Hc Hin. apply home_writes_keys in Hin as (j & Hj & ->). by apply Hc, Hhome. }
  destruct (decide (m <= n)%nat) as [Hm|Hm].
  - assert (forall c, ~ home c -> block_of d2 c = block_of d c) as Hsame.
    { intros c Hc. unfold d2. rewrite Htr, take_app_le by lia. apply apply_other.
      intros Hin%take_keys. by apply (Hns c). }
    assert (block_of d2 start = h) as Hh2 by (apply Hsame; unfold home; lia).
    split; [by rewrite Hh2|]. intros b Hb.
    assert (recovery_trace d2 = recovery_trace d) as ->.
    { unfold recovery_trace. rewrite Hh2. fold h n. f_equal. apply list_fmap_ext.
      intros i j Hj. apply lookup_seq in Hj as [-> Hlt]. cbn. f_equal. apply Hsame. unfold home. lia. }
    destruct (decide (b ∈ (recovery_trace d).*1)) as [Hin|Hin]; [by apply apply_indep|].
    rewrite !apply_other by done. unfold d2. apply apply_other. by intros ?%take_keys.
  - assert (d2 = apply_writes d (recovery_trace d)) as E.
    { unfold d2. rewrite take_ge; [done|]. rewrite Htr, length_app, Hlen. cbn. lia. }
    assert (hdr_n (block_of d2 start) = 0) as E0.
    { rewrite E, Htr, apply_writes_snoc, block_of_insert, decide_True by done.
      rewrite put_hdr_n; [done..|cbn; lia]. }
    split; [by apply hdr_ok_empty|]. intros b Hb. rewrite recover_empty by done. by rewrite E.
Qed.

(** What the transaction's blocks read as is what their buffers hold; every other
    block reads as it is on disk. *)
Lemma trans_view n J k b : trans_ok n J k -> length J = n -> inv ∅ (pins_of J) k ->
  b ∉ lg_at (k_log k) <$> seq 0 n -> vw k b = block_of (k_disk k) b.
Proof.
  intros Htr HJ Hk Hb. destruct (view_cases _ _ _ _ _ b Hk) as [(i & Hi & Hv & Hd & Hbi & ->)|[_ ->]]; [|done].
  rewrite <- Hbi. apply (bi_clean _ _ _ _ _ Hk); [done|set_solver| |done].
  unfold pins_of. rewrite decide_False; [done|]. intros Hin. apply Hb.
  apply list_elem_of_lookup_1 in Hin as [t Ht]. destruct (tr_pinned _ _ _ Htr t i Ht) as [_ E].
  apply list_elem_of_fmap. exists t. split; [by rewrite <- Hbi|].
  apply elem_of_seq. apply lookup_lt_Some in Ht. lia.
Qed.

(** C1 (commit_crash_safe): a transaction is atomic across crashes.  commit()
    returns with every block of the transaction on disk at its home location; and if
    the machine stops after any number [m] of commit()'s disk writes, then
    recover_from_log() at the next boot leaves every home block either as it was before
    the transaction or, from the header write on, as the transaction left it. *)
Theorem commit_crash_safe n J k : trans_ok n J k -> NoDup J -> length J = n ->
  inv ∅ (pins_of J) k -> (0 < n)%nat -> hdr_n (block_of (k_disk k) start) = 0 ->
  exists k' ws, commit k = Ret tt k' /\ k_dwrites k' = k_dwrites k ++ ws /\
    k_disk k' = apply_writes (k_disk k) ws /\ lg_n (k_log k') = 0 /\
    (forall b, home b -> block_of (k_disk k') b = vw k b /\ vw k' b = vw k b) /\
    forall m kr, boot_ok (apply_writes (k_disk k) (take m ws)) kr ->
      exists kr', recover_from_log kr = Ret tt kr' /\
        forall b, home b -> block_of (k_disk kr') b =
          if decide (m <= n)%nat then block_of (k_disk k) b else vw k b.
Proof.
  intros Htr Hnd HJ Hk Hn0 Hclean. pose proof Htr as [Hat Hn [Hmax Hsz] Hhome Hfree Hpin].
  destruct (commit_run n J k Htr Hnd HJ Hk Hn0) as (k' & R & I & N & A & S & Kd & Kw & V).
  exists k', (commit_trace (vw k) (lg_at (k_log k)) n).
  assert (forall b, home b -> (if decide (b ∈ lg_at (k_log k) <$> seq 0 n) then vw k b
    else block_of (k_disk k) b) = vw k b) as Hnew.
  { intros b Hb. case_decide; [done|]. symmetry. by apply (trans_view n J). }
  split_and!; try assumption.
  - intros b Hb. split; [|by apply V]. rewrite <- (view_clean k' b I). by apply V.
  - intros m kr Hkr. destruct (recover_run _ kr Hkr) as (kr' & Rr & _ & _ & _ & _ & Kr & _).
    + pose proof (crash_hdr (k_disk k) (vw k) (lg_at (k_log k)) n m Hclean
        (view_ok _ _ _ _ _ start Hk) Hmax Hsz Hhome) as Hh. exact Hh.
    + exists kr'. split; [exact Rr|]. intros b Hb. rewrite Kr.
      rewrite (crash_commit (k_disk k) (vw k) (lg_at (k_log k)) n m b); try done; [|by eapply view_ok].
      case_decide; [done|]. by apply Hnew.
Qed.

(** C2 (recovery_crash_safe): recovery can itself be interrupted.  If the machine
    stops after any number [m] of recover_from_log()'s disk writes, recovering again
    leaves every home block as the uninterrupted recovery would have. *)
Theorem recovery_crash_safe d k m k2 : boot_ok d k -> hdr_ok (block_of d start) ->
  block_ok (block_of d start) ->
  boot_ok (apply_writes d (take m (recovery_trace d))) k2 ->
  exists k' k2', recover_from_log k = Ret tt k' /\ k_dwrites k' = k_dwrites k ++ recovery_trace d /\
    recover_from_log k2 = Ret tt k2' /\
    forall b, home b -> block_of (k_disk k2') b = block_of (k_disk k') b.
Proof.
  intros Hb Hh Hbk Hb2. destruct (recover_run d k Hb Hh) as (k' & R & _ & _ & _ & _ & Kd & Kw).
  set (d2 := apply_writes d (take m (recovery_trace d))) in *.
  destruct (recovery_prefix d m Hh Hbk) as [Hh2 Hsame].
  destruct (recover_run d2 k2 Hb2 Hh2) as (k2' & R2 & _ & _ & _ & _ & Kd2 & _).
  exists k', k2'. split_and!; try assumption. intros b Hbh. rewrite Kd, Kd2. by apply Hsame.
Qed.

(** ** begin_op(), log_write(), end_op() *)

Lemma llog_release k lg bs : cpu_ok k -> lock_free k LLog ->
  release LLog (set_k_log lg (set_k_bufs bs (enter LLog k))) = Ret tt (set_k_log lg (set_k_bufs bs k)).
Proof. intros Hok Hf. rewrite (release_run _ k) by done. by destruct k. Qed.

Definition admits (lg : logstate) : Prop :=
  lg_committing lg = 0 /\ lg_n lg + (lg_outstanding lg + 1) * MAXOPBLOCKS <= LOGSIZE.

Lemma begin_op_admits k : cpu_ok k -> lock_free k LLog -> admits (k_log k) ->
  begin_op k = Ret tt (set_k_log (set_lg_outstanding (lg_outstanding (k_log k) + 1) (k_log k)) k).
Proof.
  intros Hok Hf [Hc Hs]. unfold begin_op, begin_op_loop.
  erewrite bind_ret_run by exact (acquire_run LLog k Hf).
  unfold gets at 1. unfold bind at 1. change (k_log (enter LLog k)) with (k_log k).
  rewrite Hc. change (truth 0) with false. cbv iota.
  destruct (Z.ltb_spec LOGSIZE (lg_n (k_log k) + (lg_outstanding (k_log k) + 1) * MAXOPBLOCKS)); [lia|].
  unfold upd_log, modify. unfold bind at 1.
  rewrite (release_run _ k); [|exact Hf|exact Hok|exact (conj eq_refl (conj eq_refl eq_refl))].
  by destruct k.
Qed.

Lemma begin_op_waits q k : thread_ok q k -> lock_free k LLog -> ~ admits (k_log k) ->
  begin_op k = Swtch (set_k_procs (<[q := asleep ChLog (proc_at q k)]> (k_procs k)) (enter (LProc q) k)).
Proof.
  intros [Hok Hn Hp Hlt Hps Hf] Hl Ha. unfold begin_op, begin_op_loop.
  erewrite bind_ret_run by exact (acquire_run LLog k Hl).
  unfold gets at 1. unfold bind at 1. change (k_log (enter LLog k)) with (k_log k).
  assert (forall A, (sleep ChLog LLog : K A) (enter LLog k) = Swtch (set_k_procs
    (<[q := asleep ChLog (proc_at q k)]> (k_procs k)) (enter (LProc q) k))) as Hsl.
  { intros A. rewrite (sleep_run _ _ q k); auto; [by destruct k|]. cbn. by rewrite Hps. }
  destruct (truth (lg_committing (k_log k))) eqn:Et; [apply Hsl|].
  destruct (Z.ltb_spec LOGSIZE (lg_n (k_log k) + (lg_outstanding (k_log k) + 1) * MAXOPBLOCKS));
    [apply Hsl|]. exfalso. apply Ha. split; [|lia].
  destruct (Z.eqb_spec (lg_committing (k_log k)) 0) as [|Hne]; [done|]. by rewrite truth_true in Et.
Qed.

Lemma absorb_spec lg b i n : (exists j, (i <= j < i + n)%nat /\ absorb_index lg b i n = j /\
    u32 (lg_at lg j) = b) \/
  (absorb_index lg b i n = (i + n)%nat /\ forall j, (i <= j < i + n)%nat -> u32 (lg_at lg j) <> b).
Proof.
  revert i. induction n as [|n IH]; intros i; cbn [absorb_index].
  - right. split; [lia|]. intros j Hj. lia.
  - destruct (Z.eqb_spec (u32 (lg_at lg i)) b) as [E|E].
    + left. exists i. split_and!; (done || lia).
    + destruct (IH (S i)) as [(j & Hj & Ej & Eb)|[Ei Hj]].
      * left. exists j. split_and!; (done || lia).
      * right. split; [lia|]. intros j Hj'. destruct (decide (j = i)) as [->|]; [done|]. apply Hj. lia.
Qed.

Lemma bpin_run i k : cpu_ok k -> lock_free k LBcache ->
  bpin i k = Ret tt (set_k_bufs (alter inc_ref i (k_bufs k)) k).
Proof.
  intros Hok Hf. unfold bpin. erewrite bind_ret_run by exact (acquire_run LBcache k Hf).
  unfold upd_buf, modify, bind. fold inc_ref. rewrite (release_run _ k) by done. by destruct k.
Qed.

(** The log after log_write() of a block that is not in it yet. *)
Definition log_appended (b : Z) (lg : logstate) : logstate :=
  set_lg_n (lg_n lg + 1) (set_lg_block (<[Z.to_nat (lg_n lg) := b]> (lg_block lg)) lg).

Lemma log_write_new k i : cpu_ok k -> lock_free k LLog -> lock_free k LBcache ->
  let lg := k_log k in let b := b_blockno (buf_at i k) in
  0 <= lg_n lg < LOGSIZE -> lg_n lg < lg_size lg - 1 -> 1 <= lg_outstanding lg -> bno_ok b ->
  (forall j, (j < Z.to_nat (lg_n lg))%nat -> u32 (lg_at lg j) <> b) ->
  log_write i k = Ret tt (set_k_log (log_appended b lg) (set_k_bufs (alter inc_ref i (k_bufs k)) k)).
Proof.
  intros Hok Hl Hlb lg b Hn Hsz Ho Hb Hnew. unfold log_write.
  erewrite bind_ret_run by exact (acquire_run LLog k Hl).
  unfold gets at 1. unfold bind at 1. change (k_log (enter LLog k)) with lg.
  destruct (Z.leb_spec LOGSIZE (lg_n lg)); [lia|]. destruct (Z.leb_spec (lg_size lg - 1) (lg_n lg)); [lia|].
  destruct (Z.ltb_spec (lg_outstanding lg) 1); [lia|]. cbv [orb].
  unfold gets at 1. unfold bind at 1. change (buf_at i (enter LLog k)) with (buf_at i k). fold b.
  destruct (absorb_spec lg b 0 (Z.to_nat (lg_n lg))) as [(j & Hj & _ & E)|[-> _]].
  { by destruct (Hnew j); [lia|]. }
  rewrite Nat.add_0_l, Nat.eqb_refl. rewrite i32_small by (unfold bno_ok in Hb; lia).
  unfold upd_log at 1. unfold modify at 1. unfold bind at 1. rewrite bind_assoc.
  erewrite bind_ret_run.
  2: { apply bpin_run; [exact (enter_cpu_ok LLog k Hok)|exact (enter_lock_free LLog LBcache k ltac:(done) Hlb)]. }
  unfold upd_log, modify. unfold bind at 1.
  etransitivity; [|exact (llog_release k (log_appended b lg) (alter inc_ref i (k_bufs k)) Hok Hl)].
  by destruct k.
Qed.

Lemma log_write_absorbed k i j : cpu_ok k -> lock_free k LLog ->
  let lg := k_log k in let b := b_blockno (buf_at i k) in
  0 <= lg_n lg < LOGSIZE -> lg_n lg < lg_size lg - 1 -> 1 <= lg_outstanding lg -> bno_ok b ->
  length (lg_block lg) = Z.to_nat LOGSIZE -> (forall t, (t < Z.to_nat (lg_n lg))%nat -> bno_ok (lg_at lg t)) ->
  (j < Z.to_nat (lg_n lg))%nat -> lg_at lg j = b -> log_write i k = Ret tt k.
Proof.
  intros Hok Hl lg b Hn Hsz Ho Hb Hlen Hall Hj Ej. unfold log_write.
  erewrite bind_ret_run by exact (acquire_run LLog k Hl).
  unfold gets at 1. unfold bind at 1. change (k_log (enter LLog k)) with lg.
  destruct (Z.leb_spec LOGSIZE (lg_n lg)); [lia|]. destruct (Z.leb_spec (lg_size lg - 1) (lg_n lg)); [lia|].
  destruct (Z.ltb_spec (lg_outstanding lg) 1); [lia|]. cbv [orb].
  unfold gets at 1. unfold bind at 1. change (buf_at i (enter LLog k)) with (buf_at i k). fold b.
  destruct (absorb_spec lg b 0 (Z.to_nat (lg_n lg))) as [(t & Ht & -> & E)|[_ Hno]].
  2: { exfalso. apply (Hno j); [lia|]. rewrite u32_small; [done|]. specialize (Hall j Hj). unfold bno_ok in Hall. lia. }
  destruct (Nat.eqb_spec t (Z.to_nat (lg_n lg))) as [|_]; [lia|].
  rewrite u32_small in E by (specialize (Hall t ltac:(lia)); unfold bno_ok in Hall; lia).
  assert (lg_block lg !! t = Some b) as Hlk.
  { unfold lg_at in E. destruct (lookup_lt_is_Some_2 (lg_block lg) t) as [x Hx]; [lia|].
    rewrite Hx in *. cbn in E. by rewrite E. }
  unfold upd_log, modify, ret. unfold bind at 1 2.
  rewrite i32_small by (unfold bno_ok in Hb; lia).
  transitivity (Ret (S := kstate) tt (set_k_log lg (set_k_bufs (k_bufs k) k))); [|unfold lg; by destruct k].
  rewrite <- (llog_release k lg (k_bufs k) Hok Hl). f_equal.
  change (k_log (enter LLog k)) with lg. rewrite (list_insert_id _ _ _ Hlk). by destruct lg, k.
Qed.

(** [begin_op_spec]: begin_op() admits an operation exactly when no commit is
    in progress and the log has room for MAXOPBLOCKS more blocks for every operation
    in progress and this one; it then counts the operation.  Otherwise the caller
    sleeps on the log with log.lock released. *)
Theorem begin_op_spec q k : thread_ok q k -> lock_free k LLog ->
  (admits (k_log k) -> exists k', begin_op k = Ret tt k' /\
     lg_outstanding (k_log k') = lg_outstanding (k_log k) + 1 /\
     lg_n (k_log k') + lg_outstanding (k_log k') * MAXOPBLOCKS <= LOGSIZE /\
     lock_free k' LLog) /\
  (~ admits (k_log k) -> exists k', begin_op k = Swtch k' /\ lock_free k' LLog /\
     p_state (proc_at q k') = SLEEPING /\ p_chan (proc_at q k') = Some ChLog /\ k_log k' = k_log k).
Proof.
  intros Hth Hl. pose proof Hth as [Hok Hn Hp Hlt Hps Hf]. split; intros Ha.
  - eexists. split; [by apply begin_op_admits|]. cbn. destruct Ha. split_and!; [done|lia|done].
  - eexists. split; [by apply (begin_op_waits q)|]. split_and!.
    + apply enter_lock_free; done.
    + unfold proc_at. cbn. by rewrite list_lookup_insert_eq by by rewrite Hps.
    + unfold proc_at. cbn. by rewrite list_lookup_insert_eq by by rewrite Hps.
    + done.
Qed.

(** A list shorter than the cache leaves a buffer out. *)
Lemma some_free (J : list nat) : (length J < HEAD)%nat -> exists f, (f < HEAD)%nat /\ f ∉ J.
Proof using. clear D_ok start_ok.
  intros Hlen. destruct (decide (Forall (fun f => f ∈ J) (seq 0 HEAD))) as [Hall|Hn].
  - exfalso. assert (seq 0 HEAD ⊆+ J) as Hsub%submseteq_length.
    { apply NoDup_submseteq; [apply NoDup_seq|]. intros x Hx. rewrite Forall_forall in Hall. auto. }
    rewrite length_seq in Hsub. lia.
  - apply not_Forall_Exists in Hn; [|apply _]. apply Exists_exists in Hn as (f & Hf & HfJ).
    apply elem_of_seq in Hf. exists f. split; [lia|done].
Qed.

Lemma trans_bno n J k t : trans_ok n J k -> (t < n)%nat -> bno_ok (lg_at (k_log k) t).
Proof. intros Htr Ht. by destruct (tr_home _ _ _ Htr t Ht). Qed.

(** The transaction after log_write() of a block that was not in it. *)
Lemma log_write_extends n J k i held : trans_ok n J k -> length J = n -> NoDup J ->
  inv held (pins_of J) k -> i ∈ held -> (S n < HEAD)%nat -> Z.of_nat n + 2 <= size ->
  length (lg_block (k_log k)) = Z.to_nat LOGSIZE -> home (b_blockno (buf_at i k)) ->
  (forall t, (t < n)%nat -> lg_at (k_log k) t <> b_blockno (buf_at i k)) ->
  let k' := set_k_log (log_appended (b_blockno (buf_at i k)) (k_log k))
    (set_k_bufs (alter inc_ref i (k_bufs k)) k) in
  trans_ok (S n) (J ++ [i]) k' /\ NoDup (J ++ [i]) /\ inv held (pins_of (J ++ [i])) k' /\
  (forall b, vw k' b = vw k b).
Proof.
  intros Htr HJ Hnd Hk Hi Hn Hsz Hlen Hhome Hnew k'. pose proof Htr as [Hat En [Hmax _] Hh Hf Hpin].
  destruct (bi_held _ _ _ _ _ Hk i Hi) as [Hlt _].
  assert (i ∉ J) as HiJ.
  { intros Hin. apply list_elem_of_lookup_1 in Hin as [t Ht]. destruct (Hpin t i Ht) as [_ E].
    apply (Hnew t); [|done]. apply lookup_lt_Some in Ht. lia. }
  assert (pins_of J i = 0) as Hp0 by (unfold pins_of; by rewrite decide_False).
  assert (forall x, b_blockno (buf_at x k') = b_blockno (buf_at x k)) as Hbno.
  { intros x. unfold k'. change (buf_at x (set_k_log ?a ?b)) with (buf_at x b).
    rewrite buf_at_upd by (rewrite (bi_len _ _ _ _ _ Hk); lia). by case_decide as E; [rewrite E|]. }
  assert (forall t, (t < n)%nat -> lg_at (k_log k') t = lg_at (k_log k) t) as Hold.
  { intros t Ht. unfold lg_at, k'. cbn. rewrite En, Nat2Z.id.
    by rewrite list_lookup_insert_ne by lia. }
  assert (Z.to_nat LOGSIZE = HEAD) as HLH by reflexivity.
  assert (lg_at (k_log k') n = b_blockno (buf_at i k)) as Hlast.
  { unfold lg_at, k'. cbn. rewrite En, Nat2Z.id. by rewrite list_lookup_insert_eq by lia. }
  split_and!.
  - split.
    + exact Hat.
    + cbn. rewrite En. lia.
    + split; [|lia]. rewrite HLH. lia.
    + intros t Ht. destruct (decide (t = n)) as [->|]; [by rewrite Hlast|]. rewrite Hold by lia. apply Hh. lia.
    + apply some_free. rewrite length_app. cbn. lia.
    + intros t j Hj. rewrite Hbno. apply lookup_app_Some in Hj as [Hj|[Hge Hj]].
      * rewrite Hold by (apply lookup_lt_Some in Hj; lia). by apply Hpin.
      * apply list_lookup_singleton_Some in Hj as [Ht <-].
        replace t with n by lia. by rewrite Hlast.
  - apply NoDup_app. split_and!; [done| |apply NoDup_singleton]. set_solver.
  - apply bio_inv_log. eapply bio_inv_pins; [|apply (repin_spec D p held (pins_of J) k i inc_ref 1 Hk Hi)].
    + intros x. unfold pins_of. destruct (decide (x = i)) as [->|Hx].
      * rewrite decide_False by done. rewrite decide_True by set_solver. lia.
      * destruct (decide (x ∈ J)), (decide (x ∈ J ++ [i])); set_solver.
    + done.
    + cbn. rewrite (proj2 (bi_ref _ _ _ _ _ Hk i Hlt)), decide_True by done.
      rewrite Hp0. rewrite u32_small; lia.
    + rewrite Hp0. lia.
  - intros b. apply view_ext; [done|]. intros x Hx. unfold k'.
    change (buf_at x (set_k_log ?a ?b)) with (buf_at x b).
    rewrite buf_at_upd by (rewrite (bi_len _ _ _ _ _ Hk); lia). by case_decide as E; [rewrite E|].
Qed.

(** C20 (log_write_spec): log_write() of a held buffer inside a transaction records
    its block in the log header exactly once: a block that is already logged is
    absorbed and nothing changes; a new one is appended and its buffer pinned, which
    keeps the transaction well formed.  Outside a transaction, or when the log is full,
    it panics. *)
Theorem log_write_spec n J k i held : trans_ok n J k -> length J = n -> NoDup J ->
  inv held (pins_of J) k -> i ∈ held -> lock_free k LLog ->
  length (lg_block (k_log k)) = Z.to_nat LOGSIZE -> lg_size (k_log k) = size ->
  home (b_blockno (buf_at i k)) ->
  ((Z.of_nat n >= LOGSIZE \/ Z.of_nat n >= size - 1) -> log_write i k = Panic "too big a transaction") /\
  (Z.of_nat n < LOGSIZE -> Z.of_nat n < size - 1 ->
    (lg_outstanding (k_log k) < 1 -> log_write i k = Panic "log_write outside of trans") /\
    (1 <= lg_outstanding (k_log k) ->
      (b_blockno (buf_at i k) ∈ lg_at (k_log k) <$> seq 0 n -> log_write i k = Ret tt k) /\
      ((S n < HEAD)%nat -> b_blockno (buf_at i k) ∉ lg_at (k_log k) <$> seq 0 n ->
         exists k', log_write i k = Ret tt k' /\ trans_ok (S n) (J ++ [i]) k' /\ NoDup (J ++ [i]) /\
           inv held (pins_of (J ++ [i])) k' /\ forall b, vw k' b = vw k b))).
Proof.
  intros Htr HJ Hnd Hk Hi Hl Hlen Hsz Hhome. pose proof Htr as [Hat En [Hmax _] Hh Hf Hpin].
  pose proof (bi_env _ _ _ _ _ Hk) as [[Hok _ _ _ _ _] _ _ Hlb _].
  assert (0 <= lg_n (k_log k)) as Hn0 by lia. split; [|intros Hn1 Hn2; split; [|intros Ho; split]].
  - intros Hfull. unfold log_write. erewrite bind_ret_run by exact (acquire_run LLog k Hl).
    unfold gets at 1. unfold bind at 1. change (k_log (enter LLog k)) with (k_log k). rewrite En, Hsz.
    destruct (Z.leb_spec LOGSIZE (Z.of_nat n)), (Z.leb_spec (size - 1) (Z.of_nat n)); done || lia.
  - intros Ho. unfold log_write. erewrite bind_ret_run by exact (acquire_run LLog k Hl).
    unfold gets at 1. unfold bind at 1. change (k_log (enter LLog k)) with (k_log k). rewrite En, Hsz.
    destruct (Z.leb_spec LOGSIZE (Z.of_nat n)), (Z.leb_spec (size - 1) (Z.of_nat n)); try lia. cbv [orb].
    by destruct (Z.ltb_spec (lg_outstanding (k_log k)) 1); [|lia].
  - intros Hin. apply list_elem_of_fmap in Hin as (j & Ej & Hj). apply elem_of_seq in Hj.
    apply (log_write_absorbed k i j); try done; try (rewrite ?En, ?Hsz; lia).
    + by destruct Hhome.
    + intros t Ht. rewrite En, Nat2Z.id in Ht. by eapply trans_bno.
  - intros HnH Hnin.
    assert (forall t, (t < n)%nat -> lg_at (k_log k) t <> b_blockno (buf_at i k)) as Hnew.
    { intros t Ht Et. apply Hnin. apply list_elem_of_fmap. exists t. split; [done|]. apply elem_of_seq. lia. }
    eexists. split.
    + apply log_write_new; try done; try (rewrite ?En, ?Hsz; lia); [by destruct Hhome|].
      intros j Hj. rewrite En, Nat2Z.id in Hj. pose proof (trans_bno n J k j Htr Hj) as Hb.
      unfold bno_ok in Hb. rewrite u32_small by lia. by apply Hnew.
    + by apply (log_write_extends n J k i held); try (done || lia).
Qed.

(** Waking the threads in begin_op(), with log.lock held. *)
Definition log_woken (lg : logstate) (k : kstate) : kstate :=
  set_k_procs (imap (wake_at (c_proc (k_cpu k)) ChLog) (k_procs k)) (set_k_log lg k).

Lemma wakeup_log_run q k lg : thread_ok q k -> lock_free k LLog ->
  (do! wakeup ChLog; release LLog) (set_k_log lg (enter LLog k)) = Ret tt (log_woken lg k).
Proof.
  intros [Hok Hn Hp Hlt Hps Hf] Hl.
  erewrite bind_ret_run.
  2: { apply wakeup_run; [exact (enter_cpu_ok LLog k Hok)|exact Hps|].
       refine (enter_plocks_free LLog k ltac:(done) _). intros i Hi _. by apply Hf. }
  rewrite (release_run _ k); [|exact Hl|exact Hok|exact (conj eq_refl (conj eq_refl eq_refl))].
  unfold log_woken, restore. by destruct k.
Qed.

Lemma log_woken_later lg q k0 k : c_proc (k_cpu k) = Some q -> woken (k_procs k0) (k_procs k) ->
  forall i, i <> q -> (i < length (k_procs k0))%nat -> p_state (proc_at i k0) = SLEEPING ->
    p_chan (proc_at i k0) = Some ChLog -> p_state (proc_at i (log_woken lg k)) = RUNNABLE.
Proof.
  intros Hc Hw i Hi Hlt Hs Hch. unfold log_woken, proc_at in *. cbn. rewrite list_lookup_imap, Hc.
  destruct (lookup_lt_is_Some_2 (k_procs k0) i Hlt) as [pr Hpr]. rewrite Hpr in *. cbn in *.
  destruct (Forall2_lookup_l _ _ _ _ _ Hw Hpr) as (pr' & -> & [->|[_ ->]]); cbn;
    unfold wake_at, wake; rewrite decide_False by naive_solver.
  - by rewrite decide_True by naive_solver.
  - by rewrite decide_False by (cbn; naive_solver).
Qed.

(** The two outcomes of end_op(). *)
Lemma end_op_more k : thread_ok p k -> lock_free k LLog -> lg_committing (k_log k) = 0 ->
  lg_outstanding (k_log k) <> 1 ->
  end_op k = Ret tt (log_woken (set_lg_outstanding (lg_outstanding (k_log k) - 1) (k_log k)) k).
Proof.
  intros Hth Hl Hc Ho. unfold end_op. erewrite bind_ret_run by exact (acquire_run LLog k Hl).
  unfold upd_log at 1. unfold modify at 1. unfold bind at 1. unfold gets at 1. unfold bind at 1.
  cbn [k_log set_k_log]. change (k_log (enter LLog k)) with (k_log k).
  cbn [lg_committing lg_outstanding set_lg_outstanding]. rewrite Hc. change (truth 0) with false. cbv iota.
  destruct (Z.eqb_spec (lg_outstanding (k_log k) - 1) 0); [lia|]. rewrite bind_assoc.
  set (lg := set_lg_outstanding _ _).
  pose proof (wakeup_log_run p k lg Hth Hl) as Hw. unfold bind in Hw |- *.
  destruct (wakeup ChLog (set_k_log lg (enter LLog k))) as [[] k1| | | |]; try done. cbn. by rewrite Hw.
Qed.

Lemma end_op_last n J k : trans_ok n J k -> NoDup J -> length J = n -> inv ∅ (pins_of J) k ->
  lock_free k LLog -> lg_committing (k_log k) = 0 -> lg_outstanding (k_log k) = 1 ->
  exists k1 k', commit (set_k_log (set_lg_committing 1 (set_lg_outstanding 0 (k_log k))) k) = Ret tt k1 /\
    end_op k = Ret tt k' /\ k' = log_woken (set_lg_committing 0 (k_log k1)) k1 /\
    inv ∅ (pins_of []) k1 /\ c_proc (k_cpu k1) = c_proc (k_cpu k) /\
    lg_n (k_log k1) = 0 /\ (forall b, home b -> vw k1 b = vw k b) /\ woken (k_procs k) (k_procs k1).
Proof.
  intros Htr Hnd HJ Hk Hl Hc Ho. pose proof (bi_env _ _ _ _ _ Hk) as [Hth _ _ _ _].
  set (k0 := set_k_log (set_lg_committing 1 (set_lg_outstanding 0 (k_log k))) k).
  assert (exists k1, commit k0 = Ret tt k1 /\ inv ∅ (pins_of []) k1 /\ lg_n (k_log k1) = 0 /\
    bio_step (set_k_log (k_log k1) k0) k1 /\ forall b, home b -> vw k1 b = vw k b) as (k1 & Rc & I1 & N1 & S1 & V1).
  { assert (trans_ok n J k0) as Htr0 by (destruct Htr; by split).
    assert (inv ∅ (pins_of J) k0) as Hk0 by by apply bio_inv_log.
    destruct n as [|n].
    - exists k0. destruct J; [|done]. split_and!; try done.
      + unfold commit, gets. unfold bind at 1. by rewrite (tr_n _ _ _ Htr0).
      + exact (tr_n _ _ _ Htr0).
      + replace (set_k_log (k_log k0) k0) with k0 by by destruct k. apply bio_step_refl.
    - destruct (commit_run (S n) J k0 Htr0 Hnd HJ Hk0) as (k1 & R & I & N & A & St & _ & _ & V); [lia|].
      exists k1. split_and!; done. }
  pose proof (bi_env _ _ _ _ _ I1) as [Hth1 _ _ _ _].
  assert (lock_free k1 LLog /\ c_proc (k_cpu k1) = c_proc (k_cpu k) /\ woken (k_procs k) (k_procs k1))
    as (Hl1 & Hc1 & Hp1).
  { destruct S1 as (bs & sl & d & dw & vd & ps & -> & Hw). split_and!; [exact Hl|done|exact Hw]. }
  exists k1, (log_woken (set_lg_committing 0 (k_log k1)) k1). split_and!; try done.
  unfold end_op. erewrite bind_ret_run by exact (acquire_run LLog k Hl).
  unfold upd_log at 1. unfold modify at 1. unfold bind at 1. unfold gets at 1. unfold bind at 1.
  cbn [k_log set_k_log]. change (k_log (enter LLog k)) with (k_log k).
  cbn [lg_committing lg_outstanding set_lg_outstanding]. rewrite Hc, Ho. change (truth 0) with false. cbv iota.
  change (1 - 1 =? 0) with true. cbv iota. rewrite bind_assoc.
  unfold upd_log at 1. unfold modify at 1. unfold bind at 1. unfold ret at 1. unfold bind at 1.
  erewrite bind_ret_run.
  2: { apply (release_run _ k); [exact Hl|exact (th_cpu _ _ Hth)|exact (conj eq_refl (conj eq_refl eq_refl))]. }
  change (truth 1) with true. cbv iota.
  lazymatch goal with |- context [bind commit _ ?st] => replace st with k0 by (unfold k0; by destruct k) end.
  erewrite bind_ret_run by exact Rc. erewrite bind_ret_run by exact (acquire_run LLog k1 Hl1).
  unfold upd_log, modify. unfold bind at 1. exact (wakeup_log_run p k1 _ Hth1 Hl1).
Qed.

(** C19 (end_op_spec): end_op() of the last operation in progress commits: on return
    every block of the transaction is on disk at its home, the log is empty and
    unpinned, and log.committing is clear again; end_op() of any other operation only
    decrements the count.  In both cases every thread waiting in begin_op() is made
    RUNNABLE. *)
Theorem end_op_spec n J k : trans_ok n J k -> NoDup J -> length J = n -> inv ∅ (pins_of J) k ->
  lock_free k LLog -> lg_committing (k_log k) = 0 ->
  exists k', end_op k = Ret tt k' /\ lg_committing (k_log k') = 0 /\
    (lg_outstanding (k_log k) = 1 -> lg_n (k_log k') = 0 /\
       forall b, home b -> block_of (k_disk k') b = vw k b) /\
    (lg_outstanding (k_log k) <> 1 -> lg_outstanding (k_log k') = lg_outstanding (k_log k) - 1 /\
       lg_n (k_log k') = lg_n (k_log k) /\ k_disk k' = k_disk k) /\
    (forall i, i <> p -> (i < Z.to_nat NPROC)%nat ->
       p_state (proc_at i k) = SLEEPING -> p_chan (proc_at i k) = Some ChLog ->
       p_state (proc_at i k') = RUNNABLE).
Proof.
  intros Htr Hnd HJ Hk Hl Hc. pose proof (bi_env _ _ _ _ _ Hk) as [Hth _ _ _ _].
  destruct (decide (lg_outstanding (k_log k) = 1)) as [Ho|Ho].
  - destruct (end_op_last n J k Htr Hnd HJ Hk Hl Hc Ho) as (k1 & k' & _ & R & -> & I & Hp & N & V & Hw).
    eexists. split; [exact R|]. split_and!; try done.
    + intros _. split; [done|]. intros b Hb. cbn. rewrite <- (view_clean k1 b I). by apply V.
    + intros i Hi Hlt Hs Hch. apply (log_woken_later _ p k); try done.
      * by rewrite Hp, (th_proc _ _ Hth).
      * by rewrite (th_procs _ _ Hth).
  - eexists. split; [by apply end_op_more|]. split_and!; try done.
    intros i Hi Hlt Hs Hch. apply (log_woken_later _ p k); try done.
    + exact (th_proc _ _ Hth).
    + apply woken_refl.
    + by rewrite (th_procs _ _ Hth).
Qed.

End steps.


(** ** A transaction on the booted kernel *)

Definition log_cfg (n : Z) (b : Z) : logstate :=
  mkLog 2 30 1 0 ROOTDEV n (<[0%nat := b]> (replicate (Z.to_nat LOGSIZE) 0)).

Lemma bio_inv_with_lock D p held pins k : bio_inv D p held pins k -> bio_inv D p held pins (with_lock LLog k).
Proof.
  intros [[H1 H2 H3 H4 H5] ? ? ? ? ? ? ? ? ? ? ? ?]. split; [split|..]; try assumption.
  - by apply with_lock_thread.
  - destruct H4 as [nm E]. exists nm. cbn. by rewrite lookup_insert_ne.
  - intros i Hi. destruct (H5 i Hi) as [nm E]. exists nm. cbn. by rewrite lookup_insert_ne.
Qed.

(** Block 40 modified in buffer 0 and pinned there. *)
Definition dirty : list Z := replicate (Z.to_nat BSIZE) 7.
Definition pin0 (k : kstate) : kstate :=
  set_k_bufs (alter (fun x => set_b_valid 1 (set_b_dev ROOTDEV (set_b_blockno 40
    (set_b_refcnt 1 (set_b_data dirty x))))) 0%nat (k_bufs k)) k.

Lemma dirty_ok : block_ok dirty.
Proof.
  unfold dirty. split; [by rewrite length_replicate|]. apply Forall_replicate. split; [done|reflexivity].
Qed.

(** The booted kernel with the log's lock and configuration. *)
Definition log_base (lg : logstate) : kstate := set_k_log lg (with_lock LLog with_bcache).

Lemma log_base_bufs lg k i : buf_at i (set_k_log lg (with_lock LLog k)) = buf_at i k.
Proof. reflexivity. Qed.

Lemma log_base_disk lg k : k_disk (set_k_log lg (with_lock LLog k)) = k_disk k.
Proof. reflexivity. Qed.

Lemma pin0_disk k : k_disk (pin0 k) = k_disk k.
Proof. reflexivity. Qed.

Lemma log_base_lock lg k : lock_free (set_k_log lg (with_lock LLog k)) LLog.
Proof. exact (with_lock_free LLog k). Qed.

Lemma pin0_lock k l : lock_free k l -> lock_free (pin0 k) l.
Proof. done. Qed.

Lemma log_base_inv lg : bio_inv ROOTDEV 3 ∅ (pins_of []) (log_base lg).
Proof.
  apply bio_inv_log, bio_inv_with_lock. eapply bio_inv_pins; [|exact with_bcache_inv]. done.
Qed.

Lemma with_bcache_core i : core (buf_at i with_bcache) = (0, 0, 0, zero_block) /\
  k_disk with_bcache = ∅.
Proof.
  destruct (binit_run booted booted_bcache) as (k' & Hrun & _ & (bs & sl & lk & E) & _ & Hc).
  assert (with_bcache = k') as -> by exact (f_equal final_state (eq_trans (eq_sym with_bcache_run) Hrun)).
  split; [apply Hc|]. rewrite E. vm_compute. reflexivity.
Qed.

#[local] Opaque dirty zero_block.

Lemma pin0_inv k : bio_inv ROOTDEV 3 ∅ (pins_of []) k ->
  (forall i, core (buf_at i k) = (0, 0, 0, zero_block)) -> bio_inv ROOTDEV 3 ∅ (pins_of [0%nat]) (pin0 k).
Proof.
  intros Hk Hc. pose proof (bi_len _ _ _ _ _ Hk) as Hlen.
  assert (forall i, b_valid (buf_at i k) = 0 /\ b_dev (buf_at i k) = 0) as Hz
    by (intros i; specialize (Hc i); injection Hc; auto).
  assert (forall i, buf_at i (pin0 k) = if decide (i = 0%nat) then
    set_b_valid 1 (set_b_dev ROOTDEV (set_b_blockno 40 (set_b_refcnt 1 (set_b_data dirty (buf_at 0 k)))))
    else buf_at i k) as Hb by (intros i; apply buf_at_upd; lia).
  assert (forall i, i <> 0%nat -> pins_of [0%nat] i = pins_of [] i) as Hp.
  { intros i Hi. unfold pins_of. rewrite !decide_False; [done|set_solver..]. }
  split.
  - exact (env_bufs 3 k _ (bi_env _ _ _ _ _ Hk)).
  - cbn. by rewrite length_alter.
  - destruct (bi_lru _ _ _ _ _ Hk) as (l & Hl & Hpm). exists l. split; [|exact Hpm].
    eapply dll_ext; [..|exact Hl]; intros i _; unfold nx, pv; rewrite Hb;
      by destruct (decide (i = 0%nat)) as [->|].
  - intros i j Hi Hj. rewrite !Hb. repeat case_decide; subst; try done;
      intros E1 E2; exfalso; [rewrite (proj2 (Hz j)) in E2|rewrite (proj2 (Hz i)) in E1|rewrite (proj2 (Hz i)) in E1]; done.
  - intros i Hi. destruct (decide (i = 0%nat)) as [->|Hne].
    + rewrite Hb, decide_True by done. split; [unfold pins_of; case_decide; lia|].
      unfold pins_of. rewrite decide_False by set_solver. by rewrite decide_True by set_solver.
    + rewrite Hb, (decide_False (P := i = 0%nat)), Hp by done. by apply (bi_ref _ _ _ _ _ Hk).
  - set_solver.
  - intros i Hi Hn. by apply (bi_unheld _ _ _ _ _ Hk).
  - intros i Hi [?|Hne]; [set_solver|]. rewrite Hb. case_decide as E; [done|]. by rewrite Hp in Hne.
  - intros i Hi. rewrite Hb. case_decide; [done|]. by rewrite (proj1 (Hz i)).
  - intros i Hi. rewrite Hb. case_decide; [apply dirty_ok|]. by apply (bi_data _ _ _ _ _ Hk).
  - intros i Hi. rewrite Hb. case_decide; [cbn; lia|]. by apply (bi_bno _ _ _ _ _ Hk).
  - exact (bi_blocks _ _ _ _ _ Hk).
  - intros i Hi Hn Hp0. rewrite Hb. case_decide as E; [|by rewrite (proj1 (Hz i))].
    subst i. unfold pins_of in Hp0. rewrite decide_True in Hp0 by set_solver. done.
Qed.

Definition trans1 : kstate := pin0 (log_base (log_cfg 1 40)).

Lemma trans1_inv : bio_inv ROOTDEV 3 ∅ (pins_of [0%nat]) trans1.
Proof. apply pin0_inv; [apply log_base_inv|]. intros i. unfold log_base.
  rewrite log_base_bufs. exact (proj1 (with_bcache_core i)). Qed.

Lemma area_ok : 0 <= 2 /\ 0 < 30 /\ 2 + 30 < 2 ^ 31.
Proof. lia. Qed.

Lemma trans1_ok : trans_ok ROOTDEV 2 30 1 [0%nat] trans1.
Proof.
  split.
  - done.
  - done.
  - split; [unfold LOGSIZE, MAXOPBLOCKS|]; lia.
  - intros t Ht. assert (t = 0%nat) as -> by lia.
    change (lg_at (k_log trans1) 0) with 40. unfold home, bno_ok. lia.
  - apply some_free. unfold HEAD, NBUF, MAXOPBLOCKS. cbn. lia.
  - intros [|t] j Hj; [|done]. injection Hj as <-. split; [unfold HEAD, NBUF, MAXOPBLOCKS; lia|].
    unfold trans1, pin0. rewrite buf_at_upd; [done|].
    rewrite (bi_len _ _ _ _ _ (log_base_inv (log_cfg 1 40))). lia.
Qed.

Lemma trans1_disk : k_disk trans1 = ∅.
Proof. unfold trans1, log_base. rewrite pin0_disk, log_base_disk. exact (proj2 (with_bcache_core 0)). Qed.

Lemma trans1_clean : hdr_n (block_of (k_disk trans1) 2) = 0.
Proof. rewrite trans1_disk. vm_compute. reflexivity. Qed.

Lemma commit_crash_safe_witness : exists k' ws, commit trans1 = Ret tt k' /\
  k_dwrites k' = k_dwrites trans1 ++ ws /\ lg_n (k_log k') = 0.
Proof.
  destruct (commit_crash_safe ROOTDEV 2 3 ltac:(unfold ROOTDEV; lia) 30 area_ok 1 [0%nat] trans1 trans1_ok
    (NoDup_singleton _) eq_refl trans1_inv ltac:(lia) trans1_clean) as (k' & ws & H1 & H2 & _ & H3 & _).
  exists k', ws. exact (conj H1 (conj H2 H3)).
Defined.

Lemma log_base_boot : boot_ok ROOTDEV 2 3 ∅ (log_base (log_cfg 0 0)).
Proof.
  split; [apply log_base_inv|done| |].
  { unfold log_base. rewrite log_base_disk. exact (proj2 (with_bcache_core 0)). }
  cbn. by rewrite length_insert, length_replicate.
Qed.

Lemma empty_hdr : hdr_ok 2 30 (block_of ∅ 2).
Proof. apply hdr_ok_empty; [exact area_ok|]. vm_compute. reflexivity. Qed.

Lemma recovery_crash_safe_witness : exists k', recover_from_log (log_base (log_cfg 0 0)) = Ret tt k'.
Proof.
  destruct (recovery_crash_safe ROOTDEV 2 3 ltac:(unfold ROOTDEV; lia) 30 area_ok ∅ (log_base (log_cfg 0 0)) 0
    (log_base (log_cfg 0 0)) log_base_boot empty_hdr zero_block_ok log_base_boot) as (k' & k2 & H & _).
  exists k'. exact H.
Defined.

Lemma log_base_locks lg : thread_ok 3 (log_base lg) /\ lock_free (log_base lg) LLog.
Proof.
  split; [exact (env_thread _ _ (bi_env _ _ _ _ _ (log_base_inv lg)))|].
  exact (log_base_lock lg with_bcache).
Qed.

Lemma begin_op_spec_witness : exists k', begin_op (log_base (log_cfg 0 0)) = Ret tt k' /\
  lg_outstanding (k_log k') = 2.
Proof.
  destruct (log_base_locks (log_cfg 0 0)) as [H1 H2].
  destruct (begin_op_spec 3 (log_base (log_cfg 0 0)) H1 H2) as [H _].
  destruct H as (k' & R & E & _); [split; [reflexivity|discriminate]|].
  exists k'. exact (conj R E).
Defined.

Lemma empty_trans k : k_log k = log_cfg 0 0 -> trans_ok ROOTDEV 2 30 0 [] k /\
  length (lg_block (k_log k)) = Z.to_nat LOGSIZE /\ lg_size (k_log k) = 30 /\ 1 <= lg_outstanding (k_log k).
Proof.
  intros El. split; [|rewrite El; split_and!; [reflexivity|reflexivity|done]].
  split; try (unfold log_at; rewrite El); try reflexivity.
  - split; reflexivity.
  - split; [lia|discriminate].
  - intros t Ht. lia.
  - exact free_nil.
  - intros t j Hj. discriminate Hj.
Qed.

Lemma log_write_spec_witness : exists i k k', bread ROOTDEV 40 (log_base (log_cfg 0 0)) = Ret i k /\
  log_write i k = Ret tt k' /\ trans_ok ROOTDEV 2 30 1 [i] k'.
Proof.
  pose proof (log_base_inv (log_cfg 0 0)) as Hk.
  destruct (bread_spec ROOTDEV 3 ∅ (pins_of []) (log_base (log_cfg 0 0)) 40 Hk)
    as (i & k & R & Hi & _ & I & S & B & _).
  { split; [intros i Hi; inversion Hi|]. right. destruct (pins_free [] free_nil) as (f & Hf & Hf0).
    exists f. split; [exact Hf|split; [intros Hin; inversion Hin|exact Hf0]]. }
  { split; [discriminate|reflexivity]. }
  rewrite union_empty_r_L in I. destruct (empty_trans k (bio_step_log _ _ S)) as (T0 & L0 & Z0 & O0).
  pose proof (bio_step_lock _ _ LLog S (proj2 (log_base_locks (log_cfg 0 0)))) as F0.
  destruct (log_write_spec ROOTDEV 2 3 ltac:(unfold ROOTDEV; lia) 30 area_ok 0 [] k i {[i]} T0 eq_refl
    (NoDup_nil_2) I (elem_of_singleton_2 _ _ eq_refl) F0 L0 Z0) as [_ H].
  { rewrite B. unfold home, bno_ok. lia. }
  destruct (H eq_refl eq_refl) as [_ H1]. destruct (H1 O0) as [_ H2].
  destruct H2 as (k' & R' & T & _).
  - unfold HEAD, NBUF, MAXOPBLOCKS. lia.
  - intros Hin. inversion Hin.
  - exists i, k, k'. exact (conj R (conj R' T)).
Defined.

Lemma end_op_spec_witness : exists k', end_op trans1 = Ret tt k' /\ lg_n (k_log k') = 0.
Proof.
  destruct (end_op_spec ROOTDEV 2 3 ltac:(unfold ROOTDEV; lia) 30 area_ok 1 [0%nat] trans1 trans1_ok
    (NoDup_singleton _) eq_refl trans1_inv (pin0_lock _ _ (proj2 (log_base_locks (log_cfg 1 40)))) eq_refl)
    as (k' & R & _ & H & _).
  exists k'. split; [exact R|]. exact (proj1 (H eq_refl)).
Defined.

