(* ===== verification/Trans.v ===== *)
(** * Trans: reading and updating blocks inside a transaction

    What fs.c relies on between begin_op() and end_op(): bread() of a block gives
    its current contents, and bread(), a change, log_write() and brelse() replace
    the contents of that block, for the running transaction, and of no other.
    [J] lists the buffers the transaction has pinned and [held] those the caller
    holds locked. *)

From Stdlib Require Import ZArith Lia.
From stdpp Require Import base gmap list strings.
From S2P Require Import Prelude Bytes State Spinlock Sched Sleeplock Bio Log.

(** A change of the data of a buffer. *)
Definition upd_data (b : nat) (f : list Z -> list Z) : K unit :=
  upd_buf b (fun x => set_b_data (f (b_data x)) x).

Lemma upd_data_run b f k : upd_data b f k =
  Ret tt (set_k_bufs (alter (set_b_data (f (b_data (buf_at b k)))) b (k_bufs k)) k).
Proof.
  unfold upd_data, upd_buf, modify. do 2 f_equal. apply list_alter_ext; [|done].
  intros x Hx. unfold buf_at. by rewrite Hx.
Qed.

(** The blocks recorded in the log's header. *)
Definition logged (k : kstate) : gset Z :=
  list_to_set (lg_at (k_log k) <$> seq 0 (Z.to_nat (lg_n (k_log k)))).

(** The changes a transaction makes: to the cache and the log, never to what the
    file system keeps in memory.  The blocks it adds to the log are in [Y]. *)
Definition tr_step (Y : gset Z) (k k' : kstate) : Prop :=
  (exists k1 lg, bio_step k k1 /\ k' = set_k_log lg k1) /\ logged k' ⊆ logged k ∪ Y.

Lemma tr_step_bio Y k k' : bio_step k k' -> tr_step Y k k'.
Proof.
  intros Hs. split; [exists k', (k_log k'); split; [done|by destruct k']|].
  destruct Hs as (bs & sl & d & ws & v & ps & -> & _). change (logged (set_k_bufs _ _)) with (logged k). set_solver.
Qed.

Lemma tr_step_refl Y k : tr_step Y k k.
Proof. apply tr_step_bio, bio_step_refl. Qed.

Lemma bio_step_set_log k k' lg : bio_step k k' -> bio_step (set_k_log lg k) (set_k_log lg k').
Proof.
  intros (bs & sl & d & ws & v & ps & -> & Hw). exists bs, sl, d, ws, v, ps. by split.
Qed.

Lemma tr_step_union Y Z k1 k2 k3 : tr_step Y k1 k2 -> tr_step Z k2 k3 -> tr_step (Y ∪ Z) k1 k3.
Proof.
  intros [(a & lg & Ha & ->) H1] [(b & lg' & Hb & ->) H2]. split; [|set_solver].
  exists (set_k_log (k_log a) b), lg'. split; [|by destruct b].
  eapply bio_step_trans; [exact Ha|]. replace a with (set_k_log (k_log a) (set_k_log lg a)) at 1 by by destruct a.
  by apply bio_step_set_log.
Qed.

Lemma tr_step_weaken Y Z k k' : tr_step Y k k' -> Y ⊆ Z -> tr_step Z k k'.
Proof. intros [H1 H2] HY. split; [done|set_solver]. Qed.

Lemma tr_step_trans Y k1 k2 k3 : tr_step Y k1 k2 -> tr_step Y k2 k3 -> tr_step Y k1 k3.
Proof. intros H1 H2. eapply tr_step_weaken; [by eapply tr_step_union|set_solver]. Qed.

Lemma tr_step_frame Y k k' : tr_step Y k k' ->
  k_inodes k' = k_inodes k /\ k_sb k' = k_sb k /\ k_files k' = k_files k /\ k_locks k' = k_locks k /\
  k_cpu k' = k_cpu k /\ k_hart k' = k_hart k /\ k_mem k' = k_mem k /\ woken (k_procs k) (k_procs k').
Proof. intros [(a & lg & (bs & sl & d & ws & v & ps & -> & Hw) & ->) _]. done. Qed.

Lemma held_release (i : nat) (held : gset nat) : i ∉ held -> ({[i]} ∪ held) ∖ {[i]} = held.
Proof. set_solver. Qed.

(** A block of [n] buffers leaves one out. *)
Lemma free_buffer (J : list nat) (held : gset nat) : (length J + size held < HEAD)%nat ->
  exists f, (f < HEAD)%nat /\ f ∉ held /\ f ∉ J.
Proof.
  intros Hn. destruct (some_free (J ++ elements held)) as (f & Hf & Hin).
  - rewrite length_app. change (length (elements held)) with (size held). lia.
  - exists f. rewrite not_elem_of_app, elem_of_elements in Hin. tauto.
Qed.

Lemma logged_appended k b bs : 0 <= lg_n (k_log k) -> (Z.to_nat (lg_n (k_log k)) < length (lg_block (k_log k)))%nat ->
  logged (set_k_log (log_appended b (k_log k)) (set_k_bufs bs k)) = logged k ∪ {[b]}.
Proof.
  intros Hn Hlt. unfold logged, log_appended. cbn [k_log set_k_log set_k_bufs lg_n set_lg_n set_lg_block].
  replace (Z.to_nat (lg_n (k_log k) + 1)) with (Z.to_nat (lg_n (k_log k)) + 1)%nat by lia.
  rewrite seq_app, fmap_app, list_to_set_app_L. f_equal.
  - f_equal. apply list_fmap_ext. intros j x Hj. apply lookup_seq in Hj as [-> Hj].
    unfold lg_at. cbn [lg_block set_lg_n set_lg_block]. by rewrite list_lookup_insert_ne by lia.
  - cbn. unfold lg_at. cbn [lg_block set_lg_n set_lg_block]. rewrite list_lookup_insert_eq by done. cbn. set_solver.
Qed.

Section transaction.
Context `{Disk}.
Variables (D start size : Z) (p : nat).
Hypothesis D_ok : 0 < D < 2 ^ 31.
Hypothesis start_ok : 0 <= start /\ 0 < size /\ start + size < 2 ^ 31.

#[local] Abbreviation inv := (bio_inv D p).
#[local] Abbreviation vw := (view D).

Record in_trans (J : list nat) (held : gset nat) (k : kstate) : Prop := {
  it_nodup : NoDup J;
  it_ok : trans_ok D start size (length J) J k;
  it_inv : inv held (pins_of J) k;
  it_lock : lock_free k LLog;
  it_block : length (lg_block (k_log k)) = Z.to_nat LOGSIZE;
  it_size : lg_size (k_log k) = size;
  it_out : 1 <= lg_outstanding (k_log k) }.

(** The log has room for one more block, and the cache a free buffer for it. *)
Definition room (J : list nat) (held : gset nat) : Prop :=
  (S (length J) < HEAD)%nat /\ Z.of_nat (length J) + 2 <= size /\
  (length J + base.size held < HEAD)%nat.

(** A buffer that may be given back: pinned, or as on disk. *)
Definition releasable (J : list nat) (i : nat) (k : kstate) : Prop :=
  i ∈ J \/ b_data (buf_at i k) = block_of (k_disk k) (b_blockno (buf_at i k)).

Lemma pins_of_in J i : pins_of J i <> 0 <-> i ∈ J.
Proof. unfold pins_of. by destruct (decide (i ∈ J)). Qed.

Lemma in_trans_step J held held' k k' : in_trans J held k -> bio_step k k' ->
  inv held' (pins_of J) k' -> (forall j, j ∈ J -> b_blockno (buf_at j k') = b_blockno (buf_at j k)) ->
  in_trans J held' k'.
Proof.
  intros [Hnd [H1 H2 H3 H4 H5 H6] Hi Hl Hb Hs Ho] Hst Hi' Hbn.
  pose proof (bio_step_log _ _ Hst) as El. split; try (by rewrite El); try done.
  - split; unfold log_at in *; rewrite ?El; try done.
    intros t j Hj. destruct (H6 t j Hj) as [Hlt E]. split; [done|]. rewrite <- E. apply Hbn. by apply list_elem_of_lookup_2 in Hj.
  - by eapply bio_step_lock.
Qed.

(** A buffer that has just been read can be released. *)
Lemma bread_clean held pins k b f : inv held pins k -> bno_ok b -> (forall i, i ∈ held -> b_blockno (buf_at i k) <> b) ->
  (f < HEAD)%nat -> f ∉ held -> pins f = 0 ->
  exists i k', bread D b k = Ret i k' /\ (i < HEAD)%nat /\ i ∉ held /\ inv ({[i]} ∪ held) pins k' /\ bio_step k k' /\
    b_blockno (buf_at i k') = b /\ b_data (buf_at i k') = vw k b /\ (forall b', vw k' b' = vw k b') /\
    (pins i <> 0 \/ b_data (buf_at i k') = block_of (k_disk k') (b_blockno (buf_at i k'))) /\
    (forall j, j <> i -> buf_at j k' = buf_at j k) /\ (pins i <> 0 -> core (buf_at i k') = core (buf_at i k)) /\
    k_disk k' = k_disk k.
Proof using H D p.
  clear D_ok start_ok.
  intros Hk Hb Hne Hf Hfh Hpf.
  destruct (bread_spec D p held pins k b Hk) as (i & k' & R & Hi & Hih & I & S & B & Dt & V & Kd & W & O & P).
  { split; [done|]. right. by exists f. }
  { exact Hb. }
  exists i, k'. split_and!; try done.
  destruct (decide (pins i = 0)) as [Hin|Hnin]; [right|by left]. rewrite Dt, B, Kd.
  destruct (view_cases D p held pins k b Hk) as [(i0 & H0 & Hv & Hd & Hb0 & ->)|[_ ->]]; [|done].
  rewrite <- Hb0. apply (bi_clean _ _ _ _ _ Hk); [done| | |done].
  - intros Hin0. by apply (Hne i0).
  - destruct (decide (i0 = i)) as [->|Hn]; [done|exfalso]. apply Hn.
    pose proof (bi_used _ _ _ _ _ I i Hi ltac:(left; set_solver)) as Hvi. apply (bi_uniq _ _ _ _ _ I); try done.
    + by rewrite O.
    + by apply (bi_dev _ _ _ _ _ I).
    + rewrite O, Hb0, B by done. done.
Qed.

(** bread() *)
Lemma trans_read J held k b : in_trans J held k -> bno_ok b ->
  (forall i, i ∈ held -> b_blockno (buf_at i k) <> b) -> (length J + base.size held < HEAD)%nat ->
  exists i k', bread D b k = Ret i k' /\ (i < HEAD)%nat /\ i ∉ held /\ in_trans J ({[i]} ∪ held) k' /\ bio_step k k' /\
    b_blockno (buf_at i k') = b /\ b_data (buf_at i k') = vw k b /\
    (forall b', vw k' b' = vw k b') /\ releasable J i k' /\
    (forall j, j ∈ held -> buf_at j k' = buf_at j k) /\ k_disk k' = k_disk k.
Proof using D_ok start_ok.
  intros Hit Hb Hne Hroom. destruct (free_buffer J held Hroom) as (f & Hf & Hfh & HfJ).
  destruct (bread_clean held (pins_of J) k b f (it_inv _ _ _ Hit) Hb Hne Hf Hfh) as
    (i & k' & R & Hi & Hih & I & S & B & Dt & V & Hcl & O & P & Kd).
  { unfold pins_of. by rewrite decide_False. }
  exists i, k'. split_and!; try done.
  - apply (in_trans_step J held _ k); try done. intros j Hj. destruct (decide (j = i)) as [->|Hji].
    + destruct (core_eq _ _ (P ltac:(by apply pins_of_in))) as (_ & _ & E & _). exact E.
    + by rewrite O.
  - destruct Hcl as [Hc|Hc]; [left; by apply pins_of_in|by right].
  - intros j Hj. apply O. intros ->. done.
Qed.

(** brelse() *)
Lemma trans_release J held k i : in_trans J held k -> i ∈ held -> releasable J i k ->
  exists k', brelse i k = Ret tt k' /\ in_trans J (held ∖ {[i]}) k' /\ bio_step k k' /\
    (forall j, core (buf_at j k') = core (buf_at j k)) /\ (forall b, vw k' b = vw k b) /\ k_disk k' = k_disk k.
Proof.
  intros Hit Hi Hr. destruct (brelse_spec D p held (pins_of J) k i (it_inv _ _ _ Hit) Hi) as
    (k' & R & I & S & Kd & W & C & V).
  { destruct Hr as [Hr|Hr]; [left; by apply pins_of_in|by right]. }
  exists k'. split_and!; try done. apply (in_trans_step J held _ k); try done.
  intros j _. by destruct (core_eq _ _ (C j)) as (_ & _ & E & _).
Qed.

(** A change of the contents of a held buffer. *)
Lemma trans_set J held k i d : in_trans J held k -> i ∈ held -> block_ok d ->
  let k' := set_k_bufs (alter (set_b_data d) i (k_bufs k)) k in
  in_trans J held k' /\ bio_step k k' /\
  (forall b, vw k' b = if decide (b = b_blockno (buf_at i k)) then d else vw k b) /\
  (forall j, b_blockno (buf_at j k') = b_blockno (buf_at j k)) /\
  (forall j, j <> i -> buf_at j k' = buf_at j k).
Proof.
  intros Hit Hi Hd k'. destruct (set_data_spec D p held (pins_of J) k i d (it_inv _ _ _ Hit) Hi Hd) as (I & S & V).
  assert (Hb : forall j, buf_at j k' = if decide (j = i) then set_b_data d (buf_at i k) else buf_at j k).
  { intros j. apply set_data_buf. rewrite (bi_len _ _ _ _ _ (it_inv _ _ _ Hit)).
    destruct (bi_held _ _ _ _ _ (it_inv _ _ _ Hit) i Hi). lia. }
  assert (Hn : forall j, b_blockno (buf_at j k') = b_blockno (buf_at j k)).
  { intros j. rewrite Hb. by case_decide as E; [rewrite E|]. }
  split_and!; try done; [by apply (in_trans_step J held _ k)|]. intros j Hj. rewrite Hb. by rewrite decide_False.
Qed.

(** log_write() *)
Lemma trans_log J held k i : in_trans J held k -> i ∈ held -> room J held ->
  home start size (b_blockno (buf_at i k)) ->
  exists J' k', log_write i k = Ret tt k' /\ in_trans J' held k' /\ tr_step {[b_blockno (buf_at i k)]} k k' /\ i ∈ J' /\
    J ⊆ J' /\ (length J' <= S (length J))%nat /\ (forall b, vw k' b = vw k b) /\
    (forall j, core (buf_at j k') = core (buf_at j k)) /\ k_disk k' = k_disk k.
Proof.
  intros Hit Hi (R1 & R2 & R3) Hh. pose proof Hit as [Hnd Htr Hk Hl Hlen Hsz Ho].
  pose proof (bi_env _ _ _ _ _ Hk) as [[Hok _ _ _ _ _] _ _ Hlb _].
  pose proof (tr_n _ _ _ _ _ _ Htr) as En. assert (HLH : Z.to_nat LOGSIZE = HEAD) by reflexivity.
  assert (HL : LOGSIZE = 30) by reflexivity.
  destruct (decide (b_blockno (buf_at i k) ∈ lg_at (k_log k) <$> seq 0 (length J))) as [Hin|Hnin].
  - apply list_elem_of_fmap in Hin as (j & Ej & Hj%elem_of_seq).
    exists J, k. split_and!; try done; [|apply tr_step_refl| |lia].
    + apply (log_write_absorbed k i j); try done; try (rewrite ?En, ?Hsz; lia).
      * by destruct Hh.
      * intros t Ht. rewrite En, Nat2Z.id in Ht. by eapply trans_bno.
    + destruct (lookup_lt_is_Some_2 J j ltac:(lia)) as [x Hx].
      destruct (tr_pinned _ _ _ _ _ _ Htr j x Hx) as [Hlt Ex].
      destruct (bi_held _ _ _ _ _ Hk i Hi) as [Hil _].
      replace i with x; [by apply list_elem_of_lookup_2 in Hx|].
      apply (bi_uniq _ _ _ _ _ Hk); try done; [| |congruence].
      * apply (bi_dev _ _ _ _ _ Hk); [done|]. apply (bi_used _ _ _ _ _ Hk); [done|]. right. apply pins_of_in. by apply list_elem_of_lookup_2 in Hx.
      * apply (bi_dev _ _ _ _ _ Hk); [done|]. apply (bi_used _ _ _ _ _ Hk); [done|]. by left.
  - assert (Hnew : forall t, (t < length J)%nat -> lg_at (k_log k) t <> b_blockno (buf_at i k)).
    { intros t Ht Et. apply Hnin. apply list_elem_of_fmap. exists t. split; [done|]. apply elem_of_seq. lia. }
    destruct (log_write_extends D start p D_ok size start_ok (length J) J k i held) as (T1 & T2 & T3 & T4); try done.
    eexists (J ++ [i]), _. split.
    { apply log_write_new; try done; try (rewrite ?En, ?Hsz; lia); [by destruct Hh|].
      intros j Hj. rewrite En, Nat2Z.id in Hj. pose proof (trans_bno _ _ _ _ J k j Htr Hj) as Hb.
      unfold bno_ok in Hb. rewrite u32_small by lia. by apply Hnew. }
    split_and!.
    + split; try done; [by rewrite length_app, Nat.add_1_r|]. cbn. by rewrite length_insert.
    + split; [eexists _, _; split; [|reflexivity]; apply bio_step_bufs|].
      by rewrite logged_appended by (rewrite ?Hlen, ?En; lia).
    + set_solver.
    + set_solver.
    + rewrite length_app. cbn. lia.
    + done.
    + intros j. change (buf_at j (set_k_log ?a ?b)) with (buf_at j b).
      rewrite buf_at_upd by (rewrite (bi_len _ _ _ _ _ Hk); destruct (bi_held _ _ _ _ _ Hk i Hi); lia).
      by case_decide as E; [rewrite E|].
    + done.
Qed.

(** The pinned buffers hold the logged blocks, one each. *)
Lemma logged_size J held k : in_trans J held k -> base.size (logged k) = length J.
Proof.
  intros [Hnd Htr Hk _ _ _ _]. unfold logged. rewrite (tr_n _ _ _ _ _ _ Htr), Nat2Z.id.
  rewrite size_list_to_set, length_fmap, length_seq; [done|]. apply NoDup_fmap_2_strong; [|apply NoDup_seq].
  intros t u Ht Hu E. apply elem_of_seq in Ht, Hu.
  destruct (lookup_lt_is_Some_2 J t ltac:(lia)) as [x Hx]. destruct (lookup_lt_is_Some_2 J u ltac:(lia)) as [y Hy].
  destruct (tr_pinned _ _ _ _ _ _ Htr t x Hx) as [Hxl Ex]. destruct (tr_pinned _ _ _ _ _ _ Htr u y Hy) as [Hyl Ey].
  assert (Hdev : forall z, z ∈ J -> (z < HEAD)%nat -> b_dev (buf_at z k) = D).
  { intros z Hz Hzl. apply (bi_dev _ _ _ _ _ Hk); [done|]. apply (bi_used _ _ _ _ _ Hk); [done|]. right. by apply pins_of_in. }
  assert (x = y) as ->.
  { apply (bi_uniq _ _ _ _ _ Hk); try done; [apply Hdev|apply Hdev|congruence]; try done; by eapply list_elem_of_lookup_2. }
  by eapply NoDup_lookup.
Qed.

(** The three calls that end an update of a held buffer. *)
Lemma trans_write J held k i f : in_trans J held k -> i ∈ held -> room J held ->
  home start size (b_blockno (buf_at i k)) -> block_ok (f (b_data (buf_at i k))) ->
  exists k1 J' k2 k3, upd_data i f k = Ret tt k1 /\ log_write i k1 = Ret tt k2 /\ brelse i k2 = Ret tt k3 /\
    in_trans J' (held ∖ {[i]}) k3 /\ tr_step {[b_blockno (buf_at i k)]} k k3 /\ J ⊆ J' /\ (length J' <= S (length J))%nat /\
    (forall b, vw k3 b = if decide (b = b_blockno (buf_at i k)) then f (b_data (buf_at i k)) else vw k b) /\
    (forall j, j <> i -> core (buf_at j k3) = core (buf_at j k)).
Proof.
  intros Hit Hi Hroom Hh Hd. destruct (trans_set J held k i _ Hit Hi Hd) as (I1 & S1 & V1 & B1 & O1).
  set (k1 := set_k_bufs _ _) in *.
  destruct (trans_log J held k1 i I1 Hi Hroom) as (J' & k2 & R2 & I2 & S2 & Hin & HJ & Hlen & V2 & C2 & _).
  { by rewrite B1. }
  rewrite B1 in S2. destruct (trans_release J' held k2 i I2 Hi (or_introl Hin)) as (k3 & R3 & I3 & S3 & C3 & V3 & _).
  exists k1, J', k2, k3. split_and!; try done.
  - apply upd_data_run.
  - eapply tr_step_trans; [by apply tr_step_bio|]. eapply tr_step_trans; [exact S2|]. by apply tr_step_bio.
  - intros b. by rewrite V3, V2, V1.
  - intros j Hj. by rewrite C3, C2, O1.
Qed.

(** A whole update: what bzero(), iupdate() and the like do. *)
Lemma trans_update J held k b f : in_trans J held k -> home start size b ->
  (forall i, i ∈ held -> b_blockno (buf_at i k) <> b) ->
  (S (length J) < HEAD)%nat -> Z.of_nat (length J) + 2 <= size -> (S (length J + base.size held) < HEAD)%nat ->
  block_ok (f (vw k b)) ->
  exists i k0 k1 J' k2 k3, bread D b k = Ret i k0 /\ tr_step {[b]} k k0 /\ b_data (buf_at i k0) = vw k b /\
    upd_data i f k0 = Ret tt k1 /\ log_write i k1 = Ret tt k2 /\
    brelse i k2 = Ret tt k3 /\ in_trans J' held k3 /\ tr_step {[b]} k k3 /\ J ⊆ J' /\ (length J' <= S (length J))%nat /\
    (forall b', vw k3 b' = if decide (b' = b) then f (vw k b) else vw k b') /\
    (forall j, j ∈ held -> core (buf_at j k3) = core (buf_at j k)).
Proof.
  intros Hit Hh Hne R1 R2 R3 Hf.
  destruct (trans_read J held k b Hit (proj1 Hh) Hne ltac:(lia)) as
    (i & k0 & Rd & Hi & Hih & I0 & S0 & B0 & D0 & V0 & _ & O0 & _).
  destruct (trans_write J ({[i]} ∪ held) k0 i f) as
    (k1 & J' & k2 & k3 & W1 & W2 & W3 & I3 & S3 & HJ & Hlen & V3 & C3); try done.
  - set_solver.
  - split_and!; [done|done|]. rewrite size_union by set_solver. rewrite size_singleton. lia.
  - by rewrite B0.
  - by rewrite D0.
  - exists i, k0, k1, J', k2, k3. split_and!; try done.
    + by apply tr_step_bio.
    + by rewrite held_release in I3.
    + rewrite B0 in S3. eapply tr_step_trans; [by apply tr_step_bio|done].
    + intros b'. by rewrite V3, B0, D0, V0.
    + intros j Hj. rewrite C3 by (intros ->; done). by rewrite O0.
Qed.

End transaction.

(** The inode table and the superblock in memory are no part of a transaction. *)
Section inodes.
Context `{Disk}.

Lemma in_trans_inodes D start size p J held k l : in_trans D start size p J held k ->
  in_trans D start size p J held (set_k_inodes l k).
Proof.
  intros [Hnd [H1 H2 H3 H4 H5 H6] Hi Hl Hb Hs Ho]. split; try done.
  destruct Hi as [[Hth Hr Hd Hlb Hsl] I2 I3 I4 I5 I6 I7 I8 I9 I10 I11 I12 I13]. split; try done.
  split; try done; [by apply (thread_ok_ext p k)|]. by apply (disk_ok_ext k).
Qed.

Lemma in_trans_sb D start size p J held k sb : in_trans D start size p J held k ->
  in_trans D start size p J held (set_k_sb sb k).
Proof.
  intros [Hnd [H1 H2 H3 H4 H5 H6] Hi Hl Hb Hs Ho]. split; try done.
  destruct Hi as [[Hth Hr Hd Hlb Hsl] I2 I3 I4 I5 I6 I7 I8 I9 I10 I11 I12 I13]. split; try done.
  split; try done; [by apply (thread_ok_ext p k)|]. by apply (disk_ok_ext k).
Qed.

End inodes.

(** The booted kernel in a transaction that has logged nothing yet. *)
Lemma trans_base : in_trans ROOTDEV 2 30 3 [] ∅ (log_base (log_cfg 0 0)).
Proof.
  assert (El : k_log (log_base (log_cfg 0 0)) = log_cfg 0 0) by reflexivity.
  destruct (empty_trans (log_base (log_cfg 0 0)) El) as (T0 & L0 & Z0 & O0).
  split; [apply NoDup_nil_2|exact T0|exact (log_base_inv (log_cfg 0 0))|
    exact (proj2 (log_base_locks (log_cfg 0 0)))|exact L0|exact Z0|exact O0].
Qed.
