(* ===== verification/Vm.v ===== *)
(** * Vm: page tables and user memory (kernel/vm.c, proc_mapstacks of proc.c)

    A page table lives in physical memory: a [pagetable] is the address of a page
    of 512 entries of 64 bits, and a pointer to an entry is its address, 0 being
    the null pointer.  The kernel side of a copy to or from user memory is a list
    of bytes.  [kend], [etext] and [trampoline] are the linker symbols.

    The proofs relate the tables in memory to a tree of pages, a map from the path
    of indices that leads to a table page to the address of that page, and read
    user mappings through [leaf], the entry of a virtual address. *)

From Stdlib Require Import ZArith Lia.
From stdpp Require Import base gmap list strings.
From S2P Require Import Prelude Bytes State Riscv Spinlock Sched Sleeplock Mem Kalloc.

#[local] Opaque memset store64 load64.

(** The bytes of page [d] are the same. *)
Abbreviation kept k k' d := (forall a, in_page d a -> ld (k_mem k') a = ld (k_mem k) a).

(** A page table: the path of indices to each table page. *)
Abbreviation tree := (gmap (list Z) Z).

Section vm.
Variables kend etext trampoline : Z.

Definition rd64 (a : Z) : K Z := gets (fun k => load64 (k_mem k) a).
Definition wr64 (a v : Z) : K unit := modify (fun k => set_k_mem (store64 (k_mem k) a v) k).
Definition mem_set (a c n : Z) : K unit := modify (fun k => set_k_mem (memset (k_mem k) a c n) k).
Definition mem_move (d s n : Z) : K unit := modify (fun k => set_k_mem (memmove (k_mem k) d s n) k).

(** One level of the loop of walk(): the next table, or None for [return 0]. *)
Definition walk_level (pagetable va : Z) (alloc : bool) (level : Z) : K (option Z) :=
  let pte := pagetable + 8 * PX level va in
  let! e := rd64 pte in
  if truth (Z.land e PTE_V) then ret (Some (PTE2PA e)) else
  if negb alloc then ret None else
  let! pagetable := kalloc in
  if pagetable =? 0 then ret None else
  do! mem_set pagetable 0 PGSIZE;
  do! wr64 pte (Z.lor (PA2PTE pagetable) PTE_V);
  ret (Some pagetable).

Definition walk (pagetable va : Z) (alloc : bool) : K Z :=
  if MAXVA <=? va then panic "walk" else
  let! t1 := walk_level pagetable va alloc 2 in
  match t1 with
  | None => ret 0
  | Some t1 =>
      let! t0 := walk_level t1 va alloc 1 in
      match t0 with
      | None => ret 0
      | Some t0 => ret (t0 + 8 * PX 0 va)
      end
  end.

Definition walkaddr (pagetable va : Z) : K Z :=
  if MAXVA <=? va then ret 0 else
  let! pte := walk pagetable va false in
  if pte =? 0 then ret 0 else
  let! e := rd64 pte in
  if Z.land e PTE_V =? 0 then ret 0 else
  if Z.land e PTE_U =? 0 then ret 0 else
  ret (PTE2PA e).

(** One iteration of the loop of mappages(), at (a, pa). *)
Definition mappages_body (pagetable last perm : Z) (x : Z * Z) : K (Z * Z + Z) :=
  let '(a, pa) := x in
  let! pte := walk pagetable a true in
  if pte =? 0 then ret (inr (-1)) else
  let! e := rd64 pte in
  if truth (Z.land e PTE_V) then panic "mappages: remap" else
  do! wr64 pte (Z.lor (Z.lor (PA2PTE pa) perm) PTE_V);
  if a =? last then ret (inr 0) else
  ret (inl (u64 (a + PGSIZE), u64 (pa + PGSIZE))).

(** The loop makes at most one iteration per page of [size]. *)
Definition mappages (pagetable va size pa perm : Z) : K Z :=
  if negb (va mod PGSIZE =? 0) then panic "mappages: va not aligned" else
  if negb (size mod PGSIZE =? 0) then panic "mappages: size not aligned" else
  if size =? 0 then panic "mappages: size" else
  let last := u64 (va + size - PGSIZE) in
  loop (Z.to_nat (size / PGSIZE)) (mappages_body pagetable last perm) (va, pa).

Definition kvmmap (kpgtbl va pa sz perm : Z) : K unit :=
  let! r := mappages kpgtbl va sz pa perm in
  if negb (r =? 0) then panic "kvmmap" else ret tt.

(** proc.c: a kernel stack for each process, with a guard page below it. *)
Definition proc_mapstacks (kpgtbl : Z) : K unit :=
  for_each proc_indices (fun p =>
    let! pa := kalloc in
    if pa =? 0 then panic "kalloc" else
    kvmmap kpgtbl (KSTACK (Z.of_nat p)) pa PGSIZE (Z.lor PTE_R PTE_W)).

Definition kvmmake : K Z :=
  let! kpgtbl := kalloc in
  do! mem_set kpgtbl 0 PGSIZE;
  do! kvmmap kpgtbl UART0 UART0 PGSIZE (Z.lor PTE_R PTE_W);
  do! kvmmap kpgtbl VIRTIO0 VIRTIO0 PGSIZE (Z.lor PTE_R PTE_W);
  do! kvmmap kpgtbl PLIC PLIC 0x4000000 (Z.lor PTE_R PTE_W);
  do! kvmmap kpgtbl KERNBASE KERNBASE (u64 (etext - KERNBASE)) (Z.lor PTE_R PTE_X);
  do! kvmmap kpgtbl etext etext (u64 (PHYSTOP - etext)) (Z.lor PTE_R PTE_W);
  do! kvmmap kpgtbl TRAMPOLINE trampoline PGSIZE (Z.lor PTE_R PTE_X);
  do! proc_mapstacks kpgtbl;
  ret kpgtbl.

Definition kvminit : K unit :=
  let! kpgtbl := kvmmake in
  modify (set_k_kernel_pagetable kpgtbl).

Definition kvminithart : K unit :=
  do! sfence_vma;
  let! kpgtbl := gets k_kernel_pagetable in
  do! w_satp (MAKE_SATP kpgtbl);
  sfence_vma.

Definition uvmunmap_body (pagetable stop : Z) (do_free : bool) (a : Z) : K (Z + unit) :=
  if negb (a <? stop) then ret (inr tt) else
  let! pte := walk pagetable a false in
  if pte =? 0 then panic "uvmunmap: walk" else
  let! e := rd64 pte in
  if Z.land e PTE_V =? 0 then panic "uvmunmap: not mapped" else
  if PTE_FLAGS e =? PTE_V then panic "uvmunmap: not a leaf" else
  do! (if do_free then kfree kend (PTE2PA e) else ret tt);
  do! wr64 pte 0;
  ret (inl (u64 (a + PGSIZE))).

Definition uvmunmap (pagetable va npages : Z) (do_free : bool) : K unit :=
  if negb (va mod PGSIZE =? 0) then panic "uvmunmap: not aligned" else
  loop (S (Z.to_nat npages)) (uvmunmap_body pagetable (u64 (va + npages * PGSIZE)) do_free) va.

Definition uvmcreate : K Z :=
  let! pagetable := kalloc in
  if pagetable =? 0 then ret 0 else
  do! mem_set pagetable 0 PGSIZE;
  ret pagetable.

(** [src] is the [sz] bytes of initcode. *)
Definition uvmfirst (pagetable : Z) (src : list Z) : K unit :=
  if PGSIZE <=? Z.of_nat (length src) then panic "uvmfirst: more than a page" else
  let! mem := kalloc in
  do! mem_set mem 0 PGSIZE;
  let! _ := mappages pagetable 0 PGSIZE mem (Z.lor (Z.lor (Z.lor PTE_W PTE_R) PTE_X) PTE_U) in
  modify (fun k => set_k_mem (store_bytes (k_mem k) mem src) k).

Definition uvmdealloc (pagetable oldsz newsz : Z) : K Z :=
  if oldsz <=? newsz then ret oldsz else
  do! (if PGROUNDUP newsz <? PGROUNDUP oldsz then
         let npages := i32 ((PGROUNDUP oldsz - PGROUNDUP newsz) / PGSIZE) in
         uvmunmap pagetable (PGROUNDUP newsz) npages true
       else ret tt);
  ret newsz.

Definition uvmalloc_body (pagetable oldsz newsz xperm a : Z) : K (Z + Z) :=
  if negb (a <? newsz) then ret (inr newsz) else
  let! mem := kalloc in
  if mem =? 0 then do! uvmdealloc pagetable a oldsz; ret (inr 0) else
  do! mem_set mem 0 PGSIZE;
  let! r := mappages pagetable a PGSIZE mem (Z.lor (Z.lor PTE_R PTE_U) xperm) in
  if negb (r =? 0) then
    do! kfree kend mem; do! uvmdealloc pagetable a oldsz; ret (inr 0)
  else ret (inl (u64 (a + PGSIZE))).

Definition uvmalloc (pagetable oldsz newsz xperm : Z) : K Z :=
  if newsz <? oldsz then ret oldsz else
  let oldsz := PGROUNDUP oldsz in
  loop (S (Z.to_nat ((newsz - oldsz + PGSIZE - 1) / PGSIZE))) (uvmalloc_body pagetable oldsz newsz xperm) oldsz.

(** The recursion follows the levels of the tree; [depth] is 3 for a whole table. *)
Fixpoint freewalk (depth : nat) (pagetable : Z) : K unit :=
  match depth with
  | O => fun _ => NoFuel
  | S depth' =>
      do! for_each (seq 0 512) (fun i =>
        let slot := pagetable + 8 * Z.of_nat i in
        let! pte := rd64 slot in
        if truth (Z.land pte PTE_V) && (Z.land pte (Z.lor (Z.lor PTE_R PTE_W) PTE_X) =? 0) then
          do! freewalk depth' (PTE2PA pte); wr64 slot 0
        else if truth (Z.land pte PTE_V) then panic "freewalk: leaf"
        else ret tt);
      kfree kend pagetable
  end.

Definition uvmfree (pagetable sz : Z) : K unit :=
  do! (if 0 <? sz then uvmunmap pagetable 0 (PGROUNDUP sz / PGSIZE) true else ret tt);
  freewalk 3 pagetable.

Definition uvmcopy_body (old new sz i : Z) : K (Z + Z) :=
  if negb (i <? sz) then ret (inr 0) else
  let! pte := walk old i false in
  if pte =? 0 then panic "uvmcopy: pte should exist" else
  let! e := rd64 pte in
  if Z.land e PTE_V =? 0 then panic "uvmcopy: page not present" else
  let pa := PTE2PA e in
  let flags := PTE_FLAGS e in
  let err := do! uvmunmap new 0 (i / PGSIZE) true; ret (inr (-1)) in
  let! mem := kalloc in
  if mem =? 0 then err else
  do! mem_move mem pa PGSIZE;
  let! r := mappages new i PGSIZE mem flags in
  if negb (r =? 0) then do! kfree kend mem; err else
  ret (inl (u64 (i + PGSIZE))).

Definition uvmcopy (old new sz : Z) : K Z :=
  loop (S (Z.to_nat ((sz + PGSIZE - 1) / PGSIZE))) (uvmcopy_body old new sz) 0.

Definition uvmclear (pagetable va : Z) : K unit :=
  let! pte := walk pagetable va false in
  if pte =? 0 then panic "uvmclear" else
  let! e := rd64 pte in
  wr64 pte (Z.land e (u64 (Z.lnot PTE_U))).

(** One page of copyout(), at (dstva, src); the length of [src] is [len]. *)
Definition copyout_body (pagetable : Z) (x : Z * list Z) : K (Z * list Z + Z) :=
  let '(dstva, src) := x in
  let len := Z.of_nat (length src) in
  if len =? 0 then ret (inr 0) else
  let va0 := PGROUNDDOWN dstva in
  if MAXVA <=? va0 then ret (inr (-1)) else
  let! pte := walk pagetable va0 false in
  let! e := rd64 pte in
  if (pte =? 0) || (Z.land e PTE_V =? 0) || (Z.land e PTE_U =? 0) || (Z.land e PTE_W =? 0) then
    ret (inr (-1)) else
  let pa0 := PTE2PA e in
  let n := Z.min (PGSIZE - (dstva - va0)) len in
  do! modify (fun k =>
        set_k_mem (store_bytes (k_mem k) (pa0 + (dstva - va0)) (take (Z.to_nat n) src)) k);
  ret (inl (u64 (va0 + PGSIZE), drop (Z.to_nat n) src)).

Definition copyout (pagetable dstva : Z) (src : list Z) : K Z :=
  loop (S (length src)) (copyout_body pagetable) (dstva, src).

(** One page of copyin(), at (srcva, len) with [dst] copied so far; the result is
    the status with the bytes stored at dst. *)
Definition copyin_body (pagetable : Z) (x : Z * Z * list Z) : K (Z * Z * list Z + Z * list Z) :=
  let '(srcva, len, dst) := x in
  if len =? 0 then ret (inr (0, dst)) else
  let va0 := PGROUNDDOWN srcva in
  let! pa0 := walkaddr pagetable va0 in
  if pa0 =? 0 then ret (inr (-1, dst)) else
  let n := Z.min (PGSIZE - (srcva - va0)) len in
  let! bs := gets (fun k => load_bytes (k_mem k) (pa0 + (srcva - va0)) (Z.to_nat n)) in
  ret (inl (u64 (va0 + PGSIZE), len - n, dst ++ bs)).

Definition copyin (pagetable srcva len : Z) : K (Z * list Z) :=
  loop (S (Z.to_nat len)) (copyin_body pagetable) (srcva, len, []).

(** The inner loop of copyinstr(): the bytes stored and whether one was NUL. *)
Fixpoint copy_until_nul (m : mem) (p : Z) (n : nat) : list Z * bool :=
  match n with
  | O => ([], false)
  | S n' =>
      if ld m p =? 0 then ([0], true)
      else let '(bs, got_null) := copy_until_nul m (p + 1) n' in (ld m p :: bs, got_null)
  end.

Definition copyinstr_body (pagetable : Z) (x : Z * Z * list Z) : K (Z * Z * list Z + Z * list Z) :=
  let '(srcva, max, dst) := x in
  if max =? 0 then ret (inr (-1, dst)) else
  let va0 := PGROUNDDOWN srcva in
  let! pa0 := walkaddr pagetable va0 in
  if pa0 =? 0 then ret (inr (-1, dst)) else
  let n := Z.min (PGSIZE - (srcva - va0)) max in
  let! r := gets (fun k => copy_until_nul (k_mem k) (pa0 + (srcva - va0)) (Z.to_nat n)) in
  let '(bs, got_null) := r in
  if got_null then ret (inr (0, dst ++ bs))
  else ret (inl (u64 (va0 + PGSIZE), max - n, dst ++ bs)).

Definition copyinstr (pagetable srcva max : Z) : K (Z * list Z) :=
  loop (S (Z.to_nat max)) (copyinstr_body pagetable) (srcva, max, []).

(** ** Entries *)

Lemma PX_range level va : 0 <= PX level va < 512.
Proof. unfold PX. rewrite Z.land_comm. apply (land_range 9); [lia|]. unfold PXMASK. lia. Qed.

Definition vpn (va : Z) : Z := va / PGSIZE.

Lemma PX_vpn level va : 0 <= va -> 0 <= level -> PX level va = vpn va / 512 ^ level mod 512.
Proof using.
  intros Hva Hl. unfold PX, PXSHIFT, PXMASK, PGSHIFT, vpn. change 0x1FF with (Z.ones 9).
  rewrite Z.land_ones, Z.shiftr_div_pow2 by lia. change 512 with (2 ^ 9). rewrite <- Z.pow_mul_r by lia.
  rewrite Z.pow_add_r by lia. assert (0 < 2 ^ (9 * level)) by (apply Z.pow_pos_nonneg; lia).
  change (2 ^ 12) with PGSIZE. rewrite Z.div_div; [done|done|lia].
Qed.

(** Addresses below MAXVA use half of the root table. *)
Lemma PX2_low va : 0 <= va < MAXVA -> PX 2 va < 256.
Proof using.
  intros H. rewrite PX_vpn by lia. change (512 ^ 2) with 262144. change MAXVA with 274877906944 in H.
  unfold vpn, PGSIZE. zlia.
Qed.

(** An entry: the page number shifted by ten and ten bits of flags. *)
Definition mk_pte (pa flags : Z) : Z := Z.lor (PA2PTE pa) flags.

Definition pa_ok (pa : Z) : Prop := pa mod PGSIZE = 0 /\ 0 <= pa < 2 ^ 56.

Lemma lor_add_shift a n f : 0 <= n -> 0 <= f < 2 ^ n -> Z.lor (a * 2 ^ n) f = a * 2 ^ n + f.
Proof using.
  intros Hn Hf. assert (Z.land (a * 2 ^ n) f = 0) as H.
  { apply Z.bits_inj'. intros i Hi. rewrite Z.land_spec, Z.bits_0. destruct (Z.ltb_spec i n).
    - rewrite Z.mul_pow2_bits_low by lia. done.
    - rewrite (bits_above f n) by lia. apply andb_false_r. }
  rewrite Z.add_nocarry_lxor by done. symmetry. by apply Z.lxor_lor.
Qed.

Lemma mk_pte_eq pa flags : pa_ok pa -> 0 <= flags < 1024 -> mk_pte pa flags = pa / PGSIZE * 1024 + flags.
Proof using.
  intros [Ha Hr] Hf. unfold mk_pte, PA2PTE. rewrite Z.shiftr_div_pow2, Z.shiftl_mul_pow2 by lia.
  change (2 ^ 12) with PGSIZE. rewrite u64_small by (unfold PGSIZE in *; zlia).
  by rewrite lor_add_shift by lia.
Qed.

Lemma PTE2PA_mk pa flags : pa_ok pa -> 0 <= flags < 1024 -> PTE2PA (mk_pte pa flags) = pa.
Proof using.
  intros Hp Hf. rewrite mk_pte_eq by done. destruct Hp as [Ha Hr]. unfold PTE2PA.
  rewrite Z.shiftr_div_pow2, Z.shiftl_mul_pow2 by lia. change (2 ^ 10) with 1024. change (2 ^ 12) with PGSIZE.
  rewrite Z.div_add_l, (Z.div_small flags), Z.add_0_r by lia.
  assert (pa / PGSIZE * PGSIZE = pa) as -> by (unfold PGSIZE in *; zlia). apply u64_small. lia.
Qed.

Lemma PTE_FLAGS_mk pa flags : pa_ok pa -> 0 <= flags < 1024 -> PTE_FLAGS (mk_pte pa flags) = flags.
Proof using.
  intros Hp Hf. rewrite mk_pte_eq by done. unfold PTE_FLAGS. change 0x3FF with (Z.ones 10).
  rewrite Z.land_ones by lia. change (2 ^ 10) with 1024.
  rewrite Z.add_comm, Z.mod_add, Z.mod_small by lia. done.
Qed.

Lemma mk_pte_range pa flags : pa_ok pa -> 0 <= flags < 1024 -> 0 <= mk_pte pa flags < 2 ^ 64.
Proof using. intros Hp Hf. rewrite mk_pte_eq by done. destruct Hp as [Ha Hr]. unfold PGSIZE in *. zlia. Qed.

(** The bits of the flags are those of the entry. *)
Lemma mk_pte_bit pa flags i : pa_ok pa -> 0 <= flags < 1024 -> 0 <= i < 10 ->
  Z.testbit (mk_pte pa flags) i = Z.testbit flags i.
Proof using.
  intros Hp Hf Hi. rewrite <- (PTE_FLAGS_mk pa flags) at 2 by done. unfold PTE_FLAGS.
  rewrite Z.land_spec. change 0x3FF with (Z.ones 10). rewrite Z.testbit_ones_nonneg by lia.
  destruct (Z.ltb_spec i 10); [by rewrite andb_true_r|lia].
Qed.

Lemma PTE_V_test e : truth (Z.land e PTE_V) = Z.testbit e 0.
Proof using. by apply truth_land_bit. Qed.

Lemma eqb0_truth z : (z =? 0) = negb (truth z).
Proof using. unfold truth. by rewrite negb_involutive. Qed.

(** ** The tree of a page table *)

Definition entry (m : mem) (p i : Z) : Z := load64 m (p + 8 * i).

(** What an entry that leads to the table [o] is. *)
Definition entry_to (e : Z) (o : option Z) : Prop :=
  match o with
  | Some q => e = mk_pte q PTE_V
  | None => Z.testbit e 0 = false
  end.

Record rep (m : mem) (root : Z) (t : tree) : Prop := {
  rep_root : t !! [] = Some root;
  rep_entry : forall path p i, t !! path = Some p -> (length path < 2)%nat -> 0 <= i < 512 ->
    entry_to (entry m p i) (t !! (path ++ [i]));
  rep_pages : forall path p, t !! path = Some p -> page_ok kend p /\ (length path <= 2)%nat;
  rep_closed : forall path i q, t !! (path ++ [i]) = Some q -> is_Some (t !! path) /\ 0 <= i < 512;
  rep_low : forall i path q, t !! (i :: path) = Some q -> i < 256;
  rep_inj : forall a b p, t !! a = Some p -> t !! b = Some p -> a = b }.

(** The entry that translates [va]; 0 if there is no table for it. *)
Definition leaf (m : mem) (t : tree) (va : Z) : Z :=
  match t !! [PX 2 va; PX 1 va] with
  | Some p => entry m p (PX 0 va)
  | None => 0
  end.

(** The allocator and a page table: every table page is allocated. *)
Record vm_inv (k : kstate) (l : list Z) (root : Z) (t : tree) : Prop := {
  vi_cpu : cpu_ok k;
  vi_lock : lock_free k LKmem;
  vi_free : kmem_ok kend k l;
  vi_rep : rep (k_mem k) root t;
  vi_used : forall path p, t !! path = Some p -> p ∉ l }.

Hypothesis kend_pos : 0 < kend.

Lemma page_pa_ok p : page_ok kend p -> pa_ok p.
Proof using kend_pos. intros (H1 & H2 & H3). split; [done|]. change PHYSTOP with 0x88000000 in H3. lia. Qed.

(** Entries of a page are in it. *)
Lemma entry_in_page p i b : 0 <= i < 512 -> p + 8 * i <= b < p + 8 * i + 8 -> in_page p b.
Proof using. unfold in_page, PGSIZE. lia. Qed.

Lemma entry_ext m m' p i : 0 <= i < 512 -> (forall a, in_page p a -> ld m' a = ld m a) ->
  entry m' p i = entry m p i.
Proof using. intros Hi Hm. apply load64_ext. intros b Hb. eapply Hm, entry_in_page; eauto. Qed.

Lemma rep_ext m m' root t : rep m root t ->
  (forall path p a, t !! path = Some p -> in_page p a -> ld m' a = ld m a) -> rep m' root t.
Proof using.
  intros [H1 H2 H3 H4 H4' H5] Hm. split; auto. intros path p i Hp Hl Hi.
  rewrite (entry_ext m m'); eauto.
Qed.

(** Storing entry [i] of table page [p]. *)
Lemma entry_store m p i v q j : 0 <= i < 512 -> 0 <= j < 512 -> page_ok kend p -> page_ok kend q -> 0 <= v < 2 ^ 64 ->
  entry (store64 m (p + 8 * i) v) q j = if decide (p = q /\ i = j) then v else entry m q j.
Proof using.
  intros Hi Hj (Hp & _) (Hq & _) Hv. unfold entry. case_decide as Hd.
  - destruct Hd as [-> ->]. by apply load64_store64.
  - apply load64_store64_other. unfold PGSIZE in *. zlia.
Qed.

(** Storing in a table of the last level changes no table of the tree. *)
Lemma rep_store_leaf m root t path p i v : rep m root t -> t !! path = Some p -> length path = 2%nat ->
  0 <= i < 512 -> 0 <= v < 2 ^ 64 -> rep (store64 m (p + 8 * i) v) root t.
Proof using.
  intros [H1 H2 H3 H4 H4' H5] Hp Hl Hi Hv. split; auto. intros path' p' j Hp' Hl' Hj.
  rewrite entry_store by (done || by eapply H3). rewrite decide_False; [auto|].
  intros [-> _]. assert (path = path') by eauto. subst. lia.
Qed.

(** ** walk() *)

(** A page of the tree. *)
Definition in_tree (t : tree) (p : Z) : Prop := exists path, t !! path = Some p.

(** [k'] is [k] after page-table pages were added and entries written: the bytes
    outside the table pages are the same. *)
Record grows (k k' : kstate) (l l' : list Z) (root : Z) (t t' : tree) : Prop := {
  g_inv : vm_inv k' l' root t';
  g_sub : t ⊆ t';
  g_new : exists new, l = new ++ l' /\ forall p, in_tree t' p <-> in_tree t p \/ p ∈ new;
  g_frame : forall a, (forall path p, t' !! path = Some p -> ~ in_page p a) -> ld (k_mem k') a = ld (k_mem k) a;
  g_only : exists m f, k' = set_k_mem m (set_k_freelist f k) }.

Definition same_leaf (k : kstate) (t : tree) (k' : kstate) (t' : tree) : Prop :=
  forall va, leaf (k_mem k') t' va = leaf (k_mem k) t va.

Lemma grows_refl k l root t : vm_inv k l root t -> grows k k l l root t t.
Proof using.
  intros H. split; auto; [exists []; split; [done|intros ?; rewrite elem_of_nil; tauto]|]. exists (k_mem k), (k_freelist k). by destruct k.
Qed.

Lemma grows_trans k1 k2 k3 l1 l2 l3 root t1 t2 t3 :
  grows k1 k2 l1 l2 root t1 t2 -> grows k2 k3 l2 l3 root t2 t3 -> grows k1 k3 l1 l3 root t1 t3.
Proof using.
  intros [A1 A2 (na & A3 & A3') A5 (ma & fa & ->)] [B1 B2 (nb & B3 & B3') B5 (mb & fb & ->)].
  split; [done|by etransitivity| | |].
  - exists (na ++ nb). split; [by rewrite A3, B3, app_assoc|]. intros p. rewrite B3', A3', elem_of_app. tauto.
  - intros a Ha. rewrite B5 by done. apply A5. intros path p Hp. eapply Ha, lookup_weaken; eauto.
  - exists mb, fb. by destruct k1.
Qed.

(** A page in use that is not a table page stays so, and keeps its bytes. *)
Lemma grows_data k k' l l' root t t' d : grows k k' l l' root t t' -> page_ok kend d -> d ∉ l ->
  (forall path, t !! path <> Some d) ->
  d ∉ l' /\ (forall path, t' !! path <> Some d) /\ forall a, in_page d a -> ld (k_mem k') a = ld (k_mem k) a.
Proof using.
  intros [A1 A2 (new & A3 & A3') A5 _] Hd Hl Ht.
  assert (forall path, t' !! path <> Some d) as Ht'.
  { intros path Hp. assert (in_tree t' d) as [[path' Hp']|Hn]%A3' by by exists path.
    - by eapply Ht.
    - apply Hl. rewrite A3. apply elem_of_app. auto. }
  split; [|split; [done|]].
  - intros H. apply Hl. rewrite A3. apply elem_of_app. auto.
  - intros a Ha. apply A5. intros path p Hp. apply (pages_disjoint kend d p); auto.
    + by eapply rep_pages; [apply A1|].
    + intros <-. by eapply Ht'.
Qed.

Lemma leaf_valid_path m t va : Z.testbit (leaf m t va) 0 = true -> is_Some (t !! [PX 2 va; PX 1 va]).
Proof using. unfold leaf. destruct (t !! _); [eauto|]. by rewrite Z.bits_0. Qed.

(** Adding a zeroed page [q] under entry [i] of page [p]. *)
Lemma rep_add m m2 root t path p i q : rep m root t -> t !! path = Some p -> (length path < 2)%nat -> 0 <= i < 512 ->
  t !! (path ++ [i]) = None -> (path = [] -> i < 256) -> page_ok kend q -> (forall a, t !! a <> Some q) ->
  (forall a, ~ in_page q a -> ld m2 a = ld m a) -> (forall a, in_page q a -> ld m2 a = 0) ->
  rep (store64 m2 (p + 8 * i) (mk_pte q PTE_V)) root (<[path ++ [i] := q]> t) /\
  forall va, leaf (store64 m2 (p + 8 * i) (mk_pte q PTE_V)) (<[path ++ [i] := q]> t) va = leaf m t va.
Proof using kend_pos.
  intros [H1 H2 H3 H4 H4' H5] Hp Hl Hi Hn Hlow Hq Hqn Hm Hz.
  assert (0 <= mk_pte q PTE_V < 2 ^ 64) as Hr by (apply mk_pte_range; [by apply page_pa_ok|done]).
  assert (p <> q) as Hpq by (intros ->; by apply (Hqn path)).
  assert (page_ok kend p) as Hpp by by eapply H3.
  set (m3 := store64 m2 (p + 8 * i) (mk_pte q PTE_V)).
  assert (forall j, 0 <= j < 512 -> entry m3 q j = 0) as Eq.
  { intros j Hj. unfold m3. rewrite entry_store by done. rewrite decide_False by naive_solver.
    apply load64_0. intros b Hb. eapply Hz, entry_in_page; eauto. }
  assert (forall x j, x <> q -> page_ok kend x -> 0 <= j < 512 -> ~ (p = x /\ i = j) -> entry m3 x j = entry m x j) as Eo.
  { intros x j Hx Hxp Hj Hne. unfold m3. rewrite entry_store by done. rewrite decide_False by done.
    apply entry_ext; [done|]. intros a Ha. apply Hm. by apply (pages_disjoint kend x q). }
  split; [split|].
  - rewrite lookup_insert_ne; [done|]. by destruct path.
  - intros path' p' j Hp' Hl' Hj. destruct (decide (path' = path ++ [i])) as [->|Hne].
    + rewrite lookup_insert_eq in Hp'. injection Hp' as <-. rewrite Eq by done.
      rewrite lookup_insert_ne by (intros He; apply (f_equal length) in He; rewrite !length_app in He; cbn in He; lia).
      destruct (t !! ((path ++ [i]) ++ [j])) as [x|] eqn:E; [|done].
      destruct (H4 _ _ _ E) as [[y Hy] _]. by rewrite Hn in Hy.
    + rewrite lookup_insert_ne in Hp' by done.
      assert (p' <> q) as Hpq' by (intros ->; by apply (Hqn path')).
      destruct (decide (p = p' /\ i = j)) as [[<- <-]|Hd].
      * assert (path = path') as <- by eauto. rewrite lookup_insert_eq. unfold m3.
        rewrite entry_store by done. by rewrite decide_True.
      * rewrite Eo by (done || by eapply H3). rewrite lookup_insert_ne; [auto|].
        intros [He1 [= He2]]%app_inj_2; [|done]. apply Hd. split; [|done]. rewrite He1 in Hp. congruence.
  - intros path' p'. destruct (decide (path' = path ++ [i])) as [->|Hne].
    + rewrite lookup_insert_eq. intros [= <-]. split; [done|]. rewrite length_app. cbn. lia.
    + rewrite lookup_insert_ne by done. apply H3.
  - intros path' j x. destruct (decide (path' ++ [j] = path ++ [i])) as [He|Hne].
    + intros _. apply app_inj_2 in He as [-> [= ->]]; [|done]. split; [|done].
      rewrite lookup_insert_ne; [eauto|]. intros He. apply (f_equal length) in He. rewrite length_app in He. cbn in He. lia.
    + rewrite lookup_insert_ne by done. intros Hx. destruct (H4 _ _ _ Hx) as [[y Hy] Hj]. split; [|done].
      destruct (decide (path' = path ++ [i])) as [->|]; [rewrite lookup_insert_eq; eauto|].
      rewrite lookup_insert_ne by done. eauto.
  - intros j path' x. destruct (decide (j :: path' = path ++ [i])) as [He|Hne].
    + intros _. destruct path as [|j' path]; [by injection He as -> _; apply Hlow|]. injection He as -> _. by eapply H4'.
    + rewrite lookup_insert_ne by done. apply H4'.
  - intros a b x. destruct (decide (a = path ++ [i])) as [->|], (decide (b = path ++ [i])) as [->|];
      rewrite ?lookup_insert_eq, ?lookup_insert_ne by done; [done| | |apply H5].
    + intros [= <-] Hb. by apply Hqn in Hb.
    + intros Ha [= <-]. by apply Hqn in Ha.
  - intros va. unfold leaf. pose proof (PX_range 0 va). destruct (decide ([PX 2 va; PX 1 va] = path ++ [i])) as [->|Hne].
    + rewrite lookup_insert_eq, Hn. by apply Eq.
    + rewrite lookup_insert_ne by done. destruct (t !! [PX 2 va; PX 1 va]) as [x|] eqn:Ex; [|done].
      apply Eo; [intros ->; by apply Hqn in Ex|by eapply H3|done|].
      intros [-> _]. assert (path = [PX 2 va; PX 1 va]) by eauto. subst. cbn in Hl. lia.
Qed.

Lemma entry_found k l root t path p i : vm_inv k l root t -> t !! path = Some p -> (length path < 2)%nat -> 0 <= i < 512 ->
  truth (Z.land (entry (k_mem k) p i) PTE_V) = bool_decide (is_Some (t !! (path ++ [i]))) /\
  forall q, t !! (path ++ [i]) = Some q -> PTE2PA (entry (k_mem k) p i) = q.
Proof using kend_pos.
  intros [_ _ _ [H1 H2 H3 H4 H4' H5] _] Hp Hl Hi. specialize (H2 path p i Hp Hl Hi). rewrite PTE_V_test.
  destruct (t !! (path ++ [i])) as [q|] eqn:E; cbn in H2.
  - assert (pa_ok q) as Hq by (eapply page_pa_ok, H3; eauto). rewrite H2.
    rewrite mk_pte_bit by done. split; [done|]. intros ? [= <-]. by apply PTE2PA_mk.
  - rewrite H2. split; [|done]. by rewrite bool_decide_eq_false_2 by (intros [? [=]]).
Qed.

Lemma walk_level_find k l root t path p va level : vm_inv k l root t -> t !! path = Some p -> (length path < 2)%nat ->
  walk_level p va false level k = Ret (t !! (path ++ [PX level va])) k.
Proof using kend_pos.
  intros Hv Hp Hl. destruct (entry_found k l root t path p (PX level va) Hv Hp Hl (PX_range _ _)) as [Ht Hq].
  unfold walk_level, rd64, gets. unfold bind at 1. fold (entry (k_mem k) p (PX level va)). rewrite Ht.
  destruct (t !! (path ++ [PX level va])) as [q|].
  - rewrite bool_decide_eq_true_2 by eauto. by rewrite (Hq q eq_refl).
  - by rewrite bool_decide_eq_false_2 by (intros [? [=]]).
Qed.

(** The allocation of one table page. *)
Lemma walk_level_new k q l root t path p i : vm_inv k (q :: l) root t -> t !! path = Some p -> (length path < 2)%nat ->
  0 <= i < 512 -> t !! (path ++ [i]) = None -> (path = [] -> i < 256) ->
  exists k', (let! pagetable := kalloc in
     if pagetable =? 0 then ret None else
     do! mem_set pagetable 0 PGSIZE;
     do! wr64 (p + 8 * i) (Z.lor (PA2PTE pagetable) PTE_V);
     ret (Some pagetable)) k = Ret (Some q) k' /\ grows k k' (q :: l) l root t (<[path ++ [i] := q]> t) /\
     same_leaf k t k' (<[path ++ [i] := q]> t).
Proof using kend_pos.
  intros [Hc Hlk Hf Hrep Hu] Hp Hl Hi Hn Hlow. destruct (kalloc_spec kend kend_pos k q l Hc Hlk Hf) as (m1 & f1 & Hk & Hf1 & Hm1).
  assert (page_ok kend q) as Hq by (destruct Hf as [_ Hps _]; by inversion Hps).
  assert (q ∉ l) as Hql by (destruct Hf as [_ _ Hnd]; by inversion Hnd).
  assert (forall a, t !! a <> Some q) as Hqn by (intros a Ha; apply (Hu a q Ha); left).
  assert (page_ok kend p) as Hpp by by eapply rep_pages.
  erewrite bind_ret_run by exact Hk. destruct (Z.eqb_spec q 0) as [H0|_]; [pose proof (page_pos kend kend_pos q Hq); lia|].
  unfold mem_set, wr64, modify, bind, ret. eexists. split; [reflexivity|]. cbn [k_mem set_k_mem set_k_freelist].
  set (m2 := memset m1 q 0 PGSIZE).
  assert (forall a, ~ in_page q a -> ld m2 a = ld (k_mem k) a) as Hm2.
  { intros a Ha. unfold m2. rewrite memset_ld by done. rewrite decide_False by done. auto. }
  assert (forall a, in_page q a -> ld m2 a = 0) as Hz2.
  { intros a Ha. unfold m2. rewrite memset_ld by done. by rewrite decide_True. }
  destruct (rep_add (k_mem k) m2 root t path p i q Hrep Hp Hl Hi Hn Hlow Hq Hqn Hm2 Hz2) as [Hr3 Hl3].
  assert (forall a, ~ in_page q a -> ~ in_page p a -> ld (store64 m2 (p + 8 * i) (mk_pte q PTE_V)) a = ld (k_mem k) a) as Hfr.
  { intros a Ha Hb. rewrite ld_store64_other; [auto|]. unfold in_page, PGSIZE in *. lia. }
  split; [split; [split|..]|exact Hl3]; cbn [k_mem set_k_mem set_k_freelist].
  - exact Hc.
  - exact Hlk.
  - apply (kmem_ok_mem kend _ _ (store64 m2 (p + 8 * i) (mk_pte q PTE_V)) Hf1). intros x a Hx Ha.
    assert (page_ok kend x) as Hxp by (destruct Hf1 as [_ Hps _]; rewrite Forall_forall in Hps; auto).
    cbn [k_mem set_k_mem]. rewrite Hfr, Hm1; [done|..].
    + apply (pages_disjoint kend x q); auto. by intros ->.
    + apply (pages_disjoint kend x q); auto. by intros ->.
    + apply (pages_disjoint kend x p); auto. intros ->. by apply (Hu path p Hp); right.
  - exact Hr3.
  - intros path' p'. destruct (decide (path' = path ++ [i])) as [->|].
    + rewrite lookup_insert_eq. by intros [= <-].
    + rewrite lookup_insert_ne by done. intros H Hin. by apply (Hu path' p' H); right.
  - by apply insert_subseteq.
  - exists [q]. split; [done|]. intros x. rewrite list_elem_of_singleton. split.
    + intros [path' Hx]. destruct (decide (path' = path ++ [i])) as [->|].
      * rewrite lookup_insert_eq in Hx. injection Hx. auto.
      * rewrite lookup_insert_ne in Hx by done. left. by exists path'.
    + intros [[path' Hx]| ->]; [|exists (path ++ [i]); apply lookup_insert_eq].
      exists path'. rewrite lookup_insert_ne; [done|]. congruence.
  - intros a Ha. apply Hfr.
    + apply (Ha (path ++ [i])). apply lookup_insert_eq.
    + apply (Ha path). rewrite lookup_insert_ne; [done|]. intros He. apply (f_equal length) in He.
      rewrite length_app in He. cbn in He. lia.
  - eexists _, f1. by destruct k.
Qed.

Lemma walk_level_alloc k l root t path p va level : vm_inv k l root t -> t !! path = Some p -> (length path < 2)%nat ->
  (path = [] -> PX level va < 256) ->
  exists o k' l' t', walk_level p va true level k = Ret o k' /\ grows k k' l l' root t t' /\ same_leaf k t k' t' /\
    match o with Some q => t' !! (path ++ [PX level va]) = Some q | None => l' = [] end.
Proof using kend_pos.
  intros Hv Hp Hl Hlow. pose proof (PX_range level va) as Hi.
  destruct (entry_found k l root t path p (PX level va) Hv Hp Hl Hi) as [Ht Hq].
  unfold walk_level. unfold rd64 at 1, gets at 1. unfold bind at 1. fold (entry (k_mem k) p (PX level va)). rewrite Ht.
  destruct (t !! (path ++ [PX level va])) as [q|] eqn:E.
  - rewrite bool_decide_eq_true_2 by eauto. rewrite (Hq q eq_refl). eexists _, k, l, t.
    split; [reflexivity|]. split; [by apply grows_refl|by split].
  - rewrite bool_decide_eq_false_2 by (intros [? [=]]). cbn [negb]. destruct l as [|q l].
    + exists None, k, [], t. split; [|split; [by apply grows_refl|by split]].
      erewrite bind_ret_run by (apply (kalloc_none kend); apply Hv). done.
    + destruct (walk_level_new k q l root t path p (PX level va) Hv Hp Hl Hi E Hlow) as (k' & Hk & Hg & Hs).
      eexists (Some q), k', l, _. split; [exact Hk|]. split; [exact Hg|]. split; [exact Hs|apply lookup_insert_eq].
Qed.

(** walk() without allocation finds the entry of [va]. *)
Lemma walk_find k l root t va : vm_inv k l root t -> 0 <= va < MAXVA ->
  walk root va false k = Ret (match t !! [PX 2 va; PX 1 va] with Some p => p + 8 * PX 0 va | None => 0 end) k.
Proof using kend_pos.
  intros Hv Hva. unfold walk. destruct (Z.leb_spec MAXVA va); [lia|].
  pose proof (rep_root _ _ _ (vi_rep _ _ _ _ Hv)) as Hroot.
  erewrite bind_ret_run by (eapply (walk_level_find k l root t []); [done..|cbn; lia]). cbn [app].
  destruct (t !! [PX 2 va]) as [p1|] eqn:E1.
  - erewrite bind_ret_run by (eapply (walk_level_find k l root t [PX 2 va]); [done..|cbn; lia]). cbn [app].
    by destruct (t !! [PX 2 va; PX 1 va]).
  - destruct (t !! [PX 2 va; PX 1 va]) as [q|] eqn:E2; [|done].
    destruct (rep_closed _ _ _ (vi_rep _ _ _ _ Hv) [PX 2 va] (PX 1 va) q E2) as [[x Hx] _]. congruence.
Qed.

(** walk() with allocation reaches the entry, or runs out of memory. *)
Lemma walk_alloc k l root t va : vm_inv k l root t -> 0 <= va < MAXVA ->
  exists r k' l' t', walk root va true k = Ret r k' /\ grows k k' l l' root t t' /\ same_leaf k t k' t' /\
    ((r = 0 /\ l' = []) \/ exists p, t' !! [PX 2 va; PX 1 va] = Some p /\ r = p + 8 * PX 0 va).
Proof using kend_pos.
  intros Hv Hva. unfold walk. destruct (Z.leb_spec MAXVA va); [lia|].
  pose proof (rep_root _ _ _ (vi_rep _ _ _ _ Hv)) as Hroot.
  destruct (walk_level_alloc k l root t [] root va 2 Hv Hroot ltac:(cbn; lia) (fun _ => PX2_low va Hva)) as (o1 & k1 & l1 & t1 & H1 & G1 & S1 & Ho1).
  erewrite bind_ret_run by exact H1. cbn [app] in Ho1. destruct o1 as [p1|].
  2: { exists 0, k1, l1, t1. auto 8. }
  destruct (walk_level_alloc k1 l1 root t1 [PX 2 va] p1 va 1 (g_inv _ _ _ _ _ _ _ G1) Ho1 ltac:(cbn; lia) ltac:(done))
    as (o2 & k2 & l2 & t2 & H2 & G2 & S2 & Ho2).
  erewrite bind_ret_run by exact H2. cbn [app] in Ho2. pose proof (grows_trans _ _ _ _ _ _ _ _ _ _ G1 G2) as G.
  assert (same_leaf k t k2 t2) as S by (intros x; by rewrite S2, S1).
  destruct o2 as [p0|]; eexists _, k2, l2, t2; (split; [reflexivity|]); (split; [exact G|]); (split; [exact S|]); eauto.
Qed.

(** ** mappages() *)

(** The three indices determine the page of an address. *)
Lemma PX_inj va va' : 0 <= va < MAXVA -> 0 <= va' < MAXVA -> PX 2 va = PX 2 va' -> PX 1 va = PX 1 va' ->
  PX 0 va = PX 0 va' -> vpn va = vpn va'.
Proof using.
  intros H1 H2. rewrite !PX_vpn by lia. change (512 ^ 2) with 262144. change (512 ^ 1) with 512. change (512 ^ 0) with 1.
  change MAXVA with 274877906944 in *. rewrite !Z.div_1_r. unfold vpn, PGSIZE. zlia.
Qed.

Lemma PX_same va va' level : 0 <= va -> 0 <= va' -> 0 <= level -> vpn va = vpn va' -> PX level va = PX level va'.
Proof using. intros. rewrite !PX_vpn by done. congruence. Qed.

Lemma leaf_same m t va va' : 0 <= va -> 0 <= va' -> vpn va = vpn va' -> leaf m t va = leaf m t va'.
Proof using. intros Ha Hb He. unfold leaf. by rewrite !(PX_same va va') by lia. Qed.

Lemma leaf_store m root t va p v va' : rep m root t -> t !! [PX 2 va; PX 1 va] = Some p -> 0 <= v < 2 ^ 64 ->
  0 <= va < MAXVA -> 0 <= va' < MAXVA ->
  leaf (store64 m (p + 8 * PX 0 va) v) t va' = if decide (vpn va = vpn va') then v else leaf m t va'.
Proof using.
  intros Hr Hp Hv H1 H2. unfold leaf. case_decide as Hd.
  - rewrite <- !(PX_same va va') by lia. rewrite Hp. by apply load64_store64.
  - destruct (t !! [PX 2 va'; PX 1 va']) as [q|] eqn:E; [|done].
    rewrite entry_store by (apply PX_range || done || by eapply rep_pages).
    rewrite decide_False; [done|]. intros [-> H0]. apply Hd.
    assert ([PX 2 va; PX 1 va] = [PX 2 va'; PX 1 va']) as He by by eapply rep_inj. injection He as ??.
    by apply PX_inj.
Qed.

(** Writing the entry of [va]. *)
Lemma put_leaf k l root t va p v : vm_inv k l root t -> t !! [PX 2 va; PX 1 va] = Some p -> 0 <= v < 2 ^ 64 ->
  grows k (set_k_mem (store64 (k_mem k) (p + 8 * PX 0 va) v) k) l l root t t.
Proof using.
  intros [Hc Hlk Hf Hrep Hu] Hp Hv. pose proof (PX_range 0 va) as Hi.
  assert (forall a, ~ in_page p a -> ld (store64 (k_mem k) (p + 8 * PX 0 va) v) a = ld (k_mem k) a) as Hfr.
  { intros a Ha. apply ld_store64_other. unfold in_page, PGSIZE in *. lia. }
  split; [split|..]; cbn [k_mem set_k_mem]; auto.
  - apply kmem_ok_mem; [done|]. intros x a Hx Ha. apply Hfr. apply (pages_disjoint kend x p); auto.
    + destruct Hf as [_ Hps _]. rewrite Forall_forall in Hps. auto.
    + by eapply rep_pages.
    + intros ->. by eapply Hu.
  - by eapply rep_store_leaf.
  - exists []. split; [done|intros ?; rewrite elem_of_nil; tauto].
  - intros a Ha. eapply Hfr, Ha; eauto.
  - eexists _, (k_freelist k). by destruct k.
Qed.

(** The entry mappages() writes for page [va'] of a mapping of [va] to [pa]. *)
Definition map_entry (va pa perm va' : Z) : Z := mk_pte (pa + (vpn va' - vpn va) * PGSIZE) (Z.lor perm PTE_V).

Lemma flags_range perm : 0 <= perm < 1024 -> 0 <= Z.lor perm PTE_V < 1024.
Proof using. intros. apply (lor_range 10); lia || done. Qed.

(** One iteration of the loop: the entry is written, or memory ran out. *)
Lemma mappages_step k l root t a pa perm last : vm_inv k l root t -> 0 <= a < MAXVA -> pa_ok pa -> 0 <= perm < 1024 ->
  Z.testbit (leaf (k_mem k) t a) 0 = false ->
  exists k' l' t', grows k k' l l' root t t' /\
    ((l' = [] /\ mappages_body root last perm (a, pa) k = Ret (inr (-1)) k' /\ same_leaf k t k' t') \/
     (mappages_body root last perm (a, pa) k =
        Ret (if a =? last then inr 0 else inl (u64 (a + PGSIZE), u64 (pa + PGSIZE))) k' /\
      forall va', 0 <= va' < MAXVA -> leaf (k_mem k') t' va' =
        if decide (vpn a = vpn va') then mk_pte pa (Z.lor perm PTE_V) else leaf (k_mem k) t va')).
Proof using kend_pos.
  intros Hv Ha Hpa Hperm Hinv. destruct (walk_alloc k l root t a Hv Ha) as (r & k1 & l1 & t1 & Hw & G & S & Hr).
  unfold mappages_body. destruct Hr as [[-> ->]|(p & Hp & ->)].
  - exists k1, [], t1. split; [done|]. left. split; [done|]. split; [|done]. by erewrite bind_ret_run by exact Hw.
  - pose proof (g_inv _ _ _ _ _ _ _ G) as Hv1. pose proof (PX_range 0 a) as Hi.
    assert (page_ok kend p) as Hpp by (eapply rep_pages; [apply Hv1|exact Hp]).
    pose proof (mk_pte_range pa _ Hpa (flags_range perm Hperm)) as Hvr.
    pose proof (put_leaf k1 l1 root t1 a p _ Hv1 Hp Hvr) as G2.
    eexists _, l1, t1. split; [exact (grows_trans _ _ _ _ _ _ _ _ _ _ G G2)|]. right. split.
    + erewrite bind_ret_run by exact Hw.
      destruct (Z.eqb_spec (p + 8 * PX 0 a) 0) as [H0|_]; [pose proof (page_pos kend kend_pos p Hpp); lia|].
      unfold rd64, gets. unfold bind at 1. fold (entry (k_mem k1) p (PX 0 a)).
      assert (entry (k_mem k1) p (PX 0 a) = leaf (k_mem k) t a) as He by (rewrite <- S; unfold leaf; by rewrite Hp).
      rewrite PTE_V_test, He, Hinv. unfold wr64, modify, bind. rewrite <- Z.lor_assoc. by destruct (a =? last).
    + intros va' Hva'. cbn [k_mem set_k_mem]. rewrite leaf_store with (root := root) by (done || apply Hv1).
      case_decide; [done|]. apply S.
Qed.

(** The loop over [n] pages: [c] of them were mapped, all unless memory ran out. *)
Lemma mappages_loop n root perm a pa last k l t : vm_inv k l root t -> a mod PGSIZE = 0 -> 0 <= a ->
  a + Z.of_nat n * PGSIZE <= MAXVA -> (0 < n)%nat -> last = a + (Z.of_nat n - 1) * PGSIZE ->
  pa mod PGSIZE = 0 -> 0 <= pa -> pa + Z.of_nat n * PGSIZE <= 2 ^ 56 -> 0 <= perm < 1024 ->
  (forall va', a <= va' < a + Z.of_nat n * PGSIZE -> Z.testbit (leaf (k_mem k) t va') 0 = false) ->
  exists r k' l' t' c, loop n (mappages_body root last perm) (a, pa) k = Ret r k' /\ grows k k' l l' root t t' /\
    (r = 0 /\ c = Z.of_nat n \/ r = -1 /\ l' = [] /\ 0 <= c < Z.of_nat n) /\
    forall va', 0 <= va' < MAXVA -> leaf (k_mem k') t' va' =
      if decide (a <= va' < a + c * PGSIZE) then map_entry a pa perm va' else leaf (k_mem k) t va'.
Proof using kend_pos.
  revert a pa k l t. induction n as [|n IH]; intros a pa k l t Hv Ha0 Ha Hmax Hn Hlast Hpa Hpa0 Hpm Hperm Hinv; [lia|].
  change MAXVA with 274877906944 in *.
  destruct (mappages_step k l root t a pa perm last Hv) as (k1 & l1 & t1 & G & [(-> & Hb & S)|(Hb & HL)]); try done.
  { unfold PGSIZE in *. change MAXVA with 274877906944. lia. }
  { split; [done|]. unfold PGSIZE in *. lia. }
  { apply Hinv. unfold PGSIZE. lia. }
  - exists (-1), k1, [], t1, 0. split; [by eapply loop_exit|]. split; [done|]. split; [right; split_and!; (done || lia)|].
    intros va' Hva'. rewrite decide_False by lia. apply S.
  - change MAXVA with 274877906944 in *. destruct (Z.eqb_spec a last) as [He|Hne].
    + exists 0, k1, l1, t1, (Z.of_nat (S n)). split; [by eapply loop_exit|]. split; [done|]. split; [by left|].
      assert (n = 0)%nat by (unfold PGSIZE in *; lia). subst n. intros va' Hva'. rewrite HL by done.
      unfold vpn, PGSIZE in *. case_decide as Hd1; case_decide as Hd2; try (exfalso; zlia); [|done].
      unfold map_entry, vpn, PGSIZE. rewrite Hd1. f_equal. lia.
    + assert (0 < n)%nat by (destruct n; [unfold PGSIZE in *; lia|lia]).
      rewrite !u64_small in Hb by (unfold PGSIZE in *; lia).
      destruct (IH (a + PGSIZE) (pa + PGSIZE) k1 l1 t1) as (r & k2 & l2 & t2 & c & Hl & G2 & Hr & HL2);
        [apply G|unfold PGSIZE in *; zlia..| |].
      { intros va' Hva'. rewrite HL by (unfold PGSIZE in *; lia). rewrite decide_False; [apply Hinv; unfold PGSIZE in *; lia|].
        unfold vpn, PGSIZE in *. zlia. }
      exists r, k2, l2, t2, (c + 1). split; [by erewrite loop_next by exact Hb|].
      split; [exact (grows_trans _ _ _ _ _ _ _ _ _ _ G G2)|]. split; [destruct Hr as [[-> ->]|(-> & -> & ?)]; [left|right]; split_and!; (done || lia)|].
      intros va' Hva'. rewrite HL2 by done. unfold map_entry, vpn, PGSIZE in *.
      case_decide as Hd1; case_decide as Hd2; try (exfalso; lia).
      * f_equal. zlia.
      * rewrite HL by done. rewrite decide_True by zlia. f_equal. zlia.
      * rewrite HL by done. by rewrite decide_False by zlia.
Qed.

(** walk() then *pte. *)
Lemma walk_read k l root t va : vm_inv k l root t -> 0 <= va < MAXVA ->
  Z.testbit (leaf (k_mem k) t va) 0 = true ->
  exists p, t !! [PX 2 va; PX 1 va] = Some p /\ p + 8 * PX 0 va <> 0 /\
    walk root va false k = Ret (p + 8 * PX 0 va) k /\ rd64 (p + 8 * PX 0 va) k = Ret (leaf (k_mem k) t va) k.
Proof using kend_pos.
  intros Hv Hva Hb. destruct (leaf_valid_path _ _ _ Hb) as [p Hp]. exists p. split; [done|].
  pose proof (PX_range 0 va). assert (0 < p) by (eapply page_pos, rep_pages; [done|apply Hv|done]).
  split; [lia|]. rewrite (walk_find k l root t) by done. unfold leaf. by rewrite Hp.
Qed.

(** What walkaddr() answers: the page of a valid user entry, else 0. *)
Definition uaddr (e : Z) : Z := if Z.testbit e 0 && Z.testbit e 4 then PTE2PA e else 0.

Lemma walkaddr_run k l root t va : vm_inv k l root t -> 0 <= va ->
  walkaddr root va k = Ret (if MAXVA <=? va then 0 else uaddr (leaf (k_mem k) t va)) k.
Proof using kend_pos.
  intros Hv Hva. unfold walkaddr. destruct (Z.leb_spec MAXVA va); [done|].
  erewrite bind_ret_run by by apply (walk_find k l root t). unfold leaf.
  destruct (t !! [PX 2 va; PX 1 va]) as [p|] eqn:Hp; [|done]. pose proof (PX_range 0 va).
  assert (0 < p) by (eapply page_pos, rep_pages; [done|apply Hv|done]).
  destruct (Z.eqb_spec (p + 8 * PX 0 va) 0); [lia|]. unfold rd64, gets, bind. fold (entry (k_mem k) p (PX 0 va)).
  rewrite !eqb0_truth, PTE_V_test. unfold PTE_U. rewrite truth_land_bit by lia. unfold uaddr.
  by destruct (Z.testbit _ 0), (Z.testbit _ 4).
Qed.

Lemma uaddr_mk pa flags : pa_ok pa -> 0 <= flags < 1024 ->
  uaddr (mk_pte pa flags) = if Z.testbit flags 0 && Z.testbit flags 4 then pa else 0.
Proof using. intros Hp Hf. unfold uaddr. rewrite !mk_pte_bit, PTE2PA_mk by (done || lia). done. Qed.


(** The panics of mappages(). *)
Lemma mappages_panics root va size pa perm k :
  (va mod PGSIZE <> 0 -> mappages root va size pa perm k = Panic "mappages: va not aligned") /\
  (va mod PGSIZE = 0 -> size mod PGSIZE <> 0 -> mappages root va size pa perm k = Panic "mappages: size not aligned") /\
  (va mod PGSIZE = 0 -> mappages root va 0 pa perm k = Panic "mappages: size").
Proof using.
  unfold mappages. split_and!.
  - intros H. by destruct (Z.eqb_spec (va mod PGSIZE) 0).
  - intros -> H. by destruct (Z.eqb_spec (size mod PGSIZE) 0).
  - by intros ->.
Qed.

(** ** Address spaces

    [um] gives the physical page and the flags of each virtual page that the
    address space owns; two virtual pages never share a physical one. *)
Record aspace (k : kstate) (l : list Z) (root : Z) (t : tree) (um : gmap Z (Z * Z)) : Prop := {
  as_inv : vm_inv k l root t;
  as_leaf : forall v pa fl, um !! v = Some (pa, fl) -> 0 <= v < MAXVA / PGSIZE /\
    leaf (k_mem k) t (v * PGSIZE) = mk_pte pa fl;
  as_flags : forall v pa fl, um !! v = Some (pa, fl) -> 0 <= fl < 1024 /\ Z.testbit fl 0 = true /\ fl <> PTE_V;
  as_page : forall v pa fl, um !! v = Some (pa, fl) -> page_ok kend pa /\ pa ∉ l /\ forall path, t !! path <> Some pa;
  as_inj : forall v v' pa fl fl', um !! v = Some (pa, fl) -> um !! v' = Some (pa, fl') -> v = v' }.

(** A page in use by something other than this page table. *)
Definition foreign (l : list Z) (t : tree) (d : Z) : Prop :=
  page_ok kend d /\ d ∉ l /\ forall path, t !! path <> Some d.

Definition mem_only (k k' : kstate) : Prop := exists m f, k' = set_k_mem m (set_k_freelist f k).

Lemma mem_only_refl k : mem_only k k.
Proof using. exists (k_mem k), (k_freelist k). by destruct k. Qed.

Lemma mem_only_trans k1 k2 k3 : mem_only k1 k2 -> mem_only k2 k3 -> mem_only k1 k3.
Proof using. intros (m & f & ->) (m' & f' & ->). exists m', f'. by destruct k1. Qed.

Lemma mem_only_cpu k k' : mem_only k k' -> (cpu_ok k' <-> cpu_ok k) /\ forall i, lock_free k' i <-> lock_free k i.
Proof using. by intros (m & f & ->). Qed.

Lemma leaf_ext m m' t va :
  (forall path p a, t !! path = Some p -> in_page p a -> ld m' a = ld m a) -> leaf m' t va = leaf m t va.
Proof using.
  intros Hm. unfold leaf. destruct (t !! _) as [p|] eqn:E; [|done]. apply entry_ext; [apply PX_range|eauto].
Qed.

(** A page table survives changes that keep the bytes of its pages. *)
Lemma vm_inv_keep k k' l l' root t : vm_inv k l root t -> mem_only k k' -> kmem_ok kend k' l' ->
  (forall path p, t !! path = Some p -> p ∉ l' /\ kept k k' p) -> vm_inv k' l' root t /\ same_leaf k t k' t.
Proof using.
  intros [Hc Hlk Hf Hr Hu] Hmo Hf' Hk. destruct (mem_only_cpu k k' Hmo) as [Hc' Hl'].
  split; [split|].
  - by apply Hc'.
  - by apply Hl'.
  - done.
  - eapply rep_ext; [exact Hr|]. intros path p a Hp. by apply (Hk path p Hp).
  - intros path p Hp. by apply (Hk path p Hp).
  - intros va. apply leaf_ext. intros path p a Hp. by apply (Hk path p Hp).
Qed.

Lemma vpn_mul v : vpn (v * PGSIZE) = v.
Proof using. unfold vpn. by apply Z.div_mul. Qed.

Lemma MAXVA_pages v : 0 <= v < MAXVA / PGSIZE -> 0 <= v * PGSIZE < MAXVA.
Proof using. change MAXVA with 274877906944. unfold PGSIZE. zlia. Qed.

(** kfree() of a page that is not a table page. *)
Lemma kfree_keeps k l root t d : vm_inv k l root t -> foreign l t d ->
  exists k', kfree kend d k = Ret tt k' /\ vm_inv k' (d :: l) root t /\ same_leaf k t k' t /\ mem_only k k' /\
    forall x, page_ok kend x -> x <> d -> kept k k' x.
Proof using kend_pos.
  intros Hv (Hd & Hdl & Hdt). destruct (kfree_spec kend kend_pos d k l Hd Hdl) as (m & f & Hk & Hf & Hm); [apply Hv..|].
  assert (forall x, page_ok kend x -> x <> d -> kept k (set_k_mem m (set_k_freelist f k)) x) as Hkeep.
  { intros x Hx Hne a Ha. cbn [k_mem set_k_mem]. apply Hm. by apply (pages_disjoint kend x d). }
  exists (set_k_mem m (set_k_freelist f k)). split; [done|].
  assert (mem_only k (set_k_mem m (set_k_freelist f k))) as Hmo by (by exists m, f).
  destruct (vm_inv_keep k (set_k_mem m (set_k_freelist f k)) l (d :: l) root t Hv Hmo Hf) as [H1 H2]; [|by split_and!].
  intros path p Hp. assert (p <> d) by (intros ->; by eapply Hdt). split.
  - intros [->|Hin]%elem_of_cons; [done|]. by eapply vi_used.
  - apply Hkeep; [|done]. by eapply rep_pages; [apply Hv|].
Qed.

(** ** uvmunmap() *)

(** One page, with its memory freed. *)
Lemma unmap_step k l root t um v pa fl stop : aspace k l root t um -> um !! v = Some (pa, fl) -> v * PGSIZE < stop ->
  exists k', uvmunmap_body root stop true (v * PGSIZE) k = Ret (inl (u64 (v * PGSIZE + PGSIZE))) k' /\
    aspace k' (pa :: l) root t (delete v um) /\ mem_only k k' /\
    (forall va', 0 <= va' < MAXVA -> leaf (k_mem k') t va' = if decide (v = vpn va') then 0 else leaf (k_mem k) t va') /\
    forall d, foreign l t d -> d <> pa -> kept k k' d.
Proof using kend_pos.
  intros Has Hum Hstop. destruct (as_leaf _ _ _ _ _ Has v pa fl Hum) as [Hv Hleaf].
  destruct (as_flags _ _ _ _ _ Has v pa fl Hum) as (Hfl & Hbit & HnV).
  pose proof (as_page _ _ _ _ _ Has v pa fl Hum) as Hpg. pose proof (page_pa_ok pa (proj1 Hpg)) as Hpa.
  pose proof (as_inv _ _ _ _ _ Has) as Hvi. pose proof (MAXVA_pages v Hv) as Hva.
  assert (Z.testbit (leaf (k_mem k) t (v * PGSIZE)) 0 = true) as Hb by (rewrite Hleaf, mk_pte_bit by (done || lia); done).
  unfold uvmunmap_body. destruct (Z.ltb_spec (v * PGSIZE) stop); [|lia]. cbn [negb].
  destruct (walk_read k l root t (v * PGSIZE)) as (p & Hp & Hne & Hw & Hr); [done..|]. erewrite bind_ret_run by exact Hw.
  destruct (Z.eqb_spec (p + 8 * PX 0 (v * PGSIZE)) 0); [lia|].
  erewrite bind_ret_run by exact Hr. rewrite !eqb0_truth, PTE_V_test, Hb. cbn [negb]. rewrite Hleaf, PTE_FLAGS_mk, PTE2PA_mk by done.
  destruct (Z.eqb_spec fl PTE_V); [lia|].
  destruct (kfree_keeps k l root t pa Hvi Hpg) as (k1 & Hk1 & Hvi1 & Hs1 & Hmo1 & Hkeep1).
  erewrite bind_ret_run by exact Hk1. unfold wr64, modify. unfold bind, ret. eexists. split; [reflexivity|].
  pose proof (put_leaf k1 (pa :: l) root t (v * PGSIZE) p 0 Hvi1 Hp ltac:(lia)) as G.
  set (k2 := set_k_mem (store64 (k_mem k1) (p + 8 * PX 0 (v * PGSIZE)) 0) k1) in *.
  assert (forall va', 0 <= va' < MAXVA -> leaf (k_mem k2) t va' = if decide (v = vpn va') then 0 else leaf (k_mem k) t va') as HL.
  { intros va' Hva'. unfold k2. cbn [k_mem set_k_mem]. rewrite leaf_store with (root := root) by (done || lia || apply Hvi1).
    rewrite vpn_mul. case_decide; [done|apply Hs1]. }
  assert (forall v' pa' fl', delete v um !! v' = Some (pa', fl') -> um !! v' = Some (pa', fl') /\ v' <> v) as Hdel.
  { intros v' pa' fl' H'. apply lookup_delete_Some in H' as [??]. auto. }
  split; [split|split; [by eapply mem_only_trans; [|apply G]|split; [done|]]].
  - apply G.
  - intros v' pa' fl' [H' Hne']%Hdel. destruct (as_leaf _ _ _ _ _ Has v' pa' fl' H') as [Hv' Hl']. split; [done|].
    pose proof (MAXVA_pages v' Hv'). rewrite HL by done. rewrite vpn_mul. by rewrite decide_False by congruence.
  - intros v' pa' fl' [H' _]%Hdel. by eapply as_flags.
  - intros v' pa' fl' [H' Hne']%Hdel. destruct (as_page _ _ _ _ _ Has v' pa' fl' H') as (H1 & H2 & H3). split_and!; [done| |done].
    intros [->|]%elem_of_cons; [|done]. apply Hne'. by eapply as_inj.
  - intros v' v'' pa' fl' fl'' [H' _]%Hdel [H'' _]%Hdel. by eapply as_inj.
  - intros d (Hd1 & Hd2 & Hd3) Hne' a Ha. assert (kept k1 k2 d) as Hk2.
    { destruct (grows_data _ _ _ _ _ _ _ d G Hd1) as (_ & _ & H2k); [by intros [->|]%elem_of_cons|done|exact H2k]. }
    rewrite (Hk2 a Ha). exact (Hkeep1 d Hd1 Hne' a Ha).
Qed.

(** The pages [v .. v+n) of an address space, unmapped and freed. *)
Lemma unmap_loop n v k l root t um stop : aspace k l root t um -> 0 <= v -> (v + Z.of_nat n) * PGSIZE <= MAXVA ->
  stop = (v + Z.of_nat n) * PGSIZE -> (forall i, v <= i < v + Z.of_nat n -> is_Some (um !! i)) ->
  exists k' pas um', loop (S n) (uvmunmap_body root stop true) (v * PGSIZE) k = Ret tt k' /\
    aspace k' (pas ++ l) root t um' /\ mem_only k k' /\
    (forall i, um' !! i = if decide (v <= i < v + Z.of_nat n) then None else um !! i) /\
    (forall p, p ∈ pas <-> exists i fl, v <= i < v + Z.of_nat n /\ um !! i = Some (p, fl)) /\
    (forall va', 0 <= va' < MAXVA -> leaf (k_mem k') t va' =
       if decide (v <= vpn va' < v + Z.of_nat n) then 0 else leaf (k_mem k) t va') /\
    forall d, foreign l t d -> d ∉ pas -> kept k k' d.
Proof using kend_pos.
  revert v k l um. induction n as [|n IH]; intros v k l um Has Hv Hmax Hstop Hum.
  { exists k, [], um. split; [cbn; unfold uvmunmap_body, bind; destruct (Z.ltb_spec (v * PGSIZE) stop); [unfold PGSIZE in *; lia|done]|].
    split_and!; [done|apply mem_only_refl|..].
    - intros i. by rewrite decide_False by lia.
    - intros p. split; [intros Hp0; inversion Hp0|]. intros (i & fl & Hi & _). lia.
    - intros va' Hva'. by rewrite decide_False by lia.
    - by intros d _ _ a Ha. }
  destruct (Hum v ltac:(lia)) as [[pa fl] Hpa].
  destruct (unmap_step k l root t um v pa fl stop Has Hpa) as (k1 & Hb & Has1 & Hmo1 & HL1 & Hk1); [unfold PGSIZE in *; lia|].
  change MAXVA with 274877906944 in *. rewrite u64_small in Hb by (unfold PGSIZE in *; lia).
  destruct (IH (v + 1) k1 (pa :: l) (delete v um) Has1) as (k2 & pas & um2 & Hl2 & Has2 & Hmo2 & Hum2 & Hpas2 & HL2 & Hk2);
    [lia|unfold PGSIZE in *; lia|unfold PGSIZE in *; lia| |].
  { intros i Hi. rewrite lookup_delete_ne by lia. apply Hum. lia. }
  exists k2, (pas ++ [pa]), um2. replace (v * PGSIZE + PGSIZE) with ((v + 1) * PGSIZE) in Hb by lia.
  split; [by erewrite loop_next by exact Hb|]. rewrite <- app_assoc. split_and!; [done|by eapply mem_only_trans|..].
  - intros i. rewrite Hum2. destruct (decide (i = v)) as [->|].
    + rewrite decide_False, decide_True by lia. apply lookup_delete_eq.
    + rewrite lookup_delete_ne by done. case_decide; case_decide; (done || lia).
  - intros p. rewrite elem_of_app, list_elem_of_singleton, Hpas2. split.
    + intros [(i & fl' & Hi & H')| ->]; [|exists v, fl; split; [lia|done]].
      apply lookup_delete_Some in H' as [? H']. exists i, fl'. split; [lia|done].
    + intros (i & fl' & Hi & H'). destruct (decide (i = v)) as [->|]; [right; congruence|left].
      exists i, fl'. split; [lia|]. by rewrite lookup_delete_ne.
  - intros va' Hva'. rewrite HL2, HL1 by done. case_decide; case_decide; try case_decide; (done || lia).
  - intros d (Hd1 & Hd2 & Hd3) Hd. rewrite elem_of_app, list_elem_of_singleton in Hd. intros a Ha.
    assert (foreign (pa :: l) t d) as Hfor by (split_and!; [done| |done]; intros [->|]%elem_of_cons; tauto).
    assert (d ∉ pas /\ d <> pa) as [Hd4 Hd5] by tauto.
    rewrite (Hk2 d Hfor Hd4 a Ha). exact (Hk1 d (conj Hd1 (conj Hd2 Hd3)) Hd5 a Ha).
Qed.

(** ** Accounting

    The pages an address space accounts for: free pages, table pages and pages of
    user memory.  Every operation below preserves this set: no page is leaked. *)
Definition acct (l : list Z) (t : tree) (um : gmap Z (Z * Z)) (p : Z) : Prop :=
  p ∈ l \/ in_tree t p \/ exists v fl, um !! v = Some (p, fl).

Record moves (k k' : kstate) (l l' : list Z) (t t' : tree) (um um' : gmap Z (Z * Z)) : Prop := {
  mv_acct : forall p, acct l' t' um' p <-> acct l t um p;
  mv_only : mem_only k k';
  mv_others : forall d, page_ok kend d -> ~ acct l t um d -> kept k k' d }.

Lemma moves_refl k l t um : moves k k l l t t um um.
Proof using. split; [done|apply mem_only_refl|by intros d _ _ a]. Qed.

Lemma moves_trans k1 k2 k3 l1 l2 l3 t1 t2 t3 um1 um2 um3 :
  moves k1 k2 l1 l2 t1 t2 um1 um2 -> moves k2 k3 l2 l3 t2 t3 um2 um3 -> moves k1 k3 l1 l3 t1 t3 um1 um3.
Proof using.
  intros [A1 A2 A3] [B1 B2 B3]. split.
  - intros p. by rewrite B1, A1.
  - by eapply mem_only_trans.
  - intros d Hd Hn a Ha. rewrite (B3 d Hd); [by apply (A3 d Hd)| |done]. by rewrite A1.
Qed.

Lemma not_acct_foreign l t um d : page_ok kend d -> ~ acct l t um d -> foreign l t d.
Proof using.
  intros Hd Hn. split_and!; [done| |]; [intros H; apply Hn; by left|].
  intros path Hp. apply Hn. right. left. by exists path.
Qed.

(** Growing the tables of an address space. *)
Lemma aspace_grows k k' l l' root t t' um : aspace k l root t um -> grows k k' l l' root t t' ->
  (forall v x, um !! v = Some x -> leaf (k_mem k') t' (v * PGSIZE) = leaf (k_mem k) t (v * PGSIZE)) ->
  aspace k' l' root t' um /\ moves k k' l l' t t' um um /\ forall v pa fl, um !! v = Some (pa, fl) -> kept k k' pa.
Proof using.
  intros Has G HL. assert (forall v pa fl, um !! v = Some (pa, fl) ->
    pa ∉ l' /\ (forall path, t' !! path <> Some pa) /\ kept k k' pa) as Hd.
  { intros v pa fl H. destruct (as_page _ _ _ _ _ Has v pa fl H) as (H1 & H2 & H3). by eapply grows_data. }
  split; [|split; [|intros v pa fl H; by apply (Hd v pa fl)]].
  - split; [apply G|..].
    + intros v pa fl H. rewrite (HL v (pa, fl)) by done. by eapply as_leaf.
    + by apply as_flags with (1 := Has).
    + intros v pa fl H. destruct (as_page _ _ _ _ _ Has v pa fl H) as (H1 & _). destruct (Hd v pa fl H) as (H2 & H3 & _). done.
    + by apply as_inj with (1 := Has).
  - split; [|apply G|].
    + intros p. destruct (g_new _ _ _ _ _ _ _ G) as (new & -> & Hnew). unfold acct. rewrite Hnew, elem_of_app. tauto.
    + intros d Hd' Hn. destruct (not_acct_foreign _ _ _ _ Hd' Hn) as (_ & H2 & H3).
      destruct (grows_data _ _ _ _ _ _ _ d G Hd' H2 H3) as (_ & _ & H). exact H.
Qed.

(** Mapping a page [d] that nothing else accounts for. *)
Lemma aspace_map k l root t um v d perm : aspace k l root t um -> page_ok kend d -> ~ acct l t um d -> um !! v = None ->
  0 <= v < MAXVA / PGSIZE -> Z.testbit (leaf (k_mem k) t (v * PGSIZE)) 0 = false ->
  0 <= perm < 1024 -> Z.lor perm PTE_V <> PTE_V ->
  exists r k' l' t', mappages root (v * PGSIZE) PGSIZE d perm k = Ret r k' /\ moves k k' l l' t t' um um /\ kept k k' d /\
    (forall x pa fl, um !! x = Some (pa, fl) -> kept k k' pa) /\
    (forall va', 0 <= va' < MAXVA -> vpn va' <> v \/ r = -1 -> leaf (k_mem k') t' va' = leaf (k_mem k) t va') /\
    (r = 0 /\ aspace k' l' root t' (<[v := (d, Z.lor perm PTE_V)]> um) \/
     r = -1 /\ aspace k' l' root t' um).
Proof using kend_pos.
  intros Has Hd Hn Hum Hv Hinv Hperm HneV. pose proof (MAXVA_pages v Hv) as Hva. pose proof (as_inv _ _ _ _ _ Has) as Hvi.
  pose proof (page_pa_ok d Hd) as Hpd.
  destruct (mappages_loop 1 root perm (v * PGSIZE) d (u64 (v * PGSIZE + PGSIZE - PGSIZE)) k l t Hvi)
    as (r & k' & l' & t' & c & Hl & G & Hr & HL); try done; try lia.
  { apply Z.mod_mul. done. }
  { change MAXVA with 274877906944 in *. unfold PGSIZE in *. zlia. }
  { change MAXVA with 274877906944 in *. rewrite u64_small by lia. lia. }
  { apply Hpd. } { apply Hpd. }
  { destruct Hd as (_ & _ & Hd). change PHYSTOP with 0x88000000 in Hd. unfold PGSIZE. lia. }
  { intros va' Hva'. rewrite (leaf_same _ _ va' (v * PGSIZE)); [done|lia..|]. rewrite vpn_mul. unfold vpn, PGSIZE in *. zlia. }
  exists r, k', l', t'. assert (c = 0 \/ c = 1) as Hc by lia.
  assert (forall va', 0 <= va' < MAXVA -> vpn va' <> v \/ r = -1 -> leaf (k_mem k') t' va' = leaf (k_mem k) t va') as HL'.
  { intros va' Hva' Hne. rewrite HL by done. rewrite decide_False; [done|]. unfold vpn, PGSIZE in *. zlia. }
  destruct (aspace_grows k k' l l' root t t' um Has G) as (Has' & Hmv & Hkept).
  { intros x [pa fl] Hx. apply HL'; [apply MAXVA_pages; by eapply as_leaf|]. left. rewrite vpn_mul. congruence. }
  destruct (not_acct_foreign _ _ _ _ Hd Hn) as (_ & Hdl & Hdt).
  destruct (grows_data _ _ _ _ _ _ _ d G Hd Hdl Hdt) as (Hdl' & Hdt' & Hdk).
  split_and!; [|done|done|done|done|].
  { unfold mappages. rewrite Z.mod_mul, Z.mod_same by done. exact Hl. }
  destruct Hr as [[-> ->]|(-> & _ & _)]; [left|by right]. split; [done|]. destruct Has' as [Q1 Q2 Q3 Q4 Q5].
  assert (leaf (k_mem k') t' (v * PGSIZE) = mk_pte d (Z.lor perm PTE_V)) as Hnew.
  { rewrite HL by done. rewrite decide_True by (unfold PGSIZE; lia). unfold map_entry. f_equal. lia. }
  split; [done|..].
  - intros x pa fl. destruct (decide (x = v)) as [->|]; [rewrite lookup_insert_eq; by intros [= <- <-]|].
    rewrite lookup_insert_ne by done. apply Q2.
  - intros x pa fl. destruct (decide (x = v)) as [->|].
    + rewrite lookup_insert_eq. intros [= <- <-]. split; [by apply flags_range|]. split; [|done].
      rewrite Z.lor_spec. apply orb_true_r.
    + rewrite lookup_insert_ne by done. apply Q3.
  - intros x pa fl. destruct (decide (x = v)) as [->|]; [rewrite lookup_insert_eq; by intros [= <- <-]|].
    rewrite lookup_insert_ne by done. apply Q4.
  - intros x x' pa fl fl'. destruct (decide (x = v)) as [->|], (decide (x' = v)) as [->|];
      rewrite ?lookup_insert_eq, ?lookup_insert_ne by done; [done| | |apply Q5].
    + intros [= <- <-] Hx. exfalso. apply Hn. right. right. eauto.
    + intros Hx [= <- <-]. exfalso. apply Hn. right. right. eauto.
Qed.

(** kalloc() by an address space: the page taken is accounted for by nothing. *)
Lemma aspace_kalloc k p l root t um : aspace k (p :: l) root t um ->
  exists k', kalloc k = Ret p k' /\ aspace k' l root t um /\ page_ok kend p /\ ~ acct l t um p /\ mem_only k k' /\
    same_leaf k t k' t /\ (forall d, page_ok kend d -> d <> p -> kept k k' d).
Proof using kend_pos.
  intros Has. pose proof (as_inv _ _ _ _ _ Has) as [Hc Hlk Hf Hr Hu].
  destruct (kalloc_spec kend kend_pos k p l Hc Hlk Hf) as (m & f & Hk & Hf' & Hm).
  assert (page_ok kend p) as Hp by (destruct Hf as [_ Hps _]; by inversion Hps).
  assert (p ∉ l) as Hpl by (destruct Hf as [_ _ Hnd]; by inversion Hnd).
  exists (set_k_mem m (set_k_freelist f k)).
  assert (forall d, page_ok kend d -> d <> p -> kept k (set_k_mem m (set_k_freelist f k)) d) as Hkeep.
  { intros d Hd Hne a Ha. cbn [k_mem set_k_mem]. apply Hm. by apply (pages_disjoint kend d p). }
  assert (mem_only k (set_k_mem m (set_k_freelist f k))) as Hmo by (by exists m, f).
  destruct (vm_inv_keep k (set_k_mem m (set_k_freelist f k)) (p :: l) l root t (as_inv _ _ _ _ _ Has) Hmo Hf') as [Hv Hs].
  { intros path q Hq. assert (q <> p) by (intros ->; by apply (Hu path p Hq); left).
    split; [intros ?; by apply (Hu path q Hq); right|]. apply Hkeep; [|done]. by eapply rep_pages. }
  split; [done|]. split; [|split_and!; try done].
  - split; [done|..].
    + intros v pa fl H. rewrite (Hs (v * PGSIZE)). by eapply as_leaf.
    + by apply as_flags with (1 := Has).
    + intros v pa fl H. destruct (as_page _ _ _ _ _ Has v pa fl H) as (H1 & H2 & H3). split_and!; [done| |done].
      intros ?. apply H2. by right.
    + by apply as_inj with (1 := Has).
  - intros [H|[[path H]|(v & fl & H)]]; [done|by apply (Hu path p H); left|].
    destruct (as_page _ _ _ _ _ Has v p fl H) as (_ & H2 & _). apply H2. left.
Qed.

(** Writing into a page the address space does not account for. *)
Lemma aspace_poke k l root t um d m : aspace k l root t um -> page_ok kend d -> ~ acct l t um d ->
  (forall a, ~ in_page d a -> ld m a = ld (k_mem k) a) ->
  aspace (set_k_mem m k) l root t um /\ same_leaf k t (set_k_mem m k) t /\ mem_only k (set_k_mem m k) /\
  forall x, page_ok kend x -> x <> d -> kept k (set_k_mem m k) x.
Proof using.
  intros Has Hd Hn Hm. assert (forall x, page_ok kend x -> x <> d -> kept k (set_k_mem m k) x) as Hkeep.
  { intros x Hx Hne a Ha. cbn [k_mem set_k_mem]. apply Hm. by apply (pages_disjoint kend x d). }
  assert (mem_only k (set_k_mem m k)) as Hmo by (exists m, (k_freelist k); by destruct k).
  pose proof (as_inv _ _ _ _ _ Has) as Hvi. destruct (not_acct_foreign _ _ _ _ Hd Hn) as (_ & Hdl & Hdt).
  destruct (vm_inv_keep k (set_k_mem m k) l l root t Hvi Hmo) as [Hv Hs].
  { apply kmem_ok_mem; [apply Hvi|]. intros p a Hp Ha. apply Hm. apply (pages_disjoint kend p d); auto; [|by intros ->].
    destruct (vi_free _ _ _ _ Hvi) as [_ Hps _]. rewrite Forall_forall in Hps. auto. }
  { intros path p Hp. split; [by eapply vi_used|]. apply Hkeep; [by eapply rep_pages; [apply Hvi|]|].
    intros ->. by eapply Hdt. }
  split; [|done]. split; [done|..].
  - intros v pa fl H. rewrite (Hs (v * PGSIZE)). by eapply as_leaf.
  - by apply as_flags with (1 := Has).
  - by apply as_page with (1 := Has).
  - by apply as_inj with (1 := Has).
Qed.

End vm.

(** ** Examples: a kernel with 16 pages

    PG 0, PG 1 and PG 2 are the tables of an address space that maps its page 0 to
    PG 3; PG 4 is the root of an empty one; PG 5 .. PG 12 are free. *)
Definition PG (i : Z) : Z := PHYSTOP - (i + 1) * PGSIZE.
Definition vm_kend : Z := PHYSTOP - 16 * PGSIZE.

Lemma vm_kend_pos : 0 < vm_kend.
Proof. done. Qed.

Lemma PG_ok i : 0 <= i < 16 -> page_ok vm_kend (PG i).
Proof.
  intros H. unfold page_ok, PG, vm_kend. change PHYSTOP with (557056 * PGSIZE).
  rewrite <- Z.mul_sub_distr_r, Z.mod_mul by done. unfold PGSIZE. lia.
Qed.

Lemma PG_far i j a : i <> j -> in_page (PG i) a -> ~ in_page (PG j) a.
Proof. unfold in_page, PG, PGSIZE. lia. Qed.

Definition vm_free : list Z := PG <$> [5; 6; 7; 8; 9; 10; 11; 12].

(** The links of a free list. *)
Fixpoint chain (l : list Z) : mem :=
  match l with
  | [] => ∅
  | p :: l' => store64 (chain l') p (hd 0 l')
  end.

Lemma chain_out l a : (forall p, p ∈ l -> ~ in_page p a) -> ld (chain l) a = 0.
Proof.
  induction l as [|p l IH]; intros H; [done|]. cbn [chain]. rewrite ld_store64_other.
  - apply IH. intros q Hq. apply H. by right.
  - assert (~ in_page p a) as Hp by (apply H; left). unfold in_page, PGSIZE in Hp. lia.
Qed.

Lemma chain_runs kend l : 0 < kend -> Forall (page_ok kend) l -> NoDup l -> runs (chain l) (hd 0 l) l.
Proof.
  intros Hk. induction 1 as [|p l Hp Hl IH]; intros Hnd; [done|]. inversion Hnd; subst. cbn. split; [done|].
  rewrite load64_store64.
  - eapply runs_ext; [by apply IH|]. intros q a Hq Ha. apply ld_store64_other.
    rewrite Forall_forall in Hl. assert (~ in_page p a) as Hpa by (apply (pages_disjoint kend q p); auto; congruence).
    unfold in_page, PGSIZE in Hpa. lia.
  - destruct Hl as [|q l Hq Hl]; cbn; [lia|]. by apply (page_u64 kend).
Qed.

Definition vm_pte0 : mem := store64 (chain vm_free) (PG 0 + 8 * 0) (mk_pte (PG 1) PTE_V).
Definition vm_pte1 : mem := store64 vm_pte0 (PG 1 + 8 * 0) (mk_pte (PG 2) PTE_V).
Definition vm_mem : mem := store64 vm_pte1 (PG 2 + 8 * 0) (mk_pte (PG 3) 0x17).
Definition vm_k : kstate := set_k_mem vm_mem (set_k_freelist (PG 5) kmem_inited).
Definition vm_tree : tree := <[[0; 0] := PG 2]> (<[[0] := PG 1]> {[[] := PG 0]}).
Definition vm_um : gmap Z (Z * Z) := {[0 := (PG 3, 0x17)]}.
Definition vm_child : tree := {[[] := PG 4]}.

(** A table with no valid entry. *)
Lemma rep_empty kend m r : page_ok kend r -> (forall a, in_page r a -> ld m a = 0) -> rep kend m r {[[] := r]}.
Proof.
  intros Hr Hz. split.
  - by apply lookup_singleton_eq.
  - intros path p i Hp _ Hi. apply lookup_singleton_Some in Hp as [<- <-]. rewrite lookup_singleton_ne by done.
    cbn. assert (entry m r i = 0) as -> by (apply load64_0; intros b Hb; eapply Hz, entry_in_page; eauto). apply Z.bits_0.
  - intros path p Hp. apply lookup_singleton_Some in Hp as [<- <-]. split; [done|cbn; lia].
  - intros path i q Hq. apply lookup_singleton_Some in Hq as [Hq _]. by destruct path.
  - intros i path q Hq. by apply lookup_singleton_Some in Hq as [Hq _].
  - intros a b p Ha Hb. apply lookup_singleton_Some in Ha as [<- _]. by apply lookup_singleton_Some in Hb as [<- _].
Qed.

Lemma st_page m p v a : ~ in_page p a -> ld (store64 m (p + 8 * 0) v) a = ld m a.
Proof. intros H. apply ld_store64_other. unfold in_page, PGSIZE in H. lia. Qed.

Lemma vm_free_out i a : 0 <= i < 5 -> in_page (PG i) a -> ld (chain vm_free) a = 0.
Proof.
  intros Hi Ha. apply chain_out. intros p Hp. unfold vm_free in Hp. apply list_elem_of_fmap in Hp as (j & -> & Hj).
  apply (PG_far i j); [|done]. rewrite !elem_of_cons, elem_of_nil in Hj. lia.
Qed.

Lemma vm_free_ok : Forall (page_ok vm_kend) vm_free /\ NoDup vm_free.
Proof.
  split; [unfold vm_free; rewrite Forall_fmap, Forall_forall; intros x Hx; apply PG_ok;
    rewrite !elem_of_cons, elem_of_nil in Hx; lia|].
  apply NoDup_fmap_2; [intros x y; unfold PG, PGSIZE; lia|]. by apply (bool_decide_unpack _).
Qed.

Lemma vm_k_free : kmem_ok vm_kend vm_k vm_free.
Proof.
  destruct vm_free_ok as [Hf Hnd]. split; [|done..].
  assert (runs vm_mem (PG 5) vm_free) as H; [|exact H]. eapply runs_ext; [exact (chain_runs vm_kend vm_free vm_kend_pos Hf Hnd)|].
  intros p a Hp Ha. unfold vm_free in Hp. apply list_elem_of_fmap in Hp as (j & -> & Hj).
  rewrite !elem_of_cons, elem_of_nil in Hj. unfold vm_mem, vm_pte1, vm_pte0. rewrite !st_page; [done|apply (PG_far j _); (done || lia)..].
Qed.

Lemma vm_rep1 : rep vm_kend vm_pte1 (PG 0) vm_tree.
Proof.
  assert (rep vm_kend (chain vm_free) (PG 0) {[[] := PG 0]}) as H0.
  { apply rep_empty; [by apply PG_ok|]. intros a. by apply vm_free_out. }
  destruct (rep_add vm_kend vm_kend_pos (chain vm_free) (chain vm_free) (PG 0) {[[] := PG 0]} [] (PG 0) 0 (PG 1)) as [H1 _];
    [done|apply lookup_singleton_eq|cbn; lia|lia|by apply lookup_singleton_ne|lia|by apply PG_ok| |done|intros a; by apply vm_free_out|].
  { intros a Ha. apply lookup_singleton_Some in Ha as [_ Ha]. unfold PG, PGSIZE in Ha. lia. }
  destruct (rep_add vm_kend vm_kend_pos vm_pte0 vm_pte0 (PG 0) (<[[0] := PG 1]> {[[] := PG 0]}) [0] (PG 1) 0 (PG 2)) as [H2 _];
    [exact H1|apply lookup_insert_eq|cbn; lia|lia| |done|by apply PG_ok| |done| |exact H2].
  { rewrite lookup_insert_ne by done. by apply lookup_singleton_ne. }
  { intros a. destruct (decide (a = [0])) as [->|]; [rewrite lookup_insert_eq|rewrite lookup_insert_ne by done].
    - by intros [= Ha].
    - intros Ha. apply lookup_singleton_Some in Ha as [_ Ha]. unfold PG, PGSIZE in Ha. lia. }
  { intros a Ha. unfold vm_pte0. rewrite st_page by (apply (PG_far 2 0); (done || lia)). by apply (vm_free_out 2). }
Qed.

Lemma vm_pte_range : 0 <= mk_pte (PG 3) 0x17 < 2 ^ 64.
Proof. apply mk_pte_range; [|lia]. exact (page_pa_ok vm_kend vm_kend_pos _ (PG_ok 3 ltac:(lia))). Qed.

Lemma vm_rep : rep vm_kend vm_mem (PG 0) vm_tree.
Proof.
  apply (rep_store_leaf vm_kend) with (path := [0; 0]); [exact vm_rep1|apply lookup_insert_eq|done|lia|exact vm_pte_range].
Qed.

(** What the first address space maps. *)
Lemma vm_leaf va : 0 <= va < MAXVA -> leaf vm_mem vm_tree va = if decide (0 = vpn va) then mk_pte (PG 3) 0x17 else leaf vm_pte1 vm_tree va.
Proof.
  intros Hva. apply (leaf_store vm_kend vm_pte1 (PG 0) vm_tree 0);
    [exact vm_rep1|apply lookup_insert_eq|exact vm_pte_range|done|done].
Qed.

Lemma vm_tree_page path p : vm_tree !! path = Some p -> p = PG 0 \/ p = PG 1 \/ p = PG 2.
Proof.
  unfold vm_tree. intros H. destruct (decide (path = [0; 0])) as [->|]; [rewrite lookup_insert_eq in H; injection H; auto|].
  rewrite lookup_insert_ne in H by done. destruct (decide (path = [0])) as [->|]; [rewrite lookup_insert_eq in H; injection H; auto|].
  rewrite lookup_insert_ne in H by done. apply lookup_singleton_Some in H as [_ <-]. auto.
Qed.

Lemma vm_free_in p : p ∈ vm_free -> exists j, p = PG j /\ 5 <= j <= 12.
Proof.
  intros H. unfold vm_free in H. apply list_elem_of_fmap in H as (j & -> & Hj). exists j. split; [done|].
  rewrite !elem_of_cons, elem_of_nil in Hj. lia.
Qed.

Lemma vm_cpu : cpu_ok vm_k /\ lock_free vm_k LKmem.
Proof. split; [exact zero_cpu_ok|exact (with_lock_free LKmem zero_state)]. Qed.

Ltac pg := unfold PG, PGSIZE in *; lia.

Lemma vm_um_page v pa fl : vm_um !! v = Some (pa, fl) -> v = 0 /\ pa = PG 3 /\ fl = 0x17.
Proof. unfold vm_um. intros H. apply lookup_singleton_Some in H as [<- [= <- <-]]. done. Qed.

Lemma vm_k_parent : aspace vm_kend vm_k vm_free (PG 0) vm_tree vm_um.
Proof.
  destruct vm_cpu as [Hc Hl]. split; [split; [done|done|exact vm_k_free|exact vm_rep|]|..].
  - intros path p [->|[->| ->]]%vm_tree_page (j & Hj & Hr)%vm_free_in; pg.
  - intros v pa fl Hv. apply vm_um_page in Hv as (-> & -> & ->). split; [done|].
    exact (vm_leaf 0 ltac:(done)).
  - intros v pa fl Hv. apply vm_um_page in Hv as (-> & -> & ->). split; [lia|]. split; [done|]. done.
  - intros v pa fl Hv. apply vm_um_page in Hv as (-> & -> & ->). split; [apply PG_ok; lia|]. split.
    + intros (j & Hj & Hr)%vm_free_in. pg.
    + intros path [H|[H|H]]%vm_tree_page; pg.
  - intros v v' pa fl fl' (-> & _)%vm_um_page. by intros (-> & _)%vm_um_page.
Qed.

Lemma vm_k_child : aspace vm_kend vm_k vm_free (PG 4) vm_child ∅.
Proof.
  destruct vm_cpu as [Hc Hl]. split; [split; [done|done|exact vm_k_free| |]|..].
  - apply rep_empty; [apply PG_ok; lia|]. intros a Ha. change (ld vm_mem a = 0). unfold vm_mem, vm_pte1, vm_pte0.
    rewrite !st_page by (apply (PG_far 4 _); (done || lia)). by apply (vm_free_out 4).
  - intros path p Hp (j & Hj & Hr)%vm_free_in. unfold vm_child in Hp. apply lookup_singleton_Some in Hp as [_ <-]. pg.
  - intros v pa fl Hv. by rewrite lookup_empty in Hv.
  - intros v pa fl Hv. by rewrite lookup_empty in Hv.
  - intros v pa fl Hv. by rewrite lookup_empty in Hv.
  - intros v v' pa fl fl' Hv. by rewrite lookup_empty in Hv.
Qed.

Lemma vm_child_leaf va : leaf vm_mem vm_child va = 0.
Proof. unfold leaf, vm_child. by rewrite lookup_singleton_ne. Qed.

