(* ===== verification/Uvm.v ===== *)
(** * Uvm: growing, shrinking, copying and freeing user memory (kernel/vm.c)

    The correctness of uvmalloc(), uvmdealloc(), uvmcopy(), uvmfree(), copyout(),
    copyin() and copyinstr(), stated on address spaces: [aspace k l root t um] says
    that the page table at [root] maps exactly the pages of [um] for the process,
    and [moves] that an operation neither leaks a page nor touches a page that
    another owner holds. *)

From Stdlib Require Import ZArith Lia.
From stdpp Require Import base gmap list strings.
From S2P Require Import Prelude Bytes State Riscv Spinlock Sched Sleeplock Mem Kalloc Vm.

#[local] Opaque memset store64 load64.

(** The number of pages that hold [sz] bytes. *)
Definition pages (sz : Z) : Z := (sz + PGSIZE - 1) / PGSIZE.

Lemma PGROUNDUP_pages sz : 0 <= sz <= MAXVA -> PGROUNDUP sz = pages sz * PGSIZE.
Proof. intros H. change MAXVA with 274877906944 in H. apply PGROUNDUP_eq. unfold PGSIZE. lia. Qed.

Lemma pages_mono a b : a <= b -> pages a <= pages b.
Proof. intros H. unfold pages. apply Z.div_le_mono; unfold PGSIZE; lia. Qed.

Lemma pages_mul v : pages (v * PGSIZE) = v.
Proof. unfold pages, PGSIZE. zlia. Qed.

Lemma pages_max sz : 0 <= sz <= MAXVA -> 0 <= pages sz <= MAXVA / PGSIZE.
Proof. change MAXVA with 274877906944. unfold pages, PGSIZE. intros. zlia. Qed.

Lemma pages_lt v sz : v < pages sz <-> v * PGSIZE < sz.
Proof. unfold pages, PGSIZE. zlia. Qed.

Section uvm.
Variable kend : Z.
Hypothesis kend_pos : 0 < kend.

(** uvmunmap() of [n] pages from page [v], with the memory freed. *)
Lemma uvmunmap_run v n k l root t um : aspace kend k l root t um -> 0 <= v -> 0 <= n -> (v + n) * PGSIZE <= MAXVA ->
  (forall i, v <= i < v + n -> is_Some (um !! i)) ->
  exists k' l' um', uvmunmap kend root (v * PGSIZE) n true k = Ret tt k' /\
    aspace kend k' l' root t um' /\ moves kend k k' l l' t t um um' /\
    (forall i, um' !! i = if decide (v <= i < v + n) then None else um !! i) /\
    (forall va', 0 <= va' < MAXVA -> leaf (k_mem k') t va' = if decide (v <= vpn va' < v + n) then 0 else leaf (k_mem k) t va') /\
    (forall i pa fl, um' !! i = Some (pa, fl) -> kept k k' pa) /\ forall p, p ∈ l -> p ∈ l'.
Proof using kend_pos.
  intros Has Hv Hn Hmax Hum. replace n with (Z.of_nat (Z.to_nat n)) in * by lia. set (n' := Z.to_nat n) in *.
  destruct (unmap_loop kend kend_pos n' v k l root t um ((v + Z.of_nat n') * PGSIZE) Has)
    as (k' & pas & um' & Hl & Has' & Hmo & Hum' & Hpas & HL & Hk); [done..|].
  exists k', (pas ++ l), um'. split.
  { unfold uvmunmap. rewrite Z.mod_mul by done. cbn [Z.eqb negb]. change MAXVA with 274877906944 in *.
    rewrite u64_small by (unfold PGSIZE in *; lia). rewrite Nat2Z.id.
    replace (v * PGSIZE + Z.of_nat n' * PGSIZE) with ((v + Z.of_nat n') * PGSIZE) by lia. exact Hl. }
  assert (forall i pa fl, um' !! i = Some (pa, fl) -> um !! i = Some (pa, fl) /\ pa ∉ pas) as Hrest.
  { intros i pa fl Hi. rewrite Hum' in Hi. case_decide as Hd; [done|]. split; [done|].
    intros (j & fl' & Hj & Hj')%Hpas. pose proof (as_inj _ _ _ _ _ _ Has i j pa fl fl' Hi Hj'). lia. }
  split_and!; [done| |done|done| |set_solver].
  - split; [|done|].
    + intros p. unfold acct. rewrite elem_of_app, Hpas. split.
      * intros [[(i & fl & _ & H)|H]|[H|(i & fl & H)]]; [by right; right; eauto|by left|by right; left|].
        apply Hrest in H as [H _]. by right; right; eauto.
      * intros [H|[H|(i & fl & H)]]; [by left; right|by right; left|].
        destruct (decide (v <= i < v + Z.of_nat n')); [left; left; eauto|].
        right. right. exists i, fl. rewrite Hum'. by rewrite decide_False.
    + intros d Hd Hnot. apply Hk; [by eapply not_acct_foreign|].
      intros (i & fl & _ & H)%Hpas. apply Hnot. right. right. eauto.
  - intros i pa fl Hi. destruct (Hrest i pa fl Hi) as [Hi' Hnp]. apply Hk; [|done]. by eapply as_page.
Qed.

Lemma uvmdealloc_run k l root t um oldsz newsz : aspace kend k l root t um -> 0 <= newsz <= oldsz -> oldsz <= MAXVA ->
  (forall i, pages newsz <= i < pages oldsz -> is_Some (um !! i)) ->
  exists k' l' um', uvmdealloc kend root oldsz newsz k = Ret newsz k' /\
    aspace kend k' l' root t um' /\ moves kend k k' l l' t t um um' /\
    (forall i, um' !! i = if decide (pages newsz <= i < pages oldsz) then None else um !! i) /\
    (forall va', 0 <= va' < MAXVA -> leaf (k_mem k') t va' =
       if decide (pages newsz <= vpn va' < pages oldsz) then 0 else leaf (k_mem k) t va') /\
    (forall i pa fl, um' !! i = Some (pa, fl) -> kept k k' pa) /\ forall p, p ∈ l -> p ∈ l'.
Proof using kend_pos.
  intros Has Hn Ho Hum. pose proof (pages_mono newsz oldsz ltac:(lia)) as Hmono.
  pose proof (pages_max oldsz ltac:(lia)). pose proof (pages_max newsz ltac:(lia)).
  destruct (uvmunmap_run (pages newsz) (pages oldsz - pages newsz) k l root t um Has)
    as (k' & l' & um' & Hu & Has' & Hmv & Hum' & HL & Hk & Hl); [lia|lia| |intros i Hi; apply Hum; lia|].
  { change MAXVA with 274877906944 in *. unfold PGSIZE in *. zlia. }
  replace (pages newsz + (pages oldsz - pages newsz)) with (pages oldsz) in * by lia.
  unfold uvmdealloc. destruct (Z.leb_spec oldsz newsz).
  { assert (newsz = oldsz) as -> by lia. exists k, l, um. split_and!; [done..|apply moves_refl| | | |done].
    - intros i. by rewrite decide_False by lia.
    - intros va' _. by rewrite decide_False by lia.
    - by intros i pa fl _ a. }
  rewrite !PGROUNDUP_pages by lia. destruct (Z.ltb_spec (pages newsz * PGSIZE) (pages oldsz * PGSIZE)) as [Hlt|Hge].
  - exists k', l', um'. split_and!; [|done..]. rewrite <- Z.mul_sub_distr_r, Z.div_mul by done.
    change MAXVA with 274877906944 in *. rewrite i32_small by (unfold PGSIZE in *; zlia).
    by erewrite bind_ret_run by exact Hu.
  - exists k, l, um. assert (pages newsz = pages oldsz) as Heq by (unfold PGSIZE in *; lia). rewrite Heq.
    split_and!; [done..|apply moves_refl| | | |done].
    + intros i. by rewrite decide_False by lia.
    + intros va' _. by rewrite decide_False by lia.
    + by intros i pa fl _ a.
Qed.

Lemma acct_insert l t um v d fl p : um !! v = None ->
  acct l t (<[v := (d, fl)]> um) p <-> acct l t um p \/ p = d.
Proof using.
  intros Hv. unfold acct. split.
  - intros [H|[H|(i & fl' & H)]]; [tauto|tauto|]. destruct (decide (i = v)) as [->|].
    + rewrite lookup_insert_eq in H. injection H. auto.
    + rewrite lookup_insert_ne in H by done. left. right. right. eauto.
  - intros [[H|[H|(i & fl' & H)]]| ->]; [tauto|tauto| |].
    + right. right. exists i, fl'. rewrite lookup_insert_ne by congruence. done.
    + right. right. exists v, fl. apply lookup_insert_eq.
Qed.

(** An address space after a page it does not account for was freed. *)
Lemma aspace_after_free k k' l root t um d : aspace kend k l root t um -> vm_inv kend k' (d :: l) root t -> same_leaf k t k' t ->
  ~ acct l t um d -> aspace kend k' (d :: l) root t um.
Proof using.
  intros Has Hv Hs Hn. split; [done|..].
  - intros v pa fl H. rewrite (Hs (v * PGSIZE)). by eapply as_leaf.
  - by apply as_flags with (1 := Has).
  - intros v pa fl H. destruct (as_page _ _ _ _ _ _ Has v pa fl H) as (H1 & H2 & H3). split_and!; [done| |done].
    intros [->|]%elem_of_cons; [|done]. apply Hn. right. right. eauto.
  - by apply as_inj with (1 := Has).
Qed.

(** ** A new page

    What uvmalloc() and uvmcopy() do for each page: allocate, fill, map, and free
    the page again if it cannot be mapped. *)
Definition new_page (root va perm : Z) (fill : Z -> K unit) : K bool :=
  let! mem := kalloc in
  if mem =? 0 then ret false else
  do! fill mem;
  let! r := mappages root va PGSIZE mem perm in
  if negb (r =? 0) then do! kfree kend mem; ret false else ret true.

Lemma new_page_run k l root t um v perm (g : mem -> Z -> mem) (content : Z -> Z) :
  aspace kend k l root t um -> um !! v = None -> 0 <= v < MAXVA / PGSIZE ->
  Z.testbit (leaf (k_mem k) t (v * PGSIZE)) 0 = false -> 0 <= perm < 1024 -> Z.lor perm PTE_V <> PTE_V ->
  (forall m d a, ~ in_page d a -> ld (g m d) a = ld m a) ->
  (forall m d, d ∈ l -> (forall x a, page_ok kend x -> x <> d -> in_page x a -> ld m a = ld (k_mem k) a) ->
     forall off, 0 <= off < PGSIZE -> ld (g m d) (d + off) = content off) ->
  exists ok k' l' t' um', new_page root (v * PGSIZE) perm (fun d => modify (fun k => set_k_mem (g (k_mem k) d) k)) k = Ret ok k' /\
    aspace kend k' l' root t' um' /\ moves kend k k' l l' t t' um um' /\
    (forall x pa fl, um !! x = Some (pa, fl) -> kept k k' pa) /\
    (forall va', 0 <= va' < MAXVA -> vpn va' <> v \/ ok = false -> leaf (k_mem k') t' va' = leaf (k_mem k) t va') /\
    (if ok then exists d, um' = <[v := (d, Z.lor perm PTE_V)]> um /\ d ∈ l /\
       forall off, 0 <= off < PGSIZE -> ld (k_mem k') (d + off) = content off
     else um' = um).
Proof using kend_pos.
  intros Has Hum Hv Hinv Hperm HneV Hg Hc. unfold new_page. destruct l as [|d l].
  { exists false, k, [], t, um. erewrite bind_ret_run by (apply (kalloc_none kend); apply (as_inv _ _ _ _ _ _ Has)).
    split_and!; try done. apply moves_refl. }
  destruct (aspace_kalloc kend kend_pos k d l root t um Has) as (k1 & Hk1 & Has1 & Hd & Hnd & Hmo1 & Hs1 & Hkeep1).
  erewrite bind_ret_run by exact Hk1. pose proof (page_pos kend kend_pos d Hd).
  destruct (Z.eqb_spec d 0); [lia|]. unfold modify at 1. unfold bind at 1.
  destruct (aspace_poke kend k1 l root t um d (g (k_mem k1) d) Has1 Hd Hnd) as (Has2 & Hs2 & Hmo2 & Hkeep2); [by apply Hg|].
  set (k2 := set_k_mem (g (k_mem k1) d) k1) in *.
  assert (forall off, 0 <= off < PGSIZE -> ld (k_mem k2) (d + off) = content off) as Hcont.
  { intros off Ho. unfold k2. cbn [k_mem set_k_mem]. apply Hc; [left| |done]. intros x a Hx Hne. by apply (Hkeep1 x). }
  assert (moves kend k k2 (d :: l) (d :: l) t t um um) as Hmv2.
  { split; [done|by eapply mem_only_trans|]. intros x Hx Hn a Ha. assert (x <> d) by (intros ->; apply Hn; left; left).
    rewrite (Hkeep2 x) by done. by apply (Hkeep1 x). }
  assert (forall x pa fl, um !! x = Some (pa, fl) -> kept k k2 pa) as Hum2.
  { intros x pa fl Hx a Ha. destruct (as_page _ _ _ _ _ _ Has x pa fl Hx) as (Hp & Hn & _).
    assert (pa <> d) by (intros ->; apply Hn; left). rewrite (Hkeep2 pa) by done. by apply (Hkeep1 pa). }
  assert (forall va, leaf (k_mem k2) t va = leaf (k_mem k) t va) as Hs by (intros va; by rewrite Hs2, Hs1).
  destruct (aspace_map kend kend_pos k2 l root t um v d perm Has2 Hd Hnd Hum Hv) as
    (r & k3 & l3 & t3 & Hk3 & [Hac3 Hmo3 Hot3] & Hd3 & Hum3 & HL3 & Hr3); [by rewrite Hs|done..|].
  assert (forall x pa fl, um !! x = Some (pa, fl) -> kept k k3 pa) as Hum3'.
  { intros x pa fl Hx a Ha. rewrite (Hum3 x pa fl Hx a Ha). by apply (Hum2 x pa fl). }
  assert (forall x, page_ok kend x -> ~ acct (d :: l) t um x -> kept k k3 x) as Hot.
  { intros x Hx Hn a Ha. rewrite (Hot3 x Hx); [by apply (mv_others _ _ _ _ _ _ _ _ _ Hmv2 x)| |done].
    unfold acct in *. rewrite elem_of_cons in Hn. tauto. }
  assert (mem_only k k3) as Hmo3' by (eapply mem_only_trans; [apply Hmv2|done]).
  erewrite bind_ret_run by exact Hk3. destruct Hr3 as [[-> Has3]|[-> Has3]].
  - eexists true, k3, l3, t3, _. split; [reflexivity|]. split; [exact Has3|]. split_and!; [|done| |].
    + split; [|done|done]. intros p. rewrite acct_insert by done. rewrite Hac3. unfold acct.
      rewrite elem_of_cons. tauto.
    + intros va' Hva' Hne. rewrite HL3; [apply Hs|done|left; by destruct Hne].
    + exists d. split; [done|]. split; [left|]. intros off Ho. rewrite (Hd3 (d + off)); [by apply Hcont|]. unfold in_page. lia.
  - assert (~ acct l3 t3 um d) as Hnd3 by by rewrite Hac3.
    destruct (kfree_keeps kend kend_pos k3 l3 root t3 d (as_inv _ _ _ _ _ _ Has3)) as (k4 & Hk4 & Hv4 & Hs4 & Hmo4 & Hkeep4).
    { by eapply not_acct_foreign. }
    exists false, k4, (d :: l3), t3, um. split; [cbn; by erewrite bind_ret_run by exact Hk4|]. split.
    { eapply aspace_after_free; eauto. }
    split_and!; [|..|done].
    + split; [|by eapply mem_only_trans|].
      * intros p. specialize (Hac3 p). unfold acct in *. rewrite !elem_of_cons. tauto.
      * intros x Hx Hn a Ha. assert (x <> d) by (intros ->; apply Hn; left; left).
        rewrite (Hkeep4 x Hx) by done. by apply (Hot x).
    + intros x pa fl Hx a Ha. destruct (as_page _ _ _ _ _ _ Has x pa fl Hx) as (Hp & Hn & _).
      assert (pa <> d) by (intros ->; apply Hn; left). rewrite (Hkeep4 pa) by done. by apply (Hum3' x pa fl).
    + intros va' Hva' _. rewrite Hs4, HL3; [apply Hs|done|by right].
Qed.

(** ** uvmalloc() *)

Lemma uvmalloc_body_eq root oldsz newsz xperm a k :
  uvmalloc_body kend root oldsz newsz xperm a k =
  (if negb (a <? newsz) then ret (inr newsz) else
   let! ok := new_page root a (Z.lor (Z.lor PTE_R PTE_U) xperm)
                (fun d => modify (fun k => set_k_mem (memset (k_mem k) d 0 PGSIZE) k)) in
   if ok then ret (inl (u64 (a + PGSIZE)))
   else do! uvmdealloc kend root a oldsz; ret (inr 0)) k.
Proof using.
  unfold uvmalloc_body, new_page. destruct (a <? newsz); [|done]. cbn [negb]. unfold mem_set, bind, ret.
  repeat (case_match; simplify_eq; try done).
Qed.

Lemma alloc_flags xperm : 0 <= xperm < 1024 ->
  0 <= Z.lor (Z.lor PTE_R PTE_U) xperm < 1024 /\ Z.lor (Z.lor (Z.lor PTE_R PTE_U) xperm) PTE_V <> PTE_V.
Proof using.
  intros Hx. split; [apply (lor_range 10); lia || done|]. intros He. apply (f_equal (fun z => Z.testbit z 1)) in He.
  rewrite !Z.lor_spec in He. done.
Qed.

(** The contents of a page. *)
Definition holds (k : kstate) (d : Z) (content : Z -> Z) : Prop :=
  forall off, 0 <= off < PGSIZE -> ld (k_mem k) (d + off) = content off.
Definition zeroed (k : kstate) (d : Z) : Prop := holds k d (fun _ => 0).

Lemma holds_kept k k' d c : kept k k' d -> holds k d c -> holds k' d c.
Proof using. intros Hk Hz off Ho. rewrite (Hk (d + off)) by (unfold in_page; lia). by apply Hz. Qed.

(** uvmdealloc() between page boundaries is uvmunmap(). *)
Lemma uvmdealloc_undo root v0 v k k' : 0 <= v0 <= v -> v <= MAXVA / PGSIZE ->
  uvmunmap kend root (v0 * PGSIZE) (v - v0) true k = Ret tt k' ->
  exists r, uvmdealloc kend root (v * PGSIZE) (v0 * PGSIZE) k = Ret r k'.
Proof using.
  intros Hv Hmax Hu. unfold uvmdealloc. change MAXVA with 274877906944 in Hmax.
  destruct (Z.leb_spec (v * PGSIZE) (v0 * PGSIZE)) as [Hle|Hgt].
  - assert (v = v0) as -> by (unfold PGSIZE in *; lia). rewrite Z.sub_diag in Hu. eexists. unfold ret. f_equal.
    unfold uvmunmap in Hu. rewrite Z.mod_mul in Hu by done. cbn [Z.eqb negb Z.to_nat loop] in Hu.
    unfold uvmunmap_body, bind in Hu. rewrite Z.mul_0_l, Z.add_0_r, u64_small in Hu by (unfold PGSIZE in *; zlia).
    rewrite Z.ltb_irrefl in Hu. cbn in Hu. by injection Hu.
  - rewrite !PGROUNDUP_pages by (change MAXVA with 274877906944; unfold PGSIZE in *; zlia). rewrite !pages_mul.
    destruct (Z.ltb_spec (v0 * PGSIZE) (v * PGSIZE)); [|lia]. rewrite <- Z.mul_sub_distr_r, Z.div_mul by done.
    rewrite i32_small by (unfold PGSIZE in *; zlia). erewrite bind_ret_run by exact Hu. by eexists.
Qed.

Section new_pages.
Variables (k0 : kstate) (l0 : list Z) (t0 : tree) (um0 : gmap Z (Z * Z)) (root v0 v1 : Z).
Variables (perm : Z -> Z) (content : Z -> Z -> Z) (g : Z -> mem -> Z -> mem).

(** The pages [v0 .. v) have been added to the address space (k0, l0, t0, um0). *)
Record alloc_inv (v : Z) (k : kstate) (l : list Z) (t : tree) (um : gmap Z (Z * Z)) : Prop := {
  ai_space : aspace kend k l root t um;
  ai_moves : moves kend k0 k l0 l t0 t um0 um;
  ai_old : forall i, ~ v0 <= i < v -> um !! i = um0 !! i;
  ai_new : forall i, v0 <= i < v -> exists d, um !! i = Some (d, Z.lor (perm i) PTE_V) /\ holds k d (content i);
  ai_kept : forall x pa fl, um0 !! x = Some (pa, fl) -> kept k0 k pa;
  ai_leaf : forall va, 0 <= va < MAXVA -> ~ v0 <= vpn va < v -> leaf (k_mem k) t va = leaf (k_mem k0) t0 va }.

(** The address space is as it was, but for unused entries of [v0 .. v1). *)
Record alloc_undone (k : kstate) (l : list Z) (t : tree) : Prop := {
  au_space : aspace kend k l root t um0;
  au_moves : moves kend k0 k l0 l t0 t um0 um0;
  au_kept : forall x pa fl, um0 !! x = Some (pa, fl) -> kept k0 k pa;
  au_leaf : forall va, 0 <= va < MAXVA -> ~ v0 <= vpn va < v1 -> leaf (k_mem k) t va = leaf (k_mem k0) t0 va;
  au_free : forall va, 0 <= va < MAXVA -> v0 <= vpn va < v1 -> Z.testbit (leaf (k_mem k) t va) 0 = false }.

Hypothesis Hperm : forall i, v0 <= i < v1 -> 0 <= perm i < 1024 /\ Z.lor (perm i) PTE_V <> PTE_V.
Hypothesis Hv0 : 0 <= v0.
Hypothesis Hv1 : v1 <= MAXVA / PGSIZE.
Hypothesis Hfree : forall i, v0 <= i < v1 -> um0 !! i = None.
Hypothesis Hinv : forall i, v0 <= i < v1 -> Z.testbit (leaf (k_mem k0) t0 (i * PGSIZE)) 0 = false.
Hypothesis Hframe : forall i m d a, ~ in_page d a -> ld (g i m d) a = ld m a.
Hypothesis Hfill : forall i k l t um m d, v0 <= i < v1 -> moves kend k0 k l0 l t0 t um0 um -> d ∈ l ->
  (forall x a, page_ok kend x -> x <> d -> in_page x a -> ld m a = ld (k_mem k) a) ->
  forall off, 0 <= off < PGSIZE -> ld (g i m d) (d + off) = content i off.

(** One page more, or a failure. *)
Lemma alloc_step v k l t um : alloc_inv v k l t um -> v0 <= v < v1 ->
  exists ok k' l' t' um',
    new_page root (v * PGSIZE) (perm v) (fun d => modify (fun k => set_k_mem (g v (k_mem k) d) k)) k = Ret ok k' /\
    alloc_inv (if ok : bool then v + 1 else v) k' l' t' um'.
Proof using All.
  intros [A1 A2 A3 A4 A5 A6] Hv. destruct (Hperm v Hv) as [Hf1 Hf2]. assert (0 <= v < MAXVA / PGSIZE) as Hvr by lia.
  pose proof (MAXVA_pages v Hvr) as Hva.
  destruct (new_page_run k l root t um v (perm v) (g v) (content v))
    as (ok & k' & l' & t' & um' & Hk & Has & Hmv & Hkept & HL & Hok); try done.
  { rewrite A3 by lia. by apply Hfree. }
  { rewrite A6 by (done || rewrite vpn_mul; lia). by apply Hinv. }
  { apply Hframe. }
  { intros m d Hd Hm. by eapply Hfill. }
  exists ok, k', l', t', um'. split; [exact Hk|].
  assert (forall x pa fl, um0 !! x = Some (pa, fl) -> kept k0 k' pa) as Hk0.
  { intros x pa fl' Hx' a Ha. assert (um !! x = Some (pa, fl')) as Hx2.
    { rewrite A3; [done|]. intros Hr. rewrite Hfree in Hx'; [done|lia]. }
    rewrite (Hkept x pa fl' Hx2 a Ha). by apply (A5 x pa fl'). }
  pose proof (moves_trans _ _ _ _ _ _ _ _ _ _ _ _ _ A2 Hmv) as Hmv'. destruct ok.
  - destruct Hok as (d & -> & _ & Hz). split; [done|done|..|done|].
    + intros i Hi. rewrite lookup_insert_ne by lia. apply A3. lia.
    + intros i Hi. destruct (decide (i = v)) as [->|].
      * exists d. rewrite lookup_insert_eq. split; [done|]. exact Hz.
      * destruct (A4 i ltac:(lia)) as (d' & Hd' & Hz'). exists d'. rewrite lookup_insert_ne by done. split; [done|].
        eapply holds_kept; [|exact Hz']. eapply Hkept. exact Hd'.
    + intros va Hva' Hr. rewrite HL by (done || lia). apply A6; [done|lia].
  - subst um'. split; [done|done|done| |done|].
    + intros i Hi. destruct (A4 i Hi) as (d' & Hd' & Hz'). exists d'. split; [done|]. eapply holds_kept; [|exact Hz'].
      eapply Hkept. exact Hd'.
    + intros va Hva' Hr. rewrite HL by auto. by apply A6.
Qed.

(** Undoing what has been done so far. *)
Lemma alloc_undo v k l t um : alloc_inv v k l t um -> v0 <= v <= v1 ->
  exists k' l', uvmunmap kend root (v0 * PGSIZE) (v - v0) true k = Ret tt k' /\ alloc_undone k' l' t.
Proof using kend_pos Hv0 Hv1 Hfree Hinv.
  intros Ai Hv. destruct (uvmunmap_run v0 (v - v0) k l root t um) as
    (k2 & l2 & um2 & Hd & Has2 & Hmv2 & Hum2 & HL2 & Hk2 & _); [apply Ai|lia|lia| | |].
  { change MAXVA with 274877906944 in *. unfold PGSIZE in *. zlia. }
  { intros i Hi. destruct (ai_new _ _ _ _ _ Ai i ltac:(lia)) as (d & -> & _). eauto. }
  replace (v0 + (v - v0)) with v in * by lia. exists k2, l2. split; [done|].
  assert (um2 = um0) as ->.
  { apply map_eq. intros i. rewrite Hum2. case_decide; [symmetry; apply Hfree; lia|]. by apply (ai_old _ _ _ _ _ Ai). }
  split; [done|eapply moves_trans; [apply Ai|done]|..].
  - intros x pa fl' Hx' a Ha. rewrite (Hk2 x pa fl' Hx' a Ha). by apply (ai_kept _ _ _ _ _ Ai x pa fl').
  - intros va Hva Hr. rewrite HL2 by done. rewrite decide_False by lia. apply (ai_leaf _ _ _ _ _ Ai); [done|lia].
  - intros va Hva Hr. rewrite HL2 by done. case_decide; [apply Z.bits_0|]. rewrite (ai_leaf _ _ _ _ _ Ai) by (done || lia).
    rewrite (leaf_same _ _ va (vpn va * PGSIZE)); [by apply Hinv|lia|unfold PGSIZE; lia|by rewrite vpn_mul].
Qed.

End new_pages.

Lemma alloc_inv_start k l t um root v0 perm content : aspace kend k l root t um ->
  alloc_inv k l t um root v0 perm content v0 k l t um.
Proof using. intros Has. split; [done|apply moves_refl|done|intros i Hi; lia|done|done]. Qed.

(** The loop of uvmalloc(): all the pages are added, or none is. *)
Section alloc_loop.
Variables (k0 : kstate) (l0 : list Z) (t0 : tree) (um0 : gmap Z (Z * Z)) (root v0 newsz xperm : Z).
Let v1 := pages newsz.
Let perm (_ : Z) := Z.lor (Z.lor PTE_R PTE_U) xperm.
Let content (_ _ : Z) := 0.
Hypothesis Hx : 0 <= xperm < 1024.
Hypothesis Hv0 : 0 <= v0.
Hypothesis Hnew : 0 <= newsz <= MAXVA.
Hypothesis Hfree : forall i, v0 <= i < v1 -> um0 !! i = None.
Hypothesis Hinv : forall i, v0 <= i < v1 -> Z.testbit (leaf (k_mem k0) t0 (i * PGSIZE)) 0 = false.

Lemma zero_step v k l t um : alloc_inv k0 l0 t0 um0 root v0 perm content v k l t um -> v0 <= v < v1 ->
  exists ok k' l' t' um',
    new_page root (v * PGSIZE) (perm v) (fun d => modify (fun k => set_k_mem (memset (k_mem k) d 0 PGSIZE) k)) k = Ret ok k' /\
    alloc_inv k0 l0 t0 um0 root v0 perm content (if ok : bool then v + 1 else v) k' l' t' um'.
Proof using All.
  intros Ai Hv. pose proof (pages_max newsz Hnew) as Hmax.
  refine (alloc_step k0 l0 t0 um0 root v0 v1 perm content (fun _ m d => memset m d 0 PGSIZE) _ Hv0 _ Hfree Hinv _ _
    v k l t um Ai Hv).
  - intros i Hi. by apply alloc_flags.
  - unfold v1. lia.
  - intros i m d a Ha. rewrite memset_ld by done. by rewrite decide_False.
  - intros i k' l' t' um' m d _ _ _ _ off Ho. rewrite memset_ld by done. by rewrite decide_True by (unfold PGSIZE in *; lia).
Qed.

Lemma alloc_loop n v k l t um : alloc_inv k0 l0 t0 um0 root v0 perm content v k l t um -> v0 <= v <= v1 -> n = Z.to_nat (v1 - v) ->
  exists r k' l' t' um', loop (S n) (uvmalloc_body kend root (v0 * PGSIZE) newsz xperm) (v * PGSIZE) k = Ret r k' /\
    (r = newsz /\ alloc_inv k0 l0 t0 um0 root v0 perm content v1 k' l' t' um' \/
     r = 0 /\ um' = um0 /\ alloc_undone k0 l0 t0 um0 root v0 v1 k' l' t').
Proof using All.
  revert v k l t um. induction n as [|n IH]; intros v k l t um Ai Hv Hn.
  - exists newsz, k, l, t, um. assert (v = v1) as -> by lia. split; [|by left]. apply loop_exit.
    rewrite uvmalloc_body_eq. destruct (Z.ltb_spec (v1 * PGSIZE) newsz) as [H|]; [|done].
    apply pages_lt in H. unfold v1 in H. lia.
  - destruct (zero_step v k l t um Ai ltac:(lia)) as (ok & k1 & l1 & t1 & um1 & Hk & Ai1).
    assert (v * PGSIZE < newsz) as Hlt by (apply pages_lt; unfold v1 in *; lia).
    pose proof (pages_max newsz Hnew) as Hmax. assert (v1 <= MAXVA / PGSIZE) as Hv1' by apply Hmax.
    change MAXVA with 274877906944 in Hmax. pose proof (uvmalloc_body_eq root (v0 * PGSIZE) newsz xperm (v * PGSIZE) k) as Hb.
    destruct (Z.ltb_spec (v * PGSIZE) newsz); [|lia]. cbn [negb] in Hb. erewrite bind_ret_run in Hb by exact Hk.
    destruct ok.
    + unfold ret in Hb. rewrite u64_small in Hb by (unfold v1, PGSIZE in *; zlia).
      replace (v * PGSIZE + PGSIZE) with ((v + 1) * PGSIZE) in Hb by lia.
      destruct (IH (v + 1) k1 l1 t1 um1 Ai1 ltac:(lia) ltac:(lia)) as (r & k' & l' & t' & um' & Hl & Hr).
      exists r, k', l', t', um'. split; [by erewrite loop_next by exact Hb|done].
    + destruct (alloc_undo k0 l0 t0 um0 root v0 v1 perm content Hv0 Hv1' Hfree Hinv v k1 l1 t1 um1 Ai1 ltac:(lia))
        as (k2 & l2 & Hu & Hundo). exists 0, k2, l2, t1, um0. split; [|by right].
      destruct (uvmdealloc_undo root v0 v k1 k2) as [r Hd]; [lia|lia|done|].
      apply loop_exit. rewrite Hb. by erewrite bind_ret_run by exact Hd.
Qed.
End alloc_loop.


(** ** uvmcopy() *)

(** The pages of an address space: its tables and its memory. *)
Definition page_of (t : tree) (um : gmap Z (Z * Z)) (p : Z) : Prop := in_tree t p \/ exists v fl, um !! v = Some (p, fl).

(** An address space is not affected by what another one does. *)
Lemma aspace_other k k' l l' root t um t2 t2' um2 um2' : aspace kend k l root t um ->
  moves kend k k' l l' t2 t2' um2 um2' -> kmem_ok kend k' l' ->
  (forall p, page_of t um p -> ~ acct l t2 um2 p) ->
  aspace kend k' l' root t um /\ same_leaf k t k' t /\ forall p, page_of t um p -> kept k k' p.
Proof using.
  intros Has Hmv Hf Hsep. pose proof (as_inv _ _ _ _ _ _ Has) as Hv.
  assert (forall p, page_of t um p -> page_ok kend p) as Hok.
  { intros p [[path Hp]|(v & fl & Hp)]; [by eapply rep_pages; [apply Hv|]|by eapply as_page]. }
  assert (forall p, page_of t um p -> kept k k' p) as Hkept.
  { intros p Hp. apply (mv_others _ _ _ _ _ _ _ _ _ Hmv p); auto. }
  assert (forall p, page_of t um p -> p ∉ l') as Hnl.
  { intros p Hp Hin. apply (Hsep p Hp). apply (mv_acct _ _ _ _ _ _ _ _ _ Hmv). by left. }
  destruct (vm_inv_keep kend k k' l l' root t Hv (mv_only _ _ _ _ _ _ _ _ _ Hmv) Hf) as [Hv' Hs].
  { intros path p Hp. assert (page_of t um p) as Hpo by (left; by exists path). split; [auto|by apply Hkept]. }
  split; [|done]. split; [done|..].
  - intros v pa fl H. rewrite (Hs (v * PGSIZE)). by eapply as_leaf.
  - by apply as_flags with (1 := Has).
  - intros v pa fl H. destruct (as_page _ _ _ _ _ _ Has v pa fl H) as (H1 & _ & H3). split_and!; [done| |done].
    apply Hnl. right. eauto.
  - by apply as_inj with (1 := Has).
Qed.

Lemma uvmcopy_body_eq old new sz i e k : (exists pte, walk old i false k = Ret pte k /\ pte <> 0 /\ rd64 pte k = Ret e k) ->
  truth (Z.land e PTE_V) = true -> i < sz ->
  uvmcopy_body kend old new sz i k =
  (let! ok := new_page new i (PTE_FLAGS e) (fun d => modify (fun k => set_k_mem (memmove (k_mem k) d (PTE2PA e) PGSIZE) k)) in
   if ok then ret (inl (u64 (i + PGSIZE)))
   else do! uvmunmap kend new 0 (i / PGSIZE) true; ret (inr (-1))) k.
Proof using.
  intros (pte & Hw & Hne & Hr) Hv Hi. unfold uvmcopy_body, new_page. destruct (Z.ltb_spec i sz); [|lia]. cbn [negb].
  erewrite bind_ret_run by exact Hw. destruct (Z.eqb_spec pte 0); [lia|]. erewrite bind_ret_run by exact Hr.
  rewrite eqb0_truth, Hv. cbn [negb]. unfold mem_move, bind, ret. repeat (case_match; simplify_eq; try done).
Qed.

Section copy_loop.
Variables (k0 : kstate) (l0 : list Z) (to tn : tree) (umo umn : gmap Z (Z * Z)) (old new sz : Z).
Let v1 := pages sz.
(** The parent's page and flags. *)
Let src (i : Z) : Z * Z := default (0, 0) (umo !! i).
Let perm (i : Z) := snd (src i).
Let content (i off : Z) := ld (k_mem k0) (fst (src i) + off).
Hypothesis Hsz : 0 <= sz <= MAXVA.
Hypothesis Hold : aspace kend k0 l0 old to umo.
Hypothesis Hsep : forall p, page_of to umo p -> ~ acct l0 tn umn p.
Hypothesis Hmapped : forall i, 0 <= i < v1 -> is_Some (umo !! i).
Hypothesis Hfree : forall i, 0 <= i < v1 -> umn !! i = None.
Hypothesis Hinv : forall i, 0 <= i < v1 -> Z.testbit (leaf (k_mem k0) tn (i * PGSIZE)) 0 = false.

Lemma src_spec i : 0 <= i < v1 -> umo !! i = Some (src i).
Proof using Hmapped. intros Hi. unfold src. by destruct (Hmapped i Hi) as [x ->]. Qed.

Lemma perm_spec i : 0 <= i < v1 -> 0 <= perm i < 1024 /\ Z.lor (perm i) PTE_V = perm i /\ perm i <> PTE_V.
Proof using Hmapped Hold.
  intros Hi. pose proof (src_spec i Hi) as Hs. unfold perm. destruct (src i) as [pa fl]. cbn [snd].
  destruct (as_flags _ _ _ _ _ _ Hold i pa fl Hs) as (H1 & H2 & H3). split_and!; [lia..| |done].
  apply Z.bits_inj'. intros n Hn. rewrite Z.lor_spec. unfold PTE_V. rewrite bit_shiftl1 by lia.
  destruct (Z.eqb_spec n 0) as [->|]; [by rewrite H2|by rewrite orb_false_r].
Qed.

Lemma copy_step v k l t um : alloc_inv k0 l0 tn umn new 0 perm content v k l t um -> 0 <= v < v1 ->
  exists ok k' l' t' um',
    new_page new (v * PGSIZE) (perm v)
      (fun d => modify (fun k => set_k_mem (memmove (k_mem k) d (fst (src v)) PGSIZE) k)) k = Ret ok k' /\
    alloc_inv k0 l0 tn umn new 0 perm content (if ok : bool then v + 1 else v) k' l' t' um'.
Proof using All.
  intros Ai Hv. pose proof (pages_max sz Hsz) as Hmax.
  refine (alloc_step k0 l0 tn umn new 0 v1 perm content (fun i m d => memmove m d (fst (src i)) PGSIZE) _ _ _ Hfree Hinv _ _
    v k l t um Ai Hv).
  - intros i Hi. destruct (perm_spec i Hi) as (H1 & -> & H3). done.
  - done.
  - unfold v1. lia.
  - intros i m d a Ha. rewrite memmove_ld by done. by rewrite decide_False.
  - intros i k' l' t' um' m d Hi Hmv Hd Hm off Ho. rewrite memmove_ld by done. rewrite decide_True by (unfold PGSIZE in *; lia).
    unfold content. replace (fst (src i) + (d + off - d)) with (fst (src i) + off) by lia.
    pose proof (src_spec i Hi) as Hs. destruct (src i) as [pa fl]. cbn [fst].
    assert (page_ok kend pa) as Hpa by by eapply as_page. assert (page_of to umo pa) as Hpo by (right; eauto).
    assert (in_page pa (pa + off)) as Hin by (unfold in_page; lia). rewrite (Hm pa (pa + off) Hpa); [| |done].
    + apply (mv_others _ _ _ _ _ _ _ _ _ Hmv pa); auto.
    + intros ->. apply (Hsep d Hpo). apply (mv_acct _ _ _ _ _ _ _ _ _ Hmv). by left.
Qed.

(** The parent's tables are read as they were. *)
Lemma parent_entry v k l t um : alloc_inv k0 l0 tn umn new 0 perm content v k l t um -> 0 <= v < v1 ->
  let e := mk_pte (fst (src v)) (perm v) in
  (exists pte, walk old (v * PGSIZE) false k = Ret pte k /\ pte <> 0 /\ rd64 pte k = Ret e k) /\
  truth (Z.land e PTE_V) = true /\ PTE_FLAGS e = perm v /\ PTE2PA e = fst (src v).
Proof using All.
  intros Ai Hv e. pose proof (src_spec v Hv) as Hs. destruct (perm_spec v Hv) as (Hp1 & Hp2 & Hp3).
  destruct (aspace_other k0 k l0 l old to umo tn t umn um Hold) as (Ho & Hso & _);
    [apply Ai|apply (ai_space _ _ _ _ _ _ _ _ _ _ _ _ _ Ai)|done|].
  assert (leaf (k_mem k) to (v * PGSIZE) = e /\ 0 <= v * PGSIZE < MAXVA /\ pa_ok (fst (src v)) /\ Z.testbit (perm v) 0 = true)
    as (Hl & Hr & Hpa & Hb).
  { unfold e, perm. rewrite Hso. destruct (src v) as [pa fl] eqn:Es. cbn [fst snd].
    destruct (as_leaf _ _ _ _ _ _ Hold v pa fl Hs) as [H1 H2]. split; [done|]. split; [by apply MAXVA_pages|].
    split; [by eapply page_pa_ok, as_page|]. by eapply as_flags. }
  assert (Z.testbit e 0 = true) as Hb' by (unfold e; by rewrite mk_pte_bit by (done || lia)).
  split; [|split; [by rewrite PTE_V_test|split; [by apply PTE_FLAGS_mk|by apply PTE2PA_mk]]].
  destruct (walk_read kend kend_pos k l old to (v * PGSIZE)) as (p & _ & Hne & Hw & Hrd); [apply Ho|done|by rewrite Hl|].
  exists (p + 8 * PX 0 (v * PGSIZE)). by rewrite <- Hl.
Qed.

Lemma copy_loop n v k l t um : alloc_inv k0 l0 tn umn new 0 perm content v k l t um -> 0 <= v <= v1 -> n = Z.to_nat (v1 - v) ->
  exists r k' l' t' um', loop (S n) (uvmcopy_body kend old new sz) (v * PGSIZE) k = Ret r k' /\
    (r = 0 /\ alloc_inv k0 l0 tn umn new 0 perm content v1 k' l' t' um' \/
     r = -1 /\ um' = umn /\ alloc_undone k0 l0 tn umn new 0 v1 k' l' t').
Proof using All.
  revert v k l t um. induction n as [|n IH]; intros v k l t um Ai Hv Hn.
  - exists 0, k, l, t, um. assert (v = v1) as -> by lia. split; [|by left]. apply loop_exit.
    unfold uvmcopy_body. destruct (Z.ltb_spec (v1 * PGSIZE) sz) as [H|]; [|done]. apply pages_lt in H. unfold v1 in H. lia.
  - destruct (copy_step v k l t um Ai ltac:(lia)) as (ok & k1 & l1 & t1 & um1 & Hk & Ai1).
    destruct (parent_entry v k l t um Ai ltac:(lia)) as (Hw & Hv' & Hf & Hpa).
    assert (v * PGSIZE < sz) as Hlt by (apply pages_lt; unfold v1 in *; lia).
    pose proof (uvmcopy_body_eq old new sz (v * PGSIZE) _ k Hw Hv' Hlt) as Hb. rewrite Hf, Hpa in Hb.
    erewrite bind_ret_run in Hb by exact Hk.
    pose proof (pages_max sz Hsz) as Hmax. assert (v1 <= MAXVA / PGSIZE) as Hv1' by apply Hmax.
    change MAXVA with 274877906944 in Hmax. destruct ok.
    + unfold ret in Hb. rewrite u64_small in Hb by (unfold v1, PGSIZE in *; zlia).
      replace (v * PGSIZE + PGSIZE) with ((v + 1) * PGSIZE) in Hb by lia.
      destruct (IH (v + 1) k1 l1 t1 um1 Ai1 ltac:(lia) ltac:(lia)) as (r & k' & l' & t' & um' & Hl & Hr).
      exists r, k', l', t', um'. split; [by erewrite loop_next by exact Hb|done].
    + destruct (alloc_undo k0 l0 tn umn new 0 v1 perm content ltac:(lia) Hv1' Hfree Hinv v k1 l1 t1 um1 Ai1 ltac:(lia))
        as (k2 & l2 & Hu & Hundo). exists (-1), k2, l2, t1, umn. split; [|by right].
      rewrite Z.mul_0_l, Z.sub_0_r in Hu. rewrite Z.div_mul in Hb by done.
      apply loop_exit. rewrite Hb. by erewrite bind_ret_run by exact Hu.
Qed.
End copy_loop.

(** uvmcopy() gives the child a copy of the parent's memory: on success each of the parent's
    pages has a page of the child's own at the same virtual address, with the same
    permissions and the same bytes; on failure it returns -1 and the child's address space
    is what it was.  The parent's address space, its bytes and every other page in use are
    untouched, no page is leaked, and no other entry of the child's page table changes. *)
Lemma uvmcopy_run k l old to umo new tn umn sz : aspace kend k l old to umo -> aspace kend k l new tn umn ->
  (forall p, page_of to umo p -> ~ acct l tn umn p) -> 0 <= sz <= MAXVA ->
  (forall i, 0 <= i < pages sz -> is_Some (umo !! i) /\ umn !! i = None /\
     Z.testbit (leaf (k_mem k) tn (i * PGSIZE)) 0 = false) ->
  exists r k' l' tn' umn', uvmcopy kend old new sz k = Ret r k' /\
    aspace kend k' l' old to umo /\ aspace kend k' l' new tn' umn' /\ moves kend k k' l l' tn tn' umn umn' /\
    (forall p, page_of to umo p -> kept k k' p) /\ (forall i pa fl, umn !! i = Some (pa, fl) -> kept k k' pa) /\
    (r = 0 /\ (forall i, ~ 0 <= i < pages sz -> umn' !! i = umn !! i) /\
       (forall i, 0 <= i < pages sz -> exists pa d fl, umo !! i = Some (pa, fl) /\ umn' !! i = Some (d, fl) /\
          forall off, 0 <= off < PGSIZE -> ld (k_mem k') (d + off) = ld (k_mem k') (pa + off)) \/
     r = -1 /\ umn' = umn) /\
    (forall va, 0 <= va < MAXVA -> ~ 0 <= vpn va < pages sz -> leaf (k_mem k') tn' va = leaf (k_mem k) tn va) /\
    (r = -1 -> forall va, 0 <= va < MAXVA -> 0 <= vpn va < pages sz -> Z.testbit (leaf (k_mem k') tn' va) 0 = false).
Proof using kend_pos.
  intros Ho Hn Hsep Hsz Hi.
  destruct (copy_loop k l to tn umo umn old new sz Hsz Ho Hsep) with (n := Z.to_nat (pages sz - 0)) (v := 0) (k := k) (l := l) (t := tn) (um := umn)
    as (r & k' & l' & tn' & umn' & Hl & Hr); try (intros i Hi'; by apply Hi).
  { by apply alloc_inv_start. } { pose proof (pages_max sz Hsz). lia. } { done. }
  exists r, k', l', tn', umn'. rewrite Z.sub_0_r in Hl.
  assert (aspace kend k' l' new tn' umn' /\ moves kend k k' l l' tn tn' umn umn' /\
    (forall i pa fl, umn !! i = Some (pa, fl) -> kept k k' pa)) as (A1 & A2 & A5).
  { destruct Hr as [[_ [A1 A2 _ _ A5 _]]|(_ & -> & [A1 A2 A3 _])]; auto. }
  destruct (aspace_other k k' l l' old to umo tn tn' umn umn' Ho A2) as (Ho' & _ & Hkept); [apply A1|done|].
  split; [exact Hl|]. split_and!; try done.
  2: { destruct Hr as [[_ [_ _ _ _ _ A6]]|(_ & _ & [_ _ _ A4 _])]; [exact A6|exact A4]. }
  2: { destruct Hr as [[-> _]|(_ & _ & [_ _ _ _ A5'])]; [done|by intros _]. }
  destruct Hr as [[-> [_ _ A3 A4 _ _]]|(-> & -> & _)]; [left|by right].
  split; [done|]. split; [done|]. intros i Hi'. destruct (Hi i Hi') as ([[pa fl] Hpa] & _). destruct (A4 i Hi') as (d & Hd & Hc).
  unfold holds in Hc. rewrite Hpa in Hd, Hc. cbn in Hd, Hc.
  assert (Z.lor fl PTE_V = fl) as Hfl.
  { destruct (perm_spec k l to umo old sz Ho) with (i := i) as (_ & H & _); [intros j Hj; by apply Hi|done|].
    rewrite Hpa in H. exact H. }
  rewrite Hfl in Hd. exists pa, d, fl. split_and!; [done..|]. intros off Hoff. rewrite Hc by done.
  symmetry. apply (Hkept pa); [right; eauto|]. unfold in_page. lia.
Qed.

(** ** uvmfree() *)

(** The entry of index [i] of the table page [p] at [path], all of whose mappings
    have been removed. *)
Definition slot_ok (m : mem) (t : tree) (path : list Z) (p i : Z) : Prop :=
  if decide (length path < 2)%nat then entry_to (entry m p i) (t !! (path ++ [i]))
  else Z.testbit (entry m p i) 0 = false.

(** The table pages from [path] down. *)
Definition below (t : tree) (path : list Z) (q : Z) : Prop := exists path', path `prefix_of` path' /\ t !! path' = Some q.

Section freewalk.
Variable t : tree.
Hypothesis Hpages : forall path p, t !! path = Some p -> page_ok kend p /\ (length path <= 2)%nat.
Hypothesis Hinj : forall a b p, t !! a = Some p -> t !! b = Some p -> a = b.
Hypothesis Hclosed : forall path i q, t !! (path ++ [i]) = Some q -> is_Some (t !! path) /\ 0 <= i < 512.

Lemma below_None path q : t !! path = None -> ~ below t path q.
Proof using Hclosed.
  intros Hn (path' & [suf ->] & Hq). revert q Hq. induction suf as [|i suf IH] using rev_ind; intros q Hq.
  - rewrite app_nil_r in Hq. congruence.
  - rewrite app_assoc in Hq. destruct (Hclosed _ _ _ Hq) as [[x Hx] _]. by eapply IH.
Qed.

Record walk_pre (k : kstate) (l : list Z) (path : list Z) : Prop := {
  wp_cpu : cpu_ok k;
  wp_lock : lock_free k LKmem;
  wp_free : kmem_ok kend k l;
  wp_used : forall q, below t path q -> q ∉ l;
  wp_slots : forall path' p i, path `prefix_of` path' -> t !! path' = Some p -> 0 <= i < 512 -> slot_ok (k_mem k) t path' p i }.

Definition walk_post (k k' : kstate) (l freed : list Z) : Prop :=
  mem_only k k' /\ kmem_ok kend k' (freed ++ l) /\ forall x, page_ok kend x -> x ∉ freed -> kept k k' x.

Lemma slot_ok_kept k k' path p i : t !! path = Some p -> 0 <= i < 512 -> kept k k' p ->
  slot_ok (k_mem k) t path p i -> slot_ok (k_mem k') t path p i.
Proof using. intros Hp Hi Hk. unfold slot_ok. by rewrite (entry_ext (k_mem k) (k_mem k')) by done. Qed.

Lemma below_step path q : below t path q <-> t !! path = Some q \/ exists i, below t (path ++ [i]) q.
Proof using.
  split.
  - intros (path' & [suf ->] & Hq). destruct suf as [|i suf]; [left; by rewrite app_nil_r in Hq|right].
    exists i, (path ++ i :: suf). split; [|done]. exists suf. by rewrite <- app_assoc.
  - intros [Hq|(i & path' & [suf ->] & Hq)]; [by exists path|]. exists ((path ++ [i]) ++ suf). split; [|done].
    exists (i :: suf). by rewrite <- app_assoc.
Qed.

(** Subtrees of different slots have no page in common. *)
Lemma below_disjoint path i j q : below t (path ++ [i]) q -> below t (path ++ [j]) q -> i = j.
Proof using Hinj.
  intros (p1 & [s1 ->] & H1) (p2 & [s2 ->] & H2). pose proof (Hinj _ _ _ H1 H2) as He.
  rewrite <- !app_assoc in He. apply app_inv_head in He. by injection He.
Qed.

Lemma below_not_root path i p : t !! path = Some p -> ~ below t (path ++ [i]) p.
Proof using Hinj.
  intros Hp (p1 & [s1 ->] & H1). pose proof (Hinj _ _ _ Hp H1) as He. apply (f_equal length) in He.
  rewrite !length_app in He. cbn in He. lia.
Qed.

(** The body of the loop of freewalk(). *)
Definition free_slot (depth : nat) (pagetable : Z) (i : nat) : K unit :=
  let slot := pagetable + 8 * Z.of_nat i in
  let! pte := rd64 slot in
  if truth (Z.land pte PTE_V) && (Z.land pte (Z.lor (Z.lor PTE_R PTE_W) PTE_X) =? 0) then
    do! freewalk kend depth (PTE2PA pte); wr64 slot 0
  else if truth (Z.land pte PTE_V) then panic "freewalk: leaf"
  else ret tt.

Lemma mk_pte_V_test q : pa_ok q ->
  truth (Z.land (mk_pte q PTE_V) PTE_V) && (Z.land (mk_pte q PTE_V) (Z.lor (Z.lor PTE_R PTE_W) PTE_X) =? 0) = true.
Proof using.
  intros Hq. rewrite PTE_V_test, mk_pte_bit by done. cbn [andb]. change (Z.testbit PTE_V 0) with true. cbn [andb].
  apply Z.eqb_eq, Z.bits_inj'. intros n Hn. rewrite Z.land_spec, Z.bits_0.
  destruct (decide (n < 10)) as [Hlt|Hge].
  - rewrite mk_pte_bit by (done || lia). unfold PTE_V. rewrite bit_shiftl1 by lia. by destruct (Z.eqb_spec n 0) as [->|].
  - rewrite (bits_above (Z.lor _ _) 4 n); [apply andb_false_r|done|lia].
Qed.

(** One slot, given what freewalk() does one level down. *)
Lemma free_slot_run depth path p k l (i : nat) : t !! path = Some p -> (i < 512)%nat -> walk_pre k l (path ++ [Z.of_nat i]) ->
  slot_ok (k_mem k) t path p (Z.of_nat i) ->
  (forall q, (length path < 2)%nat -> t !! (path ++ [Z.of_nat i]) = Some q -> exists k' freed,
     freewalk kend depth q k = Ret tt k' /\ walk_post k k' l freed /\ forall x, x ∈ freed <-> below t (path ++ [Z.of_nat i]) x) ->
  p ∉ l -> exists k' freed, free_slot depth p i k = Ret tt k' /\ mem_only k k' /\ kmem_ok kend k' (freed ++ l) /\
    (forall x, x ∈ freed -> below t (path ++ [Z.of_nat i]) x) /\
    (forall x, (length path < 2)%nat -> below t (path ++ [Z.of_nat i]) x -> x ∈ freed) /\
    (forall x, page_ok kend x -> x ∉ freed -> x <> p -> kept k k' x) /\
    forall j, 0 <= j < 512 -> j <> Z.of_nat i -> entry (k_mem k') p j = entry (k_mem k) p j.
Proof using All.
  intros Hp Hi Hpre Hslot Hrec Hpl. unfold free_slot. unfold rd64 at 1, gets at 1. unfold bind at 1.
  fold (entry (k_mem k) p (Z.of_nat i)). destruct (Hpages path p Hp) as [Hpp Hlen]. unfold slot_ok in Hslot.
  destruct (decide (length path < 2)%nat) as [Hl2|Hl2];
    [destruct (t !! (path ++ [Z.of_nat i])) as [q|] eqn:Eq|].
  - destruct (Hpages _ _ Eq) as [Hqp _]. cbn in Hslot. rewrite Hslot. pose proof (page_pa_ok kend kend_pos q Hqp) as Hqo.
    rewrite mk_pte_V_test, PTE2PA_mk by done. destruct (Hrec q Hl2 eq_refl) as (k1 & freed & Hk1 & (Hmo & Hf & Hkeep) & Hfreed).
    erewrite bind_ret_run by exact Hk1. unfold wr64, modify. eexists _, freed. split; [reflexivity|].
    assert (p ∉ freed) as Hpf by (intros Hin%Hfreed; exact (below_not_root path _ p Hp Hin)).
    assert (forall a, ~ in_page p a -> ld (store64 (k_mem k1) (p + 8 * Z.of_nat i) 0) a = ld (k_mem k1) a) as Hst.
    { intros a Ha. apply ld_store64_other. unfold in_page, PGSIZE in *. lia. }
    split_and!; [eapply mem_only_trans; [done|]; eexists _, (k_freelist k1); by destruct k1|..].
    + apply kmem_ok_mem; [done|]. intros x a Hx Ha. apply Hst. apply (pages_disjoint kend x p); auto.
      * destruct Hf as [_ Hps _]. rewrite Forall_forall in Hps. auto.
      * intros ->. apply elem_of_app in Hx as [|]; done.
    + intros x Hx. by apply Hfreed.
    + intros x _ Hx. by apply Hfreed.
    + intros x Hx Hxf Hxp a Ha. cbn [k_mem set_k_mem]. rewrite Hst; [by apply (Hkeep x)|]. by apply (pages_disjoint kend x p).
    + intros j Hj Hne. cbn [k_mem set_k_mem]. rewrite (entry_store kend) by (done || lia). rewrite decide_False by (intros [_ ?]; lia).
      apply entry_ext; [done|]. by apply Hkeep.
  - exists k, []. cbn in Hslot. rewrite PTE_V_test, Hslot. cbn [andb]. split; [done|].
    split_and!; [apply mem_only_refl|apply Hpre|intros x Hx; inversion Hx| |done|done].
    intros x _ Hx. by apply below_None in Hx.
  - exists k, []. rewrite PTE_V_test, Hslot. cbn [andb]. split; [done|].
    split_and!; [apply mem_only_refl|apply Hpre|intros x Hx; inversion Hx|done|done|done].
Qed.

(** What is left to free is untouched by freeing other subtrees. *)
Lemma walk_pre_keep k k' l l' path : walk_pre k l path -> mem_only k k' -> kmem_ok kend k' l' ->
  (forall q, below t path q -> q ∉ l' /\ kept k k' q) -> walk_pre k' l' path.
Proof using.
  intros [H1 H2 H3 H4 H5] Hmo Hf Hk. destruct (mem_only_cpu k k' Hmo) as [Hc Hl]. split; [by apply Hc|by apply Hl|done|..].
  - intros q Hq. by apply Hk.
  - intros path' p i Hpre Hp Hi. eapply slot_ok_kept; [done|done| |by apply H5]. apply Hk. by exists path'.
Qed.

(** The loop over the slots [i ..]. *)
Lemma free_slots_run depth path p n : (forall k l q (j : nat), (j < 512)%nat -> (length path < 2)%nat ->
     t !! (path ++ [Z.of_nat j]) = Some q -> walk_pre k l (path ++ [Z.of_nat j]) ->
     exists k' freed, freewalk kend depth q k = Ret tt k' /\ walk_post k k' l freed /\ forall x, x ∈ freed <-> below t (path ++ [Z.of_nat j]) x) ->
  t !! path = Some p -> forall (i : nat) k l, (i + n = 512)%nat -> p ∉ l -> kmem_ok kend k l ->
  (forall j, (i <= j < 512)%nat -> slot_ok (k_mem k) t path p (Z.of_nat j) /\ walk_pre k l (path ++ [Z.of_nat j])) ->
  exists k' freed, for_each (seq i n) (free_slot depth p) k = Ret tt k' /\ mem_only k k' /\ kmem_ok kend k' (freed ++ l) /\
    (forall x, x ∈ freed -> exists j : nat, (i <= j < 512)%nat /\ below t (path ++ [Z.of_nat j]) x) /\
    (forall x j, (length path < 2)%nat -> (i <= j < 512)%nat -> below t (path ++ [Z.of_nat j]) x -> x ∈ freed) /\
    (forall x, page_ok kend x -> x ∉ freed -> x <> p -> kept k k' x).
Proof using All.
  intros Hrec Hp. induction n as [|n IH]; intros i k l Hin Hpl Hfree Hslots.
  { exists k, []. split; [done|]. split_and!; [apply mem_only_refl|done|intros x Hx; inversion Hx|intros x j _ Hj; lia|done]. }
  destruct (Hslots i ltac:(lia)) as [Hslot Hpre]. destruct (Hpages path p Hp) as [Hpp _].
  destruct (free_slot_run depth path p k l i Hp ltac:(lia) Hpre Hslot) as (k1 & freed1 & Hk1 & Hmo1 & Hf1 & Hin1 & Hall1 & Hkeep1 & Hent1);
    [intros q Hl Hq; apply Hrec; (done || lia)|done|].
  assert (p ∉ freed1) as Hpf by (intros Hx%Hin1; exact (below_not_root path _ p Hp Hx)).
  destruct (IH (S i) k1 (freed1 ++ l)) as (k2 & freed2 & Hk2 & Hmo2 & Hf2 & Hin2 & Hall2 & Hkeep2); [lia| |done| |].
  { rewrite elem_of_app. tauto. }
  { intros j Hj. destruct (Hslots j ltac:(lia)) as [Hslotj Hprej]. split.
    - unfold slot_ok in *. by rewrite Hent1 by lia.
    - apply (walk_pre_keep k k1 l); [done..|]. intros q Hq.
      assert (q ∉ freed1) as Hqf by (intros Hx%Hin1; pose proof (below_disjoint _ _ _ _ Hq Hx); lia).
      split; [rewrite elem_of_app; intros [|Hx]; [done|]; by eapply wp_used|].
      apply Hkeep1; [|done|intros ->; exact (below_not_root path _ p Hp Hq)].
      destruct Hq as (path' & _ & Hq). by eapply Hpages. }
  exists k2, (freed2 ++ freed1). split; [cbn [seq for_each]; by erewrite bind_ret_run by exact Hk1|].
  rewrite <- app_assoc. split_and!; [by eapply mem_only_trans|done|..].
  - intros x [Hx|Hx]%elem_of_app; [destruct (Hin2 x Hx) as (j & Hj & Hb); exists j; split; [lia|done]|].
    exists i. split; [lia|by apply Hin1].
  - intros x j Hl Hj Hb. apply elem_of_app. destruct (decide (j = i)) as [->|]; [right; by apply Hall1|].
    left. eapply (Hall2 x j); (done || lia).
  - intros x Hx Hnf Hne a Ha. rewrite elem_of_app in Hnf. rewrite (Hkeep2 x) by tauto. apply (Hkeep1 x); tauto.
Qed.

Lemma freewalk_run depth : forall path p k l, (length path + depth = 3)%nat -> t !! path = Some p -> walk_pre k l path ->
  exists k' freed, freewalk kend depth p k = Ret tt k' /\ walk_post k k' l freed /\ forall x, x ∈ freed <-> below t path x.
Proof using All.
  induction depth as [|depth IH]; intros path p k l Hlen Hp Hpre; [destruct (Hpages path p Hp); lia|].
  destruct (Hpages path p Hp) as [Hpp _]. assert (below t path p) as Hbp by by exists path.
  destruct (free_slots_run depth path p 512) with (i := 0%nat) (k := k) (l := l) as
    (k1 & freed & Hk1 & Hmo1 & Hf1 & Hin1 & Hall1 & Hkeep1); try done.
  { intros k' l' q j Hj Hl2 Hq Hpre'. apply IH; [rewrite length_app; cbn; lia|done..]. }
  { by apply (wp_used _ _ _ Hpre). } { apply Hpre. }
  { intros j Hj. split; [apply (wp_slots _ _ _ Hpre path p); [done|done|lia]|]. destruct Hpre as [H1 H2 H3 H4 H5]. split; [done..| |].
    - intros q Hq. apply H4. apply below_step. right. by exists (Z.of_nat j).
    - intros path' p' i Hpr. apply H5. etransitivity; [|done]. by exists [Z.of_nat j]. }
  assert (p ∉ freed ++ l) as Hpf.
  { rewrite elem_of_app. intros [(j & _ & Hx)%Hin1|Hx]; [exact (below_not_root path _ p Hp Hx)|by eapply wp_used]. }
  destruct (mem_only_cpu k k1 Hmo1) as [Hc Hl].
  destruct (kfree_spec kend kend_pos p k1 (freed ++ l) Hpp Hpf) as (m & f & Hk2 & Hf2 & Hm2);
    [apply Hc, Hpre|apply Hl, Hpre|done|].
  exists (set_k_mem m (set_k_freelist f k1)), (p :: freed). split; [cbn [freewalk]; by erewrite bind_ret_run by exact Hk1|].
  split; [split_and!; [eapply mem_only_trans; [done|by exists m, f]|done|]|].
  - intros x Hx Hnf a Ha. rewrite elem_of_cons in Hnf. cbn [k_mem set_k_mem]. rewrite Hm2; [apply (Hkeep1 x); tauto|].
    apply (pages_disjoint kend x p); auto.
  - intros x. rewrite elem_of_cons, below_step. split.
    + intros [->|(j & _ & Hx)%Hin1]; [by left|right; eauto].
    + intros [Hx|(j & Hx)]; [left; congruence|right].
      assert (length path < 2)%nat as Hl2.
      { destruct Hx as (path' & [suf ->] & Hx). destruct (Hpages _ _ Hx) as [_ Hx']. rewrite !length_app in Hx'. cbn in Hx'. lia. }
      assert (0 <= j < 512) as Hj.
      { destruct (t !! (path ++ [j])) eqn:E; [by eapply Hclosed|by apply below_None with (q := x) in E]. }
      apply (Hall1 x (Z.to_nat j)); [done|lia|]. by rewrite Z2Nat.id by lia.
Qed.
End freewalk.

(** The address that the entry [i] of the table at [x; y] translates. *)
Lemma leaf_at m t x y i p : t !! [x; y] = Some p -> 0 <= x < 256 -> 0 <= y < 512 -> 0 <= i < 512 ->
  exists va, 0 <= va < MAXVA /\ leaf m t va = entry m p i.
Proof using.
  intros Hp Hx Hy Hi. exists (((x * 512 + y) * 512 + i) * PGSIZE). change MAXVA with 274877906944.
  split; [unfold PGSIZE; lia|]. unfold leaf. rewrite !PX_vpn by (unfold PGSIZE; lia). rewrite vpn_mul.
  change (512 ^ 2) with 262144. change (512 ^ 1) with 512. change (512 ^ 0) with 1.
  replace (((x * 512 + y) * 512 + i) / 262144 mod 512) with x by zlia.
  replace (((x * 512 + y) * 512 + i) / 512 mod 512) with y by zlia.
  replace (((x * 512 + y) * 512 + i) / 1 mod 512) with i by zlia. by rewrite Hp.
Qed.

(** [uvmfree_spec]: uvmfree() gives everything back: for an address space of [sz]
    bytes whose only mappings are its own pages, every page of its memory and of its
    page tables ends up on the free list, each exactly once, and no other page in use
    is touched. *)
Theorem uvmfree_spec k l root t um sz : aspace kend k l root t um -> 0 <= sz <= MAXVA ->
  (forall i, is_Some (um !! i) <-> 0 <= i < pages sz) ->
  (forall va, 0 <= va < MAXVA -> Z.testbit (leaf (k_mem k) t va) 0 = true -> is_Some (um !! vpn va)) ->
  exists k' l', uvmfree kend root sz k = Ret tt k' /\ mem_only k k' /\ kmem_ok kend k' l' /\
    (forall p, p ∈ l' <-> acct l t um p) /\ forall d, page_ok kend d -> ~ acct l t um d -> kept k k' d.
Proof using kend_pos.
  intros Has Hsz Hum Hleaf. pose proof (pages_max sz Hsz) as Hmax. change MAXVA with 274877906944 in Hmax.
  destruct (uvmunmap_run 0 (pages sz) k l root t um Has) as (k1 & l1 & um1 & Hk1 & Has1 & Hmv1 & Hum1 & HL1 & _ & _);
    [lia|lia|change MAXVA with 274877906944; unfold PGSIZE in *; zlia|intros i Hi; by apply Hum|].
  assert (um1 = ∅) as ->.
  { apply map_eq. intros i. rewrite Hum1, lookup_empty. case_decide; [done|]. destruct (um !! i) eqn:E; [|done].
    destruct (proj1 (Hum i) ltac:(rewrite E; eauto)). lia. }
  assert ((do! (if 0 <? sz then uvmunmap kend root 0 (PGROUNDUP sz / PGSIZE) true else ret tt); freewalk kend 3 root) k
    = freewalk kend 3 root k1) as Hrun.
  { rewrite PGROUNDUP_pages, Z.div_mul by done. destruct (Z.ltb_spec 0 sz); [by erewrite bind_ret_run by exact Hk1|].
    assert (sz = 0) as -> by lia. change (pages 0) with 0 in Hk1. unfold uvmunmap in Hk1. cbn in Hk1. by injection Hk1 as <-. }
  pose proof (as_inv _ _ _ _ _ _ Has1) as [Hc Hlk Hf [R1 R2 R3 R4 R4' R5] Hu].
  destruct (freewalk_run t R3 R5 R4 3 [] root k1 l1) as (k2 & freed & Hk2 & (Hmo2 & Hf2 & Hkeep2) & Hfreed); [done|done| |].
  { split; [done..| |].
    - intros q (path' & _ & Hq). by eapply Hu.
    - intros path' p i _ Hp Hi. unfold slot_ok. case_decide as Hl2; [by apply R2|]. destruct (R3 path' p Hp) as [_ Hl].
      destruct path' as [|x [|y [|]]]; cbn in Hl, Hl2; try lia.
      destruct (R4 [x] y p Hp) as [[q Hq] Hy]. destruct (R4 [] x q Hq) as [_ Hx]. pose proof (R4' x [y] p Hp) as Hlow.
      destruct (leaf_at (k_mem k1) t x y i p Hp ltac:(lia) Hy Hi) as (va & Hva & <-).
      rewrite HL1 by done. case_decide as Hd; [apply Z.bits_0|]. destruct (Z.testbit (leaf (k_mem k) t va) 0) eqn:E; [|done].
      apply Hleaf, Hum in E; [lia|done]. }
  exists k2, (freed ++ l1). split; [unfold uvmfree; by rewrite Hrun|].
  assert (forall p, p ∈ freed ++ l1 <-> acct l1 t ∅ p) as Hall.
  { intros p. unfold acct. rewrite elem_of_app, Hfreed. unfold below, in_tree. split.
    - intros [(path' & _ & Hp)|]; [right; left; eauto|by left].
    - intros [|[[path' Hp]|(v & fl & Hp)]]; [by right| |by rewrite lookup_empty in Hp].
      left. exists path'. split; [|done]. by exists path'. }
  split_and!; [by eapply mem_only_trans; [apply Hmv1|]|done| |].
  - intros p. rewrite Hall. apply (mv_acct _ _ _ _ _ _ _ _ _ Hmv1).
  - intros d Hd Hn x Hx. rewrite (Hkeep2 d Hd); [by apply (mv_others _ _ _ _ _ _ _ _ _ Hmv1 d)| |done].
    intros Hin. apply Hn, (mv_acct _ _ _ _ _ _ _ _ _ Hmv1), Hall, elem_of_app. by left.
Qed.

End uvm.

(** ** Examples *)


(** The first address space has no other mapping. *)
Lemma vm_valid va : 0 <= va < MAXVA -> Z.testbit (leaf vm_mem vm_tree va) 0 = true -> vpn va = 0.
Proof.
  intros Hva. rewrite vm_leaf by done. case_decide as Hd; [done|]. intros Hb. exfalso.
  destruct (leaf_valid_path _ _ _ Hb) as [p Hp]. pose proof Hp as Hpg. unfold leaf in Hb. rewrite Hp in Hb.
  destruct (decide ([PX 2 va; PX 1 va] = [0; 0])) as [He|Hne].
  - rewrite He in Hp. unfold vm_tree in Hp. rewrite lookup_insert_eq in Hp. injection Hp as <-. injection He as H2 H1.
    assert (entry vm_pte1 (PG 2) (PX 0 va) = 0) as Hz; [|by rewrite Hz, Z.bits_0 in Hb].
    apply load64_0. intros b Hb'. assert (in_page (PG 2) b) as Hin by (eapply entry_in_page; [apply PX_range|exact Hb']).
    unfold vm_pte1, vm_pte0. rewrite !st_page by (apply (PG_far 2 _); (done || lia)). by apply (vm_free_out 2).
  - unfold vm_tree in Hp. rewrite lookup_insert_ne in Hp by congruence. rewrite lookup_insert_ne in Hp by done.
    by rewrite lookup_singleton_ne in Hp.
Qed.

Lemma uvmfree_spec_witness : exists k' l', uvmfree vm_kend (PG 0) 3000 vm_k = Ret tt k' /\ kmem_ok vm_kend k' l' /\ PG 3 ∈ l'.
Proof.
  destruct (uvmfree_spec vm_kend vm_kend_pos vm_k vm_free (PG 0) vm_tree vm_um 3000 vm_k_parent) as (k' & l' & H1 & _ & H2 & H3 & _);
    [done| | |].
  - intros i. change (pages 3000) with 1. split; [intros [[pa fl] (-> & _)%vm_um_page]; lia|].
    intros Hi. assert (i = 0) as -> by lia. by exists (PG 3, 0x17).
  - intros va Hva Hb. rewrite (vm_valid va Hva Hb). by exists (PG 3, 0x17).
  - exists k', l'. split; [exact H1|]. split; [exact H2|]. apply H3. right. right. exists 0, 0x17. reflexivity.
Defined.
