(* ===== verification/Ucopy.v ===== *)
(** * Ucopy: copying between the kernel and user memory (kernel/vm.c)

    copyout(), copyin() and copyinstr() cross page boundaries, checking each page.
    [uread k um va] is the byte a process sees at its virtual address [va]. *)

From Stdlib Require Import ZArith Lia.
From stdpp Require Import base gmap list strings.
From S2P Require Import Prelude Bytes State Riscv Spinlock Sched Sleeplock Mem Kalloc Vm Uvm.

#[local] Opaque memset store64 load64.

Definition uread (k : kstate) (um : gmap Z (Z * Z)) (va : Z) : option Z :=
  match um !! vpn va with
  | Some (pa, _) => Some (ld (k_mem k) (pa + va mod PGSIZE))
  | None => None
  end.

(** The page of [va] is a user page, and one the user may write. *)
Definition uflag (b : Z) (um : gmap Z (Z * Z)) (va : Z) : bool :=
  match um !! vpn va with
  | Some (_, fl) => Z.testbit fl 4 && Z.testbit fl b
  | None => false
  end.
Definition readable (um : gmap Z (Z * Z)) (va : Z) : bool := uflag 0 um va.
Definition writable (um : gmap Z (Z * Z)) (va : Z) : bool := uflag 2 um va.

Section ucopy.
Variable kend : Z.
Hypothesis kend_pos : 0 < kend.

(** An address space in which the user-accessible pages are those of [um]. *)
Record uspace (k : kstate) (l : list Z) (root : Z) (t : tree) (um : gmap Z (Z * Z)) : Prop := {
  us_space : aspace kend k l root t um;
  us_user : forall va, 0 <= va < MAXVA -> Z.testbit (leaf (k_mem k) t va) 0 = true ->
    Z.testbit (leaf (k_mem k) t va) 4 = true -> is_Some (um !! vpn va) }.

(** The flag bits of the entry of [va], for a user page. *)
Lemma uspace_flag b k l root t um va : uspace k l root t um -> 0 <= va < MAXVA -> 0 <= b < 10 ->
  Z.testbit (leaf (k_mem k) t va) 0 && Z.testbit (leaf (k_mem k) t va) 4 && Z.testbit (leaf (k_mem k) t va) b
    = uflag b um va /\
  forall pa fl, um !! vpn va = Some (pa, fl) -> pa_ok pa /\ leaf (k_mem k) t va = mk_pte pa fl /\ Z.testbit fl 0 = true.
Proof using kend_pos.
  intros Hu Hva Hb. pose proof (us_space _ _ _ _ _ Hu) as Has.
  assert (forall pa fl, um !! vpn va = Some (pa, fl) ->
    pa_ok pa /\ leaf (k_mem k) t va = mk_pte pa fl /\ Z.testbit fl 0 = true /\ 0 <= fl < 1024) as Hpg.
  { intros pa fl Hpa. destruct (as_leaf _ _ _ _ _ _ Has _ _ _ Hpa) as [Hv Hl].
    destruct (as_flags _ _ _ _ _ _ Has _ _ _ Hpa) as (H1 & H2 & H3).
    split; [by eapply page_pa_ok, as_page|]. split; [|done]. rewrite <- Hl. pose proof (MAXVA_pages _ Hv). apply leaf_same; [lia..|].
    by rewrite vpn_mul. }
  split; [|intros pa fl Hpa; by destruct (Hpg pa fl Hpa) as (? & ? & ? & ?)].
  unfold uflag. destruct (um !! vpn va) as [[pa fl]|] eqn:E.
  - destruct (Hpg pa fl eq_refl) as (Hp & -> & H0 & Hr). rewrite !mk_pte_bit by (done || lia). by rewrite H0.
  - destruct (Z.testbit (leaf (k_mem k) t va) 0) eqn:E0; [|done].
    destruct (Z.testbit (leaf (k_mem k) t va) 4) eqn:E4; [|done].
    destruct (us_user _ _ _ _ _ Hu va Hva E0 E4) as [x Hx]. congruence.
Qed.

(** Writing into a page of user memory. *)
Lemma uspace_store k l root t um v pa fl m : uspace k l root t um -> um !! v = Some (pa, fl) ->
  (forall a, ~ in_page pa a -> ld m a = ld (k_mem k) a) ->
  uspace (set_k_mem m k) l root t um /\ (forall d, page_ok kend d -> d <> pa -> kept k (set_k_mem m k) d) /\
  forall va, vpn va <> v -> uread (set_k_mem m k) um va = uread k um va.
Proof using.
  intros [Has Hus] Hv Hm. destruct (as_page _ _ _ _ _ _ Has v pa fl Hv) as (Hpa & Hpl & Hpt).
  pose proof (as_inv _ _ _ _ _ _ Has) as Hvi.
  assert (forall d, page_ok kend d -> d <> pa -> kept k (set_k_mem m k) d) as Hkeep.
  { intros d Hd Hne a Ha. cbn [k_mem set_k_mem]. apply Hm. by apply (pages_disjoint kend d pa). }
  assert (mem_only k (set_k_mem m k)) as Hmo by (exists m, (k_freelist k); by destruct k).
  destruct (vm_inv_keep kend k (set_k_mem m k) l l root t Hvi Hmo) as [Hv' Hs].
  { apply kmem_ok_mem; [apply Hvi|]. intros p a Hp Ha. apply Hm. apply (pages_disjoint kend p pa); auto; [|by intros ->].
    destruct (vi_free _ _ _ _ _ Hvi) as [_ Hps _]. rewrite Forall_forall in Hps. auto. }
  { intros path p Hp. split; [by eapply vi_used|]. apply Hkeep; [by eapply rep_pages; [apply Hvi|]|]. intros ->. by eapply Hpt. }
  split; [split; [split; [done|..]|]|split; [done|]].
  - intros v' pa' fl' H. rewrite (Hs (v' * PGSIZE)). by eapply as_leaf.
  - by apply as_flags with (1 := Has).
  - by apply as_page with (1 := Has).
  - by apply as_inj with (1 := Has).
  - intros va Hva. rewrite (Hs va). by apply Hus.
  - intros va Hne. unfold uread. destruct (um !! vpn va) as [[pa' fl']|] eqn:E; [|done]. f_equal.
    apply (Hkeep pa'); [by eapply as_page| |].
    + intros ->. apply Hne. by eapply as_inj.
    + unfold in_page. pose proof (Z.mod_pos_bound va PGSIZE ltac:(done)). lia.
Qed.

Lemma vpn_split va : va = vpn va * PGSIZE + va mod PGSIZE.
Proof using. unfold vpn. rewrite (Z.div_mod va PGSIZE) at 1 by done. lia. Qed.

(** The test of copyout() on the entry it finds for the page of [va]. *)
Lemma copyout_check k l root t um va : uspace k l root t um -> 0 <= vpn va * PGSIZE < MAXVA -> 0 <= va ->
  exists pte, walk root (vpn va * PGSIZE) false k = Ret pte k /\
    let e := load64 (k_mem k) pte in
    (pte =? 0) || (Z.land e PTE_V =? 0) || (Z.land e PTE_U =? 0) || (Z.land e PTE_W =? 0) = negb (writable um va) /\
    forall pa fl, um !! vpn va = Some (pa, fl) -> PTE2PA e = pa.
Proof using kend_pos.
  intros Hu Hva0 Hva. pose proof (as_inv _ _ _ _ _ _ (us_space _ _ _ _ _ Hu)) as Hvi.
  assert (0 <= va < MAXVA) as Hr by (change MAXVA with 274877906944 in *; unfold vpn, PGSIZE in *; zlia).
  assert (leaf (k_mem k) t (vpn va * PGSIZE) = leaf (k_mem k) t va) as Hleaf by (apply leaf_same; [lia..|]; by rewrite vpn_mul).
  destruct (uspace_flag 2 k l root t um va Hu Hr ltac:(lia)) as [Hfl Hpg].
  eexists. split; [by apply (walk_find kend kend_pos k l root t)|]. unfold writable. rewrite <- Hfl. rewrite <- Hleaf in *.
  unfold leaf in *. destruct (t !! [PX 2 (vpn va * PGSIZE); PX 1 (vpn va * PGSIZE)]) as [p|] eqn:Hp.
  - pose proof (PX_range 0 (vpn va * PGSIZE)). assert (0 < p) by (eapply page_pos, rep_pages; [done|apply Hvi|done]).
    destruct (Z.eqb_spec (p + 8 * PX 0 (vpn va * PGSIZE)) 0); [lia|]. fold (entry (k_mem k) p (PX 0 (vpn va * PGSIZE))).
    rewrite !eqb0_truth, PTE_V_test. unfold PTE_U, PTE_W. rewrite !truth_land_bit by lia. split; [by rewrite !negb_andb|].
    intros pa fl Hpa. destruct (Hpg pa fl Hpa) as (Hpok & -> & _).
    apply PTE2PA_mk; [done|]. by eapply as_flags; [apply (us_space _ _ _ _ _ Hu)|].
  - split; [done|]. intros pa fl Hpa. destruct (Hpg pa fl Hpa) as (Hpok & He & Hb).
    apply (f_equal (fun z => Z.testbit z 0)) in He. rewrite mk_pte_bit, Z.bits_0 in He; [congruence|done| |lia].
    by eapply as_flags; [apply (us_space _ _ _ _ _ Hu)|].
Qed.

(** A store of [bs] at [va], inside the page of [va]. *)
Lemma uread_store k l root t um va pa fl bs : uspace k l root t um -> um !! vpn va = Some (pa, fl) -> Forall is_byte bs ->
  va mod PGSIZE + Z.of_nat (length bs) <= PGSIZE ->
  let k' := set_k_mem (store_bytes (k_mem k) (pa + va mod PGSIZE) bs) k in
  uspace k' l root t um /\ mem_only k k' /\ (forall d, page_ok kend d -> ~ acct l t um d -> kept k k' d) /\
  forall x, uread k' um x = if decide (va <= x < va + Z.of_nat (length bs)) then bs !! Z.to_nat (x - va) else uread k um x.
Proof using.
  intros Hu Epa Hbytes Hin k'. pose proof (Z.mod_pos_bound va PGSIZE ltac:(done)) as Hmod. pose proof (vpn_split va) as Hsp.
  destruct (uspace_store k l root t um (vpn va) pa fl (store_bytes (k_mem k) (pa + va mod PGSIZE) bs) Hu Epa)
    as (Hu' & Hkeep & Hread).
  { intros a Ha. rewrite ld_store_bytes. rewrite decide_False; [done|]. unfold in_page in Ha. lia. }
  split_and!; [done| | |].
  - exists (store_bytes (k_mem k) (pa + va mod PGSIZE) bs), (k_freelist k). by destruct k.
  - intros d Hdp Hdn. apply Hkeep; [done|]. intros ->. apply Hdn. right. right. eauto.
  - intros x. pose proof (vpn_split x) as Hsv. pose proof (Z.mod_pos_bound x PGSIZE ltac:(done)) as Hmv.
    case_decide as Hd'.
    + assert (vpn x = vpn va) as Hvv by (unfold vpn, PGSIZE in *; zlia). unfold uread, k'. rewrite Hvv, Epa. cbn [k_mem set_k_mem].
      rewrite ld_store_bytes. rewrite Hvv in Hsv. rewrite decide_True by lia.
      destruct (lookup_lt_is_Some_2 bs (Z.to_nat (x - va)) ltac:(lia)) as [b Hb]. rewrite Hb. f_equal.
      replace (Z.to_nat (pa + x mod PGSIZE - (pa + va mod PGSIZE))) with (Z.to_nat (x - va)) by lia.
      rewrite list_lookup_total_alt, Hb. cbn. apply u8_small.
      rewrite Forall_forall in Hbytes. apply Hbytes. by eapply list_elem_of_lookup_2.
    + destruct (decide (vpn x = vpn va)) as [Hvv|]; [|by apply Hread]. unfold uread, k'. rewrite Hvv, Epa. cbn [k_mem set_k_mem].
      rewrite ld_store_bytes. rewrite Hvv in Hsv. by rewrite decide_False by lia.
Qed.

(** One page of copyout(). *)
Lemma copyout_page k l root t um dstva src : uspace k l root t um -> 0 <= dstva < 2 ^ 64 -> src <> [] ->
  Forall is_byte src ->
  (copyout_body root (dstva, src) k = Ret (inr (-1)) k /\ (MAXVA <= dstva \/ writable um dstva = false)) \/
  exists n k', copyout_body root (dstva, src) k = Ret (inl (u64 ((vpn dstva + 1) * PGSIZE), drop n src)) k' /\
    dstva < MAXVA /\ (0 < n <= length src)%nat /\ (n = length src \/ dstva + Z.of_nat n = (vpn dstva + 1) * PGSIZE) /\
    uspace k' l root t um /\ mem_only k k' /\ (forall d, page_ok kend d -> ~ acct l t um d -> kept k k' d) /\
    forall va, uread k' um va = if decide (dstva <= va < dstva + Z.of_nat n) then src !! Z.to_nat (va - dstva) else uread k um va.
Proof using kend_pos.
  intros Hu Hd Hne Hbytes. pose proof (Z.mod_pos_bound dstva PGSIZE ltac:(done)) as Hmod. pose proof (vpn_split dstva) as Hsp.
  assert (0 < length src)%nat as Hlen by (destruct src; [done|cbn; lia]).
  remember (copyout_body root (dstva, src) k) as o eqn:Ho. unfold copyout_body in Ho.
  destruct (Z.eqb_spec (Z.of_nat (length src)) 0) as [|_]; [lia|]. rewrite PGROUNDDOWN_eq in Ho by done.
  fold (vpn dstva) in Ho. destruct (Z.leb_spec MAXVA (vpn dstva * PGSIZE)) as [Hge|Hlt]; [left; split; [done|]; lia|].
  assert (0 <= vpn dstva) as Hv0 by (unfold vpn; apply Z.div_pos; [lia|done]).
  destruct (copyout_check k l root t um dstva Hu ltac:(unfold PGSIZE in *; lia) ltac:(lia)) as (pte & Hw & Hc & Hpa).
  erewrite bind_ret_run in Ho by exact Hw. unfold rd64, gets in Ho. unfold bind at 1 in Ho. rewrite Hc in Ho.
  destruct (writable um dstva) eqn:Hwr; cbn [negb] in Ho; [|left; split; [done|by right]].
  right. unfold writable, uflag in Hwr. destruct (um !! vpn dstva) as [[pa fl]|] eqn:Epa; [|done].
  rewrite (Hpa pa fl eq_refl) in Ho. replace (dstva - vpn dstva * PGSIZE) with (dstva mod PGSIZE) in Ho by lia.
  set (n := Z.to_nat (Z.min (PGSIZE - dstva mod PGSIZE) (Z.of_nat (length src)))) in *.
  unfold modify, bind, ret in Ho. assert (length (take n src) = n) as Hn by (rewrite length_take; unfold n; lia).
  destruct (uread_store k l root t um dstva pa fl (take n src) Hu Epa) as (Hu' & Hmo & Hk & Hrd).
  { by apply Forall_take. } { rewrite Hn. unfold n, PGSIZE in *. lia. }
  exists n. eexists. split; [rewrite Ho; f_equal; f_equal; f_equal; f_equal; lia|].
  rewrite Hn in Hrd. split_and!; [|unfold n, PGSIZE in *; lia..|done|done|done|].
  { change MAXVA with 274877906944 in *. unfold vpn, PGSIZE in *. zlia. }
  intros va. rewrite Hrd. case_decide; [|done]. apply lookup_take_lt. lia.
Qed.

(** The loop of copyout(). *)
Lemma copyout_loop f k l root t um dstva src : uspace k l root t um -> 0 <= dstva < 2 ^ 64 -> Forall is_byte src ->
  (length src < f)%nat ->
  exists r k' n, loop f (copyout_body root) (dstva, src) k = Ret r k' /\ uspace k' l root t um /\ mem_only k k' /\
    (forall d, page_ok kend d -> ~ acct l t um d -> kept k k' d) /\
    (r = 0 /\ n = length src \/
     r = -1 /\ (n < length src)%nat /\ (MAXVA <= dstva + Z.of_nat n \/ writable um (dstva + Z.of_nat n) = false)) /\
    forall va, uread k' um va = if decide (dstva <= va < dstva + Z.of_nat n) then src !! Z.to_nat (va - dstva) else uread k um va.
Proof using kend_pos.
  revert k dstva src. induction f as [|f IH]; intros k dstva src Hu Hd Hb Hf; [lia|].
  destruct (decide (src = [])) as [->|Hne].
  { exists 0, k, 0%nat. split; [by apply loop_exit|]. split_and!; [done|apply mem_only_refl|done|by left|].
    intros va. by rewrite decide_False by lia. }
  destruct (copyout_page k l root t um dstva src Hu Hd Hne Hb) as
    [[Ho Hw]|(n & k1 & Ho & HdM & Hn & Hcase & Hu1 & Hmo1 & Hk1 & Hr1)].
  - exists (-1), k, 0%nat. split; [by apply loop_exit|]. split_and!; [done|apply mem_only_refl|done| |].
    + right. rewrite Z.add_0_r. split_and!; [done| |done]. destruct src; [done|cbn; lia].
    + intros va. by rewrite decide_False by lia.
  - change MAXVA with 274877906944 in *. pose proof (Z.mod_pos_bound dstva PGSIZE ltac:(done)). pose proof (vpn_split dstva).
    rewrite u64_small in Ho by (unfold vpn, PGSIZE in *; zlia).
    destruct (IH k1 ((vpn dstva + 1) * PGSIZE) (drop n src) Hu1) as (r & k2 & n2 & Hl & Hu2 & Hmo2 & Hk2 & Hr2 & Hrd2);
      [unfold vpn, PGSIZE in *; zlia|by apply Forall_drop|rewrite length_drop; lia|].
    exists r, k2, (n + n2)%nat. split; [by erewrite loop_next by exact Ho|]. split_and!; [done|by eapply mem_only_trans|..].
    + intros d Hd1 Hd2 a Ha. rewrite (Hk2 d Hd1 Hd2 a Ha). by apply (Hk1 d).
    + rewrite length_drop in Hr2. destruct Hr2 as [[-> ->]|(-> & Hn2 & Hx)]; [left; split; [done|lia]|right].
      destruct Hcase as [->|Hcase]; [lia|]. split_and!; [done|lia|].
      replace (dstva + Z.of_nat (n + n2)) with ((vpn dstva + 1) * PGSIZE + Z.of_nat n2) by lia. done.
    + intros va. rewrite Hrd2, Hr1. destruct Hcase as [->|Hcase].
      * rewrite length_drop in Hr2. assert (n2 = 0)%nat as -> by lia. rewrite Nat.add_0_r.
        rewrite (decide_False (P := (vpn dstva + 1) * PGSIZE <= va < _)) by lia. done.
      * rewrite <- Hcase. case_decide as Hd1; [rewrite decide_True by lia; rewrite lookup_drop; f_equal; lia|].
        case_decide as Hd2; case_decide as Hd3; (done || lia).
Qed.

(** *** copyin() and copyinstr() *)

(** The page copyin() and copyinstr() find for [va]. *)
Lemma copyin_addr k l root t um va : uspace k l root t um -> 0 <= va < 2 ^ 64 ->
  (walkaddr root (PGROUNDDOWN va) k = Ret 0 k /\ (MAXVA <= va \/ readable um va = false)) \/
  exists pa fl, um !! vpn va = Some (pa, fl) /\ walkaddr root (PGROUNDDOWN va) k = Ret pa k /\ pa <> 0 /\ va < MAXVA.
Proof using kend_pos.
  intros Hu Hva. rewrite PGROUNDDOWN_eq by done. fold (vpn va). pose proof (vpn_split va).
  pose proof (Z.mod_pos_bound va PGSIZE ltac:(done)). assert (0 <= vpn va) by (unfold vpn; apply Z.div_pos; [lia|done]).
  pose proof (us_space _ _ _ _ _ Hu) as Has.
  rewrite (walkaddr_run kend kend_pos k l root t) by (apply Has || unfold PGSIZE in *; lia).
  destruct (Z.leb_spec MAXVA (vpn va * PGSIZE)) as [|Hlt]; [left; split; [done|left; lia]|].
  assert (va < MAXVA) as HM by (change MAXVA with 274877906944 in *; unfold vpn, PGSIZE in *; zlia).
  rewrite (leaf_same _ _ (vpn va * PGSIZE) va) by (rewrite ?vpn_mul; unfold PGSIZE in *; lia).
  destruct (uspace_flag 0 k l root t um va Hu ltac:(lia) ltac:(lia)) as [Hfl Hpg].
  unfold readable, uflag, uaddr in *. destruct (um !! vpn va) as [[pa fl]|] eqn:E.
  - destruct (Hpg pa fl eq_refl) as (Hpok & -> & Hb). destruct (as_flags _ _ _ _ _ _ Has _ _ _ E) as (Hr & _).
    destruct (as_page _ _ _ _ _ _ Has _ _ _ E) as (Hpp & _). pose proof (page_pos kend kend_pos pa Hpp).
    rewrite PTE2PA_mk, !mk_pte_bit, Hb by (done || lia). destruct (Z.testbit fl 4); [right|left; split; [done|by right]].
    exists pa, fl. split_and!; (done || lia).
  - left. destruct (Z.testbit (leaf (k_mem k) t va) 0); [|split; [done|by right]].
    destruct (Z.testbit (leaf (k_mem k) t va) 4); [done|]. split; [done|by right].
Qed.

(** The bytes [bs] are those at [va], [va]+1, ... *)
Definition user_bytes (k : kstate) (um : gmap Z (Z * Z)) (va : Z) (bs : list Z) : Prop :=
  forall i, (i < length bs)%nat -> uread k um (va + Z.of_nat i) = bs !! i.

Lemma user_bytes_app k um va bs1 bs2 : user_bytes k um va bs1 -> user_bytes k um (va + Z.of_nat (length bs1)) bs2 ->
  user_bytes k um va (bs1 ++ bs2).
Proof using.
  intros H1 H2 i Hi. rewrite length_app in Hi. destruct (decide (i < length bs1)%nat).
  - rewrite lookup_app_l by done. by apply H1.
  - rewrite lookup_app_r by lia. rewrite <- H2 by lia. f_equal. lia.
Qed.

(** Bytes read from the page of [va]. *)
Lemma user_bytes_page k um va pa fl bs : um !! vpn va = Some (pa, fl) -> va mod PGSIZE + Z.of_nat (length bs) <= PGSIZE ->
  (forall i, (i < length bs)%nat -> bs !! i = Some (ld (k_mem k) (pa + va mod PGSIZE + Z.of_nat i))) -> user_bytes k um va bs.
Proof using.
  intros Hpa Hin Hbs i Hi. rewrite Hbs by done. pose proof (vpn_split va). pose proof (Z.mod_pos_bound va PGSIZE ltac:(done)).
  assert (vpn (va + Z.of_nat i) = vpn va /\ (va + Z.of_nat i) mod PGSIZE = va mod PGSIZE + Z.of_nat i) as [Hv Hm]
    by (unfold vpn, PGSIZE in *; zlia).
  unfold uread. rewrite Hv, Hpa, Hm. f_equal. f_equal. lia.
Qed.

Lemma copyin_loop f k l root t um srcva len dst : uspace k l root t um -> 0 <= srcva < 2 ^ 64 -> 0 <= len ->
  (Z.to_nat len < f)%nat ->
  exists r bs, loop f (copyin_body root) (srcva, len, dst) k = Ret (r, dst ++ bs) k /\ user_bytes k um srcva bs /\
    let n := Z.of_nat (length bs) in
    (r = 0 /\ n = len \/ r = -1 /\ n < len /\ (MAXVA <= srcva + n \/ readable um (srcva + n) = false)).
Proof using kend_pos.
  intros Hu. revert srcva len dst. induction f as [|f IH]; intros srcva len dst Hs Hl Hf; [lia|].
  destruct (Z.eqb_spec len 0) as [->|Hne].
  { exists 0, []. split; [rewrite app_nil_r; by apply loop_exit|]. split; [intros i Hi; cbn in Hi; lia|by left]. }
  assert (copyin_body root (srcva, len, dst) k = copyin_body root (srcva, len, dst) k) as Ho by done.
  unfold copyin_body at 2 in Ho. destruct (Z.eqb_spec len 0) as [|_]; [done|].
  destruct (copyin_addr k l root t um srcva Hu Hs) as [[Hw Hno]|(pa & fl & Hpa & Hw & Hne0 & HM)];
    erewrite bind_ret_run in Ho by exact Hw.
  { exists (-1), []. split; [rewrite app_nil_r; by apply loop_exit|]. split; [intros i Hi; cbn in Hi; lia|right].
    cbn [length]. rewrite Z.add_0_r. split_and!; [done|lia|done]. }
  destruct (Z.eqb_spec pa 0) as [|_]; [done|]. rewrite PGROUNDDOWN_eq in Ho by done. fold (vpn srcva) in Ho.
  pose proof (vpn_split srcva). pose proof (Z.mod_pos_bound srcva PGSIZE ltac:(done)).
  replace (srcva - vpn srcva * PGSIZE) with (srcva mod PGSIZE) in Ho by lia.
  set (n := Z.min (PGSIZE - srcva mod PGSIZE) len) in *. unfold gets, bind, ret in Ho.
  set (bs := load_bytes (k_mem k) (pa + srcva mod PGSIZE) (Z.to_nat n)) in *.
  assert (length bs = Z.to_nat n) as Hlb by apply length_load_bytes. change MAXVA with 274877906944 in HM.
  replace (vpn srcva * PGSIZE + PGSIZE) with ((vpn srcva + 1) * PGSIZE) in Ho by lia.
  rewrite u64_small in Ho by (unfold vpn, PGSIZE in *; zlia).
  assert (user_bytes k um srcva bs) as Hub.
  { eapply user_bytes_page; [done|lia|]. intros i Hi. apply load_bytes_lookup. lia. }
  destruct (IH ((vpn srcva + 1) * PGSIZE) (len - n) (dst ++ bs)) as (r & bs2 & Hloop & Hub2 & Hr);
    [unfold vpn, PGSIZE in *; zlia|lia|lia|].
  exists r, (bs ++ bs2). rewrite app_assoc. split; [by erewrite loop_next by exact Ho|]. cbv zeta in *.
  rewrite length_app, Nat2Z.inj_add, Hlb, Z2Nat.id by lia.
  destruct (decide (n = len)) as [Hnl|Hnl].
  - assert (bs2 = []) as -> by (destruct bs2; [done|cbn in Hr; lia]). rewrite app_nil_r. split; [done|]. cbn [length] in *. lia.
  - assert ((vpn srcva + 1) * PGSIZE = srcva + n) as He by lia. split.
    + apply user_bytes_app; [done|]. replace (srcva + Z.of_nat (length bs)) with ((vpn srcva + 1) * PGSIZE) by lia. done.
    + rewrite He in Hr. rewrite Z.add_assoc. destruct Hr as [[-> Hr]|(-> & Hr1 & Hr2)]; [left|right]; split_and!; (done || lia).
Qed.

Lemma copy_until_nul_spec m p n bs nul : copy_until_nul m p n = (bs, nul) ->
  (length bs <= n)%nat /\ (forall i, (i < length bs)%nat -> bs !! i = Some (ld m (p + Z.of_nat i))) /\
  if nul then exists s, bs = s ++ [0] /\ Forall (fun b => b <> 0) s else length bs = n /\ Forall (fun b => b <> 0) bs.
Proof using.
  revert p bs nul. induction n as [|n IH]; intros p bs nul; cbn [copy_until_nul].
  { intros [= <- <-]. split; [done|]. split; [cbn; lia|]. done. }
  destruct (Z.eqb_spec (ld m p) 0) as [H0|H0].
  { intros [= <- <-]. split; [cbn; lia|]. split; [|by exists []]. intros [|i] Hi; cbn in *; [|lia].
    by rewrite Z.add_0_r, H0. }
  destruct (copy_until_nul m (p + 1) n) as [bs' nul'] eqn:E. intros [= <- <-].
  destruct (IH _ _ _ E) as (H1 & H2 & H3). split; [cbn; lia|]. split.
  - intros [|i] Hi; cbn in *; [by rewrite Z.add_0_r|]. rewrite H2 by lia. f_equal. f_equal. lia.
  - destruct nul'; [destruct H3 as (s & -> & Hs); exists (ld m p :: s); split; [done|by constructor]|].
    destruct H3 as [H3 H4]. split; [cbn; lia|by constructor].
Qed.

Lemma copyinstr_loop f k l root t um srcva max dst : uspace k l root t um -> 0 <= srcva < 2 ^ 64 -> 0 <= max ->
  (Z.to_nat max < f)%nat ->
  exists r bs, loop f (copyinstr_body root) (srcva, max, dst) k = Ret (r, dst ++ bs) k /\ user_bytes k um srcva bs /\
    (r = 0 /\ (exists s, bs = s ++ [0] /\ Forall (fun b => b <> 0) s) /\ Z.of_nat (length bs) <= max \/
     r = -1 /\ Forall (fun b => b <> 0) bs /\ let n := Z.of_nat (length bs) in
       (n = max \/ MAXVA <= srcva + n \/ readable um (srcva + n) = false)).
Proof using kend_pos.
  intros Hu. revert srcva max dst. induction f as [|f IH]; intros srcva max dst Hs Hl Hf; [lia|].
  destruct (Z.eqb_spec max 0) as [->|Hne].
  { exists (-1), []. split; [rewrite app_nil_r; by apply loop_exit|]. split; [intros i Hi; cbn in Hi; lia|right].
    split_and!; [done..|by left]. }
  assert (copyinstr_body root (srcva, max, dst) k = copyinstr_body root (srcva, max, dst) k) as Ho by done.
  unfold copyinstr_body at 2 in Ho. destruct (Z.eqb_spec max 0) as [|_]; [done|].
  destruct (copyin_addr k l root t um srcva Hu Hs) as [[Hw Hno]|(pa & fl & Hpa & Hw & Hne0 & HM)];
    erewrite bind_ret_run in Ho by exact Hw.
  { exists (-1), []. split; [rewrite app_nil_r; by apply loop_exit|]. split; [intros i Hi; cbn in Hi; lia|right].
    split_and!; [done..|]. cbn [length]. rewrite Z.add_0_r. by right. }
  destruct (Z.eqb_spec pa 0) as [|_]; [done|]. rewrite PGROUNDDOWN_eq in Ho by done. fold (vpn srcva) in Ho.
  pose proof (vpn_split srcva). pose proof (Z.mod_pos_bound srcva PGSIZE ltac:(done)).
  replace (srcva - vpn srcva * PGSIZE) with (srcva mod PGSIZE) in Ho by lia.
  set (n := Z.min (PGSIZE - srcva mod PGSIZE) max) in *. unfold gets, bind, ret in Ho.
  destruct (copy_until_nul (k_mem k) (pa + srcva mod PGSIZE) (Z.to_nat n)) as [bs nul] eqn:E.
  destruct (copy_until_nul_spec _ _ _ _ _ E) as (Hlb & Hbs & Hn). change MAXVA with 274877906944 in HM.
  assert (user_bytes k um srcva bs) as Hub by (eapply user_bytes_page; [done|lia|done]).
  destruct nul.
  { exists 0, bs. split; [by apply loop_exit|]. split; [done|left]. split_and!; [done..|lia]. }
  destruct Hn as [Hn Hnz]. replace (vpn srcva * PGSIZE + PGSIZE) with ((vpn srcva + 1) * PGSIZE) in Ho by lia.
  rewrite u64_small in Ho by (unfold vpn, PGSIZE in *; zlia).
  destruct (IH ((vpn srcva + 1) * PGSIZE) (max - n) (dst ++ bs)) as (r & bs2 & Hloop & Hub2 & Hr);
    [unfold vpn, PGSIZE in *; zlia|lia|lia|].
  exists r, (bs ++ bs2). rewrite app_assoc. split; [by erewrite loop_next by exact Ho|]. cbv zeta in *.
  rewrite length_app, Nat2Z.inj_add, Hn, Z2Nat.id by lia. destruct (decide (n = max)) as [Hnl|Hnl].
  - assert (bs2 = [] /\ r = -1) as [-> ->].
    { destruct f as [|f']; [lia|]. cbn in Hloop. unfold bind, copyinstr_body in Hloop. rewrite Hnl, Z.sub_diag in Hloop.
      cbn in Hloop. injection Hloop as <- Hd. split; [|done]. by apply (app_inv_head (dst ++ bs)); rewrite app_nil_r. }
    rewrite app_nil_r. split; [done|right]. split_and!; [done..|left; cbn; lia].
  - assert ((vpn srcva + 1) * PGSIZE = srcva + n) as He by lia. split.
    + apply user_bytes_app; [done|]. replace (srcva + Z.of_nat (length bs)) with ((vpn srcva + 1) * PGSIZE) by lia. done.
    + rewrite He in Hr. rewrite Z.add_assoc. destruct Hr as [(-> & (s & -> & Hss) & Hr)|(-> & Hr1 & Hr2)]; [left|right].
      * split_and!; [done| |lia]. exists (bs ++ s). split; [by rewrite app_assoc|by apply Forall_app].
      * split_and!; [done|by apply Forall_app|]. destruct Hr2 as [Hr2|Hr2]; [left; lia|by right].
Qed.


(** [copy_roundtrip]: what the kernel copies out to writable user memory it copies
    in again unchanged: if every page of the range may be written by the user, copyout()
    returns 0 and copyin() of the same range then returns 0 and the same bytes. *)
Theorem copy_roundtrip k l root t um va src : uspace k l root t um -> 0 <= va -> va + Z.of_nat (length src) <= MAXVA ->
  Forall is_byte src -> (forall x, va <= x < va + Z.of_nat (length src) -> writable um x = true) ->
  exists k', copyout root va src k = Ret 0 k' /\ copyin root va (Z.of_nat (length src)) k' = Ret (0, src) k' /\
    forall x, ~ va <= x < va + Z.of_nat (length src) -> uread k' um x = uread k um x.
Proof using kend_pos.
  intros Hu Hva Hmax Hb Hw. change MAXVA with 274877906944 in *.
  destruct (copyout_loop (S (length src)) k l root t um va src Hu ltac:(lia) Hb ltac:(lia))
    as (r & k' & n & H1 & H2 & _ & _ & H4 & H5). change MAXVA with 274877906944 in *.
  destruct H4 as [[-> ->]|(_ & Hn & [Hx|Hx])]; [|lia|rewrite Hw in Hx by lia; done].
  exists k'. split; [exact H1|].
  destruct (copyin_loop (S (Z.to_nat (Z.of_nat (length src)))) k' l root t um va (Z.of_nat (length src)) [] H2) as (r & bs & Hl & Hub & Hr);
    [lia..|]. change MAXVA with 274877906944 in *. cbv zeta in Hr.
  destruct Hr as [[-> Hlen]|(_ & Hlt & [Hx|Hx])]; [|lia|].
  2: { specialize (Hw (va + Z.of_nat (length bs)) ltac:(lia)). unfold writable, readable, uflag in *.
       destruct (um !! vpn _) as [[pa fl]|] eqn:E; [|done]. apply andb_prop in Hw as [Hw _]. rewrite Hw in Hx.
       destruct (as_flags _ _ _ _ _ _ (us_space _ _ _ _ _ H2) _ _ _ E) as (_ & Hv & _). by rewrite Hv in Hx. }
  split; [|intros x Hx; by rewrite H5, decide_False].
  unfold copyin. rewrite Hl. cbn [app]. f_equal. f_equal. apply list_eq_same_length with (length src); [done|lia|].
  intros i x y Hi Hx Hy. assert (uread k' um (va + Z.of_nat i) = Some x) as E by (rewrite Hub by lia; done).
  rewrite H5, decide_True in E by lia. replace (Z.to_nat (va + Z.of_nat i - va)) with i in E by lia. congruence.
Qed.

(** C26 (copyinstr_spec): copyinstr() fetches a user string: it returns 0 with the
    string and its NUL, at most [max] bytes, exactly as the process sees them, or -1 when
    there is no NUL in the first [max] bytes or the string runs into a page the user
    cannot read. *)
Theorem copyinstr_spec k l root t um srcva max : uspace k l root t um -> 0 <= srcva < 2 ^ 64 -> 0 <= max ->
  exists r bs, copyinstr root srcva max k = Ret (r, bs) k /\ user_bytes k um srcva bs /\
    (r = 0 /\ (exists s, bs = s ++ [0] /\ Forall (fun b => b <> 0) s) /\ Z.of_nat (length bs) <= max \/
     r = -1 /\ Forall (fun b => b <> 0) bs /\
       (Z.of_nat (length bs) = max \/ MAXVA <= srcva + Z.of_nat (length bs) \/
        readable um (srcva + Z.of_nat (length bs)) = false)).
Proof using kend_pos.
  intros Hu Hs Hm. destruct (copyinstr_loop (S (Z.to_nat max)) k l root t um srcva max [] Hu Hs Hm ltac:(lia))
    as (r & bs & H1 & H2 & H3). exists r, bs. done.
Qed.

End ucopy.

(** ** Examples *)

Lemma vm_uspace : uspace vm_kend vm_k vm_free (PG 0) vm_tree vm_um.
Proof.
  split; [exact vm_k_parent|]. intros va Hva Hb _. rewrite (vm_valid va Hva Hb). by exists (PG 3, 0x17).
Qed.


Lemma copy_roundtrip_witness : exists k', copyout (PG 0) 100 [72; 105; 0] vm_k = Ret 0 k' /\
  copyin (PG 0) 100 3 k' = Ret (0, [72; 105; 0]) k'.
Proof.
  destruct (copy_roundtrip vm_kend vm_kend_pos vm_k vm_free (PG 0) vm_tree vm_um 100 [72; 105; 0] vm_uspace)
    as (k' & H1 & H2 & _); [done|done|repeat constructor; done| |].
  - intros x Hx. cbn [length] in Hx. unfold writable, uflag, vpn. rewrite Z.div_small by (unfold PGSIZE; lia). reflexivity.
  - exists k'. exact (conj H1 H2).
Defined.

Lemma copyinstr_spec_witness : exists r bs, copyinstr (PG 0) 100 16 vm_k = Ret (r, bs) vm_k.
Proof.
  destruct (copyinstr_spec vm_kend vm_kend_pos vm_k vm_free (PG 0) vm_tree vm_um 100 16 vm_uspace) as (r & bs & H & _);
    [done|done|]. exists r, bs. exact H.
Defined.
