(* ===== verification/Pipe.v ===== *)
(** * Pipe: pipes between processes (kernel/pipe.c)

    [k_pipes] holds struct pipe by the address of its page.  A thread that waits
    leaves through sleep(); when it is woken it takes the lock again and goes on
    from the test of its loop, [pipewrite_from] with the number of bytes already
    written or [piperead_from].  The abstract pipe is the queue of the bytes in
    transit: the ring buffer and its two wrapping counters implement it. *)

From Stdlib Require Import ZArith Lia.
From stdpp Require Import base gmap list strings.
From S2P Require Import Prelude Bytes State Riscv Ring Spinlock Sched Sleeplock Mem Kalloc Vm Uvm Ucopy.

#[local] Opaque memset store64 load64 copyin copyout.

Definition PIPESIZE : Z := 512.
#[global] Arguments PIPESIZE : simpl never.

Definition zero_pipe : pipe := mkPipe (replicate (Z.to_nat PIPESIZE) 0) 0 0 0 0.
Definition pipe_at (pi : Z) (k : kstate) : pipe := default zero_pipe (k_pipes k !! pi).
Definition upd_pipe (pi : Z) (f : pipe -> pipe) : K unit :=
  modify (fun k => set_k_pipes (<[pi := f (pipe_at pi k)]> (k_pipes k)) k).

(** pi->data[pi->nwrite++ % PIPESIZE] = ch; *)
Definition pipe_push (ch : Z) (p : pipe) : pipe :=
  set_pi_nwrite (u32 (pi_nwrite p + 1))
    (set_pi_data (<[Z.to_nat (pi_nwrite p mod PIPESIZE) := ch]> (pi_data p)) p).

(** ch = pi->data[pi->nread++ % PIPESIZE]; *)
Definition pipe_head (p : pipe) : Z := nth (Z.to_nat (pi_nread p mod PIPESIZE)) (pi_data p) 0.
Definition pipe_pop (p : pipe) : pipe := set_pi_nread (u32 (pi_nread p + 1)) p.

Section pipe.
Variable kend : Z.

Definition pipeclose (pi : Z) (wr : Z) : K unit :=
  do! acquire (LPipe pi);
  do! (if truth wr then
         do! upd_pipe pi (set_pi_writeopen 0); wakeup (ChPipeR pi)
       else
         do! upd_pipe pi (set_pi_readopen 0); wakeup (ChPipeW pi));
  let! p := gets (pipe_at pi) in
  if (pi_readopen p =? 0) && (pi_writeopen p =? 0) then
    do! release (LPipe pi);
    do! kfree kend pi;
    modify (fun k => set_k_pipes (delete pi (k_pipes k)) k)
  else release (LPipe pi).

End pipe.

(** pr->pagetable *)
Definition pagetable_of (pr : nat) : K Z := gets (fun k => p_pagetable (proc_at pr k)).

(** One iteration of the loop of pipewrite(), at [i]: [inr None] is the return of
    -1 with the lock released, [inr (Some i)] leaves the loop. *)
Definition pipewrite_body (pr : nat) (pi addr n i : Z) : K (Z + option Z) :=
  if negb (i <? n) then ret (inr (Some i)) else
  let! p := gets (pipe_at pi) in
  let! dead := (if pi_readopen p =? 0 then ret 1 else killed pr) in
  if truth dead then do! release (LPipe pi); ret (inr None) else
  if pi_nwrite p =? u32 (pi_nread p + PIPESIZE) then
    do! wakeup (ChPipeR pi);
    sleep (ChPipeW pi) (LPipe pi)
  else
    let! pt := pagetable_of pr in
    let! r := copyin pt (u64 (addr + i)) 1 in
    if fst r =? -1 then ret (inr (Some i)) else
    do! upd_pipe pi (pipe_push (nth 0 (snd r) 0));
    ret (inl (i + 1)).

(** The loop from its test on, with [i] bytes written, and the end of the function. *)
Definition pipewrite_from (pr : nat) (pi addr n i : Z) : K Z :=
  let! r := loop (S (Z.to_nat (n - i))) (pipewrite_body pr pi addr n) i in
  match r with
  | None => ret (-1)
  | Some i =>
      do! wakeup (ChPipeR pi);
      do! release (LPipe pi);
      ret i
  end.

Definition pipewrite (pi addr n : Z) : K Z :=
  let! mp := myproc in
  match mp with
  | None => fault
  | Some pr =>
      do! acquire (LPipe pi);
      pipewrite_from pr pi addr n 0
  end.

Definition piperead_body (pr : nat) (pi addr n i : Z) : K (Z + Z) :=
  if negb (i <? n) then ret (inr i) else
  let! p := gets (pipe_at pi) in
  if pi_nread p =? pi_nwrite p then ret (inr i) else
  let ch := pipe_head p in
  do! upd_pipe pi pipe_pop;
  let! pt := pagetable_of pr in
  let! r := copyout pt (u64 (addr + i)) [ch] in
  if r =? -1 then ret (inr i) else ret (inl (i + 1)).

(** piperead() from the test of its waiting loop on. *)
Definition piperead_from (pr : nat) (pi addr n : Z) : K Z :=
  let! p := gets (pipe_at pi) in
  if (pi_nread p =? pi_nwrite p) && truth (pi_writeopen p) then
    let! dead := killed pr in
    if truth dead then do! release (LPipe pi); ret (-1)
    else sleep (ChPipeR pi) (LPipe pi)
  else
    let! i := loop (S (Z.to_nat n)) (piperead_body pr pi addr n) 0 in
    do! wakeup (ChPipeW pi);
    do! release (LPipe pi);
    ret i.

Definition piperead (pi addr n : Z) : K Z :=
  let! mp := myproc in
  match mp with
  | None => fault
  | Some pr =>
      do! acquire (LPipe pi);
      piperead_from pr pi addr n
  end.

(** ** The queue of a pipe *)

Definition pipe_wf (p : pipe) : Prop := ring_wf (2 ^ 32) PIPESIZE (pi_data p) (pi_nread p) (pi_nwrite p).
Definition fill (p : pipe) : nat := span (2 ^ 32) (pi_nread p) (pi_nwrite p).

(** The bytes in transit, oldest first. *)
Definition queue (p : pipe) : list Z := chars (2 ^ 32) PIPESIZE (pi_data p) (pi_nread p) (pi_nwrite p).

Lemma PIPESIZE_ring : 0 < PIPESIZE /\ PIPESIZE < 2 ^ 32 /\ (PIPESIZE | 2 ^ 32).
Proof. split_and!; [done|done|by exists 8388608]. Qed.

Lemma length_queue p : length (queue p) = fill p.
Proof. apply length_chars. Qed.

Lemma pipe_empty p : pipe_wf p -> (pi_nread p =? pi_nwrite p) = bool_decide (queue p = []).
Proof. by apply ring_empty. Qed.

Lemma pipe_full p : pipe_wf p -> (pi_nwrite p =? u32 (pi_nread p + PIPESIZE)) = bool_decide (fill p = Z.to_nat PIPESIZE).
Proof. by apply ring_full. Qed.

Lemma push_spec p ch : pipe_wf p -> is_byte ch -> (fill p < Z.to_nat PIPESIZE)%nat ->
  pipe_wf (pipe_push ch p) /\ queue (pipe_push ch p) = queue p ++ [ch].
Proof.
  intros Hp Hc Hf. destruct PIPESIZE_ring as (H1 & H2 & H3).
  by destruct (ring_push (2 ^ 32) PIPESIZE H1 H2 H3 _ _ _ ch Hp Hc Hf) as (Hw & _ & Hq).
Qed.

Lemma pop_spec p ch q : pipe_wf p -> queue p = ch :: q ->
  pipe_head p = ch /\ is_byte ch /\ pipe_wf (pipe_pop p) /\ queue (pipe_pop p) = q.
Proof.
  intros Hp Hq. destruct PIPESIZE_ring as (H1 & H2 & H3). exact (ring_pop (2 ^ 32) PIPESIZE H1 H2 H3 _ _ _ ch q Hp Hq).
Qed.

(** ** Writing *)

Lemma killed_run i k : cpu_ok k -> lock_free k (LProc i) -> killed i k = Ret (p_killed (proc_at i k)) k.
Proof.
  intros Hc Hl. unfold killed. rewrite (bind_ret_run _ _ _ _ _ (acquire_run _ _ Hl)). unfold gets. unfold bind at 1.
  rewrite (bind_ret_run _ _ _ _ _ (release_run _ _ _ Hl Hc (same_cpu_refl _))). by rewrite restore_enter.
Qed.

Lemma uspace_ext kend k k' l root t um : uspace kend k l root t um -> k_mem k' = k_mem k ->
  k_freelist k' = k_freelist k -> cpu_ok k' -> lock_free k' LKmem -> uspace kend k' l root t um.
Proof.
  intros [[[_ _ [H1 H2 H3] H4 H5] H6 H7 H8 H9] H10] Hm Hf Hc Hl.
  split; [split; [split; [done|done|split|..]|..]|]; rewrite ?Hm, ?Hf; done.
Qed.

Lemma uread_byte k um va b : uread k um va = Some b -> is_byte b.
Proof. unfold uread. destruct (um !! vpn va) as [[]|]; [|done]. intros [= <-]. apply ld_byte. Qed.

Lemma thread_in_lock pi p k : thread_ok p k -> lock_free k (LPipe pi) ->
  cpu_ok (enter (LPipe pi) k) /\ (forall i, (i < Z.to_nat NPROC)%nat -> lock_free (enter (LPipe pi) k) (LProc i)).
Proof. intros [Hc _ _ _ _ Hp] Hl. split; [by apply enter_cpu_ok|]. intros i Hi. apply enter_lock_free; [done|by apply Hp]. Qed.

(** The state inside the critical section, with the pipe at [q]. *)
Definition in_pipe (pi : Z) (q : pipe) (k : kstate) : kstate := set_k_pipes (<[pi := q]> (k_pipes k)) k.

Lemma in_pipe_at pi q k : pipe_at pi (in_pipe pi q k) = q.
Proof. unfold pipe_at. cbn. by rewrite lookup_insert_eq. Qed.

Lemma in_pipe_upd pi q k f : upd_pipe pi f (in_pipe pi q k) = Ret tt (in_pipe pi (f q) k).
Proof. unfold upd_pipe, modify. rewrite in_pipe_at. unfold in_pipe. cbn. by rewrite insert_insert_eq. Qed.

Lemma in_pipe_self pi k q : k_pipes k !! pi = Some q -> in_pipe pi q k = k.
Proof. intros H. unfold in_pipe. rewrite insert_id by done. by destruct k. Qed.

Lemma restore_in_pipe pi q l k ps :
  restore k (set_k_procs ps (in_pipe pi q (enter l k))) = set_k_procs ps (in_pipe pi q k).
Proof. by destruct k. Qed.

Lemma restore_in_pipe_asleep pi q l l' k ps ps' :
  set_k_procs ps' (restore (enter l' k) (set_k_procs ps (in_pipe pi q (enter l k)))) = set_k_procs ps' (in_pipe pi q (enter l' k)).
Proof. by destruct k. Qed.

Lemma restore_in_pipe_mem pi q l k ps mm ff :
  restore k (set_k_procs ps (in_pipe pi q (set_k_mem mm (set_k_freelist ff (enter l k))))) =
  set_k_procs ps (in_pipe pi q (set_k_mem mm (set_k_freelist ff k))).
Proof. by destruct k. Qed.

Section writing.
Variable kend : Z.
Hypothesis kend_pos : 0 < kend.
Context (p : nat) (k : kstate) (pi addr : Z) (bs : list Z).
Context (l : list Z) (t : tree) (um : gmap Z (Z * Z)).

Definition page_table (k : kstate) : Z := p_pagetable (proc_at p k).

Hypothesis Hth : thread_ok p k.
Hypothesis Hlock : lock_free k (LPipe pi).
Hypothesis Halive : p_killed (proc_at p k) = 0.
Hypothesis Hspace : uspace kend k l (page_table k) t um.
Hypothesis Haddr : 0 <= addr /\ addr + Z.of_nat (length bs) <= MAXVA.
Hypothesis Hbytes : user_bytes k um addr bs.
Hypothesis Hread : forall x, addr <= x < addr + Z.of_nat (length bs) -> readable um x = true.

Definition inside (q : pipe) : kstate := in_pipe pi q (enter (LPipe pi) k).

Lemma inside_at q : pipe_at pi (inside q) = q.
Proof using. apply in_pipe_at. Qed.

Lemma inside_ok q : cpu_ok (inside q) /\ (forall i, (i < Z.to_nat NPROC)%nat -> lock_free (inside q) (LProc i)) /\
  uspace kend (inside q) l (page_table k) t um.
Proof using Hth Hlock Hspace.
  destruct (thread_in_lock pi p k Hth Hlock) as [Hc Hp]. split_and!; [done|done|].
  apply (uspace_ext kend k); [done..|].
  destruct Hspace as [[[_ Hlk _ _ _] _ _ _ _] _]. by apply (enter_lock_free (LPipe pi) LKmem k).
Qed.

Lemma copyin_byte q i b : bs !! i = Some b ->
  copyin (page_table k) (u64 (addr + Z.of_nat i)) 1 (inside q) = Ret (0, [b]) (inside q).
Proof using All.
  intros Hi. pose proof (lookup_lt_Some _ _ _ Hi) as Hlt. change MAXVA with 274877906944 in *.
  destruct (inside_ok q) as (_ & _ & Hu). rewrite u64_small by lia.
  destruct (copyin_loop kend kend_pos 2 (inside q) l (page_table k) t um (addr + Z.of_nat i) 1 [] Hu ltac:(lia) ltac:(lia) ltac:(lia))
    as (r & cs & Hrun & Hcs & Hr).
  cbv zeta in Hr. assert (r = 0 /\ length cs = 1%nat) as [-> Hl1].
  { destruct Hr as [[-> Hr]|(_ & Hn & [Hr|Hr])]; [lia|change MAXVA with 274877906944 in *; lia|].
    rewrite Hread in Hr; [done|lia]. }
  destruct cs as [|c [|]]; [done| |done]. pose proof (Hcs 0%nat ltac:(cbn; lia)) as H0. pose proof (Hbytes i Hlt) as H1.
  rewrite Z.add_0_r in H0. change (uread (inside q) um) with (uread k um) in H0. rewrite H0 in H1. cbn in H1.
  rewrite Hi in H1. injection H1 as ->. exact Hrun.
Qed.

Lemma pipewrite_next q i b : pipe_wf q -> pi_readopen q <> 0 -> (fill q < Z.to_nat PIPESIZE)%nat -> bs !! i = Some b ->
  pipewrite_body p pi addr (Z.of_nat (length bs)) (Z.of_nat i) (inside q)
    = Ret (inl (Z.of_nat (S i))) (inside (pipe_push b q)).
Proof using All.
  intros Hwf Hro Hfill Hi. pose proof (lookup_lt_Some _ _ _ Hi) as Hlt. unfold pipewrite_body.
  rewrite (proj2 (Z.ltb_lt _ _)) by lia. cbn [negb]. unfold gets at 1. unfold bind at 1. rewrite inside_at.
  rewrite (proj2 (Z.eqb_neq _ _)) by done. destruct (inside_ok q) as (Hc & Hp & _).
  rewrite (bind_ret_run _ _ _ _ _ (killed_run p _ Hc (Hp _ (th_lt _ _ Hth)))). change (proc_at p (inside q)) with (proc_at p k).
  rewrite Halive. cbn [truth negb Z.eqb]. rewrite (pipe_full q Hwf), bool_decide_eq_false_2 by lia.
  unfold pagetable_of, gets. unfold bind at 1. change (p_pagetable (proc_at p (inside q))) with (page_table k).
  rewrite (bind_ret_run _ _ _ _ _ (copyin_byte q i b Hi)). cbn [fst snd nth Z.eqb].
  unfold inside at 1. rewrite (bind_ret_run _ _ _ _ _ (in_pipe_upd _ _ _ _)). unfold ret, inside.
  do 2 f_equal. lia.
Qed.

Lemma pipewrite_many j f q i : pipe_wf q -> pi_readopen q <> 0 -> (i + j <= length bs)%nat ->
  (fill q + j <= Z.to_nat PIPESIZE)%nat ->
  exists q', loop (j + f) (pipewrite_body p pi addr (Z.of_nat (length bs))) (Z.of_nat i) (inside q)
      = loop f (pipewrite_body p pi addr (Z.of_nat (length bs))) (Z.of_nat (i + j)) (inside q') /\
    pipe_wf q' /\ pi_readopen q' = pi_readopen q /\ pi_writeopen q' = pi_writeopen q /\
    queue q' = queue q ++ take j (drop i bs).
Proof using All.
  revert q i. induction j as [|j IH]; intros q i Hwf Hro Hij Hfill.
  - exists q. rewrite Nat.add_0_r, take_0, app_nil_r. done.
  - destruct (lookup_lt_is_Some_2 bs i) as [b Hb]; [lia|].
    assert (is_byte b) as Hbb by (eapply (uread_byte k um); rewrite (Hbytes i); [done|lia]).
    destruct (push_spec q b Hwf Hbb ltac:(lia)) as [Hwf' Hq'].
    destruct (IH (pipe_push b q) (S i)) as (q' & Hrun & H1 & H2 & H3 & H4); [done|done|lia| |].
    { rewrite <- length_queue, Hq', length_app, length_queue. cbn. lia. }
    exists q'. split_and!; [|done..|].
    + change (S j + f)%nat with (S (j + f)). rewrite (loop_next _ _ _ _ _ _ (pipewrite_next q i b Hwf Hro ltac:(lia) Hb)).
      rewrite Hrun. do 2 f_equal. lia.
    + rewrite H4, Hq', (drop_S _ _ _ Hb). cbn [take]. by rewrite <- app_assoc.
Qed.

(** Going on from [i] with room for [j] more bytes is going on from [i + j]. *)
Lemma pipewrite_resume j q i : pipe_wf q -> pi_readopen q <> 0 -> (i + j <= length bs)%nat ->
  (fill q + j <= Z.to_nat PIPESIZE)%nat ->
  exists q', pipewrite_from p pi addr (Z.of_nat (length bs)) (Z.of_nat i) (inside q)
      = pipewrite_from p pi addr (Z.of_nat (length bs)) (Z.of_nat (i + j)) (inside q') /\
    pipe_wf q' /\ pi_readopen q' = pi_readopen q /\ queue q' = queue q ++ take j (drop i bs).
Proof using All.
  intros Hwf Hro Hij Hfill.
  destruct (pipewrite_many j (S (length bs - (i + j))) q i Hwf Hro Hij Hfill) as (q' & Hrun & H1 & H2 & _ & H3).
  exists q'. split_and!; [|done..]. unfold pipewrite_from, bind at 1 2.
  replace (S (Z.to_nat (Z.of_nat (length bs) - Z.of_nat i))) with (j + S (length bs - (i + j)))%nat by lia.
  replace (S (Z.to_nat (Z.of_nat (length bs) - Z.of_nat (i + j)))) with (S (length bs - (i + j)))%nat by lia.
  by rewrite Hrun.
Qed.

Lemma wakeup_inside ch q : wakeup ch (inside q) =
  Ret tt (set_k_procs (imap (wake_at (Some p) ch) (k_procs k)) (inside q)).
Proof using Hth Hlock.
  destruct Hth as [Hc Hn Hp Hlt Hps Hpl]. destruct (thread_in_lock pi p k Hth Hlock) as [Hc' Hpl'].
  rewrite wakeup_run; [|done|done|by intros i Hi _; apply Hpl'].
  by change (c_proc (k_cpu (inside q))) with (c_proc (k_cpu k)); rewrite Hp.
Qed.

Lemma pipewrite_done i q : Z.of_nat (length bs) <= i ->
  pipewrite_from p pi addr (Z.of_nat (length bs)) i (inside q) =
    Ret i (set_k_procs (imap (wake_at (Some p) (ChPipeR pi)) (k_procs k)) (in_pipe pi q k)).
Proof using Hth Hlock.
  intros Hi. unfold pipewrite_from. rewrite (bind_ret_run _ _ _ (Some i) (inside q)).
  2: { apply loop_exit. unfold pipewrite_body. by rewrite (proj2 (Z.ltb_ge _ _)) by lia. }
  cbv beta iota. rewrite (bind_ret_run _ _ _ _ _ (wakeup_inside _ q)).
  rewrite (bind_ret_run _ _ _ _ _ (release_run (LPipe pi) k (set_k_procs _ (inside q)) Hlock (th_cpu _ _ Hth)
    (same_cpu_refl (enter (LPipe pi) k)))). unfold inside. by rewrite restore_in_pipe.
Qed.

(** A full pipe puts the writer to sleep, after waking the readers. *)
Lemma pipewrite_full i q : pipe_wf q -> pi_readopen q <> 0 -> fill q = Z.to_nat PIPESIZE -> i < Z.of_nat (length bs) ->
  pipewrite_from p pi addr (Z.of_nat (length bs)) i (inside q) =
    Swtch (set_k_procs (<[p := asleep (ChPipeW pi) (proc_at p k)]> (imap (wake_at (Some p) (ChPipeR pi)) (k_procs k)))
      (in_pipe pi q (enter (LProc p) k))).
Proof using Hth Hlock Halive.
  intros Hwf Hro Hfull Hi. destruct (thread_in_lock pi p k Hth Hlock) as [Hc Hp]. destruct Hth as [Hc0 Hn Hpr Hlt Hps Hpl].
  unfold pipewrite_from. apply bind_swtch_run. cbn [loop]. apply bind_swtch_run. unfold pipewrite_body.
  rewrite (proj2 (Z.ltb_lt _ _)) by lia. cbn [negb]. unfold gets at 1. unfold bind at 1. rewrite inside_at.
  rewrite (proj2 (Z.eqb_neq _ _)) by done. rewrite (bind_ret_run _ _ _ _ _ (killed_run p (inside q) Hc (Hp _ Hlt))).
  change (proc_at p (inside q)) with (proc_at p k). rewrite Halive. cbn [truth negb Z.eqb].
  rewrite (pipe_full q Hwf), bool_decide_eq_true_2 by lia.
  rewrite (bind_ret_run _ _ _ _ _ (wakeup_inside _ q)).
  rewrite (sleep_run (ChPipeW pi) (LPipe pi) p k); try done; [|by apply Hpl|cbn; rewrite length_imap, Hps; lia].
  unfold inside at 3. rewrite restore_in_pipe_asleep. do 4 f_equal. unfold proc_at. cbn. rewrite list_lookup_imap. destruct (k_procs k !! p); [|done].
  cbn. unfold wake_at. by rewrite decide_True.
Qed.
End writing.

(** ** Reading *)

Section reading.
Variable kend : Z.
Hypothesis kend_pos : 0 < kend.
Context (p : nat) (k : kstate) (pi addr : Z).
Context (l : list Z) (t : tree) (um : gmap Z (Z * Z)).

Hypothesis Hth : thread_ok p k.
Hypothesis Hlock : lock_free k (LPipe pi).
Hypothesis Halive : p_killed (proc_at p k) = 0.

(** The states the copying loop goes through: inside the critical section, with
    the memory of the process changed. *)
Definition reading_state (base : kstate) : Prop :=
  mem_only (enter (LPipe pi) k) base /\ uspace kend base l (page_table p k) t um.

Lemma reading_start : uspace kend k l (page_table p k) t um -> reading_state (enter (LPipe pi) k).
Proof using Hth Hlock.
  intros Hu. split; [apply mem_only_refl|]. apply (uspace_ext kend k); try done; [apply (thread_in_lock pi p k Hth Hlock)|].
  destruct Hu as [[[_ Hlk _ _ _] _ _ _ _] _]. by apply enter_lock_free.
Qed.

Lemma piperead_next base q n i ch rest : reading_state base -> pipe_wf q -> queue q = ch :: rest -> 0 <= i < n ->
  0 <= addr -> addr + i < MAXVA -> writable um (addr + i) = true ->
  exists base', piperead_body p pi addr n i (in_pipe pi q base) = Ret (inl (i + 1)) (in_pipe pi (pipe_pop q) base') /\
    reading_state base' /\
    forall va, uread base' um va = if decide (va = addr + i) then Some ch else uread base um va.
Proof using All.
  intros [Hmo Hu] Hwf Hq Hi Ha Hmax Hw. destruct (pop_spec q ch rest Hwf Hq) as (Hhd & Hch & _ & _).
  assert (uspace kend (in_pipe pi (pipe_pop q) base) l (page_table p k) t um) as Hu2.
  { destruct Hu as [[[Hc Hlk ? ? ?] ? ? ? ?] ?] eqn:E. by apply (uspace_ext kend base). }
  change MAXVA with 274877906944 in *.
  destruct (copyout_loop kend kend_pos 2 _ l (page_table p k) t um (addr + i) [ch] Hu2 ltac:(lia)
    (Forall_cons_2 _ _ _ Hch (Forall_nil_2 _)) ltac:(cbn; lia)) as (r & k' & m & Hrun & Hu' & (mm & ff & ->) & _ & Hr & Hrd).
  assert (r = 0 /\ m = 1%nat) as [-> ->].
  { destruct Hr as [[-> ->]|(_ & Hm & Hbad)]; [done|]. cbn in Hm. replace m with 0%nat in Hbad by lia.
    rewrite Z.add_0_r, Hw in Hbad. change MAXVA with 274877906944 in *. destruct Hbad; [lia|done]. }
  exists (set_k_mem mm (set_k_freelist ff base)). split_and!; [| |].
  - unfold piperead_body. rewrite (proj2 (Z.ltb_lt _ _)) by lia. cbn [negb].
    unfold gets at 1. unfold bind at 1. rewrite in_pipe_at, (pipe_empty q Hwf), bool_decide_eq_false_2 by (rewrite Hq; done).
    rewrite (bind_ret_run _ _ _ _ _ (in_pipe_upd _ _ _ _)), Hhd. unfold pagetable_of, gets. unfold bind at 1.
    replace (p_pagetable (proc_at p (in_pipe pi (pipe_pop q) base))) with (page_table p k) by (destruct Hmo as (? & ? & ->); done).
    rewrite u64_small by lia. by rewrite (bind_ret_run _ _ _ _ _ Hrun).
  - split; [apply (mem_only_trans _ _ _ Hmo); by eexists _, _|]. destruct Hu' as [[[Hc Hlk ? ? ?] ? ? ? ?] ?] eqn:E.
    by apply (uspace_ext kend _ _ _ _ _ _ Hu').
  - intros va. change (uread (set_k_mem mm (set_k_freelist ff base)) um va) with
      (uread (set_k_mem mm (set_k_freelist ff (in_pipe pi (pipe_pop q) base))) um va). rewrite Hrd. cbn [length].
    destruct (decide (va = addr + i)) as [->|]; [rewrite decide_True, Z.sub_diag by lia; done|by rewrite decide_False by lia].
Qed.
Lemma piperead_many m f base q n i : reading_state base -> pipe_wf q -> 0 <= i ->
  m = Nat.min (Z.to_nat (n - i)) (length (queue q)) -> (m < f)%nat -> 0 <= addr -> addr + i + Z.of_nat m <= MAXVA ->
  (forall x, addr + i <= x < addr + i + Z.of_nat m -> writable um x = true) ->
  exists base' q', loop f (piperead_body p pi addr n) i (in_pipe pi q base) = Ret (i + Z.of_nat m) (in_pipe pi q' base') /\
    reading_state base' /\ pipe_wf q' /\ queue q' = drop m (queue q) /\
    forall va, uread base' um va = if decide (addr + i <= va < addr + i + Z.of_nat m) then queue q !! Z.to_nat (va - (addr + i))
      else uread base um va.
Proof using All.
  revert f base q i. induction m as [|m IH]; intros f base q i Hb Hwf Hi Hm Hf Ha Hmax Hw; (destruct f as [|f]; [lia|]).
  - exists base, q. rewrite Z.add_0_r. split_and!; try done; [|intros va; by rewrite decide_False by lia].
    apply loop_exit. unfold piperead_body. destruct (Z.ltb_spec i n); [|done]. cbn [negb]. unfold gets, bind.
    rewrite in_pipe_at, (pipe_empty q Hwf), bool_decide_eq_true_2; [done|]. apply nil_length_inv. lia.
  - destruct (queue q) as [|ch rest] eqn:Hq; [cbn in Hm; lia|]. cbn [length] in Hm.
    destruct (piperead_next base q n i ch rest Hb Hwf Hq ltac:(lia) Ha ltac:(lia) (Hw (addr + i) ltac:(lia))) as (b1 & Hrun & Hb1 & Hrd1).
    destruct (pop_spec q ch rest Hwf Hq) as (_ & _ & Hwf1 & Hq1).
    destruct (IH f b1 (pipe_pop q) (i + 1)) as (b2 & q2 & Hrun2 & Hb2 & Hwf2 & Hq2 & Hrd2); try done; [lia|rewrite Hq1; lia|lia|lia| |].
    { intros x Hx. apply Hw. lia. }
    exists b2, q2. split_and!; try done.
    + rewrite (loop_next _ _ _ _ _ _ Hrun), Hrun2. f_equal. lia.
    + by rewrite Hq2, Hq1.
    + intros va. rewrite Hrd2, Hrd1, Hq1. destruct (decide (va = addr + i)) as [->|].
      * by rewrite decide_False, decide_True, Z.sub_diag by lia.
      * destruct (decide (addr + (i + 1) <= va < addr + (i + 1) + Z.of_nat m)); [rewrite decide_True by lia|by rewrite decide_False by lia].
        replace (Z.to_nat (va - (addr + i))) with (S (Z.to_nat (va - (addr + (i + 1))))) by lia. done.
Qed.

(** An open empty pipe puts the reader to sleep. *)
Lemma piperead_empty n q : pipe_wf q -> queue q = [] -> pi_writeopen q <> 0 ->
  piperead_from p pi addr n (in_pipe pi q (enter (LPipe pi) k)) =
    Swtch (set_k_procs (<[p := asleep (ChPipeR pi) (proc_at p k)]> (k_procs k)) (in_pipe pi q (enter (LProc p) k))).
Proof using Hth Hlock Halive.
  intros Hwf Hq Hwo. destruct (thread_in_lock pi p k Hth Hlock) as [Hc Hp]. destruct Hth as [Hc0 Hn Hpr Hlt Hps Hpl].
  unfold piperead_from. unfold gets at 1. unfold bind at 1.
  rewrite in_pipe_at, (pipe_empty q Hwf), bool_decide_eq_true_2, truth_true by done. cbn [andb].
  rewrite (bind_ret_run _ _ _ _ _ (killed_run p (in_pipe pi q (enter (LPipe pi) k)) Hc (Hp _ Hlt))).
  change (proc_at p (in_pipe pi q (enter (LPipe pi) k))) with (proc_at p k). rewrite Halive. cbn [truth negb Z.eqb].
  rewrite (sleep_run (ChPipeR pi) (LPipe pi) p k (in_pipe pi q (enter (LPipe pi) k)) Hc0 Hn Hpr ltac:(done) Hlock (Hpl _ Hlt) (same_cpu_refl (enter (LPipe pi) k)))
    by (change (p < length (k_procs k))%nat; rewrite Hps; lia).
  exact (f_equal Swtch (restore_in_pipe_asleep pi q (LPipe pi) (LProc p) k (k_procs k) _)).
Qed.

Lemma piperead_some n q : pipe_wf q -> uspace kend k l (page_table p k) t um -> queue q <> [] \/ pi_writeopen q = 0 -> 0 <= n ->
  let m := Nat.min (Z.to_nat n) (length (queue q)) in 0 <= addr -> addr + Z.of_nat m <= MAXVA ->
  (forall x, addr <= x < addr + Z.of_nat m -> writable um x = true) ->
  exists mm ff q', piperead_from p pi addr n (in_pipe pi q (enter (LPipe pi) k)) =
      Ret (Z.of_nat m) (set_k_procs (imap (wake_at (Some p) (ChPipeW pi)) (k_procs k))
        (in_pipe pi q' (set_k_mem mm (set_k_freelist ff k)))) /\
    pipe_wf q' /\ queue q' = drop m (queue q) /\
    forall va, uread (set_k_mem mm k) um va = if decide (addr <= va < addr + Z.of_nat m) then queue q !! Z.to_nat (va - addr)
      else uread k um va.
Proof using All.
  intros Hwf Hu Hq Hn m Ha Hmax Hw. destruct (thread_in_lock pi p k Hth Hlock) as [Hc Hp].
  destruct (piperead_many m (S (Z.to_nat n)) (enter (LPipe pi) k) q n 0) as (base & q' & Hrun & [(mm & ff & ->) Hu'] & Hwf' & Hq' & Hrd);
    try done; rewrite ?Z.add_0_r; try done; [by apply reading_start|by rewrite Z.sub_0_r|lia|].
  rewrite Z.add_0_l, Z.add_0_r in *. exists mm, ff, q'. split_and!; [|done..].
  unfold piperead_from. unfold gets at 1. unfold bind at 1. rewrite in_pipe_at, (pipe_empty q Hwf).
  replace (bool_decide (queue q = []) && truth (pi_writeopen q)) with false.
  2: { destruct Hq as [Hq| ->]; [by rewrite bool_decide_eq_false_2|by rewrite andb_false_r]. }
  rewrite (bind_ret_run _ _ _ _ _ Hrun).
  rewrite (bind_ret_run _ _ _ _ _ (wakeup_run (ChPipeW pi) (in_pipe pi q' (set_k_mem mm (set_k_freelist ff (enter (LPipe pi) k))))
    Hc (th_procs _ _ Hth) (fun i Hi _ => Hp i Hi))).
  change (c_proc (k_cpu (in_pipe pi q' _))) with (c_proc (k_cpu k)). rewrite (th_proc _ _ Hth).
  rewrite (bind_ret_run _ _ _ _ _ (release_run (LPipe pi) k (set_k_procs _ (in_pipe pi q' (set_k_mem mm (set_k_freelist ff (enter (LPipe pi) k))))) Hlock (th_cpu _ _ Hth)
    (same_cpu_refl (enter (LPipe pi) k)))).
  exact (f_equal (Ret (Z.of_nat m)) (restore_in_pipe_mem pi q' (LPipe pi) k _ mm ff)).
Qed.
End reading.

(** ** The contract of a pipe *)

(** What a thread needs to use a pipe it has open. *)
Record pipe_user (kend : Z) (p : nat) (pi : Z) (q : pipe) (k : kstate) (l : list Z) (t : tree) (um : gmap Z (Z * Z)) : Prop := {
  pu_kend : 0 < kend;
  pu_thread : thread_ok p k;
  pu_lock : lock_free k (LPipe pi);
  pu_alive : p_killed (proc_at p k) = 0;
  pu_space : uspace kend k l (page_table p k) t um;
  pu_pipe : k_pipes k !! pi = Some q;
  pu_wf : pipe_wf q }.

(** [p], asleep on [ch] in [k'], holds only its own lock. *)
Definition blocked_on (p : nat) (ch : chan) (lk : lockid) (k k' : kstate) : Prop :=
  proc_at p k' = asleep ch (proc_at p k) /\ lock_free k' lk.

Lemma in_pipe_enter pi q k : k_pipes k !! pi = Some q -> in_pipe pi q (enter (LPipe pi) k) = enter (LPipe pi) k.
Proof. intros H. by apply in_pipe_self. Qed.

Lemma blocked p ch pi q k ps : thread_ok p k -> lock_free k (LPipe pi) -> length ps = length (k_procs k) ->
  blocked_on p ch (LPipe pi) k (set_k_procs (<[p := asleep ch (proc_at p k)]> ps) (in_pipe pi q (enter (LProc p) k))).
Proof.
  intros Hth Hl Hps. split; [|by apply (enter_lock_free (LProc p) (LPipe pi) k)].
  unfold proc_at at 1. cbn. rewrite list_lookup_insert_eq; [done|]. rewrite Hps, (th_procs _ _ Hth). apply Hth.
Qed.

Lemma woken_proc p ch k k0 j : thread_ok p k -> j <> p -> (j < Z.to_nat NPROC)%nat ->
  k_procs k0 !! j = imap (wake_at (Some p) ch) (k_procs k) !! j -> proc_at j k0 = wake ch (proc_at j k).
Proof.
  intros Hth Hj Hlt Hps. unfold proc_at. rewrite Hps, list_lookup_imap.
  destruct (lookup_lt_is_Some_2 (k_procs k) j) as [x ->]; [rewrite (th_procs _ _ Hth); lia|]. cbn.
  unfold wake_at. by rewrite decide_False by congruence.
Qed.

Lemma take_min {A} (l : list A) n : take (Nat.min n (length l)) l = take n l.
Proof. destruct (decide (length l <= n)%nat); [rewrite Nat.min_r, !take_ge by lia|rewrite Nat.min_l by lia]; done. Qed.

(** C27 (pipewrite_spec): a live writer with the bytes [bs] left to write, of which
    [i] are written, appends as many as there is room for, in order.  If all fit it returns the
    count; otherwise it fills the pipe and sleeps with the lock released.  Either
    way the waiting readers are made runnable.  pipewrite() is this from 0. *)
Theorem pipewrite_spec kend p pi q k l t um addr bs i : pipe_user kend p pi q k l t um ->
  pi_readopen q <> 0 -> 0 <= addr -> addr + Z.of_nat (length bs) <= MAXVA -> user_bytes k um addr bs ->
  (forall x, addr <= x < addr + Z.of_nat (length bs) -> readable um x = true) -> (i <= length bs)%nat ->
  let n := Z.of_nat (length bs) in let room := (Z.to_nat PIPESIZE - fill q)%nat in
  pipewrite pi addr n k = pipewrite_from p pi addr n 0 (enter (LPipe pi) k) /\
  exists k', pipewrite_from p pi addr n (Z.of_nat i) (enter (LPipe pi) k) =
      (if decide (length bs - i <= room)%nat then Ret n k' else Swtch k') /\
    pipe_wf (pipe_at pi k') /\ queue (pipe_at pi k') = queue q ++ take room (drop i bs) /\
    (~ (length bs - i <= room)%nat -> blocked_on p (ChPipeW pi) (LPipe pi) k k') /\
    forall j, j <> p -> (j < Z.to_nat NPROC)%nat -> proc_at j k' = wake (ChPipeR pi) (proc_at j k).
Proof.
  intros [Hke Hth Hl Hal Hu Hq Hwf] Hro Ha0 Ha Hby Hrd Hi n room. subst n.
  split.
  { unfold pipewrite. rewrite (bind_ret_run _ _ _ _ _ (myproc_run k (th_cpu _ _ Hth))), (th_proc _ _ Hth).
    by rewrite (bind_ret_run _ _ _ _ _ (acquire_run _ _ Hl)). }
  assert (fill q <= Z.to_nat PIPESIZE)%nat as Hfq by (destruct Hwf; done).
  destruct (pipewrite_resume kend Hke p k pi addr bs l t um Hth Hl Hal Hu (conj Ha0 Ha) Hby Hrd (min room (length bs - i)) q i)
    as (q' & Hrun & Hwf' & Hro' & Hq'); [done|done|lia|lia|].
  change (inside k pi q) with (in_pipe pi q (enter (LPipe pi) k)) in Hrun. rewrite (in_pipe_enter pi q k Hq) in Hrun. rewrite Hrun. clear Hrun.
  assert (queue q' = queue q ++ take room (drop i bs)) as Hq2.
  { by rewrite Hq', <- length_drop, take_min. }
  case_decide as Hroom.
  - rewrite (pipewrite_done p k pi addr bs Hth Hl (Z.of_nat (i + Nat.min room (length bs - i)))) by lia.
    eexists. split; [f_equal; lia|]. unfold pipe_at. cbn. rewrite lookup_insert_eq. cbn. split_and!; try done.
    intros j Hj Hlt. by apply (woken_proc p).
  - assert (fill q' = Z.to_nat PIPESIZE) as Hfull.
    { rewrite <- length_queue, Hq2, length_app, length_queue, length_take, length_drop. lia. }
    rewrite (pipewrite_full p k pi addr bs Hth Hl Hal) by (done || lia || congruence).
    eexists. split; [done|]. unfold pipe_at at 1 2. cbn [in_pipe k_pipes set_k_procs set_k_pipes enter set_k_locks pushed set_k_cpu set_k_hart].
    rewrite lookup_insert_eq. cbn [default]. split_and!; [done|done| |].
    + intros _. apply blocked; [done|done|by rewrite length_imap].
    + intros j Hj Hlt. apply (woken_proc p); [done..|]. by apply list_lookup_insert_ne.
Qed.

(** C28 (piperead_spec): a live reader of a pipe that holds bytes, or whose
    writers are gone, gets the oldest min(n, available) of them, in order, in its
    own memory at addr, and they leave the pipe; the waiting writers are made
    runnable.  On an empty pipe with writers it sleeps with the lock released.
    piperead() is this after taking the lock. *)
Theorem piperead_spec kend p pi q k l t um addr n : pipe_user kend p pi q k l t um -> 0 <= n ->
  let m := Nat.min (Z.to_nat n) (length (queue q)) in
  0 <= addr -> addr + Z.of_nat m <= MAXVA -> (forall x, addr <= x < addr + Z.of_nat m -> writable um x = true) ->
  piperead pi addr n k = piperead_from p pi addr n (enter (LPipe pi) k) /\
  (queue q = [] -> pi_writeopen q <> 0 -> exists k', piperead_from p pi addr n (enter (LPipe pi) k) = Swtch k' /\
     pipe_at pi k' = q /\ blocked_on p (ChPipeR pi) (LPipe pi) k k') /\
  (queue q <> [] \/ pi_writeopen q = 0 -> exists k', piperead_from p pi addr n (enter (LPipe pi) k) = Ret (Z.of_nat m) k' /\
     pipe_wf (pipe_at pi k') /\ queue (pipe_at pi k') = drop m (queue q) /\ user_bytes k' um addr (take m (queue q)) /\
     (forall va, ~ addr <= va < addr + Z.of_nat m -> uread k' um va = uread k um va) /\
     forall j, j <> p -> (j < Z.to_nat NPROC)%nat -> proc_at j k' = wake (ChPipeW pi) (proc_at j k)).
Proof.
  intros [Hke Hth Hl Hal Hu Hq Hwf] Hn m Ha Hmax Hw. split_and!.
  - unfold piperead. rewrite (bind_ret_run _ _ _ _ _ (myproc_run k (th_cpu _ _ Hth))), (th_proc _ _ Hth).
    by rewrite (bind_ret_run _ _ _ _ _ (acquire_run _ _ Hl)).
  - intros Hemp Hwo. pose proof (piperead_empty p k pi addr Hth Hl Hal n q Hwf Hemp Hwo) as Hrun.
    rewrite (in_pipe_enter pi q k Hq) in Hrun. eexists. split; [exact Hrun|]. split; [|by apply blocked].
    unfold pipe_at. cbn. by rewrite lookup_insert_eq.
  - intros Hsome. destruct (piperead_some kend Hke p k pi addr l t um Hth Hl Hal n q Hwf Hu Hsome Hn Ha Hmax Hw)
      as (mm & ff & q' & Hrun & Hwf' & Hq' & Hrd). rewrite (in_pipe_enter pi q k Hq) in Hrun.
    eexists. split; [exact Hrun|]. unfold pipe_at. cbn [in_pipe k_pipes set_k_procs set_k_pipes set_k_mem set_k_freelist].
    rewrite lookup_insert_eq. cbn [default]. split_and!; [done|done| | |].
    + intros i Hi. rewrite length_take in Hi. specialize (Hrd (addr + Z.of_nat i)). rewrite decide_True in Hrd by lia.
      rewrite lookup_take_lt by lia. replace (Z.to_nat (addr + Z.of_nat i - addr)) with i in Hrd by lia. exact Hrd.
    + intros va Hva. specialize (Hrd va). by rewrite decide_False in Hrd.
    + intros j Hj Hlt. by apply (woken_proc p).
Qed.

(** *** Witnesses: process 3 of the booted kernel with an address space and a pipe *)

Definition pipe_q (ro wo : Z) : pipe := mkPipe (replicate (Z.to_nat PIPESIZE) 7) (2 ^ 32 - 2) 1 ro wo.

Definition pipe_k (q : pipe) : kstate :=
  set_k_pipes {[PG 4 := q]} (set_k_mem (k_mem vm_k) (set_k_freelist (k_freelist vm_k)
    (set_k_procs (<[3%nat := set_p_killed 0 (set_p_pagetable (PG 0) (proc_at 3 booted))]> (k_procs booted))
      (with_lock (LPipe (PG 4)) (with_lock LKmem booted))))).

Lemma pipe_q_wf ro wo : pipe_wf (pipe_q ro wo).
Proof. split; [by apply Forall_replicate|reflexivity|done|done|vm_compute; lia]. Qed.

Lemma pipe_k_user q : pipe_wf q -> pipe_user vm_kend 3 (PG 4) q (pipe_k q) vm_free vm_tree vm_um.
Proof.
  intros Hq. assert (thread_ok 3 (with_lock (LPipe (PG 4)) (with_lock LKmem booted))) as [H1 H2 H3 H4 H5 H6].
  { apply with_lock_thread; [done|]. apply with_lock_thread; [done|]. apply booted_thread. }
  assert (proc_at 3 (pipe_k q) = set_p_killed 0 (set_p_pagetable (PG 0) (proc_at 3 booted))) as Hp.
  { unfold proc_at at 1. cbn -[booted]. rewrite list_lookup_insert_eq; [done|]. 
    unfold procs_ok in H5. cbn [with_lock k_procs set_k_locks] in H5. rewrite H5. exact H4. }
  split; [exact vm_kend_pos| |exact (with_lock_free (LPipe (PG 4)) (with_lock LKmem booted))| | | |done].
  - split; [exact H1|exact H2|exact H3|exact H4| |exact H6]. unfold procs_ok. rewrite <- H5. apply length_insert.
  - by rewrite Hp.
  - unfold page_table. rewrite Hp. cbn [p_pagetable set_p_killed set_p_pagetable].
    apply (uspace_ext vm_kend vm_k); [apply vm_uspace|reflexivity|reflexivity|exact H1|].
    exists "lock"%string. cbn [pipe_k with_lock k_locks set_k_locks set_k_pipes set_k_mem set_k_freelist set_k_procs].
    rewrite lookup_insert_ne by discriminate. apply lookup_insert_eq.
  - cbn [pipe_k k_pipes set_k_pipes]. apply lookup_singleton_eq.
Qed.

(** Two bytes of the process, at 100. *)
Definition pipe_bytes : list Z := [ld (k_mem vm_k) (PG 3 + 100); ld (k_mem vm_k) (PG 3 + 101)].

Lemma page0_lookup x : 0 <= x < PGSIZE -> vm_um !! vpn x = Some (PG 3, 0x17).
Proof. intros Hx. unfold vpn. rewrite Z.div_small by done. apply lookup_singleton_eq. Qed.

Lemma pipe_k_bytes q : user_bytes (pipe_k q) vm_um 100 pipe_bytes.
Proof.
  intros i Hi. cbn in Hi. unfold uread. rewrite page0_lookup by (unfold PGSIZE; lia). rewrite Z.mod_small by (unfold PGSIZE; lia).
  by destruct i as [|[|]]; [..|lia].
Qed.

Lemma pipewrite_spec_witness : exists k',
  pipewrite_from 3 (PG 4) 100 2 0 (enter (LPipe (PG 4)) (pipe_k (pipe_q 1 1))) = Ret 2 k' /\
  length (queue (pipe_at (PG 4) k')) = 5%nat.
Proof.
  destruct (pipewrite_spec vm_kend 3 (PG 4) (pipe_q 1 1) _ vm_free vm_tree vm_um 100 pipe_bytes 0 (pipe_k_user _ (pipe_q_wf 1 1)))
    as (_ & k' & Hrun & _ & Hq & _); [done|done|done|apply pipe_k_bytes| |cbn; lia|].
  - intros x Hx. cbn [length pipe_bytes] in Hx. unfold readable, uflag. by rewrite page0_lookup by (unfold PGSIZE; lia).
  - exists k'. rewrite decide_True in Hrun by (vm_compute; lia). split; [exact Hrun|].
    rewrite Hq, length_app, length_queue. reflexivity.
Defined.

Lemma piperead_spec_witness : exists k',
  piperead_from 3 (PG 4) 100 2 (enter (LPipe (PG 4)) (pipe_k (pipe_q 1 1))) = Ret 2 k' /\ user_bytes k' vm_um 100 [7; 7].
Proof.
  destruct (piperead_spec vm_kend 3 (PG 4) (pipe_q 1 1) _ vm_free vm_tree vm_um 100 2 (pipe_k_user _ (pipe_q_wf 1 1)))
    as (_ & _ & Hrun); [done|done|done| |].
  - intros x Hx. change (Z.of_nat _) with 2 in Hx. unfold writable, uflag. by rewrite page0_lookup by (unfold PGSIZE; lia).
  - destruct Hrun as (k' & Hrun & _ & _ & Hub & _); [left; done|]. exists k'. exact (conj Hrun Hub).
Defined.
