(* ===== verification/Uart.v ===== *)
(** * Uart: the 16550 serial port and its driver (kernel/uart.c)

    The device is part of [kstate]: [ud_in] are the bytes it has received,
    [ud_out] the bytes it was given to send, and [ud_busy] says of each coming
    read of LSR whether it finds the transmitter busy (idle when the list is
    used up), so that theorems hold for every timing of the device.  The
    transmit buffer is a ring with two 64-bit counters; its abstraction is the
    queue of the characters not yet sent. *)

From Stdlib Require Import ZArith Lia.
From stdpp Require Import base gmap list strings.
From S2P Require Import Prelude Bytes State Riscv Ring Spinlock Sched Sleeplock.

Definition RHR : Z := 0.
Definition THR : Z := 0.
Definition IER : Z := 1.
Definition IER_RX_ENABLE : Z := Z.shiftl 1 0.
Definition IER_TX_ENABLE : Z := Z.shiftl 1 1.
Definition FCR : Z := 2.
Definition FCR_FIFO_ENABLE : Z := Z.shiftl 1 0.
Definition FCR_FIFO_CLEAR : Z := Z.shiftl 3 1.
Definition ISR : Z := 2.
Definition LCR : Z := 3.
Definition LCR_EIGHT_BITS : Z := Z.shiftl 3 0.
Definition LCR_BAUD_LATCH : Z := Z.shiftl 1 7.
Definition LSR : Z := 5.
Definition LSR_RX_READY : Z := Z.shiftl 1 0.
Definition LSR_TX_IDLE : Z := Z.shiftl 1 5.
Definition UART_TX_BUF_SIZE : Z := 32.
#[global] Arguments UART_TX_BUF_SIZE : simpl never.

Definition upd_uart (f : uart -> uart) : K unit := modify (fun k => set_k_uart (f (k_uart k)) k).

(** What a load of a register does: RHR takes a received byte, LSR reports the
    two conditions the driver looks at. *)
Definition ReadReg (reg : Z) : K Z := fun k =>
  let u := k_uart k in
  if reg =? RHR then
    Ret (nth 0 (ud_in u) 0) (set_k_uart (set_ud_in (tl (ud_in u)) u) k)
  else if reg =? LSR then
    Ret (Z.lor (match ud_in u with [] => 0 | _ => LSR_RX_READY end)
               (match ud_busy u with true :: _ => 0 | _ => LSR_TX_IDLE end))
        (set_k_uart (set_ud_busy (tl (ud_busy u)) u) k)
  else Ret (default 0 (ud_regs u !! reg)) k.

(** With the divisor latch selected, registers 0 and 1 are the baud rate (kept
    under 8 and 9); otherwise a store to THR sends a byte. *)
Definition WriteReg (reg v : Z) : K unit :=
  upd_uart (fun u =>
    if truth (Z.land (default 0 (ud_regs u !! LCR)) LCR_BAUD_LATCH) && (reg <? 2) then
      set_ud_regs (<[8 + reg := u8 v]> (ud_regs u)) u
    else if reg =? THR then set_ud_out (ud_out u ++ [u8 v]) u
    else set_ud_regs (<[reg := u8 v]> (ud_regs u)) u).

Definition uartinit : K unit :=
  do! WriteReg IER 0x00;
  do! WriteReg LCR LCR_BAUD_LATCH;
  do! WriteReg 0 0x03;
  do! WriteReg 1 0x00;
  do! WriteReg LCR LCR_EIGHT_BITS;
  do! WriteReg FCR (Z.lor FCR_FIFO_ENABLE FCR_FIFO_CLEAR);
  do! WriteReg IER (Z.lor IER_TX_ENABLE IER_RX_ENABLE);
  initlock LUart "uart".

(** One iteration of the loop of uartstart(). *)
Definition uartstart_body (_ : unit) : K (unit + unit) :=
  let! u := gets k_uart in
  if ut_w u =? ut_r u then
    do! ReadReg ISR;
    ret (inr tt)
  else
    let! lsr := ReadReg LSR in
    if Z.land lsr LSR_TX_IDLE =? 0 then ret (inr tt) else
    let c := nth (Z.to_nat (ut_r u mod UART_TX_BUF_SIZE)) (ut_buf u) 0 in
    do! upd_uart (set_ut_r (u64 (ut_r u + 1)));
    do! wakeup ChUartR;
    do! WriteReg THR c;
    ret (inl tt).

Definition uartstart : K unit :=
  loop (S (Z.to_nat UART_TX_BUF_SIZE)) uartstart_body tt.

(** for(;;) ; *)
Definition forever {A} : K A := fun _ => Spin.

(** uartputc() from the test of its waiting loop on. *)
Definition uartputc_from (c : Z) : K unit :=
  let! u := gets k_uart in
  if ut_w u =? u64 (ut_r u + UART_TX_BUF_SIZE) then sleep ChUartR LUart else
  do! upd_uart (set_ut_buf (<[Z.to_nat (ut_w u mod UART_TX_BUF_SIZE) := u8 c]> (ut_buf u)));
  do! upd_uart (set_ut_w (u64 (ut_w u + 1)));
  do! uartstart;
  release LUart.

Definition uartputc (c : Z) : K unit :=
  do! acquire LUart;
  let! panicked := gets k_panicked in
  if truth panicked then forever else
  uartputc_from c.

(** while((ReadReg(LSR) & LSR_TX_IDLE) == 0) ; *)
Definition wait_idle_body (_ : unit) : K (unit + unit) :=
  let! lsr := ReadReg LSR in
  ret (if Z.land lsr LSR_TX_IDLE =? 0 then inl tt else inr tt).

Definition uartputc_sync (c : Z) : K unit :=
  do! push_off;
  let! panicked := gets k_panicked in
  if truth panicked then forever else
  let! u := gets k_uart in
  do! loop (S (length (ud_busy u))) wait_idle_body tt;
  do! WriteReg THR c;
  pop_off.

Definition uartgetc : K Z :=
  let! lsr := ReadReg LSR in
  if truth (Z.land lsr 0x01) then ReadReg RHR else ret (-1).

#[global] Arguments ReadReg : simpl never.
#[global] Arguments WriteReg : simpl never.
#[global] Arguments uartstart : simpl never.
#[global] Arguments uartputc : simpl never.
#[global] Arguments uartputc_sync : simpl never.
#[global] Arguments uartgetc : simpl never.

(** ** The device seen from the driver *)

(** Registers 0 and 1 are the data registers: uartinit() has left latch mode. *)
Definition data_mode (u : uart) : Prop :=
  truth (Z.land (default 0 (ud_regs u !! LCR)) LCR_BAUD_LATCH) = false.

Lemma WriteReg_THR v k : data_mode (k_uart k) ->
  WriteReg THR v k = Ret tt (set_k_uart (set_ud_out (ud_out (k_uart k) ++ [u8 v]) (k_uart k)) k).
Proof. intros H. unfold WriteReg, upd_uart, modify. by rewrite H. Qed.

Lemma LSR_bits (b1 b2 : bool) :
  Z.land (Z.lor (if b1 then 0 else LSR_RX_READY) (if b2 then 0 else LSR_TX_IDLE)) LSR_TX_IDLE =? 0 = b2 /\
  truth (Z.land (Z.lor (if b1 then 0 else LSR_RX_READY) (if b2 then 0 else LSR_TX_IDLE)) 1) = negb b1.
Proof. by destruct b1, b2. Qed.

Definition busy_now (u : uart) : bool := hd false (ud_busy u).
Definition lsr_read (u : uart) : uart := set_ud_busy (tl (ud_busy u)) u.

Lemma ReadReg_LSR k : exists v, ReadReg LSR k = Ret v (set_k_uart (lsr_read (k_uart k)) k) /\
  (Z.land v LSR_TX_IDLE =? 0) = busy_now (k_uart k) /\ truth (Z.land v 1) = negb (bool_decide (ud_in (k_uart k) = [])).
Proof.
  unfold ReadReg. cbn -[LSR_RX_READY LSR_TX_IDLE]. eexists. split; [done|]. unfold busy_now.
  by destruct (ud_in (k_uart k)), (ud_busy (k_uart k)) as [|[] ?].
Qed.

(** Waiting for the transmitter uses up the busy reads and nothing else. *)
Lemma wait_idle_run n k : (length (ud_busy (k_uart k)) < n)%nat ->
  exists bs, loop n wait_idle_body tt k = Ret tt (set_k_uart (set_ud_busy bs (k_uart k)) k).
Proof.
  remember (ud_busy (k_uart k)) as bs eqn:E. revert n k E. induction bs as [|b bs IH]; intros n k E Hn;
    (destruct n as [|n]; [cbn in Hn; lia|]); destruct (ReadReg_LSR k) as (v & Hr & Hv & _);
    assert (wait_idle_body tt k = Ret (if busy_now (k_uart k) then inl tt else inr tt) (set_k_uart (lsr_read (k_uart k)) k)) as Hb
      by (unfold wait_idle_body; rewrite (bind_ret_run _ _ _ _ _ Hr); unfold ret; by rewrite Hv);
    unfold busy_now in Hb; rewrite <- E in Hb; cbn in Hb.
  - exists []. rewrite (loop_exit _ _ _ _ _ _ Hb). unfold lsr_read. by rewrite <- E.
  - destruct b.
    + destruct (IH n (set_k_uart (lsr_read (k_uart k)) k)) as [bs' H].
      * cbn. by rewrite <- E.
      * cbn in Hn. lia.
      * exists bs'. rewrite (loop_next _ _ _ _ _ _ Hb). exact H.
    + exists bs. rewrite (loop_exit _ _ _ _ _ _ Hb). unfold lsr_read. by rewrite <- E.
Qed.

(** The effect of sending one character without interrupts. *)
Definition sent (bs : list Z) (bz : list bool) (u : uart) : uart :=
  set_ud_out (ud_out u ++ bs) (set_ud_busy bz u).

Lemma uartputc_sync_run c k : cpu_ok k -> k_panicked k = 0 -> data_mode (k_uart k) ->
  exists bz, uartputc_sync c k = Ret tt (set_k_uart (sent [u8 c] bz (k_uart k)) k).
Proof.
  intros Hc Hp Hd. unfold uartputc_sync. rewrite (bind_ret_run _ _ _ _ _ (push_off_run k)).
  unfold gets at 1. unfold bind at 1. change (k_panicked (pushed k)) with (k_panicked k). rewrite Hp. cbn [truth negb Z.eqb].
  unfold gets at 1. unfold bind at 1.
  destruct (wait_idle_run (S (length (ud_busy (k_uart (pushed k))))) (pushed k)) as [bz Hw]; [lia|].
  exists bz. rewrite (bind_ret_run _ _ _ _ _ Hw), (bind_ret_run _ _ _ _ _ (WriteReg_THR c (set_k_uart (set_ud_busy bz (k_uart (pushed k))) (pushed k)) Hd)).
  rewrite (pop_off_run k) by done. by destruct k.
Qed.

(** ** The transmit queue *)

Record uart_wf (u : uart) : Prop := {
  uw_ring : ring_wf (2 ^ 64) UART_TX_BUF_SIZE (ut_buf u) (ut_r u) (ut_w u);
  uw_mode : data_mode u }.

(** The characters written and not yet sent. *)
Definition pending (u : uart) : list Z := chars (2 ^ 64) UART_TX_BUF_SIZE (ut_buf u) (ut_r u) (ut_w u).

Lemma TX_ring : 0 < UART_TX_BUF_SIZE /\ UART_TX_BUF_SIZE < 2 ^ 64 /\ (UART_TX_BUF_SIZE | 2 ^ 64).
Proof. split_and!; [done|done|by exists (2 ^ 59)]. Qed.

(** The state in which the driver works: inside its critical section. *)
Record uart_env (k : kstate) : Prop := {
  ue_cpu : cpu_ok k;
  ue_procs : procs_ok k;
  ue_plocks : plocks_free k;
  ue_wf : uart_wf (k_uart k) }.

(** What uartstart() may change. *)
Definition uart_moved (k k' : kstate) : Prop :=
  exists u ps, k' = set_k_uart u (set_k_procs ps k) /\ woken (k_procs k) ps /\ uart_wf u /\
    ud_out u ++ pending u = ud_out (k_uart k) ++ pending (k_uart k).

Lemma uart_moved_env k k' : uart_env k -> uart_moved k k' -> uart_env k'.
Proof.
  intros [Hc Hp Hl _] (u & ps & -> & Hw & Hu & _). split; [done| |done|done].
  unfold procs_ok. cbn. by rewrite (woken_length _ _ Hw).
Qed.

Lemma uart_moved_trans k1 k2 k3 : uart_moved k1 k2 -> uart_moved k2 k3 -> uart_moved k1 k3.
Proof.
  intros (u & ps & -> & Hw & _ & Hq) (u' & ps' & -> & Hw' & Hu' & Hq'). exists u', ps'.
  split_and!; [done|by apply (woken_trans _ ps)|done|by rewrite Hq'].
Qed.

Definition tx_busy (u : uart) : bool := busy_now u.

(** One iteration: done, busy, or one character moved from the queue to the line. *)
Lemma uartstart_step k : uart_env k ->
  let u := k_uart k in
  (pending u = [] /\ uartstart_body tt k = Ret (inr tt) k) \/
  (exists c q, pending u = c :: q /\ busy_now u = true /\
     uartstart_body tt k = Ret (inr tt) (set_k_uart (lsr_read u) k)) \/
  (exists c q k', pending u = c :: q /\ uartstart_body tt k = Ret (inl tt) k' /\ uart_moved k k' /\
     pending (k_uart k') = q /\ ud_busy (k_uart k') = tl (ud_busy u)).
Proof.
  intros [Hc Hp Hl [Hr Hd]] u. destruct TX_ring as (H1 & H2 & H3). remember (uartstart_body tt k) as o eqn:Ho. unfold uartstart_body in Ho. fold u in Hr, Hd.
  unfold gets in Ho. unfold bind at 1 in Ho. fold u in Ho.
  pose proof (ring_empty _ _ H1 H2 _ _ _ Hr) as He. fold (pending u) in He. rewrite Z.eqb_sym, He in Ho.
  case_bool_decide as Hemp; [by left|]. right. destruct (pending u) as [|c q] eqn:Hq; [done|].
  destruct (ReadReg_LSR k) as (v & Hv & Hidle & _). rewrite (bind_ret_run _ _ _ _ _ Hv), Hidle in Ho. fold u in Ho.
  destruct (busy_now u) eqn:Hb; [left; by exists c, q|]. right.
  destruct (ring_pop _ _ H1 H2 H3 _ _ _ c q Hr Hq) as (Hhd & Hcb & Hr' & Hq'). rewrite Hhd in Ho.
  unfold upd_uart, modify in Ho. unfold bind at 1 in Ho. cbn [k_uart set_k_uart] in Ho.
  rewrite (bind_ret_run _ _ _ _ _ (wakeup_run ChUartR (set_k_uart (set_ut_r (u64 (ut_r u + 1)) (lsr_read u)) k) Hc Hp Hl)) in Ho.
  rewrite (bind_ret_run _ _ _ _ _ (WriteReg_THR c (set_k_procs _ (set_k_uart (set_ut_r (u64 (ut_r u + 1)) (lsr_read u)) k)) Hd)) in Ho.
  eexists c, q, _. split_and!; [done|exact Ho| |done|done].
  eexists (set_ud_out _ _), _. split_and!; [done|apply wake_woken|by split|].
  rewrite u8_small by exact Hcb. change (pending (set_ud_out _ _)) with (chars (2 ^ 64) UART_TX_BUF_SIZE (ut_buf u) ((ut_r u + 1) mod 2 ^ 64) (ut_w u)).
  fold u. rewrite Hq, Hq'. cbn. by rewrite <- app_assoc.
Qed.

Lemma uartstart_loop n k : uart_env k -> (length (pending (k_uart k)) < n)%nat ->
  exists k', loop n uartstart_body tt k = Ret tt k' /\ uart_moved k k' /\
    (Forall (fun b => b = false) (ud_busy (k_uart k)) -> pending (k_uart k') = []).
Proof.
  revert k. induction n as [|n IH]; intros k Hk Hn; [lia|].
  destruct (uartstart_step k Hk) as [[Hq Hrun]|[(c & q & Hq & Hb & Hrun)|(c & q & k1 & Hq & Hrun & Hm & Hq1 & Hb1)]].
  - exists k. rewrite (loop_exit _ _ _ _ _ _ Hrun). split_and!; [done| |done].
    exists (k_uart k), (k_procs k). split_and!; [by destruct k|apply woken_refl|apply Hk|done].
  - eexists. rewrite (loop_exit _ _ _ _ _ _ Hrun). split_and!; [done| |].
    + exists (lsr_read (k_uart k)), (k_procs k). split_and!; [by destruct k|apply woken_refl| |done]. destruct Hk as [_ _ _ []]. by split.
    + unfold busy_now in Hb. intros H. destruct (ud_busy (k_uart k)); [done|]. inversion H; subst. done.
  - destruct (IH k1) as (k' & Hrun' & Hm' & Hp').
    + by apply (uart_moved_env k).
    + rewrite Hq1. rewrite Hq in Hn. cbn in Hn. lia.
    + exists k'. rewrite (loop_next _ _ _ _ _ _ Hrun). split_and!; [done|by apply (uart_moved_trans _ k1)|].
      intros H. apply Hp'. rewrite Hb1. destruct (ud_busy (k_uart k)); [done|]. by inversion H.
Qed.

Lemma uartstart_run k : uart_env k -> exists k', uartstart k = Ret tt k' /\ uart_moved k k' /\
  (Forall (fun b => b = false) (ud_busy (k_uart k)) -> pending (k_uart k') = []).
Proof.
  intros Hk. apply uartstart_loop; [done|]. unfold pending. rewrite length_chars.
  destruct Hk as [_ _ _ [[_ _ _ _ Hs] _]]. lia.
Qed.

(** C30 (uartputc_spec): uartputc() queues a character behind those already
    written: whatever the timing of the device, the characters sent followed by
    those still queued are the old ones followed by the new one, and all are sent
    when the device is never busy.  With the buffer full it sleeps on uart_tx_r,
    the lock released and nothing changed. *)
Theorem uartputc_spec p c k : thread_ok p k -> lock_free k LUart -> k_panicked k = 0 -> uart_wf (k_uart k) ->
  let u := k_uart k in
  (length (pending u) < Z.to_nat UART_TX_BUF_SIZE)%nat /\
  (exists k', uartputc c k = Ret tt k' /\ uart_wf (k_uart k') /\ lock_free k' LUart /\ woken (k_procs k) (k_procs k') /\
    ud_out (k_uart k') ++ pending (k_uart k') = ud_out u ++ pending u ++ [u8 c] /\
    (Forall (fun b => b = false) (ud_busy u) -> pending (k_uart k') = [])) \/
  length (pending u) = Z.to_nat UART_TX_BUF_SIZE /\
  exists k', uartputc c k = Swtch k' /\ k_uart k' = u /\ lock_free k' LUart /\ proc_at p k' = asleep ChUartR (proc_at p k).
Proof.
  intros Hth Hl Hp [Hr Hd] u. destruct Hth as [Hc Hn Hpr Hlt Hps Hpl]. destruct TX_ring as (H1 & H2 & H3).
  remember (uartputc c k) as o eqn:Ho. unfold uartputc in Ho. rewrite (bind_ret_run _ _ _ _ _ (acquire_run _ _ Hl)) in Ho.
  unfold gets in Ho at 1. unfold bind in Ho at 1. change (k_panicked (enter LUart k)) with (k_panicked k) in Ho. rewrite Hp in Ho.
  cbn [truth negb Z.eqb] in Ho. unfold uartputc_from in Ho. unfold gets in Ho. unfold bind in Ho at 1.
  change (k_uart (enter LUart k)) with u in Ho. fold u in Hr, Hd. pose proof (ring_full _ _ H1 H2 _ _ _ Hr) as Hf.
  fold (u64 (ut_r u + UART_TX_BUF_SIZE)) in Hf. rewrite Hf in Ho. clear Hf. unfold pending at 1. rewrite length_chars.
  case_bool_decide as Hfull; [right|left].
  - split; [unfold pending; by rewrite length_chars|]. eexists. rewrite (sleep_run ChUartR LUart p k (enter LUart k)) in Ho; try done; [|by apply Hpl|change (p < length (k_procs k))%nat; rewrite Hps; lia].
    split_and!; [exact Ho|done|by apply (enter_lock_free (LProc p) LUart k)|].
    unfold proc_at at 1. cbn. rewrite list_lookup_insert_eq; [done|]. rewrite Hps. lia.
  - pose proof (rg_span _ _ _ _ _ Hr) as Hsp. split; [lia|].
    destruct (ring_push _ _ H1 H2 H3 _ _ _ (u8 c) Hr (u8_range c) ltac:(lia)) as (Hr' & _ & Hq').
    unfold upd_uart, modify in Ho. unfold bind in Ho at 1. unfold bind in Ho at 1. cbn [k_uart set_k_uart] in Ho.
    change (k_uart (enter LUart k)) with u in Ho. set (u1 := set_ut_w _ _) in Ho. set (k1 := set_k_uart u1 _) in Ho.
    assert (uart_env k1) as Hk1.
    { split; [by apply (enter_cpu_ok LUart k)|done| |by split]. apply (enter_plocks_free LUart k); [done|]. intros i Hi _. by apply Hpl. }
    destruct (uartstart_run k1 Hk1) as (k2 & Hrun & (u2 & ps & -> & Hw & Hwf & Hq) & Hidle).
    rewrite (bind_ret_run _ _ _ _ _ Hrun) in Ho.
    rewrite (release_run LUart k (set_k_uart u2 (set_k_procs ps k1)) Hl Hc (same_cpu_refl (enter LUart k))) in Ho.
    eexists. split_and!; [exact Ho|done|done|done| |exact Hidle].
    change (ud_out u2 ++ pending u2 = ud_out u ++ pending u ++ [u8 c]). rewrite Hq.
    change (pending (k_uart k1)) with (chars (2 ^ 64) UART_TX_BUF_SIZE (<[Z.to_nat (ut_w u mod UART_TX_BUF_SIZE):=u8 c]> (ut_buf u)) (ut_r u) ((ut_w u + 1) mod 2 ^ 64)).
    by rewrite Hq'.
Qed.

(** *** Witness: a running process, two characters queued, the device busy once *)

Definition uart_two : uart :=
  mkUart ([104; 105] ++ replicate 30 0) 2 0 [false; true] [] [] (<[LCR := LCR_EIGHT_BITS]> ∅).
Definition uart_on (k : kstate) : kstate := set_k_pr_locking 0 (set_k_panicked 0 (set_k_uart uart_two k)).

Lemma uart_on_thread p k : thread_ok p k -> thread_ok p (uart_on k).
Proof. intros H. by apply (thread_ok_ext p k). Qed.

Lemma uart_on_lock l k : lock_free k l -> lock_free (uart_on k) l.
Proof. done. Qed.

Definition uart_k : kstate := uart_on (with_lock LUart booted).

Lemma uart_two_wf : uart_wf uart_two.
Proof.
  split; [|reflexivity]. split; [|reflexivity|done|done|vm_compute; lia].
  apply Forall_app. split; [by repeat constructor|by apply Forall_replicate].
Qed.

Lemma uartputc_spec_witness : exists k', uartputc 33 uart_k = Ret tt k' /\
  ud_out (k_uart k') ++ pending (k_uart k') = [104; 105; 33].
Proof.
  destruct (uartputc_spec 3 33 uart_k (uart_on_thread _ _ (with_lock_thread LUart 3 booted ltac:(done) booted_thread))
    (uart_on_lock _ _ (with_lock_free LUart booted)) eq_refl uart_two_wf)
    as [(_ & k' & H1 & _ & _ & _ & H2 & _)|(H & _)]; [exists k'; exact (conj H1 H2)|discriminate H].
Defined.
