(* ===== verification/Printf.v ===== *)
(** * Printf: formatted output on the console (kernel/printf.c)

    consputc() of console.c, printf.c, and procdump() of proc.c.  A format is the
    list of its characters without the terminating NUL; a variadic argument is a
    64-bit slot or a string.  Elsewhere in the library a call of panic() is the
    outcome [Panic]; what panic() itself does is [panic_stop]. *)

From Stdlib Require Import ZArith Lia Ascii.
From stdpp Require Import base gmap list strings.
From S2P Require Import Prelude Bytes State Riscv Spinlock Sched Sleeplock Uart.

(** The characters of a literal; a newline is written [nl]. *)
Fixpoint str (s : string) : list Z :=
  match s with
  | EmptyString => []
  | String c s' => Z.of_nat (nat_of_ascii c) :: str s'
  end.
Definition chr (c : ascii) : Z := Z.of_nat (nat_of_ascii c).
Definition nl : Z := 10.

(** ** console.c: consputc() *)

Definition BACKSPACE : Z := 0x100.

Definition consputc (c : Z) : K unit :=
  if c =? BACKSPACE then
    do! uartputc_sync 8;
    do! uartputc_sync 32;
    uartputc_sync 8
  else uartputc_sync c.

(** ** printf.c *)

Definition i64 (z : Z) : Z := (z + 2 ^ 63) mod 2 ^ 64 - 2 ^ 63.
#[global] Arguments i64 : simpl never.

Definition digits : list Z := str "0123456789abcdef".
Definition digit (d : Z) : Z := nth (Z.to_nat d) digits 0.

(** do { buf[i++] = digits[x % base]; } while((x /= base) != 0); *)
Fixpoint digit_loop (fuel : nat) (x base : Z) : list Z :=
  match fuel with
  | O => []
  | S f => digit (x mod base) :: (if x / base =? 0 then [] else digit_loop f (x / base) base)
  end.

(** A store past the end of an array of the stack: C gives it no meaning. *)
Definition overrun {A} : K A := panic "overrun".

Definition printint (xx base : Z) (sign : bool) : K unit :=
  let neg := sign && (xx <? 0) in
  let x := if neg then u64 (- xx) else u64 xx in
  let buf := digit_loop 64 x base ++ (if neg then [chr "-"] else []) in
  if (16 <? Z.of_nat (length buf)) then overrun else
  for_each (reverse buf) consputc.

Definition printptr (x : Z) : K unit :=
  do! consputc (chr "0");
  do! consputc (chr "x");
  for_each (seq 0 16) (fun i => consputc (digit (Z.shiftr (u64 (Z.shiftl x (4 * Z.of_nat i))) 60))).

Inductive arg : Type := ANum (z : Z) | AStr (s : option (list Z)).

Definition arg_int (ap : list arg) : Z := match ap with ANum z :: _ => i32 z | _ => 0 end.
Definition arg_long (ap : list arg) : Z := match ap with ANum z :: _ => u64 z | _ => 0 end.
Definition arg_str (ap : list arg) : list Z :=
  match ap with AStr (Some s) :: _ => s | _ => str "(null)" end.

(** One iteration of the loop of printf() at [i], with the arguments left. *)
Definition printf_body (fmt : list Z) (x : nat * list arg) : K (nat * list arg + unit) :=
  let '(i, ap) := x in
  let at_ (j : nat) := nth j fmt 0 in
  let cx := at_ i in
  if cx =? 0 then ret (inr tt) else
  if negb (cx =? chr "%") then do! consputc cx; ret (inl (S i, ap)) else
  let i := S i in
  let c0 := at_ i in
  let c1 := if truth c0 then at_ (i + 1)%nat else 0 in
  let c2 := if truth c1 then at_ (i + 2)%nat else 0 in
  if c0 =? chr "d" then
    do! printint (arg_int ap) 10 true; ret (inl (S i, tl ap))
  else if (c0 =? chr "l") && (c1 =? chr "d") then
    do! printint (i64 (arg_long ap)) 10 true; ret (inl (i + 2, tl ap)%nat)
  else if (c0 =? chr "l") && (c1 =? chr "l") && (c2 =? chr "d") then
    do! printint (i64 (arg_long ap)) 10 true; ret (inl (i + 3, tl ap)%nat)
  else if c0 =? chr "u" then
    do! printint (arg_int ap) 10 false; ret (inl (S i, tl ap))
  else if (c0 =? chr "l") && (c1 =? chr "u") then
    do! printint (i64 (arg_long ap)) 10 false; ret (inl (i + 2, tl ap)%nat)
  else if (c0 =? chr "l") && (c1 =? chr "l") && (c2 =? chr "u") then
    do! printint (i64 (arg_long ap)) 10 false; ret (inl (i + 3, tl ap)%nat)
  else if c0 =? chr "x" then
    do! printint (arg_int ap) 16 false; ret (inl (S i, tl ap))
  else if (c0 =? chr "l") && (c1 =? chr "x") then
    do! printint (i64 (arg_long ap)) 16 false; ret (inl (i + 2, tl ap)%nat)
  else if (c0 =? chr "l") && (c1 =? chr "l") && (c2 =? chr "x") then
    do! printint (i64 (arg_long ap)) 16 false; ret (inl (i + 3, tl ap)%nat)
  else if c0 =? chr "p" then
    do! printptr (arg_long ap); ret (inl (S i, tl ap))
  else if c0 =? chr "s" then
    do! for_each (arg_str ap) consputc; ret (inl (S i, tl ap))
  else if c0 =? chr "%" then
    do! consputc (chr "%"); ret (inl (S i, ap))
  else if c0 =? 0 then ret (inr tt)
  else
    do! consputc (chr "%");
    do! consputc c0;
    ret (inl (S i, ap)).

Definition printf (fmt : list Z) (ap : list arg) : K Z :=
  let! locking := gets k_pr_locking in
  do! (if truth locking then acquire LPr else ret tt);
  do! loop (S (length fmt)) (printf_body fmt) (O, ap);
  do! (if truth locking then release LPr else ret tt);
  ret 0.

Definition panic_stop {A} (s : list Z) : K A :=
  do! modify (set_k_pr_locking 0);
  do! printf (str "panic: ") [];
  do! printf (str "%s" ++ [nl]) [AStr (Some s)];
  do! modify (set_k_panicked 1);
  forever.

Definition printfinit : K unit :=
  do! initlock LPr "pr";
  modify (set_k_pr_locking 1).

(** ** proc.c: procdump() *)

Definition state_name (s : procstate) : string :=
  match s with
  | UNUSED => "unused" | USED => "used" | SLEEPING => "sleep "
  | RUNNABLE => "runble" | RUNNING => "run   " | ZOMBIE => "zombie"
  end.

(** A C string: the characters before the first NUL. *)
Fixpoint cstr (l : list Z) : list Z :=
  match l with
  | [] => []
  | c :: l' => if c =? 0 then [] else c :: cstr l'
  end.

Definition procdump_slot (i : nat) : K unit :=
  let! p := gets (proc_at i) in
  if decide (p_state p = UNUSED) then ret tt else
  do! printf (str "%d %s %s") [ANum (p_pid p); AStr (Some (str (state_name (p_state p)))); AStr (Some (cstr (p_name p)))];
  do! printf [nl] [];
  ret tt.

Definition procdump : K unit :=
  do! printf [nl] [];
  for_each proc_indices procdump_slot.

#[global] Arguments consputc : simpl never.
#[global] Arguments printint : simpl never.
#[global] Arguments printptr : simpl never.
#[global] Arguments printf : simpl never.

(** ** What reaches the line *)

(** In [k'] the characters [bs] have been sent since [k]; nothing else but the
    timing of the device has changed. *)
Definition prints (bs : list Z) (k k' : kstate) : Prop :=
  exists bz, k' = set_k_uart (sent bs bz (k_uart k)) k.

Record print_env (k : kstate) : Prop := {
  pe_cpu : cpu_ok k;
  pe_alive : k_panicked k = 0;
  pe_mode : data_mode (k_uart k) }.

Lemma prints_nil k : prints [] k k.
Proof. exists (ud_busy (k_uart k)). unfold sent. rewrite app_nil_r. by destruct k as [? ? ? ? ? ? ? ? ? ? ? ? ? ? ? ? ? ? ? ? []]. Qed.

Lemma prints_app bs1 bs2 k1 k2 k3 : prints bs1 k1 k2 -> prints bs2 k2 k3 -> prints (bs1 ++ bs2) k1 k3.
Proof.
  intros [b1 ->] [b2 ->]. exists b2. unfold sent. cbn. by rewrite app_assoc.
Qed.

Lemma prints_env bs k k' : print_env k -> prints bs k k' -> print_env k'.
Proof. intros [H1 H2 H3] [bz ->]. by split. Qed.

Definition shown_char (c : Z) : list Z := if c =? BACKSPACE then [8; 32; 8] else [u8 c].

Lemma consputc_run c k : print_env k -> exists k', consputc c k = Ret tt k' /\ prints (shown_char c) k k'.
Proof.
  assert (forall d k, print_env k -> exists k', uartputc_sync d k = Ret tt k' /\ prints [u8 d] k k') as Hone.
  { intros d k0 [H1 H2 H3]. destruct (uartputc_sync_run d k0 H1 H2 H3) as [bz ->]. eexists. split; [done|by exists bz]. }
  intros Hk. unfold consputc, shown_char. destruct (c =? BACKSPACE); [|by apply Hone].
  destruct (Hone 8 k Hk) as (k1 & E1 & P1). rewrite (bind_ret_run _ _ _ _ _ E1).
  destruct (Hone 32 k1 (prints_env _ _ _ Hk P1)) as (k2 & E2 & P2). rewrite (bind_ret_run _ _ _ _ _ E2).
  pose proof (prints_app _ _ _ _ _ P1 P2) as P12.
  destruct (Hone 8 k2 (prints_env _ _ _ Hk P12)) as (k3 & E3 & P3). exists k3. split; [done|]. exact (prints_app _ _ _ _ _ P12 P3).
Qed.

(** A statement that always returns, having printed [bs]. *)
Definition outputs {A} (m : K A) (a : A) (bs : list Z) : Prop :=
  forall k, print_env k -> exists k', m k = Ret a k' /\ prints bs k k'.

Lemma outputs_consputc c : outputs (consputc c) tt (shown_char c).
Proof. intros k Hk. by apply consputc_run. Qed.

Lemma outputs_ret {A} (a : A) : outputs (ret a) a [].
Proof. intros k Hk. exists k. split; [done|apply prints_nil]. Qed.

Lemma outputs_bind {A B} (m : K A) (f : A -> K B) a b bs1 bs2 :
  outputs m a bs1 -> outputs (f a) b bs2 -> outputs (bind m f) b (bs1 ++ bs2).
Proof.
  intros Hm Hf k Hk. destruct (Hm k Hk) as (k1 & E1 & P1). destruct (Hf k1 (prints_env _ _ _ Hk P1)) as (k2 & E2 & P2).
  exists k2. rewrite (bind_ret_run _ _ _ _ _ E1). split; [done|by apply (prints_app _ _ _ k1)].
Qed.

Lemma outputs_each {A} (l : list A) (f : A -> K unit) (sh : A -> list Z) :
  (forall x, outputs (f x) tt (sh x)) -> outputs (for_each l f) tt (concat (sh <$> l)).
Proof.
  intros Hf. induction l as [|x l IH]; [apply outputs_ret|]. cbn. by apply (outputs_bind _ _ tt).
Qed.

(** Plain characters are shown as themselves. *)
Lemma shown_plain l : Forall is_byte l -> concat (shown_char <$> l) = l.
Proof.
  induction 1 as [|c l Hc Hl IH]; [done|]. cbn. rewrite IH. unfold shown_char, BACKSPACE.
  unfold is_byte in Hc. destruct (Z.eqb_spec c 256); [lia|]. by rewrite u8_small.
Qed.

Lemma outputs_plain l : Forall is_byte l -> outputs (for_each l consputc) tt l.
Proof. intros Hl. rewrite <- (shown_plain l Hl) at 2. apply outputs_each. intros c. apply outputs_consputc. Qed.

(** ** Numerals *)

Fixpoint digit_vals (fuel : nat) (x base : Z) : list Z :=
  match fuel with
  | O => []
  | S f => x mod base :: (if x / base =? 0 then [] else digit_vals f (x / base) base)
  end.

Lemma digit_loop_vals f x base : digit_loop f x base = digit <$> digit_vals f x base.
Proof. revert x. induction f as [|f IH]; intros x; [done|]. cbn. f_equal. destruct (_ =? 0); [done|apply IH]. Qed.

Lemma digit_vals_length f x base n : 2 <= base -> 0 <= x < base ^ Z.of_nat (S n) -> (n < f)%nat ->
  (length (digit_vals f x base) <= S n)%nat.
Proof.
  intros Hb. revert f x. induction n as [|n IH]; intros f x Hx Hf; (destruct f as [|f]; [lia|]); cbn.
  - change (Z.of_nat 1) with 1 in Hx. rewrite Z.pow_1_r in Hx. by rewrite Z.div_small.
  - destruct (x / base =? 0); [cbn; lia|]. apply le_n_S, IH; [|lia].
    rewrite Nat2Z.inj_succ, Z.pow_succ_r in Hx by lia. split; [apply Z.div_pos; lia|apply Z.div_lt_upper_bound; lia].
Qed.

Lemma digit_vals_long f x base n : 2 <= base -> base ^ Z.of_nat n <= x -> (n < f)%nat ->
  (n < length (digit_vals f x base))%nat.
Proof.
  intros Hb. revert f x. induction n as [|n IH]; intros f x Hx Hf; (destruct f as [|f]; [lia|]); cbn; [lia|].
  rewrite Nat2Z.inj_succ, Z.pow_succ_r in Hx by lia.
  assert (base ^ Z.of_nat n <= x / base) as Hq by (apply Z.div_le_lower_bound; lia).
  assert (0 < base ^ Z.of_nat n) by (apply Z.pow_pos_nonneg; lia).
  destruct (Z.eqb_spec (x / base) 0); [lia|]. pose proof (IH f (x / base) Hq). lia.
Qed.

(** Reading a numeral back, most significant digit first. *)
Definition digit_value (c : Z) : Z := if c <? 97 then c - 48 else c - 87.
Definition read_numeral (base : Z) (s : list Z) : Z := fold_left (fun a c => a * base + digit_value c) s 0.

Lemma digit_value_digit d : 0 <= d < 16 -> digit_value (digit d) = d.
Proof.
  intros Hd. assert (d ∈ [0; 1; 2; 3; 4; 5; 6; 7; 8; 9; 10; 11; 12; 13; 14; 15]) as H.
  { rewrite !elem_of_cons. lia. }
  repeat (apply elem_of_cons in H as [->|H]; [done|]). by apply elem_of_nil in H.
Qed.

Lemma digit_byte d : is_byte (digit d).
Proof.
  unfold digit. rewrite nth_lookup. destruct (digits !! Z.to_nat d) eqn:E; [|done].
  assert (Forall is_byte digits) as H by (repeat constructor; done). exact (Forall_lookup_1 _ _ _ _ H E).
Qed.

Lemma digit_loop_value f x base : 2 <= base <= 16 -> 0 <= x < base ^ Z.of_nat f ->
  read_numeral base (reverse (digit_loop f x base)) = x.
Proof.
  intros Hb Hx. unfold read_numeral. rewrite <- fold_left_rev_right. unfold reverse. rewrite rev_append_rev, app_nil_r, rev_involutive.
  revert x Hx. induction f as [|f IH]; intros x Hx; [cbn in *; lia|]. cbn [digit_loop List.fold_right].
  rewrite Nat2Z.inj_succ, Z.pow_succ_r in Hx by lia. pose proof (Z.mod_pos_bound x base ltac:(lia)).
  rewrite digit_value_digit by lia. pose proof (Z.div_mod x base ltac:(lia)).
  destruct (Z.eqb_spec (x / base) 0); [cbn; lia|].
  rewrite IH; [lia|]. split; [apply Z.div_pos; lia|apply Z.div_lt_upper_bound; lia].
Qed.

(** What printint() shows. *)
Definition numeral (xx base : Z) (sign : bool) : list Z :=
  if sign && (xx <? 0) then chr "-" :: reverse (digit_loop 64 (u64 (- xx)) base)
  else reverse (digit_loop 64 (u64 xx) base).

Definition read_int (base : Z) (s : list Z) : Z :=
  match s with
  | c :: s' => if c =? chr "-" then - read_numeral base s' else read_numeral base s
  | [] => 0
  end.

Lemma reverse_cons_split {A} (l : list A) x : reverse (l ++ [x]) = x :: reverse l.
Proof. by rewrite reverse_app. Qed.

Lemma numeral_bytes xx base sign : Forall is_byte (numeral xx base sign).
Proof.
  assert (forall f x, Forall is_byte (reverse (digit_loop f x base))) as H.
  { intros f x. apply Forall_reverse. rewrite digit_loop_vals. apply Forall_fmap, Forall_true. intros d. apply digit_byte. }
  unfold numeral. destruct (sign && (xx <? 0)); [constructor; [done|]|]; apply H.
Qed.

Lemma printint_run xx base sign : (length (numeral xx base sign) <= 16)%nat ->
  outputs (printint xx base sign) tt (numeral xx base sign).
Proof.
  intros Hl. unfold printint. pose proof (numeral_bytes xx base sign) as Hb. unfold numeral in *.
  destruct (sign && (xx <? 0)).
  - rewrite length_app. cbn [length] in *. rewrite length_reverse in Hl.
    rewrite (proj2 (Z.ltb_ge _ _)) by lia. rewrite reverse_cons_split. by apply outputs_plain.
  - rewrite app_nil_r. rewrite length_reverse in Hl. rewrite (proj2 (Z.ltb_ge _ _)) by lia. by apply outputs_plain.
Qed.

Lemma digit_not_minus d : digit d <> chr "-".
Proof.
  unfold digit. rewrite nth_lookup. destruct (digits !! Z.to_nat d) eqn:E; [|done].
  assert (Forall (fun c => c <> chr "-") digits) as H by (repeat constructor; done). exact (Forall_lookup_1 _ _ _ _ H E).
Qed.

Lemma read_int_plain base f x : (0 < f)%nat ->
  read_int base (reverse (digit_loop f x base)) = read_numeral base (reverse (digit_loop f x base)).
Proof.
  intros Hf. destruct f as [|f]; [lia|]. remember (reverse (digit_loop (S f) x base)) as s eqn:Hs.
  assert (Forall (fun c => c <> chr "-") s) as Hm.
  { rewrite Hs, digit_loop_vals. apply Forall_reverse, Forall_fmap, Forall_true. intros d. apply digit_not_minus. }
  destruct s as [|c s]; [done|]. inversion Hm; subst. cbn [read_int]. by rewrite (proj2 (Z.eqb_neq _ _)).
Qed.

Lemma pow_64 base : 2 <= base -> 2 ^ 64 <= base ^ Z.of_nat 64.
Proof. intros. change (Z.of_nat 64) with 64. by apply Z.pow_le_mono_l. Qed.

Lemma numeral_read xx base sign : 2 <= base <= 16 -> - 2 ^ 63 < xx < 2 ^ 63 ->
  read_int base (numeral xx base sign) = if sign then xx else u64 xx.
Proof.
  intros Hb Hx. unfold numeral. pose proof (pow_64 base ltac:(lia)) as Hp. change (2 ^ 64) with 18446744073709551616 in Hp.
  change (2 ^ 63) with 9223372036854775808 in *. unfold u64. change (2 ^ 64) with 18446744073709551616.
  destruct sign; cbn [andb]; [destruct (Z.ltb_spec xx 0)|].
  - change (- read_numeral base (reverse (digit_loop 64 ((- xx) mod 18446744073709551616) base)) = xx).
    rewrite Z.mod_small, digit_loop_value; lia.
  - rewrite Z.mod_small, read_int_plain, digit_loop_value; lia.
  - pose proof (Z.mod_pos_bound xx 18446744073709551616 ltac:(lia)).
    rewrite read_int_plain, digit_loop_value; lia.
Qed.

Lemma digits_fit x base n : 2 <= base -> (n < 63)%nat -> 0 <= x ->
  (x < base ^ Z.of_nat (S n) -> (length (digit_loop 64 x base) <= S n)%nat) /\
  (base ^ Z.of_nat (S n) <= x -> (S n < length (digit_loop 64 x base))%nat).
Proof.
  intros Hb Hn Hx. rewrite digit_loop_vals, length_fmap.
  split; intros H; [apply digit_vals_length; lia|apply digit_vals_long; lia].
Qed.

(** The magnitude printint() writes, and the places its buffer leaves for it. *)
Definition magnitude (xx : Z) (sign : bool) : Z := if sign && (xx <? 0) then - xx else u64 xx.
Definition places (xx : Z) (sign : bool) : Z := if sign && (xx <? 0) then 15 else 16.

(** C31 (printint_spec): printint() writes the numeral of its argument, which
    reads back as the same number, signed or as an unsigned 64-bit one; but its
    buffer has 16 places, and it runs over the end of it exactly when the digits
    (and the sign) need more, as %lu and %ld do from 10^16 on and %u for every
    negative int. *)
Theorem printint_spec xx base sign : 2 <= base <= 16 -> - 2 ^ 63 < xx < 2 ^ 63 ->
  read_int base (numeral xx base sign) = (if sign then xx else u64 xx) /\
  (magnitude xx sign < base ^ places xx sign -> outputs (printint xx base sign) tt (numeral xx base sign)) /\
  (base ^ places xx sign <= magnitude xx sign -> forall k, printint xx base sign k = Panic "overrun").
Proof.
  intros Hb Hx. split; [by apply numeral_read|].
  assert (0 <= magnitude xx sign) as Hm.
  { unfold magnitude. destruct (sign && (xx <? 0)) eqn:E; [|apply u64_range].
    apply andb_true_iff in E as [_ E%Z.ltb_lt]. lia. }
  unfold magnitude, places in *. split.
  - intros Hlt. apply printint_run. unfold numeral. destruct (sign && (xx <? 0)) eqn:E.
    + cbn [length]. rewrite length_reverse, u64_small by lia. apply le_n_S. by apply (digits_fit (- xx) base 14); lia.
    + rewrite length_reverse. by apply (digits_fit (u64 xx) base 15); lia.
  - intros Hge k. unfold printint. destruct (sign && (xx <? 0)) eqn:E.
    + rewrite u64_small by lia. rewrite length_app. cbn [length].
      destruct (digits_fit (- xx) base 14 ltac:(lia) ltac:(lia) Hm) as [_ H]. specialize (H Hge).
      by rewrite (proj2 (Z.ltb_lt _ _)) by lia.
    + rewrite app_nil_r. destruct (digits_fit (u64 xx) base 15 ltac:(lia) ltac:(lia) Hm) as [_ H]. specialize (H Hge).
      by rewrite (proj2 (Z.ltb_lt _ _)) by lia.
Qed.

(** The argument of %u that C converts from the int -1. *)
Lemma printint_spec_witness : read_int 16 (numeral (-255) 16 true) = -255 /\
  forall k, printint (-1) 10 false k = Panic "overrun".
Proof.
  destruct (printint_spec (-255) 16 true) as (H1 & _ & _); [lia|lia|].
  destruct (printint_spec (-1) 10 false) as (_ & _ & H2); [lia|lia|]. split; [exact H1|]. apply H2. vm_compute. discriminate.
Defined.

(** ** Formats *)

Inductive width : Type := WInt | WLong | WLongLong.
Inductive item : Type :=
| ILit (c : Z)
| INum (w : width) (c : ascii) (base : Z) (sign : bool)   (**r %d %u %x, with l or ll *)
| IPtr
| IStr
| IPct.

Definition conversions : list (ascii * Z * bool) :=
  [("d"%char, 10, true); ("u"%char, 10, false); ("x"%char, 16, false)].

Definition text (it : item) : list Z :=
  match it with
  | ILit c => [c]
  | INum WInt c _ _ => [chr "%"; chr c]
  | INum WLong c _ _ => [chr "%"; chr "l"; chr c]
  | INum WLongLong c _ _ => [chr "%"; chr "l"; chr "l"; chr c]
  | IPtr => [chr "%"; chr "p"]
  | IStr => [chr "%"; chr "s"]
  | IPct => [chr "%"; chr "%"]
  end.

Definition num_arg (w : width) (ap : list arg) : Z :=
  match w with WInt => arg_int ap | _ => i64 (arg_long ap) end.

(** The 16 digits of a pointer. *)
Definition pointer (x : Z) : list Z :=
  [chr "0"; chr "x"] ++ ((fun i => digit (Z.shiftr (u64 (Z.shiftl x (4 * Z.of_nat i))) 60)) <$> seq 0 16).

Definition shown (it : item) (ap : list arg) : list Z :=
  match it with
  | ILit c => [c]
  | INum w _ base sign => numeral (num_arg w ap) base sign
  | IPtr => pointer (arg_long ap)
  | IStr => arg_str ap
  | IPct => [chr "%"]
  end.

Definition rest_args (it : item) (ap : list arg) : list arg :=
  match it with ILit _ | IPct => ap | _ => tl ap end.

(** The item stands in a format, and its argument is one it can show. *)
Definition item_ok (it : item) (ap : list arg) : Prop :=
  match it with
  | ILit c => is_byte c /\ c <> 0 /\ c <> chr "%"
  | INum w c base sign => (c, base, sign) ∈ conversions /\ (length (numeral (num_arg w ap) base sign) <= 16)%nat
  | IStr => Forall is_byte (arg_str ap)
  | _ => True
  end.

Fixpoint render (its : list item) (ap : list arg) : list Z :=
  match its with
  | [] => []
  | it :: its' => shown it ap ++ render its' (rest_args it ap)
  end.

Fixpoint items_ok (its : list item) (ap : list arg) : Prop :=
  match its with
  | [] => True
  | it :: its' => item_ok it ap /\ items_ok its' (rest_args it ap)
  end.

Definition format (its : list item) : list Z := concat (text <$> its).

Lemma printptr_run x : outputs (printptr x) tt (pointer x).
Proof.
  unfold printptr, pointer. apply (outputs_bind _ _ tt tt [chr "0"]); [apply outputs_consputc|].
  apply (outputs_bind _ _ tt tt [chr "x"]); [apply outputs_consputc|].
  set (ds := (fun i => digit (Z.shiftr (u64 (Z.shiftl x (4 * Z.of_nat i))) 60)) <$> seq 0 16).
  assert (Forall is_byte ds) as Hds by (apply Forall_fmap, Forall_true; intros i; apply digit_byte).
  rewrite <- (shown_plain ds Hds). unfold ds. rewrite <- list_fmap_compose. apply outputs_each. intros i. apply outputs_consputc.
Qed.

Lemma nth_middle (pre post : list Z) (l : list Z) j i : i = (length pre + j)%nat -> (j < length l)%nat ->
  nth i (pre ++ l ++ post) 0 = nth j l 0.
Proof. intros -> Hj. rewrite app_nth2 by lia. rewrite app_nth1 by lia. f_equal. lia. Qed.

(** One turn of the loop of printf() handles one item. *)
Lemma printf_item pre it post ap : item_ok it ap ->
  outputs (printf_body (pre ++ text it ++ post) (length pre, ap))
    (inl ((length pre + length (text it))%nat, rest_args it ap)) (shown it ap).
Proof.
  intros Hok. unfold printf_body.
  rewrite (nth_middle pre post (text it) 0 (length pre)) by (destruct it as [|[]| | |]; cbn; lia).
  assert (forall (m : K unit) bs n ap', n = (length pre + length (text it))%nat -> ap' = rest_args it ap -> outputs m tt bs ->
    outputs (do! m; ret (inl (n, ap'))) (inl ((length pre + length (text it))%nat, rest_args it ap) : nat * list arg + unit) bs) as Hdone.
  { intros m bs n ap' -> -> Hm. rewrite <- (app_nil_r bs). apply (outputs_bind _ _ tt); [done|apply outputs_ret]. }
  destruct it as [c|w c base sign| | |]; cbn [item_ok] in Hok.
  - destruct Hok as (Hb & H0 & Hp). cbn [text nth]. rewrite !(proj2 (Z.eqb_neq _ _)) by done. cbn [negb].
    apply Hdone; [cbn; lia|done|]. cbn [shown]. rewrite <- (shown_plain [c]) by (by constructor). cbn. rewrite app_nil_r. apply outputs_consputc.
  - destruct Hok as (Hc & Hl). apply (printint_run _ _ sign) in Hl.
    destruct w; [rewrite (nth_middle pre post (text (INum WInt c base sign)) 1 (S (length pre))) by (cbn; lia)
                |rewrite (nth_middle pre post (text (INum WLong c base sign)) 1 (S (length pre))) by (cbn; lia);
                 rewrite (nth_middle pre post (text (INum WLong c base sign)) 2 (S (length pre) + 1)) by (cbn; lia)
                |rewrite (nth_middle pre post (text (INum WLongLong c base sign)) 1 (S (length pre))) by (cbn; lia);
                 rewrite (nth_middle pre post (text (INum WLongLong c base sign)) 2 (S (length pre) + 1)) by (cbn; lia);
                 rewrite (nth_middle pre post (text (INum WLongLong c base sign)) 3 (S (length pre) + 2)) by (cbn; lia)];
    (repeat (apply elem_of_cons in Hc as [[= -> -> ->]|Hc]; [cbn -[printint numeral nth] in *; apply Hdone; [cbn; lia|done|exact Hl]|]));
      by apply elem_of_nil in Hc.
  - rewrite (nth_middle pre post (text IPtr) 1 (S (length pre))) by (cbn; lia). apply Hdone; [cbn; lia|done|apply printptr_run].
  - rewrite (nth_middle pre post (text IStr) 1 (S (length pre))) by (cbn; lia). apply Hdone; [cbn; lia|done|by apply outputs_plain].
  - rewrite (nth_middle pre post (text IPct) 1 (S (length pre))) by (cbn; lia). apply Hdone; [cbn; lia|done|apply outputs_consputc].
Qed.

Lemma printf_loop its pre ap n : items_ok its ap -> (length its < n)%nat ->
  outputs (loop n (printf_body (pre ++ format its)) (length pre, ap)) tt (render its ap).
Proof.
  revert pre ap n. induction its as [|it its IH]; intros pre ap n Hok Hn; (destruct n as [|n]; [lia|]).
  - cbn [loop]. rewrite <- (app_nil_r (render _ _)). apply (outputs_bind _ _ (inr tt)); [|apply outputs_ret].
    unfold printf_body, format. cbn. rewrite app_nil_r, nth_overflow by lia. apply outputs_ret.
  - destruct Hok as [Hit Hits]. cbn [loop render]. apply (outputs_bind _ _ (inl ((length pre + length (text it))%nat, rest_args it ap))).
    + by apply printf_item.
    + change (format (it :: its)) with (text it ++ format its). rewrite (app_assoc pre), <- length_app. apply IH; [done|cbn in Hn; lia].
Qed.

Lemma length_format its : (length its <= length (format its))%nat.
Proof. unfold format. induction its as [|[|[]| | |] its IH]; cbn in *; rewrite ?length_app; cbn; lia. Qed.

(** [printf_spec]: printf() prints exactly what its format says: for every
    sequence of literal characters and conversions, with arguments printint() has
    room for, the characters sent are the rendering of the sequence, whether or
    not the output lock is in use, and the lock is free again afterwards. *)
Theorem printf_spec its ap k : items_ok its ap -> print_env k -> (k_pr_locking k = 0 \/ lock_free k LPr) ->
  exists k', printf (format its) ap k = Ret 0 k' /\ prints (render its ap) k k'.
Proof.
  intros Hok Hk Hl. unfold printf. unfold gets. unfold bind at 1.
  pose proof (printf_loop its [] ap (S (length (format its))) Hok ltac:(pose proof (length_format its); lia)) as Hrun.
  cbn [app length] in Hrun. destruct (Z.eqb_spec (k_pr_locking k) 0) as [Hz|Hnz].
  - rewrite Hz. cbn [truth negb Z.eqb]. unfold ret at 1. unfold bind at 1. destruct (Hrun k Hk) as (k' & E & P).
    rewrite (bind_ret_run _ _ _ _ _ E). by exists k'.
  - rewrite truth_true by done. destruct Hl as [|Hl]; [done|]. destruct Hk as [H1 H2 H3].
    rewrite (bind_ret_run _ _ _ _ _ (acquire_run _ _ Hl)).
    destruct (Hrun (enter LPr k)) as (k' & E & [bz ->]); [split; [by apply enter_cpu_ok|done|done]|].
    rewrite (bind_ret_run _ _ _ _ _ E).
    rewrite (bind_ret_run _ _ _ _ _ (release_run LPr k (set_k_uart (sent _ bz (k_uart (enter LPr k))) (enter LPr k)) Hl H1 (same_cpu_refl (enter LPr k)))).
    eexists. split; [done|]. exists bz. by destruct k.
Qed.

(** printf("%d %s%%\n", -7, "ok") *)
Lemma printf_spec_witness : exists k', printf (str "%d %s%%" ++ [nl]) [ANum (-7); AStr (Some (str "ok"))] uart_k = Ret 0 k' /\
  prints (str "-7 ok%" ++ [nl]) uart_k k'.
Proof.
  apply (printf_spec [INum WInt "d" 10 true; ILit 32; IStr; IPct; ILit nl] [ANum (-7); AStr (Some (str "ok"))] uart_k).
  - split; [|split; [|split; [|split; [|split]]]]; try done; [split; [apply list_elem_of_here|vm_compute; lia]|].
    repeat constructor; done.
  - split; [|reflexivity|reflexivity]. apply (th_cpu 3), uart_on_thread, with_lock_thread; [done|exact booted_thread].
  - left. reflexivity.
Defined.
