(* ===== verification/Console.v ===== *)
(** * Console: the console device (kernel/console.c) and uart interrupts

    either_copyout() and either_copyin() of proc.c, which the console, the inode
    layer and exec() use to move bytes to or from a process or the kernel; the
    console's read, write and input-interrupt handlers; and uartintr() of uart.c.

    The destination of either_copyout() is a user address, a physical address,
    or a variable of the calling function ([DLocal]: the bytes are a value of the
    caller); likewise for the source of either_copyin(). *)

From Stdlib Require Import ZArith Lia Ascii.
From stdpp Require Import base gmap list strings.
From S2P Require Import Prelude Bytes State Riscv Ring Spinlock Sched Sleeplock Mem Kalloc Vm Uart Printf.

#[local] Opaque copyin copyout.

(** ** proc.c: either_copyout() and either_copyin() *)

Inductive dest : Type := DUser (va : Z) | DPhys (pa : Z) | DLocal.
Inductive source : Type := SUser (va : Z) | SPhys (pa : Z) | SLocal (bs : list Z).

(** dst += m and src += m *)
Definition dest_add (d : dest) (m : Z) : dest :=
  match d with DUser va => DUser (u64 (va + m)) | DPhys pa => DPhys (pa + m) | DLocal => DLocal end.
Definition source_add (s : source) (m : Z) : source :=
  match s with
  | SUser va => SUser (u64 (va + m))
  | SPhys pa => SPhys (pa + m)
  | SLocal bs => SLocal (drop (Z.to_nat m) bs)
  end.

Definition either_copyout (dst : dest) (src : list Z) : K Z :=
  let! mp := myproc in
  match dst with
  | DUser va =>
      match mp with
      | None => fault
      | Some p => let! pt := gets (fun k => p_pagetable (proc_at p k)) in copyout pt va src
      end
  | DPhys pa => do! modify (fun k => set_k_mem (store_bytes (k_mem k) pa src) k); ret 0
  | DLocal => ret 0
  end.

Definition either_copyin (src : source) (len : Z) : K (Z * list Z) :=
  let! mp := myproc in
  match src with
  | SUser va =>
      match mp with
      | None => fault
      | Some p => let! pt := gets (fun k => p_pagetable (proc_at p k)) in copyin pt va len
      end
  | SPhys pa => gets (fun k => (0, load_bytes (k_mem k) pa (Z.to_nat len)))
  | SLocal bs => ret (0, take (Z.to_nat len) bs)
  end.

(** ** console.c *)

Definition CONSOLE : Z := 1.
Definition INPUT_BUF_SIZE : Z := 128.
#[global] Arguments INPUT_BUF_SIZE : simpl never.

(** Control-x *)
Definition C (x : ascii) : Z := chr x - chr "@".

Definition upd_cons (f : console -> console) : K unit := modify (fun k => set_k_cons (f (k_cons k)) k).

Definition consolewrite_body (src : source) (n i : Z) : K (Z + Z) :=
  if negb (i <? n) then ret (inr i) else
  let! r := either_copyin (source_add src i) 1 in
  if fst r =? -1 then ret (inr i) else
  do! uartputc (nth 0 (snd r) 0);
  ret (inl (i + 1)).

(** consolewrite() from character [i] on; uartputc() may give up the CPU. *)
Definition consolewrite_from (src : source) (n i : Z) : K Z :=
  loop (S (Z.to_nat (n - i))) (consolewrite_body src n) i.

Definition consolewrite (src : source) (n : Z) : K Z := consolewrite_from src n 0.

(** One iteration of the loop of consoleread() with [n] bytes to go: [inr None]
    is the return of -1 with the lock released. *)
Definition consoleread_body (target : Z) (x : dest * Z) : K (dest * Z + option Z) :=
  let '(dst, n) := x in
  if negb (0 <? n) then ret (inr (Some n)) else
  let! c := gets k_cons in
  if cons_r c =? cons_w c then
    let! mp := myproc in
    match mp with
    | None => fault
    | Some p =>
        let! dead := killed p in
        if truth dead then do! release LCons; ret (inr None)
        else sleep ChConsR LCons
    end
  else
    let ch := nth (Z.to_nat (cons_r c mod INPUT_BUF_SIZE)) (cons_buf c) 0 in
    do! upd_cons (set_cons_r (u32 (cons_r c + 1)));
    if ch =? C "D" then
      do! (if n <? target then upd_cons (fun x => set_cons_r (u32 (cons_r x - 1)) x) else ret tt);
      ret (inr (Some n))
    else
      let! r := either_copyout dst [ch] in
      if r =? -1 then ret (inr (Some n)) else
      if ch =? nl then ret (inr (Some (n - 1))) else ret (inl (dest_add dst 1, n - 1)).

(** consoleread() from the head of its loop on. *)
Definition consoleread_from (target : Z) (dst : dest) (n : Z) : K Z :=
  let! r := loop (S (Z.to_nat n)) (consoleread_body target) (dst, n) in
  match r with
  | None => ret (-1)
  | Some n => do! release LCons; ret (i32 (target - n))
  end.

Definition consoleread (dst : dest) (n : Z) : K Z :=
  let target := u32 n in
  do! acquire LCons;
  consoleread_from target dst n.

(** while(cons.e != cons.w && cons.buf[(cons.e-1) % INPUT_BUF_SIZE] != '\n') *)
Definition kill_line_body (_ : unit) : K (unit + unit) :=
  let! c := gets k_cons in
  if negb (cons_e c =? cons_w c) &&
     negb (nth (Z.to_nat (u32 (cons_e c - 1) mod INPUT_BUF_SIZE)) (cons_buf c) 0 =? nl) then
    do! upd_cons (set_cons_e (u32 (cons_e c - 1)));
    do! consputc BACKSPACE;
    ret (inl tt)
  else ret (inr tt).

(** case C('U'), C('H') and the default of the switch of consoleintr() *)
Definition kill_line : K unit := loop (S (Z.to_nat INPUT_BUF_SIZE)) kill_line_body tt.

Definition erase_char : K unit :=
  let! s := gets k_cons in
  if negb (cons_e s =? cons_w s) then
    do! upd_cons (set_cons_e (u32 (cons_e s - 1)));
    consputc BACKSPACE
  else ret tt.

Definition add_char (c : Z) : K unit :=
  let! s := gets k_cons in
  if truth c && (u32 (cons_e s - cons_r s) <? INPUT_BUF_SIZE) then
    let c := if c =? 13 then nl else c in
    do! consputc c;
    do! upd_cons (fun s => set_cons_e (u32 (cons_e s + 1))
          (set_cons_buf (<[Z.to_nat (cons_e s mod INPUT_BUF_SIZE) := u8 c]> (cons_buf s)) s));
    let! s := gets k_cons in
    if (c =? nl) || (c =? C "D") || (u32 (cons_e s - cons_r s) =? INPUT_BUF_SIZE) then
      do! upd_cons (fun s => set_cons_w (cons_e s) s);
      wakeup ChConsR
    else ret tt
  else ret tt.

Definition consoleintr (c : Z) : K unit :=
  do! acquire LCons;
  do! (if c =? C "P" then procdump
       else if c =? C "U" then kill_line
       else if (c =? C "H") || (c =? 0x7f) then erase_char
       else add_char c);
  release LCons.

Definition consoleinit : K unit :=
  do! initlock LCons "cons";
  do! uartinit;
  modify (fun k => set_k_devsw (<[Z.to_nat CONSOLE := DevConsole]> (k_devsw k)) k).

(** ** uart.c: uartintr() *)

Definition uartintr_body (_ : unit) : K (unit + unit) :=
  let! c := uartgetc in
  if c =? -1 then ret (inr tt) else
  do! consoleintr c;
  ret (inl tt).

Definition uartintr : K unit :=
  let! u := gets k_uart in
  do! loop (S (length (ud_in u))) uartintr_body tt;
  do! acquire LUart;
  do! uartstart;
  release LUart.

#[global] Arguments either_copyout : simpl never.
#[global] Arguments either_copyin : simpl never.
#[global] Arguments consoleintr : simpl never.

(** ** The line editor

    The console's contract: the characters ready for read() and the line being
    edited. *)

Definition line : Type := list Z * list Z.

Definition line_step (l : line) (c : Z) : line :=
  let '(ready, edit) := l in
  if c =? C "P" then l
  else if c =? C "U" then (ready, [])
  else if (c =? C "H") || (c =? 0x7f) then (ready, removelast edit)
  else if (c =? 0) || (INPUT_BUF_SIZE <=? Z.of_nat (length ready + length edit)) then l
  else
    let c := if c =? 13 then nl else c in
    if (c =? nl) || (c =? C "D") || (Z.of_nat (length ready + length edit) + 1 =? INPUT_BUF_SIZE)
    then (ready ++ edit ++ [c], []) else (ready, edit ++ [c]).

(** What is echoed for it; ^P prints the process table. *)
Definition line_echo (l : line) (c : Z) : list Z :=
  let '(ready, edit) := l in
  if c =? C "U" then concat ((fun _ => [8; 32; 8]) <$> edit)
  else if (c =? C "H") || (c =? 0x7f) then match edit with [] => [] | _ => [8; 32; 8] end
  else if (c =? 0) || (INPUT_BUF_SIZE <=? Z.of_nat (length ready + length edit)) then []
  else [if c =? 13 then nl else c].

Definition line_of (c : console) : line :=
  (chars (2 ^ 32) INPUT_BUF_SIZE (cons_buf c) (cons_r c) (cons_w c),
   chars (2 ^ 32) INPUT_BUF_SIZE (cons_buf c) (cons_w c) (cons_e c)).

(** The two queues share the buffer and leave each other alone; the line being
    edited has no newline. *)
Record cons_wf (c : console) : Prop := {
  cw_ready : ring_wf (2 ^ 32) INPUT_BUF_SIZE (cons_buf c) (cons_r c) (cons_w c);
  cw_edit : ring_wf (2 ^ 32) INPUT_BUF_SIZE (cons_buf c) (cons_w c) (cons_e c);
  cw_both : (length (line_of c).1 + length (line_of c).2 <= Z.to_nat INPUT_BUF_SIZE)%nat;
  cw_line : nl ∉ (line_of c).2 }.

Lemma INPUT_ring : 0 < INPUT_BUF_SIZE /\ INPUT_BUF_SIZE < 2 ^ 32 /\ (INPUT_BUF_SIZE | 2 ^ 32).
Proof. split_and!; [done|done|by exists 33554432]. Qed.

Lemma cons_span c : cons_wf c ->
  span (2 ^ 32) (cons_r c) (cons_e c) = (length (line_of c).1 + length (line_of c).2)%nat /\
  ring_wf (2 ^ 32) INPUT_BUF_SIZE (cons_buf c) (cons_r c) (cons_e c) /\
  chars (2 ^ 32) INPUT_BUF_SIZE (cons_buf c) (cons_r c) (cons_e c) = (line_of c).1 ++ (line_of c).2.
Proof.
  intros [[Hb Hl Hr Hw Hs] [_ _ _ He Hs'] Hboth _]. destruct INPUT_ring as (H1 & H2 & H3).
  assert (span (2 ^ 32) (cons_r c) (cons_e c) = (length (line_of c).1 + length (line_of c).2)%nat) as Hsp.
  { cbn [line_of fst snd] in *. rewrite !length_chars in *. apply (span_split (2 ^ 32) INPUT_BUF_SIZE H1 H2); try done. apply (Z.le_lt_trans _ INPUT_BUF_SIZE); [lia|done]. }
  split; [done|]. split.
  - split; try done. lia.
  - cbn [line_of fst snd] in *. rewrite !length_chars in *. apply chars_app; try done. apply (Z.le_lt_trans _ INPUT_BUF_SIZE); [lia|done].
Qed.

(** e--: the newest character of the line goes. *)
Lemma cons_unpush c q x : cons_wf c -> (line_of c).2 = q ++ [x] ->
  nth (Z.to_nat (u32 (cons_e c - 1) mod INPUT_BUF_SIZE)) (cons_buf c) 0 = x /\
  cons_wf (set_cons_e (u32 (cons_e c - 1)) c) /\ line_of (set_cons_e (u32 (cons_e c - 1)) c) = ((line_of c).1, q).
Proof.
  intros [Hr He Hboth Hnl] Hq. destruct INPUT_ring as (H1 & H2 & H3).
  destruct (ring_unpush _ _ H1 H2 H3 _ _ _ q x He Hq) as (Hx & He' & Hq').
  assert (line_of (set_cons_e (u32 (cons_e c - 1)) c) = ((line_of c).1, q)) as Hline.
  { unfold line_of. cbn [cons_buf cons_r cons_w cons_e set_cons_e fst]. unfold u32. by rewrite Hq'. }
  split_and!; [done| |done]. rewrite Hq in Hboth, Hnl. rewrite length_app in Hboth. split; [done|done|rewrite Hline; cbn [fst snd length] in *; lia|].
  rewrite Hline. cbn [snd]. intros Hin. apply Hnl, elem_of_app. by left.
Qed.

Definition stored (x : Z) (c : console) : console :=
  set_cons_e (u32 (cons_e c + 1)) (set_cons_buf (<[Z.to_nat (cons_e c mod INPUT_BUF_SIZE) := u8 x]> (cons_buf c)) c).

(** cons.buf[cons.e++ % INPUT_BUF_SIZE] = c *)
Lemma cons_push c x : cons_wf c -> is_byte x -> (length (line_of c).1 + length (line_of c).2 < Z.to_nat INPUT_BUF_SIZE)%nat ->
  line_of (stored x c) = ((line_of c).1, (line_of c).2 ++ [x]) /\
  ring_wf (2 ^ 32) INPUT_BUF_SIZE (cons_buf (stored x c)) (cons_r c) (cons_w c) /\
  ring_wf (2 ^ 32) INPUT_BUF_SIZE (cons_buf (stored x c)) (cons_w c) (cons_e (stored x c)) /\
  ring_wf (2 ^ 32) INPUT_BUF_SIZE (cons_buf (stored x c)) (cons_r c) (cons_e (stored x c)).
Proof.
  intros Hc Hx Hlt. destruct INPUT_ring as (H1 & H2 & H3). destruct (cons_span c Hc) as (Hsp & Hre & Hcre).
  destruct Hc as [Hr He Hboth _].
  destruct (ring_push _ _ H1 H2 H3 _ _ _ x Hre Hx ltac:(lia)) as (Hre' & Hsp' & Hcre').
  assert (span (2 ^ 32) (cons_w c) (cons_e c) < Z.to_nat INPUT_BUF_SIZE)%nat as Hlt2.
  { cbn [line_of fst snd] in Hlt. rewrite !length_chars in Hlt. lia. }
  destruct (ring_push _ _ H1 H2 H3 _ _ _ x He Hx Hlt2) as (He' & Hspe & Hce').
  unfold stored, u32. rewrite (u8_small x) by exact Hx. cbn [cons_buf cons_r cons_w cons_e set_cons_e set_cons_buf].
  assert (ring_wf (2 ^ 32) INPUT_BUF_SIZE (<[Z.to_nat (cons_e c mod INPUT_BUF_SIZE) := x]> (cons_buf c)) (cons_r c) (cons_w c)) as Hr'.
  { destruct He' as [? ? ? ? ?], Hr as [? ? ? ? ?]. by split. }
  split_and!; [|done..]. unfold line_of. cbn [cons_buf cons_r cons_w cons_e set_cons_e set_cons_buf fst snd].
  rewrite Hce'. f_equal. apply (app_inv_tail ((line_of c).2 ++ [x])). cbn [line_of snd].
  rewrite <- Hce'. rewrite <- (chars_app (2 ^ 32) INPUT_BUF_SIZE H1 H2 H3); [|apply Hr|apply Hr|apply He'|].
  - rewrite Hcre', Hcre. cbn [line_of fst snd]. by rewrite Hce', app_assoc.
  - rewrite Hspe. cbn [line_of fst snd] in Hlt. rewrite !length_chars in Hlt. apply (Z.le_lt_trans _ INPUT_BUF_SIZE); [lia|done].
Qed.

(** ** The handler refines the line editor *)

(** The state an input interrupt finds, cons.lock held. *)
Record tty (k : kstate) : Prop := {
  ty_print : print_env k;
  ty_procs : procs_ok k;
  ty_plocks : plocks_free k;
  ty_names : forall i, Forall is_byte (p_name (proc_at i k));
  ty_pr : k_pr_locking k = 0 \/ lock_free k LPr;
  ty_cons : cons_wf (k_cons k) }.

(** [k'] is [k] with the console at [c], [out] printed and some sleepers woken. *)
Definition tty_does (out : list Z) (c : console) (k k' : kstate) : Prop :=
  exists bz ps, k' = set_k_cons c (set_k_procs ps (set_k_uart (sent out bz (k_uart k)) k)) /\ woken (k_procs k) ps.

Lemma tty_does_prints out k k' : prints out k k' -> tty_does out (k_cons k) k k'.
Proof. intros [bz ->]. exists bz, (k_procs k). split; [by destruct k|apply woken_refl]. Qed.

Lemma tty_does_trans out1 out2 c1 c2 k1 k2 k3 :
  tty_does out1 c1 k1 k2 -> tty_does out2 c2 k2 k3 -> tty_does (out1 ++ out2) c2 k1 k3.
Proof.
  intros (b1 & ps1 & -> & Hw1) (b2 & ps2 & -> & Hw2). exists b2, ps2. split; [|by apply (woken_trans _ ps1)].
  unfold sent. cbn. by rewrite app_assoc.
Qed.

Lemma woken_name ps ps' i : woken ps ps' ->
  p_name (default zero_proc (ps' !! i)) = p_name (default zero_proc (ps !! i)).
Proof.
  intros Hw. destruct (ps !! i) as [x|] eqn:E.
  - destruct (Forall2_lookup_l _ _ _ _ _ Hw E) as (y & -> & [->|[_ ->]]); done.
  - apply lookup_ge_None in E. rewrite <- (woken_length _ _ Hw) in E. by rewrite lookup_ge_None_2.
Qed.

Lemma tty_keep out c k k' : tty k -> tty_does out c k k' -> cons_wf c -> tty k'.
Proof.
  intros [[H1 H2 H3] H4 H5 H6 H7 H8] (bz & ps & -> & Hw) Hc. split; try done.
  - unfold procs_ok. cbn. by rewrite (woken_length _ _ Hw).
  - intros i. unfold proc_at. cbn. rewrite (woken_name _ _ _ Hw). apply H6.
Qed.

Lemma cstr_bytes l : Forall is_byte l -> Forall is_byte (cstr l).
Proof. induction 1 as [|c l Hc Hl IH]; cbn; [done|]. destruct (c =? 0); by constructor. Qed.

Lemma int_fits z : (length (numeral (i32 z) 10 true) <= 16)%nat.
Proof.
  assert (- 2 ^ 31 <= i32 z < 2 ^ 31) as Hz by (unfold i32; zlia). unfold numeral. change (2 ^ 31) with 2147483648 in *. cbn [andb].
  destruct (Z.ltb_spec (i32 z) 0); cbn [length]; rewrite length_reverse; rewrite u64_small by lia.
  - apply le_n_S, (digits_fit (- i32 z) 10 14); [lia|lia|lia|]. change (10 ^ Z.of_nat 15) with 1000000000000000. lia.
  - apply (digits_fit (i32 z) 10 15); [lia|lia|lia|]. change (10 ^ Z.of_nat 16) with 10000000000000000. lia.
Qed.

Lemma plain_run c k : print_env k -> k_pr_locking k = 0 \/ lock_free k LPr -> is_byte c -> c <> 0 -> c <> chr "%" ->
  exists k', printf [c] [] k = Ret 0 k' /\ prints [c] k k'.
Proof. intros Hk Hl Hb H0 Hp. by apply (printf_spec [ILit c] []). Qed.

(** One line of the process list. *)
Lemma procdump_slot_run i k : print_env k -> k_pr_locking k = 0 \/ lock_free k LPr -> Forall is_byte (p_name (proc_at i k)) ->
  exists k' out, procdump_slot i k = Ret tt k' /\ prints out k k'.
Proof.
  intros He Hl Hn. unfold procdump_slot. unfold gets. unfold bind at 1.
  destruct (decide (p_state (proc_at i k) = UNUSED)); [exists k, []; split; [done|apply prints_nil]|].
  edestruct (printf_spec [INum WInt "d" 10 true; ILit 32; IStr; ILit 32; IStr]
    [ANum (p_pid (proc_at i k)); AStr (Some (str (state_name (p_state (proc_at i k))))); AStr (Some (cstr (p_name (proc_at i k))))] k)
    as (k2 & E2 & P2); [|done|done|].
  { split; [split; [apply list_elem_of_here|apply int_fits]|]. split; [done|].
    split; [by destruct (p_state (proc_at i k)); repeat constructor|]. split; [done|]. split; [by apply cstr_bytes|done]. }
  destruct (plain_run nl k2) as (k3 & E3 & P3); [by apply (prints_env _ k _ He P2)|destruct P2 as [bz ->]; exact Hl|done..|].
  change (format _) with (str "%d %s %s") in E2. rewrite (bind_ret_run _ _ _ _ _ E2), (bind_ret_run _ _ _ _ _ E3).
  eexists k3, _. split; [done|]. exact (prints_app _ _ _ _ _ P2 P3).
Qed.

Lemma procdump_run k : tty k -> exists k' out, procdump k = Ret tt k' /\ prints out k k'.
Proof.
  intros [He Hp Hpl Hn Hl Hc].
  assert (forall l k1 out1, prints out1 k k1 -> exists k' out, for_each l procdump_slot k1 = Ret tt k' /\ prints out k k') as Hloop.
  { induction l as [|i l IH]; intros k1 out1 P1; [by exists k1, out1|]. cbn [for_each].
    destruct (procdump_slot_run i k1) as (k2 & out2 & E2 & P2).
    - by apply (prints_env out1 k).
    - destruct P1 as [bz ->]. done.
    - destruct P1 as [bz ->]. apply Hn.
    - rewrite (bind_ret_run _ _ _ _ _ E2). apply (IH k2 (out1 ++ out2)). exact (prints_app _ _ _ _ _ P1 P2). }
  destruct (plain_run nl k He Hl) as (k1 & E1 & P1); [done..|].
  unfold procdump. rewrite (bind_ret_run _ _ _ _ _ E1). by apply (Hloop _ k1 [nl]).
Qed.

(** *** The three editing cases *)

Lemma line_last c : cons_wf c -> (cons_e c =? cons_w c) = bool_decide ((line_of c).2 = []).
Proof. intros [_ He _ _]. destruct INPUT_ring as (H1 & H2 & _). rewrite Z.eqb_sym. by apply ring_empty. Qed.

Lemma backspace_run k : print_env k -> exists k', consputc BACKSPACE k = Ret tt k' /\ prints [8; 32; 8] k k'.
Proof. apply (consputc_run BACKSPACE). Qed.

Lemma erase_run k : tty k -> exists k' c, erase_char k = Ret tt k' /\
  tty_does (match (line_of (k_cons k)).2 with [] => [] | _ => [8; 32; 8] end) c k k' /\
  cons_wf c /\ line_of c = ((line_of (k_cons k)).1, removelast (line_of (k_cons k)).2).
Proof.
  intros [He Hp Hpl Hn Hl Hc]. unfold erase_char. unfold gets. unfold bind at 1. rewrite (line_last _ Hc).
  destruct (line_of (k_cons k)) as [rd ed] eqn:Hline. cbn [snd fst].
  destruct ed as [|x q _] using rev_ind.
  - exists k, (k_cons k). cbn. split_and!; [done|apply tty_does_prints, prints_nil|done|by rewrite Hline].
  - rewrite bool_decide_eq_false_2 by (by destruct q). cbn [negb].
    destruct (cons_unpush (k_cons k) q x Hc) as (_ & Hc' & Hl'); [by rewrite Hline|].
    unfold upd_cons, modify. unfold bind at 1.
    destruct (backspace_run (set_k_cons (set_cons_e (u32 (cons_e (k_cons k) - 1)) (k_cons k)) k)) as (k' & -> & bz & ->); [by destruct He|].
    eexists _, _. split_and!; [done| |exact Hc'|by rewrite Hl', Hline, removelast_last].
    exists bz, (k_procs k). split; [by destruct (q ++ [x]) eqn:E; [destruct q|destruct k]|apply woken_refl].
Qed.

Lemma kill_line_step k : tty k -> let '(rd, ed) := line_of (k_cons k) in
  (ed = [] /\ kill_line_body tt k = Ret (inr tt) k) \/
  exists q x k' c, ed = q ++ [x] /\ kill_line_body tt k = Ret (inl tt) k' /\
    tty_does [8; 32; 8] c k k' /\ cons_wf c /\ line_of c = (rd, q).
Proof.
  intros [He Hp Hpl Hn Hl Hc]. pose proof (line_last _ Hc) as Hlast. pose proof (cons_unpush (k_cons k)) as Hun.
  pose proof (cw_line _ Hc) as Hnl. destruct (line_of (k_cons k)) as [rd ed] eqn:Hline. cbn [snd fst] in *.
  destruct ed as [|x q _] using rev_ind; [left|right].
  - split; [done|]. unfold kill_line_body, gets, bind. by rewrite Hlast.
  - destruct (Hun q x Hc eq_refl) as (Hx & Hc' & Hl'). clear Hun.
    destruct (backspace_run (set_k_cons (set_cons_e (u32 (cons_e (k_cons k) - 1)) (k_cons k)) k)) as (k' & E & bz & ->); [by destruct He|].
    eexists q, x, _, _. split_and!; [done| | |exact Hc'|exact Hl'].
    + unfold kill_line_body. unfold gets. unfold bind at 1. rewrite Hlast, bool_decide_eq_false_2 by (by destruct q). cbn [negb andb].
      rewrite Hx, (proj2 (Z.eqb_neq _ _)). 2: { intros ->. apply Hnl, elem_of_app. right. apply list_elem_of_here. }
      cbn [negb]. unfold upd_cons, modify. unfold bind at 1. by rewrite (bind_ret_run _ _ _ _ _ E).
    + exists bz, (k_procs k). split; [by destruct k|apply woken_refl].
Qed.

Lemma kill_loop n k : tty k -> (length (line_of (k_cons k)).2 < n)%nat -> exists k' c, loop n kill_line_body tt k = Ret tt k' /\
  tty_does (concat ((fun _ => [8; 32; 8]) <$> (line_of (k_cons k)).2)) c k k' /\
  cons_wf c /\ line_of c = ((line_of (k_cons k)).1, []).
Proof.
  revert k. induction n as [|n IH]; intros k Hk Hn; [lia|]. pose proof (kill_line_step k Hk) as Hstep.
  destruct (line_of (k_cons k)) as [rd ed] eqn:Hline. cbn [fst snd] in *.
  destruct Hstep as [(-> & E)|(q & x & k1 & c1 & -> & E & D1 & Hc1 & Hl1)].
  - exists k, (k_cons k). rewrite (loop_exit _ _ _ _ _ _ E). split_and!; [done|apply tty_does_prints, prints_nil|apply Hk|done].
  - assert (k_cons k1 = c1) as Hk1 by (destruct D1 as (? & ? & -> & _); done).
    destruct (IH k1) as (k' & c & E' & D' & Hc & Hl).
    + by apply (tty_keep _ _ k k1 Hk D1).
    + rewrite Hk1, Hl1. cbn [snd]. rewrite length_app in Hn. cbn in Hn. lia.
    + exists k', c. rewrite (loop_next _ _ _ _ _ _ E). rewrite Hk1, Hl1 in *. cbn [fst snd] in *. split_and!; [done| |done|done].
      replace (concat ((fun _ => [8; 32; 8]) <$> (q ++ [x]))) with ([8; 32; 8] ++ concat ((fun _ : Z => [8; 32; 8]) <$> q)).
      * exact (tty_does_trans _ _ _ _ _ _ _ D1 D').
      * clear. induction q as [|y q IH]; [done|]. change ((fun _ : Z => [8; 32; 8]) <$> (y :: q) ++ [x]) with ([8; 32; 8] :: ((fun _ : Z => [8; 32; 8]) <$> q ++ [x])).
        cbn [concat]. by rewrite <- IH.
Qed.

Lemma kill_line_run k : tty k -> exists k' c, kill_line k = Ret tt k' /\
  tty_does (concat ((fun _ => [8; 32; 8]) <$> (line_of (k_cons k)).2)) c k k' /\
  cons_wf c /\ line_of c = ((line_of (k_cons k)).1, []).
Proof. intros Hk. apply kill_loop; [done|]. pose proof (cw_both _ (ty_cons _ Hk)). lia. Qed.

Lemma cons_count c : cons_wf c -> u32 (cons_e c - cons_r c) = Z.of_nat (length (line_of c).1 + length (line_of c).2).
Proof.
  intros Hc. destruct (cons_span c Hc) as (Hs & _ & _). rewrite <- Hs. unfold span, u32.
  rewrite Z2Nat.id; [done|]. by apply Z.mod_pos_bound.
Qed.

(** The new character ends the line. *)
Definition ends_line (l : line) (c : Z) : bool :=
  (c =? nl) || (c =? C "D") || (Z.of_nat (length l.1 + length l.2) + 1 =? INPUT_BUF_SIZE).

Definition committed (b : bool) (c : console) : console := if b then set_cons_w (cons_e c) c else c.

Lemma committed_ok b x c : cons_wf c -> is_byte x -> (length (line_of c).1 + length (line_of c).2 < Z.to_nat INPUT_BUF_SIZE)%nat ->
  (b = false -> x <> nl) ->
  cons_wf (committed b (stored x c)) /\ line_of (committed b (stored x c)) =
    if b then ((line_of c).1 ++ (line_of c).2 ++ [x], []) else ((line_of c).1, (line_of c).2 ++ [x]).
Proof.
  intros Hc Hx Hlt Hb. destruct (cons_push c x Hc Hx Hlt) as (Hl & Hr & He & Hre). destruct INPUT_ring as (H1 & H2 & H3).
  destruct b; cbn [committed].
  - assert (line_of (set_cons_w (cons_e (stored x c)) (stored x c)) = ((line_of c).1 ++ (line_of c).2 ++ [x], [])) as Hline.
    { unfold line_of at 1. cbn [cons_buf cons_r cons_w cons_e set_cons_w]. f_equal.
      - rewrite (chars_app (2 ^ 32) INPUT_BUF_SIZE H1 H2 H3 _ _ (cons_w c)); [|apply Hr|apply Hr|apply He|].
        + pose proof (f_equal fst Hl) as Hl1. pose proof (f_equal snd Hl) as Hl2. cbn [line_of fst snd] in Hl1, Hl2 |- *. by rewrite <- Hl1, <- Hl2.
        + pose proof (f_equal (fun l => length (fst l) + length (snd l))%nat Hl) as Hle. cbn [line_of fst snd] in Hle, Hlt.
          rewrite length_app, !length_chars in *. change (cons_w (stored x c)) with (cons_w c) in Hle. change (cons_r (stored x c)) with (cons_r c) in Hle.
          change (Z.of_nat (span (2 ^ 32) (cons_r c) (cons_w c) + span (2 ^ 32) (cons_w c) (cons_e (stored x c))) < 2 ^ 32). rewrite Hle. cbn [length]. apply (Z.le_lt_trans _ INPUT_BUF_SIZE); [lia|done].
      - apply nil_length_inv. rewrite length_chars. unfold span. by rewrite Z.sub_diag, Z.mod_0_l by done. }
    split; [|done]. split; [exact Hre| | |by rewrite Hline; apply not_elem_of_nil].
    + destruct He as [Hb1 Hb2 _ Hb3 _]. split; try done. cbn. unfold span. rewrite Z.sub_diag, Z.mod_0_l by done. cbn. lia.
    + rewrite Hline. cbn [fst snd length]. rewrite !length_app. cbn [length]. lia.
  - split; [|done]. split; [exact Hr|exact He|rewrite Hl; cbn [fst snd]; rewrite length_app; cbn [length]; lia|].
    rewrite Hl. cbn [snd]. rewrite elem_of_app, list_elem_of_singleton. intros [H|H]; [by apply (cw_line _ Hc)|by apply Hb].
Qed.

Lemma add_run x k : tty k -> is_byte x -> x <> 0 ->
  let l := line_of (k_cons k) in let c := if x =? 13 then nl else x in
  (length l.1 + length l.2 < Z.to_nat INPUT_BUF_SIZE)%nat ->
  exists k', add_char x k = Ret tt k' /\
    tty_does [c] (committed (ends_line l c) (stored c (k_cons k))) k k' /\
    (ends_line l c = true -> k_procs k' = imap (wake_at (c_proc (k_cpu k)) ChConsR) (k_procs k)).
Proof.
  intros [He Hp Hpl Hn Hl Hc] Hx H0 l c Hlt. assert (is_byte c) as Hcb by (unfold c; by destruct (x =? 13)).
  unfold add_char. unfold gets. unfold bind at 1. rewrite truth_true, (cons_count _ Hc) by done. fold l.
  rewrite (proj2 (Z.ltb_lt _ _)) by lia. cbn [andb]. fold c.
  destruct (consputc_run c k He) as (k1 & E1 & bz & ->).
  assert (shown_char c = [c]) as Hsc.
  { unfold shown_char, BACKSPACE. unfold is_byte in Hcb. rewrite (proj2 (Z.eqb_neq _ _)) by lia. by rewrite u8_small. }
  rewrite Hsc in E1. rewrite (bind_ret_run _ _ _ _ _ E1). unfold upd_cons, modify. unfold bind at 1. unfold bind at 1.
  cbn [k_cons set_k_cons set_k_uart]. fold (stored c (k_cons k)).
  assert (u32 (cons_e (stored c (k_cons k)) - cons_r (stored c (k_cons k))) = Z.of_nat (length l.1 + length l.2) + 1) as Hcount.
  { destruct (cons_push _ _ Hc Hcb Hlt) as (Hl' & Hr' & He' & Hre'). unfold u32.
    destruct (cons_span _ Hc) as (Hs & Hre & _). destruct INPUT_ring as (H1 & H2 & H3).
    destruct (ring_push _ _ H1 H2 H3 _ _ _ c Hre Hcb ltac:(fold l in Hs; lia)) as (_ & Hs2 & _).
    fold l in Hs. rewrite Hs in Hs2. unfold span in Hs2. pose proof (Z.mod_pos_bound ((cons_e (k_cons k) + 1) mod 2 ^ 32 - cons_r (k_cons k)) (2 ^ 32) ltac:(done)).
    change (cons_r (stored c (k_cons k))) with (cons_r (k_cons k)). change (cons_e (stored c (k_cons k))) with ((cons_e (k_cons k) + 1) mod 2 ^ 32). lia. }
  rewrite Hcount. fold (ends_line l c). destruct (ends_line l c) eqn:Hend.
  - unfold bind at 1. rewrite (wakeup_run ChConsR); [|exact (pe_cpu _ He)|exact Hp|exact Hpl]. eexists. split_and!; [done| |done].
    eexists bz, _. split; [|apply wake_woken]. by destruct k.
  - eexists. split_and!; [done| |done]. exists bz, (k_procs k). split; [by destruct k|apply woken_refl].
Qed.

(** One input character, the lock held. *)
Lemma switch_run x k : tty k -> is_byte x -> exists k' c out,
  (if x =? C "P" then procdump else if x =? C "U" then kill_line
   else if (x =? C "H") || (x =? 0x7f) then erase_char else add_char x) k = Ret tt k' /\
  tty_does out c k k' /\ cons_wf c /\ line_of c = line_step (line_of (k_cons k)) x /\
  (x <> C "P" -> out = line_echo (line_of (k_cons k)) x).
Proof.
  intros Hk Hx. unfold line_step, line_echo. destruct (line_of (k_cons k)) as [rd ed] eqn:Hline.
  destruct (Z.eqb_spec x (C "P")) as [->|HP].
  { destruct (procdump_run k Hk) as (k' & out & E & P). exists k', (k_cons k), out.
    split_and!; [done|by apply tty_does_prints|apply Hk|done|done]. }
  destruct (Z.eqb_spec x (C "U")) as [->|HU].
  { destruct (kill_line_run k Hk) as (k' & c & E & D & Hc & Hl). rewrite Hline in D, Hl. eexists k', c, _. split_and!; [exact E|exact D|done|done|done]. }
  destruct ((x =? C "H") || (x =? 127)).
  { destruct (erase_run k Hk) as (k' & c & E & D & Hc & Hl). rewrite Hline in D, Hl. eexists k', c, _. split_and!; [exact E|exact D|done|done|done]. }
  destruct ((x =? 0) || (INPUT_BUF_SIZE <=? Z.of_nat (length rd + length ed))) eqn:Hfull.
  { exists k, (k_cons k), []. split_and!; [|apply tty_does_prints, prints_nil|apply Hk|done|done].
    unfold add_char, gets, bind. rewrite (cons_count _ (ty_cons _ Hk)), Hline. cbn [fst snd].
    replace (truth x && (Z.of_nat (length rd + length ed) <? INPUT_BUF_SIZE)) with false; [done|].
    unfold truth. symmetry. apply andb_false_iff. apply orb_true_iff in Hfull as [->|Hge%Z.leb_le]; [by left|right; by apply Z.ltb_ge]. }
  apply orb_false_iff in Hfull as [H0%Z.eqb_neq Hlt%Z.leb_gt].
  assert (is_byte (if x =? 13 then nl else x)) as Hcb by (by destruct (x =? 13)).
  assert (length (line_of (k_cons k)).1 + length (line_of (k_cons k)).2 < Z.to_nat INPUT_BUF_SIZE)%nat as Hl' by (rewrite Hline; cbn [fst snd]; lia).
  destruct (add_run x k Hk Hx H0 Hl') as (k' & E & D & _). cbv zeta in *.
  destruct (committed_ok (ends_line (line_of (k_cons k)) (if x =? 13 then nl else x)) (if x =? 13 then nl else x) (k_cons k) (ty_cons _ Hk) Hcb Hl') as (Hc & Hlc).
  { intros Hf. apply orb_false_iff in Hf as [Hf _]. apply orb_false_iff in Hf as [Hf%Z.eqb_neq _]. done. }
  eexists k', _, _. split_and!; [exact E|exact D|exact Hc| |done]. rewrite Hlc, Hline. unfold ends_line. cbn [fst snd]. done.
Qed.

Lemma tty_enter k : tty k -> tty (enter LCons k).
Proof.
  intros [[H1 H2 H3] H4 H5 H6 H7 H8]. split; [split; [by apply enter_cpu_ok|done|done]|done|by apply enter_plocks_free|done| |done].
  destruct H7; [by left|right; by apply enter_lock_free].
Qed.

Lemma tty_does_leave out c k k' : tty_does out c (enter LCons k) k' -> exists k2, same_cpu k' (enter LCons k) /\ restore k k' = k2 /\ tty_does out c k k2.
Proof. intros (bz & ps & -> & Hw). eexists. split_and!; [done|done|]. exists bz, ps. split; [by destruct k|done]. Qed.

Lemma consoleintr_run x k : tty k -> lock_free k LCons -> is_byte x -> exists k' c out, consoleintr x k = Ret tt k' /\
  tty_does out c k k' /\ cons_wf c /\ line_of c = line_step (line_of (k_cons k)) x /\
  (x <> C "P" -> out = line_echo (line_of (k_cons k)) x).
Proof.
  intros Hk Hl Hx. destruct (switch_run x (enter LCons k) (tty_enter k Hk) Hx) as (k1 & c & out & E & D & Hc & Hline & Hout).
  destruct (tty_does_leave _ _ _ _ D) as (k2 & Hsame & <- & D2). eexists _, c, out. split_and!; [|exact D2|done|done|done].
  unfold consoleintr. rewrite (bind_ret_run _ _ _ _ _ (acquire_run _ _ Hl)), (bind_ret_run _ _ _ _ _ E).
  exact (release_run LCons k k1 Hl (pe_cpu _ (ty_print _ Hk)) Hsame).
Qed.

(** What is echoed for a sequence of characters. *)
Fixpoint echoes (l : line) (cs : list Z) : list Z :=
  match cs with
  | [] => []
  | c :: cs' => line_echo l c ++ echoes (line_step l c) cs'
  end.

(** C29 (console_refinement): the input interrupt handler implements the line
    editor.  Whatever characters arrive, in whatever order, consoleintr() returns
    with the lock released, and the ring buffer with its three wrapping counters
    holds the characters ready for read() and the line being edited that the
    editor says: erase and kill act on the unfinished line only, a newline or ^D
    or a full buffer makes the line ready, characters beyond the buffer are
    dropped; and what was echoed is what the editor says. *)
Theorem console_refinement cs k : tty k -> lock_free k LCons -> Forall is_byte cs ->
  exists k' out, for_each cs consoleintr k = Ret tt k' /\ tty k' /\ lock_free k' LCons /\
    line_of (k_cons k') = fold_left line_step cs (line_of (k_cons k)) /\
    ud_out (k_uart k') = ud_out (k_uart k) ++ out /\
    (C "P" ∉ cs -> out = echoes (line_of (k_cons k)) cs).
Proof.
  revert k. induction cs as [|x cs IH]; intros k Hk Hl Hcs.
  - exists k, []. by rewrite app_nil_r.
  - inversion Hcs as [|? ? Hx Hcs']; subst. destruct (consoleintr_run x k Hk Hl Hx) as (k1 & c & out1 & E & D & Hc & Hline & Hout).
    assert (k_cons k1 = c /\ ud_out (k_uart k1) = ud_out (k_uart k) ++ out1 /\ lock_free k1 LCons) as (Hk1 & Ho1 & Hl1)
      by (destruct D as (bz & ps & -> & _); done).
    destruct (IH k1 (tty_keep _ _ _ _ Hk D Hc) Hl1 Hcs') as (k' & out & E' & Hk' & Hl' & Hline' & Ho' & Hech).
    exists k', (out1 ++ out). cbn [for_each]. rewrite (bind_ret_run _ _ _ _ _ E). split_and!; [done|done|done| | |].
    + by rewrite Hline', Hk1, Hline.
    + by rewrite Ho', Ho1, app_assoc.
    + intros Hni. apply not_elem_of_cons in Hni as [Hne Hni]. cbn [echoes]. rewrite Hout, Hech, Hk1, Hline; done.
Qed.

(** *** Witness: "hi", a mistake erased, newline *)

Definition cons_empty : console := mkConsole (replicate (Z.to_nat INPUT_BUF_SIZE) 0) (2 ^ 32 - 1) (2 ^ 32 - 1) (2 ^ 32 - 1).

Lemma cons_empty_wf : cons_wf cons_empty.
Proof.
  assert (ring_wf (2 ^ 32) INPUT_BUF_SIZE (replicate (Z.to_nat INPUT_BUF_SIZE) 0) (2 ^ 32 - 1) (2 ^ 32 - 1)) as H.
  { split; [by apply Forall_replicate|by rewrite length_replicate|done|done|vm_compute; lia]. }
  split; [exact H|exact H|vm_compute; lia|]. apply not_elem_of_nil.
Qed.

Definition tty_on (k : kstate) : kstate :=
  set_k_cons cons_empty (set_k_procs (replicate (Z.to_nat NPROC) zero_proc) (uart_on k)).

Lemma tty_on_ok p k : thread_ok p k -> tty (tty_on k).
Proof.
  intros [H1 _ _ _ _ H6]. split; [split; [exact H1|done|done]|by apply length_replicate| | |by left|apply cons_empty_wf].
  - intros i Hi _. by apply (H6 i Hi).
  - intros i. unfold proc_at. cbn [tty_on k_procs set_k_cons set_k_procs].
    destruct (replicate _ _ !! i) as [x|] eqn:E; [apply lookup_replicate in E as [-> _]|]; by repeat constructor.
Qed.

Lemma tty_on_lock l k : lock_free k l -> lock_free (tty_on k) l.
Proof. done. Qed.

Lemma tty_on_line k : line_of (k_cons (tty_on k)) = ([], []) /\ ud_out (k_uart (tty_on k)) = [].
Proof. by split. Qed.

Lemma console_refinement_witness : exists k',
  for_each [104; 120; 127; 105; 13] consoleintr (tty_on (with_lock LCons booted)) = Ret tt k' /\
  line_of (k_cons k') = ([104; 105; 10], []) /\ ud_out (k_uart k') = [104; 120; 8; 32; 8; 105; 10].
Proof.
  destruct (console_refinement [104; 120; 127; 105; 13] (tty_on (with_lock LCons booted)))
    as (k' & out & H1 & _ & _ & H2 & H3 & H4).
  - apply (tty_on_ok 3), with_lock_thread; [done|exact booted_thread].
  - exact (tty_on_lock LCons _ (with_lock_free LCons booted)).
  - repeat constructor; done.
  - destruct (tty_on_line (with_lock LCons booted)) as [HL HO]. rewrite HL in H2, H4. rewrite HO in H3.
    exists k'. split; [exact H1|]. split; [exact H2|]. rewrite H3, H4; [reflexivity|].
    apply (bool_decide_unpack _). vm_compute. exact I.
Defined.
