(* ===== verification/Virtio.v ===== *)
(** * Virtio: the disk driver (kernel/virtio_disk.c, virtio.h)

    The descriptor table and the two rings, which the driver shares with the
    device, are the record [vdisk]; an address in a descriptor names the request
    header, the buffer or the status byte it points to.  The device is modelled
    by [device_step], which serves one request of the available ring.  A request
    is [virtio_disk_rw] up to its sleep, then a step of the device and its
    interrupt, then [virtio_disk_wait] when the process runs again. *)

From Stdlib Require Import ZArith Lia.
From stdpp Require Import base gmap list strings.
From S2P Require Import Prelude Bytes State Spinlock Sched Sleeplock Kalloc Vm Bio.

(** ** virtio.h *)

Definition VIRTIO_MMIO_MAGIC_VALUE : Z := 0x000.
Definition VIRTIO_MMIO_VERSION : Z := 0x004.
Definition VIRTIO_MMIO_DEVICE_ID : Z := 0x008.
Definition VIRTIO_MMIO_VENDOR_ID : Z := 0x00c.
Definition VIRTIO_MMIO_DEVICE_FEATURES : Z := 0x010.
Definition VIRTIO_MMIO_DRIVER_FEATURES : Z := 0x020.
Definition VIRTIO_MMIO_QUEUE_SEL : Z := 0x030.
Definition VIRTIO_MMIO_QUEUE_NUM_MAX : Z := 0x034.
Definition VIRTIO_MMIO_QUEUE_NUM : Z := 0x038.
Definition VIRTIO_MMIO_QUEUE_READY : Z := 0x044.
Definition VIRTIO_MMIO_QUEUE_NOTIFY : Z := 0x050.
Definition VIRTIO_MMIO_INTERRUPT_STATUS : Z := 0x060.
Definition VIRTIO_MMIO_INTERRUPT_ACK : Z := 0x064.
Definition VIRTIO_MMIO_STATUS : Z := 0x070.
Definition VIRTIO_MMIO_QUEUE_DESC_LOW : Z := 0x080.
Definition VIRTIO_MMIO_QUEUE_DESC_HIGH : Z := 0x084.
Definition VIRTIO_MMIO_DRIVER_DESC_LOW : Z := 0x090.
Definition VIRTIO_MMIO_DRIVER_DESC_HIGH : Z := 0x094.
Definition VIRTIO_MMIO_DEVICE_DESC_LOW : Z := 0x0a0.
Definition VIRTIO_MMIO_DEVICE_DESC_HIGH : Z := 0x0a4.

Definition VIRTIO_CONFIG_S_ACKNOWLEDGE : Z := 1.
Definition VIRTIO_CONFIG_S_DRIVER : Z := 2.
Definition VIRTIO_CONFIG_S_DRIVER_OK : Z := 4.
Definition VIRTIO_CONFIG_S_FEATURES_OK : Z := 8.

Definition VIRTIO_BLK_F_RO : Z := 5.
Definition VIRTIO_BLK_F_SCSI : Z := 7.
Definition VIRTIO_BLK_F_CONFIG_WCE : Z := 11.
Definition VIRTIO_BLK_F_MQ : Z := 12.
Definition VIRTIO_F_ANY_LAYOUT : Z := 27.
Definition VIRTIO_RING_F_INDIRECT_DESC : Z := 28.
Definition VIRTIO_RING_F_EVENT_IDX : Z := 29.

Definition NUM : nat := 8.
Definition VRING_DESC_F_NEXT : Z := 1.
Definition VRING_DESC_F_WRITE : Z := 2.
Definition VIRTIO_BLK_T_IN : Z := 0.
Definition VIRTIO_BLK_T_OUT : Z := 1.
#[global] Arguments NUM : simpl never.

(** ** The driver *)

Definition upd_vdisk (f : vdisk -> vdisk) : K unit := modify (fun k => set_k_vdisk (f (k_vdisk k)) k).
Definition vreg (r : Z) : K Z := gets (fun k => default 0 (vk_regs (k_vdisk k) !! r)).
Definition set_vreg (r v : Z) : K unit := upd_vdisk (fun d => set_vk_regs (<[r := u32 v]> (vk_regs d)) d).

Definition zero_desc : vdesc := mkVdesc ANull 0 0 0.
Definition desc_at (i : nat) (v : vdisk) : vdesc := default zero_desc (vk_desc v !! i).
Definition set_desc (i : nat) (f : vdesc -> vdesc) : K unit :=
  upd_vdisk (fun v => set_vk_desc (alter f i (vk_desc v)) v).
Definition set_info (i : nat) (f : vinfo -> vinfo) : K unit :=
  upd_vdisk (fun v => set_vk_info (alter f i (vk_info v)) v).
Definition set_free (i : nat) (b : Z) : K unit :=
  upd_vdisk (fun v => set_vk_free (<[i := b]> (vk_free v)) v).

(** features &= ~(1 << bit) *)
Definition clear_feature (bit f : Z) : Z := Z.land f (u64 (Z.lnot (Z.shiftl 1 bit))).

(** Zeroed rings in the pages the driver gives to the device. *)
Definition zero_rings (v : vdisk) : vdisk :=
  set_vk_desc (replicate NUM zero_desc) (set_vk_avail_idx 0 (set_vk_avail_ring (replicate NUM 0)
    (set_vk_used_ring_idx 0 (set_vk_used_ring (replicate NUM 0) v)))).

Definition virtio_disk_init : K unit :=
  do! initlock LVdisk "virtio_disk";
  let! magic := vreg VIRTIO_MMIO_MAGIC_VALUE in
  let! version := vreg VIRTIO_MMIO_VERSION in
  let! device := vreg VIRTIO_MMIO_DEVICE_ID in
  let! vendor := vreg VIRTIO_MMIO_VENDOR_ID in
  if negb (magic =? 0x74726976) || negb (version =? 2) || negb (device =? 2) || negb (vendor =? 0x554d4551)
  then panic "could not find virtio disk" else
  let status := 0 in
  do! set_vreg VIRTIO_MMIO_STATUS status;
  let status := Z.lor status VIRTIO_CONFIG_S_ACKNOWLEDGE in
  do! set_vreg VIRTIO_MMIO_STATUS status;
  let status := Z.lor status VIRTIO_CONFIG_S_DRIVER in
  do! set_vreg VIRTIO_MMIO_STATUS status;
  let! features := vreg VIRTIO_MMIO_DEVICE_FEATURES in
  let features := clear_feature VIRTIO_BLK_F_RO features in
  let features := clear_feature VIRTIO_BLK_F_SCSI features in
  let features := clear_feature VIRTIO_BLK_F_CONFIG_WCE features in
  let features := clear_feature VIRTIO_BLK_F_MQ features in
  let features := clear_feature VIRTIO_F_ANY_LAYOUT features in
  let features := clear_feature VIRTIO_RING_F_EVENT_IDX features in
  let features := clear_feature VIRTIO_RING_F_INDIRECT_DESC features in
  do! set_vreg VIRTIO_MMIO_DRIVER_FEATURES features;
  let status := Z.lor status VIRTIO_CONFIG_S_FEATURES_OK in
  do! set_vreg VIRTIO_MMIO_STATUS status;
  let! status := vreg VIRTIO_MMIO_STATUS in
  if negb (truth (Z.land status VIRTIO_CONFIG_S_FEATURES_OK)) then panic "virtio disk FEATURES_OK unset" else
  do! set_vreg VIRTIO_MMIO_QUEUE_SEL 0;
  let! ready := vreg VIRTIO_MMIO_QUEUE_READY in
  if truth ready then panic "virtio disk should not be ready" else
  let! max := vreg VIRTIO_MMIO_QUEUE_NUM_MAX in
  if max =? 0 then panic "virtio disk has no queue 0" else
  if max <? Z.of_nat NUM then panic "virtio disk max queue too short" else
  let! desc := kalloc in
  let! avail := kalloc in
  let! used := kalloc in
  if negb (truth desc) || negb (truth avail) || negb (truth used) then panic "virtio disk kalloc" else
  do! mem_set desc 0 PGSIZE;
  do! mem_set avail 0 PGSIZE;
  do! mem_set used 0 PGSIZE;
  do! upd_vdisk zero_rings;
  do! set_vreg VIRTIO_MMIO_QUEUE_NUM (Z.of_nat NUM);
  do! set_vreg VIRTIO_MMIO_QUEUE_DESC_LOW desc;
  do! set_vreg VIRTIO_MMIO_QUEUE_DESC_HIGH (Z.shiftr desc 32);
  do! set_vreg VIRTIO_MMIO_DRIVER_DESC_LOW avail;
  do! set_vreg VIRTIO_MMIO_DRIVER_DESC_HIGH (Z.shiftr avail 32);
  do! set_vreg VIRTIO_MMIO_DEVICE_DESC_LOW used;
  do! set_vreg VIRTIO_MMIO_DEVICE_DESC_HIGH (Z.shiftr used 32);
  do! set_vreg VIRTIO_MMIO_QUEUE_READY 0x1;
  do! for_each (seq 0 NUM) (fun i => set_free i 1);
  let status := Z.lor status VIRTIO_CONFIG_S_DRIVER_OK in
  set_vreg VIRTIO_MMIO_STATUS status.

Definition alloc_desc : K (option nat) :=
  for_find (seq 0 NUM) (fun i =>
    let! v := gets k_vdisk in
    if truth (nth i (vk_free v) 0) then
      do! set_free i 0;
      ret (Some i)
    else ret None).

Definition free_desc (i : nat) : K unit :=
  if (NUM <=? i)%nat then panic "free_desc 1" else
  let! v := gets k_vdisk in
  if truth (nth i (vk_free v) 0) then panic "free_desc 2" else
  do! set_desc i (fun _ => zero_desc);
  do! set_free i 1;
  wakeup ChDiskFree.

Definition free_chain_body (i : nat) : K (nat + unit) :=
  let! v := gets k_vdisk in
  let d := desc_at i v in
  do! free_desc i;
  if truth (Z.land (vd_flags d) VRING_DESC_F_NEXT) then ret (inl (Z.to_nat (vd_next d))) else ret (inr tt).

(** A chain has at most NUM descriptors: free_desc() panics on a second visit. *)
Definition free_chain (i : nat) : K unit := loop (S NUM) free_chain_body i.

(** for(int i = 0; i < 3; i++), with the descriptors taken so far. *)
Fixpoint alloc_descs (n : nat) (idx : list nat) : K (option (list nat)) :=
  match n with
  | O => ret (Some idx)
  | S n' =>
      let! i := alloc_desc in
      match i with
      | Some i => alloc_descs n' (idx ++ [i])
      | None =>
          do! for_each idx free_desc;
          ret None
      end
  end.

Definition alloc3_desc : K (option (list nat)) := alloc_descs 3 [].

(** virtio_disk_rw() from the test of its last loop on, with the chain that
    starts at [i0]. *)
Definition virtio_disk_wait (b i0 : nat) : K unit :=
  let! x := gets (buf_at b) in
  if b_disk x =? 1 then sleep (ChBuf b) LVdisk else
  do! set_info i0 (set_in_b None);
  do! free_chain i0;
  release LVdisk.

(** The three descriptors of a request, and its entry in the available ring. *)
Definition virtio_submit (b : nat) (write sector : Z) (i0 i1 i2 : nat) : K unit :=
  let type := if truth write then VIRTIO_BLK_T_OUT else VIRTIO_BLK_T_IN in
  do! upd_vdisk (fun v => set_vk_ops (<[i0 := mkBlkreq type 0 sector]> (vk_ops v)) v);
  do! set_desc i0 (fun _ => mkVdesc (AReq i0) 16 VRING_DESC_F_NEXT (Z.of_nat i1));
  do! set_desc i1 (fun _ => mkVdesc (AData b) BSIZE
        (Z.lor (if truth write then 0 else VRING_DESC_F_WRITE) VRING_DESC_F_NEXT) (Z.of_nat i2));
  do! set_info i0 (set_in_status 0xff);
  do! set_desc i2 (fun _ => mkVdesc (AStatus i0) 1 VRING_DESC_F_WRITE 0);
  do! upd_buf b (set_b_disk 1);
  do! set_info i0 (set_in_b (Some b));
  do! upd_vdisk (fun v => set_vk_avail_ring
        (<[Z.to_nat (vk_avail_idx v mod Z.of_nat NUM) := Z.of_nat i0]> (vk_avail_ring v)) v);
  do! upd_vdisk (fun v => set_vk_avail_idx (u16 (vk_avail_idx v + 1)) v);
  set_vreg VIRTIO_MMIO_QUEUE_NOTIFY 0.

(** virtio_disk_rw() from the head of its first loop on: without three free
    descriptors it sleeps. *)
Definition virtio_disk_start (b : nat) (write : Z) : K unit :=
  let! x := gets (buf_at b) in
  let sector := u32 (b_blockno x * (BSIZE / 512)) in
  let! idx := alloc3_desc in
  match idx with
  | Some [i0; i1; i2] =>
      do! virtio_submit b write sector i0 i1 i2;
      virtio_disk_wait b i0
  | _ => sleep ChDiskFree LVdisk
  end.

Definition virtio_disk_rw (b : nat) (write : Z) : K unit :=
  do! acquire LVdisk;
  virtio_disk_start b write.

Definition virtio_disk_intr_body (_ : unit) : K (unit + unit) :=
  let! v := gets k_vdisk in
  if vk_used_idx v =? vk_used_ring_idx v then ret (inr tt) else
  let id := Z.to_nat (nth (Z.to_nat (vk_used_idx v mod Z.of_nat NUM)) (vk_used_ring v) 0) in
  match vk_info v !! id with
  | None => fault
  | Some inf =>
      if negb (in_status inf =? 0) then panic "virtio_disk_intr status" else
      match in_b inf with
      | None => fault
      | Some b =>
          do! upd_buf b (set_b_disk 0);
          do! wakeup (ChBuf b);
          do! upd_vdisk (set_vk_used_idx (u16 (vk_used_idx v + 1)));
          ret (inl tt)
      end
  end.

Definition virtio_disk_intr : K unit :=
  do! acquire LVdisk;
  let! status := vreg VIRTIO_MMIO_INTERRUPT_STATUS in
  do! set_vreg VIRTIO_MMIO_INTERRUPT_ACK (Z.land status 0x3);
  do! loop (S NUM) virtio_disk_intr_body tt;
  release LVdisk.

(** ** The device

    One request of the available ring served: the chain that starts there is
    followed, the block moved between the disk and the buffer, the status byte
    cleared and the chain put in the used ring. *)
Definition device_step (k : kstate) : option kstate :=
  let v := k_vdisk k in
  if vk_last_avail v =? vk_avail_idx v then None else
  let i0 := Z.to_nat (nth (Z.to_nat (vk_last_avail v mod Z.of_nat NUM)) (vk_avail_ring v) 0) in
  let d0 := desc_at i0 v in
  let d1 := desc_at (Z.to_nat (vd_next d0)) v in
  let d2 := desc_at (Z.to_nat (vd_next d1)) v in
  match vd_addr d0, vd_addr d1, vd_addr d2 with
  | AReq r, AData b, AStatus s =>
      let req := default (mkBlkreq 0 0 0) (vk_ops v !! r) in
      let bno := rq_sector req / (BSIZE / 512) in
      let x := buf_at b k in
      let k :=
        if rq_type req =? VIRTIO_BLK_T_OUT then
          set_k_dwrites (k_dwrites k ++ [(bno, b_data x)]) (set_k_disk (<[bno := b_data x]> (k_disk k)) k)
        else set_k_bufs (alter (set_b_data (block_of (k_disk k) bno)) b (k_bufs k)) k in
      let v := set_vk_info (alter (set_in_status 0) s (vk_info v)) v in
      let v := set_vk_used_ring (<[Z.to_nat (vk_used_ring_idx v mod Z.of_nat NUM) := Z.of_nat i0]> (vk_used_ring v)) v in
      let v := set_vk_used_ring_idx (u16 (vk_used_ring_idx v + 1)) v in
      Some (set_k_vdisk (set_vk_last_avail (u16 (vk_last_avail v + 1)) v) k)
  | _, _, _ => None
  end.

#[global] Arguments virtio_disk_wait : simpl never.
#[global] Arguments virtio_disk_intr : simpl never.
#[global] Arguments free_chain : simpl never.
#[global] Arguments virtio_disk_rw : simpl never.

(** ** A request from beginning to end

    The calling process sleeps while the device works: the scheduler drops its
    lock, the device serves the request and interrupts, and a later turn of the
    scheduler runs the process again.  [idx[0]], a variable of the sleeping
    thread, is what it last put in the available ring. *)

Definition last_posted (v : vdisk) : nat :=
  Z.to_nat (nth (Z.to_nat ((vk_avail_idx v - 1) mod Z.of_nat NUM)) (vk_avail_ring v) 0).

(** The end of the turn of process [p] in scheduler(), after swtch() returned. *)
Definition turn_ends (p : nat) : K unit :=
  do! modify (fun k => set_k_cpu (set_c_proc None (k_cpu k)) k);
  release (LProc p).

(** The next turn of [p], which is RUNNABLE, up to its swtch(). *)
Definition turn_starts (p : nat) : K unit :=
  do! acquire (LProc p);
  let! x := gets (proc_at p) in
  if decide (p_state x = RUNNABLE) then
    do! upd_proc p (set_p_state RUNNING);
    modify (fun k => set_k_cpu (set_c_proc (Some p) (k_cpu k)) k)
  else (fun _ => Spin).

Definition device : K unit := fun k =>
  match device_step k with Some k' => Ret tt k' | None => Spin end.

Definition served_rw (b : nat) (write : Z) : K unit := fun k =>
  match virtio_disk_rw b write k with
  | Swtch k1 =>
      (let! mp := gets (fun k => c_proc (k_cpu k)) in
       match mp with
       | None => fault
       | Some p =>
           do! turn_ends p;
           do! device;
           do! virtio_disk_intr;
           do! turn_starts p;
           do! after_sleep p LVdisk (c_intena (k_cpu k1));
           virtio_disk_wait b (last_posted (k_vdisk k1))
       end) k1
  | o => o
  end.

(** No request is in flight: every descriptor is free, and the driver and the
    device have seen each other's rings to the end. *)
Record idle (v : vdisk) : Prop := {
  id_desc : length (vk_desc v) = NUM;
  id_info : length (vk_info v) = NUM;
  id_ops : length (vk_ops v) = NUM;
  id_avail_ring : length (vk_avail_ring v) = NUM;
  id_used_ring : length (vk_used_ring v) = NUM;
  id_free : vk_free v = replicate NUM 1;
  id_avail : vk_last_avail v = vk_avail_idx v;
  id_used : vk_used_idx v = vk_used_ring_idx v }.

(** The driver's structures with a request for buffer [b] posted. *)
Definition posted (b : nat) (write sector : Z) (v : vdisk) : vdisk :=
  mkVdisk
    (<[2%nat := mkVdesc (AStatus 0) 1 VRING_DESC_F_WRITE 0]>
      (<[1%nat := mkVdesc (AData b) BSIZE
           (Z.lor (if truth write then 0 else VRING_DESC_F_WRITE) VRING_DESC_F_NEXT) 2]>
        (<[0%nat := mkVdesc (AReq 0) 16 VRING_DESC_F_NEXT 1]> (vk_desc v))))
    (u16 (vk_avail_idx v + 1))
    (<[Z.to_nat (vk_avail_idx v mod Z.of_nat NUM) := 0]> (vk_avail_ring v))
    (vk_used_ring_idx v) (vk_used_ring v) [0; 0; 0; 1; 1; 1; 1; 1] (vk_used_idx v)
    (alter (set_in_b (Some b)) 0%nat (alter (set_in_status 0xff) 0%nat (vk_info v)))
    (<[0%nat := mkBlkreq (if truth write then VIRTIO_BLK_T_OUT else VIRTIO_BLK_T_IN) 0 sector]> (vk_ops v))
    (vk_last_avail v)
    (<[VIRTIO_MMIO_QUEUE_NOTIFY := u32 0]> (vk_regs v)).

(** ... and served by the device ... *)
Definition served (v : vdisk) : vdisk :=
  mkVdisk (vk_desc v) (vk_avail_idx v) (vk_avail_ring v) (u16 (vk_used_ring_idx v + 1))
    (<[Z.to_nat (vk_used_ring_idx v mod Z.of_nat NUM) := 0]> (vk_used_ring v))
    (vk_free v) (vk_used_idx v) (alter (set_in_status 0) 0%nat (vk_info v)) (vk_ops v)
    (u16 (vk_last_avail v + 1)) (vk_regs v).

(** ... acknowledged by the interrupt handler ... *)
Definition noticed (v : vdisk) : vdisk :=
  set_vk_used_idx (u16 (vk_used_idx v + 1))
    (set_vk_regs (<[VIRTIO_MMIO_INTERRUPT_ACK := u32 (Z.land (default 0 (vk_regs v !! VIRTIO_MMIO_INTERRUPT_STATUS)) 0x3)]>
      (vk_regs v)) v).

(** ... and its chain returned to the free descriptors. *)
Definition freed (v : vdisk) : vdisk :=
  set_vk_free (replicate NUM 1)
    (set_vk_desc (alter (fun _ => zero_desc) 2%nat (alter (fun _ => zero_desc) 1%nat
       (alter (fun _ => zero_desc) 0%nat (vk_desc v))))
      (set_vk_info (alter (set_in_b None) 0%nat (vk_info v)) v)).

Lemma alter_const {A} (l : list A) (i : nat) (x : A) : alter (fun _ => x) i l = <[i := x]> l.
Proof. revert i. induction l as [|y l IH]; intros [|i]; cbn; [done..|]. f_equal. apply IH. Qed.

(** alloc_desc() takes the first free descriptor. *)
Lemma alloc_desc_run i k : (i < NUM)%nat -> nth i (vk_free (k_vdisk k)) 0 <> 0 ->
  (forall j, (j < i)%nat -> nth j (vk_free (k_vdisk k)) 0 = 0) ->
  alloc_desc k = Ret (Some i) (set_k_vdisk (set_vk_free (<[i := 0]> (vk_free (k_vdisk k))) (k_vdisk k)) k).
Proof.
  intros Hi Hf Hz. unfold alloc_desc.
  replace (seq 0 NUM) with (seq 0 i ++ i :: seq (S i) (NUM - S i)).
  2: { change (i :: seq (S i) (NUM - S i)) with (seq i (S (NUM - S i))).
       replace i with (0 + i)%nat at 2 by lia. rewrite <- seq_app. f_equal. lia. }
  assert (Hpre : forall l, (forall j, j ∈ l -> (j < i)%nat) -> forall rest,
    for_find (l ++ rest) (fun i => let! v := gets k_vdisk in
      if truth (nth i (vk_free v) 0) then do! set_free i 0; ret (Some i) else ret None) k =
    for_find rest (fun i => let! v := gets k_vdisk in
      if truth (nth i (vk_free v) 0) then do! set_free i 0; ret (Some i) else ret None) k).
  { induction l as [|j l IH]; intros Hl rest; [done|]. cbn. unfold bind at 1 2, gets at 1.
    rewrite (Hz j) by (apply Hl; left). cbn. apply IH. intros j' Hj'. apply Hl. by right. }
  rewrite Hpre by (intros j Hj%elem_of_seq; lia).
  cbn. unfold bind at 1 2, gets at 1. rewrite truth_true by done. done.
Qed.

Lemma alloc3_run k : vk_free (k_vdisk k) = replicate NUM 1 ->
  alloc3_desc k = Ret (Some [0; 1; 2]%nat)
    (set_k_vdisk (set_vk_free [0; 0; 0; 1; 1; 1; 1; 1] (k_vdisk k)) k).
Proof.
  intros Hf. unfold alloc3_desc. cbn [alloc_descs].
  erewrite bind_ret_run by (apply (alloc_desc_run 0); [unfold NUM; lia|by rewrite Hf|lia]). cbv beta iota.
  erewrite bind_ret_run.
  2: { apply (alloc_desc_run 1); cbn; [unfold NUM; lia|by rewrite Hf|]; rewrite Hf.
       intros [|j]; [done|lia]. }
  cbv beta iota.
  erewrite bind_ret_run.
  2: { apply (alloc_desc_run 2); cbn; [unfold NUM; lia|by rewrite Hf|]; rewrite Hf.
       intros [|[|j]]; [done..|lia]. }
  cbn. rewrite Hf. reflexivity.
Qed.

(** virtio_disk_rw() posts the request and sleeps on the buffer. *)
Lemma submit_run b w sector k :
  virtio_submit b w sector 0 1 2 (set_k_vdisk (set_vk_free [0; 0; 0; 1; 1; 1; 1; 1] (k_vdisk k)) k) =
    Ret tt (set_k_vdisk (posted b w sector (k_vdisk k))
              (set_k_bufs (alter (set_b_disk 1) b (k_bufs k)) k)).
Proof.
  unfold virtio_submit, set_desc, set_info, set_vreg, upd_vdisk, upd_buf, modify, bind. cbn.
  rewrite !alter_const. reflexivity.
Qed.

(** A state over [k]: the parts a request changes. *)
Definition vst (ps : list proc) (v : vdisk) (bs : list buf) (d : gmap Z (list Z)) (dw : list (Z * list Z))
  (k : kstate) : kstate :=
  set_k_procs ps (set_k_vdisk v (set_k_bufs bs (set_k_disk d (set_k_dwrites dw k)))).

Lemma rw_sleeps p b w k : thread_ok p k -> lock_free k LVdisk -> idle (k_vdisk k) ->
  (b < HEAD)%nat -> length (k_bufs k) = S HEAD -> 0 <= b_blockno (buf_at b k) < 2 ^ 31 ->
  virtio_disk_rw b w k = Swtch
    (vst (<[p := asleep (ChBuf b) (proc_at p k)]> (k_procs k))
       (posted b w (b_blockno (buf_at b k) * 2) (k_vdisk k))
       (alter (set_b_disk 1) b (k_bufs k)) (k_disk k) (k_dwrites k) (enter (LProc p) k)).
Proof.
  intros [Hok Hn Hp Hlt Hps Hf] Hfr Hid Hb Hlen Hbno. unfold virtio_disk_rw.
  erewrite bind_ret_run by by apply acquire_run.
  unfold virtio_disk_start. unfold gets at 1. unfold bind at 1.
  change (buf_at b (enter LVdisk k)) with (buf_at b k).
  erewrite bind_ret_run by (apply alloc3_run; apply Hid). cbv beta iota.
  change (BSIZE / 512) with 2. rewrite (u32_small (_ * 2)) by lia.
  erewrite bind_ret_run by apply submit_run.
  unfold virtio_disk_wait. unfold gets at 1. unfold bind at 1.
  rewrite (buf_at_alter (set_b_disk 1) b b _ (k_bufs k)) by (cbn; (lia || done)).
  rewrite decide_True by done. cbn [b_disk set_b_disk].
  change (1 =? 1) with true. cbv iota.
  rewrite (sleep_run _ _ p k); auto; try done; cbn; try by rewrite Hps.
Qed.

(** The hart in the scheduler, with no process. *)
Definition parked (k : kstate) : kstate := set_k_cpu (set_c_proc None (k_cpu k)) k.

Lemma parked_cpu_ok k : cpu_ok k -> cpu_ok (parked k).
Proof. by intros [H1 H2 H3 H4]; split. Qed.

Lemma turn_ends_run p ps v bs d dw k : cpu_ok k -> lock_free k (LProc p) ->
  turn_ends p (vst ps v bs d dw (enter (LProc p) k)) = Ret tt (vst ps v bs d dw (parked k)).
Proof.
  intros Hok Hl. unfold turn_ends, modify. unfold bind at 1.
  rewrite (release_run _ (parked k)); [reflexivity|done|by apply parked_cpu_ok|done].
Qed.

Lemma turn_starts_run p ps v bs d dw k : c_proc (k_cpu k) = Some p -> lock_free k (LProc p) ->
  p_state (default zero_proc (ps !! p)) = RUNNABLE ->
  turn_starts p (vst ps v bs d dw (parked k)) =
    Ret tt (vst (<[p := set_p_state RUNNING (default zero_proc (ps !! p))]> ps) v bs d dw (enter (LProc p) k)).
Proof.
  intros Hp Hl Hr. unfold turn_starts.
  erewrite bind_ret_run by by apply acquire_run.
  unfold gets at 1. unfold bind at 1.
  change (proc_at p (enter (LProc p) (vst ps v bs d dw (parked k)))) with (default zero_proc (ps !! p)).
  rewrite decide_True by exact Hr. rewrite <- Hp. reflexivity.
Qed.

Lemma st_acquire l ps v bs d dw k : lock_free k l ->
  acquire l (vst ps v bs d dw k) = Ret tt (vst ps v bs d dw (enter l k)).
Proof. intros Hl. by rewrite acquire_run. Qed.

Lemma st_release l ps v bs d dw k : cpu_ok k -> lock_free k l ->
  release l (vst ps v bs d dw (enter l k)) = Ret tt (vst ps v bs d dw k).
Proof. intros Hok Hl. by rewrite (release_run _ k). Qed.

Lemma after_sched_same k : after_sched (c_intena (k_cpu k)) k = Ret tt k.
Proof. by destruct k as [[? ? ? ?]]. Qed.

Lemma st_upd_proc p f ps v bs d dw k :
  upd_proc p f (vst ps v bs d dw k) = Ret tt (vst (<[p := f (default zero_proc (ps !! p))]> ps) v bs d dw k).
Proof. reflexivity. Qed.

Lemma after_sleep_run p ps v bs d dw k : cpu_ok k -> lock_free k (LProc p) -> lock_free k LVdisk ->
  after_sleep p LVdisk (c_intena (k_cpu (enter (LProc p) k))) (vst ps v bs d dw (enter (LProc p) k)) =
    Ret tt (vst (<[p := set_p_chan None (default zero_proc (ps !! p))]> ps) v bs d dw (enter LVdisk k)).
Proof.
  intros Hok Hl Hv. unfold after_sleep.
  change (k_cpu (enter (LProc p) k)) with (k_cpu (vst ps v bs d dw (enter (LProc p) k))).
  erewrite bind_ret_run by apply after_sched_same.
  erewrite bind_ret_run by apply st_upd_proc.
  erewrite bind_ret_run by by apply st_release.
  by apply st_acquire.
Qed.

(** The device serves the one request that is posted. *)
Lemma posted_descs b w s v : idle v ->
  desc_at 0 (posted b w s v) = mkVdesc (AReq 0) 16 VRING_DESC_F_NEXT 1 /\
  vd_addr (desc_at 1 (posted b w s v)) = AData b /\ vd_next (desc_at 1 (posted b w s v)) = 2 /\
  Z.land (vd_flags (desc_at 1 (posted b w s v))) VRING_DESC_F_NEXT = 1 /\
  desc_at 2 (posted b w s v) = mkVdesc (AStatus 0) 1 VRING_DESC_F_WRITE 0 /\
  vk_ops (posted b w s v) !! 0%nat =
    Some (mkBlkreq (if truth w then VIRTIO_BLK_T_OUT else VIRTIO_BLK_T_IN) 0 s).
Proof.
  intros Hid. destruct v as [ds ai ar ui ur fr u inf ops la regs].
  destruct Hid as [Hd _ Ho _ _ _ _ _]. cbn in Hd, Ho. unfold NUM in Hd, Ho.
  do 8 (destruct ds as [|? ds]; [done|]). do 8 (destruct ops as [|? ops]; [done|]).
  unfold posted. destruct (truth w); split_and!; reflexivity.
Qed.

Lemma mod_NUM_lt z : (Z.to_nat (z mod Z.of_nat NUM) < NUM)%nat.
Proof. unfold NUM. pose proof (Z.mod_pos_bound z 8). lia. Qed.

Lemma u16_succ z : u16 (z + 1) =? z = false.
Proof. unfold u16. apply Z.eqb_neq. change (2 ^ 16) with 65536.
  pose proof (Z.mod_pos_bound (z + 1) 65536). pose proof (Z.div_mod (z + 1) 65536). lia. Qed.

Lemma nth_insert_eq (l : list Z) (i : nat) (x d : Z) : (i < length l)%nat -> nth i (<[i := x]> l) d = x.
Proof. intros Hi. by rewrite nth_lookup, list_lookup_insert_eq. Qed.

Lemma device_run b w s ps v bs d dw k : idle v -> (b < length bs)%nat ->
  let data := b_data (default zero_buf (bs !! b)) in
  device (vst ps (posted b w s v) bs d dw k) =
    Ret tt (if truth w
      then vst ps (served (posted b w s v)) bs (<[s / 2 := data]> d) (dw ++ [(s / 2, data)]) k
      else vst ps (served (posted b w s v)) (alter (set_b_data (block_of d (s / 2))) b bs) d dw k).
Proof.
  intros Hid Hb data. unfold device, device_step.
  change (k_vdisk (vst ps (posted b w s v) bs d dw k)) with (posted b w s v).
  destruct (posted_descs b w s v Hid) as (E0 & E1 & N1 & _ & E2 & Eo).
  change (vk_last_avail (posted b w s v)) with (vk_last_avail v).
  change (vk_avail_idx (posted b w s v)) with (u16 (vk_avail_idx v + 1)).
  rewrite (id_avail v Hid), Z.eqb_sym, u16_succ.
  change (vk_avail_ring (posted b w s v)) with
    (<[Z.to_nat (vk_avail_idx v mod Z.of_nat NUM) := 0]> (vk_avail_ring v)).
  rewrite nth_insert_eq by (rewrite (id_avail_ring v Hid); apply mod_NUM_lt).
  change (Z.to_nat 0) with 0%nat. rewrite E0. cbn [vd_next vd_addr].
  change (Z.to_nat 1) with 1%nat. rewrite E1, N1. change (Z.to_nat 2) with 2%nat. rewrite E2, Eo.
  cbn [vd_addr default rq_type rq_sector]. change (BSIZE / 512) with 2.
  by destruct (truth w).
Qed.

(** The interrupt handler finds it done and wakes the process. *)
Lemma st_wakeup ch ps v bs d dw k : cpu_ok k -> length ps = Z.to_nat NPROC -> plocks_free k ->
  wakeup ch (vst ps v bs d dw k) = Ret tt (vst (imap (wake_at (c_proc (k_cpu k)) ch) ps) v bs d dw k).
Proof. intros Hok Hps Hf. by rewrite wakeup_run. Qed.

Lemma st_vdisk f ps v bs d dw k : upd_vdisk f (vst ps v bs d dw k) = Ret tt (vst ps (f v) bs d dw k).
Proof. reflexivity. Qed.

Lemma st_buf b f ps v bs d dw k : upd_buf b f (vst ps v bs d dw k) = Ret tt (vst ps v (alter f b bs) d dw k).
Proof. reflexivity. Qed.

Lemma intr_body_next b ps v bs d dw k :
  vk_used_idx v =? vk_used_ring_idx v = false ->
  nth (Z.to_nat (vk_used_idx v mod Z.of_nat NUM)) (vk_used_ring v) 0 = 0 ->
  vk_info v !! 0%nat = Some (mkVinfo (Some b) 0) ->
  cpu_ok k -> length ps = Z.to_nat NPROC -> plocks_free k ->
  virtio_disk_intr_body tt (vst ps v bs d dw k) =
    Ret (inl tt) (vst (imap (wake_at (c_proc (k_cpu k)) (ChBuf b)) ps)
      (set_vk_used_idx (u16 (vk_used_idx v + 1)) v) (alter (set_b_disk 0) b bs) d dw k).
Proof.
  intros Hu Hn Hi Hok Hps Hf. unfold virtio_disk_intr_body. unfold gets at 1. unfold bind at 1.
  change (k_vdisk (vst ps v bs d dw k)) with v. rewrite Hu, Hn.
  change (Z.to_nat 0) with 0%nat. rewrite Hi. cbn [in_status in_b].
  change (negb (0 =? 0)) with false. cbv iota.
  erewrite bind_ret_run by apply st_buf.
  erewrite bind_ret_run by by apply st_wakeup.
  by erewrite bind_ret_run by apply st_vdisk.
Qed.

Lemma intr_body_done ps v bs d dw k : vk_used_idx v = vk_used_ring_idx v ->
  virtio_disk_intr_body tt (vst ps v bs d dw k) = Ret (inr tt) (vst ps v bs d dw k).
Proof.
  intros Hu. unfold virtio_disk_intr_body. unfold gets at 1. unfold bind at 1.
  change (k_vdisk (vst ps v bs d dw k)) with v. by rewrite Hu, Z.eqb_refl.
Qed.

(** What the handler finds in the rings after the device served the request. *)
Lemma served_facts b w s v : idle v ->
  let v1 := served (posted b w s v) in
  vk_used_idx v1 =? vk_used_ring_idx v1 = false /\
  nth (Z.to_nat (vk_used_idx v1 mod Z.of_nat NUM)) (vk_used_ring v1) 0 = 0 /\
  vk_info v1 !! 0%nat = Some (mkVinfo (Some b) 0) /\
  u16 (vk_used_idx v1 + 1) = vk_used_ring_idx v1.
Proof.
  intros Hid v1. cbn. rewrite (id_used v Hid), Z.eqb_sym, u16_succ. split_and!; [done| |by destruct (vk_info v) eqn:E; pose proof (id_info v Hid) as Hi; rewrite E in Hi|done].
  apply nth_insert_eq. rewrite (id_used_ring v Hid). apply mod_NUM_lt.
Qed.

Lemma intr_run b w s ps v bs d dw k : idle v -> cpu_ok k -> lock_free k LVdisk -> plocks_free k ->
  length ps = Z.to_nat NPROC ->
  virtio_disk_intr (vst ps (served (posted b w s v)) bs d dw k) =
    Ret tt (vst (imap (wake_at (c_proc (k_cpu k)) (ChBuf b)) ps) (noticed (served (posted b w s v)))
              (alter (set_b_disk 0) b bs) d dw k).
Proof.
  intros Hid Hok Hl Hf Hps. unfold virtio_disk_intr.
  destruct (served_facts b w s v Hid) as (F1 & F2 & F3 & F4).
  generalize dependent (served (posted b w s v)). intros v1 F1 F2 F3 F4.
  erewrite bind_ret_run by by apply st_acquire.
  unfold vreg, gets at 1. unfold bind at 1.
  unfold set_vreg. erewrite bind_ret_run by apply st_vdisk.
  change (k_vdisk (vst ps v1 bs d dw (enter LVdisk k))) with v1.
  erewrite bind_ret_run.
  2: { erewrite loop_next.
       2: { apply (intr_body_next b); [exact F1|exact F2|exact F3|by apply enter_cpu_ok|exact Hps|].
            by apply enter_plocks_free. }
       eapply loop_exit. apply intr_body_done. exact F4. }
  change (c_proc (k_cpu (enter LVdisk k))) with (c_proc (k_cpu k)).
  rewrite st_release by assumption. reflexivity.
Qed.

(** The process frees the chain and returns. *)
Lemma free_desc_run i ps v bs d dw k : (i < NUM)%nat -> nth i (vk_free v) 0 = 0 ->
  cpu_ok k -> length ps = Z.to_nat NPROC -> plocks_free k ->
  free_desc i (vst ps v bs d dw k) =
    Ret tt (vst (imap (wake_at (c_proc (k_cpu k)) ChDiskFree) ps)
              (set_vk_free (<[i := 1]> (vk_free v)) (set_vk_desc (alter (fun _ => zero_desc) i (vk_desc v)) v))
              bs d dw k).
Proof.
  intros Hi Hf Hok Hps Hpl. unfold free_desc.
  destruct (NUM <=? i)%nat eqn:E; [apply Nat.leb_le in E; lia|].
  unfold gets at 1. unfold bind at 1. change (k_vdisk (vst ps v bs d dw k)) with v.
  rewrite Hf. change (truth 0) with false. cbv iota.
  unfold set_desc, set_free.
  erewrite bind_ret_run by apply st_vdisk. erewrite bind_ret_run by apply st_vdisk.
  by apply st_wakeup.
Qed.

Definition wakes (n : nat) (me : option nat) (ps : list proc) : list proc :=
  Nat.iter n (imap (wake_at me ChDiskFree)) ps.

Lemma free_chain_next i ps v bs d dw k : (i < NUM)%nat -> nth i (vk_free v) 0 = 0 ->
  cpu_ok k -> length ps = Z.to_nat NPROC -> plocks_free k ->
  free_chain_body i (vst ps v bs d dw k) =
    Ret (if truth (Z.land (vd_flags (desc_at i v)) VRING_DESC_F_NEXT)
         then inl (Z.to_nat (vd_next (desc_at i v))) else inr tt)
      (vst (imap (wake_at (c_proc (k_cpu k)) ChDiskFree) ps)
         (set_vk_free (<[i := 1]> (vk_free v)) (set_vk_desc (alter (fun _ => zero_desc) i (vk_desc v)) v))
         bs d dw k).
Proof.
  intros. unfold free_chain_body. unfold gets at 1. unfold bind at 1.
  erewrite bind_ret_run by by apply free_desc_run.
  change (k_vdisk (vst ps v bs d dw k)) with v. by destruct (truth _).
Qed.

Lemma desc_at_alter_ne i j v : i <> j ->
  desc_at j (set_vk_desc (alter (fun _ => zero_desc) i (vk_desc v)) v) = desc_at j v.
Proof. intros Hne. unfold desc_at. cbn. by rewrite list_lookup_alter_ne. Qed.

(** A chain 0, 1, 2 of taken descriptors is freed. *)
Lemma free_chain_run ps v bs d dw k : vk_free v = [0; 0; 0; 1; 1; 1; 1; 1] ->
  truth (Z.land (vd_flags (desc_at 0 v)) VRING_DESC_F_NEXT) = true -> vd_next (desc_at 0 v) = 1 ->
  truth (Z.land (vd_flags (desc_at 1 v)) VRING_DESC_F_NEXT) = true -> vd_next (desc_at 1 v) = 2 ->
  truth (Z.land (vd_flags (desc_at 2 v)) VRING_DESC_F_NEXT) = false ->
  cpu_ok k -> length ps = Z.to_nat NPROC -> plocks_free k ->
  free_chain 0 (vst ps v bs d dw k) =
    Ret tt (vst (wakes 3 (c_proc (k_cpu k)) ps)
      (set_vk_free (replicate NUM 1)
        (set_vk_desc (alter (fun _ => zero_desc) 2%nat (alter (fun _ => zero_desc) 1%nat
           (alter (fun _ => zero_desc) 0%nat (vk_desc v)))) v)) bs d dw k).
Proof.
  intros Hf F0 N0 F1 N1 F2 Hok Hps Hpl. unfold free_chain. change (S NUM) with 9%nat.
  erewrite loop_next.
  2: { rewrite free_chain_next, F0, N0 by (try (rewrite Hf); auto; unfold NUM; lia). reflexivity. }
  set (v1 := set_vk_free _ _).
  assert (D1 : desc_at 1 v1 = desc_at 1 v) by (apply (desc_at_alter_ne 0 1 v); lia).
  erewrite loop_next.
  2: { change (Z.to_nat 1) with 1%nat. rewrite free_chain_next, D1, F1, N1; [reflexivity|unfold NUM; lia|cbn; by rewrite Hf|done|by rewrite length_imap|done]. }
  set (v2 := set_vk_free _ (set_vk_desc _ v1)).
  assert (D2 : desc_at 2 v2 = desc_at 2 v).
  { rewrite <- (desc_at_alter_ne 0 2 v), <- (desc_at_alter_ne 1 2 (set_vk_desc _ v)) by lia. done. }
  erewrite loop_exit.
  2: { change (Z.to_nat 2) with 2%nat. rewrite free_chain_next, D2, F2; [reflexivity|unfold NUM; lia|cbn; by rewrite Hf|done|by rewrite !length_imap|done]. }
  unfold wakes, Nat.iter. cbn. rewrite Hf. reflexivity.
Qed.

Lemma wait_run b ps v bs d dw k : b_disk (default zero_buf (bs !! b)) = 0 ->
  vk_free v = [0; 0; 0; 1; 1; 1; 1; 1] ->
  truth (Z.land (vd_flags (desc_at 0 v)) VRING_DESC_F_NEXT) = true -> vd_next (desc_at 0 v) = 1 ->
  truth (Z.land (vd_flags (desc_at 1 v)) VRING_DESC_F_NEXT) = true -> vd_next (desc_at 1 v) = 2 ->
  truth (Z.land (vd_flags (desc_at 2 v)) VRING_DESC_F_NEXT) = false ->
  cpu_ok k -> lock_free k LVdisk -> length ps = Z.to_nat NPROC -> plocks_free k ->
  virtio_disk_wait b 0 (vst ps v bs d dw (enter LVdisk k)) =
    Ret tt (vst (wakes 3 (c_proc (k_cpu k)) ps) (freed v) bs d dw k).
Proof.
  intros Hb Hf F0 N0 F1 N1 F2 Hok Hl Hps Hpl. unfold virtio_disk_wait.
  unfold gets at 1. unfold bind at 1.
  change (buf_at b (vst ps v bs d dw (enter LVdisk k))) with (default zero_buf (bs !! b)).
  rewrite Hb. change (0 =? 1) with false. cbv iota.
  unfold set_info. erewrite bind_ret_run by apply st_vdisk.
  erewrite bind_ret_run.
  2: { apply free_chain_run; try assumption; [by apply enter_cpu_ok|].
       by apply enter_plocks_free. }
  change (c_proc (k_cpu (enter LVdisk k))) with (c_proc (k_cpu k)).
  rewrite st_release by assumption. reflexivity.
Qed.

(** *** The processes: only those asleep are woken *)

Lemma wakes_woken n me ps : woken ps (wakes n me ps).
Proof.
  induction n as [|n IH]; [apply woken_refl|]. eapply woken_trans; [apply IH|]. apply wake_woken.
Qed.

Definition rerun (p : nat) (ch : chan) (ps : list proc) : list proc :=
  let ps := imap (wake_at None ch) (<[p := asleep ch (default zero_proc (ps !! p))]> ps) in
  let ps := <[p := set_p_state RUNNING (default zero_proc (ps !! p))]> ps in
  <[p := set_p_chan None (default zero_proc (ps !! p))]> ps.

Lemma wake_asleep ch x : wake_at None ch 0 (asleep ch x) = set_p_state RUNNABLE (asleep ch x).
Proof. unfold wake_at, wake. by rewrite decide_False, decide_True. Qed.

Lemma slept_lookup p ch ps : (p < length ps)%nat ->
  default zero_proc (imap (wake_at None ch) (<[p := asleep ch (default zero_proc (ps !! p))]> ps) !! p)
  = set_p_state RUNNABLE (asleep ch (default zero_proc (ps !! p))).
Proof.
  intros Hp. rewrite list_lookup_imap, list_lookup_insert_eq by done. cbn. apply wake_asleep.
Qed.

Lemma rerun_woken p ch ps : (p < length ps)%nat ->
  p_state (default zero_proc (ps !! p)) = RUNNING -> p_chan (default zero_proc (ps !! p)) = None ->
  woken ps (rerun p ch ps).
Proof.
  intros Hp Hs Hc. unfold rerun. rewrite (slept_lookup p ch ps Hp).
  rewrite list_lookup_insert_eq by (rewrite length_imap, length_insert; done).
  rewrite list_insert_insert_eq.
  destruct (lookup_lt_is_Some_2 ps p Hp) as [P HP]. rewrite HP in *. cbn [default] in *.
  replace (set_p_chan _ _) with P by (destruct P; cbn in *; by subst).
  apply Forall2_same_length_lookup_2; [by rewrite length_insert, length_imap, length_insert|].
  intros i x y Hx Hy. destruct (decide (i = p)) as [->|Hne].
  - rewrite list_lookup_insert_eq in Hy by (rewrite length_imap, length_insert; done). left. congruence.
  - rewrite list_lookup_insert_ne, list_lookup_imap, list_lookup_insert_ne, Hx in Hy by done.
    cbn in Hy. injection Hy as <-. unfold wake_at, wake. rewrite decide_False by done.
    case_decide as E; [|by left]. right. by destruct E.
Qed.

(** *** The buffers and the disk *)

Lemma altered_twice b (bs : list buf) :
  alter (set_b_disk 0) b (alter (set_b_disk 1) b bs) = alter (set_b_disk 0) b bs.
Proof. rewrite list_alter_alter_eq. by apply list_alter_ext. Qed.

Lemma done_st b w k : (b < length (k_bufs k))%nat ->
  let s := b_blockno (buf_at b k) * 2 in
  let bs1 := alter (set_b_disk 1) b (k_bufs k) in
  let data := b_data (default zero_buf (bs1 !! b)) in
  forall ps v,
  (if truth w then
    vst ps v (alter (set_b_disk 0) b bs1) (<[s / 2 := data]> (k_disk k)) (k_dwrites k ++ [(s / 2, data)]) k
   else vst ps v (alter (set_b_disk 0) b (alter (set_b_data (block_of (k_disk k) (s / 2))) b bs1))
          (k_disk k) (k_dwrites k) k)
  = set_k_vdisk v (set_k_procs ps (disk_done b w k)).
Proof.
  intros Hb s bs1 data ps v. unfold disk_done.
  assert (Hs : s / 2 = b_blockno (buf_at b k)) by (apply Z.div_mul; done).
  assert (Hd : data = b_data (buf_at b k)).
  { unfold data, bs1, buf_at. rewrite list_lookup_alter_eq.
    by destruct (lookup_lt_is_Some_2 _ _ Hb) as [x ->]. }
  rewrite Hs, Hd. destruct (truth w).
  - unfold bs1. rewrite altered_twice. reflexivity.
  - unfold bs1. rewrite !list_alter_alter_eq.
    erewrite (list_alter_ext _ _ (k_bufs k) (k_bufs k) b); [reflexivity|done|done].
Qed.

Lemma freed_idle b w s v : idle v -> idle (freed (noticed (served (posted b w s v)))).
Proof.
  intros Hid. destruct Hid as [H1 H2 H3 H4 H5 H6 H7 H8].
  split; cbn; rewrite ?length_alter, ?length_insert; try done.
  - by rewrite H7.
  - by rewrite H8.
Qed.

Lemma rw_last_posted b w s v : idle v -> last_posted (posted b w s v) = 0%nat.
Proof.
  intros Hid. unfold last_posted. cbn.
  assert (Hm : (u16 (vk_avail_idx v + 1) - 1) mod Z.of_nat NUM = vk_avail_idx v mod Z.of_nat NUM).
  { unfold NUM, u16. change (Z.of_nat 8) with 8. change (2 ^ 16) with 65536.
    rewrite (Z.mod_eq _ 65536) by done. set (q := (vk_avail_idx v + 1) / 65536).
    replace (vk_avail_idx v + 1 - 65536 * q - 1) with (vk_avail_idx v + - 8192 * q * 8) by lia.
    by apply Z.mod_add. }
  rewrite Hm, nth_insert_eq; [done|]. rewrite (id_avail_ring v Hid). apply mod_NUM_lt.
Qed.

(** The rings as the process finds them when it runs again. *)
Lemma noticed_chain b w s v : idle v ->
  let u := noticed (served (posted b w s v)) in
  vk_free u = [0; 0; 0; 1; 1; 1; 1; 1] /\
  truth (Z.land (vd_flags (desc_at 0 u)) VRING_DESC_F_NEXT) = true /\ vd_next (desc_at 0 u) = 1 /\
  truth (Z.land (vd_flags (desc_at 1 u)) VRING_DESC_F_NEXT) = true /\ vd_next (desc_at 1 u) = 2 /\
  truth (Z.land (vd_flags (desc_at 2 u)) VRING_DESC_F_NEXT) = false.
Proof.
  intros Hid u. destruct (posted_descs b w s v Hid) as (E0 & _ & N1 & F1 & E2 & _).
  change (desc_at 0 u) with (desc_at 0 (posted b w s v)).
  change (desc_at 1 u) with (desc_at 1 (posted b w s v)).
  change (desc_at 2 u) with (desc_at 2 (posted b w s v)).
  by rewrite E0, N1, F1, E2.
Qed.

(** From the interrupt to the return of virtio_disk_rw(), whatever the transfer
    left in the buffers and on the disk. *)
Lemma completion_run p b w s ps v bs d dw k : thread_ok p k -> lock_free k LVdisk -> idle v ->
  length ps = Z.to_nat NPROC -> (b < length bs)%nat ->
  (do! virtio_disk_intr;
   do! turn_starts p;
   do! after_sleep p LVdisk (c_intena (k_cpu (enter (LProc p) k)));
   virtio_disk_wait b 0)
    (vst (<[p := asleep (ChBuf b) (default zero_proc (ps !! p))]> ps) (served (posted b w s v)) bs d dw (parked k)) =
  Ret tt (vst (wakes 3 (Some p) (rerun p (ChBuf b) ps)) (freed (noticed (served (posted b w s v))))
            (alter (set_b_disk 0) b bs) d dw k).
Proof.
  intros [Hok Hn Hp Hlt _ Hf] Hl Hid Hps Hb.
  assert (Hpk : plocks_free (parked k)) by (intros i Hi _; by apply Hf).
  assert (Hpl : plocks_free k) by (intros i Hi _; by apply Hf).
  erewrite bind_ret_run.
  2: { apply intr_run; [done|by apply parked_cpu_ok|done|done|by rewrite length_insert]. }
  erewrite bind_ret_run.
  2: { apply turn_starts_run; [done|by apply Hf|]. cbn [c_proc k_cpu parked set_k_cpu set_c_proc].
       by rewrite slept_lookup by lia. }
  erewrite bind_ret_run by (apply after_sleep_run; [done|by apply Hf|done]).
  destruct (noticed_chain b w s v Hid) as (C1 & C2 & C3 & C4 & C5 & C6).
  rewrite wait_run; try assumption; [by rewrite Hp| |].
  - rewrite list_lookup_alter_eq. by destruct (lookup_lt_is_Some_2 _ _ Hb) as [x ->].
  - by rewrite !length_insert, length_imap, length_insert.
Qed.

Lemma st_cpu ps v bs d dw k : k_cpu (vst ps v bs d dw k) = k_cpu k.
Proof. reflexivity. Qed.

Lemma st_vd ps v bs d dw k : k_vdisk (vst ps v bs d dw k) = v.
Proof. reflexivity. Qed.

Lemma served_rw_run p b w k : thread_ok p k -> running p k -> lock_free k LVdisk -> idle (k_vdisk k) ->
  (b < HEAD)%nat -> length (k_bufs k) = S HEAD -> 0 <= b_blockno (buf_at b k) < 2 ^ 31 ->
  served_rw b w k = Ret tt
    (set_k_vdisk (freed (noticed (served (posted b w (b_blockno (buf_at b k) * 2) (k_vdisk k)))))
      (set_k_procs (wakes 3 (Some p) (rerun p (ChBuf b) (k_procs k))) (disk_done b w k))).
Proof.
  intros Hth Hrun Hl Hid Hb Hlen Hbno. unfold served_rw.
  rewrite (rw_sleeps p) by assumption. pose proof Hth as [Hok Hn Hp Hlt Hps Hf].
  rewrite st_cpu, st_vd, rw_last_posted by done.
  erewrite bind_ret_run by reflexivity.
  rewrite st_cpu. change (c_proc (k_cpu (enter (LProc p) k))) with (c_proc (k_cpu k)). rewrite Hp.
  erewrite bind_ret_run by (apply turn_ends_run; [done|by apply Hf]).
  erewrite bind_ret_run by (apply device_run; [done|rewrite length_alter, Hlen; lia]).
  rewrite <- (done_st b w k) by lia. unfold proc_at.
  destruct (truth w); apply (completion_run p b w); auto; rewrite ?length_alter; lia.
Qed.

(** The driver is a [Disk]: what the buffer cache and the log were proved
    against. *)
#[global] Program Instance virtio_driver : Disk | 100 := {|
  Bio.virtio_disk_rw := served_rw;
  disk_ok k := lock_free k LVdisk /\ idle (k_vdisk k) |}.
Next Obligation. intros k k' Hv Hl [[nm Hk] Hid]. rewrite Hv. split; [|done]. exists nm. by rewrite Hl. Qed.
Next Obligation.
  intros p b w k Hth Hrun [Hl Hid] Hb Hlen Hbno. eexists _, _. split_and!.
  - by apply (served_rw_run p).
  - destruct Hrun as [Hs Hc]. destruct Hth as [_ _ _ Hlt Hps _].
    eapply woken_trans; [apply rerun_woken; [by rewrite Hps|done..]|]. apply wakes_woken.
  - done.
  - by apply freed_idle.
Qed.


(** The disk after virtio_disk_init(). *)
Definition disk_on (k : kstate) : kstate :=
  set_k_vdisk (set_vk_free (replicate NUM 1) (k_vdisk zero_state)) (with_lock LVdisk k).

Lemma disk_on_idle k : idle (k_vdisk (disk_on k)).
Proof. by split. Qed.

Lemma disk_on_thread p k : thread_ok p k -> thread_ok p (disk_on k).
Proof. intros H. apply (thread_ok_ext p (with_lock LVdisk k)); [by apply with_lock_thread|done..]. Qed.

Lemma disk_on_lock k : lock_free (disk_on k) LVdisk.
Proof. apply with_lock_free. Qed.

Lemma disk_on_running p k : running p k -> running p (disk_on k).
Proof. done. Qed.

Lemma disk_on_bufs k : k_bufs (disk_on k) = k_bufs k.
Proof. done. Qed.

