(* ===== verification/Fs.v ===== *)
(** * Fs: the file system (kernel/fs.c)

    Every function of fs.c: the block allocator, the inode table and inodes on
    disk, the contents of inodes, directories and path names.  A [struct inode *]
    is [Some i] with [i] the index in itable.inode, or [None] for the null
    pointer.  Disk structures are read and written in the bytes of a buffer; the
    results of readi() and dirlookup() that the code leaves in variables of the
    caller are part of the returned value.  A path is the list of its characters
    without the NUL, and the [name] buffer the string it holds. *)

From Stdlib Require Import ZArith Lia Ascii.
From stdpp Require Import base gmap list strings.
From S2P Require Import Prelude Bytes State Spinlock Sched Sleeplock Mem Bio Log Trans Printf Console.

(** ** stat.h and fs.h *)

Definition T_DIR : Z := 1.
Definition T_FILE : Z := 2.
Definition T_DEVICE : Z := 3.

Record stat : Type := mkStat { st_dev : Z; st_ino : Z; st_type : Z; st_nlink : Z; st_size : Z }.

(** sizeof(struct dinode) and the offsets of its fields *)
Definition DINODE : Z := 64.
Definition IPB : Z := BSIZE / DINODE.
Definition IBLOCK (i : Z) (sb : superblock) : Z := u32 (i / IPB + sb_inodestart sb).
Definition BPB : Z := BSIZE * 8.
Definition BBLOCK (b : Z) (sb : superblock) : Z := u32 (b / BPB + sb_bmapstart sb).
(** sizeof(struct dirent) *)
Definition DIRENT : Z := 16.

#[global] Arguments IPB : simpl never.
#[global] Arguments BPB : simpl never.
#[global] Arguments IBLOCK : simpl never.
#[global] Arguments BBLOCK : simpl never.
#[global] Arguments DIRENT : simpl never.
#[global] Arguments DINODE : simpl never.

(** dip->type .. dip->addrs of the dinode at byte [o] of a block. *)
Definition get_dinode (d : list Z) (o : nat) (ip : inode) : inode :=
  set_i_addrs ((fun j => rd 4 d (o + 12 + 4 * j)) <$> seq 0 (Z.to_nat (NDIRECT + 1)))
    (set_i_size (rd 4 d (o + 8))
      (set_i_nlink (i16 (rd 2 d (o + 6)))
        (set_i_minor (i16 (rd 2 d (o + 4)))
          (set_i_major (i16 (rd 2 d (o + 2)))
            (set_i_type (i16 (rd 2 d o)) ip))))).

(** memmove(dip->addrs, ip->addrs, sizeof(ip->addrs)) *)
Fixpoint put_addrs (d : list Z) (o : nat) (l : list Z) : list Z :=
  match l with
  | [] => d
  | a :: l' => put_addrs (wr 4 d o a) (o + 4) l'
  end.

Definition put_dinode (d : list Z) (o : nat) (ip : inode) : list Z :=
  let d := wr 2 d o (i_type ip) in
  let d := wr 2 d (o + 2) (i_major ip) in
  let d := wr 2 d (o + 4) (i_minor ip) in
  let d := wr 2 d (o + 6) (i_nlink ip) in
  let d := wr 4 d (o + 8) (i_size ip) in
  put_addrs d (o + 12) (i_addrs ip).

(** The position of dinode [inum] in its block. *)
Definition dinode_off (inum : Z) : nat := Z.to_nat (inum mod IPB * DINODE).

Definition inode_at (i : nat) (k : kstate) : inode := default zero_inode (k_inodes k !! i).
Definition upd_inode (i : nat) (f : inode -> inode) : K unit :=
  modify (fun k => set_k_inodes (alter f i (k_inodes k)) k).

Section fs.
Context `{Disk}.

(** ** Blocks *)

Definition readsb (dev : Z) : K superblock :=
  let! bp := bread (u32 dev) 1 in
  let! x := gets (buf_at bp) in
  let d := b_data x in
  let sb := mkSuperblock (rd 4 d 0) (rd 4 d 4) (rd 4 d 8) (rd 4 d 12)
              (rd 4 d 16) (rd 4 d 20) (rd 4 d 24) (rd 4 d 28) in
  do! brelse bp;
  ret sb.

Definition fsinit (dev : Z) : K unit :=
  let! sb := readsb dev in
  do! modify (set_k_sb sb);
  if negb (sb_magic sb =? FSMAGIC) then panic "invalid file system" else
  initlog dev sb.

Definition bzero (dev bno : Z) : K unit :=
  let! bp := bread (u32 dev) (u32 bno) in
  do! upd_data bp (fun _ => zero_block);
  do! log_write bp;
  brelse bp.

(** m = 1 << (bi % 8), and bp->data[bi/8] & m *)
Definition bit_mask (bi : Z) : Z := Z.shiftl 1 (bi mod 8).
Definition bit_of (d : list Z) (bi : Z) : Z := Z.land (nth (Z.to_nat (bi / 8)) d 0) (bit_mask bi).
Definition set_bit (d : list Z) (bi : Z) : list Z :=
  alter (fun x => Z.lor x (bit_mask bi)) (Z.to_nat (bi / 8)) d.
Definition clear_bit (d : list Z) (bi : Z) : list Z :=
  alter (fun x => Z.land x (u8 (Z.lnot (bit_mask bi)))) (Z.to_nat (bi / 8)) d.

(** for(bi = 0; bi < BPB && b + bi < sb.size; bi++) until a clear bit *)
Fixpoint scan_bits (d : list Z) (size b bi : Z) (n : nat) : option Z :=
  match n with
  | O => None
  | S n' =>
      if negb (b + bi <? size) then None
      else if bit_of d bi =? 0 then Some bi
      else scan_bits d size b (bi + 1) n'
  end.

Definition balloc_body (dev size b : Z) : K (Z + option Z) :=
  if negb (b <? size) then ret (inr None) else
  let! sb := gets k_sb in
  let! bp := bread dev (BBLOCK b sb) in
  let! x := gets (buf_at bp) in
  match scan_bits (b_data x) size b 0 (Z.to_nat BPB) with
  | Some bi =>
      do! upd_data bp (fun d => set_bit d bi);
      do! log_write bp;
      do! brelse bp;
      do! bzero dev (b + bi);
      ret (inr (Some (b + bi)))
  | None =>
      do! brelse bp;
      ret (inl (b + BPB))
  end.

Definition balloc (dev : Z) : K Z :=
  let! sb := gets k_sb in
  let! r := loop (S (S (Z.to_nat (sb_size sb / BPB)))) (balloc_body dev (sb_size sb)) 0 in
  match r with
  | Some b => ret b
  | None =>
      do! printf (str "balloc: out of blocks" ++ [nl]) [];
      ret 0
  end.

Definition bfree (dev b : Z) : K unit :=
  let! sb := gets k_sb in
  let! bp := bread (u32 dev) (BBLOCK b sb) in
  let bi := b mod BPB in
  let! x := gets (buf_at bp) in
  if bit_of (b_data x) bi =? 0 then panic "freeing free block" else
  do! upd_data bp (fun d => clear_bit d bi);
  do! log_write bp;
  brelse bp.

(** ** Inodes *)

Definition inode_indices : list nat := seq 0 (Z.to_nat NINODE).

Definition iinit : K unit :=
  do! initlock LItable "itable";
  for_each inode_indices (fun i => initsleeplock (SInode i) "inode").

(** The loop of iget(): the entry for the inode, or the first free entry. *)
Fixpoint iget_scan (l : list nat) (dev inum : Z) (empty : option nat) : K (nat + option nat) :=
  match l with
  | [] => ret (inr empty)
  | i :: l' =>
      let! ip := gets (inode_at i) in
      if (0 <? i_ref ip) && (i_dev ip =? dev) && (i_inum ip =? inum) then ret (inl i)
      else iget_scan l' dev inum
             (match empty with Some _ => empty | None => if i_ref ip =? 0 then Some i else None end)
  end.

Definition iget (dev inum : Z) : K nat :=
  do! acquire LItable;
  let! r := iget_scan inode_indices dev inum None in
  match r with
  | inl i =>
      do! upd_inode i (fun ip => set_i_ref (i32 (i_ref ip + 1)) ip);
      do! release LItable;
      ret i
  | inr None => panic "iget: no inodes"
  | inr (Some i) =>
      do! upd_inode i (set_i_dev dev);
      do! upd_inode i (set_i_inum inum);
      do! upd_inode i (set_i_ref 1);
      do! upd_inode i (set_i_valid 0);
      do! release LItable;
      ret i
  end.

(** The dinode is cleared and given its type. *)
Definition new_dinode (type : Z) (o : nat) (d : list Z) : list Z :=
  wr 2 (splice d o (replicate (Z.to_nat DINODE) 0)) o type.

Definition ialloc_body (dev type inum : Z) : K (Z + option nat) :=
  let! sb := gets k_sb in
  if negb (inum <? sb_ninodes sb) then ret (inr None) else
  let! bp := bread dev (IBLOCK inum sb) in
  let! x := gets (buf_at bp) in
  let o := dinode_off inum in
  if i16 (rd 2 (b_data x) o) =? 0 then
    do! upd_data bp (new_dinode type o);
    do! log_write bp;
    do! brelse bp;
    let! i := iget dev inum in
    ret (inr (Some i))
  else
    do! brelse bp;
    ret (inl (inum + 1)).

Definition ialloc (dev type : Z) : K (option nat) :=
  let! sb := gets k_sb in
  let! r := loop (S (Z.to_nat (sb_ninodes sb))) (ialloc_body dev type) 1 in
  match r with
  | Some i => ret (Some i)
  | None =>
      do! printf (str "ialloc: no inodes" ++ [nl]) [];
      ret None
  end.

Definition iupdate (i : nat) : K unit :=
  let! ip := gets (inode_at i) in
  let! sb := gets k_sb in
  let! bp := bread (i_dev ip) (IBLOCK (i_inum ip) sb) in
  let! ip := gets (inode_at i) in
  do! upd_data bp (fun d => put_dinode d (dinode_off (i_inum ip)) ip);
  do! log_write bp;
  brelse bp.

Definition idup (i : nat) : K nat :=
  do! acquire LItable;
  do! upd_inode i (fun ip => set_i_ref (i32 (i_ref ip + 1)) ip);
  do! release LItable;
  ret i.

(** ilock() after acquiresleep(). *)
Definition ilock_load (i : nat) : K unit :=
  let! ip := gets (inode_at i) in
  if i_valid ip =? 0 then
    let! sb := gets k_sb in
    let! bp := bread (i_dev ip) (IBLOCK (i_inum ip) sb) in
    let! x := gets (buf_at bp) in
    do! upd_inode i (get_dinode (b_data x) (dinode_off (i_inum ip)));
    do! brelse bp;
    do! upd_inode i (set_i_valid 1);
    let! ip := gets (inode_at i) in
    if i_type ip =? 0 then panic "ilock: no type" else ret tt
  else ret tt.

Definition ilock (ip : option nat) : K unit :=
  match ip with
  | None => panic "ilock"
  | Some i =>
      let! x := gets (inode_at i) in
      if i_ref x <? 1 then panic "ilock" else
      do! acquiresleep (SInode i);
      ilock_load i
  end.

Definition iunlock (ip : option nat) : K unit :=
  match ip with
  | None => panic "iunlock"
  | Some i =>
      let! h := holdingsleep (SInode i) in
      if negb (truth h) then panic "iunlock" else
      let! x := gets (inode_at i) in
      if i_ref x <? 1 then panic "iunlock" else
      releasesleep (SInode i)
  end.

(** if(ip->addrs[i]){ bfree(ip->dev, ip->addrs[i]); ip->addrs[i] = 0; } *)
Definition itrunc_direct (i j : nat) : K unit :=
  let! ip := gets (inode_at i) in
  if truth (nth j (i_addrs ip) 0) then
    do! bfree (i_dev ip) (nth j (i_addrs ip) 0);
    upd_inode i (fun ip => set_i_addrs (<[j := 0]> (i_addrs ip)) ip)
  else ret tt.

(** if(a[j]) bfree(ip->dev, a[j]); *)
Definition itrunc_indirect (i bp j : nat) : K unit :=
  let! x := gets (buf_at bp) in
  let a := rd 4 (b_data x) (4 * j) in
  if truth a then
    let! ip := gets (inode_at i) in
    bfree (i_dev ip) a
  else ret tt.

Definition itrunc (i : nat) : K unit :=
  do! for_each (seq 0 (Z.to_nat NDIRECT)) (itrunc_direct i);
  let! ip := gets (inode_at i) in
  let ind := nth (Z.to_nat NDIRECT) (i_addrs ip) 0 in
  do! (if truth ind then
         let! bp := bread (i_dev ip) ind in
         do! for_each (seq 0 (Z.to_nat NINDIRECT)) (itrunc_indirect i bp);
         do! brelse bp;
         do! bfree (i_dev ip) ind;
         upd_inode i (fun ip => set_i_addrs (<[Z.to_nat NDIRECT := 0]> (i_addrs ip)) ip)
       else ret tt);
  do! upd_inode i (set_i_size 0);
  iupdate i.

Definition iput (i : nat) : K unit :=
  do! acquire LItable;
  let! ip := gets (inode_at i) in
  do! (if (i_ref ip =? 1) && truth (i_valid ip) && (i_nlink ip =? 0) then
         do! acquiresleep (SInode i);
         do! release LItable;
         do! itrunc i;
         do! upd_inode i (set_i_type 0);
         do! iupdate i;
         do! upd_inode i (set_i_valid 0);
         do! releasesleep (SInode i);
         acquire LItable
       else ret tt);
  do! upd_inode i (fun ip => set_i_ref (i32 (i_ref ip - 1)) ip);
  release LItable.

Definition iunlockput (ip : option nat) : K unit :=
  do! iunlock ip;
  match ip with Some i => iput i | None => fault end.

(** ** Inode content *)

Definition set_addr (i j : nat) (addr : Z) : K unit :=
  upd_inode i (fun ip => set_i_addrs (<[j := addr]> (i_addrs ip)) ip).

(** The block number in ip->addrs[j], allocated if there is none; 0 if the disk
    is full. *)
Definition bmap_addr (i j : nat) : K Z :=
  let! ip := gets (inode_at i) in
  let addr := nth j (i_addrs ip) 0 in
  if addr =? 0 then
    let! addr := balloc (i_dev ip) in
    if addr =? 0 then ret 0 else
    do! set_addr i j addr;
    ret addr
  else ret addr.

Definition bmap (i : nat) (bn : Z) : K Z :=
  if bn <? NDIRECT then bmap_addr i (Z.to_nat bn) else
  let bn := bn - NDIRECT in
  if bn <? NINDIRECT then
    let! addr := bmap_addr i (Z.to_nat NDIRECT) in
    if addr =? 0 then ret 0 else
    let! ip := gets (inode_at i) in
    let! bp := bread (i_dev ip) addr in
    let! x := gets (buf_at bp) in
    let! addr := (
      let a := rd 4 (b_data x) (4 * Z.to_nat bn) in
      if a =? 0 then
        let! addr := balloc (i_dev ip) in
        do! (if truth addr then
               do! upd_data bp (fun d => wr 4 d (4 * Z.to_nat bn) addr);
               log_write bp
             else ret tt);
        ret addr
      else ret a) in
    do! brelse bp;
    ret addr
  else panic "bmap: out of range".

Definition stati (i : nat) : K stat :=
  gets (fun k => let ip := inode_at i k in
    mkStat (i32 (i_dev ip)) (i_inum ip) (i_type ip) (i_nlink ip) (i_size ip)).

(** One block of readi(), at (tot, off, dst) with the bytes [got] copied so far. *)
Definition readi_body (i : nat) (n : Z) (x : Z * Z * dest * list Z) : K (Z * Z * dest * list Z + Z * list Z) :=
  let '(tot, off, dst, got) := x in
  if negb (tot <? n) then ret (inr (tot, got)) else
  let! addr := bmap i (off / BSIZE) in
  if addr =? 0 then ret (inr (tot, got)) else
  let! ip := gets (inode_at i) in
  let! bp := bread (i_dev ip) addr in
  let m := Z.min (n - tot) (BSIZE - off mod BSIZE) in
  let! b := gets (buf_at bp) in
  let src := slice (b_data b) (Z.to_nat (off mod BSIZE)) (Z.to_nat m) in
  let! r := either_copyout dst src in
  if r =? -1 then
    do! brelse bp;
    ret (inr (-1, got))
  else
    do! brelse bp;
    ret (inl (tot + m, u32 (off + m), dest_add dst m, got ++ src)).

Definition readi (i : nat) (dst : dest) (off n : Z) : K (Z * list Z) :=
  let! ip := gets (inode_at i) in
  if (i_size ip <? off) || (u32 (off + n) <? off) then ret (0, []) else
  let n := if i_size ip <? u32 (off + n) then u32 (i_size ip - off) else n in
  loop (S (Z.to_nat n)) (readi_body i n) (0, off, dst, []).

(** One block of writei(), at (tot, off, src); the result is (tot, off). *)
Definition writei_body (i : nat) (n : Z) (x : Z * Z * source) : K (Z * Z * source + Z * Z) :=
  let '(tot, off, src) := x in
  if negb (tot <? n) then ret (inr (tot, off)) else
  let! addr := bmap i (off / BSIZE) in
  if addr =? 0 then ret (inr (tot, off)) else
  let! ip := gets (inode_at i) in
  let! bp := bread (i_dev ip) addr in
  let m := Z.min (n - tot) (BSIZE - off mod BSIZE) in
  let! r := either_copyin src m in
  do! upd_data bp (fun d => splice d (Z.to_nat (off mod BSIZE)) (snd r));
  if fst r =? -1 then
    do! brelse bp;
    ret (inr (tot, off))
  else
    do! log_write bp;
    do! brelse bp;
    ret (inl (tot + m, u32 (off + m), source_add src m)).

Definition writei (i : nat) (src : source) (off n : Z) : K Z :=
  let! ip := gets (inode_at i) in
  if (i_size ip <? off) || (u32 (off + n) <? off) then ret (-1) else
  if MAXFILE * BSIZE <? u32 (off + n) then ret (-1) else
  let! r := loop (S (Z.to_nat n)) (writei_body i n) (0, off, src) in
  let! ip := gets (inode_at i) in
  do! (if i_size ip <? snd r then upd_inode i (set_i_size (snd r)) else ret tt);
  do! iupdate i;
  ret (fst r).

(** ** Directories *)

(** strncmp() and strncpy() on the characters of a string or an array. *)
Fixpoint strncmp_list (n : nat) (s t : list Z) : Z :=
  match n with
  | O => 0
  | S n' =>
      let a := hd 0 s in let b := hd 0 t in
      if truth a && (a =? b) then strncmp_list n' (tl s) (tl t) else a - b
  end.

Definition namecmp (s t : list Z) : Z := strncmp_list (Z.to_nat DIRSIZ) s t.

(** struct dirent in 16 bytes *)
Definition de_inum (de : list Z) : Z := rd 2 de 0.
Definition de_name (de : list Z) : list Z := drop 2 de.
Definition mk_dirent (name : list Z) (inum : Z) : list Z :=
  let s := take (Z.to_nat DIRSIZ) (cstr name) in
  le_bytes 2 inum ++ s ++ replicate (Z.to_nat DIRSIZ - length s) 0.

(** readi(dp, 0, &de, off, sizeof(de)) *)
Definition read_dirent (dp : nat) (off : Z) (msg : string) : K (list Z) :=
  let! r := readi dp DLocal off DIRENT in
  if negb (fst r =? DIRENT) then panic msg else ret (snd r).

Definition dirlookup_body (dp : nat) (name : list Z) (off : Z) : K (Z + option (nat * Z)) :=
  let! ip := gets (inode_at dp) in
  if negb (off <? i_size ip) then ret (inr None) else
  let! de := read_dirent dp off "dirlookup read" in
  if de_inum de =? 0 then ret (inl (off + DIRENT)) else
  if namecmp name (de_name de) =? 0 then
    let! i := iget (i_dev ip) (de_inum de) in
    ret (inr (Some (i, off)))
  else ret (inl (off + DIRENT)).

(** The inode with the offset of its entry, for *poff. *)
Definition dirlookup (dp : nat) (name : list Z) : K (option (nat * Z)) :=
  let! ip := gets (inode_at dp) in
  if negb (i_type ip =? T_DIR) then panic "dirlookup not DIR" else
  loop (S (S (Z.to_nat (i_size ip / DIRENT)))) (dirlookup_body dp name) 0.

Definition dirlink_body (dp : nat) (off : Z) : K (Z + Z) :=
  let! ip := gets (inode_at dp) in
  if negb (off <? i_size ip) then ret (inr off) else
  let! de := read_dirent dp off "dirlink read" in
  if de_inum de =? 0 then ret (inr off) else ret (inl (off + DIRENT)).

Definition dirlink (dp : nat) (name : list Z) (inum : Z) : K Z :=
  let! r := dirlookup dp name in
  match r with
  | Some (i, _) =>
      do! iput i;
      ret (-1)
  | None =>
      let! ip := gets (inode_at dp) in
      let! off := loop (S (S (Z.to_nat (i_size ip / DIRENT)))) (dirlink_body dp) 0 in
      let! n := writei dp (SLocal (mk_dirent name inum)) off DIRENT in
      if negb (n =? DIRENT) then ret (-1) else ret 0
  end.

(** ** Paths *)

Definition slash : Z := chr "/".

Fixpoint skip_slashes (path : list Z) : list Z :=
  match path with
  | c :: path' => if c =? slash then skip_slashes path' else path
  | [] => []
  end.

(** The characters before the next slash, and the rest. *)
Fixpoint span_elem (path : list Z) : list Z * list Z :=
  match path with
  | [] => ([], [])
  | c :: path' =>
      if c =? slash then ([], path)
      else let '(s, rest) := span_elem path' in (c :: s, rest)
  end.

(** The path after the first element, and the element cut to DIRSIZ. *)
Definition skipelem (path : list Z) : option (list Z * list Z) :=
  match skip_slashes path with
  | [] => None
  | path =>
      let '(s, rest) := span_elem path in
      Some (skip_slashes rest, take (Z.to_nat DIRSIZ) s)
  end.

Definition namex_body (nameiparent : bool) (x : nat * list Z * list Z)
  : K (nat * list Z * list Z + option nat * list Z) :=
  let '(i, path, name) := x in
  match skipelem path with
  | None =>
      if nameiparent then do! iput i; ret (inr (None, name)) else ret (inr (Some i, name))
  | Some (path, name) =>
      do! ilock (Some i);
      let! ip := gets (inode_at i) in
      if negb (i_type ip =? T_DIR) then
        do! iunlockput (Some i);
        ret (inr (None, name))
      else if nameiparent && bool_decide (path = []) then
        do! iunlock (Some i);
        ret (inr (Some i, name))
      else
        let! next := dirlookup i name in
        match next with
        | None =>
            do! iunlockput (Some i);
            ret (inr (None, name))
        | Some (next, _) =>
            do! iunlockput (Some i);
            ret (inl (next, path, name))
        end
  end.

(** myproc()->cwd *)
Definition cwd : K nat :=
  let! mp := myproc in
  match mp with
  | None => fault
  | Some p =>
      let! c := gets (fun k => p_cwd (proc_at p k)) in
      match c with None => fault | Some i => ret i end
  end.

Definition namex (path : list Z) (nameiparent : bool) : K (option nat * list Z) :=
  let! i := (if hd 0 path =? slash then iget ROOTDEV ROOTINO else let! c := cwd in idup c) in
  loop (S (length path)) (namex_body nameiparent) (i, path, []).

Definition namei (path : list Z) : K (option nat) :=
  let! r := namex path false in
  ret (fst r).

Definition nameiparent (path : list Z) : K (option nat * list Z) := namex path true.

End fs.
