(* ===== verification/Fsdisk.v ===== *)
(** * Fsdisk: inodes and the free map on disk

    The theorems about fs.c that concern the disk.  Inside a transaction (file
    Trans), [view] is what each block reads as.  An inode on disk is a slice of
    its block, a block is free or not according to its bit in the free map; the
    theorems say that iupdate(), ilock(), balloc() and bfree() read and change
    exactly these. *)

From Stdlib Require Import ZArith Lia.
From stdpp Require Import base gmap list strings.
From S2P Require Import Prelude Bytes State Spinlock Sched Sleeplock Mem Bio Log Trans Uart Printf Console Fs.

(** ** The bytes of a dinode *)

Lemma rd_wr_mod n data off z : (off + n <= length data)%nat ->
  rd n (wr n data off z) off = z mod 256 ^ Z.of_nat n.
Proof.
  intros Hl. unfold rd, wr. rewrite <- le_val_bytes. f_equal.
  rewrite <- (slice_splice_same data off (le_bytes n z)) at 2 by by rewrite length_le_bytes.
  by rewrite length_le_bytes.
Qed.

(** Goals about the length of a block with fields written. *)
Ltac wr_length :=
  lazymatch goal with
  | |- context [length (wr ?n ?d ?o ?z)] => rewrite (length_wr n d o z); wr_length
  | _ => lia
  end.

Lemma length_put_addrs l d o : (o + 4 * length l <= length d)%nat ->
  length (put_addrs d o l) = length d.
Proof.
  revert d o. induction l as [|a l IH]; intros d o Hl; cbn in *; [done|].
  rewrite IH; rewrite length_wr; lia.
Qed.

Lemma put_addrs_bytes l d o : Forall is_byte d -> Forall is_byte (put_addrs d o l).
Proof. revert d o. induction l as [|a l IH]; intros d o Hd; cbn; auto with bytes. Qed.

Lemma put_addrs_other l d o m off : (o + 4 * length l <= length d)%nat ->
  (off + m <= o \/ o + 4 * length l <= off)%nat -> rd m (put_addrs d o l) off = rd m d off.
Proof.
  revert d o. induction l as [|a l IH]; intros d o Hl Ho; cbn in *; [done|].
  rewrite IH by (rewrite ?length_wr; lia). apply rd_wr_other; lia.
Qed.

Lemma put_addrs_at l d o j a : (o + 4 * length l <= length d)%nat -> l !! j = Some a -> 0 <= a < 2 ^ 32 ->
  rd 4 (put_addrs d o l) (o + 4 * j) = a.
Proof.
  revert d o j. induction l as [|b l IH]; intros d o j Hl Hj Ha; [done|]. cbn [length put_addrs] in *.
  destruct j as [|j]; cbn in Hj.
  - injection Hj as ->. rewrite put_addrs_other by (rewrite ?length_wr; lia).
    replace (o + 4 * 0)%nat with o by lia. apply rd_wr_same; [lia|exact Ha].
  - replace (o + 4 * S j)%nat with (o + 4 + 4 * j)%nat by lia. apply IH; [rewrite length_wr; lia|done|done].
Qed.

(** The values the fields of an inode can have. *)
Record inode_wf (ip : inode) : Prop := {
  iw_type : - 2 ^ 15 <= i_type ip < 2 ^ 15;
  iw_major : - 2 ^ 15 <= i_major ip < 2 ^ 15;
  iw_minor : - 2 ^ 15 <= i_minor ip < 2 ^ 15;
  iw_nlink : - 2 ^ 15 <= i_nlink ip < 2 ^ 15;
  iw_size : 0 <= i_size ip < 2 ^ 32;
  iw_addrs : length (i_addrs ip) = Z.to_nat (NDIRECT + 1);
  iw_addr : Forall (fun a => 0 <= a < 2 ^ 32) (i_addrs ip) }.

(** [ip0] with the fields that are on disk taken from [ip]. *)
Definition disk_fields (ip ip0 : inode) : inode :=
  set_i_addrs (i_addrs ip) (set_i_size (i_size ip) (set_i_nlink (i_nlink ip)
    (set_i_minor (i_minor ip) (set_i_major (i_major ip) (set_i_type (i_type ip) ip0))))).

Lemma i16_mod z : - 2 ^ 15 <= z < 2 ^ 15 -> i16 (z mod 256 ^ Z.of_nat 2) = z.
Proof.
  intros Hz. unfold i16. change (256 ^ Z.of_nat 2) with (2 ^ 16).
  rewrite Z.add_mod_idemp_l by done. rewrite Z.mod_small by lia. lia.
Qed.

(** put_dinode() without its addresses. *)
Definition put_head (d : list Z) (o : nat) (ip : inode) : list Z :=
  wr 4 (wr 2 (wr 2 (wr 2 (wr 2 d o (i_type ip)) (o + 2) (i_major ip)) (o + 4) (i_minor ip)) (o + 6) (i_nlink ip))
    (o + 8) (i_size ip).

Lemma put_dinode_head d o ip : put_dinode d o ip = put_addrs (put_head d o ip) (o + 12) (i_addrs ip).
Proof. reflexivity. Qed.

Lemma length_put_head d o ip : (o + 12 <= length d)%nat -> length (put_head d o ip) = length d.
Proof. intros Hl. unfold put_head. wr_length. Qed.

Lemma put_head_other d o ip m off : (o + 12 <= length d)%nat -> (off + m <= o \/ o + 12 <= off)%nat ->
  rd m (put_head d o ip) off = rd m d off.
Proof. intros Hl Ho. unfold put_head. rewrite !rd_wr_other; (done || wr_length). Qed.

Lemma length_put_dinode d o ip : length (i_addrs ip) = Z.to_nat (NDIRECT + 1) -> (o + 64 <= length d)%nat ->
  length (put_dinode d o ip) = length d.
Proof.
  intros Ha Hl. change (Z.to_nat (NDIRECT + 1)) with 13%nat in Ha.
  rewrite put_dinode_head, length_put_addrs; rewrite length_put_head; lia.
Qed.

Lemma put_dinode_bytes d o ip : Forall is_byte d -> Forall is_byte (put_dinode d o ip).
Proof. intros Hd. apply put_addrs_bytes. auto 8 with bytes. Qed.

Lemma get_put_dinode d o ip ip0 : (o + 64 <= length d)%nat -> inode_wf ip ->
  get_dinode (put_dinode d o ip) o ip0 = disk_fields ip ip0.
Proof.
  intros Hl [W1 W2 W3 W4 W5 W6 W7]. unfold get_dinode, disk_fields. change (Z.to_nat (NDIRECT + 1)) with 13%nat in *.
  rewrite put_dinode_head.
  assert (Hp : forall m off, (off + m <= o + 12)%nat ->
    rd m (put_addrs (put_head d o ip) (o + 12) (i_addrs ip)) off = rd m (put_head d o ip) off).
  { intros m off Ho. apply put_addrs_other; rewrite ?length_put_head; lia. }
  rewrite !Hp by lia. unfold put_head.
  set (d1 := wr 2 d o (i_type ip)). set (d2 := wr 2 d1 (o + 2) (i_major ip)).
  set (d3 := wr 2 d2 (o + 4) (i_minor ip)). set (d4 := wr 2 d3 (o + 6) (i_nlink ip)).
  assert (L1 : length d1 = length d) by (apply length_wr; lia).
  assert (L2 : length d2 = length d) by (rewrite <- L1; apply length_wr; lia).
  assert (L3 : length d3 = length d) by (rewrite <- L2; apply length_wr; lia).
  assert (L4 : length d4 = length d) by (rewrite <- L3; apply length_wr; lia).
  rewrite (rd_wr_same 4) by (lia || exact W5). rewrite !(rd_wr_other 4) by lia.
  unfold d4. rewrite (rd_wr_mod 2 d3), !(rd_wr_other 2 d3) by lia.
  unfold d3. rewrite (rd_wr_mod 2 d2), !(rd_wr_other 2 d2) by lia.
  unfold d2. rewrite (rd_wr_mod 2 d1), !(rd_wr_other 2 d1) by lia.
  unfold d1. rewrite (rd_wr_mod 2 d) by lia.
  rewrite !i16_mod by done. f_equal.
  apply list_eq. intros j. rewrite list_lookup_fmap.
  destruct (decide (j < 13)%nat) as [Hj|Hj].
  - rewrite lookup_seq_lt by done. cbn [fmap option_fmap option_map].
    destruct (lookup_lt_is_Some_2 (i_addrs ip) j ltac:(lia)) as [a Ha]. rewrite Ha. f_equal.
    apply put_addrs_at; [|done|exact (Forall_lookup_1 _ _ _ _ W7 Ha)].
    change (wr 4 _ (o + 8) (i_size ip)) with (put_head d o ip). rewrite length_put_head; lia.
  - rewrite lookup_seq_ge by lia. by rewrite lookup_ge_None_2 by lia.
Qed.

Lemma get_put_dinode_other d o ip o' ip0 : length (i_addrs ip) = Z.to_nat (NDIRECT + 1) ->
  (o + 64 <= length d)%nat -> (o' + 64 <= o \/ o + 64 <= o')%nat ->
  get_dinode (put_dinode d o ip) o' ip0 = get_dinode d o' ip0.
Proof.
  intros Ha Hl Ho. change (Z.to_nat (NDIRECT + 1)) with 13%nat in Ha. rewrite put_dinode_head.
  assert (Hp : forall m off, (o' <= off)%nat -> (off + m <= o' + 64)%nat ->
    rd m (put_addrs (put_head d o ip) (o + 12) (i_addrs ip)) off = rd m d off).
  { intros m off H1 H2. rewrite put_addrs_other by (rewrite ?length_put_head; lia).
    apply put_head_other; lia. }
  unfold get_dinode. rewrite !Hp by lia. f_equal.
  apply list_fmap_ext. intros j x [-> Hx]%lookup_seq. change (Z.to_nat (NDIRECT + 1)) with 13%nat in Hx.
  apply Hp; lia.
Qed.

(** ** Inodes on disk *)

Lemma dinode_off_fits n : (dinode_off n + 64 <= 1024)%nat.
Proof.
  unfold dinode_off. change IPB with 16. change DINODE with 64.
  pose proof (Z.mod_pos_bound n 16 ltac:(lia)). lia.
Qed.

(** Two inodes of one block do not overlap. *)
Lemma dinode_off_disjoint n m : n / IPB = m / IPB -> n <> m ->
  (dinode_off n + 64 <= dinode_off m \/ dinode_off m + 64 <= dinode_off n)%nat.
Proof.
  unfold dinode_off. change IPB with 16. change DINODE with 64. intros Hq Hne.
  pose proof (Z.div_mod n 16 ltac:(lia)). pose proof (Z.div_mod m 16 ltac:(lia)).
  pose proof (Z.mod_pos_bound n 16 ltac:(lia)). pose proof (Z.mod_pos_bound m 16 ltac:(lia)). lia.
Qed.

Lemma inode_at_alter i f k j : (i < length (k_inodes k))%nat ->
  inode_at j (set_k_inodes (alter f i (k_inodes k)) k) = if decide (j = i) then f (inode_at i k) else inode_at j k.
Proof.
  intros Hi. unfold inode_at. cbn. case_decide as E.
  - subst. rewrite list_lookup_alter_eq. by destruct (lookup_lt_is_Some_2 _ _ Hi) as [x ->].
  - by rewrite list_lookup_alter_ne.
Qed.

Section disk_inodes.
Context `{Disk}.
Variables (D start size : Z) (p : nat) (sb : superblock).
Hypothesis D_ok : 0 < D < 2 ^ 31.
Hypothesis start_ok : 0 <= start /\ 0 < size /\ start + size < 2 ^ 31.

#[local] Abbreviation trans := (in_trans D start size p).
#[local] Abbreviation vw := (view D).

(** An inode number whose block is on the disk, outside the log. *)
Definition inum_ok (n : Z) : Prop :=
  0 <= n / IPB + sb_inodestart sb < 2 ^ 32 /\ home start size (IBLOCK n sb).

(** What the disk holds for inode [n], in an entry of the table. *)
Definition dinode (k : kstate) (n : Z) (ip0 : inode) : inode :=
  get_dinode (vw k (IBLOCK n sb)) (dinode_off n) ip0.

Lemma IBLOCK_same n m : inum_ok n -> inum_ok m -> IBLOCK n sb = IBLOCK m sb -> n / IPB = m / IPB.
Proof. intros [Hn _] [Hm _] E. unfold IBLOCK in E. rewrite !u32_small in E by lia. lia. Qed.

Lemma view_length J held k b : trans J held k -> length (vw k b) = 1024%nat.
Proof. intros Hit. by destruct (view_ok D p held _ k b (it_inv _ _ _ _ _ _ _ Hit)). Qed.

Lemma put_dinode_ok J held k b n ip : trans J held k -> inode_wf ip ->
  block_ok (put_dinode (vw k b) (dinode_off n) ip).
Proof.
  intros Hit Hw. destruct (view_ok D p held _ k b (it_inv _ _ _ _ _ _ _ Hit)) as [Hl Hb].
  pose proof (dinode_off_fits n). split; [|by apply put_dinode_bytes].
  rewrite length_put_dinode; [done|by destruct Hw|rewrite Hl; exact H0].
Qed.

Lemma iupdate_run J k i : trans J ∅ k -> k_sb k = sb -> i_dev (inode_at i k) = D ->
  inode_wf (inode_at i k) -> inum_ok (i_inum (inode_at i k)) ->
  (S (length J) < HEAD)%nat -> Z.of_nat (length J) + 2 <= size ->
  exists J' k', iupdate i k = Ret tt k' /\ trans J' ∅ k' /\ tr_step {[IBLOCK (i_inum (inode_at i k)) sb]} k k' /\
    J ⊆ J' /\ (length J' <= S (length J))%nat /\
    (forall b, b <> IBLOCK (i_inum (inode_at i k)) sb -> vw k' b = vw k b) /\
    (forall n ip0, inum_ok n -> dinode k' n ip0 =
       if decide (n = i_inum (inode_at i k)) then disk_fields (inode_at i k) ip0 else dinode k n ip0).
Proof.
  intros Hit Hsb Hdev Hw Hn R1 R2. set (ip := inode_at i k) in *. set (n0 := i_inum ip) in *.
  set (f := fun d => put_dinode d (dinode_off n0) ip).
  destruct (trans_update D start size p D_ok start_ok J ∅ k (IBLOCK n0 sb) f) as
    (bp & k0 & k1 & J' & k2 & k3 & E0 & S0 & _ & E1 & E2 & E3 & I3 & S3 & HJ & Hlen & V3 & _);
    [done|by destruct Hn|set_solver|done|done|by rewrite size_empty, Nat.add_0_r|by eapply put_dinode_ok|].
  exists J', k3. split_and!; try done.
  - unfold iupdate. erewrite bind_ret_run by reflexivity. erewrite bind_ret_run by reflexivity.
    fold ip. rewrite Hdev, Hsb. fold n0. erewrite bind_ret_run by exact E0.
    erewrite bind_ret_run by reflexivity.
    replace (inode_at i k0) with ip.
    2: { unfold ip, inode_at. destruct (tr_step_frame _ _ _ S0) as (-> & _). done. }
    fold n0. fold f. erewrite bind_ret_run by exact E1. erewrite bind_ret_run by exact E2. exact E3.
  - intros b Hb. rewrite V3. by rewrite decide_False.
  - intros n ip0 Hok. unfold dinode. rewrite V3. case_decide as E; case_decide as E'.
    + subst n. apply get_put_dinode; [|done]. erewrite view_length by done. apply dinode_off_fits.
    + unfold f. rewrite E. apply get_put_dinode_other; [by destruct Hw| |].
      * erewrite view_length by done. apply dinode_off_fits.
      * apply dinode_off_disjoint; [by apply IBLOCK_same|done].
    + by subst n.
    + done.
Qed.

(** ilock() once the sleep lock is held. *)
Lemma ilock_load_run J k i : trans J ∅ k -> k_sb k = sb -> i_dev (inode_at i k) = D ->
  (i < length (k_inodes k))%nat -> inum_ok (i_inum (inode_at i k)) -> (length J < HEAD)%nat ->
  i_valid (inode_at i k) = 0 ->
  let ip' := set_i_valid 1 (dinode k (i_inum (inode_at i k)) (inode_at i k)) in
  if decide (i_type ip' = 0) then ilock_load i k = Panic "ilock: no type" else
  exists k', ilock_load i k = Ret tt k' /\ trans J ∅ k' /\ (forall b, vw k' b = vw k b) /\
    (forall j, inode_at j k' = if decide (j = i) then ip' else inode_at j k) /\
    exists k0, bio_step k k0 /\ k' = set_k_inodes (alter (set_i_valid 1) i
      (alter (fun x => dinode k (i_inum x) x) i (k_inodes k))) k0.
Proof.
  intros Hit Hsb Hdev Hi Hn Hroom Hv. set (ip := inode_at i k) in *. cbv zeta. set (n0 := i_inum ip) in *.
  set (ip' := set_i_valid 1 (dinode k n0 ip)).
  destruct (trans_read D start size p D_ok start_ok J ∅ k (IBLOCK n0 sb) Hit) as
    (bp & k0 & E0 & Hb & _ & I0 & S0 & B0 & D0 & V0 & Rl & _ & Kd).
  { by destruct Hn as [_ [? _]]. }
  { set_solver. }
  { by rewrite size_empty, Nat.add_0_r. }
  set (k1 := set_k_inodes (alter (get_dinode (b_data (buf_at bp k0)) (dinode_off n0)) i (k_inodes k0)) k0).
  assert (I1 : trans J ({[bp]} ∪ ∅) k1) by by apply in_trans_inodes.
  destruct (trans_release D start size p J _ k1 bp I1) as (k2 & E2 & I2 & S2 & C2 & V2 & _); [set_solver|exact Rl|].
  assert (Ei0 : k_inodes k0 = k_inodes k) by (destruct (tr_step_frame _ _ _ (tr_step_bio ∅ _ _ S0)) as (-> & _); done).
  assert (Ei : k_inodes k2 = k_inodes k1) by (destruct (tr_step_frame _ _ _ (tr_step_bio ∅ _ _ S2)) as (-> & _); done).
  set (k3 := set_k_inodes (alter (set_i_valid 1) i (k_inodes k2)) k2).
  assert (Hat : forall j, inode_at j k3 = if decide (j = i) then ip' else inode_at j k).
  { intros j. unfold k3. rewrite inode_at_alter by (rewrite Ei; cbn; rewrite length_alter, Ei0; done).
    assert (H2 : forall j, inode_at j k2 = inode_at j k1) by (intros; unfold inode_at; by rewrite Ei).
    assert (H1 : forall j, inode_at j k1 = if decide (j = i) then dinode k n0 ip else inode_at j k).
    { intros j'. unfold k1. rewrite inode_at_alter by (by rewrite Ei0).
      assert (H0' : forall j, inode_at j k0 = inode_at j k) by (intros; unfold inode_at; by rewrite Ei0).
      rewrite !H0', D0. done. }
    rewrite !H2, !H1. case_decide; [|done]. by rewrite decide_True. }
  assert (Erun : ilock_load i k = if i_type ip' =? 0 then Panic "ilock: no type" else Ret tt k3).
  { unfold ilock_load. erewrite bind_ret_run by reflexivity. fold ip. rewrite Hv. change (0 =? 0) with true. cbv iota.
    erewrite bind_ret_run by reflexivity. rewrite Hdev, Hsb. fold n0. erewrite bind_ret_run by exact E0.
    erewrite bind_ret_run by reflexivity. erewrite bind_ret_run by reflexivity. fold k1.
    erewrite bind_ret_run by exact E2. erewrite bind_ret_run by reflexivity. fold k3.
    erewrite bind_ret_run by reflexivity. rewrite Hat, decide_True by done. by destruct (i_type ip' =? 0). }
  case_decide as Et.
  - rewrite Erun. by destruct (Z.eqb_spec (i_type ip') 0).
  - exists k3. split_and!.
    + rewrite Erun. by destruct (Z.eqb_spec (i_type ip') 0).
    + apply in_trans_inodes. by replace (({[bp]} ∪ ∅) ∖ {[bp]}) with (∅ : gset nat) in I2 by set_solver.
    + intros b. change (vw k3 b) with (vw k2 b). rewrite V2. change (vw k1 b) with (vw k0 b). by rewrite V0.
    + exact Hat.
    + exists (set_k_inodes (k_inodes k) k2). split.
      * destruct S2 as (bs & sl & d & ws & v & ps & -> & Hw). 
        eapply bio_step_trans; [exact S0|]. exists bs, sl, d, ws, v, ps. split; [|exact Hw].
        unfold k1. cbn. rewrite <- Ei0. by destruct k0.
      * unfold k3. rewrite Ei. unfold k1. cbn [k_inodes set_k_inodes]. rewrite Ei0, D0.
        replace (alter (get_dinode (vw k (IBLOCK n0 sb)) (dinode_off n0)) i (k_inodes k))
          with (alter (fun x => dinode k (i_inum x) x) i (k_inodes k)); [done|].
        apply list_alter_ext; [|done]. intros x Hx. unfold n0, ip, inode_at. by rewrite Hx.
Qed.


End disk_inodes.

(** A file system whose inode blocks start at block 32, after a log of 30. *)
Definition small_sb : superblock := mkSuperblock FSMAGIC 1000 900 100 30 2 32 45.
Definition small_ip : inode := mkInode ROOTDEV 5 1 1 T_FILE 0 0 1 600 (70 :: replicate 12 0).
Definition fs_on (k : kstate) : kstate := set_k_inodes [small_ip] (set_k_sb small_sb k).

Lemma fs_on_trans : in_trans ROOTDEV 2 30 3 [] ∅ (fs_on (log_base (log_cfg 0 0))).
Proof. apply in_trans_inodes, in_trans_sb, trans_base. Qed.

Lemma fs_on_parts k : k_sb (fs_on k) = small_sb /\ inode_at 0 (fs_on k) = small_ip /\ length (k_inodes (fs_on k)) = 1%nat.
Proof. done. Qed.

Lemma small_ip_wf : inode_wf small_ip.
Proof. split; try done. cbn. repeat constructor; lia. Qed.

Lemma small_inum n : 0 <= n < 16 -> inum_ok 2 30 small_sb n.
Proof.
  intros Hn. unfold inum_ok, IBLOCK. change IPB with 16. rewrite Z.div_small by lia.
  split; [done|]. split; [done|]. right. done.
Qed.

