(* ===== verification/Balloc.v ===== *)
(** * Balloc: the free map (balloc() and bfree() of kernel/fs.c)

    The free map has one bit per block of the disk.  [in_use] reads it through
    the running transaction; balloc() finds, marks and clears the first free
    block, bfree() clears a mark. *)

From Stdlib Require Import ZArith Lia.
From stdpp Require Import base gmap list strings.
From S2P Require Import Prelude Bytes State Spinlock Sched Sleeplock Mem Bio Log Trans Uart Printf Console Fs Fsdisk.

(** ** Bits *)

Lemma bit_of_test d bi : truth (bit_of d bi) = Z.testbit (nth (Z.to_nat (bi / 8)) d 0) (bi mod 8).
Proof. unfold bit_of, bit_mask. apply truth_land_bit. apply Z.mod_pos_bound. lia. Qed.

Lemma bit_of_zero d bi : bit_of d bi =? 0 = negb (truth (bit_of d bi)).
Proof. unfold truth. by rewrite negb_involutive. Qed.

Lemma nth_alter (f : Z -> Z) (l : list Z) (i j : nat) : (i < length l)%nat ->
  nth j (alter f i l) 0 = if decide (j = i) then f (nth i l 0) else nth j l 0.
Proof.
  intros Hi. rewrite !nth_lookup. case_decide as E.
  - subst. rewrite list_lookup_alter_eq. by destruct (lookup_lt_is_Some_2 _ _ Hi) as [x ->].
  - by rewrite list_lookup_alter_ne.
Qed.

(** The same byte and the same bit of it: the same bit. *)
Lemma same_bit bi bj : 0 <= bi -> 0 <= bj -> (bi =? bj) = bool_decide (Z.to_nat (bi / 8) = Z.to_nat (bj / 8)) && (bi mod 8 =? bj mod 8).
Proof.
  intros Hi Hj. pose proof (Z.div_mod bi 8 ltac:(lia)). pose proof (Z.div_mod bj 8 ltac:(lia)).
  assert (0 <= bi / 8) by (apply Z.div_pos; lia). assert (0 <= bj / 8) by (apply Z.div_pos; lia).
  case_bool_decide; destruct (Z.eqb_spec (bi mod 8) (bj mod 8)), (Z.eqb_spec bi bj); subst; lia || done.
Qed.

Lemma set_bit_spec d bi bj : 0 <= bi -> 0 <= bj -> (Z.to_nat (bi / 8) < length d)%nat ->
  truth (bit_of (set_bit d bi) bj) = (bi =? bj) || truth (bit_of d bj).
Proof.
  intros Hi Hj Hl. rewrite !bit_of_test. unfold set_bit. rewrite nth_alter by done.
  rewrite same_bit by done. pose proof (Z.mod_pos_bound bi 8). pose proof (Z.mod_pos_bound bj 8).
  case_decide as E; case_bool_decide as E'; try congruence; [|done].
  rewrite Z.lor_spec. unfold bit_mask. rewrite bit_shiftl1 by lia. rewrite <- E, orb_comm, Z.eqb_sym. done.
Qed.

Lemma clear_bit_spec d bi bj : 0 <= bi -> 0 <= bj -> (Z.to_nat (bi / 8) < length d)%nat ->
  truth (bit_of (clear_bit d bi) bj) = negb (bi =? bj) && truth (bit_of d bj).
Proof.
  intros Hi Hj Hl. rewrite !bit_of_test. unfold clear_bit. rewrite nth_alter by done.
  rewrite same_bit by done. pose proof (Z.mod_pos_bound bi 8). pose proof (Z.mod_pos_bound bj 8).
  case_decide as E; case_bool_decide as E'; try congruence; [|done].
  rewrite Z.land_spec. unfold bit_mask, u8. rewrite Z.mod_pow2_bits_low, Z.lnot_spec, bit_shiftl1 by lia.
  rewrite <- E, andb_comm, Z.eqb_sym. done.
Qed.

Lemma alter_bytes f i d : (forall x, is_byte x -> is_byte (f x)) -> Forall is_byte d -> Forall is_byte (alter f i d).
Proof.
  intros Hf Hd. apply Forall_lookup_2. intros j x Hx. destruct (decide (j = i)) as [->|Hn].
  - rewrite list_lookup_alter_eq in Hx. destruct (d !! i) as [y|] eqn:Ey; [|done].
    injection Hx as <-. apply Hf. exact (Forall_lookup_1 _ _ _ _ Hd Ey).
  - rewrite list_lookup_alter_ne in Hx by done. exact (Forall_lookup_1 _ _ _ _ Hd Hx).
Qed.

Lemma bit_mask_byte bi : 0 <= bit_mask bi < 2 ^ 8.
Proof.
  unfold bit_mask. pose proof (Z.mod_pos_bound bi 8 ltac:(lia)). rewrite Z.shiftl_1_l.
  split; [apply Z.pow_nonneg; lia|]. apply Z.pow_lt_mono_r; lia.
Qed.

Lemma set_bit_ok d bi : block_ok d -> block_ok (set_bit d bi).
Proof.
  intros [Hl Hb]. split; [unfold set_bit; by rewrite length_alter|]. apply alter_bytes; [|done].
  intros x Hx. apply (lor_range 8); [lia|exact Hx|]. apply bit_mask_byte.
Qed.

Lemma clear_bit_ok d bi : block_ok d -> block_ok (clear_bit d bi).
Proof.
  intros [Hl Hb]. split; [unfold clear_bit; by rewrite length_alter|]. apply alter_bytes; [|done].
  intros x Hx. apply (land_range 8); [lia|exact Hx].
Qed.

(** scan_bits() finds the first clear bit within the disk. *)
Lemma scan_bits_spec d size b n bi :
  match scan_bits d size b bi n with
  | Some r => bi <= r < bi + Z.of_nat n /\ b + r < size /\ truth (bit_of d r) = false /\
      forall j, bi <= j < r -> truth (bit_of d j) = true
  | None => forall j, bi <= j < bi + Z.of_nat n -> b + j < size -> truth (bit_of d j) = true
  end.
Proof.
  revert bi. induction n as [|n IH]; intros bi; cbn [scan_bits]; [intros j Hj; lia|].
  destruct (Z.ltb_spec (b + bi) size) as [Hs|Hs]; cbn [negb]; [|intros j Hj Hb; lia].
  rewrite bit_of_zero. destruct (truth (bit_of d bi)) eqn:Et; cbn [negb].
  - specialize (IH (bi + 1)). destruct (scan_bits d size b (bi + 1) n) as [r|].
    + destruct IH as (H1 & H2 & H3 & H4). split_and!; try done; try lia.
      intros j Hj. destruct (decide (j = bi)) as [->|]; [done|]. apply H4. lia.
    + intros j Hj Hb. destruct (decide (j = bi)) as [->|]; [done|]. apply IH; lia.
  - split_and!; try done; try lia.
Qed.

(** ** The operations *)

Section free_map.
Context `{Disk}.
Variables (D start size : Z) (p : nat) (sb : superblock).
Hypothesis D_ok : 0 < D < 2 ^ 31.
Hypothesis start_ok : 0 <= start /\ 0 < size /\ start + size < 2 ^ 31.
Hypothesis sb_ok : 0 <= sb_size sb < 2 ^ 31.

#[local] Abbreviation trans := (in_trans D start size p).
#[local] Abbreviation vw := (view D).

(** The block of the free map for [b], as a number that has not wrapped. *)
Definition map_block (b : Z) : Z := b / BPB + sb_bmapstart sb.
Hypothesis map_ok : forall b, 0 <= b < sb_size sb -> home start size (map_block b).

Definition in_use (k : kstate) (b : Z) : bool := truth (bit_of (vw k (map_block b)) (b mod BPB)).

(** Only blocks for data are ever free: not block 0, no block of the log and none
    of the map. *)
Definition free_data (k : kstate) : Prop := forall b, 0 <= b < sb_size sb -> in_use k b = false ->
  b <> 0 /\ home start size b /\ forall c, 0 <= c < sb_size sb -> b <> map_block c.

Lemma BBLOCK_map b : 0 <= b < sb_size sb -> BBLOCK b sb = map_block b.
Proof. 
  intros Hb. destruct (map_ok b Hb) as [Hm _]. unfold bno_ok in Hm. unfold BBLOCK.
  fold (map_block b). apply u32_small. lia.
Qed.

Lemma map_bit_fits bi : 0 <= bi < BPB -> (Z.to_nat (bi / 8) < 1024)%nat.
Proof. change BPB with 8192. intros Hb. assert (bi / 8 < 1024) by (apply Z.div_lt_upper_bound; lia). assert (0 <= bi / 8) by (apply Z.div_pos; lia). lia. Qed.

(** Blocks of one map block. *)
Lemma map_block_add b bi : b mod BPB = 0 -> 0 <= bi < BPB -> map_block (b + bi) = map_block b /\ (b + bi) mod BPB = bi.
Proof.
  change BPB with 8192. intros Hb Hbi. unfold map_block. change BPB with 8192.
  pose proof (Z.div_mod b 8192 ltac:(lia)). replace (b + bi) with (bi + b / 8192 * 8192) by lia.
  rewrite Z.div_add, Z.mod_add, Z.div_small, Z.mod_small by lia. lia.
Qed.

Lemma map_block_same b c : map_block b = map_block c -> b mod BPB = c mod BPB -> b = c.
Proof. unfold map_block. change BPB with 8192. intros H1 H2. pose proof (Z.div_mod b 8192 ltac:(lia)). pose proof (Z.div_mod c 8192 ltac:(lia)). lia. Qed.

(** The caller may hold buffers of its own, of blocks that are in use and not part of
    the map; they are left alone. *)
Definition held_ok (held : gset nat) (k : kstate) : Prop := forall i, i ∈ held ->
  let b := b_blockno (buf_at i k) in 0 <= b < sb_size sb /\ in_use k b = true /\
  forall c, 0 <= c < sb_size sb -> b <> map_block c.
Definition same_held (held : gset nat) (k k' : kstate) : Prop :=
  forall j, j ∈ held -> core (buf_at j k') = core (buf_at j k).

Lemma core_bno x y : core x = core y -> b_blockno x = b_blockno y.
Proof. by intros [=]. Qed.

Lemma same_held_trans held k1 k2 k3 : same_held held k1 k2 -> same_held held k2 k3 -> same_held held k1 k3.
Proof. intros H1 H2 j Hj. by rewrite H2, H1. Qed.

(** The room for two more blocks in the log. *)
Definition room2 (J : list nat) (held : gset nat) : Prop :=
  (S (S (length J)) < HEAD)%nat /\ Z.of_nat (length J) + 3 <= size /\
  (S (S (length J + base.size held)) < HEAD)%nat.

Lemma bzero_run J held k b : trans J held k -> home start size b ->
  (forall i, i ∈ held -> b_blockno (buf_at i k) <> b) ->
  (S (length J) < HEAD)%nat -> Z.of_nat (length J) + 2 <= size -> (S (length J + base.size held) < HEAD)%nat ->
  exists J' k', bzero D b k = Ret tt k' /\ trans J' held k' /\ tr_step {[b]} k k' /\
    (length J' <= S (length J))%nat /\ same_held held k k' /\
    (forall b', vw k' b' = if decide (b' = b) then zero_block else vw k b').
Proof.
  intros Hit Hh Hne R1 R2 R3.
  destruct (trans_update D start size p D_ok start_ok J held k b (fun _ => zero_block)) as
    (bp & k0 & k1 & J' & k2 & k3 & E0 & S0 & _ & E1 & E2 & E3 & I3 & S3 & HJ & Hlen & V3 & C3);
    [done|done|done|done|done|done|apply zero_block_ok|].
  exists J', k3. split_and!; try done. unfold bzero. destruct Hh as [Hb _]. unfold bno_ok in Hb.
  rewrite !u32_small by lia. erewrite bind_ret_run by exact E0. erewrite bind_ret_run by exact E1.
  by erewrite bind_ret_run by exact E2.
Qed.

(** One block of the map. *)
Lemma balloc_body_run J held k b : trans J held k -> k_sb k = sb -> 0 <= b < sb_size sb -> b mod BPB = 0 ->
  free_data k -> held_ok held k -> room2 J held ->
  match scan_bits (vw k (map_block b)) (sb_size sb) b 0 (Z.to_nat BPB) with
  | None => exists k', balloc_body D (sb_size sb) b k = Ret (inl (b + BPB)) k' /\ trans J held k' /\
      tr_step ∅ k k' /\ same_held held k k' /\ forall b', vw k' b' = vw k b'
  | Some bi => exists J' k', balloc_body D (sb_size sb) b k = Ret (inr (Some (b + bi))) k' /\ trans J' held k' /\
      tr_step {[b + bi; map_block b]} k k' /\ (length J' <= S (S (length J)))%nat /\ same_held held k k' /\
      forall b', vw k' b' = if decide (b' = b + bi) then zero_block
        else if decide (b' = map_block b) then set_bit (vw k b') bi else vw k b'
  end.
Proof.
  intros Hit Hsb Hb Hm Hfree Hheld (R1 & R2 & R3).
  destruct (trans_read D start size p D_ok start_ok J held k (map_block b) Hit) as
    (bp & k0 & E0 & Hbp & Hnh & I0 & S0 & B0 & D0 & V0 & Rl & O0 & Kd).
  { by destruct (map_ok b Hb). }
  { intros i Hi. by apply (Hheld i Hi). }
  { lia. }
  assert (Hpre : balloc_body D (sb_size sb) b k =
    (match scan_bits (vw k (map_block b)) (sb_size sb) b 0 (Z.to_nat BPB) with
     | Some bi => do! upd_data bp (fun d => set_bit d bi); do! log_write bp; do! brelse bp;
         do! bzero D (b + bi); ret (inr (Some (b + bi)))
     | None => do! brelse bp; ret (inl (b + BPB)) end) k0).
  { unfold balloc_body. destruct (Z.ltb_spec b (sb_size sb)); [|lia]. cbn [negb].
    erewrite bind_ret_run by reflexivity. rewrite Hsb, BBLOCK_map by done. erewrite bind_ret_run by exact E0.
    erewrite bind_ret_run by reflexivity. by rewrite D0. }
  pose proof (held_release bp held Hnh) as Eh.
  rewrite Hpre. pose proof (scan_bits_spec (vw k (map_block b)) (sb_size sb) b (Z.to_nat BPB) 0) as Hscan.
  destruct (scan_bits _ _ _ _ _) as [bi|].
  - destruct Hscan as (H1 & H2 & H3 & _). assert (Hbi : 0 <= bi < BPB) by (change BPB with 8192 in *; lia).
    destruct (map_block_add b bi Hm Hbi) as [Eb Em].
    assert (Hfr : in_use k (b + bi) = false) by (unfold in_use; by rewrite Eb, Em).
    destruct (Hfree (b + bi)) as (_ & Hhome & Hnm); [lia|done|].
    destruct (trans_write D start size p D_ok start_ok J ({[bp]} ∪ held) k0 bp (fun d => set_bit d bi)) as
      (k1 & J1 & k2 & k3 & W1 & W2 & W3 & I3 & S3 & HJ & Hlen & V3 & C3); try done.
    + set_solver.
    + split_and!; [lia|lia|]. rewrite size_union by set_solver. rewrite size_singleton. lia.
    + rewrite B0. by apply map_ok.
    + rewrite D0. apply set_bit_ok. eapply view_ok. exact (it_inv _ _ _ _ _ _ _ Hit).
    + rewrite Eh in I3. rewrite B0 in S3.
      assert (C : same_held held k k3) by (intros j Hj; rewrite C3 by (intros ->; done); by rewrite O0).
      destruct (bzero_run J1 held k3 (b + bi) I3 Hhome) as (J' & k4 & Z4 & I4 & S4 & Hl4 & C4 & V4); [|lia|lia|lia|].
      { intros i Hi E. rewrite (core_bno _ _ (C i Hi)) in E. destruct (Hheld i Hi) as (_ & Hu & _). congruence. }
      exists J', k4. split_and!; try done; [| |lia|by eapply same_held_trans|].
      * erewrite bind_ret_run by exact W1. erewrite bind_ret_run by exact W2. erewrite bind_ret_run by exact W3.
        by erewrite bind_ret_run by exact Z4.
      * eapply tr_step_trans; [by apply tr_step_bio|].
        eapply tr_step_weaken; [by eapply tr_step_union|set_solver].
      * intros b'. rewrite V4. case_decide; [done|]. rewrite V3, B0, D0. case_decide as E; [by subst|]. by rewrite V0.
  - destruct (trans_release D start size p J _ k0 bp I0) as (k1 & E1 & I1 & S1 & C1 & V1 & _); [set_solver|done|].
    exists k1. rewrite Eh in I1. split_and!; [|done| | |].
    + by erewrite bind_ret_run by exact E1.
    + eapply tr_step_trans; by apply tr_step_bio.
    + intros j Hj. by rewrite C1, O0.
    + intros b'. by rewrite V1, V0.
Qed.

Lemma in_use_ext k k' : (forall b, vw k' b = vw k b) -> forall c, in_use k' c = in_use k c.
Proof. intros Hv c. unfold in_use. by rewrite Hv. Qed.

Lemma free_data_ext k k' : (forall b, vw k' b = vw k b) -> free_data k -> free_data k'.
Proof. intros Hv Hf b Hb Hu. apply Hf; [done|]. by rewrite <- (in_use_ext k k' Hv). Qed.

Lemma held_ok_ext held k k' : (forall b, vw k' b = vw k b) -> same_held held k k' -> held_ok held k -> held_ok held k'.
Proof.
  intros Hv Hc Hk i Hi. cbv zeta. rewrite (core_bno _ _ (Hc i Hi)), (in_use_ext k k' Hv). by apply Hk.
Qed.

(** What [k'] reads as when block [r] has been allocated. *)
Definition allocated (r : Z) (k k' : kstate) : Prop := forall b', vw k' b' =
  if decide (b' = r) then zero_block else if decide (b' = map_block r) then set_bit (vw k b') (r mod BPB) else vw k b'.

(** The scan of the map from block [b] of the disk on. *)
Lemma balloc_scan n J held k b : trans J held k -> k_sb k = sb -> 0 <= b -> b mod BPB = 0 -> free_data k ->
  held_ok held k -> room2 J held -> sb_size sb - b <= BPB * Z.of_nat n ->
  (exists r J' k', b <= r < sb_size sb /\ in_use k r = false /\ (forall c, b <= c < r -> in_use k c = true) /\
     loop (S n) (balloc_body D (sb_size sb)) b k = Ret (Some r) k' /\ trans J' held k' /\
     tr_step {[r; map_block r]} k k' /\ (length J' <= S (S (length J)))%nat /\ same_held held k k' /\ allocated r k k') \/
  ((forall c, b <= c < sb_size sb -> in_use k c = true) /\
   exists k', loop (S n) (balloc_body D (sb_size sb)) b k = Ret None k' /\ trans J held k' /\ tr_step ∅ k k' /\
     same_held held k k' /\ forall b', vw k' b' = vw k b').
Proof.
  revert k b. induction n as [|n IH]; intros k b Hit Hsb Hb Hm Hf Hh R Hn.
  all: destruct (decide (b < sb_size sb)) as [Hlt|Hge];
    [|right; split; [intros c Hc; lia|]; exists k; split_and!; [|done|apply tr_step_refl|done|done];
      apply loop_exit; unfold balloc_body; destruct (Z.ltb_spec b (sb_size sb)); [lia|done]].
  { lia. }
  pose proof (balloc_body_run J held k b Hit Hsb ltac:(lia) Hm Hf Hh R) as Hbody.
  pose proof (scan_bits_spec (vw k (map_block b)) (sb_size sb) b (Z.to_nat BPB) 0) as Hscan.
  assert (HB : Z.of_nat (Z.to_nat BPB) = BPB) by reflexivity. rewrite HB in Hscan. clear HB.
  assert (Huse : forall j, 0 <= j < BPB -> in_use k (b + j) = truth (bit_of (vw k (map_block b)) j)).
  { intros j Hj. unfold in_use. by destruct (map_block_add b j Hm Hj) as [-> ->]. }
  destruct (scan_bits _ _ _ _ _) as [bi|].
  - destruct Hbody as (J' & k' & E & I & S & Hl & C & V). destruct Hscan as (H1 & H2 & H3 & H4).
    left. exists (b + bi), J', k'. unfold allocated. destruct (map_block_add b bi Hm ltac:(lia)) as [Eb Em]. rewrite Eb, Em.
    split_and!; try done; try lia.
    + rewrite Huse by lia. exact H3.
    + intros c Hc. replace c with (b + (c - b)) by lia. rewrite Huse by lia. apply H4. lia.
    + by apply loop_exit.
  - destruct Hbody as (k1 & E & I & S & C & V).
    assert (Hbelow : forall c, b <= c < b + BPB -> c < sb_size sb -> in_use k c = true).
    { intros c Hc Hs. replace c with (b + (c - b)) by lia. rewrite Huse by lia. apply Hscan; lia. }
    assert (0 < BPB) by reflexivity.
    destruct (IH k1 (b + BPB)) as [(r & J' & k' & Hr & Hu & Hfirst & El & Il & Sl & Hl & Cl & Vl)|(Hall & k' & El & Il & Sl & Cl & Vl)];
      [done| |lia| |by apply (free_data_ext k)|by apply (held_ok_ext held k)|done|lia|..].
    + destruct (tr_step_frame _ _ _ S) as (_ & -> & _). done.
    + rewrite <- Z.add_mod_idemp_r, Z.mod_same, Z.add_0_r by lia. exact Hm.
    + left. exists r, J', k'. rewrite (in_use_ext k k1 V) in Hu. split_and!; try done; try lia.
      * intros c Hc. destruct (decide (c < b + BPB)); [apply Hbelow; lia|]. rewrite <- (in_use_ext k k1 V). apply Hfirst. lia.
      * by erewrite loop_next by exact E.
      * eapply tr_step_weaken; [by eapply tr_step_union|set_solver].
      * by eapply same_held_trans.
      * intros b'. by rewrite Vl, V.
    + right. split.
      * intros c Hc. destruct (decide (c < b + BPB)); [apply Hbelow; lia|]. rewrite <- (in_use_ext k k1 V). apply Hall. lia.
      * exists k'. split_and!; try done; [by erewrite loop_next by exact E|by eapply tr_step_trans|by eapply same_held_trans|].
        intros b'. by rewrite Vl, V.
Qed.

(** Marking block [r] changes the bit of no other block. *)
Lemma in_use_set k k' r c : 0 <= r < sb_size sb -> 0 <= c < sb_size sb ->
  length (vw k (map_block r)) = 1024%nat -> r <> map_block c ->
  allocated r k k' -> in_use k' c = (r =? c) || in_use k c.
Proof.
  intros Hr Hc Hl Hne V. unfold in_use. rewrite V, decide_False by congruence.
  assert (0 < BPB) as HB by reflexivity. pose proof (Z.mod_pos_bound r BPB HB) as Hm1. pose proof (Z.mod_pos_bound c BPB HB).
  case_decide as E.
  - rewrite E in *. rewrite set_bit_spec; [|lia|lia|rewrite Hl; by apply map_bit_fits]. f_equal.
    destruct (Z.eqb_spec r c) as [->|Hrc]; [by apply Z.eqb_refl|]. apply Z.eqb_neq. intros Em. by apply Hrc, map_block_same.
  - destruct (Z.eqb_spec r c) as [->|]; [done|done].
Qed.

Lemma in_use_clear k k' r c : 0 <= r < sb_size sb -> 0 <= c < sb_size sb ->
  length (vw k (map_block r)) = 1024%nat ->
  (forall b', vw k' b' = if decide (b' = map_block r) then clear_bit (vw k b') (r mod BPB) else vw k b') ->
  in_use k' c = negb (r =? c) && in_use k c.
Proof.
  intros Hr Hc Hl V. unfold in_use. rewrite V.
  assert (0 < BPB) as HB by reflexivity. pose proof (Z.mod_pos_bound r BPB HB) as Hm1. pose proof (Z.mod_pos_bound c BPB HB).
  case_decide as E.
  - rewrite E in *. rewrite clear_bit_spec; [|lia|lia|rewrite Hl; by apply map_bit_fits]. do 2 f_equal.
    destruct (Z.eqb_spec r c) as [->|Hrc]; [by apply Z.eqb_refl|]. apply Z.eqb_neq. intros Em. by apply Hrc, map_block_same.
  - destruct (Z.eqb_spec r c) as [->|]; [done|done].
Qed.

Lemma bfree_run J k b : trans J ∅ k -> k_sb k = sb -> 0 <= b < sb_size sb ->
  (S (length J) < HEAD)%nat -> Z.of_nat (length J) + 2 <= size ->
  if in_use k b then exists J' k', bfree D b k = Ret tt k' /\ trans J' ∅ k' /\ tr_step {[map_block b]} k k' /\
    (length J' <= S (length J))%nat /\
    (forall b', vw k' b' = if decide (b' = map_block b) then clear_bit (vw k b') (b mod BPB) else vw k b')
  else bfree D b k = Panic "freeing free block".
Proof.
  intros Hit Hsb Hb R1 R2. pose proof (map_ok b Hb) as Hh.
  destruct (trans_update D start size p D_ok start_ok J ∅ k (map_block b) (fun d => clear_bit d (b mod BPB))) as
    (bp & k0 & k1 & J' & k2 & k3 & E0 & S0 & D0 & E1 & E2 & E3 & I3 & S3 & HJ & Hlen & V3 & _);
    [done|done|set_solver|done|done|by rewrite size_empty, Nat.add_0_r| |].
  { apply clear_bit_ok. eapply view_ok. exact (it_inv _ _ _ _ _ _ _ Hit). }
  assert (Hpre : bfree D b k = (if bit_of (vw k (map_block b)) (b mod BPB) =? 0 then panic "freeing free block" else
    do! upd_data bp (fun d => clear_bit d (b mod BPB)); do! log_write bp; brelse bp) k0).
  { unfold bfree. erewrite bind_ret_run by reflexivity. rewrite Hsb, BBLOCK_map by done.
    rewrite (u32_small D) by lia. erewrite bind_ret_run by exact E0. erewrite bind_ret_run by reflexivity. by rewrite D0. }
  rewrite Hpre, bit_of_zero. unfold in_use. destruct (truth _); cbn [negb]; [|done].
  exists J', k3. split_and!; try done.
  - erewrite bind_ret_run by exact E1. erewrite bind_ret_run by exact E2. exact E3.
  - intros b'. rewrite V3. by case_decide as E; [subst|].
Qed.

Lemma balloc_run J held k : trans J held k -> k_sb k = sb -> free_data k -> held_ok held k -> room2 J held ->
  (exists r J' k', balloc D k = Ret r k' /\ 0 < r < sb_size sb /\ home start size r /\ in_use k r = false /\
     (forall c, 0 <= c < r -> in_use k c = true) /\ allocated r k k' /\
     (forall c, 0 <= c < sb_size sb -> in_use k' c = (r =? c) || in_use k c) /\
     trans J' held k' /\ (length J' <= S (S (length J)))%nat /\ tr_step {[r; map_block r]} k k' /\ same_held held k k') \/
  ((forall c, 0 <= c < sb_size sb -> in_use k c = true) /\
   exists k', balloc D k = (do! printf (str "balloc: out of blocks" ++ [nl]) []; ret 0) k' /\
     trans J held k' /\ tr_step ∅ k k' /\ same_held held k k' /\ forall b, vw k' b = vw k b).
Proof.
  intros Hit Hsb Hf Hh R.
  assert (Hrun : forall r k', loop (S (S (Z.to_nat (sb_size sb / BPB)))) (balloc_body D (sb_size sb)) 0 k = Ret r k' ->
    balloc D k = match r with Some b => Ret b k' | None => (do! printf (str "balloc: out of blocks" ++ [nl]) []; ret 0) k' end).
  { intros r k' E. unfold balloc. erewrite bind_ret_run by reflexivity. rewrite Hsb. erewrite bind_ret_run by exact E.
    by destruct r. }
  destruct (balloc_scan (S (Z.to_nat (sb_size sb / BPB))) J held k 0) as
    [(r & J' & k' & Hr & Hu & Hfirst & El & Il & Sl & Hl & Cl & Vl)|(Hall & k' & El & Il & Sl & Cl & Vl)]; try done.
  { change BPB with 8192. assert (0 <= sb_size sb / 8192) by (apply Z.div_pos; lia).
    pose proof (Z.div_mod (sb_size sb) 8192 ltac:(lia)). pose proof (Z.mod_pos_bound (sb_size sb) 8192). lia. }
  - left. destruct (Hf r ltac:(lia) Hu) as (Hr0 & Hhm & Hnm). exists r, J', k'. split_and!; try done; try lia.
    + exact (Hrun _ _ El).
    + intros c Hc. apply (in_use_set k); try done; [by eapply view_length|by apply Hnm].
  - right. split; [done|]. exists k'. split_and!; try done. exact (Hrun _ _ El).
Qed.

Lemma held_ok_empty k : held_ok ∅ k.
Proof. intros i Hi. by apply not_elem_of_empty in Hi. Qed.

(** C12 (free_map_refinement): balloc() and bfree() keep the set of blocks in use.
    balloc() takes the first block of the disk that is not in use, marks it and
    returns it filled with zeros, or, when every block is in use, says so and
    returns 0 with nothing changed; bfree() unmarks a block in use and panics for
    one that is not.  No other block's mark and no block's contents other than
    the one returned and its block of the map change, and everything is part of
    the running transaction. *)
Theorem free_map_refinement J k : trans J ∅ k -> k_sb k = sb -> free_data k ->
  (S (S (length J)) < HEAD)%nat -> Z.of_nat (length J) + 3 <= size ->
  ((exists r J' k', balloc D k = Ret r k' /\ 0 < r < sb_size sb /\ in_use k r = false /\
      (forall c, 0 <= c < r -> in_use k c = true) /\ vw k' r = zero_block /\
      (forall c, 0 <= c < sb_size sb -> in_use k' c = (r =? c) || in_use k c) /\
      (forall b, b <> r -> b <> map_block r -> vw k' b = vw k b) /\
      trans J' ∅ k' /\ (length J' <= S (S (length J)))%nat /\ tr_step {[r; map_block r]} k k') \/
   ((forall c, 0 <= c < sb_size sb -> in_use k c = true) /\
    exists k', balloc D k = (do! printf (str "balloc: out of blocks" ++ [nl]) []; ret 0) k' /\
      trans J ∅ k' /\ tr_step ∅ k k' /\ forall b, vw k' b = vw k b)) /\
  (forall b, 0 <= b < sb_size sb ->
     if in_use k b then exists J' k', bfree D b k = Ret tt k' /\
       (forall c, 0 <= c < sb_size sb -> in_use k' c = negb (b =? c) && in_use k c) /\
       (forall b', b' <> map_block b -> vw k' b' = vw k b') /\
       trans J' ∅ k' /\ (length J' <= S (length J))%nat /\ tr_step {[map_block b]} k k'
     else bfree D b k = Panic "freeing free block").
Proof.
  intros Hit Hsb Hf R1 R2. split.
  - destruct (balloc_run J ∅ k Hit Hsb Hf (held_ok_empty k)) as
      [(r & J' & k' & E & Hr & Hh & Hu & Hfirst & V & Huse & I & Hl & S & _)|(Hall & k' & E & I & S & _ & V)].
    { split_and!; [done|done|]. rewrite size_empty. lia. }
    + left. exists r, J', k'. split_and!; try done; try lia.
      * by rewrite V, decide_True.
      * intros b H1 H2. by rewrite V, !decide_False.
    + right. split; [done|]. by exists k'.
  - intros b Hb. pose proof (bfree_run J k b Hit Hsb Hb ltac:(lia) ltac:(lia)) as Hfr.
    destruct (in_use k b); [|done]. destruct Hfr as (J' & k' & E & I & S & Hl & V).
    exists J', k'. split_and!; try done.
    + intros c Hc. apply (in_use_clear k); try done. by eapply view_length.
    + intros b' Hne. by rewrite V, decide_False.
Qed.

End free_map.

(** ** A disk with blocks 0 to 45 in use *)

Definition map_bytes : list Z := replicate 5 255 ++ 63 :: replicate 1018 0.
Definition with_disk (k : kstate) : kstate := set_k_disk {[45 := map_bytes]} k.

Lemma with_disk_blocks b : block_ok (block_of {[45 := map_bytes]} b).
Proof.
  unfold block_of. destruct (decide (b = 45)) as [->|Hn].
  - rewrite lookup_singleton_eq. split; [reflexivity|]. cbn [default id].
    unfold map_bytes. apply Forall_app. split; [by apply Forall_replicate|].
    constructor; [done|]. by apply Forall_replicate.
  - rewrite lookup_singleton_ne by done. apply zero_block_ok.
Qed.

Lemma with_disk_trans k : in_trans ROOTDEV 2 30 3 [] ∅ k ->
  (forall i, b_valid (buf_at i k) = 0) -> in_trans ROOTDEV 2 30 3 [] ∅ (with_disk k).
Proof.
  intros [Hnd [H1 H2 H3 H4 H5 H6] Hi Hl Hb Hs Ho] Hv. split; try done.
  destruct Hi as [[Hth Hr Hd Hlb Hsl] I2 I3 I4 I5 I6 I7 I8 I9 I10 I11 I12 I13]. split; try done.
  - split; try done. by apply (thread_ok_ext 3 k).
  - apply with_disk_blocks.
  - intros i Hlt _ _ Hne. destruct Hne. apply Hv.
Qed.

Lemma with_disk_view k b : (forall i, b_valid (buf_at i k) = 0) ->
  view ROOTDEV (with_disk k) b = block_of {[45 := map_bytes]} b.
Proof. intros Hv. apply view_uncached. intros i _ _ Hne. destruct Hne. apply Hv. Qed.

Lemma fs_on_bufs i k : buf_at i (fs_on k) = buf_at i k.
Proof. reflexivity. Qed.

Lemma core_valid x v d b l : core x = (v, d, b, l) -> b_valid x = v.
Proof. intros E. by injection E. Qed.

Lemma base_invalid i : b_valid (buf_at i (fs_on (log_base (log_cfg 0 0)))) = 0.
Proof.
  rewrite fs_on_bufs. unfold log_base. rewrite log_base_bufs.
  exact (core_valid _ _ _ _ _ (proj1 (with_bcache_core i))).
Qed.

Definition alloc_k : kstate := with_disk (fs_on (log_base (log_cfg 0 0))).

Lemma alloc_trans : in_trans ROOTDEV 2 30 3 [] ∅ alloc_k.
Proof. apply with_disk_trans; [exact fs_on_trans|exact base_invalid]. Qed.

Lemma alloc_in_use b : 0 <= b < 1000 -> in_use ROOTDEV small_sb alloc_k b = (b <? 46).
Proof.
  intros Hb. unfold in_use, map_block, alloc_k. rewrite with_disk_view by exact base_invalid.
  change BPB with 8192. rewrite Z.div_small, Z.mod_small by lia.
  assert (Hall : forallb (fun n => Bool.eqb (truth (bit_of map_bytes (Z.of_nat n))) (Z.of_nat n <? 46)) (seq 0 1000) = true)
    by (vm_compute; reflexivity).
  rewrite forallb_forall in Hall. specialize (Hall (Z.to_nat b)).
  rewrite Z2Nat.id in Hall by lia. apply Bool.eqb_prop, Hall. apply in_seq. lia.
Qed.

Lemma with_disk_sb k : k_sb (with_disk k) = k_sb k.
Proof. reflexivity. Qed.

Lemma alloc_sb : k_sb alloc_k = small_sb.
Proof. unfold alloc_k. rewrite with_disk_sb. exact (proj1 (fs_on_parts (log_base (log_cfg 0 0)))). Qed.

Lemma small_map b : 0 <= b < sb_size small_sb -> map_block small_sb b = 45.
Proof. cbn. intros Hb. unfold map_block. change BPB with 8192. by rewrite Z.div_small by lia. Qed.

Lemma small_map_ok b : 0 <= b < sb_size small_sb -> home 2 30 (map_block small_sb b).
Proof. intros Hb. rewrite small_map by done. split; [done|]. right. done. Qed.

Lemma alloc_free : free_data ROOTDEV 2 30 small_sb alloc_k.
Proof.
  intros b Hb Hu. rewrite alloc_in_use in Hu by exact Hb. apply Z.ltb_ge in Hu. cbn in Hb.
  split_and!; [lia|split; [unfold bno_ok; lia|lia]|]. intros c Hc. rewrite small_map by done. lia.
Qed.

Lemma free_map_refinement_witness : exists k', balloc ROOTDEV alloc_k = Ret 46 k'.
Proof.
  destruct (free_map_refinement ROOTDEV 2 30 3 small_sb ltac:(unfold ROOTDEV; lia) area_ok
    ltac:(cbn; lia) small_map_ok [] alloc_k alloc_trans alloc_sb alloc_free) as
    [[(r & J' & k' & E & Hr & Hu & Hfirst & _)|[Hall _]] _].
  - apply Nat.ltb_lt. reflexivity.
  - cbn. lia.
  - exists k'. replace 46 with r; [exact E|]. cbn in Hr. rewrite alloc_in_use in Hu by lia. apply Z.ltb_ge in Hu.
    destruct (decide (r = 46)) as [|Hn]; [assumption|]. specialize (Hfirst 46 ltac:(lia)).
    rewrite alloc_in_use in Hfirst by lia. discriminate Hfirst.
  - specialize (Hall 46 ltac:(cbn; lia)). rewrite alloc_in_use in Hall by lia. discriminate Hall.
Defined.
