(* ===== verification/Content.v ===== *)
(** * Content: the bytes of a file (bmap(), readi() and writei() of kernel/fs.c)

    A file is the array of its blocks: [slot] is the number of the block that holds
    file block [bn], through ip->addrs or the indirect block, 0 if there is none,
    and [fblock] its contents, a missing block reading as zeros.  [file_wf] says
    that the blocks of the file are distinct, marked in use and apart from the
    inode, the free map and the log.  bmap() may allocate but never changes the
    contents; readi() returns the bytes of the file; writei() replaces bytes, extends
    the file as needed, and logs no more blocks than its transaction reserved. *)

From Stdlib Require Import ZArith Lia.
From stdpp Require Import base gmap list strings.
From S2P Require Import Prelude Bytes State Riscv Spinlock Sched Sleeplock Mem Kalloc Bio Log Trans Vm Uvm Ucopy Pipe Uart Printf Console Virtio Fs Fsdisk Balloc.

(** ** Steps that may change the inode table *)

Definition fs_step (Y : gset Z) (k k' : kstate) : Prop := tr_step Y (set_k_inodes [] k) (set_k_inodes [] k').

Lemma bio_step_inodes k k' l : bio_step k k' -> bio_step (set_k_inodes l k) (set_k_inodes l k').
Proof. intros (bs & sl & d & ws & v & ps & -> & Hw). exists bs, sl, d, ws, v, ps. by split. Qed.

Lemma fs_step_tr Y k k' : tr_step Y k k' -> fs_step Y k k'.
Proof.
  intros [(k1 & lg & Hb & ->) Hl]. split; [|exact Hl].
  exists (set_k_inodes [] k1), lg. split; [by apply bio_step_inodes|done].
Qed.

Lemma fs_step_inodes Y k l : fs_step Y k (set_k_inodes l k).
Proof. apply tr_step_refl. Qed.

Lemma fs_step_trans Y k1 k2 k3 : fs_step Y k1 k2 -> fs_step Y k2 k3 -> fs_step Y k1 k3.
Proof. apply tr_step_trans. Qed.

Lemma fs_step_weaken Y Z k k' : fs_step Y k k' -> Y ⊆ Z -> fs_step Z k k'.
Proof. apply tr_step_weaken. Qed.

Lemma fs_step_union Y Z k1 k2 k3 : fs_step Y k1 k2 -> fs_step Z k2 k3 -> fs_step (Y ∪ Z) k1 k3.
Proof. apply tr_step_union. Qed.

Lemma fs_step_frame Y k k' : fs_step Y k k' ->
  k_sb k' = k_sb k /\ k_files k' = k_files k /\ k_locks k' = k_locks k /\ k_cpu k' = k_cpu k /\
  k_hart k' = k_hart k /\ k_mem k' = k_mem k /\ woken (k_procs k) (k_procs k') /\ logged k' ⊆ logged k ∪ Y.
Proof. intros Hs. pose proof (tr_step_frame _ _ _ Hs) as (_ & H). destruct Hs as [_ Hl]. by destruct H as (? & ? & ? & ? & ? & ? & ?). Qed.

(** ** Where the blocks of a file are *)

Definition ind_of (ip : inode) : Z := nth (Z.to_nat NDIRECT) (i_addrs ip) 0.

Definition slot (v : Z -> list Z) (ip : inode) (bn : Z) : Z :=
  if bn <? NDIRECT then nth (Z.to_nat bn) (i_addrs ip) 0
  else if ind_of ip =? 0 then 0 else rd 4 (v (ind_of ip)) (4 * Z.to_nat (bn - NDIRECT)).

Definition fblock (v : Z -> list Z) (ip : inode) (bn : Z) : list Z :=
  if slot v ip bn =? 0 then zero_block else v (slot v ip bn).

(** The byte at offset [off] of the file. *)
Definition fbyte (v : Z -> list Z) (ip : inode) (off : Z) : Z :=
  nth (Z.to_nat (off mod BSIZE)) (fblock v ip (off / BSIZE)) 0.

#[global] Arguments slot : simpl never.
#[global] Arguments fblock : simpl never.
#[global] Arguments fbyte : simpl never.

Lemma nth_insert {A} (l : list A) i j x d : (i < length l)%nat ->
  nth j (<[i := x]> l) d = if decide (j = i) then x else nth j l d.
Proof.
  intros Hi. rewrite !nth_lookup. case_decide as E.
  - subst. by rewrite list_lookup_insert_eq.
  - by rewrite list_lookup_insert_ne.
Qed.

Lemma rd_zero n off : rd n zero_block off = 0.
Proof.
  unfold rd, slice, zero_block. rewrite drop_replicate, take_replicate.
  generalize (n `min` (Z.to_nat BSIZE - off))%nat. induction n0 as [|m IH]; [done|]. cbn. by rewrite IH.
Qed.

(** The slots after a block has been put in ip->addrs or the indirect block. *)
Definition with_addr (j : nat) (r : Z) (ip : inode) : inode := set_i_addrs (<[j := r]> (i_addrs ip)) ip.

Lemma ind_with_addr j r ip : length (i_addrs ip) = Z.to_nat (NDIRECT + 1) ->
  ind_of (with_addr j r ip) = if decide (j = Z.to_nat NDIRECT) then r else ind_of ip.
Proof.
  intros Hl. unfold ind_of, with_addr. cbn [i_addrs set_i_addrs]. change (Z.to_nat (NDIRECT + 1)) with 13%nat in Hl.
  change (Z.to_nat NDIRECT) with 12%nat. destruct (decide (j < 13)%nat).
  - rewrite nth_insert by lia. repeat case_decide; congruence || done.
  - rewrite list_insert_ge by lia. rewrite decide_False by lia. done.
Qed.

Lemma slot_direct v v' ip bn r s : length (i_addrs ip) = Z.to_nat (NDIRECT + 1) -> 0 <= bn < NDIRECT -> 0 <= s ->
  (ind_of ip <> 0 -> v' (ind_of ip) = v (ind_of ip)) ->
  slot v' (with_addr (Z.to_nat bn) r ip) s = if decide (s = bn) then r else slot v ip s.
Proof.
  intros Hl Hb Hs Hv. unfold slot. rewrite ind_with_addr by done. change (Z.to_nat (NDIRECT + 1)) with 13%nat in Hl.
  change (Z.to_nat NDIRECT) with 12%nat. change NDIRECT with 12 in *. rewrite (decide_False (P := Z.to_nat bn = 12%nat)) by lia.
  destruct (Z.ltb_spec s 12).
  - cbn [i_addrs set_i_addrs with_addr]. rewrite nth_insert by lia. repeat case_decide; lia || done.
  - rewrite decide_False by lia. destruct (Z.eqb_spec (ind_of ip) 0); [done|]. by rewrite Hv.
Qed.

Lemma slot_new_ind v v' ip r s : length (i_addrs ip) = Z.to_nat (NDIRECT + 1) -> 0 <= s ->
  ind_of ip = 0 -> v' r = zero_block -> slot v' (with_addr (Z.to_nat NDIRECT) r ip) s = slot v ip s.
Proof.
  intros Hl Hs Hi Hv. unfold slot. rewrite ind_with_addr, decide_True, Hi by done. change (Z.to_nat (NDIRECT + 1)) with 13%nat in Hl.
  change (Z.to_nat NDIRECT) with 12%nat. change NDIRECT with 12 in *. destruct (Z.ltb_spec s 12).
  - cbn [i_addrs set_i_addrs with_addr]. rewrite nth_insert by lia. rewrite decide_False by lia. done.
  - change (0 =? 0) with true. cbv iota. rewrite Hv, rd_zero. by destruct (r =? 0).
Qed.

Lemma slot_indirect v v' ip bn r s : 0 <= r < 2 ^ 32 -> NDIRECT <= bn < MAXFILE -> 0 <= s < MAXFILE -> ind_of ip <> 0 ->
  length (v (ind_of ip)) = 1024%nat -> v' (ind_of ip) = wr 4 (v (ind_of ip)) (4 * Z.to_nat (bn - NDIRECT)) r ->
  slot v' ip s = if decide (s = bn) then r else slot v ip s.
Proof.
  change MAXFILE with 268. unfold slot. change NDIRECT with 12. intros Hr Hb Hs Hi Hlen Hv.
  destruct (Z.ltb_spec s 12); [by rewrite decide_False by lia|].
  destruct (Z.eqb_spec (ind_of ip) 0); [done|]. rewrite Hv. case_decide as E.
  - subst. apply rd_wr_same; [lia|]. change (256 ^ Z.of_nat 4) with (2 ^ 32). lia.
  - apply rd_wr_other; lia.
Qed.

Section content.
Context `{Disk}.
Variables (D start size : Z) (p : nat) (sb : superblock).
Hypothesis D_ok : 0 < D < 2 ^ 31.
Hypothesis start_ok : 0 <= start /\ 0 < size /\ start + size < 2 ^ 31.
Hypothesis sb_ok : 0 <= sb_size sb < 2 ^ 31.
Hypothesis map_ok : forall b, 0 <= b < sb_size sb -> home start size (map_block sb b).

#[local] Abbreviation trans := (in_trans D start size p).
#[local] Abbreviation vw := (view D).
#[local] Abbreviation used := (in_use D sb).

(** A block that belongs to the file with inode number [n]. *)
Record data_block (n : Z) (k : kstate) (b : Z) : Prop := {
  db_range : 0 < b < sb_size sb;
  db_used : used k b = true;
  db_home : home start size b;
  db_map : forall c, 0 <= c < sb_size sb -> b <> map_block sb c;
  db_inode : b <> IBLOCK n sb }.

Record file_wf (i : nat) (k : kstate) : Prop := {
  fw_sb : k_sb k = sb;
  fw_i : (i < length (k_inodes k))%nat;
  fw_dev : i_dev (inode_at i k) = D;
  fw_inode : inode_wf (inode_at i k);
  fw_inum : inum_ok start size sb (i_inum (inode_at i k));
  fw_iblock : 0 <= IBLOCK (i_inum (inode_at i k)) sb < sb_size sb /\ used k (IBLOCK (i_inum (inode_at i k)) sb) = true /\
    forall c, 0 <= c < sb_size sb -> IBLOCK (i_inum (inode_at i k)) sb <> map_block sb c;
  fw_free : free_data D start size sb k;
  fw_slot : forall s, 0 <= s < MAXFILE -> slot (vw k) (inode_at i k) s <> 0 ->
    data_block (i_inum (inode_at i k)) k (slot (vw k) (inode_at i k) s);
  fw_ind : ind_of (inode_at i k) <> 0 -> data_block (i_inum (inode_at i k)) k (ind_of (inode_at i k));
  fw_inj : forall s t, 0 <= s < MAXFILE -> 0 <= t < MAXFILE -> slot (vw k) (inode_at i k) s <> 0 ->
    slot (vw k) (inode_at i k) s = slot (vw k) (inode_at i k) t -> s = t;
  fw_ne : forall s, 0 <= s < MAXFILE -> ind_of (inode_at i k) <> 0 -> slot (vw k) (inode_at i k) s <> ind_of (inode_at i k) }.

(** ** Allocating a block for the file *)

(** Only the block [r], which was free, and the mark for it have changed. *)
Record alloc_step (J : list nat) (held : gset nat) (r : Z) (J' : list nat) (k k' : kstate) : Prop := {
  al_range : 0 < r < sb_size sb;
  al_home : home start size r;
  al_free : used k r = false;
  al_view : allocated D sb r k k';
  al_used : forall c, 0 <= c < sb_size sb -> used k' c = (r =? c) || used k c;
  al_trans : trans J' held k';
  al_len : (length J' <= S (S (length J)))%nat;
  al_step : tr_step {[r; map_block sb r]} k k';
  al_held : same_held held k k' }.

Definition space (k : kstate) : Prop := exists c, 0 <= c < sb_size sb /\ used k c = false.

Lemma balloc_ok J held k : trans J held k -> k_sb k = sb -> free_data D start size sb k ->
  held_ok D sb held k -> room2 size J held -> space k ->
  exists r J' k', balloc D k = Ret r k' /\ alloc_step J held r J' k k'.
Proof.
  intros Hit Hsb Hf Hh Hr (c & Hc & Hcf).
  destruct (balloc_run D start size p sb D_ok start_ok sb_ok map_ok J held k Hit Hsb Hf Hh Hr) as
    [(r & J' & k' & E & H1 & H2 & H3 & _ & H5 & H6 & H7 & H8 & H9 & H10)|[Hall _]].
  - exists r, J', k'. by split.
  - by rewrite Hall in Hcf.
Qed.

(** What does not change. *)
Lemma alloc_same J held r J' k k' b : alloc_step J held r J' k k' -> used k b = true ->
  (forall c, 0 <= c < sb_size sb -> b <> map_block sb c) -> vw k' b = vw k b.
Proof.
  intros [Hr _ Hf Hv _ _ _ _ _] Hu Hm. rewrite Hv, !decide_False; [done| |].
  - apply Hm. lia.
  - congruence.
Qed.

Lemma alloc_free_data J held r J' k k' : alloc_step J held r J' k k' ->
  free_data D start size sb k -> free_data D start size sb k'.
Proof.
  intros Ha Hf b Hb Hu. rewrite (al_used _ _ _ _ _ _ Ha) in Hu by done.
  apply Hf; [done|]. by destruct (r =? b), (used k b).
Qed.

Lemma alloc_used J held r J' k k' b : alloc_step J held r J' k k' -> 0 <= b < sb_size sb ->
  used k b = true -> used k' b = true.
Proof. intros Ha Hb Hu. rewrite (al_used _ _ _ _ _ _ Ha), Hu by done. by destruct (r =? b). Qed.

Lemma alloc_data_block J held r J' k k' n b : alloc_step J held r J' k k' -> data_block n k b -> data_block n k' b.
Proof. intros Ha [H1 H2 H3 H4 H5]. split; try done. eapply alloc_used; [done|lia|done]. Qed.

(** The new block is fit for the file. *)
Lemma alloc_new J held r J' k k' n : alloc_step J held r J' k k' -> free_data D start size sb k ->
  used k (IBLOCK n sb) = true -> data_block n k' r.
Proof.
  intros Ha Hf Hi. pose proof Ha as [H1 H2 H3 H4 H5 _ _ _ _]. split; try done.
  - rewrite H5 by lia. by rewrite Z.eqb_refl.
  - intros c Hc. by apply (Hf r ltac:(lia) H3).
  - congruence.
Qed.

(** The file gets the block [r], which it did not have, as a block of data or as its
    indirect block. *)
Lemma file_wf_grow i k k' r addrs : file_wf i k ->
  k_sb k' = sb -> length (k_inodes k') = length (k_inodes k) ->
  inode_at i k' = set_i_addrs addrs (inode_at i k) -> inode_wf (inode_at i k') ->
  free_data D start size sb k' ->
  (forall b, 0 <= b < sb_size sb -> used k b = true -> used k' b = true) ->
  data_block (i_inum (inode_at i k)) k' r -> used k r = false ->
  (forall s, 0 <= s < MAXFILE -> slot (vw k') (inode_at i k') s = slot (vw k) (inode_at i k) s) /\
    ind_of (inode_at i k) = 0 /\ ind_of (inode_at i k') = r \/
  (exists bn, forall s, 0 <= s < MAXFILE -> slot (vw k') (inode_at i k') s =
    if decide (s = bn) then r else slot (vw k) (inode_at i k) s) /\ ind_of (inode_at i k') = ind_of (inode_at i k) ->
  file_wf i k'.
Proof.
  intros [F1 F2 F3 F4 F5 (F6 & F7 & F8) F9 F10 F11 F12 F13] Hsb Hlen Hip Hwf Hfree Hmono Hr Hnew Hcase.
  assert (En : i_inum (inode_at i k') = i_inum (inode_at i k)) by by rewrite Hip.
  assert (Hdb : forall b, data_block (i_inum (inode_at i k)) k b -> data_block (i_inum (inode_at i k)) k' b).
  { intros b [H1 H2 H3 H4 H5]. split; try done. apply Hmono; [lia|done]. }
  assert (Hne : forall b, data_block (i_inum (inode_at i k)) k b -> b <> r) by (intros b Hb ->; pose proof (db_used _ _ _ Hb); congruence).
  assert (Hr0 : r <> 0) by (destruct (db_range _ _ _ Hr); lia).
  destruct Hcase as [(Hs & Hi0 & Hi)|[[bn Hs] Hi]].
  all: split; rewrite ?En; try done; try lia; [by rewrite Hip|split_and!; try done; try lia; by apply Hmono|..];
    intros s; [intros Hsr; rewrite Hs by done|rewrite Hi|intros t Hsr Htr; rewrite !Hs by done|intros Hsr; rewrite Hi, Hs by done].
  - intros Hn. by apply Hdb, F10.
  - done.
  - by apply F12.
  - intros _ E. destruct (decide (slot (vw k) (inode_at i k) s = 0)) as [E0|E0]; [congruence|]. by apply (Hne _ (F10 s Hsr E0)).
  - case_decide; [done|]. intros Hn. by apply Hdb, F10.
  - rewrite Hi in s. by apply Hdb, F11.
  - repeat case_decide; subst; try done; [| |by apply F12]; intros Hn E; exfalso.
    + destruct (decide (slot (vw k) (inode_at i k) t = 0)) as [E0|E0]; [congruence|]. by apply (Hne _ (F10 t Htr E0)).
    + by apply (Hne _ (F10 s Hsr Hn)).
  - case_decide; [|by apply F13]. intros Hin E. symmetry in E. by apply (Hne _ (F11 Hin)).
Qed.

(** ** How many blocks are free *)

Definition free_count (k : kstate) : nat :=
  length (filter (fun b => used k b = false) (seqZ 0 (sb_size sb))).

Lemma filter_used k k' (l : list Z) : (forall x, x ∈ l -> used k' x = used k x) ->
  filter (fun b => used k' b = false) l = filter (fun b => used k b = false) l.
Proof.
  induction l as [|x l IH]; intros Hl; [done|]. rewrite !filter_cons, IH by (intros; apply Hl; by right).
  by rewrite (Hl x) by left.
Qed.

Lemma free_count_ext k k' : (forall c, 0 <= c < sb_size sb -> used k' c = used k c) -> free_count k' = free_count k.
Proof. intros Hu. unfold free_count. rewrite (filter_used k k'); [done|]. intros x Hx%elem_of_seqZ. apply Hu. lia. Qed.

Lemma free_count_space k : (0 < free_count k)%nat -> space k.
Proof.
  unfold free_count. destruct (filter _ _) as [|c l] eqn:E; cbn; [lia|]. intros _. exists c.
  assert (Hc : c ∈ filter (fun b => used k b = false) (seqZ 0 (sb_size sb))) by (rewrite E; left).
  apply list_elem_of_filter in Hc as [Hf Hc]. apply elem_of_seqZ in Hc. split; [lia|done].
Qed.

Lemma alloc_free_count J held r J' k k' : alloc_step J held r J' k k' -> free_count k = S (free_count k').
Proof.
  intros Ha. pose proof (al_range _ _ _ _ _ _ Ha) as Hr. pose proof (al_used _ _ _ _ _ _ Ha) as Hu.
  pose proof (al_free _ _ _ _ _ _ Ha) as Hf. unfold free_count.
  assert (Hsplit : seqZ 0 (sb_size sb) = seqZ 0 r ++ r :: seqZ (r + 1) (sb_size sb - r - 1)).
  { replace (sb_size sb) with (r + (sb_size sb - r)) at 1 by lia. rewrite seqZ_app by lia. f_equal.
    rewrite seqZ_cons by lia. do 2 f_equal; lia. }
  rewrite Hsplit, !filter_app, !filter_cons. rewrite (decide_True (P := used k r = false)) by done.
  rewrite (decide_False (P := used k' r = false)) by (rewrite Hu, Z.eqb_refl by lia; done).
  rewrite !(filter_used k k') by (intros x Hx; apply elem_of_seqZ in Hx; rewrite Hu by lia; by destruct (Z.eqb_spec r x); [lia|]).
  rewrite !length_app. cbn. lia.
Qed.

(** ** Growing a file

    The file may get up to [n] new blocks; what it reads as stays the same, and so
    does every block in use that is not its indirect block. *)
Record extends (i : nat) (Y : gset Z) (n : nat) (k k' : kstate) : Prop := {
  gr_wf : file_wf i k';
  gr_step : fs_step Y k k';
  gr_block : forall s, 0 <= s < MAXFILE -> fblock (vw k') (inode_at i k') s = fblock (vw k) (inode_at i k) s;
  gr_addrs : exists l, inode_at i k' = set_i_addrs l (inode_at i k);
  gr_inodes : length (k_inodes k') = length (k_inodes k) /\ forall j, j <> i -> inode_at j k' = inode_at j k;
  gr_out : forall b, 0 <= b < sb_size sb -> used k b = true -> (forall c, 0 <= c < sb_size sb -> b <> map_block sb c) ->
    ind_of (inode_at i k) = 0 \/ b <> ind_of (inode_at i k) -> vw k' b = vw k b;
  gr_slot : forall s, 0 <= s < MAXFILE -> slot (vw k') (inode_at i k') s = slot (vw k) (inode_at i k) s \/
    slot (vw k) (inode_at i k) s = 0 /\ 0 < slot (vw k') (inode_at i k') s < sb_size sb /\
      used k (slot (vw k') (inode_at i k') s) = false;
  gr_ind : ind_of (inode_at i k') = ind_of (inode_at i k) \/
    ind_of (inode_at i k) = 0 /\ 0 < ind_of (inode_at i k') < sb_size sb /\ used k (ind_of (inode_at i k')) = false;
  gr_used : forall b, 0 <= b < sb_size sb -> used k b = true -> used k' b = true;
  gr_free : (free_count k <= free_count k' + n)%nat }.

Lemma extends_trans i Y Z n m k1 k2 k3 : extends i Y n k1 k2 -> extends i Z m k2 k3 -> extends i (Y ∪ Z) (n + m) k1 k3.
Proof.
  intros [A1 A2 A3 [la A4] [A5 A6] A7 A8 A9 A10 A11] [B1 B2 B3 [lb B4] [B5 B6] B7 B8 B9 B10 B11].
  assert (Hfresh : forall b, 0 <= b < sb_size sb -> used k2 b = false -> used k1 b = false).
  { intros b Hb Hf. destruct (used k1 b) eqn:Eu; [|done]. by rewrite (A10 b Hb Eu) in Hf. }
  split.
  - done.
  - by eapply fs_step_union.
  - intros s Hs. by rewrite B3, A3.
  - exists lb. by rewrite B4, A4.
  - split; [congruence|]. intros j Hj. by rewrite B6, A6.
  - intros b Hb Hu Hm Hi. rewrite B7, A7; try done; [by apply A10|].
    destruct A9 as [->|(E1 & _ & E2)]; [done|]. right. congruence.
  - intros s Hs. destruct (B8 s Hs) as [->|(E1 & E2 & E3)]; [by apply A8|].
    destruct (A8 s Hs) as [E|(E4 & E5 & _)]; [|lia]. right. rewrite <- E. split_and!; [done|lia|lia|apply Hfresh; [lia|done]].
  - destruct B9 as [->|(E1 & E2 & E3)]; [done|]. destruct A9 as [E|(E4 & E5 & _)]; [|lia].
    right. rewrite <- E. split_and!; [done|lia|lia|apply Hfresh; [lia|done]].
  - intros b Hb Hu. by apply B10, A10.
  - lia.
Qed.

(** ** bmap() *)

Definition put_addr (i j : nat) (r : Z) (k : kstate) : kstate :=
  set_k_inodes (alter (with_addr j r) i (k_inodes k)) k.

Lemma put_addr_at i j r k x : (i < length (k_inodes k))%nat ->
  inode_at x (put_addr i j r k) = if decide (x = i) then with_addr j r (inode_at i k) else inode_at x k.
Proof. apply inode_at_alter. Qed.

Lemma inode_wf_addr ip j r : inode_wf ip -> 0 <= r < 2 ^ 32 -> inode_wf (with_addr j r ip).
Proof.
  intros [H1 H2 H3 H4 H5 H6 H7] Hr. split; try done; cbn [i_addrs set_i_addrs with_addr].
  - by rewrite length_insert.
  - by apply Forall_insert.
Qed.

Lemma bmap_addr_old i j k : nth j (i_addrs (inode_at i k)) 0 <> 0 ->
  bmap_addr i j k = Ret (nth j (i_addrs (inode_at i k)) 0) k.
Proof.
  intros Ha. unfold bmap_addr. erewrite bind_ret_run by reflexivity. by destruct (Z.eqb_spec (nth j (i_addrs (inode_at i k)) 0) 0).
Qed.

Lemma bmap_addr_new J i j k : trans J ∅ k -> file_wf i k -> room2 size J ∅ -> space k ->
  nth j (i_addrs (inode_at i k)) 0 = 0 ->
  exists r J' k1, bmap_addr i j k = Ret r (put_addr i j r k1) /\ alloc_step J ∅ r J' k k1.
Proof.
  intros Hit Hw Hr Hsp Ha.
  destruct (balloc_ok J ∅ k Hit (fw_sb _ _ Hw) (fw_free _ _ Hw) (held_ok_empty _ _ k) Hr Hsp) as (r & J' & k1 & E & Hal).
  exists r, J', k1. split; [|done]. unfold bmap_addr. erewrite bind_ret_run by reflexivity. rewrite Ha, (fw_dev _ _ Hw).
  change (0 =? 0) with true. cbv iota. erewrite bind_ret_run by exact E.
  pose proof (al_range _ _ _ _ _ _ Hal). destruct (Z.eqb_spec r 0); [lia|]. reflexivity.
Qed.

(** The contents of the blocks of the file, when its slots change only at [bn], from
    none to an empty block. *)
Lemma fblock_same i k v' ip' r bn s : file_wf i k -> 0 <= s < MAXFILE ->
  slot v' ip' s = (if decide (s = bn) then r else slot (vw k) (inode_at i k) s) ->
  slot (vw k) (inode_at i k) bn = 0 -> v' r = zero_block ->
  (slot (vw k) (inode_at i k) s <> 0 -> v' (slot (vw k) (inode_at i k) s) = vw k (slot (vw k) (inode_at i k) s)) ->
  fblock v' ip' s = fblock (vw k) (inode_at i k) s.
Proof.
  intros Hw Hs Hsl H0 Hz Hv. unfold fblock. rewrite Hsl. case_decide as E.
  - rewrite E, H0, Hz. change (0 =? 0) with true. cbv iota. by destruct (r =? 0).
  - destruct (Z.eqb_spec (slot (vw k) (inode_at i k) s) 0); [done|auto].
Qed.

Lemma file_iblock_used i k : file_wf i k -> used k (IBLOCK (i_inum (inode_at i k)) sb) = true.
Proof. intros Hw. by destruct (fw_iblock _ _ Hw) as (_ & ? & _). Qed.

(** After balloc() only the indirect block, if there was one, has been written. *)
Lemma extends_intro i Y k k' r J held J' k1 addrs bn : file_wf i k -> alloc_step J held r J' k k1 ->
  fs_step Y k k' -> length (k_inodes k') = length (k_inodes k) -> (forall j, j <> i -> inode_at j k' = inode_at j k) ->
  inode_at i k' = set_i_addrs addrs (inode_at i k) -> inode_wf (inode_at i k') ->
  (forall b, ind_of (inode_at i k) = 0 \/ b <> ind_of (inode_at i k) -> vw k' b = vw k1 b) ->
  (forall s, 0 <= s < MAXFILE -> slot (vw k') (inode_at i k') s = slot (vw k) (inode_at i k) s) /\
    ind_of (inode_at i k) = 0 /\ ind_of (inode_at i k') = r \/
  slot (vw k) (inode_at i k) bn = 0 /\ (forall s, 0 <= s < MAXFILE -> slot (vw k') (inode_at i k') s =
    if decide (s = bn) then r else slot (vw k) (inode_at i k) s) /\ ind_of (inode_at i k') = ind_of (inode_at i k) ->
  extends i Y 1 k k'.
Proof.
  intros Hw Ha Hst Hlen Hoth Hip Hiw Hview Hcase. pose proof (al_range _ _ _ _ _ _ Ha) as Hr.
  assert (Huse : forall c, 0 <= c < sb_size sb -> used k' c = used k1 c).
  { intros c Hc. unfold in_use. rewrite Hview; [done|].
    destruct (decide (ind_of (inode_at i k) = 0)) as [|Hn]; [by left|right]. intros E.
    symmetry in E. by apply (db_map _ _ _ (fw_ind _ _ Hw Hn) c Hc). }
  assert (Hmono : forall b, 0 <= b < sb_size sb -> used k b = true -> used k' b = true).
  { intros b Hb Hu. rewrite Huse by done. by eapply alloc_used. }
  assert (Hind : ind_of (inode_at i k) = 0 \/ r <> ind_of (inode_at i k)).
  { destruct (decide (ind_of (inode_at i k) = 0)) as [|Hn]; [by left|right]. intros ->.
    pose proof (db_used _ _ _ (fw_ind _ _ Hw Hn)). pose proof (al_free _ _ _ _ _ _ Ha). congruence. }
  assert (Hold : forall b, 0 <= b < sb_size sb -> used k b = true -> (forall c, 0 <= c < sb_size sb -> b <> map_block sb c) ->
    ind_of (inode_at i k) = 0 \/ b <> ind_of (inode_at i k) -> vw k' b = vw k b).
  { intros b Hb Hu Hm Hi. rewrite Hview by done. by eapply alloc_same. }
  assert (Hsame : forall s, 0 <= s < MAXFILE -> slot (vw k) (inode_at i k) s <> 0 ->
    vw k' (slot (vw k) (inode_at i k) s) = vw k (slot (vw k) (inode_at i k) s)).
  { intros s Hs Hn. pose proof (fw_slot _ _ Hw s Hs Hn) as [H1 H2 H3 H4 H5]. apply Hold; try done; [lia|].
    destruct (decide (ind_of (inode_at i k) = 0)) as [|Hi]; [by left|right]. by apply (fw_ne _ _ Hw). }
  destruct (fs_step_frame _ _ _ Hst) as (Hsb & _). rewrite (fw_sb _ _ Hw) in Hsb.
  split; try done.
  - apply (file_wf_grow i k k' r addrs); try done.
    + intros b Hb Hu. rewrite Huse in Hu by done. by apply (alloc_free_data _ _ _ _ _ _ Ha (fw_free _ _ Hw)).
    + destruct (alloc_new _ _ _ _ _ _ _ Ha (fw_free _ _ Hw) (file_iblock_used i k Hw)) as [H1 H2 H3 H4 H5].
      split; try done. rewrite Huse by lia. done.
    + exact (al_free _ _ _ _ _ _ Ha).
    + destruct Hcase as [?|(_ & H1 & H2)]; [by left|right]. split; [by exists bn|done].
  - intros s Hs. destruct Hcase as [(H1 & _)|(H0 & H1 & _)].
    + unfold fblock. rewrite H1 by done. destruct (Z.eqb_spec (slot (vw k) (inode_at i k) s) 0); [done|by apply Hsame].
    + apply (fblock_same i k _ _ r bn); try done; [by apply H1| |by apply Hsame].
      rewrite Hview by done. rewrite (al_view _ _ _ _ _ _ Ha). by rewrite decide_True.
  - by exists addrs.
  - intros s Hs. destruct Hcase as [(H1 & _)|(H0 & H1 & _)]; rewrite H1 by done; [by left|].
    case_decide as Es; [|by left]. right. rewrite Es. split_and!; [done|lia|lia|exact (al_free _ _ _ _ _ _ Ha)].
  - destruct Hcase as [(_ & H1 & H2)|(_ & _ & H1)]; [|by left]. right. rewrite H2.
    split_and!; [done|lia|lia|exact (al_free _ _ _ _ _ _ Ha)].
  - rewrite (alloc_free_count _ _ _ _ _ _ Ha), (free_count_ext k1 k' Huse). lia.
Qed.

(** A new block in ip->addrs. *)
Lemma extends_addr J i j r J' k k1 : file_wf i k -> alloc_step J ∅ r J' k k1 -> (j <= Z.to_nat NDIRECT)%nat ->
  nth j (i_addrs (inode_at i k)) 0 = 0 ->
  extends i {[r; map_block sb r]} 1 k (put_addr i j r k1) /\ trans J' ∅ (put_addr i j r k1) /\
  (if decide (j = Z.to_nat NDIRECT) then ind_of (inode_at i (put_addr i j r k1)) = r
   else slot (vw (put_addr i j r k1)) (inode_at i (put_addr i j r k1)) (Z.of_nat j) = r).
Proof.
  intros Hw Ha Hj H0. pose proof Hw as [F1 F2 F3 F4 F5 F6 F7 F8 F9 F10 F11].
  destruct (tr_step_frame _ _ _ (al_step _ _ _ _ _ _ Ha)) as (Ei & Esb & _).
  pose proof (al_range _ _ _ _ _ _ Ha) as Hr. pose proof (iw_addrs _ F4) as Hl.
  assert (Hz : vw k1 r = zero_block) by (rewrite (al_view _ _ _ _ _ _ Ha); by rewrite decide_True).
  set (k' := put_addr i j r k1).
  assert (Eip : inode_at i k' = with_addr j r (inode_at i k)).
  { unfold k'. rewrite put_addr_at, decide_True by (rewrite ?Ei; done). unfold inode_at. by rewrite Ei. }
  assert (Ev : vw k' = vw k1) by done.
  assert (Hold : forall b, data_block (i_inum (inode_at i k)) k b -> vw k1 b = vw k b).
  { intros b Hb. eapply alloc_same; [done|apply Hb|apply Hb]. }
  assert (Hcase : (forall s, 0 <= s < MAXFILE -> slot (vw k') (inode_at i k') s = slot (vw k) (inode_at i k) s) /\
      ind_of (inode_at i k) = 0 /\ ind_of (inode_at i k') = r /\ j = Z.to_nat NDIRECT \/
    slot (vw k) (inode_at i k) (Z.of_nat j) = 0 /\ (forall s, 0 <= s < MAXFILE -> slot (vw k') (inode_at i k') s =
      if decide (s = Z.of_nat j) then r else slot (vw k) (inode_at i k) s) /\
    ind_of (inode_at i k') = ind_of (inode_at i k) /\ j <> Z.to_nat NDIRECT /\ 0 <= Z.of_nat j < NDIRECT).
  { rewrite Ev, Eip. destruct (decide (j = Z.to_nat NDIRECT)) as [->|Hne]; [left|right].
    - split_and!; try done; [|by rewrite ind_with_addr, decide_True].
      intros s Hs. apply slot_new_ind; done || lia.
    - assert (Hjn : 0 <= Z.of_nat j < NDIRECT) by (change NDIRECT with 12 in *; lia). split_and!; try done; try lia.
      + unfold slot. destruct (Z.ltb_spec (Z.of_nat j) NDIRECT); [|lia]. by rewrite Nat2Z.id.
      + intros s Hs. rewrite <- (Nat2Z.id j) at 1. apply slot_direct; try done; [lia|]. intros Hi. by apply Hold, F9.
      + by rewrite ind_with_addr, decide_False. }
  split_and!.
  - apply (extends_intro i _ k k' r J ∅ J' k1 (<[j := r]> (i_addrs (inode_at i k))) (Z.of_nat j)); try done.
    + eapply fs_step_trans; [apply fs_step_tr, (al_step _ _ _ _ _ _ Ha)|apply fs_step_inodes].
    + unfold k', put_addr. cbn. rewrite length_alter. congruence.
    + intros x Hx. unfold k'. rewrite put_addr_at, decide_False by (rewrite ?Ei; done). unfold inode_at. by rewrite Ei.
    + rewrite Eip. apply inode_wf_addr; [done|]. lia.
    + destruct Hcase as [(H1 & H2 & H3 & _)|(H1 & H2 & H3 & _)]; [by left|by right].
  - by apply in_trans_inodes, (al_trans _ _ _ _ _ _ Ha).
  - destruct Hcase as [(_ & _ & H1 & ->)|(_ & H1 & _ & H2 & H3)].
    + by rewrite decide_True.
    + rewrite decide_False by done. fold k'. rewrite H1 by (change NDIRECT with 12 in *; change MAXFILE with 268; lia).
      by rewrite decide_True.
Qed.

(** Reading changes nothing. *)
Lemma slot_ext v v' ip s : (forall b, v' b = v b) -> slot v' ip s = slot v ip s.
Proof. intros Hv. unfold slot. by rewrite Hv. Qed.

Lemma fblock_ext v v' ip s : (forall b, v' b = v b) -> fblock v' ip s = fblock v ip s.
Proof. intros Hv. unfold fblock. by rewrite (slot_ext v v'), Hv by done. Qed.

Lemma data_block_ext n k k' b : (forall b, vw k' b = vw k b) -> data_block n k b -> data_block n k' b.
Proof. intros Hv [H1 H2 H3 H4 H5]. split; try done. rewrite <- H2. by apply in_use_ext. Qed.

Lemma file_wf_ext i k k' : file_wf i k -> k_sb k' = k_sb k -> k_inodes k' = k_inodes k ->
  (forall b, vw k' b = vw k b) -> file_wf i k'.
Proof.
  intros [F1 F2 F3 F4 F5 (F6 & F7 & F8) F9 F10 F11 F12 F13] Es Ei Hv.
  assert (Ea : inode_at i k' = inode_at i k) by (unfold inode_at; by rewrite Ei).
  split; rewrite ?Ea, ?Ei, ?Es; try done.
  - split_and!; try done; try lia. rewrite <- F7. by apply in_use_ext.
  - by apply (free_data_ext _ _ _ _ k).
  - intros s Hs. rewrite (slot_ext (vw k)) by done. intros Hn. by eapply data_block_ext, F10.
  - intros Hn. by eapply data_block_ext, F11.
  - intros s s' Hs Hs'. rewrite !(slot_ext (vw k) (vw k')) by done. by apply F12.
  - intros s Hs. rewrite (slot_ext (vw k)) by done. by apply F13.
Qed.

Lemma extends_view i Y n k k' : file_wf i k -> fs_step Y k k' -> k_inodes k' = k_inodes k ->
  (forall b, vw k' b = vw k b) -> extends i Y n k k'.
Proof.
  intros Hw Hs Ei Hv. destruct (fs_step_frame _ _ _ Hs) as (Esb & _).
  assert (Ea : forall j, inode_at j k' = inode_at j k) by (intros j; unfold inode_at; by rewrite Ei).
  split; rewrite ?Ea; try done.
  - by apply (file_wf_ext i k).
  - intros s _. by apply fblock_ext.
  - exists (i_addrs (inode_at i k)). by destruct (inode_at i k).
  - by rewrite Ei.
  - intros s _. left. by apply slot_ext.
  - by left.
  - intros b _ Hu. rewrite <- Hu. by apply in_use_ext.
  - rewrite (free_count_ext k k'); [lia|]. intros c _. by apply in_use_ext.
Qed.

Lemma extends_weaken i Y Y' n n' k k' : extends i Y n k k' -> Y ⊆ Y' -> (n <= n')%nat -> extends i Y' n' k k'.
Proof. intros [H1 H2 H3 H4 H5 H6 H7 H8 H9 H10] HY Hn. split; try done; [by eapply fs_step_weaken|lia]. Qed.

(** bmap() in the indirect block [addr]. *)
Definition bmap_entry (i : nat) (bn addr : Z) : K Z :=
  let! ip := gets (inode_at i) in
  let! bp := bread (i_dev ip) addr in
  let! x := gets (buf_at bp) in
  let! addr := (
    let a := rd 4 (b_data x) (4 * Z.to_nat bn) in
    if a =? 0 then
      let! addr := balloc (i_dev ip) in
      do! (if truth addr then
             do! upd_data bp (fun d => wr 4 d (4 * Z.to_nat bn) addr);
             log_write bp
           else ret tt);
      ret addr
    else ret a) in
  do! brelse bp;
  ret addr.

Lemma bmap_unfold i bn : bmap i bn =
  if bn <? NDIRECT then bmap_addr i (Z.to_nat bn) else
  if bn - NDIRECT <? NINDIRECT then
    let! addr := bmap_addr i (Z.to_nat NDIRECT) in
    if addr =? 0 then ret 0 else bmap_entry i (bn - NDIRECT) addr
  else panic "bmap: out of range".
Proof. reflexivity. Qed.

(** A new block in the indirect block, which the caller holds in [bp]. *)
Lemma entry_alloc J i bn bp k : trans J {[bp]} k -> file_wf i k -> NDIRECT <= bn < MAXFILE ->
  ind_of (inode_at i k) <> 0 -> slot (vw k) (inode_at i k) bn = 0 -> b_blockno (buf_at bp k) = ind_of (inode_at i k) ->
  b_data (buf_at bp k) = vw k (ind_of (inode_at i k)) ->
  (S (S (S (length J))) < HEAD)%nat -> Z.of_nat (length J) + 4 <= size -> space k ->
  exists r k1 k2 J' k3 k4, balloc D k = Ret r k1 /\ 0 < r /\
    upd_data bp (fun d => wr 4 d (4 * Z.to_nat (bn - NDIRECT)) r) k1 = Ret tt k2 /\
    log_write bp k2 = Ret tt k3 /\ brelse bp k3 = Ret tt k4 /\ trans J' ∅ k4 /\
    extends i {[r; map_block sb r; ind_of (inode_at i k)]} 1 k k4 /\ k_inodes k4 = k_inodes k /\
    slot (vw k4) (inode_at i k4) bn = r /\ (length J' <= length J + 3)%nat.
Proof.
  intros Hit Hw Hbn Hi Hz Hb Hd R1 R2 Hsp. set (ind := ind_of (inode_at i k)) in *.
  pose proof (fw_ind _ _ Hw Hi) as Hind. fold ind in Hind. pose proof Hind as [G1 G2 G3 G4 G5].
  destruct (balloc_ok J {[bp]} k Hit (fw_sb _ _ Hw) (fw_free _ _ Hw)) as (r & J1 & k1 & Eb & Ha); [| |done|].
  { intros x Hx%elem_of_singleton. subst x. cbv zeta. rewrite Hb. split_and!; [lia|lia|done|done]. }
  { split_and!; [lia|lia|]. rewrite size_singleton. lia. }
  pose proof Ha as [A1 A2 A3 A4 A5 A6 A7 A8 A9].
  assert (Hc : core (buf_at bp k1) = core (buf_at bp k)) by (apply A9; set_solver).
  assert (Hb1 : b_blockno (buf_at bp k1) = ind) by (rewrite <- Hb; by apply core_bno).
  assert (Hd1 : b_data (buf_at bp k1) = vw k ind) by (rewrite <- Hd; by injection Hc).
  set (f := fun d => wr 4 d (4 * Z.to_nat (bn - NDIRECT)) r).
  assert (Hlen : length (vw k ind) = 1024%nat) by (by eapply view_length).
  assert (Hfit : (4 * Z.to_nat (bn - NDIRECT) + 4 <= 1024)%nat) by (change NDIRECT with 12 in *; change MAXFILE with 268 in *; lia).
  destruct (trans_write D start size p D_ok start_ok J1 {[bp]} k1 bp f A6) as
    (k2 & J' & k3 & k4 & W1 & W2 & W3 & I4 & S4 & _ & Hl4 & V4 & _).
  { set_solver. }
  { split_and!; [lia|lia|]. rewrite size_singleton. lia. }
  { by rewrite Hb1. }
  { rewrite Hd1. pose proof (view_ok D p _ _ k ind (it_inv _ _ _ _ _ _ _ Hit)) as [_ Hby]. split; [|by apply wr_bytes].
    unfold f. rewrite length_wr; lia || done. }
  rewrite Hb1, Hd1 in V4. rewrite Hb1 in S4.
  assert (Ei : k_inodes k4 = k_inodes k).
  { destruct (tr_step_frame _ _ _ S4) as (-> & _). by destruct (tr_step_frame _ _ _ A8) as (-> & _). }
  assert (Eat : forall j, inode_at j k4 = inode_at j k) by (intros j; unfold inode_at; by rewrite Ei).
  assert (Hs : forall s, 0 <= s < MAXFILE -> slot (vw k4) (inode_at i k4) s =
    if decide (s = bn) then r else slot (vw k) (inode_at i k) s).
  { intros s Hs. rewrite Eat. apply slot_indirect; try done; [lia|]. fold ind. rewrite V4. by rewrite decide_True. }
  exists r, k1, k2, J', k3, k4. split_and!; try done; try lia.
  - by replace ({[bp]} ∖ {[bp]}) with (∅ : gset nat) in I4 by set_solver.
  - apply (extends_intro i _ k k4 r J {[bp]} J1 k1 (i_addrs (inode_at i k)) bn); try done; rewrite ?Eat; try done.
    + apply fs_step_tr. eapply tr_step_weaken; [by eapply tr_step_union|set_solver].
    + by rewrite Ei.
    + by destruct (inode_at i k).
    + by apply Hw.
    + intros b [Hi0|Hne]; [done|]. rewrite V4. by rewrite decide_False.
    + right. split_and!; [done| |done]. intros s Hsr. rewrite <- Hs by done. by rewrite Eat.
  - rewrite Hs by (change NDIRECT with 12 in *; lia). by rewrite decide_True.
Qed.

Lemma bmap_entry_run J i bn k : trans J ∅ k -> file_wf i k -> NDIRECT <= bn < MAXFILE -> ind_of (inode_at i k) <> 0 ->
  (S (S (S (length J))) < HEAD)%nat -> Z.of_nat (length J) + 4 <= size -> space k ->
  exists a J' k', bmap_entry i (bn - NDIRECT) (ind_of (inode_at i k)) k = Ret a k' /\ a <> 0 /\ trans J' ∅ k' /\
    extends i {[a; map_block sb a; ind_of (inode_at i k)]} 1 k k' /\
    slot (vw k') (inode_at i k') bn = a /\ (length J' <= length J + 3)%nat /\ ind_of (inode_at i k') = ind_of (inode_at i k).
Proof.
  intros Hit Hw Hbn Hi R1 R2 Hsp. set (ind := ind_of (inode_at i k)) in *. pose proof (fw_ind _ _ Hw Hi) as Hind. fold ind in Hind.
  destruct (trans_read D start size p D_ok start_ok J ∅ k ind Hit) as
    (bp & k0 & E0 & Hbp & Hnh & I0 & S0 & B0 & D0 & V0 & Rl & O0 & Kd).
  { apply (db_home _ _ _ Hind). }
  { set_solver. }
  { rewrite size_empty. lia. }
  pose proof (held_release bp ∅ Hnh) as Eh.
  assert (Ei0 : k_inodes k0 = k_inodes k) by (destruct (tr_step_frame ∅ _ _ (tr_step_bio _ _ _ S0)) as (-> & _); done).
  assert (Ea0 : inode_at i k0 = inode_at i k) by (unfold inode_at; by rewrite Ei0).
  assert (Hslot : slot (vw k) (inode_at i k) bn = rd 4 (vw k ind) (4 * Z.to_nat (bn - NDIRECT))).
  { unfold slot. destruct (Z.ltb_spec bn NDIRECT); [lia|]. fold ind. by destruct (Z.eqb_spec ind 0). }
  unfold bmap_entry. erewrite bind_ret_run by reflexivity. rewrite (fw_dev _ _ Hw).
  erewrite bind_ret_run by exact E0. erewrite bind_ret_run by reflexivity. rewrite D0, <- Hslot. cbv zeta.
  destruct (Z.eqb_spec (slot (vw k) (inode_at i k) bn) 0) as [Hz|Hnz].
  - assert (Hg0 : extends i ∅ 0 k k0) by (apply extends_view; [done|by apply fs_step_tr, tr_step_bio|done|done]).
    rewrite union_empty_r_L in I0.
    destruct (entry_alloc J i bn bp k0) as (r & k1 & k2 & J' & k3 & k4 & A1 & A2 & A3 & A4 & A5 & A6 & A7 & A8 & A9 & A10);
      try done; rewrite ?Ea0, ?V0; try done.
    { apply (gr_wf _ _ _ _ _ Hg0). }
    { rewrite (slot_ext (vw k)) by done. exact Hz. }
    { destruct Hsp as (c & Hc & Hf). exists c. split; [done|]. rewrite <- Hf. by apply in_use_ext. }
    exists r, J', k4. split_and!; try done; [|lia| |].
    + rewrite bind_assoc. erewrite bind_ret_run by exact A1. unfold truth. destruct (Z.eqb_spec r 0); [lia|]. cbn [negb].
      rewrite !bind_assoc. erewrite bind_ret_run by exact A3. erewrite bind_ret_run by exact A4.
      erewrite bind_ret_run by reflexivity. by erewrite bind_ret_run by exact A5.
    + eapply extends_weaken; [by eapply extends_trans| |lia]. rewrite Ea0. fold ind. set_solver.
    + unfold ind, inode_at. by rewrite A8, Ei0.
  - erewrite bind_ret_run by reflexivity.
    destruct (trans_release D start size p J _ k0 bp I0) as (k1 & E1 & I1 & S1 & C1 & V1 & _); [set_solver|done|].
    rewrite Eh in I1. erewrite bind_ret_run by exact E1.
    assert (Ei1 : k_inodes k1 = k_inodes k) by (destruct (tr_step_frame ∅ _ _ (tr_step_bio _ _ _ S1)) as (-> & _); done).
    assert (Hg : extends i {[slot (vw k) (inode_at i k) bn; map_block sb (slot (vw k) (inode_at i k) bn); ind]} 1 k k1).
    { apply extends_view; [done| |done|intros b; by rewrite V1, V0].
      eapply fs_step_trans; by apply fs_step_tr, tr_step_bio. }
    exists (slot (vw k) (inode_at i k) bn), J, k1. split_and!; try done; [|lia|].
    + destruct (gr_slot _ _ _ _ _ Hg bn) as [?|[? _]]; [change NDIRECT with 12 in Hbn; lia|done|done].
    + unfold ind, inode_at. by rewrite Ei1.
Qed.

(** The blocks that getting block [a] of the file may log. *)
Definition bmap_blocks (bn a : Z) (ip : inode) : gset Z :=
  {[a; map_block sb a]} ∪ (if bn <? NDIRECT then ∅ else {[ind_of ip; map_block sb (ind_of ip)]}).

(** The free blocks that the indirect block will take. *)
Definition reserve (ip : inode) : nat := if ind_of ip =? 0 then 1 else 0.

(** The indirect block, allocated if there is none. *)
Lemma bmap_ind_run J i k : trans J ∅ k -> file_wf i k -> room2 size J ∅ -> space k ->
  exists J' k', bmap_addr i (Z.to_nat NDIRECT) k = Ret (ind_of (inode_at i k')) k' /\ ind_of (inode_at i k') <> 0 /\
    trans J' ∅ k' /\ (length J' <= length J + 2)%nat /\
    extends i {[ind_of (inode_at i k'); map_block sb (ind_of (inode_at i k'))]} (reserve (inode_at i k)) k k'.
Proof.
  intros Hit Hw HR Hsp. unfold reserve. destruct (Z.eqb_spec (ind_of (inode_at i k)) 0) as [E0|E0].
  - destruct (bmap_addr_new J i (Z.to_nat NDIRECT) k Hit Hw HR Hsp E0) as (r & J' & k1 & Er & Ha).
    destruct (extends_addr J i (Z.to_nat NDIRECT) r J' k k1 Hw Ha) as (Hg & It & Hs); [done|done|].
    rewrite decide_True in Hs by done. pose proof (al_range _ _ _ _ _ _ Ha). pose proof (al_len _ _ _ _ _ _ Ha).
    exists J', (put_addr i (Z.to_nat NDIRECT) r k1). rewrite Hs. split_and!; try done; lia.
  - exists J, k. split_and!; try done; [by apply bmap_addr_old|lia|].
    apply extends_view; try done. by apply tr_step_refl.
Qed.

Lemma bmap_run J i bn k : trans J ∅ k -> file_wf i k -> 0 <= bn < MAXFILE ->
  (length J + 5 < HEAD)%nat -> Z.of_nat (length J) + 6 <= size -> (S (reserve (inode_at i k)) <= free_count k)%nat ->
  exists a J' k', bmap i bn k = Ret a k' /\ a <> 0 /\ trans J' ∅ k' /\
    extends i (bmap_blocks bn a (inode_at i k')) 2 k k' /\ slot (vw k') (inode_at i k') bn = a /\
    (length J' <= length J + 5)%nat /\
    (free_count k + reserve (inode_at i k') <= free_count k' + 1 + reserve (inode_at i k))%nat.
Proof.
  intros Hit Hw Hbn R1 R2 Hfree. rewrite bmap_unfold. unfold bmap_blocks, reserve in *.
  assert (Hsp : space k) by (apply free_count_space; lia).
  assert (HR2 : room2 size J ∅) by (split_and!; [lia|lia|rewrite size_empty; lia]).
  destruct (Z.ltb_spec bn NDIRECT) as [Hlt|Hge].
  - assert (Es : slot (vw k) (inode_at i k) bn = nth (Z.to_nat bn) (i_addrs (inode_at i k)) 0).
    { unfold slot. by destruct (Z.ltb_spec bn NDIRECT); [|lia]. }
    destruct (decide (nth (Z.to_nat bn) (i_addrs (inode_at i k)) 0 = 0)) as [E0|E0].
    + destruct (bmap_addr_new J i (Z.to_nat bn) k Hit Hw HR2 Hsp E0) as (r & J' & k1 & Er & Ha).
      destruct (extends_addr J i (Z.to_nat bn) r J' k k1 Hw Ha) as (Hg & It & Hs); [lia|done|].
      rewrite decide_False in Hs by (change NDIRECT with 12 in *; change (Z.to_nat NDIRECT) with 12%nat; lia).
      rewrite Z2Nat.id in Hs by lia. exists r, J', (put_addr i (Z.to_nat bn) r k1).
      pose proof (al_range _ _ _ _ _ _ Ha). pose proof (al_len _ _ _ _ _ _ Ha).
      pose proof (gr_free _ _ _ _ _ Hg). rewrite union_empty_r_L.
      split_and!; try done; try lia; [eapply extends_weaken; [exact Hg|done|lia]|].
      destruct (gr_ind _ _ _ _ _ Hg) as [->|(-> & ? & _)]; [lia|]. change (0 =? 0) with true.
      destruct (Z.eqb_spec (ind_of (inode_at i (put_addr i (Z.to_nat bn) r k1))) 0); lia.
    + exists (slot (vw k) (inode_at i k) bn), J, k. rewrite Es at 1 2. split_and!; try done; try lia.
      * by apply bmap_addr_old.
      * apply extends_view; try done. by apply tr_step_refl.
  - destruct (Z.ltb_spec (bn - NDIRECT) NINDIRECT); [|change NDIRECT with 12 in *; change NINDIRECT with 256 in *; change MAXFILE with 268 in *; lia].
    destruct (bmap_ind_run J i k Hit Hw HR2 Hsp) as (J1 & k1 & E1 & Hi1 & I1 & Hl1 & G1).
    pose proof (gr_free _ _ _ _ _ G1) as F1. unfold reserve in F1.
    destruct (bmap_entry_run J1 i bn k1 I1 (gr_wf _ _ _ _ _ G1)) as (a & J' & k' & E2 & Ha & I2 & G2 & Hs & Hl2 & Ei);
      [lia|done|lia|lia|apply free_count_space; lia|].
    pose proof (gr_free _ _ _ _ _ G2) as F2. exists a, J', k'. split_and!; try done; try lia.
    + erewrite bind_ret_run by exact E1. destruct (Z.eqb_spec (ind_of (inode_at i k1)) 0); [done|]. exact E2.
    + eapply extends_weaken; [by eapply extends_trans| |]; [rewrite Ei; set_solver|]. unfold reserve. destruct (_ =? _); lia.
    + rewrite Ei. destruct (Z.eqb_spec (ind_of (inode_at i k1)) 0); [done|]. lia.
Qed.

End content.
