(* ===== verification/Filerw.v ===== *)
(** * Filerw: reading and writing files (readi() and writei() of kernel/fs.c)

    On the file contents of file Content: readi() delivers the bytes of the file,
    writei() replaces them, and what writei() wrote, readi() reads.  Blocks of
    other files do not change, and the blocks a write logs are those it touches,
    the indirect block, their marks in the free map and the inode. *)

From Stdlib Require Import ZArith Lia.
From stdpp Require Import base gmap list strings.
From S2P Require Import Prelude Bytes State Riscv Spinlock Sched Sleeplock Mem Kalloc Bio Log Trans Vm Uvm Ucopy Pipe Uart Printf Console Virtio Fs Fsdisk Balloc Content.

(** ** Where the bytes to write come from

    [src] supplies [bs], also while the transaction goes on. *)
Definition feeds (src : source) (bs : list Z) (k : kstate) : Prop := source_add src 0 = src /\
  forall Y k' m len, fs_step Y k k' -> 0 <= m -> 0 <= len -> m + len <= Z.of_nat (length bs) ->
    either_copyin (source_add src m) len k' = Ret (0, slice bs (Z.to_nat m) (Z.to_nat len)) k'.

Lemma cpu_ok_fs Y k k' : cpu_ok k -> fs_step Y k k' -> cpu_ok k'.
Proof. intros Hok Hs. destruct (fs_step_frame _ _ _ Hs) as (_ & _ & _ & Ec & Eh & _). unfold cpu_ok. by rewrite Ec, Eh. Qed.

Lemma feeds_local bs k : cpu_ok k -> feeds (SLocal bs) bs k.
Proof.
  intros Hok. split; [done|]. intros Y k' m len Hs Hm Hl Hle. unfold either_copyin.
  by erewrite bind_ret_run by (apply myproc_run; by eapply cpu_ok_fs).
Qed.

Lemma slice_load m a n off len : (off + len <= n)%nat -> slice (load_bytes m a n) off len = load_bytes m (a + Z.of_nat off) len.
Proof.
  intros Hle. apply list_eq. intros i. rewrite slice_lookup. case_decide as Hi.
  - rewrite !load_bytes_lookup by lia. do 2 f_equal. lia.
  - symmetry. apply lookup_ge_None_2. rewrite length_load_bytes. lia.
Qed.

Lemma feeds_phys pa n k : cpu_ok k -> feeds (SPhys pa) (load_bytes (k_mem k) pa n) k.
Proof.
  intros Hok. split; [cbn; by rewrite Z.add_0_r|]. intros Y k' m len Hs Hm Hl Hle. rewrite length_load_bytes in Hle. unfold either_copyin.
  erewrite bind_ret_run by (apply myproc_run; by eapply cpu_ok_fs). cbn [source_add]. unfold gets.
  destruct (fs_step_frame _ _ _ Hs) as (_ & _ & _ & _ & _ & Em & _).
  rewrite Em, slice_load by lia. by rewrite Z2Nat.id.
Qed.

Lemma woken_pagetable p k k' : woken (k_procs k) (k_procs k') ->
  p_pagetable (proc_at p k') = p_pagetable (proc_at p k).
Proof.
  intros Hw. unfold proc_at. destruct (k_procs k !! p) as [x|] eqn:E.
  - destruct (Forall2_lookup_l _ _ _ _ _ Hw E) as (y & -> & [->|[_ ->]]); done.
  - apply Forall2_length in Hw. apply lookup_ge_None_1 in E. by rewrite (lookup_ge_None_2 (k_procs k')) by lia.
Qed.

Lemma uspace_fs kend Y k k' l root t um : fs_step Y k k' -> uspace kend k l root t um -> uspace kend k' l root t um.
Proof.
  intros Hs [[[H1 H2 H3 H4 H5] H6 H7 H8 H9] H10].
  destruct (fs_step_frame _ _ _ Hs) as (_ & _ & El & Ec & Eh & Em & _).
  assert (Ef : k_freelist k' = k_freelist k).
  { destruct Hs as [(k1 & lg & (bs & sl & d & ws & v & ps & E1 & _) & E2) _].
    apply (f_equal k_freelist) in E1, E2. cbn in E1, E2. congruence. }
  split; [split; [split|..]|]; rewrite ?Em; try done.
  - unfold cpu_ok. by rewrite Ec, Eh.
  - unfold lock_free. by rewrite El.
  - destruct H3. split; rewrite ?Em, ?Ef; done.
Qed.

(** A user buffer, in pages the process can read. *)
Lemma feeds_user kend p k l root t um va bs : 0 < kend -> cpu_ok k -> c_proc (k_cpu k) = Some p ->
  p_pagetable (proc_at p k) = root -> uspace kend k l root t um -> 0 <= va -> va + Z.of_nat (length bs) <= MAXVA ->
  user_bytes k um va bs -> (forall a, va <= a < va + Z.of_nat (length bs) -> readable um a = true) -> feeds (SUser va) bs k.
Proof.
  intros Hk0 Hok Hp Hpt Hu Hva Hle Hb Hr. change MAXVA with (2 ^ 38) in Hle.
  split; [cbn; by rewrite Z.add_0_r, u64_small by lia|]. intros Y k' m len Hs Hm Hl Hml. unfold either_copyin.
  destruct (fs_step_frame _ _ _ Hs) as (_ & _ & _ & Ec & _ & Em & Hw & _).
  erewrite bind_ret_run by (apply myproc_run; by eapply cpu_ok_fs). cbn [source_add]. rewrite Ec, Hp.
  erewrite bind_ret_run by reflexivity. rewrite (woken_pagetable p k k' Hw), Hpt.
  rewrite u64_small by lia. unfold copyin.
  destruct (copyin_loop kend Hk0 (S (Z.to_nat len)) k' l root t um (va + m) len []) as (r & bs' & E & Hub & Hcase).
  { by eapply uspace_fs. }
  { lia. }
  { done. }
  { lia. }
  rewrite E. cbn [app]. destruct Hcase as [[-> Hn]|(-> & Hn & [Hbad|Hbad])].
  - f_equal. f_equal. apply list_eq. intros j. rewrite slice_lookup. case_decide as Hj.
    + rewrite <- (Hub j) by lia. unfold uread. rewrite Em. fold (uread k um (va + m + Z.of_nat j)).
      replace (va + m + Z.of_nat j) with (va + Z.of_nat (Z.to_nat m + j)) by lia. rewrite Hb by lia. done.
    + apply lookup_ge_None_2. lia.
  - change MAXVA with (2 ^ 38) in Hbad. lia.
  - rewrite Hr in Hbad by lia. done.
Qed.

Lemma source_add_add src m n : 0 <= m -> 0 <= n -> source_add (source_add src m) n = source_add src (m + n).
Proof.
  intros Hm Hn. destruct src; cbn [source_add]; f_equal.
  - unfold u64. rewrite Z.add_mod_idemp_l by done. f_equal. lia.
  - lia.
  - rewrite drop_drop. f_equal. lia.
Qed.

Lemma slice_drop {A} (d : list A) m a b : take b (drop a (drop m d)) = take b (drop (m + a) d).
Proof. by rewrite drop_drop. Qed.

Lemma feeds_add src bs m Y k k' : 0 <= m <= Z.of_nat (length bs) -> feeds src bs k -> fs_step Y k k' ->
  feeds (source_add src m) (drop (Z.to_nat m) bs) k'.
Proof.
  intros Hm [H0 Hf] Hs. split; [by rewrite source_add_add, Z.add_0_r by lia|].
  intros Z k2 m' len Hs2 Hm' Hl Hle. rewrite length_drop in Hle. rewrite source_add_add by lia.
  rewrite (Hf (Y ∪ Z) k2); [|by eapply fs_step_union|lia|lia|lia].
  unfold slice. rewrite slice_drop. do 3 f_equal. f_equal. lia.
Qed.

(** ** Bytes and blocks *)

Lemma off_split off : 0 <= off -> off = BSIZE * (off / BSIZE) + off mod BSIZE /\ 0 <= off mod BSIZE < BSIZE /\ 0 <= off / BSIZE.
Proof.
  intros Ho. pose proof (Z.div_mod off BSIZE ltac:(done)). pose proof (Z.mod_pos_bound off BSIZE ltac:(done)).
  split_and!; try lia. by apply Z.div_pos.
Qed.

Lemma off_block off : 0 <= off < MAXFILE * BSIZE -> 0 <= off / BSIZE < MAXFILE.
Proof.
  intros Ho. split; [by apply Z.div_pos; [lia|]|]. apply Z.div_lt_upper_bound; [done|]. rewrite Z.mul_comm. apply Ho.
Qed.

(** The number of blocks that [n] bytes from [off] on touch. *)
Definition nblocks (off n : Z) : Z := if n <=? 0 then 0 else (off + n - 1) / BSIZE - off / BSIZE + 1.

Lemma nblocks_step off n : 0 <= off -> 0 < n -> let m := Z.min n (BSIZE - off mod BSIZE) in
  nblocks off n = 1 + nblocks (off + m) (n - m) /\ 0 <= nblocks (off + m) (n - m) /\
  (0 < nblocks (off + m) (n - m) -> (off + m) / BSIZE = off / BSIZE + 1).
Proof.
  intros Ho Hn m. unfold nblocks, m. change BSIZE with 1024. destruct (Z.leb_spec n 0); [lia|].
  destruct (Z.leb_spec (n - Z.min n (1024 - off mod 1024)) 0) as [Hle|Hgt]; [split_and!; try lia; zlia|].
  assert (Z.min n (1024 - off mod 1024) = 1024 - off mod 1024) as -> by lia.
  replace (off + (1024 - off mod 1024)) with ((off / 1024 + 1) * 1024) by zlia.
  rewrite Z.div_mul by lia. replace ((off / 1024 + 1) * 1024 + (n - (1024 - off mod 1024)) - 1) with (off + n - 1) by zlia.
  split_and!; try lia. assert (off / 1024 + 1 <= (off + n - 1) / 1024); [|lia]. apply Z.div_le_lower_bound; zlia.
Qed.

Lemma size_add2 (X Y : gset Z) a b : X ⊆ Y ∪ {[a; b]} -> (base.size X <= base.size Y + 2)%nat.
Proof.
  intros HX. apply subseteq_size in HX. pose proof (size_union_alt Y {[a; b]}) as E.
  pose proof (subseteq_size ({[a; b]} ∖ Y) {[a; b]} ltac:(set_solver)).
  pose proof (size_union_alt {[a]} ({[b]} : gset Z)) as E2. rewrite size_singleton in E2.
  pose proof (subseteq_size ({[b]} ∖ {[a]} : gset Z) {[b]} ltac:(set_solver)) as E3. rewrite size_singleton in E3. lia.
Qed.

Section rw.
Context `{Disk}.
Variables (D start size : Z) (p : nat) (sb : superblock).
Hypothesis D_ok : 0 < D < 2 ^ 31.
Hypothesis start_ok : 0 <= start /\ 0 < size /\ start + size < 2 ^ 31.
Hypothesis sb_ok : 0 <= sb_size sb < 2 ^ 31.
Hypothesis map_ok : forall b, 0 <= b < sb_size sb -> home start size (map_block sb b).

#[local] Abbreviation trans := (in_trans D start size p).
#[local] Abbreviation vw := (view D).
#[local] Abbreviation used := (in_use D sb).
#[local] Abbreviation wf := (file_wf D start size sb).
#[local] Abbreviation ext := (extends D start size sb).

(** A block in use that is not a block of the file. *)
Record elsewhere (i : nat) (k : kstate) (b : Z) : Prop := {
  el_range : 0 < b < sb_size sb;
  el_used : used k b = true;
  el_map : forall c, 0 <= c < sb_size sb -> b <> map_block sb c;
  el_ind : b <> ind_of (inode_at i k);
  el_slot : forall s, 0 <= s < MAXFILE -> b <> slot (vw k) (inode_at i k) s }.

Lemma extends_elsewhere i Y n k k' b : ext i Y n k k' -> elsewhere i k b -> vw k' b = vw k b /\ elsewhere i k' b.
Proof.
  intros He [E1 E2 E3 E4 E5]. split.
  - apply (gr_out _ _ _ _ _ _ _ _ _ He); try done; [lia|by right].
  - split; try done.
    + apply (gr_used _ _ _ _ _ _ _ _ _ He); [lia|done].
    + destruct (gr_ind _ _ _ _ _ _ _ _ _ He) as [->|(_ & _ & Hf)]; [done|]. congruence.
    + intros s Hs. destruct (gr_slot _ _ _ _ _ _ _ _ _ He s Hs) as [->|(_ & _ & Hf)]; [by apply E5|]. congruence.
Qed.

(** Only the data block [a] of the file has been written. *)
Lemma data_write_wf i k k' bn a : wf i k -> k_sb k' = k_sb k -> k_inodes k' = k_inodes k -> 0 <= bn < MAXFILE ->
  slot (vw k) (inode_at i k) bn = a -> a <> 0 -> (forall b, b <> a -> vw k' b = vw k b) ->
  wf i k' /\ (forall s, 0 <= s < MAXFILE -> slot (vw k') (inode_at i k') s = slot (vw k) (inode_at i k) s) /\
  (forall c, 0 <= c < sb_size sb -> used k' c = used k c).
Proof.
  intros Hw Es Ei Hbn Ha Ha0 Hv. pose proof Hw as [F1 F2 F3 F4 F5 (F6 & F7 & F8) F9 F10 F11 F12 F13].
  pose proof (F10 bn Hbn ltac:(by rewrite Ha)) as Hdb. rewrite Ha in Hdb.
  assert (Ea : inode_at i k' = inode_at i k) by (unfold inode_at; by rewrite Ei).
  assert (Hu : forall c, 0 <= c < sb_size sb -> used k' c = used k c).
  { intros c Hc. unfold in_use. rewrite Hv; [done|]. intros E. by apply (db_map _ _ _ _ _ _ _ Hdb c Hc). }
  assert (Hs : forall s, 0 <= s < MAXFILE -> slot (vw k') (inode_at i k') s = slot (vw k) (inode_at i k) s).
  { intros s Hs. rewrite Ea. unfold slot. destruct (s <? NDIRECT); [done|].
    destruct (Z.eqb_spec (ind_of (inode_at i k)) 0); [done|]. rewrite Hv; [done|]. intros E. by apply (F13 bn Hbn); [|congruence]. }
  assert (Hd : forall b, data_block D start size sb (i_inum (inode_at i k)) k b -> data_block D start size sb (i_inum (inode_at i k)) k' b).
  { intros b [H1 H2 H3 H4 H5]. split; try done. rewrite Hu by lia. done. }
  pose proof Hs as Hs'. rewrite Ea in Hs'. split_and!; [|done|done]. split; rewrite ?Ea, ?Ei, ?Es; try done.
  - split_and!; try done; try lia. by rewrite Hu.
  - intros b Hb Hf. rewrite Hu in Hf by done. by apply F9.
  - intros s Hsr. rewrite Hs' by done. intros Hn. by apply Hd, F10.
  - intros Hn. by apply Hd, F11.
  - intros s t Hsr Htr. rewrite !Hs' by done. by apply F12.
  - intros s Hsr. rewrite Hs' by done. by apply F13.
Qed.

(** The bytes of the file after [bs] has been put in one of its blocks. *)
Lemma fbyte_splice i k k' off a bs : wf i k -> k_sb k' = k_sb k -> k_inodes k' = k_inodes k ->
  0 <= off < MAXFILE * BSIZE -> off mod BSIZE + Z.of_nat (length bs) <= BSIZE ->
  slot (vw k) (inode_at i k) (off / BSIZE) = a -> a <> 0 -> length (vw k a) = 1024%nat ->
  vw k' a = splice (vw k a) (Z.to_nat (off mod BSIZE)) bs -> (forall b, b <> a -> vw k' b = vw k b) ->
  forall o, 0 <= o < MAXFILE * BSIZE -> fbyte (vw k') (inode_at i k') o =
    if decide (off <= o < off + Z.of_nat (length bs)) then nth (Z.to_nat (o - off)) bs 0 else fbyte (vw k) (inode_at i k) o.
Proof.
  intros Hw Es Ei Hoff Hfit Ha Ha0 Hlen Hva Hv o Ho.
  destruct (data_write_wf i k k' (off / BSIZE) a Hw Es Ei (off_block off Hoff) Ha Ha0 Hv) as (_ & Hs & _).
  destruct (off_split off ltac:(lia)) as (Eo & Hm & Hd). destruct (off_split o ltac:(lia)) as (Eo' & Hm' & Hd').
  pose proof (off_block o Ho) as Hob. unfold fbyte, fblock. rewrite !Hs by done.
  destruct (decide (o / BSIZE = off / BSIZE)) as [Eq|Hne].
  - rewrite Eq, Ha. destruct (Z.eqb_spec a 0); [done|]. rewrite Hva, !nth_lookup, splice_lookup by (change BSIZE with 1024 in *; lia).
    rewrite Eq in Eo'. repeat case_decide; try lia; do 2 f_equal; lia.
  - assert (Ho2 : ~ (off <= o < off + Z.of_nat (length bs))) by (change BSIZE with 1024 in *; lia).
    rewrite decide_False by done. destruct (Z.eqb_spec (slot (vw k) (inode_at i k) (o / BSIZE)) 0); [done|].
    rewrite Hv; [done|]. rewrite <- Ha. intros E. apply Hne.
    apply (fw_inj _ _ _ _ _ _ Hw); try done. by apply off_block.
Qed.

(** The bytes from [off] on have become [bs]; the rest of the file, the other blocks
    and the other inodes are as before, and the file has kept its blocks. *)
Record wrote (i : nat) (Y : gset Z) (off : Z) (bs : list Z) (k k' : kstate) : Prop := {
  wo_wf : wf i k';
  wo_step : fs_step Y k k';
  wo_byte : forall o, 0 <= o < MAXFILE * BSIZE -> fbyte (vw k') (inode_at i k') o =
    if decide (off <= o < off + Z.of_nat (length bs)) then nth (Z.to_nat (o - off)) bs 0 else fbyte (vw k) (inode_at i k) o;
  wo_addrs : exists l, inode_at i k' = set_i_addrs l (inode_at i k);
  wo_inodes : length (k_inodes k') = length (k_inodes k) /\ forall j, j <> i -> inode_at j k' = inode_at j k;
  wo_else : forall b, elsewhere i k b -> vw k' b = vw k b /\ elsewhere i k' b;
  wo_slot : forall s, 0 <= s < MAXFILE -> slot (vw k) (inode_at i k) s <> 0 ->
    slot (vw k') (inode_at i k') s = slot (vw k) (inode_at i k) s;
  wo_ind : ind_of (inode_at i k) <> 0 -> ind_of (inode_at i k') = ind_of (inode_at i k) }.

Lemma fbyte_ext i Y n k k' o : ext i Y n k k' -> 0 <= o < MAXFILE * BSIZE ->
  fbyte (vw k') (inode_at i k') o = fbyte (vw k) (inode_at i k) o.
Proof. intros He Ho. unfold fbyte. by rewrite (gr_block _ _ _ _ _ _ _ _ _ He) by by apply off_block. Qed.

Lemma wrote_extends i Y n off k k' : ext i Y n k k' -> wrote i Y off [] k k'.
Proof.
  intros He. split; try apply He.
  - intros o Ho. rewrite decide_False by (cbn; lia). by eapply fbyte_ext.
  - intros b Hb. by eapply extends_elsewhere.
  - intros s Hs Hn. by destruct (gr_slot _ _ _ _ _ _ _ _ _ He s Hs) as [->|[? _]].
  - intros Hn. by destruct (gr_ind _ _ _ _ _ _ _ _ _ He) as [->|[? _]].
Qed.

Lemma wrote_trans i Y Z off bs cs k1 k2 k3 : wrote i Y off bs k1 k2 ->
  wrote i Z (off + Z.of_nat (length bs)) cs k2 k3 -> wrote i (Y ∪ Z) off (bs ++ cs) k1 k3.
Proof.
  intros [A1 A2 A3 [la A4] [A5 A6] A7 A8 A9] [B1 B2 B3 [lb B4] [B5 B6] B7 B8 B9]. split.
  - done.
  - by eapply fs_step_union.
  - intros o Ho. rewrite B3, A3 by done. rewrite length_app. repeat case_decide; try lia; try done.
    + rewrite app_nth2 by lia. f_equal. lia.
    + by rewrite app_nth1 by lia.
  - exists lb. by rewrite B4, A4.
  - split; [congruence|]. intros j Hj. by rewrite B6, A6.
  - intros b Hb. destruct (A7 b Hb) as [E1 E2]. destruct (B7 b E2) as [E3 E4]. by rewrite E3.
  - intros s Hs Hn. rewrite B8, A8; try done. by rewrite A8.
  - intros Hn. rewrite B9, A9; try done. by rewrite A9.
Qed.

Lemma wrote_weaken i Y Z off bs k k' : wrote i Y off bs k k' -> Y ⊆ Z -> wrote i Z off bs k k'.
Proof. intros [A1 A2 A3 A4 A5 A6 A7 A8] HY. split; try done. by eapply fs_step_weaken. Qed.

(** Bytes put into one data block. *)
Lemma wrote_block i Y k k' off a bs : wf i k -> fs_step Y k k' -> k_inodes k' = k_inodes k ->
  0 <= off < MAXFILE * BSIZE -> off mod BSIZE + Z.of_nat (length bs) <= BSIZE ->
  slot (vw k) (inode_at i k) (off / BSIZE) = a -> a <> 0 -> length (vw k a) = 1024%nat ->
  vw k' a = splice (vw k a) (Z.to_nat (off mod BSIZE)) bs -> (forall b, b <> a -> vw k' b = vw k b) ->
  wrote i Y off bs k k' /\ (forall c, 0 <= c < sb_size sb -> used k' c = used k c).
Proof.
  intros Hw Hst Ei Hoff Hfit Ha Ha0 Hlen Hva Hv. destruct (fs_step_frame _ _ _ Hst) as (Es & _).
  destruct (data_write_wf i k k' (off / BSIZE) a Hw Es Ei (off_block off Hoff) Ha Ha0 Hv) as (W & Hs & Hu).
  assert (Ea : forall j, inode_at j k' = inode_at j k) by (intros j; unfold inode_at; by rewrite Ei).
  split; [|done]. split; try done.
  - by apply (fbyte_splice i k k' off a bs).
  - rewrite Ea. exists (i_addrs (inode_at i k)). by destruct (inode_at i k).
  - by rewrite Ei.
  - intros b [E1 E2 E3 E4 E5]. split.
    + apply Hv. intros ->. apply (E5 (off / BSIZE)); [by apply off_block|done].
    + split; rewrite ?Ea; try done; [rewrite Hu by lia; done|]. intros s Hsr. rewrite <- Ea, Hs by done. by apply E5.
  - intros s Hsr _. by apply Hs.
  - intros _. by rewrite Ea.
Qed.

(** One block of writei(). *)
Lemma writei_body_run J i n tot off src bs k : trans J ∅ k -> wf i k -> 0 <= tot < n -> 0 <= off ->
  off + (n - tot) <= MAXFILE * BSIZE -> Z.of_nat (length bs) = n - tot -> Forall is_byte bs -> feeds src bs k ->
  (length J + 7 < HEAD)%nat -> Z.of_nat (length J) + 8 <= size ->
  (S (reserve (inode_at i k)) <= free_count D sb k)%nat ->
  let m := Z.min (n - tot) (BSIZE - off mod BSIZE) in
  exists a J' k', writei_body i n (tot, off, src) k = Ret (inl (tot + m, off + m, source_add src m)) k' /\
    trans J' ∅ k' /\ wrote i (bmap_blocks sb (off / BSIZE) a (inode_at i k')) off (take (Z.to_nat m) bs) k k' /\
    slot (vw k') (inode_at i k') (off / BSIZE) = a /\ a <> 0 /\
    (free_count D sb k + reserve (inode_at i k') <= free_count D sb k' + 1 + reserve (inode_at i k))%nat.
Proof.
  intros Hit Hw Ht Hoff Hend Hbs Hby Hf R1 R2 Hfree m.
  assert (Hob : 0 <= off / BSIZE < MAXFILE) by (apply off_block; lia).
  destruct (off_split off Hoff) as (Eo & Hmod & Hdiv). assert (Hm : 0 < m) by lia.
  destruct (bmap_run D start size p sb D_ok start_ok sb_ok map_ok J i (off / BSIZE) k Hit Hw Hob) as
    (a & J1 & k1 & E1 & Ha & I1 & G1 & Hs1 & Hl1 & F1); [lia|lia|done|].
  pose proof (gr_wf _ _ _ _ _ _ _ _ _ G1) as W1. pose proof (fw_slot _ _ _ _ _ _ W1 (off / BSIZE) Hob) as Hdb.
  rewrite Hs1 in Hdb. specialize (Hdb Ha).
  destruct (trans_read D start size p D_ok start_ok J1 ∅ k1 a I1) as
    (bp & k2 & E2 & Hbp & Hnh & I2 & S2 & B2 & D2 & V2 & _ & _ & _).
  { apply (db_home _ _ _ _ _ _ _ Hdb). }
  { set_solver. }
  { rewrite size_empty. lia. }
  pose proof (held_release bp ∅ Hnh) as Eh. rewrite union_empty_r_L in I2, Eh.
  set (cs := slice bs 0 (Z.to_nat m)).
  assert (Hcs : Z.of_nat (length cs) = m) by (unfold cs, slice; rewrite length_take, drop_0; lia).
  assert (Hcp : either_copyin src m k2 = Ret (0, cs) k2).
  { destruct Hf as [H0 Hf]. rewrite <- H0. apply (Hf (bmap_blocks sb (off / BSIZE) a (inode_at i k1))); [|lia|lia|lia].
    eapply fs_step_trans; [apply (gr_step _ _ _ _ _ _ _ _ _ G1)|]. by apply fs_step_tr, tr_step_bio. }
  assert (Hvl : length (vw k1 a) = 1024%nat) by by eapply view_length.
  destruct (trans_write D start size p D_ok start_ok J1 {[bp]} k2 bp (fun d => splice d (Z.to_nat (off mod BSIZE)) cs) I2) as
    (k3 & J' & k4 & k5 & W3 & W4 & W5 & I5 & S5 & _ & _ & V5 & _).
  { set_solver. }
  { split_and!; [lia|lia|]. rewrite size_singleton. lia. }
  { rewrite B2. apply (db_home _ _ _ _ _ _ _ Hdb). }
  { rewrite D2. pose proof (view_ok D p _ _ k1 a (it_inv _ _ _ _ _ _ _ I1)) as [_ Hb]. split.
    - rewrite length_splice; [done|]. change BSIZE with 1024 in *. lia.
    - apply splice_Forall; [done|]. unfold cs, slice. by apply Forall_take, Forall_drop. }
  rewrite Eh in I5. rewrite B2, D2 in V5. rewrite B2 in S5.
  assert (S15 : fs_step {[a]} k1 k5).
  { apply fs_step_tr. eapply tr_step_trans; [by apply tr_step_bio|done]. }
  assert (Ei : k_inodes k5 = k_inodes k1).
  { destruct (tr_step_frame _ _ _ S5) as (-> & _). by destruct (tr_step_frame ∅ _ _ (tr_step_bio _ _ _ S2)) as (-> & _). }
  assert (Eat : forall j, inode_at j k5 = inode_at j k1) by (intros j; unfold inode_at; by rewrite Ei).
  destruct (wrote_block i {[a]} k1 k5 off a cs W1 S15 Ei) as [Hwb Hub]; try done; [lia|change BSIZE with 1024 in *; lia| | |].
  { rewrite V5. by rewrite decide_True. }
  { intros b Hb. rewrite V5, decide_False by done. by rewrite V2. }
  exists a, J', k5. split_and!; try done.
  - unfold writei_body. destruct (Z.ltb_spec tot n); [|lia]. cbn [negb].
    erewrite bind_ret_run by exact E1. destruct (Z.eqb_spec a 0); [done|].
    erewrite bind_ret_run by reflexivity. rewrite (fw_dev _ _ _ _ _ _ W1).
    erewrite bind_ret_run by exact E2. fold m. erewrite bind_ret_run by exact Hcp. cbn [fst snd].
    erewrite bind_ret_run by exact W3. change (0 =? -1) with false. cbv iota.
    erewrite bind_ret_run by exact W4. erewrite bind_ret_run by exact W5.
    unfold ret. do 3 f_equal. rewrite u32_small; [done|]. change (MAXFILE * BSIZE) with 274432 in Hend. lia.
  - pose proof (wrote_trans i _ {[a]} off [] cs k k1 k5 (wrote_extends i _ _ off k k1 G1)) as Ht2.
    cbn [length app] in Ht2. rewrite Z.add_0_r in Ht2. specialize (Ht2 Hwb).
    replace (take (Z.to_nat m) bs) with cs by (unfold cs, slice; by rewrite drop_0).
    eapply wrote_weaken; [exact Ht2|]. rewrite Eat. unfold bmap_blocks. set_solver.
  - rewrite (wo_slot _ _ _ _ _ _ Hwb) by (rewrite ?Hs1; done). done.
  - rewrite (free_count_ext D sb k1 k5 Hub), Eat. lia.
Qed.

(** ** writei() *)

(** The blocks that writing [n] bytes from [off] on may log, the inode's apart. *)
Definition touched (v : Z -> list Z) (ip : inode) (off n : Z) : gset Z :=
  union_list ((fun bn => bmap_blocks sb bn (slot v ip bn) ip) <$> seqZ (off / BSIZE) (nblocks off n)).

(** The log's size with what the indirect block may add. *)
Definition indset (ip : inode) : gset Z := if ind_of ip =? 0 then ∅ else {[ind_of ip; map_block sb (ind_of ip)]}.
Definition weight (i : nat) (k : kstate) : nat :=
  (base.size (logged k ∪ indset (inode_at i k)) + 2 * reserve (inode_at i k))%nat.

(** A block of data beyond the direct ones needs the indirect block. *)
Lemma slot_ind v ip bn : NDIRECT <= bn -> slot v ip bn <> 0 -> ind_of ip <> 0.
Proof using.
  clear D_ok start_ok sb_ok map_ok. intros Hbn Hs E. apply Hs. unfold slot. destruct (Z.ltb_spec bn NDIRECT); [lia|]. by rewrite E.
Qed.

Lemma weight_step i k k' bn a : logged k' ⊆ logged k ∪ bmap_blocks sb bn a (inode_at i k') ->
  (NDIRECT <= bn -> ind_of (inode_at i k') <> 0) ->
  (ind_of (inode_at i k) <> 0 -> ind_of (inode_at i k') = ind_of (inode_at i k)) -> (weight i k' <= weight i k + 2)%nat.
Proof.
  unfold weight, indset, reserve, bmap_blocks. intros Hl Hb Hi.
  destruct (Z.eqb_spec (ind_of (inode_at i k)) 0) as [E0|E0].
  - destruct (Z.eqb_spec (ind_of (inode_at i k')) 0) as [E1|E1].
    + destruct (Z.ltb_spec bn NDIRECT); [|by destruct (Hb ltac:(lia))].
      pose proof (size_add2 (logged k' ∪ ∅) (logged k ∪ ∅) a (map_block sb a) ltac:(set_solver)). lia.
    + set (x := ind_of (inode_at i k')) in *.
      assert (Hsub : logged k' ∪ {[x; map_block sb x]} ⊆ ((logged k ∪ ∅) ∪ {[a; map_block sb a]}) ∪ {[x; map_block sb x]})
        by (destruct (bn <? NDIRECT); set_solver).
      pose proof (size_add2 _ _ _ _ Hsub).
      pose proof (size_add2 ((logged k ∪ ∅) ∪ {[a; map_block sb a]}) (logged k ∪ ∅) a (map_block sb a) ltac:(set_solver)). lia.
  - rewrite (Hi E0) in *. destruct (Z.eqb_spec (ind_of (inode_at i k)) 0); [done|].
    set (x := ind_of (inode_at i k)) in *.
    pose proof (size_add2 (logged k' ∪ {[x; map_block sb x]}) (logged k ∪ {[x; map_block sb x]}) a (map_block sb a)
      ltac:(destruct (bn <? NDIRECT); set_solver)). lia.
Qed.

Lemma weight_log J i k : trans J ∅ k -> (length J <= weight i k)%nat.
Proof.
  intros Hit. unfold weight. rewrite <- (logged_size D start size p J ∅ k Hit).
  pose proof (subseteq_size (logged k) (logged k ∪ indset (inode_at i k)) ltac:(set_solver)). lia.
Qed.

Lemma touched_step v' ip ip' off n a : 0 <= off -> 0 < n ->
  let m := Z.min n (BSIZE - off mod BSIZE) in
  slot v' ip' (off / BSIZE) = a -> (NDIRECT <= off / BSIZE -> ind_of ip' = ind_of ip) ->
  bmap_blocks sb (off / BSIZE) a ip ∪ touched v' ip' (off + m) (n - m) ⊆ touched v' ip' off n.
Proof.
  intros Ho Hn m Ha Hi. destruct (nblocks_step off n Ho Hn) as (E & H0 & Hnext). fold m in E, H0, Hnext.
  unfold touched. rewrite E, (seqZ_cons (off / BSIZE)) by lia. cbn. rewrite Ha.
  assert (Eb : bmap_blocks sb (off / BSIZE) a ip = bmap_blocks sb (off / BSIZE) a ip').
  { unfold bmap_blocks. destruct (Z.ltb_spec (off / BSIZE) NDIRECT); [done|]. by rewrite Hi by lia. }
  rewrite Eb. replace (Z.pred (1 + nblocks (off + m) (n - m))) with (nblocks (off + m) (n - m)) by lia.
  destruct (Z.eqb_spec (nblocks (off + m) (n - m)) 0) as [->|Hne]; [cbn; set_solver|].
  rewrite Hnext by lia. unfold Z.succ. set_solver.
Qed.

Lemma writei_loop f J i n tot off src bs k : trans J ∅ k -> wf i k -> 0 <= tot <= n -> 0 <= off ->
  off + (n - tot) <= MAXFILE * BSIZE -> Z.of_nat (length bs) = n - tot -> Forall is_byte bs -> feeds src bs k ->
  (Z.of_nat (weight i k) + 2 * nblocks off (n - tot) + 6 <= size) -> (size <= Z.of_nat HEAD) ->
  (nblocks off (n - tot) + Z.of_nat (reserve (inode_at i k)) <= Z.of_nat (free_count D sb k)) -> (Z.to_nat (n - tot) < f)%nat ->
  exists J' k', loop f (writei_body i n) (tot, off, src) k = Ret (n, off + (n - tot)) k' /\ trans J' ∅ k' /\
    wrote i (touched (vw k') (inode_at i k') off (n - tot)) off bs k k' /\
    Z.of_nat (weight i k') <= Z.of_nat (weight i k) + 2 * nblocks off (n - tot) /\
    (forall s, off / BSIZE <= s < off / BSIZE + nblocks off (n - tot) -> slot (vw k') (inode_at i k') s <> 0).
Proof.
  revert J tot off src bs k. induction f as [|f IH]; intros J tot off src bs k Hit Hw Ht Ho Hend Hlen Hby Hf R1 R2 R3 Hfu; [lia|].
  destruct (decide (tot = n)) as [->|Hne].
  - replace (n - n) with 0 in * by lia. exists J, k. rewrite Z.add_0_r. change (nblocks off 0) with 0 in *.
    split_and!; try done; [|destruct bs; [|cbn in Hlen; lia]|lia|intros s Hs; lia].
    + apply loop_exit. unfold writei_body. destruct (Z.ltb_spec n n); [lia|done].
    + apply (wrote_extends i _ 0). apply extends_view; try done. apply tr_step_refl.
  - pose proof (weight_log J i k Hit) as Hwl.
    destruct (nblocks_step off (n - tot) Ho ltac:(lia)) as (E & H0 & Hnx). set (m := Z.min (n - tot) (BSIZE - off mod BSIZE)) in *.
    destruct (off_split off Ho) as (Eo & Hmod & Hdiv). assert (Hm : 0 < m <= n - tot) by lia.
    destruct (writei_body_run J i n tot off src bs k) as (a & J1 & k1 & Eb & I1 & W1 & Hs1 & Ha & F1); try done; try lia.
    fold m in Eb, W1. pose proof (wo_step _ _ _ _ _ _ W1) as S1. destruct (fs_step_frame _ _ _ S1) as (_ & _ & _ & _ & _ & _ & _ & Hlg).
    assert (Hind1 : NDIRECT <= off / BSIZE -> ind_of (inode_at i k1) <> 0).
    { intros Hd. apply (slot_ind (vw k1) _ (off / BSIZE)); [done|]. by rewrite Hs1. }
    pose proof (weight_step i k k1 (off / BSIZE) a Hlg Hind1 (wo_ind _ _ _ _ _ _ W1)) as Hws.
    destruct (IH J1 (tot + m) (off + m) (source_add src m) (drop (Z.to_nat m) bs) k1) as (J' & k' & El & I' & W' & Hw' & Hsl');
      try done; try lia.
    + apply (wo_wf _ _ _ _ _ _ W1).
    + rewrite length_drop. lia.
    + by apply Forall_drop.
    + eapply feeds_add; [lia|exact Hf|exact S1].
    + replace (n - (tot + m)) with (n - tot - m) by lia. lia.
    + replace (n - (tot + m)) with (n - tot - m) by lia. lia.
    + replace (n - (tot + m)) with (n - tot - m) in * by lia. exists J', k'. split_and!; try done; try lia.
      * erewrite loop_next by exact Eb. rewrite El. do 2 f_equal. lia.
      * rewrite <- (take_drop (Z.to_nat m) bs). eapply wrote_weaken.
        { eapply wrote_trans; [exact W1|]. rewrite length_take, Nat.min_l by lia. rewrite Z2Nat.id by lia. exact W'. }
        apply touched_step; [done|lia| |].
        -- rewrite (wo_slot _ _ _ _ _ _ W'); [done|apply off_block; lia|by rewrite Hs1].
        -- intros Hd. by apply (wo_ind _ _ _ _ _ _ W'), Hind1.
      * intros s Hs. destruct (decide (s = off / BSIZE)) as [->|Hns].
        -- rewrite (wo_slot _ _ _ _ _ _ W'); [by rewrite Hs1|apply off_block; lia|by rewrite Hs1].
        -- apply Hsl'. rewrite Hnx by lia. lia.
Qed.

(** ** The inode: its size, and its block on disk *)

Lemma file_wf_size i k s : wf i k -> 0 <= s < 2 ^ 32 ->
  wf i (set_k_inodes (alter (set_i_size s) i (k_inodes k)) k).
Proof.
  intros [F1 F2 F3 F4 F5 F6 F7 F8 F9 F10 F11] Hs.
  assert (Ea : inode_at i (set_k_inodes (alter (set_i_size s) i (k_inodes k)) k) = set_i_size s (inode_at i k)).
  { rewrite inode_at_alter by done. by rewrite decide_True. }
  split; rewrite ?Ea; try done.
  - cbn. by rewrite length_alter.
  - destruct F4 as [G1 G2 G3 G4 G5 G6 G7]. by split.
  - intros x Hx Hn. apply (data_block_ext D start size sb _ k); [done|]. by apply F8.
  - intros Hn. apply (data_block_ext D start size sb _ k); [done|]. by apply F9.
Qed.

(** Writing the block of the inode leaves the file as it was. *)
Lemma inode_block_write i k k' : wf i k -> k_sb k' = k_sb k -> k_inodes k' = k_inodes k ->
  (forall b, b <> IBLOCK (i_inum (inode_at i k)) sb -> vw k' b = vw k b) ->
  wf i k' /\ (forall o, 0 <= o < MAXFILE * BSIZE -> fbyte (vw k') (inode_at i k') o = fbyte (vw k) (inode_at i k) o) /\
  (forall s, 0 <= s < MAXFILE -> slot (vw k') (inode_at i k') s = slot (vw k) (inode_at i k) s) /\
  (forall c, 0 <= c < sb_size sb -> used k' c = used k c).
Proof.
  intros Hw Es Ei Hv. pose proof Hw as [F1 F2 F3 F4 F5 (F6 & F7 & F8) F9 F10 F11 F12 F13].
  assert (Ea : inode_at i k' = inode_at i k) by (unfold inode_at; by rewrite Ei).
  assert (Hu : forall c, 0 <= c < sb_size sb -> used k' c = used k c).
  { intros c Hc. unfold in_use. rewrite Hv; [done|]. intros E. symmetry in E. by apply (F8 c Hc). }
  assert (Hs : forall s, 0 <= s < MAXFILE -> slot (vw k') (inode_at i k) s = slot (vw k) (inode_at i k) s).
  { intros s Hs. unfold slot. destruct (s <? NDIRECT); [done|].
    destruct (Z.eqb_spec (ind_of (inode_at i k)) 0) as [|Hn]; [done|]. rewrite Hv; [done|].
    apply (db_inode _ _ _ _ _ _ _ (F11 Hn)). }
  assert (Hd : forall b, data_block D start size sb (i_inum (inode_at i k)) k b -> data_block D start size sb (i_inum (inode_at i k)) k' b).
  { intros b [H1 H2 H3 H4 H5]. split; try done. rewrite Hu by lia. done. }
  rewrite Ea. split_and!; try done.
  - split; rewrite ?Ea, ?Ei, ?Es; try done.
    + split_and!; try done; try lia. by rewrite Hu.
    + intros b Hb Hf. rewrite Hu in Hf by done. by apply F9.
    + intros s Hsr. rewrite Hs by done. intros Hn. by apply Hd, F10.
    + intros Hn. by apply Hd, F11.
    + intros s t Hsr Htr. rewrite !Hs by done. by apply F12.
    + intros s Hsr. rewrite Hs by done. by apply F13.
  - intros o Ho. pose proof (off_block o Ho) as Hob. unfold fbyte, fblock. rewrite Hs by done.
    destruct (Z.eqb_spec (slot (vw k) (inode_at i k) (o / BSIZE)) 0) as [|Hn]; [done|]. rewrite Hv; [done|].
    apply (db_inode _ _ _ _ _ _ _ (F10 _ Hob Hn)).
Qed.

(** Every block up to the size is there. *)
Definition whole (i : nat) (k : kstate) : Prop := i_size (inode_at i k) <= MAXFILE * BSIZE /\
  forall s, 0 <= s -> s * BSIZE < i_size (inode_at i k) -> slot (vw k) (inode_at i k) s <> 0.

(** What a write of [bs] at [off] leaves. *)
Record written (i : nat) (off : Z) (bs : list Z) (k k' : kstate) : Prop := {
  wr_wf : wf i k';
  wr_whole : whole i k -> whole i k';
  wr_size : i_size (inode_at i k') = Z.max (i_size (inode_at i k)) (off + Z.of_nat (length bs));
  wr_inode : exists l s, inode_at i k' = set_i_size s (set_i_addrs l (inode_at i k));
  wr_disk : forall ip0, dinode D sb k' (i_inum (inode_at i k)) ip0 = disk_fields (inode_at i k') ip0;
  wr_byte : forall o, 0 <= o < MAXFILE * BSIZE -> fbyte (vw k') (inode_at i k') o =
    if decide (off <= o < off + Z.of_nat (length bs)) then nth (Z.to_nat (o - off)) bs 0 else fbyte (vw k) (inode_at i k) o;
  wr_inodes : forall j, j <> i -> inode_at j k' = inode_at j k;
  wr_else : forall b, elsewhere i k b -> b <> IBLOCK (i_inum (inode_at i k)) sb -> vw k' b = vw k b;
  wr_logged : logged k' ⊆ logged k ∪ touched (vw k') (inode_at i k') off (Z.of_nat (length bs)) ∪
    {[IBLOCK (i_inum (inode_at i k)) sb]} }.

Lemma whole_wrote i Y off bs k k' : wrote i Y off bs k k' -> 0 <= off <= i_size (inode_at i k) ->
  off + Z.of_nat (length bs) <= MAXFILE * BSIZE ->
  (forall s, off / BSIZE <= s < off / BSIZE + nblocks off (Z.of_nat (length bs)) -> slot (vw k') (inode_at i k') s <> 0) ->
  whole i k -> forall s, 0 <= s -> s * BSIZE < Z.max (i_size (inode_at i k)) (off + Z.of_nat (length bs)) ->
  slot (vw k') (inode_at i k') s <> 0.
Proof.
  intros Hwr Ho Hend Hnew [Hsz Hold] s Hs Hlt. destruct (decide (s * BSIZE < i_size (inode_at i k))) as [Hin|Hout].
  - rewrite (wo_slot _ _ _ _ _ _ Hwr); [by apply Hold| |by apply Hold]. change (MAXFILE * BSIZE) with 274432 in Hsz.
    change BSIZE with 1024 in *. change MAXFILE with 268. lia.
  - apply Hnew. unfold nblocks. destruct (Z.leb_spec (Z.of_nat (length bs)) 0); [lia|]. change BSIZE with 1024 in *. zlia.
Qed.

Lemma set_size_run i k s :
  (if i_size (inode_at i k) <? s then upd_inode i (set_i_size s) else ret tt) k =
    Ret tt (set_k_inodes (alter (set_i_size (Z.max (i_size (inode_at i k)) s)) i (k_inodes k)) k).
Proof.
  destruct (Z.ltb_spec (i_size (inode_at i k)) s); [by rewrite Z.max_r by lia|]. rewrite Z.max_l by lia.
  unfold ret. f_equal. rewrite (list_alter_ext _ id _ (k_inodes k)); [|intros x Hx|done].
  - rewrite list_alter_id by done. by destruct k.
  - unfold inode_at. rewrite Hx. by destruct x.
Qed.

Lemma touched_ext v v' ip ip' off n : 0 <= off -> off + n <= MAXFILE * BSIZE ->
  (forall s, 0 <= s < MAXFILE -> slot v' ip' s = slot v ip s) -> ind_of ip' = ind_of ip ->
  touched v' ip' off n = touched v ip off n.
Proof.
  intros Ho Hn Hs Hi. unfold touched. f_equal. apply list_fmap_ext. intros j s Hj.
  apply lookup_seqZ in Hj as [-> Hj]. unfold bmap_blocks. rewrite Hs, Hi; [done|]. revert Hj. unfold nblocks.
  destruct (Z.leb_spec n 0); [lia|]. change (MAXFILE * BSIZE) with 274432 in Hn. change MAXFILE with 268. change BSIZE with 1024. zlia.
Qed.

Lemma writei_run J i src off bs k : trans J ∅ k -> wf i k -> feeds src bs k -> Forall is_byte bs ->
  0 <= off <= i_size (inode_at i k) -> off + Z.of_nat (length bs) <= MAXFILE * BSIZE ->
  Z.of_nat (length J) + 2 * nblocks off (Z.of_nat (length bs)) + 8 <= size -> size <= Z.of_nat HEAD ->
  nblocks off (Z.of_nat (length bs)) < Z.of_nat (free_count D sb k) ->
  exists J' k', writei i src off (Z.of_nat (length bs)) k = Ret (Z.of_nat (length bs)) k' /\ trans J' ∅ k' /\
    written i off bs k k'.
Proof.
  intros Hit Hw Hf Hby Ho Hend R1 R2 R3. set (n := Z.of_nat (length bs)) in *. change (MAXFILE * BSIZE) with 274432 in Hend.
  assert (Hwt : (weight i k <= length J + 2)%nat).
  { rewrite <- (logged_size D start size p J ∅ k Hit). unfold weight, indset, reserve.
    destruct (Z.eqb_spec (ind_of (inode_at i k)) 0); [rewrite union_empty_r_L; lia|].
    pose proof (size_add2 (logged k ∪ {[ind_of (inode_at i k); map_block sb (ind_of (inode_at i k))]}) (logged k)
      (ind_of (inode_at i k)) (map_block sb (ind_of (inode_at i k))) ltac:(set_solver)). lia. }
  assert (Hres : (reserve (inode_at i k) <= 1)%nat) by (unfold reserve; destruct (_ =? _); lia).
  destruct (writei_loop (S (Z.to_nat n)) J i n 0 off src bs k) as (J1 & k1 & El & I1 & W1 & Hw1 & Hsl1);
    rewrite ?Z.sub_0_r in *; try done; try lia.
  destruct (wo_addrs _ _ _ _ _ _ W1) as [l Eip]. pose proof (wo_wf _ _ _ _ _ _ W1) as Wf1.
  set (sz := Z.max (i_size (inode_at i k)) (off + n)).
  set (k2 := set_k_inodes (alter (set_i_size sz) i (k_inodes k1)) k1).
  assert (Hsz : 0 <= sz < 2 ^ 32) by (pose proof (iw_size _ (fw_inode _ _ _ _ _ _ Hw)); lia).
  assert (Wf2 : wf i k2) by by apply file_wf_size.
  assert (E2 : forall x, inode_at x k2 = if decide (x = i) then set_i_size sz (inode_at i k1) else inode_at x k1).
  { intros x. apply inode_at_alter, Wf1. }
  assert (Esize : (if i_size (inode_at i k1) <? off + n then upd_inode i (set_i_size (off + n)) else ret tt) k1 = Ret tt k2).
  { pose proof (set_size_run i k1 (off + n)) as Er. rewrite Eip in Er at 2. cbn [i_size set_i_addrs] in Er. exact Er. }
  assert (Esb : k_sb k2 = sb) by apply Wf2.
  assert (En : i_inum (inode_at i k2) = i_inum (inode_at i k)) by (rewrite E2, decide_True, Eip by done; done).
  assert (Hl1 : (length J1 <= weight i k1)%nat) by by apply weight_log.
  destruct (iupdate_run D start size p sb D_ok start_ok J1 k2 i) as (J3 & k3 & Eu & I3 & S3 & _ & _ & V3 & Dn3).
  { by apply in_trans_inodes. }
  { done. }
  { apply Wf2. }
  { apply Wf2. }
  { apply Wf2. }
  { lia. }
  { lia. }
  destruct (tr_step_frame _ _ _ S3) as (Ei3 & Esb3 & _).
  assert (E3 : forall x, inode_at x k3 = inode_at x k2) by (intros x; unfold inode_at; by rewrite Ei3).
  destruct (inode_block_write i k2 k3 Wf2 Esb3 Ei3 V3) as (Wf3 & Hb3 & Hs3 & _). rewrite En in V3, S3, Dn3.
  assert (Hslot2 : forall s, slot (vw k2) (inode_at i k2) s = slot (vw k1) (inode_at i k1) s) by (intros s; by rewrite E2, decide_True).
  exists J3, k3. split; [|split; [done|]].
  - unfold writei. erewrite bind_ret_run by reflexivity. destruct (Z.ltb_spec (i_size (inode_at i k)) off); [lia|].
    rewrite u32_small by lia. destruct (Z.ltb_spec (off + n) off); [lia|]. cbn [orb].
    change (MAXFILE * BSIZE) with 274432. destruct (Z.ltb_spec 274432 (off + n)); [lia|].
    erewrite bind_ret_run by exact El. erewrite bind_ret_run by reflexivity. cbn [fst snd].
    erewrite bind_ret_run by exact Esize. by erewrite bind_ret_run by exact Eu.
  - split.
    + done.
    + intros Hwh. pose proof (whole_wrote i _ off bs k k1 W1 Ho Hend Hsl1 Hwh) as Hall. split.
      * rewrite E3, E2, decide_True by done. cbn [i_size set_i_size]. destruct Hwh as [? _]. unfold sz.
        change (MAXFILE * BSIZE) with 274432 in *. lia.
      * intros s Hs Hlt. assert (Hlt' : s * BSIZE < sz) by (by rewrite E3, E2, decide_True in Hlt).
        rewrite Hs3, Hslot2; [by apply Hall|]. destruct Hwh as [Hle _]. change (MAXFILE * BSIZE) with 274432 in Hle.
        unfold sz in Hlt'. change BSIZE with 1024 in *. change MAXFILE with 268. lia.
    + by rewrite E3, E2, decide_True.
    + exists l, sz. by rewrite E3, E2, decide_True, Eip.
    + intros ip0. rewrite Dn3 by (rewrite <- En; apply Wf2). by rewrite decide_True, E3.
    + intros o Hor. rewrite Hb3 by done. rewrite <- (wo_byte _ _ _ _ _ _ W1) by done. unfold fbyte, fblock.
      by rewrite Hslot2.
    + intros j Hj. rewrite E3, E2, decide_False by done. by apply (wo_inodes _ _ _ _ _ _ W1).
    + intros b Hb Hne. rewrite V3 by done. by apply (wo_else _ _ _ _ _ _ W1).
    + destruct S3 as [_ Hlg3]. destruct (fs_step_frame _ _ _ (wo_step _ _ _ _ _ _ W1)) as (_ & _ & _ & _ & _ & _ & _ & Hlg1).
      change (logged k2) with (logged k1) in Hlg3. fold n.
      assert (Et : touched (vw k3) (inode_at i k3) off n = touched (vw k1) (inode_at i k1) off n); [|rewrite Et; set_solver].
      apply touched_ext; [lia|change (MAXFILE * BSIZE) with 274432; lia| |].
      * intros s Hs. by rewrite Hs3, Hslot2.
      * by rewrite E3, E2, decide_True.
Qed.

End rw.
