(* ===== verification/Itable.v ===== *)
(** * Itable: the inode table (iget(), idup() and iput() of kernel/fs.c)

    The table holds at most one entry for each inode in use, and the entry's
    count is the number of references the kernel has to it: iget() and idup() add
    one, iput() takes one away. *)

From Stdlib Require Import ZArith Lia.
From stdpp Require Import base gmap list strings.
From S2P Require Import Prelude Bytes State Spinlock Sched Sleeplock Mem Bio Log Trans Uart Printf Console Fs Sums.

(** The entry is for inode [n] of device [d], and in use. *)
Definition is_for (d n : Z) (ip : inode) : bool := (0 <? i_ref ip) && (i_dev ip =? d) && (i_inum ip =? n).

(** The references to inode [n] of device [d]. *)
Definition refs (d n : Z) (l : list inode) : Z :=
  sum_by (fun ip => if is_for d n ip then i_ref ip else 0) l.

Record itable_ok (k : kstate) : Prop := {
  itb_len : length (k_inodes k) = Z.to_nat NINODE;
  itb_ref : forall i, 0 <= i_ref (inode_at i k);
  itb_uniq : forall i j d n, (i < Z.to_nat NINODE)%nat -> (j < Z.to_nat NINODE)%nat ->
    is_for d n (inode_at i k) = true -> is_for d n (inode_at j k) = true -> i = j }.

Lemma is_for_true d n ip : is_for d n ip = true <-> 0 < i_ref ip /\ i_dev ip = d /\ i_inum ip = n.
Proof. unfold is_for. rewrite !andb_true_iff, Z.ltb_lt, !Z.eqb_eq. tauto. Qed.

Lemma iget_scan_run l dev inum e k : iget_scan l dev inum e k =
  Ret (match List.find (fun i => is_for dev inum (inode_at i k)) l with
       | Some i => inl i
       | None => inr (match e with Some _ => e | None => List.find (fun i => i_ref (inode_at i k) =? 0) l end)
       end) k.
Proof.
  revert e. induction l as [|i l IH]; intros e; cbn [iget_scan List.find]; [by destruct e|].
  erewrite bind_ret_run by reflexivity. fold (is_for dev inum (inode_at i k)).
  destruct (is_for dev inum (inode_at i k)); [done|]. rewrite IH.
  destruct (List.find _ l); [done|]. destruct e; [done|]. by destruct (i_ref (inode_at i k) =? 0).
Qed.

(** ** Counting *)

Lemma refs_insert d n l i x y : l !! i = Some x ->
  refs d n (<[i := y]> l) =
    refs d n l - (if is_for d n x then i_ref x else 0) + (if is_for d n y then i_ref y else 0).
Proof. apply sum_by_insert. Qed.

Lemma refs_none d n l : (forall ip, ip ∈ l -> is_for d n ip = false) -> refs d n l = 0.
Proof. intros Hl. apply sum_by_zero. intros ip Hip. by rewrite Hl. Qed.

Lemma refs_nonneg d n l : 0 <= refs d n l.
Proof.
  apply sum_by_nonneg. intros x. unfold is_for. destruct (Z.ltb_spec 0 (i_ref x)); cbn; [|done]. destruct (_ && _); lia.
Qed.

Lemma find_index (f : nat -> bool) n : match List.find f (seq 0 n) with
  | Some i => (i < n)%nat /\ f i = true
  | None => forall i, (i < n)%nat -> f i = false
  end.
Proof.
  destruct (List.find f (seq 0 n)) as [i|] eqn:E.
  - apply find_some in E as [Hi Hf]. apply in_seq in Hi. split; [lia|done].
  - intros i Hi. apply (find_none f _ E). apply in_seq. lia.
Qed.

Lemma inode_lookup i k : (i < length (k_inodes k))%nat -> k_inodes k !! i = Some (inode_at i k).
Proof. intros Hi. unfold inode_at. by destruct (lookup_lt_is_Some_2 _ _ Hi) as [x ->]. Qed.

Lemma inode_at_insert i y k j : (i < length (k_inodes k))%nat ->
  inode_at j (set_k_inodes (<[i := y]> (k_inodes k)) k) = if decide (j = i) then y else inode_at j k.
Proof.
  intros Hi. unfold inode_at. cbn. case_decide as E.
  - subst. by rewrite list_lookup_insert_eq.
  - by rewrite list_lookup_insert_ne.
Qed.

Lemma inode_at_out i k : (length (k_inodes k) <= i)%nat -> inode_at i k = zero_inode.
Proof. intros Hi. unfold inode_at. by rewrite lookup_ge_None_2. Qed.

(** Replacing an entry keeps the table well formed when the new one is for an
    inode that no other entry has. *)
Lemma itable_insert k i y : itable_ok k -> (i < Z.to_nat NINODE)%nat -> 0 <= i_ref y ->
  (forall j d n, j <> i -> (j < Z.to_nat NINODE)%nat -> is_for d n y = true -> is_for d n (inode_at j k) = false) ->
  itable_ok (set_k_inodes (<[i := y]> (k_inodes k)) k).
Proof.
  intros [Hl Hr Hu] Hi Hy Hn. split.
  - cbn. by rewrite length_insert.
  - intros j. rewrite inode_at_insert by lia. by case_decide.
  - intros a b d n Ha Hb. rewrite !inode_at_insert by lia. case_decide as E1; case_decide as E2; subst; try done.
    + intros H1 H2. by rewrite (Hn b d n) in H2.
    + intros H1 H2. by rewrite (Hn a d n) in H1.
    + by apply Hu.
Qed.

(** ** The operations *)

Lemma alter_insert {A} (f : A -> A) (l : list A) i x : l !! i = Some x -> alter f i l = <[i := f x]> l.
Proof.
  revert i. induction l as [|y l IH]; intros [|i] Hi; try discriminate Hi; cbn in *.
  - by injection Hi as ->.
  - f_equal. exact (IH i Hi).
Qed.

Lemma itable_acquire k : lock_free k LItable ->
  acquire LItable k = Ret tt (set_k_inodes (k_inodes k) (enter LItable k)).
Proof. intros Hl. rewrite acquire_run by done. by destruct k. Qed.

Lemma upd_inode_run i f l k : upd_inode i f (set_k_inodes l k) = Ret tt (set_k_inodes (alter f i l) k).
Proof. reflexivity. Qed.

Lemma inode_at_set j l k : inode_at j (set_k_inodes l k) = default zero_inode (l !! j).
Proof. reflexivity. Qed.

Lemma itable_release k l : cpu_ok k -> lock_free k LItable ->
  release LItable (set_k_inodes l (enter LItable k)) = Ret tt (set_k_inodes l k).
Proof. intros Hok Hl. by rewrite (release_run _ k). Qed.

(** A fresh entry for an inode that had none. *)
Definition fresh_entry (dev inum : Z) (ip : inode) : inode :=
  set_i_valid 0 (set_i_ref 1 (set_i_inum inum (set_i_dev dev ip))).
Definition add_ref (ip : inode) : inode := set_i_ref (i32 (i_ref ip + 1)) ip.

Lemma iget_run dev inum k : cpu_ok k -> lock_free k LItable -> length (k_inodes k) = Z.to_nat NINODE ->
  iget dev inum k =
    match List.find (fun i => is_for dev inum (inode_at i k)) inode_indices with
    | Some i => Ret i (set_k_inodes (<[i := add_ref (inode_at i k)]> (k_inodes k)) k)
    | None =>
        match List.find (fun i => i_ref (inode_at i k) =? 0) inode_indices with
        | Some i => Ret i (set_k_inodes (<[i := fresh_entry dev inum (inode_at i k)]> (k_inodes k)) k)
        | None => Panic "iget: no inodes"
        end
    end.
Proof.
  intros Hok Hl Hlen. unfold iget. erewrite bind_ret_run by by apply itable_acquire.
  erewrite bind_ret_run by apply iget_scan_run.
  change (fun i => is_for dev inum (inode_at i (set_k_inodes (k_inodes k) (enter LItable k))))
    with (fun i => is_for dev inum (inode_at i k)).
  change (fun i => i_ref (inode_at i (set_k_inodes (k_inodes k) (enter LItable k))) =? 0)
    with (fun i => i_ref (inode_at i k) =? 0).
  pose proof (find_index (fun i => is_for dev inum (inode_at i k)) (Z.to_nat NINODE)) as F1. fold inode_indices in F1.
  destruct (List.find (fun i => is_for _ _ _) inode_indices) as [i|].
  - destruct F1 as [Hi _]. erewrite bind_ret_run by apply upd_inode_run.
    erewrite bind_ret_run by by apply itable_release.
    by rewrite (alter_insert _ _ i (inode_at i k)) by (apply inode_lookup; lia).
  - pose proof (find_index (fun i => i_ref (inode_at i k) =? 0) (Z.to_nat NINODE)) as F2. fold inode_indices in F2.
    destruct (List.find (fun i => i_ref _ =? 0) inode_indices) as [i|]; [|done].
    destruct F2 as [Hi _]. do 4 (erewrite bind_ret_run by apply upd_inode_run).
    erewrite bind_ret_run by by apply itable_release.
    rewrite !list_alter_alter_eq.
    by rewrite (alter_insert _ _ i (inode_at i k)) by (apply inode_lookup; lia).
Qed.

Lemma idup_run i k : cpu_ok k -> lock_free k LItable -> (i < length (k_inodes k))%nat ->
  idup i k = Ret i (set_k_inodes (<[i := add_ref (inode_at i k)]> (k_inodes k)) k).
Proof.
  intros Hok Hl Hi. unfold idup. erewrite bind_ret_run by by apply itable_acquire.
  erewrite bind_ret_run by apply upd_inode_run. erewrite bind_ret_run by by apply itable_release.
  by rewrite (alter_insert _ _ i (inode_at i k)) by by apply inode_lookup.
Qed.

Definition drop_ref (ip : inode) : inode := set_i_ref (i32 (i_ref ip - 1)) ip.

(** iput() when it does not have to free the inode on disk. *)
Definition keeps_inode (ip : inode) : Prop := i_ref ip <> 1 \/ i_valid ip = 0 \/ i_nlink ip <> 0.

Lemma iput_run `{Disk} i k : cpu_ok k -> lock_free k LItable -> (i < length (k_inodes k))%nat ->
  keeps_inode (inode_at i k) ->
  iput i k = Ret tt (set_k_inodes (<[i := drop_ref (inode_at i k)]> (k_inodes k)) k).
Proof.
  intros Hok Hl Hi Hkeep. unfold iput. erewrite bind_ret_run by by apply itable_acquire.
  erewrite bind_ret_run by reflexivity. rewrite inode_at_set. fold (inode_at i k).
  replace ((i_ref (inode_at i k) =? 1) && truth (i_valid (inode_at i k)) && (i_nlink (inode_at i k) =? 0)) with false.
  2: { symmetry. rewrite !andb_false_iff. unfold truth. rewrite negb_false_iff, !Z.eqb_neq, Z.eqb_eq.
       unfold keeps_inode in Hkeep. tauto. }
  erewrite bind_ret_run by reflexivity. erewrite bind_ret_run by apply upd_inode_run.
  rewrite (alter_insert _ _ i (inode_at i k)) by by apply inode_lookup. by apply itable_release.
Qed.

(** Adding or dropping a reference of an entry in use changes one count. *)
Lemma refs_change i y k d n : (i < length (k_inodes k))%nat -> 0 < i_ref (inode_at i k) ->
  i_dev y = i_dev (inode_at i k) -> i_inum y = i_inum (inode_at i k) -> 0 <= i_ref y ->
  refs d n (<[i := y]> (k_inodes k)) = refs d n (k_inodes k) +
    (if is_for d n (inode_at i k) then i_ref y - i_ref (inode_at i k) else 0).
Proof.
  intros Hi Hr Hd Hn Hy. rewrite (refs_insert d n (k_inodes k) i (inode_at i k)) by by apply inode_lookup.
  unfold is_for. rewrite Hd, Hn.
  destruct (Z.ltb_spec 0 (i_ref (inode_at i k))); [|lia]. cbn [andb].
  destruct ((i_dev (inode_at i k) =? d) && (i_inum (inode_at i k) =? n)) eqn:E.
  - apply andb_true_iff in E as [-> ->]. rewrite !andb_true_r. destruct (Z.ltb_spec 0 (i_ref y)); lia.
  - rewrite <- !andb_assoc, E, andb_false_r. lia.
Qed.

(** An entry with the same device and number, or unused, keeps the table well formed. *)
Lemma itable_change i y k : itable_ok k -> (i < Z.to_nat NINODE)%nat -> 0 < i_ref (inode_at i k) ->
  i_dev y = i_dev (inode_at i k) -> i_inum y = i_inum (inode_at i k) -> 0 <= i_ref y ->
  itable_ok (set_k_inodes (<[i := y]> (k_inodes k)) k).
Proof.
  intros Hk Hi Hr Hd Hn Hy. apply itable_insert; try done. intros j d n Hj Hlt (_ & Ed & En)%is_for_true.
  destruct (is_for d n (inode_at j k)) eqn:E; [|done]. exfalso. apply Hj.
  apply (itb_uniq _ Hk j i d n); [done|done|done|]. apply is_for_true. split_and!; [done|congruence|congruence].
Qed.

Lemma refs_fresh i k dev inum d n : (i < length (k_inodes k))%nat -> i_ref (inode_at i k) = 0 ->
  refs d n (<[i := fresh_entry dev inum (inode_at i k)]> (k_inodes k)) =
    refs d n (k_inodes k) + (if decide (d = dev /\ n = inum) then 1 else 0).
Proof.
  intros Hi Hr. rewrite (refs_insert d n (k_inodes k) i (inode_at i k)) by by apply inode_lookup.
  unfold is_for at 1. rewrite Hr. cbn [andb]. change (0 <? 0) with false. cbn [andb].
  unfold is_for, fresh_entry. cbn. case_decide as E.
  - destruct E as [-> ->]. rewrite !Z.eqb_refl. cbn. lia.
  - destruct (Z.eqb_spec dev d) as [->|], (Z.eqb_spec inum n) as [->|]; cbn; try lia.
Qed.

Lemma iget_counts dev inum k : cpu_ok k -> lock_free k LItable -> itable_ok k ->
  (forall i, i_ref (inode_at i k) < 2 ^ 31 - 1) ->
  (exists i y, iget dev inum k = Ret i (set_k_inodes (<[i := y]> (k_inodes k)) k) /\
     (i < Z.to_nat NINODE)%nat /\ is_for dev inum y = true /\
     itable_ok (set_k_inodes (<[i := y]> (k_inodes k)) k) /\
     (forall d n, refs d n (<[i := y]> (k_inodes k)) =
        refs d n (k_inodes k) + (if decide (d = dev /\ n = inum) then 1 else 0)) /\
     (if decide (refs dev inum (k_inodes k) = 0) then i_ref (inode_at i k) = 0 /\ i_valid y = 0
      else y = add_ref (inode_at i k))) \/
  (iget dev inum k = Panic "iget: no inodes" /\
   forall i, (i < Z.to_nat NINODE)%nat -> 0 < i_ref (inode_at i k) /\ is_for dev inum (inode_at i k) = false).
Proof.
  intros Hok Hl Hk Hmax. pose proof Hk as [Hlen Hr Hu].
  assert (Hadd : forall i, i_ref (add_ref (inode_at i k)) = i_ref (inode_at i k) + 1).
  { intros i. cbn. apply i32_small. specialize (Hmax i). specialize (Hr i). lia. }
  rewrite iget_run by done.
  pose proof (find_index (fun i => is_for dev inum (inode_at i k)) (Z.to_nat NINODE)) as F1. fold inode_indices in F1.
  destruct (List.find (fun i => is_for _ _ _) inode_indices) as [i|].
  - destruct F1 as [Hi Hf]. pose proof Hf as (Hpos & Hd & Hn)%is_for_true.
    assert (Hrf : forall d n, refs d n (<[i := add_ref (inode_at i k)]> (k_inodes k)) =
      refs d n (k_inodes k) + (if decide (d = dev /\ n = inum) then 1 else 0)).
    { intros d n. rewrite refs_change by (done || lia || (rewrite Hadd; lia)). rewrite Hadd. f_equal.
      destruct (is_for d n (inode_at i k)) eqn:E.
      - apply is_for_true in E as (_ & <- & <-). rewrite decide_True by done. lia.
      - rewrite decide_False; [done|]. intros [-> ->]. congruence. }
    left. exists i, (add_ref (inode_at i k)). split_and!; try done.
    + apply is_for_true. rewrite Hadd. split_and!; [lia|done|done].
    + apply itable_change; try done. rewrite Hadd. lia.
    + rewrite decide_False; [done|]. intros H0.
      pose proof (refs_insert dev inum (k_inodes k) i (inode_at i k) (set_i_ref 0 (inode_at i k)) ltac:(apply inode_lookup; lia)) as Hz.
      rewrite Hf, H0 in Hz. cbn in Hz.
      pose proof (refs_nonneg dev inum (<[i := set_i_ref 0 (inode_at i k)]> (k_inodes k))). lia.
  - pose proof (find_index (fun i => i_ref (inode_at i k) =? 0) (Z.to_nat NINODE)) as F2. fold inode_indices in F2.
    assert (H0 : refs dev inum (k_inodes k) = 0).
    { apply refs_none. intros ip Hip. apply list_elem_of_lookup_1 in Hip as [j Hj].
      pose proof (lookup_lt_Some _ _ _ Hj). rewrite inode_lookup in Hj by done. injection Hj as <-. apply F1. lia. }
    destruct (List.find (fun i => i_ref _ =? 0) inode_indices) as [i|].
    + destruct F2 as [Hi Hz%Z.eqb_eq]. left. exists i, (fresh_entry dev inum (inode_at i k)). split_and!; try done.
      * by apply is_for_true.
      * apply itable_insert; try done. intros j d n _ Hj (_ & <- & <-)%is_for_true. by apply F1.
      * intros d n. apply refs_fresh; [lia|done].
      * by rewrite decide_True.
    + right. split; [done|]. intros i Hi. split; [|by apply F1]. specialize (F2 i Hi). apply Z.eqb_neq in F2. specialize (Hr i). lia.
Qed.


(** The table after iinit(). *)
Definition itable_on (k : kstate) : kstate :=
  set_k_inodes (replicate (Z.to_nat NINODE) zero_inode) (with_lock LItable k).

Lemma itable_on_at i k : inode_at i (itable_on k) = zero_inode.
Proof.
  unfold itable_on. rewrite inode_at_set.
  destruct (replicate (Z.to_nat NINODE) zero_inode !! i) eqn:E; [|done].
  by apply lookup_replicate in E as [-> _].
Qed.

Lemma itable_on_ok k : itable_ok (itable_on k).
Proof.
  split.
  - unfold itable_on. apply length_replicate.
  - intros i. by rewrite itable_on_at.
  - intros i j d n _ _. by rewrite itable_on_at.
Qed.

Lemma itable_on_lock k : lock_free (itable_on k) LItable.
Proof. apply (with_lock_free LItable k). Qed.

Lemma itable_on_cpu k : cpu_ok k -> cpu_ok (itable_on k).
Proof. done. Qed.

