(* ===== verification/Names.v ===== *)
(** * Names: path names and directory entries (kernel/fs.c)

    What the elements of a path are, and that skipelem() takes them off one by
    one; and that a directory entry made by dirlink() is found again by the name it
    was made with. *)

From Stdlib Require Import ZArith Lia.
From stdpp Require Import base gmap list strings.
From S2P Require Import Prelude Bytes State Printf Fs.

(** ** Paths *)

(** The text between the slashes. *)
Fixpoint fields (path : list Z) : list (list Z) :=
  match path with
  | [] => [[]]
  | c :: path' =>
      if c =? slash then [] :: fields path'
      else match fields path' with [] => [[c]] | w :: ws => (c :: w) :: ws end
  end.

Definition nonempty (s : list Z) : bool := negb (bool_decide (s = [])).

(** The elements of a path: the fields that are not empty, cut to DIRSIZ. *)
Definition elements (path : list Z) : list (list Z) :=
  take (Z.to_nat DIRSIZ) <$> List.filter nonempty (fields path).

Lemma fields_slash path : List.filter nonempty (fields (slash :: path)) = List.filter nonempty (fields path).
Proof. cbn [fields]. by rewrite Z.eqb_refl. Qed.

Lemma skip_slashes_elements path : elements (skip_slashes path) = elements path.
Proof.
  unfold elements. f_equal. induction path as [|c path IH]; [done|]. cbn [skip_slashes].
  destruct (Z.eqb_spec c slash) as [->|Hc]; [|done]. by rewrite fields_slash.
Qed.

Lemma skip_slashes_head path : match skip_slashes path with [] => True | c :: _ => c <> slash end.
Proof.
  induction path as [|c path IH]; cbn; [done|]. by destruct (Z.eqb_spec c slash).
Qed.

Lemma skip_slashes_length path : (length (skip_slashes path) <= length path)%nat.
Proof. induction path as [|c path IH]; cbn; [done|]. destruct (c =? slash); cbn; lia. Qed.

Lemma fields_nil path : fields path <> [].
Proof.
  destruct path as [|c path]; cbn; [done|]. destruct (c =? slash); [done|]. by destruct (fields path).
Qed.

Lemma span_elem_spec path : let '(s, rest) := span_elem path in
  path = s ++ rest /\ slash ∉ s /\ (rest = [] \/ exists r, rest = slash :: r) /\
  fields path = s :: (if bool_decide (rest = []) then [] else fields (tl rest)).
Proof.
  induction path as [|c path IH]; cbn [span_elem]; [split_and!; [done|apply not_elem_of_nil|by left|done]|].
  destruct (Z.eqb_spec c slash) as [->|Hc].
  - split_and!; [done|apply not_elem_of_nil|right; by exists path|]. cbn. by rewrite Z.eqb_refl.
  - destruct (span_elem path) as [s rest]. destruct IH as (-> & Hs & Hr & Hf). split_and!; try done.
    + apply not_elem_of_cons. split; [done|exact Hs].
    + cbn [fields]. destruct (Z.eqb_spec c slash); [done|]. by rewrite Hf.
Qed.

Lemma elements_nil path : match path with [] => True | c :: _ => c <> slash end ->
  elements path = [] <-> path = [].
Proof.
  intros Hh. split; [|by intros ->]. destruct path as [|c path]; [done|]. unfold elements. cbn [fields].
  destruct (Z.eqb_spec c slash); [done|]. by destruct (fields path).
Qed.

(** [skipelem_path]: skipelem() takes the elements off a path from the left: it fails
    exactly on a path with none, and otherwise yields the first element, cut to
    DIRSIZ characters and without a slash, and a shorter path with the others.
    The rest starts with no slash, so that it is empty exactly when the element was
    the last, which is how namex() recognises the parent of the last element. *)
Theorem skipelem_path path :
  match skipelem path with
  | None => elements path = []
  | Some (rest, name) => elements path = name :: elements rest /\ name <> [] /\ slash ∉ name /\
      (length name <= Z.to_nat DIRSIZ)%nat /\ (length rest < length path)%nat /\
      (rest = [] <-> elements rest = [])
  end.
Proof.
  unfold skipelem. rewrite <- skip_slashes_elements.
  pose proof (skip_slashes_head path) as Hh. pose proof (skip_slashes_length path) as Hlen.
  destruct (skip_slashes path) as [|c q] eqn:Eq; [done|].
  pose proof (span_elem_spec (c :: q)) as Hs. destruct (span_elem (c :: q)) as [s rest] eqn:Es.
  destruct Hs as (Eqs & Hns & Hr & Hf).
  assert (Hne : s <> []).
  { intros ->. cbn in Eqs. destruct Hr as [->|[r ->]]; [discriminate Eqs|]. by injection Eqs as -> _. }
  assert (Hrest : elements (c :: q) = take (Z.to_nat DIRSIZ) s :: elements rest).
  { unfold elements. rewrite Hf. cbn [List.filter]. unfold nonempty at 1. rewrite bool_decide_false by done. cbn [negb].
    rewrite fmap_cons. f_equal. f_equal. destruct Hr as [->|[r ->]]; [done|]. rewrite bool_decide_false by done.
    by rewrite fields_slash. }
  split_and!.
  - by rewrite Hrest, skip_slashes_elements.
  - destruct s; done.
  - intros Hin. apply Hns. apply list_elem_of_lookup_1 in Hin as [i Hi].
    apply lookup_take_Some in Hi as [Hi _]. by apply list_elem_of_lookup_2 in Hi.
  - rewrite length_take. lia.
  - pose proof (skip_slashes_length rest). apply (f_equal length) in Eqs. rewrite length_app in Eqs. destruct s; [done|]. cbn [length] in *. lia.
  - symmetry. apply elements_nil, skip_slashes_head.
Qed.

(** ** Directory entries *)

(** strncmp() compares the first [n] characters of the strings. *)
Lemma strncmp_list_spec n s t : strncmp_list n s t = 0 <-> take n (cstr s) = take n (cstr t).
Proof.
  revert s t. induction n as [|n IH]; intros s t; cbn [strncmp_list]; [by rewrite !take_0|].
  assert (Hc : forall u, take (S n) (cstr u) = if hd 0 u =? 0 then [] else hd 0 u :: take n (cstr (tl u))).
  { intros [|c u]; [done|]. cbn. by destruct (c =? 0). }
  rewrite !Hc. unfold truth.
  destruct (Z.eqb_spec (hd 0 s) 0) as [Es|Es]; cbn [negb andb].
  - rewrite Es. destruct (Z.eqb_spec (hd 0 t) 0) as [Et|Et]; [split; [done|lia]|]. split; [lia|done].
  - destruct (Z.eqb_spec (hd 0 s) (hd 0 t)) as [Est|Est].
    + rewrite <- Est. destruct (Z.eqb_spec (hd 0 s) 0); [done|]. rewrite IH. split; [by intros ->|by intros [= ->]].
    + split; [lia|]. destruct (Z.eqb_spec (hd 0 t) 0); [done|]. by intros [= ? _].
Qed.

Lemma cstr_nonzero l : Forall (fun c => c <> 0) (cstr l).
Proof. induction l as [|c l IH]; cbn; [constructor|]. destruct (Z.eqb_spec c 0); constructor; done. Qed.

Lemma cstr_app_zeros l n : Forall (fun c => c <> 0) l -> cstr (l ++ replicate n 0) = l.
Proof.
  induction 1 as [|c l Hc _ IH]; cbn; [by destruct n|]. destruct (Z.eqb_spec c 0); [done|]. by rewrite IH.
Qed.

(** [dirent_roundtrip]: an entry that dirlink() makes for a name is 16 bytes with the
    inode number in front, and dirlookup()'s comparison accepts exactly the names that
    agree with that name in their first DIRSIZ characters: a longer name is found by
    its prefix, and no other entry is mistaken for it. *)
Theorem dirent_roundtrip name inum : 0 <= inum < 2 ^ 16 ->
  Z.of_nat (length (mk_dirent name inum)) = DIRENT /\ de_inum (mk_dirent name inum) = inum /\
  forall s, namecmp s (de_name (mk_dirent name inum)) = 0 <->
    take (Z.to_nat DIRSIZ) (cstr s) = take (Z.to_nat DIRSIZ) (cstr name).
Proof.
  intros Hi. unfold mk_dirent. set (u := take (Z.to_nat DIRSIZ) (cstr name)).
  assert (Hu : (length u <= Z.to_nat DIRSIZ)%nat) by (unfold u; rewrite length_take; lia).
  split_and!.
  - rewrite !length_app, length_le_bytes, length_replicate. change (Z.to_nat DIRSIZ) with 14%nat in *. change DIRENT with 16. lia.
  - unfold de_inum, rd, slice. rewrite drop_0, take_app_length' by done. by apply le_val_bytes_small.
  - intros s. unfold namecmp. rewrite strncmp_list_spec. unfold de_name.
    rewrite drop_app_length' by done.
    rewrite cstr_app_zeros by (apply Forall_take, cstr_nonzero).
    unfold u. by rewrite take_take, Nat.min_id.
Qed.

Lemma dirent_roundtrip_witness : namecmp (str "a.out") (de_name (mk_dirent (str "a.out") 7)) = 0.
Proof. apply (dirent_roundtrip (str "a.out") 7); [lia|reflexivity]. Defined.
