(* ===== verification/File.v ===== *)
(** * File: open files (kernel/file.c) and pipealloc() of pipe.c

    A [struct file *] is the index of the entry in ftable.file, [None] the null
    pointer.  The descriptor layer dispatches on the type of the file: a pipe, a
    device of devsw[], or an inode; a write to an inode is split into
    transactions of bounded size.  The four bytes of padding in struct stat are
    whatever the kernel stack held, the parameter [pad]. *)

From Stdlib Require Import ZArith Lia.
From stdpp Require Import base gmap list strings.
From S2P Require Import Prelude Bytes State Spinlock Sched Sleeplock Mem Kalloc Bio Log Vm Pipe Uart Printf Console Fs.

Definition file_at (f : nat) (k : kstate) : file := default zero_file (k_files k !! f).
Definition upd_file (f : nat) (g : file -> file) : K unit :=
  modify (fun k => set_k_files (alter g f (k_files k)) k).
Definition file_indices : list nat := seq 0 (Z.to_nat NFILE).

(** sizeof(struct stat): dev, ino, type, nlink, four bytes of padding, size *)
Definition stat_bytes (pad : list Z) (st : stat) : list Z :=
  le_bytes 4 (st_dev st) ++ le_bytes 4 (st_ino st) ++ le_bytes 2 (st_type st) ++
  le_bytes 2 (st_nlink st) ++ pad ++ le_bytes 8 (st_size st).

Definition fileinit : K unit := initlock LFtable "ftable".

Definition filealloc : K (option nat) :=
  do! acquire LFtable;
  let! r := for_find file_indices (fun f =>
    let! x := gets (file_at f) in
    if f_ref x =? 0 then
      do! upd_file f (set_f_ref 1);
      do! release LFtable;
      ret (Some f)
    else ret None) in
  match r with
  | Some f => ret (Some f)
  | None =>
      do! release LFtable;
      ret None
  end.

Definition filedup (f : nat) : K nat :=
  do! acquire LFtable;
  let! x := gets (file_at f) in
  if f_ref x <? 1 then panic "filedup" else
  do! upd_file f (fun x => set_f_ref (i32 (f_ref x + 1)) x);
  do! release LFtable;
  ret f.

Section file.
Variable kend : Z.
Variable pad : list Z.
Context `{Disk}.

(** ff.ip *)
Definition iput_ptr (ip : option nat) : K unit :=
  match ip with Some i => iput i | None => fault end.

Definition fileclose (f : nat) : K unit :=
  do! acquire LFtable;
  let! x := gets (file_at f) in
  if f_ref x <? 1 then panic "fileclose" else
  do! upd_file f (fun x => set_f_ref (f_ref x - 1) x);
  let! ff := gets (file_at f) in
  if 0 <? f_ref ff then release LFtable else
  do! upd_file f (set_f_ref 0);
  do! upd_file f (set_f_type FD_NONE);
  do! release LFtable;
  match f_type ff with
  | FD_PIPE => pipeclose kend (f_pipe ff) (f_writable ff)
  | FD_INODE | FD_DEVICE =>
      do! begin_op;
      do! iput_ptr (f_ip ff);
      end_op
  | FD_NONE => ret tt
  end.

(** The process that is running, which system calls need. *)
Definition curproc : K nat :=
  let! mp := myproc in
  match mp with None => fault | Some p => ret p end.

Definition filestat (f : nat) (addr : Z) : K Z :=
  let! p := curproc in
  let! x := gets (file_at f) in
  match f_type x, f_ip x with
  | (FD_INODE | FD_DEVICE), Some i =>
      do! ilock (Some i);
      let! st := stati i in
      do! iunlock (Some i);
      let! pt := pagetable_of p in
      let! r := copyout pt addr (stat_bytes pad st) in
      if r <? 0 then ret (-1) else ret 0
  | (FD_INODE | FD_DEVICE), None => panic "ilock"
  | _, _ => ret (-1)
  end.

Definition dev_of (major : Z) : K devsw :=
  gets (fun k => if (major <? 0) || (NDEV <=? major) then DevNull
                 else nth (Z.to_nat major) (k_devsw k) DevNull).

Definition fileread (f : nat) (addr n : Z) : K Z :=
  let! x := gets (file_at f) in
  if f_readable x =? 0 then ret (-1) else
  match f_type x with
  | FD_PIPE => piperead (f_pipe x) addr n
  | FD_DEVICE =>
      let! d := dev_of (f_major x) in
      match d with
      | DevNull => ret (-1)
      | DevConsole => consoleread (DUser addr) n
      end
  | FD_INODE =>
      match f_ip x with
      | None => panic "ilock"
      | Some i =>
          do! ilock (Some i);
          let! x := gets (file_at f) in
          let! r := readi i (DUser addr) (f_off x) (u32 n) in
          do! (if 0 <? fst r then upd_file f (fun x => set_f_off (u32 (f_off x + fst r)) x) else ret tt);
          do! iunlock (Some i);
          ret (fst r)
      end
  | FD_NONE => panic "fileread"
  end.

(** The largest write that fits a transaction. *)
Definition max_write : Z := (MAXOPBLOCKS - 1 - 1 - 2) / 2 * BSIZE.

Definition filewrite_body (f i : nat) (addr n j : Z) : K (Z + Z) :=
  if negb (j <? n) then ret (inr j) else
  let n1 := Z.min (n - j) max_write in
  do! begin_op;
  do! ilock (Some i);
  let! x := gets (file_at f) in
  let! r := writei i (SUser (u64 (addr + j))) (f_off x) (u32 n1) in
  do! (if 0 <? r then upd_file f (fun x => set_f_off (u32 (f_off x + r)) x) else ret tt);
  do! iunlock (Some i);
  do! end_op;
  if negb (r =? n1) then ret (inr j) else ret (inl (j + r)).

Definition filewrite (f : nat) (addr n : Z) : K Z :=
  let! x := gets (file_at f) in
  if f_writable x =? 0 then ret (-1) else
  match f_type x with
  | FD_PIPE => pipewrite (f_pipe x) addr n
  | FD_DEVICE =>
      let! d := dev_of (f_major x) in
      match d with
      | DevNull => ret (-1)
      | DevConsole => consolewrite (SUser addr) n
      end
  | FD_INODE =>
      match f_ip x with
      | None => panic "ilock"
      | Some i =>
          let! j := loop (S (Z.to_nat n)) (filewrite_body f i addr n) 0 in
          ret (if j =? n then n else -1)
      end
  | FD_NONE => panic "filewrite"
  end.

(** ** pipe.c: pipealloc() *)

(** The page as kalloc() left it, with the fields set. *)
Definition new_pipe : pipe := mkPipe (replicate (Z.to_nat PIPESIZE) 5) 0 0 1 1.

Definition close_if (f : option nat) : K unit :=
  match f with Some f => fileclose f | None => ret tt end.

Definition set_pipe_end (f : nat) (pi readable writable : Z) : K unit :=
  do! upd_file f (set_f_type FD_PIPE);
  do! upd_file f (set_f_readable readable);
  do! upd_file f (set_f_writable writable);
  upd_file f (set_f_pipe pi).

(** The two files, or [None] for the return of -1. *)
Definition pipealloc : K (option (nat * nat)) :=
  let! f0 := filealloc in
  let! f1 := (match f0 with None => ret None | Some _ => filealloc end) in
  match f0, f1 with
  | Some a, Some b =>
      let! pi := kalloc in
      if truth pi then
        do! modify (fun k => set_k_pipes (<[pi := new_pipe]> (k_pipes k)) k);
        do! initlock (LPipe pi) "pipe";
        do! set_pipe_end a pi 1 0;
        do! set_pipe_end b pi 0 1;
        ret (Some (a, b))
      else
        do! close_if f0;
        do! close_if f1;
        ret None
  | _, _ =>
      do! close_if f0;
      do! close_if f1;
      ret None
  end.

End file.

Lemma curproc_run p k : cpu_ok k -> c_proc (k_cpu k) = Some p -> curproc k = Ret p k.
Proof. intros Hok Hp. unfold curproc. erewrite bind_ret_run by by apply myproc_run. by rewrite Hp. Qed.
