(* ===== verification/Fileread.v ===== *)
(** * Fileread: readi() of kernel/fs.c, and reading back what was written

    readi() needs no transaction: the theorems are about any thread that may use the
    buffer cache, with a buffer that is not pinned.  It changes nothing, and returns the
    bytes of the file from the offset on, as many as were asked for or as there
    are. *)

From Stdlib Require Import ZArith Lia.
From stdpp Require Import base gmap list strings.
From S2P Require Import Prelude Bytes State Riscv Spinlock Sched Sleeplock Mem Kalloc Bio Log Trans Vm Uvm Ucopy Pipe Uart Printf Console Virtio Fs Fsdisk Balloc Content Filerw File.

(** The bytes [off] to [off + n] of the file. *)
Definition fbytes (v : Z -> list Z) (ip : inode) (off n : Z) : list Z :=
  (fun j => fbyte v ip (off + j)) <$> seqZ 0 n.

Lemma fbytes_app v ip off m n : 0 <= m -> 0 <= n ->
  fbytes v ip off (m + n) = fbytes v ip off m ++ fbytes v ip (off + m) n.
Proof.
  intros Hm Hn. unfold fbytes. rewrite seqZ_app, fmap_app by lia. f_equal. apply list_eq. intros j.
  rewrite !list_lookup_fmap. destruct (decide (Z.of_nat j < n)).
  - rewrite !lookup_seqZ_lt by lia. cbn. do 2 f_equal. lia.
  - by rewrite !lookup_seqZ_ge by lia.
Qed.

(** A piece of one block. *)
Lemma fbytes_block v ip off m a : 0 <= off -> 0 <= m -> off mod BSIZE + m <= BSIZE -> slot v ip (off / BSIZE) = a ->
  a <> 0 -> length (v a) = 1024%nat -> slice (v a) (Z.to_nat (off mod BSIZE)) (Z.to_nat m) = fbytes v ip off m.
Proof.
  intros Ho Hm Hfit Ha Ha0 Hl. destruct (off_split off Ho) as (Eo & Hmod & Hdiv). change BSIZE with 1024 in *.
  apply list_eq. intros j. unfold fbytes. rewrite slice_lookup, list_lookup_fmap. case_decide as Hj.
  - rewrite lookup_seqZ_lt by lia. cbn. rewrite Z.add_0_l. unfold fbyte, fblock. change BSIZE with 1024.
    replace ((off + Z.of_nat j) / 1024) with (off / 1024) by zlia. rewrite Ha. destruct (Z.eqb_spec a 0); [done|].
    replace (Z.to_nat ((off + Z.of_nat j) mod 1024)) with (Z.to_nat (off mod 1024) + j)%nat by zlia.
    rewrite nth_lookup. destruct (lookup_lt_is_Some_2 (v a) (Z.to_nat (off mod 1024) + j)) as [x ->]; [lia|done].
  - by rewrite lookup_seqZ_ge by lia.
Qed.

Lemma fbytes_ext v v' ip off n : (forall b, v' b = v b) -> fbytes v' ip off n = fbytes v ip off n.
Proof. intros Hv. unfold fbytes. apply list_fmap_ext. intros j s _. unfold fbyte. by rewrite (fblock_ext v v'). Qed.

Section readi.
Context `{Disk}.
Variables (D : Z) (p : nat) (pins : nat -> Z).
Hypothesis D_ok : 0 < D < 2 ^ 31.
#[local] Abbreviation inv := (bio_inv D p ∅ pins).
#[local] Abbreviation vw := (view D).
Hypothesis unpinned : exists f, (f < HEAD)%nat /\ pins f = 0.

Lemma read_release k b : inv k -> bno_ok b -> exists bp k1 k2, bread D b k = Ret bp k1 /\
  b_data (buf_at bp k1) = vw k b /\ bio_step k k1 /\ cpu_ok k1 /\ brelse bp k1 = Ret tt k2 /\ inv k2 /\ bio_step k k2 /\
  forall b', vw k2 b' = vw k b'.
Proof.
  intros Hk Hb. destruct unpinned as (f & Hf & Hpf).
  destruct (bread_clean D p ∅ pins k b f Hk Hb) as (bp & k1 & R & Hi & Hih & I & S & B & Dt & V & Hcl & _);
    [set_solver|done|set_solver|done|].
  destruct (brelse_spec D p ({[bp]} ∪ ∅) pins k1 bp I) as (k2 & R2 & I2 & S2 & _ & _ & _ & V2); [set_solver|done|].
  rewrite held_release in I2 by done. exists bp, k1, k2. split_and!; try done.
  - apply (th_cpu _ _ (env_thread _ _ (bi_env _ _ _ _ _ I))).
  - by eapply bio_step_trans.
  - intros b'. by rewrite V2, V.
Qed.

(** A file whose blocks are all there. *)
Record readable_file (i : nat) (k : kstate) : Prop := {
  rf_dev : i_dev (inode_at i k) = D;
  rf_size : 0 <= i_size (inode_at i k) <= MAXFILE * BSIZE;
  rf_slot : forall s, 0 <= s -> s * BSIZE < i_size (inode_at i k) ->
    slot (vw k) (inode_at i k) s <> 0 /\ bno_ok (slot (vw k) (inode_at i k) s);
  rf_ind : ind_of (inode_at i k) <> 0 -> bno_ok (ind_of (inode_at i k)) }.

Lemma bio_step_inodes_eq k k' : bio_step k k' -> k_inodes k' = k_inodes k.
Proof. intros Hs. by destruct (tr_step_frame ∅ _ _ (tr_step_bio _ _ _ Hs)) as (-> & _). Qed.

Lemma readable_file_ext i k k' : k_inodes k' = k_inodes k -> (forall b, vw k' b = vw k b) ->
  readable_file i k -> readable_file i k'.
Proof.
  intros Ei Hv [R1 R2 R3 R4]. assert (Ea : inode_at i k' = inode_at i k) by (unfold inode_at; by rewrite Ei).
  split; rewrite ?Ea; try done. intros s. rewrite (slot_ext (vw k)) by done. apply R3.
Qed.

Lemma bmap_read i bn k : inv k -> i_dev (inode_at i k) = D -> 0 <= bn < MAXFILE ->
  slot (vw k) (inode_at i k) bn <> 0 -> (ind_of (inode_at i k) <> 0 -> bno_ok (ind_of (inode_at i k))) ->
  exists k', bmap i bn k = Ret (slot (vw k) (inode_at i k) bn) k' /\ inv k' /\ bio_step k k' /\ forall b, vw k' b = vw k b.
Proof.
  intros Hk Hd Hbn Hs Hi. rewrite bmap_unfold. destruct (Z.ltb_spec bn NDIRECT) as [Hlt|Hge].
  - assert (Es : slot (vw k) (inode_at i k) bn = nth (Z.to_nat bn) (i_addrs (inode_at i k)) 0)
      by (unfold slot; by destruct (Z.ltb_spec bn NDIRECT); [|lia]).
    exists k. rewrite Es in *. split_and!; try done; [by apply bmap_addr_old|apply bio_step_refl].
  - destruct (Z.ltb_spec (bn - NDIRECT) NINDIRECT);
      [|change NDIRECT with 12 in *; change NINDIRECT with 256 in *; change MAXFILE with 268 in *; lia].
    pose proof (slot_ind _ _ _ Hge Hs) as Hn.
    assert (Es : slot (vw k) (inode_at i k) bn = rd 4 (vw k (ind_of (inode_at i k))) (4 * Z.to_nat (bn - NDIRECT))).
    { unfold slot. destruct (Z.ltb_spec bn NDIRECT); [lia|]. by destruct (Z.eqb_spec (ind_of (inode_at i k)) 0). }
    destruct (read_release k (ind_of (inode_at i k)) Hk (Hi Hn)) as (bp & k1 & k2 & E1 & D1 & _ & _ & E2 & I2 & S2 & V2).
    exists k2. split_and!; try done. erewrite bind_ret_run by by apply (bmap_addr_old i (Z.to_nat NDIRECT)).
    fold (ind_of (inode_at i k)). destruct (Z.eqb_spec (ind_of (inode_at i k)) 0); [done|].
    unfold bmap_entry. erewrite bind_ret_run by reflexivity. rewrite Hd. erewrite bind_ret_run by exact E1.
    erewrite bind_ret_run by reflexivity. rewrite D1, <- Es. cbv zeta.
    destruct (Z.eqb_spec (slot (vw k) (inode_at i k) bn) 0); [done|].
    erewrite bind_ret_run by reflexivity. by erewrite bind_ret_run by exact E2.
Qed.

Lemma readi_body_run i n tot off got k : inv k -> readable_file i k -> 0 <= tot < n -> 0 <= off ->
  off + (n - tot) <= i_size (inode_at i k) ->
  let m := Z.min (n - tot) (BSIZE - off mod BSIZE) in
  exists k', readi_body i n (tot, off, DLocal, got) k =
      Ret (inl (tot + m, off + m, DLocal, got ++ fbytes (vw k) (inode_at i k) off m)) k' /\
    inv k' /\ bio_step k k' /\ forall b, vw k' b = vw k b.
Proof.
  intros Hk Hr Ht Ho Hend m. pose proof Hr as [R1 R2 R3 R4]. destruct (off_split off Ho) as (Eo & Hmod & Hdiv).
  assert (Hm : 0 < m) by lia. assert (Hob : 0 <= off / BSIZE < MAXFILE) by (apply off_block; lia).
  destruct (R3 (off / BSIZE) Hdiv) as [Hs Hb]; [change BSIZE with 1024 in *; lia|].
  destruct (bmap_read i (off / BSIZE) k Hk R1 Hob Hs R4) as (k1 & E1 & I1 & S1 & V1).
  destruct (read_release k1 (slot (vw k) (inode_at i k) (off / BSIZE)) I1 Hb) as (bp & k2 & k3 & E2 & D2 & S2 & C2 & E3 & I3 & S3 & V3).
  exists k3. split_and!; try done.
  - unfold readi_body. destruct (Z.ltb_spec tot n); [|lia]. cbn [negb]. erewrite bind_ret_run by exact E1.
    destruct (Z.eqb_spec (slot (vw k) (inode_at i k) (off / BSIZE)) 0); [done|].
    erewrite bind_ret_run by reflexivity.
    replace (i_dev (inode_at i k1)) with D by (unfold inode_at; rewrite (bio_step_inodes_eq _ _ S1); by rewrite <- R1).
    erewrite bind_ret_run by exact E2. fold m. erewrite bind_ret_run by reflexivity.
    rewrite D2, V1, (fbytes_block (vw k) (inode_at i k) off m); try done; try lia.
    + unfold either_copyout. rewrite bind_assoc. erewrite bind_ret_run by by apply myproc_run.
      erewrite bind_ret_run by reflexivity. change (0 =? -1) with false. cbv iota.
      erewrite bind_ret_run by exact E3. unfold ret. do 4 f_equal. cbn. rewrite u32_small; [done|].
      change (MAXFILE * BSIZE) with 274432 in R2. lia.
    + pose proof (view_ok D p _ _ k (slot (vw k) (inode_at i k) (off / BSIZE)) Hk) as [Hl _]. exact Hl.
  - by eapply bio_step_trans.
  - intros b. by rewrite V3, V1.
Qed.

Lemma readi_loop f i n tot off got k : inv k -> readable_file i k -> 0 <= tot <= n -> 0 <= off ->
  off + (n - tot) <= i_size (inode_at i k) -> (Z.to_nat (n - tot) < f)%nat ->
  exists k', loop f (readi_body i n) (tot, off, DLocal, got) k = Ret (n, got ++ fbytes (vw k) (inode_at i k) off (n - tot)) k' /\
    inv k' /\ bio_step k k' /\ forall b, vw k' b = vw k b.
Proof.
  revert tot off got k. induction f as [|f IH]; intros tot off got k Hk Hr Ht Ho Hend Hf; [lia|].
  destruct (decide (tot = n)) as [->|Hne].
  - exists k. rewrite Z.sub_diag. change (fbytes (vw k) (inode_at i k) off 0) with ([] : list Z). rewrite app_nil_r.
    split_and!; try done; [|apply bio_step_refl].
    apply loop_exit. unfold readi_body. by destruct (Z.ltb_spec n n); [lia|].
  - destruct (readi_body_run i n tot off got k Hk Hr ltac:(lia) Ho Hend) as (k1 & E1 & I1 & S1 & V1).
    destruct (off_split off Ho) as (_ & Hmod & _). set (m := Z.min (n - tot) (BSIZE - off mod BSIZE)) in *.
    pose proof (bio_step_inodes_eq _ _ S1) as Ei. assert (Ea : inode_at i k1 = inode_at i k) by (unfold inode_at; by rewrite Ei).
    destruct (IH (tot + m) (off + m) (got ++ fbytes (vw k) (inode_at i k) off m) k1) as (k' & E2 & I2 & S2 & V2);
      try done; try lia; [by apply (readable_file_ext i k)|rewrite Ea; lia|].
    exists k'. split_and!; try done.
    + erewrite loop_next by exact E1. rewrite E2, Ea, (fbytes_ext (vw k) (vw k1)) by done. rewrite <- app_assoc, <- fbytes_app by lia.
      do 4 f_equal. lia.
    + by eapply bio_step_trans.
    + intros b. by rewrite V2, V1.
Qed.

(** readi() on every branch. *)
Lemma readi_run i off n k : inv k -> readable_file i k -> 0 <= off < 2 ^ 32 -> 0 <= n -> off + n < 2 ^ 32 ->
  let m := Z.max 0 (Z.min n (i_size (inode_at i k) - off)) in
  exists k', readi i DLocal off n k = Ret (m, fbytes (vw k) (inode_at i k) off m) k' /\
    inv k' /\ bio_step k k' /\ forall b, vw k' b = vw k b.
Proof.
  intros Hk Hr Ho Hn Hsum m. pose proof (rf_size _ _ Hr) as Hsz. change (MAXFILE * BSIZE) with 274432 in Hsz.
  unfold readi. erewrite bind_ret_run by reflexivity. rewrite u32_small by lia.
  destruct (Z.ltb_spec (i_size (inode_at i k)) off).
  { exists k. replace m with 0 by lia. split_and!; try done. apply bio_step_refl. }
  destruct (Z.ltb_spec (off + n) off); [lia|]. cbn [orb]. cbv zeta.
  replace (if i_size (inode_at i k) <? off + n then u32 (i_size (inode_at i k) - off) else n) with m
    by (destruct (Z.ltb_spec (i_size (inode_at i k)) (off + n)); rewrite ?u32_small by lia; lia).
  destruct (readi_loop (S (Z.to_nat m)) i m 0 off [] k) as (k' & E & I & S & V); try done; try lia.
  rewrite Z.sub_0_r in E. by exists k'.
Qed.

End readi.

(** ** Writing, and reading it back *)

Section write_read.
Context `{Disk}.
Variables (D start size : Z) (p : nat) (sb : superblock).
Hypothesis D_ok : 0 < D < 2 ^ 31.
Hypothesis start_ok : 0 <= start /\ 0 < size /\ start + size < 2 ^ 31.
Hypothesis sb_ok : 0 <= sb_size sb < 2 ^ 31.
Hypothesis map_ok : forall b, 0 <= b < sb_size sb -> home start size (map_block sb b).
#[local] Abbreviation trans := (in_trans D start size p).
#[local] Abbreviation vw := (view D).
#[local] Abbreviation wf := (file_wf D start size sb).

Lemma slot_range i k s : wf i k -> 0 <= s < MAXFILE -> 0 <= slot (vw k) (inode_at i k) s < Z.max 1 (sb_size sb).
Proof.
  intros Hw Hs. destruct (decide (slot (vw k) (inode_at i k) s = 0)) as [->|Hn]; [lia|].
  pose proof (db_range _ _ _ _ _ _ _ (fw_slot _ _ _ _ _ _ Hw s Hs Hn)). lia.
Qed.

Lemma ind_range i k : wf i k -> 0 <= ind_of (inode_at i k) < Z.max 1 (sb_size sb).
Proof.
  intros Hw. destruct (decide (ind_of (inode_at i k) = 0)) as [->|Hn]; [lia|].
  pose proof (db_range _ _ _ _ _ _ _ (fw_ind _ _ _ _ _ _ Hw Hn)). lia.
Qed.

Lemma map_block_one b : 0 <= b < BPB -> map_block sb b = sb_bmapstart sb.
Proof. intros Hb. unfold map_block. by rewrite Z.div_small. Qed.

Lemma nblocks_range off n s : 0 <= off -> off + n <= MAXFILE * BSIZE ->
  off / BSIZE <= s < off / BSIZE + nblocks off n -> 0 <= s < MAXFILE.
Proof.
  intros Ho Hn. unfold nblocks. destruct (Z.leb_spec n 0); [lia|]. change (MAXFILE * BSIZE) with 274432 in Hn.
  change MAXFILE with 268. change BSIZE with 1024. zlia.
Qed.

(** When one block holds the free map, a write logs a block for each that it touches
    and at most two more. *)
Lemma touched_size i k off n : wf i k -> sb_size sb <= BPB -> 0 <= off -> off + n <= MAXFILE * BSIZE ->
  Z.of_nat (base.size (touched sb (vw k) (inode_at i k) off n)) <= nblocks off n + 2.
Proof.
  intros Hw Hone Ho Hn. set (ip := inode_at i k).
  set (X := list_to_set (slot (vw k) ip <$> seqZ (off / BSIZE) (nblocks off n)) : gset Z).
  assert (HX : (base.size X <= length (seqZ (off / BSIZE) (nblocks off n)))%nat).
  { unfold X. rewrite <- (length_fmap (slot (vw k) ip)). generalize (slot (vw k) ip <$> seqZ (off / BSIZE) (nblocks off n)).
    induction l as [|x l IH]; cbn; [by rewrite size_empty|]. pose proof (size_union_alt {[x]} (list_to_set l : gset Z)) as E.
    rewrite size_singleton in E. pose proof (subseteq_size (list_to_set l ∖ {[x]} : gset Z) (list_to_set l) ltac:(set_solver)). lia. }
  rewrite length_seqZ in HX.
  assert (Hsub : touched sb (vw k) ip off n ⊆ X ∪ {[sb_bmapstart sb; ind_of ip]}).
  { intros b Hb. unfold touched in Hb. apply elem_of_union_list in Hb as (Y & HY & Hb).
    apply list_elem_of_fmap in HY as (s & -> & Hs). pose proof Hs as Hr. apply elem_of_seqZ in Hr.
    assert (Hsr : 0 <= s < MAXFILE) by (eapply nblocks_range; [| |exact Hr]; done).
    assert (HBPB : BPB = 8192) by reflexivity.
    unfold bmap_blocks in Hb. rewrite (map_block_one (slot (vw k) ip s)) in Hb by (pose proof (slot_range i k s Hw Hsr); unfold ip; lia).
    rewrite (map_block_one (ind_of ip)) in Hb by (pose proof (ind_range i k Hw); unfold ip; lia).
    assert (HinX : slot (vw k) ip s ∈ X) by (unfold X; apply elem_of_list_to_set, list_elem_of_fmap; by exists s).
    destruct (s <? NDIRECT); set_solver. }
  pose proof (size_add2 _ _ _ _ Hsub) as Hle. assert (0 <= nblocks off n); [|lia].
  unfold nblocks. destruct (Z.leb_spec n 0); [lia|]. change BSIZE with 1024. zlia.
Qed.


Lemma whole_readable i k : wf i k -> whole D i k -> readable_file D i k.
Proof.
  intros Hw [Hsz Hall]. split.
  - apply Hw.
  - pose proof (iw_size _ (fw_inode _ _ _ _ _ _ Hw)). lia.
  - intros s Hs Hlt. assert (Hsr : 0 <= s < MAXFILE).
    { change (MAXFILE * BSIZE) with 274432 in Hsz. change BSIZE with 1024 in Hlt. change MAXFILE with 268. lia. }
    split; [by apply Hall|]. apply (db_home _ _ _ _ _ _ _ (fw_slot _ _ _ _ _ _ Hw s Hsr (Hall s Hs Hlt))).
  - intros Hn. apply (db_home _ _ _ _ _ _ _ (fw_ind _ _ _ _ _ _ Hw Hn)).
Qed.

(** C10 (file_roundtrip): a file reads back what was written to it.  After writei(),
    readi() of any part of the file returns, of the positions that were written, the
    bytes that were written there, and of the others the bytes the file had before; it
    stops at the new end of the file. *)
Theorem file_roundtrip J i src off bs k : trans J ∅ k -> wf i k -> whole D i k -> feeds src bs k -> Forall is_byte bs ->
  0 <= off <= i_size (inode_at i k) -> off + Z.of_nat (length bs) <= MAXFILE * BSIZE ->
  Z.of_nat (length J) + 2 * nblocks off (Z.of_nat (length bs)) + 8 <= size -> size <= Z.of_nat HEAD ->
  nblocks off (Z.of_nat (length bs)) < Z.of_nat (free_count D sb k) ->
  exists k', writei i src off (Z.of_nat (length bs)) k = Ret (Z.of_nat (length bs)) k' /\
    let size' := Z.max (i_size (inode_at i k)) (off + Z.of_nat (length bs)) in
    forall a n, 0 <= a < 2 ^ 31 -> 0 <= n < 2 ^ 31 -> exists k'', 
      let m := Z.max 0 (Z.min n (size' - a)) in
      readi i DLocal a n k' = Ret (m, (fun j => if decide (off <= a + j < off + Z.of_nat (length bs))
        then nth (Z.to_nat (a + j - off)) bs 0 else fbyte (vw k) (inode_at i k) (a + j)) <$> seqZ 0 m) k''.
Proof.
  intros Hit Hw Hwh Hf Hby Ho Hend R1 R2 R3.
  destruct (writei_run D start size p sb D_ok start_ok sb_ok map_ok J i src off bs k) as (J' & k' & E & I & W); try done.
  exists k'. split; [done|]. intros size' a n Ha Hn. pose proof W as [W1 W2 W3 _ _ W4 _ _ _].
  specialize (W2 Hwh). pose proof (whole_readable i k' W1 W2) as Hr.
  destruct (tr_free _ _ _ _ _ _ (it_ok _ _ _ _ _ _ _ I)) as (fb & Hfb & HfJ).
  assert (Hp : exists f, (f < HEAD)%nat /\ pins_of J' f = 0) by (exists fb; split; [done|]; unfold pins_of; by rewrite decide_False).
  destruct (readi_run D p (pins_of J') D_ok Hp
    i a n k' (it_inv _ _ _ _ _ _ _ I) Hr) as (k'' & E2 & _); [lia|lia|lia|].
  exists k''. cbv zeta. rewrite E2, W3. fold size'. f_equal. f_equal. unfold fbytes. apply list_fmap_ext.
  intros j x Hj. apply lookup_seqZ in Hj as [-> Hj]. apply W4. destruct Hwh as [Hsz _].
  change (MAXFILE * BSIZE) with 274432 in *. unfold size' in Hj. lia.
Qed.

End write_read.

(** ** An empty file *)

Definition empty_ip : inode := mkInode ROOTDEV 5 1 1 T_FILE 0 0 1 0 (replicate 13 0).
Definition empty_on (k : kstate) : kstate := set_k_inodes [empty_ip] k.

Lemma empty_ip_wf : inode_wf empty_ip.
Proof. split; try reflexivity; try (split; [discriminate|reflexivity]). apply Forall_replicate. split; [discriminate|reflexivity]. Qed.

Lemma empty_ind : ind_of empty_ip = 0.
Proof. reflexivity. Qed.

Lemma empty_slot v s : slot v empty_ip s = 0.
Proof.
  unfold slot. rewrite empty_ind. change (0 =? 0) with true. destruct (s <? NDIRECT); [|done].
  rewrite nth_lookup. change (i_addrs empty_ip) with (replicate 13 0). destruct (replicate 13 0 !! _) eqn:E; [|done].
  by apply lookup_replicate in E as [-> _].
Qed.

Lemma empty_on_wf k : k_sb k = small_sb -> free_data ROOTDEV 2 30 small_sb k -> in_use ROOTDEV small_sb k 32 = true ->
  file_wf ROOTDEV 2 30 small_sb 0 (empty_on k).
Proof.
  intros Hsb Hf Hu.
  assert (Ea : inode_at 0 (empty_on k) = empty_ip) by reflexivity.
  split; rewrite ?Ea.
  - exact Hsb.
  - cbn. lia.
  - reflexivity.
  - apply empty_ip_wf.
  - apply small_inum. split; [discriminate|reflexivity].
  - change (IBLOCK (i_inum empty_ip) small_sb) with 32. split_and!; [discriminate|reflexivity|exact Hu|].
    intros c Hc. rewrite small_map by done. discriminate.
  - exact Hf.
  - intros s _ Hn. by rewrite empty_slot in Hn.
  - intros Hn. by rewrite empty_ind in Hn.
  - intros s t _ _ Hn. by rewrite empty_slot in Hn.
  - intros s _ Hn. by rewrite empty_ind in Hn.
Qed.

Lemma free_count_at k n : (forall b, 0 <= b < sb_size small_sb -> in_use ROOTDEV small_sb k b = (b <? n)) ->
  free_count ROOTDEV small_sb k = length (filter (fun b => (b <? n) = false) (seqZ 0 (sb_size small_sb))).
Proof.
  intros Hu. unfold free_count. f_equal.
  assert (Hl : forall l : list Z, (forall b, b ∈ l -> 0 <= b < sb_size small_sb) ->
    filter (fun b => in_use ROOTDEV small_sb k b = false) l = filter (fun b => (b <? n) = false) l).
  { induction l as [|x l IH]; intros Hin; [done|]. rewrite !filter_cons, IH by (intros; apply Hin; by right).
    by rewrite (Hu x) by (apply Hin; left). }
  apply Hl. intros b Hb%elem_of_seqZ. lia.
Qed.

Definition empty_k : kstate := empty_on alloc_k.

Lemma empty_k_trans : in_trans ROOTDEV 2 30 3 [] ∅ empty_k.
Proof. unfold empty_k, empty_on. apply in_trans_inodes, alloc_trans. Qed.

Lemma empty_k_wf : file_wf ROOTDEV 2 30 small_sb 0 empty_k.
Proof.
  unfold empty_k. apply empty_on_wf; [exact alloc_sb|exact alloc_free|]. by rewrite alloc_in_use by (split; [discriminate|reflexivity]).
Qed.

Lemma empty_on_inode k : inode_at 0 (empty_on k) = empty_ip.
Proof. reflexivity. Qed.

Lemma in_use_inodes k l b : in_use ROOTDEV small_sb (set_k_inodes l k) b = in_use ROOTDEV small_sb k b.
Proof. reflexivity. Qed.

Lemma empty_k_free : free_count ROOTDEV small_sb empty_k = 954%nat.
Proof.
  rewrite (free_count_at _ 46); [vm_compute; reflexivity|]. intros b Hb. unfold empty_k, empty_on. rewrite in_use_inodes.
  by apply alloc_in_use.
Qed.

Lemma empty_whole : whole ROOTDEV 0 empty_k.
Proof.
  unfold whole, empty_k. rewrite empty_on_inode. split; [discriminate|]. intros s Hs Hlt. change (i_size empty_ip) with 0 in Hlt.
  change BSIZE with 1024 in Hlt. lia.
Qed.

Definition hi : list Z := [104; 105].

Lemma empty_feeds : feeds (SLocal hi) hi empty_k.
Proof. apply feeds_local, (th_cpu 3), env_thread. exact (bi_env _ _ _ _ _ (it_inv _ _ _ _ _ _ _ empty_k_trans)). Qed.

Lemma hi_bytes : Forall is_byte hi.
Proof. repeat constructor; discriminate. Qed.

Lemma root_ok : 0 < ROOTDEV < 2 ^ 31.
Proof. by split. Qed.


Lemma file_roundtrip_witness : exists k' k'', writei 0 (SLocal hi) 0 2 empty_k = Ret 2 k' /\
  readi 0 DLocal 0 512 k' = Ret (2, hi) k''.
Proof.
  destruct (file_roundtrip ROOTDEV 2 30 3 small_sb root_ok area_ok ltac:(cbn; lia) small_map_ok [] 0 (SLocal hi) 0 hi empty_k
    empty_k_trans empty_k_wf empty_whole empty_feeds hi_bytes) as (k' & E & Hr).
  - unfold empty_k. rewrite empty_on_inode. split; discriminate.
  - discriminate.
  - apply Z.leb_le. reflexivity.
  - apply Z.leb_le. reflexivity.
  - rewrite empty_k_free. reflexivity.
  - destruct (Hr 0 512 ltac:(lia) ltac:(lia)) as [k'' E2]. exists k', k''. split; [exact E|].
    rewrite E2. unfold empty_k. rewrite empty_on_inode. reflexivity.
Defined.
