(* ===== verification/Proc.v ===== *)
(** * Proc: the life of a process (the rest of kernel/proc.c)

    Allocating and freeing a process and its page table, userinit(), growproc(),
    fork(), reparent(), exit() and wait().  The trapframe is the page at
    p->trapframe; its fields are read and written at their offsets there.
    [kend] and [trampoline] are the linker symbols, [forkret_addr] the address
    of forkret(). *)

From Stdlib Require Import ZArith Lia.
From stdpp Require Import base gmap list strings.
From S2P Require Import Prelude Bytes State Riscv Spinlock Sched Sleeplock Mem Kalloc Bio Log Vm Pipe Printf Console Fs File.

(** ** proc.h: offsets in struct trapframe *)

Definition tf_kernel_satp : Z := 0.
Definition tf_kernel_sp : Z := 8.
Definition tf_kernel_trap : Z := 16.
Definition tf_epc : Z := 24.
Definition tf_kernel_hartid : Z := 32.
Definition tf_sp : Z := 48.
Definition tf_a0 : Z := 112.
Definition tf_a1 : Z := 120.
Definition tf_a2 : Z := 128.
Definition tf_a3 : Z := 136.
Definition tf_a4 : Z := 144.
Definition tf_a5 : Z := 152.
Definition tf_a7 : Z := 168.
Definition sizeof_trapframe : Z := 288.

(** p->trapframe->field *)
Definition tf_get (p : nat) (off : Z) : K Z :=
  gets (fun k => load64 (k_mem k) (p_trapframe (proc_at p k) + off)).
Definition tf_set (p : nat) (off v : Z) : K unit :=
  modify (fun k => set_k_mem (store64 (k_mem k) (p_trapframe (proc_at p k) + off) v) k).

(** safestrcpy() into an array [old] of [n] characters. *)
Definition safestrcpy_list (old src : list Z) (n : nat) : list Z :=
  splice old 0 (take (n - 1) (cstr src) ++ [0]).

Section proc.
Variables kend trampoline forkret_addr : Z.
Context `{Disk}.

(** ** Page tables of processes *)

Definition proc_pagetable (p : nat) : K Z :=
  let! pagetable := uvmcreate in
  if pagetable =? 0 then ret 0 else
  let! r := mappages pagetable TRAMPOLINE PGSIZE trampoline (Z.lor PTE_R PTE_X) in
  if r <? 0 then
    do! uvmfree kend pagetable 0;
    ret 0
  else
  let! tf := gets (fun k => p_trapframe (proc_at p k)) in
  let! r := mappages pagetable TRAPFRAME PGSIZE tf (Z.lor PTE_R PTE_W) in
  if r <? 0 then
    do! uvmunmap kend pagetable TRAMPOLINE 1 false;
    do! uvmfree kend pagetable 0;
    ret 0
  else ret pagetable.

Definition proc_freepagetable (pagetable sz : Z) : K unit :=
  do! uvmunmap kend pagetable TRAMPOLINE 1 false;
  do! uvmunmap kend pagetable TRAPFRAME 1 false;
  uvmfree kend pagetable sz.

Definition freeproc (p : nat) : K unit :=
  let! x := gets (proc_at p) in
  do! (if truth (p_trapframe x) then kfree kend (p_trapframe x) else ret tt);
  do! upd_proc p (set_p_trapframe 0);
  do! (if truth (p_pagetable x) then proc_freepagetable (p_pagetable x) (p_sz x) else ret tt);
  do! upd_proc p (set_p_pagetable 0);
  do! upd_proc p (set_p_sz 0);
  do! upd_proc p (set_p_pid 0);
  do! upd_proc p (set_p_parent None);
  do! upd_proc p (fun x => set_p_name (<[0%nat := 0]> (p_name x)) x);
  do! upd_proc p (set_p_chan None);
  do! upd_proc p (set_p_killed 0);
  do! upd_proc p (set_p_xstate 0);
  upd_proc p (set_p_state UNUSED).

(** The loop of allocproc(): an UNUSED process, its lock held. *)
Definition find_unused : K (option nat) :=
  for_find proc_indices (fun i =>
    do! acquire (LProc i);
    let! x := gets (proc_at i) in
    if decide (p_state x = UNUSED) then ret (Some i) else
    do! release (LProc i);
    ret None).

Definition abandon (p : nat) : K (option nat) :=
  do! freeproc p;
  do! release (LProc p);
  ret None.

(** The new process, its lock held, or [None]. *)
Definition allocproc : K (option nat) :=
  let! found := find_unused in
  match found with
  | None => ret None
  | Some p =>
      let! pid := allocpid in
      do! upd_proc p (set_p_pid pid);
      do! upd_proc p (set_p_state USED);
      let! tf := kalloc in
      do! upd_proc p (set_p_trapframe tf);
      if tf =? 0 then abandon p else
      let! pt := proc_pagetable p in
      do! upd_proc p (set_p_pagetable pt);
      if pt =? 0 then abandon p else
      do! upd_proc p (fun x => set_p_context (mkContext forkret_addr (p_kstack x + PGSIZE) (replicate 12 0)) x);
      ret (Some p)
  end.

(** ** The first process *)

Definition initcode : list Z :=
  [0x17; 0x05; 0x00; 0x00; 0x13; 0x05; 0x45; 0x02;
   0x97; 0x05; 0x00; 0x00; 0x93; 0x85; 0x35; 0x02;
   0x93; 0x08; 0x70; 0x00; 0x73; 0x00; 0x00; 0x00;
   0x93; 0x08; 0x20; 0x00; 0x73; 0x00; 0x00; 0x00;
   0xef; 0xf0; 0x9f; 0xff; 0x2f; 0x69; 0x6e; 0x69;
   0x74; 0x00; 0x00; 0x24; 0x00; 0x00; 0x00; 0x00;
   0x00; 0x00; 0x00; 0x00].

Definition userinit : K unit :=
  let! mp := allocproc in
  do! modify (set_k_initproc mp);
  match mp with
  | None => fault
  | Some p =>
      let! pt := pagetable_of p in
      do! uvmfirst pt initcode;
      do! upd_proc p (set_p_sz PGSIZE);
      do! tf_set p tf_epc 0;
      do! tf_set p tf_sp PGSIZE;
      do! upd_proc p (fun x => set_p_name (safestrcpy_list (p_name x) (str "initcode") 16) x);
      let! ip := namei [slash] in
      do! upd_proc p (set_p_cwd ip);
      do! upd_proc p (set_p_state RUNNABLE);
      release (LProc p)
  end.

(** ** Memory *)

Definition growproc (n : Z) : K Z :=
  let! p := curproc in
  let! x := gets (proc_at p) in
  if 0 <? n then
    let! sz := uvmalloc kend (p_pagetable x) (p_sz x) (u64 (p_sz x + n)) PTE_W in
    if sz =? 0 then ret (-1) else
    do! upd_proc p (set_p_sz sz);
    ret 0
  else if n <? 0 then
    let! sz := uvmdealloc kend (p_pagetable x) (p_sz x) (u64 (p_sz x + n)) in
    do! upd_proc p (set_p_sz sz);
    ret 0
  else
    do! upd_proc p (set_p_sz (p_sz x));
    ret 0.

(** ** fork() *)

(** if(p->ofile[i]) np->ofile[i] = filedup(p->ofile[i]); *)
Definition fork_file (p np i : nat) : K unit :=
  let! x := gets (proc_at p) in
  match nth i (p_ofile x) None with
  | None => ret tt
  | Some f =>
      let! f := filedup f in
      upd_proc np (fun x => set_p_ofile (<[i := Some f]> (p_ofile x)) x)
  end.

(** fork() from np->sz = p->sz on, when the memory has been copied; [x] and [nx] are the
    parent and the child. *)
Definition fork_child (p np : nat) (x nx : proc) : K Z :=
  do! upd_proc np (set_p_sz (p_sz x));
  do! mem_move (p_trapframe nx) (p_trapframe x) sizeof_trapframe;
  do! tf_set np tf_a0 0;
  do! for_each (seq 0 (Z.to_nat NOFILE)) (fork_file p np);
  let! i := (match p_cwd x with None => fault | Some i => idup i end) in
  do! upd_proc np (set_p_cwd (Some i));
  do! upd_proc np (fun y => set_p_name (safestrcpy_list (p_name y) (p_name x) 16) y);
  let! nx := gets (proc_at np) in
  let pid := p_pid nx in
  do! release (LProc np);
  do! acquire LWait;
  do! upd_proc np (set_p_parent (Some p));
  do! release LWait;
  do! acquire (LProc np);
  do! upd_proc np (set_p_state RUNNABLE);
  do! release (LProc np);
  ret pid.

Definition fork : K Z :=
  let! p := curproc in
  let! mnp := allocproc in
  match mnp with
  | None => ret (-1)
  | Some np =>
      let! x := gets (proc_at p) in
      let! nx := gets (proc_at np) in
      let! r := uvmcopy kend (p_pagetable x) (p_pagetable nx) (p_sz x) in
      if r <? 0 then
        do! freeproc np;
        do! release (LProc np);
        ret (-1)
      else fork_child p np x nx
  end.

(** ** exit() and wait() *)

(** wakeup(p) of a process that may be the null pointer; no one sleeps on null. *)
Definition wakeup_proc (p : option nat) : K unit :=
  match p with Some p => wakeup (ChProc p) | None => ret tt end.

Definition reparent_slot (p pp : nat) : K unit :=
  let! x := gets (proc_at pp) in
  if decide (p_parent x = Some p) then
    let! init := gets k_initproc in
    do! upd_proc pp (set_p_parent init);
    wakeup_proc init
  else ret tt.

Definition reparent (p : nat) : K unit := for_each proc_indices (reparent_slot p).

(** if(p->ofile[fd]){ fileclose(p->ofile[fd]); p->ofile[fd] = 0; } *)
Definition exit_file (p fd : nat) : K unit :=
  let! x := gets (proc_at p) in
  match nth fd (p_ofile x) None with
  | None => ret tt
  | Some f =>
      do! fileclose kend f;
      upd_proc p (fun x => set_p_ofile (<[fd := None]> (p_ofile x)) x)
  end.

(** exit() from the acquisition of wait_lock on. *)
Definition exit_dead {A} (p : nat) (status : Z) : K A :=
  do! acquire LWait;
  do! reparent p;
  let! x := gets (proc_at p) in
  do! wakeup_proc (p_parent x);
  do! acquire (LProc p);
  do! upd_proc p (set_p_xstate status);
  do! upd_proc p (set_p_state ZOMBIE);
  do! release LWait;
  do! (sched : K unit);
  panic "zombie exit".

Definition exit {A} (status : Z) : K A :=
  let! p := curproc in
  let! init := gets k_initproc in
  if decide (init = Some p) then panic "init exiting" else
  do! for_each (seq 0 (Z.to_nat NOFILE)) (exit_file p);
  do! begin_op;
  let! x := gets (proc_at p) in
  do! iput_ptr (p_cwd x);
  do! end_op;
  do! upd_proc p (set_p_cwd None);
  exit_dead p status.

(** One entry of the scan of wait(): [inr r] returns [r], [inl] goes on with
    havekids. *)
Definition wait_slot (p : nat) (addr : Z) (pp : nat) (havekids : bool) : K (bool + Z) :=
  let! x := gets (proc_at pp) in
  if decide (p_parent x = Some p) then
    do! acquire (LProc pp);
    let! x := gets (proc_at pp) in
    if decide (p_state x = ZOMBIE) then
      let pid := p_pid x in
      let! pt := pagetable_of p in
      let! bad := (if truth addr then
                     let! r := copyout pt addr (le_bytes 4 (p_xstate x)) in ret (r <? 0)
                   else ret false) in
      if (bad : bool) then
        do! release (LProc pp);
        do! release LWait;
        ret (inr (-1))
      else
        do! freeproc pp;
        do! release (LProc pp);
        do! release LWait;
        ret (inr pid)
    else
      do! release (LProc pp);
      ret (inl true)
  else ret (inl havekids).

Fixpoint wait_scan (p : nat) (addr : Z) (l : list nat) (havekids : bool) : K (bool + Z) :=
  match l with
  | [] => ret (inl havekids)
  | pp :: l' =>
      let! r := wait_slot p addr pp havekids in
      match r with
      | inr v => ret (inr v)
      | inl h => wait_scan p addr l' h
      end
  end.

(** wait() from the head of its loop on, wait_lock held. *)
Definition wait_from (p : nat) (addr : Z) : K Z :=
  let! r := wait_scan p addr proc_indices false in
  match r with
  | inr v => ret v
  | inl havekids =>
      let! dead := (if havekids then killed p else ret 1) in
      if truth dead then
        do! release LWait;
        ret (-1)
      else sleep (ChProc p) LWait
  end.

Definition wait (addr : Z) : K Z :=
  let! p := curproc in
  do! acquire LWait;
  wait_from p addr.

End proc.
