(* ===== verification/Procmem.v ===== *)
(** * Procmem: the memory of a process (proc_pagetable(), freeproc() of kernel/proc.c)

    proc_pagetable() makes a page table with the trampoline and the trapframe and no user
    memory, or gives back what it took.  freeproc() gives back all the memory of a process:
    its trapframe, the pages of its page table and those of its user memory, each once. *)

From Stdlib Require Import ZArith Lia.
From stdpp Require Import base gmap list strings.
From S2P Require Import Prelude Bytes State Riscv Spinlock Sched Sleeplock Mem Kalloc Bio Log Vm Uvm Ucopy Pipe Printf Console Fs File Proc.

#[local] Opaque memset store64 load64.

Section procmem.
Variable kend : Z.
Hypothesis kend_pos : 0 < kend.

(** A valid leaf entry for the physical page [pa]. *)
Definition leaf_to (k : kstate) (t : tree) (v pa : Z) : Prop :=
  exists fl, leaf (k_mem k) t (v * PGSIZE) = mk_pte pa fl /\ pa_ok pa /\ 0 <= fl < 1024 /\ Z.testbit fl 0 = true /\ fl <> PTE_V.

(** uvmunmap() of one page, its memory kept. *)
Lemma unmap_one k l root t um v pa : aspace kend k l root t um -> um !! v = None -> 0 <= v < MAXVA / PGSIZE -> leaf_to k t v pa ->
  exists k', uvmunmap kend root (v * PGSIZE) 1 false k = Ret tt k' /\ aspace kend k' l root t um /\ mem_only k k' /\
    (forall va', 0 <= va' < MAXVA -> leaf (k_mem k') t va' = if decide (v = vpn va') then 0 else leaf (k_mem k) t va') /\
    forall d, foreign kend l t d -> kept k k' d.
Proof using kend_pos.
  intros Has Hum Hv (fl & Hleaf & Hpa & Hfl & Hbit & HnV). pose proof (as_inv _ _ _ _ _ _ Has) as Hvi. pose proof (MAXVA_pages v Hv) as Hva.
  assert (Z.testbit (leaf (k_mem k) t (v * PGSIZE)) 0 = true) as Hb by (rewrite Hleaf, mk_pte_bit by (done || lia); done).
  destruct (walk_read kend kend_pos k l root t (v * PGSIZE)) as (p & Hp & Hne & Hw & Hr); [done..|].
  pose proof (put_leaf kend k l root t (v * PGSIZE) p 0 Hvi Hp ltac:(lia)) as G.
  set (k2 := set_k_mem (store64 (k_mem k) (p + 8 * PX 0 (v * PGSIZE)) 0) k) in *. exists k2.
  assert (forall va', 0 <= va' < MAXVA -> leaf (k_mem k2) t va' = if decide (v = vpn va') then 0 else leaf (k_mem k) t va') as HL.
  { intros va' Hva'. unfold k2. cbn [k_mem set_k_mem]. rewrite leaf_store with (kend := kend) (root := root) by (done || lia || apply Hvi).
    by rewrite vpn_mul. }
  split_and!; [| |apply G|done|].
  - change MAXVA with 274877906944 in *. unfold uvmunmap. rewrite Z.mod_mul by done. cbn [Z.eqb negb].
    rewrite u64_small by (unfold PGSIZE in *; zlia). change (S (Z.to_nat 1)) with 2%nat.
    erewrite loop_next; [|unfold uvmunmap_body at 1].
    2: { destruct (Z.ltb_spec (v * PGSIZE) (v * PGSIZE + 1 * PGSIZE)); [|unfold PGSIZE in *; lia]. cbn [negb].
         erewrite bind_ret_run by exact Hw. destruct (Z.eqb_spec (p + 8 * PX 0 (v * PGSIZE)) 0); [lia|].
         erewrite bind_ret_run by exact Hr. rewrite !eqb0_truth, PTE_V_test, Hb. cbn [negb].
         rewrite Hleaf, PTE_FLAGS_mk by done. destruct (Z.eqb_spec fl PTE_V); [lia|].
         unfold wr64, modify. unfold bind, ret. reflexivity. }
    rewrite u64_small by (unfold PGSIZE in *; zlia).
    cbn [loop]. unfold uvmunmap_body, bind. destruct (Z.ltb_spec (v * PGSIZE + PGSIZE) (v * PGSIZE + 1 * PGSIZE)); [lia|]. done.
  - split; [apply G| |eapply as_flags; exact Has|eapply as_page; exact Has|eapply as_inj; exact Has].
    intros v' pa' fl' H'. destruct (as_leaf _ _ _ _ _ _ Has v' pa' fl' H') as [Hv' Hl']. split; [done|].
    rewrite HL by by apply MAXVA_pages. rewrite vpn_mul, decide_False; [done|congruence].
  - intros d (Hd1 & Hd2 & Hd3). by destruct (grows_data kend _ _ _ _ _ _ _ d G Hd1) as (_ & _ & H2k).
Qed.

(** ** The memory of a process *)

Definition trampoline_page : Z := MAXVA / PGSIZE - 1.
Definition trapframe_page : Z := MAXVA / PGSIZE - 2.

(** Page table [root] maps the pages of [um], which are those below [sz], the trampoline and
    the trapframe [tf], and nothing else. *)
Record proc_mem (k : kstate) (l : list Z) (root : Z) (t : tree) (um : gmap Z (Z * Z)) (sz tf : Z) : Prop := {
  pm_space : aspace kend k l root t um;
  pm_size : 0 <= sz <= TRAPFRAME;
  pm_pages : forall i, is_Some (um !! i) <-> 0 <= i < pages sz;
  pm_trampoline : exists pa, leaf_to k t trampoline_page pa;
  pm_trapframe : leaf_to k t trapframe_page tf;
  pm_only : forall va, 0 <= va < MAXVA -> Z.testbit (leaf (k_mem k) t va) 0 = true ->
    is_Some (um !! vpn va) \/ vpn va = trampoline_page \/ vpn va = trapframe_page }.

Lemma proc_mem_high k l root t um sz tf v : proc_mem k l root t um sz tf -> trapframe_page <= v -> um !! v = None.
Proof using.
  intros H Hv. destruct (um !! v) eqn:E; [|done]. destruct (proj1 (pm_pages _ _ _ _ _ _ _ H v) ltac:(rewrite E; eauto)) as [_ Hp].
  pose proof (pm_size _ _ _ _ _ _ _ H) as Hs. pose proof (pages_mono sz TRAPFRAME ltac:(lia)) as Hm.
  change (pages TRAPFRAME) with trapframe_page in Hm. lia.
Qed.

Lemma proc_freepagetable_run k l root t um sz tf : proc_mem k l root t um sz tf ->
  exists k' l', proc_freepagetable kend root sz k = Ret tt k' /\ mem_only k k' /\ kmem_ok kend k' l' /\
    (forall p, p ∈ l' <-> acct l t um p) /\ forall d, page_ok kend d -> ~ acct l t um d -> kept k k' d.
Proof using kend_pos.
  intros H. pose proof (pm_trampoline _ _ _ _ _ _ _ H) as [tr Htr]. pose proof (pm_trapframe _ _ _ _ _ _ _ H) as (fl & Hleaf & Hfl).
  destruct (unmap_one k l root t um trampoline_page tr (pm_space _ _ _ _ _ _ _ H)) as (k1 & R1 & A1 & M1 & L1 & K1);
    [eapply proc_mem_high; [exact H|done]|done|done|].
  destruct (unmap_one k1 l root t um trapframe_page tf A1) as (k2 & R2 & A2 & M2 & L2 & K2);
    [eapply proc_mem_high; [exact H|done]|done| |].
  { exists fl. rewrite L1 by done. rewrite vpn_mul, decide_False by done. done. }
  destruct (uvmfree_spec kend kend_pos k2 l root t um sz A2) as (k3 & l3 & R3 & M3 & F3 & E3 & K3).
  - pose proof (pm_size _ _ _ _ _ _ _ H). change TRAPFRAME with 274877898752 in *. change MAXVA with 274877906944. lia.
  - apply H.
  - intros va Hva Hb. rewrite L2, L1 in Hb by done. repeat case_decide; try (by rewrite Z.bits_0 in Hb).
    destruct (pm_only _ _ _ _ _ _ _ H va Hva Hb) as [?|[?|?]]; [done|congruence..].
  - exists k3, l3. split_and!; [|by eapply mem_only_trans; [eapply mem_only_trans|]|done|done|].
    + unfold proc_freepagetable. change TRAMPOLINE with (trampoline_page * PGSIZE). erewrite bind_ret_run by exact R1.
      change TRAPFRAME with (trapframe_page * PGSIZE). by erewrite bind_ret_run by exact R2.
    + intros d Hd Hn a Ha. pose proof (not_acct_foreign kend l t um d Hd Hn) as Hf.
      rewrite (K3 d Hd Hn a Ha), (K2 d Hf a Ha). exact (K1 d Hf a Ha).
Qed.

(** The slot of a process after freeproc(). *)
Definition unused (x : proc) : proc :=
  mkProc UNUSED None 0 0 0 None (p_kstack x) 0 0 0 (p_context x) (p_ofile x) (p_cwd x) (<[0%nat := 0]> (p_name x)).

Lemma upd_proc_run i f x ps k : (i < length ps)%nat ->
  upd_proc i f (set_k_procs (<[i := x]> ps) k) = Ret tt (set_k_procs (<[i := f x]> ps) k).
Proof using. intros H. unfold upd_proc, modify, proc_at. cbn. by rewrite list_lookup_insert_eq, list_insert_insert_eq. Qed.

(** What a page table needs of the state. *)
Lemma aspace_state k k' l root t um : aspace kend k l root t um -> k_mem k' = k_mem k -> k_freelist k' = k_freelist k ->
  cpu_ok k' -> lock_free k' LKmem -> aspace kend k' l root t um.
Proof using.
  intros [[V1 V2 [W1 W2 W3] V4 V5] A2 A3 A4 A5] Hm Hf Hc Hl.
  split; [split; [done|done|split|..]|..]; rewrite ?Hm, ?Hf; done.
Qed.

(** The memory of a process survives changes of the bytes of other pages. *)
Lemma proc_mem_keep k k' l root t um sz tf : proc_mem k l root t um sz tf -> vm_inv kend k' l root t -> same_leaf k t k' t ->
  proc_mem k' l root t um sz tf.
Proof using.
  intros [[A1 A2 A3 A4 A5] B2 B3 B4 B5 B6] Hv Hs.
  split; [split; [done|..]|..]; unfold leaf_to in *; try setoid_rewrite Hs; done.
Qed.

Lemma proc_mem_state k k' l root t um sz tf : proc_mem k l root t um sz tf -> k_mem k' = k_mem k -> k_freelist k' = k_freelist k ->
  cpu_ok k' -> lock_free k' LKmem -> proc_mem k' l root t um sz tf.
Proof using.
  intros H Hm Hf Hc Hl. eapply proc_mem_keep; [exact H| |intros va; by rewrite Hm].
  eapply as_inv, (aspace_state k k'); [apply H|done..].
Qed.

Lemma freeproc_run i k l root t um tf : (i < length (k_procs k))%nat -> p_pagetable (proc_at i k) = root -> p_trapframe (proc_at i k) = tf ->
  proc_mem k l root t um (p_sz (proc_at i k)) tf -> page_ok kend tf -> ~ acct l t um tf ->
  exists m f l', freeproc kend i k = Ret tt (set_k_procs (<[i := unused (proc_at i k)]> (k_procs k)) (set_k_mem m (set_k_freelist f k))) /\
    kmem_ok kend (set_k_mem m (set_k_freelist f k)) l' /\
    (forall p, p ∈ l' <-> p = tf \/ acct l t um p) /\
    forall d, page_ok kend d -> d <> tf -> ~ acct l t um d -> kept k (set_k_mem m (set_k_freelist f k)) d.
Proof using kend_pos.
  intros Hi Hpt Htf Hm Htp Hna. unfold freeproc. unfold gets at 1, bind at 1. rewrite Hpt, Htf.
  pose proof (page_pos kend kend_pos tf Htp) as Htf0. rewrite truth_true by lia.
  pose proof (pm_space _ _ _ _ _ _ _ Hm) as Has. pose proof (as_inv _ _ _ _ _ _ Has) as Hvi.
  destruct (kfree_keeps kend kend_pos k l root t tf Hvi (not_acct_foreign kend l t um tf Htp Hna)) as (k1 & R1 & V1 & L1 & M1 & K1).
  erewrite bind_ret_run by exact R1.
  unfold upd_proc at 1, modify at 1, bind at 1.
  assert (proc_mem k1 (tf :: l) root t um (p_sz (proc_at i k)) tf) as Hm1.
  { destruct Hm as [_ B2 B3 B4 B5 B6]. split; [|done..| | |].
    - by eapply aspace_after_free.
    - destruct B4 as (pa & fl & B4). exists pa, fl. by rewrite L1.
    - destruct B5 as (fl & B5). exists fl. by rewrite L1.
    - intros va Hva. rewrite L1. by apply B6. }
  destruct M1 as (m1 & f1 & ->).
  set (k2 := set_k_procs _ _).
  destruct (proc_freepagetable_run k2 (tf :: l) root t um (p_sz (proc_at i k)) tf) as (k3 & l3 & R3 & (m3 & f3 & ->) & F3 & E3 & K3).
  { by eapply proc_mem_state; [exact Hm1|..]; try apply V1. }
  assert (0 < root) as Hroot.
  { pose proof (vi_rep _ _ _ _ _ Hvi) as Hr. by eapply page_pos, (rep_pages _ _ _ _ Hr), (rep_root _ _ _ _ Hr). }
  rewrite truth_true by lia. erewrite bind_ret_run by exact R3. exists m3, f3, l3. split_and!.
  - change (set_k_mem m3 (set_k_freelist f3 k2)) with (set_k_procs (<[i := set_p_trapframe 0 (proc_at i k)]> (k_procs k)) (set_k_mem m3 (set_k_freelist f3 k))).
    do 8 (erewrite bind_ret_run by by apply upd_proc_run). rewrite upd_proc_run by done. by destruct (proc_at i k).
  - by destruct F3 as [W1 W2 W3].
  - intros p. rewrite E3. unfold acct. rewrite elem_of_cons. tauto.
  - intros d Hd Hne Hn a Ha. rewrite <- (K1 d Hd Hne a Ha). apply (K3 d Hd); [|done]. unfold acct in *. rewrite elem_of_cons. tauto.
Qed.

(** ** proc_pagetable() *)

Lemma acct_list l q : acct l ∅ ∅ q <-> q ∈ l.
Proof using.
  unfold acct, in_tree. split; [intros [H|[[path H]|(v & fl & H)]]; [done|by rewrite lookup_empty in H..]|by left].
Qed.

(** mappages() of one page that is not memory of the process. *)
Lemma map_leaf k l root t um v pa perm : aspace kend k l root t um -> um !! v = None -> 0 <= v < MAXVA / PGSIZE ->
  pa mod PGSIZE = 0 -> 0 <= pa -> pa + PGSIZE <= 2 ^ 56 -> 0 <= perm < 1024 -> Z.lor perm PTE_V <> PTE_V ->
  Z.testbit (leaf (k_mem k) t (v * PGSIZE)) 0 = false ->
  exists r k' l' t', mappages root (v * PGSIZE) PGSIZE pa perm k = Ret r k' /\ aspace kend k' l' root t' um /\
    moves kend k k' l l' t t' um um /\
    (forall va', 0 <= va' < MAXVA -> vpn va' <> v \/ r = -1 -> leaf (k_mem k') t' va' = leaf (k_mem k) t va') /\
    (r = 0 /\ leaf_to k' t' v pa \/ r = -1).
Proof using kend_pos.
  intros Has Hum Hv Hpa Hpa0 Hpa1 Hperm HneV Hinv. pose proof (MAXVA_pages v Hv) as Hva. pose proof (as_inv _ _ _ _ _ _ Has) as Hvi.
  destruct (mappages_loop kend kend_pos 1 root perm (v * PGSIZE) pa (u64 (v * PGSIZE + PGSIZE - PGSIZE)) k l t Hvi)
    as (r & k' & l' & t' & c & Hl & G & Hr & HL); try done; try lia.
  { by apply Z.mod_mul. }
  { change MAXVA with 274877906944 in *. unfold PGSIZE in *. zlia. }
  { change MAXVA with 274877906944 in *. rewrite u64_small by lia. lia. }
  { intros va' Hva'. rewrite (leaf_same _ _ va' (v * PGSIZE)); [done|lia..|]. rewrite vpn_mul. unfold vpn, PGSIZE in *. zlia. }
  exists r, k', l', t'.
  assert (forall va', 0 <= va' < MAXVA -> vpn va' <> v \/ r = -1 -> leaf (k_mem k') t' va' = leaf (k_mem k) t va') as HL'.
  { intros va' Hva' Hne. rewrite HL by done. rewrite decide_False; [done|]. unfold vpn, PGSIZE in *. zlia. }
  destruct (aspace_grows kend k k' l l' root t t' um Has G) as (Has' & Hmv & _).
  { intros x [q fl] Hx. apply HL'; [apply MAXVA_pages; by eapply as_leaf|]. left. rewrite vpn_mul. congruence. }
  split_and!; [|done..|].
  { unfold mappages. rewrite Z.mod_mul, Z.mod_same by done. exact Hl. }
  destruct Hr as [[-> ->]|(-> & _ & _)]; [left|by right]. split; [done|]. exists (Z.lor perm PTE_V).
  rewrite HL by done. rewrite decide_True by (unfold PGSIZE; lia).
  split; [unfold map_entry; f_equal; lia|]. split; [split; [done|unfold PGSIZE in *; lia]|]. split; [by apply flags_range|]. split; [|done].
  rewrite Z.lor_spec. apply orb_true_r.
Qed.

(** uvmcreate(): an empty address space, or no page is left. *)
Lemma uvmcreate_run k l : cpu_ok k -> lock_free k LKmem -> kmem_ok kend k l ->
  (l = [] /\ uvmcreate k = Ret 0 k) \/
  exists root l' k', l = root :: l' /\ uvmcreate k = Ret root k' /\ mem_only k k' /\ page_ok kend root /\ aspace kend k' l' root {[[] := root]} ∅ /\
    (forall va, leaf (k_mem k') {[[] := root]} va = 0) /\ forall d, page_ok kend d -> d <> root -> kept k k' d.
Proof using kend_pos.
  intros Hc Hl Hk. destruct l as [|root l]; [left; split; [done|]; unfold uvmcreate; by erewrite bind_ret_run by by apply (kalloc_none kend)|right].
  destruct (kalloc_spec kend kend_pos k root l Hc Hl Hk) as (m & f & R & Hk1 & Hm).
  pose proof Hk as [_ Hps Hnd]. inversion Hps as [|? ? Hr Hps']; subst. inversion Hnd as [|? ? Hnl _]; subst.
  pose proof (page_pos kend kend_pos root Hr) as Hr0.
  set (k' := set_k_mem (memset m root 0 PGSIZE) (set_k_freelist f k)).
  assert (forall a, in_page root a -> ld (k_mem k') a = 0) as Hz.
  { intros a Ha. unfold k'. cbn [k_mem set_k_mem]. rewrite memset_ld by done. by rewrite decide_True. }
  assert (forall a, ~ in_page root a -> ld (k_mem k') a = ld m a) as Hout.
  { intros a Ha. unfold k'. cbn [k_mem set_k_mem]. rewrite memset_ld by done. by rewrite decide_False. }
  exists root, l, k'. split_and!; [done| |by exists (memset m root 0 PGSIZE), f|done| | |].
  - unfold uvmcreate. erewrite bind_ret_run by exact R. by rewrite (proj2 (Z.eqb_neq root 0)) by lia.
  - split; [split; [done|done| |by apply rep_empty|]|..]; try (intros ??? H; by rewrite lookup_empty in H).
    + apply (kmem_ok_mem kend (set_k_mem m (set_k_freelist f k)) l (memset m root 0 PGSIZE)) in Hk1; [done|].
      intros p a Hp Ha. apply Hout. rewrite Forall_forall in Hps'. apply (pages_disjoint kend p root); auto. congruence.
    + intros path p [_ <-]%lookup_singleton_Some. done.
    + intros ????? H. by rewrite lookup_empty in H.
  - intros va. unfold leaf. by rewrite lookup_singleton_ne.
  - intros d Hd Hne a Ha. assert (~ in_page root a) by by apply (pages_disjoint kend d root). rewrite Hout by done. by apply Hm.
Qed.

Lemma acct_root l root q : acct l {[[] := root]} ∅ q <-> q ∈ root :: l.
Proof using.
  unfold acct, in_tree. rewrite elem_of_cons. split.
  - intros [H|[[path [_ <-]%lookup_singleton_Some]|(v & fl & H)]]; [by right|by left|by rewrite lookup_empty in H].
  - intros [->|H]; [right; left; exists []; apply lookup_singleton_eq|by left].
Qed.

(** uvmfree() of an address space without memory or mappings. *)
Lemma uvmfree_empty k l root t : aspace kend k l root t ∅ -> (forall va, 0 <= va < MAXVA -> leaf (k_mem k) t va = 0) ->
  exists k' l', uvmfree kend root 0 k = Ret tt k' /\ mem_only k k' /\ kmem_ok kend k' l' /\
    (forall q, q ∈ l' <-> acct l t ∅ q) /\ forall d, page_ok kend d -> ~ acct l t ∅ d -> kept k k' d.
Proof using kend_pos.
  intros Has Hz. apply uvmfree_spec; [done..|split; [done|change MAXVA with 274877906944; lia]| |].
  - intros i. rewrite lookup_empty. split; [by intros [? ?]|]. change (pages 0) with 0. lia.
  - intros va Hva Hb. by rewrite Hz, Z.bits_0 in Hb.
Qed.

Section pagetable.
Variables trampoline tf : Z.
Hypothesis Htramp : trampoline mod PGSIZE = 0 /\ 0 <= trampoline /\ trampoline + PGSIZE <= 2 ^ 56.
Hypothesis Htf : page_ok kend tf.

Lemma page_range : tf mod PGSIZE = 0 /\ 0 <= tf /\ tf + PGSIZE <= 2 ^ 56.
Proof using Htf kend_pos. destruct Htf as (H1 & H2 & H3). change PHYSTOP with 0x88000000 in H3. unfold PGSIZE in *. lia. Qed.

Lemma proc_pagetable_run p k l : cpu_ok k -> lock_free k LKmem -> kmem_ok kend k l -> p_trapframe (proc_at p k) = tf ->
  exists r k' l', proc_pagetable kend trampoline p k = Ret r k' /\ mem_only k k' /\ (forall d, page_ok kend d -> d ∉ l -> kept k k' d) /\
    (r = 0 /\ kmem_ok kend k' l' /\ (forall q, q ∈ l' <-> q ∈ l) \/
     exists t, r <> 0 /\ proc_mem k' l' r t ∅ 0 tf /\ forall q, acct l' t ∅ q <-> q ∈ l).
Proof using All.
  intros Hc Hlk Hk Hp. unfold proc_pagetable.
  destruct (uvmcreate_run k l Hc Hlk Hk) as [[-> R0]|(root & l1 & k1 & -> & R1 & M1 & Hr & A1 & L1 & K1)].
  { exists 0, k, []. erewrite bind_ret_run by exact R0. split_and!; [done|apply mem_only_refl|done|by left]. }
  erewrite bind_ret_run by exact R1. pose proof (page_pos kend kend_pos root Hr). rewrite (proj2 (Z.eqb_neq root 0)) by lia.
  change TRAMPOLINE with (trampoline_page * PGSIZE). change TRAPFRAME with (trapframe_page * PGSIZE).
  assert (forall d, page_ok kend d -> d ∉ root :: l1 -> kept k k1 d /\ ~ acct l1 {[[] := root]} ∅ d) as K1'.
  { intros d Hd Hn. rewrite acct_root. split; [|done]. apply K1; [done|]. intros ->. apply Hn. by left. }
  destruct (map_leaf k1 l1 root {[[] := root]} ∅ trampoline_page trampoline (Z.lor PTE_R PTE_X) A1)
    as (r2 & k2 & l2 & t2 & R2 & A2 & [C2 M2 O2] & L2 & C2'); [done|done|apply Htramp..|done|done|by rewrite L1|].
  erewrite bind_ret_run by exact R2. destruct C2' as [[-> T2]| ->].
  2: { change (-1 <? 0) with true. cbv iota. destruct (uvmfree_empty k2 l2 root t2 A2) as (k3 & l3 & R3 & M3 & F3 & E3 & K3).
       { intros va Hva. rewrite L2 by auto. apply L1. }
       exists 0, k3, l3. split_and!; [by erewrite bind_ret_run by exact R3|by do 2 (eapply mem_only_trans; [eassumption|])| |left; split_and!; [done..|]].
       - intros d Hd [Hd1 Hd2]%K1'; [|done]. intros a Ha. rewrite (K3 d Hd); [|by rewrite C2|done]. rewrite (O2 d Hd Hd2 a Ha). by apply Hd1.
       - intros q. by rewrite E3, C2, acct_root. }
  change (0 <? 0) with false. cbv iota. unfold gets at 1, bind at 1.
  assert (p_trapframe (proc_at p k2) = tf) as -> by (by destruct M1 as (? & ? & ->), M2 as (? & ? & ->)).
  destruct (map_leaf k2 l2 root t2 ∅ trapframe_page tf (Z.lor PTE_R PTE_W) A2)
    as (r3 & k3 & l3 & t3 & R3 & A3 & [C3 M3 O3] & L3 & C3'); [done|done|apply page_range..|done|done|rewrite L2; [by rewrite L1|done|left; by rewrite vpn_mul]|].
  erewrite bind_ret_run by exact R3.
  assert (forall d, page_ok kend d -> d ∉ root :: l1 -> kept k k3 d /\ ~ acct l3 t3 ∅ d) as K3.
  { intros d Hd [Hd1 Hd2]%K1'; [|done]. rewrite C3, C2. split; [|done]. intros a Ha.
    rewrite (O3 d Hd ltac:(by rewrite C2) a Ha), (O2 d Hd Hd2 a Ha). by apply Hd1. }
  assert (mem_only k k3) as M13 by (by do 2 (eapply mem_only_trans; [eassumption|])).
  assert (forall va, 0 <= va < MAXVA -> vpn va <> trampoline_page -> leaf (k_mem k2) t2 va = 0) as Z2 by (intros va Hva Hne; rewrite L2 by auto; apply L1).
  assert (leaf_to k3 t3 trampoline_page trampoline) as T3.
  { destruct T2 as (fl & E & T2). exists fl. rewrite L3, E; [done|done|]. left. by rewrite vpn_mul. }
  destruct C3' as [[-> T3']| ->]; [|change (-1 <? 0) with true; cbv iota].
  - exists root, k3, l3. split_and!; [done..|by intros d Hd Hn; apply K3|]. right. exists t3. split; [lia|]. split.
    + split; [done| | |by exists trampoline|done|].
      * change TRAPFRAME with 274877898752. lia.
      * intros i. rewrite lookup_empty. split; [by intros [? ?]|]. change (pages 0) with 0. lia.
      * intros va Hva Hb. right. destruct (decide (vpn va = trampoline_page)); [by left|right].
        destruct (decide (vpn va = trapframe_page)); [done|]. by rewrite L3, Z2, Z.bits_0 in Hb by auto.
    + intros q. by rewrite C3, C2, acct_root.
  - destruct (unmap_one k3 l3 root t3 ∅ trampoline_page trampoline A3) as (k4 & R4 & A4 & M4 & L4 & K4); [done|done|done|].
    erewrite bind_ret_run by exact R4. destruct (uvmfree_empty k4 l3 root t3 A4) as (k5 & l5 & R5 & M5 & F5 & E5 & K5).
    { intros va Hva. rewrite L4 by done. case_decide; [done|]. rewrite L3, Z2; auto. }
    erewrite bind_ret_run by exact R5. exists 0, k5, l5. split_and!; [done|by do 2 (eapply mem_only_trans; [eassumption|])| |left; split_and!; [done..|]].
    + intros d Hd [Hd1 Hd2]%K3; [|done]. intros a Ha. rewrite (K5 d Hd Hd2 a Ha).
      rewrite (K4 d (not_acct_foreign kend l3 t3 ∅ d Hd Hd2) a Ha). by apply Hd1.
    + intros q. by rewrite E5, C3, C2, acct_root.
Qed.
End pagetable.
End procmem.
