(* ===== verification/Reap.v ===== *)
(** * Reap: the end of a process (exit() and wait() of kernel/proc.c)

    The last part of exit() hands the children of the process to init, wakes its parent and
    leaves a zombie.  wait() frees the first child that is a zombie, hands over its status
    and returns its process id; with children that live it sleeps, and without children it
    returns -1. *)

From Stdlib Require Import ZArith Lia.
From stdpp Require Import base gmap list strings.
From S2P Require Import Prelude Bytes State Riscv Spinlock Sched Sleeplock Mem Kalloc Bio Log Vm Uvm Ucopy Pipe Printf Console Fs File Proc Procmem.

#[local] Opaque memset store64 load64.

Section reap.
Variable kend : Z.
Hypothesis kend_pos : 0 < kend.

(** ** The scan of wait() *)

Definition child (p : nat) (k : kstate) (i : nat) : bool := bool_decide (p_parent (proc_at i k) = Some p).
Definition zombie (p : nat) (k : kstate) (i : nat) : bool := child p k i && bool_decide (p_state (proc_at i k) = ZOMBIE).

(** The caller of wait() or exit(): process [p], no locks held, wait_lock free. *)
Record waiting (p : nat) (k : kstate) : Prop := { w_thread : thread_ok p k; w_lock : lock_free k LWait }.

Lemma wait_plock p k i : waiting p k -> (i < Z.to_nat NPROC)%nat -> lock_free (enter LWait k) (LProc i).
Proof using. intros Hw Hi. apply enter_lock_free; [done|]. by apply (th_plocks _ _ (w_thread _ _ Hw)). Qed.

Lemma wait_cpu p k : waiting p k -> cpu_ok (enter LWait k).
Proof using. intros Hw. apply enter_cpu_ok, Hw. Qed.

Lemma wait_skip p addr k l h : waiting p k -> Forall (fun i => (i < Z.to_nat NPROC)%nat /\ zombie p k i = false) l ->
  forall l', wait_scan kend p addr (l ++ l') h (enter LWait k) = wait_scan kend p addr l' (h || existsb (child p k) l) (enter LWait k).
Proof using.
  intros Hw Hl l'. revert h. induction Hl as [|i l [Hi Hz] _ IH]; intros h; [cbn; by rewrite orb_false_r|].
  cbn [app wait_scan existsb]. unfold wait_slot, gets at 1. rewrite bind_assoc. unfold bind at 1.
  change (proc_at i (enter LWait k)) with (proc_at i k). unfold zombie, child in Hz. unfold child at 1.
  destruct (decide (p_parent (proc_at i k) = Some p)) as [Hc|Hc].
  - rewrite bool_decide_true by done. rewrite bool_decide_true in Hz by done. apply bool_decide_eq_false in Hz.
    rewrite !bind_assoc. erewrite bind_ret_run by by apply acquire_run, (wait_plock p).
    unfold gets at 1. rewrite bind_assoc. unfold bind at 1. change (proc_at i (enter _ (enter LWait k))) with (proc_at i k).
    rewrite decide_False by done. rewrite bind_assoc.
    erewrite bind_ret_run by by apply (release_run _ (enter LWait k)); [eapply wait_plock|eapply wait_cpu|].
    rewrite restore_enter. unfold ret at 1, bind at 1. rewrite IH. by rewrite orb_true_r.
  - rewrite bool_decide_false by done. unfold ret at 1, bind at 1. by rewrite IH.
Qed.

Lemma wait_none_dead p addr k : waiting p k -> List.find (zombie p k) proc_indices = None ->
  wait kend addr k = if existsb (child p k) proc_indices && (p_killed (proc_at p k) =? 0)
    then Swtch (set_k_procs (<[p := asleep (ChProc p) (proc_at p k)]> (k_procs k)) (enter (LProc p) k))
    else Ret (-1) k.
Proof using.
  intros Hw Hf. unfold wait. erewrite bind_ret_run by (apply curproc_run; apply (w_thread _ _ Hw)).
  erewrite bind_ret_run by apply acquire_run, Hw. unfold wait_from.
  erewrite bind_ret_run.
  2: { rewrite <- (app_nil_r proc_indices), wait_skip; [reflexivity|done|]. apply List.Forall_forall. intros i Hi. split.
       - apply in_seq in Hi. lia.
       - by apply (List.find_none _ _ Hf). }
  cbn [orb]. destruct (existsb (child p k) proc_indices) eqn:E; cbn [andb].
  - erewrite bind_ret_run by (apply killed_run; [by eapply wait_cpu|apply (wait_plock p k p Hw), Hw]).
    change (proc_at p (enter LWait k)) with (proc_at p k). unfold truth. destruct (Z.eqb_spec (p_killed (proc_at p k)) 0); cbn [negb].
    + rewrite (sleep_run (ChProc p) LWait p k); [by destruct k|apply Hw..|done|apply Hw|apply (th_plocks _ _ (w_thread _ _ Hw)), Hw|done|].
      cbn. rewrite (th_procs _ _ (w_thread _ _ Hw)). apply Hw.
    + erewrite bind_ret_run by (apply (release_run _ k); [apply Hw..|done]). by rewrite restore_enter.
  - unfold ret at 1, bind at 1. change (truth 1) with true. cbv iota.
    erewrite bind_ret_run by (apply (release_run _ k); [apply Hw..|done]). by rewrite restore_enter.
Qed.

(** ** The zombie *)

(** Process [p] and its dead child [i], whose memories are apart. *)
Record family (p i : nat) (k : kstate) (l : list Z) (t : tree) (um : gmap Z (Z * Z)) (tp : tree) (ump : gmap Z (Z * Z)) : Prop := {
  fam_child : proc_mem kend k l (p_pagetable (proc_at i k)) t um (p_sz (proc_at i k)) (p_trapframe (proc_at i k));
  fam_frame : page_ok kend (p_trapframe (proc_at i k)) /\ ~ acct l t um (p_trapframe (proc_at i k));
  fam_parent : uspace kend k l (p_pagetable (proc_at p k)) tp ump;
  fam_apart : forall q, page_of tp ump q -> ~ page_of t um q /\ q <> p_trapframe (proc_at i k) }.

(** The copy of the status to the parent, which leaves the child alone. *)
Lemma deliver_run p i k l t um tp ump addr x : family p i k l t um tp ump -> 0 <= addr < 2 ^ 64 ->
  exists bad k' n, (if truth addr then let! r := copyout (p_pagetable (proc_at p k)) addr (le_bytes 4 x) in ret (r <? 0) else ret false) k
      = Ret bad k' /\ mem_only k k' /\ family p i k' l t um tp ump /\
    (bad = false /\ n = (if addr =? 0 then 0%nat else 4%nat) \/
     bad = true /\ addr <> 0 /\ (n < 4)%nat /\ (MAXVA <= addr + Z.of_nat n \/ writable ump (addr + Z.of_nat n) = false)) /\
    forall va, uread k' ump va = if decide (addr <= va < addr + Z.of_nat n) then le_bytes 4 x !! Z.to_nat (va - addr) else uread k ump va.
Proof using kend_pos.
  intros [F1 F2 F3 F4] Ha. unfold truth. destruct (Z.eqb_spec addr 0) as [->|Hne]; cbn [negb].
  { exists false, k, 0%nat. split_and!; [done|apply mem_only_refl|done|by left|]. intros va. by rewrite decide_False by lia. }
  destruct (copyout_loop kend kend_pos 5 k l (p_pagetable (proc_at p k)) tp ump addr (le_bytes 4 x) F3 Ha) as (r & k' & n & R & U & M & K & C & Q).
  { apply le_bytes_bytes. }
  { rewrite length_le_bytes. lia. }
  rewrite length_le_bytes in C. exists (r <? 0), k', n. split_and!; [|done| | |done].
  - erewrite bind_ret_run; [reflexivity|]. unfold copyout. by rewrite length_le_bytes.
  - assert (forall j, proc_at j k' = proc_at j k) as Hp by (by destruct M as (m & f & ->)).
    pose proof (pm_space _ _ _ _ _ _ _ _ F1) as Has. pose proof (as_inv _ _ _ _ _ _ Has) as Hvi.
    destruct (vm_inv_keep kend k k' l l (p_pagetable (proc_at i k)) t Hvi M) as [Hvi' Hs].
    { apply (vi_free _ _ _ _ _ (as_inv _ _ _ _ _ _ (us_space _ _ _ _ _ _ U))). }
    { intros path q Hq. split; [by eapply vi_used|]. apply K; [by eapply rep_pages; [apply Hvi|]|].
      intros [Hin|Hin]; [by eapply vi_used|]. destruct (F4 q Hin) as [Hno _]. apply Hno. left. by exists path. }
    split; rewrite ?Hp; [by eapply proc_mem_keep|done..].
  - destruct C as [[-> ->]|(-> & Hn & C)]; [left|right]; by split_and!.
Qed.

Lemma unlock_both {A} p i k ps m f (r : A) : waiting p k -> (i < Z.to_nat NPROC)%nat ->
  (do! release (LProc i); do! release LWait; ret r) (set_k_procs ps (set_k_mem m (set_k_freelist f (enter (LProc i) (enter LWait k)))))
    = Ret r (set_k_procs ps (set_k_mem m (set_k_freelist f k))).
Proof using.
  intros Hw Hi. erewrite bind_ret_run by (apply (release_run _ (enter LWait k)); [by eapply wait_plock|by eapply wait_cpu|done]).
  erewrite bind_ret_run by (apply (release_run _ k); [apply Hw..|done]). by destruct k.
Qed.

(** The scan at the zombie: its memory is freed and both locks are given back, or the status
    cannot be delivered and the zombie is kept. *)
Lemma reap_run p i addr h k l t um tp ump : waiting p k -> (i < Z.to_nat NPROC)%nat -> zombie p k i = true ->
  family p i k l t um tp ump -> 0 <= addr < 2 ^ 64 ->
  exists r ps m f l' n, let k' := set_k_procs ps (set_k_mem m (set_k_freelist f k)) in
    wait_slot kend p addr i h (enter LWait k) = Ret (inr r) k' /\ kmem_ok kend k' l' /\
    (r = p_pid (proc_at i k) /\ n = (if addr =? 0 then 0%nat else 4%nat) /\ ps = <[i := unused (proc_at i k)]> (k_procs k) /\
       (forall q, q ∈ l' <-> q = p_trapframe (proc_at i k) \/ acct l t um q) \/
     r = -1 /\ addr <> 0 /\ (n < 4)%nat /\ (MAXVA <= addr + Z.of_nat n \/ writable ump (addr + Z.of_nat n) = false) /\
       ps = k_procs k /\ l' = l) /\
    forall va, uread k' ump va = if decide (addr <= va < addr + Z.of_nat n)
      then le_bytes 4 (p_xstate (proc_at i k)) !! Z.to_nat (va - addr) else uread k ump va.
Proof using kend_pos.
  intros Hw Hi [Hc Hz]%andb_true_iff Hfam Ha. apply bool_decide_eq_true in Hc, Hz.
  set (k0 := enter (LProc i) (enter LWait k)).
  assert (family p i k0 l t um tp ump) as Hfam0.
  { destruct Hfam as [F1 F2 F3 F4]. pose proof (as_inv _ _ _ _ _ _ (us_space _ _ _ _ _ _ F3)) as Hvi.
    assert (cpu_ok k0) by by eapply enter_cpu_ok, wait_cpu. assert (lock_free k0 LKmem) by by repeat apply enter_lock_free; [..|apply Hvi].
    split; [by eapply proc_mem_state|done|by eapply uspace_ext|done]. }
  destruct (deliver_run p i k0 l t um tp ump addr (p_xstate (proc_at i k)) Hfam0 Ha) as (bad & k1 & n & R1 & (m1 & f1 & ->) & Hfam1 & C & Q).
  assert (wait_slot kend p addr i h (enter LWait k) =
    (if bad then do! release (LProc i); do! release LWait; ret (inr (-1))
     else do! freeproc kend i; do! release (LProc i); do! release LWait; ret (inr (p_pid (proc_at i k))))
      (set_k_mem m1 (set_k_freelist f1 k0))) as ->.
  { unfold wait_slot. unfold gets at 1, bind at 1. change (proc_at i (enter LWait k)) with (proc_at i k). rewrite decide_True by done.
    erewrite bind_ret_run by by apply acquire_run, (wait_plock p). fold k0. unfold gets at 1, bind at 1.
    change (proc_at i k0) with (proc_at i k). rewrite decide_True by done.
    unfold pagetable_of, gets at 1, bind at 1. by erewrite bind_ret_run by exact R1. }
  destruct C as [[-> Hn]|(-> & Hne & Hn & C)].
  - pose proof Hfam1 as [F1 [F2 F2'] F3 F4].
    destruct (freeproc_run kend kend_pos i (set_k_mem m1 (set_k_freelist f1 k0)) l _ t um _ ltac:(cbn; rewrite (th_procs _ _ (w_thread _ _ Hw)); done) eq_refl eq_refl F1 F2 F2')
      as (m & f & l' & R & Fl & El & Kl).
    exists (p_pid (proc_at i k)), (<[i := unused (proc_at i k)]> (k_procs k)), m, f, l', n. split_and!.
    + erewrite bind_ret_run by exact R. exact (unlock_both p i k (<[i := unused (proc_at i k)]> (k_procs k)) m f (inr (p_pid (proc_at i k))) Hw Hi).
    + by destruct Fl.
    + by left.
    + intros va. refine (eq_trans _ (Q va)). unfold uread. destruct (ump !! vpn va) as [[pa fl]|] eqn:E; [|done]. f_equal.
      pose proof (as_page _ _ _ _ _ _ (us_space _ _ _ _ _ _ F3) _ _ _ E) as (P1 & P2 & P3).
      assert (page_of tp ump pa) as [Hno Hnt]%F4 by (right; eauto).
      apply (Kl pa P1); [done| |unfold in_page, PGSIZE; zlia]. intros [?|?]; [done|by apply Hno].
  - exists (-1), (k_procs k), m1, f1, l, n. split_and!.
    + rewrite <- (unlock_both p i k (k_procs k) m1 f1) by done. by destruct k.
    + by destruct (vi_free _ _ _ _ _ (as_inv _ _ _ _ _ _ (us_space _ _ _ _ _ _ (fam_parent _ _ _ _ _ _ _ _ Hfam1)))).
    + by right.
    + exact Q.
Qed.

(** ** exit() *)

(** The table after the first [n] steps of reparent(): the children of [p] have init [q] as their
    parent, and if there is one init is awake. *)
Definition adopt (p q : nat) (n : nat) (k : kstate) : list proc :=
  imap (fun j x =>
    let x := if decide ((j < n)%nat /\ p_parent x = Some p) then set_p_parent (Some q) x else x in
    if existsb (child p k) (seq 0 n) then wake_at (c_proc (k_cpu k)) (ChProc q) j x else x) (k_procs k).

Lemma wake_at_parent me ch j x : p_parent (wake_at me ch j x) = p_parent x.
Proof using. unfold wake_at, wake. by repeat case_decide. Qed.

Lemma adopt_lookup p q n k j : adopt p q n k !! j = (fun x =>
    let x := if decide ((j < n)%nat /\ p_parent x = Some p) then set_p_parent (Some q) x else x in
    if existsb (child p k) (seq 0 n) then wake_at (c_proc (k_cpu k)) (ChProc q) j x else x) <$> k_procs k !! j.
Proof using. unfold adopt. by rewrite list_lookup_imap. Qed.

Lemma adopt_parent p q n k j : (n <= j)%nat -> (j < length (k_procs k))%nat ->
  p_parent (default zero_proc (adopt p q n k !! j)) = p_parent (proc_at j k).
Proof using.
  intros Hn Hj. rewrite adopt_lookup. unfold proc_at. destruct (lookup_lt_is_Some_2 _ _ Hj) as [x ->]. cbn.
  rewrite decide_False by lia. destruct (existsb _ _); [apply wake_at_parent|done].
Qed.

Lemma wake_twice me ch j x : wake_at me ch j (wake_at me ch j x) = wake_at me ch j x.
Proof using. unfold wake_at, wake. by repeat (case_decide; try done). Qed.

Lemma wake_set_parent me ch j v x : wake_at me ch j (set_p_parent v x) = set_p_parent v (wake_at me ch j x).
Proof using. unfold wake_at, wake. by repeat case_decide. Qed.

Lemma adopt_step p q n k : (n < length (k_procs k))%nat -> adopt p q (S n) k =
  if decide (p_parent (proc_at n k) = Some p)
  then imap (wake_at (c_proc (k_cpu k)) (ChProc q)) (<[n := set_p_parent (Some q) (default zero_proc (adopt p q n k !! n))]> (adopt p q n k))
  else adopt p q n k.
Proof using.
  intros Hn. destruct (lookup_lt_is_Some_2 _ _ Hn) as [y Hy]. assert (proc_at n k = y) as Hp by (unfold proc_at; by rewrite Hy).
  assert (existsb (child p k) (seq 0 (S n)) = existsb (child p k) (seq 0 n) || child p k n) as Hb.
  { rewrite seq_S, existsb_app. cbn. by rewrite orb_false_r. }
  apply list_eq. intros j. rewrite adopt_lookup, Hb. clear Hb. unfold child at 2. rewrite Hp.
  assert (forall x, j <> n -> (if decide ((j < S n)%nat /\ p_parent x = Some p) then set_p_parent (Some q) x else x) =
    if decide ((j < n)%nat /\ p_parent x = Some p) then set_p_parent (Some q) x else x) as Hd.
  { intros x Hne. assert ((j < S n)%nat <-> (j < n)%nat) by lia. repeat case_decide; tauto. }
  destruct (decide (p_parent y = Some p)) as [Hc|Hc].
  - rewrite bool_decide_true, orb_true_r, list_lookup_imap by done. destruct (decide (j = n)) as [->|Hne].
    + rewrite list_lookup_insert_eq, adopt_lookup, Hy by (unfold adopt; by rewrite length_imap). cbn.
      rewrite decide_True by (split; [lia|done]). rewrite decide_False by (intros [? _]; lia). destruct (existsb _ _); [|done]. by rewrite !wake_set_parent, wake_twice.
    + rewrite list_lookup_insert_ne, adopt_lookup by done. destruct (k_procs k !! j) as [x|]; [|done]. cbn. rewrite Hd by done.
      destruct (existsb _ _); [by rewrite wake_twice|done].
  - rewrite bool_decide_false, orb_false_r, adopt_lookup by done. destruct (decide (j = n)) as [->|Hne].
    + rewrite Hy. cbn. rewrite !decide_False by (intros [? ?]; done || lia). done.
    + destruct (k_procs k !! j) as [x|]; [|done]. cbn. by rewrite Hd.
Qed.

Lemma adopt_0 p q k : adopt p q 0 k = k_procs k.
Proof using. apply list_eq. intros j. rewrite adopt_lookup. cbn. destruct (k_procs k !! j) as [x|]; [|done]. cbn. by rewrite decide_False by lia. Qed.

Lemma wakeup_in p ch ps k : waiting p k -> length ps = length (k_procs k) ->
  wakeup ch (set_k_procs ps (enter LWait k)) = Ret tt (set_k_procs (imap (wake_at (c_proc (k_cpu k)) ch) ps) (enter LWait k)).
Proof using.
  intros Hw Hl. rewrite wakeup_run; [done|by eapply wait_cpu|unfold procs_ok; cbn; by rewrite Hl, (th_procs _ _ (w_thread _ _ Hw))|].
  intros i Hi _. by apply (wait_plock p).
Qed.

Lemma reparent_loop p q n k : waiting p k -> k_initproc k = Some q -> (n <= Z.to_nat NPROC)%nat ->
  for_each (seq 0 n) (reparent_slot p) (enter LWait k) = Ret tt (set_k_procs (adopt p q n k) (enter LWait k)).
Proof using.
  intros Hw Hq. pose proof (th_procs _ _ (w_thread _ _ Hw)) as Ht. unfold procs_ok in Ht. induction n as [|n IH]; intros Hn.
  - rewrite adopt_0. by destruct k.
  - rewrite seq_S, for_each_app. erewrite bind_ret_run by (apply IH; lia). cbn [Nat.add for_each].
    rewrite adopt_step by lia. unfold reparent_slot. unfold gets at 1. rewrite bind_assoc. unfold bind at 1.
    change (proc_at n (set_k_procs (adopt p q n k) (enter LWait k))) with (default zero_proc (adopt p q n k !! n)).
    rewrite (adopt_parent p q n k n) by lia.
    destruct (decide (p_parent (proc_at n k) = Some p)); [|done].
    unfold gets, upd_proc, modify. rewrite !bind_assoc. unfold bind at 1. rewrite bind_assoc. unfold bind at 1.
    cbn [k_initproc enter set_k_procs set_k_locks pushed set_k_cpu set_k_hart]. rewrite Hq. cbn [wakeup_proc].
    erewrite bind_ret_run; [reflexivity|]. apply (wakeup_in p); [done|]. by rewrite length_insert; unfold adopt; rewrite length_imap.
Qed.

(** What another process becomes when [p], a child of [r], exits: a child of init if it was one of
    [p], and awake if it waits for a child and is the parent, or init with new children. *)
Definition bereaved (p q r : nat) (k : kstate) (x : proc) : proc :=
  let y := if decide (p_parent x = Some p) then set_p_parent (Some q) x else x in
  if decide (p_state x = SLEEPING /\ (p_chan x = Some (ChProc r) \/ existsb (child p k) proc_indices = true /\ p_chan x = Some (ChProc q)))
  then set_p_state RUNNABLE y else y.

Lemma bereaved_parent p q r k x : p_parent (bereaved p q r k x) = if decide (p_parent x = Some p) then Some q else p_parent x.
Proof using. unfold bereaved. by repeat case_decide. Qed.

Definition departed (status : Z) (x : proc) : proc := set_p_state ZOMBIE (set_p_xstate status x).

Lemma adopt_wake_other p q r k j x : waiting p k -> k_procs k !! j = Some x -> j <> p ->
  imap (wake_at (c_proc (k_cpu k)) (ChProc r)) (adopt p q (Z.to_nat NPROC) k) !! j = Some (bereaved p q r k x).
Proof using.
  intros Hw Hx Hne. rewrite list_lookup_imap, adopt_lookup, Hx. cbn [fmap option_fmap option_map].
  pose proof (lookup_lt_Some _ _ _ Hx) as Hj. rewrite (th_procs _ _ (w_thread _ _ Hw)) in Hj. rewrite (th_proc _ _ (w_thread _ _ Hw)).
  change (seq 0 (Z.to_nat NPROC)) with proc_indices. unfold bereaved, wake_at, wake. f_equal.
  rewrite (decide_ext ((j < Z.to_nat NPROC)%nat /\ p_parent x = Some p) (p_parent x = Some p)) by tauto.
  destruct (existsb (child p k) proc_indices); destruct (decide (p_parent x = Some p)); rewrite ?(decide_False (P := Some p = Some j)) by congruence;
    repeat case_decide; cbn in *; try done; intuition congruence.
Qed.

Lemma adopt_wake_self p q r k x : waiting p k -> k_procs k !! p = Some x -> p_parent x <> Some p ->
  imap (wake_at (c_proc (k_cpu k)) (ChProc r)) (adopt p q (Z.to_nat NPROC) k) !! p = Some x.
Proof using.
  intros Hw Hx Hp. rewrite list_lookup_imap, adopt_lookup, Hx. cbn [fmap option_fmap option_map].
  rewrite (th_proc _ _ (w_thread _ _ Hw)). unfold wake_at. rewrite !decide_True by done. rewrite decide_False by tauto. by destruct (existsb _ _).
Qed.

Lemma exit_dead_run {A} p q r status k : waiting p k -> k_initproc k = Some q -> p_parent (proc_at p k) = Some r -> r <> p ->
  @exit_dead A p status k = Swtch (set_k_procs
    (<[p := departed status (proc_at p k)]> (imap (wake_at (c_proc (k_cpu k)) (ChProc r)) (adopt p q (Z.to_nat NPROC) k)))
    (enter (LProc p) k)).
Proof using.
  intros Hw Hq Hr Hne. pose proof (th_procs _ _ (w_thread _ _ Hw)) as Ht. unfold procs_ok in Ht. pose proof (th_lt _ _ (w_thread _ _ Hw)) as Hp.
  destruct (lookup_lt_is_Some_2 (k_procs k) p) as [x Hx]; [lia|]. assert (proc_at p k = x) as Hpx by (unfold proc_at; by rewrite Hx).
  unfold exit_dead. erewrite bind_ret_run by apply acquire_run, Hw. unfold reparent, proc_indices.
  erewrite bind_ret_run by by apply (reparent_loop p q). unfold gets at 1, bind at 1.
  set (ps := adopt p q (Z.to_nat NPROC) k). assert (length ps = length (k_procs k)) as Hl by apply length_imap.
  assert (p_parent (proc_at p (set_k_procs ps (enter LWait k))) = Some r) as ->.
  { unfold proc_at. cbn [k_procs set_k_procs]. unfold ps. rewrite adopt_lookup, Hx. cbn. rewrite decide_False by (intros [_ H0]; congruence).
    rewrite <- Hr, Hpx. destruct (existsb _ _); [apply wake_at_parent|done]. }
  cbn [wakeup_proc]. erewrite bind_ret_run by by apply (wakeup_in p).
  pose proof (adopt_wake_self p q r k x Hw Hx) as Hself. fold ps in Hself. set (ps2 := imap _ ps) in *.
  assert (p < length ps2)%nat as Hl2 by (unfold ps2; rewrite length_imap; lia).
  erewrite bind_ret_run by (apply acquire_run; by apply (wait_plock p)).
  unfold upd_proc at 1, modify at 1, bind at 1.
  assert (proc_at p (enter (LProc p) (set_k_procs ps2 (enter LWait k))) = x) as ->.
  { unfold proc_at. cbn [k_procs enter set_k_locks pushed set_k_cpu set_k_hart set_k_procs]. rewrite Hself; [done|]. rewrite <- Hpx, Hr. congruence. }
  change (set_k_procs _ _) with (set_k_procs (<[p := set_p_xstate status x]> ps2) (enter (LProc p) (enter LWait k))) at 1.
  erewrite bind_ret_run by by apply upd_proc_run. rewrite Hpx. fold (departed status x).
  set (ps3 := <[p := departed status x]> ps2). rewrite enter_comm by done.
  erewrite bind_ret_run by (apply (release_run _ (enter (LProc p) k)); [by apply enter_lock_free; [|apply Hw]|apply enter_cpu_ok, Hw|done]).
  assert (restore (enter (LProc p) k) (set_k_procs ps3 (enter LWait (enter (LProc p) k))) = set_k_procs ps3 (enter (LProc p) k)) as -> by by destruct k.
  unfold bind. rewrite (sched_run p); [done|apply (enter_cpu_ok (LProc p) k), Hw|apply Hw|..].
  - unfold lk_of. cbn. by rewrite lookup_insert_eq.
  - unfold lk_of. cbn. by rewrite lookup_insert_eq.
  - cbn. by rewrite (th_noff _ _ (w_thread _ _ Hw)).
  - unfold proc_at. cbn [k_procs set_k_procs]. unfold ps3. by rewrite list_lookup_insert_eq.
Qed.

Lemma find_split {A} (f : A -> bool) l x : List.find f l = Some x ->
  exists l1 l2, l = l1 ++ x :: l2 /\ f x = true /\ Forall (fun y => f y = false) l1.
Proof using.
  induction l as [|y l IH]; [done|]. cbn. destruct (f y) eqn:E.
  - intros [= ->]. exists [], l. by split_and!.
  - intros (l1 & l2 & -> & Hx & Hl)%IH. exists (y :: l1), l2. split_and!; [done..|by constructor].
Qed.

(** ** Theorems *)

(** C7 (wait_spec): wait(addr), for every process table.  With a child that is a zombie it
    takes the first, writes the 4 bytes of its exit status at addr (if that is not null) and nowhere
    else in the memory of the parent, frees the slot and returns the process id; the trapframe,
    the page tables and the pages of the child are on the free list, each once, with all that
    was there.  If addr cannot be written it returns -1 and the zombie is still there.  With
    children but no zombie it sleeps until one exits, or returns -1 if the process has been
    killed; without children it returns -1 and nothing has changed. *)
Theorem wait_spec p addr k : waiting p k ->
  match List.find (zombie p k) proc_indices with
  | None =>
      wait kend addr k = if existsb (child p k) proc_indices && (p_killed (proc_at p k) =? 0)
        then Swtch (set_k_procs (<[p := asleep (ChProc p) (proc_at p k)]> (k_procs k)) (enter (LProc p) k))
        else Ret (-1) k
  | Some i => forall l t um tp ump, family p i k l t um tp ump -> 0 <= addr < 2 ^ 64 ->
      exists r ps m f l' n, let k' := set_k_procs ps (set_k_mem m (set_k_freelist f k)) in
        wait kend addr k = Ret r k' /\ kmem_ok kend k' l' /\
        (r = p_pid (proc_at i k) /\ n = (if addr =? 0 then 0%nat else 4%nat) /\ ps = <[i := unused (proc_at i k)]> (k_procs k) /\
           (forall q, q ∈ l' <-> q = p_trapframe (proc_at i k) \/ acct l t um q) \/
         r = -1 /\ addr <> 0 /\ (n < 4)%nat /\ (MAXVA <= addr + Z.of_nat n \/ writable ump (addr + Z.of_nat n) = false) /\
           ps = k_procs k /\ l' = l) /\
        forall va, uread k' ump va = if decide (addr <= va < addr + Z.of_nat n)
          then le_bytes 4 (p_xstate (proc_at i k)) !! Z.to_nat (va - addr) else uread k ump va
  end.
Proof using kend_pos.
  intros Hw. destruct (List.find (zombie p k) proc_indices) as [i|] eqn:Hf; [|by apply wait_none_dead].
  intros l t um tp ump Hfam Ha. apply find_split in Hf as (l1 & l2 & Hl & Hz & Hl1).
  assert (forall j, j ∈ l1 ++ i :: l2 -> (j < Z.to_nat NPROC)%nat) as Hin.
  { rewrite <- Hl. intros j. unfold proc_indices. rewrite elem_of_seq. lia. }
  destruct (reap_run p i addr (existsb (child p k) l1) k l t um tp ump) as (r & ps & m & f & l' & n & R & H); [done|apply Hin; set_solver|done..|].
  exists r, ps, m, f, l', n. split; [|done]. unfold wait. erewrite bind_ret_run by (apply curproc_run; apply (w_thread _ _ Hw)).
  erewrite bind_ret_run by apply acquire_run, Hw. unfold wait_from.
  assert (wait_scan kend p addr proc_indices false (enter LWait k) = Ret (inr r) (set_k_procs ps (set_k_mem m (set_k_freelist f k)))) as Hs.
  { rewrite Hl, wait_skip; [cbn [wait_scan orb]; by erewrite bind_ret_run by exact R|done|].
    rewrite Forall_forall in *. intros j Hj. split; [apply Hin; set_solver|by apply Hl1]. }
  by erewrite bind_ret_run by exact Hs.
Qed.

(** C8 (exit_spec): the end of exit(), from the moment it takes wait_lock: the process is a
    zombie with its exit status and leaves the CPU holding its own lock only, wait_lock is
    free again; its children are children of init; its parent is RUNNABLE if it slept in
    wait(), and so is init if it slept there and has a new child; nothing else has changed.
    The next scan of the parent's wait() finds the zombie.  The first process may not exit. *)
Theorem exit_spec `{Disk} p q r status k : waiting p k -> k_initproc k = Some q -> p_parent (proc_at p k) = Some r -> r <> p ->
  (exists k', exit_dead (A := unit) p status k = Swtch k' /\
     proc_at p k' = departed status (proc_at p k) /\
     (forall j, j <> p -> proc_at j k' = bereaved p q r k (proc_at j k)) /\
     k' = set_k_procs (k_procs k') (enter (LProc p) k) /\
     zombie r k' p = true) /\
  (q = p -> exit (A := unit) kend status k = Panic "init exiting").
Proof using.
  intros Hw Hq Hr Hne. split.
  - eexists. split; [by apply (exit_dead_run p q r)|]. pose proof (th_procs _ _ (w_thread _ _ Hw)) as Ht. unfold procs_ok in Ht. pose proof (th_lt _ _ (w_thread _ _ Hw)) as Hp.
    assert (p < length (imap (wake_at (c_proc (k_cpu k)) (ChProc r)) (adopt p q (Z.to_nat NPROC) k)))%nat as Hlen.
    { unfold adopt. rewrite !length_imap. lia. }
    assert (proc_at p (set_k_procs (<[p := departed status (proc_at p k)]>
      (imap (wake_at (c_proc (k_cpu k)) (ChProc r)) (adopt p q (Z.to_nat NPROC) k))) (enter (LProc p) k)) = departed status (proc_at p k)) as Hself.
    { unfold proc_at at 1. cbn [k_procs set_k_procs]. by rewrite list_lookup_insert_eq. }
    split_and!; [done| |done|].
    + intros j Hj. unfold proc_at at 1. cbn [k_procs set_k_procs]. rewrite list_lookup_insert_ne by done.
      destruct (k_procs k !! j) as [x|] eqn:Hx.
      * rewrite (adopt_wake_other p q r k j x) by done. unfold proc_at. by rewrite Hx.
      * rewrite list_lookup_imap, adopt_lookup, Hx. unfold proc_at. by rewrite Hx.
    + unfold zombie, child. rewrite Hself. cbn. by rewrite bool_decide_true.
  - intros ->. unfold exit. erewrite bind_ret_run by (apply curproc_run; apply (w_thread _ _ Hw)). unfold gets at 1, bind at 1. by rewrite Hq, decide_True.
Qed.
End reap.

(** ** Witnesses: process 3, with a dead child in slot 5 *)

Definition shop : kstate := with_lock LWait (with_lock LKmem booted).

Lemma shop_waiting ps m f i : length ps = Z.to_nat NPROC -> waiting 3 (set_k_procs ps (set_k_mem m (set_k_freelist f (set_k_initproc i shop)))).
Proof.
  intros Hl. assert (thread_ok 3 shop) as [H1 H2 H3 H4 H5 H6].
  { apply with_lock_thread; [done|]. apply with_lock_thread; [done|]. apply booted_thread. }
  split; [split; [exact H1|exact H2|exact H3|exact H4|exact Hl|exact H6]|exact (with_lock_free LWait (with_lock LKmem booted))].
Qed.

(** exit() of process 3, a child of process 1 that waits; process 4 is its child. *)
Definition leaving : kstate := set_k_procs
  (<[1%nat := asleep (ChProc 1) zero_proc]> (<[4%nat := set_p_parent (Some 3%nat) zero_proc]> (<[3%nat := set_p_parent (Some 1%nat) zero_proc]> (k_procs booted))))
  (set_k_mem (k_mem shop) (set_k_freelist 0 (set_k_initproc (Some 0%nat) shop))).

Lemma leaving_at j x : (j < 5)%nat -> (<[1%nat := asleep (ChProc 1) zero_proc]> (<[4%nat := set_p_parent (Some 3%nat) zero_proc]>
    (<[3%nat := set_p_parent (Some 1%nat) zero_proc]> (k_procs booted)))) !! j = Some x -> proc_at j leaving = x.
Proof. intros _ Hx. unfold proc_at, leaving. cbn [k_procs set_k_procs]. by rewrite Hx. Qed.

Lemma exit_spec_witness : exists k', exit_dead (A := unit) 3 9 leaving = Swtch k' /\
  p_state (proc_at 3 k') = ZOMBIE /\ p_xstate (proc_at 3 k') = 9 /\ p_state (proc_at 1 k') = RUNNABLE /\ p_parent (proc_at 4 k') = Some 0%nat.
Proof.
  assert (length (k_procs booted) = 64)%nat as Hl by apply booted_thread.
  assert (waiting 3 leaving) as Hw by (apply shop_waiting; by rewrite !length_insert, Hl).
  assert (proc_at 3 leaving = set_p_parent (Some 1%nat) zero_proc) as H3.
  { apply leaving_at; [lia|]. rewrite !list_lookup_insert_ne by done. apply list_lookup_insert_eq. lia. }
  destruct (exit_spec vm_kend 3 0 1 9 leaving Hw eq_refl) as [(k' & R & E3 & Ej & _) _]; [by rewrite H3|done|].
  exists k'. split; [exact R|]. rewrite E3, !Ej by done.
  rewrite (leaving_at 1 (asleep (ChProc 1) zero_proc)), (leaving_at 4 (set_p_parent (Some 3%nat) zero_proc)).
  - split; [reflexivity|]. split; [reflexivity|]. split.
    + unfold bereaved. rewrite (decide_True (P := _ /\ _)) by (split; [reflexivity|left; reflexivity]). reflexivity.
    + rewrite bereaved_parent. by rewrite decide_True.
  - lia.
  - rewrite list_lookup_insert_ne by done. apply list_lookup_insert_eq. rewrite length_insert, Hl. lia.
  - lia.
  - apply list_lookup_insert_eq. rewrite !length_insert, Hl. lia.
Defined.

(** wait() of process 3, whose child in slot 5 has exited with status 7: first the child's page table
    is made, as fork() does. *)
Definition deceased (pt : Z) : proc :=
  set_p_pagetable pt (set_p_trapframe (PG 13) (set_p_pid 42 (set_p_xstate 7 (set_p_parent (Some 3%nat) (set_p_state ZOMBIE zero_proc))))).
Definition home (pt : Z) : list proc := <[5%nat := deceased pt]> (<[3%nat := set_p_pagetable (PG 0) zero_proc]> (replicate (Z.to_nat NPROC) zero_proc)).
Definition mourning : kstate := set_k_procs (home 0) (set_k_mem (k_mem vm_k) (set_k_freelist (k_freelist vm_k) (set_k_initproc None shop))).

Lemma mourning_pagetable : (match proc_pagetable vm_kend 0x80007000 5 mourning with Ret r _ => negb (r =? 0) | _ => false end) = true.
Proof. vm_compute. reflexivity. Qed.

Lemma home_zombie r k : List.find (zombie 3 (set_k_procs (home r) k)) proc_indices = Some 5%nat.
Proof. vm_compute. reflexivity. Qed.

Lemma vm_page_home q : page_of vm_tree vm_um q -> q ∉ vm_free /\ q <> PG 13.
Proof.
  intros [[path [->|[->| ->]]%vm_tree_page]|(v & fl & (_ & -> & _)%vm_um_page)]; (split; [intros (j & Hj & Hr)%vm_free_in|]); pg.
Qed.

Lemma mourning_family r k1 l1 t : mem_only mourning k1 -> (forall d, page_ok vm_kend d -> d ∉ vm_free -> kept mourning k1 d) ->
  proc_mem vm_kend k1 l1 r t ∅ 0 (PG 13) -> (forall q, acct l1 t ∅ q <-> q ∈ vm_free) ->
  family vm_kend 3 5 (set_k_procs (home r) k1) l1 t ∅ vm_tree vm_um.
Proof.
  intros Hmo Hk Hpm Hac. pose proof (as_inv _ _ _ _ _ _ (pm_space _ _ _ _ _ _ _ _ Hpm)) as Hvi.
  assert (uspace vm_kend mourning vm_free (PG 0) vm_tree vm_um) as Hu.
  { destruct Hmo as (m & f & ->). apply (uspace_ext vm_kend vm_k); [apply vm_uspace|done|done|apply (vi_cpu _ _ _ _ _ Hvi)|apply (vi_lock _ _ _ _ _ Hvi)]. }
  destruct (aspace_other vm_kend mourning k1 vm_free l1 (PG 0) vm_tree vm_um ∅ t ∅ ∅ (us_space _ _ _ _ _ _ Hu)) as (A & S & _).
  { split; [intros q; by rewrite acct_list|done|]. intros d Hd Hn. apply Hk; [done|]. by rewrite acct_list in Hn. }
  { apply Hvi. }
  { intros q Hq. rewrite acct_list. by apply vm_page_home. }
  split.
  - eapply proc_mem_state; [exact Hpm|done|done|apply (vi_cpu _ _ _ _ _ Hvi)|apply (vi_lock _ _ _ _ _ Hvi)].
  - split; [apply PG_ok; lia|]. change (p_trapframe _) with (PG 13). rewrite Hac. intros (j & Hj & Hr)%vm_free_in. pg.
  - apply (uspace_ext vm_kend k1); [|done|done|apply (vi_cpu _ _ _ _ _ Hvi)|apply (vi_lock _ _ _ _ _ Hvi)].
    split; [exact A|]. intros va Hva. rewrite S. by apply Hu.
  - intros q [Hq Hne]%vm_page_home. split; [|done]. intros Hp. apply Hq, Hac. by right.
Qed.

Lemma wait_spec_witness : exists k k', waiting 3 k /\ wait vm_kend 100 k = Ret 42 k' /\ uread k' vm_um 100 = Some 7 /\ p_state (proc_at 5 k') = UNUSED.
Proof.
  pose proof mourning_pagetable as Hr.
  assert (0x80007000 mod PGSIZE = 0 /\ 0 <= 0x80007000 /\ 0x80007000 + PGSIZE <= 2 ^ 56) as Htr by (split; [reflexivity|unfold PGSIZE; lia]).
  assert (page_ok vm_kend (PG 13)) as Htf by (apply PG_ok; lia).
  pose proof (proc_pagetable_run vm_kend vm_kend_pos 0x80007000 (PG 13) Htr Htf 5 mourning vm_free) as Hpp.
  destruct Hpp as (r & k1 & l1 & R & M & K & [(-> & _)|(t & Hr0 & Hpm & Hac)]).
  - apply (shop_waiting (home 0)). reflexivity.
  - exact (with_lock_free LKmem booted).
  - destruct vm_k_free as [F1 F2 F3]. by split.
  - reflexivity.
  - exfalso. rewrite R in Hr. discriminate Hr.
  - pose proof (mourning_family r k1 l1 t M K Hpm Hac) as Hfam. destruct M as (m1 & f1 & ->).
    set (k := set_k_procs (home r) _) in *.
    assert (waiting 3 k) as Hw by by apply (shop_waiting (home r) m1 f1 None).
    pose proof (wait_spec vm_kend vm_kend_pos 3 100 k Hw) as Hs. unfold k in Hs at 1; rewrite home_zombie in Hs.
    destruct (Hs l1 t ∅ vm_tree vm_um Hfam ltac:(lia)) as (r' & ps & m & f & l' & n & Rw & _ & [(-> & -> & -> & _)|(_ & _ & Hn & [Hb|Hb] & _)] & Hu).
    + exists k. eexists. split; [exact Hw|]. split; [exact Rw|]. split; [by rewrite Hu|]. reflexivity.
    + exfalso. change MAXVA with 274877906944 in Hb. lia.
    + exfalso. unfold writable, uflag in Hb. replace (vpn (100 + Z.of_nat n)) with 0 in Hb by (unfold vpn, PGSIZE; zlia). discriminate Hb.
Defined.
