(* ===== verification/Exec.v ===== *)
(** * Exec: loading a program (kernel/exec.c)

    exec() builds a new address space from an ELF file and replaces the old one
    only when everything has succeeded.  The argument strings are the list
    [argv], each the characters before its NUL. *)

From Stdlib Require Import ZArith Lia.
From stdpp Require Import base gmap list strings.
From S2P Require Import Prelude Bytes State Riscv Spinlock Sched Sleeplock Mem Kalloc Bio Log Vm Pipe Printf Console Fs File Proc.

(** ** elf.h *)

Definition ELF_MAGIC : Z := 0x464C457F.
Definition ELF_PROG_LOAD : Z := 1.
Definition sizeof_elfhdr : Z := 64.
Definition sizeof_proghdr : Z := 56.

Record elfhdr : Type := mkElfhdr { eh_magic : Z; eh_entry : Z; eh_phoff : Z; eh_phnum : Z }.
Definition get_elfhdr (d : list Z) : elfhdr := mkElfhdr (rd 4 d 0) (rd 8 d 24) (rd 8 d 32) (rd 2 d 56).

Record proghdr : Type := mkProghdr {
  ph_type : Z; ph_flags : Z; ph_off : Z; ph_vaddr : Z; ph_filesz : Z; ph_memsz : Z }.
Definition get_proghdr (d : list Z) : proghdr :=
  mkProghdr (rd 4 d 0) (rd 4 d 4) (rd 8 d 8) (rd 8 d 16) (rd 8 d 32) (rd 8 d 40).

Definition flags2perm (flags : Z) : Z :=
  let perm := if truth (Z.land flags 0x1) then PTE_X else 0 in
  if truth (Z.land flags 0x2) then Z.lor perm PTE_W else perm.

(** The part of the path after its last slash. *)
Fixpoint last_elem (s last : list Z) : list Z :=
  match s with
  | [] => last
  | c :: s' => if c =? slash then last_elem s' s' else last_elem s' last
  end.

Section exec.
Variables kend trampoline : Z.
Context `{Disk}.

Definition loadseg_body (pagetable va : Z) (ip : nat) (offset sz i : Z) : K (Z + Z) :=
  if negb (i <? sz) then ret (inr 0) else
  let! pa := walkaddr pagetable (u64 (va + i)) in
  if pa =? 0 then panic "loadseg: address should exist" else
  let n := if u32 (sz - i) <? PGSIZE then u32 (sz - i) else PGSIZE in
  let! r := readi ip (DPhys pa) (u32 (offset + i)) n in
  if negb (fst r =? n) then ret (inr (-1)) else ret (inl (u32 (i + PGSIZE))).

Definition loadseg (pagetable va : Z) (ip : nat) (offset sz : Z) : K Z :=
  loop (S (S (Z.to_nat (sz / PGSIZE)))) (loadseg_body pagetable va ip offset sz) 0.

(** One program header of exec(), at (i, off, sz): [inr None] is "goto bad" with
    the size so far in the pair. *)
Definition exec_segment (pagetable : Z) (ip : nat) (phnum : Z) (x : Z * Z * Z) : K (Z * Z * Z + bool * Z) :=
  let '(i, off, sz) := x in
  if negb (i <? phnum) then ret (inr (true, sz)) else
  let! r := readi ip DLocal (u32 off) sizeof_proghdr in
  if negb (fst r =? sizeof_proghdr) then ret (inr (false, sz)) else
  let ph := get_proghdr (snd r) in
  let next sz := ret (inl (i + 1, i32 (off + sizeof_proghdr), sz)) in
  if negb (ph_type ph =? ELF_PROG_LOAD) then next sz else
  if ph_memsz ph <? ph_filesz ph then ret (inr (false, sz)) else
  if u64 (ph_vaddr ph + ph_memsz ph) <? ph_vaddr ph then ret (inr (false, sz)) else
  if negb (ph_vaddr ph mod PGSIZE =? 0) then ret (inr (false, sz)) else
  let! sz1 := uvmalloc kend pagetable sz (u64 (ph_vaddr ph + ph_memsz ph)) (flags2perm (ph_flags ph)) in
  if sz1 =? 0 then ret (inr (false, sz)) else
  let! r := loadseg pagetable (ph_vaddr ph) ip (u32 (ph_off ph)) (u32 (ph_filesz ph)) in
  if r <? 0 then ret (inr (false, sz1)) else next sz1.

(** The argument strings pushed on the stack: [None] is "goto bad". *)
Fixpoint exec_args (pagetable stackbase : Z) (argv : list (list Z)) (argc : nat) (sp : Z) (ustack : list Z)
  : K (option (Z * list Z)) :=
  match argv with
  | [] => ret (Some (sp, ustack))
  | s :: argv' =>
      if MAXARG <=? Z.of_nat argc then ret None else
      let len := Z.of_nat (length s) + 1 in
      let sp := u64 (sp - len) in
      let sp := u64 (sp - sp mod 16) in
      if sp <? stackbase then ret None else
      let! r := copyout pagetable sp (s ++ [0]) in
      if r <? 0 then ret None else
      exec_args pagetable stackbase argv' (S argc) sp (ustack ++ [sp])
  end.

(** bad: with [ip] still locked or not. *)
Definition exec_bad (pagetable sz : Z) (ip : option nat) : K Z :=
  do! (if truth pagetable then proc_freepagetable kend pagetable sz else ret tt);
  do! (match ip with
       | Some i => do! iunlockput (Some i); end_op
       | None => ret tt
       end);
  ret (-1).

(** The argument strings and the array of pointers to them: the stack pointer for main(),
    or [None] for "goto bad". *)
Definition exec_stack (pagetable stackbase : Z) (argv : list (list Z)) (sp : Z) : K (option Z) :=
  let! r := exec_args pagetable stackbase argv 0 sp [] in
  match r with
  | None => ret None
  | Some (sp, ustack) =>
      (** ustack[argc] = 0, past the end of the array when argc = MAXARG *)
      if (Z.of_nat (length argv) =? MAXARG) then out_of_bounds else
      let sp := u64 (sp - (Z.of_nat (length argv) + 1) * 8) in
      let sp := u64 (sp - sp mod 16) in
      if sp <? stackbase then ret None else
      let! r := copyout pagetable sp (concat (le_bytes 8 <$> ustack ++ [0])) in
      if r <? 0 then ret None else ret (Some sp)
  end.

(** The stack and the commit to the new image; ip is released. *)
Definition exec_commit (p : nat) (pagetable sz entry : Z) (path : list Z) (argv : list (list Z)) : K Z :=
  let! oldsz := gets (fun k => p_sz (proc_at p k)) in
  let sz := PGROUNDUP sz in
  let! sz1 := uvmalloc kend pagetable sz (u64 (sz + (USERSTACK + 1) * PGSIZE)) PTE_W in
  if sz1 =? 0 then exec_bad pagetable sz None else
  let sz := sz1 in
  do! uvmclear pagetable (u64 (sz - (USERSTACK + 1) * PGSIZE));
  let sp := sz in
  let stackbase := u64 (sp - USERSTACK * PGSIZE) in
  let! r := exec_stack pagetable stackbase argv sp in
  match r with
  | None => exec_bad pagetable sz None
  | Some sp =>
      do! tf_set p tf_a1 sp;
      do! upd_proc p (fun x => set_p_name (safestrcpy_list (p_name x) (last_elem path path) 16) x);
      let! oldpagetable := pagetable_of p in
      do! upd_proc p (set_p_pagetable pagetable);
      do! upd_proc p (set_p_sz sz);
      do! tf_set p tf_epc entry;
      do! tf_set p tf_sp sp;
      do! proc_freepagetable kend oldpagetable oldsz;
      ret (Z.of_nat (length argv))
  end.

Definition exec (path : list Z) (argv : list (list Z)) : K Z :=
  let! p := curproc in
  do! begin_op;
  let! mip := namei path in
  match mip with
  | None =>
      do! end_op;
      ret (-1)
  | Some i =>
      do! ilock (Some i);
      let! r := readi i DLocal 0 sizeof_elfhdr in
      if negb (fst r =? sizeof_elfhdr) then exec_bad 0 0 (Some i) else
      let elf := get_elfhdr (snd r) in
      if negb (eh_magic elf =? ELF_MAGIC) then exec_bad 0 0 (Some i) else
      let! pagetable := proc_pagetable kend trampoline p in
      if pagetable =? 0 then exec_bad 0 0 (Some i) else
      let! r := loop (S (Z.to_nat (eh_phnum elf)))
                  (exec_segment pagetable i (eh_phnum elf)) (0, i32 (eh_phoff elf), 0) in
      if negb (fst r) then exec_bad pagetable (snd r) (Some i) else
      do! iunlockput (Some i);
      do! end_op;
      exec_commit p pagetable (snd r) (eh_entry elf) path argv
  end.

End exec.
