(* ===== verification/Args.v ===== *)
(** * Args: the arguments exec() leaves on the stack of the new program (kernel/exec.c)

    exec() copies the argument strings to the top of the new stack, then the array of
    pointers to them.  [layout] computes the addresses without touching memory; the
    theorem says that the code uses exactly these, and what main() finds there. *)

From Stdlib Require Import ZArith Lia.
From stdpp Require Import base gmap list strings.
From S2P Require Import Prelude Bytes State Riscv Spinlock Sched Sleeplock Mem Kalloc Bio Log Vm Uvm Ucopy Pipe Printf Console Fs File Proc Exec.

(** The highest address divisible by 16 that leaves [len] bytes below [sp]. *)
Definition below16 (sp len : Z) : Z := sp - len - (sp - len) mod 16.

Lemma below16_bounds sp len : below16 sp len + len <= sp < below16 sp len + len + 16 /\ below16 sp len mod 16 = 0.
Proof.
  unfold below16. pose proof (Z.mod_pos_bound (sp - len) 16 ltac:(lia)). split; [lia|].
  rewrite Zminus_mod_idemp_r, Z.sub_diag. done.
Qed.

(** The addresses of the strings, and the stack pointer after them. *)
Fixpoint layout (stackbase : Z) (argv : list (list Z)) (sp : Z) : option (Z * list Z) :=
  match argv with
  | [] => Some (sp, [])
  | s :: argv' =>
      let sp := below16 sp (Z.of_nat (length s) + 1) in
      if sp <? stackbase then None else
      match layout stackbase argv' sp with
      | None => None
      | Some (sp', us) => Some (sp', sp :: us)
      end
  end.

Section args.
Variables kend : Z.
Hypothesis kend_pos : 0 < kend.
Context (l : list Z) (root : Z) (t : tree) (um : gmap Z (Z * Z)) (stackbase top : Z).
Hypothesis bounds : MAXARG * 8 <= stackbase /\ top <= MAXVA.
Hypothesis stack : forall va, stackbase <= va < top -> writable um va = true.

(** [k'] differs from [k] only in user memory at addresses from [a] to [b]. *)
Definition pushed (a b : Z) (k k' : kstate) : Prop :=
  uspace kend k' l root t um /\ mem_only k k' /\ (forall d, page_ok kend d -> ~ acct l t um d -> kept k k' d) /\
  forall va, ~ (a <= va < b) -> uread k' um va = uread k um va.

Lemma copyout_stack k a bs : uspace kend k l root t um -> Forall is_byte bs -> stackbase <= a -> a + Z.of_nat (length bs) <= top ->
  exists k', copyout root a bs k = Ret 0 k' /\ pushed a (a + Z.of_nat (length bs)) k k' /\ user_bytes k' um a bs.
Proof using kend_pos bounds stack.
  intros Hu Hb Ha Htop. assert (MAXVA < 2 ^ 64 /\ MAXARG = 32) by done.
  destruct (copyout_loop kend kend_pos (S (length bs)) k l root t um a bs Hu ltac:(lia) Hb ltac:(lia))
    as (r & k' & n & E & Hu' & Hm & Hk & Hr & Hread).
  assert (r = 0 /\ n = length bs) as [-> ->].
  { destruct Hr as [Hr|(_ & Hn & [Hx|Hx])]; [done|lia|]. rewrite stack in Hx by lia. done. }
  exists k'. split; [exact E|]. split.
  - split_and!; [done..|]. intros va Hva. rewrite Hread. by rewrite decide_False.
  - intros i Hi. rewrite Hread, decide_True by lia. f_equal. lia.
Qed.

Lemma pushed_trans a b c k1 k2 k3 : a <= b <= c -> pushed b c k1 k2 -> pushed a b k2 k3 -> pushed a c k1 k3.
Proof using.
  intros Hab (H1 & H2 & H3 & H4) (H5 & H6 & H7 & H8). split_and!; [done|by eapply mem_only_trans| |].
  - intros d Hd Ha x Hx. rewrite (H7 d), (H3 d) by done. done.
  - intros va Hva. rewrite H8, H4 by lia. done.
Qed.

Lemma user_bytes_pushed a b k k' x bs : pushed a b k k' -> b <= x \/ x + Z.of_nat (length bs) <= a -> user_bytes k um x bs -> user_bytes k' um x bs.
Proof using. intros (_ & _ & _ & H) Hx Hb i Hi. rewrite H by lia. by apply Hb. Qed.

(** The strings of [argv] stand at the addresses [us]. *)
Definition strings_at (k : kstate) (us : list Z) (argv : list (list Z)) : Prop :=
  Forall2 (fun a s => user_bytes k um a (s ++ [0])) us argv.

Lemma strings_pushed a b k k' us argv : pushed a b k k' -> Forall (fun x => b <= x) us -> strings_at k us argv -> strings_at k' us argv.
Proof using.
  intros Hp Hus Hs. induction Hs as [|x s us argv Hx Hs IH]; [constructor|]. apply Forall_cons_1 in Hus as [Hb Hus].
  constructor; [|by apply IH]. eapply user_bytes_pushed; [exact Hp|by left|done].
Qed.

Lemma exec_sp sp len : 0 <= len -> sp <= top ->
  let sp' := u64 (u64 (sp - len) - u64 (sp - len) mod 16) in
  0 <= sp - len -> sp' = below16 sp len.
Proof using bounds.
  intros Hlen Ht sp' Hpos. unfold sp', below16. assert (MAXVA < 2 ^ 64) by done. rewrite (u64_small (sp - len)) by lia.
  pose proof (Z.mod_pos_bound (sp - len) 16 ltac:(lia)). pose proof (Z.mod_le (sp - len) 16 ltac:(lia) ltac:(lia)). apply u64_small. lia.
Qed.

Lemma exec_args_run argv argc sp ustack k : uspace kend k l root t um -> Forall (Forall is_byte) argv -> sp <= top ->
  Forall (fun s => Z.of_nat (length s) + 1 <= stackbase) argv -> stackbase <= sp ->
  Z.of_nat argc + Z.of_nat (length argv) <= MAXARG ->
  exists r k', exec_args root stackbase argv argc sp ustack k = Ret r k' /\
    match layout stackbase argv sp with
    | None => r = None /\ exists lo, stackbase <= lo /\ pushed lo sp k k'
    | Some (sp', us) => r = Some (sp', ustack ++ us) /\ stackbase <= sp' <= sp /\ pushed sp' sp k k' /\ strings_at k' us argv /\
        Forall (fun a => sp' <= a < sp) us /\ (argv <> [] -> sp' mod 16 = 0)
    end.
Proof using kend_pos bounds stack.
  revert argc sp ustack k. induction argv as [|s argv IH]; intros argc sp ustack k Hu Hb Hsp Hlen Hsb Hn; cbn [exec_args layout].
  { exists (Some (sp, ustack)), k. split; [done|]. rewrite app_nil_r. split_and!; [done|lia|lia| |constructor|constructor|done].
    split_and!; [done|apply mem_only_refl|done|done]. }
  apply Forall_cons_1 in Hb as [Hs Hb]. apply Forall_cons_1 in Hlen as [Hl Hlen]. cbn [length] in Hn.
  rewrite (proj2 (Z.leb_gt _ _)) by lia. pose proof bounds as [Hb0 Hb1]. assert (MAXARG = 32) by done.
  rewrite exec_sp by lia. set (sp1 := below16 sp _).
  destruct (below16_bounds sp (Z.of_nat (length s) + 1)) as [Hlo Hal]. fold sp1 in Hlo, Hal.
  destruct (Z.ltb_spec sp1 stackbase) as [Hlt|Hge].
  { exists None, k. split; [done|]. split; [done|]. exists sp. split; [done|]. split_and!; [done|apply mem_only_refl|done|done]. }
  assert (length (s ++ [0]) = S (length s)) as Hlen1 by (rewrite length_app; cbn; lia).
  destruct (copyout_stack k sp1 (s ++ [0]) Hu) as (k1 & E1 & Hp1 & Hb1'); [apply Forall_app; split; [done|by repeat constructor]|done|lia|].
  rewrite (bind_ret_run _ _ _ _ _ E1). cbn [Z.ltb Z.compare]. pose proof Hp1 as (Hu1 & _).
  assert (pushed sp1 sp k k1) as Hp1'.
  { destruct Hp1 as (A1 & A2 & A3 & A4). split_and!; [done..|]. intros va Hva. apply A4. lia. }
  destruct (IH (S argc) sp1 (ustack ++ [sp1]) k1 Hu1 Hb ltac:(lia) Hlen Hge ltac:(lia)) as (r & k' & E & Hr). exists r, k'. split; [exact E|].
  destruct (layout stackbase argv sp1) as [[sp' us]|].
  - destruct Hr as (-> & Hsp' & Hp2 & Hst & Hus & Hal'). split_and!; [by rewrite <- app_assoc|lia|lia|by apply (pushed_trans sp' sp1 sp k k1 k'); [lia|..]| | |].
    + constructor; [|done]. eapply user_bytes_pushed; [exact Hp2|by left|done].
    + constructor; [lia|]. eapply Forall_impl; [exact Hus|]. cbn. lia.
    + intros _. destruct argv; [|by apply Hal']. cbn in E. by injection E as <-.
  - destruct Hr as (-> & lo & Hlo' & Hp2). split; [done|]. exists (Z.min lo sp1). split; [lia|].
    apply (pushed_trans _ sp1 sp k k1 k'); [lia|done|]. destruct Hp2 as (A1 & A2 & A3 & A4). split_and!; [done..|].
    intros va Hva. apply A4. lia.
Qed.

(** The array of pointers. *)
Definition argv_bytes (us : list Z) : list Z := concat (le_bytes 8 <$> us ++ [0]).

Lemma argv_bytes_ok us : Forall is_byte (argv_bytes us) /\ Z.of_nat (length (argv_bytes us)) = (Z.of_nat (length us) + 1) * 8.
Proof using.
  unfold argv_bytes. rewrite fmap_app, concat_app. cbn [fmap list_fmap concat]. rewrite app_nil_r. induction us as [|u us [IH1 IH2]].
  - cbn [fmap list_fmap concat app]. split; [apply le_bytes_bytes|reflexivity].
  - cbn [fmap list_fmap concat]. rewrite <- app_assoc. split; [apply Forall_app; split; [apply le_bytes_bytes|done]|].
    rewrite length_app, length_le_bytes. cbn [length]. lia.
Qed.

Definition stack_layout (argv : list (list Z)) : option (Z * list Z) :=
  match layout stackbase argv top with
  | None => None
  | Some (sp, us) =>
      let sp := below16 sp ((Z.of_nat (length argv) + 1) * 8) in
      if sp <? stackbase then None else Some (sp, us)
  end.

Lemma exec_stack_run argv k : uspace kend k l root t um -> Forall (Forall is_byte) argv ->
  Forall (fun s => Z.of_nat (length s) + 1 <= stackbase) argv -> stackbase <= top -> Z.of_nat (length argv) < MAXARG ->
  exists r k', exec_stack root stackbase argv top k = Ret r k' /\
    match stack_layout argv with
    | None => r = None /\ pushed stackbase top k k'
    | Some (sp, us) => r = Some sp /\ stackbase <= sp /\ sp mod 16 = 0 /\ pushed sp top k k' /\ strings_at k' us argv /\
        user_bytes k' um sp (argv_bytes us) /\ Forall (fun a => sp + (Z.of_nat (length argv) + 1) * 8 <= a < top) us
    end.
Proof using kend_pos bounds stack.
  intros Hu Hb Hlen Hsb Hn. unfold exec_stack, stack_layout. pose proof bounds as [Hb0 Hb1]. assert (MAXARG = 32) as HM by done.
  destruct (exec_args_run argv 0 top [] k Hu Hb ltac:(lia) Hlen Hsb ltac:(lia)) as (r & k1 & E & Hr). rewrite (bind_ret_run _ _ _ _ _ E).
  assert (forall lo k', stackbase <= lo -> pushed lo top k k' -> pushed stackbase top k k') as Hwide.
  { intros lo k' Hlo (A1 & A2 & A3 & A4). split_and!; [done..|]. intros va Hva. apply A4. lia. }
  destruct (layout stackbase argv top) as [[sp us]|]; [|destruct Hr as (-> & lo & Hlo & Hp); exists None, k1; by eauto].
  destruct Hr as (-> & Hsp & Hp1 & Hst & Hus & _). cbn [app]. rewrite (proj2 (Z.eqb_neq _ _)) by lia.
  assert (length us = length argv) as Hlu by by eapply Forall2_length.
  rewrite exec_sp by lia. set (sp1 := below16 sp _). destruct (below16_bounds sp ((Z.of_nat (length argv) + 1) * 8)) as [Hlo Hal].
  fold sp1 in Hlo, Hal. destruct (Z.ltb_spec sp1 stackbase) as [Hlt|Hge]; [exists None, k1; split; [done|]; split; [done|]; apply (Hwide sp); [lia|done]|].
  destruct (argv_bytes_ok us) as [Hab Hal8]. fold (argv_bytes us). pose proof Hp1 as (Hu1 & _).
  destruct (copyout_stack k1 sp1 (argv_bytes us) Hu1 Hab Hge ltac:(lia)) as (k2 & E2 & Hp2 & Hb2). rewrite (bind_ret_run _ _ _ _ _ E2).
  cbn [Z.ltb Z.compare]. assert (pushed sp1 sp k1 k2) as Hp2'.
  { destruct Hp2 as (A1 & A2 & A3 & A4). split_and!; [done..|]. intros va Hva. apply A4. lia. }
  eexists (Some sp1), k2. split_and!; [done|done|done|done|by apply (pushed_trans sp1 sp top k k1 k2); [lia|..]| |done|].
  - eapply strings_pushed; [exact Hp2'| |done]. eapply Forall_impl; [exact Hus|]. cbn. lia.
  - eapply Forall_impl; [exact Hus|]. cbn. lia.
Qed.

(** The pointer of argument [i], and the null pointer after the last. *)
Lemma user_bytes_part k a pre mid post : user_bytes k um a (pre ++ mid ++ post) -> user_bytes k um (a + Z.of_nat (length pre)) mid.
Proof using.
  intros Hb i Hi. rewrite <- Z.add_assoc, <- Nat2Z.inj_add, Hb by (rewrite !length_app; lia).
  rewrite lookup_app_r, Nat.add_comm, Nat.add_sub by lia. by rewrite lookup_app_l.
Qed.

Lemma argv_slot k sp us i a : user_bytes k um sp (argv_bytes us) -> (us ++ [0]) !! i = Some a ->
  user_bytes k um (sp + 8 * Z.of_nat i) (le_bytes 8 a).
Proof using.
  intros Hb Hi. unfold argv_bytes in Hb. pose proof (take_drop_middle _ _ _ Hi) as E. rewrite <- E in Hb.
  rewrite fmap_app, concat_app in Hb. cbn [fmap list_fmap concat] in Hb. apply user_bytes_part in Hb.
  assert (forall us', length (concat (le_bytes 8 <$> us')) = (8 * length us')%nat) as Hlen.
  { intros us'. induction us' as [|x us' IH]; [done|]. cbn [fmap list_fmap concat]. rewrite length_app, length_le_bytes, IH. cbn [length]. lia. }
  rewrite Hlen, length_take in Hb. apply lookup_lt_Some in Hi. replace (8 * Z.of_nat i) with (Z.of_nat (8 * (i `min` length (us ++ [0])))) by lia. done.
Qed.

(** Room for everything, with the alignment of each string. *)
Definition stack_need (argv : list (list Z)) : Z := foldr (fun s n => Z.of_nat (length s) + 16 + n) ((Z.of_nat (length argv) + 1) * 8 + 15) argv.

Lemma layout_fits argv sp n : foldr (fun s m => Z.of_nat (length s) + 16 + m) n argv <= sp - stackbase -> 0 <= n ->
  exists sp' us, layout stackbase argv sp = Some (sp', us) /\ n <= sp' - stackbase.
Proof using.
  revert sp. induction argv as [|s argv IH]; intros sp Hs Hn; cbn [layout foldr] in *; [by exists sp, []|].
  destruct (below16_bounds sp (Z.of_nat (length s) + 1)) as [Hlo _]. set (sp1 := below16 sp _) in *.
  assert (0 <= foldr (fun s m => Z.of_nat (length s) + 16 + m) n argv) by (clear -Hn; induction argv; cbn in *; lia).
  rewrite (proj2 (Z.ltb_ge sp1 stackbase)) by lia. destruct (IH sp1 ltac:(lia) Hn) as (sp' & us & -> & Hle). by exists sp', (sp1 :: us).
Qed.

Lemma stack_layout_fits argv : stack_need argv <= top - stackbase -> exists sp us, stack_layout argv = Some (sp, us).
Proof using.
  intros Hs. destruct (layout_fits argv top _ Hs ltac:(lia)) as (sp & us & E & Hle). unfold stack_layout. rewrite E.
  destruct (below16_bounds sp ((Z.of_nat (length argv) + 1) * 8)) as [Hlo _]. rewrite (proj2 (Z.ltb_ge _ _)) by lia. by eexists _, us.
Qed.

(** C32 (exec_arguments): a program gets its arguments.  On a stack of writable pages
    exec() returns a stack pointer divisible by 16 at which the array of argument pointers
    stands, ended by a null pointer; the pointer of argument [i] leads to the characters of
    argument [i] and a NUL, above the array and below the top; nothing below the stack
    pointer or outside the stack has changed.  It fails only when strings, array and
    alignment do not fit the stack. *)
Theorem exec_arguments argv k : uspace kend k l root t um -> Forall (Forall is_byte) argv ->
  Forall (fun s => Z.of_nat (length s) + 1 <= stackbase) argv -> stackbase <= top -> Z.of_nat (length argv) < MAXARG ->
  exists r k', exec_stack root stackbase argv top k = Ret r k' /\
    (stack_need argv <= top - stackbase -> r <> None) /\
    match r with
    | None => pushed stackbase top k k'
    | Some sp => stackbase <= sp /\ sp mod 16 = 0 /\ pushed sp top k k' /\
        user_bytes k' um (sp + 8 * Z.of_nat (length argv)) (le_bytes 8 0) /\
        forall i s, argv !! i = Some s -> exists a, sp + 8 * Z.of_nat (length argv) < a < top /\
          user_bytes k' um (sp + 8 * Z.of_nat i) (le_bytes 8 a) /\ user_bytes k' um a (s ++ [0])
    end.
Proof using kend_pos bounds stack.
  intros Hu Hb Hlen Hsb Hn. destruct (exec_stack_run argv k Hu Hb Hlen Hsb Hn) as (r & k' & E & Hr). exists r, k'. split; [done|]. split.
  { intros Hfit. destruct (stack_layout_fits argv Hfit) as (sp & us & Es). rewrite Es in Hr. by destruct Hr as (-> & _). }
  destruct (stack_layout argv) as [[sp us]|]; [|by destruct Hr as (-> & Hp)].
  destruct Hr as (-> & Hsp & Hal & Hp & Hst & Hab & Hus). assert (length us = length argv) as Hlu by by eapply Forall2_length.
  split_and!; [done..| |].
  - rewrite <- Hlu. apply (argv_slot _ _ us); [done|]. by rewrite lookup_app_r, Nat.sub_diag by lia.
  - intros i s Hi. destruct (Forall2_lookup_r _ _ _ _ _ Hst Hi) as (a & Ha & Hs). exists a.
    pose proof (Forall_lookup_1 _ _ _ _ Hus Ha) as Hr. cbn in Hr. split_and!; [lia|lia| |done].
    apply (argv_slot _ _ us); [done|]. by rewrite lookup_app_l by (by eapply lookup_lt_Some).
Qed.
End args.

(** echo hi, on a stack at the top of the first page. *)
Lemma exec_arguments_witness : exists r k', exec_stack (PG 0) 4000 [str "echo"; str "hi"] 4096 vm_k = Ret r k' /\ r <> None.
Proof.
  destruct (exec_arguments vm_kend vm_kend_pos vm_free (PG 0) vm_tree vm_um 4000 4096 ltac:(done)
    ltac:(intros va Hva; unfold writable, uflag, vpn; rewrite Z.div_small by (unfold PGSIZE; lia); reflexivity)
    [str "echo"; str "hi"] vm_k vm_uspace) as (r & k' & E & Hr & _).
  - repeat constructor; done.
  - repeat constructor; vm_compute; discriminate.
  - lia.
  - vm_compute. reflexivity.
  - exists r, k'. split; [exact E|]. apply Hr. vm_compute. discriminate.
Defined.
