(* ===== verification/Fcntl.v ===== *)
(** * Fcntl: the open modes (kernel/fcntl.h)

    Shared by the kernel's sys_open() and the shell. *)

From Stdlib Require Import ZArith.
From S2P Require Import Prelude.

Definition O_RDONLY : Z := 0.
Definition O_WRONLY : Z := 1.
Definition O_RDWR : Z := 2.
Definition O_CREATE : Z := 0x200.
Definition O_TRUNC : Z := 0x400.
