(* ===== verification/Syscall.v ===== *)
(** * Syscall: system calls (kernel/syscall.c, sysfile.c, sysproc.c)

    Fetching arguments from the trapframe and from user memory, the system calls
    themselves, and the dispatcher.  An argument function that leaves its result
    in a variable of the caller returns it; [None] is its return of -1. *)

From Stdlib Require Import ZArith Lia.
From stdpp Require Import base gmap list strings.
From S2P Require Import Prelude Bytes State Riscv Spinlock Sched Sleeplock Mem Kalloc Bio Log Vm Pipe Printf Console Fs File Proc Exec Fcntl.

(** ** syscall.c: arguments *)

Definition fetchaddr (addr : Z) : K (option Z) :=
  let! p := curproc in
  let! x := gets (proc_at p) in
  if (p_sz x <=? addr) || (p_sz x <? u64 (addr + 8)) then ret None else
  let! r := copyin (p_pagetable x) addr 8 in
  if negb (fst r =? 0) then ret None else ret (Some (le_val (snd r))).

(** The bytes copyinstr() left in buf, and the string if it succeeded. *)
Definition fetchstr (addr max : Z) : K (list Z * option (list Z)) :=
  let! p := curproc in
  let! x := gets (proc_at p) in
  let! r := copyinstr (p_pagetable x) addr max in
  ret (snd r, if fst r <? 0 then None else Some (cstr (snd r))).

Definition argraw (n : Z) : K Z :=
  let! p := curproc in
  if n =? 0 then tf_get p tf_a0
  else if n =? 1 then tf_get p tf_a1
  else if n =? 2 then tf_get p tf_a2
  else if n =? 3 then tf_get p tf_a3
  else if n =? 4 then tf_get p tf_a4
  else if n =? 5 then tf_get p tf_a5
  else panic "argraw".

Definition argint (n : Z) : K Z := let! v := argraw n in ret (i32 v).
Definition argaddr (n : Z) : K Z := argraw n.

Definition argstr (n max : Z) : K (option (list Z)) :=
  let! addr := argaddr n in
  let! r := fetchstr addr max in
  ret (snd r).

(** ** sysfile.c *)

(** The descriptor and its file. *)
Definition argfd (n : Z) : K (option (Z * nat)) :=
  let! fd := argint n in
  if (fd <? 0) || (NOFILE <=? fd) then ret None else
  let! p := curproc in
  let! x := gets (proc_at p) in
  match nth (Z.to_nat fd) (p_ofile x) None with
  | None => ret None
  | Some f => ret (Some (fd, f))
  end.

Definition set_ofile (p fd : nat) (f : option nat) : K unit :=
  upd_proc p (fun x => set_p_ofile (<[fd := f]> (p_ofile x)) x).

Definition fdalloc (f : nat) : K Z :=
  let! p := curproc in
  let! r := for_find (seq 0 (Z.to_nat NOFILE)) (fun fd =>
    let! x := gets (proc_at p) in
    match nth fd (p_ofile x) None with
    | None => do! set_ofile p fd (Some f); ret (Some (Z.of_nat fd))
    | Some _ => ret None
    end) in
  ret (default (-1) r).

Definition sys_dup : K Z :=
  let! a := argfd 0 in
  match a with
  | None => ret (-1)
  | Some (_, f) =>
      let! fd := fdalloc f in
      if fd <? 0 then ret (-1) else
      let! _ := filedup f in
      ret fd
  end.

Section syscalls.
Variables kend trampoline forkret_addr : Z.
Variable pad : list Z.
Context `{Disk}.

Definition sys_read : K Z :=
  let! p := argaddr 1 in
  let! n := argint 2 in
  let! a := argfd 0 in
  match a with None => ret (-1) | Some (_, f) => fileread f p n end.

Definition sys_write : K Z :=
  let! p := argaddr 1 in
  let! n := argint 2 in
  let! a := argfd 0 in
  match a with None => ret (-1) | Some (_, f) => filewrite f p n end.

Definition sys_close : K Z :=
  let! a := argfd 0 in
  match a with
  | None => ret (-1)
  | Some (fd, f) =>
      let! p := curproc in
      do! set_ofile p (Z.to_nat fd) None;
      do! fileclose kend f;
      ret 0
  end.

Definition sys_fstat : K Z :=
  let! st := argaddr 1 in
  let! a := argfd 0 in
  match a with None => ret (-1) | Some (_, f) => filestat pad f st end.

Definition upd_nlink (i : nat) (d : Z) : K unit :=
  upd_inode i (fun ip => set_i_nlink (i16 (i_nlink ip + d)) ip).

(** end_op(); return r; *)
Definition end_with {A} (r : A) : K A := do! end_op; ret r.

(** bad: of sys_link() *)
Definition link_bad (i : nat) : K Z :=
  do! ilock (Some i);
  do! upd_nlink i (-1);
  do! iupdate i;
  do! iunlockput (Some i);
  end_with (-1).

Definition sys_link : K Z :=
  let! mold := argstr 0 MAXPATH in
  match mold with
  | None => ret (-1)
  | Some old =>
  let! mnew := argstr 1 MAXPATH in
  match mnew with
  | None => ret (-1)
  | Some new =>
  do! begin_op;
  let! mip := namei old in
  match mip with
  | None => end_with (-1)
  | Some i =>
      do! ilock (Some i);
      let! ip := gets (inode_at i) in
      if i_type ip =? T_DIR then
        do! iunlockput (Some i);
        end_with (-1)
      else
        do! upd_nlink i 1;
        do! iupdate i;
        do! iunlock (Some i);
        let! r := nameiparent new in
        match fst r with
        | None => link_bad i
        | Some dp =>
            do! ilock (Some dp);
            let! d := gets (inode_at dp) in
            let! ip := gets (inode_at i) in
            let! bad := (if negb (i_dev d =? i_dev ip) then ret true
                         else let! q := dirlink dp (snd r) (i_inum ip) in ret (q <? 0)) in
            if (bad : bool) then
              do! iunlockput (Some dp);
              link_bad i
            else
              do! iunlockput (Some dp);
              do! iput i;
              end_with 0
        end
  end end end.

Definition isdirempty_body (dp : nat) (off : Z) : K (Z + Z) :=
  let! d := gets (inode_at dp) in
  if negb (off <? i_size d) then ret (inr 1) else
  let! de := read_dirent dp off "isdirempty: readi" in
  if negb (de_inum de =? 0) then ret (inr 0) else ret (inl (off + DIRENT)).

Definition isdirempty (dp : nat) : K Z :=
  let! d := gets (inode_at dp) in
  loop (S (S (Z.to_nat (i_size d / DIRENT)))) (isdirempty_body dp) (2 * DIRENT).

(** bad: of sys_unlink() *)
Definition unlink_bad (dp : nat) : K Z :=
  do! iunlockput (Some dp);
  end_with (-1).

(** sys_unlink() with the entry for [i] at [off] of [dp], both locked. *)
Definition unlink_entry (dp i : nat) (off : Z) : K Z :=
  let! n := writei dp (SLocal (replicate (Z.to_nat DIRENT) 0)) off DIRENT in
  if negb (n =? DIRENT) then panic "unlink: writei" else
  let! ip := gets (inode_at i) in
  do! (if i_type ip =? T_DIR then
         do! upd_nlink dp (-1);
         iupdate dp
       else ret tt);
  do! iunlockput (Some dp);
  do! upd_nlink i (-1);
  do! iupdate i;
  do! iunlockput (Some i);
  end_with 0.

Definition sys_unlink : K Z :=
  let! mpath := argstr 0 MAXPATH in
  match mpath with
  | None => ret (-1)
  | Some path =>
  do! begin_op;
  let! r := nameiparent path in
  match fst r with
  | None => end_with (-1)
  | Some dp =>
      let name := snd r in
      do! ilock (Some dp);
      if (namecmp name (str ".") =? 0) || (namecmp name (str "..") =? 0) then unlink_bad dp else
      let! e := dirlookup dp name in
      match e with
      | None => unlink_bad dp
      | Some (i, off) =>
          do! ilock (Some i);
          let! ip := gets (inode_at i) in
          if i_nlink ip <? 1 then panic "unlink: nlink < 1" else
          let! empty := (if i_type ip =? T_DIR then isdirempty i else ret 1) in
          if empty =? 0 then
            do! iunlockput (Some i);
            unlink_bad dp
          else unlink_entry dp i off
      end
  end end.

(** fail: of create() *)
Definition create_fail (i dp : nat) : K (option nat) :=
  do! upd_inode i (set_i_nlink 0);
  do! iupdate i;
  do! iunlockput (Some i);
  do! iunlockput (Some dp);
  ret None.

(** create() from the new inode [i] on, with [dp] locked. *)
Definition create_new (dp i : nat) (name : list Z) (type major minor : Z) : K (option nat) :=
  do! ilock (Some i);
  do! upd_inode i (set_i_major major);
  do! upd_inode i (set_i_minor minor);
  do! upd_inode i (set_i_nlink 1);
  do! iupdate i;
  let! ip := gets (inode_at i) in
  let! d := gets (inode_at dp) in
  let! bad := (if type =? T_DIR then
                 let! a := dirlink i (str ".") (i_inum ip) in
                 if a <? 0 then ret true else
                 let! b := dirlink i (str "..") (i_inum d) in ret (b <? 0)
               else ret false) in
  if (bad : bool) then create_fail i dp else
  let! r := dirlink dp name (i_inum ip) in
  if r <? 0 then create_fail i dp else
  do! (if type =? T_DIR then
         do! upd_nlink dp 1;
         iupdate dp
       else ret tt);
  do! iunlockput (Some dp);
  ret (Some i).

Definition create (path : list Z) (type major minor : Z) : K (option nat) :=
  let! r := nameiparent path in
  match fst r with
  | None => ret None
  | Some dp =>
      let name := snd r in
      do! ilock (Some dp);
      let! e := dirlookup dp name in
      match e with
      | Some (i, _) =>
          do! iunlockput (Some dp);
          do! ilock (Some i);
          let! ip := gets (inode_at i) in
          if (type =? T_FILE) && ((i_type ip =? T_FILE) || (i_type ip =? T_DEVICE)) then ret (Some i) else
          do! iunlockput (Some i);
          ret None
      | None =>
          let! d := gets (inode_at dp) in
          let! mi := ialloc (i_dev d) type in
          match mi with
          | None =>
              do! iunlockput (Some dp);
              ret None
          | Some i => create_new dp i name type major minor
          end
      end
  end.

(** unlock and leave sys_open() with -1 *)
Definition open_bad (i : nat) : K Z :=
  do! iunlockput (Some i);
  end_with (-1).

(** sys_open() with the inode [i] found or created, and locked. *)
Definition open_inode (i : nat) (omode : Z) : K Z :=
  let! ip := gets (inode_at i) in
  if (i_type ip =? T_DEVICE) && ((i_major ip <? 0) || (NDEV <=? i_major ip)) then open_bad i else
  let! mf := filealloc in
  match mf with
  | None => open_bad i
  | Some f =>
      let! fd := fdalloc f in
      if fd <? 0 then
        do! fileclose kend f;
        open_bad i
      else
        do! (if i_type ip =? T_DEVICE then
               do! upd_file f (set_f_type FD_DEVICE);
               upd_file f (set_f_major (i_major ip))
             else
               do! upd_file f (set_f_type FD_INODE);
               upd_file f (set_f_off 0));
        do! upd_file f (set_f_ip (Some i));
        do! upd_file f (set_f_readable (of_bool (negb (truth (Z.land omode O_WRONLY)))));
        do! upd_file f (set_f_writable (of_bool (truth (Z.land omode O_WRONLY) || truth (Z.land omode O_RDWR))));
        do! (if truth (Z.land omode O_TRUNC) && (i_type ip =? T_FILE) then itrunc i else ret tt);
        do! iunlock (Some i);
        end_with fd
  end.

Definition sys_open : K Z :=
  let! omode := argint 1 in
  let! mpath := argstr 0 MAXPATH in
  match mpath with
  | None => ret (-1)
  | Some path =>
      do! begin_op;
      if truth (Z.land omode O_CREATE) then
        let! mi := create path T_FILE 0 0 in
        match mi with
        | None => end_with (-1)
        | Some i => open_inode i omode
        end
      else
        let! mi := namei path in
        match mi with
        | None => end_with (-1)
        | Some i =>
            do! ilock (Some i);
            let! ip := gets (inode_at i) in
            if (i_type ip =? T_DIR) && negb (omode =? O_RDONLY) then open_bad i
            else open_inode i omode
        end
  end.

(** The common end of sys_mkdir() and sys_mknod(). *)
Definition created (mi : option nat) : K Z :=
  match mi with
  | None => end_with (-1)
  | Some i =>
      do! iunlockput (Some i);
      end_with 0
  end.

Definition sys_mkdir : K Z :=
  do! begin_op;
  let! mpath := argstr 0 MAXPATH in
  match mpath with
  | None => end_with (-1)
  | Some path => let! mi := create path T_DIR 0 0 in created mi
  end.

Definition sys_mknod : K Z :=
  do! begin_op;
  let! major := argint 1 in
  let! minor := argint 2 in
  let! mpath := argstr 0 MAXPATH in
  match mpath with
  | None => end_with (-1)
  | Some path => let! mi := create path T_DEVICE (i16 major) (i16 minor) in created mi
  end.

Definition sys_chdir : K Z :=
  let! p := curproc in
  do! begin_op;
  let! mpath := argstr 0 MAXPATH in
  match mpath with
  | None => end_with (-1)
  | Some path =>
      let! mi := namei path in
      match mi with
      | None => end_with (-1)
      | Some i =>
          do! ilock (Some i);
          let! ip := gets (inode_at i) in
          if negb (i_type ip =? T_DIR) then
            do! iunlockput (Some i);
            end_with (-1)
          else
            do! iunlock (Some i);
            let! x := gets (proc_at p) in
            do! iput_ptr (p_cwd x);
            do! end_op;
            do! upd_proc p (set_p_cwd (Some i));
            ret 0
      end
  end.

(** One argument of sys_exec(), with the pages and strings so far: [inr (false, _)]
    is "goto bad". *)
Definition exec_arg (uargv : Z) (x : Z * list Z * list (list Z))
  : K (Z * list Z * list (list Z) + bool * list Z * list (list Z)) :=
  let '(i, pages, argv) := x in
  if MAXARG <=? i then ret (inr (false, pages, argv)) else
  let! uarg := fetchaddr (u64 (uargv + 8 * i)) in
  match uarg with
  | None => ret (inr (false, pages, argv))
  | Some uarg =>
      if uarg =? 0 then ret (inr (true, pages, argv)) else
      let! pa := kalloc in
      if pa =? 0 then ret (inr (false, pages, argv)) else
      let! r := fetchstr uarg PGSIZE in
      do! modify (fun k => set_k_mem (store_bytes (k_mem k) pa (fst r)) k);
      match snd r with
      | None => ret (inr (false, pages ++ [pa], argv))
      | Some s => ret (inl (i + 1, pages ++ [pa], argv ++ [s]))
      end
  end.

Definition sys_exec : K Z :=
  let! uargv := argaddr 1 in
  let! mpath := argstr 0 MAXPATH in
  match mpath with
  | None => ret (-1)
  | Some path =>
      let! r := loop (S (S (Z.to_nat MAXARG))) (exec_arg uargv) (0, [], []) in
      let '(ok, pages, argv) := r in
      let! v := (if (ok : bool) then exec kend trampoline path argv else ret (-1)) in
      do! for_each pages (kfree kend);
      ret v
  end.

(** Undo of sys_pipe(). *)
Definition pipe_bad (rf wf : nat) : K Z :=
  do! fileclose kend rf;
  do! fileclose kend wf;
  ret (-1).

Definition sys_pipe : K Z :=
  let! p := curproc in
  let! fdarray := argaddr 0 in
  let! r := pipealloc kend in
  match r with
  | None => ret (-1)
  | Some (rf, wf) =>
      let! fd0 := fdalloc rf in
      if fd0 <? 0 then pipe_bad rf wf else
      let! fd1 := fdalloc wf in
      if fd1 <? 0 then
        do! set_ofile p (Z.to_nat fd0) None;
        pipe_bad rf wf
      else
        let! pt := pagetable_of p in
        let! a := copyout pt fdarray (le_bytes 4 fd0) in
        let! bad := (if a <? 0 then ret true else
                     let! b := copyout pt (u64 (fdarray + 4)) (le_bytes 4 fd1) in ret (b <? 0)) in
        if (bad : bool) then
          do! set_ofile p (Z.to_nat fd0) None;
          do! set_ofile p (Z.to_nat fd1) None;
          pipe_bad rf wf
        else ret 0
  end.

(** ** sysproc.c *)

Definition sys_exit : K Z := let! n := argint 0 in exit kend n.

Definition sys_getpid : K Z := let! p := curproc in gets (fun k => p_pid (proc_at p k)).

Definition sys_fork : K Z := fork kend trampoline forkret_addr.

Definition sys_wait : K Z := let! p := argaddr 0 in wait kend p.

Definition sys_sbrk : K Z :=
  let! n := argint 0 in
  let! p := curproc in
  let! addr := gets (fun k => p_sz (proc_at p k)) in
  let! r := growproc kend n in
  if r <? 0 then ret (-1) else ret addr.

(** sys_sleep() from the test of its loop on. *)
Definition sys_sleep_from (ticks0 n : Z) : K Z :=
  let! ticks := gets k_ticks in
  if u32 (ticks - ticks0) <? u32 n then
    let! p := curproc in
    let! dead := killed p in
    if truth dead then
      do! release LTicks;
      ret (-1)
    else sleep ChTicks LTicks
  else
    do! release LTicks;
    ret 0.

Definition sys_sleep : K Z :=
  let! n := argint 0 in
  let n := if n <? 0 then 0 else n in
  do! acquire LTicks;
  let! ticks0 := gets k_ticks in
  sys_sleep_from ticks0 n.

Definition sys_kill : K Z := let! pid := argint 0 in kill pid.

Definition sys_uptime : K Z :=
  do! acquire LTicks;
  let! xticks := gets k_ticks in
  do! release LTicks;
  ret xticks.

(** ** syscall.c: the dispatcher *)

Definition syscalls (num : Z) : option (K Z) :=
  match num with
  | 1 => Some sys_fork | 2 => Some sys_exit | 3 => Some sys_wait | 4 => Some sys_pipe
  | 5 => Some sys_read | 6 => Some sys_kill | 7 => Some sys_exec | 8 => Some sys_fstat
  | 9 => Some sys_chdir | 10 => Some sys_dup | 11 => Some sys_getpid | 12 => Some sys_sbrk
  | 13 => Some sys_sleep | 14 => Some sys_uptime | 15 => Some sys_open | 16 => Some sys_write
  | 17 => Some sys_mknod | 18 => Some sys_unlink | 19 => Some sys_link | 20 => Some sys_mkdir
  | 21 => Some sys_close
  | _ => None
  end.

Definition syscall : K unit :=
  let! p := curproc in
  let! a7 := tf_get p tf_a7 in
  let num := i32 a7 in
  match syscalls num with
  | Some f =>
      let! r := f in
      tf_set p tf_a0 (u64 r)
  | None =>
      let! x := gets (proc_at p) in
      let! _ := printf (str "%d %s: unknown sys call %d" ++ [nl])
                  [ANum (p_pid x); AStr (Some (cstr (p_name x))); ANum num] in
      tf_set p tf_a0 (u64 (-1))
  end.

End syscalls.
