(* ===== verification/Fdesc.v ===== *)
(** * Fdesc: file descriptors and the open-file table

    The count in an entry of the open-file table is the number of descriptors,
    over all processes, that refer to it.  dup() and close() keep this so; they
    hand out the lowest free descriptor and refuse one that is not open. *)

From Stdlib Require Import ZArith Lia.
From stdpp Require Import base gmap list strings.
From S2P Require Import Prelude Bytes State Riscv Spinlock Sched Sleeplock Mem Kalloc Bio Log Trans Vm Pipe Uart Printf Console Virtio Fs File Proc Exec Fcntl Syscall Sums Itable.

(** ** Counting descriptors *)

Definition fd_count (f : nat) (x : proc) : Z :=
  sum_by (fun o => if decide (o = Some f) then 1 else 0) (p_ofile x).
Definition holders (f : nat) (k : kstate) : Z := sum_by (fd_count f) (k_procs k).

Record fds_ok (k : kstate) : Prop := {
  fo_files : length (k_files k) = Z.to_nat NFILE;
  fo_fds : forall p, (p < Z.to_nat NPROC)%nat -> length (p_ofile (proc_at p k)) = Z.to_nat NOFILE;
  fo_range : forall p fd f, p_ofile (proc_at p k) !! fd = Some (Some f) -> (f < Z.to_nat NFILE)%nat;
  fo_ref : forall f, (f < Z.to_nat NFILE)%nat -> f_ref (file_at f k) = holders f k }.

(** Process [p] with descriptor [fd] set to [o]. *)
Definition with_fd (p fd : nat) (o : option nat) (k : kstate) : kstate :=
  set_k_procs (<[p := set_p_ofile (<[fd := o]> (p_ofile (proc_at p k))) (proc_at p k)]> (k_procs k)) k.

Lemma proc_lookup p k : (p < length (k_procs k))%nat -> k_procs k !! p = Some (proc_at p k).
Proof. intros Hp. unfold proc_at. by destruct (lookup_lt_is_Some_2 _ _ Hp) as [x ->]. Qed.

Lemma proc_at_with_fd p fd o k q : (p < length (k_procs k))%nat -> proc_at q (with_fd p fd o k) =
  if decide (q = p) then set_p_ofile (<[fd := o]> (p_ofile (proc_at p k))) (proc_at p k) else proc_at q k.
Proof.
  intros Hp. unfold with_fd, proc_at at 1. cbn. case_decide as E.
  - subst. by rewrite list_lookup_insert_eq.
  - by rewrite list_lookup_insert_ne.
Qed.

Lemma holders_with_fd p fd o o' k f : (p < length (k_procs k))%nat -> p_ofile (proc_at p k) !! fd = Some o' ->
  holders f (with_fd p fd o k) = holders f k - (if decide (o' = Some f) then 1 else 0) + (if decide (o = Some f) then 1 else 0).
Proof.
  intros Hp Hfd. unfold holders, with_fd. cbn. rewrite (sum_by_insert _ _ _ (proc_at p k)) by by apply proc_lookup.
  unfold fd_count at 3. cbn. rewrite (sum_by_insert _ _ _ o') by done. unfold fd_count at 2. lia.
Qed.

Lemma fd_weight (f : nat) (o : option nat) : 0 <= (if decide (o = Some f) then 1 else 0).
Proof. by case_decide. Qed.

Lemma fd_count_nonneg f x : 0 <= fd_count f x.
Proof. apply sum_by_nonneg, fd_weight. Qed.

(** An open descriptor is a reference. *)
Lemma holders_pos p fd f k : (p < length (k_procs k))%nat -> p_ofile (proc_at p k) !! fd = Some (Some f) -> 1 <= holders f k.
Proof.
  intros Hp Hfd. unfold holders.
  pose proof (sum_by_at_least (fd_count f) _ _ _ (fd_count_nonneg f) (proc_lookup p k Hp)).
  pose proof (sum_by_at_least (fun o => if decide (o = Some f) then 1 else 0) _ _ _ (fd_weight f) Hfd) as H1.
  cbn beta in H1. rewrite decide_True in H1 by done. unfold fd_count in *. lia.
Qed.

(** ** Arguments and descriptors *)

Definition arg0 (p : nat) (k : kstate) : Z := i32 (load64 (k_mem k) (p_trapframe (proc_at p k) + tf_a0)).

(** The file open as descriptor [fd]. *)
Definition open_as (p : nat) (k : kstate) (fd : Z) : option nat :=
  if (fd <? 0) || (NOFILE <=? fd) then None else nth (Z.to_nat fd) (p_ofile (proc_at p k)) None.

Lemma argfd_run p k : thread_ok p k ->
  argfd 0 k = Ret (match open_as p k (arg0 p k) with Some f => Some (arg0 p k, f) | None => None end) k.
Proof.
  intros [Hok _ Hp _ _ _]. unfold argfd, argint, argraw. rewrite !bind_assoc.
  erewrite bind_ret_run by by apply curproc_run. change (0 =? 0) with true. cbv iota.
  erewrite bind_ret_run by reflexivity. erewrite bind_ret_run by reflexivity.
  fold (arg0 p k). unfold open_as. destruct (_ || _); [done|].
  erewrite bind_ret_run by by apply curproc_run. erewrite bind_ret_run by reflexivity.
  by destruct (nth _ _ _).
Qed.

(** fdalloc() takes the lowest descriptor that is closed. *)
Definition is_closed (p : nat) (k : kstate) (fd : nat) : bool := bool_decide (nth fd (p_ofile (proc_at p k)) None = None).

Lemma for_find_pure {A B} (l : list A) (body : A -> K (option B)) (g : A -> bool) (r : A -> B) (s : A -> kstate) k :
  (forall a, a ∈ l -> body a k = if g a then Ret (Some (r a)) (s a) else Ret None k) ->
  for_find l body k = match List.find g l with Some a => Ret (Some (r a)) (s a) | None => Ret None k end.
Proof.
  induction l as [|a l IH]; intros Hb; cbn [for_find List.find]; [done|].
  unfold bind. rewrite Hb by left. destruct (g a); [done|]. cbn. apply IH. intros x Hx. apply Hb. by right.
Qed.

Lemma fdalloc_run p f k : thread_ok p k -> fdalloc f k =
  match List.find (is_closed p k) (seq 0 (Z.to_nat NOFILE)) with
  | Some fd => Ret (Z.of_nat fd) (with_fd p fd (Some f) k)
  | None => Ret (-1) k
  end.
Proof.
  intros [Hok _ Hp _ _ _]. unfold fdalloc. erewrite bind_ret_run by by apply curproc_run.
  unfold bind at 1. rewrite (for_find_pure _ _ (is_closed p k) Z.of_nat (fun fd => with_fd p fd (Some f) k)).
  - by destruct (List.find _ _).
  - intros fd _. unfold is_closed. erewrite bind_ret_run by reflexivity. cbn beta.
    destruct (nth fd (p_ofile (proc_at p k)) None); [by rewrite bool_decide_false|]. rewrite bool_decide_true by done. reflexivity.
Qed.

(** ** The open-file table *)

Lemma ftable_acquire k : lock_free k LFtable ->
  acquire LFtable k = Ret tt (set_k_files (k_files k) (enter LFtable k)).
Proof. intros Hl. rewrite acquire_run by done. by destruct k. Qed.

Lemma ftable_release k l : cpu_ok k -> lock_free k LFtable ->
  release LFtable (set_k_files l (enter LFtable k)) = Ret tt (set_k_files l k).
Proof. intros Hok Hl. by rewrite (release_run _ k). Qed.

Lemma upd_file_run f g l k : upd_file f g (set_k_files l k) = Ret tt (set_k_files (alter g f l) k).
Proof. reflexivity. Qed.

Lemma file_at_set f l k : file_at f (set_k_files l k) = default zero_file (l !! f).
Proof. reflexivity. Qed.

Lemma file_lookup f k : (f < length (k_files k))%nat -> k_files k !! f = Some (file_at f k).
Proof. intros Hf. unfold file_at. by destruct (lookup_lt_is_Some_2 _ _ Hf) as [x ->]. Qed.

(** The table with the count of [f] changed by [d]. *)
Definition with_ref (f : nat) (d : Z) (k : kstate) : kstate :=
  set_k_files (<[f := set_f_ref (f_ref (file_at f k) + d) (file_at f k)]> (k_files k)) k.

Lemma file_at_with_ref f d k g : (f < length (k_files k))%nat ->
  file_at g (with_ref f d k) = if decide (g = f) then set_f_ref (f_ref (file_at f k) + d) (file_at f k) else file_at g k.
Proof.
  intros Hf. unfold with_ref. rewrite file_at_set. case_decide as E.
  - subst. by rewrite list_lookup_insert_eq.
  - by rewrite list_lookup_insert_ne.
Qed.

Lemma filedup_run f k : cpu_ok k -> lock_free k LFtable -> (f < length (k_files k))%nat ->
  1 <= f_ref (file_at f k) < 2 ^ 31 - 1 -> filedup f k = Ret f (with_ref f 1 k).
Proof.
  intros Hok Hl Hf Hr. unfold filedup. erewrite bind_ret_run by by apply ftable_acquire.
  erewrite bind_ret_run by reflexivity. rewrite file_at_set. fold (file_at f k).
  destruct (Z.ltb_spec (f_ref (file_at f k)) 1); [lia|].
  erewrite bind_ret_run by apply upd_file_run. erewrite bind_ret_run by by apply ftable_release.
  rewrite (alter_insert _ _ f (file_at f k)) by by apply file_lookup. rewrite i32_small by lia. done.
Qed.

Lemma fileclose_shared `{Disk} kend f k : cpu_ok k -> lock_free k LFtable -> (f < length (k_files k))%nat ->
  1 < f_ref (file_at f k) -> fileclose kend f k = Ret tt (with_ref f (-1) k).
Proof.
  intros Hok Hl Hf Hr. unfold fileclose. erewrite bind_ret_run by by apply ftable_acquire.
  erewrite bind_ret_run by reflexivity. rewrite file_at_set. fold (file_at f k).
  destruct (Z.ltb_spec (f_ref (file_at f k)) 1); [lia|].
  erewrite bind_ret_run by apply upd_file_run. erewrite bind_ret_run by reflexivity. rewrite file_at_set.
  rewrite (alter_insert _ _ f (file_at f k)) by by apply file_lookup.
  rewrite list_lookup_insert_eq by done. cbn [default f_ref set_f_ref id].
  destruct (Z.ltb_spec 0 (f_ref (file_at f k) - 1)); [|lia]. by rewrite ftable_release.
Qed.

(** The count and the descriptors change together. *)
Lemma fds_ok_change p fd o o' f d k : fds_ok k -> procs_ok k -> (p < Z.to_nat NPROC)%nat ->
  p_ofile (proc_at p k) !! fd = Some o' -> (f < Z.to_nat NFILE)%nat ->
  (forall g, o = Some g -> g = f) ->
  (forall g, d * (if decide (g = f) then 1 else 0) =
     (if decide (o = Some g) then 1 else 0) - (if decide (o' = Some g) then 1 else 0)) ->
  fds_ok (with_ref f d (with_fd p fd o k)).
Proof.
  intros [Hl Hn Hr Hc] Hps Hp Hfd Hf Ho Hd. assert (Hpl : (p < length (k_procs k))%nat) by (rewrite Hps; lia).
  assert (Hproc : forall q, proc_at q (with_ref f d (with_fd p fd o k)) = proc_at q (with_fd p fd o k)) by done.
  split.
  - unfold with_ref. cbn. by rewrite length_insert.
  - intros q Hq. rewrite Hproc, proc_at_with_fd by done. case_decide; [|auto]. cbn. rewrite length_insert. auto.
  - intros q fd' g. rewrite Hproc, proc_at_with_fd by done. case_decide; [|by apply Hr]. cbn.
    destruct (decide (fd' = fd)) as [->|Hne].
    + rewrite list_lookup_insert_eq by (by apply lookup_lt_Some in Hfd). intros [= ->]. by rewrite (Ho g eq_refl).
    + rewrite list_lookup_insert_ne by done. by apply Hr.
  - intros g Hg. change (holders g (with_ref f d (with_fd p fd o k))) with (holders g (with_fd p fd o k)).
    rewrite (holders_with_fd p fd o o') by done. rewrite file_at_with_ref by (cbn; lia).
    specialize (Hd g). specialize (Hc g Hg). change (file_at ?x (with_fd p fd o k)) with (file_at x k).
    destruct (decide (g = f)) as [->|]; cbn [f_ref set_f_ref]; lia.
Qed.

Lemma find_first (f : nat -> bool) n : match List.find f (seq 0 n) with
  | Some i => (i < n)%nat /\ f i = true /\ forall j, (j < i)%nat -> f j = false
  | None => forall i, (i < n)%nat -> f i = false
  end.
Proof.
  assert (Hg : forall m s, match List.find f (seq s m) with
    | Some i => (s <= i < s + m)%nat /\ f i = true /\ forall j, (s <= j < i)%nat -> f j = false
    | None => forall i, (s <= i < s + m)%nat -> f i = false end).
  { induction m as [|m IH]; intros s; cbn; [intros i; lia|]. destruct (f s) eqn:Es; [split_and!; [lia|lia|done|intros; lia]|].
    specialize (IH (S s)). destruct (List.find f (seq (S s) m)) as [i|].
    - destruct IH as (H1 & H2 & H3). split_and!; [lia|lia|done|]. intros j Hj. destruct (decide (j = s)) as [->|]; [done|]. apply H3. lia.
    - intros i Hi. destruct (decide (i = s)) as [->|]; [done|]. apply IH. lia. }
  specialize (Hg n 0%nat). destruct (List.find f (seq 0 n)) as [i|].
  - destruct Hg as (H1 & H2 & H3). split_and!; [lia|done|]. intros j Hj. apply H3. lia.
  - intros i Hi. apply Hg. lia.
Qed.

(** ** dup() and close() *)

Lemma open_lookup p k fd f : length (p_ofile (proc_at p k)) = Z.to_nat NOFILE -> open_as p k fd = Some f ->
  0 <= fd < NOFILE /\ p_ofile (proc_at p k) !! Z.to_nat fd = Some (Some f).
Proof.
  intros Hlen. unfold open_as. destruct (Z.ltb_spec fd 0), (Z.leb_spec NOFILE fd); try done. cbn [orb].
  intros Hn. split; [lia|]. rewrite nth_lookup in Hn. by destruct (_ !! _) as [o|]; [cbn in Hn; subst|].
Qed.

Lemma closed_lookup p k fd : length (p_ofile (proc_at p k)) = Z.to_nat NOFILE -> (fd < Z.to_nat NOFILE)%nat ->
  is_closed p k fd = true -> p_ofile (proc_at p k) !! fd = Some None.
Proof.
  intros Hlen Hfd Hc%bool_decide_eq_true. rewrite nth_lookup in Hc.
  destruct (lookup_lt_is_Some_2 (p_ofile (proc_at p k)) fd ltac:(lia)) as [o Ho]. rewrite Ho in Hc |- *. cbn in Hc. by subst.
Qed.

Lemma with_fd_thread p fd o k : thread_ok p k -> thread_ok p (with_fd p fd o k).
Proof. intros [Hok Hn Hp Hlt Hps Hf]. split; try done. unfold with_fd, procs_ok. cbn. by rewrite length_insert. Qed.


(** ** A process with one file open twice *)

Definition fds_none (k : kstate) : kstate :=
  set_k_mem ∅ (set_k_files (replicate (Z.to_nat NFILE) zero_file)
    (set_k_procs (replicate (Z.to_nat NPROC) zero_proc) (with_lock LFtable k))).

Definition fds_on (p : nat) (k : kstate) : kstate :=
  with_ref 0 1 (with_fd p 1 (Some 0%nat) (with_ref 0 1 (with_fd p 0 (Some 0%nat) (fds_none k)))).

Lemma fds_none_proc q k : proc_at q (fds_none k) = zero_proc.
Proof.
  unfold fds_none, proc_at. cbn [k_procs set_k_mem set_k_files set_k_procs].
  destruct (replicate _ zero_proc !! q) eqn:E; [|done]. by apply lookup_replicate in E as [-> _].
Qed.

Lemma fds_none_file g k : file_at g (fds_none k) = zero_file.
Proof.
  unfold fds_none, file_at. cbn [k_files set_k_mem set_k_files].
  destruct (replicate _ zero_file !! g) eqn:E; [|done]. by apply lookup_replicate in E as [-> _].
Qed.

Lemma fds_none_ok k : fds_ok (fds_none k).
Proof.
  split.
  - apply length_replicate.
  - intros q _. rewrite fds_none_proc. apply length_replicate.
  - intros q fd f. rewrite fds_none_proc. intros Hr%lookup_replicate. by destruct Hr.
  - intros f _. rewrite fds_none_file. unfold holders. rewrite sum_by_zero; [done|].
    intros x Hx. apply elem_of_replicate in Hx as [-> _]. apply sum_by_zero. intros o Ho.
    apply elem_of_replicate in Ho as [-> _]. by rewrite decide_False.
Qed.

Lemma with_ref_thread p f d k : thread_ok p k -> thread_ok p (with_ref f d k).
Proof. intros [Hok Hn Hp Hlt Hps Hf]. by split. Qed.

Lemma fds_none_thread p k : thread_ok p k -> thread_ok p (fds_none k).
Proof.
  intros Hth. apply (with_lock_thread LFtable) in Hth; [|done]. destruct Hth as [Hok Hn Hp Hlt Hps Hf].
  split; try done.
Qed.

Lemma fds_on_step p fd k : thread_ok p k -> fds_ok k -> p_ofile (proc_at p k) !! fd = Some None ->
  thread_ok p (with_ref 0 1 (with_fd p fd (Some 0%nat) k)) /\ fds_ok (with_ref 0 1 (with_fd p fd (Some 0%nat) k)).
Proof.
  intros Hth Hok Hfd. split; [by apply with_ref_thread, with_fd_thread|].
  apply (fds_ok_change p fd (Some 0%nat) None 0 1); try done; [apply Hth|apply Hth|by apply Nat.ltb_lt|by intros g [= ->]|].
  intros g. repeat case_decide; congruence || lia.
Qed.

Lemma fds_on_proc p k : thread_ok p k ->
  proc_at p (fds_on p k) = set_p_ofile (<[1%nat := Some 0%nat]> (<[0%nat := Some 0%nat]> (p_ofile zero_proc))) zero_proc.
Proof.
  intros Hth%fds_none_thread. unfold fds_on.
  change (proc_at p (with_ref 0 1 ?s)) with (proc_at p s).
  assert (Hl : (p < length (k_procs (fds_none k)))%nat) by (rewrite (th_procs _ _ Hth); apply Hth).
  rewrite proc_at_with_fd by (unfold with_ref, with_fd; cbn; rewrite length_insert; exact Hl).
  rewrite decide_True by done. change (proc_at p (with_ref 0 1 ?s)) with (proc_at p s).
  rewrite proc_at_with_fd by exact Hl. rewrite decide_True by done. by rewrite fds_none_proc.
Qed.

Lemma fds_on_ok p k : thread_ok p k -> thread_ok p (fds_on p k) /\ fds_ok (fds_on p k).
Proof.
  intros Hth%fds_none_thread. unfold fds_on.
  destruct (fds_on_step p 0 (fds_none k) Hth (fds_none_ok k)) as [H1 H2]; [by rewrite fds_none_proc|].
  apply fds_on_step; [done|done|]. change (proc_at p (with_ref 0 1 ?s)) with (proc_at p s).
  rewrite proc_at_with_fd by (rewrite (th_procs _ _ Hth); apply Hth).
  rewrite decide_True by done. by rewrite fds_none_proc.
Qed.

Lemma fds_on_file p k g : file_at g (fds_on p k) = if decide (g = 0%nat) then set_f_ref 2 zero_file else zero_file.
Proof.
  assert (Hl : (0 < length (k_files (fds_none k)))%nat) by (apply Nat.ltb_lt; reflexivity).
  unfold fds_on. rewrite file_at_with_ref by (unfold with_ref, with_fd; cbn; rewrite length_insert; exact Hl).
  change (file_at ?x (with_fd _ _ _ ?s)) with (file_at x s). rewrite !file_at_with_ref by exact Hl.
  change (file_at ?x (with_fd _ _ _ ?s)) with (file_at x s). rewrite !fds_none_file.
  rewrite (decide_True (P := 0%nat = 0%nat)) by done. by case_decide.
Qed.

Lemma fds_on_arg p k : thread_ok p k -> arg0 p (fds_on p k) = 0.
Proof. intros Hth. unfold arg0. rewrite (fds_on_proc p k Hth). reflexivity. Qed.

Lemma fds_on_lock p k : lock_free (fds_on p k) LFtable.
Proof. exact (with_lock_free LFtable k). Qed.

Lemma fds_on_open p k : thread_ok p k -> open_as p (fds_on p k) 0 = Some 0%nat.
Proof. intros Hth. unfold open_as. rewrite (fds_on_proc p k Hth). reflexivity. Qed.

