(* ===== verification/Fork.v ===== *)
(** * Fork: a new process (allocproc() and fork() of kernel/proc.c)

    allocproc() takes the first free slot and gives it a process id, a trapframe and a page
    table, or gives back what it took.  fork() makes of it a copy of the caller: the same
    memory in pages of its own, the same registers but for the result, the same open files
    and directory, which are counted once more. *)

From Stdlib Require Import ZArith Lia.
From stdpp Require Import base gmap list strings.
From S2P Require Import Prelude Bytes State Riscv Sums Spinlock Sched Sleeplock Mem Kalloc Bio Log Vm Uvm Ucopy Pipe Printf Console Fs Itable File Proc Procmem Syscall Fdesc.

(** The registers of the process at [src], with 0 as the result of the system call. *)
Definition frame_copy (m : mem) (dst src : Z) : mem := store64 (memmove m dst src sizeof_trapframe) (dst + tf_a0) 0.

Lemma frame_copy_ld m dst src a : ld (frame_copy m dst src) a =
  if decide (dst + tf_a0 <= a < dst + tf_a0 + 8) then 0
  else if decide (dst <= a < dst + sizeof_trapframe) then ld m (src + (a - dst)) else ld m a.
Proof.
  unfold frame_copy, store64. rewrite ld_store_bytes, memmove_ld by done. change (Z.of_nat (length (le_bytes 8 0))) with 8.
  case_decide; [|done]. change (le_bytes 8 0) with (replicate 8 0). rewrite lookup_total_replicate_2; [done|lia].
Qed.

#[local] Opaque memset store64 load64 memmove.

Definition is_unused (k : kstate) (i : nat) : bool := bool_decide (p_state (proc_at i k) = UNUSED).

Lemma find_unused_run k : cpu_ok k -> all_plocks_free k -> find_unused k =
  match List.find (is_unused k) proc_indices with Some i => Ret (Some i) (enter (LProc i) k) | None => Ret None k end.
Proof.
  intros Hc Hf. unfold find_unused, proc_indices.
  assert (Forall (fun i => i < Z.to_nat NPROC)%nat (seq 0 (Z.to_nat NPROC))) as Hl by (apply Forall_seq; lia).
  induction Hl as [|i l Hi Hl IH]; [done|]. cbn [for_find List.find]. rewrite bind_assoc.
  erewrite bind_ret_run by by apply acquire_run, Hf. unfold gets at 1. rewrite bind_assoc. unfold bind at 1.
  change (proc_at i (enter (LProc i) k)) with (proc_at i k). unfold is_unused at 1.
  destruct (decide (p_state (proc_at i k) = UNUSED)) as [Hu|Hu]; [by rewrite bool_decide_true|].
  rewrite bool_decide_false, bind_assoc by done. erewrite bind_ret_run by (apply (release_run _ k); [by apply Hf|done|done]).
  rewrite restore_enter. unfold ret at 1, bind at 1. exact IH.
Qed.

Lemma allocpid_run k : cpu_ok k -> lock_free k LPid -> allocpid k = Ret (k_nextpid k) (set_k_nextpid (i32 (k_nextpid k + 1)) k).
Proof.
  intros Hc Hf. unfold allocpid. erewrite bind_ret_run by by apply acquire_run. unfold gets at 1, bind at 1, modify at 1, bind at 1.
  erewrite bind_ret_run by by apply (release_run _ k). by destruct k.
Qed.

Section fork.
Variables kend trampoline forkret_addr : Z.
Hypothesis kend_pos : 0 < kend.
Hypothesis Htramp : trampoline mod PGSIZE = 0 /\ 0 <= trampoline /\ trampoline + PGSIZE <= 2 ^ 56.

(** A slot that nobody uses owns no memory and no files. *)
Definition blank (x : proc) : Prop :=
  p_state x = UNUSED -> p_pagetable x = 0 /\ p_trapframe x = 0 /\ p_sz x = 0 /\ p_ofile x = replicate (Z.to_nat NOFILE) None.

(** freeproc() of a process without a page table. *)
Lemma freeproc_bare i x ps k : (i < length ps)%nat -> p_pagetable x = 0 -> p_trapframe x = 0 ->
  freeproc kend i (set_k_procs (<[i := x]> ps) k) = Ret tt (set_k_procs (<[i := unused x]> ps) k).
Proof using.
  intros Hi Hpt Htf. unfold freeproc. unfold gets at 1, bind at 1.
  assert (proc_at i (set_k_procs (<[i := x]> ps) k) = x) as -> by (unfold proc_at; cbn; by rewrite list_lookup_insert_eq).
  rewrite Hpt, Htf. change (truth 0) with false. cbv iota. unfold ret at 1, bind at 1.
  erewrite bind_ret_run by by apply upd_proc_run. unfold ret at 1, bind at 1.
  do 8 (erewrite bind_ret_run by by apply upd_proc_run). rewrite upd_proc_run by done. by destruct x.
Qed.

Lemma freeproc_frame i x ps k tf m f : (i < length ps)%nat -> p_pagetable x = 0 -> p_trapframe x = tf -> tf <> 0 ->
  kfree kend tf (set_k_procs (<[i := x]> ps) k) = Ret tt (set_k_procs (<[i := x]> ps) (set_k_mem m (set_k_freelist f k))) ->
  freeproc kend i (set_k_procs (<[i := x]> ps) k) = Ret tt (set_k_procs (<[i := unused x]> ps) (set_k_mem m (set_k_freelist f k))).
Proof using.
  intros Hi Hpt Htf Hne R. unfold freeproc. unfold gets at 1, bind at 1.
  assert (proc_at i (set_k_procs (<[i := x]> ps) k) = x) as -> by (unfold proc_at; cbn; by rewrite list_lookup_insert_eq).
  rewrite Hpt, Htf, truth_true by done. erewrite bind_ret_run by exact R.
  erewrite bind_ret_run by by apply upd_proc_run. change (truth 0) with false. cbv iota. unfold ret at 1, bind at 1.
  do 8 (erewrite bind_ret_run by by apply upd_proc_run). rewrite upd_proc_run by done. by destruct x.
Qed.

(** The state after allocproc(): the table, the memory and the next process id have changed. *)
Definition alloced (ps : list proc) (m : mem) (f n : Z) (k : kstate) : kstate :=
  set_k_procs ps (set_k_mem m (set_k_freelist f (set_k_nextpid n k))).

(** A slot that allocproc() has filled. *)
Definition fresh (pid tf root : Z) (x : proc) : proc :=
  set_p_context (mkContext forkret_addr (p_kstack x + PGSIZE) (replicate 12 0))
    (set_p_pagetable root (set_p_trapframe tf (set_p_state USED (set_p_pid pid x)))).

Lemma abandon_run i x ps m f n k : cpu_ok k -> lock_free k (LProc i) ->
  freeproc kend i (alloced (<[i := x]> ps) m f n (enter (LProc i) k)) = Ret tt (alloced (<[i := unused x]> ps) m f n (enter (LProc i) k)) ->
  abandon kend i (alloced (<[i := x]> ps) m f n (enter (LProc i) k)) = Ret None (alloced (<[i := unused x]> ps) m f n k).
Proof using.
  intros Hc Hl R. unfold abandon. erewrite bind_ret_run by exact R.
  erewrite bind_ret_run by by apply (release_run _ k). by destruct k.
Qed.

Record can_alloc (k : kstate) (l : list Z) : Prop := {
  ca_cpu : cpu_ok k;
  ca_procs : procs_ok k;
  ca_plocks : all_plocks_free k;
  ca_pid : lock_free k LPid;
  ca_lock : lock_free k LKmem;
  ca_free : kmem_ok kend k l;
  ca_blank : forall i, blank (proc_at i k) }.

Lemma kmem_ok_state k k' l : kmem_ok kend k l -> k_mem k' = k_mem k -> k_freelist k' = k_freelist k -> kmem_ok kend k' l.
Proof using. intros [H1 H2 H3] Hm Hf. split; rewrite ?Hm, ?Hf; done. Qed.

Lemma allocproc_run k l : can_alloc k l ->
  exists o ps m f n l', (forall d, page_ok kend d -> d ∉ l -> kept k (set_k_mem m k) d) /\
  match o with
  | None => allocproc kend trampoline forkret_addr k = Ret None (alloced ps m f n k) /\ kmem_ok kend (alloced ps m f n k) l' /\
      (forall q, q ∈ l' <-> q ∈ l) /\
      (ps = k_procs k \/ exists i x, ps = <[i := unused x]> (k_procs k) /\ p_state (proc_at i k) = UNUSED)
  | Some i => List.find (is_unused k) proc_indices = Some i /\ exists root tf t,
      let k' := alloced ps m f n (enter (LProc i) k) in
      allocproc kend trampoline forkret_addr k = Ret (Some i) k' /\
      ps = <[i := fresh (k_nextpid k) tf root (proc_at i k)]> (k_procs k) /\ n = i32 (k_nextpid k + 1) /\
      proc_mem kend k' l' root t ∅ 0 tf /\ page_ok kend tf /\ ~ acct l' t ∅ tf /\ root <> 0 /\ (forall q, q ∈ l <-> q = tf \/ acct l' t ∅ q)
  end.
Proof using kend_pos Htramp.
  intros [Hc Hps Hf Hpid Hlk Hk Hb]. unfold allocproc. pose proof (find_unused_run k Hc Hf) as R0.
  destruct (List.find (is_unused k) proc_indices) as [i|] eqn:Hfind; erewrite bind_ret_run by exact R0.
  2: { exists None, (k_procs k), (k_mem k), (k_freelist k), (k_nextpid k), l. split; [done|]. split_and!; [by destruct k|by eapply kmem_ok_state|done|by left]. }
  pose proof (List.find_some _ _ Hfind) as [Hi Hu]. apply in_seq in Hi. apply bool_decide_eq_true in Hu.
  destruct (Hb i Hu) as (Bpt & Btf & Bsz & _). assert (i < length (k_procs k))%nat as Hil by (rewrite Hps; lia).
  assert (lock_free k (LProc i)) as Hli by (apply Hf; lia). pose proof (proc_lookup i k Hil) as Hx.
  set (x := proc_at i k) in *. set (ke := enter (LProc i) k). set (n := i32 (k_nextpid k + 1)). set (ps := k_procs k) in *.
  erewrite bind_ret_run by (apply allocpid_run; [by apply enter_cpu_ok|by apply enter_lock_free]).
  assert (set_k_nextpid (i32 (k_nextpid ke + 1)) ke = set_k_procs (<[i := x]> ps) (set_k_nextpid n ke)) as ->.
  { unfold x, ps. rewrite list_insert_id by done. by destruct k. }
  change (k_nextpid ke) with (k_nextpid k). do 2 (erewrite bind_ret_run by by apply upd_proc_run).
  set (x2 := set_p_state USED (set_p_pid (k_nextpid k) x)). set (s2 := set_k_procs (<[i := x2]> ps) (set_k_nextpid n ke)).
  assert (cpu_ok s2 /\ lock_free s2 LKmem) as [Hc2 Hl2] by (split; [apply (enter_cpu_ok (LProc i) k Hc)|by apply (enter_lock_free (LProc i) LKmem k)]).
  assert (kmem_ok kend s2 l) as Hk2 by by eapply kmem_ok_state.
  destruct l as [|tf l].
  { exists None, (<[i := unused (set_p_trapframe 0 x2)]> ps), (k_mem k), (k_freelist k), n, []. split; [done|].
    erewrite bind_ret_run by by apply (kalloc_none kend). unfold s2. erewrite bind_ret_run by by apply upd_proc_run. cbn [Z.eqb].
    split_and!; [|by eapply kmem_ok_state|done|right; by exists i, (set_p_trapframe 0 x2)].
    apply (abandon_run i (set_p_trapframe 0 x2) ps (k_mem k) (k_freelist k) n k Hc Hli). by apply (freeproc_bare i (set_p_trapframe 0 x2)). }
  destruct (kalloc_spec kend kend_pos s2 tf l Hc2 Hl2 Hk2) as (m3 & f3 & R3 & Hk3 & Hm3). erewrite bind_ret_run by exact R3.
  pose proof Hk as [_ Hpages Hnd]. inversion Hpages as [|? ? Htf _]; subst. inversion Hnd as [|? ? Htfl _]; subst.
  pose proof (page_pos kend kend_pos tf Htf) as Htf0.
  change (set_k_mem m3 (set_k_freelist f3 s2)) with (set_k_procs (<[i := x2]> ps) (set_k_mem m3 (set_k_freelist f3 (set_k_nextpid n ke)))).
  erewrite bind_ret_run by by apply upd_proc_run. rewrite (proj2 (Z.eqb_neq tf 0)) by lia.
  set (x3 := set_p_trapframe tf x2). set (s3 := set_k_procs (<[i := x3]> ps) (set_k_mem m3 (set_k_freelist f3 (set_k_nextpid n ke)))).
  destruct (proc_pagetable_run kend kend_pos trampoline tf Htramp Htf i s3 l) as (root & k4 & l4 & R4 & (m4 & f4 & ->) & K4 & C4);
    [done|done|by eapply kmem_ok_state|unfold proc_at, s3; cbn; by rewrite list_lookup_insert_eq|].
  erewrite bind_ret_run by exact R4.
  change (set_k_mem m4 (set_k_freelist f4 s3)) with (set_k_procs (<[i := x3]> ps) (set_k_mem m4 (set_k_freelist f4 (set_k_nextpid n ke)))).
  erewrite bind_ret_run by by apply upd_proc_run.
  assert (forall d, page_ok kend d -> d ∉ tf :: l -> kept k (set_k_mem m4 k) d) as K.
  { intros d Hd Hn a Ha. rewrite elem_of_cons in Hn. assert (d <> tf) as Hne by tauto.
    transitivity (ld m3 a); [apply (K4 d Hd); tauto|]. apply Hm3. by apply (pages_disjoint kend d tf). }
  destruct C4 as [(-> & Hk4 & E4)|(t & Hr0 & Hpm & E4)].
  - set (x4 := set_p_pagetable 0 x3). set (s4 := set_k_procs (<[i := x4]> ps) _). cbn [Z.eqb].
    destruct (kfree_spec kend kend_pos tf s4 l4 Htf) as (m5 & f5 & R5 & Hk5 & Hm5); [by rewrite E4|done|done|by eapply kmem_ok_state|].
    exists None, (<[i := unused x4]> ps), m5, f5, n, (tf :: l4). split.
    { intros d Hd Hn a Ha. rewrite elem_of_cons in Hn. transitivity (ld m4 a); [|by apply (K d Hd); [rewrite elem_of_cons|]].
      apply Hm5. apply (pages_disjoint kend d tf); [done..|tauto|done]. }
    split_and!; [|by eapply kmem_ok_state|intros q; rewrite !elem_of_cons; by rewrite E4|right; by exists i, x4].
    unfold abandon. erewrite bind_ret_run by (apply (freeproc_frame i x4 ps (set_k_mem m4 (set_k_freelist f4 (set_k_nextpid n ke))) tf m5 f5); [done|done|done|lia|exact R5]).
    erewrite bind_ret_run by by apply (release_run _ k). by destruct k.
  - rewrite (proj2 (Z.eqb_neq root 0)) by done. erewrite bind_ret_run by by apply upd_proc_run.
    exists (Some i), (<[i := fresh (k_nextpid k) tf root x]> ps), m4, f4, n, l4. split; [done|]. split; [done|].
    exists root, tf, t. split_and!; [done|done|done| |done| |done|].
    + eapply proc_mem_state; [exact Hpm|done|done|apply Hc2|apply Hl2].
    + by rewrite E4.
    + intros q. by rewrite E4, elem_of_cons.
Qed.
End fork.

(** ** The open files *)

Lemma sum_by_bound {A} (g : A -> Z) c l : (forall x, x ∈ l -> g x <= c) -> sum_by g l <= c * Z.of_nat (length l).
Proof.
  induction l as [|x l IH]; intros H; [unfold sum_by; cbn; lia|]. rewrite sum_by_cons. cbn [length].
  specialize (IH ltac:(intros y Hy; apply H; by right)). pose proof (H x ltac:(by left)). lia.
Qed.

(** A file has at most one reference for each descriptor of each process. *)
Lemma holders_bound k f : fds_ok k -> procs_ok k -> holders f k <= NPROC * NOFILE.
Proof.
  intros [_ Hn _ _] Hps. unfold holders. etransitivity; [apply (sum_by_bound _ NOFILE)|rewrite Hps; done].
  intros x (i & Hi)%list_elem_of_lookup. assert (x = proc_at i k) as -> by (unfold proc_at; by rewrite Hi).
  apply lookup_lt_Some in Hi. rewrite Hps in Hi. unfold fd_count. etransitivity; [apply (sum_by_bound _ 1)|rewrite Hn by done; done].
  intros o _. by case_decide.
Qed.

Lemma filedup_open k p fd f : cpu_ok k -> lock_free k LFtable -> fds_ok k -> procs_ok k -> (p < Z.to_nat NPROC)%nat ->
  p_ofile (proc_at p k) !! fd = Some (Some f) -> (f < Z.to_nat NFILE)%nat /\ filedup f k = Ret f (with_ref f 1 k).
Proof.
  intros Hc Hl Hf Hps Hp Hfd. pose proof (fo_range _ Hf _ _ _ Hfd) as Hr. split; [done|].
  apply filedup_run; [done|done|by rewrite (fo_files _ Hf)|]. rewrite (fo_ref _ Hf) by done. pose proof (holders_bound k f Hf Hps).
  change (NPROC * NOFILE) with 1024 in *. pose proof (holders_pos p fd f k ltac:(by rewrite Hps) Hfd). lia.
Qed.

(** [k'] differs from [k] in the counts of files and in the descriptors of process [np]. *)
Definition same_files (k : kstate) (fs : list file) : Prop := forall f, exists r, default zero_file (fs !! f) = set_f_ref r (file_at f k).

Lemma same_files_ref k fs f d : same_files k fs -> (f < length fs)%nat ->
  same_files k (<[f := set_f_ref d (default zero_file (fs !! f))]> fs).
Proof.
  intros H Hf g. destruct (decide (g = f)) as [->|Hne].
  - rewrite list_lookup_insert_eq by done. destruct (H f) as [r ->]. by exists d.
  - rewrite list_lookup_insert_ne by done. apply H.
Qed.

Section files.
Variables (p np : nat) (k : kstate).
Hypothesis Hc : cpu_ok k.
Hypothesis Hl : lock_free k LFtable.
Hypothesis Hps : procs_ok k.
Hypothesis Hp : (p < Z.to_nat NPROC)%nat.
Hypothesis Hnp : (np < Z.to_nat NPROC)%nat.
Hypothesis Hne : p <> np.
Hypothesis Hfds : fds_ok k.
Hypothesis Hclosed : p_ofile (proc_at np k) = replicate (Z.to_nat NOFILE) None.

(** The descriptors below [n] have been copied. *)
Definition copied (n : nat) (fs : list file) : kstate :=
  set_k_procs (<[np := set_p_ofile (take n (p_ofile (proc_at p k)) ++ replicate (Z.to_nat NOFILE - n) None) (proc_at np k)]> (k_procs k)) (set_k_files fs k).

Lemma copied_p n fs : proc_at p (copied n fs) = proc_at p k.
Proof using Hne. unfold proc_at at 1, copied. cbn. by rewrite list_lookup_insert_ne. Qed.

Lemma copied_np n fs : proc_at np (copied n fs) = set_p_ofile (take n (p_ofile (proc_at p k)) ++ replicate (Z.to_nat NOFILE - n) None) (proc_at np k).
Proof using Hps Hnp. unfold proc_at at 1, copied. cbn. rewrite list_lookup_insert_eq; [done|by rewrite Hps]. Qed.

Lemma copied_table n fs : procs_ok (copied n fs).
Proof using Hps. unfold procs_ok, copied. cbn. by rewrite length_insert. Qed.

Lemma fork_file_step n fs : (n < Z.to_nat NOFILE)%nat -> fds_ok (copied n fs) -> same_files k fs ->
  exists fs', fork_file p np n (copied n fs) = Ret tt (copied (S n) fs') /\ fds_ok (copied (S n) fs') /\ same_files k fs'.
Proof using All.
  intros Hn Hf Hs. pose proof (fo_fds _ Hfds p Hp) as Hlen. destruct (lookup_lt_is_Some_2 (p_ofile (proc_at p k)) n) as [o Ho]; [lia|].
  unfold fork_file. unfold gets at 1, bind at 1. rewrite copied_p. rewrite (nth_lookup_Some _ _ _ _ Ho).
  assert (<[n := o]> (take n (p_ofile (proc_at p k)) ++ replicate (Z.to_nat NOFILE - n) None) =
    take (S n) (p_ofile (proc_at p k)) ++ replicate (Z.to_nat NOFILE - S n) None) as HO.
  { rewrite (take_S_r _ _ _ Ho), <- app_assoc, insert_app_r_alt by (rewrite length_take; lia).
    rewrite length_take, Nat.min_l, Nat.sub_diag by lia. by replace (Z.to_nat NOFILE - n)%nat with (S (Z.to_nat NOFILE - S n)) by lia. }
  assert (forall fs', copied (S n) fs' = with_fd np n o (copied n fs')) as Hstep.
  { intros fs'. unfold with_fd. rewrite copied_np. cbn [p_ofile set_p_ofile]. rewrite HO. unfold copied. cbn [k_procs set_k_procs].
    by rewrite list_insert_insert_eq. }
  assert (p_ofile (proc_at np (copied n fs)) !! n = Some None) as Hnone.
  { rewrite copied_np. cbn. rewrite lookup_app_r by (rewrite length_take; lia). rewrite length_take, Nat.min_l, Nat.sub_diag by lia.
    apply lookup_replicate. split; [done|lia]. }
  destruct o as [f|].
  - destruct (filedup_open (copied n fs) p n f) as [Hfl R]; [exact Hc|exact Hl|done|apply copied_table|done|by rewrite copied_p|].
    set (fs' := <[f := set_f_ref (f_ref (default zero_file (fs !! f)) + 1) (default zero_file (fs !! f))]> fs).
    change (with_ref f 1 (copied n fs)) with (copied n fs') in R. exists fs'. rewrite Hstep. split; [by erewrite bind_ret_run by exact R|]. split.
    + apply (fds_ok_change np n (Some f) None f 1 (copied n fs)); try done.
      * apply copied_table.
      * by intros g [= ->].
      * intros g. repeat case_decide; congruence || lia.
    + apply same_files_ref; [done|]. pose proof (fo_files _ Hf) as Hfl'. cbn in Hfl'. by rewrite Hfl'.
  - exists fs. assert (copied (S n) fs = copied n fs) as ->; [|done]. rewrite Hstep. unfold with_fd.
    rewrite copied_np in Hnone. cbn [p_ofile set_p_ofile] in Hnone. rewrite copied_np. cbn [p_ofile set_p_ofile]. rewrite (list_insert_id (take n _ ++ _) n None) by done.
    unfold copied. cbn [k_procs set_k_procs]. by rewrite list_insert_insert_eq.
Qed.

Lemma fork_files_run : exists fs,
  let k' := set_k_procs (<[np := set_p_ofile (p_ofile (proc_at p k)) (proc_at np k)]> (k_procs k)) (set_k_files fs k) in
  for_each (seq 0 (Z.to_nat NOFILE)) (fork_file p np) k = Ret tt k' /\ fds_ok k' /\ same_files k fs.
Proof using All.
  assert (forall n, (n <= Z.to_nat NOFILE)%nat -> exists fs, for_each (seq 0 n) (fork_file p np) k = Ret tt (copied n fs) /\
    fds_ok (copied n fs) /\ same_files k fs) as Hloop.
  { induction n as [|n IH]; intros Hn.
    - exists (k_files k). assert (copied 0 (k_files k) = k) as ->.
      { unfold copied. cbn [take app]. rewrite Nat.sub_0_r, <- Hclosed. rewrite list_insert_id; [by destruct k|].
        rewrite proc_lookup by (by rewrite Hps). by destruct (proc_at np k). }
      split_and!; [done|done|]. intros f. exists (f_ref (file_at f k)). unfold file_at. by destruct (default zero_file (k_files k !! f)).
    - destruct IH as (fs & R & Hf & Hs); [lia|]. destruct (fork_file_step n fs ltac:(lia) Hf Hs) as (fs' & R' & Hf' & Hs').
      exists fs'. split; [|done]. rewrite seq_S, for_each_app. erewrite bind_ret_run by exact R. cbn [for_each Nat.add].
      by erewrite bind_ret_run by exact R'. }
  destruct (Hloop (Z.to_nat NOFILE) ltac:(done)) as (fs & R & Hf & Hs). exists fs. cbv zeta.
  unfold copied in R, Hf. rewrite Nat.sub_diag, app_nil_r, take_ge in R, Hf by by rewrite (fo_fds _ Hfds). done.
Qed.
End files.

Lemma fds_ok_state k k' : fds_ok k -> k_files k' = k_files k -> k_procs k' = k_procs k -> fds_ok k'.
Proof.
  intros [H1 H2 H3 H4] Hf Hp. unfold proc_at, file_at, holders in *. split; unfold proc_at, file_at, holders; rewrite ?Hf, ?Hp; done.
Qed.

(** Only the descriptors of a process matter. *)
Lemma fds_ok_proc k i y : fds_ok k -> procs_ok k -> (i < Z.to_nat NPROC)%nat -> p_ofile y = p_ofile (proc_at i k) ->
  fds_ok (set_k_procs (<[i := y]> (k_procs k)) k).
Proof.
  intros [H1 H2 H3 H4] Hps Hi Hy. assert (k_procs k !! i = Some (proc_at i k)) as Hx by (apply proc_lookup; by rewrite Hps).
  assert (forall j, p_ofile (proc_at j (set_k_procs (<[i := y]> (k_procs k)) k)) = p_ofile (proc_at j k)) as Ho.
  { intros j. unfold proc_at at 1. cbn. destruct (decide (j = i)) as [->|]; [|by rewrite list_lookup_insert_ne].
    rewrite list_lookup_insert_eq by by eapply lookup_lt_Some. done. }
  split; [done|intros j; rewrite Ho; apply H2|intros j fd f; rewrite Ho; apply H3|].
  intros f Hf. unfold holders. cbn. rewrite (sum_by_insert _ _ _ _ _ Hx). change (file_at f (set_k_procs _ k)) with (file_at f k).
  rewrite (H4 f Hf). unfold holders. assert (fd_count f y = fd_count f (proc_at i k)) as -> by (unfold fd_count; by rewrite Hy). lia.
Qed.

(** ** fork() *)

Definition forked (ps : list proc) (fs : list file) (ns : list inode) (m : mem) (k : kstate) : kstate :=
  set_k_procs ps (set_k_files fs (set_k_inodes ns (set_k_mem m k))).

(** The child, when [x] is the parent, of index [p], and [nx] the slot that allocproc() filled. *)
Definition born (p : nat) (x nx : proc) : proc :=
  set_p_state RUNNABLE (set_p_parent (Some p) (set_p_name (safestrcpy_list (p_name nx) (p_name x) 16)
    (set_p_cwd (p_cwd x) (set_p_ofile (p_ofile x) (set_p_sz (p_sz x) nx))))).

Record can_fork (p np : nat) (k : kstate) : Prop := {
  cf_thread : thread_ok p k;
  cf_slot : (np < Z.to_nat NPROC)%nat;
  cf_other : p <> np;
  cf_wait : lock_free k LWait;
  cf_ftable : lock_free k LFtable;
  cf_itable : lock_free k LItable;
  cf_fds : fds_ok k;
  cf_closed : p_ofile (proc_at np k) = replicate (Z.to_nat NOFILE) None;
  cf_cwd : exists i, p_cwd (proc_at p k) = Some i /\ (i < length (k_inodes k))%nat }.

Lemma fork_child_run p np k : can_fork p np k -> exists fs i, p_cwd (proc_at p k) = Some i /\
  let x := proc_at p k in let nx := proc_at np k in
  let k' := forked (<[np := born p x nx]> (k_procs k)) fs (<[i := add_ref (inode_at i k)]> (k_inodes k))
    (frame_copy (k_mem k) (p_trapframe nx) (p_trapframe x)) k in
  fork_child p np x nx (enter (LProc np) k) = Ret (p_pid nx) k' /\ fds_ok k' /\ same_files k fs.
Proof.
  intros [Hth Hnp Hne Hlw Hlf Hli Hfds Hcl (i & Hi & Hil)]. pose proof Hth as [Hc Hnoff Hcp Hp Hps Hpl].
  assert (np < length (k_procs k))%nat as Hnl by by rewrite Hps. pose proof (Hpl np Hnp) as Hln.
  set (x := proc_at p k) in *. set (nx := proc_at np k) in *. set (ke := enter (LProc np) k).
  set (m' := frame_copy (k_mem k) (p_trapframe nx) (p_trapframe x)).
  set (y1 := set_p_sz (p_sz x) nx). set (k1 := set_k_procs (<[np := y1]> (k_procs k)) (set_k_mem m' ke)).
  assert (proc_at np k1 = y1) as Hy1 by (unfold proc_at, k1; cbn; by rewrite list_lookup_insert_eq).
  assert (proc_at p k1 = x) as Hx1 by (unfold proc_at, k1; cbn; by rewrite list_lookup_insert_ne).
  destruct (fork_files_run p np k1) as (fs & R & Hf & Hs).
  { apply (enter_cpu_ok (LProc np) k Hc). } { by apply (enter_lock_free (LProc np) LFtable k). }
  { unfold procs_ok, k1. cbn. by rewrite length_insert. } { done. } { done. } { done. }
  { apply (fds_ok_state (set_k_procs (<[np := y1]> (k_procs k)) k)); [|done|done]. by apply fds_ok_proc. }
  { by rewrite Hy1. }
  rewrite Hx1, Hy1 in R, Hf. exists fs, i. split; [done|]. cbv zeta.
  assert (set_k_procs (<[np := set_p_ofile (p_ofile x) y1]> (k_procs k1)) (set_k_files fs k1) =
    set_k_procs (<[np := set_p_ofile (p_ofile x) y1]> (k_procs k)) (set_k_files fs (set_k_mem m' ke))) as Hk1.
  { unfold k1. cbn [k_procs set_k_procs]. by rewrite list_insert_insert_eq. }
  rewrite Hk1 in R, Hf. set (y2 := set_p_ofile (p_ofile x) y1) in *.
  assert (fds_ok (set_k_procs (<[np := born p x nx]> (k_procs k)) (set_k_files fs (set_k_mem m' ke)))) as Hf2.
  { assert (p_ofile (proc_at np (set_k_procs (<[np := y2]> (k_procs k)) (set_k_files fs (set_k_mem m' ke)))) = p_ofile x) as Ho.
    { unfold proc_at. cbn [k_procs set_k_procs]. by rewrite list_lookup_insert_eq. }
    apply (fds_ok_proc _ np (born p x nx)) in Hf; [|unfold procs_ok; cbn; by rewrite length_insert|done|by rewrite Ho].
    cbn [k_procs set_k_procs] in Hf. rewrite list_insert_insert_eq in Hf. exact Hf. }
  set (ns := <[i := add_ref (inode_at i k)]> (k_inodes k)).
  assert (forall l ps, cpu_ok k -> lock_free k l -> release l (forked ps fs ns m' (enter l k)) = Ret tt (forked ps fs ns m' k)) as Hrel.
  { intros l ps _ Hl. rewrite (release_run _ k) by done. by destruct k. }
  split_and!; [|by eapply fds_ok_state|done].
  unfold fork_child. unfold upd_proc at 1, modify at 1, bind at 1. change (proc_at np ke) with nx. fold y1.
  unfold mem_move at 1, modify at 1, bind at 1.
  assert (tf_set np tf_a0 0 (set_k_mem (memmove (k_mem k) (p_trapframe nx) (p_trapframe x) sizeof_trapframe) (set_k_procs (<[np := y1]> (k_procs k)) ke)) = Ret tt k1) as Htf.
  { unfold tf_set, modify, proc_at. cbn [k_procs set_k_mem set_k_procs k_mem]. rewrite list_lookup_insert_eq by done. done. }
  erewrite bind_ret_run by exact Htf. erewrite bind_ret_run by exact R. rewrite Hi.
  erewrite bind_ret_run by (apply idup_run; [apply (enter_cpu_ok (LProc np) k Hc)|by apply (enter_lock_free (LProc np) LItable k)|done]).
  change (set_k_inodes _ _) with (forked (<[np := y2]> (k_procs k)) fs ns m' ke).
  unfold forked at 1. do 2 (erewrite bind_ret_run by by apply upd_proc_run). unfold gets at 1, bind at 1.
  set (y3 := set_p_name _ _). fold (forked (<[np := y3]> (k_procs k)) fs ns m' ke).
  assert (proc_at np (forked (<[np := y3]> (k_procs k)) fs ns m' ke) = y3) as ->.
  { unfold proc_at, forked. cbn [k_procs set_k_procs]. by rewrite list_lookup_insert_eq. }
  erewrite bind_ret_run by by apply Hrel.
  erewrite bind_ret_run by by apply (acquire_run LWait). change (enter LWait (forked ?a ?b ?c ?d k)) with (forked a b c d (enter LWait k)).
  unfold forked at 1. erewrite bind_ret_run by by apply upd_proc_run. fold (forked (<[np := set_p_parent (Some p) y3]> (k_procs k)) fs ns m' (enter LWait k)).
  erewrite bind_ret_run by by apply Hrel.
  erewrite bind_ret_run by by apply (acquire_run (LProc np)). change (enter (LProc np) (forked ?a ?b ?c ?d k)) with (forked a b c d ke).
  unfold forked at 1. erewrite bind_ret_run by by apply upd_proc_run.
  fold (forked (<[np := set_p_state RUNNABLE (set_p_parent (Some p) y3)]> (k_procs k)) fs ns m' ke).
  erewrite bind_ret_run by by apply Hrel. unfold born. rewrite Hi. done.
Qed.

Section memory.
Variables kend trampoline forkret_addr : Z.
Hypothesis kend_pos : 0 < kend.
Variables (p np : nat) (k : kstate) (l : list Z) (to : tree) (umo : gmap Z (Z * Z)).

(** The memory of the parent [p]. *)
Record parent_mem : Prop := {
  pa_mem : proc_mem kend k l (p_pagetable (proc_at p k)) to umo (p_sz (proc_at p k)) (p_trapframe (proc_at p k));
  pa_frame : page_ok kend (p_trapframe (proc_at p k)) /\ ~ acct l to umo (p_trapframe (proc_at p k)) }.

Lemma parent_page q : parent_mem -> page_of to umo q -> page_ok kend q /\ q ∉ l.
Proof using.
  intros [H _] Hq. pose proof (pm_space _ _ _ _ _ _ _ _ H) as Has. pose proof (as_inv _ _ _ _ _ _ Has) as Hvi.
  destruct Hq as [[path Hq]|(v & fl & Hq)].
  - split; [by eapply rep_pages; [apply Hvi|]|by eapply vi_used].
  - destruct (as_page _ _ _ _ _ _ Has _ _ _ Hq) as (H1 & H2 & _). done.
Qed.

(** uvmcopy() to the page table that allocproc() has made. *)
Lemma copy_memory k1 l1 root tf t : parent_mem -> proc_mem kend k1 l1 root t ∅ 0 tf -> page_ok kend tf -> ~ acct l1 t ∅ tf ->
  (forall q, q ∈ l <-> q = tf \/ acct l1 t ∅ q) -> (forall d, page_ok kend d -> d ∉ l -> kept k k1 d) ->
  exists r k2 l2 t2 um2, uvmcopy kend (p_pagetable (proc_at p k)) root (p_sz (proc_at p k)) k1 = Ret r k2 /\ mem_only k1 k2 /\
    (forall d, page_ok kend d -> d ∉ l -> kept k k2 d) /\ ~ acct l2 t2 um2 tf /\ (forall q, q ∈ l <-> q = tf \/ acct l2 t2 um2 q) /\
    (r = 0 /\ proc_mem kend k2 l2 root t2 um2 (p_sz (proc_at p k)) tf /\
       (forall i, 0 <= i < pages (p_sz (proc_at p k)) -> exists pa d fl, umo !! i = Some (pa, fl) /\ um2 !! i = Some (d, fl) /\
          forall off, 0 <= off < PGSIZE -> ld (k_mem k2) (d + off) = ld (k_mem k) (pa + off)) \/
     r = -1 /\ um2 = ∅ /\ proc_mem kend k2 l2 root t2 ∅ 0 tf).
Proof using kend_pos.
  intros Hpar Hpm Htf Hna Hl Hkept. pose proof (pa_mem Hpar) as Hold. pose proof (pm_space _ _ _ _ _ _ _ _ Hpm) as Has1.
  set (x := proc_at p k) in *. set (kx := set_k_mem (k_mem k1) (set_k_freelist (k_freelist k1) k)).
  pose proof (pm_space _ _ _ _ _ _ _ _ Hold) as Hoas.
  assert (kmem_ok kend kx l1) as Hkx by (eapply kmem_ok_state; [apply (vi_free _ _ _ _ _ (as_inv _ _ _ _ _ _ Has1))|done|done]).
  destruct (aspace_other kend k kx l l1 (p_pagetable x) to umo ∅ t ∅ {[0 := (tf, 0)]} Hoas) as (A & S & Kp); [|done| |].
  { split; [|by exists (k_mem k1), (k_freelist k1)|].
    - intros q. rewrite acct_list, Hl. unfold acct. split.
      + intros [?|[?|(v & fl & [_ [= <- <-]]%lookup_singleton_Some)]]; auto.
      + intros [->|[?|[?|(v & fl & H)]]]; [right; right; exists 0, 0; apply lookup_singleton_eq|auto..|by rewrite lookup_empty in H].
    - intros d Hd Hn. rewrite acct_list in Hn. by apply Hkept. }
  { intros q Hq. rewrite acct_list. by apply parent_page. }
  assert (aspace kend k1 l1 (p_pagetable x) to umo) as Ho1.
  { eapply aspace_state; [exact A|done|done|apply (as_inv _ _ _ _ _ _ Has1)..]. }
  pose proof (pm_size _ _ _ _ _ _ _ _ Hold) as Hsz. assert (pages (p_sz x) <= trapframe_page) as Hpg by (apply (pages_mono (p_sz x) TRAPFRAME); lia).
  assert (forall i, 0 <= i < pages (p_sz x) -> 0 <= i < MAXVA / PGSIZE) as Hir by (change (MAXVA / PGSIZE) with 67108864; change trapframe_page with 67108862 in Hpg; lia).
  destruct (uvmcopy_run kend kend_pos k1 l1 (p_pagetable x) to umo root t ∅ (p_sz x) Ho1 Has1)
    as (r & k2 & l2 & t2 & um2 & R & _ & A2 & [E2 M2 O2] & Kold & _ & C & L2 & F2).
  { intros q Hq Hin. apply (parent_page q Hpar) in Hq as [_ Hq]. apply Hq, Hl. by right. }
  { change TRAPFRAME with 274877898752 in Hsz. change MAXVA with 274877906944. lia. }
  { intros i Hi. split_and!; [by apply (pm_pages _ _ _ _ _ _ _ _ Hold)|apply lookup_empty|].
    destruct (Z.testbit (leaf (k_mem k1) t (i * PGSIZE)) 0) eqn:E; [|done]. exfalso.
    apply (pm_only _ _ _ _ _ _ _ _ Hpm) in E; [|by apply MAXVA_pages, Hir]. rewrite vpn_mul, lookup_empty in E.
    change trampoline_page with 67108863 in E. change trapframe_page with 67108862 in *. destruct E as [[? ?]|?]; [done|lia]. }
  exists r, k2, l2, t2, um2.
  assert (forall d, page_ok kend d -> d ∉ l -> kept k k2 d) as K2.
  { intros d Hd Hn a Ha. rewrite (O2 d Hd); [exact (Hkept d Hd Hn a Ha)| |done]. intros Hin. apply Hn, Hl. by right. }
  assert (forall v pa, trapframe_page <= v < MAXVA / PGSIZE -> leaf_to k1 t v pa -> leaf_to k2 t2 v pa) as HT.
  { intros v pa Hv (fl & E & T). exists fl. rewrite L2; [done|apply MAXVA_pages; change trapframe_page with 67108862 in *; lia|rewrite vpn_mul; lia]. }
  assert (exists pa, leaf_to k2 t2 trampoline_page pa) as T1 by (destruct (pm_trampoline _ _ _ _ _ _ _ _ Hpm) as [pa T]; exists pa; by apply HT).
  assert (leaf_to k2 t2 trapframe_page tf) as T2 by (apply HT; [done|apply (pm_trapframe _ _ _ _ _ _ _ _ Hpm)]).
  assert (forall va, 0 <= va < MAXVA -> ~ 0 <= vpn va < pages (p_sz x) -> Z.testbit (leaf (k_mem k2) t2 va) 0 = true ->
    vpn va = trampoline_page \/ vpn va = trapframe_page) as Hhigh.
  { intros va Hva Hn. rewrite L2 by done. intros Hb. apply (pm_only _ _ _ _ _ _ _ _ Hpm) in Hb; [|done]. rewrite lookup_empty in Hb.
    destruct Hb as [[? ?]|?]; done. }
  split_and!; [done|done|done|by rewrite E2|intros q; by rewrite Hl, E2|]. destruct C as [(-> & C1 & C2)|[-> ->]]; [left|right].
  - split; [done|]. split.
    + split; [done|done| |done|done|].
      * intros i. destruct (decide (0 <= i < pages (p_sz x))) as [Hi|Hi]; [|rewrite C1, lookup_empty by done; split; [by intros [? ?]|done]].
        split; [done|]. intros _. destruct (C2 i Hi) as (pa & d & fl & _ & Hd & _). by exists (d, fl).
      * intros va Hva Hb. destruct (decide (0 <= vpn va < pages (p_sz x))) as [Hi|Hi]; [left|right; by apply Hhigh].
        destruct (C2 _ Hi) as (pa & d & fl & _ & Hd & _). by exists (d, fl).
    + intros i Hi. destruct (C2 i Hi) as (pa & d & fl & H1 & H2 & H3). exists pa, d, fl. split_and!; [done|done|]. intros off Ho.
      rewrite H3 by done. assert (page_of to umo pa) as [Hpa Hn]%(parent_page pa Hpar) by (right; eauto).
      apply (K2 pa Hpa Hn). unfold in_page. lia.
  - split; [done|]. split; [done|]. split; [done| |apply (pm_pages _ _ _ _ _ _ _ _ Hpm)|done|done|].
    + apply (pm_size _ _ _ _ _ _ _ _ Hpm).
    + intros va Hva Hb. right. destruct (decide (0 <= vpn va < pages (p_sz x))) as [Hi|Hi]; [by rewrite F2 in Hb|by apply Hhigh].
Qed.
End memory.

(** ** The theorem *)

Section theorem.
Variables kend trampoline forkret_addr : Z.
Hypothesis kend_pos : 0 < kend.
Hypothesis Htramp : trampoline mod PGSIZE = 0 /\ 0 <= trampoline /\ trampoline + PGSIZE <= 2 ^ 56.

(** A process that calls fork(), no locks held. *)
Record forking (p : nat) (k : kstate) (l : list Z) (to : tree) (umo : gmap Z (Z * Z)) : Prop := {
  fk_thread : thread_ok p k;
  fk_alloc : can_alloc kend k l;
  fk_used : p_state (proc_at p k) <> UNUSED;
  fk_mem : parent_mem kend p k l to umo;
  fk_wait : lock_free k LWait;
  fk_ftable : lock_free k LFtable;
  fk_itable : lock_free k LItable;
  fk_fds : fds_ok k;
  fk_cwd : exists i, p_cwd (proc_at p k) = Some i /\ (i < length (k_inodes k))%nat }.

(** Nothing of the parent has changed: its slot, its memory and its registers. *)
Definition unharmed (p : nat) (k k' : kstate) (umo : gmap Z (Z * Z)) : Prop :=
  proc_at p k' = proc_at p k /\ (forall va, uread k' umo va = uread k umo va) /\ kept k k' (p_trapframe (proc_at p k)).

Lemma unharmed_kept p k k' l to umo : parent_mem kend p k l to umo -> proc_at p k' = proc_at p k ->
  (forall d, page_ok kend d -> d ∉ l -> kept k k' d) -> unharmed p k k' umo.
Proof using.
  clear Htramp kend_pos. intros Hpar Hp Hk. split; [done|]. split.
  - intros va. unfold uread. destruct (umo !! vpn va) as [[pa fl]|] eqn:E; [|done]. f_equal.
    assert (page_of to umo pa) as [Hpa Hn]%(parent_page _ _ _ _ _ _ pa Hpar) by (right; eauto).
    apply (Hk pa Hpa Hn). unfold in_page, PGSIZE. zlia.
  - destruct (pa_frame _ _ _ _ _ _ Hpar) as [H1 H2]. apply Hk; [done|]. intros Hin. apply H2. by left.
Qed.

(** The end of fork() when the memory cannot be copied. *)
Lemma fork_undo i k m2 f2 ps n l2 root t2 tf : cpu_ok k -> lock_free k (LProc i) -> (i < length ps)%nat ->
  let x := default zero_proc (ps !! i) in let k2 := alloced ps m2 f2 n (enter (LProc i) k) in
  p_pagetable x = root -> p_trapframe x = tf -> p_sz x = 0 -> proc_mem kend k2 l2 root t2 ∅ 0 tf -> page_ok kend tf -> ~ acct l2 t2 ∅ tf ->
  exists m f l3, (do! freeproc kend i; do! release (LProc i); ret (-1)) k2 = Ret (-1) (alloced (<[i := unused x]> ps) m f n k) /\
    kmem_ok kend (alloced (<[i := unused x]> ps) m f n k) l3 /\ (forall q, q ∈ l3 <-> q = tf \/ acct l2 t2 ∅ q) /\
    forall d, page_ok kend d -> d <> tf -> ~ acct l2 t2 ∅ d -> kept k2 (set_k_mem m k) d.
Proof using kend_pos.
  intros Hc Hl Hi x k2 Hpt Htf Hsz Hpm Hpg Hna.
  destruct (freeproc_run kend kend_pos i k2 l2 root t2 ∅ tf) as (m & f & l3 & R & Hk & E & K); [done..|by change (proc_at i k2) with x; rewrite Hsz|done|done|].
  exists m, f, l3. split_and!; [|by eapply kmem_ok_state|done|done]. erewrite bind_ret_run by exact R.
  erewrite bind_ret_run by by apply (release_run _ k). by destruct k.
Qed.

(** fork() failed: no page is lost, and only a free slot may have been written. *)
Record fork_failed (p : nat) (k : kstate) (l : list Z) (umo : gmap Z (Z * Z)) (k' : kstate) : Prop := {
  ff_free : exists l', kmem_ok kend k' l' /\ forall q, q ∈ l' <-> q ∈ l;
  ff_parent : unharmed p k k' umo;
  ff_table : forall j, proc_at j k' = proc_at j k \/ p_state (proc_at j k) = UNUSED /\ p_state (proc_at j k') = UNUSED;
  ff_files : k_files k' = k_files k /\ k_inodes k' = k_inodes k }.

(** fork() made the process [np]. *)
Record fork_done (p : nat) (k : kstate) (l : list Z) (umo : gmap Z (Z * Z)) (k' : kstate) (np : nat) : Prop := {
  fd_slot : List.find (is_unused k) proc_indices = Some np;
  fd_others : forall j, j <> np -> proc_at j k' = proc_at j k;
  fd_child : exists root tf, proc_at np k' = born p (proc_at p k) (fresh forkret_addr (k_nextpid k) tf root (proc_at np k)) /\
    page_ok kend tf /\ exists l' t' um', proc_mem kend k' l' root t' um' (p_sz (proc_at p k)) tf /\ ~ acct l' t' um' tf /\
      (forall q, q ∈ l <-> q = tf \/ acct l' t' um' q) /\
      (forall va, uread k' um' va = uread k umo va) /\ (forall v, snd <$> um' !! v = snd <$> umo !! v) /\
      (forall off, 0 <= off < sizeof_trapframe -> ld (k_mem k') (tf + off) =
         if decide (tf_a0 <= off < tf_a0 + 8) then 0 else ld (k_mem k) (p_trapframe (proc_at p k) + off));
  fd_parent : unharmed p k k' umo;
  fd_files : fds_ok k' /\ (forall f, exists r, file_at f k' = set_f_ref r (file_at f k));
  fd_cwd : exists i, p_cwd (proc_at p k) = Some i /\ k_inodes k' = <[i := add_ref (inode_at i k)]> (k_inodes k) }.

Lemma proc_at_alloced ps m f n i k : proc_at i (alloced ps m f n k) = default zero_proc (ps !! i).
Proof using. done. Qed.

Lemma blank_after p k i x j : p_state (proc_at i k) = UNUSED -> (i < length (k_procs k))%nat ->
  let k' := set_k_procs (<[i := unused x]> (k_procs k)) p in
  proc_at j k' = proc_at j k \/ p_state (proc_at j k) = UNUSED /\ p_state (proc_at j k') = UNUSED.
Proof using.
  intros Hu Hi k'. unfold proc_at at 1 4. cbn. destruct (decide (j = i)) as [->|]; [right|left; by rewrite list_lookup_insert_ne].
  by rewrite list_lookup_insert_eq.
Qed.

(** The copy of the registers touches only the page of the child's trapframe. *)
Lemma frame_copy_kept m dst src d k : page_ok kend dst -> page_ok kend d -> d <> dst -> k_mem k = m ->
  kept k (set_k_mem (frame_copy m dst src) k) d.
Proof using kend_pos.
  clear Htramp. intros Hdst Hd Hne <- a Ha. cbn. rewrite frame_copy_ld. assert (~ in_page dst a) as Hn by by apply (pages_disjoint kend d dst).
  unfold in_page in Hn. unfold tf_a0, sizeof_trapframe, PGSIZE in *. rewrite !decide_False by lia. done.
Qed.

(** What fork() has before it copies the registers and the files. *)
Record copied_mem (p np : nat) (k : kstate) (l : list Z) (umo : gmap Z (Z * Z)) (kb : kstate) (root tf : Z)
  (l2 : list Z) (t2 : tree) (um2 : gmap Z (Z * Z)) : Prop := {
  cm_mem : proc_mem kend (enter (LProc np) kb) l2 root t2 um2 (p_sz (proc_at p k)) tf;
  cm_frame : page_ok kend tf /\ ~ acct l2 t2 um2 tf;
  cm_acct : forall q, q ∈ l <-> q = tf \/ acct l2 t2 um2 q;
  cm_kept : forall d, page_ok kend d -> d ∉ l -> kept k kb d;
  cm_copy : forall i, 0 <= i < pages (p_sz (proc_at p k)) -> exists pa d fl, umo !! i = Some (pa, fl) /\ um2 !! i = Some (d, fl) /\
    forall off, 0 <= off < PGSIZE -> ld (k_mem kb) (d + off) = ld (k_mem k) (pa + off) }.

Lemma unused_slot k np : procs_ok k -> List.find (is_unused k) proc_indices = Some np ->
  (np < Z.to_nat NPROC)%nat /\ (np < length (k_procs k))%nat /\ p_state (proc_at np k) = UNUSED.
Proof using.
  intros Hps [Hi Hu]%List.find_some. apply in_seq in Hi. apply bool_decide_eq_true in Hu. rewrite Hps. split_and!; [lia|lia|done].
Qed.

Lemma can_fork_alloced p np k l to umo m f n root tf : forking p k l to umo -> List.find (is_unused k) proc_indices = Some np ->
  can_fork p np (alloced (<[np := fresh forkret_addr (k_nextpid k) tf root (proc_at np k)]> (k_procs k)) m f n k) /\ p <> np.
Proof using.
  intros [Hth Hal Hus _ Hw Hft Hit Hfd Hcw] Hfind. destruct (unused_slot k np (th_procs _ _ Hth) Hfind) as (Hn1 & Hn2 & Hu).
  assert (p <> np) as Hne by congruence. split; [|done]. destruct Hth as [H1 H2 H3 H4 H5 H6].
  set (nx := fresh forkret_addr _ tf root (proc_at np k)).
  assert (proc_at p (alloced (<[np := nx]> (k_procs k)) m f n k) = proc_at p k) as Hp.
  { unfold proc_at at 1. cbn. by rewrite list_lookup_insert_ne. }
  split; [split; [done..|unfold procs_ok; cbn; by rewrite length_insert|done]|done|done|done|done|done| | |by rewrite Hp].
  - apply (fds_ok_state (set_k_procs (<[np := nx]> (k_procs k)) k)); [|done|done]. by apply fds_ok_proc.
  - unfold proc_at at 1. cbn [k_procs alloced set_k_procs]. rewrite list_lookup_insert_eq by done. by apply (ca_blank _ _ _ Hal).
Qed.

(** The child sees the memory of the parent. *)
Lemma child_memory p np k l to umo kb root tf l2 t2 um2 k' : copied_mem p np k l umo kb root tf l2 t2 um2 ->
  parent_mem kend p k l to umo -> (forall d, page_ok kend d -> d <> tf -> kept kb k' d) ->
  (forall va, uread k' um2 va = uread k umo va) /\ forall v, snd <$> um2 !! v = snd <$> umo !! v.
Proof using.
  clear Htramp kend_pos. intros [Hpm [Htf Hna] Hac _ Hcp] Hpar Hk. pose proof (pa_mem _ _ _ _ _ _ Hpar) as Hold.
  assert (forall v, ~ 0 <= v < pages (p_sz (proc_at p k)) -> um2 !! v = None /\ umo !! v = None) as Hout.
  { intros v Hv. split; apply eq_None_not_Some; [rewrite (pm_pages _ _ _ _ _ _ _ _ Hpm)|rewrite (pm_pages _ _ _ _ _ _ _ _ Hold)]; done. }
  split.
  - intros va. unfold uread. destruct (decide (0 <= vpn va < pages (p_sz (proc_at p k)))) as [Hi|Hi]; [|by destruct (Hout _ Hi) as [-> ->]].
    destruct (Hcp _ Hi) as (pa & d & fl & Ho & Hn & Hb). rewrite Ho, Hn. f_equal. rewrite <- Hb by (apply Z.mod_pos_bound; done).
    destruct (as_page _ _ _ _ _ _ (pm_space _ _ _ _ _ _ _ _ Hpm) _ _ _ Hn) as (P1 & _). apply (Hk d P1).
    + intros ->. apply Hna. right. right. eauto.
    + unfold in_page, PGSIZE. pose proof (Z.mod_pos_bound va 4096). lia.
  - intros v. destruct (decide (0 <= v < pages (p_sz (proc_at p k)))) as [Hi|Hi]; [|by destruct (Hout _ Hi) as [-> ->]].
    by destruct (Hcp _ Hi) as (pa & d & fl & -> & -> & _).
Qed.

(** The address space of the child survives the copy of the registers. *)
Lemma child_space kb k' l2 root t2 um2 sz tf : proc_mem kend kb l2 root t2 um2 sz tf -> ~ acct l2 t2 um2 tf ->
  k_freelist k' = k_freelist kb -> (forall d, page_ok kend d -> d <> tf -> kept kb k' d) -> cpu_ok k' -> lock_free k' LKmem ->
  proc_mem kend k' l2 root t2 um2 sz tf.
Proof using.
  intros Hpm Hna Hf Hk Hc Hl. pose proof (as_inv _ _ _ _ _ _ (pm_space _ _ _ _ _ _ _ _ Hpm)) as Hvi.
  set (km := set_k_mem (k_mem k') kb). pose proof (vi_free _ _ _ _ _ Hvi) as Hfree.
  assert (kmem_ok kend km l2) as Hkm.
  { apply kmem_ok_mem; [done|]. intros q a Hq Ha. apply (Hk q); [|intros ->; apply Hna; by left|done].
    pose proof (km_pages _ _ _ Hfree) as Hps. rewrite Forall_forall in Hps. by apply Hps. }
  destruct (vm_inv_keep kend kb km l2 l2 root t2 Hvi) as [Hvi' Hs]; [exists (k_mem k'), (k_freelist kb); by destruct kb|done| |].
  { intros path q Hq. split; [by eapply vi_used|]. apply Hk; [by eapply rep_pages; [apply Hvi|]|]. intros ->. apply Hna. right. left. by exists path. }
  eapply (proc_mem_state kend km); [by eapply proc_mem_keep|done|done|done|done].
Qed.

Lemma fork_success p np k l to umo m f n root tf l2 t2 um2 : forking p k l to umo -> List.find (is_unused k) proc_indices = Some np ->
  let nx := fresh forkret_addr (k_nextpid k) tf root (proc_at np k) in
  let kb := alloced (<[np := nx]> (k_procs k)) m f n k in
  copied_mem p np k l umo kb root tf l2 t2 um2 ->
  exists k', fork_child p np (proc_at p k) nx (enter (LProc np) kb) = Ret (k_nextpid k) k' /\ fork_done p k l umo k' np.
Proof using kend_pos.
  intros Hfk Hfind nx kb Hcm. destruct (can_fork_alloced p np k l to umo m f n root tf Hfk Hfind) as [Hcf Hne].
  fold nx in Hcf. fold kb in Hcf. destruct (unused_slot k np (th_procs _ _ (fk_thread _ _ _ _ _ Hfk)) Hfind) as (Hn1 & Hn2 & Hu).
  destruct (fork_child_run p np kb Hcf) as (fs & i & Hi & R & Hf & Hs).
  assert (proc_at p kb = proc_at p k) as Hp by (unfold proc_at, kb; cbn; by rewrite list_lookup_insert_ne).
  assert (proc_at np kb = nx) as Hnx by (unfold proc_at, kb; cbn; by rewrite list_lookup_insert_eq).
  rewrite Hp, Hnx in *. set (k' := forked _ _ _ _ _) in *. exists k'. split; [exact R|].
  destruct (cm_frame _ _ _ _ _ _ _ _ _ _ _ Hcm) as [Htf Hna].
  assert (forall d, page_ok kend d -> d <> tf -> kept kb k' d) as Hk by (intros d Hd Hd'; by apply (frame_copy_kept (k_mem kb) tf (p_trapframe (proc_at p k)) d kb)).
  assert (forall d, page_ok kend d -> d ∉ l -> kept k k' d) as Hk'.
  { intros d Hd Hn a Ha. transitivity (ld (k_mem kb) a); [apply (Hk d Hd); [|done]|by apply (cm_kept _ _ _ _ _ _ _ _ _ _ _ Hcm d)].
    intros ->. apply Hn, (cm_acct _ _ _ _ _ _ _ _ _ _ _ Hcm). by left. }
  assert (proc_at p k' = proc_at p k) as Hpk by (unfold proc_at, k'; cbn; by rewrite !list_lookup_insert_ne).
  split.
  - done.
  - intros j Hj. unfold proc_at, k'. cbn. by rewrite !list_lookup_insert_ne.
  - exists root, tf. split; [unfold proc_at at 1, k'; cbn; rewrite list_lookup_insert_eq by (by rewrite length_insert); done|]. split; [done|].
    destruct (child_memory p np k l to umo kb root tf l2 t2 um2 k' Hcm (fk_mem _ _ _ _ _ Hfk) Hk) as [Hm1 Hm2].
    exists l2, t2, um2. split_and!; [|done|apply Hcm|done|done|].
    + apply (child_space kb); [|done|done|done|apply (fk_thread _ _ _ _ _ Hfk)|apply (ca_lock _ _ _ (fk_alloc _ _ _ _ _ Hfk))].
      eapply proc_mem_state; [apply Hcm|done|done|apply (fk_thread _ _ _ _ _ Hfk)|apply (ca_lock _ _ _ (fk_alloc _ _ _ _ _ Hfk))].
    + intros off Ho. unfold k'. cbn [k_mem forked set_k_procs set_k_files set_k_inodes set_k_mem]. rewrite frame_copy_ld.
      change (p_trapframe nx) with tf. unfold sizeof_trapframe in Ho.
      destruct (decide (tf_a0 <= off < tf_a0 + 8)) as [Hd|Hd]; [by rewrite decide_True by lia|]. rewrite decide_False, decide_True by (unfold sizeof_trapframe; lia).
      replace (tf + off - tf) with off by lia. destruct (pa_frame _ _ _ _ _ _ (fk_mem _ _ _ _ _ Hfk)) as [F1 F2].
      apply (cm_kept _ _ _ _ _ _ _ _ _ _ _ Hcm _ F1); [intros Hin; apply F2; by left|unfold in_page, PGSIZE; lia].
  - by eapply unharmed_kept; [apply Hfk|..].
  - split; [done|exact Hs].
  - by exists i.
Qed.

(** C6 (fork_spec): fork() returns -1 or the id of a new process.  The new process takes the first free
    slot; it is RUNNABLE, a child of the caller, with the caller's size, name, open files and
    directory.  Its page table and trapframe are its own: it reads the same byte at every address,
    with the same permissions, from pages that the caller does not have, and its registers are
    the caller's but for a0, the result, which is 0.  The counts of the open files agree with the
    descriptors again, the directory has one reference more, and every page that was free is
    either still free or in use by the child.  When memory or slots run out all the pages are
    free again.  Either way the slot, the memory and the registers of the caller, and every
    process but the new one, are unchanged. *)
Theorem fork_spec p k l to umo : forking p k l to umo ->
  exists r k', fork kend trampoline forkret_addr k = Ret r k' /\
    (r = -1 /\ fork_failed p k l umo k' \/ r = k_nextpid k /\ exists np, fork_done p k l umo k' np).
Proof using All.
  intros Hfk. pose proof Hfk as [Hth Hal Hus Hpar _ _ _ _ _]. unfold fork. erewrite bind_ret_run by (apply curproc_run; apply Hth).
  destruct (allocproc_run kend trampoline forkret_addr kend_pos Htramp k l Hal) as ([np|] & ps & m & f & n & l1 & K1 & H).
  2: { destruct H as (R & Hk & El & Hps). erewrite bind_ret_run by exact R. eexists (-1), _. split; [reflexivity|]. left. split; [done|].
       assert (forall j, proc_at j (alloced ps m f n k) = proc_at j k \/ p_state (proc_at j k) = UNUSED /\ p_state (proc_at j (alloced ps m f n k)) = UNUSED) as Ht.
       { intros j. destruct Hps as [->|(i & x & -> & Hu)]; [by left|]. destruct (decide (i < length (k_procs k))%nat); [by apply (blank_after (alloced (k_procs k) m f n k) k i x j)|].
         left. unfold proc_at. cbn. by rewrite list_insert_ge by lia. }
       split; [by exists l1| |done|done]. eapply unharmed_kept; [exact Hpar| |exact K1]. destruct (Ht p) as [?|[??]]; done. }
  destruct H as (Hfind & root & tf & t & R & -> & -> & Hpm & Htf & Hna & Hr0 & El). erewrite bind_ret_run by exact R.
  destruct (unused_slot k np (th_procs _ _ Hth) Hfind) as (Hn1 & Hn2 & Hu). assert (p <> np) as Hne by congruence.
  set (nx := fresh forkret_addr (k_nextpid k) tf root (proc_at np k)) in *. set (k1 := alloced _ _ _ _ _) in *.
  unfold gets, bind at 1 2.
  assert (proc_at p k1 = proc_at p k) as Hp by (unfold proc_at, k1; cbn; by rewrite list_lookup_insert_ne).
  assert (proc_at np k1 = nx) as Hnx by (unfold proc_at, k1; cbn; by rewrite list_lookup_insert_eq).
  rewrite Hp, Hnx. change (p_pagetable nx) with root.
  destruct (copy_memory kend kend_pos p k l to umo k1 l1 root tf t Hpar Hpm Htf Hna El K1)
    as (r & k2 & l2 & t2 & um2 & R2 & (m2 & f2 & ->) & K2 & Hna2 & E2 & C).
  erewrite bind_ret_run by exact R2. destruct C as [(-> & Hpm2 & Hcp)|(-> & -> & Hpm2)].
  - destruct (fork_success p np k l to umo m2 f2 (i32 (k_nextpid k + 1)) root tf l2 t2 um2 Hfk Hfind) as (k' & R' & Hd).
    { split; [exact Hpm2|done|done|exact K2|exact Hcp]. }
    exists (k_nextpid k), k'. split; [exact R'|]. right. split; [done|]. by exists np.
  - destruct (fork_undo np k m2 f2 (<[np := nx]> (k_procs k)) (i32 (k_nextpid k + 1)) l2 root t2 tf) as (m3 & f3 & l3 & R3 & Hk3 & E3 & K3).
    { apply Hth. } { by apply (th_plocks _ _ Hth). } { by rewrite length_insert. }
    { by rewrite list_lookup_insert_eq. } { by rewrite list_lookup_insert_eq. }
    { rewrite list_lookup_insert_eq by done. by apply (ca_blank _ _ _ Hal). } { exact Hpm2. } { done. } { done. }
    rewrite list_lookup_insert_eq in R3, Hk3 by done. cbn [default] in R3, Hk3. rewrite list_insert_insert_eq in R3, Hk3.
    eexists (-1), _. split; [exact R3|]. left. split; [done|]. split; [|..|done].
    + exists l3. split; [done|]. intros q. by rewrite E3, E2.
    + eapply unharmed_kept; [exact Hpar| |].
      * unfold proc_at. cbn. by rewrite list_lookup_insert_ne.
      * intros d Hd Hn a Ha. transitivity (ld m2 a); [apply (K3 d Hd); [intros ->; apply Hn, E2; by left|intros Hin; apply Hn, E2; by right|done]|by apply (K2 d Hd Hn)].
    + intros j. by apply (blank_after (alloced (k_procs k) m3 f3 (i32 (k_nextpid k + 1)) k) k np nx j).
Qed.
End theorem.

(** ** Witness: process 3, with a file open, forks *)

Definition opener (pt : Z) : proc :=
  set_p_pagetable pt (set_p_trapframe (PG 13) (set_p_cwd (Some 0%nat) (set_p_ofile (<[0%nat := Some 0%nat]> (p_ofile zero_proc)) (set_p_state RUNNING zero_proc)))).
Definition nursery_procs (pt : Z) : list proc := <[3%nat := opener pt]> (replicate (Z.to_nat NPROC) zero_proc).
Definition one_file : list file := <[0%nat := set_f_ref 1 zero_file]> (replicate (Z.to_nat NFILE) zero_file).

Definition nursery_base : kstate :=
  set_k_files one_file (set_k_inodes (replicate (Z.to_nat NINODE) zero_inode) (set_k_nextpid 17
    (with_lock LWait (with_lock LFtable (with_lock LItable (with_lock LPid (with_lock LKmem booted))))))).
Definition nursery_at (pt : Z) (m : mem) (f : Z) : kstate := set_k_procs (nursery_procs pt) (set_k_mem m (set_k_freelist f nursery_base)).
Definition nursery0 : kstate := nursery_at 0 (k_mem vm_k) (k_freelist vm_k).

(** First the page table of process 3 is made. *)
Definition nursery : kstate :=
  match proc_pagetable vm_kend 0x80007000 3 nursery0 with Ret r k => set_k_procs (nursery_procs r) k | _ => nursery0 end.

Lemma nursery_made : (match proc_pagetable vm_kend 0x80007000 3 nursery0 with Ret r _ => negb (r =? 0) | _ => false end) = true.
Proof. vm_compute. reflexivity. Qed.

Lemma nursery_forks : (match fork vm_kend 0x80007000 0 nursery with Ret r _ => r =? 17 | _ => false end) = true.
Proof. vm_compute. reflexivity. Qed.

Lemma nursery_proc pt m f i : proc_at i (nursery_at pt m f) = if decide (i = 3%nat) then opener pt else zero_proc.
Proof.
  unfold proc_at. cbn [k_procs nursery_at set_k_procs]. unfold nursery_procs. case_decide as E; [by subst|].
  rewrite list_lookup_insert_ne by done. destruct (replicate _ zero_proc !! i) as [x|] eqn:Hx; [|done].
  by apply lookup_replicate in Hx as [-> _].
Qed.

Lemma nursery_counts pt f : (f < Z.to_nat NFILE)%nat -> f_ref (default zero_file (one_file !! f)) = sum_by (fd_count f) (nursery_procs pt).
Proof.
  intros Hf. assert (forallb (fun f => f_ref (default zero_file (one_file !! f)) =? sum_by (fd_count f) (nursery_procs pt)) (seq 0 (Z.to_nat NFILE)) = true) as H
    by (vm_compute; reflexivity).
  rewrite forallb_forall in H. apply Z.eqb_eq, H, in_seq. lia.
Qed.

Lemma nursery_fds pt m f : fds_ok (nursery_at pt m f).
Proof.
  split.
  - reflexivity.
  - intros i _. rewrite nursery_proc. by case_decide.
  - intros i fd g. rewrite nursery_proc. case_decide.
    + unfold opener. cbn [p_ofile set_p_pagetable set_p_trapframe set_p_cwd set_p_ofile]. destruct (decide (fd = 0%nat)) as [->|].
      * rewrite list_lookup_insert_eq by (apply Nat.ltb_lt; reflexivity). intros [= <-]. unfold NFILE. lia.
      * rewrite list_lookup_insert_ne by done. by intros [? _]%lookup_replicate.
    + by intros [? _]%lookup_replicate.
  - intros g Hg. apply nursery_counts, Hg.
Qed.

Lemma nursery_thread pt m f : thread_ok 3 (nursery_at pt m f).
Proof.
  assert (thread_ok 3 (with_lock LWait (with_lock LFtable (with_lock LItable (with_lock LPid (with_lock LKmem booted)))))) as [H1 H2 H3 H4 H5 H6].
  { do 5 (apply with_lock_thread; [done|]). apply booted_thread. }
  split; [exact H1|exact H2|exact H3|exact H4|reflexivity|exact H6].
Qed.

Lemma nursery_lock l pt m f : l ∈ [LWait; LFtable; LItable; LPid; LKmem] -> lock_free (nursery_at pt m f) l.
Proof.
  intros Hl. exists "lock"%string. unfold nursery_at, nursery_base, with_lock. cbn [k_locks set_k_locks set_k_files set_k_inodes set_k_nextpid set_k_procs set_k_mem set_k_freelist].
  rewrite !elem_of_cons, elem_of_nil in Hl. destruct Hl as [->|[->|[->|[->|[->|[]]]]]]; rewrite ?lookup_insert_ne by done; apply lookup_insert_eq.
Qed.

Lemma nursery_forking r m f l t : proc_mem vm_kend (nursery_at r m f) l r t ∅ 0 (PG 13) -> (forall q, acct l t ∅ q <-> q ∈ vm_free) ->
  forking vm_kend 3 (nursery_at r m f) l t ∅.
Proof.
  intros Hpm Hac. assert (proc_at 3 (nursery_at r m f) = opener r) as Hp by apply nursery_proc.
  split; rewrite ?Hp; try (apply nursery_lock; set_solver); [apply nursery_thread| |done| |apply nursery_fds|].
  - split; [apply nursery_thread..| | | |]; [apply nursery_lock; set_solver|apply nursery_lock; set_solver|apply (as_inv _ _ _ _ _ _ (pm_space _ _ _ _ _ _ _ _ Hpm))|].
    intros i. rewrite nursery_proc. case_decide; [done|]. by intros _.
  - split; rewrite Hp; [exact Hpm|]. split; [apply PG_ok; lia|]. rewrite Hac. intros (j & Hj & Hr)%vm_free_in. cbn in Hj. pg.
  - exists 0%nat. split; [reflexivity|]. apply Nat.ltb_lt. reflexivity.
Qed.

Lemma nursery_kmem pt m f : lock_free (nursery_at pt m f) LKmem.
Proof. apply nursery_lock. set_solver. Qed.

Lemma nursery_tramp : 0x80007000 mod PGSIZE = 0 /\ 0 <= 0x80007000 /\ 0x80007000 + PGSIZE <= 2 ^ 56.
Proof. split; [reflexivity|unfold PGSIZE; lia]. Qed.

Lemma nursery_again pt m0 f0 r m f : set_k_procs (nursery_procs r) (set_k_mem m (set_k_freelist f (nursery_at pt m0 f0))) = nursery_at r m f.
Proof. unfold nursery_at. generalize nursery_base (nursery_procs r) (nursery_procs pt). by intros []. Qed.

Lemma nursery_shape : exists r m f l t, nursery = nursery_at r m f /\ forking vm_kend 3 (nursery_at r m f) l t ∅.
Proof.
  assert (page_ok vm_kend (PG 13)) as Htf by (apply PG_ok; lia).
  destruct (proc_pagetable_run vm_kend vm_kend_pos 0x80007000 (PG 13) nursery_tramp Htf 3 nursery0 vm_free
    (th_cpu _ _ (nursery_thread _ _ _)) (nursery_kmem _ _ _) (kmem_ok_state _ vm_k nursery0 _ vm_k_free eq_refl eq_refl) eq_refl)
    as (r & k1 & l1 & R & (m1 & f1 & Hk1) & _ & C).
  assert (set_k_procs (nursery_procs r) k1 = nursery_at r m1 f1) as Hs by (rewrite Hk1; apply nursery_again).
  exists r, m1, f1, l1. destruct C as [(-> & _)|(t & _ & Hpm & Hac)].
  - exfalso. pose proof nursery_made as H. rewrite R in H. discriminate H.
  - exists t. split; [unfold nursery; rewrite R; exact Hs|]. apply nursery_forking; [|exact Hac].
    eapply proc_mem_state; [exact Hpm| | |apply nursery_thread|apply nursery_kmem]; rewrite Hk1; reflexivity.
Qed.

Lemma fork_spec_witness : exists k', fork vm_kend 0x80007000 0 nursery = Ret 17 k' /\ exists np, p_ofile (proc_at np k') = p_ofile (proc_at 3 nursery) /\ fds_ok k'.
Proof.
  pose proof nursery_forks as Hr. destruct nursery_shape as (r & m & f & l & t & Hn & Hfk).
  destruct (fork_spec vm_kend 0x80007000 0 vm_kend_pos nursery_tramp 3 (nursery_at r m f) l t ∅ Hfk) as (r' & k' & R' & C).
  rewrite Hn in Hr |- *. rewrite R' in Hr |- *. apply Z.eqb_eq in Hr. exists k'. split; [by rewrite Hr|].
  destruct C as [[C _]|[_ [np Hd]]]; [rewrite Hr in C; discriminate C|].
  exists np. destruct (fd_child _ _ _ _ _ _ _ _ Hd) as (root & tf & Hc & _). rewrite Hc. split; [reflexivity|apply (fd_files _ _ _ _ _ _ _ _ Hd)].
Defined.
