(* ===== verification/Trap.v ===== *)
(** * Trap: traps, interrupts and booting (kernel/trap.c, plic.c, start.c, main.c)

    The trap handlers, the interrupt controller, forkret() of proc.c and the boot
    sequence.  [kernelvec], [uservec], [userret], [trampoline], [usertrap_addr]
    and [main_addr] are addresses the linker chooses.  A return to user space is
    the pair of the address jumped to and the satp value passed to it.  What
    follows a call of yield() runs when the process is scheduled again. *)

From Stdlib Require Import ZArith Lia.
From stdpp Require Import base gmap list strings.
From S2P Require Import Prelude Bytes State Riscv Spinlock Sched Sleeplock Mem Kalloc Bio Log Vm Pipe Uart Printf Console Virtio Fs File Proc Exec Syscall.

(** ** memlayout.h and plic.c *)

Definition PLIC_SENABLE (hart : Z) : Z := PLIC + 0x2080 + hart * 0x100.
Definition PLIC_SPRIORITY (hart : Z) : Z := PLIC + 0x201000 + hart * 0x2000.
Definition PLIC_SCLAIM (hart : Z) : Z := PLIC + 0x201004 + hart * 0x2000.

Definition plic_write (a v : Z) : K unit :=
  modify (fun k => set_k_plic (set_pl_regs (<[a := u32 v]> (pl_regs (k_plic k))) (k_plic k)) k).

(** Reading the claim register takes the next pending interrupt, 0 if none. *)
Definition plic_next : K Z :=
  let! l := gets (fun k => pl_pending (k_plic k)) in
  do! modify (fun k => set_k_plic (set_pl_pending (tl (pl_pending (k_plic k))) (k_plic k)) k);
  ret (hd 0 l).

Definition plicinit : K unit :=
  do! plic_write (PLIC + UART0_IRQ * 4) 1;
  plic_write (PLIC + VIRTIO0_IRQ * 4) 1.

Definition plicinithart : K unit :=
  let! hart := cpuid in
  do! plic_write (PLIC_SENABLE hart) (Z.lor (Z.shiftl 1 UART0_IRQ) (Z.shiftl 1 VIRTIO0_IRQ));
  plic_write (PLIC_SPRIORITY hart) 0.

Definition plic_claim : K Z :=
  let! irq := plic_next in
  ret (i32 irq).

Definition plic_complete (irq : Z) : K unit :=
  let! hart := cpuid in
  plic_write (PLIC_SCLAIM hart) irq.

(** ** trap.c: interrupts *)

Definition clockintr : K unit :=
  let! id := cpuid in
  do! (if id =? 0 then
         do! acquire LTicks;
         do! modify (fun k => set_k_ticks (u32 (k_ticks k + 1)) k);
         do! wakeup ChTicks;
         release LTicks
       else ret tt);
  let! t := r_time in
  w_stimecmp (t + 1000000).

Definition devintr : K Z :=
  let! scause := r_scause in
  if scause =? 0x8000000000000009 then
    let! irq := plic_claim in
    do! (if irq =? UART0_IRQ then uartintr
         else if irq =? VIRTIO0_IRQ then virtio_disk_intr
         else if truth irq then
           let! _ := printf (str "unexpected interrupt irq=%d" ++ [nl]) [ANum irq] in ret tt
         else ret tt);
    do! (if truth irq then plic_complete irq else ret tt);
    ret 1
  else if scause =? 0x8000000000000005 then
    do! clockintr;
    ret 2
  else ret 0.

Definition trapinit : K unit := initlock LTicks "time".

Section trap.
Variables kernelvec uservec userret usertrap_addr main_addr : Z.
Variables kend etext trampoline forkret_addr : Z.
Variable pad : list Z.
Context `{Disk}.

Definition trapinithart : K unit := w_stvec kernelvec.

(** ** trap.c: to and from user space *)

Definition usertrapret : K (Z * Z) :=
  let! p := curproc in
  do! intr_off;
  let trampoline_uservec := u64 (TRAMPOLINE + (uservec - trampoline)) in
  do! w_stvec trampoline_uservec;
  let! satp := r_satp in
  do! tf_set p tf_kernel_satp satp;
  let! x := gets (proc_at p) in
  do! tf_set p tf_kernel_sp (u64 (p_kstack x + PGSIZE));
  do! tf_set p tf_kernel_trap usertrap_addr;
  let! tp := r_tp in
  do! tf_set p tf_kernel_hartid tp;
  let! s := r_sstatus in
  let s := Z.land s (u64 (Z.lnot SSTATUS_SPP)) in
  let s := Z.lor s SSTATUS_SPIE in
  do! w_sstatus s;
  let! epc := tf_get p tf_epc in
  do! w_sepc epc;
  let! pt := pagetable_of p in
  let satp := MAKE_SATP pt in
  let trampoline_userret := u64 (TRAMPOLINE + (userret - trampoline)) in
  ret (trampoline_userret, satp).

(** yield() leaves through swtch(); the code after it runs when the process is
    scheduled again. *)
Definition usertrap : K (Z * Z) :=
  let! s := r_sstatus in
  if truth (Z.land s SSTATUS_SPP) then panic "usertrap: not from user mode" else
  do! w_stvec kernelvec;
  let! p := curproc in
  let! sepc := r_sepc in
  do! tf_set p tf_epc sepc;
  let! scause := r_scause in
  let! which_dev := (
    if scause =? 8 then
      let! dead := killed p in
      if truth dead then exit kend (-1) else
      let! epc := tf_get p tf_epc in
      do! tf_set p tf_epc (u64 (epc + 4));
      do! intr_on;
      do! syscall kend trampoline forkret_addr pad;
      ret 0
    else
      let! which_dev := devintr in
      if truth which_dev then ret which_dev else
      let! x := gets (proc_at p) in
      let! scause := r_scause in
      let! _ := printf (str "usertrap(): unexpected scause 0x%lx pid=%d" ++ [nl])
                  [ANum scause; ANum (p_pid x)] in
      let! sepc := r_sepc in
      let! stval := r_stval in
      let! _ := printf (str "            sepc=0x%lx stval=0x%lx" ++ [nl]) [ANum sepc; ANum stval] in
      do! setkilled p;
      ret 0) in
  let! dead := killed p in
  if truth dead then exit kend (-1) else
  do! (if which_dev =? 2 then yield else ret tt);
  usertrapret.

(** The end of kerneltrap(), also after its yield(). *)
Definition kerneltrap_end (sepc sstatus : Z) : K unit :=
  do! w_sepc sepc;
  w_sstatus sstatus.

Definition kerneltrap : K unit :=
  let! sepc := r_sepc in
  let! sstatus := r_sstatus in
  let! scause := r_scause in
  if negb (truth (Z.land sstatus SSTATUS_SPP)) then panic "kerneltrap: not from supervisor mode" else
  let! i := intr_get in
  if truth i then panic "kerneltrap: interrupts enabled" else
  let! which_dev := devintr in
  if which_dev =? 0 then
    let! epc := r_sepc in
    let! stval := r_stval in
    let! _ := printf (str "scause=0x%lx sepc=0x%lx stval=0x%lx" ++ [nl]) [ANum scause; ANum epc; ANum stval] in
    panic "kerneltrap"
  else
    let! mp := (if which_dev =? 2 then myproc else ret None) in
    do! match mp with Some _ => yield | None => ret tt end;
    kerneltrap_end sepc sstatus.

(** ** proc.c: forkret() *)

Definition forkret : K (Z * Z) :=
  let! p := curproc in
  do! release (LProc p);
  let! first := gets k_first in
  do! (if truth first then
         do! fsinit ROOTDEV;
         modify (set_k_first 0)
       else ret tt);
  usertrapret.

(** ** start.c and main.c *)

Definition timerinit : K unit :=
  let! mie := r_mie in
  do! w_mie (Z.lor mie MIE_STIE);
  let! menvcfg := r_menvcfg in
  do! w_menvcfg (Z.lor menvcfg (Z.shiftl 1 63));
  let! mcounteren := r_mcounteren in
  do! w_mcounteren (Z.lor mcounteren 2);
  let! t := r_time in
  w_stimecmp (t + 1000000).

(** mret jumps to mepc in the mode of mstatus.MPP. *)
Definition start : K unit :=
  let! x := r_mstatus in
  let x := Z.land x (u64 (Z.lnot MSTATUS_MPP_MASK)) in
  let x := Z.lor x MSTATUS_MPP_S in
  do! w_mstatus x;
  do! w_mepc main_addr;
  do! w_satp 0;
  do! w_medeleg 0xffff;
  do! w_mideleg 0xffff;
  let! sie := r_sie in
  do! w_sie (Z.lor (Z.lor (Z.lor sie SIE_SEIE) SIE_STIE) SIE_SSIE);
  do! w_pmpaddr0 0x3fffffffffffff;
  do! w_pmpcfg0 0xf;
  do! timerinit;
  let! id := r_mhartid in
  w_tp (i32 id).

Definition puts (s : list Z) : K unit := let! _ := printf s [] in ret tt.

(** main() up to its call of scheduler(), which does not return. *)
Definition main : K unit :=
  let! id := cpuid in
  if id =? 0 then
    do! consoleinit;
    do! printfinit;
    do! puts [nl];
    do! puts (str "xv6 kernel is booting" ++ [nl]);
    do! puts [nl];
    do! kinit kend;
    do! kvminit etext trampoline;
    do! kvminithart;
    do! procinit;
    do! trapinit;
    do! trapinithart;
    do! plicinit;
    do! plicinithart;
    do! binit;
    do! iinit;
    do! fileinit;
    do! virtio_disk_init;
    do! userinit kend trampoline forkret_addr;
    modify (set_k_started 1)
  else
    let! started := gets k_started in
    if started =? 0 then (fun _ => Spin) else
    let! _ := printf (str "hart %d starting" ++ [nl]) [ANum id] in
    do! kvminithart;
    do! trapinithart;
    plicinithart.

End trap.

#[global] Arguments usertrapret : simpl never.
#[global] Arguments syscall : simpl never.
#[global] Arguments devintr : simpl never.
#[global] Arguments clockintr : simpl never.

(** ** The interrupt flag around a trap

    A trap clears SIE and leaves intena as it was, so that at noff = 0 the two
    may disagree until the next push_off(), which [settle] performs. *)

Definition settle (k : kstate) : kstate :=
  set_k_cpu (set_c_intena (of_bool (intr_enabled k)) (k_cpu k)) k.

Lemma settle_push k : c_noff (k_cpu k) = 0 -> push_off k = push_off (settle k).
Proof.
  intros Hn. rewrite !push_off_run. apply (f_equal (Ret tt)).
  unfold pushed, settle, intr_enabled. cbn. by rewrite Hn.
Qed.

Lemma settle_ok k : 0 <= h_sstatus (k_hart k) < 2 ^ 64 -> c_noff (k_cpu k) = 0 -> cpu_ok (settle k).
Proof. intros Hs Hn. split; cbn; [done|lia|lia|done]. Qed.

Lemma settle_acquire l k : c_noff (k_cpu k) = 0 -> acquire l k = acquire l (settle k).
Proof. intros Hn. unfold acquire, bind. by rewrite settle_push. Qed.

Lemma settle_myproc k : 0 <= h_sstatus (k_hart k) < 2 ^ 64 -> c_noff (k_cpu k) = 0 ->
  myproc k = Ret (c_proc (k_cpu k)) (settle k).
Proof.
  intros Hs Hn. transitivity (myproc (settle k)); [|exact (myproc_run (settle k) (settle_ok k Hs Hn))].
  unfold myproc, bind. by rewrite settle_push.
Qed.

Lemma settle_id k : cpu_ok k -> c_noff (k_cpu k) = 0 -> settle k = k.
Proof.
  intros [_ _ _ He] Hn. unfold settle, intr_enabled. rewrite <- He by done. by destruct k as [[]].
Qed.

(** The state of a hart that enters the kernel in process [p]. *)
Record trap_entry (p : nat) (k : kstate) : Prop := {
  te_sstatus : 0 <= h_sstatus (k_hart k) < 2 ^ 64;
  te_sie : intr_enabled k = false;
  te_noff : c_noff (k_cpu k) = 0;
  te_proc : c_proc (k_cpu k) = Some p;
  te_lt : (p < Z.to_nat NPROC)%nat;
  te_procs : procs_ok k;
  te_plocks : all_plocks_free k }.

Lemma trap_thread p k : trap_entry p k -> thread_ok p (settle k).
Proof. intros []. split; try done. by apply settle_ok. Qed.

Lemma settle_curproc p k : 0 <= h_sstatus (k_hart k) < 2 ^ 64 -> c_noff (k_cpu k) = 0 ->
  c_proc (k_cpu k) = Some p -> curproc k = Ret p (settle k).
Proof.
  intros Hs Hn Hp. unfold curproc. erewrite bind_ret_run by by apply settle_myproc. by rewrite Hp.
Qed.

(** ** usertrapret() *)

Section return_to_user.
Variables uservec userret usertrap_addr trampoline : Z.

(** The four words the kernel keeps in the trapframe. *)
Definition ret_mem (p : nat) (k : kstate) : gmap Z Z :=
  let tf := p_trapframe (proc_at p k) in
  store64 (store64 (store64 (store64 (k_mem k)
    (tf + tf_kernel_satp) (h_satp (k_hart k)))
    (tf + tf_kernel_sp) (u64 (p_kstack (proc_at p k) + PGSIZE)))
    (tf + tf_kernel_trap) usertrap_addr)
    (tf + tf_kernel_hartid) (h_tp (k_hart k)).

Definition ret_sstatus (s : Z) : Z :=
  u64 (Z.lor (Z.land (sie_off s) (u64 (Z.lnot SSTATUS_SPP))) SSTATUS_SPIE).

Definition ret_hart (p : nat) (k : kstate) : hart :=
  set_h_sepc (u64 (load64 (ret_mem p k) (p_trapframe (proc_at p k) + tf_epc)))
    (set_h_sstatus (ret_sstatus (h_sstatus (k_hart k)))
      (set_h_stvec (u64 (u64 (TRAMPOLINE + (uservec - trampoline)))) (k_hart k))).

Lemma usertrapret_run p k : cpu_ok k -> c_proc (k_cpu k) = Some p ->
  usertrapret uservec userret usertrap_addr trampoline k =
    Ret (u64 (TRAMPOLINE + (userret - trampoline)), MAKE_SATP (p_pagetable (proc_at p k)))
      (set_k_mem (ret_mem p k) (set_k_hart (ret_hart p k) k)).
Proof.
  intros Hok Hp. unfold usertrapret. erewrite bind_ret_run by by apply curproc_run. reflexivity.
Qed.

Lemma ret_sstatus_bit s n : 0 <= s < 2 ^ 64 -> 0 <= n ->
  Z.testbit (ret_sstatus s) n =
    if n =? 5 then true else Z.testbit s n && negb (n =? 1) && negb (n =? 8).
Proof.
  intros Hs Hn. unfold ret_sstatus.
  assert (Hr : 0 <= Z.lor (Z.land (sie_off s) (u64 (Z.lnot SSTATUS_SPP))) SSTATUS_SPIE < 2 ^ 64).
  { apply lor_range; [done| |done]. apply land_range; [done|]. by apply land_range. }
  rewrite u64_small by done.
  rewrite Z.lor_spec, Z.land_spec, sie_off_bit by done. unfold SSTATUS_SPIE, SSTATUS_SPP.
  rewrite bit_shiftl1 by done. destruct (Z.eqb_spec n 5) as [->|]; [apply orb_true_r|]. rewrite orb_false_r.
  destruct (decide (n < 64)).
  - unfold u64. rewrite Z.mod_pow2_bits_low, Z.lnot_spec, bit_shiftl1 by lia. done.
  - by rewrite (bits_above s 64) by lia.
Qed.

(** Only the four words change, so the saved registers and pc do not. *)
Lemma ret_mem_other p k a : let tf := p_trapframe (proc_at p k) in
  a < tf \/ tf + 24 <= a < tf + 32 \/ tf + 40 <= a -> ld (ret_mem p k) a = ld (k_mem k) a.
Proof.
  intros tf Ha. unfold ret_mem. fold tf. unfold tf_kernel_satp, tf_kernel_sp, tf_kernel_trap, tf_kernel_hartid.
  by rewrite !ld_store64_other by lia.
Qed.

End return_to_user.

(** ** System calls *)

Section system_call.
Variables kernelvec uservec userret usertrap_addr : Z.
Variables kend trampoline forkret_addr : Z.
Variable pad : list Z.
Context `{Disk}.

(** The state in which a system call runs: traps go to the kernel, the saved pc
    is past the ecall instruction, interrupts are on. *)
Definition entered (p : nat) (k : kstate) : kstate :=
  let a := p_trapframe (proc_at p k) + tf_epc in
  settle
    (set_k_hart (set_h_sstatus (Z.lor (h_sstatus (k_hart k)) SSTATUS_SIE) (set_h_stvec (u64 kernelvec) (k_hart k)))
      (set_k_mem (store64 (store64 (k_mem k) a (h_sepc (k_hart k))) a (u64 (h_sepc (k_hart k) + 4)))
        (settle (set_k_hart (set_h_stvec (u64 kernelvec) (k_hart k)) k)))).

Lemma entered_thread p k : trap_entry p k -> thread_ok p (entered p k).
Proof.
  intros [Hs Hi Hn Hp Hlt Hps Hf]. split; try done. apply settle_ok; [|done]. cbn.
  by apply lor_range.
Qed.

Lemma entered_proc q p k : proc_at q (entered p k) = proc_at q k.
Proof. reflexivity. Qed.

Lemma syscall_run p f r k k2 : 0 <= h_sstatus (k_hart k) < 2 ^ 64 -> c_noff (k_cpu k) = 0 ->
  c_proc (k_cpu k) = Some p ->
  syscalls kend trampoline forkret_addr pad (i32 (load64 (k_mem k) (p_trapframe (proc_at p k) + tf_a7))) = Some f ->
  f (settle k) = Ret r k2 ->
  syscall kend trampoline forkret_addr pad k =
    Ret tt (set_k_mem (store64 (k_mem k2) (p_trapframe (proc_at p k2) + tf_a0) (u64 r)) k2).
Proof.
  intros Hs Hn Hp Hf Hr. unfold syscall. erewrite bind_ret_run by by apply settle_curproc.
  unfold tf_get at 1, gets at 1. unfold bind at 1. cbv beta zeta.
  change (load64 (k_mem (settle k)) (p_trapframe (proc_at p (settle k)) + tf_a7))
    with (load64 (k_mem k) (p_trapframe (proc_at p k) + tf_a7)).
  rewrite Hf. by erewrite bind_ret_run by exact Hr.
Qed.

(** usertrap() up to the system call. *)
Lemma usertrap_enters p k f r k2 : trap_entry p k -> Z.testbit (h_sstatus (k_hart k)) 8 = false ->
  h_scause (k_hart k) = 8 -> 0 <= h_sepc (k_hart k) < 2 ^ 64 -> p_killed (proc_at p k) = 0 ->
  syscalls kend trampoline forkret_addr pad (i32 (load64 (k_mem k) (p_trapframe (proc_at p k) + tf_a7))) = Some f ->
  f (entered p k) = Ret r k2 -> thread_ok p k2 -> p_killed (proc_at p k2) = 0 ->
  let k3 := set_k_mem (store64 (k_mem k2) (p_trapframe (proc_at p k2) + tf_a0) (u64 r)) k2 in
  usertrap kernelvec uservec userret usertrap_addr kend trampoline forkret_addr pad k =
    usertrapret uservec userret usertrap_addr trampoline k3.
Proof.
  intros He Hspp Hc Hpc Hk Hf Hr Hth Hk2 k3. pose proof He as [Hs Hi Hn Hp Hlt Hps Hpl].
  assert (Hf' : syscalls kend trampoline forkret_addr pad (i32 (load64 (k_mem (entered p k))
    (p_trapframe (proc_at p k) + tf_a7))) = Some f).
  { unfold entered. cbn [k_mem settle set_k_cpu set_k_hart set_k_mem].
    rewrite !load64_store64_other by (unfold tf_a7, tf_epc; lia). exact Hf. }
  unfold usertrap, r_sstatus, get_hart, gets at 1. unfold bind at 1. unfold SSTATUS_SPP at 1.
  rewrite truth_land_bit, Hspp by done. unfold w_stvec, set_hart, modify at 1. unfold bind at 1.
  set (ka := set_k_hart (set_h_stvec (u64 kernelvec) (k_hart k)) k).
  erewrite bind_ret_run by (by apply (settle_curproc p ka)).
  unfold r_sepc, get_hart, gets at 1. unfold bind at 1.
  unfold tf_set at 1, modify at 1. unfold bind at 1.
  set (kc := set_k_mem _ _).
  assert (Hokc : cpu_ok kc) by (by apply (settle_ok ka)).
  unfold r_scause, get_hart, gets at 1. unfold bind at 1. change (h_scause (k_hart kc)) with (h_scause (k_hart k)).
  rewrite Hc. change (8 =? 8) with true. cbv iota.
  erewrite bind_ret_run.
  2: { erewrite bind_ret_run by (apply killed_run; [done|by apply (Hpl p)]).
       change (p_killed (proc_at p kc)) with (p_killed (proc_at p k)). rewrite Hk.
       change (truth 0) with false. cbv iota.
       unfold tf_get at 1, gets at 1. unfold bind at 1.
       unfold kc at 1. cbn [k_mem set_k_mem].
       change (p_trapframe (proc_at p (settle ka)) + tf_epc) with (p_trapframe (proc_at p k) + tf_epc).
       change (p_trapframe (proc_at p kc) + tf_epc) with (p_trapframe (proc_at p k) + tf_epc).
       change (h_sepc (k_hart (settle ka))) with (h_sepc (k_hart k)).
       rewrite load64_store64 by done.
       unfold tf_set at 1, modify at 1. unfold bind at 1. unfold intr_on, modify at 1. unfold bind at 1.
       erewrite bind_ret_run; [reflexivity|].
       apply (syscall_run p f r _ k2); [|done|done| |exact Hr].
       - cbn. by apply lor_range.
       - exact Hf'. }
  fold k3. pose proof Hth as [Hok2 _ Hp2 _ _ Hpl2].
  erewrite bind_ret_run by (apply killed_run; [done|by apply (Hpl2 p)]).
  change (p_killed (proc_at p k3)) with (p_killed (proc_at p k2)). by rewrite Hk2.
Qed.

Lemma u64_load m a : u64 (load64 m a) = load64 m a.
Proof. apply u64_small, load64_range. Qed.

(** C5 (syscall_protocol): a system call, from the ecall instruction back to user space.
    usertrap() runs the call that a7 names in a state with interrupts enabled and
    the saved pc on the instruction after the ecall; when the call returns [r] and
    the process has not been killed, the process resumes with [r] in a0, at the
    saved pc (the new program's, after exec()), in user mode with interrupts
    enabled and traps going to uservec, on its own page table.  Apart from a0 and the
    words the kernel keeps in the trapframe for the next trap, memory is as the
    call left it. *)
Theorem syscall_protocol p k f r k2 : trap_entry p k -> Z.testbit (h_sstatus (k_hart k)) 8 = false ->
  h_scause (k_hart k) = 8 -> 0 <= h_sepc (k_hart k) < 2 ^ 64 -> p_killed (proc_at p k) = 0 ->
  syscalls kend trampoline forkret_addr pad (i32 (load64 (k_mem k) (p_trapframe (proc_at p k) + tf_a7))) = Some f ->
  f (entered p k) = Ret r k2 -> thread_ok p k2 -> p_killed (proc_at p k2) = 0 ->
  let tf := p_trapframe (proc_at p k2) in
  (thread_ok p (entered p k) /\ intr_enabled (entered p k) = true /\
   load64 (k_mem (entered p k)) (p_trapframe (proc_at p k) + tf_epc) = u64 (h_sepc (k_hart k) + 4)) /\
  exists k', usertrap kernelvec uservec userret usertrap_addr kend trampoline forkret_addr pad k =
      Ret (u64 (TRAMPOLINE + (userret - trampoline)), MAKE_SATP (p_pagetable (proc_at p k2))) k' /\
    load64 (k_mem k') (tf + tf_a0) = u64 r /\
    h_sepc (k_hart k') = load64 (k_mem k2) (tf + tf_epc) /\
    h_stvec (k_hart k') = u64 (TRAMPOLINE + (uservec - trampoline)) /\
    (forall n, 0 <= n -> Z.testbit (h_sstatus (k_hart k')) n =
       if n =? 5 then true else Z.testbit (h_sstatus (k_hart k2)) n && negb (n =? 1) && negb (n =? 8)) /\
    (forall a, a < tf \/ tf + tf_epc <= a < tf + tf_kernel_hartid \/ tf + 40 <= a < tf + tf_a0 \/ tf + tf_a1 <= a ->
       ld (k_mem k') a = ld (k_mem k2) a).
Proof.
  intros He Hspp Hc Hpc Hk Hf Hr Hth Hk2 tf. split.
  - split_and!; [by apply entered_thread| |by apply load64_store64, u64_range].
    unfold intr_enabled, entered, settle. cbn [k_hart h_sstatus set_k_cpu set_k_hart set_h_sstatus].
    rewrite SIE_truth, Z.lor_spec. unfold SSTATUS_SIE. rewrite bit_shiftl1 by done. apply orb_true_r.
  - pose proof Hth as [Hok2 _ Hp2 _ _ _].
    rewrite (usertrap_enters p k f r k2) by assumption. set (k3 := set_k_mem _ k2).
    eexists. split; [exact (usertrapret_run uservec userret usertrap_addr trampoline p k3 Hok2 Hp2)|].
    cbn [k_mem k_hart set_k_mem set_k_hart ret_hart set_h_sepc set_h_sstatus set_h_stvec h_sepc h_stvec h_sstatus].
    assert (Htf : p_trapframe (proc_at p k3) = tf) by done.
    assert (Hm : forall a, a < tf \/ tf + 24 <= a < tf + 32 \/ tf + 40 <= a ->
      ld (ret_mem usertrap_addr p k3) a = ld (k_mem k3) a).
    { intros a Ha. apply ret_mem_other. rewrite Htf. exact Ha. }
    rewrite Htf. split_and!.
    + erewrite load64_ext; [by apply load64_store64, u64_range|]. intros b Hb. apply Hm. unfold tf_a0 in Hb. lia.
    + rewrite u64_load. transitivity (load64 (k_mem k3) (tf + tf_epc)).
      * apply load64_ext. intros b Hb. apply Hm. unfold tf_epc in Hb. lia.
      * apply load64_store64_other. unfold tf_epc, tf_a0. fold tf. lia.
    + apply u64_small, u64_range.
    + intros n Hn. apply ret_sstatus_bit; [|done]. by destruct Hok2.
    + intros a Ha. unfold tf_epc, tf_kernel_hartid, tf_a0, tf_a1 in Ha. rewrite Hm by lia.
      apply ld_store64_other. unfold tf_a0. fold tf. lia.
Qed.

End system_call.

(** A process that has executed ecall for getpid(). *)
Definition ecall_on (k : kstate) : kstate :=
  set_k_hart (set_h_scause 8 (set_h_sepc 0x1000 (k_hart k)))
    (set_k_mem (store64 (k_mem k) (p_trapframe (proc_at 3 k) + tf_a7) 11) k).

Lemma ecall_on_entry k : thread_ok 3 k -> intr_enabled k = false -> trap_entry 3 (ecall_on k).
Proof. intros [[Hs _ _ _] Hn Hp Hlt Hps Hf] Hi. by split. Qed.

Lemma ecall_on_regs k : h_scause (k_hart (ecall_on k)) = 8 /\ 0 <= h_sepc (k_hart (ecall_on k)) < 2 ^ 64 /\
  h_sstatus (k_hart (ecall_on k)) = h_sstatus (k_hart k) /\ proc_at 3 (ecall_on k) = proc_at 3 k.
Proof. done. Qed.

Lemma ecall_on_getpid k kv : trap_entry 3 k ->
  sys_getpid (entered kv 3 k) = Ret (p_pid (proc_at 3 k)) (entered kv 3 k).
Proof.
  intros He. destruct (entered_thread kv 3 k He) as [Hok _ Hp _ _ _].
  unfold sys_getpid. by erewrite bind_ret_run by by apply curproc_run.
Qed.

Lemma ecall_on_number k : load64 (k_mem (ecall_on k)) (p_trapframe (proc_at 3 (ecall_on k)) + tf_a7) = 11.
Proof. by apply load64_store64. Qed.

Lemma booted_user : intr_enabled booted = false /\ Z.testbit (h_sstatus (k_hart booted)) 8 = false /\
  p_killed (proc_at 3 booted) = 0.
Proof. vm_compute. done. Qed.

Lemma syscall_protocol_witness : exists k',
  usertrap 16 32 48 64 0 0 0 [] (ecall_on booted) =
    Ret (u64 (TRAMPOLINE + (48 - 0)), MAKE_SATP (p_pagetable (proc_at 3 booted))) k' /\
  load64 (k_mem k') (p_trapframe (proc_at 3 booted) + tf_a0) = u64 (p_pid (proc_at 3 booted)).
Proof.
  destruct booted_user as (Hi & Hspp & Hk).
  pose proof (ecall_on_entry booted booted_thread Hi) as He.
  destruct (ecall_on_regs booted) as (R1 & R2 & R3 & R4).
  destruct (syscall_protocol 16 32 48 64 0 0 0 [] 3 (ecall_on booted) sys_getpid
    (p_pid (proc_at 3 booted)) (entered 16 3 (ecall_on booted))) as [_ (k' & H1 & H2 & _)].
  - exact He.
  - rewrite R3. exact Hspp.
  - exact R1.
  - exact R2.
  - rewrite R4. exact Hk.
  - rewrite ecall_on_number. reflexivity.
  - rewrite ecall_on_getpid, R4 by exact He. reflexivity.
  - apply entered_thread. exact He.
  - rewrite entered_proc, R4. exact Hk.
  - exists k'. rewrite entered_proc, R4 in H1, H2. split; [exact H1|exact H2].
Defined.

(** ** The clock *)

(** The effect of clockintr(). *)
Definition ticked (k : kstate) : kstate :=
  set_k_csrs (set_csr_stimecmp (u64 (csr_time (k_csrs k) + 1000000)) (k_csrs k))
    (if h_tp (k_hart k) =? 0 then
       set_k_procs (imap (wake_at (c_proc (k_cpu k)) ChTicks) (k_procs k))
         (set_k_ticks (u32 (k_ticks k + 1)) (settle k))
     else k).

Lemma clockintr_run k : 0 <= h_sstatus (k_hart k) < 2 ^ 64 -> c_noff (k_cpu k) = 0 ->
  procs_ok k -> plocks_free k -> lock_free k LTicks -> clockintr k = Ret tt (ticked k).
Proof.
  intros Hs Hn Hps Hpl Hl. unfold clockintr, ticked.
  erewrite bind_ret_run by reflexivity. destruct (h_tp (k_hart k) =? 0); [|reflexivity].
  rewrite (bind_ret_run _ _ _ tt (set_k_procs (imap (wake_at (c_proc (k_cpu k)) ChTicks) (k_procs k))
    (set_k_ticks (u32 (k_ticks k + 1)) (settle k)))); [reflexivity|].
  assert (Hok : cpu_ok (settle k)) by by apply settle_ok.
  erewrite bind_ret_run by (rewrite settle_acquire by done; apply acquire_run; exact Hl).
  unfold modify at 1. unfold bind at 1.
  erewrite bind_ret_run.
  2: { apply wakeup_run; [by apply (enter_cpu_ok LTicks)|done|].
       by apply (enter_plocks_free LTicks (settle k)). }
  rewrite (release_run _ (settle k)); [reflexivity|done|done|done].
Qed.

Lemma devintr_timer k : h_scause (k_hart k) = 0x8000000000000005 ->
  0 <= h_sstatus (k_hart k) < 2 ^ 64 -> c_noff (k_cpu k) = 0 ->
  procs_ok k -> plocks_free k -> lock_free k LTicks -> devintr k = Ret 2 (ticked k).
Proof.
  intros Hc Hs Hn Hps Hpl Hl. unfold devintr. erewrite bind_ret_run by reflexivity. rewrite Hc.
  change (0x8000000000000005 =? 0x8000000000000009) with false.
  change (0x8000000000000005 =? 0x8000000000000005) with true. cbv iota.
  by erewrite bind_ret_run by by apply clockintr_run.
Qed.

Lemma yield_run {A} p k : cpu_ok k -> c_noff (k_cpu k) = 0 -> c_proc (k_cpu k) = Some p ->
  (p < length (k_procs k))%nat -> lock_free k (LProc p) ->
  @yield A k = Swtch (set_k_procs (<[p := set_p_state RUNNABLE (proc_at p k)]> (k_procs k)) (enter (LProc p) k)).
Proof.
  intros Hok Hn Hp Hlt Hl. unfold yield. erewrite bind_ret_run by by apply myproc_run. rewrite Hp.
  erewrite bind_ret_run by by apply acquire_run.
  unfold upd_proc, modify. unfold bind at 1.
  apply (sched_run p); [by apply (enter_cpu_ok (LProc p))|done| | |cbn; lia|].
  - unfold lk_of. cbn. by rewrite lookup_insert_eq.
  - unfold lk_of. cbn. by rewrite lookup_insert_eq.
  - unfold proc_at. cbn. by rewrite list_lookup_insert_eq.
Qed.

Lemma ticked_cpu k : k_cpu (settle (ticked k)) = k_cpu (settle k) /\ k_hart (ticked k) = k_hart k /\
  k_locks (ticked k) = k_locks k /\ length (k_procs (ticked k)) = length (k_procs k).
Proof.
  unfold ticked. destruct (h_tp (k_hart k) =? 0); [|done]. cbn. split_and!; try done. apply length_imap.
Qed.

Lemma ticked_proc i k : proc_at i (ticked k) = proc_at i k \/
  (p_state (proc_at i k) = SLEEPING /\ p_chan (proc_at i k) = Some ChTicks /\
   proc_at i (ticked k) = set_p_state RUNNABLE (proc_at i k)).
Proof.
  unfold ticked, proc_at. destruct (h_tp (k_hart k) =? 0); [|by left]. cbn.
  rewrite list_lookup_imap. destruct (k_procs k !! i) as [x|]; [|by left]. cbn.
  unfold wake_at, wake. case_decide; [by left|]. case_decide as E; [|by left]. right. by destruct E.
Qed.

(** kerneltrap() up to the handling of its timer interrupt. *)
Lemma kerneltrap_timer `{Disk} k : h_scause (k_hart k) = 0x8000000000000005 ->
  0 <= h_sstatus (k_hart k) < 2 ^ 64 -> Z.testbit (h_sstatus (k_hart k)) 8 = true ->
  intr_enabled k = false -> c_noff (k_cpu k) = 0 -> procs_ok k -> plocks_free k -> lock_free k LTicks ->
  kerneltrap k =
    match c_proc (k_cpu k) with
    | Some _ => (do! (yield : K unit); kerneltrap_end (h_sepc (k_hart k)) (h_sstatus (k_hart k))) (settle (ticked k))
    | None => kerneltrap_end (h_sepc (k_hart k)) (h_sstatus (k_hart k)) (settle (ticked k))
    end.
Proof.
  intros Hc Hs Hspp Hi Hn Hps Hpl Hl. unfold kerneltrap.
  erewrite bind_ret_run by reflexivity. erewrite bind_ret_run by reflexivity.
  erewrite bind_ret_run by reflexivity.
  unfold SSTATUS_SPP. rewrite truth_land_bit, Hspp by done. cbn [negb].
  erewrite bind_ret_run by reflexivity. unfold intr_enabled in Hi. rewrite Hi.
  change (truth (of_bool false)) with false. cbv iota.
  erewrite bind_ret_run by by apply devintr_timer.
  change (2 =? 0) with false. change (2 =? 2) with true. cbv iota.
  destruct (ticked_cpu k) as (Ec & Eh & _ & _).
  assert (Hp : c_proc (k_cpu (ticked k)) = c_proc (k_cpu k) /\ c_noff (k_cpu (ticked k)) = 0).
  { unfold ticked. destruct (h_tp (k_hart k) =? 0); done. }
  erewrite bind_ret_run by (apply settle_myproc; [by rewrite Eh|by destruct Hp]).
  rewrite (proj1 Hp). by destruct (c_proc (k_cpu k)).
Qed.


(** A timer interrupt of hart 0 in process 3. *)
Definition timer_on (k : kstate) : kstate :=
  set_k_hart (set_h_scause 0x8000000000000005 (set_h_sepc 0x80001000 (set_h_sstatus 0x120 (k_hart k))))
    (with_lock LTicks k).

Lemma timer_on_regs k : h_scause (k_hart (timer_on k)) = 0x8000000000000005 /\
  0 <= h_sstatus (k_hart (timer_on k)) < 2 ^ 64 /\ 0 <= h_sepc (k_hart (timer_on k)) < 2 ^ 64 /\
  Z.testbit (h_sstatus (k_hart (timer_on k))) 8 = true /\ intr_enabled (timer_on k) = false /\
  k_cpu (timer_on k) = k_cpu k /\ lock_free (timer_on k) LTicks.
Proof. split_and!; try done. apply (with_lock_free LTicks k). Qed.

Lemma timer_on_procs p k : thread_ok p k -> procs_ok (timer_on k) /\ all_plocks_free (timer_on k).
Proof. intros H. apply (with_lock_thread LTicks) in H; [|done]. by destruct H. Qed.

