(* ===== verification/Usys.v ===== *)
(** * Usys: user programs as trees of system calls, and the user library (user/ulib.c, printf.c)

    A user program is a tree: at each node a system call, with a branch for every
    answer the kernel may give.  Nothing is assumed of the kernel here; a theorem
    about a program interprets the calls as it needs.  exit() ends the tree
    ([Exited]); [Stuck] is a step that C leaves undefined, such as a store past the end
    of an array.  read() answers with the bytes it put in the buffer, whose number is
    its result, or [None] for -1; fstat() and pipe() likewise, and wait() with the
    process and its status.  A loop that reads until the end of its input takes fuel.

    A C string is the list of its characters before the NUL.  The arguments of
    printf() are those of the kernel's ([arg]), and so are the conversions of its
    formats, of which it prints what its 32-bit printint() makes.  The theorems hold
    against every kernel in which write() appends to a terminal ([Terminal]). *)

From Stdlib Require Import ZArith Lia Ascii String.
From stdpp Require Import base gmap list strings.
From S2P Require Import Prelude Bytes State Mem Printf Fcntl.

(** ** System calls (user/user.h) *)

(** What a program reads of a struct stat. *)
Record ustat : Type := mkUstat { us_dev : Z; us_ino : Z; us_type : Z; us_nlink : Z; us_size : Z }.

Inductive call : Type -> Type :=
| Fork : call Z
| Wait : call (Z * Z)
| Pipe : call (option (Z * Z))
| Write (fd : Z) (bs : list Z) : call Z
| Read (fd n : Z) : call (option (list Z))
| Close (fd : Z) : call Z
| Kill (pid : Z) : call Z
| Exec (path : list Z) (argv : list (list Z)) : call Z
| Open (path : list Z) (mode : Z) : call Z
| Mknod (path : list Z) (major minor : Z) : call Z
| Unlink (path : list Z) : call Z
| Fstat (fd : Z) : call (option ustat)
| Link (old new : list Z) : call Z
| Mkdir (path : list Z) : call Z
| Chdir (path : list Z) : call Z
| Dup (fd : Z) : call Z
| Getpid : call Z
| Sbrk (n : Z) : call Z
| Sleep (n : Z) : call Z
| Uptime : call Z.

Inductive prog (A : Type) : Type :=
| Done (a : A)
| Call {X : Type} (c : call X) (k : X -> prog A)
| Exited (status : Z)
| Stuck
| Starved.
Arguments Done {A} a.
Arguments Call {A X} c k.
Arguments Exited {A} status.
Arguments Stuck {A}.
Arguments Starved {A}.

Fixpoint bind_prog {A B} (f : A -> prog B) (m : prog A) : prog B :=
  match m with
  | Done a => f a
  | Call c k => Call c (fun x => bind_prog f (k x))
  | Exited s => Exited s
  | Stuck => Stuck
  | Starved => Starved
  end.

#[global] Instance prog_ret : MRet prog := @Done.
#[global] Instance prog_bind : MBind prog := @bind_prog.

Definition sys {X} (c : call X) : prog X := Call c Done.
Definition exit_ {A} (status : Z) : prog A := Exited status.

(** A loop, at most [n] times round. *)
Fixpoint ploop {A B} (n : nat) (body : A -> prog (A + B)) (x : A) : prog B :=
  match n with
  | O => Starved
  | S n' => r ← body x; match r with inl x' => ploop n' body x' | inr b => Done b end
  end.

Fixpoint pfor {A} (l : list A) (body : A -> prog unit) : prog unit :=
  match l with
  | [] => Done tt
  | x :: l' => body x;; pfor l' body
  end.

(** ** ulib.c *)

(** main() need not call exit(). *)
Definition start_ (main : prog unit) : prog unit := main;; exit_ 0.

(** while(( *s++ = *t++ ) != 0); the result is [None] when [n] bytes do not end the string. *)
Fixpoint ustrcpy (n : nat) (m : mem) (s t : Z) : option mem :=
  match n with
  | O => None
  | S n' => let m' := st m s (ld m t) in if ld m t =? 0 then Some m' else ustrcpy n' m' (s + 1) (t + 1)
  end.

Fixpoint strcmp (p q : list Z) : Z :=
  match p, q with
  | a :: p', b :: q' => if a =? b then strcmp p' q' else a - b
  | a :: _, [] => a
  | [], b :: _ => - b
  | [], [] => 0
  end.

Definition ustrlen (s : list Z) : Z := Z.of_nat (length s).

Definition umemset (m : mem) (dst c n : Z) : mem := memset_loop (Z.to_nat n) m dst c 0.

(** The position of the first [c] in a buffer that holds [s] and then a NUL, before any NUL. *)
Fixpoint ustrchr (s : list Z) (c : Z) : option nat :=
  match s with
  | [] => None
  | x :: s' => if x =? 0 then None else if x =? c then Some 0%nat else S <$> ustrchr s' c
  end.

(** One character of gets(), with those read so far. *)
Definition gets_body (max : Z) (buf : list Z) : prog (list Z + list Z) :=
  if Z.of_nat (length buf) + 1 <? max then
    r ← sys (Read 0 1);
    match r with
    | Some (c :: _) =>
        if (c =? nl) || (c =? 13) then Done (inr (buf ++ [c])) else Done (inl (buf ++ [c]))
    | _ => Done (inr buf)
    end
  else Done (inr buf).
Definition gets_ (max : Z) : prog (list Z) := ploop (S (Z.to_nat max)) (gets_body max) [].

Definition ustat_ (n : list Z) : prog (option ustat) :=
  fd ← sys (Open n O_RDONLY);
  if fd <? 0 then Done None else
  r ← sys (Fstat fd);
  sys (Close fd);;
  Done r.

(** while('0' <= *s && *s <= '9') n = n*10 + *s++ - '0'; *)
Fixpoint atoi_from (n : Z) (s : list Z) : Z :=
  match s with
  | c :: s' => if (chr "0" <=? c) && (c <=? chr "9") then atoi_from (i32 (n * 10 + c - chr "0")) s' else n
  | [] => n
  end.
Definition atoi (s : list Z) : Z := atoi_from 0 s.

Definition umemmove (m : mem) (vdst vsrc n : Z) : mem :=
  if vdst <? vsrc then copy_up (Z.to_nat n) m vdst vsrc
  else copy_down (Z.to_nat n) m (vdst + n) (vsrc + n).

Definition umemcmp (m : mem) (s1 s2 n : Z) : Z := memcmp_loop (Z.to_nat n) m s1 s2.

Definition umemcpy (m : mem) (dst src n : Z) : mem := umemmove m dst src (i32 n).

(** The library's memmove(), which chooses its direction by another test than the
    kernel's, moves the same bytes. *)
Lemma umemmove_ld m dst src n b : 0 <= n ->
  ld (umemmove m dst src n) b = if decide (dst <= b < dst + n) then ld m (src + (b - dst)) else ld m b.
Proof.
  intros Hn. unfold umemmove. destruct (Z.ltb_spec dst src).
  - rewrite copy_up_ld, Z2Nat.id by lia. done.
  - rewrite copy_down_ld, Z2Nat.id by lia. replace (dst + n - n) with dst by lia. case_decide; [f_equal; lia|done].
Qed.

Lemma umemmove_kernel m dst src n : 0 <= n -> mem_equiv (umemmove m dst src n) (memmove m dst src n).
Proof. intros Hn b. by rewrite umemmove_ld, memmove_ld. Qed.

(** ** printf.c *)

Definition udigits : list Z := str "0123456789ABCDEF".

Definition putc (fd c : Z) : prog unit := sys (Write fd [c]);; Done tt.

(** do { buf[i++] = digits[x % base]; } while((x /= base) != 0); *)
Fixpoint udigit_loop (fuel : nat) (x base : Z) : list Z :=
  match fuel with
  | O => []
  | S f => nth (Z.to_nat (x mod base)) udigits 0 :: (if x / base =? 0 then [] else udigit_loop f (x / base) base)
  end.

Definition uprintint (fd xx base : Z) (sgn : bool) : prog unit :=
  let neg := sgn && (xx <? 0) in
  let x := if neg then u32 (- xx) else u32 xx in
  let buf := udigit_loop 32 x base ++ (if neg then [chr "-"] else []) in
  if 16 <? Z.of_nat (length buf) then Stuck else
  pfor (reverse buf) (putc fd).

Definition uprintptr (fd x : Z) : prog unit :=
  putc fd (chr "0");;
  putc fd (chr "x");;
  pfor (seqZ 0 16) (fun i => putc fd (nth (Z.to_nat (Z.shiftr (u64 (Z.shiftl x (4 * i))) 60)) udigits 0)).

(** The directive at [i], after a percent sign: printint() takes an int, so that it
    gets the low 32 bits of a long.  The result is the last character used. *)
Definition directive (fd : Z) (fmt : list Z) (i : nat) (ap : list arg) : prog (nat * list arg) :=
  let at_ (j : nat) := nth j fmt 0 in
  let c0 := at_ i in
  let c1 := if truth c0 then at_ (i + 1)%nat else 0 in
  let c2 := if truth c1 then at_ (i + 2)%nat else 0 in
  if c0 =? chr "d" then uprintint fd (arg_int ap) 10 true;; Done (i, tl ap)
  else if (c0 =? chr "l") && (c1 =? chr "d") then uprintint fd (i32 (arg_long ap)) 10 true;; Done (i + 1, tl ap)%nat
  else if (c0 =? chr "l") && (c1 =? chr "l") && (c2 =? chr "d") then
    uprintint fd (i32 (arg_long ap)) 10 true;; Done (i + 2, tl ap)%nat
  else if c0 =? chr "u" then uprintint fd (arg_int ap) 10 false;; Done (i, tl ap)
  else if (c0 =? chr "l") && (c1 =? chr "u") then uprintint fd (i32 (arg_long ap)) 10 false;; Done (i + 1, tl ap)%nat
  else if (c0 =? chr "l") && (c1 =? chr "l") && (c2 =? chr "u") then
    uprintint fd (i32 (arg_long ap)) 10 false;; Done (i + 2, tl ap)%nat
  else if c0 =? chr "x" then uprintint fd (arg_int ap) 16 false;; Done (i, tl ap)
  else if (c0 =? chr "l") && (c1 =? chr "x") then uprintint fd (i32 (arg_long ap)) 16 false;; Done (i + 1, tl ap)%nat
  else if (c0 =? chr "l") && (c1 =? chr "l") && (c2 =? chr "x") then
    uprintint fd (i32 (arg_long ap)) 16 false;; Done (i + 2, tl ap)%nat
  else if c0 =? chr "p" then uprintptr fd (arg_long ap);; Done (i, tl ap)
  else if c0 =? chr "s" then pfor (arg_str ap) (putc fd);; Done (i, tl ap)
  else if c0 =? chr "%" then putc fd (chr "%");; Done (i, ap)
  else putc fd (chr "%");; putc fd c0;; Done (i, ap).

(** One character of the format; [pct] is state == '%'. *)
Definition vprintf_body (fd : Z) (fmt : list Z) (x : nat * bool * list arg) : prog (nat * bool * list arg + unit) :=
  let '(i, pct, ap) := x in
  match fmt !! i with
  | None => Done (inr tt)
  | Some c0 =>
      if pct then r ← directive fd fmt i ap; Done (inl (S (fst r), false, snd r))
      else if c0 =? chr "%" then Done (inl (S i, true, ap))
      else putc fd c0;; Done (inl (S i, false, ap))
  end.

Definition vprintf (fd : Z) (fmt : list Z) (ap : list arg) : prog unit :=
  ploop (S (length fmt)) (vprintf_body fd fmt) (0%nat, false, ap).

Definition fprintf (fd : Z) (fmt : list Z) (ap : list arg) : prog unit := vprintf fd fmt ap.
Definition uprintf (fmt : list Z) (ap : list arg) : prog unit := vprintf 1 fmt ap.
Definition say (fd : Z) (s : string) : prog unit := fprintf fd (str s ++ [nl]) [].

(** ** Running a program against a kernel *)

(** A kernel answers each call, and changes its state. *)
Definition kernel (W : Type) : Type := forall X, call X -> W -> X * W.

Inductive fin (A : Type) : Type := FDone (a : A) | FExited (status : Z) | FStuck | FStarved.
Arguments FDone {A} a.
Arguments FExited {A} status.
Arguments FStuck {A}.
Arguments FStarved {A}.

Fixpoint run {W A} (h : kernel W) (m : prog A) (w : W) : fin A * W :=
  match m with
  | Done a => (FDone a, w)
  | Call c k => let '(x, w') := h _ c w in run h (k x) w'
  | Exited s => (FExited s, w)
  | Stuck => (FStuck, w)
  | Starved => (FStarved, w)
  end.

Definition fin_bind {W A B} (r : fin A * W) (f : A -> W -> fin B * W) : fin B * W :=
  match r with
  | (FDone a, w) => f a w
  | (FExited s, w) => (FExited s, w)
  | (FStuck, w) => (FStuck, w)
  | (FStarved, w) => (FStarved, w)
  end.

Lemma run_bind {W A B} (h : kernel W) (m : prog A) (f : A -> prog B) w :
  run h (m ≫= f) w = fin_bind (run h m w) (fun a => run h (f a)).
Proof.
  revert w. induction m as [a|X c k IH|s| |]; intros w; try done.
  change (run h (Call c k ≫= f) w) with (let '(x, w') := h X c w in run h (k x ≫= f) w'). cbn [run].
  destruct (h X c w) as [x w']. apply IH.
Qed.

Lemma run_sys {W X} (h : kernel W) (c : call X) w : run h (sys c) w = (FDone (fst (h X c w)), snd (h X c w)).
Proof. cbn. by destruct (h X c w). Qed.

Lemma run_ploop {W A B} (h : kernel W) n (body : A -> prog (A + B)) x w :
  run h (ploop (S n) body x) w =
  fin_bind (run h (body x) w) (fun r => match r with inl x' => run h (ploop n body x') | inr b => fun w' => (FDone b, w') end).
Proof. cbn [ploop]. rewrite run_bind. destruct (run h (body x) w) as [[[x'|b]|s| |] w']; done. Qed.

(** What the library relies on: write() takes all the bytes and appends them. *)
Class Terminal {W} (h : kernel W) : Type := {
  put : Z -> list Z -> W -> W;
  put_write fd bs w : h Z (Write fd bs) w = (Z.of_nat (length bs), put fd bs w);
  put_nil fd w : put fd [] w = w;
  put_app fd a b w : put fd b (put fd a w) = put fd (a ++ b) w;
}.

(** [m] does nothing but write [bs] to [fd], in pieces, and returns [a]. *)
Inductive emits {A} (fd : Z) : prog A -> A -> list Z -> Prop :=
| emits_done a : emits fd (Done a) a []
| emits_write bs k a rest : emits fd (k (Z.of_nat (length bs))) a rest -> emits fd (Call (Write fd bs) k) a (bs ++ rest).

Lemma emits_run {W} (h : kernel W) `{!Terminal h} {A} fd (m : prog A) a bs w : emits fd m a bs ->
  run h m w = (FDone a, put fd bs w).
Proof.
  intros Hm. revert w. induction Hm as [a|bs k a rest _ IH]; intros w; [by rewrite put_nil|].
  cbn [run]. by rewrite put_write, IH, put_app.
Qed.

Lemma emits_ret {A} fd (a : A) : emits fd (Done a) a [].
Proof. constructor. Qed.

Lemma emits_bind {A B} fd (m : prog A) (f : A -> prog B) a b bs1 bs2 :
  emits fd m a bs1 -> emits fd (f a) b bs2 -> emits fd (m ≫= f) b (bs1 ++ bs2).
Proof. intros H1 H2. induction H1 as [a|bs k a rest _ IH]; [done|]. rewrite <- app_assoc. constructor. by apply IH. Qed.

(** A step that returns [a] without writing. *)
Lemma emits_seq {A B} fd (m : prog A) (f : A -> prog B) a b bs :
  emits fd m a bs -> f a = Done b -> emits fd (m ≫= f) b bs.
Proof. intros H1 H2. rewrite <- (app_nil_r bs). apply (emits_bind _ _ _ a); [done|]. rewrite H2. apply emits_ret. Qed.

Lemma emits_putc fd c : emits fd (putc fd c) tt [c].
Proof. exact (emits_write fd [c] _ tt [] (emits_done fd tt)). Qed.

Lemma emits_pfor {A} fd (f : A -> prog unit) (g : A -> list Z) l :
  (forall x, emits fd (f x) tt (g x)) -> emits fd (pfor l f) tt (concat (g <$> l)).
Proof. intros Hf. induction l as [|x l IH]; [apply emits_ret|]. by apply (emits_bind _ _ _ tt). Qed.

Lemma concat_single {A} (l : list A) : concat ((fun x => [x]) <$> l) = l.
Proof. induction l as [|x l IH]; [done|]. cbn. by f_equal. Qed.

Lemma emits_text fd l : emits fd (pfor l (putc fd)) tt l.
Proof. rewrite <- (concat_single l) at 2. apply emits_pfor. intros c. apply emits_putc. Qed.

(** ** What the library's printf() prints *)

Definition udigit (d : Z) : Z := nth (Z.to_nat d) udigits 0.

Lemma udigit_loop_vals f x base : udigit_loop f x base = udigit <$> digit_vals f x base.
Proof. revert x. induction f as [|f IH]; intros x; [done|]. cbn. f_equal. destruct (_ =? 0); [done|apply IH]. Qed.

Definition unumeral (xx base : Z) (sgn : bool) : list Z :=
  if sgn && (xx <? 0) then chr "-" :: reverse (udigit_loop 32 (u32 (- xx)) base)
  else reverse (udigit_loop 32 (u32 xx) base).

(** An int in base 10 or 16 always fits in the 16 bytes of printint(). *)
Lemma udigits_fit x base : 10 <= base -> (length (udigit_loop 32 (u32 x) base) <= 10)%nat.
Proof.
  intros Hb. rewrite udigit_loop_vals, length_fmap. apply (digit_vals_length _ _ _ 9); [lia| |lia].
  pose proof (u32_range x). assert (10 ^ 10 <= base ^ Z.of_nat 10) by (apply Z.pow_le_mono_l; lia). lia.
Qed.

Lemma uprintint_run fd xx base sgn : 10 <= base ->
  emits fd (uprintint fd xx base sgn) tt (unumeral xx base sgn).
Proof.
  intros Hb. unfold uprintint, unumeral. pose proof (udigits_fit xx base Hb). pose proof (udigits_fit (- xx) base Hb).
  destruct (sgn && (xx <? 0)).
  - rewrite (proj2 (Z.ltb_ge _ _)) by (rewrite length_app; cbn [length]; lia).
    rewrite reverse_cons_split. apply emits_text.
  - rewrite app_nil_r, (proj2 (Z.ltb_ge _ _)) by lia. apply emits_text.
Qed.

Definition upointer (x : Z) : list Z :=
  [chr "0"; chr "x"] ++ ((fun i => udigit (Z.shiftr (u64 (Z.shiftl x (4 * i))) 60)) <$> seqZ 0 16).

Lemma uprintptr_run fd x : emits fd (uprintptr fd x) tt (upointer x).
Proof.
  unfold uprintptr, upointer. apply (emits_bind _ _ _ tt _ [chr "0"]); [apply emits_putc|].
  apply (emits_bind _ _ _ tt _ [chr "x"]); [apply emits_putc|].
  rewrite <- (concat_single (_ <$> seqZ 0 16)), <- list_fmap_compose. apply emits_pfor. intros i. apply emits_putc.
Qed.

(** printint() takes an int: of a long it gets the low half. *)
Definition unum_arg (w : width) (ap : list arg) : Z :=
  match w with WInt => arg_int ap | _ => i32 (arg_long ap) end.

Definition ushown (it : item) (ap : list arg) : list Z :=
  match it with
  | ILit c => [c]
  | INum w _ base sgn => unumeral (unum_arg w ap) base sgn
  | IPtr => upointer (arg_long ap)
  | IStr => arg_str ap
  | IPct => [chr "%"]
  end.

Fixpoint urender (its : list item) (ap : list arg) : list Z :=
  match its with
  | [] => []
  | it :: its' => ushown it ap ++ urender its' (rest_args it ap)
  end.

Definition uitem_ok (it : item) : Prop :=
  match it with
  | ILit c => c <> chr "%"
  | INum _ c base sgn => (c, base, sgn) ∈ conversions
  | _ => True
  end.

Section Vprintf.
Context (fd : Z).

(** The characters of a conversion after its percent sign, and what directive() does
    with them. *)
Lemma directive_run pre it post ap : uitem_ok it -> text it = chr "%" :: tl (text it) -> 
  emits fd (directive fd (pre ++ tl (text it) ++ post) (length pre) ap)
    ((length pre + length (tl (text it)) - 1)%nat, rest_args it ap) (ushown it ap).
Proof.
  intros Hok Hp. unfold directive. assert (0 < length (tl (text it)))%nat as Hlen.
  { destruct it as [c|[]| | |]; cbn in *; [by injection Hp|lia..]. }
  rewrite (nth_middle pre post (tl (text it)) 0 (length pre)) by lia.
  assert (forall (m : prog unit) bs n ap', n = (length pre + length (tl (text it)) - 1)%nat -> ap' = rest_args it ap ->
    emits fd m tt bs -> emits fd (m;; Done (n, ap')) ((length pre + length (tl (text it)) - 1)%nat, rest_args it ap) bs) as Hdone.
  { intros m bs n ap' -> -> Hm. by apply (emits_seq _ _ _ tt). }
  destruct it as [c|w c base sgn| | |].
  - cbn in Hlen. lia.
  - cbn [uitem_ok] in Hok. assert (emits fd (uprintint fd (unum_arg w ap) base sgn) tt (unumeral (unum_arg w ap) base sgn)) as Hl.
    { apply uprintint_run. repeat (apply elem_of_cons in Hok as [[= -> -> ->]|Hok]; [lia|]). by apply elem_of_nil in Hok. }
    destruct w; [|rewrite (nth_middle pre post (tl (text (INum WLong c base sgn))) 1 (length pre + 1)) by (cbn; lia)
                |rewrite (nth_middle pre post (tl (text (INum WLongLong c base sgn))) 1 (length pre + 1)) by (cbn; lia);
                 rewrite (nth_middle pre post (tl (text (INum WLongLong c base sgn))) 2 (length pre + 2)) by (cbn; lia)];
    (repeat (apply elem_of_cons in Hok as [[= -> -> ->]|Hok]; [cbn -[uprintint unumeral nth] in *; apply Hdone; [cbn; lia|done|exact Hl]|]));
      by apply elem_of_nil in Hok.
  - apply Hdone; [cbn; lia|done|apply uprintptr_run].
  - apply Hdone; [cbn; lia|done|apply emits_text].
  - apply Hdone; [cbn; lia|done|apply emits_putc].
Qed.

(** One or two turns of the loop handle an item: a percent sign only changes the state. *)
Lemma vprintf_item pre it post ap n : uitem_ok it -> (length (text it) <= n)%nat ->
  exists n', (n - length (text it) <= n')%nat /\ forall bs,
    emits fd (ploop n' (vprintf_body fd (pre ++ text it ++ post)) ((length pre + length (text it))%nat, false, rest_args it ap)) tt bs ->
    emits fd (ploop n (vprintf_body fd (pre ++ text it ++ post)) (length pre, false, ap)) tt (ushown it ap ++ bs).
Proof.
  intros Hok Hn. assert (text it = chr "%" :: tl (text it) \/ exists c, it = ILit c) as [Hp|[c ->]].
  { destruct it as [c|[]| | |]; cbn; [right; by exists c|by left..]. }
  - assert (0 < length (tl (text it)))%nat as Hlen.
    { destruct it as [c|[]| | |]; cbn in *; [by injection Hp|lia..]. }
    rewrite Hp in Hn. cbn [length] in Hn. destruct n as [|[|n]]; [lia..|]. exists n. split; [rewrite Hp; cbn [length]; lia|].
    intros bs Hbs. rewrite Hp in Hbs |- *. cbn [app length tl] in Hbs |- *. rewrite cons_middle, app_assoc in Hbs |- *.
    cbn [ploop]. rewrite <- (app_nil_l (ushown it ap ++ bs)).
    apply (emits_bind _ _ _ (inl (S (length pre), true, ap))).
    { unfold vprintf_body. rewrite lookup_app_l by (rewrite length_app; cbn; lia).
      rewrite lookup_app_r, Nat.sub_diag by lia. apply emits_ret. }
    cbn [ploop]. apply (emits_bind _ _ _ (inl ((length pre + S (length (tl (text it))))%nat, false, rest_args it ap))); [|done].
    unfold vprintf_body. destruct (tl (text it)) as [|c0 cs] eqn:E; [cbn in Hlen; lia|].
    rewrite lookup_app_r, length_app by (rewrite length_app; cbn; lia). cbn [length app].
    replace (S (length pre) - (length pre + 1))%nat with 0%nat by lia. cbn [lookup list_lookup].
    replace (S (length pre)) with (length (pre ++ [chr "%"])) by (rewrite length_app; cbn; lia).
    change (c0 :: (cs ++ post)) with ((c0 :: cs) ++ post). rewrite <- E.
    apply (emits_seq fd _ _ ((length (pre ++ [chr "%"]) + length (tl (text it)) - 1)%nat, rest_args it ap)); [apply directive_run; [done|by rewrite Hp]|].
    cbn [fst snd]. rewrite length_app, E. cbn [length].
    by replace (S (length pre + 1 + S (length cs) - 1)) with (length pre + S (S (length cs)))%nat by lia.
  - cbn [text length] in Hn |- *. destruct n as [|n]; [lia|]. exists n. split; [lia|]. intros bs Hbs. cbn [ploop].
    apply (emits_bind _ _ _ (inl ((length pre + 1)%nat, false, ap))); [|done].
    unfold vprintf_body. rewrite lookup_app_r, Nat.sub_diag by lia. cbn [app lookup list_lookup]. cbn [uitem_ok] in Hok.
    rewrite (proj2 (Z.eqb_neq _ _)) by done. apply (emits_seq _ _ _ tt); [apply emits_putc|].
    by rewrite Nat.add_1_r.
Qed.

Lemma vprintf_loop its pre ap n : Forall uitem_ok its -> (length (format its) < n)%nat ->
  emits fd (ploop n (vprintf_body fd (pre ++ format its)) (length pre, false, ap)) tt (urender its ap).
Proof.
  intros Hok. revert pre ap n. induction Hok as [|it its Hit Hits IH]; intros pre ap n Hn.
  - destruct n as [|n]; [lia|]. cbn [ploop]. rewrite <- (app_nil_r (urender _ _)).
    apply (emits_bind _ _ _ (inr tt)); [|apply emits_ret]. unfold vprintf_body, format. cbn. rewrite app_nil_r, lookup_ge_None_2 by lia.
    apply emits_ret.
  - change (format (it :: its)) with (text it ++ format its) in Hn |- *. rewrite length_app in Hn.
    destruct (vprintf_item pre it (format its) ap n Hit ltac:(lia)) as (n' & Hn' & Hrun). cbn [urender]. apply Hrun.
    rewrite (app_assoc pre), <- length_app. apply IH. lia.
Qed.

Lemma vprintf_run its ap : Forall uitem_ok its -> emits fd (vprintf fd (format its) ap) tt (urender its ap).
Proof. intros Hok. apply (vprintf_loop its []); [done|lia]. Qed.

End Vprintf.

(** ** atoi() reads back what printf() printed *)

Definition decimal (n : Z) (ds : list Z) : Z := foldl (fun a d => a * 10 + d) n ds.

Lemma udigit_decimal d : 0 <= d < 10 -> udigit d = chr "0" + d.
Proof.
  intros Hd. assert (d ∈ [0; 1; 2; 3; 4; 5; 6; 7; 8; 9]) as H by (rewrite !elem_of_cons; lia).
  repeat (apply elem_of_cons in H as [->|H]; [done|]). by apply elem_of_nil in H.
Qed.

Lemma decimal_grows n ds : 0 <= n -> Forall (fun d => 0 <= d < 10) ds -> n <= decimal n ds.
Proof.
  intros Hn Hd. revert n Hn. induction Hd as [|d ds Hd _ IH]; intros n Hn; [done|]. cbn.
  pose proof (IH (n * 10 + d) ltac:(lia)). unfold decimal in *. lia.
Qed.

Lemma atoi_decimal n ds : 0 <= n -> Forall (fun d => 0 <= d < 10) ds -> decimal n ds < 2 ^ 31 ->
  atoi_from n (udigit <$> ds) = decimal n ds.
Proof.
  intros Hn Hd. revert n Hn. induction Hd as [|d ds Hd Hds IH]; intros n Hn Hmax; [done|]. cbn [fmap list_fmap atoi_from decimal foldl] in *.
  rewrite udigit_decimal by done. change (chr "0") with 48. change (chr "9") with 57.
  rewrite !(proj2 (Z.leb_le _ _)) by lia. cbn [andb]. pose proof (decimal_grows (n * 10 + d) ds ltac:(lia) Hds) as Hg.
  unfold decimal in *. rewrite i32_small by lia. replace (n * 10 + (48 + d) - 48) with (n * 10 + d) by lia.
  apply IH; [lia|done].
Qed.

Lemma digit_vals_range f x base : 2 <= base -> Forall (fun d => 0 <= d < base) (digit_vals f x base).
Proof.
  intros Hb. revert x. induction f as [|f IH]; intros x; [constructor|]. cbn. constructor; [apply Z.mod_pos_bound; lia|].
  destruct (_ =? 0); [constructor|apply IH].
Qed.

Lemma digit_vals_decimal f x : 0 <= x < 10 ^ Z.of_nat f -> decimal 0 (reverse (digit_vals f x 10)) = x.
Proof.
  revert x. induction f as [|f IH]; intros x Hx; [cbn in *; lia|]. cbn [digit_vals].
  rewrite Nat2Z.inj_succ, Z.pow_succ_r in Hx by lia. unfold decimal in *.
  rewrite reverse_cons, foldl_app. cbn [foldl]. pose proof (Z.div_mod x 10 ltac:(lia)).
  destruct (Z.eqb_spec (x / 10) 0); [cbn; lia|]. rewrite IH; [lia|].
  split; [apply Z.div_pos; lia|apply Z.div_lt_upper_bound; lia].
Qed.

Lemma atoi_unumeral n : 0 <= n < 2 ^ 31 -> atoi (unumeral n 10 true) = n.
Proof.
  intros Hn. unfold unumeral, atoi. rewrite (proj2 (Z.ltb_ge _ _)), andb_false_r by lia.
  rewrite u32_small, udigit_loop_vals, <- fmap_reverse by lia.
  pose proof (digit_vals_decimal 32 n ltac:(lia)) as E. rewrite atoi_decimal; [done|done| |lia].
  apply Forall_reverse, digit_vals_range. lia.
Qed.

(** ** A kernel with files to read and descriptors to write

    read() returns at least one byte of what is left, but may return fewer than asked
    for: [w_cuts] says how many, one less, for each call in turn. *)

Record world : Type := mkWorld {
  w_files : gmap (list Z) (list Z);
  w_in : gmap Z (list Z);
  w_next : Z;
  w_cuts : list nat;
  w_out : gmap Z (list Z);
}.

Definition out (fd : Z) (w : world) : list Z := default [] (w_out w !! fd).

Definition append (fd : Z) (bs : list Z) (w : world) : world :=
  match bs with
  | [] => w
  | _ => mkWorld (w_files w) (w_in w) (w_next w) (w_cuts w) (<[fd := out fd w ++ bs]> (w_out w))
  end.

(** How many bytes the next read() of up to [n] takes. *)
Definition cut (n : Z) (w : world) : nat :=
  match w_cuts w with
  | [] => Z.to_nat n
  | c :: _ => S c `min` Z.to_nat n
  end.

Definition serve : kernel world := fun X c w =>
  match c in call X return X * world with
  | Write fd bs => (Z.of_nat (length bs), append fd bs w)
  | Read fd n =>
      match w_in w !! fd with
      | None => (None, w)
      | Some bs => (Some (take (cut n w) bs),
          mkWorld (w_files w) (<[fd := drop (cut n w) bs]> (w_in w)) (w_next w) (tl (w_cuts w)) (w_out w))
      end
  | Open path _ =>
      match w_files w !! path with
      | None => (-1, w)
      | Some bs => (w_next w, mkWorld (w_files w) (<[w_next w := bs]> (w_in w)) (w_next w + 1) (w_cuts w) (w_out w))
      end
  | Close fd => (0, mkWorld (w_files w) (delete fd (w_in w)) (w_next w) (w_cuts w) (w_out w))
  | Pipe => (None, w)
  | Fstat _ => (None, w)
  | Wait => ((-1, 0), w)
  | Fork => (-1, w) | Kill _ => (-1, w) | Exec _ _ => (-1, w) | Mknod _ _ _ => (-1, w)
  | Unlink _ => (-1, w) | Link _ _ => (-1, w) | Mkdir _ => (-1, w) | Chdir _ => (-1, w) | Dup _ => (-1, w)
  | Getpid => (1, w) | Sleep _ => (-1, w) | Sbrk _ => (-1, w) | Uptime => (0, w)
  end.

Lemma out_append fd fd' bs w : out fd' (append fd bs w) = if decide (fd' = fd) then out fd w ++ bs else out fd' w.
Proof.
  unfold append. destruct bs as [|b bs]; [case_decide; [by subst; rewrite app_nil_r|done]|].
  unfold out at 1. cbn [w_out]. rewrite lookup_insert. repeat case_decide; naive_solver.
Qed.

#[global, program] Instance serve_terminal : Terminal serve := { put := append }.
Next Obligation. done. Qed.
Next Obligation. done. Qed.
Next Obligation.
  intros fd [|x a] [|y b] w; cbn [append app]; [done|done|by rewrite app_nil_r|].
  unfold out. cbn [w_out w_files w_in w_next w_cuts]. rewrite lookup_insert_eq, insert_insert_eq. cbn. by rewrite <- app_assoc.
Qed.

Lemma emits_serve {A} fd (m : prog A) a bs w : emits fd m a bs -> run serve m w = (FDone a, append fd bs w).
Proof. exact (emits_run serve fd m a bs w). Qed.

Definition no_files : world := mkWorld ∅ ∅ 3 [] ∅.



(** Of a long, printint() gets the low 32 bits. *)
Lemma printf_long_truncated : run serve (fprintf 1 (str "%ld %lx") [ANum (2 ^ 32); ANum (2 ^ 36 + 10)]) no_files =
  (FDone tt, append 1 (str "0 A") no_files).
Proof. vm_compute. reflexivity. Qed.
