(* ===== verification/Umalloc.v ===== *)
(** * Umalloc: the memory allocator of the user library (user/umalloc.c)

    Kernighan and Ritchie's allocator: the free blocks, each with a header of 16 bytes
    that holds its size in units of headers, form a circular list in the order of their
    addresses; free() joins a block with its neighbours.  The headers are a map from
    addresses; a pointer to a header is its address.  sbrk() moves the end of the
    process's memory up to the limit the kernel sets.

    The abstract state is a sorted list of free blocks and a map of the blocks in use
    ([heap_rep]); the theorems say that malloc() and free() move blocks between them,
    that blocks never overlap, and that both loops round the list end. *)

From Stdlib Require Import ZArith Lia.
From stdpp Require Import base gmap list sorting.
From S2P Require Import Prelude.

Record header : Type := mkHeader { s_ptr : Z; s_size : Z }.

(** sizeof(Header) *)
Definition HSIZE : Z := 16.

(** The allocator's memory: the headers, freep, and the process's break with its limit. *)
Record ustate : Type := mkUstate { u_hdr : gmap Z header; u_freep : Z; u_brk : Z; u_max : Z }.

Definition hdr (st : ustate) (a : Z) : header := default (mkHeader 0 0) (u_hdr st !! a).
Definition set_hdr (a : Z) (h : header) (st : ustate) : ustate := mkUstate (<[a := h]> (u_hdr st)) (u_freep st) (u_brk st) (u_max st).
Definition set_ptr (a v : Z) (st : ustate) : ustate := set_hdr a (mkHeader v (s_size (hdr st a))) st.
Definition set_size (a v : Z) (st : ustate) : ustate := set_hdr a (mkHeader (s_ptr (hdr st a)) v) st.
Definition set_freep (v : Z) (st : ustate) : ustate := mkUstate (u_hdr st) v (u_brk st) (u_max st).

(** The pointers of the list are as many as there are headers at most. *)
Definition turns (st : ustate) : nat := S (S (size (u_hdr st))).

(** for(p = freep; !(bp > p && bp < p->s.ptr); p = p->s.ptr) if(...) break; *)
Fixpoint free_loop (fuel : nat) (st : ustate) (bp p : Z) : option Z :=
  match fuel with
  | O => None
  | S fuel' =>
      let next := s_ptr (hdr st p) in
      if (p <? bp) && (bp <? next) then Some p
      else if (next <=? p) && ((p <? bp) || (bp <? next)) then Some p
      else free_loop fuel' st bp next
  end.

Definition free (ap : Z) (st : ustate) : option ustate :=
  let bp := ap - HSIZE in
  match free_loop (turns st) st bp (u_freep st) with
  | None => None
  | Some p =>
      let next := s_ptr (hdr st p) in
      let st :=
        if bp + HSIZE * s_size (hdr st bp) =? next then
          let st := set_size bp (u32 (s_size (hdr st bp) + s_size (hdr st next))) st in
          set_ptr bp (s_ptr (hdr st next)) st
        else set_ptr bp next st in
      let st :=
        if p + HSIZE * s_size (hdr st p) =? bp then
          let st := set_size p (u32 (s_size (hdr st p) + s_size (hdr st bp))) st in
          set_ptr p (s_ptr (hdr st bp)) st
        else set_ptr p bp st in
      Some (set_freep p st)
  end.

(** The old end of the memory, or -1.  The kernel shrinks the memory for a negative [n],
    but not below 0, and does not fail then. *)
Definition sbrk (n : Z) (st : ustate) : Z * ustate :=
  if u_brk st + n <? 0 then (u_brk st, st)
  else if u_brk st + n <=? u_max st then (u_brk st, mkUstate (u_hdr st) (u_freep st) (u_brk st + n) (u_max st))
  else (-1, st).

(** freep, or 0 when there is no more memory. *)
Definition morecore (nu : Z) (st : ustate) : option (Z * ustate) :=
  let nu := if nu <? 4096 then 4096 else nu in
  let '(p, st) := sbrk (i32 (nu * HSIZE)) st in
  if p =? -1 then Some (0, st) else
  let st := set_size p nu st in
  match free (p + HSIZE) st with
  | None => None
  | Some st => Some (u_freep st, st)
  end.

(** A block of [nunits] from the block at [p]: all of it, or its end. *)
Definition malloc_take (nunits prevp p : Z) (st : ustate) : Z * ustate :=
  if s_size (hdr st p) =? nunits then
    let st := set_ptr prevp (s_ptr (hdr st p)) st in
    (p + HSIZE, set_freep prevp st)
  else
    let st := set_size p (s_size (hdr st p) - nunits) st in
    let p := p + HSIZE * s_size (hdr st p) in
    let st := set_size p nunits st in
    (p + HSIZE, set_freep prevp st).

(** for(p = prevp->s.ptr; ; prevp = p, p = p->s.ptr) *)
Fixpoint malloc_loop (fuel : nat) (nunits prevp p : Z) (st : ustate) : option (Z * ustate) :=
  match fuel with
  | O => None
  | S fuel' =>
      if nunits <=? s_size (hdr st p) then Some (malloc_take nunits prevp p st)
      else if p =? u_freep st then
        match morecore nunits st with
        | None => None
        | Some (p, st) => if p =? 0 then Some (0, st) else malloc_loop fuel' nunits p (s_ptr (hdr st p)) st
        end
      else malloc_loop fuel' nunits p (s_ptr (hdr st p)) st
  end.

(** [base] is the address of the static header at which the list starts. *)
Definition malloc (base nbytes : Z) (st : ustate) : option (Z * ustate) :=
  let nunits := u32 ((nbytes + HSIZE - 1) / HSIZE + 1) in
  let st :=
    if u_freep st =? 0 then set_size base 0 (set_freep base (set_ptr base base st)) else st in
  let prevp := u_freep st in
  malloc_loop (2 * turns st + 4) nunits prevp (s_ptr (hdr st prevp)) st.

(** ** The abstract heap *)

Abbreviation block := (Z * Z)%type.
Definition block_end (b : block) : Z := fst b + HSIZE * snd b.
Definition apart (x y : block) : Prop := block_end x <= fst y \/ block_end y <= fst x.

(** The blocks of the free list, in the order of their addresses, with a gap between
    one and the next. *)
Fixpoint gaps (r : list block) : Prop :=
  match r with
  | [] => True
  | x :: r' => 0 <= snd x /\ match r' with [] => True | y :: _ => block_end x < fst y end /\ gaps r'
  end.

(** Each header holds the size of its block and points to the next, the last to [e]. *)
Definition next (r : list block) (e : Z) : Z := match r with [] => e | y :: _ => fst y end.
Fixpoint chain (m : gmap Z header) (r : list block) (e : Z) : Prop :=
  match r with
  | [] => True
  | x :: r' => m !! fst x = Some (mkHeader (next r' e) (snd x)) /\ chain m r' e
  end.

(** The bytes of the free blocks. *)
Definition covers (r : list block) (x : Z) : Prop := Exists (fun b => fst b <= x < block_end b) r.

(** [fl] are the free blocks, [al] the blocks in use with their sizes. *)
Record heap_rep (base : Z) (fl : list block) (al : gmap Z Z) (st : ustate) : Prop := {
  hr_base : 0 < base;
  hr_max : base + HSIZE <= u_brk st <= u_max st /\ u_max st <= 2 ^ 35;
  hr_chain : chain (u_hdr st) ((base, 0) :: fl) base;
  hr_gaps : gaps ((base, 0) :: fl);
  hr_free : Forall (fun b => 0 < snd b /\ base + HSIZE <= fst b /\ block_end b <= u_brk st) fl;
  hr_freep : Exists (fun b => fst b = u_freep st) ((base, 0) :: fl);
  hr_used a u : al !! a = Some u -> 0 < u /\ base + HSIZE <= a /\ a + HSIZE * u <= u_brk st /\ (exists v, u_hdr st !! a = Some (mkHeader v u)) /\
    Forall (apart (a, u)) fl;
  hr_apart a u b v : al !! a = Some u -> al !! b = Some v -> a <> b -> apart (a, u) (b, v);
}.

Lemma chain_app m A x B e : chain m (A ++ x :: B) e <-> chain m A (fst x) /\ chain m (x :: B) e.
Proof. induction A as [|y A IH]; [cbn; tauto|]. cbn [chain app]. rewrite IH. destruct A; cbn; tauto. Qed.

Lemma chain_frame m m' r e : Forall (fun b => m' !! fst b = m !! fst b) r -> chain m r e -> chain m' r e.
Proof. induction 1 as [|b r Hb Hr IH]; [done|]. cbn. rewrite Hb. intros [? ?]. split; auto. Qed.

Lemma gaps_app A x B : gaps (A ++ x :: B) <-> gaps (A ++ [x]) /\ gaps (x :: B).
Proof.
  induction A as [|y A IH]; [cbn; tauto|]. cbn [gaps app]. rewrite IH.
  destruct A; cbn [app gaps]; tauto.
Qed.

(** What comes before the first address of a tail ends before it. *)
Lemma gaps_before A x : gaps (A ++ [x]) -> Forall (fun b => 0 <= snd b /\ block_end b < fst x) A.
Proof.
  induction A as [|y A IH]; [constructor|]. cbn [gaps app]. intros (H0 & H1 & H2). specialize (IH H2). constructor; [|done].
  split; [done|]. destruct A as [|z A]; [done|]. cbn [app] in H1. inversion IH as [|? ? [Hz1 Hz2] _]; subst. unfold block_end, HSIZE in *. lia.
Qed.

Lemma gaps_after x B : gaps (x :: B) -> Forall (fun b => 0 <= snd b /\ block_end x < fst b) B.
Proof.
  revert x. induction B as [|y B IH]; intros x; [constructor|]. cbn [gaps]. intros (H0 & H1 & H2). specialize (IH y H2).
  assert (0 <= snd y) by (by destruct H2). constructor; [done|].
  eapply Forall_impl; [exact IH|]. intros b [Hb1 Hb2]. unfold block_end, HSIZE in *. lia.
Qed.

(** The last block may change its size. *)
Lemma gaps_last A a s s' : gaps (A ++ [(a, s)]) -> 0 <= s' -> gaps (A ++ [(a, s')]).
Proof.
  intros H Hs. induction A as [|y A IH]; cbn [app gaps] in *; [tauto|]. destruct H as (H0 & H1 & H2).
  split; [done|]. split; [|auto]. by destruct A.
Qed.

Lemma covers_app A B x : covers (A ++ B) x <-> covers A x \/ covers B x.
Proof. apply Exists_app. Qed.
Lemma covers_cons b B x : covers (b :: B) x <-> fst b <= x < block_end b \/ covers B x.
Proof. apply Exists_cons. Qed.

(** ** Going round the list *)

Lemma chain_lookup m r e i b : chain m r e -> r !! i = Some b -> m !! fst b = Some (mkHeader (next (drop (S i) r) e) (snd b)).
Proof.
  revert i. induction r as [|x r IH]; intros i; [done|]. intros [Hx Hr]. destruct i as [|i]; cbn.
  - intros [= <-]. by rewrite drop_0.
  - intros Hi. by apply IH.
Qed.

Lemma gaps_lookup r i j x y : gaps r -> r !! i = Some x -> r !! j = Some y -> (i < j)%nat -> 0 <= snd x /\ block_end x < fst y.
Proof.
  revert i j. induction r as [|b r IH]; intros i j Hg Hi Hj Hij; [done|]. destruct j as [|j]; [lia|]. destruct i as [|i].
  - injection Hi as ->. pose proof (gaps_after _ _ Hg) as Ha. destruct Hg as [H0 _].
    destruct (Forall_lookup_1 _ _ _ _ Ha Hj) as [_ H]. done.
  - destruct Hg as (_ & _ & Hg). apply (IH i j); (done || lia).
Qed.

Lemma next_drop r i e : next (drop i r) e = match r !! i with Some b => fst b | None => e end.
Proof. revert i. induction r as [|x r IH]; intros [|i]; [done..|]. cbn. apply IH. Qed.

Section ring.
Context (st : ustate) (base : Z) (r : list block) (tail : list block).
Context (r_eq : r = (base, 0) :: tail) (r_chain : chain (u_hdr st) r base) (r_gaps : gaps r).

(** The index after [i] on the ring. *)
Definition succ_ix (i : nat) : nat := if decide (S i < length r)%nat then S i else 0%nat.

Lemma succ_lt i : (i < length r)%nat -> (succ_ix i < length r)%nat.
Proof. intros H. unfold succ_ix. case_decide; lia. Qed.

Lemma ring_hdr i b : r !! i = Some b -> exists c, r !! succ_ix i = Some c /\ hdr st (fst b) = mkHeader (fst c) (snd b).
Proof using r_eq r_chain.
  intros Hi. pose proof (chain_lookup _ _ _ _ _ r_chain Hi) as H. unfold hdr. rewrite H, next_drop. unfold succ_ix. case_decide as Hd.
  - destruct (lookup_lt_is_Some_2 r (S i) Hd) as [c Hc]. exists c. by rewrite Hc.
  - rewrite (lookup_ge_None_2 r (S i)) by lia. exists (base, 0). rewrite r_eq. done.
Qed.

Lemma ring_lt i j x y : r !! i = Some x -> r !! j = Some y -> (i < j)%nat -> fst x < fst y.
Proof using r_gaps.
  intros Hi Hj Hij. destruct (gaps_lookup _ _ _ _ _ r_gaps Hi Hj Hij) as [H0 H1]. unfold block_end, HSIZE in H1. lia.
Qed.

(** The number of steps from [i] to [j]. *)
Definition steps (i j : nat) : nat := if decide (i <= j)%nat then (j - i)%nat else (j + length r - i)%nat.

Lemma steps_succ i j : (i < length r)%nat -> (j < length r)%nat -> i <> j -> steps i j = S (steps (succ_ix i) j).
Proof. intros Hi Hj Hij. unfold steps, succ_ix. repeat case_decide; lia. Qed.

Section insertion.
Context (bp : Z) (j : nat) (q : block).
Context (j_at : r !! j = Some q) (below : fst q < bp) (above : forall i b, r !! i = Some b -> (j < i)%nat -> bp < fst b).

Lemma free_loop_round fuel i b : r !! i = Some b -> (steps i j < fuel)%nat -> free_loop fuel st bp (fst b) = Some (fst q).
Proof using r_eq r_chain r_gaps j_at below above.
  assert (Hb0 : r !! 0%nat = Some (base, 0)) by by rewrite r_eq.
  assert (base < bp) as Hbase.
  { destruct (decide (j = 0%nat)) as [Hj|Hj]; [rewrite Hj, Hb0 in j_at; by injection j_at as <-|].
    pose proof (ring_lt 0 j _ _ Hb0 j_at ltac:(lia)). cbn in *. lia. }
  assert (j < length r)%nat as Hjl by by eapply lookup_lt_Some.
  revert i b. induction fuel as [|fuel IH]; intros i b Hi Hs; [lia|].
  assert (i < length r)%nat as Hil by by eapply lookup_lt_Some.
  destruct (ring_hdr i b Hi) as (c & Hc & Hh). cbn [free_loop]. rewrite Hh. cbn [s_ptr].
  destruct (decide (i = j)) as [->|Hij].
  - rewrite j_at in Hi. injection Hi as <-. rewrite (proj2 (Z.ltb_lt (fst q) bp)) by lia. cbn [andb orb].
    unfold succ_ix in Hc. case_decide.
    + pose proof (above _ _ Hc ltac:(lia)). by rewrite (proj2 (Z.ltb_lt bp (fst c))) by lia.
    + rewrite Hb0 in Hc. injection Hc as <-. cbn [fst]. destruct (bp <? base); [done|].
      assert (base <= fst q) as Hle; [|by rewrite (proj2 (Z.leb_le base (fst q))) by lia].
      destruct (decide (j = 0%nat)) as [->|]; [rewrite Hb0 in j_at; injection j_at as <-; cbn; lia|].
      pose proof (ring_lt 0 j _ _ Hb0 j_at ltac:(lia)). cbn in *. lia.
  - rewrite (steps_succ i j) in Hs by done.
    assert ((fst b <? bp) && (bp <? fst c) = false /\ (fst c <=? fst b) && ((fst b <? bp) || (bp <? fst c)) = false) as [-> ->].
    2: { apply (IH (succ_ix i) c Hc). lia. }
    unfold succ_ix in Hc. case_decide as Hd.
    + pose proof (ring_lt i (S i) _ _ Hi Hc ltac:(lia)) as Hlt. rewrite (proj2 (Z.leb_gt (fst c) (fst b))) by lia. split; [|done].
      destruct (decide (i < j)%nat) as [Hlj|Hlj].
      * assert (fst c <= fst q).
        { destruct (decide (S i = j)) as [E|]; [rewrite E, j_at in Hc; injection Hc as <-; lia|].
          pose proof (ring_lt (S i) j _ _ Hc j_at ltac:(lia)). lia. }
        by rewrite (proj2 (Z.ltb_ge bp (fst c))), andb_false_r by lia.
      * pose proof (above i b Hi ltac:(lia)). by rewrite (proj2 (Z.ltb_ge (fst b) bp)) by lia.
    + rewrite Hb0 in Hc. injection Hc as <-. cbn [fst]. pose proof (above i b Hi ltac:(lia)).
      rewrite (proj2 (Z.ltb_ge (fst b) bp)), (proj2 (Z.ltb_ge bp base)) by lia. cbn. by rewrite andb_false_r.
Qed.
End insertion.
End ring.

(** The headers bound the length of the list, so the fuel of the loops is enough. *)
Lemma ring_size m r e : chain m r e -> gaps r -> (length r <= size m)%nat.
Proof.
  intros Hc Hg. rewrite <- (length_fmap fst r), <- (size_dom m).
  assert (NoDup (fst <$> r)) as Hnd.
  { clear Hc. induction r as [|x r IH]; [constructor|]. cbn [fmap list_fmap]. pose proof (gaps_after _ _ Hg) as Ha. constructor.
    - intros (b & Hb & Hin)%list_elem_of_fmap. destruct (proj1 (Forall_forall _ _) Ha b Hin) as [_ H]. destruct Hg as [H0 _].
      unfold block_end, HSIZE in H. lia.
    - apply IH. by destruct Hg as (_ & _ & ?). }
  rewrite <- (size_list_to_set (C := gset Z) _ Hnd). apply subseteq_size. intros a Ha.
  apply elem_of_list_to_set, list_elem_of_fmap in Ha as (b & -> & Hb). apply list_elem_of_lookup in Hb as [i Hi].
  apply elem_of_dom. rewrite (chain_lookup _ _ _ _ _ Hc Hi). done.
Qed.

(** The place of an address in the list. *)
Lemma split_at bp x r : gaps (x :: r) -> fst x < bp -> Forall (fun b => fst b <> bp) r ->
  exists A q B, x :: r = A ++ q :: B /\ fst q < bp /\ Forall (fun b => bp < fst b) B.
Proof.
  revert x. induction r as [|y r IH]; intros x Hg Hx Hr; [by exists [], x, []|].
  inversion_clear Hr as [|? ? Hy Hr']. destruct (decide (fst y < bp)) as [Hlt|Hge].
  - destruct (IH y) as (A & q & B & E & Hq & HB); [by destruct Hg as (_ & _ & ?)|done..|].
    exists (x :: A), q, B. by rewrite E.
  - exists [], x, (y :: r). split_and!; [done..|]. constructor; [lia|]. destruct Hg as (_ & _ & Hg).
    pose proof (gaps_after _ _ Hg) as Ha. eapply Forall_impl; [exact Ha|]. intros b [_ Hb]. destruct Hg as [H0 _].
    unfold block_end, HSIZE in Hb. lia.
Qed.

Lemma set_both a v w st : set_ptr a v (set_size a w st) = set_hdr a (mkHeader v w) st.
Proof. unfold set_ptr, set_size, set_hdr, hdr. cbn. by rewrite lookup_insert_eq, insert_insert_eq. Qed.

Lemma hdr_set_eq a h st : hdr (set_hdr a h st) a = h.
Proof. unfold hdr, set_hdr. cbn. by rewrite lookup_insert_eq. Qed.

Lemma hdr_set_ne a b h st : a <> b -> hdr (set_hdr a h st) b = hdr st b.
Proof. intros H. unfold hdr, set_hdr. cbn. by rewrite lookup_insert_ne. Qed.

Lemma hdr_lookup st a h : u_hdr st !! a = Some h -> hdr st a = h.
Proof. unfold hdr. by intros ->. Qed.

(** Joining a block with the one after it. *)
Definition join (b : block) (B : list block) : Z * list block :=
  match B with
  | c :: B' => if block_end b =? fst c then (snd b + snd c, B') else (snd b, B)
  | [] => (snd b, [])
  end.

Section free.
Context (st : ustate) (base bp u p s v : Z) (A B : list block) (tail : list block).
Context (r_eq : A ++ (p, s) :: B = (base, 0) :: tail) (r_chain : chain (u_hdr st) (A ++ (p, s) :: B) base) (r_gaps : gaps (A ++ (p, s) :: B)).
Context (bp_hdr : u_hdr st !! bp = Some (mkHeader v u)) (u_pos : 0 < u).
Context (p_below : p + HSIZE * s <= bp) (p_lt : p < bp) (B_above : Forall (fun b => bp + HSIZE * u <= fst b) B).
Context (bounds : 0 < base /\ bp + HSIZE * u <= 2 ^ 35 /\ Forall (fun b => block_end b <= 2 ^ 35) (A ++ (p, s) :: B)).
Context (freep_in : Exists (fun b => fst b = u_freep st) (A ++ (p, s) :: B)).

Lemma free_finds : free_loop (turns st) st bp (u_freep st) = Some p.
Proof using r_eq r_chain r_gaps u_pos p_lt B_above freep_in.
  apply Exists_exists in freep_in as (b & [i Hi]%list_elem_of_lookup & <-).
  apply (free_loop_round st base _ tail r_eq r_chain r_gaps bp (length A) (p, s)) with (i := i) (b := b).
  - by apply list_lookup_middle.
  - done.
  - intros k c Hk Hlt. rewrite lookup_app_r in Hk by lia. destruct (k - length A)%nat as [|k'] eqn:E; [lia|]. cbn in Hk.
    pose proof (Forall_lookup_1 _ _ _ _ B_above Hk). cbn in *. unfold HSIZE in *. lia.
  - done.
  - pose proof (ring_size _ _ _ r_chain r_gaps). pose proof (lookup_lt_Some _ _ _ Hi). unfold turns, steps.
    rewrite length_app in *. cbn [length] in *. case_decide; lia.
Qed.

Definition joined : Z * list block := join (bp, u) B.

Lemma ring_p : hdr st p = mkHeader (next B base) s /\ chain (u_hdr st) B base /\ base <= p.
Proof.
  pose proof r_chain as Hc. apply chain_app in Hc as [_ [Hp HB]]. split_and!; [by apply hdr_lookup|done|].
  destruct A as [|a A']; cbn in r_eq; [injection r_eq as -> _ _; lia|]. injection r_eq as Ha _. subst a.
  apply gaps_app in r_gaps as [Hg _]. pose proof (gaps_before _ _ Hg) as Hb. inversion_clear Hb as [|? ? [H0 H1] _].
  unfold block_end in H1. cbn in *. lia.
Qed.

Lemma joined_bound : 0 < fst joined /\ bp + HSIZE * fst joined <= 2 ^ 35 /\ u <= fst joined.
Proof.
  unfold joined, join. destruct bounds as (_ & Hb & Hf). apply Forall_app in Hf as [_ Hf]. inversion_clear Hf as [|? ? _ Hf'].
  destruct B as [|[c t] B']; cbn [fst snd]; [lia|]. apply gaps_app in r_gaps as [_ (_ & _ & (Ht & _))]. cbn in Ht.
  inversion_clear Hf' as [|? ? Hc _]. unfold block_end in *. cbn in Hc |- *. destruct (Z.eqb_spec (bp + HSIZE * u) c); cbn; [|lia].
  unfold HSIZE in *. lia.
Qed.

(** free() rewrites the header of the block and that of its predecessor. *)
Lemma free_state : free (bp + HSIZE) st = Some (set_freep p (set_hdr p
    (if block_end (p, s) =? bp then mkHeader (next (snd joined) base) (s + fst joined) else mkHeader bp s)
    (set_hdr bp (mkHeader (next (snd joined) base) (fst joined)) st))).
Proof.
  destruct ring_p as (Hp & HB & Hbase). pose proof joined_bound as (Hj0 & Hj1 & _).
  unfold free. replace (bp + HSIZE - HSIZE) with bp by lia. rewrite free_finds, Hp, (hdr_lookup _ _ _ bp_hdr). cbn [s_ptr s_size].
  set (st1 := if bp + HSIZE * u =? _ then _ else _).
  assert (st1 = set_hdr bp (mkHeader (next (snd joined) base) (fst joined)) st) as ->.
  { unfold st1, joined, join, block_end in *. destruct B as [|[c t] B']; cbn [next fst snd] in *.
    - rewrite (proj2 (Z.eqb_neq _ _)) by (unfold HSIZE; lia). unfold set_ptr. by rewrite (hdr_lookup _ _ _ bp_hdr).
    - destruct HB as [Hc _]. cbn [fst snd] in Hc. destruct (Z.eqb_spec (bp + HSIZE * u) c) as [E|E]; cbn [fst snd next] in *.
      + assert (c <> bp) by (unfold HSIZE in *; lia). rewrite (hdr_lookup _ _ _ Hc). cbn [s_size].
        apply gaps_app in r_gaps as [_ (_ & _ & (Ht & _))]. cbn in Ht. rewrite u32_small by (unfold HSIZE in *; lia).
        unfold set_size at 1. rewrite hdr_set_ne, (hdr_lookup _ _ _ Hc) by done. apply set_both.
      + unfold set_ptr. by rewrite (hdr_lookup _ _ _ bp_hdr). }
  set (st2 := set_hdr bp _ st). assert (hdr st2 p = mkHeader (next B base) s) as Hp2.
  { unfold st2. by rewrite hdr_set_ne by lia. }
  rewrite Hp2. unfold block_end. cbn [s_size fst snd]. do 2 f_equal.
  assert (0 <= s) by (apply gaps_app in r_gaps as [_ [? _]]; done). assert (hdr st2 bp = mkHeader (next (snd joined) base) (fst joined)) as Hb2 by apply hdr_set_eq.
  destruct (Z.eqb_spec (p + HSIZE * s) bp) as [E|E].
  - rewrite Hb2. cbn [s_size]. rewrite u32_small by (unfold HSIZE in *; lia). unfold set_size at 1.
    rewrite hdr_set_ne, Hb2 by lia. apply set_both.
  - unfold set_ptr. by rewrite Hp2.
Qed.

(** The list after free(). *)
Definition merged : list block :=
  (if block_end (p, s) =? bp then [(p, s + fst joined)] else [(p, s); (bp, fst joined)]) ++ snd joined.

Lemma join_cases : (snd joined = B /\ fst joined = u /\ bp + HSIZE * u <> next B 0) \/
  (exists t, B = (bp + HSIZE * u, t) :: snd joined /\ fst joined = u + t).
Proof.
  destruct ring_p as (_ & _ & Hb). pose proof bounds as [Hb0 _].
  unfold joined, join, block_end. destruct B as [|[c t] B']; cbn [fst snd next] in *.
  - left. split_and!; [done..|]. unfold HSIZE. lia.
  - destruct (Z.eqb_spec (bp + HSIZE * u) c) as [<-|]; [right; by exists t|by left].
Qed.

(** What the rest of the list [snd joined] keeps. *)
Lemma joined_rest : gaps ((bp, fst joined) :: snd joined) /\ chain (u_hdr st) (snd joined) base /\
  Forall (fun b => bp < fst b) (snd joined).
Proof.
  destruct ring_p as (_ & HB & _). pose proof r_gaps as Hg. apply gaps_app in Hg as [_ Hg]. destruct Hg as (Hs & _ & Hg).
  destruct joined_bound as (Hj & _). destruct join_cases as [(-> & -> & Hn)|(t & E & ->)].
  - split_and!; [|done|eapply Forall_impl; [exact B_above|]; cbn; unfold HSIZE; lia].
    cbn [gaps snd]. split_and!; [lia| |done]. destruct B as [|b B']; [done|]. inversion_clear B_above as [|? ? Hb _]. cbn in *.
    unfold block_end. cbn. lia.
  - rewrite E in Hg, HB, B_above. destruct Hg as (Ht & Hh & Hg). cbn in Ht.
    assert (gaps ((bp, u + t) :: snd joined)) as Hgj.
    { cbn [gaps snd]. split_and!; [lia| |done]. destruct (snd joined); [done|]. unfold block_end in *. cbn in *. unfold HSIZE in *. lia. }
    split_and!; [done|by destruct HB|]. pose proof (gaps_after _ _ Hgj) as Ha. eapply Forall_impl; [exact Ha|].
    intros b [_ H]. unfold block_end, HSIZE in H. cbn in H. lia.
Qed.

Lemma merged_gaps : gaps (A ++ merged).
Proof.
  pose proof r_gaps as Hg. apply gaps_app in Hg as [HA (Hs & _)]. destruct joined_rest as (Hj & _ & _). cbn in Hs.
  destruct joined_bound as (Hu & _).
  unfold merged, block_end. cbn [fst snd]. destruct (Z.eqb_spec (p + HSIZE * s) bp) as [E|E]; cbn [app]; apply gaps_app.
  - split; [apply (gaps_last _ _ s); (done || lia)|]. destruct Hj as (_ & Hh & Hr). cbn [gaps snd]. split_and!; [lia| |done].
    destruct (snd joined); [done|]. unfold block_end in *. cbn in *. unfold HSIZE in *. lia.
  - split; [done|]. refine (conj Hs (conj _ Hj)). unfold block_end. cbn [fst snd]. lia.
Qed.

Lemma merged_chain : chain (<[p := if block_end (p, s) =? bp then mkHeader (next (snd joined) base) (s + fst joined) else mkHeader bp s]>
    (<[bp := mkHeader (next (snd joined) base) (fst joined)]> (u_hdr st))) (A ++ merged) base.
Proof.
  pose proof r_chain as Hc. apply chain_app in Hc as [HA _]. destruct joined_rest as (_ & HJ & Habove).
  pose proof r_gaps as Hg. apply gaps_app in Hg as [HgA _]. pose proof (gaps_before _ _ HgA) as Hb.
  set (m := <[p := _]> _). assert (chain m (snd joined) base) as HJ'.
  { apply (chain_frame (u_hdr st)); [|done]. eapply Forall_impl; [exact Habove|]. intros b H. cbn in H. unfold m.
    rewrite !lookup_insert_ne by lia. done. }
  assert (chain m A p) as HA'.
  { apply (chain_frame (u_hdr st)); [|done]. eapply Forall_impl; [exact Hb|]. intros b [H0 H]. unfold block_end, HSIZE in H. cbn in H. unfold m.
    rewrite !lookup_insert_ne by lia. done. }
  assert (m !! bp = Some (mkHeader (next (snd joined) base) (fst joined))) as Hbp.
  { unfold m. rewrite lookup_insert_ne by lia. apply lookup_insert_eq. }
  assert (m !! p = Some (if block_end (p, s) =? bp then mkHeader (next (snd joined) base) (s + fst joined) else mkHeader bp s)) as Hp
    by apply lookup_insert_eq.
  clearbody m. unfold merged. destruct (_ =? bp); cbn [app]; apply chain_app; (split; [done|]); cbn [chain fst snd next]; done.
Qed.

Lemma merged_covers x : covers (A ++ merged) x <-> covers (A ++ (p, s) :: B) x \/ bp <= x < bp + HSIZE * u.
Proof.
  assert (covers merged x <-> covers ((p, s) :: (bp, fst joined) :: snd joined) x) as H1.
  { destruct joined_bound as (Hu & _). assert (0 <= s) by (apply gaps_app in r_gaps as [_ [? _]]; done).
    unfold merged, block_end. cbn [fst snd]. destruct (Z.eqb_spec (p + HSIZE * s) bp); cbn [app]; [|done].
    rewrite !covers_cons. unfold block_end, HSIZE in *. cbn [fst snd]. intuition lia. }
  assert (covers ((bp, fst joined) :: snd joined) x <-> covers B x \/ bp <= x < bp + HSIZE * u) as H2.
  { destruct join_cases as [(-> & -> & _)|(t & E & ->)].
    - rewrite covers_cons. unfold block_end. cbn. tauto.
    - assert (0 <= t) by (rewrite E in r_gaps; apply gaps_app in r_gaps as [_ (_ & _ & (Ht & _))]; done).
      rewrite E. rewrite !covers_cons. unfold block_end, HSIZE in *. cbn [fst snd]. intuition lia. }
  rewrite !covers_app, H1, covers_cons, H2, covers_cons. tauto.
Qed.

Lemma merged_Forall (P : block -> Prop) : Forall P (A ++ (p, s) :: B) -> P (bp, u) ->
  (forall a x c y, P (a, x) -> P (c, y) -> a + HSIZE * x = c -> P (a, x + y)) -> Forall P (A ++ merged).
Proof.
  intros Hr Hu Hj. apply Forall_app in Hr as [HA HB]. inversion_clear HB as [|? ? Hp HB']. apply Forall_app. split; [done|].
  assert (P (bp, fst joined) /\ Forall P (snd joined)) as [H1 H2].
  { destruct join_cases as [(-> & -> & _)|(t & E & ->)]; [done|]. rewrite E in HB'. inversion_clear HB' as [|? ? Ht HJ]. split; [|done].
    by apply (Hj _ _ _ _ Hu Ht). }
  unfold merged, block_end. cbn [fst snd]. destruct (Z.eqb_spec (p + HSIZE * s) bp) as [E|E]; cbn [app].
  - constructor; [|done]. by apply (Hj _ _ _ _ Hp H1).
  - by repeat constructor.
Qed.

(** The block is part of a free block. *)
Lemma merged_holds : Exists (fun b => fst b <= bp /\ bp + HSIZE * u <= block_end b /\ u <= snd b) (A ++ merged).
Proof.
  destruct joined_bound as (Hu & _ & Hle). assert (0 <= s) by (apply gaps_app in r_gaps as [_ [? _]]; done).
  apply Exists_app. right. unfold merged, block_end. cbn [fst snd]. destruct (Z.eqb_spec (p + HSIZE * s) bp); cbn [app].
  - left. unfold HSIZE in *. cbn [fst snd]. lia.
  - right. left. unfold HSIZE in *. cbn [fst snd]. lia.
Qed.

Lemma merged_head : exists tail', A ++ merged = (base, 0) :: tail'.
Proof.
  unfold merged, block_end. cbn [fst snd]. destruct A as [|a A']; cbn in r_eq.
  - injection r_eq as -> -> _. rewrite Z.mul_0_r, Z.add_0_r. rewrite (proj2 (Z.eqb_neq _ _)) by lia. by eexists.
  - injection r_eq as -> _. by eexists.
Qed.

Lemma merged_freep : Exists (fun b => fst b = p) (A ++ merged).
Proof. apply Exists_app. right. unfold merged. destruct (_ =? _); by left. Qed.
End free.

(** A block of the list, the static header included. *)
Definition free_block (base brk : Z) (b : block) : Prop :=
  b = (base, 0) \/ (0 < snd b /\ base + HSIZE <= fst b /\ block_end b <= brk).

Lemma free_blocks base fl al st : heap_rep base fl al st -> Forall (free_block base (u_brk st)) ((base, 0) :: fl).
Proof. intros H. constructor; [by left|]. eapply Forall_impl; [exact (hr_free _ _ _ _ H)|]. by right. Qed.

Lemma free_blocks_tail base brk fl : gaps ((base, 0) :: fl) -> Forall (free_block base brk) ((base, 0) :: fl) ->
  Forall (fun b => 0 < snd b /\ base + HSIZE <= fst b /\ block_end b <= brk) fl.
Proof.
  intros Hg Hf. inversion_clear Hf as [|? ? _ Hf']. pose proof (gaps_after _ _ Hg) as Ha. rewrite Forall_forall in *. intros b Hb.
  destruct (Hf' b Hb) as [->|]; [|done]. destruct (Ha _ Hb) as [_ H]. unfold block_end in H. cbn in H. lia.
Qed.

Lemma free_block_join base brk a x c y : free_block base brk (a, x) -> free_block base brk (c, y) -> a + HSIZE * x = c ->
  free_block base brk (a, x + y).
Proof.
  unfold free_block, block_end, HSIZE. cbn [fst snd].
  intros [[= -> ->]|Hx] [[= -> ->]|Hy] E; [by left|lia|lia|right; lia].
Qed.

Lemma apart_join a v b x c y : 0 < v -> apart (a, v) (b, x) -> apart (a, v) (c, y) -> b + HSIZE * x = c -> apart (a, v) (b, x + y).
Proof. unfold apart, block_end, HSIZE. cbn [fst snd]. lia. Qed.

(** ** free() *)

(** The place of a block in use among the free ones: [A] and the block at [p] before it,
    [B] after it. *)
Record place (st : ustate) (base bp u p s v : Z) (A B tail : list block) : Prop := {
  pl_eq : A ++ (p, s) :: B = (base, 0) :: tail;
  pl_chain : chain (u_hdr st) (A ++ (p, s) :: B) base;
  pl_gaps : gaps (A ++ (p, s) :: B);
  pl_hdr : u_hdr st !! bp = Some (mkHeader v u);
  pl_pos : 0 < u;
  pl_below : p + HSIZE * s <= bp;
  pl_lt : p < bp;
  pl_above : Forall (fun b => bp + HSIZE * u <= fst b) B;
  pl_bounds : 0 < base /\ bp + HSIZE * u <= 2 ^ 35 /\ Forall (fun b => block_end b <= 2 ^ 35) (A ++ (p, s) :: B);
  pl_freep : Exists (fun b => fst b = u_freep st) (A ++ (p, s) :: B);
}.

Lemma free_place base fl al st bp u : heap_rep base fl al st -> al !! bp = Some u ->
  exists p s v A B, place st base bp u p s v A B fl.
Proof.
  intros H Hbp. destruct (hr_used _ _ _ _ H bp u Hbp) as (Hu & Hlo & Hhi & (v & Hh) & Hap).
  pose proof (hr_base _ _ _ _ H). pose proof (hr_max _ _ _ _ H) as [Hm1 Hm2]. pose proof (free_blocks _ _ _ _ H) as Hfb.
  assert (Forall (fun b => 0 <= snd b /\ (fst b + HSIZE * snd b <= bp \/ bp + HSIZE * u <= fst b)) ((base, 0) :: fl)) as Hap'.
  { constructor; [split; [done|left; unfold HSIZE in *; cbn; lia]|]. pose proof (hr_free _ _ _ _ H) as Hf. rewrite Forall_forall in Hap, Hf |- *.
    intros b Hb. split; [destruct (Hf b Hb); lia|]. destruct (Hap b Hb); [by right|by left]. }
  destruct (split_at bp (base, 0) fl (hr_gaps _ _ _ _ H)) as (A & [p s] & B & E & Hp & HB).
  { cbn. unfold HSIZE in *. lia. }
  { apply Forall_cons_1 in Hap' as [_ Hap']. pose proof (hr_free _ _ _ _ H) as Hf. rewrite Forall_forall in Hap', Hf |- *.
    intros b Hb. destruct (Hap' b Hb), (Hf b Hb); unfold HSIZE in *; lia. }
  exists p, s, v, A, B. rewrite E in Hap', Hfb. pose proof Hap' as Hq. apply Forall_app in Hq as [_ [Hq1 Hq2]%Forall_cons_1].
  split; rewrite <- ?E; try done; [by apply hr_chain in H|by apply hr_gaps in H| | | |by apply hr_freep in H].
  - cbn in *. unfold HSIZE in *. lia.
  - rewrite Forall_forall in *. intros b Hb. specialize (HB b Hb). specialize (Hq2 b Hb). unfold HSIZE in *. lia.
  - split_and!; [done|unfold HSIZE in *; lia|]. rewrite E. eapply Forall_impl; [exact Hfb|].
    intros b [->|Hb]; unfold block_end, HSIZE in *; cbn; lia.
Qed.

(** The header of a block in use is not that of a free one. *)
Lemma used_not_free base fl al st a w : heap_rep base fl al st -> al !! a = Some w -> Forall (fun b => fst b <> a) ((base, 0) :: fl).
Proof.
  intros H Ha. destruct (hr_used _ _ _ _ H a w Ha) as (Hw & Hlo & _ & _ & Hap). constructor; [cbn; unfold HSIZE in *; lia|].
  pose proof (hr_free _ _ _ _ H) as Hf. rewrite Forall_forall in *. intros b Hb. specialize (Hap b Hb). specialize (Hf b Hb).
  unfold apart, block_end, HSIZE in *. cbn in *. lia.
Qed.

Lemma free_run base fl al st bp u : heap_rep base fl al st -> al !! bp = Some u ->
  exists st' fl', free (bp + HSIZE) st = Some st' /\ heap_rep base fl' (delete bp al) st' /\
    (forall x, covers fl' x <-> covers fl x \/ bp <= x < bp + HSIZE * u) /\
    Exists (fun b => u <= snd b) ((base, 0) :: fl') /\
    u_brk st' = u_brk st /\ u_max st' = u_max st /\ (size (u_hdr st') <= size (u_hdr st))%nat.
Proof.
  intros H Hbp. destruct (free_place _ _ _ _ _ _ H Hbp) as (p & s & v & A & B & [E Hc Hg Hh Hu Hb Hlt HB Hbd Hfp]).
  destruct (merged_head st base bp u p s A B fl E Hc Hg Hb Hlt Hbd Hfp) as [fl' E'].
  pose proof (merged_gaps st base bp u p s A B fl E Hc Hg Hu Hb Hlt HB Hbd Hfp) as Hg'.
  pose proof (merged_chain st base bp u p s A B fl E Hc Hg Hu Hb Hlt HB Hbd Hfp) as Hc'.
  pose proof (merged_Forall st base bp u p s A B fl E Hc Hg Hu Hb Hlt HB Hbd Hfp) as Hall.
  pose proof (merged_covers st base bp u p s A B fl E Hc Hg Hu Hb Hlt HB Hbd Hfp) as Hcov.
  pose proof (merged_holds st base bp u p s A B fl E Hc Hg Hu Hb Hlt HB Hbd Hfp) as Hho.
  pose proof (merged_freep bp u p s A B) as Hfp'. 
  rewrite (free_state st base bp u p s v A B fl E Hc Hg Hh Hu Hb Hlt HB Hbd Hfp). rewrite E' in *. rewrite E in Hall, Hcov.
  destruct (hr_used _ _ _ _ H bp u Hbp) as (_ & Hlo & Hhi & _).
  assert (u_hdr st !! p = Some (mkHeader (next B base) s)) as Hhp by by apply chain_app in Hc as [_ [? _]].
  eexists _, fl'. split; [done|]. split_and!; [|..|done|done|].
  - split; cbn [u_hdr u_brk u_max u_freep set_freep set_hdr]; [by apply hr_base in H|by apply hr_max in H|exact Hc'|exact Hg'| |exact Hfp'|..].
    + apply (free_blocks_tail _ _ _ Hg'). apply Hall; [by apply (free_blocks _ _ _ _ H)|right; unfold block_end; cbn; lia|].
      intros a x c y. apply free_block_join.
    + intros a w [Hne Ha]%lookup_delete_Some. destruct (hr_used _ _ _ _ H a w Ha) as (Hw & Hlo' & Hhi' & (v' & Hv) & Hap).
      pose proof (used_not_free _ _ _ _ _ _ H Ha) as Hnf. rewrite <- E in Hnf. apply Forall_app in Hnf as [_ [Hnp _]%Forall_cons_1]. cbn in Hnp.
      split_and!; [done..|exists v'; by rewrite !lookup_insert_ne by done|].
      eapply Forall_cons_1, (Hall (apart (a, w))); [constructor; [|done]|by apply (hr_apart _ _ _ _ H)|].
      * right. unfold block_end. cbn. unfold HSIZE in *. lia.
      * intros b x c y. by apply apart_join.
    + intros a w b x [_ Ha]%lookup_delete_Some [_ Hb']%lookup_delete_Some. by apply (hr_apart _ _ _ _ H).
  - intros x. specialize (Hcov x). rewrite !covers_cons in Hcov. unfold block_end in Hcov. cbn in Hcov. intuition lia.
  - eapply Exists_impl; [exact Hho|]. by intros b (_ & _ & ?).
  - cbn [u_hdr set_freep set_hdr]. rewrite map_size_insert, lookup_insert_ne, Hhp, map_size_insert, Hh by lia. done.
Qed.

(** ** malloc() *)

(** Memory that sbrk() added is a block in use until it is freed. *)
Lemma grow_rep base fl al st nu : heap_rep base fl al st -> 0 < nu -> u_brk st + HSIZE * nu <= u_max st ->
  heap_rep base fl (<[u_brk st := nu]> al) (set_size (u_brk st) nu (mkUstate (u_hdr st) (u_freep st) (u_brk st + HSIZE * nu) (u_max st))).
Proof.
  intros H Hnu Hroom. pose proof (hr_base _ _ _ _ H) as Hb. pose proof (hr_max _ _ _ _ H) as [Hm1 Hm2].
  pose proof (hr_free _ _ _ _ H) as Hf. set (st1 := set_size _ _ _).
  assert (forall a, a < u_brk st -> u_hdr st1 !! a = u_hdr st !! a) as Hold.
  { intros a Ha. unfold st1, set_size, set_hdr. cbn. by rewrite lookup_insert_ne by lia. }
  assert (forall a u, al !! a = Some u -> a + HSIZE * u <= u_brk st /\ 0 < u) as Hused.
  { intros a u Ha. destruct (hr_used _ _ _ _ H a u Ha) as (? & _ & ? & _). done. }
  split; [done|cbn; unfold HSIZE in *; lia| |by apply hr_gaps in H| |by apply hr_freep in H|..].
  - apply (chain_frame (u_hdr st)); [|by apply hr_chain in H]. constructor; [apply Hold; cbn; unfold HSIZE in *; lia|].
    eapply Forall_impl; [exact Hf|]. intros b (Hb0 & _ & Hb1). apply Hold. unfold block_end, HSIZE in *. lia.
  - eapply Forall_impl; [exact Hf|]. intros b (Hb0 & Hb1 & Hb2). split_and!; [done..|]. cbn. unfold HSIZE in *. lia.
  - intros a u [[<- <-]|[Hne Ha]]%lookup_insert_Some.
    + split_and!; [done|lia|done|eexists; apply lookup_insert_eq|]. eapply Forall_impl; [exact Hf|]. intros b (_ & _ & Hb2). by right.
    + destruct (hr_used _ _ _ _ H a u Ha) as (Hu & Hlo & Hhi & (v & Hv) & Hap).
      split_and!; [done..|cbn; unfold HSIZE in *; lia|exists v; rewrite Hold by (unfold HSIZE in *; lia); done|done].
  - intros a u b v [[<- <-]|[Hne Ha]]%lookup_insert_Some [[<- <-]|[Hne' Hb']]%lookup_insert_Some Hab; [done|..|by apply (hr_apart _ _ _ _ H)].
    + right. destruct (Hused b v Hb'). unfold block_end. cbn. done.
    + left. destruct (Hused a u Ha). unfold block_end. cbn. done.
Qed.

Lemma morecore_run base fl al st n : heap_rep base fl al st -> 0 < n < 2 ^ 27 ->
  let nu := Z.max n 4096 in
  (u_max st < u_brk st + HSIZE * nu -> morecore n st = Some (0, st)) /\
  (u_brk st + HSIZE * nu <= u_max st -> exists st' fl', morecore n st = Some (u_freep st', st') /\ heap_rep base fl' al st' /\
    (forall x, covers fl' x <-> covers fl x \/ u_brk st <= x < u_brk st') /\
    Exists (fun b => n <= snd b) ((base, 0) :: fl') /\
    u_brk st' = u_brk st + HSIZE * nu /\ (size (u_hdr st') <= S (size (u_hdr st)))%nat).
Proof.
  intros H Hn nu. pose proof (hr_base _ _ _ _ H) as Hb. pose proof (hr_max _ _ _ _ H) as [Hm1 Hm2].
  assert (morecore n st = let '(p, st1) := sbrk (HSIZE * nu) st in if p =? -1 then Some (0, st1) else
    match free (p + HSIZE) (set_size p nu st1) with None => None | Some st2 => Some (u_freep st2, st2) end) as ->.
  { unfold morecore. assert ((if n <? 4096 then 4096 else n) = nu) as -> by (unfold nu; destruct (Z.ltb_spec n 4096); lia).
    rewrite Z.mul_comm, i32_small by (unfold nu, HSIZE; lia). done. }
  unfold sbrk. rewrite (proj2 (Z.ltb_ge _ _)) by (unfold nu, HSIZE in *; lia). split; intros Hroom.
  { rewrite (proj2 (Z.leb_gt _ _)) by lia. done. }
  rewrite (proj2 (Z.leb_le _ _)) by lia. rewrite (proj2 (Z.eqb_neq _ _)) by (unfold HSIZE in *; lia).
  set (st1 := set_size _ _ _). assert (0 < nu) as Hnu by (unfold nu; lia).
  assert (al !! u_brk st = None) as Hal.
  { apply eq_None_not_Some. intros [u Hu]. destruct (hr_used _ _ _ _ H _ _ Hu) as (? & _ & ? & _). unfold HSIZE in *. lia. }
  pose proof (grow_rep _ _ _ _ nu H Hnu Hroom) as H1. fold st1 in H1.
  destruct (free_run base fl _ st1 (u_brk st) nu H1 (lookup_insert_eq _ _ _)) as (st' & fl' & -> & Hr & Hcov & Hex & Hbrk & Hmax & Hsz).
  rewrite delete_insert_id in Hr by done. exists st', fl'. split_and!; [done|done| | |done|].
  - intros x. rewrite Hcov, Hbrk. done.
  - eapply Exists_impl; [exact Hex|]. intros b Hbn. cbn in Hbn. unfold nu in Hbn. lia.
  - etransitivity; [exact Hsz|]. unfold st1, set_size, set_hdr. cbn. rewrite map_size_insert. destruct (u_hdr st !! u_brk st); cbn; lia.
Qed.

Lemma gaps_remove A x B : gaps (A ++ x :: B) -> gaps (A ++ B).
Proof.
  induction A as [|y A IH]; [by intros (_ & _ & ?)|]. cbn [app]. intros Hg. pose proof (gaps_after _ _ Hg) as Ha.
  destruct Hg as (H0 & _ & Hg). specialize (IH Hg). cbn [gaps]. split_and!; [done| |done].
  assert (Forall (fun b => 0 <= snd b /\ block_end y < fst b) (A ++ B)) as Ha'.
  { apply Forall_app in Ha as [H1 [_ H2]%Forall_cons_1]. by apply Forall_app. }
  destruct (A ++ B); [done|]. by apply Forall_cons_1 in Ha' as [[_ ?] _].
Qed.

Lemma gaps_shrink A p s s' B : gaps (A ++ (p, s) :: B) -> 0 <= s' <= s -> gaps (A ++ (p, s') :: B).
Proof.
  intros [HA (_ & Hh & HB)]%gaps_app Hs. apply gaps_app. split; [apply (gaps_last _ _ s); (done || lia)|]. cbn [gaps snd].
  split_and!; [lia| |done]. destruct B; [done|]. unfold block_end, HSIZE in *. cbn [fst snd] in *. lia.
Qed.

(** What is left of a block of [s] units at [p] when [n] are taken from its end. *)
Definition left_over (p s n : Z) : list block := if s =? n then [] else [(p, s - n)].

Section take.
Context (base : Z) (fl : list block) (al : gmap Z Z) (st : ustate) (H : heap_rep base fl al st).
Context (R B : list block) (p s n : Z) (E : (base, 0) :: fl = R ++ (p, s) :: B) (n_ok : 0 < n <= s).

(** The address of the block. *)
Definition taken : Z := p + HSIZE * (s - n).

Lemma taken_block : (p, s) ∈ fl /\ base + HSIZE <= p /\ p + HSIZE * s <= u_brk st.
Proof using H E n_ok.
  assert ((p, s) ∈ (base, 0) :: fl) as Hin by (rewrite E; apply elem_of_app; right; left).
  apply elem_of_cons in Hin as [[= -> ->]|Hin]; [lia|]. split; [done|].
  destruct (proj1 (Forall_forall _ _) (hr_free _ _ _ _ H) _ Hin) as (_ & H1 & H2). done.
Qed.

Lemma left_gaps : gaps (R ++ left_over p s n ++ B).
Proof using H E n_ok.
  pose proof (hr_gaps _ _ _ _ H) as Hg. rewrite E in Hg. unfold left_over. destruct (Z.eqb_spec s n); cbn [app].
  - by apply gaps_remove in Hg.
  - apply (gaps_shrink _ _ s); (done || lia).
Qed.

Lemma left_covers x : covers (R ++ (p, s) :: B) x <-> covers (R ++ left_over p s n ++ B) x \/ taken <= x < taken + HSIZE * n.
Proof using n_ok E.
  unfold left_over, taken. rewrite !covers_app, covers_cons. destruct (Z.eqb_spec s n) as [->|]; [|rewrite covers_cons];
    unfold block_end, HSIZE in *; cbn [fst snd].
  - rewrite Z.sub_diag, Z.mul_0_r, Z.add_0_r. assert (covers [] x <-> False) as -> by apply Exists_nil. tauto.
  - assert (covers [] x <-> False) as -> by apply Exists_nil.
    replace (p + 16 * (s - n) + 16 * n) with (p + 16 * s) by lia. intuition lia.
Qed.

(** All the blocks of the list are apart from the one taken. *)
Lemma left_apart : Forall (apart (taken, n)) (R ++ left_over p s n ++ B).
Proof using H E n_ok.
  pose proof (hr_gaps _ _ _ _ H) as Hg. rewrite E in Hg. pose proof Hg as Hg1. apply gaps_app in Hg1 as [HR HB].
  apply gaps_before in HR. apply gaps_after in HB. unfold taken. apply Forall_app. split; [|apply Forall_app; split].
  - eapply Forall_impl; [exact HR|]. intros b [H0 H1]. right. cbn [fst] in *. unfold block_end, HSIZE in *. cbn [fst snd] in *. lia.
  - unfold left_over. destruct (s =? n); [constructor|]. constructor; [|constructor]. right. unfold block_end. cbn [fst snd]. lia.
  - eapply Forall_impl; [exact HB|]. intros b [H0 H1]. left. unfold block_end, HSIZE in *. cbn [fst snd] in *. lia.
Qed.

(** A property of the blocks of the list that survives shrinking. *)
Lemma left_Forall (P : block -> Prop) : Forall P (R ++ (p, s) :: B) -> (s <> n -> P (p, s) -> P (p, s - n)) -> Forall P (R ++ left_over p s n ++ B).
Proof using.
  intros [HR [Hp HB]%Forall_cons_1]%Forall_app Hs. apply Forall_app. split; [done|]. apply Forall_app. split; [|done].
  unfold left_over. destruct (Z.eqb_spec s n); [constructor|]. repeat constructor. auto.
Qed.

Lemma take_rep fl' st' v : (base, 0) :: fl' = R ++ left_over p s n ++ B ->
  chain (u_hdr st') ((base, 0) :: fl') base -> u_hdr st' !! taken = Some (mkHeader v n) ->
  (forall a u, al !! a = Some u -> u_hdr st' !! a = u_hdr st !! a) ->
  Exists (fun b => fst b = u_freep st') ((base, 0) :: fl') -> u_brk st' = u_brk st -> u_max st' = u_max st ->
  heap_rep base fl' (<[taken := n]> al) st' /\ al !! taken = None /\
  (forall x, covers fl x <-> covers fl' x \/ taken <= x < taken + HSIZE * n).
Proof using H E n_ok.
  intros E' Hc Ht Hold Hfp Hbrk Hmax. destruct taken_block as (Hin & Hlo & Hhi).
  pose proof left_gaps as Hg'. rewrite <- E' in Hg'. pose proof left_apart as Hla. rewrite <- E' in Hla.
  assert (forall a u, al !! a = Some u -> apart (a, u) (p, s) /\ 0 < u) as Hps.
  { intros a u Ha. destruct (hr_used _ _ _ _ H a u Ha) as (? & _ & _ & _ & Hap). split; [|done].
    exact (proj1 (Forall_forall _ _) Hap _ Hin). }
  assert (forall a u, al !! a = Some u -> apart (a, u) (taken, n) /\ a <> taken) as Hat.
  { intros a u Ha. destruct (Hps a u Ha) as [Hap Hu]. unfold apart, taken, block_end, HSIZE in *. cbn [fst snd] in *. lia. }
  split_and!.
  - split; rewrite ?Hbrk, ?Hmax; [by apply hr_base in H|by apply hr_max in H|done|done| |done|..].
    + apply (free_blocks_tail _ _ _ Hg'). rewrite E'. apply left_Forall; [rewrite <- E; by apply (free_blocks _ _ _ _ H)|].
      intros Hne [[= -> ->]|Hb]; [lia|]. right. unfold block_end, HSIZE in *. cbn [fst snd] in *. lia.
    + intros a u [[<- <-]|[Hne Ha]]%lookup_insert_Some.
      * unfold taken. split_and!; [lia|unfold HSIZE in *; lia|unfold HSIZE in *; lia|by exists v|]. by apply Forall_cons_1 in Hla as [_ ?].
      * destruct (hr_used _ _ _ _ H a u Ha) as (Hu & Hlo' & Hhi' & (v' & Hv) & Hap).
        split_and!; [done..|exists v'; by rewrite (Hold a u Ha)|].
        eapply Forall_cons_1. rewrite E'. apply left_Forall; [rewrite <- E; constructor; [|done]|].
        -- right. unfold block_end. cbn. unfold HSIZE in *. lia.
        -- intros Hne' Hx. unfold apart, block_end, HSIZE in *. cbn [fst snd] in *. lia.
    + intros a u b w [[<- <-]|[Hne Ha]]%lookup_insert_Some [[<- <-]|[Hne' Hb]]%lookup_insert_Some Hab; [done|..|by apply (hr_apart _ _ _ _ H)].
      * destruct (Hat b w Hb) as [[?|?] _]; [by right|by left].
      * by apply Hat.
  - apply eq_None_not_Some. intros [u Hu]. by destruct (Hat taken u Hu).
  - intros x. pose proof (left_covers x) as Hcov. rewrite <- E, <- E', !covers_cons in Hcov. unfold block_end in Hcov. cbn [fst snd] in Hcov.
    intuition lia.
Qed.
End take.

(** Writes outside a part of the list leave its chain. *)
Lemma chain_insert m r e a h : Forall (fun b => fst b <> a) r -> chain m r e -> chain (<[a := h]> m) r e.
Proof. intros Hr. apply chain_frame. eapply Forall_impl; [exact Hr|]. intros b Hb. cbn in Hb. by apply lookup_insert_ne. Qed.

Lemma gaps_ne A x B : gaps (A ++ x :: B) -> Forall (fun b => fst b <> fst x) A /\ Forall (fun b => fst b <> fst x) B.
Proof.
  intros [HA HB]%gaps_app. pose proof HB as [H0 _]. apply gaps_before in HA. apply gaps_after in HB.
  split; (eapply Forall_impl; [eassumption|]); intros b [H1 H2]; unfold block_end, HSIZE in *; cbn in *; lia.
Qed.

Section take_from.
Context (base : Z) (fl : list block) (al : gmap Z Z) (st : ustate) (A B : list block) (prev ps p s n : Z).
Context (H : heap_rep base fl al st) (E : (base, 0) :: fl = A ++ (prev, ps) :: (p, s) :: B) (n_ok : 0 < n <= s).

Lemma take_eq : (base, 0) :: fl = (A ++ [(prev, ps)]) ++ (p, s) :: B.
Proof using E. by rewrite <- app_assoc. Qed.

Lemma take_tail : exists fl', (base, 0) :: fl' = (A ++ [(prev, ps)]) ++ left_over p s n ++ B.
Proof using E.
  rewrite <- app_assoc. destruct A as [|a A']; cbn in E |- *; [injection E as <- <- _|injection E as <- _]; by eexists.
Qed.

(** The headers of the list around the block. *)
Lemma take_chain : chain (u_hdr st) A prev /\ u_hdr st !! prev = Some (mkHeader p ps) /\
  u_hdr st !! p = Some (mkHeader (next B base) s) /\ chain (u_hdr st) B base.
Proof using H E.
  pose proof (hr_chain _ _ _ _ H) as Hc. rewrite E in Hc. apply chain_app in Hc as [HcA (Hprev & Hp & HcB)]. done.
Qed.

Lemma take_apart : Forall (fun b => fst b <> prev) A /\ Forall (fun b => fst b <> prev) B /\
  Forall (fun b => fst b <> p) (A ++ [(prev, ps)]) /\ Forall (fun b => fst b <> p) B /\
  forall a u, al !! a = Some u -> a <> prev /\ a <> p.
Proof using H E.
  pose proof (hr_gaps _ _ _ _ H) as Hg. pose proof Hg as Hg2. rewrite E in Hg. rewrite take_eq in Hg2.
  destruct (gaps_ne _ _ _ Hg) as [HA1 [_ HB1]%Forall_cons_1], (gaps_ne _ _ _ Hg2) as [HA2 HB2]. cbn [fst] in *. split_and!; try done.
  intros a u Ha. pose proof (used_not_free _ _ _ _ _ _ H Ha) as Hf. rewrite E in Hf. apply Forall_app in Hf as [_ Hf].
  apply Forall_cons_1 in Hf as [H1 [H2 _]%Forall_cons_1]. cbn in *. auto.
Qed.

Definition takes (st' : ustate) (fl' : list block) : Prop :=
  malloc_take n prev p st = (taken p s n + HSIZE, st') /\ heap_rep base fl' (<[taken p s n := n]> al) st' /\
  al !! taken p s n = None /\ (forall x, covers fl x <-> covers fl' x \/ taken p s n <= x < taken p s n + HSIZE * n) /\ u_brk st' = u_brk st.

(** All of the block: it leaves the list. *)
Lemma take_all : s = n -> exists st' fl', takes st' fl'.
Proof using H E n_ok.
  intros Es. destruct take_tail as [fl' E'], take_chain as (HcA & Hprev & Hp & HcB), take_apart as (HA1 & HB1 & HA2 & _ & Hused).
  pose proof (take_rep base fl al st H _ B p s n take_eq n_ok fl' (set_freep prev (set_ptr prev (next B base) st)) (next B base) E') as Hrep.
  exists (set_freep prev (set_ptr prev (next B base) st)), fl'. unfold takes, malloc_take. rewrite (hdr_lookup _ _ _ Hp). cbn [s_size s_ptr].
  assert (taken p s n = p) as Et by (unfold taken; lia). rewrite Et in *. rewrite (proj2 (Z.eqb_eq s n)) by done. split; [done|].
  assert (left_over p s n = []) as El by (unfold left_over; by rewrite (proj2 (Z.eqb_eq s n))). rewrite El in *.
  destruct Hrep as (H1 & H2 & H3); cbn [u_hdr set_freep set_ptr set_hdr u_brk u_max]; [..|done]; try done.
  - rewrite E', <- app_assoc. cbn [app]. apply chain_app. rewrite (hdr_lookup _ _ _ Hprev). cbn [s_size fst].
    split; [by apply chain_insert|]. split; [apply lookup_insert_eq|by apply chain_insert].
  - rewrite lookup_insert_ne, Hp, Es; [done|]. intros ->. apply Forall_app in HA2 as [_ [Hx _]%Forall_cons_1]. done.
  - intros a u Ha. apply lookup_insert_ne. intros ->. by destruct (Hused a u Ha).
  - rewrite E', <- app_assoc. apply Exists_app. right. by left.
Qed.

(** The end of the block: it keeps its place in the list with a smaller size. *)
Lemma take_part : s <> n -> exists st' fl', takes st' fl'.
Proof using H E n_ok.
  intros Hne. destruct take_tail as [fl' E'], take_chain as (HcA & Hprev & Hp & HcB), take_apart as (HA1 & HB1 & HA2 & HB2 & Hused).
  set (q := taken p s n). assert (p < q < p + HSIZE * s) as Hq by (unfold q, taken, HSIZE; lia).
  set (st1 := set_size p (s - n) st). assert (hdr st1 p = mkHeader (next B base) (s - n)) as Hp1.
  { unfold st1, set_size. by rewrite hdr_set_eq, (hdr_lookup _ _ _ Hp). }
  assert (Forall (fun b => fst b <> q) (A ++ [(prev, ps)]) /\ Forall (fun b => fst b <> q) B) as [HqA HqB].
  { pose proof (hr_gaps _ _ _ _ H) as Hg. rewrite take_eq in Hg. apply gaps_app in Hg as [Hx Hy]. apply gaps_before in Hx. apply gaps_after in Hy.
    split; (eapply Forall_impl; [eassumption|]); intros b [H0 H1]; unfold block_end, HSIZE in *; cbn [fst snd] in *; lia. }
  pose proof (take_rep base fl al st H _ B p s n take_eq n_ok fl' (set_freep prev (set_size q n st1)) (s_ptr (hdr st1 q)) E') as Hrep.
  exists (set_freep prev (set_size q n st1)), fl'. unfold takes, malloc_take. rewrite (hdr_lookup _ _ _ Hp). cbn [s_size].
  rewrite (proj2 (Z.eqb_neq s n)) by done. fold st1. rewrite Hp1. cbn [s_size]. fold q in Hrep |- *. split; [done|].
  destruct Hrep as (H1 & H2 & H3); cbn [u_hdr set_freep set_size set_hdr u_brk u_max]; [..|done]; try done.
  - rewrite E'. unfold left_over. rewrite (proj2 (Z.eqb_neq s n)) by done. cbn [app]. apply chain_app. cbn [fst].
    assert (forall r e, Forall (fun b => fst b <> q) r -> Forall (fun b => fst b <> p) r -> chain (u_hdr st) r e ->
      chain (<[q := mkHeader (s_ptr (hdr st1 q)) n]> (u_hdr st1)) r e) as Hkeep.
    { intros r e Hr1 Hr2 Hr. apply chain_insert; [done|]. unfold st1. by apply chain_insert. }
    split; [apply Hkeep; [done..|apply chain_app; by repeat split]|]. split; [|by apply Hkeep].
    rewrite lookup_insert_ne by (cbn; lia). cbn [fst snd]. unfold st1. cbn [set_size set_hdr u_hdr]. rewrite (hdr_lookup _ _ _ Hp).
    apply lookup_insert_eq.
  - apply lookup_insert_eq.
  - intros a u Ha. destruct (Hused a u Ha) as [Hu1 Hu2]. rewrite lookup_insert_ne; [by apply lookup_insert_ne|]. intros <-.
    destruct (hr_used _ _ _ _ H q u Ha) as (Hu & _ & _ & _ & Hap). destruct (taken_block base fl al st H _ B p s n take_eq n_ok) as (Hin & _).
    pose proof (proj1 (Forall_forall _ _) Hap _ Hin) as Hx. unfold apart, block_end, HSIZE in *. cbn [fst snd] in *. lia.
  - rewrite E', <- app_assoc. apply Exists_app. right. by left.
Qed.

Lemma take_run : exists st' fl', takes st' fl'.
Proof using H E n_ok. destruct (decide (s = n)); [by apply take_all|by apply take_part]. Qed.
End take_from.

Section scan.
Context (base : Z) (fl : list block) (al : gmap Z Z) (st : ustate) (H : heap_rep base fl al st) (n : Z).
Let r := (base, 0) :: fl.
Context (f : nat) (fb : block) (f_at : r !! f = Some fb) (f_eq : fst fb = u_freep st).

(** From the block at [i], whose predecessor is at [j], to freep: the first block that is
    large enough is taken, or there is none and more memory is asked for. *)
Lemma malloc_scan fuel i j a b : r !! j = Some a -> r !! i = Some b -> i = succ_ix r j -> (steps r i f < fuel)%nat ->
  (exists j' a' b', r !! j' = Some a' /\ r !! succ_ix r j' = Some b' /\ n <= snd b' /\
     malloc_loop fuel n (fst a) (fst b) st = Some (malloc_take n (fst a') (fst b') st)) \/
  ((forall t c, r !! t = Some c -> (steps r i t <= steps r i f)%nat -> snd c < n) /\
   exists fuel', (fuel <= fuel' + S (steps r i f))%nat /\
   malloc_loop fuel n (fst a) (fst b) st =
     match morecore n st with
     | None => None
     | Some (p, st') => if p =? 0 then Some (0, st') else malloc_loop fuel' n p (s_ptr (hdr st' p)) st'
     end).
Proof using H f_at f_eq.
  revert i j a b. induction fuel as [|fuel IH]; intros i j a b Hj Hi Eij Hf; [lia|].
  pose proof (hr_chain _ _ _ _ H) as Hc. pose proof (hr_gaps _ _ _ _ H) as Hg.
  assert (i < length r)%nat as Hil by by eapply lookup_lt_Some. assert (f < length r)%nat as Hfl by by eapply lookup_lt_Some.
  destruct (ring_hdr st base r fl eq_refl Hc i b Hi) as (c & Hnext & Hh). cbn [malloc_loop]. rewrite Hh. cbn [s_size s_ptr].
  destruct (Z.leb_spec n (snd b)) as [Hle|Hlt]; [left; exists j, a, b; by rewrite <- Eij|].
  destruct (decide (i = f)) as [->|Hif].
  - rewrite f_at in Hi. injection Hi as ->. rewrite f_eq, Z.eqb_refl. right. split; [|exists fuel; split; [lia|done]].
    intros t c' Ht Hs. destruct (decide (t = f)) as [->|]; [rewrite f_at in Ht; by injection Ht as <-|].
    unfold steps in Hs. pose proof (lookup_lt_Some _ _ _ Ht). repeat case_decide; lia.
  - assert (fst b <> u_freep st) as Hne.
    { rewrite <- f_eq. intros E. destruct (decide (i < f)%nat).
      - pose proof (ring_lt r Hg i f _ _ Hi f_at ltac:(lia)). lia.
      - pose proof (ring_lt r Hg f i _ _ f_at Hi ltac:(lia)). lia. }
    rewrite (proj2 (Z.eqb_neq _ _)) by done. rewrite (steps_succ r i f) in Hf by done.
    destruct (IH (succ_ix r i) i b c Hi Hnext eq_refl ltac:(lia)) as [Hfound|[Hnone (fuel' & Hf' & Hl)]]; [by left|]. right. split.
    + intros t c' Ht Hs. destruct (decide (t = i)) as [->|Hti]; [rewrite Hi in Ht; by injection Ht as <-|].
      apply (Hnone t c' Ht). pose proof (lookup_lt_Some _ _ _ Ht). rewrite (steps_succ r i t), (steps_succ r i f) in Hs by done. lia.
    + exists fuel'. split; [rewrite (steps_succ r i f) by done; lia|done].
Qed.

Lemma steps_all i t : (t < length r)%nat -> i = succ_ix r f -> (steps r i t <= steps r i f)%nat.
Proof using f_at.
  intros Ht ->. assert (f < length r)%nat by by eapply lookup_lt_Some. unfold steps, succ_ix. repeat case_decide; lia.
Qed.

(** A block of a list that is large enough comes after another. *)
Lemma found_split j a b : r !! j = Some a -> r !! succ_ix r j = Some b -> 0 < snd b ->
  exists A B, r = A ++ a :: b :: B.
Proof using.
  intros Hj Hb Hpos. unfold succ_ix in Hb. case_decide; [|unfold r in Hb; cbn in Hb; injection Hb as <-; cbn in Hpos; lia].
  exists (take j r), (drop (S (S j)) r). rewrite <- (take_drop j r) at 1. f_equal.
  rewrite (drop_S r a j Hj). f_equal. by apply drop_S.
Qed.
End scan.

(** What a malloc() of [n] units that succeeds does: a block that was free, or new memory,
    is in use. *)
Definition allocates (base n : Z) (fl : list block) (al : gmap Z Z) (st st' : ustate) (p : Z) : Prop :=
  exists fl' a, p = a + HSIZE /\ al !! a = None /\ heap_rep base fl' (<[a := n]> al) st' /\
    forall x, covers fl x \/ u_brk st <= x < u_brk st' <-> covers fl' x \/ a <= x < a + HSIZE * n.

Lemma malloc_start base fl al st : heap_rep base fl al st ->
  exists f fb b, ((base, 0) :: fl) !! f = Some fb /\ fst fb = u_freep st /\
    ((base, 0) :: fl) !! succ_ix ((base, 0) :: fl) f = Some b /\ s_ptr (hdr st (u_freep st)) = fst b.
Proof.
  intros H. destruct (proj1 (Exists_exists _ _) (hr_freep _ _ _ _ H)) as (fb & [f Hf]%list_elem_of_lookup & Hfp).
  destruct (ring_hdr st base _ fl eq_refl (hr_chain _ _ _ _ H) f fb Hf) as (b & Hb & Hh). exists f, fb, b.
  rewrite <- Hfp, Hh. done.
Qed.

(** A turn of the loop when some block is large enough, and when none is. *)
Lemma malloc_turn base fl al st n fuel : heap_rep base fl al st -> 0 < n -> (size (u_hdr st) <= fuel)%nat ->
  (exists p st', malloc_loop fuel n (u_freep st) (s_ptr (hdr st (u_freep st))) st = Some (p, st') /\
     allocates base n fl al st st' p /\ u_brk st' = u_brk st) \/
  (Forall (fun b => snd b < n) ((base, 0) :: fl) /\ exists fuel', (fuel <= fuel' + size (u_hdr st))%nat /\
   malloc_loop fuel n (u_freep st) (s_ptr (hdr st (u_freep st))) st =
     match morecore n st with
     | None => None
     | Some (p, st') => if p =? 0 then Some (0, st') else malloc_loop fuel' n p (s_ptr (hdr st' p)) st'
     end).
Proof.
  intros H Hn Hfuel. destruct (malloc_start _ _ _ _ H) as (f & fb & b & Hf & Hfp & Hb & ->). rewrite <- Hfp.
  pose proof (ring_size _ _ _ (hr_chain _ _ _ _ H) (hr_gaps _ _ _ _ H)) as Hsz.
  assert (steps ((base, 0%Z) :: fl) (succ_ix ((base, 0%Z) :: fl) f) f < length ((base, 0%Z) :: fl))%nat as Hst.
  { pose proof (lookup_lt_Some _ _ _ Hf). unfold steps, succ_ix. repeat case_decide; lia. }
  destruct (malloc_scan base fl al st H n f fb Hf Hfp fuel _ f fb b Hf Hb eq_refl ltac:(lia)) as [(j & a' & b' & Hj & Hsj & Hle & ->)|[Hnone (fuel' & Hf' & ->)]].
  - left. destruct (found_split base fl j a' b' Hj Hsj ltac:(lia)) as (A & B & E). destruct a' as [prev ps], b' as [p s]. cbn [fst snd] in *.
    destruct (take_run base fl al st A B prev ps p s n H E ltac:(lia)) as (st' & fl' & -> & Hrep & Hal & Hcov & Hbrk).
    eexists _, st'. split; [done|]. split; [|done]. exists fl', (taken p s n). split_and!; [done..|]. intros x. rewrite <- Hcov, Hbrk. intuition lia.
  - right. split; [|exists fuel'; split; [lia|done]]. apply Forall_forall. intros c [t Ht]%list_elem_of_lookup.
    apply (Hnone t c Ht). eapply steps_all; [exact Hf|by eapply lookup_lt_Some|done].
Qed.

Lemma malloc_loop_run base fl al st n fuel : heap_rep base fl al st -> 0 < n < 2 ^ 27 -> (2 * size (u_hdr st) + 2 <= fuel)%nat ->
  exists p st', malloc_loop fuel n (u_freep st) (s_ptr (hdr st (u_freep st))) st = Some (p, st') /\
    (allocates base n fl al st st' p \/
     p = 0 /\ st' = st /\ Forall (fun b => snd b < n) fl /\ u_max st < u_brk st + HSIZE * Z.max n 4096).
Proof.
  intros H Hn Hfuel.
  destruct (malloc_turn base fl al st n fuel H ltac:(lia) ltac:(lia)) as [(p & st' & -> & Ha & _)|[Hnone (fuel' & Hf' & ->)]].
  { exists p, st'. by split; [|left]. }
  destruct (morecore_run base fl al st n H Hn) as [Hfull Hroom].
  destruct (Z.lt_ge_cases (u_max st) (u_brk st + HSIZE * Z.max n 4096)) as [Hlt|Hge].
  { rewrite (Hfull Hlt). exists 0, st. split; [done|]. right. by apply Forall_cons_1 in Hnone as [_ ?]. }
  destruct (Hroom Hge) as (st1 & fl1 & -> & H1 & Hcov & Hex & Hbrk & Hsz).
  assert (0 < u_freep st1) as Hfp.
  { destruct (proj1 (Exists_exists _ _) (hr_freep _ _ _ _ H1)) as (fb & Hin & <-). pose proof (hr_base _ _ _ _ H1).
    destruct (proj1 (Forall_forall _ _) (free_blocks _ _ _ _ H1) _ Hin) as [->|]; cbn; unfold HSIZE in *; lia. }
  rewrite (proj2 (Z.eqb_neq _ _)) by lia.
  destruct (malloc_turn base fl1 al st1 n fuel' H1 ltac:(lia) ltac:(lia)) as [(p & st' & -> & Ha & Hb)|[Hbad _]].
  - exists p, st'. split; [done|]. left. destruct Ha as (fl' & a & -> & Hal & Hrep & Hc). exists fl', a. split_and!; [done..|].
    intros x. rewrite <- Hc, Hb, Hcov. intuition lia.
  - exfalso. apply Exists_exists in Hex as (b & Hin & Hb). pose proof (proj1 (Forall_forall _ _) Hbad b Hin). cbn in *. lia.
Qed.

(** The allocator before its first call: no list, nothing in use. *)
Definition fresh (base : Z) (st : ustate) : Prop :=
  u_freep st = 0 /\ 0 < base /\ base + HSIZE <= u_brk st <= u_max st /\ u_max st <= 2 ^ 35.

Definition ready (base : Z) (fl : list block) (al : gmap Z Z) (st : ustate) : Prop :=
  heap_rep base fl al st \/ (fresh base st /\ fl = [] /\ al = ∅).

Definition started (base : Z) (st : ustate) : ustate :=
  if u_freep st =? 0 then set_size base 0 (set_freep base (set_ptr base base st)) else st.

Lemma freep_pos base fl al st : heap_rep base fl al st -> 0 < u_freep st.
Proof.
  intros H. destruct (proj1 (Exists_exists _ _) (hr_freep _ _ _ _ H)) as (fb & Hin & <-). pose proof (hr_base _ _ _ _ H).
  destruct (proj1 (Forall_forall _ _) (free_blocks _ _ _ _ H) _ Hin) as [->|]; cbn; unfold HSIZE in *; lia.
Qed.

Lemma started_rep base fl al st : ready base fl al st ->
  heap_rep base fl al (started base st) /\ u_brk (started base st) = u_brk st /\ u_max (started base st) = u_max st.
Proof.
  intros [H|((Hf & Hb & Hm1 & Hm2) & -> & ->)]; unfold started.
  - pose proof (freep_pos _ _ _ _ H). by rewrite (proj2 (Z.eqb_neq _ _)) by lia.
  - rewrite Hf, Z.eqb_refl. split; [|done]. split; [done..| | |constructor|by left|by intros a u Ha%lookup_empty_Some|by intros a u b v Ha%lookup_empty_Some].
    + split; [|done]. unfold set_size, set_ptr, set_hdr, set_freep, hdr. cbn [u_hdr fst snd next]. rewrite !lookup_insert_eq. done.
    + cbn. lia.
Qed.

(** C37 (umalloc_spec): the free list of the user library implements a set of blocks.
    malloc() returns a block that was free or new memory, holds at least the bytes asked
    for and overlaps no block in use, or 0 when no free block is large enough and the
    memory cannot grow, with nothing changed; free() gives exactly its block back, joined
    with its neighbours so that no two free blocks touch.  Both go round the list at
    most once, and once more after new memory was added, and return. *)
Theorem umalloc_spec base fl al st nbytes bp u : ready base fl al st -> 0 <= nbytes < 2 ^ 31 - 64 ->
  let n := (nbytes + HSIZE - 1) / HSIZE + 1 in
  (exists p st', malloc base nbytes st = Some (p, st') /\ nbytes <= HSIZE * (n - 1) /\
     (allocates base n fl al st st' p \/
      p = 0 /\ heap_rep base fl al st' /\ Forall (fun b => snd b < n) fl /\ u_max st < u_brk st + HSIZE * Z.max n 4096)) /\
  (al !! bp = Some u -> exists st' fl', free (bp + HSIZE) st = Some st' /\ heap_rep base fl' (delete bp al) st' /\
     (forall x, covers fl' x <-> covers fl x \/ bp <= x < bp + HSIZE * u) /\ u_brk st' = u_brk st).
Proof.
  intros Hr Hn n. assert (0 < n < 2 ^ 27 /\ nbytes <= HSIZE * (n - 1)) as [Hn1 Hn2].
  { unfold n, HSIZE. replace (nbytes + 16 - 1) with (nbytes + 15) by lia. pose proof (Z.div_mod (nbytes + 15) 16 ltac:(lia)).
    pose proof (Z.mod_pos_bound (nbytes + 15) 16 ltac:(lia)). lia. }
  split.
  - destruct (started_rep _ _ _ _ Hr) as (H & Hb & Hm). unfold malloc. fold (started base st). rewrite u32_small by lia. fold n.
    destruct (malloc_loop_run base fl al (started base st) n (2 * turns (started base st) + 4) H Hn1) as (p & st' & -> & Hp); [unfold turns; lia|].
    exists p, st'. split_and!; [done..|]. destruct Hp as [(fl' & a & -> & Hal & Hrep & Hcov)|(-> & -> & Hsm & Hfull)].
    + left. exists fl', a. rewrite Hb in Hcov. done.
    + right. rewrite Hb, Hm in Hfull. done.
  - intros Hbp. destruct Hr as [H|(_ & _ & ->)]; [|by apply lookup_empty_Some in Hbp].
    destruct (free_run base fl al st bp u H Hbp) as (st' & fl' & -> & Hrep & Hcov & _ & Hb & _). by exists st', fl'.
Qed.

(** A process of four pages that may grow to 2 MB. *)
Definition heap0 : ustate := mkUstate ∅ 0 0x4000 0x200000.

Lemma heap0_ready : ready 0x1000 [] ∅ heap0.
Proof. right. split_and!; [|done..]. unfold fresh, HSIZE. cbn. lia. Qed.

(** malloc(100), then free(). *)
Lemma umalloc_spec_witness : exists p st' st'', malloc 0x1000 100 heap0 = Some (p, st') /\ p <> 0 /\ free p st' = Some st''.
Proof.
  destruct (umalloc_spec 0x1000 [] ∅ heap0 100 0 0 heap0_ready ltac:(lia)) as [(p & st' & E & _ & Hp) _].
  destruct Hp as [(fl' & a & -> & _ & Hrep & _)|(_ & _ & _ & Hfull)]; [|exfalso; revert Hfull; vm_compute; discriminate].
  destruct (umalloc_spec 0x1000 fl' _ st' 0 a 8 (or_introl Hrep) ltac:(lia)) as [_ Hf].
  destruct (Hf (lookup_insert_eq _ _ _)) as (st'' & fl'' & Ef & _). exists (a + HSIZE), st', st''. split_and!; [exact E| |exact Ef].
  destruct (hr_used _ _ _ _ Hrep a _ (lookup_insert_eq _ _ _)) as (_ & Hlo & _). unfold HSIZE in *. lia.
Defined.

(** A request of 2 GB makes the argument of sbrk() negative: it does not fail, and malloc()
    returns a block beyond the end of the memory. *)
Lemma malloc_huge : exists p st', malloc 0x1000 (2 ^ 31 - 16) heap0 = Some (p, st') /\ p <> 0 /\ u_brk st' <= p.
Proof. eexists _, _. split; [vm_compute; reflexivity|]. split; [discriminate|]. vm_compute. discriminate. Qed.
