(* ===== verification/Uprogs.v ===== *)
(** * Uprogs: the small user programs (user/cat.c, wc.c, echo.c, ls.c, init.c and others)

    Each program is the tree of its system calls; argv includes the program's name.
    [fuel] bounds the loops that run until the end of the input.  The theorems
    interpret the calls by [serve]: read() takes the next bytes of the input in
    pieces of any size, write() appends to the output. *)

From Stdlib Require Import ZArith Lia Ascii String.
From stdpp Require Import base gmap list strings.
From S2P Require Import Prelude Bytes State Mem Printf Fcntl Usys.

(** ** cat.c *)

Definition cat_body (fd : Z) (_ : unit) : prog (unit + unit) :=
  r ← sys (Read fd 512);
  match r with
  | None => say 2 "cat: read error";; exit_ 1
  | Some [] => Done (inr tt)
  | Some bs =>
      w ← sys (Write 1 bs);
      if negb (w =? Z.of_nat (length bs)) then say 2 "cat: write error";; exit_ 1 else Done (inl tt)
  end.
Definition cat (fuel : nat) (fd : Z) : prog unit := ploop fuel (cat_body fd) tt.

Definition cat_main (fuel : nat) (argv : list (list Z)) : prog unit :=
  if (length argv <=? 1)%nat then cat fuel 0;; exit_ 0 else
  pfor (tl argv) (fun a =>
    fd ← sys (Open a O_RDONLY);
    if fd <? 0 then fprintf 2 (str "cat: cannot open %s" ++ [nl]) [AStr (Some a)];; exit_ 1 else
    cat fuel fd;;
    sys (Close fd);;
    Done tt);;
  exit_ 0.

(** ** wc.c *)

Record wcst : Type := mkWc { wl : Z; ww : Z; wch : Z; inword : bool }.

Definition wc_spaces : list Z := [32; 13; 9; 10; 11].

Definition wc_char (s : wcst) (b : Z) : wcst :=
  let c := i32 (wch s + 1) in
  let l := if b =? nl then i32 (wl s + 1) else wl s in
  match ustrchr wc_spaces b with
  | Some _ => mkWc l (ww s) c false
  | None => if inword s then mkWc l (ww s) c true else mkWc l (i32 (ww s + 1)) c true
  end.

Definition wc_body (fd : Z) (s : wcst) : prog (wcst + wcst) :=
  r ← sys (Read fd 512);
  match r with
  | None => say 1 "wc: read error";; exit_ 1
  | Some [] => Done (inr s)
  | Some bs => Done (inl (foldl wc_char s bs))
  end.

Definition wc_format : list Z := str "%d %d %d %s" ++ [nl].
Definition wc (fuel : nat) (fd : Z) (name : list Z) : prog unit :=
  s ← ploop fuel (wc_body fd) (mkWc 0 0 0 false);
  uprintf wc_format [ANum (wl s); ANum (ww s); ANum (wch s); AStr (Some name)].

Definition wc_main (fuel : nat) (argv : list (list Z)) : prog unit :=
  if (length argv <=? 1)%nat then wc fuel 0 [];; exit_ 0 else
  pfor (tl argv) (fun a =>
    fd ← sys (Open a O_RDONLY);
    if fd <? 0 then uprintf (str "wc: cannot open %s" ++ [nl]) [AStr (Some a)];; exit_ 1 else
    wc fuel fd a;;
    sys (Close fd);;
    Done tt);;
  exit_ 0.

(** ** echo.c, kill.c, ln.c, mkdir.c, rm.c, zombie.c *)

Fixpoint echo_args (args : list (list Z)) : prog unit :=
  match args with
  | [] => Done tt
  | a :: rest =>
      sys (Write 1 a);;
      sys (Write 1 (match rest with [] => [nl] | _ => [chr " "] end));;
      echo_args rest
  end.
Definition echo_main (argv : list (list Z)) : prog unit := echo_args (tl argv);; exit_ 0.

Definition kill_main (argv : list (list Z)) : prog unit :=
  if (length argv <? 2)%nat then say 2 "usage: kill pid...";; exit_ 1 else
  pfor (tl argv) (fun a => sys (Kill (atoi a));; Done tt);;
  exit_ 0.

Definition ln_main (argv : list (list Z)) : prog unit :=
  if negb (length argv =? 3)%nat then say 2 "Usage: ln old new";; exit_ 1 else
  let old := nth 1 argv [] in let new := nth 2 argv [] in
  r ← sys (Link old new);
  (if r <? 0 then fprintf 2 (str "link %s %s: failed" ++ [nl]) [AStr (Some old); AStr (Some new)] else Done tt);;
  exit_ 0.

(** for(i = 1; i < argc; i++) if(op(argv[i]) < 0) { fprintf(2, msg, argv[i]); break; } *)
Fixpoint each_arg (op : list Z -> call Z) (msg : list Z) (args : list (list Z)) : prog unit :=
  match args with
  | [] => Done tt
  | a :: rest =>
      r ← sys (op a);
      if r <? 0 then fprintf 2 msg [AStr (Some a)] else each_arg op msg rest
  end.

Definition mkdir_main (argv : list (list Z)) : prog unit :=
  if (length argv <? 2)%nat then say 2 "Usage: mkdir files...";; exit_ 1 else
  each_arg Mkdir (str "mkdir: %s failed to create" ++ [nl]) (tl argv);;
  exit_ 0.

Definition rm_main (argv : list (list Z)) : prog unit :=
  if (length argv <? 2)%nat then say 2 "Usage: rm files...";; exit_ 1 else
  each_arg Unlink (str "rm: %s failed to delete" ++ [nl]) (tl argv);;
  exit_ 0.

Definition zombie_main : prog unit :=
  pid ← sys Fork;
  (if 0 <? pid then sys (Sleep 5);; Done tt else Done tt);;
  exit_ 0.

(** ** init.c *)

Definition sh_name : list Z := str "sh".

(** wait() until the shell [pid] has exited. *)
Definition init_wait (pid : Z) (_ : unit) : prog (unit + unit) :=
  r ← sys Wait;
  let wpid := fst r in
  if wpid =? pid then Done (inr tt)
  else if wpid <? 0 then say 1 "init: wait returned an error";; exit_ 1
  else Done (inl tt).

Definition init_body (fuel : nat) (_ : unit) : prog (unit + unit) :=
  say 1 "init: starting sh";;
  pid ← sys Fork;
  if pid <? 0 then say 1 "init: fork failed";; exit_ 1 else
  if pid =? 0 then
    sys (Exec sh_name [sh_name]);;
    say 1 "init: exec sh failed";;
    exit_ 1
  else
    ploop fuel (init_wait pid) tt;;
    Done (inl tt).

Definition init_main (fuel : nat) : prog unit :=
  fd ← sys (Open (str "console") O_RDWR);
  (if fd <? 0 then
     sys (Mknod (str "console") 1 0);;
     sys (Open (str "console") O_RDWR);;
     Done tt
   else Done tt);;
  sys (Dup 0);;
  sys (Dup 0);;
  ploop fuel (init_body fuel) tt.

(** ** ls.c *)

(** The characters after the last slash. *)
Fixpoint after_slash (path cur : list Z) : list Z :=
  match path with
  | [] => cur
  | c :: rest => after_slash rest (if c =? chr "/" then rest else cur)
  end.

Definition fmtname (path : list Z) : list Z :=
  let p := after_slash path path in
  if Z.of_nat (length p) >=? DIRSIZ then p
  else p ++ replicate (Z.to_nat DIRSIZ - length p) (chr " ").

Definition ls_line (path : list Z) (st : ustat) : prog unit :=
  uprintf (str "%s %d %d %d" ++ [nl])
    [AStr (Some (fmtname path)); ANum (us_type st); ANum (us_ino st); ANum (i32 (us_size st))].

(** One entry of the directory; a name of 14 characters has no NUL of its own. *)
Definition ls_entry (fd : Z) (path : list Z) (_ : unit) : prog (unit + unit) :=
  r ← sys (Read fd 16);
  let de := default [] r in
  if negb (length de =? 16)%nat then Done (inr tt) else
  if rd 2 de 0 =? 0 then Done (inl tt) else
  let name := cstr (slice de 2 (Z.to_nat DIRSIZ)) in
  let buf := path ++ [chr "/"] ++ name in
  s ← ustat_ buf;
  match s with
  | None => uprintf (str "ls: cannot stat %s" ++ [nl]) [AStr (Some buf)];; Done (inl tt)
  | Some st => ls_line buf st;; Done (inl tt)
  end.

Definition ls (fuel : nat) (path : list Z) : prog unit :=
  fd ← sys (Open path O_RDONLY);
  if fd <? 0 then fprintf 2 (str "ls: cannot open %s" ++ [nl]) [AStr (Some path)] else
  s ← sys (Fstat fd);
  match s with
  | None =>
      fprintf 2 (str "ls: cannot stat %s" ++ [nl]) [AStr (Some path)];;
      sys (Close fd);;
      Done tt
  | Some st =>
      (if (us_type st =? 3) || (us_type st =? 2) then ls_line path st
       else if us_type st =? 1 then
         if 512 <? ustrlen path + 1 + DIRSIZ + 1 then say 1 "ls: path too long"
         else ploop fuel (ls_entry fd path) tt
       else Done tt);;
      sys (Close fd);;
      Done tt
  end.

Definition ls_main (fuel : nat) (argv : list (list Z)) : prog unit :=
  if (length argv <? 2)%nat then ls fuel (str ".");; exit_ 0 else
  pfor (tl argv) (ls fuel);;
  exit_ 0.

(** ** What they print *)

(** A file's descriptor read to the end. *)
Definition drained (fd : Z) (cuts : list nat) (w : world) : world :=
  mkWorld (w_files w) (<[fd := []]> (w_in w)) (w_next w) cuts (w_out w).

Lemma append_in fd bs w : w_in (append fd bs w) = w_in w.
Proof. by destruct bs. Qed.
Lemma append_files fd bs w : w_files (append fd bs w) = w_files w.
Proof. by destruct bs. Qed.
Lemma append_next fd bs w : w_next (append fd bs w) = w_next w.
Proof. by destruct bs. Qed.

Lemma append_app fd a b w : append fd b (append fd a w) = append fd (a ++ b) w.
Proof. exact (put_app (h := serve) fd a b w). Qed.

(** A read() returns the empty string exactly at the end, and otherwise takes a
    prefix off what is left. *)
Lemma read_cut fd n w c : 0 < n -> w_in w !! fd = Some c ->
  exists bs rest, c = bs ++ rest /\ Z.of_nat (length bs) <= n /\ (bs = [] -> c = []) /\
    serve _ (Read fd n) w = (Some bs, mkWorld (w_files w) (<[fd := rest]> (w_in w)) (w_next w) (tl (w_cuts w)) (w_out w)).
Proof.
  intros Hn Hc. exists (take (cut n w) c), (drop (cut n w) c). split_and!; [by rewrite take_drop| | |].
  - rewrite length_take. unfold cut. destruct (w_cuts w); lia.
  - intros H. apply (f_equal length) in H. rewrite length_take in H. apply nil_length_inv.
    assert (0 < cut n w)%nat by (unfold cut; destruct (w_cuts w); lia). cbn in H. lia.
  - cbn. by rewrite Hc.
Qed.

Lemma drained_append fd cuts fd' bs w : drained fd cuts (append fd' bs w) = append fd' bs (drained fd cuts w).
Proof. by destruct bs. Qed.

Lemma cat_run fuel fd w c : w_in w !! fd = Some c -> (length c < fuel)%nat ->
  exists cuts, run serve (cat fuel fd) w = (FDone tt, append 1 c (drained fd cuts w)).
Proof.
  unfold cat. revert w c. induction fuel as [|fuel IH]; intros w c Hc Hf; [lia|].
  destruct (read_cut fd 512 w c ltac:(lia) Hc) as (bs & rest & -> & _ & Hb & E).
  rewrite run_ploop. unfold cat_body at 1. rewrite run_bind, run_sys, E. cbn [fst snd fin_bind].
  destruct bs as [|b bs].
  - specialize (Hb eq_refl). apply app_nil in Hb as [_ ->]. by eexists.
  - rewrite run_bind, run_sys. cbn [serve fst snd fin_bind]. rewrite Z.eqb_refl. cbn [negb run fin_bind].
    set (w' := append 1 (b :: bs) _).
    destruct (IH w' rest) as (cuts & E').
    { unfold w'. rewrite append_in. cbn [w_in]. by rewrite lookup_insert_eq. }
    { rewrite length_app in Hf. cbn in Hf. lia. }
    exists cuts. rewrite E'. f_equal. rewrite <- append_app. f_equal.
    unfold w', drained. cbn [append w_files w_in w_next w_out out]. rewrite insert_insert_eq. done.
Qed.

(** The files of the arguments up to the first that does not exist, and that one. *)
Fixpoint opened (fs : gmap (list Z) (list Z)) (args : list (list Z)) : list (list Z * list Z) * option (list Z) :=
  match args with
  | [] => ([], None)
  | a :: args' =>
      match fs !! a with
      | None => ([], Some a)
      | Some c => ((a, c) :: fst (opened fs args'), snd (opened fs args'))
      end
  end.

(** A message: a string with an argument at its end, and a newline. *)
Definition with_arg (s : string) : list Z := str s ++ str "%s" ++ [nl].

Lemma urender_lits l its ap : urender ((ILit <$> l) ++ its) ap = l ++ urender its ap.
Proof. induction l as [|c l IH]; [done|]. cbn. f_equal. apply IH. Qed.

Lemma format_lits l its : format ((ILit <$> l) ++ its) = l ++ format its.
Proof. induction l as [|c l IH]; [done|]. cbn. f_equal. apply IH. Qed.

Lemma fprintf_with_arg fd s a w : Forall (fun c => c <> chr "%") (str s) ->
  run serve (fprintf fd (with_arg s) [AStr (Some a)]) w = (FDone tt, append fd (str s ++ a ++ [nl]) w).
Proof.
  intros Hs. unfold with_arg. change (str "%s" ++ [nl]) with (format [IStr; ILit nl]). rewrite <- format_lits.
  assert (str s ++ a ++ [nl] = urender ((ILit <$> str s) ++ [IStr; ILit nl]) [AStr (Some a)]) as -> by by rewrite urender_lits.
  apply emits_serve, vprintf_run. apply Forall_app. split; [by apply Forall_fmap|]. repeat constructor. done.
Qed.

Section Files.
Context (P : list Z -> Prop) (efd : Z) (msg : string) (act : Z -> list Z -> prog unit) (g : list Z -> list Z -> list Z).
Context (msg_ok : Forall (fun c => c <> chr "%") (str msg)).
Context (act_run : forall fd a w c, w_in w !! fd = Some c -> P c ->
  exists cuts, run serve (act fd a) w = (FDone tt, append 1 (g a c) (drained fd cuts w))).

(** The loop over the arguments that cat, wc and grep share. *)
Lemma each_file_run args w :
  (forall a c, w_files w !! a = Some c -> P c) -> 0 <= w_next w ->
  exists w1,
    run serve (pfor args (fun a =>
      fd ← sys (Open a O_RDONLY);
      if fd <? 0 then fprintf efd (with_arg msg) [AStr (Some a)];; exit_ 1 else
      act fd a;;
      sys (Close fd);;
      Done tt)) w =
    (match snd (opened (w_files w) args) with
     | None => (FDone tt, w1)
     | Some a => (FExited 1, append efd (str msg ++ a ++ [nl]) w1)
     end) /\
    out 1 w1 = out 1 w ++ concat ((fun f => g (fst f) (snd f)) <$> fst (opened (w_files w) args)) /\
    (forall fd, fd <> 1 -> out fd w1 = out fd w).
Proof using msg_ok act_run.
  revert w. induction args as [|a args IH]; intros w Hf Hn; cbn [pfor opened].
  { exists w. cbn. by rewrite app_nil_r. }
  rewrite !run_bind, run_sys. cbn [serve]. destruct (w_files w !! a) as [c|] eqn:Ea; cbn [fst snd fin_bind].
  - rewrite (proj2 (Z.ltb_ge _ _)) by done. set (w0 := mkWorld _ _ _ _ _).
    destruct (act_run (w_next w) a w0 c) as (cuts & E); [by apply lookup_insert_eq|by eapply Hf|].
    rewrite run_bind, E. cbn [fin_bind]. rewrite run_bind, run_sys. cbn [serve fst snd fin_bind run].
    set (w2 := mkWorld _ _ _ _ _).
    assert (w_files w2 = w_files w) as Hfs by (by unfold w2; cbn [w_files]; rewrite append_files).
    assert (forall fd, out fd w2 = out fd (append 1 (g a c) w)) as Ho.
    { intros fd. transitivity (out fd (append 1 (g a c) (drained (w_next w) cuts w0))); [done|]. rewrite !out_append. done. }
    destruct (IH w2) as (w1 & E1 & H1 & H2).
    { by rewrite Hfs. }
    { unfold w2. cbn [w_next]. rewrite append_next. cbn. lia. }
    rewrite Hfs in E1, H1. exists w1. split; [exact E1|]. split.
    + rewrite H1, Ho, out_append, decide_True by done. cbn. by rewrite app_assoc.
    + intros fd Hfd. rewrite H2, Ho, out_append by done. by rewrite decide_False.
  - exists w. cbn [Z.ltb Z.compare]. rewrite run_bind, fprintf_with_arg by done. cbn. by rewrite app_nil_r.
Qed.

End Files.

(** What wc counts. *)
Definition is_space (b : Z) : bool := existsb (Z.eqb b) wc_spaces.
Definition lines (l : list Z) : Z := Z.of_nat (length (filter (fun b => b = nl) l)).

(** The pieces between the white space, empty ones included. *)
Fixpoint pieces (l : list Z) : list Z * list (list Z) :=
  match l with
  | [] => ([], [])
  | b :: l' => if is_space b then ([], fst (pieces l') :: snd (pieces l')) else (b :: fst (pieces l'), snd (pieces l'))
  end.
Definition nonempty (ps : list (list Z)) : Z := Z.of_nat (length (filter (fun p => p <> []) ps)).
Definition words (l : list Z) : Z := nonempty (fst (pieces l) :: snd (pieces l)).

Definition wc_line (name l : list Z) : list Z :=
  unumeral (lines l) 10 true ++ [32] ++ unumeral (words l) 10 true ++ [32] ++
  unumeral (Z.of_nat (length l)) 10 true ++ [32] ++ name ++ [nl].

Lemma strchr_space b : bool_decide (is_Some (ustrchr wc_spaces b)) = is_space b.
Proof.
  unfold is_space. assert (Forall (fun x => x <> 0) wc_spaces) as H by (repeat constructor; done).
  induction H as [|x l Hx _ IH]; [done|]. cbn [ustrchr existsb]. rewrite (proj2 (Z.eqb_neq x 0)), (Z.eqb_sym x b), <- IH by done.
  destruct (b =? x); [done|]. by destruct (ustrchr l b).
Qed.

Lemma nonempty_cons p ps : nonempty (p :: ps) = match p with [] => 0 | _ => 1 end + nonempty ps.
Proof. unfold nonempty. rewrite filter_cons. destruct p; case_decide; cbn [length]; (done || lia). Qed.

Lemma nonempty_pieces l : 0 <= nonempty (snd (pieces l)) <= words l /\ words l <= Z.of_nat (length l) /\ 0 <= lines l <= Z.of_nat (length l).
Proof.
  unfold words. rewrite nonempty_cons. split; [destruct (fst (pieces l)); unfold nonempty; lia|].
  split; [|unfold lines; pose proof (length_filter (fun b => b = nl) l); lia].
  induction l as [|b l IH]; cbn [pieces]; [done|]. destruct (is_space b); cbn [fst snd length].
  - rewrite nonempty_cons. lia.
  - destruct (fst (pieces l)); lia.
Qed.

Lemma wc_fold l s : 0 <= wl s -> 0 <= ww s -> 0 <= wch s ->
  Z.max (wl s) (Z.max (ww s) (wch s)) + Z.of_nat (length l) < 2 ^ 31 ->
  exists b, foldl wc_char s l =
    mkWc (wl s + lines l) (ww s + (if inword s then nonempty (snd (pieces l)) else words l)) (wch s + Z.of_nat (length l)) b.
Proof.
  revert s. induction l as [|b l IH]; intros s H1 H2 H3 Hmax.
  { exists (inword s). destruct s as [x y z []]; cbn; by rewrite !Z.add_0_r. }
  cbn [length] in Hmax. cbn [foldl]. 
  set (k := if is_space b then 0 else if inword s then 0 else 1).
  assert (wc_char s b = mkWc (wl s + (if b =? nl then 1 else 0)) (ww s + k) (wch s + 1) (negb (is_space b))) as ->.
  { unfold wc_char, k. rewrite <- strchr_space, !i32_small by lia.
    destruct (b =? nl), (ustrchr wc_spaces b), (inword s); cbn [negb]; by rewrite ?Z.add_0_r. }
  assert (0 <= k <= 1) by (unfold k; destruct (is_space b), (inword s); lia).
  destruct (IH (mkWc (wl s + (if b =? nl then 1 else 0)) (ww s + k) (wch s + 1) (negb (is_space b)))) as (b' & ->);
    [destruct (b =? nl); cbn; lia..|]. exists b'. cbn [wl ww wch inword]. f_equal.
  - unfold lines. rewrite filter_cons. destruct (Z.eqb_spec b nl); case_decide; (done || cbn [length]; lia).
  - unfold k, words. cbn [pieces]. destruct (is_space b), (inword s); cbn [negb fst snd]; rewrite ?nonempty_cons; cbn; lia.
  - cbn [length]. lia.
Qed.

Lemma wc_loop fuel fd w c s : w_in w !! fd = Some c -> (length c < fuel)%nat ->
  exists cuts, run serve (ploop fuel (wc_body fd) s) w = (FDone (foldl wc_char s c), drained fd cuts w).
Proof.
  revert w c s. induction fuel as [|fuel IH]; intros w c s Hc Hf; [lia|].
  destruct (read_cut fd 512 w c ltac:(lia) Hc) as (bs & rest & -> & _ & Hb & E).
  rewrite run_ploop. unfold wc_body at 1. rewrite run_bind, run_sys, E. cbn [fst snd fin_bind].
  destruct bs as [|b bs].
  - specialize (Hb eq_refl). apply app_nil in Hb as [_ ->]. by eexists.
  - cbn [run fin_bind]. set (w' := mkWorld _ _ _ _ _).
    destruct (IH w' rest (foldl wc_char s (b :: bs))) as (cuts & E').
    { unfold w'. cbn [w_in]. by rewrite lookup_insert_eq. }
    { rewrite length_app in Hf. cbn in Hf. lia. }
    exists cuts. rewrite E', foldl_app. unfold w', drained. cbn [w_files w_in w_next w_out]. by rewrite insert_insert_eq.
Qed.

Lemma wc_run fuel fd name w c : w_in w !! fd = Some c -> (length c < fuel)%nat -> Z.of_nat (length c) < 2 ^ 31 ->
  exists cuts, run serve (wc fuel fd name) w = (FDone tt, append 1 (wc_line name c) (drained fd cuts w)).
Proof.
  intros Hc Hf Hmax. unfold wc. rewrite run_bind. destruct (wc_loop fuel fd w c (mkWc 0 0 0 false) Hc Hf) as (cuts & ->).
  cbn [fin_bind]. exists cuts. destruct (wc_fold c (mkWc 0 0 0 false)) as (b & ->); [cbn; lia..|]. cbn [wl ww wch inword].
  destruct (nonempty_pieces c) as (Hp & Hw & Hl). rewrite !Z.add_0_l.
  set (its := [INum WInt "d" 10 true; ILit 32; INum WInt "d" 10 true; ILit 32; INum WInt "d" 10 true; ILit 32; IStr; ILit nl]).
  set (ap := [ANum _; ANum _; ANum _; AStr _]).
  assert (wc_line name c = urender its ap) as ->.
  { unfold its, ap. cbn [urender ushown unum_arg arg_int arg_str rest_args tl].
    rewrite (i32_small (lines c)), (i32_small (words c)), (i32_small (Z.of_nat _)) by lia. done. }
  apply emits_serve, (vprintf_run 1 its). unfold its. repeat constructor; done.
Qed.

(** [cat_copies]: cat writes its files to standard output, one after the other and
    nothing else, however read() cuts them, and exits with 0; at the first file it
    cannot open it stops, names the file on standard error and exits with 1.  Without
    arguments it copies its standard input. *)
Theorem cat_copies fuel name args w :
  (forall a c, w_files w !! a = Some c -> (length c < fuel)%nat) -> 0 <= w_next w ->
  (forall c, w_in w !! 0 = Some c -> (length c < fuel)%nat ->
     exists cuts, run serve (cat_main fuel [name]) w = (FExited 0, append 1 c (drained 0 cuts w))) /\
  (args <> [] -> exists w1,
     run serve (cat_main fuel (name :: args)) w =
       (match snd (opened (w_files w) args) with
        | None => (FExited 0, w1)
        | Some a => (FExited 1, append 2 (str "cat: cannot open " ++ a ++ [nl]) w1)
        end) /\
     out 1 w1 = out 1 w ++ concat (snd <$> fst (opened (w_files w) args)) /\
     (forall fd, fd <> 1 -> out fd w1 = out fd w)).
Proof.
  intros Hf Hn. split.
  - intros c Hc Hl. destruct (cat_run fuel 0 w c Hc Hl) as (cuts & E). exists cuts. cbn [cat_main length Nat.leb].
    by rewrite run_bind, E.
  - intros Ha. destruct args as [|a args]; [done|].
    destruct (each_file_run (fun c => (length c < fuel)%nat) 2 "cat: cannot open " (fun fd _ => cat fuel fd) (fun _ c => c)
      ltac:(repeat constructor; done) (fun fd _ => cat_run fuel fd) (a :: args) w Hf Hn) as (w1 & E & H1 & H2).
    exists w1. split; [|done]. unfold cat_main. cbn [length Nat.leb tl]. rewrite run_bind.
    etransitivity; [exact (f_equal (fun r => fin_bind r _) E)|]. by destruct (snd (opened _ _)).
Qed.

(** A file "f" of five bytes, read two and then one byte at a time. *)
Definition one_file : world :=
  mkWorld {[ str "f" := str "a b" ++ [nl; nl] ]} ∅ 3 [1%nat; 0%nat; 0%nat; 0%nat] ∅.

Lemma one_file_small a c : w_files one_file !! a = Some c -> (length c < 10)%nat.
Proof. unfold one_file. cbn [w_files]. intros [_ <-]%lookup_singleton_Some. cbn. lia. Qed.

Lemma cat_copies_witness : exists w1,
  run serve (cat_main 10 [str "cat"; str "f"; str "g"]) one_file = (FExited 1, append 2 (str "cat: cannot open g" ++ [nl]) w1) /\
  out 1 w1 = str "a b" ++ [nl; nl].
Proof.
  destruct (cat_copies 10 (str "cat") [str "f"; str "g"] one_file one_file_small ltac:(done)) as [_ H].
  destruct (H ltac:(done)) as (w1 & E & H1 & _). exists w1. split; [exact E|exact H1].
Defined.

(** C38 (wc_counts): wc prints, for each of its files in order, the number of newlines, of
    maximal runs of characters that are not white space, and of characters, in decimal
    and followed by the name, however read() cuts the file (a word that two reads share is
    counted once); it stops at a file it cannot open, and says so. *)
Theorem wc_counts fuel name args w :
  (forall a c, w_files w !! a = Some c -> (length c < fuel)%nat) -> Z.of_nat fuel <= 2 ^ 31 -> 0 <= w_next w ->
  (forall c, w_in w !! 0 = Some c -> (length c < fuel)%nat ->
     exists cuts, run serve (wc_main fuel [name]) w = (FExited 0, append 1 (wc_line [] c) (drained 0 cuts w))) /\
  (args <> [] -> exists w1,
     run serve (wc_main fuel (name :: args)) w =
       (match snd (opened (w_files w) args) with
        | None => (FExited 0, w1)
        | Some a => (FExited 1, append 1 (str "wc: cannot open " ++ a ++ [nl]) w1)
        end) /\
     out 1 w1 = out 1 w ++ concat ((fun f => wc_line (fst f) (snd f)) <$> fst (opened (w_files w) args)) /\
     (forall fd, fd <> 1 -> out fd w1 = out fd w)).
Proof.
  intros Hf Hmax Hn. split.
  - intros c Hc Hl. destruct (wc_run fuel 0 [] w c Hc Hl ltac:(lia)) as (cuts & E). exists cuts. cbn [wc_main length Nat.leb].
    by rewrite run_bind, E.
  - intros Ha. destruct args as [|a args]; [done|].
    destruct (each_file_run (fun c => (length c < fuel)%nat) 1 "wc: cannot open " (wc fuel) wc_line ltac:(repeat constructor; done)
      (fun fd a w c Hc (Hl : (length c < fuel)%nat) => wc_run fuel fd a w c Hc Hl ltac:(lia)) (a :: args) w Hf Hn) as (w1 & E & H1 & H2).
    exists w1. split; [|done]. unfold wc_main. cbn [length Nat.leb tl]. rewrite run_bind.
    etransitivity; [exact (f_equal (fun r => fin_bind r _) E)|]. by destruct (snd (opened _ _)).
Qed.

Lemma wc_counts_witness : exists w1,
  run serve (wc_main 10 [str "wc"; str "f"]) one_file = (FExited 0, w1) /\ out 1 w1 = str "2 2 5 f" ++ [nl].
Proof.
  destruct (wc_counts 10 (str "wc") [str "f"] one_file one_file_small ltac:(lia) ltac:(done)) as [_ H].
  destruct (H ltac:(done)) as (w1 & E & H1 & _). exists w1. split; [exact E|]. exact H1.
Defined.
