(* ===== verification/Grep.v ===== *)
(** * Grep: the pattern matcher and the line filter of user/grep.c

    [match_], [matchhere] and [matchstar] are the matcher; a C string is the list
    of its bytes before the NUL, so [re[0]] is the head of the list and 0 at the
    end.  The reference is the language of the pattern: a pattern is read as a
    list of pieces with an optional end anchor, and [matches] says which strings
    the pieces generate.  [grep] is the program's loop over its 1024-byte buffer,
    and the theorem on it holds however read() cuts the input. *)

From Stdlib Require Import ZArith Lia Wellfounded.
From stdpp Require Import base gmap list sets strings.
From S2P Require Import Prelude Bytes State Mem Printf Fcntl Usys Uprogs.

Definition ch_caret : Z := 94.
Definition ch_dollar : Z := 36.
Definition ch_dot : Z := 46.
Definition ch_star : Z := 42.
Definition ch_nl : Z := 10.

(** ** The matcher *)

(** matchstar(c, re, text), with [here] standing for matchhere(re, _). *)
Fixpoint matchstar (c : Z) (here : list Z -> bool) (text : list Z) : bool :=
  if here text then true else
  match text with
  | [] => false
  | t :: text' => if (t =? c) || (c =? ch_dot) then matchstar c here text' else false
  end.

Definition is_star (re : list Z) : bool :=
  match re with
  | c :: _ => c =? ch_star
  | [] => false
  end.

Definition is_empty (s : list Z) : bool :=
  match s with
  | [] => true
  | _ => false
  end.

Fixpoint matchhere (re text : list Z) {struct re} : bool :=
  match re with
  | [] => true
  | c :: re1 =>
      match re1 with
      | s :: re2 => if s =? ch_star then matchstar c (matchhere re2) text
                    else match text with
                         | t :: text' => if (c =? ch_dot) || (c =? t) then matchhere re1 text' else false
                         | [] => false
                         end
      | [] => if c =? ch_dollar then is_empty text
              else match text with
                   | t :: text' => if (c =? ch_dot) || (c =? t) then matchhere re1 text' else false
                   | [] => false
                   end
      end
  end.

(** The do-while loop of match(): at every position, the end of the text included. *)
Fixpoint match_any (re text : list Z) : bool :=
  if matchhere re text then true else
  match text with
  | [] => false
  | _ :: text' => match_any re text'
  end.

Definition match_ (re text : list Z) : bool :=
  match re with
  | c :: re' => if c =? ch_caret then matchhere re' text else match_any re text
  | [] => match_any re text
  end.

(** ** The reference: the language of a pattern *)

Inductive item : Type := Lit (c : Z) | Any.
Inductive piece : Type := One (i : item) | Star (i : item).

Definition char_item (c : Z) : item := if c =? ch_dot then Any else Lit c.

Definition item_ok (i : item) (t : Z) : Prop :=
  match i with
  | Lit c => t = c
  | Any => True
  end.

(** The pieces of a pattern and whether it ends in the anchor [$]. *)
Fixpoint pieces (re : list Z) : list piece * bool :=
  match re with
  | [] => ([], false)
  | c :: re1 =>
      match re1 with
      | s :: re2 => if s =? ch_star then (Star (char_item c) :: fst (pieces re2), snd (pieces re2))
                    else (One (char_item c) :: fst (pieces re1), snd (pieces re1))
      | [] => if c =? ch_dollar then ([], true) else ([One (char_item c)], false)
      end
  end.

Inductive matches : list piece -> list Z -> Prop :=
| matches_nil : matches [] []
| matches_one i ps t s : item_ok i t -> matches ps s -> matches (One i :: ps) (t :: s)
| matches_star_0 i ps s : matches ps s -> matches (Star i :: ps) s
| matches_star_S i ps t s : item_ok i t -> matches (Star i :: ps) s -> matches (Star i :: ps) (t :: s).

(** The pattern matches a prefix of the text, all of it if the pattern is
    anchored at the end. *)
Definition prefix_match (ps : list piece * bool) (text : list Z) : Prop :=
  exists s rest, text = s ++ rest /\ matches (fst ps) s /\ (snd ps = true -> rest = []).

Lemma item_ok_bool c t : item_ok (char_item c) t <-> (c =? ch_dot) || (c =? t) = true.
Proof.
  unfold char_item. destruct (Z.eqb_spec c ch_dot); simpl; [done|].
  destruct (Z.eqb_spec c t); simpl; split; (done || congruence).
Qed.

Lemma prefix_one c ps b text : prefix_match (One (char_item c) :: ps, b) text <->
  match text with
  | t :: text' => (c =? ch_dot) || (c =? t) = true /\ prefix_match (ps, b) text'
  | [] => False
  end.
Proof.
  unfold prefix_match. cbn. split.
  - intros (s & rest & -> & Hm & Hb). inversion Hm as [|? ? t s' Hi Hm'| |]; subst. cbn.
    split; [by apply item_ok_bool|]. by exists s', rest.
  - destruct text as [|t text']; [done|]. intros (Hi & s & rest & -> & Hm & Hb).
    exists (t :: s), rest. split_and!; [done| |done]. constructor; [by apply item_ok_bool|done].
Qed.

Lemma prefix_star c ps b text here :
  (forall t, here t = true <-> prefix_match (ps, b) t) ->
  matchstar c here text = true <-> prefix_match (Star (char_item c) :: ps, b) text.
Proof.
  intros Hh. induction text as [|t text IH]; cbn [matchstar].
  - destruct (here []) eqn:E.
    + split; [|done]. intros _. apply Hh in E as (s & rest & Et & Hm & Hb).
      exists s, rest. split_and!; [done|by constructor|done].
    + split; [done|]. intros (s & rest & Et & Hm & Hb). symmetry in Et. apply app_nil in Et as [-> ->].
      inversion Hm; subst. assert (here [] = true); [|congruence]. apply Hh. exists [], []. done.
  - destruct (here (t :: text)) eqn:E.
    + split; [|done]. intros _. apply Hh in E as (s & rest & Et & Hm & Hb).
      exists s, rest. split_and!; [done|by constructor|done].
    + rewrite (Z.eqb_sym t c), orb_comm. destruct ((c =? ch_dot) || (c =? t)) eqn:Ei.
      * rewrite IH. split.
        -- intros (s & rest & -> & Hm & Hb). exists (t :: s), rest. split_and!; [done| |done].
           apply matches_star_S; [by apply item_ok_bool|done].
        -- intros (s & rest & Et & Hm & Hb). inversion Hm as [| |? ? ? Hm'|? ? t' s' Hi Hm']; subst.
           ++ exfalso. assert (here (t :: text) = true); [|congruence]. apply Hh. exists s, rest. done.
           ++ injection Et as -> ->. by exists s', rest.
      * split; [done|]. intros (s & rest & Et & Hm & Hb).
        inversion Hm as [| |? ? ? Hm'|? ? t' s' Hi Hm']; subst.
        -- assert (here (t :: text) = true); [|congruence]. apply Hh. exists s, rest. done.
        -- injection Et as -> ->. apply item_ok_bool in Hi. congruence.
Qed.

Lemma pieces_cons c s re : pieces (c :: s :: re) =
  if s =? ch_star then (Star (char_item c) :: fst (pieces re), snd (pieces re))
  else (One (char_item c) :: fst (pieces (s :: re)), snd (pieces (s :: re))).
Proof. done. Qed.

Lemma matchhere_cons c s re text : matchhere (c :: s :: re) text =
  if s =? ch_star then matchstar c (matchhere re) text
  else match text with
       | t :: text' => if (c =? ch_dot) || (c =? t) then matchhere (s :: re) text' else false
       | [] => false
       end.
Proof. done. Qed.

Lemma matchhere_pieces re text : matchhere re text = true <-> prefix_match (pieces re) text.
Proof.
  revert text. induction re as [re IH] using (well_founded_induction (wf_inverse_image _ _ _ length lt_wf)).
  intros text. destruct re as [|c [|s re2]]; [cbn [matchhere pieces]..|rewrite pieces_cons, matchhere_cons].
  - split; [|done]. intros _. exists [], text. split_and!; [done|constructor|done].
  - destruct (Z.eqb_spec c ch_dollar) as [->|Hc].
    + split.
      * destruct text; [|done]. intros _. exists [], []. split_and!; [done|constructor|done].
      * intros (s & rest & -> & Hm & Hb). inversion Hm; subst. by rewrite (Hb eq_refl).
    + rewrite (prefix_one c [] false text). destruct text as [|t text]; [done|].
      destruct ((c =? ch_dot) || (c =? t)); [|split; [done|by intros [? _]]].
      split; [|done]. intros _. split; [done|]. exists [], text. split_and!; [done|constructor|done].
  - destruct (Z.eqb_spec s ch_star) as [->|Hs].
    + apply prefix_star. intros t. rewrite <- surjective_pairing. apply IH. cbn. lia.
    + rewrite prefix_one, <- surjective_pairing. destruct text as [|t text]; [done|].
      destruct ((c =? ch_dot) || (c =? t)); [|split; [done|by intros [? _]]].
      rewrite <- IH by (cbn; lia). tauto.
Qed.

Lemma match_any_suffix re text : match_any re text = true <->
  exists pre rest, text = pre ++ rest /\ matchhere re rest = true.
Proof.
  induction text as [|t text IH]; cbn [match_any].
  - destruct (matchhere re []) eqn:E; split; try done.
    + intros _. by exists [], [].
    + intros (pre & rest & Et & Hm). symmetry in Et. apply app_nil in Et as [-> ->]. congruence.
  - destruct (matchhere re (t :: text)) eqn:E.
    + split; [|done]. intros _. by exists [], (t :: text).
    + rewrite IH. split.
      * intros (pre & rest & -> & Hm). by exists (t :: pre), rest.
      * intros ([|x pre] & rest & Et & Hm); cbn in Et; [congruence|]. injection Et as -> ->.
        by exists pre, rest.
Qed.

(** C35 (match_language): match() decides the pattern language.  It returns 1 exactly
    when some part of the text (its beginning if the pattern starts with [^], up to its
    end if it ends with [$]) is generated by the pieces of the pattern, [c*] standing
    for any number of [c] and [.] for any character. *)
Theorem match_language re text : match_ re text = true <->
  match re with
  | c :: re' => if c =? ch_caret then prefix_match (pieces re') text
                else exists pre rest, text = pre ++ rest /\ prefix_match (pieces re) rest
  | [] => exists pre rest, text = pre ++ rest /\ prefix_match (pieces re) rest
  end.
Proof.
  destruct re as [|c re]; cbn [match_]; [|destruct (c =? ch_caret)]; [|apply matchhere_pieces|];
    rewrite match_any_suffix; by setoid_rewrite matchhere_pieces.
Qed.

(** ** The line filter *)

(** while((q = strchr(p, '\n')) != 0), once round; at the end, the bytes from [p] on. *)
Definition grep_line (pattern p : list Z) : prog (list Z + list Z) :=
  match ustrchr p ch_nl with
  | None => Done (inr p)
  | Some q =>
      let line := take q p in
      (if match_ pattern line then sys (Write 1 (line ++ [ch_nl]));; Done tt else Done tt);;
      Done (inl (drop (S q) p))
  end.

Definition BUFSZ : nat := 1024.

(** while((n = read(fd, buf+m, sizeof(buf)-m-1)) > 0) { ... }, once round; [buf] holds
    the m bytes carried over. *)
Definition grep_body (pattern : list Z) (fd : Z) (buf : list Z) : prog (list Z + unit) :=
  r ← sys (Read fd (Z.of_nat (BUFSZ - length buf - 1)));
  match r with
  | None | Some [] => Done (inr tt)
  | Some got => p ← ploop BUFSZ (grep_line pattern) (buf ++ got); Done (inl p)
  end.
Definition grep (fuel : nat) (pattern : list Z) (fd : Z) : prog unit := ploop fuel (grep_body pattern fd) [].

Definition grep_main (fuel : nat) (argv : list (list Z)) : prog unit :=
  if (length argv <=? 1)%nat then say 2 "usage: grep pattern [file ...]";; exit_ 1 else
  let pattern := nth 1 argv [] in
  if (length argv <=? 2)%nat then grep fuel pattern 0;; exit_ 0 else
  pfor (drop 2 argv) (fun a =>
    fd ← sys (Open a O_RDONLY);
    if fd <? 0 then uprintf (str "grep: cannot open %s" ++ [nl]) [AStr (Some a)];; exit_ 1 else
    grep fuel pattern fd;;
    sys (Close fd);;
    Done tt);;
  exit_ 0.

(** The complete lines of the input and what follows the last newline. *)
Fixpoint split_lines (cur s : list Z) : list (list Z) * list Z :=
  match s with
  | [] => ([], cur)
  | x :: s' => if x =? ch_nl then (cur :: fst (split_lines [] s'), snd (split_lines [] s'))
               else split_lines (cur ++ [x]) s'
  end.

Definition selected (pattern : list Z) (lines : list (list Z)) : list Z :=
  concat ((fun l => if match_ pattern l then l ++ [ch_nl] else []) <$> lines).

Lemma split_lines_app cur a b : split_lines cur (a ++ b) =
  (fst (split_lines cur a) ++ fst (split_lines (snd (split_lines cur a)) b),
   snd (split_lines (snd (split_lines cur a)) b)).
Proof.
  revert cur. induction a as [|x a IH]; intros cur; cbn; [by destruct (split_lines cur b)|].
  destruct (x =? ch_nl); [|apply IH]. cbn. by rewrite IH.
Qed.

Lemma split_lines_nonl cur a : ch_nl ∉ a -> split_lines cur a = ([], cur ++ a).
Proof.
  revert cur. induction a as [|x a IH]; intros cur Ha; cbn; [by rewrite app_nil_r|].
  apply not_elem_of_cons in Ha as [Hx Ha]. destruct (Z.eqb_spec x ch_nl); [congruence|].
  rewrite IH by done. by rewrite <- app_assoc.
Qed.

Lemma split_lines_rest cur a : ch_nl ∉ cur -> ch_nl ∉ snd (split_lines cur a).
Proof.
  revert cur. induction a as [|x a IH]; intros cur Hc; cbn; [done|].
  destruct (Z.eqb_spec x ch_nl); cbn; apply IH; [set_solver|].
  rewrite elem_of_app, elem_of_cons. set_solver.
Qed.

Lemma split_lines_Forall (P : Z -> Prop) cur s : Forall P cur -> Forall P s -> Forall P (snd (split_lines cur s)).
Proof.
  intros Hc Hs. revert cur Hc. induction Hs as [|x s Hx Hs IH]; intros cur Hc; cbn; [done|].
  destruct (x =? ch_nl); cbn; apply IH; [constructor|]. apply Forall_app. auto.
Qed.

(** Every line and the remainder have at most [B] bytes. *)
Definition lines_le (B : nat) (ls : list (list Z) * list Z) : Prop :=
  Forall (fun l => (length l <= B)%nat) (fst ls) /\ (length (snd ls) <= B)%nat.

Lemma split_lines_cur B cur s : lines_le B (split_lines cur s) -> (length cur <= B)%nat.
Proof.
  revert cur. induction s as [|x s IH]; intros cur; cbn; [by intros [_ ?]|].
  destruct (x =? ch_nl).
  - intros [Hf _]. by inversion Hf.
  - intros Hl. specialize (IH _ Hl). rewrite length_app in IH. cbn in IH. lia.
Qed.

Lemma strchr_nl s : Forall (fun x => x <> 0) s ->
  match ustrchr s ch_nl with
  | None => ch_nl ∉ s
  | Some q => exists l r, s = l ++ ch_nl :: r /\ length l = q /\ ch_nl ∉ l
  end.
Proof.
  induction 1 as [|x s Hx Hs IH]; cbn [ustrchr]; [set_solver|].
  destruct (Z.eqb_spec x 0); [done|]. destruct (Z.eqb_spec x ch_nl) as [->|Hn].
  - exists [], s. split_and!; [done..|set_solver].
  - destruct (ustrchr s ch_nl) as [q|].
    + destruct IH as (l & r & -> & <- & Hl). exists (x :: l), r. split_and!; [done..|]. set_solver.
    + set_solver.
Qed.

Lemma selected_cons pattern l ls : selected pattern (l :: ls) = (if match_ pattern l then l ++ [ch_nl] else []) ++ selected pattern ls.
Proof. done. Qed.

Lemma grep_lines_run pattern p fuel w : Forall (fun x => x <> 0) p -> (length p < fuel)%nat ->
  run serve (ploop fuel (grep_line pattern) p) w =
    (FDone (snd (split_lines [] p)), append 1 (selected pattern (fst (split_lines [] p))) w).
Proof.
  revert p w. induction fuel as [|fuel IH]; intros p w Hp Hf; [lia|]. rewrite run_ploop. unfold grep_line at 1.
  pose proof (strchr_nl p Hp) as Hs. destruct (ustrchr p ch_nl) as [q|].
  - destruct Hs as (l & r & -> & <- & Hl). rewrite take_app_length.
    replace (drop (S (length l)) (l ++ ch_nl :: r)) with r.
    2: { rewrite cons_middle, app_assoc. symmetry. apply drop_app_length'. rewrite length_app. cbn. lia. }
    rewrite length_app in Hf. cbn in Hf. apply Forall_app in Hp as [_ Hp]. inversion Hp; subst.
    rewrite split_lines_app, (split_lines_nonl [] l) by done. cbn [fst snd app split_lines].
    rewrite Z.eqb_refl. cbn [fst snd app]. rewrite selected_cons, <- append_app.
    destruct (match_ pattern l); rewrite !run_bind; cbn [run sys serve fst snd fin_bind]; by rewrite IH by (done || lia).
  - by rewrite split_lines_nonl by done.
Qed.

(** What grep asks of its input: no NUL byte, and lines that fit its buffer. *)
Definition grep_input (fuel : nat) (c : list Z) : Prop :=
  Forall (fun x => x <> 0) c /\ lines_le (BUFSZ - 2) (split_lines [] c) /\ (length c < fuel)%nat.

Lemma grep_loop fuel pattern fd buf c w : w_in w !! fd = Some c -> ch_nl ∉ buf -> Forall (fun x => x <> 0) (buf ++ c) ->
  lines_le (BUFSZ - 2) (split_lines buf c) -> (length c < fuel)%nat ->
  exists cuts, run serve (ploop fuel (grep_body pattern fd) buf) w =
    (FDone tt, append 1 (selected pattern (fst (split_lines buf c))) (drained fd cuts w)).
Proof.
  revert buf c w. induction fuel as [|fuel IH]; intros buf c w Hc Hb Hz Hl Hf; [lia|].
  rewrite run_ploop. unfold grep_body at 1. pose proof (split_lines_cur _ _ _ Hl) as Hbl.
  assert (exists bs rest, c = bs ++ rest /\ Z.of_nat (length bs) <= Z.of_nat (BUFSZ - length buf - 1) /\ (bs = [] -> c = []) /\
    serve _ (Read fd (Z.of_nat (BUFSZ - length buf - 1))) w =
      (Some bs, mkWorld (w_files w) (<[fd := rest]> (w_in w)) (w_next w) (tl (w_cuts w)) (w_out w)))
    as (bs & rest & -> & Hbs & He & E).
  { apply read_cut; [unfold BUFSZ in *; lia|done]. }
  rewrite run_bind, run_sys, E. cbn [fst snd fin_bind]. destruct bs as [|b bs].
  - specialize (He eq_refl). apply app_nil in He as [_ ->]. by eexists.
  - set (got := b :: bs) in *. assert (0 < length got)%nat by (cbn; lia). clearbody got.
    apply Forall_app in Hz as [Hz1 [Hz2 Hz3]%Forall_app]. rewrite length_app in Hf.
    rewrite run_bind, grep_lines_run by (by apply Forall_app || (rewrite length_app; unfold BUFSZ in *; lia)).
    cbn [fin_bind run]. rewrite (split_lines_app buf got rest) in Hl |- *. cbn [fst snd] in *.
    destruct Hl as [Hl1 Hl2]. cbn in Hl1, Hl2.
    assert (split_lines [] (buf ++ got) = split_lines buf got) as ->.
    { rewrite split_lines_app, (split_lines_nonl [] buf) by done. cbn. by destruct (split_lines buf got). }
    set (w' := append 1 _ _).
    edestruct (IH (snd (split_lines buf got)) rest w') as (cuts & ->).
    + unfold w'. rewrite append_in. cbn [w_in]. by rewrite lookup_insert_eq.
    + by apply split_lines_rest.
    + apply Forall_app. split; [|done]. by apply split_lines_Forall.
    + split; [|done]. by apply Forall_app in Hl1 as [_ ?].
    + lia.
    + exists cuts. f_equal. unfold selected. rewrite fmap_app, concat_app, <- append_app. f_equal.
      unfold w'. fold (selected pattern (fst (split_lines buf got))). rewrite drained_append. f_equal.
      unfold drained. cbn [w_files w_in w_next w_out]. by rewrite insert_insert_eq.
Qed.

Lemma grep_run fuel pattern fd w c : w_in w !! fd = Some c -> grep_input fuel c ->
  exists cuts, run serve (grep fuel pattern fd) w = (FDone tt, append 1 (selected pattern (fst (split_lines [] c))) (drained fd cuts w)).
Proof. intros Hc (Hz & Hl & Hf). apply grep_loop; (done || set_solver). Qed.

(** C36 (grep_filters): for inputs without NUL bytes whose lines fit the buffer, and
    however read() splits them, grep terminates and writes exactly the complete lines
    that match, in order, of its standard input or of each of its files; a file it
    cannot open ends it with a message and status 1. *)
Theorem grep_filters fuel name pattern args w :
  (forall a c, w_files w !! a = Some c -> grep_input fuel c) -> 0 <= w_next w ->
  (forall c, w_in w !! 0 = Some c -> grep_input fuel c ->
     exists cuts, run serve (grep_main fuel [name; pattern]) w =
       (FExited 0, append 1 (selected pattern (fst (split_lines [] c))) (drained 0 cuts w))) /\
  (args <> [] -> exists w1,
     run serve (grep_main fuel (name :: pattern :: args)) w =
       (match snd (opened (w_files w) args) with
        | None => (FExited 0, w1)
        | Some a => (FExited 1, append 1 (str "grep: cannot open " ++ a ++ [nl]) w1)
        end) /\
     out 1 w1 = out 1 w ++ concat ((fun f => selected pattern (fst (split_lines [] (snd f)))) <$> fst (opened (w_files w) args)) /\
     (forall fd, fd <> 1 -> out fd w1 = out fd w)).
Proof.
  intros Hf Hn. split.
  - intros c Hc Hl. destruct (grep_run fuel pattern 0 w c Hc Hl) as (cuts & E). exists cuts. cbn [grep_main length Nat.leb nth].
    by rewrite run_bind, E.
  - intros Ha. destruct args as [|a args]; [done|].
    destruct (each_file_run (grep_input fuel) 1 "grep: cannot open " (fun fd _ => grep fuel pattern fd)
      (fun _ c => selected pattern (fst (split_lines [] c))) ltac:(repeat constructor; done)
      (fun fd _ => grep_run fuel pattern fd) (a :: args) w Hf Hn) as (w1 & E & H1 & H2).
    exists w1. split; [|done]. unfold grep_main. cbn [length Nat.leb drop nth]. rewrite run_bind.
    etransitivity; [exact (f_equal (fun r => fin_bind r _) E)|]. by destruct (snd (opened _ _)).
Qed.

(** Three lines, of which the pattern [a*b] with an anchor selects two; read() cuts the second. *)
Definition grep_world : world := mkWorld ∅ {[ 0 := [97; 98; 10; 99; 10; 98; 10] ]} 3 [0%nat; 3%nat] ∅.

Lemma grep_filters_witness : exists cuts,
  run serve (grep_main 8 [str "grep"; str "^a*b"]) grep_world =
    (FExited 0, append 1 [97; 98; 10; 98; 10] (drained 0 cuts grep_world)).
Proof.
  destruct (grep_filters 8 (str "grep") (str "^a*b") [] grep_world) as [H _]; [intros a c Hc; by destruct (lookup_empty_Some a c)|done|].
  destruct (H [97; 98; 10; 99; 10; 98; 10]) as [cuts E]; [reflexivity| |by exists cuts].
  split; [repeat constructor; discriminate|]. split; [|simpl; lia].
  split; [repeat constructor; unfold BUFSZ; simpl; lia|unfold BUFSZ; simpl; lia].
Defined.

(** A line that does not fit the buffer ends the program: read() is asked for 0
    bytes. *)
Lemma grep_full_buffer fuel pattern fd buf c w : w_in w !! fd = Some c -> length buf = (BUFSZ - 1)%nat ->
  fst (run serve (ploop (S fuel) (grep_body pattern fd) buf) w) = FDone tt.
Proof.
  intros Hc Hl. rewrite run_ploop. unfold grep_body at 1. rewrite run_bind, run_sys, Hl, Nat.sub_diag. cbn [serve].
  rewrite Hc. unfold cut. by destruct (w_cuts w).
Qed.
