(* ===== verification/Sh.v ===== *)
(** * Sh: the shell's parser (user/sh.c)

    A pointer into the command line is the rest of the line from there on, so
    [s < es] is "not empty" and [*s] is the head, 0 at the end.  A parsed command
    keeps, as the code does, pointers to the start and the end of every word.
    The parser's functions are mutually recursive and take fuel; [parse_fuel] is
    enough for every line.  panic() ends the parse with its message.

    parseexec() keeps adding arguments to an execcmd node that parseredirs() may
    already have wrapped in redircmd nodes; since nothing else refers to that
    node, the model collects the arguments and the redirections and builds the
    nodes when the command is complete, the first redirection innermost. *)

From Stdlib Require Import ZArith Lia.
From stdpp Require Import base list sets strings.
From S2P Require Import Prelude Fcntl.

Abbreviation ptr := (list Z).

Definition MAXARGS : nat := 10.

(** struct cmd and its five variants. *)
Inductive cmd : Type :=
| EXEC (argv : list (ptr * ptr))
| REDIR (c : cmd) (file efile : ptr) (mode fd : Z)
| PIPE (left right : cmd)
| LIST (left right : cmd)
| BACK (c : cmd).

(** The constructors, as functions. *)
Definition execcmd (argv : list (ptr * ptr)) : cmd := EXEC argv.
Definition pipecmd (left right : cmd) : cmd := PIPE left right.
Definition listcmd (left right : cmd) : cmd := LIST left right.
Definition backcmd (subcmd : cmd) : cmd := BACK subcmd.

Inductive parsed (A : Type) : Type :=
| Ok (a : A)
| Err (msg : string)
| OutOfFuel.
Arguments Ok {A} a.
Arguments Err {A} msg.
Arguments OutOfFuel {A}.

Definition pbind {A B} (m : parsed A) (f : A -> parsed B) : parsed B :=
  match m with
  | Ok a => f a
  | Err e => Err e
  | OutOfFuel => OutOfFuel
  end.
Notation "'let*' x := m 'in' k" := (pbind m (fun x => k))
  (at level 10, x pattern, m at level 200, k at level 200) : xv6_scope.

(** ** Tokens *)

(** whitespace[] = " \t\r\n\v" and symbols[] = "<|>&;()". *)
Definition whitespace : list Z := [32; 9; 13; 10; 11].
Definition symbols : list Z := [60; 124; 62; 38; 59; 40; 41].
Definition c_lt : Z := 60.
Definition c_bar : Z := 124.
Definition c_gt : Z := 62.
Definition c_amp : Z := 38.
Definition c_semi : Z := 59.
Definition c_lp : Z := 40.
Definition c_rp : Z := 41.
Definition c_plus : Z := 43.
Definition c_a : Z := 97.

(** strchr(set, c) != 0 for a string constant [set]. *)
Definition in_set (set : list Z) (c : Z) : bool := existsb (Z.eqb c) set.

#[global] Arguments in_set : simpl never.

(** *s *)
Definition deref (s : ptr) : Z :=
  match s with
  | [] => 0
  | c :: _ => c
  end.

(** while(s < es && strchr(whitespace, *s)) s++; *)
Fixpoint skip_ws (s : ptr) : ptr :=
  match s with
  | c :: s' => if in_set whitespace c then skip_ws s' else s
  | [] => []
  end.

(** while(s < es && !strchr(whitespace, *s) && !strchr(symbols, *s)) s++; *)
Fixpoint skip_word (s : ptr) : ptr :=
  match s with
  | c :: s' => if negb (in_set whitespace c) && negb (in_set symbols c) then skip_word s' else s
  | [] => []
  end.

(** The token, the pointers *q and *eq, and the new *ps. *)
Definition gettoken (ps : ptr) : Z * ptr * ptr * ptr :=
  let q := skip_ws ps in
  let c := deref q in
  let '(ret, eq) :=
    if c =? 0 then (0, q)
    else if in_set [c_bar; c_lp; c_rp; c_semi; c_amp; c_lt] c then (c, tl q)
    else if c =? c_gt then
      (if deref (tl q) =? c_gt then (c_plus, tl (tl q)) else (c_gt, tl q))
    else (c_a, skip_word q) in
  (ret, q, eq, skip_ws eq).

(** The answer and the new *ps. *)
Definition peek (ps : ptr) (toks : list Z) : bool * ptr :=
  let s := skip_ws ps in
  (negb (deref s =? 0) && in_set toks (deref s), s).

(** ** The parser *)

Record redir : Type := mkRedir { r_file : ptr; r_efile : ptr; r_mode : Z; r_fd : Z }.

Definition redircmd (c : cmd) (r : redir) : cmd := REDIR c (r_file r) (r_efile r) (r_mode r) (r_fd r).
Definition wrap (rs : list redir) (c : cmd) : cmd := foldl redircmd c rs.

(** The redirections at *ps, in order, and the new *ps. *)
Fixpoint parseredirs (fuel : nat) (ps : ptr) : parsed (list redir * ptr) :=
  match fuel with
  | O => OutOfFuel
  | S fuel' =>
      let '(more, s) := peek ps [c_lt; c_gt] in
      if more then
        let '(tok, _, _, s) := gettoken s in
        let '(t, q, eq, s) := gettoken s in
        if negb (t =? c_a) then Err "missing file for redirection" else
        let* (rs, s) := parseredirs fuel' s in
        if tok =? c_lt then Ok (mkRedir q eq O_RDONLY 0 :: rs, s)
        else if tok =? c_gt then Ok (mkRedir q eq (Z.lor (Z.lor O_WRONLY O_CREATE) O_TRUNC) 1 :: rs, s)
        else if tok =? c_plus then Ok (mkRedir q eq (Z.lor O_WRONLY O_CREATE) 1 :: rs, s)
        else Ok (rs, s)
      else Ok ([], s)
  end.

(** The while loop of parseexec(); [argc] arguments have been read. *)
Fixpoint parseargs (fuel argc : nat) (ps : ptr) : parsed (list (ptr * ptr) * list redir * ptr) :=
  match fuel with
  | O => OutOfFuel
  | S fuel' =>
      let '(stop, s) := peek ps [c_bar; c_rp; c_amp; c_semi] in
      if stop then Ok ([], [], s) else
      let '(tok, q, eq, s) := gettoken s in
      if tok =? 0 then Ok ([], [], s) else
      if negb (tok =? c_a) then Err "syntax" else
      if (MAXARGS <=? S argc)%nat then Err "too many args" else
      let* (rs, s) := parseredirs fuel' s in
      let* (args, rs', s) := parseargs fuel' (S argc) s in
      Ok ((q, eq) :: args, rs ++ rs', s)
  end.

(** while(peek(ps, es, "&")) { gettoken(ps, es, 0, 0); cmd = backcmd(cmd); } *)
Fixpoint parsebacks (fuel : nat) (c : cmd) (ps : ptr) : parsed (cmd * ptr) :=
  match fuel with
  | O => OutOfFuel
  | S fuel' =>
      let '(more, s) := peek ps [c_amp] in
      if more then let '(_, _, _, s) := gettoken s in parsebacks fuel' (backcmd c) s
      else Ok (c, s)
  end.

Fixpoint parseline (fuel : nat) (ps : ptr) : parsed (cmd * ptr) :=
  match fuel with
  | O => OutOfFuel
  | S fuel' =>
      let* (c, s) := parsepipe fuel' ps in
      let* (c, s) := parsebacks fuel' c s in
      let '(more, s) := peek s [c_semi] in
      if more then
        let '(_, _, _, s) := gettoken s in
        let* (c2, s) := parseline fuel' s in
        Ok (listcmd c c2, s)
      else Ok (c, s)
  end
with parsepipe (fuel : nat) (ps : ptr) : parsed (cmd * ptr) :=
  match fuel with
  | O => OutOfFuel
  | S fuel' =>
      let* (c, s) := parseexec fuel' ps in
      let '(more, s) := peek s [c_bar] in
      if more then
        let '(_, _, _, s) := gettoken s in
        let* (c2, s) := parsepipe fuel' s in
        Ok (pipecmd c c2, s)
      else Ok (c, s)
  end
with parseblock (fuel : nat) (ps : ptr) : parsed (cmd * ptr) :=
  match fuel with
  | O => OutOfFuel
  | S fuel' =>
      let '(open, s) := peek ps [c_lp] in
      if negb open then Err "parseblock" else
      let '(_, _, _, s) := gettoken s in
      let* (c, s) := parseline fuel' s in
      let '(close, s) := peek s [c_rp] in
      if negb close then Err "syntax - missing )" else
      let '(_, _, _, s) := gettoken s in
      let* (rs, s) := parseredirs fuel' s in
      Ok (wrap rs c, s)
  end
with parseexec (fuel : nat) (ps : ptr) : parsed (cmd * ptr) :=
  match fuel with
  | O => OutOfFuel
  | S fuel' =>
      let '(block, s) := peek ps [c_lp] in
      if block then parseblock fuel' s else
      let* (rs, s) := parseredirs fuel' s in
      let* (args, rs', s) := parseargs fuel' 0 s in
      Ok (wrap (rs ++ rs') (execcmd args), s)
  end.

Definition parse_fuel (s : ptr) : nat := 4 * length s + 4.

(** *eargv[i] = 0 and *efile = 0: the offsets, from the start of a line of [n]
    bytes, of the bytes that nulterminate() clears. *)
Fixpoint nulterminate (n : nat) (c : cmd) (buf : list Z) : list Z :=
  match c with
  | EXEC argv => foldl (fun b qe => <[(n - length (snd qe))%nat := 0]> b) buf argv
  | REDIR c _ efile _ _ => <[(n - length efile)%nat := 0]> (nulterminate n c buf)
  | PIPE l r => nulterminate n r (nulterminate n l buf)
  | LIST l r => nulterminate n r (nulterminate n l buf)
  | BACK c => nulterminate n c buf
  end.

(** The command and the line's buffer (with its final NUL) after nulterminate(). *)
Definition parsecmd (s : ptr) : parsed (cmd * list Z) :=
  let* (c, rest) := parseline (parse_fuel s) s in
  let '(_, rest) := peek rest [] in
  if negb (length rest =? 0)%nat then Err "syntax"
  else Ok (c, nulterminate (length s) c (s ++ [0])).

(** ** Termination *)

(** The parse ended, and at a pointer at most [n] bytes from the end. *)
Definition ended {A} (n : nat) (r : parsed (A * ptr)) : Prop :=
  match r with
  | Ok (_, s) => (length s <= n)%nat
  | Err _ => True
  | OutOfFuel => False
  end.

Lemma ended_bind {A B} n m (r : parsed (A * ptr)) (f : A * ptr -> parsed (B * ptr)) : ended m r ->
  (forall a s, (length s <= m)%nat -> ended n (f (a, s))) -> ended n (pbind r f).
Proof. destruct r as [[a s]| |]; cbn; auto. Qed.

Lemma skip_ws_le s : (length (skip_ws s) <= length s)%nat.
Proof. induction s as [|c s IH]; cbn; [lia|]. destruct (in_set whitespace c); cbn; lia. Qed.

Lemma skip_word_le s : (length (skip_word s) <= length s)%nat.
Proof. induction s as [|c s IH]; cbn; [lia|]. destruct (_ && _); cbn; lia. Qed.

Lemma tl_length (s : ptr) : length (tl s) = (length s - 1)%nat.
Proof. destruct s; cbn; lia. Qed.

Lemma peek_le s toks : (length (snd (peek s toks)) <= length s)%nat.
Proof. apply skip_ws_le. Qed.

(** skip_ws() stops at a byte that is not white space. *)
Lemma skip_ws_stop s c s' : skip_ws s = c :: s' -> in_set whitespace c = false.
Proof.
  induction s as [|x s IH]; cbn; [done|]. destruct (in_set whitespace x) eqn:E; [done|]. by intros [= <- <-].
Qed.

Lemma in_set_cons x l c : in_set (x :: l) c = (c =? x) || in_set l c.
Proof. done. Qed.

Lemma in_set_nil c : in_set [] c = false.
Proof. done. Qed.

(** A token other than the end consumes something. *)
Lemma gettoken_lt s tok q eq s' : gettoken s = (tok, q, eq, s') ->
  (length s' <= length s)%nat /\ (tok <> 0 -> (length s' < length s)%nat).
Proof.
  unfold gettoken. pose proof (skip_ws_le s) as Hs. destruct (skip_ws s) as [|c r] eqn:E.
  { cbn. intros [= <- <- <- <-]. cbn. split; [lia|done]. }
  cbn [deref tl length] in *. pose proof (skip_ws_stop _ _ _ E) as Hc.
  destruct (Z.eqb_spec c 0) as [->|Hc0].
  { intros Hg. injection Hg as <- <- <- <-. split; [|done].
    etransitivity; [apply (skip_ws_le (0 :: r))|cbn; lia]. }
  destruct (in_set [c_bar; c_lp; c_rp; c_semi; c_amp; c_lt] c) eqn:E1.
  { intros [= <- <- <- <-]. pose proof (skip_ws_le r). lia. }
  destruct (Z.eqb_spec c c_gt) as [->|Hgt].
  { destruct (deref r =? c_gt); intros [= <- <- <- <-]; [pose proof (skip_ws_le (tl r)) as H1;
      rewrite tl_length in H1|pose proof (skip_ws_le r)]; lia. }
  pose proof (skip_ws_le (skip_word (c :: r))) as H1.
  assert (length (skip_word (c :: r)) <= length r)%nat as H2;
    [|revert H1 H2; generalize (skip_word (c :: r)); intros w H1 H2 [= <- <- <- <-]; lia]. clear H1.
  cbn [skip_word]. rewrite Hc. cbn [negb andb]. destruct (in_set symbols c) eqn:Es; cbn [negb andb].
  - exfalso. unfold symbols in Es. rewrite !in_set_cons, in_set_nil in Es. rewrite !in_set_cons, in_set_nil in E1.
    destruct (Z.eqb_spec c c_gt); [done|]. unfold c_bar, c_lp, c_rp, c_semi, c_amp, c_lt, c_gt in *.
    destruct (c =? 124), (c =? 40), (c =? 41), (c =? 59), (c =? 38), (c =? 60), (Z.eqb_spec c 62);
      cbn in *; congruence.
  - apply skip_word_le.
Qed.

(** A token that peek() announced is not the end. *)
Lemma peek_token s toks s1 tok q eq s' : peek s toks = (true, s1) -> gettoken s1 = (tok, q, eq, s') ->
  (length s' < length s)%nat.
Proof.
  intros Hp Hg. pose proof (peek_le s toks) as Hl. rewrite Hp in Hl. cbn in Hl.
  destruct (gettoken_lt _ _ _ _ _ Hg) as [_ Hlt]. assert (tok <> 0) as Ht; [|specialize (Hlt Ht); lia].
  unfold peek in Hp. injection Hp as Hb <-. apply andb_true_iff in Hb as [Hb _].
  apply negb_true_iff, Z.eqb_neq in Hb. revert Hg. unfold gettoken.
  assert (skip_ws (skip_ws s) = skip_ws s) as ->.
  { clear. induction s as [|c s IH]; cbn; [done|]. destruct (in_set whitespace c) eqn:E; [done|].
    cbn. by rewrite E. }
  destruct (Z.eqb_spec (deref (skip_ws s)) 0) as [|_]; [done|].
  destruct (in_set _ _); [intros [= <- _ _ _]; done|].
  destruct (_ =? c_gt); [destruct (_ =? c_gt)|]; intros [= <- _ _ _]; done.
Qed.

Ltac tok H := let t := fresh "t" in let q := fresh "q" in let e := fresh "e" in let s := fresh "s" in
  match goal with |- context [gettoken ?x] => destruct (gettoken x) as [[[t q] e] s] eqn:H end.

Ltac pk H := let b := fresh "b" in let s := fresh "s" in
  match goal with |- context [peek ?x ?ts] =>
    pose proof (peek_le x ts); destruct (peek x ts) as [b s] eqn:H; cbn [snd] in * end.

Lemma parseredirs_ended fuel s : (length s < fuel)%nat -> ended (length s) (parseredirs fuel s).
Proof.
  revert s. induction fuel as [|fuel IH]; intros s Hf; [lia|]. cbn [parseredirs]. pk Hp.
  destruct b; [|cbn; lia]. tok Ht. pose proof (peek_token _ _ _ _ _ _ _ Hp Ht).
  tok Ht2. destruct (gettoken_lt _ _ _ _ _ Ht2) as [Hle _].
  destruct (negb _); [done|]. eapply ended_bind; [apply IH; lia|].
  intros rs s4 Hs4. repeat case_match; cbn; lia.
Qed.

Lemma parseargs_ended fuel argc s : (length s < fuel)%nat -> ended (length s) (parseargs fuel argc s).
Proof.
  revert argc s. induction fuel as [|fuel IH]; intros argc s Hf; [lia|]. cbn [parseargs]. pk Hp.
  destruct b; [cbn; lia|]. tok Ht. destruct (gettoken_lt _ _ _ _ _ Ht) as [Hle Hlt].
  destruct (Z.eqb_spec t 0) as [|Ht0]; [cbn; lia|]. specialize (Hlt Ht0). destruct (negb _); [done|].
  destruct (_ <=? _)%nat; [done|]. eapply ended_bind; [apply parseredirs_ended; lia|].
  intros rs s4 Hs4. eapply ended_bind; [apply IH; lia|]. intros [args rs'] s5 Hs5. cbn. lia.
Qed.

Lemma parsebacks_ended fuel c s : (length s < fuel)%nat -> ended (length s) (parsebacks fuel c s).
Proof.
  revert c s. induction fuel as [|fuel IH]; intros c s Hf; [lia|]. cbn [parsebacks]. pk Hp.
  destruct b; [|cbn; lia]. tok Ht. pose proof (peek_token _ _ _ _ _ _ _ Hp Ht).
  specialize (IH (backcmd c) s1 ltac:(lia)). destruct (parsebacks fuel (backcmd c) s1) as [[]| |]; cbn in *; lia.
Qed.

Lemma ended_le {A} n m (r : parsed (A * ptr)) : ended n r -> (n <= m)%nat -> ended m r.
Proof. destruct r as [[a s]| |]; cbn; auto. lia. Qed.

Lemma parser_ended fuel :
  (forall s, (4 * length s + 4 <= fuel)%nat -> ended (length s) (parseline fuel s)) /\
  (forall s, (4 * length s + 3 <= fuel)%nat -> ended (length s) (parsepipe fuel s)) /\
  (forall s, (4 * length s + 1 <= fuel)%nat -> ended (length s) (parseblock fuel s)) /\
  (forall s, (4 * length s + 2 <= fuel)%nat -> ended (length s) (parseexec fuel s)).
Proof.
  induction fuel as [|fuel (IHl & IHp & IHb & IHe)]; [split_and!; intros; lia|]. split_and!; intros s Hf.
  - cbn [parseline]. eapply ended_bind; [apply IHp; lia|]. intros c s1 Hs1.
    eapply ended_bind; [apply parsebacks_ended; lia|]. intros c2 s2 Hs2. pk Hp.
    destruct b; [|cbn; lia]. tok Ht. pose proof (peek_token _ _ _ _ _ _ _ Hp Ht).
    eapply ended_bind; [apply IHl; lia|]. intros c3 s5 Hs5. cbn. lia.
  - cbn [parsepipe]. eapply ended_bind; [apply IHe; lia|]. intros c s1 Hs1. pk Hp.
    destruct b; [|cbn; lia]. tok Ht. pose proof (peek_token _ _ _ _ _ _ _ Hp Ht).
    eapply ended_bind; [apply IHp; lia|]. intros c3 s5 Hs5. cbn. lia.
  - cbn [parseblock]. pk Hp. destruct b; [|done]. cbn [negb]. tok Ht.
    pose proof (peek_token _ _ _ _ _ _ _ Hp Ht). eapply ended_bind; [apply IHl; lia|].
    intros c s3 Hs3. pk Hp2. destruct b; [|done]. cbn [negb]. tok Ht2.
    pose proof (peek_token _ _ _ _ _ _ _ Hp2 Ht2).
    eapply ended_bind; [apply parseredirs_ended; lia|]. intros rs s6 Hs6. cbn. lia.
  - cbn [parseexec]. pk Hp. destruct b; [eapply ended_le; [apply IHb|]; lia|].
    eapply ended_bind; [apply parseredirs_ended; lia|]. intros rs s2 Hs2.
    eapply ended_bind; [apply parseargs_ended; lia|]. intros [args rs'] s3 Hs3. cbn. lia.
Qed.

Lemma parsecmd_ends s : parsecmd s <> OutOfFuel.
Proof.
  unfold parsecmd. destruct (parser_ended (parse_fuel s)) as (Hl & _).
  specialize (Hl s ltac:(unfold parse_fuel; lia)).
  destruct (parseline (parse_fuel s) s) as [[c r]| |]; cbn; [|done..].
  unfold peek. by destruct (negb _).
Qed.

(** C34 (parse_terminates): the recursive-descent parser terminates on every line:
    with fuel linear in the length of the line, parsecmd() either returns a command or
    panics, and the recursion never gets stuck on a prefix it cannot consume. *)
Theorem parse_terminates s : parsecmd s <> OutOfFuel.
Proof. apply parsecmd_ends. Qed.

(** ** The reference syntax and its printer *)

Inductive rkind : Type := RIn | ROut | RApp.

Inductive acmd : Type :=
| AExec (args : list (list Z))
| ARedir (c : acmd) (k : rkind) (file : list Z)
| APipe (left right : acmd)
| AList (left right : acmd)
| ABack (c : acmd).

(** A word: not empty, no NUL, white space or symbol in it. *)
Definition word_char (c : Z) : Prop :=
  c <> 0 /\ in_set whitespace c = false /\ in_set symbols c = false.
Definition word_ok (w : list Z) : Prop := w <> [] /\ Forall word_char w.

Fixpoint awf (a : acmd) : Prop :=
  match a with
  | AExec args => Forall word_ok args /\ (length args < MAXARGS)%nat
  | ARedir c _ file => awf c /\ word_ok file
  | APipe l r => awf l /\ awf r
  | AList l r => awf l /\ awf r
  | ABack c => awf c
  end.

Definition pr_args (args : list (list Z)) : list Z := concat ((fun w => w ++ [32]) <$> args).
Definition pr_kind (k : rkind) : list Z :=
  match k with
  | RIn => [c_lt; 32]
  | ROut => [c_gt; 32]
  | RApp => [c_gt; c_gt; 32]
  end.
Definition pr_redir (r : rkind * list Z) : list Z := pr_kind (fst r) ++ snd r ++ [32].
Definition pr_redirs (rs : list (rkind * list Z)) : list Z := concat (pr_redir <$> rs).

(** The level of the grammar a command is printed for; a command of a lower level
    is put in parentheses. *)
Inductive mode : Type := MLine | MBack | MPipe | MExec.

Definition paren (s : list Z) : list Z := [c_lp; 32] ++ s ++ [c_rp; 32].

Fixpoint pr (a : acmd) (m : mode) : list Z :=
  match a with
  | AExec args => pr_args args
  | ARedir c k file => pr c MExec ++ pr_redir (k, file)
  | APipe l r =>
      let s := pr l MExec ++ [c_bar; 32] ++ pr r MPipe in
      match m with MExec => paren s | _ => s end
  | ABack c =>
      let s := pr c MBack ++ [c_amp; 32] in
      match m with MLine | MBack => s | _ => paren s end
  | AList l r =>
      let s := pr l MBack ++ [c_semi; 32] ++ pr r MLine in
      match m with MLine => s | _ => paren s end
  end.

Definition print_cmd (a : acmd) : list Z := pr a MLine.

(** The word between two pointers, and the command with its words. *)
Definition word_of (qe : ptr * ptr) : list Z := take (length (fst qe) - length (snd qe)) (fst qe).

#[global] Arguments word_of : simpl never.

Definition kind_of (mode fd : Z) : rkind :=
  if fd =? 0 then RIn else if Z.land mode O_TRUNC =? 0 then RApp else ROut.

Fixpoint erase (c : cmd) : acmd :=
  match c with
  | EXEC argv => AExec (word_of <$> argv)
  | REDIR c q eq mode fd => ARedir (erase c) (kind_of mode fd) (word_of (q, eq))
  | PIPE l r => APipe (erase l) (erase r)
  | LIST l r => AList (erase l) (erase r)
  | BACK c => ABack (erase c)
  end.

Definition erase_redir (r : redir) : rkind * list Z :=
  (kind_of (r_mode r) (r_fd r), word_of (r_file r, r_efile r)).
Definition awrap (rs : list (rkind * list Z)) (a : acmd) : acmd :=
  foldl (fun a r => ARedir a (fst r) (snd r)) a rs.

Lemma erase_wrap rs c : erase (wrap rs c) = awrap (erase_redir <$> rs) (erase c).
Proof. revert c. induction rs as [|r rs IH]; intros c; [done|]. apply IH. Qed.

(** *** Tokens of printed text *)

(** [s] starts with a byte of [set], or is at the end if [e]. *)
Definition starts (e : bool) (set : list Z) (s : ptr) : Prop :=
  match s with
  | [] => e = true
  | c :: _ => in_set set c = true
  end.

Definition plain (c : Z) : Prop := c <> 0 /\ in_set whitespace c = false.

Lemma skip_ws_plain c s : plain c -> skip_ws (c :: s) = c :: s.
Proof. intros [_ H]. cbn. by rewrite H. Qed.

Lemma skip_ws_space s : skip_ws (32 :: s) = skip_ws s.
Proof. done. Qed.

Lemma skip_ws_word w s : word_ok w -> skip_ws (w ++ s) = w ++ s.
Proof. intros [Hw Hc]. destruct Hc as [|c w (H1 & H2 & H3) Hc]; [done|]. by apply skip_ws_plain. Qed.

Lemma skip_word_all w s : Forall word_char w -> skip_word (w ++ 32 :: s) = 32 :: s.
Proof.
  induction 1 as [|c w (H1 & H2 & H3) Hc IH]; [done|]. cbn. by rewrite H2, H3.
Qed.

Lemma gettoken_word w s : word_ok w ->
  gettoken (w ++ 32 :: s) = (c_a, w ++ 32 :: s, 32 :: s, skip_ws s).
Proof.
  intros Hw. unfold gettoken. rewrite skip_ws_word by done. destruct Hw as [Hne Hc].
  rewrite skip_word_all by done. destruct Hc as [|c w (H1 & H2 & H3) Hc]; [done|]. cbn [app deref].
  destruct (Z.eqb_spec c 0); [done|]. unfold symbols in H3. rewrite !in_set_cons, in_set_nil in H3.
  assert (in_set [c_bar; c_lp; c_rp; c_semi; c_amp; c_lt] c = false /\ (c =? c_gt) = false) as [-> ->].
  { rewrite !in_set_cons, in_set_nil. unfold c_bar, c_lp, c_rp, c_semi, c_amp, c_lt, c_gt.
    destruct (c =? 124), (c =? 40), (c =? 41), (c =? 59), (c =? 38), (c =? 60), (c =? 62); done. }
  done.
Qed.

Lemma word_of_token w s : word_of (w ++ 32 :: s, 32 :: s) = w.
Proof.
  unfold word_of. cbn [fst snd]. rewrite length_app. cbn [length].
  replace (length w + S (length s) - S (length s))%nat with (length w) by lia. apply take_app_length.
Qed.

Lemma gettoken_sym c s : in_set [c_bar; c_lp; c_rp; c_semi; c_amp; c_lt] c = true ->
  gettoken (c :: 32 :: s) = (c, c :: 32 :: s, 32 :: s, skip_ws s).
Proof.
  intros Hc. unfold gettoken. assert (plain c) as Hp.
  { rewrite !in_set_cons, in_set_nil in Hc. unfold plain.
    destruct (Z.eqb_spec c c_bar); [by subst|]. destruct (Z.eqb_spec c c_lp); [by subst|].
    destruct (Z.eqb_spec c c_rp); [by subst|]. destruct (Z.eqb_spec c c_semi); [by subst|].
    destruct (Z.eqb_spec c c_amp); [by subst|]. destruct (Z.eqb_spec c c_lt); [by subst|]. done. }
  rewrite skip_ws_plain by done. cbn [deref tl]. destruct Hp as [H0 _].
  destruct (Z.eqb_spec c 0); [done|]. by rewrite Hc.
Qed.

(** The parser's functions look past white space first. *)
Lemma skip_ws_idem s : skip_ws (skip_ws s) = skip_ws s.
Proof.
  induction s as [|c s IH]; cbn; [done|]. destruct (in_set whitespace c) eqn:E; [done|]. cbn. by rewrite E.
Qed.

Lemma peek_ws s toks : peek (skip_ws s) toks = peek s toks.
Proof. unfold peek. by rewrite skip_ws_idem. Qed.

Lemma parseredirs_ws fuel s : parseredirs fuel (skip_ws s) = parseredirs fuel s.
Proof. destruct fuel; [done|]. cbn [parseredirs]. by rewrite peek_ws. Qed.

Lemma parseargs_ws fuel argc s : parseargs fuel argc (skip_ws s) = parseargs fuel argc s.
Proof. destruct fuel; [done|]. cbn [parseargs]. by rewrite peek_ws. Qed.

Lemma parsebacks_ws fuel c s : parsebacks fuel c (skip_ws s) = parsebacks fuel c s.
Proof. destruct fuel; [done|]. cbn [parsebacks]. by rewrite peek_ws. Qed.

Lemma parseexec_ws fuel s : parseexec fuel (skip_ws s) = parseexec fuel s.
Proof. destruct fuel; [done|]. cbn [parseexec]. by rewrite peek_ws. Qed.

Lemma parsepipe_ws fuel s : parsepipe fuel (skip_ws s) = parsepipe fuel s.
Proof. destruct fuel; [done|]. cbn [parsepipe]. by rewrite parseexec_ws. Qed.

Lemma parseline_ws fuel s : parseline fuel (skip_ws s) = parseline fuel s.
Proof. destruct fuel; [done|]. cbn [parseline]. by rewrite parsepipe_ws. Qed.

(** The set of the bytes that end a simple command. *)
Definition stops : list Z := [c_bar; c_rp; c_amp; c_semi].

(** What may follow a command: the end of the line or one of [set]. *)
Definition follow (set : list Z) (s : ptr) : Prop :=
  match s with
  | [] => True
  | c :: _ => c ∈ set
  end.

Lemma follow_sub set set' s : (forall c, c ∈ set -> c ∈ set') -> follow set s -> follow set' s.
Proof. destruct s; cbn; auto. Qed.

(** peek() at the end or at a symbol. *)
Lemma peek_sym c s toks : plain c -> peek (c :: s) toks = (in_set toks c, c :: s).
Proof.
  intros Hp. unfold peek. rewrite skip_ws_plain by done. cbn [deref]. destruct Hp as [H0 _].
  by destruct (Z.eqb_spec c 0).
Qed.

Lemma stops_plain c : c ∈ stops -> plain c.
Proof. unfold stops. rewrite !elem_of_cons, elem_of_nil. by intros [->|[->|[->|[->|[]]]]]. Qed.

Lemma peek_follow set toks s : (forall c, c ∈ set -> c ∈ stops) -> (forall c, c ∈ set -> in_set toks c = false) ->
  follow set s -> peek s toks = (false, s).
Proof.
  intros H1 H2 Hs. destruct s as [|c s]; [done|]. cbn in Hs. rewrite peek_sym by auto using stops_plain.
  by rewrite H2.
Qed.

(** peek() at a word. *)
Lemma in_set_word c toks : word_char c -> (forall t, t ∈ toks -> in_set symbols t = true) -> in_set toks c = false.
Proof.
  intros (_ & _ & H) Ht. destruct (in_set toks c) eqn:E; [|done]. exfalso. unfold in_set in E.
  apply existsb_exists in E as (x & Hx & Heq). apply Z.eqb_eq in Heq as ->.
  rewrite Ht in H; [done|]. by apply list_elem_of_In.
Qed.

Lemma peek_word w s toks : word_ok w -> (forall t, t ∈ toks -> in_set symbols t = true) ->
  peek (w ++ s) toks = (false, w ++ s).
Proof.
  intros [Hne Hw] Ht. destruct Hw as [|c w Hc Hw]; [done|]. cbn [app].
  rewrite peek_sym by (destruct Hc as (? & ? & ?); done). by rewrite in_set_word.
Qed.

Ltac symbol_set := intros ?; rewrite ?elem_of_cons, ?elem_of_nil; intuition (subst; done).

Lemma elem_of_stops c : c ∈ stops <-> c = c_bar \/ c = c_rp \/ c = c_amp \/ c = c_semi.
Proof. unfold stops. rewrite !elem_of_cons, elem_of_nil. tauto. Qed.

(** *** Redirections *)

Lemma pr_redirs_cons r rs : pr_redirs (r :: rs) = pr_redir r ++ pr_redirs rs.
Proof. done. Qed.

Lemma parseredirs_none fuel s : (0 < fuel)%nat -> peek s [c_lt; c_gt] = (false, s) ->
  parseredirs fuel s = Ok ([], s).
Proof. intros Hf Hp. destruct fuel; [lia|]. cbn [parseredirs]. by rewrite Hp. Qed.

(** The token of a redirection. *)
Definition kind_tok (k : rkind) : Z := match k with RIn => c_lt | ROut => c_gt | RApp => c_plus end.

Lemma gettoken_kind k s : gettoken (pr_kind k ++ s) = (kind_tok k, pr_kind k ++ s, 32 :: s, skip_ws s).
Proof. by destruct k. Qed.

Lemma peek_kind k s : peek (pr_kind k ++ s) [c_lt; c_gt] = (true, pr_kind k ++ s).
Proof. by destruct k. Qed.

Lemma parseredirs_print rs s fuel : Forall (fun r => word_ok (snd r)) rs ->
  peek s [c_lt; c_gt] = (false, s) -> (length (pr_redirs rs ++ s) < fuel)%nat ->
  exists rl, parseredirs fuel (pr_redirs rs ++ s) = Ok (rl, s) /\ erase_redir <$> rl = rs.
Proof.
  intros Hrs. revert fuel. induction Hrs as [|[k w] rs Hw Hrs IH]; intros fuel Hs Hf.
  { exists []. cbn. by rewrite parseredirs_none by (done || lia). }
  cbn [snd] in Hw. destruct fuel as [|fuel]; [lia|]. rewrite pr_redirs_cons in *. unfold pr_redir in *.
  cbn [fst snd] in *. rewrite <- !app_assoc in *. rewrite !length_app in Hf. cbn [length] in Hf.
  destruct (IH fuel Hs) as (rl & Hp & He); [rewrite length_app; lia|].
  cbn [parseredirs]. rewrite peek_kind, gettoken_kind. rewrite skip_ws_word by done.
  change ([32] ++ pr_redirs rs ++ s) with (32 :: pr_redirs rs ++ s). rewrite gettoken_word by done.
  cbn [Z.eqb negb]. rewrite Z.eqb_refl. cbn [negb]. rewrite parseredirs_ws, Hp. cbn [pbind].
  destruct k; cbn; (eexists; split; [done|]); cbn; unfold erase_redir at 1; cbn;
    rewrite word_of_token, He; done.
Qed.

(** *** Simple commands *)

Lemma pr_args_cons w args : pr_args (w :: args) = w ++ [32] ++ pr_args args.
Proof. unfold pr_args. cbn. by rewrite <- app_assoc. Qed.

Lemma peek_stop s : follow stops s -> peek s [c_lt; c_gt] = (false, s).
Proof.
  apply peek_follow; [done|]. intros c Hc. apply elem_of_stops in Hc as [->|[->|[->| ->]]]; done.
Qed.

Lemma parseargs_stop fuel argc s : (0 < fuel)%nat -> follow stops s -> parseargs fuel argc s = Ok ([], [], s).
Proof.
  intros Hf Hs. destruct fuel; [lia|]. cbn [parseargs]. destruct s as [|c s]; [done|]. cbn in Hs.
  rewrite peek_sym by by apply stops_plain.
  apply elem_of_stops in Hs as [->|[->|[->| ->]]]; done.
Qed.

(** What follows the words [args] does not start with a redirection. *)
Lemma parseargs_print args rs s fuel argc : Forall word_ok args -> Forall (fun r => word_ok (snd r)) rs ->
  follow stops s -> (argc + length args < MAXARGS)%nat -> args <> [] \/ rs = [] ->
  (length (pr_args args ++ pr_redirs rs ++ s) < fuel)%nat ->
  exists al rl, parseargs fuel argc (pr_args args ++ pr_redirs rs ++ s) = Ok (al, rl, s) /\
    word_of <$> al = args /\ erase_redir <$> rl = rs.
Proof.
  intros Ha Hrs Hs. revert fuel argc. induction Ha as [|w args Hw Ha IH]; intros fuel argc Hn Hor Hf.
  { destruct Hor as [| ->]; [done|]. exists [], []. cbn. by rewrite parseargs_stop by (done || lia). }
  destruct fuel as [|fuel]; [lia|]. rewrite pr_args_cons in *. rewrite <- !app_assoc in *.
  rewrite !length_app in Hf. cbn [length] in *. destruct Hw as [Hne Hw].
  assert (0 < length w)%nat by (destruct w; [done|cbn; lia]). cbn [parseargs].
  rewrite peek_word by (split || symbol_set; done).
  change ([32] ++ pr_args args ++ pr_redirs rs ++ s) with (32 :: pr_args args ++ pr_redirs rs ++ s).
  rewrite gettoken_word by done. change (c_a =? 0) with false. change (c_a =? c_a) with true. cbn [negb].
  destruct (Nat.leb_spec MAXARGS (S argc)); [lia|]. rewrite parseredirs_ws.
  destruct args as [|w2 args].
  - destruct (parseredirs_print rs s fuel Hrs) as (rl & Hp & He); [by apply peek_stop|rewrite length_app; lia|].
    cbn [pr_args fmap list_fmap concat app]. rewrite Hp. cbn [pbind].
    rewrite parseargs_stop by (done || lia). cbn. eexists _, _. split; [done|]. cbn.
    by rewrite word_of_token, app_nil_r, He.
  - destruct (IH fuel (S argc)) as (al & rl & Hp & Hw1 & Hr1); [lia|by left|rewrite !length_app; lia|].
    rewrite parseredirs_none; [|lia|].
    2: { rewrite pr_args_cons, <- !app_assoc. inversion Ha; subst. apply peek_word; [done|symbol_set]. }
    cbn [pbind]. rewrite Hp. cbn. eexists _, _. split; [done|]. cbn. by rewrite word_of_token, Hw1.
Qed.

(** *** The four levels of the grammar

    [a] read back at each level, from text followed by [s]; the fuel is that of
    the termination proof. *)
Definition reads_exec (a : acmd) : Prop := forall rs s fuel,
  Forall (fun r => word_ok (snd r)) rs -> follow stops s ->
  (4 * length (pr a MExec ++ pr_redirs rs ++ s) + 2 <= fuel)%nat ->
  exists c, parseexec fuel (pr a MExec ++ pr_redirs rs ++ s) = Ok (c, s) /\ erase c = awrap rs a.

Definition reads_pipe (a : acmd) : Prop := forall s fuel,
  follow [c_rp; c_amp; c_semi] s -> (4 * length (pr a MPipe ++ s) + 3 <= fuel)%nat ->
  exists c, parsepipe fuel (pr a MPipe ++ s) = Ok (c, s) /\ erase c = a.

Definition reads_back (a : acmd) : Prop := forall s fuel,
  follow [c_rp; c_amp; c_semi] s -> (4 * length (pr a MBack ++ s) + 3 <= fuel)%nat ->
  exists c c0 s0, parsepipe fuel (pr a MBack ++ s) = Ok (c0, s0) /\ erase c = a /\
    forall g, (length s0 < g)%nat -> exists g', (length s < g')%nat /\ parsebacks g c0 s0 = parsebacks g' c s.

Definition reads_line (a : acmd) : Prop := forall s fuel,
  follow [c_rp] s -> (4 * length (pr a MLine ++ s) + 4 <= fuel)%nat ->
  exists c, parseline fuel (pr a MLine ++ s) = Ok (c, s) /\ erase c = a.

Lemma follow_stops set s : (forall c, c ∈ set -> c ∈ stops) -> follow set s -> follow stops s.
Proof. apply follow_sub. Qed.

Ltac follow_sub := match goal with H : follow _ ?s |- follow _ ?s => eapply follow_sub; [|exact H]; unfold stops; set_solver end.

Lemma peek_not t set s : (forall c, c ∈ set -> c ∈ stops) -> t ∉ set -> follow set s -> peek s [t] = (false, s).
Proof.
  intros H1 H2. apply peek_follow; [done|]. intros c Hc. rewrite in_set_cons, in_set_nil, orb_false_r.
  apply Z.eqb_neq. by intros ->.
Qed.

(** A symbol in front of the rest, taken with peek() and gettoken(). *)
Lemma peek_take c s toks : in_set [c_bar; c_lp; c_rp; c_semi; c_amp] c = true ->
  peek (c :: 32 :: s) toks = (in_set toks c, c :: 32 :: s) /\
  gettoken (c :: 32 :: s) = (c, c :: 32 :: s, 32 :: s, skip_ws s).
Proof.
  intros Hc. assert (c ∈ [c_bar; c_lp; c_rp; c_semi; c_amp]) as He.
  { unfold in_set in Hc. apply existsb_exists in Hc as (x & Hx & Heq). apply Z.eqb_eq in Heq as ->.
    by apply list_elem_of_In. }
  split.
  - apply peek_sym. rewrite !elem_of_cons, elem_of_nil in He. intuition (subst; done).
  - apply gettoken_sym. rewrite !elem_of_cons, elem_of_nil in He. intuition (subst; done).
Qed.

Lemma exec_simple args : awf (AExec args) -> reads_exec (AExec args).
Proof.
  intros [Ha Hn] rs s fuel Hrs Hs Hf. cbn [pr] in *. destruct fuel as [|fuel]; [lia|]. cbn [parseexec].
  destruct args as [|w args].
  - cbn [pr_args fmap list_fmap concat app] in *.
    destruct (parseredirs_print rs s fuel Hrs) as (rl & Hp & He); [by apply peek_stop|lia|].
    assert (peek (pr_redirs rs ++ s) [c_lp] = (false, pr_redirs rs ++ s)) as ->.
    { destruct rs as [|[k f] rs]; [eapply (peek_not _ stops); [done| |done]; unfold stops; set_solver|].
      rewrite pr_redirs_cons. unfold pr_redir. rewrite <- !app_assoc. by destruct k. }
    rewrite Hp. cbn [pbind]. rewrite parseargs_stop by (done || lia). cbn [pbind]. eexists. split; [done|].
    by rewrite app_nil_r, erase_wrap, He.
  - destruct (parseargs_print (w :: args) rs s fuel 0) as (al & rl & Hp & Hw1 & Hr1); try done; [by left|lia|].
    inversion_clear Ha as [|? ? Hw Ha']. rewrite pr_args_cons, <- !app_assoc in *.
    rewrite peek_word by (done || symbol_set).
    rewrite parseredirs_none; [|lia|by apply peek_word; [|symbol_set]]. cbn [pbind]. rewrite Hp. cbn [pbind].
    eexists. split; [done|]. by rewrite app_nil_l, erase_wrap, Hr1; cbn; rewrite Hw1.
Qed.

Lemma exec_redir a k w : word_ok w -> reads_exec a -> reads_exec (ARedir a k w).
Proof.
  intros Hw IH rs s fuel Hrs Hs Hf. cbn [pr] in *. rewrite <- !app_assoc in *.
  specialize (IH ((k, w) :: rs) s fuel). rewrite pr_redirs_cons, <- !app_assoc in IH.
  destruct IH as (c & Hp & He); [by constructor|done|done|]. exists c. split; [exact Hp|exact He].
Qed.

(** A command in parentheses. *)
Lemma exec_block a : pr a MExec = paren (pr a MLine) -> reads_line a -> reads_exec a.
Proof.
  intros Hpr IH rs s fuel Hrs Hs Hf. rewrite Hpr in *. unfold paren in *. rewrite <- !app_assoc in *.
  rewrite !length_app in Hf. cbn [app length] in *. do 2 (destruct fuel as [|fuel]; [lia|]).
  destruct (peek_take c_lp (pr a MLine ++ c_rp :: 32 :: pr_redirs rs ++ s) [c_lp] eq_refl) as [Hp Hg].
  destruct (IH (c_rp :: 32 :: pr_redirs rs ++ s) fuel) as (c & Hl & He).
  { cbn. set_solver. } { rewrite length_app. cbn [length]. rewrite !length_app. lia. }
  cbn [parseexec]. rewrite Hp. change (in_set [c_lp] c_lp) with true.
  cbn [parseblock]. rewrite Hp. change (in_set [c_lp] c_lp) with true. cbn [negb]. rewrite Hg, parseline_ws, Hl.
  cbn [pbind]. destruct (peek_take c_rp (pr_redirs rs ++ s) [c_rp] eq_refl) as [-> ->].
  change (in_set [c_rp] c_rp) with true. cbn [negb]. rewrite parseredirs_ws.
  destruct (parseredirs_print rs s fuel Hrs) as (rl & Hr & Her); [by apply peek_stop|rewrite length_app; lia|].
  rewrite Hr. cbn [pbind]. eexists. split; [done|]. by rewrite erase_wrap, Her, He.
Qed.

Lemma pipe_of_exec a : pr a MPipe = pr a MExec -> reads_exec a -> reads_pipe a.
Proof.
  intros Hpr IH s fuel Hs Hf. rewrite Hpr in *. destruct fuel as [|fuel]; [lia|].
  destruct (IH [] s fuel) as (c & Hp & He); [done|follow_sub|cbn [pr_redirs fmap list_fmap concat app]; lia|].
  cbn [pr_redirs fmap list_fmap concat app] in Hp. cbn [parsepipe]. rewrite Hp. cbn [pbind].
  rewrite (peek_not _ [c_rp; c_amp; c_semi]) by (done || unfold stops; set_solver). by exists c.
Qed.

Lemma pipe_pipe l r : reads_exec l -> reads_pipe r -> reads_pipe (APipe l r).
Proof.
  intros IHl IHr s fuel Hs Hf. cbn [pr] in *. rewrite <- !app_assoc in *. cbn [app] in *.
  rewrite length_app in Hf. cbn [length] in Hf. destruct fuel as [|fuel]; [lia|].
  destruct (IHl [] (c_bar :: 32 :: pr r MPipe ++ s) fuel) as (c & Hp & He); [done|cbn; unfold stops; set_solver| |].
  { cbn [pr_redirs fmap list_fmap concat app]. rewrite length_app. cbn [length]. lia. }
  cbn [pr_redirs fmap list_fmap concat app] in Hp. cbn [parsepipe]. rewrite Hp. cbn [pbind].
  destruct (peek_take c_bar (pr r MPipe ++ s) [c_bar] eq_refl) as [-> ->].
  change (in_set [c_bar] c_bar) with true. cbn match. rewrite parsepipe_ws.
  destruct (IHr s fuel) as (c2 & Hp2 & He2); [done|lia|]. rewrite Hp2. cbn [pbind].
  eexists. split; [done|]. cbn. by rewrite He, He2.
Qed.

Lemma back_of_pipe a : pr a MBack = pr a MPipe -> reads_pipe a -> reads_back a.
Proof.
  intros Hpr IH s fuel Hs Hf. rewrite Hpr in *. destruct (IH s fuel Hs Hf) as (c & Hp & He).
  exists c, c, s. split; [done|]. split; [done|]. intros g Hg. by exists g.
Qed.

Lemma back_back a : reads_back a -> reads_back (ABack a).
Proof.
  intros IH s fuel Hs Hf. cbn [pr] in *. rewrite <- !app_assoc in *. cbn [app] in *.
  destruct (IH (c_amp :: 32 :: s) fuel) as (c & c0 & s0 & Hp & He & Hb); [cbn; set_solver|done|].
  exists (backcmd c), c0, s0. split; [done|]. split; [by cbn; rewrite He|]. intros g Hg.
  destruct (Hb g Hg) as (g1 & Hg1 & ->). destruct g1 as [|g1]; [lia|]. exists g1. cbn [length] in Hg1.
  split; [lia|]. cbn [parsebacks]. destruct (peek_take c_amp s [c_amp] eq_refl) as [-> ->].
  change (in_set [c_amp] c_amp) with true. cbn match. by rewrite parsebacks_ws.
Qed.

(** The part of parseline() before the semicolon. *)
Lemma line_back a s fuel : reads_back a -> follow [c_rp; c_semi] s ->
  (4 * length (pr a MBack ++ s) + 3 <= fuel)%nat ->
  exists c c0 s0, parsepipe fuel (pr a MBack ++ s) = Ok (c0, s0) /\ parsebacks fuel c0 s0 = Ok (c, s) /\ erase c = a.
Proof.
  intros IH Hs Hf. destruct (IH s fuel) as (c & c0 & s0 & Hp & He & Hb); [follow_sub|done|].
  exists c, c0, s0. split; [done|]. split; [|done]. destruct (parser_ended fuel) as (_ & Hend & _).
  specialize (Hend _ Hf). rewrite Hp in Hend. cbn in Hend.
  destruct (Hb fuel) as (g & Hg & ->); [lia|]. destruct g as [|g]; [lia|]. cbn [parsebacks].
  by rewrite (peek_not _ [c_rp; c_semi]) by (done || unfold stops; set_solver).
Qed.

Lemma line_of_back a : pr a MLine = pr a MBack -> reads_back a -> reads_line a.
Proof.
  intros Hpr IH s fuel Hs Hf. rewrite Hpr in *. destruct fuel as [|fuel]; [lia|]. cbn [parseline].
  destruct (line_back a s fuel IH) as (c & c0 & s0 & Hp & Hb & He); [follow_sub|lia|].
  rewrite Hp. cbn [pbind]. rewrite Hb. cbn [pbind].
  rewrite (peek_not _ [c_rp]) by (done || unfold stops; set_solver). by exists c.
Qed.

Lemma line_list l r : reads_back l -> reads_line r -> reads_line (AList l r).
Proof.
  intros IHl IHr s fuel Hs Hf. cbn [pr] in *. rewrite <- !app_assoc in *. cbn [app] in *.
  rewrite length_app in Hf. cbn [length] in Hf. destruct fuel as [|fuel]; [lia|]. cbn [parseline].
  destruct (line_back l (c_semi :: 32 :: pr r MLine ++ s) fuel IHl) as (c & c0 & s0 & Hp & Hb & He).
  { cbn. set_solver. } { rewrite length_app. cbn [length]. lia. }
  rewrite Hp. cbn [pbind]. rewrite Hb. cbn [pbind].
  destruct (peek_take c_semi (pr r MLine ++ s) [c_semi] eq_refl) as [-> ->].
  change (in_set [c_semi] c_semi) with true. cbn match. rewrite parseline_ws.
  destruct (IHr s fuel) as (c2 & Hp2 & He2); [done|lia|]. rewrite Hp2. cbn [pbind].
  eexists. split; [done|]. cbn. by rewrite He, He2.
Qed.

Lemma parser_reads a : awf a -> reads_exec a /\ reads_pipe a /\ reads_back a /\ reads_line a.
Proof.
  induction a as [args|a IH k w|l IHl r IHr|l IHl r IHr|a IH]; intros Hwf.
  - assert (reads_exec (AExec args)) as He by by apply exec_simple.
    assert (reads_pipe (AExec args)) as Hp by by apply pipe_of_exec.
    assert (reads_back (AExec args)) as Hb by by apply back_of_pipe. auto using line_of_back.
  - destruct Hwf as [Ha Hw]. destruct (IH Ha) as (IHe & _).
    assert (reads_exec (ARedir a k w)) as He by by apply exec_redir.
    assert (reads_pipe (ARedir a k w)) as Hp by by apply pipe_of_exec.
    assert (reads_back (ARedir a k w)) as Hb by by apply back_of_pipe. auto using line_of_back.
  - destruct Hwf as [Hl Hr]. destruct (IHl Hl) as (IHe & _), (IHr Hr) as (_ & IHp & _).
    assert (reads_pipe (APipe l r)) as Hp by by apply pipe_pipe.
    assert (reads_back (APipe l r)) as Hb by by apply back_of_pipe.
    assert (reads_line (APipe l r)) as Hli by by apply line_of_back. auto using exec_block.
  - destruct Hwf as [Hl Hr]. destruct (IHl Hl) as (_ & _ & IHb & _), (IHr Hr) as (_ & _ & _ & IHli).
    assert (reads_line (AList l r)) as Hli by by apply line_list.
    assert (reads_exec (AList l r)) as He by by apply exec_block.
    assert (reads_pipe (AList l r)) as Hp by by apply pipe_of_exec. auto using back_of_pipe.
  - destruct (IH Hwf) as (_ & _ & IHb & _).
    assert (reads_back (ABack a)) as Hb by by apply back_back.
    assert (reads_line (ABack a)) as Hli by by apply line_of_back.
    assert (reads_exec (ABack a)) as He by by apply exec_block. auto using pipe_of_exec.
Qed.

Lemma parse_print a : awf a -> exists c buf, parsecmd (print_cmd a) = Ok (c, buf) /\ erase c = a.
Proof.
  intros Ha. destruct (parser_reads a Ha) as (_ & _ & _ & Hl). unfold parsecmd, print_cmd, parse_fuel.
  destruct (Hl [] (4 * length (pr a MLine) + 4)%nat) as (c & Hp & He); [done|by rewrite app_nil_r|].
  rewrite app_nil_r in Hp. rewrite Hp. cbn. eauto.
Qed.

(** [parse_roundtrip]: every command can be written and is read back as itself:
    for each command whose words are printable and which has fewer than MAXARGS
    arguments, parsecmd() on its text returns that command: the words, the order and
    kind of the redirections, and the precedence of parentheses over | over & over ;. *)
Theorem parse_roundtrip a : awf a -> exists c buf, parsecmd (print_cmd a) = Ok (c, buf) /\ erase c = a.
Proof. apply parse_print. Qed.

(** (ls < d & ; echo hi) | grep x y >> out *)
Definition sample_cmd : acmd :=
  APipe (AList (ABack (ARedir (AExec [[108; 115]]) RIn [100])) (AExec [[101; 99; 104; 111]; [104; 105]]))
    (ARedir (AExec [[103; 114; 101; 112]; [120]; [121]]) RApp [111; 117; 116]).

Lemma parse_roundtrip_witness :
  awf sample_cmd /\ exists c buf, parsecmd (print_cmd sample_cmd) = Ok (c, buf) /\ erase c = sample_cmd.
Proof.
  assert (awf sample_cmd) as H; [|split; [exact H|exact (parse_roundtrip sample_cmd H)]].
  cbn; repeat split; repeat constructor; done.
Defined.
