(* ===== verification/Shrun.v ===== *)
(** * Shrun: the shell's command runner and its main loop (user/sh.c)

    A child process of the shell parses the line and walks the command tree with
    runcmd(), forking a process for each program and arranging its descriptors.  An
    argument is a pointer into the buffer of the line; its text is what is there up
    to the first NUL, which nulterminate() put at the end of every word.

    The processes that a line makes are a tree ([ptree]): a fork has two branches,
    and a path ends with an exec or an exit.  [grow] is that tree for a program, against
    a kernel with the descriptor array of a process; [plumb] is the tree the abstract
    command stands for, and the theorems equate the two. *)

From Stdlib Require Import ZArith Lia Ascii String.
From stdpp Require Import base gmap list strings.
From S2P Require Import Prelude Bytes State Mem Printf Fcntl Usys Uprogs Sh.

(** ** sh.c *)

Definition sh_panic {A} (s : string) : prog A := fprintf 2 (with_arg "") [AStr (Some (str s))];; exit_ 1.

Definition fork1 : prog Z :=
  pid ← sys Fork;
  if pid =? -1 then sh_panic "fork" else Done pid.

(** The text at the pointer [q] into a line of [n] bytes, in the buffer [buf]. *)
Definition text_at (n : nat) (buf : list Z) (q : ptr) : list Z := cstr (drop (n - length q) buf).

Section runcmd.
Context (n : nat) (buf : list Z).

Fixpoint runcmd (c : cmd) : prog unit :=
  match c with
  | EXEC argv =>
      match argv with
      | [] => exit_ 1
      | (argv0, _) :: _ =>
          sys (Usys.Exec (text_at n buf argv0) ((fun qe => text_at n buf (fst qe)) <$> argv));;
          fprintf 2 (str "exec %s failed" ++ [nl]) [AStr (Some (text_at n buf argv0))];;
          exit_ 0
      end
  | REDIR c file _ mode fd =>
      sys (Close fd);;
      r ← sys (Open (text_at n buf file) mode);
      if r <? 0 then fprintf 2 (str "open %s failed" ++ [nl]) [AStr (Some (text_at n buf file))];; exit_ 1 else
      runcmd c;;
      exit_ 0
  | LIST lc rc =>
      pid ← fork1;
      (if pid =? 0 then runcmd lc else Done tt);;
      sys Wait;;
      runcmd rc;;
      exit_ 0
  | PIPE lc rc =>
      r ← sys Pipe;
      match r with
      | None => sh_panic "pipe"
      | Some (p0, p1) =>
          pid ← fork1;
          (if pid =? 0 then
             sys (Close 1);;
             sys (Dup p1);;
             sys (Close p0);;
             sys (Close p1);;
             runcmd lc
           else Done tt);;
          pid ← fork1;
          (if pid =? 0 then
             sys (Close 0);;
             sys (Dup p0);;
             sys (Close p0);;
             sys (Close p1);;
             runcmd rc
           else Done tt);;
          sys (Close p0);;
          sys (Close p1);;
          sys Wait;;
          sys Wait;;
          exit_ 0
      end
  | BACK c =>
      pid ← fork1;
      (if pid =? 0 then runcmd c else Done tt);;
      exit_ 0
  end.
End runcmd.

(** The characters of the next line, or [None] at the end of the input. *)
Definition getcmd (nbuf : Z) : prog (option (list Z)) :=
  sys (Write 2 (str "$ "));;
  line ← gets_ nbuf;
  if deref line =? 0 then Done None else Done (Some line).

(** runcmd(parsecmd(s)), with what parsecmd() says of a line it cannot parse. *)
Definition run_line (s : ptr) : prog unit :=
  match parsecmd s with
  | Ok (c, buf) => runcmd (length s) buf c
  | Err msg =>
      (match parseline (parse_fuel s) s with
       | Ok (_, rest) => fprintf 2 (str "leftovers: %s" ++ [nl]) [AStr (Some (skip_ws rest))]
       | _ => Done tt
       end);;
      sh_panic msg
  | OutOfFuel => Starved
  end.

(** buf[0] == 'c' && buf[1] == 'd' && buf[2] == ' ' *)
Definition is_cd (s : list Z) : bool :=
  (nth 0 s 0 =? chr "c") && (nth 1 s 0 =? chr "d") && (nth 2 s 0 =? chr " ").

Definition sh_body (_ : unit) : prog (unit + unit) :=
  r ← getcmd 100;
  match r with
  | None => Done (inr tt)
  | Some line =>
      let s := cstr line in
      if is_cd s then
        let dir := drop 3 (take (length s - 1) s) in
        r ← sys (Chdir dir);
        (if r <? 0 then fprintf 2 (str "cannot cd %s" ++ [nl]) [AStr (Some dir)] else Done tt);;
        Done (inl tt)
      else
        pid ← fork1;
        (if pid =? 0 then run_line s else Done tt);;
        sys Wait;;
        Done (inl tt)
  end.

Definition sh_open (_ : unit) : prog (unit + unit) :=
  fd ← sys (Open (str "console") O_RDWR);
  if 0 <=? fd then (if 3 <=? fd then sys (Close fd);; Done (inr tt) else Done (inl tt))
  else Done (inr tt).

Definition sh_main (fuel : nat) : prog unit :=
  ploop fuel sh_open tt;;
  ploop fuel sh_body tt;;
  exit_ 0.

(** ** The words of a parsed line

    Every pointer pair of the command tree delimits a word of the line [L]: it holds
    only characters of words, and what follows it is none. *)

Definition kind_mode (k : rkind) : Z :=
  match k with
  | RIn => O_RDONLY
  | ROut => Z.lor (Z.lor O_WRONLY O_CREATE) O_TRUNC
  | RApp => Z.lor O_WRONLY O_CREATE
  end.
Definition kind_fd (k : rkind) : Z := match k with RIn => 0 | _ => 1 end.

Definition ends (e : ptr) : Prop := match e with [] => True | c :: _ => ~ word_char c end.

Section words.
Context (L : list Z) (L_ok : Forall (fun c => c <> 0) L).

Definition tok_ok (qe : ptr * ptr) : Prop := exists w,
  fst qe = w ++ snd qe /\ fst qe `suffix_of` L /\ Forall word_char w /\ ends (snd qe).

Definition redir_ok (r : redir) : Prop :=
  tok_ok (r_file r, r_efile r) /\ exists k, r_mode r = kind_mode k /\ r_fd r = kind_fd k.

Fixpoint cmd_ok (c : cmd) : Prop :=
  match c with
  | EXEC argv => Forall tok_ok argv
  | REDIR c file efile mode fd => cmd_ok c /\ redir_ok (mkRedir file efile mode fd)
  | PIPE l r => cmd_ok l /\ cmd_ok r
  | LIST l r => cmd_ok l /\ cmd_ok r
  | BACK c => cmd_ok c
  end.

(** A parse that succeeds gives something [P], and a pointer into the line. *)
Definition good {A} (P : A -> Prop) (r : parsed (A * ptr)) : Prop :=
  match r with
  | Ok (a, s) => P a /\ s `suffix_of` L
  | _ => True
  end.

Lemma good_bind {A B} P (Q : B -> Prop) (r : parsed (A * ptr)) (f : A * ptr -> parsed (B * ptr)) : good P r ->
  (forall a s, P a -> s `suffix_of` L -> good Q (f (a, s))) -> good Q (Sh.pbind r f).
Proof. destruct r as [[a s]| |]; cbn; [intros []|..]; auto. Qed.

Lemma skip_ws_suffix s : skip_ws s `suffix_of` s.
Proof. induction s as [|c s IH]; cbn; [done|]. destruct (in_set _ _); [by apply suffix_cons_r|done]. Qed.

Lemma peek_suffix s toks b s' : peek s toks = (b, s') -> s' `suffix_of` s.
Proof. intros [= _ <-]. apply skip_ws_suffix. Qed.

Lemma skip_word_split s : Forall (fun c => c <> 0) s ->
  exists w, s = w ++ skip_word s /\ Forall word_char w /\ ends (skip_word s).
Proof.
  induction 1 as [|c s Hc Hs (w & E & Hw & He)]; [by exists []|]. cbn.
  destruct (in_set whitespace c) eqn:E1; cbn [negb andb]; [exists []; split_and!; [done..|intros (_ & H & _); congruence]|].
  destruct (in_set symbols c) eqn:E2; cbn [negb andb]; [exists []; split_and!; [done..|intros (_ & _ & H); congruence]|].
  exists (c :: w). split_and!; [by cbn; f_equal|by constructor|done].
Qed.

Lemma tl_suffix (s : ptr) : tl s `suffix_of` s.
Proof. destruct s; [done|]. by apply suffix_cons_r. Qed.

(** The pointers of gettoken(), and its words. *)
Lemma gettoken_ok s tok q eq s' : s `suffix_of` L -> gettoken s = (tok, q, eq, s') ->
  s' `suffix_of` L /\ (tok = c_a -> tok_ok (q, eq)).
Proof using L_ok.
  intros Hs. unfold gettoken. pose proof (skip_ws_suffix s) as Hq. set (qq := skip_ws s) in *. clearbody qq.
  assert (qq `suffix_of` L) as Hqq by by transitivity s. clear Hs Hq.
  assert (Forall (fun c => c <> 0) qq) as Hz by (destruct Hqq as [pre ->]; by apply Forall_app in L_ok as [_ ?]).
  assert (forall e, e `suffix_of` qq -> skip_ws e `suffix_of` L) as Hend.
  { intros e He. transitivity e; [apply skip_ws_suffix|]. by transitivity qq. }
  destruct (Z.eqb_spec (deref qq) 0) as [E0|E0].
  { intros [= <- <- <- <-]. split; [by apply Hend|done]. }
  destruct (in_set _ (deref qq)) eqn:E1.
  { intros [= <- <- <- <-]. split; [apply Hend, tl_suffix|]. intros E. rewrite E in E1. done. }
  destruct (_ =? c_gt).
  { destruct (_ =? c_gt); intros [= <- <- <- <-]; (split; [apply Hend|done]); [|apply tl_suffix].
    transitivity (tl qq); apply tl_suffix. }
  destruct (skip_word_split qq Hz) as (w & E & Hw & He). intros [= <- <- <- <-]. split; [|intros _; by exists w].
  apply Hend. exists w. exact E.
Qed.

Ltac peek_step H := match goal with |- context [peek ?x ?ts] =>
  let b := fresh "b" in let s := fresh "s" in
  destruct (peek x ts) as [b s] eqn:H; apply peek_suffix in H; assert (s `suffix_of` L) by (by transitivity x) end.
Ltac token_step H := match goal with |- context [gettoken ?x] =>
  let t := fresh "t" in let q := fresh "q" in let e := fresh "e" in let s := fresh "s" in
  destruct (gettoken x) as [[[t q] e] s] eqn:H; apply gettoken_ok in H; [|done]; destruct H as [? H] end.

Lemma parseredirs_good fuel s : s `suffix_of` L -> good (Forall redir_ok) (parseredirs fuel s).
Proof using L_ok.
  revert s. induction fuel as [|fuel IH]; intros s Hs; [done|]. cbn [parseredirs]. peek_step Hp.
  destruct b; [|by split]. token_step Ht. token_step Ht2. destruct (Z.eqb_spec t0 c_a) as [E|]; [|done].
  specialize (Ht2 E). cbn [negb]. eapply good_bind; [by apply IH|]. intros rs s4 Hrs Hs4.
  repeat case_match; (split; [|done]); (try done); (constructor; [split; [done|]|done]).
  - by exists RIn.
  - by exists ROut.
  - by exists RApp.
Qed.

Lemma parseargs_good fuel argc s : s `suffix_of` L ->
  good (fun ar => Forall tok_ok (fst ar) /\ Forall redir_ok (snd ar)) (parseargs fuel argc s).
Proof using L_ok.
  revert argc s. induction fuel as [|fuel IH]; intros argc s Hs; [done|]. cbn [parseargs]. peek_step Hp.
  destruct b; [by split|]. token_step Ht. destruct (t =? 0); [by split|].
  destruct (Z.eqb_spec t c_a) as [E|]; [|done]. specialize (Ht E). cbn [negb]. destruct (_ <=? _)%nat; [done|].
  eapply good_bind; [by apply parseredirs_good|]. intros rs s4 Hrs Hs4.
  eapply good_bind; [by apply IH|]. intros [args rs'] s5 [Ha Hr] Hs5. split; [|done]. cbn in *.
  split; [by constructor|by apply Forall_app].
Qed.

Lemma parsebacks_good fuel c s : s `suffix_of` L -> cmd_ok c -> good cmd_ok (parsebacks fuel c s).
Proof using L_ok.
  revert c s. induction fuel as [|fuel IH]; intros c s Hs Hc; [done|]. cbn [parsebacks]. peek_step Hp.
  destruct b; [|by split]. token_step Ht. by apply IH.
Qed.

Lemma wrap_ok rs c : Forall redir_ok rs -> cmd_ok c -> cmd_ok (wrap rs c).
Proof.
  intros Hrs. revert c. induction Hrs as [|r rs Hr Hrs IH]; intros c Hc; [done|]. apply IH. split; [done|]. by destruct r.
Qed.

Lemma parser_good fuel :
  (forall s, s `suffix_of` L -> good cmd_ok (parseline fuel s)) /\
  (forall s, s `suffix_of` L -> good cmd_ok (parsepipe fuel s)) /\
  (forall s, s `suffix_of` L -> good cmd_ok (parseblock fuel s)) /\
  (forall s, s `suffix_of` L -> good cmd_ok (parseexec fuel s)).
Proof using L_ok.
  induction fuel as [|fuel (IHl & IHp & IHb & IHe)]; [done|]. split_and!; intros s Hs.
  - cbn [parseline]. eapply good_bind; [by apply IHp|]. intros c s1 Hc Hs1.
    eapply good_bind; [by apply parsebacks_good|]. intros c2 s2 Hc2 Hs2. peek_step Hp.
    destruct b; [|by split]. token_step Ht. eapply good_bind; [by apply IHl|]. by intros.
  - cbn [parsepipe]. eapply good_bind; [by apply IHe|]. intros c s1 Hc Hs1. peek_step Hp.
    destruct b; [|by split]. token_step Ht. eapply good_bind; [by apply IHp|]. by intros.
  - cbn [parseblock]. peek_step Hp. destruct b; [|done]. cbn [negb]. token_step Ht.
    eapply good_bind; [by apply IHl|]. intros c s3 Hc Hs3. peek_step Hp2. destruct b; [|done]. cbn [negb]. token_step Ht2.
    eapply good_bind; [by apply parseredirs_good|]. intros rs s6 Hrs Hs6. split; [by apply wrap_ok|done].
  - cbn [parseexec]. peek_step Hp. destruct b; [by apply IHb|].
    eapply good_bind; [by apply parseredirs_good|]. intros rs s2 Hrs Hs2.
    eapply good_bind; [by apply parseargs_good|]. intros [args rs'] s3 [Ha Hr] Hs3. split; [|done]. cbn in *.
    apply wrap_ok; [by apply Forall_app|done].
Qed.

(** *** nulterminate() ends each word where it ends in the line *)

(** The buffer still has the words of the line. *)
Definition keeps (buf : list Z) : Prop := length buf = S (length L) /\ forall i c, L !! i = Some c -> word_char c -> buf !! i = Some c.

(** A word ends with a NUL in the buffer. *)
Definition ended_at (buf : list Z) (e : ptr) : Prop := buf !! (length L - length e)%nat = Some 0.

Lemma tok_end qe : tok_ok qe -> forall c, L !! (length L - length (snd qe))%nat = Some c -> ~ word_char c.
Proof.
  intros (w & E & [pre HL] & Hw & He) c Hc. rewrite HL, E, app_assoc in Hc. rewrite !length_app in Hc.
  rewrite lookup_app_r in Hc by (rewrite length_app; lia). rewrite length_app in Hc.
  replace (length pre + length w + length (snd qe) - length (snd qe) - (length pre + length w))%nat with 0%nat in Hc by lia.
  destruct (snd qe) as [|x e]; [done|]. assert (x = c) as <- by (by injection Hc). exact He.
Qed.

Lemma nul_one buf qe : tok_ok qe -> keeps buf ->
  keeps (<[(length L - length (snd qe))%nat := 0]> buf) /\ ended_at (<[(length L - length (snd qe))%nat := 0]> buf) (snd qe) /\
  (forall e, ended_at buf e -> ended_at (<[(length L - length (snd qe))%nat := 0]> buf) e).
Proof.
  intros Ht [Hl Hk]. split_and!.
  - split; [by rewrite length_insert|]. intros i c Hi Hc. rewrite list_lookup_insert_ne; [by apply Hk|].
    intros <-. by apply (tok_end qe Ht c).
  - unfold ended_at. apply list_lookup_insert_eq. lia.
  - unfold ended_at. intros e He. rewrite list_lookup_insert. by case_decide.
Qed.

Fixpoint cmd_ended (buf : list Z) (c : cmd) : Prop :=
  match c with
  | EXEC argv => Forall (fun qe => ended_at buf (snd qe)) argv
  | REDIR c _ efile _ _ => cmd_ended buf c /\ ended_at buf efile
  | PIPE l r => cmd_ended buf l /\ cmd_ended buf r
  | LIST l r => cmd_ended buf l /\ cmd_ended buf r
  | BACK c => cmd_ended buf c
  end.

Definition later (buf buf' : list Z) : Prop := keeps buf' /\ forall e, ended_at buf e -> ended_at buf' e.

Lemma cmd_ended_later buf buf' c : later buf buf' -> cmd_ended buf c -> cmd_ended buf' c.
Proof.
  intros [_ Hm]. induction c as [argv|c IH q e mode fd|l IHl r IHr|l IHl r IHr|c IH]; cbn; [|naive_solver..].
  intros H. eapply Forall_impl; [exact H|]. eauto.
Qed.

Lemma later_trans b1 b2 b3 : later b1 b2 -> later b2 b3 -> later b1 b3.
Proof. intros [_ H1] [H2 H3]. split; auto. Qed.

Lemma nul_args argv buf : Forall tok_ok argv -> keeps buf ->
  let buf' := foldl (fun b qe => <[(length L - length (snd qe))%nat := 0]> b) buf argv in
  later buf buf' /\ Forall (fun qe => ended_at buf' (snd qe)) argv.
Proof.
  intros Ha. revert buf. induction Ha as [|qe argv Hq Ha IH]; intros buf Hk; [split; [split; [exact Hk|done]|constructor]|]. cbn [foldl].
  destruct (nul_one buf qe Hq Hk) as (Hk1 & He1 & Hm1). destruct (IH _ Hk1) as ([Hk2 Hm2] & He2).
  split; [split; auto|]. constructor; auto.
Qed.

Lemma nulterminate_ok c buf : cmd_ok c -> keeps buf ->
  later buf (nulterminate (length L) c buf) /\ cmd_ended (nulterminate (length L) c buf) c.
Proof.
  revert buf. induction c as [argv|c IH q e mode fd|l IHl r IHr|l IHl r IHr|c IH]; cbn; intros buf Hc Hk.
  - by apply nul_args.
  - destruct Hc as [Hc [Ht _]]. destruct (IH buf Hc Hk) as [[Hk1 Hm1] He1].
    destruct (nul_one _ (q, e) Ht Hk1) as (Hk2 & He2 & Hm2). cbn in *.
    split; [split; auto|]. split; [|done]. eapply cmd_ended_later; [|exact He1]. by split.
  - destruct Hc as [Hl Hr]. destruct (IHl buf Hl Hk) as [[Hk1 Hm1] He1]. destruct (IHr _ Hr Hk1) as [[Hk2 Hm2] He2].
    split; [split; auto|]. split; [|done]. eapply cmd_ended_later; [|exact He1]. by split.
  - destruct Hc as [Hl Hr]. destruct (IHl buf Hl Hk) as [[Hk1 Hm1] He1]. destruct (IHr _ Hr Hk1) as [[Hk2 Hm2] He2].
    split; [split; auto|]. split; [|done]. eapply cmd_ended_later; [|exact He1]. by split.
  - by apply IH.
Qed.

Lemma cstr_word w rest : Forall word_char w -> cstr (w ++ 0 :: rest) = w.
Proof. induction 1 as [|c w [Hc _] _ IH]; [done|]. cbn. rewrite (proj2 (Z.eqb_neq c 0)) by done. by f_equal. Qed.

(** The C string at the start of a word is the word. *)
Lemma text_word buf qe : tok_ok qe -> keeps buf -> ended_at buf (snd qe) -> text_at (length L) buf (fst qe) = word_of qe.
Proof.
  intros (w & E & [pre HL] & Hw & He) [Hl Hk] Hn. unfold text_at, word_of, ended_at in *. rewrite E in HL |- *.
  rewrite length_app. replace (length w + length (snd qe) - length (snd qe))%nat with (length w) by lia.
  rewrite take_app_length. assert (length L = length pre + length w + length (snd qe))%nat as HLl by (rewrite HL, !length_app; lia).
  rewrite HLl in *. replace (_ - _)%nat with (length pre) by lia.
  replace (length pre + length w + length (snd qe) - length (snd qe))%nat with (length pre + length w)%nat in Hn by lia.
  assert (drop (length pre) buf = w ++ 0 :: drop (S (length pre + length w)) buf) as ->; [|by apply cstr_word].
  rewrite <- (take_drop (length w) (drop (length pre) buf)), drop_drop. f_equal.
  - apply list_eq. intros i. destruct (decide (i < length w)%nat) as [Hi|Hi].
    + rewrite lookup_take_lt, lookup_drop by lia. destruct (lookup_lt_is_Some_2 w i Hi) as [c Hc]. rewrite Hc. apply Hk.
      * rewrite HL, lookup_app_r by lia. replace (length pre + i - length pre)%nat with i by lia. by rewrite lookup_app_l.
      * by apply (Forall_lookup_1 _ _ _ _ Hw Hc).
    + rewrite lookup_take_ge by lia. symmetry. apply lookup_ge_None_2. lia.
  - apply drop_S. exact Hn.
Qed.

(** For a line that parses: its words, and their texts in the buffer. *)
Lemma parsecmd_words c buf : parsecmd L = Ok (c, buf) -> cmd_ok c /\ keeps buf /\ cmd_ended buf c.
Proof using L_ok.
  unfold parsecmd. destruct (parser_good (parse_fuel L)) as (Hl & _). specialize (Hl L ltac:(done)).
  destruct (parseline (parse_fuel L) L) as [[c' rest]| |]; cbn [Sh.pbind]; [|done..]. destruct Hl as [Hc _].
  destruct (peek rest []) as [b rest']. destruct (negb _); [done|]. intros [= <- <-].
  destruct (nulterminate_ok c' (L ++ [0]) Hc) as [[Hk _] He]; [|done].
  split; [rewrite length_app; cbn; lia|]. intros i x Hi _. by apply lookup_app_l_Some.
Qed.
End words.

(** ** The tree of processes *)

(** What a descriptor refers to: what the shell was started with, a file it opened,
    or an end of the pipe that the process at a place of the tree made. *)
Inductive obj : Type :=
| Std (i : nat)
| FileObj (path : list Z) (mode : Z)
| PipeR (p : list nat)
| PipeW (p : list nat).

(** A process: its descriptors, its place in the tree, and what its standard input
    still holds for it. *)
Record sproc : Type := mkSproc { sp_ofile : list (option obj); sp_at : list nat; sp_in : list Z }.

Inductive ptree : Type :=
| TExec (path : list Z) (argv : list (list Z)) (ofile : list (option obj))
| TExit (status : Z)
| TFork (child parent : ptree)
| TWait (t : ptree)
| TChdir (path : list Z) (t : ptree)
| TBroken.

Fixpoint fd_alloc (fds : list (option obj)) : option nat :=
  match fds with
  | [] => None
  | None :: _ => Some 0%nat
  | Some _ :: fds' => S <$> fd_alloc fds'
  end.
Definition fd_obj (fds : list (option obj)) (fd : Z) : option obj := if 0 <=? fd then mjoin (fds !! Z.to_nat fd) else None.

Section tree.
(** Which files can be opened, which programs executed, and the id of a child. *)
Context (openable : list Z -> Z -> bool) (runnable : list Z -> bool) (pid : Z).

Definition with_fds (fds : list (option obj)) (p : sproc) : sproc := mkSproc fds (sp_at p) (sp_in p).
Definition next_at (i : nat) (p : sproc) : sproc := mkSproc (sp_ofile p) (sp_at p ++ [i]) (sp_in p).

(** The lowest free descriptor for [o]. *)
Definition install (o : obj) (p : sproc) : option (Z * sproc) :=
  i ← fd_alloc (sp_ofile p); Some (Z.of_nat i, with_fds (<[i := Some o]> (sp_ofile p)) p).

Fixpoint grow {A} (m : prog A) (p : sproc) : ptree :=
  match m with
  | Done _ => TBroken
  | Exited s => TExit s
  | Stuck => TBroken
  | Starved => TBroken
  | @Call _ X c k =>
      match c in call X return (X -> sproc -> ptree) -> ptree with
      | Fork => fun g => TFork (g 0 (next_at 0 p)) (g pid (next_at 1 p))
      | Wait => fun g => TWait (g (pid, 0) p)
      | Usys.Pipe => fun g =>
          match install (PipeR (sp_at p)) p with
          | None => g None p
          | Some (fd0, p1) =>
              match install (PipeW (sp_at p)) p1 with
              | None => g None p
              | Some (fd1, p2) => g (Some (fd0, fd1)) p2
              end
          end
      | Write fd bs => fun g => g (Z.of_nat (length bs)) p
      | Close fd => fun g =>
          match fd_obj (sp_ofile p) fd with
          | None => g (-1) p
          | Some _ => g 0 (with_fds (<[Z.to_nat fd := None]> (sp_ofile p)) p)
          end
      | Usys.Exec path argv => fun g => if runnable path then TExec path argv (sp_ofile p) else g (-1) p
      | Open path mode => fun g =>
          if openable path mode then
            match install (FileObj path mode) p with
            | None => g (-1) p
            | Some (fd, p') => g fd p'
            end
          else g (-1) p
      | Chdir path => fun g => TChdir path (g 0 p)
      | Dup fd => fun g =>
          match fd_obj (sp_ofile p) fd with
          | None => g (-1) p
          | Some o => match install o p with None => g (-1) p | Some (fd', p') => g fd' p' end
          end
      | Read fd n => fun g =>
          g (Some (take (Z.to_nat n) (sp_in p))) (mkSproc (sp_ofile p) (sp_at p) (drop (Z.to_nat n) (sp_in p)))
      | Fstat _ => fun g => g None p
      | Kill _ => fun g => g (-1) p | Mknod _ _ _ => fun g => g (-1) p | Unlink _ => fun g => g (-1) p
      | Link _ _ => fun g => g (-1) p | Mkdir _ => fun g => g (-1) p | Getpid => fun g => g pid p
      | Sbrk _ => fun g => g (-1) p | Sleep _ => fun g => g 0 p | Uptime => fun g => g 0 p
      end (fun x p' => grow (k x) p')
  end.

(** ** What a command means *)

(** Descriptor [i] of the process is [o]. *)
Definition redirected (i : nat) (o : obj) (p : sproc) : sproc := with_fds (<[i := Some o]> (sp_ofile p)) p.

(** The processes of a command: a program runs with the descriptors of the shell but
    for its redirections and its ends of pipes; the parent of [l ; r] waits for [l]
    before [r], that of a pipeline waits for both sides, and that of [c &] for nothing. *)
Fixpoint plumb (a : acmd) (p : sproc) : ptree :=
  match a with
  | AExec [] => TExit 1
  | AExec (path :: args) => if runnable path then TExec path (path :: args) (sp_ofile p) else TExit 0
  | ARedir c k file =>
      if openable file (kind_mode k) then plumb c (redirected (Z.to_nat (kind_fd k)) (FileObj file (kind_mode k)) p) else TExit 1
  | AList l r => TFork (plumb l (next_at 0 p)) (TWait (plumb r (next_at 1 p)))
  | APipe l r =>
      TFork (plumb l (redirected 1 (PipeW (sp_at p)) (next_at 0 p)))
        (TFork (plumb r (redirected 0 (PipeR (sp_at p)) (next_at 0 (next_at 1 p))))
          (TWait (TWait (TExit 0))))
  | ABack c => TFork (plumb c (next_at 0 p)) (TExit 0)
  end.

(** Descriptors 0, 1 and 2 are open, the other 13 free. *)
Definition std (p : sproc) : Prop := exists a b c,
  sp_ofile p = [Some a; Some b; Some c] ++ replicate 13 None.

Lemma std_next i p : std p -> std (next_at i p).
Proof. done. Qed.

Lemma std_redirected i o p : (i < 3)%nat -> std p -> std (redirected i o p).
Proof.
  intros Hi (a & b & c & E). unfold std, redirected. cbn. rewrite E.
  destruct i as [|[|[|i]]]; [by exists o, b, c|by exists a, o, c|by exists a, b, o|lia].
Qed.

(** *** Programs that do not return, and programs that only print *)

Fixpoint noret {A} (m : prog A) : Prop :=
  match m with
  | Done _ => False
  | Call _ k => forall x, noret (k x)
  | _ => True
  end.

Lemma noret_bind_l {A B} (m : prog A) (f : A -> prog B) : noret m -> noret (m ≫= f).
Proof. induction m as [a|X c k IH|s| |]; intros H; [done| |done..]. intros x. apply IH, H. Qed.

Lemma noret_bind_r {A B} (m : prog A) (f : A -> prog B) : (forall a, noret (f a)) -> noret (m ≫= f).
Proof. intros H. induction m as [a|X c k IH|s| |]; [apply H| |done..]. intros x. apply IH. Qed.

Lemma grow_noret {A B} (m : prog A) (f : A -> prog B) p : noret m -> grow (m ≫= f) p = grow m p.
Proof.
  revert p. induction m as [a|X c k IH|s| |]; intros p H; [done| |done..].
  destruct c; cbn [grow mbind prog_bind bind_prog] in *; repeat case_match; (try done); repeat f_equal; by apply IH.
Qed.

Lemma grow_emits {A B} fd (m : prog A) (f : A -> prog B) a bs p : emits fd m a bs -> grow (m ≫= f) p = grow (f a) p.
Proof. induction 1; [done|]. done. Qed.

Lemma runcmd_noret n buf c : noret (runcmd n buf c).
Proof.
  induction c as [argv|c IH q e mode fd|l IHl r IHr|l IHl r IHr|c IH]; cbn [runcmd].
  - destruct argv as [|[q e] argv]; [done|]. apply noret_bind_r. intros _. by apply noret_bind_r.
  - apply noret_bind_r. intros _. apply noret_bind_r. intros x. destruct (x <? 0); [by apply noret_bind_r|by apply noret_bind_r].
  - apply noret_bind_r. intros [[p0 p1]|]; [|by apply noret_bind_r]. do 8 (apply noret_bind_r; intros ?). done.
  - do 4 (apply noret_bind_r; intros ?). done.
  - do 2 (apply noret_bind_r; intros ?). done.
Qed.

Hypothesis pid_pos : 0 < pid.

Lemma pid_tests : (pid =? 0) = false /\ (pid =? -1) = false.
Proof. split; apply Z.eqb_neq; lia. Qed.

(** fork1() in a tree: the child goes on with 0, the parent with the child's id. *)
Lemma grow_fork1 {A} (f : Z -> prog A) p : grow (fork1 ≫= f) p = TFork (grow (f 0) (next_at 0 p)) (grow (f pid) (next_at 1 p)).
Proof. destruct pid_tests as [_ H]. cbn. by rewrite H. Qed.

(** The child runs [m], which does not return; the parent skips it. *)
Lemma grow_fork_child {A} (m : prog unit) (rest : prog A) p : noret m ->
  grow (pid ← fork1; (if pid =? 0 then m else Done tt);; rest) p = TFork (grow m (next_at 0 p)) (grow rest (next_at 1 p)).
Proof. intros Hm. destruct pid_tests as [H _]. rewrite grow_fork1, H. cbn [Z.eqb]. by rewrite grow_noret. Qed.

Lemma fprintf_emits fd s1 s2 a : Forall (fun c => c <> chr "%") (str s1 ++ str s2) ->
  emits fd (fprintf fd (str s1 ++ str "%s" ++ str s2 ++ [nl]) [AStr (Some a)]) tt (str s1 ++ a ++ str s2 ++ [nl]).
Proof.
  intros [H1 H2]%Forall_app.
  assert (str s1 ++ str "%s" ++ str s2 ++ [nl] = format ((ILit <$> str s1) ++ IStr :: (ILit <$> str s2) ++ [ILit nl])) as ->.
  { rewrite format_lits. f_equal. change (format (IStr :: ?l)) with (str "%s" ++ format l). by rewrite format_lits. }
  assert (str s1 ++ a ++ str s2 ++ [nl] = urender ((ILit <$> str s1) ++ IStr :: (ILit <$> str s2) ++ [ILit nl]) [AStr (Some a)]) as ->.
  { rewrite urender_lits. f_equal. cbn [urender ushown arg_str rest_args tl]. f_equal. by rewrite urender_lits. }
  apply vprintf_run, Forall_app. split; [by apply Forall_fmap|]. constructor; [done|].
  apply Forall_app. split; [by apply Forall_fmap|]. by repeat constructor.
Qed.

Lemma close_fd {A} i o (f : Z -> prog A) p : sp_ofile p !! i = Some (Some o) ->
  grow (sys (Close (Z.of_nat i)) ≫= f) p = grow (f 0) (with_fds (<[i := None]> (sp_ofile p)) p).
Proof.
  intros H. cbn. unfold fd_obj. rewrite (proj2 (Z.leb_le _ _)) by lia. by rewrite Nat2Z.id, H.
Qed.

(** What runcmd() makes of a redirection and of the two sides of a pipe. *)
Lemma redir_fds k o p : std p ->
  fd_alloc (<[Z.to_nat (kind_fd k) := None]> (sp_ofile p)) = Some (Z.to_nat (kind_fd k)) /\
  exists o', sp_ofile p !! Z.to_nat (kind_fd k) = Some (Some o') /\
  <[Z.to_nat (kind_fd k) := Some o]> (<[Z.to_nat (kind_fd k) := None]> (sp_ofile p)) = <[Z.to_nat (kind_fd k) := Some o]> (sp_ofile p).
Proof. intros (a & b & c & ->). split; [by destruct k|]. destruct k; [exists a|exists b|exists b]; done. Qed.

Section one_command.
Context (L : list Z) (L_ok : Forall (fun c => c <> 0) L) (buf : list Z) (buf_ok : keeps L buf).

Lemma run_plumb c p : cmd_ok L c -> cmd_ended L buf c -> std p ->
  grow (runcmd (length L) buf c) p = plumb (erase c) p.
Proof using L_ok buf_ok pid_pos.
  revert p. induction c as [argv|c IH q e mode fd|l IHl r IHr|l IHl r IHr|c IH]; intros p Hc He Hp; cbn [runcmd erase plumb].
  - destruct argv as [|[q e] argv]; [done|]. cbn [cmd_ok cmd_ended] in Hc, He.
    assert ((fun qe => text_at (length L) buf (fst qe)) <$> (q, e) :: argv = word_of <$> (q, e) :: argv) as ->.
    { apply list_fmap_ext. intros i qe Hi. apply text_word; [exact (Forall_lookup_1 _ _ _ _ Hc Hi)|done|exact (Forall_lookup_1 _ _ _ _ He Hi)]. }
    assert (text_at (length L) buf q = word_of (q, e)) as ->.
    { apply Forall_cons_1 in Hc as [Hc _]. apply Forall_cons_1 in He as [He _]. by apply (text_word L buf (q, e)). }
    cbn [fmap list_fmap]. cbn [grow mbind prog_bind bind_prog sys]. destruct (runnable _); [done|].
    etransitivity; [eapply (grow_emits 2 _ _ tt), (fprintf_emits 2 "exec " " failed"); repeat constructor; done|]. done.
  - destruct Hc as [Hc [Ht (k & Hm & Hfd)]], He as [He1 He2]. cbn [r_mode r_fd r_file r_efile] in *. subst mode fd.
    assert (kind_of (kind_mode k) (kind_fd k) = k) as -> by by destruct k.
    assert (text_at (length L) buf q = word_of (q, e)) as -> by by apply (text_word L buf (q, e)).
    destruct (redir_fds k (FileObj (word_of (q, e)) (kind_mode k)) p Hp) as (Hal & o & Ho & Hi).
    rewrite <- (Z2Nat.id (kind_fd k)) at 1 by by destruct k. rewrite (close_fd _ o) by done.
    cbn [grow mbind prog_bind bind_prog sys]. destruct (openable _ _).
    + unfold install. cbn [with_fds sp_ofile]. rewrite Hal. cbn [mbind option_bind]. rewrite Z2Nat.id by by destruct k.
      rewrite (proj2 (Z.ltb_ge (kind_fd k) 0)) by by destruct k. change (bind_prog ?f ?m) with (m ≫= f).
      rewrite grow_noret by apply runcmd_noret. unfold with_fds at 1. cbn [sp_at sp_in with_fds sp_ofile]. rewrite Hi.
      apply IH; [done..|]. apply (std_redirected _ _ p); [destruct k; cbn; lia|done].
    + change (bind_prog ?f ?m) with (m ≫= f). cbn [Z.ltb Z.compare].
      etransitivity; [eapply (grow_emits 2 _ _ tt), (fprintf_emits 2 "open " " failed"); repeat constructor; done|]. done.
  - destruct Hc as [Hl Hr], He as [El Er], Hp as (a & b & c & E). cbn [sys mbind prog_bind bind_prog grow].
    unfold install. rewrite E. cbn [fd_alloc app fmap option_fmap option_map mbind option_bind with_fds sp_ofile insert list_insert replicate].
    rewrite grow_fork_child by (intros ? ? ? ?; apply runcmd_noret). f_equal.
    { rewrite <- IHl by (done || (apply std_redirected; [lia|by exists a, b, c])).
      unfold redirected. cbn [sp_ofile next_at]. rewrite E. reflexivity. }
    rewrite grow_fork_child by (intros ? ? ? ?; apply runcmd_noret). f_equal.
    rewrite <- IHr by (done || (apply std_redirected; [lia|by exists a, b, c])).
    unfold redirected. cbn [sp_ofile next_at]. rewrite E. reflexivity.
  - destruct Hc as [Hl Hr], He as [El Er]. rewrite grow_fork_child by apply runcmd_noret. rewrite IHl by done. f_equal.
    cbn [sys mbind prog_bind bind_prog grow]. f_equal. change (bind_prog ?f ?m) with (m ≫= f).
    rewrite grow_noret by apply runcmd_noret. by apply IHr.
  - rewrite grow_fork_child by apply runcmd_noret. by rewrite IH.
Qed.
End one_command.

(** *** A line, and a session *)

Definition line_tree (s : ptr) (p : sproc) : ptree :=
  match parsecmd s with
  | Ok (c, _) => plumb (erase c) p
  | _ => TExit 1
  end.

Lemma grow_run_line s p : Forall (fun c => c <> 0) s -> std p -> grow (run_line s) p = line_tree s p.
Proof using pid_pos.
  intros Hs Hp. unfold run_line, line_tree. pose proof (parsecmd_ends s) as Hf.
  destruct (parsecmd s) as [[c buf]|msg|] eqn:E; [| |done].
  - destruct (parsecmd_words s Hs c buf E) as (Hc & Hk & He). by apply run_plumb.
  - assert (grow (sh_panic msg : prog unit) p = TExit 1) as Hpan.
    { unfold sh_panic. erewrite (grow_emits 2 _ _ tt); [done|]. apply (fprintf_emits 2 "" ""). constructor. }
    destruct (parseline _ _) as [[c rest]| |]; [|done..].
    erewrite (grow_emits 2 _ _ tt); [done|]. apply (fprintf_emits 2 "leftovers: " ""). repeat constructor; done.
Qed.

(** A line as gets() takes it: no NUL or end of line inside, and it fits the buffer. *)
Definition line_ok (l : list Z) : Prop := Forall (fun c => c <> 0 /\ c <> nl /\ c <> 13) l /\ (length l < 99)%nat.

Definition rest_in (rest : list Z) (p : sproc) : sproc := mkSproc (sp_ofile p) (sp_at p) rest.

Lemma grow_assoc {A B C} (m : prog A) (f : A -> prog B) (g : B -> prog C) p :
  grow ((m ≫= f) ≫= g) p = grow (m ≫= (fun a => f a ≫= g)) p.
Proof.
  revert p. induction m as [a|X c k IH|s| |]; intros p; [done| |done..].
  destruct c; cbn [grow mbind prog_bind bind_prog] in *; repeat case_match; (try done); repeat first [apply IH | f_equal].
Qed.

(** One character of gets(). *)
Lemma grow_gets_body {A} got c rest (f : list Z + list Z -> prog A) p : (length got < 99)%nat -> sp_in p = c :: rest ->
  grow (gets_body 100 got ≫= f) p =
  grow (f (if (c =? nl) || (c =? 13) then inr (got ++ [c]) else inl (got ++ [c]))) (rest_in rest p).
Proof.
  intros Hg Hin. unfold gets_body. rewrite (proj2 (Z.ltb_lt _ _)) by lia. cbn [sys mbind prog_bind bind_prog grow].
  rewrite Hin. change (Z.to_nat 1) with 1%nat. cbn [take drop]. by destruct (_ || _).
Qed.

Lemma grow_gets {A} fuel got l rest (f : list Z -> prog A) p : Forall (fun c => c <> 0 /\ c <> nl /\ c <> 13) l ->
  (length got + length l < 99)%nat -> (length l < fuel)%nat -> sp_in p = l ++ nl :: rest ->
  grow (ploop fuel (gets_body 100) got ≫= f) p = grow (f (got ++ l ++ [nl])) (rest_in rest p).
Proof.
  intros Hl. revert fuel got p. induction Hl as [|c l (H0 & Hn & Hr) Hl IH]; intros fuel got p Hg Hf Hin;
    (destruct fuel as [|fuel]; [lia|]); cbn [ploop length app] in *; rewrite grow_assoc; erewrite grow_gets_body; [|lia|exact Hin| |lia|exact Hin].
  - reflexivity.
  - rewrite !(proj2 (Z.eqb_neq _ _)) by done. cbn [orb].
    rewrite IH; [by rewrite <- app_assoc|rewrite length_app; cbn; lia|lia|done].
Qed.

(** At the end of the input. *)
Lemma grow_gets_end {A} (f : list Z -> prog A) p : sp_in p = [] -> grow (gets_ 100 ≫= f) p = grow (f []) p.
Proof.
  intros Hin. assert (forall g : list Z + list Z -> prog A, grow (gets_body 100 [] ≫= g) p = grow (g (inr [])) p) as Hb.
  { intros g. destruct p as [fds at_ inp]. cbn in Hin. subst inp. reflexivity. }
  unfold gets_. cbn [ploop]. by rewrite grow_assoc, Hb.
Qed.

Fixpoint session (ls : list (list Z)) (p : sproc) : ptree :=
  match ls with
  | [] => TExit 0
  | l :: ls' =>
      let p := rest_in (drop (S (length l)) (sp_in p)) p in
      if is_cd (l ++ [nl]) then TChdir (drop 3 l) (session ls' p)
      else TFork (line_tree (l ++ [nl]) (next_at 0 p)) (TWait (session ls' (next_at 1 p)))
  end.

Definition typed (ls : list (list Z)) : list Z := concat ((fun l => l ++ [nl]) <$> ls).

Lemma cstr_line l : line_ok l -> cstr (l ++ [nl]) = l ++ [nl].
Proof. intros [H _]. induction H as [|c l [H0 _] _ IH]; [done|]. cbn. rewrite (proj2 (Z.eqb_neq c 0)) by done. by f_equal. Qed.

Lemma run_line_noret s : noret (run_line s).
Proof.
  unfold run_line. destruct (parsecmd s) as [[c buf]|msg|]; [apply runcmd_noret| |done].
  apply noret_bind_r. intros _. by apply noret_bind_r.
Qed.

Lemma line_nonzero l : line_ok l -> Forall (fun c => c <> 0) (l ++ [nl]).
Proof. intros [H _]. apply Forall_app. split; [eapply Forall_impl; [exact H|naive_solver]|by repeat constructor]. Qed.

Lemma line_head l : line_ok l -> deref (l ++ [nl]) <> 0.
Proof. intros [H _]. destruct H as [|c l [H _] _]; done. Qed.

(** One turn of the shell's loop. *)
Lemma grow_sh_body {A} l rest (f : unit + unit -> prog A) p : line_ok l -> std p -> sp_in p = l ++ nl :: rest ->
  grow (sh_body tt ≫= f) p =
  if is_cd (l ++ [nl]) then TChdir (drop 3 l) (grow (f (inl tt)) (rest_in rest p))
  else TFork (line_tree (l ++ [nl]) (next_at 0 (rest_in rest p))) (TWait (grow (f (inl tt)) (next_at 1 (rest_in rest p)))).
Proof using pid_pos.
  intros Hl Hp Hin. unfold sh_body, getcmd. rewrite grow_assoc. cbn [sys mbind prog_bind bind_prog grow].
  change (bind_prog ?f ?m) with (m ≫= f). rewrite grow_assoc. unfold gets_ at 1. destruct (id Hl) as [Hc Hlen].
  rewrite (grow_gets _ [] l rest) by (done || cbn; lia). cbn [app].
  rewrite (proj2 (Z.eqb_neq _ _)) by by apply line_head. cbn [mbind prog_bind bind_prog]. rewrite cstr_line by done.
  destruct (is_cd (l ++ [nl])).
  - rewrite length_app. cbn [length]. replace (length l + 1 - 1)%nat with (length l) by lia. rewrite take_app_length.
    cbn [sys mbind prog_bind bind_prog grow Z.ltb Z.compare]. done.
  - change (bind_prog ?f ?m) with (m ≫= f). rewrite grow_assoc.
    rewrite grow_fork1. destruct pid_tests as [-> _]. cbn [Z.eqb]. f_equal.
    rewrite !grow_noret by (try apply noret_bind_l; apply run_line_noret).
    apply grow_run_line; [by apply line_nonzero|done].
Qed.

Lemma grow_sh_end {A} (f : unit + unit -> prog A) p : sp_in p = [] -> grow (sh_body tt ≫= f) p = grow (f (inr tt)) p.
Proof.
  intros Hin. unfold sh_body, getcmd. rewrite grow_assoc. cbn [sys mbind prog_bind bind_prog grow].
  change (bind_prog ?f ?m) with (m ≫= f). rewrite grow_assoc. by rewrite grow_gets_end.
Qed.

Lemma grow_session {A} fuel ls (f : unit -> prog A) p : Forall line_ok ls -> std p -> sp_in p = typed ls -> (length ls < fuel)%nat ->
  (forall p', grow (f tt) p' = TExit 0) -> grow (ploop fuel sh_body tt ≫= f) p = session ls p.
Proof using pid_pos.
  intros Hls Hp Hin Hf Hend. revert fuel p Hp Hin Hf. induction Hls as [|l ls Hl Hls IH]; intros fuel p Hp Hin Hf; (destruct fuel as [|fuel]; [lia|]);
    cbn [ploop length] in *; rewrite grow_assoc.
  - rewrite grow_sh_end by done. apply Hend.
  - change (typed (l :: ls)) with ((l ++ [nl]) ++ typed ls) in Hin. rewrite <- app_assoc in Hin.
    rewrite (grow_sh_body l (typed ls)) by done. cbn [session]. rewrite Hin.
    assert (drop (S (length l)) (l ++ [nl] ++ typed ls) = typed ls) as ->.
    { rewrite app_assoc. apply drop_app_length'. rewrite length_app. cbn. lia. }
    destruct (is_cd _).
    + f_equal. apply IH; (done || lia).
    + do 2 f_equal. apply IH; (done || lia).
Qed.

(** With three descriptors open, the shell closes the fourth again. *)
Lemma grow_sh_open {A} fuel (f : unit -> prog A) p : std p -> grow (ploop (S fuel) sh_open tt ≫= f) p = grow (f tt) p.
Proof.
  intros (a & b & c & E). destruct p as [fds at_ inp]. cbn in E. subst fds. cbn [ploop]. rewrite grow_assoc.
  unfold sh_open. cbn [sys mbind prog_bind bind_prog grow]. by destruct (openable _ _).
Qed.

(** *** Descriptors that are left open *)

(** The programs of a tree, with their descriptors. *)
Fixpoint execs (t : ptree) : list (list (list Z) * list (option obj)) :=
  match t with
  | TExec _ argv ofile => [(argv, ofile)]
  | TExit _ => []
  | TFork c p => execs c ++ execs p
  | TWait t => execs t
  | TChdir _ t => execs t
  | TBroken => []
  end.

Definition three (e : list (list Z) * list (option obj)) : Prop := exists a b c, snd e = [Some a; Some b; Some c] ++ replicate 13 None.

Lemma plumb_three a p : std p -> Forall three (execs (plumb a p)).
Proof.
  revert p. induction a as [args|a IH k w|l IHl r IHr|l IHl r IHr|a IH]; intros p Hp; cbn [plumb].
  - destruct args; [constructor|]. destruct (runnable _); [|constructor]. by repeat constructor.
  - destruct (openable _ _); [|constructor]. apply IH, std_redirected; [destruct k; cbn; lia|done].
  - cbn [execs]. rewrite app_nil_r. apply Forall_app. split; [apply IHl|apply IHr]; apply std_redirected; (done || lia).
  - cbn [execs]. apply Forall_app. split; [by apply IHl|by apply IHr].
  - cbn [execs]. rewrite app_nil_r. by apply IH.
Qed.

Lemma session_three ls p : std p -> Forall three (execs (session ls p)).
Proof.
  revert p. induction ls as [|l ls IH]; intros p Hp; cbn [session]; [constructor|].
  destruct (is_cd _); cbn [execs]; [by apply IH|]. apply Forall_app. split; [|by apply IH].
  unfold line_tree. destruct (parsecmd _) as [[c buf]| |]; [by apply plumb_three|constructor..].
Qed.
End tree.

Lemma paren_nonzero s : Forall (fun c => c <> 0) s -> Forall (fun c => c <> 0) (paren s).
Proof. intros H. apply Forall_app. split; [by repeat constructor|]. apply Forall_app. split; [done|by repeat constructor]. Qed.

(** The text of a command has no NUL in it. *)
Lemma pr_nonzero a m : awf a -> Forall (fun c => c <> 0) (pr a m).
Proof.
  assert (forall w, word_ok w -> Forall (fun c => c <> 0) w) as Hw.
  { intros w [_ H]. eapply Forall_impl; [exact H|]. by intros c [? _]. }
  revert m. induction a as [args|a IH k w|l IHl r IHr|l IHl r IHr|a IH]; intros m Ha; cbn [pr awf] in *.
  - destruct Ha as [Ha _]. unfold pr_args. induction Ha as [|w ws H _ IH]; [constructor|]. cbn.
    apply Forall_app. split; [|done]. apply Forall_app. split; [auto|by repeat constructor].
  - destruct Ha as [Ha H]. apply Forall_app. split; [auto|]. unfold pr_redir. cbn [fst snd].
    apply Forall_app. split; [destruct k; by repeat constructor|]. apply Forall_app. split; [auto|by repeat constructor].
  - destruct Ha as [H1 H2]. assert (Forall (fun c => c <> 0) (pr l MExec ++ [c_bar; 32] ++ pr r MPipe)) as H.
    { apply Forall_app. split; [auto|]. apply Forall_app. split; [by repeat constructor|auto]. }
    destruct m; auto using paren_nonzero.
  - destruct Ha as [H1 H2]. assert (Forall (fun c => c <> 0) (pr l MBack ++ [c_semi; 32] ++ pr r MLine)) as H.
    { apply Forall_app. split; [auto|]. apply Forall_app. split; [by repeat constructor|auto]. }
    destruct m; auto using paren_nonzero.
  - assert (Forall (fun c => c <> 0) (pr a MBack ++ [c_amp; 32])) as H.
    { apply Forall_app. split; [auto|by repeat constructor]. }
    destruct m; auto using paren_nonzero.
Qed.


(** echo hi > f, then cd d, then cat f | wc. *)
Definition session_lines : list (list Z) := [str "echo hi > f"; str "cd d"; str "cat f | wc"].
Definition session_start : sproc := mkSproc ([Some (Std 0); Some (Std 1); Some (Std 2)] ++ replicate 13 None) [] (typed session_lines).

