(* ===== verification/Utests.v ===== *)
(** * Utests: three of the test programs (user/forktest.c, stressfs.c, grind.c)

    The programs as trees of system calls; a loop without end takes fuel.  grind draws
    its calls from a random number generator whose arithmetic avoids overflow: the
    theorem equates it with the formula of its comment.  forktest passes on every
    kernel whose process table is smaller than its bound, and gives every child back. *)

From Stdlib Require Import ZArith Lia Ascii String.
From stdpp Require Import base gmap list strings.
From S2P Require Import Prelude Bytes State Mem Printf Fcntl Usys.

(** ** forktest.c *)

Definition FT_N : Z := 1000.

Definition print_ (s : list Z) : prog unit := sys (Write 1 s);; Done tt.

(** for(n=0; n<N; n++){ ... }: the number of children. *)
Definition forktest_fork (n : Z) : prog (Z + Z) :=
  if n <? FT_N then
    pid ← sys Fork;
    if pid <? 0 then Done (inr n) else
    if pid =? 0 then exit_ 0 else Done (inl (n + 1))
  else Done (inr n).

(** for(; n > 0; n--){ ... } *)
Definition forktest_wait (n : Z) : prog (Z + unit) :=
  if 0 <? n then
    r ← sys Wait;
    if fst r <? 0 then print_ (str "wait stopped early" ++ [nl]);; exit_ 1 else Done (inl (n - 1))
  else Done (inr tt).

Definition forktest_rest : prog unit :=
  n ← ploop (S (Z.to_nat FT_N)) forktest_fork 0;
  if n =? FT_N then print_ (str "fork claimed to work N times!" ++ [nl]);; exit_ 1 else
  ploop (S (Z.to_nat n)) forktest_wait n;;
  r ← sys Wait;
  if negb (fst r =? -1) then print_ (str "wait got too many" ++ [nl]);; exit_ 1 else
  print_ (str "fork test OK" ++ [nl]).

Definition forktest : prog unit :=
  print_ (str "fork test" ++ [nl]);;
  forktest_rest.

Definition forktest_main : prog unit := forktest;; exit_ 0.

(** ** stressfs.c *)

(** for(i = 0; i < 4; i++) if(fork() > 0) break; *)
Fixpoint stress_fork (n : nat) (i : Z) : prog Z :=
  match n with
  | O => Done i
  | S n' => pid ← sys Fork; if 0 <? pid then Done i else stress_fork n' (i + 1)
  end.

Definition stress_data : list Z := replicate 512 (chr "a").

Definition stressfs_main : prog unit :=
  uprintf (str "stressfs starting" ++ [nl]) [];;
  i ← stress_fork 4 0;
  uprintf (str "write %d" ++ [nl]) [ANum i];;
  let path := str "stressfs" ++ [chr "0" + i] in
  fd ← sys (Open path (Z.lor O_CREATE O_RDWR));
  pfor (seq 0 20) (fun _ => sys (Write fd stress_data);; Done tt);;
  sys (Close fd);;
  uprintf (str "read" ++ [nl]) [];;
  fd ← sys (Open path O_RDONLY);
  pfor (seq 0 20) (fun _ => sys (Read fd 512);; Done tt);;
  sys (Close fd);;
  sys Wait;;
  exit_ 0.

(** ** grind.c: the random number generator *)

(** *ctx is an unsigned long, hi, lo and x are long; the result is the new *ctx. *)
Definition do_rand (ctx : Z) : Z :=
  let x := ctx mod 0x7ffffffe + 1 in
  let hi := x / 127773 in
  let lo := x mod 127773 in
  let x := 16807 * lo - 2836 * hi in
  let x := if x <? 0 then x + 0x7fffffff else x in
  x - 1.

(** ** grind.c: the calls *)

Record gst : Type := mkGst { g_fd : Z; g_buf : list Z; g_rand : Z; g_iters : Z }.

Definition CR : Z := Z.lor O_CREATE O_RDWR.

Definition gfail (s : string) : prog unit := say 1 s;; exit_ 1.

(** close(open(path, O_CREATE|O_RDWR)) *)
Definition touch (path : string) : prog unit := fd ← sys (Open (str path) CR); sys (Close fd);; Done tt.
Definition gunlink (path : string) : prog unit := sys (Unlink (str path));; Done tt.
Definition gmkdir (path : string) : prog unit := sys (Mkdir (str path));; Done tt.
Definition glink (old new : string) : prog unit := sys (Link (str old) (str new));; Done tt.

(** int pid = fork(); if(pid == 0){ child; exit(0); } else if(pid < 0){ ... exit(1); } *)
Definition gfork (child : prog unit) : prog Z :=
  pid ← sys Fork;
  (if pid =? 0 then child;; exit_ 0 else if pid <? 0 then gfail "grind: fork failed" else Done tt);;
  Done pid.

Definition gchdir (path msg : string) : prog unit :=
  r ← sys (Chdir (str path));
  if negb (r =? 0) then gfail msg else Done tt.

(** what == 19 *)
Definition go_pipe : prog unit :=
  r ← sys Pipe;
  match r with
  | None => gfail "grind: pipe failed"
  | Some (fds0, fds1) =>
      gfork (sys Fork;;
             sys Fork;;
             w ← sys (Write fds1 (str "x"));
             (if negb (w =? 1) then say 1 "grind: pipe write failed" else Done tt);;
             c ← sys (Read fds0 1);
             (if negb (length (default [] c) =? 1)%nat then say 1 "grind: pipe read failed" else Done tt));;
      sys (Close fds0);;
      sys (Close fds1);;
      sys Wait;;
      Done tt
  end.

(** what == 21 *)
Definition go_create : prog unit :=
  gunlink "c";;
  fd1 ← sys (Open (str "c") CR);
  (if fd1 <? 0 then gfail "grind: create c failed" else Done tt);;
  w ← sys (Write fd1 (str "x"));
  (if negb (w =? 1) then gfail "grind: write c failed" else Done tt);;
  s ← sys (Fstat fd1);
  match s with
  | None => gfail "grind: fstat failed"
  | Some st =>
      (if negb (us_size st =? 1) then
         uprintf (str "grind: fstat reports wrong size %d" ++ [nl]) [ANum (i32 (us_size st))];; exit_ 1 else Done tt);;
      (if 200 <? us_ino st then
         uprintf (str "grind: fstat reports crazy i-number %d" ++ [nl]) [ANum (us_ino st)];; exit_ 1 else Done tt);;
      sys (Close fd1);;
      gunlink "c"
  end.

(** if(dup(fd) != want) { fprintf(2, "grind: dup failed\n"); exit(status); } *)
Definition dup_to (fd want status : Z) : prog unit :=
  d ← sys (Dup fd);
  if negb (d =? want) then say 2 "grind: dup failed";; exit_ status else Done tt.

(** What one read() put in a byte that was 0. *)
Definition got (r : option (list Z)) : Z := nth 0 (default [] r) 0.

(** what == 22: echo hi | cat *)
Definition go_pipeline : prog unit :=
  aa ← sys Pipe;
  bb ← (match aa with None => say 2 "grind: pipe failed";; exit_ 1 | Some _ => sys Pipe end);
  match aa, bb with
  | Some (aa0, aa1), Some (bb0, bb1) =>
      pid1 ← sys Fork;
      (if pid1 =? 0 then
         sys (Close bb0);; sys (Close bb1);; sys (Close aa0);; sys (Close 1);;
         dup_to aa1 1 1;;
         sys (Close aa1);;
         sys (Exec (str "grindir/../echo") [str "echo"; str "hi"]);;
         say 2 "grind: echo: not found";; exit_ 2
       else if pid1 <? 0 then say 2 "grind: fork failed";; exit_ 3 else Done tt);;
      pid2 ← sys Fork;
      (if pid2 =? 0 then
         sys (Close aa1);; sys (Close bb0);; sys (Close 0);;
         dup_to aa0 0 4;;
         sys (Close aa0);; sys (Close 1);;
         dup_to bb1 1 5;;
         sys (Close bb1);;
         sys (Exec (str "/cat") [str "cat"]);;
         say 2 "grind: cat: not found";; exit_ 6
       else if pid2 <? 0 then say 2 "grind: fork failed";; exit_ 7 else Done tt);;
      sys (Close aa0);; sys (Close aa1);; sys (Close bb1);;
      b0 ← sys (Read bb0 1);
      b1 ← sys (Read bb0 1);
      b2 ← sys (Read bb0 1);
      sys (Close bb0);;
      r1 ← sys Wait;
      r2 ← sys Wait;
      let buf := cstr [got b0; got b1; got b2; 0] in
      if negb (snd r1 =? 0) || negb (snd r2 =? 0) || negb (strcmp buf (str "hi" ++ [nl]) =? 0) then
        uprintf (str "grind: exec pipeline failed %d %d " ++ [34] ++ str "%s" ++ [34; nl]) [ANum (snd r1); ANum (snd r2); AStr (Some buf)];;
        exit_ 1
      else Done tt
  | _, _ => say 2 "grind: pipe failed";; exit_ 1
  end.

(** The call drawn by [what]; close(fd), fd = open() and read() change the state. *)
Definition go_call (break0 : Z) (what : Z) (g : gst) : prog gst :=
  let keep (m : prog unit) := m;; Done g in
  let reopen path := sys (Close (g_fd g));; fd ← sys (Open (str path) CR); Done (mkGst fd (g_buf g) (g_rand g) (g_iters g)) in
  if what =? 1 then keep (touch "grindir/../a")
  else if what =? 2 then keep (touch "grindir/../grindir/../b")
  else if what =? 3 then keep (gunlink "grindir/../a")
  else if what =? 4 then keep (gchdir "grindir" "grind: chdir grindir failed";; gunlink "../b";; sys (Chdir (str "/"));; Done tt)
  else if what =? 5 then reopen "/grindir/../a"%string
  else if what =? 6 then reopen "/./grindir/./../b"%string
  else if what =? 7 then keep (sys (Write (g_fd g) (g_buf g));; Done tt)
  else if what =? 8 then
    r ← sys (Read (g_fd g) 999);
    Done (mkGst (g_fd g) (default [] r ++ drop (length (default [] r)) (g_buf g)) (g_rand g) (g_iters g))
  else if what =? 9 then keep (gmkdir "grindir/../a";; touch "a/../a/./a";; gunlink "a/a")
  else if what =? 10 then keep (gmkdir "/../b";; touch "grindir/../b/b";; gunlink "b/b")
  else if what =? 11 then keep (gunlink "b";; glink "../grindir/./../a" "../b")
  else if what =? 12 then keep (gunlink "../grindir/../a";; glink ".././b" "/grindir/../a")
  else if what =? 13 then keep (gfork (Done tt);; sys Wait;; Done tt)
  else if what =? 14 then keep (gfork (sys Fork;; sys Fork;; Done tt);; sys Wait;; Done tt)
  else if what =? 15 then keep (sys (Sbrk 6011);; Done tt)
  else if what =? 16 then
    keep (b ← sys (Sbrk 0); if u64 break0 <? u64 b then b ← sys (Sbrk 0); sys (Sbrk (i32 (- (b - break0))));; Done tt else Done tt)
  else if what =? 17 then
    keep (pid ← gfork (touch "a"); gchdir "../grindir/.." "grind: chdir failed";; sys (Kill pid);; sys Wait;; Done tt)
  else if what =? 18 then keep (gfork (pid ← sys Getpid; sys (Kill pid);; Done tt);; sys Wait;; Done tt)
  else if what =? 19 then keep go_pipe
  else if what =? 20 then
    keep (gfork (gunlink "a";; gmkdir "a";; sys (Chdir (str "a"));; gunlink "../a";; sys (Open (str "x") CR);; gunlink "x");; sys Wait;; Done tt)
  else if what =? 21 then keep go_create
  else if what =? 22 then keep go_pipeline
  else Done g.

Definition go_body (which_child break0 : Z) (g : gst) : prog (gst + unit) :=
  let iters := u64 (g_iters g + 1) in
  (if iters mod 500 =? 0 then sys (Write 1 (str (if truth which_child then "B" else "A")));; Done tt else Done tt);;
  let r := do_rand (g_rand g) in
  g ← go_call break0 (r mod 23) (mkGst (g_fd g) (g_buf g) r iters);
  Done (inl g).

Definition go (fuel : nat) (which_child rand_next : Z) : prog unit :=
  break0 ← sys (Sbrk 0);
  gmkdir "grindir";;
  gchdir "grindir" "grind: chdir grindir failed";;
  sys (Chdir (str "/"));;
  ploop fuel (go_body which_child break0) (mkGst (-1) (replicate 999 0) rand_next 0).

Definition iter (fuel : nat) (rand_next : Z) : prog unit :=
  gunlink "a";;
  gunlink "b";;
  pid1 ← sys Fork;
  (if pid1 <? 0 then gfail "grind: fork failed" else Done tt);;
  (if pid1 =? 0 then go fuel 0 (Z.lxor rand_next 31);; exit_ 0 else Done tt);;
  pid2 ← sys Fork;
  (if pid2 <? 0 then gfail "grind: fork failed" else Done tt);;
  (if pid2 =? 0 then go fuel 1 (Z.lxor rand_next 7177);; exit_ 0 else Done tt);;
  r1 ← sys Wait;
  let st1 := if fst r1 <? 0 then -1 else snd r1 in
  (if negb (st1 =? 0) then sys (Kill pid1);; sys (Kill pid2);; Done tt else Done tt);;
  sys Wait;;
  exit_ 0.

Definition grind_body (fuel : nat) (rand_next : Z) : prog (Z + unit) :=
  pid ← sys Fork;
  (if pid =? 0 then iter fuel rand_next;; exit_ 0 else Done tt);;
  (if 0 <? pid then sys Wait;; Done tt else Done tt);;
  sys (Sleep 20);;
  Done (inl (u64 (rand_next + 1))).

Definition grind_main (fuel : nat) : prog unit := ploop fuel (grind_body fuel) 1.

(** ** forktest against a bounded process table *)

(** A kernel whose processes have room for [room] children that have not been waited for.
    The children of forktest exit at once, so wait() returns while one is left. *)
Class Processes {W} (h : kernel W) (room : Z) : Type := {
  kids : W -> Z;
  said : W -> list Z;
  fork_more w : 0 <= kids w < room -> exists pid w', h Z Fork w = (pid, w') /\ 0 < pid /\ kids w' = kids w + 1 /\ said w' = said w;
  fork_full w : room <= kids w -> exists w', h Z Fork w = (-1, w') /\ kids w' = kids w /\ said w' = said w;
  wait_some w : 0 < kids w -> exists pid s w', h _ Wait w = ((pid, s), w') /\ 0 < pid /\ kids w' = kids w - 1 /\ said w' = said w;
  wait_none w : kids w = 0 -> exists s w', h _ Wait w = ((-1, s), w') /\ kids w' = 0 /\ said w' = said w;
  write_said bs w : exists n w', h Z (Write 1 bs) w = (n, w') /\ kids w' = kids w /\ said w' = said w ++ bs }.

Section forktest.
Context {W : Type} (h : kernel W) (room : Z) {HP : Processes h room}.

Lemma print_run {A} (f : unit -> prog A) s w : exists w', run h (print_ s ≫= f) w = run h (f tt) w' /\ kids w' = kids w /\ said w' = said w ++ s.
Proof.
  destruct (write_said s w) as (n & w' & E & Hk & Hs). exists w'. split; [|done].
  unfold print_. rewrite !run_bind, run_sys, E. reflexivity.
Qed.

Lemma fork_loop fuel n w : kids w = n -> 0 <= n <= Z.min room FT_N -> FT_N - n < Z.of_nat fuel ->
  exists w', run h (ploop fuel forktest_fork n) w = (FDone (Z.min room FT_N), w') /\ kids w' = Z.min room FT_N /\ said w' = said w.
Proof.
  revert n w. induction fuel as [|fuel IH]; intros n w Hk Hn Hf; [lia|]. rewrite run_ploop. unfold forktest_fork at 1.
  destruct (Z.ltb_spec n FT_N) as [Hlt|Hge].
  - rewrite run_bind, run_sys. destruct (Z.lt_ge_cases n room) as [Hr|Hr].
    + destruct (fork_more w) as (pid & w' & E & Hp & Hk' & Hs); [lia|]. rewrite E. cbn [fin_bind fst snd].
      rewrite (proj2 (Z.ltb_ge _ _)), (proj2 (Z.eqb_neq _ _)) by lia. cbn [run fin_bind].
      destruct (IH (n + 1) w') as (w2 & R & Hk2 & Hs2); try lia. exists w2. rewrite Hs2, Hs. done.
    + destruct (fork_full w) as (w' & E & Hk' & Hs); [lia|]. rewrite E. cbn. exists w'.
      rewrite Z.min_l by lia. split_and!; [|lia|done]. by rewrite (Z.le_antisymm n room) by lia.
  - cbn. exists w. rewrite (Z.le_antisymm n (Z.min room FT_N)) by lia. split_and!; [done|lia|done].
Qed.

Lemma wait_loop fuel n w : kids w = n -> 0 <= n < Z.of_nat fuel ->
  exists w', run h (ploop fuel forktest_wait n) w = (FDone tt, w') /\ kids w' = 0 /\ said w' = said w.
Proof.
  revert n w. induction fuel as [|fuel IH]; intros n w Hk Hn; [lia|]. rewrite run_ploop. unfold forktest_wait at 1.
  destruct (Z.ltb_spec 0 n) as [Hlt|Hge]; [|exists w; split_and!; [done|lia|done]].
  destruct (wait_some w) as (pid & s & w' & E & Hp & Hk' & Hs); [lia|].
  rewrite run_bind, run_sys, E. cbn [fin_bind fst snd]. rewrite (proj2 (Z.ltb_ge _ _)) by lia. cbn [run fin_bind].
  destruct (IH (n - 1) w') as (w2 & R & Hk2 & Hs2); try lia. exists w2. by rewrite Hs2, Hs.
Qed.

Lemma forktest_run w : 0 <= room -> kids w = 0 ->
  exists w', run h forktest_main w = (FExited (if room <? FT_N then 0 else 1), w') /\
    said w' = said w ++ str "fork test" ++ [nl] ++
      (if room <? FT_N then str "fork test OK" else str "fork claimed to work N times!") ++ [nl] /\
    kids w' = if room <? FT_N then 0 else FT_N.
Proof.
  intros Hr Hk. unfold forktest_main, forktest. rewrite run_bind.
  destruct (print_run (fun _ => forktest_rest) (str "fork test" ++ [nl]) w) as (w1 & -> & Hk1 & Hs1). unfold forktest_rest.
  rewrite run_bind. destruct (fork_loop (S (Z.to_nat FT_N)) 0 w1) as (w2 & -> & Hk2 & Hs2); [lia|unfold FT_N; lia..|].
  cbn [fin_bind]. destruct (Z.ltb_spec room FT_N) as [Hlt|Hge].
  - rewrite Z.min_l in * by lia. rewrite (proj2 (Z.eqb_neq _ _)) by lia.
    rewrite run_bind. destruct (wait_loop (S (Z.to_nat room)) room w2 Hk2) as (w3 & -> & Hk3 & Hs3); [lia|]. cbn [fin_bind].
    destruct (wait_none w3 Hk3) as (s & w4 & E & Hk4 & Hs4). rewrite run_bind, run_sys, E. cbn [fin_bind fst snd].
    destruct (write_said (str "fork test OK" ++ [nl]) w4) as (n & w5 & E5 & Hk5 & Hs5).
    exists w5. cbn -[str]. rewrite E5. split_and!; [done| |lia]. by rewrite Hs5, Hs4, Hs3, Hs2, Hs1, <- !app_assoc.
  - rewrite Z.min_r, Z.eqb_refl in * by lia.
    destruct (print_run (fun _ => exit_ 1 : prog unit) (str "fork claimed to work N times!" ++ [nl]) w2) as (w3 & -> & Hk3 & Hs3).
    exists w3. split_and!; [done| |lia]. by rewrite Hs3, Hs2, Hs1, <- !app_assoc.
Qed.
End forktest.

(** The simplest such kernel: a count of children, and what was printed. *)
Definition ptable (room : Z) : kernel (Z * list Z) := fun X c w =>
  match c in call X return X * (Z * list Z) with
  | Fork => if fst w <? room then (fst w + 3, (fst w + 1, snd w)) else (-1, w)
  | Wait => if 0 <? fst w then ((fst w + 2, 0), (fst w - 1, snd w)) else ((-1, 0), (0, snd w))
  | Write _ bs => (Z.of_nat (length bs), (fst w, snd w ++ bs))
  | Pipe => (None, w)
  | Read _ _ => (None, w)
  | Fstat _ => (None, w)
  | Close _ | Kill _ | Exec _ _ | Open _ _ | Mknod _ _ _ | Unlink _ | Link _ _ | Mkdir _ | Chdir _ | Dup _ | Getpid
  | Sbrk _ | Sleep _ | Uptime => (-1, w)
  end.

#[global, program] Instance ptable_processes room : Processes (ptable room) room := { kids w := fst w; said w := snd w }.
Next Obligation. intros room [n s] H. cbn in *. rewrite (proj2 (Z.ltb_lt _ _)) by lia. eexists _, _. split_and!; [done|lia|done..]. Qed.
Next Obligation. intros room [n s] H. cbn in *. rewrite (proj2 (Z.ltb_ge _ _)) by lia. by eexists. Qed.
Next Obligation. intros room [n s] H. cbn in *. rewrite (proj2 (Z.ltb_lt _ _)) by lia. eexists _, _, _. split_and!; [done|lia|done..]. Qed.
Next Obligation. intros room [n s] H. cbn in *. subst. by eexists _, _. Qed.
Next Obligation. intros room bs [n s]. by eexists _, _. Qed.

(** With the 64 processes of the kernel, three of which are init, the shell and forktest. *)
Lemma forktest_xv6 : exists w, run (ptable (NPROC - 3)) forktest_main (0, []) = (FExited 0, w) /\
  snd w = str "fork test" ++ [nl] ++ str "fork test OK" ++ [nl] /\ fst w = 0.
Proof.
  destruct (forktest_run (ptable (NPROC - 3)) (NPROC - 3) (0, [])) as (w & R & Hs & Hk); [discriminate|done|].
  exists w. rewrite R. by split_and!.
Qed.

(** ** The random numbers *)

(** 2^31 - 1, the modulus, and 7^5, the multiplier, of the comment in grind.c. *)
Definition rand_mod : Z := 2 ^ 31 - 1.
Definition rand_mul : Z := 7 ^ 5.

(** The state of the generator, moved to [1, 0x7ffffffe]. *)
Definition rand_state (ctx : Z) : Z := ctx mod (rand_mod - 1) + 1.

Lemma rand_state_range ctx : 1 <= rand_state ctx < rand_mod.
Proof. unfold rand_state, rand_mod. pose proof (Z.mod_pos_bound ctx (2 ^ 31 - 1 - 1)). lia. Qed.

Lemma rand_state_id r : 0 <= r < rand_mod - 1 -> rand_state r = r + 1.
Proof. intros H. unfold rand_state. by rewrite Z.mod_small. Qed.

(** The difference the code computes: congruent to the product, and within the range of
    one correction. *)
Lemma schrage x : 1 <= x < rand_mod ->
  let y := 16807 * (x mod 127773) - 2836 * (x / 127773) in
  y = rand_mul * x - rand_mod * (x / 127773) /\ - rand_mod < y < rand_mod /\
  0 <= 16807 * (x mod 127773) < 2 ^ 31 /\ 0 <= 2836 * (x / 127773) < 2 ^ 31 /\ y <> 0.
Proof.
  intros Hx y. unfold rand_mod, rand_mul in *.
  pose proof (Z.div_mod x 127773 ltac:(lia)) as Hd. pose proof (Z.mod_pos_bound x 127773 ltac:(lia)) as Hm.
  assert (0 <= x / 127773 <= 16807) as Hh by (split; [apply Z.div_pos; lia|apply Z.lt_succ_r, Z.div_lt_upper_bound; lia]).
  subst y. set (hi := x / 127773) in *. set (lo := x mod 127773) in *.
  lia.
Qed.

Lemma rand_corrected x : 1 <= x < rand_mod ->
  let y := 16807 * (x mod 127773) - 2836 * (x / 127773) in
  (if y <? 0 then y + rand_mod else y) = (rand_mul * x) mod rand_mod /\ 1 <= (rand_mul * x) mod rand_mod.
Proof.
  intros Hx y. destruct (schrage x Hx) as (Hy & Hr & _ & _ & H0). fold y in Hy, Hr, H0.
  assert (forall z q, 0 <= z < rand_mod -> z = rand_mul * x - rand_mod * q -> z = (rand_mul * x) mod rand_mod) as Hmod.
  { intros z q Hz Hq. apply (Z.mod_unique_pos _ _ q); lia. }
  destruct (Z.ltb_spec y 0).
  - pose proof (Hmod (y + rand_mod) (x / 127773 - 1) ltac:(lia) ltac:(lia)). lia.
  - pose proof (Hmod y (x / 127773) ltac:(lia) ltac:(lia)). lia.
Qed.

(** The multiplier has an inverse. *)
Definition rand_inv : Z := 1407677000.

Lemma rand_undo x : 0 <= x < rand_mod -> (rand_inv * ((rand_mul * x) mod rand_mod)) mod rand_mod = x.
Proof.
  intros Hx. rewrite Z.mul_mod_idemp_r, Z.mul_assoc by discriminate.
  rewrite <- Z.mul_mod_idemp_l by discriminate. change ((rand_inv * rand_mul) mod rand_mod) with 1.
  rewrite Z.mul_1_l. by apply Z.mod_small.
Qed.

(** C40 (do_rand_spec): the random number generator of grind computes what its comment
    says: on any word, the new state moved to [1, 0x7ffffffe] is 7^5 times the old one
    modulo 2^31 - 1, and every product on the way fits 31 bits.  The result lies in
    [0, 0x7ffffffd], so rand() % 23 is the number of a call and never negative.  On that range
    the generator is one to one: no state is reached from two, and a sequence of draws never
    falls into a shorter cycle than the one it started on. *)
Theorem do_rand_spec ctx :
  let x := rand_state ctx in
  (rand_state (do_rand ctx) = (rand_mul * x) mod rand_mod /\ 0 <= do_rand ctx < rand_mod - 1) /\
  (0 <= 16807 * (x mod 127773) < 2 ^ 31 /\ 0 <= 2836 * (x / 127773) < 2 ^ 31) /\
  0 <= do_rand ctx mod 23 < 23 /\
  forall ctx', 0 <= ctx < rand_mod - 1 -> 0 <= ctx' < rand_mod - 1 -> do_rand ctx = do_rand ctx' -> ctx = ctx'.
Proof.
  intros x.
  assert (forall c, do_rand c = (rand_mul * rand_state c) mod rand_mod - 1 /\ 1 <= (rand_mul * rand_state c) mod rand_mod < rand_mod) as Hr.
  { intros c. destruct (rand_corrected _ (rand_state_range c)) as [Hc H1]. split; [exact (f_equal Z.pred Hc)|].
    pose proof (Z.mod_pos_bound (rand_mul * rand_state c) rand_mod eq_refl). lia. }
  destruct (Hr ctx) as [Hd Hb]. destruct (schrage _ (rand_state_range ctx)) as (_ & _ & H1 & H2 & _). fold x in H1, H2.
  split_and!; try lia; try (apply Z.mod_pos_bound; lia).
  - rewrite rand_state_id by lia. subst x. lia.
  - intros ctx' Hc Hc' He. destruct (Hr ctx') as [Hd' _].
    pose proof (rand_undo (rand_state ctx)) as Hu. pose proof (rand_undo (rand_state ctx')) as Hu'.
    rewrite !rand_state_id in * by done. subst x.
    rewrite <- (Z.add_cancel_r _ _ 1), <- Hu, <- Hu' by lia. do 2 f_equal. lia.
Qed.

Lemma do_rand_spec_witness : do_rand 1 = 33613 /\ do_rand 2147483645 = 2147466839 /\
  rand_state (do_rand 2147483645) = (rand_mul * rand_state 2147483645) mod rand_mod.
Proof. split_and!; [reflexivity|reflexivity|]. apply (do_rand_spec 2147483645). Defined.
